(* ===== verification/_CoqProject ===== *)
-Q . S2P
Prelude.v
Ieee.v
DiagCfg.v
UdsTypes.v
UdsSend.v
Idps.v
SecAccess.v
SecAccessSpec.v
SecAccessResp.v
UdsAccess.v
UdsIndicate.v
UdsControl.v
UdsTransfer.v
UdsResp.v
UdsAnswer.v
UdsMgr.v
SmsPdu.v
DoipTypes.v
DoipVehicle.v
DoipSend.v
DoipConn.v
DoipRecv.v
DoipUdp.v
DoipSpec.v
DoipRecvSpec.v
DoipKeeps.v
DoipDiag.v
DoipRoute.v
DoipSample.v
UdsRequest.v
UdsHandler.v
Sample.v
SecAccessThms.v
UdsThms.v
UdsEventThms.v
UdsSessionThms.v
UdsTransferThms.v
IdpsThms.v
SmsThms.v
DoipThms.v
DoipRouteThms.v
OverIp.v
OverIpSpec.v
OverIpThms.v
DemTypes.v
DemEvent.v
DemSvc.v
DemDtc.v
DemInit.v
DemSpec.v
DemReport.v
DemInv.v
DemStart.v
DemSafe.v
DemCycle.v
DemRounds.v
DemClear.v
DemSample.v
DemThms.v
DaoTypes.v
DaoSql.v
DaoEntities.v
DaoDem.v
DaoSpec.v
DaoRules.v
DaoEnds.v
DaoStore.v
DaoEvents.v
DaoClear.v
DaoReports.v
DaoSnapshots.v
DaoLoad.v
DaoStack.v
DaoCalls.v
DaoSample.v
DaoThms.v
DiagBackend.v
DtcInfSpec.v
DtcAnswer.v
DtcThms.v
