(* ===== verification/Prelude.v ===== *)
(** * TelAF: a verification library for the diagnostic services and the SMS codec

    TelAF is the application framework of a telematics unit. Its services are mostly facades over
    vendor interfaces; the parts that carry logic of their own are protocol stacks and the
    diagnostic service. This library models six of them and proves what they guarantee and
    where they fail:
    - the UDS stack ([src/components/tafUDSStack]), which answers the diagnostic requests of a
      tester (ISO 14229) on behalf of the applications of the vehicle;
    - the DoIP stack ([src/components/tafDoIPStack]), which carries these requests over IP
      (ISO 13400): discovery over UDP, routing activation and diagnostic messages over TCP;
    - the diagnostic events (DEM, [src/components/tafDiagSvc/tafEventSvrImpl.cpp]), which turn
      the results of tests that applications report into the status of trouble codes (DTCs);
    - their data base ([src/components/tafDataAccessComp]), which keeps the status of events and
      DTCs and the snapshots of DTCs in tables of SQLite;
    - the backend and the DTC interface of the diagnostic service
      ([tafDiagBackend.cpp], [tafDTCInfImpl.cpp]), which let a tester read and clear DTCs;
    - the codec of SMS PDUs ([src/components/tafSMSSvc/tafSmsPdu.cpp]).

    * How the parts interact

    A tester opens a TCP connection to the DoIP stack and activates routing. Its diagnostic
    messages are acknowledged and queued to the UDS thread, where the handler of the session (in
    this repository [UdsCommunicationMgr::DiagIndicationHandler]) gets them. The UDS stack checks
    a request against the configured services, sessions, roles and security levels, and either
    answers with a negative response, or passes it to the diagnostic service, which answers later
    through [SendUDSResp]; security access (0x27) is decided by one active object per interface
    in a thread of its own, and refusals are reported to the intrusion-detection service. The
    diagnostic service keeps a status byte per event and per DTC (ISO 14229-1): a report is
    checked against operation cycles and enable conditions, debounced by counter or by time, and
    moves the status of the event, of which the status of the DTC is the combination; a tester
    reads and clears DTCs through requests that the UDS stack passes on: the backend hands an
    indication to the object that has registered for its service, the DTC interface reads the data
    base or has the events cleared, packs its response buffer and answers through the UDS stack,
    and the session of an interface decides which DTCs it shows. The status is kept in
    three tables behind the functions [taf_DataAccess_Xxx]: at start-up they are filled from the
    configuration when they are empty, and otherwise the service restores its contexts from them.
    The configuration is generated; its accessors are in the template
    [src/apps/tools/tafDiagGen/V2/templates/configuration.cpp.jinja].

    * The model

    A method is a function of type [M S A] ([Prelude]): from a state to a result and a state, or
    to a [fault]. Undefined behaviour, an abort and a wait that nobody ends are faults, so
    "does not fault" is part of every weakest precondition [wp]. Calls to the framework, to
    other threads and to the network are appended to a trace in the state; what they answer is
    a function of the trace, a field of the environment ([Env], [DEnv]), so a theorem holds for
    all answers, and answers may differ from call to call. Integers are [Z] within the width of
    their C++ type, with [wrap] where the code can leave it; C++ maps are association lists in
    iteration order; pools, objects and buffers of the DoIP stack are finite maps, so a use of a
    released block is a fault. The contexts of events, DTCs and cycles are never freed, so a
    pointer to one is its position in a list; the service calls its data base through the
    interface [Store], of which [Database] says that the calls may fail, but store what they
    accept and keep the data base sound, [Restored] what they return at start-up, [Reliable] that
    they succeed. The component [tafDataAccessComp] is such a [Store] over SQLite, which is code
    outside the repository and the interface [Sqlite]: [SqliteLaws] states the documented meaning
    of the statements that the component prepares, where any of them may fail and then changes
    nothing, and [SteadyReads] that reading does not fail.

    * Files

    [Prelude] monad, faults, wrap-around, ordered maps, buffers, tactics. [Ieee] the floating
    point of the interval computations.

    UDS. [DiagCfg] accessors of the configuration. [UdsTypes] constants, the members of
    [UdsCommunicationMgr] ([Mgr]) and of the security-access object. [UdsSend] sending, negative
    responses, timers' reports. [UdsAccess] checks of service, session, role and security.
    [UdsIndicate], [UdsControl], [UdsTransfer] one definition per [IndicateXxxReq]. [UdsResp]
    [SendUDSResp] and its builders. [UdsMgr] the handlers of messages, timeouts and indications, and
    the timer thread. [SecAccess] the state machine of [tafSecurityAccess.cpp]. [Idps]
    [tafIDPS.cpp]. Contracts of these components: [SecAccessSpec], [SecAccessResp], [UdsRequest]
    (every request check answers, passes on or suppresses), [UdsAnswer] (every builder leaves a
    well-formed response; the exact bytes for 0x19 and 0x14), [UdsHandler]. [Sample] a small
    configuration.

    DoIP. [DoipTypes] constants, records, the state [Stack]. [DoipVehicle] the vehicle manager.
    [DoipSend] message formats and sending ([tafDoIPVehDiscoveryAndParser.cpp] and the sending
    functions of [tafDoIPCommunicationMgr.cpp]). [DoipConn] connections and their manager
    ([tafDoIPConnection.cpp], [tafDoIPConnectionMgr.cpp]). [DoipRecv] reception and the handlers
    of events. [DoipUdp] discovery and the exchange with the upper layer. Contracts: [DoipSpec]
    (sending, deleting a connection), [DoipRecvSpec] (headers, the loop over messages),
    [DoipKeeps] (the interface [Benign]: relations that every step keeps, and the step relation
    of the main thread; runs that touch one connection), [DoipDiag] (diagnostic
    messages), [DoipRoute] (routing activation). [DoipSample] a small entity.

    The composition. [OverIp] puts the UDS stack over any transport (the interface [Transport])
    and gives [taf_doip_DiagRequest] as the instance of the DoIP stack; the state [System] holds
    both stacks, and [turn] and [reply_turn] schedule what the main thread and the UDS thread
    queue to each other. [OverIpSpec] states what a transport promises ([Carrier]: a request of
    an accepted message succeeds and leaves the transport able to carry), proves it of the DoIP
    stack and lifts the contracts of the UDS handlers through it.

    Diagnostic events. [DemTypes] contexts and state of [taf_EventSvr]. [DemEvent] a report:
    conditions, debouncing, the status of the event and of its DTC. [DemSvc] the functions of
    the service over it: operation cycles, references, timers. [DemDtc] enable conditions, clearing,
    suppression, activation, fault detection counters. [DemInit] start-up ([EventConfiguration]).
    Contracts: [DemSpec] (the abstract meaning of a report), [DemReport] (the functions refine
    it), [DemInv] (the invariant and that every function keeps it), [DemStart] (start-up
    establishes it), [DemSafe] (the requests of clients and testers and the expiries of timers as
    one step relation), [DemCycle], [DemRounds], [DemClear] (cycles, repetition, clearing).
    [DemSample] a data base in memory and a small configuration.

    Data base. [DaoTypes] values, rows, statements, entities, the interface [Sqlite] and the state
    [Dao]. [DaoSql] prepared statements ([tafDataStatement.cpp]) and the handler of a table for any
    entity ([tafSQLite3Handler.hpp]; the interface [Entity] is the [BaseDao]). [DaoEntities] the
    three data access objects ([tafDTCEntityDAO.cpp], [tafEventEntityDAO.cpp],
    [tafSnapshotEntityDAO.cpp]). [DaoDem] [DemDataHandler] ([tafDataAccessCompImpl.cpp]). Contracts:
    [DaoSpec] (the laws of SQLite), [DaoRules] (statements, handlers, the loop over the rows of a
    query), [DaoEnds] (every operation ends), [DaoStore] (well-formed tables, DTCs), [DaoEvents],
    [DaoClear], [DaoReports], [DaoSnapshots], [DaoLoad] (events, clearing, reports, snapshots,
    filling), [DaoCalls] (sequences of calls; what the DTC interface reads and the results of
    clearing). [DaoStack] puts the diagnostic events over this data base and discharges [Database]
    and [Restored]. [DaoSample] an SQLite in memory that keeps the laws, and the service over it.

    DTC interface. [DiagBackend] the backend, the handler of session control and security access,
    and the DTC interface, over the state [Diag], which holds the diagnostic events with their data
    base and the UDS stack; [diag_indicate] is an indication of the UDS stack from its handler to
    the service. Contracts: [DtcInfSpec] (what each sub-function packs, and that it fits),
    [DtcAnswer] (which message answers; clearing by request).

    SMS. [SmsPdu] the codec.

    * What is shown

    [UdsThms] every message is handled without a fault and leaves the stack ready; reading and
    writing data identifiers obeys the access conditions; refusals carry the right code; every
    response of the service is sent. [UdsSessionThms], [UdsTransferThms], [UdsEventThms] sessions
    and timers, transfers, deregistration and timeouts. [SecAccessThms] only a valid key unlocks,
    attempts are counted and stay bounded, a delay locks the tester out, every waiting request is
    released. [IdpsThms] what the intrusion-detection service is told. [DoipThms] headers are read
    as written, diagnostic messages are acknowledged and delivered unchanged, and two ways to crash
    the stack from outside; reception stays in bounds and discarding ends. [DoipRouteThms] the
    verdict on a routing activation, that every message sent is well formed in every reachable
    state, and a tester that is registered after it has gone. [OverIpThms] a request that arrives
    from a registered tester is acknowledged, handled and its answer sent back over the same
    connection; so is the later answer of the service, unless it is longer than the blocks it is
    copied to. [DemThms] every request in every reachable state keeps the diagnostic service
    well-formed and ends without a fault; a report has the effect of its abstract meaning; repeated
    reports decide, repeated failed cycles confirm; cycles, clearing and enable conditions change
    what they name and nothing else. [DaoThms] the service over its data base stays well-formed with
    sound tables through start-ups, requests and power cycles; an accepted report reaches the
    tables; what is stored is read back, the reports by mask are exact, clearing clears what it
    names and keeps what is suppressed; and two ways in which storing or reading a snapshot fails.
    [DtcThms] a request of the services 0x19 and 0x14 is answered with exactly one message, from the
    indication to the send buffer; the bytes that report DTCs by status mask, and the overrun of the
    buffer when there are more than 1023; clearing by request. [SmsThms] packing and text round
    trips. Where the code is wrong, the theorem states what it does; the manifest lists these
    findings.

    * Bounds and fuel

    [consume_loop] runs [TAF_DOIP_BATCH_SIZE] times, as the loop of the code does.
    [discard_loop] has as much fuel as bytes to discard; [discard_terminates] shows that this is
    enough when each read gives a byte, and running out is the fault [Diverges]. The loops of
    the SMS codec have the number of septets or digits as fuel, [significant_bits] and
    [hex_digits] the width of the number. A 32-bit field that the code copies without conversion
    has the bytes of a little-endian machine ([host32]). [each_row] has one more step than the
    query has rows to come, which is enough since every step of SQLite uses up one ([step_row]
    and [each_row_ends]).

    * Not modelled

    Other interleavings of the main thread and the UDS thread than [turn] and [reply_turn]. Start-up
    of the UDS stack and registration of its handlers; the parser of the DoIP configuration file,
    the creation of sockets, TLS, the search for local addresses and the API facade
    [tafDoIPStack.cpp]; mutexes (the modelled sections run to their end); logging. Of the diagnostic
    service: the delivery of notifications to clients, memory pools, how sessions and keys are
    handed to applications ([tafSecuritySvrImpl.cpp] beyond its message handler), and the other
    services of [tafDiagSvc], which pass requests on to applications; the variants for
    [LE_CONFIG_DIAG_FEATURE_A] are modelled, the theorems of the service are for builds without it.
    Of the DTC interface, the answer to a request for fault detection counters is modelled, but the
    theorem on answers leaves it out: its conversions of floating point can be undefined. Of the
    data base: SQLite itself, opening the file, the upgrade of tables of an older version, the table
    of stored data identifiers ([tafDIDDataAccessComp]), and the collection of snapshots by the
    clients ([tafSnapshotSvc.cpp]). The service facades over the vendor interfaces, the framework,
    the tools and the sample applications are left out: they forward calls. So are the update and
    flash services and the simulation of the vehicle: what they do is mostly calls of partitions,
    archives and sockets, for which the repository has no code. *)
From Stdlib Require Export ZArith Lia Bool.
From stdpp Require Export base tactics option list sets numbers strings pretty.

#[global] Open Scope Z_scope.

(** ** Fixed-width integers

    The sources use [uint8_t], [uint16_t] and [uint32_t]; a value of such a type
    is the [Z] it denotes and every assignment that may leave the range wraps. *)
Definition wrap (w z : Z) : Z := z mod 2 ^ w.

Declare Scope telaf_scope.
Delimit Scope telaf_scope with telaf.
Notation "'u8' z" := (wrap 8 z) (at level 9, z at level 8) : telaf_scope.
Notation "'u16' z" := (wrap 16 z) (at level 9, z at level 8) : telaf_scope.
Notation "'u32' z" := (wrap 32 z) (at level 9, z at level 8) : telaf_scope.
Notation "'u64' z" := (wrap 64 z) (at level 9, z at level 8) : telaf_scope.
#[global] Open Scope telaf_scope.

Definition in_width (w z : Z) : Prop := 0 <= z < 2 ^ w.
Abbreviation is_byte := (in_width 8).

(** [byte_at k z] is the byte of weight [256 ^ k] of [z]: [(z >> 8k) & 0xff]. *)
Definition byte_at (k z : Z) : Z := Z.land (Z.shiftr z (8 * k)) 255.

(** Two bytes read big-endian: [(hi << 8) | lo], the reading of every 16-bit
    field of a received message. *)
Definition be16 (hi lo : Z) : Z := Z.lor (Z.shiftl hi 8) lo.

(** The value that an integer gets in a variable of type [int16_t]. *)
Definition s16 (z : Z) : Z := (z + 32768) mod 65536 - 32768.

Lemma s16_id (z : Z) : -32768 <= z < 32768 -> s16 z = z.
Proof. intros. unfold s16. rewrite Z.mod_small by lia. lia. Qed.

Lemma wrap_id (w z : Z) : in_width w z -> wrap w z = z.
Proof. intros H. apply Z.mod_small, H. Qed.

Lemma wrap_in_width (w z : Z) : 0 <= w -> in_width w (wrap w z).
Proof. intros H. apply Z.mod_pos_bound, Z.pow_pos_nonneg; lia. Qed.

Lemma byte_at_eq (k z : Z) : 0 <= k -> byte_at k z = z / 256 ^ k mod 256.
Proof.
  intros Hk. unfold byte_at. change 255 with (Z.ones 8).
  rewrite Z.land_ones, Z.shiftr_div_pow2 by lia.
  by replace (2 ^ (8 * k)) with (256 ^ k) by (rewrite Z.pow_mul_r by lia; done).
Qed.

Lemma byte_at_is_byte (k z : Z) : is_byte (byte_at k z).
Proof.
  unfold byte_at, in_width. change 255 with (Z.ones 8).
  rewrite Z.land_ones by lia. apply Z.mod_pos_bound. lia.
Qed.

(** On bytes the big-endian reading is the arithmetic one. *)
Lemma be16_eq (hi lo : Z) : is_byte lo -> be16 hi lo = hi * 256 + lo.
Proof.
  intros Hlo. unfold be16, in_width in *.
  rewrite <- Z.lxor_lor, <- Z.add_nocarry_lxor, Z.shiftl_mul_pow2; try lia.
  all: apply Z.bits_inj'; intros n Hn; rewrite Z.land_spec, Z.bits_0.
  all: destruct (decide (n < 8)) as [Hlt|Hge].
  all: try (rewrite Z.shiftl_spec_low by lia; done).
  all: rewrite (Z.bits_above_log2 lo n), andb_false_r; try done; try lia.
  all: destruct (decide (lo = 0)) as [->|]; [cbn; lia|].
  all: assert (Z.log2 lo < 8) by (apply Z.log2_lt_pow2; lia); lia.
Qed.

Lemma be16_width (hi lo : Z) : is_byte hi -> is_byte lo -> in_width 16 (be16 hi lo).
Proof. intros H1 H2. rewrite be16_eq by done. unfold in_width in *. lia. Qed.

(** Splitting a 16-bit value and reading it back. *)
Lemma be16_bytes (z : Z) : in_width 16 z -> be16 (byte_at 1 z) (byte_at 0 z) = z.
Proof.
  intros Hz. rewrite be16_eq by apply byte_at_is_byte.
  rewrite !byte_at_eq by lia. unfold in_width in Hz.
  rewrite Z.pow_0_r, Z.div_1_r, Z.pow_1_r.
  rewrite (Z.mod_small (z / 256)) by (split; [apply Z.div_pos|apply Z.div_lt_upper_bound]; lia).
  pose proof (Z.div_mod z 256). lia.
Qed.

(** ** Return codes of the framework ([le_result_t]) *)
Inductive le_result_t :=
  | LE_OK | LE_NOT_FOUND | LE_OUT_OF_RANGE | LE_NO_MEMORY | LE_FAULT | LE_TIMEOUT
  | LE_OVERFLOW | LE_BAD_PARAMETER | LE_DUPLICATE | LE_COMM_ERROR | LE_UNSUPPORTED
  | LE_FORMAT_ERROR | LE_IN_PROGRESS | LE_NOT_POSSIBLE | LE_NOT_PERMITTED | LE_UNAVAILABLE
  | LE_IO_ERROR | LE_CLOSED.

#[export] Instance le_result_t_eq_dec : EqDecision le_result_t.
Proof. solve_decision. Defined.

(** ** C++ exceptions

    A function that may throw returns a [throws A]; a [try]/[catch] is a [match]
    on it. The handlers of the sources distinguish [std::out_of_range] from the
    other classes derived from [std::exception]. *)
Inductive exc := runtime_error | out_of_range.

#[export] Instance exc_eq_dec : EqDecision exc.
Proof. solve_decision. Defined.

Inductive throws (A : Type) :=
  | Returns (a : A)
  | Throws (e : exc).
Arguments Returns {_} _.
Arguments Throws {_} _.

#[export] Instance throws_ret : MRet throws := @Returns.
#[export] Instance throws_bind : MBind throws :=
  fun A B f m => match m with Returns a => f a | Throws e => Throws e end.
#[export] Instance throws_fmap : FMap throws :=
  fun A B f m => match m with Returns a => Returns (f a) | Throws e => Throws e end.

(** [try m default] is [try { x = m; } catch (const std::exception&) { x = default; }]. *)
Definition try_or {A} (m : throws A) (default : A) : A :=
  match m with Returns a => a | Throws _ => default end.

(** ** Ordered maps ([std::map])

    A [std::map] is the list of its entries in the order of its iterators; no two
    entries have the same key. *)
Definition amap (K V : Type) := list (K * V).

Section AMap.
Context {K V : Type} `{EqDecision K}.

(** [m.find(k)], with [None] for [m.end()]. *)
Fixpoint amap_find (m : amap K V) (k : K) : option V :=
  match m with
  | [] => None
  | (k', v) :: m' => if decide (k = k') then Some v else amap_find m' k
  end.

(** [m.at(k)]. *)
Definition amap_at (m : amap K V) (k : K) : throws V :=
  match amap_find m k with Some v => Returns v | None => Throws out_of_range end.

Lemma amap_find_elem (m : amap K V) (k : K) (v : V) :
  amap_find m k = Some v -> (k, v) ∈ m.
Proof.
  induction m as [|[k' v'] m IH]; simpl; [done|].
  case_decide; intros; simplify_eq; set_solver.
Qed.

Lemma elem_amap_find (m : amap K V) (k : K) (v : V) :
  NoDup m.*1 -> (k, v) ∈ m -> amap_find m k = Some v.
Proof.
  induction m as [|[k' v'] m IH]; simpl; [set_solver|].
  rewrite NoDup_cons, elem_of_cons. intros [Hni Hnd] [Heq|Hin]; simplify_eq.
  - by rewrite decide_True.
  - rewrite decide_False; [by apply IH|].
    intros ->. apply Hni, list_elem_of_fmap. by exists (k', v).
Qed.
End AMap.

(** ** Stateful code that may fault

    A method of the sources is a state transformer that either returns or runs
    into undefined behaviour or a deliberate abort. Faults are values, so that
    memory safety is a theorem: no execution ends in [Faulted]. *)
Inductive fault :=
  | OutOfBounds      (* access outside an array *)
  | NullDeref        (* dereference of a null pointer *)
  | BadConversion    (* conversion of a floating-point value out of range *)
  | Fatal            (* LE_FATAL, which aborts the process *)
  | Deadlock         (* wait on a semaphore that nobody posts *)
  | UseAfterFree     (* use of a released block or a deleted timer *)
  | Uninitialised    (* sending memory that nobody has written *)
  | Diverges         (* a loop that makes no progress *)
  | Uncaught (e : exc).

#[export] Instance fault_eq_dec : EqDecision fault.
Proof. solve_decision. Defined.

Inductive outcome (A : Type) :=
  | Done (a : A)
  | Faulted (f : fault).
Arguments Done {_} _.
Arguments Faulted {_} _.

Definition M (S A : Type) : Type := S -> outcome (A * S).

Section Monad.
Context {S : Type}.

#[export] Instance M_ret : MRet (M S) := fun A a s => Done (a, s).
#[export] Instance M_bind : MBind (M S) := fun A B f m s =>
  match m s with
  | Done (a, s') => f a s'
  | Faulted e => Faulted e
  end.

Definition get : M S S := fun s => Done (s, s).
Definition gets {A} (f : S -> A) : M S A := fun s => Done (f s, s).
Definition modify (f : S -> S) : M S unit := fun s => Done (tt, f s).
Definition raise {A} (e : fault) : M S A := fun _ => Faulted e.

(** An expression that is undefined behaviour when it has no value. *)
Definition demand {A} (o : option A) (e : fault) : M S A :=
  match o with Some a => mret a | None => raise e end.

(** A call outside any [try]. *)
Definition nothrow {A} (t : throws A) : M S A :=
  match t with Returns a => mret a | Throws e => raise (Uncaught e) end.

Definition when (b : bool) (m : M S unit) : M S unit := if b then m else mret tt.

(** [for (x : l) body(x)]. *)
Fixpoint for_each {A} (l : list A) (body : A -> M S unit) : M S unit :=
  match l with
  | [] => mret tt
  | x :: l' => _ ← body x; for_each l' body
  end.
End Monad.

(** ** Weakest preconditions: [wp c Q s] says that [c] started in [s] does not
    fault and ends in a result and a state that satisfy [Q]. *)
Definition wp {S A} (c : M S A) (Q : A -> S -> Prop) (s : S) : Prop :=
  match c s with
  | Done (a, s') => Q a s'
  | Faulted _ => False
  end.

Section Wp.
Context {S : Type}.
Implicit Types s : S.

Lemma wp_ret {A} (a : A) (Q : A -> S -> Prop) s : Q a s -> wp (mret a) Q s.
Proof. done. Qed.

Lemma wp_bind {A B} (m : M S A) (f : A -> M S B) Q s :
  wp m (fun a => wp (f a) Q) s -> wp (m ≫= f) Q s.
Proof. unfold wp, mbind, M_bind. destruct (m s) as [[a s']|e]; done. Qed.

Lemma wp_bind_inv {A B} (m : M S A) (f : A -> M S B) Q s :
  wp (m ≫= f) Q s -> wp m (fun a => wp (f a) Q) s.
Proof. unfold wp, mbind, M_bind. destruct (m s) as [[a s']|e]; done. Qed.

Lemma wp_conseq {A} (m : M S A) (P Q : A -> S -> Prop) s :
  wp m P s -> (forall a s', P a s' -> Q a s') -> wp m Q s.
Proof. unfold wp. destruct (m s) as [[a s']|e]; auto. Qed.

Lemma wp_and {A} (m : M S A) (P Q : A -> S -> Prop) s :
  wp m P s -> wp m Q s -> wp m (fun a s' => P a s' /\ Q a s') s.
Proof. unfold wp. destruct (m s) as [[a s']|e]; auto. Qed.

Lemma wp_get Q s : Q s s -> wp get Q s.
Proof. done. Qed.

Lemma wp_gets {A} (f : S -> A) Q s : Q (f s) s -> wp (gets f) Q s.
Proof. done. Qed.

Lemma wp_modify (f : S -> S) Q s : Q tt (f s) -> wp (modify f) Q s.
Proof. done. Qed.

Lemma wp_demand {A} (o : option A) e a Q s : o = Some a -> Q a s -> wp (demand o e) Q s.
Proof. by intros ->. Qed.

Lemma wp_nothrow {A} (t : throws A) a Q s : t = Returns a -> Q a s -> wp (nothrow t) Q s.
Proof. by intros ->. Qed.

Lemma wp_when (b : bool) (m : M S unit) Q s :
  (b = true -> wp m Q s) -> (b = false -> Q tt s) -> wp (when b m) Q s.
Proof. destruct b; unfold when; intros H1 H2; [by apply H1|by apply H2]. Qed.

Lemma wp_if {A} (b : bool) (m1 m2 : M S A) Q s :
  (b = true -> wp m1 Q s) -> (b = false -> wp m2 Q s) -> wp (if b then m1 else m2) Q s.
Proof. destruct b; intros H1 H2; [by apply H1|by apply H2]. Qed.

(** A loop preserves an invariant that every iteration preserves. *)
Lemma wp_for_each {A} (l : list A) (body : A -> M S unit) (I : list A -> S -> Prop) s :
  (forall x done_ s', x ∈ l -> I done_ s' ->
      wp (body x) (fun _ s'' => I (done_ ++ [x]) s'') s') ->
  I [] s -> wp (for_each l body) (fun _ s' => I l s') s.
Proof.
  intros Hbody. cut (forall l' pre s', (forall x, x ∈ l' -> x ∈ l) -> I pre s' ->
    wp (for_each l' body) (fun _ s'' => I (pre ++ l') s'') s').
  { intros H HI. apply (H l [] s); auto. }
  induction l' as [|x l' IH]; intros pre s' Hsub HI; simpl.
  - apply wp_ret. by rewrite app_nil_r.
  - apply wp_bind. eapply wp_conseq; [apply Hbody; [set_solver|exact HI]|].
    intros [] s'' HI'. rewrite cons_middle, app_assoc. apply IH; [set_solver|done].
Qed.

(** The result of a terminating run, for the witnesses. *)
Definition result {A} (m : M S A) (s : S) : option A :=
  match m s with Done (a, _) => Some a | Faulted _ => None end.
Definition final {A} (m : M S A) (s : S) : option S :=
  match m s with Done (_, s') => Some s' | Faulted _ => None end.

Lemma wp_total {A} (m : M S A) (Q : A -> S -> Prop) s :
  wp m Q s <-> exists a s', m s = Done (a, s') /\ Q a s'.
Proof.
  unfold wp. destruct (m s) as [[a s']|e].
  - split; [eauto|]. by intros (? & ? & ? & ?); simplify_eq.
  - split; [done|]. by intros (? & ? & ? & ?).
Qed.
End Wp.

(** ** Record fields that can be assigned *)
Class Field {R T : Type} (p : R -> T) := assign : T -> R -> R.
#[export] Hint Mode Field - - ! : typeclass_instances.
Arguments assign {R T} p {_} _ _.

Notation "r <| p := v |>" := (assign p v r)
  (at level 1, p at level 9, v at level 100, left associativity,
   format "r <| p  :=  v |>") : telaf_scope.

(** [field_of build] proves a [Field p] from the eta expansion [build] of the
    record type: it abstracts the projection [p r] in [build r]. *)
Ltac field_of build :=
  lazymatch goal with
  | |- @Field ?R ?T ?p =>
      let f := constr:(fun (v : T) (r : R) =>
        ltac:(let e := eval red in (build r) in
              let g := eval pattern (p r) in e in
              lazymatch g with ?h _ => let b := eval cbv beta in (h v) in exact b end)) in
      exact f
  end.

(** ** Arrays inside the state *)
Section Buffers.
Context {S : Type}.

Definition at_ (b : list Z) (i : Z) : option Z :=
  if decide (0 <= i) then b !! Z.to_nat i else None.

(** [buf[i]] as a value. *)
Definition rd (p : S -> list Z) (i : Z) : M S Z :=
  b ← gets p; demand (at_ b i) OutOfBounds.

(** [memcpy(buf + i, src, len)], and [buf[i] = v] for one byte. *)
Definition splice (b : list Z) (i : Z) (src : list Z) : list Z :=
  take (Z.to_nat i) b ++ src ++ drop (Z.to_nat i + length src) b.
#[global] Arguments splice : simpl never.

Definition cpy (p : S -> list Z) `{!Field p} (i : Z) (src : list Z) : M S unit :=
  b ← gets p;
  if decide (0 <= i /\ i + Z.of_nat (length src) <= Z.of_nat (length b))
  then modify (fun s => s <| p := splice b i src |>)
  else raise OutOfBounds.

Definition wr (p : S -> list Z) `{!Field p} (i v : Z) : M S unit := cpy p i [v].

Lemma wp_rd (p : S -> list Z) (i : Z) Q s :
  0 <= i < Z.of_nat (length (p s)) ->
  (forall v, p s !! Z.to_nat i = Some v -> Q v s) -> wp (rd p i) Q s.
Proof.
  intros Hi HQ. apply wp_bind, wp_gets.
  destruct (lookup_lt_is_Some_2 (p s) (Z.to_nat i)) as [v Hv]; [lia|].
  eapply wp_demand; [|by apply HQ]. unfold at_. by rewrite decide_True by lia.
Qed.

Lemma wp_cpy (p : S -> list Z) `{!Field p} (i : Z) src Q s :
  0 <= i -> i + Z.of_nat (length src) <= Z.of_nat (length (p s)) ->
  Q tt (s <| p := splice (p s) i src |>) -> wp (cpy p i src) Q s.
Proof.
  intros Hi Hl HQ. apply wp_bind, wp_gets. rewrite decide_True by lia.
  by apply wp_modify.
Qed.

Lemma length_splice (b : list Z) (i : Z) (src : list Z) :
  0 <= i -> i + Z.of_nat (length src) <= Z.of_nat (length b) ->
  length (splice b i src) = length b.
Proof. intros. unfold splice. rewrite !length_app, length_take, length_drop. lia. Qed.
End Buffers.

(** ** Stepping through a program *)
Create HintDb telaf.

Ltac wp_step :=
  lazymatch goal with
  | |- wp (mret _) _ _ => apply wp_ret
  | |- wp (_ ≫= _) _ _ => apply wp_bind
  | |- wp get _ _ => apply wp_get
  | |- wp (gets _) _ _ => apply wp_gets
  | |- wp (modify _) _ _ => apply wp_modify
  | |- wp (when _ _) _ _ => apply wp_when; intros ?
  | |- wp (if ?b then _ else _) _ _ =>
      lazymatch type of b with
      | bool => let H := fresh "Hif" in destruct b eqn:H
      | _ => case_decide
      end
  | |- wp (let _ := _ in _) _ _ => cbv zeta
  | |- wp (match ?x with _ => _ end) _ _ => let H := fresh "Hcase" in destruct x eqn:H
  end; cbv beta.
Ltac wp_steps := repeat wp_step.

(** ** Queries and invariant relations *)
Section Framing.
Context {S : Type}.

(** [c] only reads the state. *)
Definition reads {A} (c : M S A) (s : S) : Prop := exists v, c s = Done (v, s).

Lemma wp_reads {A} (c : M S A) (Q : A -> S -> Prop) s :
  reads c s -> (forall v, c s = Done (v, s) -> Q v s) -> wp c Q s.
Proof. intros [v Hv] HQ. unfold wp. rewrite Hv. by apply HQ. Qed.

Lemma reads_ret {A} (a : A) s : reads (mret a) s.
Proof. by exists a. Qed.
Lemma reads_gets {A} (f : S -> A) s : reads (gets f) s.
Proof. by exists (f s). Qed.
Lemma reads_bind {A B} (c : M S A) (f : A -> M S B) s :
  reads c s -> (forall v, c s = Done (v, s) -> reads (f v) s) -> reads (c ≫= f) s.
Proof. intros [v Hv] Hf. unfold reads, mbind, M_bind. rewrite Hv. by apply Hf. Qed.
Lemma reads_demand {A} (o : option A) e s : is_Some o -> reads (demand o e) s.
Proof. intros [v ->]. by exists v. Qed.

Lemma bind_run {A B} (c : M S A) (f : A -> M S B) s b s' :
  (c ≫= f) s = Done (b, s') -> exists a s1, c s = Done (a, s1) /\ f a s1 = Done (b, s').
Proof. unfold mbind, M_bind. destruct (c s) as [[a s1]|]; [eauto|done]. Qed.
Lemma demand_run {A} (o : option A) e (s : S) a s' :
  demand o e s = Done (a, s') -> o = Some a /\ s' = s.
Proof. destruct o; [|done]. by intros [= <- <-]. Qed.

(** Every run of [c] that returns relates its first and last state by [R]. *)
Definition keeps {A} (R : relation S) (c : M S A) : Prop :=
  forall s a s', c s = Done (a, s') -> R s s'.

Context (R : relation S) `{!PreOrder R}.

Lemma keeps_ret {A} (a : A) : keeps R (mret a).
Proof. intros s ? ? [= _ <-]. reflexivity. Qed.
Lemma keeps_gets {A} (f : S -> A) : keeps R (gets f).
Proof. intros s ? ? [= _ <-]. reflexivity. Qed.
Lemma keeps_raise {A} e : keeps R (raise (A:=A) e).
Proof. by intros s ? ? ?. Qed.
Lemma keeps_demand {A} (o : option A) e : keeps R (demand o e).
Proof. destruct o; [apply keeps_ret|apply keeps_raise]. Qed.
Lemma keeps_bind {A B} (c : M S A) (f : A -> M S B) :
  keeps R c -> (forall a, keeps R (f a)) -> keeps R (c ≫= f).
Proof.
  intros Hc Hf s b s'. unfold mbind, M_bind.
  destruct (c s) as [[a s1]|] eqn:E; [|done]. intros H.
  transitivity s1; [by eapply Hc|by eapply Hf].
Qed.
Lemma keeps_when b (c : M S unit) : keeps R c -> keeps R (when b c).
Proof. destruct b; [done|intros; apply keeps_ret]. Qed.
Lemma keeps_modify f : (forall s, R s (f s)) -> keeps R (modify f).
Proof. intros Hf s ? ? [= _ <-]. apply Hf. Qed.
End Framing.

(** Proves [keeps R c] by the structure of [c]; the leaves are left to [leaf]. *)
Ltac keeps_with leaf :=
  repeat first
    [ leaf
    | apply keeps_ret; typeclasses eauto
    | apply keeps_gets; typeclasses eauto
    | apply keeps_raise
    | apply keeps_demand; typeclasses eauto
    | apply keeps_bind; [typeclasses eauto| |intros ?]
    | apply keeps_when; [typeclasses eauto|]
    | match goal with
      | |- keeps _ (if ?b then _ else _) => destruct b
      | |- keeps _ (match ?x with _ => _ end) => destruct x
      end ].
