(* ===== verification/Ieee.v ===== *)
(** * Floating point: the [float] and [double] arithmetic of the interval computations

    The executable IEEE 754 operations of the Standard Library, at the two formats
    the sources use, with the conversions C++ inserts between them. *)
From Stdlib Require Import SpecFloat.
From S2P Require Import Prelude.

(** A [double] (binary64) or a [float] (binary32) is a [spec_float] rounded to the
    precision of its format. *)
Module F64.
Definition prec : Z := 53.
Definition emax : Z := 1024.
Definition mul : spec_float -> spec_float -> spec_float := SFmul prec emax.
Definition of_Z (z : Z) : spec_float := binary_normalize prec emax z 0 false.
End F64.

Module F32.
Definition prec : Z := 24.
Definition emax : Z := 128.
Definition mul : spec_float -> spec_float -> spec_float := SFmul prec emax.
Definition sub : spec_float -> spec_float -> spec_float := SFsub prec emax.
Definition div : spec_float -> spec_float -> spec_float := SFdiv prec emax.
Definition of_Z (z : Z) : spec_float := binary_normalize prec emax z 0 false.

(** The conversion of a [double] to [float]. *)
Definition of_double (x : spec_float) : spec_float :=
  match x with
  | S754_finite s m e => binary_normalize prec emax (cond_Zopp s (Zpos m)) e s
  | _ => x
  end.
End F32.

(** The integral part, rounding toward zero; [None] for infinities and NaN. *)
Definition trunc (x : spec_float) : option Z :=
  match x with
  | S754_zero _ => Some 0
  | S754_finite s m e =>
      Some (cond_Zopp s (if 0 <=? e then Zpos m * 2 ^ e else Zpos m / 2 ^ (- e)))
  | _ => None
  end.

(** Conversion to an unsigned integer of [w] bits, undefined behaviour when the
    integral part is not a value of the type. *)
Definition to_unsigned (w : Z) (x : spec_float) : option Z :=
  z ← trunc x; if decide (0 <= z < 2 ^ w) then Some z else None.

Lemma to_unsigned_width (w : Z) (x : spec_float) (z : Z) :
  to_unsigned w x = Some z -> in_width w z.
Proof.
  unfold to_unsigned. destruct (trunc x); simpl; [|done].
  case_decide; intros; by simplify_eq.
Qed.

(** Decimal literals of the witnesses: [num / 10 ^ k] correctly rounded to [double]. *)
Definition double_lit (num : Z) (k : Z) : spec_float :=
  SFdiv F64.prec F64.emax (F64.of_Z num) (F64.of_Z (10 ^ k)).

Example trunc_2500 : to_unsigned 32 (F64.mul (double_lit 25 1) (F64.of_Z 1000)) = Some 2500.
Proof. reflexivity. Qed.
Example trunc_negative : to_unsigned 32 (F64.of_Z (-1)) = None.
Proof. reflexivity. Qed.
