(* ===== verification/DiagCfg.v ===== *)
(** * The diagnostic configuration

    The deserialised configuration tree ([serialization.hpp]) and the accessors the
    UDS stack calls ([configuration.cpp.jinja], namespace [cfg]). The tables that
    the generator writes into the accessors' file (the authorization patterns and
    the value checkers) are fields of [Config]. The accessors are modelled after
    [diag_config_init] has succeeded, so that [NEED_INITED] passes. *)
From Stdlib Require Import SpecFloat.
From S2P Require Import Prelude Ieee.

(** ** The tree *)
Record Access := mkAccess {
  acc_session : list string;
  acc_security_type : Z;
  acc_security_level : list string }.

Record SubFunction := mkSubFunction {
  sub_supported : bool;
  sub_authentication : bool;
  sub_execution_authorization_pattern : string;
  sub_access : Access }.

Record ServiceEntry := mkServiceEntry {
  svc_supported : bool;
  svc_IDPS_supported : bool;
  svc_functional_addressed : bool;
  svc_authentication : bool;
  svc_execution_authorization_pattern : string;
  svc_access : Access;
  svc_sub_functions : amap string SubFunction }.

Record IoControlDescription := mkIoControlDescription {
  return_control_to_ecu : bool;
  reset_to_default : bool;
  freeze_current_state : bool;
  short_term_adjustment : bool }.

Record SupportedFunctions := mkSupportedFunctions {
  sf_write_did : bool;
  sf_read_did : bool;
  sf_snapshot : bool;
  sf_io_control : bool;
  sf_routine_did : bool;
  sf_io_control_description : IoControlDescription }.

Record Implementation := mkImplementation {
  did_size : Z;
  endianness : string;
  impl_bytes : amap Z (amap Z string) }.

Record SecurityLevel := mkSecurityLevel {
  sl_security : bool;
  sl_security_level : list string }.

Record DiagnosticSession := mkDiagnosticSession {
  ds_R : amap string SecurityLevel;
  ds_W : amap string SecurityLevel;
  ds_IO : amap string SecurityLevel }.

Record DidAccessibility := mkDidAccessibility {
  execution_authorization_pattern_read : string;
  execution_authorization_pattern_write : string;
  execution_authorization_pattern_io : string;
  execution_authentication_pattern_io : list string;
  da_diagnostic_session : amap string DiagnosticSession }.

Record EnableConditionData := mkEnableConditionData {
  and_conditions : list Z;
  or_conditions : list Z }.

Record DidEntry := mkDidEntry {
  did_code : Z;
  did_implementation : Implementation;
  did_supported_functions : SupportedFunctions;
  did_accessibility : DidAccessibility;
  did_read_role : list string;
  did_write_role : list string;
  did_enable_condition : EnableConditionData;
  did_functional_addressed : bool }.

Record AuthAntiConfEntry := mkAuthAntiConfEntry {
  antiBruteForceCounterMaxValue : Z;
  delayTimerInvokingValueInit : Z;
  delayTimerInvokingValueMax : Z }.

Record SessionSecurLvlEntry := mkSessionSecurLvlEntry {
  ssl_short_name : string;
  ssl_request_seed_id : Z;
  ssl_key_size : Z;
  ssl_num_failed_security_access : Z;
  ssl_security_delay_time : Z;
  ssl_seed_size : Z;
  ssl_execution_authorization_pattern : string;
  ssl_static_seed : bool;
  ssl_level_id : Z }.

Record DiagSessionEntry := mkDiagSessionEntry {
  dse_short_name : string;
  dse_id : Z;
  p2_server_max : spec_float;
  p2_start_server_max : spec_float;
  dse_execution_authorization_pattern : string;
  p2_star_server_max : spec_float;
  dse_origin_short_name : string }.

Record RoutineEntry := mkRoutineEntry {
  rt_identifier : Z;
  rt_sub_function : list Z;
  rt_start : string;
  rt_stop : string;
  rt_result : string;
  rt_access : Access;
  rt_routine_role : list string;
  rt_enable_condition : EnableConditionData }.

Record RoutineParameterEntry := mkRoutineParameterEntry {
  rp_name : string;
  rp_bit_offset : amap string string;
  rp_size : Z }.

Record AuthRoleEntry := mkAuthRoleEntry {
  role_name : string;
  role_value : Z }.

Record IOEntry := mkIOEntry {
  io_identifier : Z;
  io_control_parameter : list Z;
  io_did_size : Z;
  io_control_state : string;
  io_role : list string;
  io_diagnostic_session : amap string SecurityLevel;
  io_access : Access;
  io_enable_condition : EnableConditionData }.

Record SecurBindingEntry := mkSecurBindingEntry {
  sb_session_id : Z;
  sb_security_level : amap string SessionSecurLvlEntry }.

Record CommonProps := mkCommonProps {
  max_number_of_rcrrp : Z;
  occurrence_counter_processing : string;
  s3_server_max : spec_float;
  ignore_request_for_hardreset : bool;
  dtc_status_availability_mask : Z }.

(** The maps of [DiagConf] the UDS stack reads. *)
Record DiagConf := mkDiagConf {
  did_all : amap Z DidEntry;
  services_all : amap string ServiceEntry;
  auth_anti_conf : amap string AuthAntiConfEntry;
  session_secur_level : amap string SessionSecurLvlEntry;
  diag_session : amap string DiagSessionEntry;
  secur_binding : amap string SecurBindingEntry;
  routines_all : amap string RoutineEntry;
  routine_parameters_all : amap string RoutineParameterEntry;
  auth_roles : amap string AuthRoleEntry;
  io_all : amap Z IOEntry;
  common_props : CommonProps }.

Record Config := mkConfig {
  diagConf : DiagConf;
  pattern_maps : amap string (list Z);
  is_forbidden : Z -> list Z -> throws bool;
  validate_base_record : list Z -> string -> throws bool }.

(** ** Accessors *)
Section Accessors.
Variable cfg : Config.
Let conf : DiagConf := diagConf cfg.

(** [std::to_string], the key under which services, sub-functions and routines
    are stored. *)
Definition to_string (z : Z) : string := pretty z.

Definition found {V} (o : option V) : throws V :=
  match o with Some v => Returns v | None => Throws runtime_error end.

Definition get_did_entry (did_code : Z) : throws DidEntry :=
  found (amap_find (did_all conf) did_code).

Definition IsDidFunctionalAddressed (did_code : Z) : bool :=
  match amap_find (did_all conf) did_code with
  | None => false
  | Some e => did_functional_addressed e
  end.

Definition get_common_props : CommonProps := common_props conf.

Definition get_did_diagnostic_session (did : Z) (session_name : string)
    : throws DiagnosticSession :=
  d ← get_did_entry (u16 did);
  found (amap_find (da_diagnostic_session (did_accessibility d)) session_name).

Definition get_service_entry (sid : Z) : throws ServiceEntry :=
  found (amap_find (services_all conf) (to_string sid)).

Definition IsIDPSSupported (sid : Z) : bool :=
  match amap_find (services_all conf) (to_string sid) with
  | None => false
  | Some e => svc_IDPS_supported e
  end.

Definition IsIDPSAvailable : bool := IsIDPSSupported 0x27.

Definition IsServiceFunctionalAddressed (sid : Z) : bool :=
  match amap_find (services_all conf) (to_string sid) with
  | None => false
  | Some e => svc_functional_addressed e
  end.

Definition get_service_access (sid : Z) : throws Access :=
  svc_access <$> get_service_entry sid.

Definition get_subfunction (sid subFunc : Z) : throws SubFunction :=
  svc ← get_service_entry sid;
  found (amap_find (svc_sub_functions svc) (to_string subFunc)).

Definition get_subfunction_access (sid subFunc : Z) : throws Access :=
  sub_access <$> get_subfunction sid subFunc.

Definition get_subfunction_session_list (sid subFunc : Z) : throws (list string) :=
  (fun f => acc_session (sub_access f)) <$> get_subfunction sid subFunc.

(** [sess_map.insert] keeps the first value of a repeated key. *)
Definition map_insert {V} (m : amap string V) (e : string * V) : amap string V :=
  match amap_find m e.1 with Some _ => m | None => m ++ [e] end.

Definition get_diagnostic_session_map : amap string Z :=
  foldl (fun m p => map_insert m (dse_short_name p.2, u8 (dse_id p.2))) []
    (diag_session conf).

Definition get_security_level_id (level_name : string) : throws Z :=
  (fun e => u8 (ssl_level_id e)) <$> found (amap_find (session_secur_level conf) level_name).

Definition get_authentication_roles : amap string Z :=
  (fun p => (p.1, u64 (role_value p.2))) <$> auth_roles conf.

Definition get_authentication_timeout : throws Z :=
  match auth_anti_conf conf with
  | [] => Throws out_of_range
  | (_, e) :: _ => Returns (u32 (delayTimerInvokingValueInit e))
  end.

(** The first session, in the order of the map, with the given identifier. *)
Definition get_diagnostic_session (sid : Z) : throws DiagSessionEntry :=
  match list_find (fun p => dse_id p.2 = sid) (diag_session conf) with
  | Some (_, p) => Returns p.2
  | None => Throws out_of_range
  end.

Definition get_pattern (session_id : Z) : string :=
  try_or (dse_execution_authorization_pattern <$> get_diagnostic_session session_id) "".

(** A pattern row is [n, s1, .., sn, m, l1, .., lm]: the sessions and the levels
    from which the session may be entered. [None] is a row read past its end. *)
Definition get_pattern_sessions_by_session_id (session_id : Z) : option (list Z) :=
  match amap_find (pattern_maps cfg) (get_pattern session_id) with
  | None => Some []
  | Some row =>
      total ← row !! 0%nat;
      mapM (fun i => row !! S i) (seq 0 (Z.to_nat total))
  end.

Definition get_pattern_levels_by_session_id (session_id : Z) : option (list Z) :=
  match amap_find (pattern_maps cfg) (get_pattern session_id) with
  | None => Some []
  | Some row =>
      total_of_sessions ← row !! 0%nat;
      total_of_levels ← row !! S (Z.to_nat total_of_sessions);
      mapM (fun i => row !! (Z.to_nat total_of_sessions + i + 1 + 1)%nat)
        (seq 0 (Z.to_nat total_of_levels))
  end.

Definition get_routine_entry (rid : Z) : throws RoutineEntry :=
  amap_at (routines_all conf) (to_string rid).

Definition null_if_empty (s : string) : string :=
  if decide (s = EmptyString) then "null" else s.

Definition get_routine_record (rid subFunc : Z) : string :=
  match get_routine_entry rid with
  | Returns r =>
      if subFunc =? 1 then null_if_empty (rt_start r)
      else if subFunc =? 2 then null_if_empty (rt_stop r)
      else if subFunc =? 3 then null_if_empty (rt_result r)
      else "null"
  | Throws _ => "null"
  end.

Definition get_routine_record_size (recordName : string) : Z :=
  match amap_find (routine_parameters_all conf) recordName with
  | Some e => u64 (rp_size e)
  | None => 0
  end.

Definition get_ioctrl_en_mask_record_size (ioctrldid : Z) : Z := 0.

Definition get_io_entry (iocid : Z) : throws IOEntry := amap_at (io_all conf) iocid.
End Accessors.

(** ** The configured sessions *)

(** [get_diagnostic_session] finds an entry with the identifier it is asked for. *)
Lemma get_diagnostic_session_id (cfg : Config) (sid : Z) (e : DiagSessionEntry) :
  get_diagnostic_session cfg sid = Returns e -> dse_id e = sid.
Proof.
  unfold get_diagnostic_session. destruct (list_find _ _) as [[i p]|] eqn:H; [|done].
  intros. simplify_eq. apply list_find_Some in H. tauto.
Qed.

(** Keys of services and sub-functions are unambiguous. *)
Lemma to_string_inj (x y : Z) : to_string x = to_string y -> x = y.
Proof. apply (inj (pretty (A:=Z))). Qed.
