(* ===== verification/UdsTypes.v ===== *)
(** * The UDS stack: constants, the manager object and its environment

    Constants and enumerations of [tafUDSCommunicationMgr.hpp], the state of one
    [UdsCommunicationMgr] object together with the security-access object it points
    to, the effects its methods have on the rest of the system, and the answers the
    rest of the system gives. *)
From S2P Require Import Prelude DiagCfg.

(** ** Constants *)
Abbreviation UDS_DATA_SIZE := 4095 (only parsing).
Abbreviation UDS_CERT_MAX_LEN := 8192 (only parsing).
Abbreviation UDS_MAX_DATA_SIZE := 16400 (only parsing). (* 2*UDS_CERT_MAX_LEN+16 *)
Abbreviation UDS_P2_SERVER := 50 (only parsing).
Abbreviation UDS_P2_SERVER_MAX := 65535 (only parsing).
Abbreviation UDS_P2_STAR_SERVER := 5000 (only parsing).
Abbreviation UDS_P2_STAR_SERVER_MAX := 655350 (only parsing).
Abbreviation UDS_P2_STAR_SERVER_MIN := 1500 (only parsing).
Abbreviation DELTA_UDS_P2_RESP := 500 (only parsing).
Abbreviation AUTH_DEFAULT_MAX_ATT_CNT := 10 (only parsing).
Abbreviation AUTH_DEFAULT_DELAY_TIME := 60 (only parsing).
Abbreviation AUTH_DEFAULT_DELAY_TIME_MAX := 960 (only parsing). (* 16*60 *)
Abbreviation TESTER_STATE_CHANGE_TIMER := 5000 (only parsing).
Abbreviation MAX_DID_NUM_IN_RDBI := 10 (only parsing).
Abbreviation MAX_AUTH_TIME := 30 (only parsing).
Abbreviation SHORT_TERM_ADJUSTMENT := 3 (only parsing).
Abbreviation HARD_RESET := 1 (only parsing).
Abbreviation UDS_NEGATIVE_RESP_SID := 0x7F (only parsing).
Abbreviation UDS_NEG_RESP_LEN := 3 (only parsing).

(** Request service identifiers ([taf_UDSReqSvcID_t]). *)
Abbreviation SESSION_CONTROL_REQUEST_ID := 0x10 (only parsing).
Abbreviation ECU_RESET_REQUEST_ID := 0x11 (only parsing).
Abbreviation CLEAR_DIAG_INFO_REQUEST_ID := 0x14 (only parsing).
Abbreviation READ_DTC_INFO_REQUEST_ID := 0x19 (only parsing).
Abbreviation READ_DID_REQUEST_ID := 0x22 (only parsing).
Abbreviation READ_MEMORY_BY_ADDR_REQUEST_ID := 0x23 (only parsing).
Abbreviation SECURITY_ACCESS_REQUEST_ID := 0x27 (only parsing).
Abbreviation AUTHENTICATION_REQUEST_ID := 0x29 (only parsing).
Abbreviation DYNAMICALLY_DEFINE_DID_REQUEST_ID := 0x2C (only parsing).
Abbreviation WRITE_DID_REQUEST_ID := 0x2E (only parsing).
Abbreviation INPUT_OUTPUT_CONTROL_REQUEST_ID := 0x2F (only parsing).
Abbreviation ROUTINE_CONTROL_REQUEST_ID := 0x31 (only parsing).
Abbreviation REQUEST_DOWNLOAD_REQUEST_ID := 0x34 (only parsing).
Abbreviation REQUEST_UPLOAD_REQUEST_ID := 0x35 (only parsing).
Abbreviation TRANSFER_DATA_REQUEST_ID := 0x36 (only parsing).
Abbreviation REQUEST_TRANSFER_EXIT_REQUEST_ID := 0x37 (only parsing).
Abbreviation REQUEST_FILE_TRANSFER_REQUEST_ID := 0x38 (only parsing).
Abbreviation WRITE_MEMORY_BY_ADDR_REQUEST_ID := 0x3D (only parsing).
Abbreviation TESTER_PRESENT_REQUEST_ID := 0x3E (only parsing).
Abbreviation CONTROL_DTC_SETTING_REQUEST_ID := 0x85 (only parsing).
Abbreviation RESPONSE_ON_EVENT_REQUEST_ID := 0x86 (only parsing).

(** Response service identifiers ([taf_UDSRespSvcID_t]). *)
Abbreviation SESSION_CONTROL_RESPONSE_ID := 0x50 (only parsing).
Abbreviation ECU_RESET_RESPONSE_ID := 0x51 (only parsing).
Abbreviation CLEAR_DIAG_INFO_RESPONSE_ID := 0x54 (only parsing).
Abbreviation READ_DTC_INFO_RESPONSE_ID := 0x59 (only parsing).
Abbreviation READ_DID_RESPONSE_ID := 0x62 (only parsing).
Abbreviation SECURITY_ACCESS_RESPONSE_ID := 0x67 (only parsing).
Abbreviation AUTHENTICATION_RESPONSE_ID := 0x69 (only parsing).
Abbreviation WRITE_DID_RESPONSE_ID := 0x6E (only parsing).
Abbreviation IOCBID_RESPONSE_ID := 0x6F (only parsing).
Abbreviation ROUTINE_CONTROL_RESPONSE_ID := 0x71 (only parsing).
Abbreviation TRANSFER_DATA_RESPONSE_ID := 0x76 (only parsing).
Abbreviation REQUEST_TRANSFER_EXIT_RESPONSE_ID := 0x77 (only parsing).
Abbreviation TESTER_PRESENT_RESPONSE_ID := 0x7E (only parsing).
Abbreviation CONTROL_DTC_SETTING_RESPONSE_ID := 0xC5 (only parsing).
Abbreviation RESPONSE_ON_EVENT_RESPONSE_ID := 0xC6 (only parsing).

(** Response codes ([taf_UDSErrorCode_t]). *)
Abbreviation POSITIVE_RESPONSE := 0 (only parsing).
Abbreviation GENERAL_REJECT := 0x10 (only parsing).
Abbreviation SERVICE_NOT_SUPPORTED := 0x11 (only parsing).
Abbreviation SUBFUNCTION_NOT_SUPPORTED := 0x12 (only parsing).
Abbreviation INCORRECT_MSG_LEN_OR_INVALID_FORMAT := 0x13 (only parsing).
Abbreviation BUSY_REPEAT_REQ := 0x21 (only parsing).
Abbreviation CONDITIONS_NOT_CORRECT := 0x22 (only parsing).
Abbreviation REQ_SEQUENCE_ERROR := 0x24 (only parsing).
Abbreviation REQ_OUT_OF_RANGE := 0x31 (only parsing).
Abbreviation SECURITY_ACCESS_DENY := 0x33 (only parsing).
Abbreviation AUTHENTICATION_REQUIRED := 0x34 (only parsing).
Abbreviation INVALID_KEY := 0x35 (only parsing).
Abbreviation EXCEEDED_NUMBER_OF_ATTEMPTS := 0x36 (only parsing).
Abbreviation REQUIRED_TIME_DELAY_NOT_EXPIRED := 0x37 (only parsing).
Abbreviation REQUEST_CORRECTLY_RECEIVED_RESPONSE_PENDING := 0x78 (only parsing).
Abbreviation SUBFUNCTION_NOT_SUPPORTED_IN_ACTIVE_SESSION := 0x7E (only parsing).
Abbreviation SERVICE_NOT_SUPPORTED_IN_ACTIVE_SESSION := 0x7F (only parsing).

(** Sub-functions of services 0x29 and 0x86, modes of operation of service 0x38. *)
Abbreviation AUTH_SUBFUNC_DEAUTHENTICATE := 0x00 (only parsing).
Abbreviation AUTH_SUBFUNC_VERIFY_CERT_UNIDIR := 0x01 (only parsing).
Abbreviation AUTH_SUBFUNC_VERIFY_CERT_BIDIR := 0x02 (only parsing).
Abbreviation AUTH_SUBFUNC_POWN := 0x03 (only parsing).
Abbreviation AUTH_SUBFUNC_TRANSMIT_CERT := 0x04 (only parsing).
Abbreviation AUTH_SUBFUNC_REQ_CHLNG_FOR_AUTH := 0x05 (only parsing).
Abbreviation AUTH_SUBFUNC_VERIFY_POWN_UNIDIR := 0x06 (only parsing).
Abbreviation AUTH_SUBFUNC_VERIFY_POWN_BIDIR := 0x07 (only parsing).
Abbreviation AUTH_SUBFUNC_AUTH_CONF := 0x08 (only parsing).
Abbreviation AUTH_SUBFUNC_UNKNOWN := 0xff (only parsing).
Abbreviation ROE_SUBFUNC_ONDTCS := 0x01 (only parsing).
Abbreviation ROE_SUBFUNC_RAE := 0x04 (only parsing).
Abbreviation MOOP_ADD_FILE := 0x01 (only parsing).
Abbreviation MOOP_DELETE_FILE := 0x02 (only parsing).
Abbreviation MOOP_REPLACE_FILE := 0x03 (only parsing).
Abbreviation MOOP_READ_FILE := 0x04 (only parsing).
Abbreviation MOOP_READ_DIR := 0x05 (only parsing).
Abbreviation MOOP_RESUME_FILE := 0x06 (only parsing).
Abbreviation DEFAULT_SESSION := 0x01 (only parsing).

(** ** Enumerations *)
Inductive TaType := TA_PHYSICAL | TA_FUNCTIONAL.
Inductive taf_UDSAuthState_t :=
  | AUTH_STATE_DEAUTHENTICATED | AUTH_STATE_AUTHENTICATED | AUTH_STATE_UNKNOWN.
Inductive taf_TesterState_t := OFF | ON.

Inductive taf_UDSTimer_EventType_t :=
  | S3_TIMER_STOP | S3_TIMER_START | S3_TIMER_RESTART
  | P2STAR_TIMER_STOP | P2STAR_TIMER_START | P2STAR_TIMER_RESTART
  | AUTH_TIMER_STOP | AUTH_TIMER_START | AUTH_TIMER_RESTART
  | AUTH_DELAY_TIMER_STOP | AUTH_DELAY_TIMER_START
  | TESTER_STATE_TIMER_STOP | TESTER_STATE_TIMER_START | TESTER_STATE_TIMER_RESTART
  | S3_TIMER_CHECK_TO_RESTART | TESTER_STATE_TIMER_CHECK_TO_RESTART.

Inductive taf_UDSIndMsg_type_t :=
  | UDS_SERVICE_MSG_INDICATION_ID
  | SET_STATE_AND_CANCEL_FILE_TRANSFER_RESULT
  | UPDATE_SERVICE_NRC_STATUS
  | CANCEL_FILE_TRANSFER_RESULT
  | TESTER_STATE_MSG_ID
  | AUTHENTICATION_EXPIRATION_MSG_ID
  | SESSION_CHANGE_MSG_ID.

(** The first byte of an indication, which the diagnostic service reads. *)
Definition ind_msg_code (t : taf_UDSIndMsg_type_t) : Z :=
  match t with
  | UDS_SERVICE_MSG_INDICATION_ID => 0x0
  | SET_STATE_AND_CANCEL_FILE_TRANSFER_RESULT => 0xFA
  | UPDATE_SERVICE_NRC_STATUS => 0xFB
  | CANCEL_FILE_TRANSFER_RESULT => 0xFC
  | TESTER_STATE_MSG_ID => 0xFD
  | AUTHENTICATION_EXPIRATION_MSG_ID => 0xFE
  | SESSION_CHANGE_MSG_ID => 0xFF
  end.

Inductive SecAccSignal_t :=
  | REQUEST_SEED_SIG | SEND_KEY_SIG
  | REQUEST_SEED_RESPONSE_SIG | SEND_KEY_RESPONSE_SIG
  | DELAY_TIMER_EXPIRED_SIG | SESSION_CONTROL_SIG | SESSION_TIMEOUT_SIG
  | INVALID_SIG.

#[export] Instance TaType_eq_dec : EqDecision TaType.
Proof. solve_decision. Defined.
#[export] Instance AuthState_eq_dec : EqDecision taf_UDSAuthState_t.
Proof. solve_decision. Defined.
#[export] Instance TesterState_eq_dec : EqDecision taf_TesterState_t.
Proof. solve_decision. Defined.
#[export] Instance TimerEvent_eq_dec : EqDecision taf_UDSTimer_EventType_t.
Proof. solve_decision. Defined.
#[export] Instance IndMsgType_eq_dec : EqDecision taf_UDSIndMsg_type_t.
Proof. solve_decision. Defined.
#[export] Instance SecAccSignal_eq_dec : EqDecision SecAccSignal_t.
Proof. solve_decision. Defined.

(** ** Messages and effects *)
Record AddrInfo := mkAddrInfo {
  sa : Z;
  ta : Z;
  taType : TaType;
  ai_vlanId : Z;
  ifName : string }.

(** The message of the intrusion-detection service ([tafIdpsMsg_t]). *)
Record IdpsMsg := mkIdpsMsg {
  idps_sa : Z;
  idps_ta : Z;
  idps_vlanId : Z;
  idps_sid : Z;
  idps_status : Z;
  idps_dataBuf : list Z }.

Inductive TimerId := p2StarTimer | s3Timer | authTimer | authDelayTimer
  | testerStateTimer | secAccDelayTimer.

#[export] Instance TimerId_eq_dec : EqDecision TimerId.
Proof. solve_decision. Defined.

Inductive TimerOp :=
  | TimerSetMsInterval (ms : Z)
  | TimerSetRepeat (n : Z)
  | TimerStart
  | TimerStop
  | TimerRestart.

(** What a method does outside the object, in the order in which it does it. *)
Inductive Effect :=
  | DoipRequest (to : AddrInfo) (data : list Z)                (* taf_doip_DiagRequest *)
  | TimerEvent (ev : taf_UDSTimer_EventType_t) (interval : Z) (name : string)
                                                              (* report to udsTimerEventId *)
  | IndEvent (ty : taf_UDSIndMsg_type_t) (data : list Z)       (* report to udsIndMsgEventId *)
  | SecAccEvent (sig : SecAccSignal_t)                         (* report nobody waits for *)
  | IdpsEvent (msg : IdpsMsg)                                  (* report to IdpsEventId *)
  | P2StarNrc (sid errorCode : Z) (to : AddrInfo)              (* queued to the main thread *)
  | Indication (from : AddrInfo) (data : list Z)               (* call of the service's handler *)
  | CfgSetInt (path : string) (v : Z)                          (* le_cfg_QuickSetInt *)
  | TimerCall (t : TimerId) (op : TimerOp)                     (* le_timer_xxx *)
  | SemPost.                                                   (* le_sem_Post *)

(** ** The security-access object *)
Record SecurityLevel_t := mkSecurityLevel_t {
  Security_Level : Z;
  Att_Cnt : Z;
  Att_Cnt_Limit : Z;
  Static_Seed : bool;
  Delay_Timer : Z;
  key_size : Z;
  seed_size : Z;
  request_seed_id : Z }.

(** A pointer to a level: its session's position and its own position. *)
Definition LevelPtr : Type := nat * nat.

Record SecuritySession_t := mkSecuritySession_t {
  session_id : Z;
  level_list : list SecurityLevel_t;
  active_level : option LevelPtr;
  unlocked_level : option LevelPtr }.

Inductive SecAccState :=
  | State_initial | LockedNoActiveSeed | LockedWaitingForKey
  | UnlockedNoActiveSeed | UnlockedWaitingForKey.

#[export] Instance SecAccState_eq_dec : EqDecision SecAccState.
Proof. solve_decision. Defined.

Record AO_SecurityAccess := mkAO {
  state_fn : SecAccState;
  session_list : list SecuritySession_t;
  current_session : option nat;
  default_session : nat;
  last_pending_session_id : Z;
  last_pending_signal : SecAccSignal_t;
  ao_ifname : string }.

(** ** The manager object

    The members of [UdsCommunicationMgr], its class-wide [isResetInProgress] and
    [cancelFileXferReqList], the boolean to which the [isInternalHandle] parameters
    point while a request is handled, the count of the semaphore on which the main
    thread waits for the security-access thread, and the trace of effects. *)
Record Mgr := mkMgr {
  nrcCode : Z;
  remoteError : le_result_t;
  udsRespAddrInfo : AddrInfo;
  mSecurityAccess : AO_SecurityAccess;
  recvBuf : list Z;
  sendBuf : list Z;
  tpBuf : list Z;
  recvDataLen : Z;
  sendDataLen : Z;
  tpDataLen : Z;
  recvSid : Z;
  recvSubFunc : Z;
  readyToRecvData : bool;
  isPaused : bool;
  interface : string;
  vlanId : Z;
  PreviousState : taf_TesterState_t;
  SessionType : Z;
  currentRoleVal : Z;
  authState : taf_UDSAuthState_t;
  isXferActive : bool;
  addrInfo : AddrInfo;
  authPreSucReq : Z;
  authAttCnt : Z;
  authDelayTime : Z;
  mainSemCnt : Z;
  isResetInProgress : bool;
  cancelFileXferReqList : list Z;
  isInternalHandle : bool;
  semCount : Z;
  trace : list Effect }.

Definition eta_Mgr (m : Mgr) : Mgr :=
  mkMgr (nrcCode m) (remoteError m) (udsRespAddrInfo m) (mSecurityAccess m) (recvBuf m)
    (sendBuf m) (tpBuf m) (recvDataLen m) (sendDataLen m) (tpDataLen m) (recvSid m)
    (recvSubFunc m) (readyToRecvData m) (isPaused m) (interface m) (vlanId m)
    (PreviousState m) (SessionType m) (currentRoleVal m) (authState m) (isXferActive m)
    (addrInfo m) (authPreSucReq m) (authAttCnt m) (authDelayTime m) (mainSemCnt m)
    (isResetInProgress m) (cancelFileXferReqList m) (isInternalHandle m) (semCount m)
    (trace m).
#[export] Instance set_nrcCode : Field nrcCode := ltac:(field_of eta_Mgr).
#[export] Instance set_remoteError : Field remoteError := ltac:(field_of eta_Mgr).
#[export] Instance set_udsRespAddrInfo : Field udsRespAddrInfo := ltac:(field_of eta_Mgr).
#[export] Instance set_mSecurityAccess : Field mSecurityAccess := ltac:(field_of eta_Mgr).
#[export] Instance set_recvBuf : Field recvBuf := ltac:(field_of eta_Mgr).
#[export] Instance set_sendBuf : Field sendBuf := ltac:(field_of eta_Mgr).
#[export] Instance set_tpBuf : Field tpBuf := ltac:(field_of eta_Mgr).
#[export] Instance set_recvDataLen : Field recvDataLen := ltac:(field_of eta_Mgr).
#[export] Instance set_sendDataLen : Field sendDataLen := ltac:(field_of eta_Mgr).
#[export] Instance set_tpDataLen : Field tpDataLen := ltac:(field_of eta_Mgr).
#[export] Instance set_recvSid : Field recvSid := ltac:(field_of eta_Mgr).
#[export] Instance set_recvSubFunc : Field recvSubFunc := ltac:(field_of eta_Mgr).
#[export] Instance set_readyToRecvData : Field readyToRecvData := ltac:(field_of eta_Mgr).
#[export] Instance set_isPaused : Field isPaused := ltac:(field_of eta_Mgr).
#[export] Instance set_PreviousState : Field PreviousState := ltac:(field_of eta_Mgr).
#[export] Instance set_SessionType : Field SessionType := ltac:(field_of eta_Mgr).
#[export] Instance set_currentRoleVal : Field currentRoleVal := ltac:(field_of eta_Mgr).
#[export] Instance set_authState : Field authState := ltac:(field_of eta_Mgr).
#[export] Instance set_isXferActive : Field isXferActive := ltac:(field_of eta_Mgr).
#[export] Instance set_addrInfo : Field addrInfo := ltac:(field_of eta_Mgr).
#[export] Instance set_authPreSucReq : Field authPreSucReq := ltac:(field_of eta_Mgr).
#[export] Instance set_authAttCnt : Field authAttCnt := ltac:(field_of eta_Mgr).
#[export] Instance set_authDelayTime : Field authDelayTime := ltac:(field_of eta_Mgr).
#[export] Instance set_mainSemCnt : Field mainSemCnt := ltac:(field_of eta_Mgr).
#[export] Instance set_isResetInProgress : Field isResetInProgress := ltac:(field_of eta_Mgr).
#[export] Instance set_cancelFileXferReqList : Field cancelFileXferReqList :=
  ltac:(field_of eta_Mgr).
#[export] Instance set_isInternalHandle : Field isInternalHandle := ltac:(field_of eta_Mgr).
#[export] Instance set_semCount : Field semCount := ltac:(field_of eta_Mgr).
#[export] Instance set_trace : Field trace := ltac:(field_of eta_Mgr).

(** ** The environment

    The configuration, the build option [LE_CONFIG_DIAG_FEATURE_A], and what the
    calls into the DoIP stack, the timers and the configuration tree answer; each
    answer may depend on everything done before. *)
Record Env := mkEnv {
  config : Config;
  featureA : bool;
  doip_DiagRequest : list Effect -> le_result_t;
  timer_IsRunning : list Effect -> TimerId -> bool;
  timer_GetMsTimeRemaining : list Effect -> TimerId -> Z;
  timer_GetExpiryCount : list Effect -> TimerId -> Z;
  cfg_GetInt : list Effect -> string -> option Z }.

(** ** Primitive steps *)
Definition emit (e : Effect) : M Mgr unit := modify (fun m => m <| trace := trace m ++ [e] |>).
Definition assign_ {T} (p : Mgr -> T) `{!Field p} (v : T) : M Mgr unit :=
  modify (fun m => m <| p := v |>).
Notation "p ::= v" := (assign_ p v) (at level 90, v at level 89) : telaf_scope.

Section Primitives.
Variable env : Env.

Definition le_timer_IsRunning (t : TimerId) : M Mgr bool :=
  gets (fun m => timer_IsRunning env (trace m) t).

(** [UdsTimerEventReport]: the timers belong to the timer thread. *)
Definition UdsTimerEventReport (ev : taf_UDSTimer_EventType_t) (interval : Z)
    (name : string) : M Mgr unit :=
  emit (TimerEvent ev interval name).
End Primitives.
