(* ===== verification/UdsSend.v ===== *)
(** * The UDS stack: sending responses

    Interval computations, the negative response path ([SetNRC], [SendNRC],
    [SendData]), the reports to the timer thread that follow a response, and the
    internal indications; [tafIDPS.cpp]'s [SendIdpsIndMsg]. *)
From Stdlib Require Import SpecFloat.
From S2P Require Import Prelude Ieee DiagCfg UdsTypes.

(** The bytes [buf[0 .. len-1]] a pointer and a length denote. *)
Definition slice (b : list Z) (len : Z) : option (list Z) :=
  if decide (0 <= len <= Z.of_nat (length b)) then Some (take (Z.to_nat len) b) else None.

(** ** Intervals *)
Section Intervals.
Variable cfg : Config.

(** [p2_start_server_max * 1000] as a [float], or the default when the session is
    unknown or the value exceeds the maximum. *)
Definition p2star_interval (session : Z) : spec_float :=
  try_or ((fun sess =>
             let i := F32.of_double (F64.mul (p2_start_server_max sess) (F64.of_Z 1000)) in
             if SFltb (F32.of_Z UDS_P2_STAR_SERVER_MAX) i
             then F32.of_Z UDS_P2_STAR_SERVER else i)
            <$> get_diagnostic_session cfg (u16 session))
    (F32.of_Z UDS_P2_STAR_SERVER).

Definition rcrrp_count : Z := u32 (max_number_of_rcrrp (get_common_props cfg)).

(** [p2StarServerInterval*maxNumberOfRcrrp], the longest time the service may
    take to answer a request. *)
Definition rcrrp_budget (session : Z) : spec_float :=
  F32.mul (p2star_interval session) (F32.of_Z rcrrp_count).

(** The S3 interval as [CheckAndRestartS3Timer] computes it. *)
Definition s3_interval_scaled : option Z :=
  to_unsigned 32 (F64.mul (s3_server_max (get_common_props cfg)) (F64.of_Z 1000)).

(** The S3 interval as [SessionCtrlResp] and [DiagIndicationHandler] compute it. *)
Definition s3_interval_truncated : option Z :=
  s ← to_unsigned 32 (s3_server_max (get_common_props cfg)); Some (u32 (s * 1000)).
End Intervals.

Section Send.
Variable env : Env.
Let cfg : Config := config env.

Definition taf_doip_DiagRequest (to : AddrInfo) (data : list Z) : M Mgr le_result_t :=
  emit (DoipRequest to data);; gets (fun m => doip_DiagRequest env (trace m)).

Definition SetNRC (sid errorCode : Z) : M Mgr le_result_t :=
  wr sendBuf 0 UDS_NEGATIVE_RESP_SID;;
  wr sendBuf 1 sid;;
  wr sendBuf 2 errorCode;;
  sendDataLen ::= UDS_NEG_RESP_LEN;;
  mret LE_OK.

Definition CheckAndSendCancelFileXferEvent : M Mgr unit :=
  emit (IndEvent SET_STATE_AND_CANCEL_FILE_TRANSFER_RESULT
          [ind_msg_code CANCEL_FILE_TRANSFER_RESULT; 0]).

Definition CheckAndRestartTesterStateTimer (isRespFromSvc : bool) : M Mgr unit :=
  m ← get;
  let testerStateTimer := TESTER_STATE_CHANGE_TIMER in
  when (SFltb (F32.of_Z testerStateTimer) (rcrrp_budget cfg (SessionType m)))
    (if negb isRespFromSvc
     then UdsTimerEventReport TESTER_STATE_TIMER_CHECK_TO_RESTART testerStateTimer (interface m)
     else UdsTimerEventReport TESTER_STATE_TIMER_RESTART testerStateTimer (interface m)).

Definition CheckAndRestartS3Timer (serviceId : Z) (isRespFromSvc : bool) : M Mgr unit :=
  m ← get;
  when isRespFromSvc
    (UdsTimerEventReport P2STAR_TIMER_STOP 0 (interface m);;
     when (negb (readyToRecvData m))
       (readyToRecvData ::= true;; CheckAndSendCancelFileXferEvent));;
  s3ServerInterval ← demand (s3_interval_scaled cfg) BadConversion;
  when (SFltb (F32.of_Z s3ServerInterval) (rcrrp_budget cfg (SessionType m)))
    (if negb isRespFromSvc
     then UdsTimerEventReport S3_TIMER_CHECK_TO_RESTART s3ServerInterval (interface m)
     else when (negb (serviceId =? SESSION_CONTROL_REQUEST_ID))
            (UdsTimerEventReport S3_TIMER_RESTART s3ServerInterval (interface m))).

Definition SendData (sid errorCode : Z) (addrInfoPtr : AddrInfo) : M Mgr unit :=
  let respAddrInfo := mkAddrInfo (ta addrInfoPtr) (sa addrInfoPtr) (taType addrInfoPtr)
                        (ai_vlanId addrInfoPtr) (ifName addrInfoPtr) in
  m ← get;
  data ← demand (if sid =? TESTER_PRESENT_REQUEST_ID
                 then slice (tpBuf m) (tpDataLen m)
                 else slice (sendBuf m) (sendDataLen m)) OutOfBounds;
  ret ← taf_doip_DiagRequest respAddrInfo data;
  when (bool_decide (ret = LE_OK))
    (when (negb (errorCode =? REQUEST_CORRECTLY_RECEIVED_RESPONSE_PENDING))
       (CheckAndRestartS3Timer sid false;;
        when (featureA env) (CheckAndRestartTesterStateTimer false))).

(** [GetInstance(ifName) == this]: the handlers that look an object up by the name
    of its interface do nothing when there is none. *)
Definition with_instance (name : string) (body : M Mgr unit) : M Mgr unit :=
  m ← get; when (bool_decide (name = interface m)) body.

Definition IndicateNrcStatus (name : string) (sid nrc : Z) : M Mgr unit :=
  with_instance name
    (emit (IndEvent UPDATE_SERVICE_NRC_STATUS
             [ind_msg_code UPDATE_SERVICE_NRC_STATUS; sid; nrc])).

(** [UdsIdps::SendIdpsIndMsg], on the buffers of the manager. *)
Definition SendIdpsIndMsg : M Mgr unit :=
  m ← get;
  if (sendDataLen m <? 1) || (recvDataLen m <? 1) then mret tt else
  let report (sid status : Z) : M Mgr unit :=
    if negb (IsIDPSSupported cfg sid) then mret tt else
    data ← demand (slice (recvBuf m) (if recvDataLen m <? 32 then recvDataLen m else 32))
             OutOfBounds;
    emit (IdpsEvent (mkIdpsMsg (sa (addrInfo m)) (ta (addrInfo m)) (ai_vlanId (addrInfo m))
                       sid status data)) in
  b0 ← rd sendBuf 0;
  if b0 =? UDS_NEGATIVE_RESP_SID then
    if negb (sendDataLen m =? UDS_NEG_RESP_LEN) then mret tt else
    sid ← rd sendBuf 1;
    status ← rd sendBuf 2;
    if status =? REQUEST_CORRECTLY_RECEIVED_RESPONSE_PENDING then mret tt else
    report sid status
  else report (Z.land b0 (Z.lnot 0x40)) 0.

Definition SendNRC (sid errorCode : Z) (addrInfoPtr : AddrInfo) : M Mgr le_result_t :=
  if sid =? TESTER_PRESENT_REQUEST_ID then
    wr tpBuf 0 UDS_NEGATIVE_RESP_SID;;
    wr tpBuf 1 TESTER_PRESENT_REQUEST_ID;;
    wr tpBuf 2 errorCode;;
    tpDataLen ::= UDS_NEG_RESP_LEN;;
    SendData sid errorCode addrInfoPtr;;
    mret LE_OK
  else
    wr sendBuf 0 UDS_NEGATIVE_RESP_SID;;
    wr sendBuf 1 sid;;
    wr sendBuf 2 errorCode;;
    sendDataLen ::= UDS_NEG_RESP_LEN;;
    SendData sid errorCode addrInfoPtr;;
    if errorCode =? REQUEST_CORRECTLY_RECEIVED_RESPONSE_PENDING then mret LE_OK else
    m ← get;
    (if featureA env
     then when (((sid =? TRANSFER_DATA_REQUEST_ID)
                 || (sid =? REQUEST_TRANSFER_EXIT_REQUEST_ID)
                 || (sid =? REQUEST_FILE_TRANSFER_REQUEST_ID))
                && negb (errorCode =? BUSY_REPEAT_REQ)
                && negb (errorCode =? REQUEST_CORRECTLY_RECEIVED_RESPONSE_PENDING))
            (IndicateNrcStatus (interface m) sid errorCode)
     else when (IsIDPSAvailable cfg) SendIdpsIndMsg);;
    mret LE_OK.

Definition StoreAttCntToTree : M Mgr unit :=
  m ← get;
  emit (CfgSetInt ("tafDiagSvc:/authentication/" +:+ interface m +:+ "/Att_Cnt")
          (authAttCnt m)).

Definition StoreDelayTimeToTree : M Mgr unit :=
  m ← get;
  emit (CfgSetInt ("tafDiagSvc:/authentication/" +:+ interface m +:+ "/Delay_time")
          (authDelayTime m)).
End Send.

(** ** Well-formed objects and the part of the state a transmission leaves alone *)
Record wf (m : Mgr) : Prop := mkWf {
  wf_recvBuf : Z.of_nat (length (recvBuf m)) = UDS_MAX_DATA_SIZE;
  wf_sendBuf : Z.of_nat (length (sendBuf m)) = UDS_MAX_DATA_SIZE;
  wf_tpBuf : Z.of_nat (length (tpBuf m)) = UDS_NEG_RESP_LEN;
  wf_recvDataLen : 0 <= recvDataLen m;
  wf_sendDataLen : 0 <= sendDataLen m <= UDS_MAX_DATA_SIZE;
  wf_tpDataLen : 0 <= tpDataLen m <= UDS_NEG_RESP_LEN;
  wf_bytes : Forall is_byte (recvBuf m) }.

(** Two states that differ at most in the send buffers and in the trace. *)
Definition core (m : Mgr) : Mgr :=
  m <| sendBuf := [] |> <| sendDataLen := 0 |> <| tpBuf := [] |> <| tpDataLen := 0 |>
    <| trace := [] |>.
Definition same_core (m m' : Mgr) : Prop := core m = core m'.
Infix "≈c" := same_core (at level 70) : telaf_scope.

#[export] Instance same_core_equiv : Equivalence same_core.
Proof. split; unfold same_core; congruence. Qed.

Ltac solve_core_proper := intros m m' H; apply (f_equal _ H).
#[export] Instance recvBuf_core : Proper (same_core ==> eq) recvBuf.
Proof. intros m m' H. exact (f_equal recvBuf H). Qed.
#[export] Instance recvDataLen_core : Proper (same_core ==> eq) recvDataLen.
Proof. intros m m' H. exact (f_equal recvDataLen H). Qed.
#[export] Instance SessionType_core : Proper (same_core ==> eq) SessionType.
Proof. intros m m' H. exact (f_equal SessionType H). Qed.
#[export] Instance readyToRecvData_core : Proper (same_core ==> eq) readyToRecvData.
Proof. intros m m' H. exact (f_equal readyToRecvData H). Qed.
#[export] Instance isInternalHandle_core : Proper (same_core ==> eq) isInternalHandle.
Proof. intros m m' H. exact (f_equal isInternalHandle H). Qed.
#[export] Instance interface_core : Proper (same_core ==> eq) interface.
Proof. intros m m' H. exact (f_equal interface H). Qed.
#[export] Instance authState_core : Proper (same_core ==> eq) authState.
Proof. intros m m' H. exact (f_equal authState H). Qed.
#[export] Instance mSecurityAccess_core : Proper (same_core ==> eq) mSecurityAccess.
Proof. intros m m' H. exact (f_equal mSecurityAccess H). Qed.

(** ** What a run sends *)

(** The messages handed to the DoIP stack, in order. *)
Definition sent (es : list Effect) : list (AddrInfo * list Z) :=
  omap (fun e => match e with DoipRequest to d => Some (to, d) | _ => None end) es.

(** The requests passed on to the diagnostic service. *)
Definition is_service_indication (e : Effect) : bool :=
  match e with IndEvent UDS_SERVICE_MSG_INDICATION_ID _ => true | _ => false end.
Definition service_indications (es : list Effect) : nat :=
  length (filter (fun e => is_service_indication e = true) es).

(** An effect that neither answers a request nor passes it on. *)
Definition quiet (e : Effect) : Prop :=
  match e with
  | DoipRequest _ _ => False
  | IndEvent UDS_SERVICE_MSG_INDICATION_ID _ => False
  | _ => True
  end.

Lemma sent_app es es' : sent (es ++ es') = sent es ++ sent es'.
Proof. apply omap_app. Qed.
Lemma service_indications_app es es' :
  service_indications (es ++ es') = (service_indications es + service_indications es')%nat.
Proof. unfold service_indications. by rewrite filter_app, length_app. Qed.

Lemma quiet_sent es : Forall quiet es -> sent es = [].
Proof. induction 1 as [|[] es He]; simpl in *; done. Qed.
Lemma quiet_indications es : Forall quiet es -> service_indications es = 0%nat.
Proof.
  induction 1 as [|[| |[]| | | | | | |] es He]; unfold service_indications in *; simpl in *; done.
Qed.

(** [m'] is reached from [m] by effects satisfying [P]. *)
Definition emits (m m' : Mgr) (P : list Effect -> Prop) : Prop :=
  exists es, trace m' = trace m ++ es /\ P es.
Definition quietly (m m' : Mgr) : Prop := emits m m' (Forall quiet).

Lemma quietly_refl m : quietly m m.
Proof. exists []. by rewrite app_nil_r. Qed.
Lemma quietly_trans m1 m2 m3 : quietly m1 m2 -> quietly m2 m3 -> quietly m1 m3.
Proof.
  intros (es1 & H1 & Q1) (es2 & H2 & Q2). exists (es1 ++ es2).
  rewrite H2, H1, app_assoc. split; [done|by apply Forall_app].
Qed.
Lemma emits_quietly m1 m2 m3 P :
  emits m1 m2 P -> quietly m2 m3 -> emits m1 m3 (fun es => exists e1 e2,
    es = e1 ++ e2 /\ P e1 /\ Forall quiet e2).
Proof.
  intros (es1 & H1 & Q1) (es2 & H2 & Q2). exists (es1 ++ es2).
  rewrite H2, H1, app_assoc. eauto 10.
Qed.
Lemma quietly_emits m1 m2 m3 P :
  quietly m1 m2 -> emits m2 m3 P -> emits m1 m3 (fun es => exists e1 e2,
    es = e1 ++ e2 /\ Forall quiet e1 /\ P e2).
Proof.
  intros (es1 & H1 & Q1) (es2 & H2 & Q2). exists (es1 ++ es2).
  rewrite H2, H1, app_assoc. eauto 10.
Qed.

(** The response address of a request: source and target exchanged. *)
Definition reply_to (a : AddrInfo) : AddrInfo :=
  mkAddrInfo (ta a) (sa a) (taType a) (ai_vlanId a) (ifName a).

(** Configurations whose S3 interval, in milliseconds, is a 32-bit value. *)
Class S3Representable (cfg : Config) : Prop :=
  s3_scaled_defined : is_Some (s3_interval_scaled cfg).

(** ** Specifications *)

(** Only the trace grows, by quiet effects. *)
Definition log (m : Mgr) (es : list Effect) : Mgr := m <| trace := trace m ++ es |>.
Definition only_logs (m m' : Mgr) : Prop := exists es, m' = log m es /\ Forall quiet es.

Lemma log_nil m : log m [] = m.
Proof. unfold log. rewrite app_nil_r. by destruct m. Qed.
Lemma log_app m es es' : log (log m es) es' = log m (es ++ es').
Proof. unfold log. simpl. by rewrite <- app_assoc. Qed.
Lemma trace_log m es : trace (log m es) = trace m ++ es.
Proof. done. Qed.
Lemma only_logs_refl m : only_logs m m.
Proof. exists []. by rewrite log_nil. Qed.
Lemma only_logs_trans m1 m2 m3 : only_logs m1 m2 -> only_logs m2 m3 -> only_logs m1 m3.
Proof.
  intros (es & -> & ?) (es' & -> & ?). exists (es ++ es').
  rewrite log_app. split; [done|by apply Forall_app].
Qed.
Lemma only_logs_one m e : quiet e -> only_logs m (log m [e]).
Proof. intros. exists [e]. auto. Qed.
Lemma only_logs_quietly m m' : only_logs m m' -> quietly m m'.
Proof. intros (es & -> & ?). by exists es. Qed.
Lemma only_logs_core m m' : only_logs m m' -> m ≈c m'.
Proof. by intros (es & -> & _). Qed.
Lemma only_logs_wf m m' : only_logs m m' -> wf m -> wf m'.
Proof. intros (es & -> & _) []. by split. Qed.
Lemma wf_log m es : wf m -> wf (log m es).
Proof. intros []. by split. Qed.
#[export] Hint Resolve wf_log only_logs_refl only_logs_one only_logs_core only_logs_wf
  only_logs_quietly quietly_refl : telaf.

#[export] Hint Extern 1 (quiet _) => exact I : telaf.

Lemma wp_emit e Q m : Q tt (log m [e]) -> wp (emit e) Q m.
Proof. done. Qed.
Lemma wp_assign_ {T} (p : Mgr -> T) `{!Field p} v Q m : Q tt (m <| p := v |>) -> wp (p ::= v) Q m.
Proof. done. Qed.

(** One step of a method of the manager. *)
Ltac uds_step :=
  lazymatch goal with
  | |- wp (emit _) _ _ => apply wp_emit
  | |- wp (UdsTimerEventReport _ _ _) _ _ => apply wp_emit
  | |- wp (assign_ _ _) _ _ => apply wp_assign_
  | |- _ => wp_step
  end; cbv beta.
Ltac uds_steps := repeat uds_step.

(** One message to [to], then quiet effects; nothing else but the send buffers and the
    trace changes. *)
Definition answers (m m' : Mgr) (to : AddrInfo) (data : list Z) : Prop :=
  m ≈c m' /\ wf m' /\ emits m m' (fun es => exists es', es = DoipRequest to data :: es' /\
    Forall quiet es').

Lemma answers_log m m1 to d es :
  m ≈c m1 -> trace m1 = trace m -> wf m1 -> Forall quiet es ->
  answers m (log m1 (DoipRequest to d :: es)) to d.
Proof.
  intros Hc Ht Hwf Hes. split_and!; [done|by apply wf_log|].
  exists (DoipRequest to d :: es). cbn. rewrite Ht. eauto.
Qed.

(** Writing the first three bytes. *)
Definition put3 (b : list Z) (x y z : Z) : list Z := splice (splice (splice b 0 [x]) 1 [y]) 2 [z].
#[global] Arguments put3 : simpl never.
Lemma put3_cons b x y z : 3 <= Z.of_nat (length b) ->
  put3 b x y z = x :: y :: z :: drop 3 b.
Proof. unfold put3. destruct b as [|? [|? [|? b]]]; simpl; try lia. done. Qed.
Lemma length_put3 b x y z : 3 <= Z.of_nat (length b) -> length (put3 b x y z) = length b.
Proof. intros. rewrite put3_cons by done. simpl. rewrite length_drop. lia. Qed.

Lemma wp_put3 (p : Mgr -> list Z) `{!Field p} x y z {A} (k : M Mgr A) Q m :
  (forall v m', p (m' <| p := v |>) = v) ->
  (forall v w m', m' <| p := v |> <| p := w |> = m' <| p := w |>) ->
  3 <= Z.of_nat (length (p m)) ->
  wp k Q (m <| p := put3 (p m) x y z |>) ->
  wp (wr p 0 x;; wr p 1 y;; wr p 2 z;; k) Q m.
Proof.
  intros Hget Hput Hlen Hk.
  assert (H1 : length (splice (p m) 0 [x]) = length (p m)) by (apply length_splice; cbn [length]; lia).
  assert (H2 : length (splice (splice (p m) 0 [x]) 1 [y]) = length (p m))
    by (rewrite length_splice; cbn [length]; lia).
  apply wp_bind, wp_cpy; cbn [length]; try lia.
  apply wp_bind, wp_cpy; rewrite ?Hget, ?Hput; cbn [length]; try lia.
  apply wp_bind, wp_cpy; rewrite ?Hget, ?Hput; cbn [length]; try lia.
  exact Hk.
Qed.

Section SendSpecs.
Variable env : Env.
Context `{!S3Representable (config env)}.

Lemma CheckAndRestartTesterStateTimer_logs b m :
  wp (CheckAndRestartTesterStateTimer env b) (fun _ m' => only_logs m m') m.
Proof.
  unfold CheckAndRestartTesterStateTimer. uds_steps; auto with telaf.
Qed.

Lemma CheckAndRestartS3Timer_logs sid m :
  wp (CheckAndRestartS3Timer env sid false) (fun _ m' => only_logs m m') m.
Proof.
  unfold CheckAndRestartS3Timer. destruct s3_scaled_defined as [z Hz].
  uds_steps; try done. eapply wp_demand; [exact Hz|].
  uds_steps; simpl in *; try done; auto with telaf.
Qed.

Lemma SendIdpsIndMsg_logs m :
  wf m -> wp (SendIdpsIndMsg env) (fun _ m' => only_logs m m') m.
Proof.
  intros []. unfold SendIdpsIndMsg.
  assert (Hslice : is_Some (slice (recvBuf m) (if recvDataLen m <? 32 then recvDataLen m else 32))).
  { unfold slice. destruct (Z.ltb_spec (recvDataLen m) 32); rewrite decide_True by lia; eauto. }
  destruct Hslice as [d Hd].
  assert (Hreport : forall sid status, wp
    (if negb (IsIDPSSupported (config env) sid) then mret tt else
     data ← demand (slice (recvBuf m) (if recvDataLen m <? 32 then recvDataLen m else 32))
              OutOfBounds;
     emit (IdpsEvent (mkIdpsMsg (sa (addrInfo m)) (ta (addrInfo m)) (ai_vlanId (addrInfo m))
             sid status data))) (fun _ m' => only_logs m m') m).
  { intros. wp_steps; auto with telaf. eapply wp_demand; [exact Hd|].
    uds_step. auto with telaf. }
  do 3 wp_step; [wp_step; auto with telaf|].
  cbv zeta. wp_step. apply wp_rd; [lia|]. intros b0 _. wp_step; [|apply Hreport].
  wp_step; [wp_step; auto with telaf|].
  wp_step. apply wp_rd; [lia|]. intros b1 _. wp_step. apply wp_rd; [lia|]. intros b2 _.
  wp_step; [wp_step; auto with telaf|]. apply Hreport.
Qed.

Lemma IndicateNrcStatus_logs name sid nrc m :
  wp (IndicateNrcStatus name sid nrc) (fun _ m' => only_logs m m') m.
Proof.
  unfold IndicateNrcStatus, with_instance. uds_steps; auto with telaf.
Qed.

Lemma SendData_spec sid err a m :
  wf m -> wp (SendData env sid err a) (fun _ m' => exists es, m' = log m
    (DoipRequest (reply_to a)
       (if sid =? TESTER_PRESENT_REQUEST_ID then take (Z.to_nat (tpDataLen m)) (tpBuf m)
        else take (Z.to_nat (sendDataLen m)) (sendBuf m)) :: es) /\ Forall quiet es) m.
Proof.
  intros []. unfold SendData, taf_doip_DiagRequest, reply_to.
  set (data := if sid =? _ then take _ (tpBuf m) else _).
  do 3 uds_step. eapply (wp_demand _ _ data).
  { unfold slice, data. destruct (sid =? _); rewrite decide_True by lia; done. }
  do 5 uds_step; [|by exists []].
  uds_step; [|by exists []].
  uds_step. eapply wp_conseq; [apply CheckAndRestartS3Timer_logs; eauto|].
  intros [] m1 (es1 & -> & Hes1). rewrite log_app.
  uds_step; [|by eauto].
  eapply wp_conseq; [apply CheckAndRestartTesterStateTimer_logs|].
  intros [] m2 (es2 & -> & Hes2). rewrite log_app.
  exists (es1 ++ es2). split; [done|by apply Forall_app].
Qed.

Lemma SendNRC_spec sid err a m :
  wf m -> wp (SendNRC env sid err a) (fun r m' => r = LE_OK /\
    answers m m' (reply_to a) [UDS_NEGATIVE_RESP_SID; sid; err]) m.
Proof.
  intros Hwf. pose proof Hwf as []. unfold SendNRC. uds_step.
  - apply Z.eqb_eq in Hif as ->. apply (wp_put3 tpBuf); [done..|lia|].
    do 3 uds_step. set (m1 := _ <| tpDataLen := _ |>).
    assert (Hwf1 : wf m1) by (split; cbn; rewrite ?length_put3; try lia; done).
    eapply wp_conseq; [by apply SendData_spec|].
    intros [] m2 (es & -> & Hes). uds_step. split; [done|].
    change (if 62 =? 62 then _ else _) with (take 3 (put3 (tpBuf m) 127 62 err)).
    rewrite put3_cons by lia. by apply answers_log.
  - apply (wp_put3 sendBuf); [done..|lia|].
    do 3 uds_step. set (m1 := _ <| sendDataLen := _ |>).
    assert (Hwf1 : wf m1) by (split; cbn; rewrite ?length_put3; try lia; done).
    eapply wp_conseq; [by apply SendData_spec|].
    rewrite Hif. change (take _ (sendBuf m1)) with (take 3 (put3 (sendBuf m) 127 sid err)).
    rewrite put3_cons by lia. change (take 3 _) with [127; sid; err].
    intros [] m2 (es & -> & Hes).
    assert (Hfin : forall m3, only_logs (log m1 (DoipRequest (reply_to a) [127; sid; err] :: es)) m3 ->
      answers m m3 (reply_to a) [127; sid; err]).
    { intros m3 (es' & -> & Hes'). rewrite log_app. apply answers_log; [done..|].
      by apply Forall_app. }
    uds_step; [uds_step; auto with telaf|]. do 5 uds_step.
    + eapply wp_conseq; [apply IndicateNrcStatus_logs|].
      intros [] m3 Hm3. uds_step; auto.
    + uds_step; auto with telaf.
    + eapply wp_conseq; [by apply SendIdpsIndMsg_logs, wf_log|].
      intros [] m3 Hm3. uds_step; auto.
    + uds_step; auto with telaf.
Qed.
End SendSpecs.
