(* ===== verification/Idps.v ===== *)
(** * The UDS stack: reports to the intrusion-detection service

    [IdpsHandler] of [tafIDPS.cpp], which runs in the IDPS thread: it turns the message
    that [SendIdpsIndMsg] reported into the record the callback is given, or drops it.
    The message's buffer is zero-initialised, so that bytes past its length are zero. *)
From S2P Require Import Prelude DiagCfg UdsTypes UdsSend.

(** [taf_uds_IdpsStatusInfo_t]; the arrays are the lists of their used bytes. *)
Record IdpsStatusInfo := mkIdpsStatusInfo {
  securityLevel : Z;
  is_sid : Z;
  is_status : Z;
  is_data : list Z;
  is_extraData : list Z }.

Record IdpsCallbackInfo := mkIdpsCallbackInfo {
  cb_sa : Z;
  cb_ta : Z;
  cb_vlanId : Z;
  idpsStatusInfo : IdpsStatusInfo }.

Definition dataBuf (msg : IdpsMsg) (i : nat) : Z := default 0 (idps_dataBuf msg !! i).
Definition idps_dataLen (msg : IdpsMsg) : Z := Z.of_nat (length (idps_dataBuf msg)).

(** The parameters of a positive response: [data] and [extraData], or nothing to report. *)
Definition positive_params (msg : IdpsMsg) : option (list Z * list Z) :=
  let d := dataBuf msg in
  let len := idps_dataLen msg in
  let sid := idps_sid msg in
  if sid =? ECU_RESET_REQUEST_ID then
    if len <? 2 then None else Some ([d 1%nat], [])
  else if sid =? SECURITY_ACCESS_REQUEST_ID then
    if len <? 2 then None else
    if negb (Z.land (d 1%nat) 0x7F mod 2 =? 0) then None else Some ([d 1%nat], [])
  else if sid =? WRITE_DID_REQUEST_ID then
    if len <? 4 then None else Some ([d 1%nat; d 2%nat], [])
  else if sid =? INPUT_OUTPUT_CONTROL_REQUEST_ID then
    if len <? 4 then None else Some ([d 1%nat; d 2%nat], [d 3%nat])
  else if sid =? ROUTINE_CONTROL_REQUEST_ID then
    if len <? 4 then None else Some ([d 1%nat], [d 2%nat; d 3%nat])
  else if sid =? REQUEST_TRANSFER_EXIT_REQUEST_ID then Some ([], [])
  else if sid =? REQUEST_FILE_TRANSFER_REQUEST_ID then
    if len <? 4 then None else Some ([d 1%nat], [])
  else None.

(** The services whose negative responses are reported. *)
Definition nrc_monitored (sid : Z) : bool :=
  bool_decide (sid ∈ [ECU_RESET_REQUEST_ID; SECURITY_ACCESS_REQUEST_ID; AUTHENTICATION_REQUEST_ID;
    INPUT_OUTPUT_CONTROL_REQUEST_ID; ROUTINE_CONTROL_REQUEST_ID; REQUEST_TRANSFER_EXIT_REQUEST_ID;
    REQUEST_FILE_TRANSFER_REQUEST_ID; REQUEST_DOWNLOAD_REQUEST_ID; REQUEST_UPLOAD_REQUEST_ID;
    READ_MEMORY_BY_ADDR_REQUEST_ID; WRITE_MEMORY_BY_ADDR_REQUEST_ID;
    DYNAMICALLY_DEFINE_DID_REQUEST_ID]).

Definition negative_params (msg : IdpsMsg) : option (list Z * list Z) :=
  if idps_sid msg =? WRITE_DID_REQUEST_ID then
    if idps_dataLen msg <? 4 then None else Some ([dataBuf msg 1; dataBuf msg 2], [])
  else if nrc_monitored (idps_sid msg) then Some ([], [])
  else None.

(** The record reported to the main thread, [None] when the handler returns early. *)
Definition IdpsHandler (msg : IdpsMsg) : option IdpsCallbackInfo :=
  params ← (if idps_status msg =? 0 then positive_params msg else negative_params msg);
  Some (mkIdpsCallbackInfo (idps_sa msg) (idps_ta msg) (idps_vlanId msg)
    (mkIdpsStatusInfo
       (if (idps_sid msg =? SECURITY_ACCESS_REQUEST_ID) || (idps_sid msg =? AUTHENTICATION_REQUEST_ID)
        then 2 else 1)
       (idps_sid msg) (idps_status msg) params.1 params.2)).
