(* ===== verification/SecAccess.v ===== *)
(** * Security access (service 0x27): the state machine of [tafSecurityAccess.cpp]

    One active object per interface holds, for every session of the configuration,
    its security levels, the level a seed was requested for ([active_level]) and the
    level that is unlocked ([unlocked_level]). The handlers of the four states are
    run by the security-access thread; the thread that reports an event waits on a
    semaphore that the handlers post. *)
From S2P Require Import Prelude DiagCfg UdsTypes UdsSend.

(** ** Assignable fields *)
Definition eta_level (l : SecurityLevel_t) : SecurityLevel_t :=
  mkSecurityLevel_t (Security_Level l) (Att_Cnt l) (Att_Cnt_Limit l) (Static_Seed l)
    (Delay_Timer l) (key_size l) (seed_size l) (request_seed_id l).
#[export] Instance set_Att_Cnt : Field Att_Cnt := ltac:(field_of eta_level).

Definition eta_session (s : SecuritySession_t) : SecuritySession_t :=
  mkSecuritySession_t (session_id s) (level_list s) (active_level s) (unlocked_level s).
#[export] Instance set_level_list : Field level_list := ltac:(field_of eta_session).
#[export] Instance set_active_level : Field active_level := ltac:(field_of eta_session).
#[export] Instance set_unlocked_level : Field unlocked_level := ltac:(field_of eta_session).

Definition eta_AO (a : AO_SecurityAccess) : AO_SecurityAccess :=
  mkAO (state_fn a) (session_list a) (current_session a) (default_session a)
    (last_pending_session_id a) (last_pending_signal a) (ao_ifname a).
#[export] Instance set_state_fn : Field state_fn := ltac:(field_of eta_AO).
#[export] Instance set_session_list : Field session_list := ltac:(field_of eta_AO).
#[export] Instance set_current_session : Field current_session := ltac:(field_of eta_AO).
#[export] Instance set_last_pending_session_id : Field last_pending_session_id :=
  ltac:(field_of eta_AO).
#[export] Instance set_last_pending_signal : Field last_pending_signal :=
  ltac:(field_of eta_AO).

(** ** Lists of sessions and levels *)

(** The first session with an identifier, and the first level of a session with a
    number, with their positions. *)
Definition find_session (l : list SecuritySession_t) (id : Z) : option (nat * SecuritySession_t) :=
  list_find (fun s => session_id s = id) l.
Definition find_level (l : list SecurityLevel_t) (lvl : Z) : option (nat * SecurityLevel_t) :=
  list_find (fun x => Security_Level x = lvl) l.

Definition deref_level (l : list SecuritySession_t) (p : LevelPtr) : option SecurityLevel_t :=
  s ← l !! p.1; level_list s !! p.2.

(** The first level, in the order of the nested loops, whose attempt counter is at its
    limit. *)
Fixpoint first_exhausted_from (i : nat) (l : list SecuritySession_t) : option LevelPtr :=
  match l with
  | [] => None
  | s :: l' =>
      match list_find (fun x => Att_Cnt x = Att_Cnt_Limit x) (level_list s) with
      | Some (j, _) => Some (i, j)
      | None => first_exhausted_from (S i) l'
      end
  end.
Definition first_exhausted (l : list SecuritySession_t) : option LevelPtr :=
  first_exhausted_from 0 l.

(** [printf]'s [%02X]. *)
Definition hex_digit (d : Z) : string :=
  String (Ascii.ascii_of_nat (Z.to_nat (if d <? 10 then 48 + d else 55 + d))) EmptyString.
Fixpoint hex_digits (fuel : nat) (z : Z) (acc : string) : string :=
  match fuel with
  | O => acc
  | S n =>
      let acc := hex_digit (z mod 16) +:+ acc in
      if z / 16 =? 0 then acc else hex_digits n (z / 16) acc
  end.
Definition fmt_02X (z : Z) : string :=
  if z <? 16 then "0" +:+ hex_digit z else hex_digits 8 z "".

Definition att_cnt_node (ifname : string) (session level : Z) : string :=
  ifname +:+ "/" +:+ fmt_02X session +:+ "/" +:+ fmt_02X level +:+ "/Att_Cnt".

(** ** Events *)
Record SecAccReport_t := mkReport {
  rtype : SecAccSignal_t;
  rsem : bool;            (* [sem] is a semaphore on which a thread waits *)
  ris_internal : bool }.  (* [is_internal] points to the reporter's variable *)

Inductive MSig := M_ENTRY | M_EXIT | M_INIT | M_USER (ev : SecAccReport_t).
Inductive MState_t := M_Handled | M_Ignored | M_Transition.

Section SecAccess.
Variable env : Env.

Definition self : M Mgr AO_SecurityAccess := gets mSecurityAccess.
Definition self_set {T} (p : AO_SecurityAccess -> T) `{!Field p} (v : T) : M Mgr unit :=
  modify (fun m => m <| mSecurityAccess := (mSecurityAccess m) <| p := v |> |>).

(** [self->current_session] dereferenced. *)
Definition current : M Mgr (nat * SecuritySession_t) :=
  a ← self;
  i ← demand (current_session a) NullDeref;
  s ← demand (session_list a !! i) NullDeref;
  mret (i, s).

Definition current_set {T} (p : SecuritySession_t -> T) `{!Field p} (v : T) : M Mgr unit :=
  c ← current;
  a ← self;
  self_set session_list (<[c.1 := c.2 <| p := v |>]> (session_list a)).

(** [self->current_session->active_level] dereferenced. *)
Definition active : M Mgr (LevelPtr * SecurityLevel_t) :=
  c ← current;
  p ← demand (active_level c.2) NullDeref;
  a ← self;
  l ← demand (deref_level (session_list a) p) NullDeref;
  mret (p, l).

Definition set_level (p : LevelPtr) (l : SecurityLevel_t) : M Mgr unit :=
  a ← self;
  s ← demand (session_list a !! p.1) NullDeref;
  self_set session_list (<[p.1 := s <| level_list := <[p.2 := l]> (level_list s) |>]>
                           (session_list a)).

Definition set_active_Att_Cnt (v : Z) : M Mgr unit :=
  al ← active; set_level al.1 (al.2 <| Att_Cnt := v |>).

Definition TryToPostSemaphore (ev : SecAccReport_t) : M Mgr unit :=
  when (rsem ev)
    (m ← get; semCount ::= semCount m + 1;; emit SemPost).

Definition set_is_internal (ev : SecAccReport_t) (b : bool) : M Mgr unit :=
  if ris_internal ev then isInternalHandle ::= b else raise NullDeref.

Definition bits_to_bytes (n : Z) : Z := if n mod 8 =? 0 then n / 8 else n / 8 + 1.

Definition ResponseAllZeroSeed (ev : SecAccReport_t) : M Mgr unit :=
  m ← get;
  wr sendBuf 0 (u8 (recvSid m + 0x40));;
  wr sendBuf 1 (Z.land (recvSubFunc m) 0x7F);;
  al ← active;
  let seed_byte_size := bits_to_bytes (seed_size al.2) in
  cpy sendBuf 2 (replicate (Z.to_nat seed_byte_size) 0);;
  sendDataLen ::= u16 (2 + seed_byte_size);;
  SendData env (recvSid m) 0 (udsRespAddrInfo m);;
  set_is_internal ev true;;
  remoteError ::= LE_OK;;
  TryToPostSemaphore ev.

Definition ResponseNRC (ev : SecAccReport_t) (nrc : Z) : M Mgr unit :=
  (if negb (nrc =? 0) then
     set_is_internal ev true;;
     m ← get;
     result ← SendNRC env (recvSid m) nrc (udsRespAddrInfo m);
     remoteError ::= result
   else
     set_is_internal ev false;;
     remoteError ::= LE_OK);;
  TryToPostSemaphore ev.

Definition SetResponseNRC (ev : SecAccReport_t) (nrc : Z) : M Mgr unit :=
  nrcCode ::= nrc;; TryToPostSemaphore ev.

Definition LoadAttCntAndDelayTimer : M Mgr unit :=
  m ← get;
  let a := mSecurityAccess m in
  let load (s : SecuritySession_t) (l : SecurityLevel_t) :=
    l <| Att_Cnt := u32 (default 0 (cfg_GetInt env (trace m)
           (att_cnt_node (ao_ifname a) (session_id s) (Security_Level l)))) |> in
  self_set session_list
    ((fun s => s <| level_list := load s <$> level_list s |>) <$> session_list a).

Definition PreConditionIsNotFulfilled : M Mgr bool :=
  m ← get;
  let sub_function := Z.land (recvSubFunc m) 0x7F in
  if SessionType m =? DEFAULT_SESSION then mret true else
  mret (negb (match find_session (session_list (mSecurityAccess m)) (SessionType m) with
              | Some (_, s) => bool_decide (is_Some (find_level (level_list s) sub_function))
              | None => false
              end)).

Definition MsgLengthIsNok (sig : SecAccSignal_t) : M Mgr bool :=
  recv_buf_len ← gets recvDataLen;
  match sig with
  | REQUEST_SEED_SIG => mret (recv_buf_len <? 2)
  | SEND_KEY_SIG =>
      if recv_buf_len <? 3 then mret true else
      c ← current;
      _ ← demand (active_level c.2) Fatal;
      _ ← active;
      mret false
  | _ => mret false
  end.

Definition DelayTimerIsNotExpired : M Mgr bool :=
  running ← le_timer_IsRunning env secAccDelayTimer;
  if (running : bool) then mret true else
  a ← self;
  match first_exhausted (session_list a) with
  | Some p =>
      l ← demand (deref_level (session_list a) p) NullDeref;
      emit (TimerCall secAccDelayTimer (TimerSetMsInterval (u32 (Delay_Timer l * 1000))));;
      emit (TimerCall secAccDelayTimer TimerStart);;
      self_set current_session (Some p.1);;
      current_set active_level (Some p);;
      mret true
  | None => mret false
  end.

Definition ActivateSubfunction : M Mgr unit :=
  m ← get;
  let sub_function := Z.land (recvSubFunc m) 0x7F in
  match find_session (session_list (mSecurityAccess m)) (SessionType m) with
  | Some (i, s) =>
      match find_level (level_list s) sub_function with
      | Some (j, _) => current_set active_level (Some (i, j))
      | None => mret tt
      end;;
      self_set current_session (Some i)
  | None => mret tt
  end;;
  a ← self;
  _ ← demand (current_session a) Fatal;
  c ← current;
  _ ← demand (active_level c.2) Fatal;
  mret tt.

Definition UnlockRequestedSecLevelAndLockOthers : M Mgr unit :=
  c ← current;
  al ← demand (active_level c.2) Fatal;
  ul ← demand (unlocked_level c.2) Fatal;
  when (bool_decide (al <> ul))
    (current_set unlocked_level (Some al);; current_set active_level None).

Definition SaveAttCntToTree : M Mgr unit :=
  a ← self;
  c ← current;
  al ← active;
  emit (CfgSetInt ("tafDiagSvc:/security_access/" +:+
          att_cnt_node (ao_ifname a) (session_id c.2) (Security_Level al.2)) (Att_Cnt al.2)).

Definition RequestedSubFunctionIsStaticSeed (ev : SecAccReport_t) : M Mgr bool :=
  m ← get;
  let sub_function :=
    match rtype ev with
    | REQUEST_SEED_RESPONSE_SIG => Z.land (recvSubFunc m) 0x7F
    | SEND_KEY_RESPONSE_SIG => u8 (Z.land (recvSubFunc m) 0x7F - 1)
    | _ => 0
    end in
  c ← current;
  mret (match find_level (level_list c.2) sub_function with
        | Some (_, l) => Static_Seed l
        | None => false
        end).

Definition SecAccTypeIsNotActive : M Mgr bool :=
  m ← get;
  al ← active;
  mret (negb (Security_Level al.2 =? Z.land (recvSubFunc m) 0x7F)).

Definition KeyIsNok : M Mgr bool := gets (fun m => nrcCode m =? INVALID_KEY).

Definition TriggerDelayTimer : M Mgr unit :=
  running ← le_timer_IsRunning env secAccDelayTimer;
  when running (emit (TimerCall secAccDelayTimer TimerStop));;
  al ← active;
  emit (TimerCall secAccDelayTimer (TimerSetMsInterval (u32 (Delay_Timer al.2 * 1000))));;
  emit (TimerCall secAccDelayTimer TimerStart).

Definition UnlockCurrentSecLevel : M Mgr unit :=
  c ← current; current_set unlocked_level (active_level c.2).

(** [current_session] becomes the session with identifier [id]. *)
Definition switch_session (id : Z) : M Mgr unit :=
  a ← self;
  if id =? DEFAULT_SESSION then self_set current_session (Some (default_session a))
  else
    self_set current_session (fst <$> find_session (session_list a) id);;
    a' ← self;
    _ ← demand (current_session a') Fatal;
    mret tt.

Definition SwitchSessionBasedOnEvent : M Mgr unit :=
  m ← get; switch_session (SessionType m).

Definition RequestedLevelIsUnlocked : M Mgr bool :=
  m ← get;
  c ← current;
  match unlocked_level c.2 with
  | None => mret false
  | Some p =>
      l ← demand (deref_level (session_list (mSecurityAccess m)) p) NullDeref;
      mret (Security_Level l =? Z.land (recvSubFunc m) 0x7F)
  end.

Definition LockCurrentSession : M Mgr unit := current_set unlocked_level None.

Definition DeactivateAndLock : M Mgr unit :=
  current_set active_level None;; LockCurrentSession.

Definition SwitchSessionAfterDelayTimerTimeout : M Mgr unit :=
  a ← self;
  switch_session (last_pending_session_id a);;
  self_set last_pending_signal INVALID_SIG;;
  self_set last_pending_session_id 0xFF.

Definition MarkLastPendingSession (sig : SecAccSignal_t) : M Mgr unit :=
  self_set last_pending_signal sig;;
  match sig with
  | SESSION_CONTROL_SIG => m ← get; self_set last_pending_session_id (u8 (SessionType m))
  | SESSION_TIMEOUT_SIG => self_set last_pending_session_id 0xFF
  | _ => raise Fatal
  end.

(** [M_Translate] *)
Definition M_Translate (target : SecAccState) : M Mgr MState_t :=
  self_set state_fn target;; mret M_Transition.
Definition to_default_session : M Mgr unit :=
  a ← self; self_set current_session (Some (default_session a)).

(** ** The state handlers *)

Definition handled (c : M Mgr unit) : M Mgr MState_t := c;; mret M_Handled.
Definition transition (c : M Mgr unit) (target : SecAccState) : M Mgr MState_t :=
  c;; M_Translate target.

Definition hdlr_LockedNoActiveSeed (e : MSig) : M Mgr MState_t :=
  match e with
  | M_USER ev =>
    match rtype ev with
    | REQUEST_SEED_SIG =>
        nok ← MsgLengthIsNok REQUEST_SEED_SIG;
        if (nok : bool) then handled (ResponseNRC ev 0x13) else
        waiting ← DelayTimerIsNotExpired;
        if (waiting : bool) then handled (ResponseNRC ev 0x37) else
        unfulfilled ← PreConditionIsNotFulfilled;
        if (unfulfilled : bool) then handled (ResponseNRC ev 0x22) else
        handled (ResponseNRC ev 0x00)
    | REQUEST_SEED_RESPONSE_SIG =>
        nrc ← gets nrcCode;
        if nrc =? 0x00
        then transition (ActivateSubfunction;; SetResponseNRC ev 0x00) LockedWaitingForKey
        else handled (SetResponseNRC ev nrc)
    | SEND_KEY_SIG => handled (ResponseNRC ev 0x24)
    | DELAY_TIMER_EXPIRED_SIG =>
        handled
          (set_active_Att_Cnt 0;;
           SaveAttCntToTree;;
           a ← self;
           when (bool_decide (last_pending_signal a <> INVALID_SIG))
             (DeactivateAndLock;; SwitchSessionAfterDelayTimerTimeout))
    | SESSION_CONTROL_SIG =>
        waiting ← DelayTimerIsNotExpired;
        handled
          ((if (waiting : bool) then MarkLastPendingSession SESSION_CONTROL_SIG
            else DeactivateAndLock;; SwitchSessionBasedOnEvent);;
           TryToPostSemaphore ev)
    | SESSION_TIMEOUT_SIG =>
        waiting ← DelayTimerIsNotExpired;
        handled
          ((if (waiting : bool) then MarkLastPendingSession SESSION_TIMEOUT_SIG
            else DeactivateAndLock;; to_default_session);;
           TryToPostSemaphore ev)
    | _ => mret M_Ignored
    end
  | _ => mret M_Ignored
  end.

(** The answer of the service to a seed request, common to the two states that wait
    for a key; [idle] is the state a refused request leads to. *)
Definition waiting_seed_response (ev : SecAccReport_t) (idle : SecAccState) : M Mgr MState_t :=
  nrc ← gets nrcCode;
  if nrc =? 0x00 then
    static ← RequestedSubFunctionIsStaticSeed ev;
    if (static : bool) then
      inactive ← SecAccTypeIsNotActive;
      if (inactive : bool) then handled (ActivateSubfunction;; SetResponseNRC ev 0x00)
      else handled (SetResponseNRC ev 0x00)
    else handled (ActivateSubfunction;; SetResponseNRC ev 0x00)
  else transition (SetResponseNRC ev nrc) idle.

(** The tester's key, common to the same states. *)
Definition waiting_send_key (ev : SecAccReport_t) (idle : SecAccState) : M Mgr MState_t :=
  nok ← MsgLengthIsNok SEND_KEY_SIG;
  if (nok : bool) then transition (ResponseNRC ev 0x13) idle else
  m ← get;
  al ← active;
  if negb (Z.land (recvSubFunc m) 0x7F =? Security_Level al.2 + 1)
  then transition (ResponseNRC ev 0x24) idle
  else handled (ResponseNRC ev 0x00).

(** The verdict of the service on the key; [unlock] is done when it is good. *)
Definition waiting_key_response (ev : SecAccReport_t) (idle : SecAccState)
    (unlock : M Mgr unit) : M Mgr MState_t :=
  nok ← KeyIsNok;
  if (nok : bool) then
    al ← active;
    if Att_Cnt_Limit al.2 <=? u32 (Att_Cnt al.2 + 1) then
      transition
        (set_active_Att_Cnt (Att_Cnt_Limit al.2);; SaveAttCntToTree;; TriggerDelayTimer;;
         SetResponseNRC ev 0x36) idle
    else
      transition
        (set_active_Att_Cnt (u32 (Att_Cnt al.2 + 1));; SaveAttCntToTree;;
         SetResponseNRC ev 0x35) idle
  else
    nrc ← gets nrcCode;
    if negb (nrc =? 0x00) then transition (SetResponseNRC ev nrc) idle else
    al ← active;
    when (negb (Att_Cnt al.2 =? 0)) (set_active_Att_Cnt 0;; SaveAttCntToTree);;
    unlock;;
    _ ← RequestedSubFunctionIsStaticSeed ev;
    transition (SetResponseNRC ev 0x00) UnlockedNoActiveSeed.

Definition waiting_session_control (ev : SecAccReport_t) : M Mgr MState_t :=
  transition (DeactivateAndLock;; SwitchSessionBasedOnEvent;; TryToPostSemaphore ev)
    LockedNoActiveSeed.
Definition waiting_session_timeout (ev : SecAccReport_t) : M Mgr MState_t :=
  transition (DeactivateAndLock;; to_default_session;; TryToPostSemaphore ev)
    LockedNoActiveSeed.

Definition hdlr_LockedWaitingForKey (e : MSig) : M Mgr MState_t :=
  match e with
  | M_USER ev =>
    match rtype ev with
    | REQUEST_SEED_SIG =>
        nok ← MsgLengthIsNok REQUEST_SEED_SIG;
        if (nok : bool) then transition (ResponseNRC ev 0x13) LockedNoActiveSeed
        else handled (ResponseNRC ev 0x00)
    | REQUEST_SEED_RESPONSE_SIG => waiting_seed_response ev LockedNoActiveSeed
    | SEND_KEY_SIG => waiting_send_key ev LockedNoActiveSeed
    | SEND_KEY_RESPONSE_SIG =>
        waiting_key_response ev LockedNoActiveSeed UnlockCurrentSecLevel
    | SESSION_CONTROL_SIG => waiting_session_control ev
    | SESSION_TIMEOUT_SIG => waiting_session_timeout ev
    | _ => mret M_Ignored
    end
  | _ => mret M_Ignored
  end.

Definition hdlr_UnlockedNoActiveSeed (e : MSig) : M Mgr MState_t :=
  match e with
  | M_USER ev =>
    match rtype ev with
    | REQUEST_SEED_SIG =>
        nok ← MsgLengthIsNok REQUEST_SEED_SIG;
        if (nok : bool) then handled (ResponseNRC ev 0x13) else
        unfulfilled ← PreConditionIsNotFulfilled;
        if (unfulfilled : bool) then handled (ResponseNRC ev 0x22) else
        waiting ← DelayTimerIsNotExpired;
        if (waiting : bool) then handled (ResponseNRC ev 0x37) else
        unlocked ← RequestedLevelIsUnlocked;
        if (unlocked : bool) then handled (ResponseAllZeroSeed ev) else
        handled (ResponseNRC ev 0x00)
    | REQUEST_SEED_RESPONSE_SIG =>
        nrc ← gets nrcCode;
        if nrc =? 0x00
        then transition (ActivateSubfunction;; SetResponseNRC ev 0x00) UnlockedWaitingForKey
        else handled (SetResponseNRC ev nrc)
    | SEND_KEY_SIG => handled (ResponseNRC ev 0x24)
    | DELAY_TIMER_EXPIRED_SIG =>
        set_active_Att_Cnt 0;;
        SaveAttCntToTree;;
        a ← self;
        if bool_decide (last_pending_signal a <> INVALID_SIG)
        then transition (DeactivateAndLock;; SwitchSessionAfterDelayTimerTimeout)
               LockedNoActiveSeed
        else mret M_Handled
    | SESSION_CONTROL_SIG =>
        waiting ← DelayTimerIsNotExpired;
        if (waiting : bool)
        then handled (MarkLastPendingSession SESSION_CONTROL_SIG;; LockCurrentSession;;
                      TryToPostSemaphore ev)
        else transition (DeactivateAndLock;; SwitchSessionBasedOnEvent;;
                         TryToPostSemaphore ev) LockedNoActiveSeed
    | SESSION_TIMEOUT_SIG =>
        waiting ← DelayTimerIsNotExpired;
        if (waiting : bool)
        then handled (MarkLastPendingSession SESSION_TIMEOUT_SIG;; LockCurrentSession;;
                      TryToPostSemaphore ev)
        else transition (DeactivateAndLock;; to_default_session;;
                         TryToPostSemaphore ev) LockedNoActiveSeed
    | _ => mret M_Ignored
    end
  | _ => mret M_Ignored
  end.

Definition hdlr_UnlockedWaitingForKey (e : MSig) : M Mgr MState_t :=
  match e with
  | M_USER ev =>
    match rtype ev with
    | REQUEST_SEED_SIG =>
        nok ← MsgLengthIsNok REQUEST_SEED_SIG;
        if (nok : bool) then transition (ResponseNRC ev 0x13) UnlockedNoActiveSeed else
        unlocked ← RequestedLevelIsUnlocked;
        if (unlocked : bool) then transition (ResponseAllZeroSeed ev) UnlockedNoActiveSeed
        else handled (ResponseNRC ev 0x00)
    | REQUEST_SEED_RESPONSE_SIG => waiting_seed_response ev UnlockedNoActiveSeed
    | SEND_KEY_SIG => waiting_send_key ev UnlockedNoActiveSeed
    | SEND_KEY_RESPONSE_SIG =>
        waiting_key_response ev UnlockedNoActiveSeed UnlockRequestedSecLevelAndLockOthers
    | SESSION_CONTROL_SIG => waiting_session_control ev
    | SESSION_TIMEOUT_SIG => waiting_session_timeout ev
    | _ => mret M_Ignored
    end
  | _ => mret M_Ignored
  end.

Definition hdlr_initial (e : MSig) : M Mgr MState_t :=
  LoadAttCntAndDelayTimer;; to_default_session;; M_Translate LockedNoActiveSeed.

Definition state_handler (st : SecAccState) : MSig -> M Mgr MState_t :=
  match st with
  | State_initial => hdlr_initial
  | LockedNoActiveSeed => hdlr_LockedNoActiveSeed
  | LockedWaitingForKey => hdlr_LockedWaitingForKey
  | UnlockedNoActiveSeed => hdlr_UnlockedNoActiveSeed
  | UnlockedWaitingForKey => hdlr_UnlockedWaitingForKey
  end.

Definition MFsm_init : M Mgr unit :=
  a ← self;
  _ ← state_handler (state_fn a) M_INIT;
  a' ← self;
  _ ← state_handler (state_fn a') M_ENTRY;
  mret tt.

Definition MFsm_dispatch (e : MSig) : M Mgr unit :=
  a ← self;
  st ← state_handler (state_fn a) e;
  match st with
  | M_Transition =>
      _ ← state_handler (state_fn a) M_EXIT;
      a' ← self;
      _ ← state_handler (state_fn a') M_ENTRY;
      mret tt
  | _ => mret tt
  end.

(** [SecurityAccessEventHandler] *)
Definition SecurityAccessEventHandler (report : SecAccReport_t) : M Mgr unit :=
  MFsm_dispatch (M_USER report).

(** [SecAcc_DelayTimerHandler]'s report, once the security-access thread takes it. *)
Definition delay_timer_expired : M Mgr unit :=
  SecurityAccessEventHandler (mkReport DELAY_TIMER_EXPIRED_SIG false false).

(** A report whose sender waits on a fresh semaphore: [true] when it was posted. *)
Definition report_and_wait (sig : SecAccSignal_t) (with_internal : bool) : M Mgr bool :=
  semCount ::= 0;;
  SecurityAccessEventHandler (mkReport sig true with_internal);;
  m ← get;
  mret (0 <? semCount m).

(** ** Queries of the service checks *)
Definition SecurityAccess_IsUnlocked : M Mgr bool :=
  c ← current; mret (bool_decide (is_Some (unlocked_level c.2))).

Definition SecurityAccess_IsLevelUnlocked (level : Z) : M Mgr bool :=
  c ← current;
  match unlocked_level c.2 with
  | None => mret false
  | Some p =>
      a ← self;
      l ← demand (deref_level (session_list a) p) NullDeref;
      mret (level =? u8 (Security_Level l))
  end.
End SecAccess.

(** ** Construction *)
Definition make_level (e : SessionSecurLvlEntry) : SecurityLevel_t :=
  mkSecurityLevel_t (u16 (ssl_level_id e)) 0 (u32 (ssl_num_failed_security_access e))
    (ssl_static_seed e) (u16 (ssl_security_delay_time e)) (u32 (ssl_key_size e))
    (u32 (ssl_seed_size e)) (u32 (ssl_request_seed_id e)).

Definition GetDefaultSession : SecuritySession_t := mkSecuritySession_t 0xFF [] None None.

(** [AO_SecurityAccess_ctor] *)
Definition AO_SecurityAccess_ctor (cfg : Config) (ifname : string) : AO_SecurityAccess :=
  let configured := (fun b => mkSecuritySession_t (u8 (sb_session_id b.2))
                                (make_level <$> (sb_security_level b.2).*2) None None)
                      <$> secur_binding (diagConf cfg) in
  mkAO State_initial (configured ++ [GetDefaultSession]) None (length configured)
    0xFF INVALID_SIG ifname.
