(* ===== verification/SecAccessSpec.v ===== *)
(** * Security access: what the state machine guarantees

    The invariant of the active object ([ao_ok]), who may unlock a level
    ([unlock_requires_valid_key]), the attempt counters, the relocking on session
    changes, and the contract of the two requests of the tester. *)
From S2P Require Import Prelude DiagCfg UdsTypes UdsSend SecAccess.

(** ** Unlocking *)

Definition waiting_for_key (st : SecAccState) : bool :=
  match st with LockedWaitingForKey | UnlockedWaitingForKey => true | _ => false end.

Definition session_of (m : Mgr) (i : nat) : option SecuritySession_t :=
  session_list (mSecurityAccess m) !! i.
Definition unlocked_in (m : Mgr) (i : nat) (p : LevelPtr) : Prop :=
  exists s, session_of m i = Some s /\ unlocked_level s = Some p.
Definition active_in (m : Mgr) (i : nat) (p : LevelPtr) : Prop :=
  exists s, session_of m i = Some s /\ active_level s = Some p.

(** No level becomes unlocked. *)
Definition locks (m m' : Mgr) : Prop := forall i p, unlocked_in m' i p -> unlocked_in m i p.

#[export] Instance locks_preorder : PreOrder locks.
Proof. split; [by intros ???|]. intros m1 m2 m3 H1 H2 i p H. auto. Qed.

(** At most the active level of the current session becomes unlocked. *)
Definition unlocks_active (m m' : Mgr) : Prop :=
  current_session (mSecurityAccess m') = current_session (mSecurityAccess m) /\
  (forall i p, active_in m' i p -> active_in m i p) /\
  (forall i p, unlocked_in m' i p -> unlocked_in m i p \/
     (current_session (mSecurityAccess m) = Some i /\ active_in m i p)).

#[export] Instance unlocks_active_preorder : PreOrder unlocks_active.
Proof.
  split; [by intros m; split_and!; auto|].
  intros m1 m2 m3 (C1 & A1 & U1) (C2 & A2 & U2). split_and!; [congruence|auto|].
  intros i p [H|[Hc H]]%U2; [by apply U1|]. right. rewrite <- C1. auto.
Qed.

(** Steps that leave the whole object alone. *)
Definition same_ao (m m' : Mgr) : Prop := mSecurityAccess m' = mSecurityAccess m.
#[export] Instance same_ao_preorder : PreOrder same_ao.
Proof. split; unfold same_ao; [done|]. intros ???. congruence. Qed.

(** ** The primitive steps on the object *)

Definition with_sessions (m : Mgr) (l : list SecuritySession_t) : Mgr :=
  m <| mSecurityAccess := (mSecurityAccess m) <| session_list := l |> |>.

Lemma session_of_insert (m : Mgr) i s j :
  is_Some (session_of m i) ->
  session_of (with_sessions m (<[i:=s]> (session_list (mSecurityAccess m)))) j =
  (if decide (j = i) then Some s else session_of m j).
Proof.
  intros [? Hi%lookup_lt_Some]. unfold session_of. cbn. case_decide; subst.
  - by apply list_lookup_insert_eq.
  - by apply list_lookup_insert_ne.
Qed.

Lemma current_run m c m' :
  current m = Done (c, m') ->
  m' = m /\ current_session (mSecurityAccess m) = Some c.1 /\ session_of m c.1 = Some c.2.
Proof.
  unfold current. intros (a & m1 & [= <- <-] & H)%bind_run.
  apply bind_run in H as (i & m1 & [Hi ->]%demand_run & H).
  apply bind_run in H as (s & m1 & [Hs ->]%demand_run & [= <- <-]). done.
Qed.

Lemma current_set_run {T} (p : SecuritySession_t -> T) `{!Field p} v m a m' :
  current_set p v m = Done (a, m') ->
  exists i s, current_session (mSecurityAccess m) = Some i /\ session_of m i = Some s /\
    m' = with_sessions m (<[i:=s <| p := v |>]> (session_list (mSecurityAccess m))).
Proof.
  unfold current_set. intros (c & m1 & (-> & Hc & Hs)%current_run & H)%bind_run.
  injection H as _ <-. eauto.
Qed.

Lemma active_run m al m' :
  active m = Done (al, m') ->
  m' = m /\ deref_level (session_list (mSecurityAccess m)) al.1 = Some al.2 /\
  exists i, current_session (mSecurityAccess m) = Some i /\ active_in m i al.1.
Proof.
  unfold active. intros (c & m1 & (-> & Hc & Hs)%current_run & H)%bind_run.
  apply bind_run in H as (p & m1 & [Hp ->]%demand_run & H).
  apply bind_run in H as (a & m1 & [= <- <-] & H).
  apply bind_run in H as (l & m1 & [Hl ->]%demand_run & [= <- <-]).
  unfold active_in. eauto 10.
Qed.

Lemma set_level_run p l m a m' :
  set_level p l m = Done (a, m') ->
  exists s, session_of m p.1 = Some s /\
    m' = with_sessions m (<[p.1:=s <| level_list := <[p.2:=l]> (level_list s) |>]>
           (session_list (mSecurityAccess m))).
Proof.
  unfold set_level. intros (b & m1 & [= <- <-] & H)%bind_run.
  apply bind_run in H as (s & m1 & [Hs ->]%demand_run & [= _ <-]). eauto.
Qed.

Section Unlock.
Variable env : Env.

Lemma keeps_same_ao_to (R : relation Mgr) {A} (c : M Mgr A) :
  (forall m m', same_ao m m' -> R m m') -> keeps same_ao c -> keeps R c.
Proof. intros H Hc m a m' E. apply H. by eapply Hc. Qed.

Ltac same_leaf :=
  idtac; match goal with
  | |- keeps same_ao (modify _) => apply keeps_modify; intros ?; reflexivity
  | |- keeps same_ao get => apply keeps_gets; typeclasses eauto
  end.
Ltac same_ao_tac := keeps_with same_leaf.

Lemma cpy_same_ao (p : Mgr -> list Z) `{!Field p} i src :
  (forall m v, mSecurityAccess (m <| p := v |>) = mSecurityAccess m) ->
  keeps same_ao (cpy p i src).
Proof.
  intros H. unfold cpy. keeps_with same_leaf. apply keeps_modify. intros m. apply H.
Qed.
Lemma emit_same_ao e : keeps same_ao (emit e).
Proof. unfold emit. same_ao_tac. Qed.
Lemma assign_same_ao {T} (p : Mgr -> T) `{!Field p} v :
  (forall m v, mSecurityAccess (m <| p := v |>) = mSecurityAccess m) ->
  keeps same_ao (p ::= v).
Proof. intros H. apply keeps_modify. intros m. apply H. Qed.

Lemma report_same_ao ev i n : keeps same_ao (UdsTimerEventReport ev i n).
Proof. apply emit_same_ao. Qed.
Lemma doip_same_ao a d : keeps same_ao (taf_doip_DiagRequest env a d).
Proof. unfold taf_doip_DiagRequest. keeps_with ltac:(apply emit_same_ao). Qed.
Lemma wr_same_ao (p : Mgr -> list Z) `{!Field p} i v :
  (forall m v, mSecurityAccess (m <| p := v |>) = mSecurityAccess m) -> keeps same_ao (wr p i v).
Proof. apply cpy_same_ao. Qed.
Lemma rd_same_ao (p : Mgr -> list Z) i : keeps same_ao (rd p i).
Proof. unfold rd. same_ao_tac. Qed.

Ltac io_leaf :=
  idtac; match goal with
  | |- keeps same_ao (modify _) => apply keeps_modify; intros ?; reflexivity
  | |- keeps same_ao get => apply keeps_gets; typeclasses eauto
  | |- keeps same_ao (emit _) => apply emit_same_ao
  | |- keeps same_ao (UdsTimerEventReport _ _ _) => apply report_same_ao
  | |- keeps same_ao (assign_ _ _) => apply assign_same_ao; reflexivity
  | |- keeps same_ao (wr _ _ _) => apply wr_same_ao; reflexivity
  | |- keeps same_ao (cpy _ _ _) => apply cpy_same_ao; reflexivity
  | |- keeps same_ao (rd _ _) => apply rd_same_ao
  | |- keeps same_ao (taf_doip_DiagRequest _ _ _) => apply doip_same_ao
  end.

Lemma SendIdpsIndMsg_same_ao : keeps same_ao (SendIdpsIndMsg env).
Proof. unfold SendIdpsIndMsg. keeps_with io_leaf. Qed.
Lemma SendData_same_ao sid err a : keeps same_ao (SendData env sid err a).
Proof.
  unfold SendData, CheckAndRestartS3Timer, CheckAndRestartTesterStateTimer,
    CheckAndSendCancelFileXferEvent. keeps_with io_leaf.
Qed.
Lemma SendNRC_same_ao sid err a : keeps same_ao (SendNRC env sid err a).
Proof.
  unfold SendNRC, IndicateNrcStatus, with_instance.
  keeps_with ltac:(first [io_leaf|apply SendData_same_ao|apply SendIdpsIndMsg_same_ao]).
Qed.
Lemma ResponseNRC_same_ao ev nrc : keeps same_ao (ResponseNRC env ev nrc).
Proof.
  unfold ResponseNRC, TryToPostSemaphore, set_is_internal.
  keeps_with ltac:(first [io_leaf|apply SendNRC_same_ao]).
Qed.
Lemma SetResponseNRC_same_ao ev nrc : keeps same_ao (SetResponseNRC ev nrc).
Proof. unfold SetResponseNRC, TryToPostSemaphore. keeps_with io_leaf. Qed.
Lemma TryToPostSemaphore_same_ao ev : keeps same_ao (TryToPostSemaphore ev).
Proof. unfold TryToPostSemaphore. keeps_with io_leaf. Qed.
Lemma current_same_ao : keeps same_ao current.
Proof. intros m c m' H. apply current_run in H as (-> & _). reflexivity. Qed.
Lemma active_same_ao : keeps same_ao active.
Proof. intros m c m' H. apply active_run in H as (-> & _). reflexivity. Qed.
Lemma ResponseAllZeroSeed_same_ao ev : keeps same_ao (ResponseAllZeroSeed env ev).
Proof.
  unfold ResponseAllZeroSeed, TryToPostSemaphore, set_is_internal.
  keeps_with ltac:(first [io_leaf|apply SendData_same_ao|apply active_same_ao]).
Qed.

Lemma self_set_locks {T} (p : AO_SecurityAccess -> T) `{!Field p} v :
  (forall a v, session_list (a <| p := v |>) = session_list a) -> keeps locks (self_set p v).
Proof.
  intros H. apply keeps_modify. intros m i q. unfold unlocked_in, session_of. cbn. by rewrite H.
Qed.

(** Replacing a session by one whose unlocked level is the same or none. *)
Lemma with_sessions_locks m i s s' :
  session_of m i = Some s -> (unlocked_level s' = unlocked_level s \/ unlocked_level s' = None) ->
  locks m (with_sessions m (<[i:=s']> (session_list (mSecurityAccess m)))).
Proof.
  intros Hs Hu j q (x & Hx & Hq). rewrite session_of_insert in Hx by eauto.
  case_decide; [|by exists x]. simplify_eq. exists s. split; [done|]. destruct Hu; congruence.
Qed.

Lemma current_set_locks {T} (p : SecuritySession_t -> T) `{!Field p} v :
  (forall s, unlocked_level (s <| p := v |>) = unlocked_level s \/
             unlocked_level (s <| p := v |>) = None) -> keeps locks (current_set p v).
Proof.
  intros H m a m' (i & s & _ & Hs & ->)%current_set_run. by eapply with_sessions_locks.
Qed.
Lemma set_level_locks p l : keeps locks (set_level p l).
Proof.
  intros m a m' (s & Hs & ->)%set_level_run. eapply with_sessions_locks; [done|by left].
Qed.
Lemma Load_locks : keeps locks (LoadAttCntAndDelayTimer env).
Proof.
  intros m a m' [= _ <-] i q (x & Hx & Hq). unfold session_of in *. cbn in Hx.
  rewrite list_lookup_fmap in Hx. apply fmap_Some in Hx as (s & Hs & ->). by exists s.
Qed.

Lemma same_ao_locks m m' : same_ao m m' -> locks m m'.
Proof. intros H i q. unfold unlocked_in, session_of. by rewrite H. Qed.
Lemma same_ao_unlocks m m' : same_ao m m' -> unlocks_active m m'.
Proof.
  intros H. unfold unlocks_active, active_in, unlocked_in, session_of. rewrite H. auto.
Qed.

Ltac ao_leaf :=
  idtac; match goal with
  | |- keeps same_ao (ResponseNRC _ _ _) => apply ResponseNRC_same_ao
  | |- keeps same_ao (SetResponseNRC _ _) => apply SetResponseNRC_same_ao
  | |- keeps same_ao (TryToPostSemaphore _) => apply TryToPostSemaphore_same_ao
  | |- keeps same_ao (ResponseAllZeroSeed _ _) => apply ResponseAllZeroSeed_same_ao
  | |- keeps same_ao current => apply current_same_ao
  | |- keeps same_ao active => apply active_same_ao
  | _ => io_leaf
  end.
Ltac lock_leaf :=
  idtac; match goal with
  | |- keeps locks (self_set _ _) => apply self_set_locks; reflexivity
  | |- keeps locks (set_level _ _) => apply set_level_locks
  | |- keeps locks (current_set active_level _) => apply current_set_locks; by left
  | |- keeps locks (current_set unlocked_level None) => apply current_set_locks; by right
  | |- keeps locks (LoadAttCntAndDelayTimer _) => apply Load_locks
  | |- keeps locks ?c => apply (keeps_same_ao_to _ _ same_ao_locks); solve [ao_leaf]
  end.

(** Every handler but the one of a good key. *)
Ltac lock_tac := keeps_with lock_leaf.

Lemma set_active_Att_Cnt_locks v : keeps locks (set_active_Att_Cnt v).
Proof. unfold set_active_Att_Cnt. lock_tac. Qed.
Lemma SaveAttCntToTree_locks : keeps locks SaveAttCntToTree.
Proof. unfold SaveAttCntToTree, self. lock_tac. Qed.
Lemma DelayTimerIsNotExpired_locks : keeps locks (DelayTimerIsNotExpired env).
Proof. unfold DelayTimerIsNotExpired, le_timer_IsRunning, self. lock_tac. Qed.
Lemma switch_session_locks id : keeps locks (switch_session id).
Proof. unfold switch_session, self. lock_tac. Qed.
Lemma ActivateSubfunction_locks : keeps locks ActivateSubfunction.
Proof. unfold ActivateSubfunction, self. lock_tac. Qed.

Ltac step_leaf :=
  idtac; match goal with
  | |- keeps locks (set_active_Att_Cnt _) => apply set_active_Att_Cnt_locks
  | |- keeps locks SaveAttCntToTree => apply SaveAttCntToTree_locks
  | |- keeps locks (DelayTimerIsNotExpired _) => apply DelayTimerIsNotExpired_locks
  | |- keeps locks (switch_session _) => apply switch_session_locks
  | |- keeps locks ActivateSubfunction => apply ActivateSubfunction_locks
  | _ => lock_leaf
  end.
Ltac handler_tac :=
  unfold handled, transition, M_Translate, MsgLengthIsNok, PreConditionIsNotFulfilled,
    RequestedLevelIsUnlocked, MarkLastPendingSession, DeactivateAndLock, LockCurrentSession,
    SwitchSessionBasedOnEvent, SwitchSessionAfterDelayTimerTimeout, to_default_session,
    RequestedSubFunctionIsStaticSeed, SecAccTypeIsNotActive, self;
  keeps_with step_leaf.

Lemma hdlr_initial_locks e : keeps locks (hdlr_initial env e).
Proof. unfold hdlr_initial. handler_tac. Qed.
Lemma hdlr_LockedNoActiveSeed_locks e : keeps locks (hdlr_LockedNoActiveSeed env e).
Proof. unfold hdlr_LockedNoActiveSeed. handler_tac. Qed.
Lemma hdlr_UnlockedNoActiveSeed_locks e : keeps locks (hdlr_UnlockedNoActiveSeed env e).
Proof. unfold hdlr_UnlockedNoActiveSeed. handler_tac. Qed.
Lemma waiting_seed_response_locks ev st : keeps locks (waiting_seed_response ev st).
Proof. unfold waiting_seed_response. handler_tac. Qed.
Lemma waiting_send_key_locks ev st : keeps locks (waiting_send_key env ev st).
Proof. unfold waiting_send_key. handler_tac. Qed.
Lemma waiting_session_control_locks ev : keeps locks (waiting_session_control ev).
Proof. unfold waiting_session_control. handler_tac. Qed.
Lemma waiting_session_timeout_locks ev : keeps locks (waiting_session_timeout ev).
Proof. unfold waiting_session_timeout. handler_tac. Qed.

(** *** A good key *)

Lemma with_sessions_unlocks m i s s' :
  current_session (mSecurityAccess m) = Some i -> session_of m i = Some s ->
  (forall p, active_level s' = Some p -> active_level s = Some p) ->
  (forall p, unlocked_level s' = Some p -> unlocked_level s = Some p \/ active_level s = Some p) ->
  unlocks_active m (with_sessions m (<[i:=s']> (session_list (mSecurityAccess m)))).
Proof.
  intros Hc Hs Ha Hu. split_and!; [done|..].
  - intros j q (x & Hx & Hq). rewrite session_of_insert in Hx by eauto.
    case_decide; [|by exists x]. simplify_eq. exists s. auto.
  - intros j q (x & Hx & Hq). rewrite session_of_insert in Hx by eauto.
    case_decide; [|left; by exists x]. simplify_eq.
    destruct (Hu _ Hq); [left|right; split; [done|]]; by exists s.
Qed.

Lemma UnlockCurrentSecLevel_unlocks : keeps unlocks_active UnlockCurrentSecLevel.
Proof.
  intros m a m'. unfold UnlockCurrentSecLevel.
  intros (c & m1 & (-> & Hc & Hs)%current_run & (i & s & Hi & Hs' & ->)%current_set_run)%bind_run.
  simplify_eq. eapply with_sessions_unlocks; eauto.
Qed.

Lemma set_level_unlocks p l : keeps unlocks_active (set_level p l).
Proof.
  intros m a m' (s & Hs & ->)%set_level_run. split_and!; [done|..].
  - intros j q (x & Hx & Hq). rewrite session_of_insert in Hx by eauto.
    case_decide; [|by exists x]. simplify_eq. by exists s.
  - intros j q (x & Hx & Hq). rewrite session_of_insert in Hx by eauto.
    left. case_decide; [|by exists x]. simplify_eq. by exists s.
Qed.

Lemma UnlockRequested_unlocks : keeps unlocks_active UnlockRequestedSecLevelAndLockOthers.
Proof.
  intros m a m'. unfold UnlockRequestedSecLevelAndLockOthers.
  intros (c & m1 & (-> & Hc & Hs)%current_run & H)%bind_run.
  apply bind_run in H as (al & m1 & [Hal ->]%demand_run & H).
  apply bind_run in H as (ul & m1 & [Hul ->]%demand_run & H).
  unfold when in H. destruct (bool_decide _); [|by injection H as _ <-].
  apply bind_run in H as (? & m1 & (i & s & Hi & Hs' & ->)%current_set_run & H).
  apply current_set_run in H as (i' & s' & Hi' & Hs'' & ->). cbn in Hi'. simplify_eq.
  rewrite session_of_insert, decide_True in Hs'' by eauto. simplify_eq.
  etrans; [eapply (with_sessions_unlocks m c.1 c.2 (c.2 <| unlocked_level := Some al |>)); eauto; cbn; intros; simplify_eq; eauto|].
  eapply with_sessions_unlocks; [done|by rewrite session_of_insert, decide_True by eauto|..];
    cbn; eauto; done.
Qed.

Lemma self_set_state_unlocks st : keeps unlocks_active (self_set state_fn st).
Proof. apply keeps_modify. intros m. unfold unlocks_active. auto. Qed.

Ltac unlock_leaf :=
  idtac; match goal with
  | |- keeps unlocks_active (set_level _ _) => apply set_level_unlocks
  | |- keeps unlocks_active (self_set state_fn _) => apply self_set_state_unlocks
  | |- keeps unlocks_active ?c =>
      apply (keeps_same_ao_to _ _ same_ao_unlocks); solve [ao_leaf]
  end.

Lemma waiting_key_response_cases ev st unlock m r m' :
  keeps unlocks_active unlock ->
  waiting_key_response env ev st unlock m = Done (r, m') ->
  locks m m' \/ (nrcCode m = 0 /\ unlocks_active m m').
Proof.
  intros Hunlock H. unfold waiting_key_response in H.
  apply bind_run in H as (nok & m1 & [= <- <-] & H). destruct (_ =? INVALID_KEY).
  { left. revert H. match goal with |- ?c m = _ -> _ => cut (keeps locks c); [intros Hk; apply Hk|] end.
    unfold TriggerDelayTimer, le_timer_IsRunning. handler_tac. }
  apply bind_run in H as (nrc & m1 & [= <- <-] & H).
  destruct (Z.eqb_spec (nrcCode m) 0) as [Hn|Hn]; cbn [negb] in H.
  2:{ left. revert H. match goal with |- ?c m = _ -> _ => cut (keeps locks c); [intros Hk; apply Hk|] end.
      handler_tac. }
  right. split; [done|]. revert H.
  match goal with |- ?c m = _ -> _ => cut (keeps unlocks_active c); [intros Hk; apply Hk|] end.
  unfold set_active_Att_Cnt, SaveAttCntToTree, transition, M_Translate,
    RequestedSubFunctionIsStaticSeed, self.
  keeps_with ltac:(idtac; first [exact Hunlock|unlock_leaf]).
Qed.

(** *** Attempt counters *)

(** Every counter stays within its limit. *)
Definition attempts_ok (m : Mgr) : Prop := forall i s l,
  session_of m i = Some s -> l ∈ level_list s -> 0 <= Att_Cnt l <= Att_Cnt_Limit l.
Definition bounds (m m' : Mgr) : Prop := attempts_ok m -> attempts_ok m'.
#[local] Instance bounds_preorder : PreOrder bounds.
Proof. split; unfold bounds; auto. Qed.

Lemma same_ao_bounds m m' : same_ao m m' -> bounds m m'.
Proof. intros H. unfold bounds, attempts_ok, session_of. by rewrite H. Qed.

Lemma self_set_bounds {T} (p : AO_SecurityAccess -> T) `{!Field p} v :
  (forall a v, session_list (a <| p := v |>) = session_list a) -> keeps bounds (self_set p v).
Proof.
  intros H. apply keeps_modify. intros m Hm i s l. unfold session_of. cbn. rewrite H. apply Hm.
Qed.

Lemma with_sessions_bounds m i s s' :
  session_of m i = Some s ->
  (attempts_ok m -> forall l, l ∈ level_list s' -> 0 <= Att_Cnt l <= Att_Cnt_Limit l) ->
  bounds m (with_sessions m (<[i:=s']> (session_list (mSecurityAccess m)))).
Proof.
  intros Hs Hl Hm j t l Ht Hin. rewrite session_of_insert in Ht by eauto.
  case_decide; simplify_eq; [by apply Hl|by eapply Hm].
Qed.

Lemma current_set_bounds {T} (p : SecuritySession_t -> T) `{!Field p} v :
  (forall s, level_list (s <| p := v |>) = level_list s) -> keeps bounds (current_set p v).
Proof.
  intros H m a m' (i & s & _ & Hs & ->)%current_set_run. eapply with_sessions_bounds; [done|].
  intros Hm l. rewrite H. by apply Hm with i.
Qed.

Lemma active_in_list m al m' :
  active m = Done (al, m') -> exists s, session_of m al.1.1 = Some s /\ level_list s !! al.1.2 = Some al.2.
Proof.
  intros (_ & Hd & _)%active_run. unfold deref_level, session_of in *.
  destruct (_ !! al.1.1) as [s|]; [eauto|done].
Qed.

Lemma set_active_Att_Cnt_bounds v m a m' al m1 :
  active m = Done (al, m1) -> (attempts_ok m -> 0 <= v <= Att_Cnt_Limit al.2) ->
  set_active_Att_Cnt v m = Done (a, m') -> bounds m m'.
Proof.
  intros Ha Hv. unfold set_active_Att_Cnt. intros (al' & m2 & Ha' & H)%bind_run.
  rewrite Ha in Ha'. injection Ha' as <- <-. pose proof Ha as Hm. apply active_run in Hm as (-> & _).
  apply active_in_list in Ha as (s & Hs & Hl).
  apply set_level_run in H as (s' & Hs' & ->). simplify_eq.
  eapply with_sessions_bounds; [exact Hs|]. intros Hm l. cbn.
  intros [j Hj]%list_elem_of_lookup_1.
  destruct (decide (j = al.1.2)) as [->|Hne].
  - rewrite list_lookup_insert_eq in Hj by (by eapply lookup_lt_Some). simplify_eq. by apply Hv.
  - rewrite list_lookup_insert_ne in Hj by done. eapply Hm; [exact Hs|].
    by eapply list_elem_of_lookup_2.
Qed.

Lemma reset_Att_Cnt_bounds : keeps bounds (set_active_Att_Cnt 0).
Proof.
  intros m a m' H. pose proof H as H'. unfold set_active_Att_Cnt in H'.
  apply bind_run in H' as (al & m1 & Ha & _). eapply set_active_Att_Cnt_bounds; [exact Ha| |exact H].
  intros Hm. apply active_in_list in Ha as (s & Hs & Hl).
  assert (0 <= Att_Cnt al.2 <= Att_Cnt_Limit al.2); [|lia].
  eapply Hm; [exact Hs|]. by eapply list_elem_of_lookup_2.
Qed.

Ltac bound_leaf :=
  idtac; match goal with
  | |- keeps bounds (self_set _ _) => apply self_set_bounds; reflexivity
  | |- keeps bounds (current_set _ _) => apply current_set_bounds; reflexivity
  | |- keeps bounds (set_active_Att_Cnt 0) => apply reset_Att_Cnt_bounds
  | |- keeps bounds ?c => apply (keeps_same_ao_to _ _ same_ao_bounds); solve [ao_leaf]
  end.
Ltac bound_tac :=
  unfold handled, transition, M_Translate, MsgLengthIsNok, PreConditionIsNotFulfilled,
    RequestedLevelIsUnlocked, MarkLastPendingSession, DeactivateAndLock, LockCurrentSession,
    SwitchSessionBasedOnEvent, SwitchSessionAfterDelayTimerTimeout, to_default_session,
    RequestedSubFunctionIsStaticSeed, SecAccTypeIsNotActive, DelayTimerIsNotExpired,
    le_timer_IsRunning, switch_session, ActivateSubfunction, SaveAttCntToTree, TriggerDelayTimer,
    UnlockCurrentSecLevel, UnlockRequestedSecLevelAndLockOthers, self;
  keeps_with bound_leaf.

Lemma waiting_key_response_bounds ev st unlock :
  keeps bounds unlock -> keeps bounds (waiting_key_response env ev st unlock).
Proof.
  intros Hunlock m r m' H. unfold waiting_key_response in H.
  apply bind_run in H as (nok & m1 & [= <- <-] & H). destruct (_ =? INVALID_KEY).
  - apply bind_run in H as (al & m1 & Ha & H). pose proof (active_run _ _ _ Ha) as (-> & _).
    assert (Hlim : attempts_ok m -> 0 <= Att_Cnt al.2 <= Att_Cnt_Limit al.2).
    { intros Hm. apply active_in_list in Ha as (s & Hs & Hl). eapply Hm; [exact Hs|].
      by eapply list_elem_of_lookup_2. }
    assert (Hk : forall v (rest : M Mgr unit), (attempts_ok m -> 0 <= v <= Att_Cnt_Limit al.2) ->
      keeps bounds rest ->
      transition (set_active_Att_Cnt v;; rest) st m = Done (r, m') -> bounds m m').
    { intros v rest Hv Hrest Hrun. apply bind_run in Hrun as (u & m2 & Hrun & Hst).
      apply bind_run in Hrun as (? & m3 & Hset & Hrun).
      transitivity m3; [by eapply set_active_Att_Cnt_bounds|].
      transitivity m2; [by eapply Hrest|]. revert Hst.
      match goal with |- ?c ?s = _ -> _ => cut (keeps bounds c); [intros Hk; apply Hk|] end.
      bound_tac. }
    destruct (_ <=? _) eqn:Hex; (eapply Hk; [|clear|exact H]).
    + intros Hm. specialize (Hlim Hm). lia.
    + bound_tac.
    + intros Hm. specialize (Hlim Hm).
      pose proof (wrap_in_width 32 (Att_Cnt al.2 + 1)) as Hw. unfold in_width in Hw. lia.
    + bound_tac.
  - revert H. match goal with |- ?c ?s = _ -> _ => cut (keeps bounds c); [intros Hk; apply Hk|] end.
    unfold SaveAttCntToTree, RequestedSubFunctionIsStaticSeed, transition, M_Translate, self.
    keeps_with ltac:(idtac; first [exact Hunlock|bound_leaf]).
Qed.

Lemma handler_bounds st e : st <> State_initial -> keeps bounds (state_handler env st e).
Proof.
  intros Hst. destruct st; [done|..]; cbn [state_handler].
  - unfold hdlr_LockedNoActiveSeed. bound_tac.
  - unfold hdlr_LockedWaitingForKey, waiting_seed_response, waiting_send_key, waiting_session_control,
      waiting_session_timeout. destruct e as [| | |[[] ? ?]]; cbn [rtype];
      try (apply waiting_key_response_bounds); bound_tac.
  - unfold hdlr_UnlockedNoActiveSeed. bound_tac.
  - unfold hdlr_UnlockedWaitingForKey, waiting_seed_response, waiting_send_key, waiting_session_control,
      waiting_session_timeout. destruct e as [| | |[[] ? ?]]; cbn [rtype];
      try (apply waiting_key_response_bounds); bound_tac.
Qed.

(** *** Whole events *)

(** Leaving and entering a state unlocks nothing. *)
Lemma quiet_state_locks st e : (forall ev, e <> M_USER ev) -> keeps locks (state_handler env st e).
Proof.
  intros He. destruct st; cbn [state_handler]; [apply hdlr_initial_locks|..].
  all: destruct e; try (apply keeps_ret; typeclasses eauto); by destruct (He ev).
Qed.

Lemma dispatch_locks e m u m' :
  MFsm_dispatch env e m = Done (u, m') ->
  exists r m1, state_handler env (state_fn (mSecurityAccess m)) e m = Done (r, m1) /\ locks m1 m'.
Proof.
  unfold MFsm_dispatch. intros (a & m0 & [= <- <-] & H)%bind_run.
  apply bind_run in H as (r & m1 & Hh & H). exists r, m1. split; [done|]. clear Hh.
  destruct r; [by injection H as _ <-..|]. revert H.
  match goal with |- ?c ?s = _ -> _ => cut (keeps locks c); [intros Hk; apply Hk|] end.
  apply keeps_bind; [typeclasses eauto|by apply quiet_state_locks|]. intros _.
  apply keeps_bind; [typeclasses eauto|apply keeps_gets; typeclasses eauto|]. intros a.
  apply keeps_bind; [typeclasses eauto|by apply quiet_state_locks|]. intros _.
  apply keeps_ret; typeclasses eauto.
Qed.

(** What a handler may unlock. *)
Lemma handler_unlocks st ev m r m' :
  state_handler env st (M_USER ev) m = Done (r, m') ->
  locks m m' \/ (rtype ev = SEND_KEY_RESPONSE_SIG /\ nrcCode m = 0 /\
                 waiting_for_key st = true /\ unlocks_active m m').
Proof.
  destruct st; cbn [state_handler].
  - intros H. left. by eapply hdlr_initial_locks.
  - intros H. left. by eapply hdlr_LockedNoActiveSeed_locks.
  - unfold hdlr_LockedWaitingForKey. destruct (rtype ev) eqn:Et; intros H.
    4:{ destruct (waiting_key_response_cases _ _ _ _ _ _ UnlockCurrentSecLevel_unlocks H)
          as [|[]]; auto. }
    all: left; revert H; match goal with |- ?c ?s = _ -> _ => cut (keeps locks c); [intros Hk; apply Hk|] end.
    all: first [apply waiting_seed_response_locks|apply waiting_send_key_locks
               |apply waiting_session_control_locks|apply waiting_session_timeout_locks|handler_tac].
  - intros H. left. by eapply hdlr_UnlockedNoActiveSeed_locks.
  - unfold hdlr_UnlockedWaitingForKey. destruct (rtype ev) eqn:Et; intros H.
    4:{ destruct (waiting_key_response_cases _ _ _ _ _ _ UnlockRequested_unlocks H)
          as [|[]]; auto. }
    all: left; revert H; match goal with |- ?c ?s = _ -> _ => cut (keeps locks c); [intros Hk; apply Hk|] end.
    all: first [apply waiting_seed_response_locks|apply waiting_send_key_locks
               |apply waiting_session_control_locks|apply waiting_session_timeout_locks|handler_tac].
Qed.

(** The machine never goes back to its initial state. *)
Definition started (m m' : Mgr) : Prop :=
  state_fn (mSecurityAccess m) <> State_initial -> state_fn (mSecurityAccess m') <> State_initial.
#[local] Instance started_preorder : PreOrder started.
Proof. split; unfold started; auto. Qed.
Lemma same_ao_started m m' : same_ao m m' -> started m m'.
Proof. intros H. unfold started. by rewrite H. Qed.

Ltac start_leaf :=
  idtac; match goal with
  | |- keeps started (self_set _ _) => apply keeps_modify; intros ? ?; by cbn
  | |- keeps started ?c => apply (keeps_same_ao_to _ _ same_ao_started); solve [ao_leaf]
  end.

Lemma handler_started st e : st <> State_initial -> keeps started (state_handler env st e).
Proof.
  intros Hst. destruct st; [done|..]; cbn [state_handler];
    unfold hdlr_LockedNoActiveSeed, hdlr_LockedWaitingForKey, hdlr_UnlockedNoActiveSeed,
      hdlr_UnlockedWaitingForKey, waiting_seed_response, waiting_send_key, waiting_key_response,
      waiting_session_control, waiting_session_timeout, handled, transition, M_Translate,
      MsgLengthIsNok, PreConditionIsNotFulfilled, RequestedLevelIsUnlocked,
      MarkLastPendingSession, DeactivateAndLock, LockCurrentSession, SwitchSessionBasedOnEvent,
      SwitchSessionAfterDelayTimerTimeout, to_default_session, RequestedSubFunctionIsStaticSeed,
      SecAccTypeIsNotActive, DelayTimerIsNotExpired, le_timer_IsRunning, switch_session,
      ActivateSubfunction, SaveAttCntToTree, TriggerDelayTimer, UnlockCurrentSecLevel, KeyIsNok,
      UnlockRequestedSecLevelAndLockOthers, set_active_Att_Cnt, set_level, current_set, self;
    keeps_with start_leaf.
Qed.

Lemma dispatch_bounds ev m m' :
  state_fn (mSecurityAccess m) <> State_initial ->
  SecurityAccessEventHandler env ev m = Done (tt, m') -> bounds m m'.
Proof.
  intros Hst. unfold SecurityAccessEventHandler, MFsm_dispatch.
  intros (a & m0 & [= <- <-] & H)%bind_run.
  apply bind_run in H as (r & m1 & Hh & H).
  pose proof (handler_bounds _ _ Hst _ _ _ Hh) as Hb.
  pose proof (handler_started _ _ Hst _ _ _ Hh Hst) as Hst1.
  destruct r; [by injection H as <-..|].
  apply bind_run in H as (r1 & m2 & Hx & H).
  assert (m2 = m1) as -> by (destruct (state_fn (mSecurityAccess m)); [done|by injection Hx..]).
  apply bind_run in H as (a' & m2 & [= <- <-] & H).
  apply bind_run in H as (r2 & m2 & He & [= <-]).
  transitivity m1; [done|]. by eapply handler_bounds.
Qed.
End Unlock.

(** ** The invariant of the object *)

(** The answer that carries an all-zero seed fits the send buffer. *)
Definition level_ok (l : SecurityLevel_t) : Prop :=
  0 <= bits_to_bytes (seed_size l) <= UDS_MAX_DATA_SIZE - 2.

Record ao_ok (a : AO_SecurityAccess) : Prop := mkAoOk {
  ok_current : exists i s, current_session a = Some i /\ session_list a !! i = Some s;
  ok_default : is_Some (session_list a !! default_session a);
  ok_ptrs : forall i s p, session_list a !! i = Some s ->
    active_level s = Some p \/ unlocked_level s = Some p ->
    is_Some (deref_level (session_list a) p);
  ok_levels : forall i s l, session_list a !! i = Some s -> l ∈ level_list s -> level_ok l;
  ok_waiting : waiting_for_key (state_fn a) = true -> exists i s p,
    current_session a = Some i /\ session_list a !! i = Some s /\ active_level s = Some p }.

(** Replacing a session keeps the pointers valid when its levels stay in place. *)
Lemma deref_insert l i s s' p :
  l !! i = Some s -> length (level_list s') = length (level_list s) ->
  is_Some (deref_level l p) -> is_Some (deref_level (<[i:=s']> l) p).
Proof.
  intros Hi Hlen [x Hx]. unfold deref_level in *. destruct (l !! p.1) as [t|] eqn:Ht; [|done].
  destruct (decide (p.1 = i)) as [Heq|Hne].
  - rewrite Heq in Ht |- *. rewrite list_lookup_insert_eq by (by eapply lookup_lt_Some). cbn in *.
    simplify_eq. apply lookup_lt_is_Some. rewrite Hlen. apply lookup_lt_is_Some. eauto.
  - rewrite list_lookup_insert_ne by done. rewrite Ht. eauto.
Qed.

Lemma first_exhausted_from_deref l i p :
  first_exhausted_from i l = Some p ->
  (i <= p.1)%nat /\ is_Some (s ← l !! (p.1 - i)%nat; level_list s !! p.2).
Proof.
  revert i. induction l as [|s l IH]; intros i; simpl; [done|].
  destruct (list_find _ _) as [[j x]|] eqn:E.
  - intros [= <-]. apply list_find_Some in E as (Hj & _). simpl. rewrite Nat.sub_diag. simpl.
    rewrite Hj. split; [lia|eauto].
  - intros [Hle Hs]%IH. split; [lia|]. by replace (p.1 - i)%nat with (S (p.1 - S i)) by lia.
Qed.
Lemma first_exhausted_deref l p : first_exhausted l = Some p -> is_Some (deref_level l p).
Proof.
  intros [_ H]%first_exhausted_from_deref. by rewrite Nat.sub_0_r in H.
Qed.

(** The object after an update of one session. *)
Definition updated (a : AO_SecurityAccess) (i : nat) (s : SecuritySession_t) (c : nat)
    (st : SecAccState) : AO_SecurityAccess :=
  a <| session_list := <[i:=s]> (session_list a) |> <| current_session := Some c |>
    <| state_fn := st |>.

Lemma ao_ok_updated a i s s' c st :
  ao_ok a -> session_list a !! i = Some s -> level_list s' = level_list s ->
  (forall p, active_level s' = Some p \/ unlocked_level s' = Some p ->
     is_Some (deref_level (session_list a) p)) ->
  is_Some (session_list a !! c) ->
  (waiting_for_key st = true -> c = i /\ is_Some (active_level s')) ->
  ao_ok (updated a i s' c st).
Proof.
  intros [] Hi Hl Hp Hc Hst.
  assert (Hlt : (i < length (session_list a))%nat) by (by eapply lookup_lt_Some).
  assert (Hdef : forall j, is_Some (session_list a !! j) -> is_Some (<[i:=s']> (session_list a) !! j)).
  { intros j. rewrite !lookup_lt_is_Some, length_insert. done. }
  split; cbn.
  - destruct (Hdef _ Hc) as [x Hx]. eauto.
  - by apply Hdef.
  - intros j t p Hj Hp'. destruct (decide (j = i)) as [->|Hne].
    + rewrite list_lookup_insert_eq in Hj by done. simplify_eq.
      eapply deref_insert; [done|by rewrite Hl|auto].
    + rewrite list_lookup_insert_ne in Hj by done.
      eapply deref_insert; [done|by rewrite Hl|eauto].
  - intros j t l Hj Hin. destruct (decide (j = i)) as [->|Hne].
    + rewrite list_lookup_insert_eq in Hj by done. simplify_eq. rewrite Hl in Hin. eauto.
    + rewrite list_lookup_insert_ne in Hj by done. eauto.
  - intros Hw. destruct (Hst Hw) as [-> [p Hp']]. exists i, s', p.
    by rewrite list_lookup_insert_eq by done.
Qed.

Lemma ao_ok_state a st :
  ao_ok a -> waiting_for_key st = false -> ao_ok (a <| state_fn := st |>).
Proof. intros [] Hst. split; try done. cbn. by rewrite Hst. Qed.

(** A step of the machine that only touches the object and reports quiet effects. *)
Definition ao_step (m m' : Mgr) : Prop :=
  exists a es, m' = log (m <| mSecurityAccess := a |>) es /\ Forall quiet es.

#[export] Instance ao_step_preorder : PreOrder ao_step.
Proof.
  split.
  - intros m. exists (mSecurityAccess m), []. rewrite log_nil. split; [by destruct m|done].
  - intros m1 m2 m3 (a & es & -> & H) (a' & es' & -> & H'). exists a', (es ++ es').
    split; [unfold log; cbn; by rewrite <- app_assoc|by apply Forall_app].
Qed.

Lemma ao_step_wf m m' : ao_step m m' -> wf m -> wf m'.
Proof. intros (a & es & -> & _) []. by split. Qed.

Lemma wp_self Q m : Q (mSecurityAccess m) m -> wp self Q m.
Proof. done. Qed.
Lemma wp_self_set {T} (p : AO_SecurityAccess -> T) `{!Field p} v Q m :
  Q tt (m <| mSecurityAccess := (mSecurityAccess m) <| p := v |> |>) -> wp (self_set p v) Q m.
Proof. done. Qed.

Lemma wp_current Q m i s :
  current_session (mSecurityAccess m) = Some i -> session_of m i = Some s ->
  Q (i, s) m -> wp current Q m.
Proof.
  intros Hi Hs HQ. unfold current. wp_step. apply wp_self. wp_step.
  eapply wp_demand; [exact Hi|]. wp_step. eapply wp_demand; [exact Hs|]. by wp_step.
Qed.
Lemma wp_current_set {T} (p : SecuritySession_t -> T) `{!Field p} v Q m i s :
  current_session (mSecurityAccess m) = Some i -> session_of m i = Some s ->
  Q tt (with_sessions m (<[i:=s <| p := v |>]> (session_list (mSecurityAccess m)))) ->
  wp (current_set p v) Q m.
Proof.
  intros Hi Hs HQ. unfold current_set. wp_step. eapply wp_current; [done..|]. wp_step.
  by apply wp_self, wp_self_set.
Qed.
Lemma wp_active Q m i s p l :
  current_session (mSecurityAccess m) = Some i -> session_of m i = Some s ->
  active_level s = Some p -> deref_level (session_list (mSecurityAccess m)) p = Some l ->
  Q (p, l) m -> wp active Q m.
Proof.
  intros Hi Hs Hp Hl HQ. unfold active. wp_step. eapply wp_current; [done..|]. wp_step.
  eapply wp_demand; [exact Hp|]. wp_step. apply wp_self. wp_step.
  eapply wp_demand; [exact Hl|]. by wp_step.
Qed.

(** ** Requests of the tester *)

(** What handling a request leaves unchanged. *)
Definition request_view (m : Mgr) :=
  (recvBuf m, recvDataLen m, SessionType m, readyToRecvData m, isPaused m, authState m,
   interface m, isResetInProgress m, addrInfo m).
Definition frame (m m' : Mgr) : Prop := request_view m' = request_view m.
#[export] Instance frame_preorder : PreOrder frame.
Proof. split; unfold frame; [done|]. intros ???. congruence. Qed.
Lemma same_core_frame m m' : m ≈c m' -> frame m m'.
Proof. intros H. symmetry. exact (f_equal request_view H). Qed.
Lemma ao_step_frame m m' : ao_step m m' -> frame m m'.
Proof. by intros (a & es & -> & _). Qed.

(** A response to service [sid]: a negative one or its positive one, no longer than the
    buffer it is built in. *)
Definition response_to (sid : Z) (data : list Z) : Prop :=
  Z.of_nat (length data) <= UDS_MAX_DATA_SIZE /\
  ((exists nrc, data = [UDS_NEGATIVE_RESP_SID; sid; nrc]) \/
   (exists rest, data = u8 (sid + 0x40) :: rest)).
Lemma response_negative sid nrc : response_to sid [UDS_NEGATIVE_RESP_SID; sid; nrc].
Proof. split; [done|]. left. eauto. Qed.
#[export] Hint Resolve response_negative : telaf.

Lemma quiet_snoc es e : Forall quiet es -> quiet e -> Forall quiet (es ++ [e]).
Proof. intros. apply Forall_app. auto. Qed.
#[export] Hint Resolve quiet_snoc : telaf.

Definition one_message (to : AddrInfo) (data : list Z) (es : list Effect) : Prop :=
  sent es = [(to, data)] /\ service_indications es = 0%nat.
Lemma one_message_intro e1 to data e2 :
  Forall quiet e1 -> Forall quiet e2 -> one_message to data (e1 ++ DoipRequest to data :: e2).
Proof.
  intros H1 H2. split.
  - rewrite sent_app, quiet_sent by done. simpl. by rewrite quiet_sent.
  - rewrite service_indications_app, quiet_indications by done.
    change (service_indications e2 = 0%nat). by apply quiet_indications.
Qed.
Lemma one_message_quiet to data es es' :
  one_message to data es -> Forall quiet es' -> one_message to data (es ++ es').
Proof.
  intros [H1 H2] Hq. split.
  - by rewrite sent_app, H1, quiet_sent.
  - by rewrite service_indications_app, H2, quiet_indications.
Qed.

(** What an event of a waiting tester leads to, relative to the state [m] in which it
    was reported: the reporter is woken once, the request is answered or left to the
    service. *)
Record event_post (m m' : Mgr) : Prop := mkEventPost {
  ep_wf : wf m';
  ep_ao : ao_ok (mSecurityAccess m');
  ep_frame : frame m m';
  ep_woken : semCount m' = semCount m + 1;
  ep_result : remoteError m' = LE_OK;
  ep_verdict :
    (isInternalHandle m' = true /\ exists data, response_to (recvSid m) data /\
       emits m m' (one_message (reply_to (udsRespAddrInfo m)) data)) \/
    (isInternalHandle m' = false /\ quietly m m') }.

Lemma event_post_state m m' st :
  event_post m m' -> waiting_for_key st = false ->
  event_post m (m' <| mSecurityAccess := (mSecurityAccess m') <| state_fn := st |> |>).
Proof.
  intros [] Hst. split; try done.
  - by destruct ep_wf0.
  - destruct ep_ao0. split; try done. cbn. by rewrite Hst.
Qed.

Section Requests.
Variable env : Env.
Context `{!S3Representable (config env)}.

(** A waiting tester's report. *)
Definition tester_report (sig : SecAccSignal_t) : SecAccReport_t := mkReport sig true true.

Lemma TryToPost_wp sig Q m :
  Q tt (log (m <| semCount := semCount m + 1 |>) [SemPost]) ->
  wp (TryToPostSemaphore (tester_report sig)) Q m.
Proof. intros H. exact H. Qed.

Lemma set_is_internal_wp sig b Q m :
  Q tt (m <| isInternalHandle := b |>) -> wp (set_is_internal (tester_report sig) b) Q m.
Proof. intros H. exact H. Qed.

Lemma ResponseNRC_exact sig nrc m0 m :
  ao_step m0 m -> wf m0 -> ao_ok (mSecurityAccess m) ->
  wp (ResponseNRC env (tester_report sig) nrc) (fun _ m' =>
    event_post m0 m' /\ mSecurityAccess m' = mSecurityAccess m /\
    (nrc <> 0 -> isInternalHandle m' = true /\ emits m0 m'
       (one_message (reply_to (udsRespAddrInfo m0)) [UDS_NEGATIVE_RESP_SID; recvSid m0; nrc]))) m.
Proof.
  intros (a & es & -> & Hes) Hwf Hao. unfold ResponseNRC. wp_step.
  apply wp_if; intros Hnrc.
  - wp_step. apply set_is_internal_wp. do 3 wp_step. eapply wp_conseq.
    { apply SendNRC_spec; [done|]. by destruct Hwf. }
    intros r m1 (-> & Hc & Hwf1 & es1 & Ht & es' & -> & Hq). uds_step.
    apply TryToPost_wp.
    pose proof (f_equal mSecurityAccess Hc) as Hc'. cbn in Hc'.
    pose proof (f_equal semCount Hc) as Hc''. cbn in Hc''.
    pose proof (f_equal isInternalHandle Hc) as Hi. cbn in Hi.
    pose proof (same_core_frame _ _ Hc) as Hf. cbn in Hf, Ht.
    assert (Hone : emits m0 (log (m1 <| remoteError := LE_OK |> <| semCount := semCount m1 + 1 |>)
      [SemPost]) (one_message (reply_to (udsRespAddrInfo m0))
                    [UDS_NEGATIVE_RESP_SID; recvSid m0; nrc])).
    { eexists. cbn. rewrite Ht, <- !app_assoc. split; [done|].
      cbn. apply one_message_intro; [done|]. by apply quiet_snoc. }
    split_and!; [split|..].
    + by destruct Hwf1.
    + cbn. by rewrite <- Hc'.
    + exact Hf.
    + cbn. by rewrite <- Hc''.
    + done.
    + left. cbn. split; [done|]. eexists. split; [apply response_negative|]. exact Hone.
    + cbn. by rewrite <- Hc'.
    + intros _. split; [done|exact Hone].
  - wp_step. apply set_is_internal_wp. uds_step. apply TryToPost_wp.
    assert (nrc = 0) as -> by lia. split_and!; [split|..]; try done.
    + by destruct Hwf.
    + right. split; [done|]. exists (es ++ [SemPost]). cbn. rewrite app_assoc.
      split; [done|]. by apply quiet_snoc.
Qed.

Lemma ResponseNRC_post sig nrc m0 m :
  ao_step m0 m -> wf m0 -> ao_ok (mSecurityAccess m) ->
  wp (ResponseNRC env (tester_report sig) nrc) (fun _ m' =>
    event_post m0 m' /\ mSecurityAccess m' = mSecurityAccess m) m.
Proof. intros. eapply wp_conseq; [by apply ResponseNRC_exact|].
  intros [] m1 (? & ? & _). done. Qed.

(** The level a pointer of the object denotes. *)
Lemma ok_deref a i s p :
  ao_ok a -> session_list a !! i = Some s -> active_level s = Some p \/ unlocked_level s = Some p ->
  exists l, deref_level (session_list a) p = Some l /\ level_ok l.
Proof.
  intros [] Hi Hp. destruct (ok_ptrs0 _ _ _ Hi Hp) as [l Hl]. exists l. split; [done|].
  unfold deref_level in Hl. destruct (_ !! p.1) as [t|] eqn:Ht; [|done].
  eapply ok_levels0; [exact Ht|]. by eapply list_elem_of_lookup_2.
Qed.

Lemma ResponseAllZeroSeed_post sig m i s p :
  wf m -> ao_ok (mSecurityAccess m) -> recvSid m = SECURITY_ACCESS_REQUEST_ID ->
  current_session (mSecurityAccess m) = Some i -> session_of m i = Some s ->
  active_level s = Some p ->
  wp (ResponseAllZeroSeed env (tester_report sig)) (fun _ m' =>
    event_post m m' /\ mSecurityAccess m' = mSecurityAccess m) m.
Proof.
  intros Hwf Hao Hsid Hi Hs Hp. pose proof Hwf as [].
  destruct (ok_deref _ _ _ _ Hao Hs (or_introl Hp)) as (l & Hl & Hlev).
  unfold ResponseAllZeroSeed. do 2 wp_step. rewrite Hsid.
  assert (L1 : length (splice (sendBuf m) 0 [u8 (39 + 64)]) = length (sendBuf m))
    by (apply length_splice; cbn [length]; lia).
  wp_step. apply wp_cpy; cbn [length]; try lia.
  wp_step. apply wp_cpy; cbn [length]; try (cbn; lia).
  wp_step. eapply (wp_active _ _ i s p l); [done..|]. wp_step.
  set (n := bits_to_bytes (seed_size (p, l).2)).
  assert (Hn : 0 <= n <= UDS_MAX_DATA_SIZE - 2) by apply Hlev. clearbody n.
  set (sub := Z.land _ _). set (m1 := _ <| sendBuf := _ |>).
  assert (L2 : length (sendBuf m1) = length (sendBuf m)).
  { unfold m1. cbn. rewrite length_splice; cbn [length]; lia. }
  apply wp_cpy; rewrite ?length_replicate; [lia..|].
  wp_step. uds_step. set (m2 := _ <| sendDataLen := _ |>).
  assert (L3 : length (sendBuf m2) = length (sendBuf m)).
  { change (sendBuf m2) with (splice (sendBuf m1) 2 (replicate (Z.to_nat n) 0)).
    rewrite length_splice; rewrite ?length_replicate; lia. }
  assert (Hlen : sendDataLen m2 = 2 + n) by (apply wrap_id; unfold in_width; lia).
  assert (Hwf2 : wf m2) by (split; [done|lia|done|done|lia|done|done]).
  wp_step. eapply wp_conseq; [by apply SendData_spec|].
  intros [] m3 (es & -> & Hes).
  change (if 39 =? 62 then _ else _) with (take (Z.to_nat (sendDataLen m2)) (sendBuf m2)).
  assert (Hdata : exists rest, take (Z.to_nat (sendDataLen m2)) (sendBuf m2) = u8 (39 + 64) :: rest).
  { destruct (sendBuf m) as [|b0 [|b1 b]] eqn:Eb; cbn [length] in wf_sendBuf; try lia.
    rewrite Hlen. unfold m2, m1. cbn. rewrite ?Eb. unfold splice.
    replace (Z.to_nat (2 + n)) with (S (S (Z.to_nat n))) by lia. cbn. eauto. }
  destruct Hdata as [rest Hdata]. rewrite Hdata.
  wp_step. apply set_is_internal_wp. uds_step. uds_step. apply TryToPost_wp.
  split; [|done]. split; try done.
  + by destruct Hwf2.
  + left. split; [done|]. exists (u8 (39 + 64) :: rest). split.
    { split; [|right; rewrite Hsid; eauto]. rewrite <- Hdata, length_take. lia. }
    eexists. cbn. rewrite <- !app_assoc. split; [done|].
    cbn. apply (one_message_intro []); [done|]. by apply quiet_snoc.
Qed.

(** The delay after too many failed attempts has not elapsed. *)
Definition delay_pending (m : Mgr) : Prop :=
  timer_IsRunning env (trace m) secAccDelayTimer = true \/
  is_Some (first_exhausted (session_list (mSecurityAccess m))).

Lemma DelayTimerIsNotExpired_step m :
  ao_ok (mSecurityAccess m) -> waiting_for_key (state_fn (mSecurityAccess m)) = false ->
  wp (DelayTimerIsNotExpired env) (fun b m' => ao_ok (mSecurityAccess m') /\ ao_step m m' /\
    state_fn (mSecurityAccess m') = state_fn (mSecurityAccess m) /\
    (if (b : bool) then delay_pending m else m' = m)) m.
Proof.
  intros Hao Hst. unfold DelayTimerIsNotExpired, le_timer_IsRunning. do 3 wp_step.
  { wp_step. split_and!; [done..|by left]. }
  wp_step. apply wp_self. destruct (first_exhausted _) as [p|] eqn:Ep; [|by wp_step].
  destruct (first_exhausted_deref _ _ Ep) as [l Hl].
  assert (exists s, session_of m p.1 = Some s) as [s Hs].
  { unfold deref_level in Hl. unfold session_of. destruct (_ !! p.1); [eauto|done]. }
  wp_step. eapply wp_demand; [exact Hl|]. do 2 uds_step. do 2 uds_step. wp_step.
  apply wp_self_set. wp_step. eapply (wp_current_set _ _ _ _ p.1 s); [done..|]. wp_step.
  set (op1 := TimerCall _ _). set (op2 := TimerCall _ TimerStart).
  set (a := updated (mSecurityAccess m) p.1 (s <| active_level := Some p |>) p.1
              (state_fn (mSecurityAccess m))).
  lazymatch goal with |- context [with_sessions ?x ?y] =>
    replace (with_sessions x y) with (log (m <| mSecurityAccess := a |>) [op1; op2])
      by (unfold with_sessions, log, a, updated; cbn; by rewrite <- app_assoc) end.
  split_and!; [|..|done|right; eauto].
  - eapply ao_ok_updated; [done..| | |].
    + cbn. intros q [[= <-]|Hq]; [eauto|]. eapply ok_ptrs; [done|exact Hs|by right].
    + eauto.
    + intros Hw. cbn. eauto.
  - exists a, [op1; op2]. split; [done|]. repeat constructor.
Qed.

Lemma current_reads m : ao_ok (mSecurityAccess m) -> reads current m.
Proof.
  intros []. destruct ok_current0 as (i & s & Hi & Hs). exists (i, s).
  unfold current, mbind, M_bind, self, gets. by rewrite Hi; cbn; rewrite Hs.
Qed.

Lemma active_reads m i s p :
  ao_ok (mSecurityAccess m) -> current_session (mSecurityAccess m) = Some i ->
  session_of m i = Some s -> active_level s = Some p -> reads active m.
Proof.
  intros Hao Hi Hs Hp. destruct (ok_deref _ _ _ _ Hao Hs (or_introl Hp)) as (l & Hl & _).
  exists (p, l). unfold active, current, self, gets, mbind, M_bind. rewrite Hi. cbn.
  unfold session_of in Hs. rewrite Hs. cbn. rewrite Hp. cbn. by rewrite Hl.
Qed.

Lemma PreCondition_reads m : reads PreConditionIsNotFulfilled m.
Proof.
  unfold PreConditionIsNotFulfilled. apply reads_bind; [apply reads_gets|]. intros.
  destruct (_ =? _); apply reads_ret.
Qed.

Lemma RequestedLevel_reads m : ao_ok (mSecurityAccess m) -> reads RequestedLevelIsUnlocked m.
Proof.
  intros Hao. unfold RequestedLevelIsUnlocked. apply reads_bind; [apply reads_gets|].
  intros m1 [= ->]. apply reads_bind; [by apply current_reads|].
  intros c (_ & Hc & Hs)%current_run. destruct (unlocked_level _) as [p|] eqn:Ep; [|apply reads_ret].
  destruct (ok_deref _ _ _ _ Hao Hs (or_intror Ep)) as (l & Hl & _).
  apply reads_bind; [apply reads_demand; rewrite Hl; eauto|]. intros. apply reads_ret.
Qed.

Lemma wp_seed_length Q m :
  Q (recvDataLen m <? 2) m -> wp (MsgLengthIsNok REQUEST_SEED_SIG) Q m.
Proof. intros H. exact H. Qed.

Lemma wp_transition (c : M Mgr unit) st (Q : MState_t -> Mgr -> Prop) m :
  wp c (fun _ m' => Q M_Transition
    (m' <| mSecurityAccess := (mSecurityAccess m') <| state_fn := st |> |>)) m ->
  wp (transition c st) Q m.
Proof. intros H. unfold transition. wp_step. exact H. Qed.
Lemma wp_handled (c : M Mgr unit) (Q : MState_t -> Mgr -> Prop) m :
  wp c (fun _ m' => Q M_Handled m') m -> wp (handled c) Q m.
Proof. intros H. unfold handled. wp_step. exact H. Qed.

(** The answer to a seed request for a level that is unlocked already reads the active
    level. *)
Definition seed_answerable (m : Mgr) : Prop :=
  state_fn (mSecurityAccess m) = UnlockedNoActiveSeed ->
  RequestedLevelIsUnlocked m = Done (true, m) ->
  exists i p, current_session (mSecurityAccess m) = Some i /\ active_in m i p.

Lemma request_seed_post m :
  wf m -> ao_ok (mSecurityAccess m) -> recvSid m = SECURITY_ACCESS_REQUEST_ID ->
  state_fn (mSecurityAccess m) <> State_initial -> seed_answerable m ->
  wp (state_handler env (state_fn (mSecurityAccess m)) (M_USER (tester_report REQUEST_SEED_SIG)))
    (fun _ m' => event_post m m' /\ state_fn (mSecurityAccess m') <> State_initial) m.
Proof.
  intros Hwf Hao Hsid Hini Hseed.
  assert (Hnrc : forall nrc, wp (handled (ResponseNRC env (tester_report REQUEST_SEED_SIG) nrc))
    (fun _ m' => event_post m m' /\ state_fn (mSecurityAccess m') <> State_initial) m).
  { intros nrc. apply wp_handled. eapply wp_conseq; [by apply (ResponseNRC_post _ _ m)|].
    intros _ m' [? Heq]. by rewrite Heq. }
  assert (Hback : forall st c, st <> State_initial -> waiting_for_key st = false ->
    wp c (fun _ m' => event_post m m' /\ mSecurityAccess m' = mSecurityAccess m) m ->
    wp (transition c st)
      (fun _ m' => event_post m m' /\ state_fn (mSecurityAccess m') <> State_initial) m).
  { intros st c Hne Hst Hc. apply wp_transition. eapply wp_conseq; [exact Hc|].
    intros _ m' [? _]. split; [by apply event_post_state|done]. }
  assert (Hdelay : forall k : M Mgr MState_t,
    waiting_for_key (state_fn (mSecurityAccess m)) = false ->
    wp k (fun _ m' => event_post m m' /\ state_fn (mSecurityAccess m') <> State_initial) m ->
    wp (waiting ← DelayTimerIsNotExpired env;
        if (waiting : bool) then handled (ResponseNRC env (tester_report REQUEST_SEED_SIG) 0x37)
        else k)
      (fun _ m' => event_post m m' /\ state_fn (mSecurityAccess m') <> State_initial) m).
  { intros k Hw Hk. wp_step. eapply wp_conseq; [by apply DelayTimerIsNotExpired_step|].
    intros [] m1 (Hao1 & Hstep & Hst & Heq); [|by subst].
    apply wp_handled. eapply wp_conseq; [by apply (ResponseNRC_post _ _ m)|].
    intros _ m' [? Heq']. by rewrite Heq', Hst. }
  destruct (state_fn (mSecurityAccess m)) eqn:Est; [done|..]; cbn [state_handler].
  - unfold hdlr_LockedNoActiveSeed. cbn [rtype tester_report].
    wp_step. apply wp_seed_length. wp_step; [auto|].
    apply Hdelay; [done|]. wp_step. apply wp_reads; [apply PreCondition_reads|]. intros [] _; auto.
  - unfold hdlr_LockedWaitingForKey. cbn [rtype tester_report].
    wp_step. apply wp_seed_length. wp_step; [|auto].
    apply Hback; [done..|]. by apply ResponseNRC_post.
  - unfold hdlr_UnlockedNoActiveSeed. cbn [rtype tester_report].
    wp_step. apply wp_seed_length. wp_step; [auto|].
    wp_step. apply wp_reads; [apply PreCondition_reads|]. intros [] _; [auto|].
    apply Hdelay; [done|]. wp_step. apply wp_reads; [by apply RequestedLevel_reads|].
    intros [] Hunl; [|auto]. apply wp_handled.
    destruct (Hseed Est Hunl) as (i & p & Hi & s & Hs & Hp).
    eapply wp_conseq; [by eapply ResponseAllZeroSeed_post|]. intros _ m' [? Heq].
    by rewrite Heq, Est.
  - unfold hdlr_UnlockedWaitingForKey. cbn [rtype tester_report].
    wp_step. apply wp_seed_length. wp_step.
    { apply Hback; [done..|]. by apply ResponseNRC_post. }
    wp_step. apply wp_reads; [by apply RequestedLevel_reads|].
    intros [] _; [|auto]. apply Hback; [done..|].
    destruct (ok_waiting _ Hao) as (i & s & p & Hi & Hs & Hp); [by rewrite Est|].
    by eapply ResponseAllZeroSeed_post.
Qed.

Lemma waiting_send_key_post m idle :
  wf m -> ao_ok (mSecurityAccess m) -> waiting_for_key (state_fn (mSecurityAccess m)) = true ->
  waiting_for_key idle = false -> idle <> State_initial ->
  wp (waiting_send_key env (tester_report SEND_KEY_SIG) idle)
    (fun _ m' => event_post m m' /\ state_fn (mSecurityAccess m') <> State_initial) m.
Proof.
  intros Hwf Hao Hw Hidle Hne.
  destruct (ok_waiting _ Hao Hw) as (i & s & p & Hi & Hs & Hp).
  destruct (ok_deref _ _ _ _ Hao Hs (or_introl Hp)) as (l & Hl & _).
  assert (Hback : forall nrc,
    wp (transition (ResponseNRC env (tester_report SEND_KEY_SIG) nrc) idle)
      (fun _ m' => event_post m m' /\ state_fn (mSecurityAccess m') <> State_initial) m).
  { intros nrc. apply wp_transition. eapply wp_conseq; [by apply (ResponseNRC_post _ _ m)|].
    intros _ m' [? _]. split; [by apply event_post_state|done]. }
  unfold waiting_send_key. wp_step.
  apply (wp_conseq _ (fun (b : bool) m' => m' = m)).
  { unfold MsgLengthIsNok. do 3 wp_step; [by wp_step|]. wp_step.
    eapply wp_current; [done..|]. wp_step. eapply wp_demand; [exact Hp|]. wp_step.
    eapply wp_active; [done..|]. by wp_step. }
  intros [] m' ->; [apply Hback|]. do 2 wp_step. wp_step. eapply wp_active; [done..|].
  wp_step; [apply Hback|]. apply wp_handled. eapply wp_conseq; [by apply (ResponseNRC_post _ _ m)|].
  intros _ m' [? ->]. split; [done|]. by destruct (state_fn _).
Qed.

Lemma send_key_post m :
  wf m -> ao_ok (mSecurityAccess m) -> state_fn (mSecurityAccess m) <> State_initial ->
  wp (state_handler env (state_fn (mSecurityAccess m)) (M_USER (tester_report SEND_KEY_SIG)))
    (fun _ m' => event_post m m' /\ state_fn (mSecurityAccess m') <> State_initial) m.
Proof.
  intros Hwf Hao Hini. destruct (state_fn (mSecurityAccess m)) eqn:Est; [done|..].
  all: try (apply waiting_send_key_post; by rewrite ?Est).
  all: apply wp_handled; (eapply wp_conseq; [by apply (ResponseNRC_post _ _ m)|]).
  all: intros _ m' [? ->]; by rewrite Est.
Qed.

(** Entering and leaving a state does nothing after the initial transition. *)
Lemma wp_MFsm_dispatch e Q m :
  state_fn (mSecurityAccess m) <> State_initial ->
  wp (state_handler env (state_fn (mSecurityAccess m)) e)
    (fun _ m' => Q tt m' /\ state_fn (mSecurityAccess m') <> State_initial) m ->
  wp (MFsm_dispatch env e) Q m.
Proof.
  intros Hini H. unfold MFsm_dispatch. wp_step. apply wp_self. wp_step.
  eapply wp_conseq; [exact H|]. intros st m' [HQ Hne].
  assert (Hidle : forall st e' Q' m', st <> State_initial -> (forall u, e' <> M_USER u) ->
    Q' M_Ignored m' -> wp (state_handler env st e') Q' m').
  { intros [] [] ? ? ? Hu ?; try done; by destruct (Hu ev). }
  destruct st; [by wp_step..|]. wp_step. apply Hidle; [done..|]. wp_step. apply wp_self.
  wp_step. apply Hidle; [done..|]. by wp_step.
Qed.

Lemma tester_request_post sig m :
  sig = REQUEST_SEED_SIG \/ sig = SEND_KEY_SIG ->
  wf m -> ao_ok (mSecurityAccess m) -> recvSid m = SECURITY_ACCESS_REQUEST_ID ->
  state_fn (mSecurityAccess m) <> State_initial ->
  (sig = REQUEST_SEED_SIG -> seed_answerable m) ->
  wp (SecurityAccessEventHandler env (tester_report sig))
    (fun _ m' => event_post m m' /\ state_fn (mSecurityAccess m') <> State_initial) m.
Proof.
  intros Hsig Hwf Hao Hsid Hini Hseed. apply wp_MFsm_dispatch; [done|].
  eapply (wp_conseq _ (fun _ m' => event_post m m' /\ state_fn (mSecurityAccess m') <> State_initial));
    [|tauto].
  destruct Hsig as [-> | ->]; [apply request_seed_post; auto|by apply send_key_post].
Qed.

(** *** Session changes *)

(** The session an event of a session change leads to. *)
Definition session_target (sig : SecAccSignal_t) (m : Mgr) : option nat :=
  if bool_decide (sig = SESSION_CONTROL_SIG) && negb (SessionType m =? DEFAULT_SESSION)
  then fst <$> find_session (session_list (mSecurityAccess m)) (SessionType m)
  else Some (default_session (mSecurityAccess m)).

Lemma find_session_update l i s s' id :
  l !! i = Some s -> session_id s' = session_id s ->
  fst <$> find_session (<[i:=s']> l) id = fst <$> find_session l id.
Proof.
  unfold find_session. revert i. induction l as [|x l IH]; intros [|i]; cbn; intros Hi Hid;
    simplify_eq.
  - rewrite Hid. case_decide; [done|]. by destruct (list_find _ l) as [[]|].
  - case_decide; [done|]. specialize (IH i Hi Hid).
    destruct (list_find _ (<[i:=s']> l)) as [[]|], (list_find _ l) as [[]|]; cbn in *; congruence.
Qed.

Definition deactivated (s : SecuritySession_t) : SecuritySession_t :=
  s <| active_level := None |> <| unlocked_level := None |>.

Lemma wp_DeactivateAndLock Q m i s :
  current_session (mSecurityAccess m) = Some i -> session_of m i = Some s ->
  Q tt (with_sessions m (<[i:=deactivated s]> (session_list (mSecurityAccess m)))) ->
  wp DeactivateAndLock Q m.
Proof.
  intros Hi Hs HQ. unfold DeactivateAndLock, LockCurrentSession. wp_step.
  eapply wp_current_set; [done..|].
  eapply (wp_current_set _ _ _ _ i (s <| active_level := None |>)); [done|..].
  - by rewrite session_of_insert, decide_True by eauto.
  - unfold with_sessions in *. cbn. by rewrite list_insert_insert_eq.
Qed.

(** Deactivating, locking and entering another session. *)
Definition relocked (sig : SecAccSignal_t) (m m' : Mgr) : Prop :=
  exists i s a', current_session (mSecurityAccess m) = Some i /\ session_of m i = Some s /\
    m' = m <| mSecurityAccess := a' |> /\
    session_list a' = <[i:=deactivated s]> (session_list (mSecurityAccess m)) /\
    current_session a' = session_target sig m /\
    default_session a' = default_session (mSecurityAccess m) /\
    state_fn a' = state_fn (mSecurityAccess m).

Definition switch_on (sig : SecAccSignal_t) : M Mgr unit :=
  if bool_decide (sig = SESSION_CONTROL_SIG) then SwitchSessionBasedOnEvent
  else to_default_session.

Lemma relock_step sig m :
  ao_ok (mSecurityAccess m) -> is_Some (session_target sig m) ->
  wp (DeactivateAndLock;; switch_on sig) (fun _ m' => relocked sig m m') m.
Proof.
  intros Hao [j Hj]. destruct (ok_current _ Hao) as (i & s & Hi & Hs).
  wp_step. eapply wp_DeactivateAndLock; [done..|].
  unfold switch_on, session_target in *.
  destruct (bool_decide _) eqn:Esig; cbn [andb] in Hj.
  - unfold SwitchSessionBasedOnEvent, switch_session. do 3 wp_step. apply wp_self.
    cbn [SessionType with_sessions]. change (SessionType _) with (SessionType m).
    destruct (SessionType m =? 1) eqn:E1; cbn in Hj.
    + apply wp_self_set. eexists i, s, _. split_and!; try done.
      unfold session_target. by rewrite Esig, E1.
    + wp_step. apply wp_self_set. wp_step. apply wp_self. wp_step.
      pose proof (find_session_update _ i s (deactivated s) (SessionType m) Hs eq_refl) as Hf.
      eapply wp_demand; [etrans; [exact Hf|exact Hj]|]. wp_step.
      eexists i, s, _. split_and!; try done.
      unfold session_target. rewrite Esig, E1. exact Hf.
  - unfold to_default_session. wp_step. apply wp_self, wp_self_set. eexists i, s, _. split_and!; try done.
    unfold session_target. by rewrite Esig.
Qed.

(** The session that was left has no active and no unlocked level, and the machine is
    locked in the new session. *)
Definition locked_after (sig : SecAccSignal_t) (m m' : Mgr) : Prop :=
  state_fn (mSecurityAccess m') = LockedNoActiveSeed /\
  current_session (mSecurityAccess m') = session_target sig m /\
  exists i s, current_session (mSecurityAccess m) = Some i /\ session_of m' i = Some s /\
    active_level s = None /\ unlocked_level s = None.

(** The change is put off until the delay timer expires. *)
Definition put_off (sig : SecAccSignal_t) (m m' : Mgr) : Prop :=
  delay_pending m /\ waiting_for_key (state_fn (mSecurityAccess m)) = false /\
  state_fn (mSecurityAccess m') = state_fn (mSecurityAccess m) /\
  last_pending_signal (mSecurityAccess m') = sig /\
  last_pending_session_id (mSecurityAccess m') =
    (if bool_decide (sig = SESSION_CONTROL_SIG) then u8 (SessionType m) else 0xFF).

Record session_post (sig : SecAccSignal_t) (woken : bool) (m m' : Mgr) : Prop := mkSessionPost {
  sp_wf : wf m';
  sp_ao : ao_ok (mSecurityAccess m');
  sp_frame : frame m m';
  sp_quiet : quietly m m';
  sp_woken : semCount m' = semCount m + (if woken then 1 else 0);
  sp_verdict : locked_after sig m m' \/ put_off sig m m' }.

Lemma relocked_post sig m m' :
  wf m -> ao_ok (mSecurityAccess m) -> relocked sig m m' -> is_Some (session_target sig m) ->
  let m'' := m' <| mSecurityAccess := (mSecurityAccess m') <| state_fn := LockedNoActiveSeed |> |> in
  wf m'' /\ ao_ok (mSecurityAccess m'') /\ frame m m'' /\ locked_after sig m m''.
Proof.
  intros Hwf Hao (i & s & a' & Hi & Hs & -> & Hl & Hc & Hd & _) [j Hj].
  assert (Hok : ao_ok (updated (mSecurityAccess m) i (deactivated s) j LockedNoActiveSeed)).
  { eapply ao_ok_updated; [done..| | |done].
    - by intros p [|].
    - unfold session_target in Hj. destruct (_ && _).
      + apply fmap_Some in Hj as ([k t] & Hf & ->). apply list_find_Some in Hf as [? _]. eauto.
      + injection Hj as <-. apply Hao. }
  split_and!.
  - by destruct Hwf.
  - destruct Hok. cbn in *. split; cbn; rewrite ?Hl, ?Hc, ?Hd, ?Hj; done.
  - done.
  - split; [done|]. split; [exact Hc|]. exists i, (deactivated s). split_and!; try done.
    unfold session_of. cbn. rewrite Hl. apply list_lookup_insert_eq. by eapply lookup_lt_Some.
Qed.

Lemma MarkLastPending_wp sig Q m :
  sig = SESSION_CONTROL_SIG \/ sig = SESSION_TIMEOUT_SIG ->
  Q tt (m <| mSecurityAccess := (mSecurityAccess m) <| last_pending_signal := sig |>
    <| last_pending_session_id :=
         (if bool_decide (sig = SESSION_CONTROL_SIG) then u8 (SessionType m) else 0xFF) |> |>) ->
  wp (MarkLastPendingSession sig) Q m.
Proof. intros [-> | ->] H; exact H. Qed.

Lemma TryToPost_any sig (sem int : bool) Q m :
  Q tt (if sem then log (m <| semCount := semCount m + 1 |>) [SemPost] else m) ->
  wp (TryToPostSemaphore (mkReport sig sem int)) Q m.
Proof. destruct sem; intros H; exact H. Qed.

Lemma wp_relock sig (k : M Mgr unit) Q m :
  ao_ok (mSecurityAccess m) -> is_Some (session_target sig m) ->
  (forall m', relocked sig m m' -> wp k Q m') ->
  wp (DeactivateAndLock;; _ ← switch_on sig; k) Q m.
Proof.
  intros Hao Ht Hk. pose proof (relock_step sig m Hao Ht) as H.
  apply wp_bind_inv in H. wp_step. eapply wp_conseq; [exact H|].
  intros [] m1 H1. wp_step. eapply wp_conseq; [exact H1|]. intros [] m2. apply Hk.
Qed.

Lemma switch_on_control : SwitchSessionBasedOnEvent = switch_on SESSION_CONTROL_SIG.
Proof. done. Qed.
Lemma switch_on_timeout : to_default_session = switch_on SESSION_TIMEOUT_SIG.
Proof. done. Qed.

Definition in_state (m : Mgr) (st : SecAccState) : Mgr :=
  m <| mSecurityAccess := (mSecurityAccess m) <| state_fn := st |> |>.
Lemma in_state_id m : in_state m (state_fn (mSecurityAccess m)) = m.
Proof. unfold in_state. destruct m as [? ? ? [] ?]. done. Qed.

(** Waking the reporter, once the object has been updated. *)
Lemma wake_post sig (sem int : bool) m m1 st :
  wf m1 -> ao_ok (mSecurityAccess (in_state m1 st)) -> ao_step m m1 ->
  locked_after sig m (in_state m1 st) \/ put_off sig m (in_state m1 st) ->
  wp (TryToPostSemaphore (mkReport sig sem int)) (fun _ m' =>
    session_post sig sem m (in_state m' st) /\ mSecurityAccess m' = mSecurityAccess m1) m1.
Proof.
  intros Hwf Hao (a & es & -> & Hes) Hv. apply TryToPost_any. destruct sem; (split; [|done]); split.
  - by destruct Hwf.
  - exact Hao.
  - done.
  - exists (es ++ [SemPost]). cbn. rewrite app_assoc. split; [done|]. by apply quiet_snoc.
  - done.
  - exact Hv.
  - by destruct Hwf.
  - exact Hao.
  - done.
  - by exists es.
  - cbn. lia.
  - exact Hv.
Qed.

Lemma relocked_wake sig (sem int : bool) m m1 :
  wf m -> ao_ok (mSecurityAccess m) -> relocked sig m m1 -> is_Some (session_target sig m) ->
  wp (TryToPostSemaphore (mkReport sig sem int)) (fun _ m' =>
    session_post sig sem m (in_state m' LockedNoActiveSeed) /\
    state_fn (mSecurityAccess m') = state_fn (mSecurityAccess m)) m1.
Proof.
  intros Hwf Hao Hr Htgt.
  destruct (relocked_post _ _ _ Hwf Hao Hr Htgt) as (Hwf1 & Hao1 & _ & Hl).
  destruct Hr as (i & s & a' & _ & _ & -> & _ & _ & _ & Hst).
  eapply wp_conseq; [apply (wake_post sig sem int m _ LockedNoActiveSeed)|].
  - by destruct Hwf1.
  - exact Hao1.
  - exists a', []. by rewrite log_nil.
  - by left.
  - intros [] m' [? Heq]. split; [done|]. rewrite Heq. exact Hst.
Qed.

(** Putting a change off, as the two idle states do; [lock] is what they do besides. *)
Lemma put_off_wake sig (sem int : bool) m m1 a :
  sig = SESSION_CONTROL_SIG \/ sig = SESSION_TIMEOUT_SIG ->
  wf m -> delay_pending m -> waiting_for_key (state_fn (mSecurityAccess m)) = false ->
  ao_step m m1 -> ao_ok a ->
  state_fn a = state_fn (mSecurityAccess m) ->
  last_pending_signal a = sig -> last_pending_session_id a =
    (if bool_decide (sig = SESSION_CONTROL_SIG) then u8 (SessionType m) else 0xFF) ->
  wp (TryToPostSemaphore (mkReport sig sem int)) (fun _ m' =>
    session_post sig sem m m' /\ state_fn (mSecurityAccess m') = state_fn (mSecurityAccess m))
    (m1 <| mSecurityAccess := a |>).
Proof.
  intros Hsig Hwf Hd Hw Hstep Hao Hst Hsg Hid.
  eapply wp_conseq; [apply (wake_post sig sem int m _ (state_fn a))|].
  - pose proof (ao_step_wf _ _ Hstep Hwf) as []. by split.
  - by destruct Hao.
  - destruct Hstep as (a' & es & -> & Hes). by exists a, es.
  - right. by split_and!.
  - intros [] m' [H Heq]. rewrite Heq. split; [|done].
    by replace m' with (in_state m' (state_fn a)) by (rewrite <- (in_state_id m') at 2; by rewrite Heq).
Qed.

Lemma ao_step_session m m' : ao_step m m' -> SessionType m' = SessionType m.
Proof. by intros (? & ? & -> & _). Qed.

Definition marked (sig : SecAccSignal_t) (m : Mgr) (a : AO_SecurityAccess) : AO_SecurityAccess :=
  a <| last_pending_signal := sig |>
    <| last_pending_session_id :=
         (if bool_decide (sig = SESSION_CONTROL_SIG) then u8 (SessionType m) else 0xFF) |>.
Lemma ao_ok_marked sig m a : ao_ok a -> ao_ok (marked sig m a).
Proof. intros []. by split. Qed.

(** The post-condition of a handler, before the transition is completed. *)
Let post (sig : SecAccSignal_t) (sem : bool) (m : Mgr) : MState_t -> Mgr -> Prop :=
  fun _ m' => session_post sig sem m m' /\ state_fn (mSecurityAccess m') <> State_initial.

Lemma relock_transition sig (sem int : bool) m :
  wf m -> ao_ok (mSecurityAccess m) -> is_Some (session_target sig m) ->
  wp (transition (DeactivateAndLock;; _ ← switch_on sig;
        TryToPostSemaphore (mkReport sig sem int)) LockedNoActiveSeed) (post sig sem m) m.
Proof.
  intros Hwf Hao Htgt. apply wp_transition, wp_relock; [done..|]. intros m1 Hr.
  eapply wp_conseq; [by apply relocked_wake|]. intros [] m' [H _]. by split.
Qed.

Lemma locked_idle_change sig (sem int : bool) m :
  sig = SESSION_CONTROL_SIG \/ sig = SESSION_TIMEOUT_SIG ->
  wf m -> ao_ok (mSecurityAccess m) -> state_fn (mSecurityAccess m) = LockedNoActiveSeed ->
  is_Some (session_target sig m) ->
  wp (waiting ← DelayTimerIsNotExpired env;
      handled ((if (waiting : bool) then MarkLastPendingSession sig
                else DeactivateAndLock;; switch_on sig);;
               TryToPostSemaphore (mkReport sig sem int))) (post sig sem m) m.
Proof.
  intros Hsig Hwf Hao Hst Htgt. wp_step.
  eapply wp_conseq; [apply DelayTimerIsNotExpired_step; [done|by rewrite Hst]|].
  intros [] m1 (Hao1 & Hstep & Hst1 & Hd); apply wp_handled; wp_step.
  - apply MarkLastPending_wp; [done|]. rewrite (ao_step_session m m1) by done.
    eapply wp_conseq; [apply (put_off_wake sig sem int m m1 (marked sig m (mSecurityAccess m1)))|];
      try done; [by rewrite Hst|by apply ao_ok_marked|].
    intros [] m' [? Hs']. by rewrite Hst in Hs'; unfold post; rewrite Hs'.
  - subst m1. eapply wp_conseq; [by apply relock_step|]. intros [] m2 Hr.
    eapply wp_conseq; [by apply relocked_wake|]. intros [] m' [H Hs'].
    unfold post. rewrite Hst in Hs'. rewrite <- Hs', in_state_id in H. by rewrite Hs'.
Qed.

Lemma unlocked_idle_change sig (sem int : bool) m :
  sig = SESSION_CONTROL_SIG \/ sig = SESSION_TIMEOUT_SIG ->
  wf m -> ao_ok (mSecurityAccess m) -> state_fn (mSecurityAccess m) = UnlockedNoActiveSeed ->
  is_Some (session_target sig m) ->
  wp (waiting ← DelayTimerIsNotExpired env;
      if (waiting : bool)
      then handled (MarkLastPendingSession sig;; _ ← LockCurrentSession;
                    TryToPostSemaphore (mkReport sig sem int))
      else transition (DeactivateAndLock;; _ ← switch_on sig;
                       TryToPostSemaphore (mkReport sig sem int)) LockedNoActiveSeed)
    (post sig sem m) m.
Proof.
  intros Hsig Hwf Hao Hst Htgt. wp_step.
  eapply wp_conseq; [apply DelayTimerIsNotExpired_step; [done|by rewrite Hst]|].
  intros [] m1 (Hao1 & Hstep & Hst1 & Hd); [|subst; by apply relock_transition].
  apply wp_handled. wp_step. apply MarkLastPending_wp; [done|].
  rewrite (ao_step_session m m1) by done. wp_step.
  destruct (ok_current _ Hao1) as (i & s & Hi & Hs).
  unfold LockCurrentSession. eapply (wp_current_set _ _ _ _ i s); [exact Hi|exact Hs|].
  set (a := updated (marked sig m (mSecurityAccess m1)) i (s <| unlocked_level := None |>) i
              (state_fn (mSecurityAccess m))).
  lazymatch goal with |- wp _ _ ?m2 => replace m2 with (m1 <| mSecurityAccess := a |>) end.
  2:{ unfold with_sessions, a, updated. cbn. rewrite <- Hst1.
      destruct m1 as [? ? ? [] ?]. cbn in *. by rewrite Hi. }
  eapply wp_conseq; [apply (put_off_wake sig sem int m m1 a)|]; try done.
  - by rewrite Hst.
  - apply (ao_ok_updated _ i s); [by apply ao_ok_marked|exact Hs|done| | |by rewrite Hst].
    + cbn. intros p [Hp|]; [|done]. eapply (ok_ptrs _ Hao1); [exact Hs|auto].
    + eexists. exact Hs.
  - intros [] m' [? Hs']. by rewrite Hst in Hs'; unfold post; rewrite Hs'.
Qed.

Lemma session_change_handled sig (sem int : bool) m :
  sig = SESSION_CONTROL_SIG \/ sig = SESSION_TIMEOUT_SIG ->
  wf m -> ao_ok (mSecurityAccess m) -> state_fn (mSecurityAccess m) <> State_initial ->
  is_Some (session_target sig m) ->
  wp (SecurityAccessEventHandler env (mkReport sig sem int))
    (fun _ m' => session_post sig sem m m') m.
Proof.
  intros Hsig Hwf Hao Hini Htgt. apply wp_MFsm_dispatch; [done|].
  destruct (state_fn (mSecurityAccess m)) eqn:Est; [done|..]; cbn [state_handler].
  - pose proof (locked_idle_change sig sem int m Hsig Hwf Hao Est Htgt) as H.
    destruct Hsig as [-> | ->]; exact H.
  - pose proof (relock_transition sig sem int m Hwf Hao Htgt) as H.
    destruct Hsig as [-> | ->]; exact H.
  - pose proof (unlocked_idle_change sig sem int m Hsig Hwf Hao Est Htgt) as H.
    destruct Hsig as [-> | ->]; exact H.
  - pose proof (relock_transition sig sem int m Hwf Hao Htgt) as H.
    destruct Hsig as [-> | ->]; exact H.
Qed.

(** *** The verdict on a key *)

(** The pointer, session and level a waiting state works on. *)
Record active_level_is (m : Mgr) (i : nat) (s : SecuritySession_t) (p : LevelPtr)
    (l : SecurityLevel_t) : Prop := mkActive {
  al_current : current_session (mSecurityAccess m) = Some i;
  al_session : session_of m i = Some s;
  al_active : active_level s = Some p;
  al_level : deref_level (session_list (mSecurityAccess m)) p = Some l }.

Lemma ok_active_level m :
  ao_ok (mSecurityAccess m) -> waiting_for_key (state_fn (mSecurityAccess m)) = true ->
  exists i s p l, active_level_is m i s p l.
Proof.
  intros Hao Hw. destruct (ok_waiting _ Hao Hw) as (i & s & p & Hi & Hs & Hp).
  destruct (ok_deref _ _ _ _ Hao Hs (or_introl Hp)) as (l & Hl & _). by exists i, s, p, l.
Qed.

Lemma wp_active_is Q m i s p l :
  active_level_is m i s p l -> Q (p, l) m -> wp active Q m.
Proof. intros [] HQ. by eapply wp_active. Qed.

(** Writing the attempt counter of the active level. *)
Lemma wp_set_Att_Cnt v Q m i s p l :
  active_level_is m i s p l ->
  (forall m' s', ao_step m m' -> active_level_is m' i s' p (l <| Att_Cnt := v |>) ->
     trace m' = trace m -> state_fn (mSecurityAccess m') = state_fn (mSecurityAccess m) ->
     (forall j q, unlocked_in m' j q <-> unlocked_in m j q) -> Q tt m') ->
  wp (set_active_Att_Cnt v) Q m.
Proof.
  intros Hal HQ. pose proof Hal as []. unfold set_active_Att_Cnt, set_level. wp_step.
  eapply wp_active_is; [exact Hal|]. wp_step. apply wp_self.
  destruct (session_list (mSecurityAccess m) !! p.1) as [t|] eqn:Ht.
  2:{ unfold deref_level in al_level0. by rewrite Ht in al_level0. }
  assert (Hp2 : level_list t !! p.2 = Some l).
  { unfold deref_level in al_level0. by rewrite Ht in al_level0. }
  wp_step. eapply wp_demand; [exact Ht|]. apply wp_self_set.
  change ((p, l).1) with p. change ((p, l).2) with l.
  set (t' := t <| level_list := <[p.2:=l <| Att_Cnt := v |>]> (level_list t) |>).
  pose proof (fun j => session_of_insert m p.1 t' j (ex_intro _ t Ht)) as Hsess.
  change (with_sessions m _) with (with_sessions m (<[p.1:=t']> (session_list (mSecurityAccess m)))) in Hsess.
  apply (HQ _ (if decide (i = p.1) then t' else s));
    [eexists _, []; by rewrite log_nil| |done..|].
  - split; [exact al_current0|etrans; [exact (Hsess i)|]; by case_decide|..].
    + case_decide; [|done]. subst. unfold session_of in al_session0. simplify_eq. done.
    + unfold deref_level. cbn. rewrite list_lookup_insert_eq by (by eapply lookup_lt_Some). cbn.
      by apply list_lookup_insert_eq; eapply lookup_lt_Some.
  - intros j q. unfold unlocked_in. split.
    + intros (x & Hx & Hq). pose proof (eq_trans (eq_sym Hx) (Hsess j)) as E.
      case_decide; simplify_eq; [by exists t|by exists x].
    + intros (x & Hx & Hq). destruct (decide (j = p.1)) as [->|Hne].
      * exists t'. split; [etrans; [exact (Hsess p.1)|by rewrite decide_True]|].
        unfold session_of in Hx. by simplify_eq.
      * exists x. split; [etrans; [exact (Hsess j)|by rewrite decide_False]|done].
Qed.

Lemma active_level_log m i s p l es : active_level_is m i s p l -> active_level_is (log m es) i s p l.
Proof. intros []. by split. Qed.

Lemma wp_SaveAttCntToTree Q m i s p l :
  active_level_is m i s p l -> (forall e, quiet e -> Q tt (log m [e])) -> wp SaveAttCntToTree Q m.
Proof.
  intros Hal HQ. pose proof Hal as []. unfold SaveAttCntToTree. wp_step. apply wp_self. wp_step.
  eapply wp_current; [done..|]. wp_step. eapply wp_active_is; [exact Hal|]. uds_step.
  by apply HQ.
Qed.

Lemma wp_TriggerDelayTimer Q m i s p l :
  active_level_is m i s p l ->
  (forall es, Forall quiet es -> TimerCall secAccDelayTimer TimerStart ∈ es -> Q tt (log m es)) ->
  wp (TriggerDelayTimer env) Q m.
Proof.
  intros Hal HQ. unfold TriggerDelayTimer, le_timer_IsRunning. do 4 wp_step.
  - uds_step. wp_step. eapply wp_active_is; [by apply active_level_log|]. do 3 uds_step.
    rewrite !log_app. apply HQ; [by repeat constructor|]. rewrite !elem_of_app, !list_elem_of_singleton. auto.
  - wp_step. eapply wp_active_is; [exact Hal|]. do 3 uds_step.
    rewrite !log_app. apply HQ; [by repeat constructor|]. rewrite !elem_of_app, !list_elem_of_singleton. auto.
Qed.

(** The idle state a state that waits for a key returns to. *)
Definition idle_of (st : SecAccState) : SecAccState :=
  match st with UnlockedWaitingForKey => UnlockedNoActiveSeed | _ => LockedNoActiveSeed end.

(** A refused key: the counter of the active level, the code of the response, the timer. *)
Definition key_refused (m m' : Mgr) (p : LevelPtr) (l : SecurityLevel_t) (woken : bool) : Prop :=
  let exhausted := Att_Cnt_Limit l <=? u32 (Att_Cnt l + 1) in
  deref_level (session_list (mSecurityAccess m')) p =
    Some (l <| Att_Cnt := if exhausted then Att_Cnt_Limit l else u32 (Att_Cnt l + 1) |>) /\
  nrcCode m' = (if exhausted then EXCEEDED_NUMBER_OF_ATTEMPTS else INVALID_KEY) /\
  state_fn (mSecurityAccess m') = idle_of (state_fn (mSecurityAccess m)) /\
  (forall j q, unlocked_in m' j q <-> unlocked_in m j q) /\
  semCount m' = semCount m + (if woken then 1 else 0) /\
  emits m m' (fun es => Forall quiet es /\
    (exhausted = true -> TimerCall secAccDelayTimer TimerStart ∈ es)).

Lemma waiting_key_refused (sem int : bool) m i s p l :
  active_level_is m i s p l -> nrcCode m = INVALID_KEY ->
  forall unlock, wp (waiting_key_response env (mkReport SEND_KEY_RESPONSE_SIG sem int)
    (idle_of (state_fn (mSecurityAccess m))) unlock)
    (fun _ m' => key_refused m m' p l sem) m.
Proof.
  intros Hal Hnrc unlock. unfold waiting_key_response, KeyIsNok. do 2 wp_step. rewrite Hnrc.
  change (INVALID_KEY =? INVALID_KEY) with true. cbv iota. wp_step.
  eapply wp_active_is; [exact Hal|]. cbn [snd].
  assert (Hend : forall nrc v m1 s' es st,
    ao_step m m1 -> active_level_is m1 i s' p (l <| Att_Cnt := v |>) -> trace m1 = trace m ->
    (forall j q, unlocked_in m1 j q <-> unlocked_in m j q) -> Forall quiet es ->
    wp (SetResponseNRC (mkReport SEND_KEY_RESPONSE_SIG sem int) nrc)
      (fun _ m' => let m2 := in_state m' st in
         deref_level (session_list (mSecurityAccess m2)) p = Some (l <| Att_Cnt := v |>) /\
         nrcCode m2 = nrc /\ state_fn (mSecurityAccess m2) = st /\
         (forall j q, unlocked_in m2 j q <-> unlocked_in m j q) /\
         semCount m2 = semCount m + (if sem then 1 else 0) /\
         emits m m2 (fun es' => es' = es ++ (if sem then [SemPost] else []))) (log m1 es)).
  { intros nrc v m1 s' es st (a & es0 & -> & _) Hal1 Htr Hu Hq. unfold SetResponseNRC. uds_step.
    apply TryToPost_any. pose proof Hal1 as []. cbn in Htr.
    split_and!; [by destruct sem|by destruct sem|by destruct sem|by destruct sem| |].
    - destruct sem; cbn; lia.
    - destruct sem; eexists; cbn; rewrite Htr, <- ?app_assoc; (split; [done|]); by rewrite ?app_nil_r. }
  apply wp_if; intros Hex.
  - apply wp_transition. wp_step. eapply wp_set_Att_Cnt; [exact Hal|].
    intros m1 s' Hst Hal1 Ht Hst' Hu. wp_step. eapply wp_SaveAttCntToTree; [exact Hal1|].
    intros e He. wp_step. eapply wp_TriggerDelayTimer; [by apply active_level_log|].
    intros es Hes Hin. rewrite log_app.
    eapply wp_conseq; [apply (Hend 0x36 _ m1 s' ([e] ++ es)
      (idle_of (state_fn (mSecurityAccess m))) Hst Hal1 Ht Hu); by constructor|].
    intros [] m' (H1 & H2 & H3 & H4 & H5 & es' & H6 & ->). unfold key_refused. rewrite Hex.
    split_and!; [exact H1|exact H2|exact H3|exact H4|exact H5|].
    eexists. split; [exact H6|]. split; [|intros _; rewrite !elem_of_app; auto].
    apply Forall_app; split; [by constructor|]. destruct sem; by repeat constructor.
  - apply wp_transition. wp_step. eapply wp_set_Att_Cnt; [exact Hal|].
    intros m1 s' Hst Hal1 Ht Hst' Hu. wp_step. eapply wp_SaveAttCntToTree; [exact Hal1|].
    intros e He. eapply wp_conseq; [apply (Hend 0x35 _ m1 s' [e]
      (idle_of (state_fn (mSecurityAccess m))) Hst Hal1 Ht Hu); by constructor|].
    intros [] m' (H1 & H2 & H3 & H4 & H5 & es' & H6 & ->). unfold key_refused. rewrite Hex.
    split_and!; [exact H1|exact H2|exact H3|exact H4|exact H5|].
    eexists. split; [exact H6|]. split; [|done].
    apply Forall_app; split; [by constructor|]. destruct sem; by repeat constructor.
Qed.
End Requests.
