(* ===== verification/SecAccessResp.v ===== *)
(** * Security access: the answers of the diagnostic service

    What the state machine does with the service's answer to a seed request and with its
    verdict on a key: when it cannot fail, where it goes and whom it wakes. *)
From S2P Require Import Prelude DiagCfg UdsTypes UdsSend SecAccess SecAccessSpec.

(** The level a seed request asks for, configured for the active session, in which the
    object is. *)
Record level_requested (m : Mgr) (i : nat) (s : SecuritySession_t) (j : nat)
    (l : SecurityLevel_t) : Prop := mkLevelRequested {
  lr_current : current_session (mSecurityAccess m) = Some i;
  lr_session : find_session (session_list (mSecurityAccess m)) (SessionType m) = Some (i, s);
  lr_level : find_level (level_list s) (Z.land (recvSubFunc m) 0x7F) = Some (j, l) }.

(** When an answer of the service meets no assertion of the machine. *)
Definition answerable (sig : SecAccSignal_t) (m : Mgr) : Prop :=
  nrcCode m = POSITIVE_RESPONSE ->
  (sig = REQUEST_SEED_RESPONSE_SIG -> exists i s j l, level_requested m i s j l) /\
  (sig = SEND_KEY_RESPONSE_SIG -> state_fn (mSecurityAccess m) = UnlockedWaitingForKey ->
   exists i p, current_session (mSecurityAccess m) = Some i /\ unlocked_in m i p).

(** It depends on the object, the code, the session and the sub-function alone. *)
Lemma answerable_ext sig m m' :
  mSecurityAccess m' = mSecurityAccess m -> nrcCode m' = nrcCode m ->
  SessionType m' = SessionType m -> recvSubFunc m' = recvSubFunc m ->
  answerable sig m -> answerable sig m'.
Proof.
  intros Ha Hn Hs Hf H H0. rewrite Hn in H0. destruct (H H0) as [H1 H2]. split.
  - intros Hsig. destruct (H1 Hsig) as (i & s & j & l & [L1 L2 L3]). exists i, s, j, l.
    split; by rewrite ?Ha, ?Hs, ?Hf.
  - rewrite Ha. unfold unlocked_in, session_of in *. by rewrite Ha.
Qed.

(** The idle state of a state, and the state an answer leads to. *)
Definition idle (st : SecAccState) : SecAccState :=
  match st with
  | UnlockedWaitingForKey | UnlockedNoActiveSeed => UnlockedNoActiveSeed
  | _ => LockedNoActiveSeed
  end.
Definition awaiting (st : SecAccState) : SecAccState :=
  match st with
  | UnlockedWaitingForKey | UnlockedNoActiveSeed => UnlockedWaitingForKey
  | _ => LockedWaitingForKey
  end.
Definition next_state (sig : SecAccSignal_t) (nrc : Z) (st : SecAccState) : SecAccState :=
  match sig with
  | REQUEST_SEED_RESPONSE_SIG => if nrc =? POSITIVE_RESPONSE then awaiting st else idle st
  | _ =>
      if negb (waiting_for_key st) then st
      else if nrc =? POSITIVE_RESPONSE then UnlockedNoActiveSeed else idle st
  end.

(** Whether the machine takes an answer: a verdict on a key that is not expected is
    ignored, and its reporter is not woken. *)
Definition taken (sig : SecAccSignal_t) (st : SecAccState) : bool :=
  bool_decide (sig = REQUEST_SEED_RESPONSE_SIG) || waiting_for_key st.

Record answer_post (sig : SecAccSignal_t) (m m' : Mgr) : Prop := mkAnswerPost {
  ap_wf : wf m';
  ap_ao : ao_ok (mSecurityAccess m');
  ap_frame : frame m m';
  ap_quiet : quietly m m';
  ap_woken : semCount m' =
    semCount m + (if taken sig (state_fn (mSecurityAccess m)) then 1 else 0);
  ap_address : udsRespAddrInfo m' = udsRespAddrInfo m;
  ap_state : state_fn (mSecurityAccess m') =
    next_state sig (nrcCode m) (state_fn (mSecurityAccess m)) }.

(** The state after the code of the response has been set and the reporter woken. *)
Definition woken (m : Mgr) (nrc : Z) : Mgr :=
  log (m <| nrcCode := nrc |> <| semCount := semCount m + 1 |>) [SemPost].
Lemma wp_SetResponseNRC sig int nrc Q m :
  Q tt (woken m nrc) -> wp (SetResponseNRC (mkReport sig true int) nrc) Q m.
Proof. intros H. unfold SetResponseNRC. uds_step. by apply TryToPost_any. Qed.

(** Steps of the machine that only change the object leave the rest of the manager. *)
Lemma woken_post sig m m1 st nrc :
  wf m -> ao_step m m1 -> ao_ok (mSecurityAccess (in_state m1 st)) ->
  taken sig (state_fn (mSecurityAccess m)) = true ->
  st = next_state sig (nrcCode m) (state_fn (mSecurityAccess m)) ->
  answer_post sig m (in_state (woken m1 nrc) st).
Proof.
  intros Hwf Hstep Hao Ht Hst. pose proof (ao_step_wf _ _ Hstep Hwf) as [].
  destruct Hstep as (a & es & -> & Hq). split; try done.
  - exists (es ++ [SemPost]). cbn. rewrite app_assoc. split; [done|]. auto with telaf.
  - cbn. by rewrite Ht.
Qed.
Lemma woken_stays sig m m1 nrc :
  wf m -> ao_step m m1 -> ao_ok (mSecurityAccess m1) ->
  state_fn (mSecurityAccess m1) = state_fn (mSecurityAccess m) ->
  taken sig (state_fn (mSecurityAccess m)) = true ->
  state_fn (mSecurityAccess m) = next_state sig (nrcCode m) (state_fn (mSecurityAccess m)) ->
  answer_post sig m (woken m1 nrc).
Proof.
  intros Hwf Hstep Hao Heq Ht Hst.
  rewrite <- (in_state_id (woken m1 nrc)). apply woken_post; [done..| | |].
  - change (mSecurityAccess (woken m1 nrc)) with (mSecurityAccess m1). by rewrite in_state_id.
  - done.
  - etrans; [exact Heq|done].
Qed.

Lemma ao_step_refl m : ao_step m m.
Proof. reflexivity. Qed.

Section Answers.
Variable env : Env.

(** The requested level becomes the active one. *)
Lemma wp_ActivateSubfunction Q m i s j l :
  ao_ok (mSecurityAccess m) -> level_requested m i s j l ->
  (forall m', ao_step m m' -> active_in m' i (i, j) ->
     state_fn (mSecurityAccess m') = state_fn (mSecurityAccess m) ->
     (forall st, ao_ok (mSecurityAccess (in_state m' st))) -> Q tt m') ->
  wp ActivateSubfunction Q m.
Proof.
  intros Hao [Hi Hs Hl] HQ. unfold find_session, find_level in *.
  pose proof (proj1 (proj1 (list_find_Some _ _ _ _) Hs)) as Hsi.
  pose proof (proj1 (proj1 (list_find_Some _ _ _ _) Hl)) as Hlj.
  unfold ActivateSubfunction, find_session, find_level. do 3 wp_step. rewrite Hs, Hl.
  set (s' := s <| active_level := Some (i, j) |>).
  wp_step. eapply wp_current_set; [exact Hi|exact Hsi|].
  set (m1 := with_sessions m (<[i:=s']> (session_list (mSecurityAccess m)))).
  apply wp_self_set.
  set (m2 := m1 <| mSecurityAccess := (mSecurityAccess m1) <| current_session := Some i |> |>).
  change (m1 <| mSecurityAccess := _ |>) with m2.
  assert (Hsi' : session_of m2 i = Some s').
  { unfold session_of. cbn. apply list_lookup_insert_eq. by eapply lookup_lt_Some. }
  wp_step. apply wp_self. wp_step. eapply wp_demand; [reflexivity|]. wp_step.
  eapply wp_current; [reflexivity|exact Hsi'|]. wp_step. eapply wp_demand; [reflexivity|]. wp_step.
  apply HQ; [eexists _, []; by rewrite log_nil|by exists s'|done|].
  intros st. change (ao_ok (updated (mSecurityAccess m) i s' i st)).
  eapply ao_ok_updated; [done|exact Hsi|done| |by eexists|done].
  intros p [Hp|Hp]; cbn in Hp.
  - simplify_eq. unfold deref_level. cbn. rewrite Hsi. cbn. by eexists.
  - destruct (ok_deref _ _ _ _ Hao Hsi (or_intror Hp)) as (x & Hx & _). by eexists.
Qed.

Lemma static_seed_reads ev m :
  ao_ok (mSecurityAccess m) -> reads (RequestedSubFunctionIsStaticSeed ev) m.
Proof.
  intros Hao. unfold RequestedSubFunctionIsStaticSeed. apply reads_bind; [by eexists|].
  intros v [= <-]. apply reads_bind; [by apply current_reads|]. intros c _. apply reads_ret.
Qed.

Section Seed.
Variables (m : Mgr) (int : bool).
Hypotheses (Hwf : wf m) (Hao : ao_ok (mSecurityAccess m)).
Hypothesis (Hans : answerable REQUEST_SEED_RESPONSE_SIG m).

Abbreviation ev := (mkReport REQUEST_SEED_RESPONSE_SIG true int).

(** The answer that activates the level, in a state [st] that is kept or entered. *)
Lemma seed_activated (Q : Mgr -> Prop) :
  nrcCode m = POSITIVE_RESPONSE ->
  (forall m1, ao_step m m1 -> state_fn (mSecurityAccess m1) = state_fn (mSecurityAccess m) ->
     (forall st, ao_ok (mSecurityAccess (in_state m1 st))) -> Q (woken m1 0x00)) ->
  wp (ActivateSubfunction;; SetResponseNRC ev 0x00) (fun _ => Q) m.
Proof.
  intros Hn HQ. destruct (Hans Hn) as [Hl _]. destruct (Hl eq_refl) as (i & s & j & l & Hlr).
  wp_step. eapply wp_ActivateSubfunction; [done|exact Hlr|]. intros m1 Hstep _ Hst Hok.
  apply wp_SetResponseNRC. by apply HQ.
Qed.

Lemma waiting_seed_answered idle' :
  idle' = idle (state_fn (mSecurityAccess m)) -> waiting_for_key (state_fn (mSecurityAccess m)) = true ->
  wp (waiting_seed_response ev idle') (fun _ => answer_post REQUEST_SEED_RESPONSE_SIG m) m.
Proof.
  intros -> Hw. destruct (ok_active_level m Hao Hw) as (i & s & p & l & Hal).
  unfold waiting_seed_response. do 2 wp_step. apply wp_if; intros Hn.
  2:{ apply wp_transition, wp_SetResponseNRC, woken_post; try done.
      - apply ao_ok_state; [done|]. by destruct (state_fn _).
      - cbn. by rewrite Hn. }
  assert (H0 : nrcCode m = POSITIVE_RESPONSE) by lia.
  assert (Hkeep : state_fn (mSecurityAccess m) =
    next_state REQUEST_SEED_RESPONSE_SIG (nrcCode m) (state_fn (mSecurityAccess m))).
  { rewrite H0. cbn. by destruct (state_fn _). }
  assert (Hact : wp (handled (ActivateSubfunction;; SetResponseNRC ev 0x00))
    (fun _ => answer_post REQUEST_SEED_RESPONSE_SIG m) m).
  { apply wp_handled, seed_activated; [done|]. intros m1 Hstep Hst Hok.
    apply woken_stays; try done. rewrite <- (in_state_id m1). apply Hok. }
  wp_step. apply wp_reads; [by apply static_seed_reads|]. intros [] _; [|exact Hact].
  wp_step. unfold SecAccTypeIsNotActive. do 2 wp_step. wp_step. eapply wp_active_is; [exact Hal|].
  wp_step. wp_step; [exact Hact|].
  apply wp_handled, wp_SetResponseNRC, woken_stays; done.
Qed.

Lemma idle_seed_answered st target :
  state_fn (mSecurityAccess m) = st -> waiting_for_key st = false -> st <> State_initial ->
  target = awaiting st ->
  wp (nrc ← gets nrcCode;
      if nrc =? 0x00 then transition (ActivateSubfunction;; SetResponseNRC ev 0x00) target
      else handled (SetResponseNRC ev nrc))
    (fun _ => answer_post REQUEST_SEED_RESPONSE_SIG m) m.
Proof.
  intros Est Hw Hini ->. do 2 wp_step. apply wp_if; intros Hn.
  - assert (H0 : nrcCode m = POSITIVE_RESPONSE) by lia.
    apply wp_transition, seed_activated; [done|]. intros m1 Hstep Hst Hok.
    apply woken_post; try done. by rewrite H0, Est.
  - apply wp_handled, wp_SetResponseNRC, woken_stays; try done.
    rewrite Est. cbn. rewrite Hn. by destruct st.
Qed.
End Seed.
(** Levels may change in place. *)
Lemma ao_ok_levels a k t t' :
  ao_ok a -> session_list a !! k = Some t ->
  active_level t' = active_level t -> unlocked_level t' = unlocked_level t ->
  length (level_list t') = length (level_list t) -> Forall level_ok (level_list t') ->
  ao_ok (a <| session_list := <[k:=t']> (session_list a) |>).
Proof.
  intros [Hcur Hdef Hptrs Hlev Hwait] Hk Ha Hu Hlen Hok.
  assert (Hlt : (k < length (session_list a))%nat) by (by eapply lookup_lt_Some).
  assert (Hlook : forall j s, <[k:=t']> (session_list a) !! j = Some s ->
    (j = k /\ s = t') \/ (j <> k /\ session_list a !! j = Some s)).
  { intros j s. destruct (decide (j = k)) as [->|]; rewrite ?list_lookup_insert_eq by done;
      rewrite ?list_lookup_insert_ne by done; intros [=]; auto. }
  split; cbn.
  - destruct Hcur as (i & s & Hi & Hs). destruct (decide (i = k)) as [->|].
    + exists k, t'. by rewrite list_lookup_insert_eq.
    + exists i, s. by rewrite list_lookup_insert_ne.
  - apply lookup_lt_is_Some. rewrite length_insert. by apply lookup_lt_is_Some.
  - intros j s p Hj Hp. eapply deref_insert; [exact Hk|exact Hlen|].
    destruct (Hlook _ _ Hj) as [[-> ->]|[_ Hs]]; [|eauto]. rewrite Ha, Hu in Hp. eauto.
  - intros j s l Hj Hl. destruct (Hlook _ _ Hj) as [[-> ->]|[_ Hs]]; [|eauto].
    rewrite Forall_forall in Hok. by apply Hok.
  - intros Hw. destruct (Hwait Hw) as (i & s & p & Hi & Hs & Hp).
    destruct (decide (i = k)) as [->|].
    + exists k, t', p. rewrite list_lookup_insert_eq by done. simplify_eq. by rewrite Ha.
    + exists i, s, p. by rewrite list_lookup_insert_ne.
Qed.

Lemma set_Att_Cnt_ok v m i s p l :
  ao_ok (mSecurityAccess m) -> active_level_is m i s p l ->
  wp (set_active_Att_Cnt v) (fun _ m' => ao_ok (mSecurityAccess m')) m.
Proof.
  intros Hao Hal. pose proof Hal as [_ _ _ Hl]. unfold set_active_Att_Cnt, set_level. wp_step.
  eapply wp_active_is; [exact Hal|]. wp_step. apply wp_self.
  change ((p, l).1) with p. change ((p, l).2) with l.
  unfold deref_level in Hl. destruct (session_list (mSecurityAccess m) !! p.1) as [t|] eqn:Ht; [|done].
  cbn in Hl. wp_step. eapply wp_demand; [reflexivity|]. apply wp_self_set.
  eapply ao_ok_levels; [done|exact Ht|done|done|cbn; by rewrite length_insert|].
  cbn. pose proof (list_elem_of_lookup_2 _ _ _ Hl) as Hin. apply Forall_insert.
  - apply Forall_forall. intros x Hx. by eapply (ok_levels _ Hao).
  - exact (ok_levels _ Hao _ _ _ Ht Hin).
Qed.

(** A step after which the object is well formed and the active level is known. *)
Record key_step (m m' : Mgr) (i : nat) (p : LevelPtr) : Prop := mkKeyStep {
  ks_step : ao_step m m';
  ks_ao : ao_ok (mSecurityAccess m');
  ks_state : state_fn (mSecurityAccess m') = state_fn (mSecurityAccess m);
  ks_active : exists s l, active_level_is m' i s p l;
  ks_unlocked : forall j q, unlocked_in m' j q <-> unlocked_in m j q }.

Lemma key_step_log m m' i p es : key_step m m' i p -> Forall quiet es -> key_step m (log m' es) i p.
Proof.
  intros [Hs Hao Hst (s & l & Hal) Hu] Hq. split; [|done..|by exists s, l; apply active_level_log|done].
  etrans; [exact Hs|]. exists (mSecurityAccess m'), es. split; [by destruct m'|done].
Qed.

Lemma wp_count_key v Q m i s p l :
  ao_ok (mSecurityAccess m) -> active_level_is m i s p l ->
  (forall m', key_step m m' i p -> Q tt m') ->
  wp (set_active_Att_Cnt v;; SaveAttCntToTree) Q m.
Proof.
  intros Hao Hal HQ. wp_step. eapply wp_conseq.
  - apply wp_and; [by eapply set_Att_Cnt_ok|].
    eapply (wp_set_Att_Cnt v (fun _ m' => exists s', ao_step m m' /\
      active_level_is m' i s' p (l <| Att_Cnt := v |>) /\
      state_fn (mSecurityAccess m') = state_fn (mSecurityAccess m) /\
      (forall j q, unlocked_in m' j q <-> unlocked_in m j q))); [exact Hal|].
    intros m' s' H1 H2 _ H3 H4. by exists s'.
  - intros [] m' (Hao' & s' & Hst & Hal' & Hfn & Hu). eapply wp_SaveAttCntToTree; [exact Hal'|].
    intros e He. apply HQ, key_step_log; [|by constructor]. split; eauto.
Qed.

Section Key.
Variables (m : Mgr) (int : bool).
Hypotheses (Hwf : wf m) (Hao : ao_ok (mSecurityAccess m)).
Hypothesis (Hw : waiting_for_key (state_fn (mSecurityAccess m)) = true).

Abbreviation ev := (mkReport SEND_KEY_RESPONSE_SIG true int).

Lemma wp_bind_assoc {A} (c1 c2 : M Mgr unit) (k : M Mgr A) Q m1 :
  wp (c1;; c2) (fun _ => wp k Q) m1 -> wp (c1;; (c2;; k)) Q m1.
Proof. intros H. apply wp_bind. apply wp_bind_inv in H. eapply wp_conseq; [exact H|].
  intros [] m2 H2. by apply wp_bind. Qed.

Lemma key_answered nrc st m1 i p :
  key_step m m1 i p -> waiting_for_key st = false ->
  st = next_state SEND_KEY_RESPONSE_SIG (nrcCode m) (state_fn (mSecurityAccess m)) ->
  wp (SetResponseNRC ev nrc) (fun _ m' => answer_post SEND_KEY_RESPONSE_SIG m (in_state m' st)) m1.
Proof.
  intros [Hs Hao1 _ _ _] Hst Hnx. apply wp_SetResponseNRC, woken_post; try done.
  by apply ao_ok_state.
Qed.

Lemma key_step_refl i s p l : active_level_is m i s p l -> key_step m m i p.
Proof. intros. split; try done. eauto. Qed.

Lemma key_unlocked (unlock : M Mgr unit) i p m1 :
  key_step m m1 i p -> nrcCode m = POSITIVE_RESPONSE ->
  wp unlock (fun _ m2 => ao_step m1 m2 /\
    ao_ok (mSecurityAccess (in_state m2 UnlockedNoActiveSeed)) /\ reads current m2) m1 ->
  wp (unlock;; _ ← RequestedSubFunctionIsStaticSeed ev;
      transition (SetResponseNRC ev 0x00) UnlockedNoActiveSeed)
    (fun _ => answer_post SEND_KEY_RESPONSE_SIG m) m1.
Proof.
  intros [Hs _ _ _ _] Hn Hu. wp_step. eapply wp_conseq; [exact Hu|].
  intros [] m2 (Hs2 & Hok & Hc). wp_step. apply wp_reads.
  { unfold RequestedSubFunctionIsStaticSeed. apply reads_bind; [by eexists|]. intros v [= <-].
    apply reads_bind; [done|]. intros c _. apply reads_ret. }
  intros b _. apply wp_transition, wp_SetResponseNRC, woken_post; try done.
  - by etrans.
  - cbn. by rewrite Hw, Hn.
Qed.

Lemma waiting_key_answered idle' (unlock : M Mgr unit) :
  idle' = idle (state_fn (mSecurityAccess m)) ->
  (forall m1 i p, key_step m m1 i p -> nrcCode m = POSITIVE_RESPONSE ->
     current_session (mSecurityAccess m) = Some i ->
     wp unlock (fun _ m2 => ao_step m1 m2 /\
       ao_ok (mSecurityAccess (in_state m2 UnlockedNoActiveSeed)) /\ reads current m2) m1) ->
  wp (waiting_key_response env ev idle' unlock) (fun _ => answer_post SEND_KEY_RESPONSE_SIG m) m.
Proof.
  intros -> Hunlock. destruct (ok_active_level m Hao Hw) as (i & s & p & l & Hal).
  assert (Hidle : waiting_for_key (idle (state_fn (mSecurityAccess m))) = false)
    by (by destruct (state_fn _)).
  assert (Hnext : nrcCode m <> 0 -> idle (state_fn (mSecurityAccess m)) =
    next_state SEND_KEY_RESPONSE_SIG (nrcCode m) (state_fn (mSecurityAccess m))).
  { intros Hn. cbn. rewrite Hw. cbn. by rewrite (proj2 (Z.eqb_neq _ _) Hn). }
  unfold waiting_key_response, KeyIsNok. do 2 wp_step.
  apply wp_if; intros Hk.
  - apply Z.eqb_eq in Hk. wp_step. eapply wp_active_is; [exact Hal|].
    apply wp_if; intros _; apply wp_transition; apply wp_bind_assoc;
      (eapply wp_count_key; [done|exact Hal|]); intros m1 Hs.
    + pose proof Hs as [_ _ _ (s1 & l1 & Hal1) _]. wp_step.
      eapply wp_TriggerDelayTimer; [exact Hal1|]. intros es Hes _.
      eapply key_answered; [by apply key_step_log|done|]. apply Hnext. rewrite Hk. done.
    + eapply key_answered; [done|done|]. apply Hnext. rewrite Hk. done.
  - do 2 wp_step. apply wp_if; intros Hn.
    { apply wp_transition. eapply key_answered; [by eapply key_step_refl|done|]. apply Hnext. lia. }
    assert (H0 : nrcCode m = POSITIVE_RESPONSE) by lia.
    wp_step. eapply wp_active_is; [exact Hal|]. apply wp_bind, wp_when; intros _.
    + eapply wp_count_key; [done|exact Hal|]. intros m1 Hs. eapply key_unlocked; [done|done|].
      eapply Hunlock; [exact Hs|done|apply Hal].
    + eapply key_unlocked; [by eapply key_step_refl|done|].
      eapply Hunlock; [by eapply key_step_refl|done|apply Hal].
Qed.

(** Updating the locks of the current session. *)
Lemma locks_updated m1 i s s' :
  ao_ok (mSecurityAccess m1) -> current_session (mSecurityAccess m1) = Some i ->
  session_of m1 i = Some s -> level_list s' = level_list s ->
  (forall q, active_level s' = Some q \/ unlocked_level s' = Some q ->
     active_level s = Some q \/ unlocked_level s = Some q) ->
  let m2 := with_sessions m1 (<[i:=s']> (session_list (mSecurityAccess m1))) in
  ao_step m1 m2 /\ ao_ok (mSecurityAccess (in_state m2 UnlockedNoActiveSeed)) /\ reads current m2.
Proof.
  intros Hok Hi Hs Hl Hp m2.
  assert (Hlt : (i < length (session_list (mSecurityAccess m1)))%nat) by (by eapply lookup_lt_Some).
  split_and!.
  - eexists _, []. by rewrite log_nil.
  - assert (Heq : mSecurityAccess (in_state m2 UnlockedNoActiveSeed) =
      updated (mSecurityAccess m1) i s' i UnlockedNoActiveSeed).
    { unfold m2, with_sessions, in_state, updated. cbn in *. destruct (mSecurityAccess m1).
      cbn in *. by rewrite Hi. }
    rewrite Heq. eapply ao_ok_updated; [done|exact Hs|done| |by eexists|done].
    intros q Hq. destruct (ok_deref _ _ _ _ Hok Hs (Hp _ Hq)) as (x & Hx & _). by eexists.
  - exists (i, s'). unfold current, mbind, M_bind, self, gets. cbn. rewrite Hi. cbn.
    by rewrite list_lookup_insert_eq.
Qed.
End Key.

Lemma unlock_current m m1 i p :
  key_step m m1 i p ->
  wp UnlockCurrentSecLevel (fun _ m2 => ao_step m1 m2 /\
    ao_ok (mSecurityAccess (in_state m2 UnlockedNoActiveSeed)) /\ reads current m2) m1.
Proof.
  intros [_ Hok _ (s & l & [Hi Hs Hp _]) _]. unfold UnlockCurrentSecLevel. wp_step.
  eapply wp_current; [exact Hi|exact Hs|]. eapply wp_current_set; [exact Hi|exact Hs|].
  eapply locks_updated; [done|exact Hi|exact Hs|done|]. cbn. intros q [Hq|Hq]; auto.
Qed.

Lemma unlock_requested m m1 i p :
  key_step m m1 i p -> (exists q, unlocked_in m i q) ->
  wp UnlockRequestedSecLevelAndLockOthers (fun _ m2 => ao_step m1 m2 /\
    ao_ok (mSecurityAccess (in_state m2 UnlockedNoActiveSeed)) /\ reads current m2) m1.
Proof.
  intros [_ Hok _ (s & l & [Hi Hs Hp _]) Hu] [q Hq]. apply Hu in Hq as (s0 & Hs0 & Hul).
  assert (s0 = s) as -> by congruence.
  unfold UnlockRequestedSecLevelAndLockOthers. wp_step.
  eapply wp_current; [exact Hi|exact Hs|]. cbn [snd]. wp_step. eapply wp_demand; [exact Hp|].
  wp_step. eapply wp_demand; [exact Hul|]. apply wp_when; intros _.
  - wp_step. eapply wp_current_set; [exact Hi|exact Hs|].
    eapply (wp_current_set _ _ _ _ i (s <| unlocked_level := Some p |>)); [exact Hi| |].
    { by rewrite session_of_insert, decide_True by eauto. }
    set (s' := s <| unlocked_level := Some p |> <| active_level := None |>).
    assert (Hup : let m2 := with_sessions m1 (<[i:=s']> (session_list (mSecurityAccess m1))) in
      ao_step m1 m2 /\ ao_ok (mSecurityAccess (in_state m2 UnlockedNoActiveSeed)) /\ reads current m2).
    { eapply locks_updated; [done|exact Hi|exact Hs|done|]. cbn. intros r [[=]|Hr]. simplify_eq. auto. }
    unfold with_sessions in *. cbn in *. by rewrite list_insert_insert_eq.
  - split_and!; [reflexivity|by apply ao_ok_state|by apply current_reads].
Qed.

(** Every answer of the service is handled without fault. *)
Lemma service_answer_post sig int m :
  sig = REQUEST_SEED_RESPONSE_SIG \/ sig = SEND_KEY_RESPONSE_SIG ->
  wf m -> ao_ok (mSecurityAccess m) -> state_fn (mSecurityAccess m) <> State_initial ->
  answerable sig m ->
  wp (SecurityAccessEventHandler env (mkReport sig true int)) (fun _ => answer_post sig m) m.
Proof.
  intros Hsig Hwf Hao Hini Hans. unfold SecurityAccessEventHandler. apply wp_MFsm_dispatch; [done|].
  assert (Hstarted : forall m', answer_post sig m m' -> state_fn (mSecurityAccess m') <> State_initial).
  { intros m' Hp. rewrite (ap_state _ _ _ Hp). unfold next_state.
    by destruct Hsig as [-> | ->], (state_fn _), (nrcCode m =? 0). }
  eapply (wp_conseq _ (fun _ => answer_post sig m)); [|intros st m' Hp; split; [exact Hp|by apply Hstarted]].
  assert (Hign : waiting_for_key (state_fn (mSecurityAccess m)) = false ->
    answer_post SEND_KEY_RESPONSE_SIG m m).
  { intros Hw. split; try done.
    - apply quietly_refl.
    - unfold taken. rewrite Hw, bool_decide_false by done. cbn. lia.
    - cbn. by rewrite Hw. }
  destruct (state_fn (mSecurityAccess m)) eqn:Est; [done|..]; destruct Hsig as [-> | ->];
    cbn [state_handler hdlr_LockedNoActiveSeed hdlr_LockedWaitingForKey hdlr_UnlockedNoActiveSeed
         hdlr_UnlockedWaitingForKey rtype].
  - by eapply idle_seed_answered.
  - wp_step. by apply Hign.
  - apply waiting_seed_answered; by rewrite ?Est.
  - apply waiting_key_answered; try by rewrite ?Est. intros m1 i p Hs _ _. by eapply unlock_current.
  - by eapply idle_seed_answered.
  - wp_step. by apply Hign.
  - apply waiting_seed_answered; by rewrite ?Est.
  - apply waiting_key_answered; try by rewrite ?Est. intros m1 i p Hs Hn Hi.
    destruct (Hans Hn) as [_ Hu]. destruct (Hu eq_refl Est) as (i' & q & Hi' & Hq).
    eapply unlock_requested; [exact Hs|]. exists q. by simplify_eq.
Qed.
End Answers.
