(* ===== verification/UdsAccess.v ===== *)
(** * The UDS stack: service, session, security and role checks

    The predicates that decide whether a request may be served: supported services
    and sub-functions, authentication, active session, unlocked security level,
    roles, and the length rules of services 0x29 and 0x86. A check that catches an
    exception of the configuration passes or fails as its [catch] block says. *)
From S2P Require Import Prelude DiagCfg UdsTypes UdsSend SecAccess.

Section Access.
Variable env : Env.
Let cfg : Config := config env.

(** ** Authentication service (0x29) *)
Definition IsAuthSubFuncSupported (subFunc : Z) : bool :=
  if (subFunc =? AUTH_SUBFUNC_DEAUTHENTICATE) || (subFunc =? AUTH_SUBFUNC_VERIFY_CERT_UNIDIR)
     || (subFunc =? AUTH_SUBFUNC_POWN) || (subFunc =? AUTH_SUBFUNC_TRANSMIT_CERT)
     || (subFunc =? AUTH_SUBFUNC_AUTH_CONF)
  then true else false.

Definition rd16 (i : Z) : M Mgr Z :=
  hi ← rd recvBuf i; lo ← rd recvBuf (i + 1); mret (be16 hi lo).

Definition IsAuthReqLenCorrect (subFunc : Z) : M Mgr bool :=
  m ← get;
  let len := recvDataLen m in
  if subFunc =? AUTH_SUBFUNC_DEAUTHENTICATE then
    if negb (len =? 2) then mret false else mret true
  else if subFunc =? AUTH_SUBFUNC_VERIFY_CERT_UNIDIR then
    if len <=? 7 then mret false else
    lengthOfCertificateData ← rd16 3;
    if (lengthOfCertificateData =? 0) || (UDS_CERT_MAX_LEN <? lengthOfCertificateData)
    then mret false else
    if len <? 7 + lengthOfCertificateData then mret false else
    lengthOfChallengeClient ← rd16 (lengthOfCertificateData + 5);
    if UDS_CERT_MAX_LEN <? lengthOfChallengeClient then mret false else
    if negb (len =? 7 + lengthOfCertificateData + lengthOfChallengeClient) then mret false
    else mret true
  else if subFunc =? AUTH_SUBFUNC_VERIFY_CERT_BIDIR then
    if len <? 9 then mret false else mret true
  else if subFunc =? AUTH_SUBFUNC_POWN then
    if len <=? 6 then mret false else
    lenOfPownClient ← rd16 2;
    if len <? 6 + lenOfPownClient then mret false else
    if (lenOfPownClient =? 0) || (UDS_CERT_MAX_LEN <? lenOfPownClient) then mret false else
    lengOfPubKeyClient ← rd16 (lenOfPownClient + 4);
    if UDS_CERT_MAX_LEN <? lengOfPubKeyClient then mret false else
    if negb (len =? 6 + lenOfPownClient + lengOfPubKeyClient) then mret false else mret true
  else if subFunc =? AUTH_SUBFUNC_TRANSMIT_CERT then
    if len <=? 6 then mret false else
    lengthOfCertificateData ← rd16 4;
    if (lengthOfCertificateData =? 0) || (UDS_CERT_MAX_LEN <? lengthOfCertificateData)
    then mret false else
    if negb (len =? 6 + lengthOfCertificateData) then mret false else mret true
  else if subFunc =? AUTH_SUBFUNC_REQ_CHLNG_FOR_AUTH then
    if negb (len =? 19) then mret false else mret true
  else if subFunc =? AUTH_SUBFUNC_VERIFY_POWN_UNIDIR then
    if len <? 25 then mret false else mret true
  else if subFunc =? AUTH_SUBFUNC_VERIFY_POWN_BIDIR then
    if len <? 26 then mret false else mret true
  else if subFunc =? AUTH_SUBFUNC_AUTH_CONF then
    if negb (len =? 2) then mret false else mret true
  else mret true.

(** ** Response-on-event service (0x86) *)
Definition IsROEReqLenCorrect (subFunc : Z) : M Mgr bool :=
  m ← get;
  if subFunc =? ROE_SUBFUNC_ONDTCS then
    if recvDataLen m <? 7 then mret false else mret true
  else mret true.

Definition IsROEReqOutOfRange (subFunc : Z) : M Mgr bool :=
  if subFunc =? ROE_SUBFUNC_ONDTCS then
    eventWindowTime ← rd recvBuf 2;
    b1 ← rd recvBuf 1;
    let storageState := Z.land (Z.shiftr b1 6) 0x1 in
    serviceId ← rd recvBuf 4;
    subfunction ← rd recvBuf 5;
    if (eventWindowTime =? 0) || (8 <? eventWindowTime) then mret false else
    if storageState =? 1 then mret false else
    if negb (Z.land subfunction 0x80 =? 0) then mret false else
    if negb (serviceId =? READ_DTC_INFO_REQUEST_ID) then mret false else mret true
  else mret true.

Definition IsROESubFuncSupported (subFunc : Z) : bool :=
  if subFunc =? ROE_SUBFUNC_ONDTCS then true else false.

(** ** Services *)
Definition IsServiceIDSupported (sid : Z) : bool :=
  match get_service_entry cfg sid with
  | Returns svc => if svc_supported svc then true else false
  | Throws _ => false
  end.

Definition IsAuthCheckOK (sid : Z) : M Mgr bool :=
  m ← get;
  if sid =? AUTHENTICATION_REQUEST_ID then mret true else
  match get_service_entry cfg sid with
  | Returns svc =>
      if svc_authentication svc
      then mret (bool_decide (authState m = AUTH_STATE_AUTHENTICATED))
      else mret true
  | Throws _ => mret true
  end.

Definition GetSessionMap : amap string Z := get_diagnostic_session_map cfg.

(** The identifiers of the sessions in a list of names; unknown names are skipped. *)
Definition session_ids (names : list string) : list Z :=
  omap (amap_find GetSessionMap) names.

(** The check of an [access.session] list against the active session. *)
Definition session_listed (names : list string) (session : Z) : bool :=
  match names with
  | [] => true
  | _ => bool_decide (u8 session ∈ session_ids names)
  end.

Definition IsValidSvcActiveSession (sid : Z) : M Mgr bool :=
  m ← get;
  if (u8 (SessionType m) =? DEFAULT_SESSION)
     && ((sid =? SECURITY_ACCESS_REQUEST_ID)
         || (sid =? INPUT_OUTPUT_CONTROL_REQUEST_ID)
         || (sid =? TRANSFER_DATA_REQUEST_ID)
         || (sid =? REQUEST_TRANSFER_EXIT_REQUEST_ID)
         || (sid =? REQUEST_FILE_TRANSFER_REQUEST_ID))
  then mret false else
  match get_service_access cfg sid with
  | Returns access => mret (session_listed (acc_session access) (SessionType m))
  | Throws _ => mret true
  end.

(** [for (levelName : levels) if (IsLevelUnlocked(get_security_level_id(levelName)))
    found], which an unknown name leaves by an exception. *)
Fixpoint any_level_unlocked (levels : list string) : M Mgr (throws bool) :=
  match levels with
  | [] => mret (Returns false)
  | levelName :: rest =>
      match get_security_level_id cfg levelName with
      | Throws e => mret (Throws e)
      | Returns levelId =>
          unlocked ← SecurityAccess_IsLevelUnlocked levelId;
          if (unlocked : bool) then mret (Returns true) else any_level_unlocked rest
      end
  end.

(** The body shared by the security checks of services and sub-functions. *)
Definition access_unlocked (access : Access) : M Mgr bool :=
  if acc_security_type access =? SECURITY_ACCESS_REQUEST_ID then
    unlocked ← SecurityAccess_IsUnlocked;
    if negb unlocked then mret false else
    match acc_security_level access with
    | [] => mret true
    | levels => r ← any_level_unlocked levels; mret (try_or r true)
    end
  else mret true.

Definition IsSvcSecAccessMatched (sid : Z) : M Mgr bool :=
  m ← get;
  if sid =? 0x27 then mret true else
  if SessionType m =? DEFAULT_SESSION then mret true else
  match get_service_access cfg sid with
  | Returns access => access_unlocked access
  | Throws _ => mret true
  end.

Definition auth_timeout_ms : Z :=
  try_or ((fun t => u32 (t * 1000)) <$> get_authentication_timeout cfg)
    (MAX_AUTH_TIME * 1000).

(** The common part of every request's handling: [LE_OK] when it was refused,
    [LE_NOT_FOUND] when the checks passed. *)
Definition GeneralServerResp (addrInfoPtr : AddrInfo) (sid : Z) : M Mgr le_result_t :=
  if negb (IsServiceIDSupported sid) then SendNRC env sid SERVICE_NOT_SUPPORTED addrInfoPtr
  else
  m ← get;
  when (bool_decide (authState m = AUTH_STATE_AUTHENTICATED))
    (UdsTimerEventReport AUTH_TIMER_RESTART auth_timeout_ms (interface m));;
  ok ← IsAuthCheckOK sid;
  if negb ok then SendNRC env sid AUTHENTICATION_REQUIRED addrInfoPtr else
  valid ← IsValidSvcActiveSession sid;
  if negb valid then SendNRC env sid SERVICE_NOT_SUPPORTED_IN_ACTIVE_SESSION addrInfoPtr else
  matched ← IsSvcSecAccessMatched sid;
  if negb matched then SendNRC env sid SECURITY_ACCESS_DENY addrInfoPtr else
  mret LE_NOT_FOUND.

(** ** Sub-functions *)
Definition IsSubFuncSupported (sid subFunc : Z) : bool :=
  match get_subfunction cfg sid subFunc with
  | Returns sub => if sub_supported sub then true else false
  | Throws _ => false
  end.

Definition IsSubFuncAuthCheckOK (sid subFunc : Z) : M Mgr bool :=
  m ← get;
  match get_subfunction cfg sid subFunc with
  | Returns sub =>
      if sub_authentication sub
      then mret (bool_decide (authState m = AUTH_STATE_AUTHENTICATED))
      else mret true
  | Throws _ => mret true
  end.

Definition IsSubFuncSessTypeValid (sid subFunc : Z) : M Mgr bool :=
  m ← get;
  match get_subfunction_session_list cfg sid subFunc with
  | Returns names => mret (session_listed names (SessionType m))
  | Throws _ => mret true
  end.

Definition IsSubFuncSecAccessMatched (sid subFunc : Z) : M Mgr bool :=
  m ← get;
  if SessionType m =? DEFAULT_SESSION then mret true else
  match get_subfunction_access cfg sid subFunc with
  | Returns access => access_unlocked access
  | Throws _ => mret true
  end.

(** ** Roles *)
Definition IsSessTypeMatched (serviceEntry : ServiceEntry) : M Mgr bool :=
  m ← get;
  mret (match get_diagnostic_session cfg (u16 (SessionType m)) with
        | Returns s => bool_decide (dse_short_name s ∈ acc_session (svc_access serviceEntry))
        | Throws _ => false
        end).

Definition IsAuthRoleMatchedImpl (roleNames : list string) : M Mgr bool :=
  m ← get;
  match roleNames with
  | [] => mret true
  | _ =>
      let roles := get_authentication_roles cfg in
      let isRoleMatched :=
        existsb (fun name => match amap_find roles name with
                             | Some role_value =>
                                 negb (Z.land role_value (currentRoleVal m) =? 0)
                             | None => false
                             end) roleNames in
      mret (isRoleMatched && bool_decide (authState m = AUTH_STATE_AUTHENTICATED))
  end.

Definition IsAuthRoleMatched_did (serviceType : Z) (didEntry : DidEntry) : M Mgr bool :=
  if serviceType =? READ_DID_REQUEST_ID then IsAuthRoleMatchedImpl (did_read_role didEntry)
  else if serviceType =? WRITE_DID_REQUEST_ID
  then IsAuthRoleMatchedImpl (did_write_role didEntry)
  else mret false.

Definition IsAuthRoleMatched_io (serviceType : Z) (ioEntry : IOEntry) : M Mgr bool :=
  if serviceType =? INPUT_OUTPUT_CONTROL_REQUEST_ID
  then IsAuthRoleMatchedImpl (io_role ioEntry) else mret false.

Definition IsAuthRoleMatched_routine (serviceType : Z) (r : RoutineEntry) : M Mgr bool :=
  if serviceType =? ROUTINE_CONTROL_REQUEST_ID
  then IsAuthRoleMatchedImpl (rt_routine_role r) else mret false.

(** ** Routine option records *)
Definition IsControlOptionRecordValid (rid subFunc : Z) (dataRec : list Z) : bool :=
  let recordName := get_routine_record cfg rid subFunc in
  if negb (bool_decide (recordName = "null"%string)) then
    match validate_base_record cfg dataRec recordName with
    | Returns banned => if banned then false else true
    | Throws _ => true
    end
  else true.

Definition IsTotalLengthCheckValid (rid subFunc dataRecLen : Z) : bool :=
  let recordName := get_routine_record cfg rid subFunc in
  if negb (bool_decide (recordName = "null"%string)) then
    if negb (get_routine_record_size cfg recordName =? dataRecLen) then false else true
  else if featureA env then true
  else if 0 <? dataRecLen then false else true.
End Access.
