(* ===== verification/UdsIndicate.v ===== *)
(** * The UDS stack: checking a request before it is passed to the service

    One definition per service identifier ([IndicateXXXReq]): each either answers the
    request with a negative response code and leaves [*isInternalHandle] true, or
    sets it to false so that the dispatcher passes the request on. *)
From S2P Require Import Prelude DiagCfg UdsTypes UdsSend SecAccess UdsAccess.

Section Indicate.
Variable env : Env.
Let cfg : Config := config env.

(** [*isInternalHandle = true; return SendNRC(..)] and
    [*isInternalHandle = false; return LE_OK]. *)
Definition reject (sid nrc : Z) (a : AddrInfo) : M Mgr le_result_t :=
  isInternalHandle ::= true;; SendNRC env sid nrc a.
Definition accept : M Mgr le_result_t := isInternalHandle ::= false;; mret LE_OK.

(** [(recvBuf[i] << 8) + recvBuf[i+1]] as a [uint16_t]. *)
Definition rd_did (i : Z) : M Mgr Z :=
  hi ← rd recvBuf i; lo ← rd recvBuf (i + 1); mret (u16 (Z.shiftl hi 8 + lo)).

(** The checks on the sub-function that most services share, after the length. *)
Definition subfunc_checks (sid subFunc : Z) (a : AddrInfo)
    (k : M Mgr le_result_t) : M Mgr le_result_t :=
  authOk ← IsSubFuncAuthCheckOK env sid subFunc;
  if negb authOk then reject sid AUTHENTICATION_REQUIRED a else
  sessOk ← IsSubFuncSessTypeValid env sid subFunc;
  if negb sessOk then reject sid SUBFUNCTION_NOT_SUPPORTED_IN_ACTIVE_SESSION a else
  secOk ← IsSubFuncSecAccessMatched env sid subFunc;
  if negb secOk then reject sid SECURITY_ACCESS_DENY a else
  k.

(** ** ReadDataByIdentifier (0x22) *)
Inductive did_verdict := DidSkip | DidRefuse (nrc : Z) | DidInclude.

(** The [security] clause of an accessibility entry: [Throws] when a level name is
    unknown before an unlocked one is met. *)
Definition security_clause (sl : SecurityLevel) : M Mgr (throws bool) :=
  m ← get;
  if negb (SessionType m =? DEFAULT_SESSION) && sl_security sl
  then any_level_unlocked env (sl_security_level sl)
  else mret (Returns true).

(** The current session's name, [get_diagnostic_session(SessionType).short_name]. *)
Definition current_session_name (m : Mgr) : throws string :=
  dse_short_name <$> get_diagnostic_session cfg (u16 (SessionType m)).

Definition did_session_access (pDid : DidEntry) (m : Mgr) : throws DiagnosticSession :=
  name ← current_session_name m;
  amap_at (da_diagnostic_session (did_accessibility pDid)) name.

Definition read_did_check (dataId : Z) : M Mgr did_verdict :=
  m ← get;
  match get_did_entry cfg dataId with
  | Throws _ => mret DidSkip
  | Returns pDid =>
      if negb (sf_read_did (did_supported_functions pDid)) then mret DidSkip else
      match did_session_access pDid m with
      | Throws _ => mret DidSkip
      | Returns access =>
          match ds_R access with
          | [] => mret DidSkip
          | (_, readSecurityInfo) :: _ =>
              role ← IsAuthRoleMatched_did env READ_DID_REQUEST_ID pDid;
              if negb role then mret (DidRefuse AUTHENTICATION_REQUIRED) else
              unlocked ← security_clause readSecurityInfo;
              mret (match (unlocked : throws bool) with
                    | Throws _ => DidSkip
                    | Returns true => DidInclude
                    | Returns false => DidRefuse SECURITY_ACCESS_DENY
                    end)
          end
      end
  end.

(** The loop over the identifiers of the request from the [i]-th on: the filtered
    message and the number of functionally addressed identifiers, or the code of
    the negative response that ends the handling. *)
Fixpoint read_did_loop (n : nat) (i : Z) (functional : bool) (updated : list Z) (funcNum : Z)
    : M Mgr (Z + list Z * Z) :=
  match n with
  | O => mret (inr (updated, funcNum))
  | S n' =>
      dataId ← rd_did (i * 2 + 1);
      if functional && negb (IsDidFunctionalAddressed cfg dataId)
      then read_did_loop n' (i + 1) functional updated funcNum else
      let funcNum := if functional then u16 (funcNum + 1) else funcNum in
      verdict ← read_did_check dataId;
      match (verdict : did_verdict) with
      | DidSkip => read_did_loop n' (i + 1) functional updated funcNum
      | DidRefuse nrc => mret (inl nrc)
      | DidInclude =>
          b1 ← rd recvBuf (i * 2 + 1);
          b2 ← rd recvBuf (i * 2 + 2);
          _ ← demand (if Z.of_nat (length updated) + 2 <=? UDS_DATA_SIZE then Some tt else None)
                OutOfBounds;
          read_did_loop n' (i + 1) functional (updated ++ [b1; b2]) funcNum
      end
  end.

Definition IndicateReadDIDReq (a : AddrInfo) : M Mgr le_result_t :=
  sid ← rd recvBuf 0;
  isInternalHandle ::= true;;
  len ← gets recvDataLen;
  if len <? 3 then SendNRC env sid INCORRECT_MSG_LEN_OR_INVALID_FORMAT a else
  if negb (Z.rem (len - 1) 2 =? 0)
  then SendNRC env sid INCORRECT_MSG_LEN_OR_INVALID_FORMAT a else
  if UDS_DATA_SIZE <? len then SendNRC env sid INCORRECT_MSG_LEN_OR_INVALID_FORMAT a else
  let didNum := Z.quot (len - 1) 2 in
  if MAX_DID_NUM_IN_RDBI <? didNum
  then SendNRC env sid INCORRECT_MSG_LEN_OR_INVALID_FORMAT a else
  let functional := bool_decide (taType a = TA_FUNCTIONAL) in
  r ← read_did_loop (Z.to_nat didNum) 0 functional [sid] 0;
  match (r : Z + list Z * Z) with
  | inl nrc => SendNRC env sid nrc a
  | inr (updated, funcAddrDidNum) =>
      let anySupported := negb (Z.of_nat (length updated) =? 1) in
      if functional && (funcAddrDidNum =? 0) then mret LE_OK else
      if negb anySupported then SendNRC env sid REQ_OUT_OF_RANGE a else
      cpy recvBuf 0 updated;;
      recvDataLen ::= Z.of_nat (length updated);;
      accept
  end.

(** ** WriteDataByIdentifier (0x2E) *)
Definition IndicateWriteDIDReq (a : AddrInfo) : M Mgr le_result_t :=
  sid ← rd recvBuf 0;
  isInternalHandle ::= true;;
  m ← get;
  if recvDataLen m <? 4 then SendNRC env sid INCORRECT_MSG_LEN_OR_INVALID_FORMAT a else
  dataId ← rd_did 1;
  match get_did_entry cfg dataId with
  | Throws _ => SendNRC env sid REQ_OUT_OF_RANGE a
  | Returns pDid =>
      if negb (sf_write_did (did_supported_functions pDid))
      then SendNRC env sid REQ_OUT_OF_RANGE a else
      match did_session_access pDid m with
      | Throws _ => SendNRC env sid REQ_OUT_OF_RANGE a
      | Returns access =>
          match ds_W access with
          | [] => SendNRC env sid REQ_OUT_OF_RANGE a
          | (_, writeSecurityInfo) :: _ =>
              if UDS_DATA_SIZE <? recvDataLen m
              then SendNRC env sid INCORRECT_MSG_LEN_OR_INVALID_FORMAT a else
              if negb (did_size (did_implementation pDid) =? recvDataLen m - 3)
              then SendNRC env sid INCORRECT_MSG_LEN_OR_INVALID_FORMAT a else
              role ← IsAuthRoleMatched_did env WRITE_DID_REQUEST_ID pDid;
              if negb role then SendNRC env sid AUTHENTICATION_REQUIRED a else
              unlocked ← security_clause writeSecurityInfo;
              match (unlocked : throws bool) with
              | Throws _ => SendNRC env sid REQ_OUT_OF_RANGE a
              | Returns false => SendNRC env sid SECURITY_ACCESS_DENY a
              | Returns true =>
                  record ← demand (slice (drop 3 (recvBuf m)) (recvDataLen m - 3)) OutOfBounds;
                  if try_or (is_forbidden cfg dataId record) false
                  then SendNRC env sid REQ_OUT_OF_RANGE a
                  else accept
              end
          end
      end
  end.

(** ** DiagnosticSessionControl (0x10) *)
Fixpoint any_level_id_unlocked (levels : list Z) : M Mgr bool :=
  match levels with
  | [] => mret false
  | lvl :: rest =>
      unlocked ← SecurityAccess_IsLevelUnlocked lvl;
      if (unlocked : bool) then mret true else any_level_id_unlocked rest
  end.

Definition PrecheckForSwitchingSession (originalSession targetedSession : Z) : M Mgr bool :=
  session_list ← demand (get_pattern_sessions_by_session_id cfg targetedSession) OutOfBounds;
  match (session_list : list Z) with
  | [] => mret true
  | _ =>
      if negb (bool_decide (originalSession ∈ session_list)) then mret false else
      level_list ← demand (get_pattern_levels_by_session_id cfg targetedSession) OutOfBounds;
      match (level_list : list Z) with
      | [] => mret true
      | _ => any_level_id_unlocked level_list
      end
  end.

Definition IndicateSessionCtrlReq (a : AddrInfo) : M Mgr le_result_t :=
  sid ← rd recvBuf 0;
  m ← get;
  if recvDataLen m <? 2 then reject sid INCORRECT_MSG_LEN_OR_INVALID_FORMAT a else
  b1 ← rd recvBuf 1;
  let subFunc := Z.land b1 0x7F in
  if negb (IsSubFuncSupported env sid subFunc) then reject sid SUBFUNCTION_NOT_SUPPORTED a else
  if negb (recvDataLen m =? 2) then reject sid INCORRECT_MSG_LEN_OR_INVALID_FORMAT a else
  subfunc_checks sid subFunc a
    (let targetedSession := b1 in
     ok ← PrecheckForSwitchingSession (u8 (SessionType m)) targetedSession;
     if negb ok then reject sid CONDITIONS_NOT_CORRECT a else
     accept).

(** ** ECUReset (0x11) *)
Definition IndicateECUResetReq (a : AddrInfo) : M Mgr le_result_t :=
  sid ← rd recvBuf 0;
  m ← get;
  if recvDataLen m <? 2 then reject sid INCORRECT_MSG_LEN_OR_INVALID_FORMAT a else
  b1 ← rd recvBuf 1;
  let subFunc := Z.land b1 0x7F in
  if negb (IsSubFuncSupported env sid subFunc) then reject sid SUBFUNCTION_NOT_SUPPORTED a else
  if negb (recvDataLen m =? 2) then reject sid INCORRECT_MSG_LEN_OR_INVALID_FORMAT a else
  subfunc_checks sid subFunc a accept.

(** ** SecurityAccess (0x27) *)
Definition IndicateSecAccessReq (a : AddrInfo) : M Mgr le_result_t :=
  sid ← rd recvBuf 0;
  udsRespAddrInfo ::= a;;
  m ← get;
  if recvDataLen m <? 2 then reject sid INCORRECT_MSG_LEN_OR_INVALID_FORMAT a else
  b1 ← rd recvBuf 1;
  let subFunction := Z.land b1 0x7F in
  if negb (IsSubFuncSupported env sid subFunction)
  then reject sid SUBFUNCTION_NOT_SUPPORTED a else
  if (subFunction mod 2 =? 1) && (recvDataLen m <? 2)
  then reject sid INCORRECT_MSG_LEN_OR_INVALID_FORMAT a else
  if (subFunction mod 2 =? 0) && (recvDataLen m <? 3)
  then reject sid INCORRECT_MSG_LEN_OR_INVALID_FORMAT a else
  if UDS_MAX_DATA_SIZE <? recvDataLen m
  then reject sid INCORRECT_MSG_LEN_OR_INVALID_FORMAT a else
  authOk ← IsSubFuncAuthCheckOK env sid subFunction;
  if negb authOk then reject sid AUTHENTICATION_REQUIRED a else
  sessOk ← IsSubFuncSessTypeValid env sid subFunction;
  if negb sessOk then reject sid SUBFUNCTION_NOT_SUPPORTED_IN_ACTIVE_SESSION a else
  recvSid ::= sid;;
  recvSubFunc ::= b1;;
  posted ← report_and_wait env (if b1 mod 2 =? 1 then REQUEST_SEED_SIG else SEND_KEY_SIG) true;
  if negb posted then raise Deadlock else
  gets remoteError.

(** ** Authentication (0x29) *)
Definition IndicateAuthReq (a : AddrInfo) : M Mgr le_result_t :=
  sid ← rd recvBuf 0;
  m ← get;
  if UDS_MAX_DATA_SIZE <? recvDataLen m
  then reject sid INCORRECT_MSG_LEN_OR_INVALID_FORMAT a else
  if recvDataLen m <? 2 then reject sid INCORRECT_MSG_LEN_OR_INVALID_FORMAT a else
  b1 ← rd recvBuf 1;
  let subFunc := Z.land b1 0x7F in
  if negb (IsSubFuncSupported env sid subFunc) then reject sid SUBFUNCTION_NOT_SUPPORTED a else
  if negb (IsAuthSubFuncSupported subFunc) then reject sid SUBFUNCTION_NOT_SUPPORTED a else
  lenOk ← IsAuthReqLenCorrect subFunc;
  if negb lenOk then reject sid INCORRECT_MSG_LEN_OR_INVALID_FORMAT a else
  sessOk ← IsSubFuncSessTypeValid env sid subFunc;
  if negb sessOk then reject sid SUBFUNCTION_NOT_SUPPORTED_IN_ACTIVE_SESSION a else
  secOk ← IsSubFuncSecAccessMatched env sid subFunc;
  if negb secOk then reject sid SECURITY_ACCESS_DENY a else
  delayed ← le_timer_IsRunning env authDelayTimer;
  if (delayed : bool) then reject sid REQUIRED_TIME_DELAY_NOT_EXPIRED a else
  if (subFunc =? AUTH_SUBFUNC_POWN)
     && negb (authPreSucReq m =? AUTH_SUBFUNC_VERIFY_CERT_UNIDIR)
  then reject sid REQ_SEQUENCE_ERROR a else
  accept.
End Indicate.
