(* ===== verification/UdsControl.v ===== *)
(** * The UDS stack: control and fault-memory services

    The request checks of services 0x2F, 0x31, 0x14, 0x85, 0x86 and 0x19, and the
    tester-present service 0x3E, which the stack answers itself. *)
From S2P Require Import Prelude DiagCfg UdsTypes UdsSend SecAccess UdsAccess UdsIndicate.

Section Control.
Variable env : Env.
Let cfg : Config := config env.

(** ** InputOutputControlByIdentifier (0x2F) *)

(** The length and value checks of the control record. *)
Definition io_record_check (sid : Z) (a : AddrInfo) (dataId ioCtrlParam : Z) (io : IOEntry)
    (k : M Mgr le_result_t) : M Mgr le_result_t :=
  m ← get;
  if ioCtrlParam =? SHORT_TERM_ADJUSTMENT then
    let controlStateSize := u16 (io_did_size io) in
    let ctrlEnableMaskRecordSize := get_ioctrl_en_mask_record_size dataId in
    if negb (recvDataLen m =? controlStateSize + ctrlEnableMaskRecordSize + 4)
    then SendNRC env sid INCORRECT_MSG_LEN_OR_INVALID_FORMAT a else
    if recvDataLen m <? controlStateSize + 4
    then SendNRC env sid INCORRECT_MSG_LEN_OR_INVALID_FORMAT a else
    record ← demand (slice (drop 4 (recvBuf m)) controlStateSize) OutOfBounds;
    if try_or (is_forbidden cfg dataId record) false
    then SendNRC env sid REQ_OUT_OF_RANGE a
    else k
  else
    let ctrlEnableMaskRecordSize := get_ioctrl_en_mask_record_size dataId in
    if negb (recvDataLen m =? ctrlEnableMaskRecordSize + 4)
    then SendNRC env sid INCORRECT_MSG_LEN_OR_INVALID_FORMAT a
    else k.

Definition IndicateIOCBIDReq (a : AddrInfo) : M Mgr le_result_t :=
  sid ← rd recvBuf 0;
  isInternalHandle ::= true;;
  m ← get;
  if recvDataLen m <? 4 then SendNRC env sid INCORRECT_MSG_LEN_OR_INVALID_FORMAT a else
  if UDS_DATA_SIZE <? recvDataLen m
  then SendNRC env sid INCORRECT_MSG_LEN_OR_INVALID_FORMAT a else
  dataId ← rd_did 1;
  match get_io_entry cfg dataId with
  | Throws _ => SendNRC env sid REQ_OUT_OF_RANGE a
  | Returns pIoEntry =>
      match current_session_name env m with
      | Throws _ => SendNRC env sid REQ_OUT_OF_RANGE a
      | Returns currSessName =>
          if negb (bool_decide (currSessName ∈ acc_session (io_access pIoEntry)))
          then SendNRC env sid REQ_OUT_OF_RANGE a else
          ioCtrlParam ← rd recvBuf 3;
          if negb (bool_decide (ioCtrlParam ∈ io_control_parameter pIoEntry))
          then SendNRC env sid REQ_OUT_OF_RANGE a else
          io_record_check sid a dataId ioCtrlParam pIoEntry
            (role ← IsAuthRoleMatched_io env INPUT_OUTPUT_CONTROL_REQUEST_ID pIoEntry;
             if negb role then SendNRC env sid AUTHENTICATION_REQUIRED a else
             if negb (SessionType m =? DEFAULT_SESSION) then
               match amap_at (io_diagnostic_session pIoEntry) currSessName with
               | Throws _ => accept
               | Returns sl =>
                   unlocked ← security_clause env sl;
                   match (unlocked : throws bool) with
                   | Returns false => SendNRC env sid SECURITY_ACCESS_DENY a
                   | _ => accept
                   end
               end
             else accept)
      end
  end.

(** ** RoutineControl (0x31) *)
Definition routine_session_ok (r : RoutineEntry) (m : Mgr) : bool :=
  match acc_session (rt_access r) with
  | [] => true
  | names =>
      existsb (fun name => match amap_find (diag_session (diagConf cfg)) name with
                           | Some s => dse_id s =? SessionType m
                           | None => false
                           end) names
  end.

(** Unknown level names are skipped here. *)
Fixpoint any_named_level_unlocked (levels : list string) : M Mgr bool :=
  match levels with
  | [] => mret false
  | lvlName :: rest =>
      match amap_find (session_secur_level (diagConf cfg)) lvlName with
      | Some e =>
          unlocked ← SecurityAccess_IsLevelUnlocked (u8 (ssl_level_id e));
          if (unlocked : bool) then mret true else any_named_level_unlocked rest
      | None => any_named_level_unlocked rest
      end
  end.

Definition IndicateRoutinrCtrlReq (a : AddrInfo) : M Mgr le_result_t :=
  sid ← rd recvBuf 0;
  m ← get;
  if recvDataLen m <? 4 then reject env sid INCORRECT_MSG_LEN_OR_INVALID_FORMAT a else
  rid ← rd_did 2;
  match list_find (fun p => rt_identifier p.2 = rid) (routines_all (diagConf cfg)) with
  | None => reject env sid REQ_OUT_OF_RANGE a
  | Some (_, (_, routineEntry)) =>
      if negb (routine_session_ok routineEntry m) then reject env sid REQ_OUT_OF_RANGE a else
      role ← IsAuthRoleMatched_routine env ROUTINE_CONTROL_REQUEST_ID routineEntry;
      if negb role then reject env sid AUTHENTICATION_REQUIRED a else
      isUnlocked ← match acc_security_level (rt_access routineEntry) with
                   | [] => mret true
                   | levels => any_named_level_unlocked levels
                   end;
      if negb isUnlocked then reject env sid SECURITY_ACCESS_DENY a else
      b1 ← rd recvBuf 1;
      let subFunc := Z.land b1 0x7F in
      if negb (bool_decide (subFunc ∈ rt_sub_function routineEntry))
      then reject env sid SUBFUNCTION_NOT_SUPPORTED a else
      if UDS_DATA_SIZE <? recvDataLen m
      then reject env sid INCORRECT_MSG_LEN_OR_INVALID_FORMAT a else
      let dataRecLen := recvDataLen m - 4 in
      dataRec ← demand (slice (drop 4 (recvBuf m)) dataRecLen) OutOfBounds;
      if negb (IsTotalLengthCheckValid env rid subFunc dataRecLen)
      then reject env sid INCORRECT_MSG_LEN_OR_INVALID_FORMAT a else
      if 0 <? dataRecLen then
        if negb (IsTotalLengthCheckValid env rid subFunc dataRecLen)
        then reject env sid INCORRECT_MSG_LEN_OR_INVALID_FORMAT a else
        if negb (IsControlOptionRecordValid env rid subFunc dataRec)
        then reject env sid REQ_OUT_OF_RANGE a
        else accept
      else accept
  end.

(** ** TesterPresent (0x3E) *)
Definition TesterPresentResp (originSubFunc recvTpDataLen : Z) (a : AddrInfo)
    : M Mgr le_result_t :=
  let sid := TESTER_PRESENT_REQUEST_ID in
  if recvTpDataLen <? 2 then SendNRC env sid INCORRECT_MSG_LEN_OR_INVALID_FORMAT a else
  let subFunc := Z.land originSubFunc 0x7F in
  if negb (IsSubFuncSupported env sid subFunc)
  then SendNRC env sid SUBFUNCTION_NOT_SUPPORTED a else
  if negb (recvTpDataLen =? 2)
  then SendNRC env sid INCORRECT_MSG_LEN_OR_INVALID_FORMAT a else
  authOk ← IsSubFuncAuthCheckOK env sid subFunc;
  if negb authOk then SendNRC env sid AUTHENTICATION_REQUIRED a else
  sessOk ← IsSubFuncSessTypeValid env sid subFunc;
  if negb sessOk then SendNRC env sid SUBFUNCTION_NOT_SUPPORTED_IN_ACTIVE_SESSION a else
  secOk ← IsSubFuncSecAccessMatched env sid subFunc;
  if negb secOk then SendNRC env sid SECURITY_ACCESS_DENY a else
  let suppressPosRspFlag := Z.land (Z.shiftr originSubFunc 7) 0x1 in
  if suppressPosRspFlag =? 1 then
    CheckAndRestartS3Timer env sid false;;
    when (featureA env) (CheckAndRestartTesterStateTimer env false);;
    mret LE_OK
  else
    wr tpBuf 0 TESTER_PRESENT_RESPONSE_ID;;
    wr tpBuf 1 0;;
    tpDataLen ::= 2;;
    SendData env TESTER_PRESENT_REQUEST_ID 0 a;;
    mret LE_OK.

(** ** ClearDiagnosticInformation (0x14) *)
Definition IndicateClearDiagInfoReq (a : AddrInfo) : M Mgr le_result_t :=
  sid ← rd recvBuf 0;
  m ← get;
  if 5 <? recvDataLen m then reject env sid INCORRECT_MSG_LEN_OR_INVALID_FORMAT a else
  if recvDataLen m <? 4 then reject env sid INCORRECT_MSG_LEN_OR_INVALID_FORMAT a else
  if recvDataLen m =? 5 then reject env sid INCORRECT_MSG_LEN_OR_INVALID_FORMAT a else
  accept.

(** ** ControlDTCSetting (0x85) *)
Definition IndicateCtrlDTCSettingReq (a : AddrInfo) : M Mgr le_result_t :=
  sid ← rd recvBuf 0;
  m ← get;
  if SessionType m =? DEFAULT_SESSION then reject env sid CONDITIONS_NOT_CORRECT a else
  if UDS_DATA_SIZE <? recvDataLen m
  then reject env sid INCORRECT_MSG_LEN_OR_INVALID_FORMAT a else
  if recvDataLen m <? 2 then reject env sid INCORRECT_MSG_LEN_OR_INVALID_FORMAT a else
  accept.

(** ** ResponseOnEvent (0x86) *)
Definition IndicateROEReq (a : AddrInfo) : M Mgr le_result_t :=
  sid ← rd recvBuf 0;
  isInternalHandle ::= true;;
  m ← get;
  if UDS_MAX_DATA_SIZE <? recvDataLen m
  then SendNRC env sid INCORRECT_MSG_LEN_OR_INVALID_FORMAT a else
  if recvDataLen m <? 3 then SendNRC env sid INCORRECT_MSG_LEN_OR_INVALID_FORMAT a else
  b1 ← rd recvBuf 1;
  let subFunc := Z.land b1 0x3F in
  lenOk ← IsROEReqLenCorrect subFunc;
  if negb lenOk then reject env sid INCORRECT_MSG_LEN_OR_INVALID_FORMAT a else
  if negb (IsSubFuncSupported env sid subFunc)
  then SendNRC env sid SUBFUNCTION_NOT_SUPPORTED a else
  if negb (IsROESubFuncSupported subFunc)
  then SendNRC env sid SUBFUNCTION_NOT_SUPPORTED a else
  subfunc_checks env sid subFunc a
    (inRange ← IsROEReqOutOfRange subFunc;
     if negb inRange then SendNRC env sid REQ_OUT_OF_RANGE a else
     accept).

(** ** ReadDTCInformation (0x19) *)

(** The exact length of a request by its sub-function; sub-functions that are not
    listed have no length check. *)
Definition dtc_request_length (subFunc : Z) : option Z :=
  if (subFunc =? 0x01) || (subFunc =? 0x02) then Some 3
  else if subFunc =? 0x03 then Some 2
  else if subFunc =? 0x04 then Some 6
  else if subFunc =? 0x05 then Some 3
  else if subFunc =? 0x06 then Some 6
  else if (subFunc =? 0x07) || (subFunc =? 0x08) then Some 4
  else if subFunc =? 0x09 then Some 5
  else if (subFunc =? 0x0A) || (subFunc =? 0x0B) || (subFunc =? 0x0C) || (subFunc =? 0x0D)
          || (subFunc =? 0x0E) || (subFunc =? 0x14) || (subFunc =? 0x15) then Some 2
  else if subFunc =? 0x16 then Some 3
  else if subFunc =? 0x17 then Some 4
  else if subFunc =? 0x18 then Some 7
  else if subFunc =? 0x19 then Some 7
  else if subFunc =? 0x1A then Some 3
  else if subFunc =? 0x42 then Some 5
  else if subFunc =? 0x55 then Some 3
  else if subFunc =? 0x56 then Some 4
  else None.

Definition IndicateReadDTCInfoReq (a : AddrInfo) : M Mgr le_result_t :=
  sid ← rd recvBuf 0;
  m ← get;
  if UDS_DATA_SIZE <? recvDataLen m
  then reject env sid INCORRECT_MSG_LEN_OR_INVALID_FORMAT a else
  if recvDataLen m <? 2 then reject env sid INCORRECT_MSG_LEN_OR_INVALID_FORMAT a else
  b1 ← rd recvBuf 1;
  let subFunc := Z.land b1 0x7F in
  if negb (IsSubFuncSupported env sid subFunc)
  then reject env sid SUBFUNCTION_NOT_SUPPORTED a else
  let isReqLenCorrect := match dtc_request_length subFunc with
                         | Some n => recvDataLen m =? n
                         | None => true
                         end in
  if negb isReqLenCorrect then reject env sid INCORRECT_MSG_LEN_OR_INVALID_FORMAT a else
  subfunc_checks env sid subFunc a accept.
End Control.
