(* ===== verification/UdsTransfer.v ===== *)
(** * The UDS stack: download and file transfer services

    The request checks of RequestDownload (0x34), TransferData (0x36),
    RequestTransferExit (0x37) and RequestFileTransfer (0x38). *)
From S2P Require Import Prelude DiagCfg UdsTypes UdsSend SecAccess UdsAccess UdsIndicate.

(** [isAcsiiFormat]: the loop runs for [i <= arrLen], one byte past the text. *)
Definition isAcsiiFormat (arr : list Z) (arrLen : Z) : option bool :=
  text ← slice arr (arrLen + 1);
  Some (forallb (fun c => c <=? 127) text).

(** [ValueOfFileSize]: a big-endian number of [length] bytes at [buffer], or at
    [buffer + length]; the accumulator is a [uint32_t]. *)
Definition ValueOfFileSize (buffer : list Z) (length : Z) (uncomp : bool) : option Z :=
  let nBuffer := if uncomp then buffer else drop (Z.to_nat length) buffer in
  bytes ← slice nBuffer length;
  Some (foldl (fun result b => Z.lor (u32 (Z.shiftl result 8)) (Z.land 0xFF b)) 0 bytes).

Section Transfer.
Variable env : Env.

Definition IndicateRxXferDataReq (a : AddrInfo) : M Mgr le_result_t :=
  sid ← rd recvBuf 0;
  m ← get;
  if recvDataLen m <? 2 then
    isXferActive ::= false;; reject env sid INCORRECT_MSG_LEN_OR_INVALID_FORMAT a else
  if UDS_DATA_SIZE <? recvDataLen m then
    isXferActive ::= false;; reject env sid INCORRECT_MSG_LEN_OR_INVALID_FORMAT a else
  if negb (isXferActive m) then reject env sid REQ_SEQUENCE_ERROR a else
  accept.

Definition IndicateRxXferExitReq (a : AddrInfo) : M Mgr le_result_t :=
  sid ← rd recvBuf 0;
  m ← get;
  if recvDataLen m <? 1 then reject env sid INCORRECT_MSG_LEN_OR_INVALID_FORMAT a else
  if UDS_DATA_SIZE <? recvDataLen m
  then reject env sid INCORRECT_MSG_LEN_OR_INVALID_FORMAT a else
  if negb (isXferActive m) then reject env sid REQ_SEQUENCE_ERROR a else
  accept.

Definition IndicateRxReqDwnldReq (a : AddrInfo) : M Mgr le_result_t :=
  ReqDwnldSid ← rd recvBuf 0;
  m ← get;
  if recvDataLen m <? 3
  then SendNRC env ReqDwnldSid INCORRECT_MSG_LEN_OR_INVALID_FORMAT a else
  addrAndLenFormatID ← rd recvBuf 2;
  let memAddrParamLen := Z.land addrAndLenFormatID 0x0F in
  let memSizeParamLen := Z.land (Z.shiftr addrAndLenFormatID 4) 0x0F in
  if negb (recvDataLen m - 3 =? memAddrParamLen + memSizeParamLen)
  then SendNRC env ReqDwnldSid INCORRECT_MSG_LEN_OR_INVALID_FORMAT a else
  if isXferActive m then SendNRC env ReqDwnldSid CONDITIONS_NOT_CORRECT a else
  accept.

(** ** RequestFileTransfer (0x38) *)
Definition dataFormatIdentifier_ok (dfi : Z) : bool :=
  if featureA env
  then (dfi =? 0x00) || (dfi =? 0x01) || (dfi =? 0x10) || (dfi =? 0x11)
  else dfi =? 0x00.

(** READ_DIR and DELETE_FILE: only a path. *)
Definition filexfer_path_only (sid : Z) (a : AddrInfo) (pathLen : Z)
    (k : M Mgr le_result_t) : M Mgr le_result_t :=
  len ← gets recvDataLen;
  if (UDS_DATA_SIZE - 4 <? pathLen) || (pathLen <? 1)
  then SendNRC env sid REQ_OUT_OF_RANGE a else
  if (UDS_DATA_SIZE <? len) || negb (len =? 4 + pathLen)
  then SendNRC env sid INCORRECT_MSG_LEN_OR_INVALID_FORMAT a else
  k.

(** ADD_FILE, RESUME_FILE and REPLACE_FILE: path, format and the two sizes. *)
Definition filexfer_write (sid : Z) (a : AddrInfo) (pathLen : Z)
    (k : M Mgr le_result_t) : M Mgr le_result_t :=
  m ← get;
  let len := recvDataLen m in
  if (UDS_DATA_SIZE - 4 - 1 - 1 <? pathLen) || (pathLen <? 1)
  then SendNRC env sid REQ_OUT_OF_RANGE a else
  if (UDS_DATA_SIZE <? len) || (len <? 4 + pathLen + 1 + 1)
  then SendNRC env sid INCORRECT_MSG_LEN_OR_INVALID_FORMAT a else
  fileSizeParameterLength ← rd recvBuf (4 + pathLen + 1);
  if (4 <? fileSizeParameterLength) || (fileSizeParameterLength =? 0)
  then SendNRC env sid REQ_OUT_OF_RANGE a else
  if negb (len =? 4 + pathLen + 1 + 1 + fileSizeParameterLength * 2)
  then SendNRC env sid INCORRECT_MSG_LEN_OR_INVALID_FORMAT a else
  dataFormatIdentifier ← rd recvBuf (4 + pathLen);
  if negb (dataFormatIdentifier_ok dataFormatIdentifier)
  then SendNRC env sid REQ_OUT_OF_RANGE a else
  let FSPtr := drop (Z.to_nat (4 + pathLen + 1 + 1)) (recvBuf m) in
  fileSizeUncompressed ← demand (ValueOfFileSize FSPtr fileSizeParameterLength true) OutOfBounds;
  fileSizeCompressed ← demand (ValueOfFileSize FSPtr fileSizeParameterLength false) OutOfBounds;
  if fileSizeUncompressed <? fileSizeCompressed
  then SendNRC env sid REQ_OUT_OF_RANGE a else
  if (dataFormatIdentifier =? 0x00) && negb (fileSizeCompressed =? fileSizeUncompressed)
  then SendNRC env sid REQ_OUT_OF_RANGE a else
  if negb (dataFormatIdentifier =? 0x00) && (0 <? Z.land dataFormatIdentifier 0xF0)
     && (fileSizeCompressed =? fileSizeUncompressed)
  then SendNRC env sid REQ_OUT_OF_RANGE a else
  k.

(** READ_FILE: path and format. *)
Definition filexfer_read (sid : Z) (a : AddrInfo) (pathLen : Z)
    (k : M Mgr le_result_t) : M Mgr le_result_t :=
  len ← gets recvDataLen;
  if (UDS_DATA_SIZE - 4 - 1 <? pathLen) || (pathLen <? 1)
  then SendNRC env sid REQ_OUT_OF_RANGE a else
  if (UDS_DATA_SIZE <? len) || negb (len =? 4 + pathLen + 1)
  then SendNRC env sid INCORRECT_MSG_LEN_OR_INVALID_FORMAT a else
  dataFormatIdentifier ← rd recvBuf (4 + pathLen);
  if negb (dataFormatIdentifier_ok dataFormatIdentifier)
  then SendNRC env sid REQ_OUT_OF_RANGE a else
  k.

Definition IndicateRxFileXferReq (a : AddrInfo) : M Mgr le_result_t :=
  sid ← rd recvBuf 0;
  m ← get;
  if recvDataLen m <? 5 then SendNRC env sid INCORRECT_MSG_LEN_OR_INVALID_FORMAT a else
  moop ← rd recvBuf 1;
  if (moop <? MOOP_ADD_FILE) || (MOOP_RESUME_FILE <? moop)
  then SendNRC env sid REQ_OUT_OF_RANGE a else
  filePathAndNameLength ← rd16 2;
  let rest :=
    ascii ← demand (isAcsiiFormat (drop 4 (recvBuf m)) filePathAndNameLength) OutOfBounds;
    if negb ascii then SendNRC env sid REQ_OUT_OF_RANGE a else
    if isXferActive m then SendNRC env sid CONDITIONS_NOT_CORRECT a else
    accept in
  if (moop =? MOOP_READ_DIR) || (moop =? MOOP_DELETE_FILE)
  then filexfer_path_only sid a filePathAndNameLength rest
  else if (moop =? MOOP_ADD_FILE) || (moop =? MOOP_RESUME_FILE) || (moop =? MOOP_REPLACE_FILE)
  then filexfer_write sid a filePathAndNameLength rest
  else if moop =? MOOP_READ_FILE
  then filexfer_read sid a filePathAndNameLength rest
  else rest.
End Transfer.
