(* ===== verification/UdsResp.v ===== *)
(** * The UDS stack: responses of the diagnostic service

    [SendUDSResp] and the response builder of each service. A builder writes the
    message into [sendBuf] and its length into [sendDataLen], or refuses. *)
From Stdlib Require Import SpecFloat.
From S2P Require Import Prelude Ieee DiagCfg UdsTypes UdsSend SecAccess UdsAccess.

(** [HowManyChars]: the number of bytes the value occupies. *)
Fixpoint significant_bits (fuel : nat) (v : Z) : Z :=
  match fuel with
  | O => 0
  | S n => if v =? 0 then 0 else significant_bits n (Z.shiftr v 1) + 1
  end.
Definition HowManyChars (maxNumberOfBlock : Z) : Z :=
  (significant_bits 16 maxNumberOfBlock + 7) / 8.

Section Resp.
Variable env : Env.
Let cfg : Config := config env.

(** The application's data: the pointer, [None] for [NULL], and its length. *)
Definition Payload : Type := option (list Z) * Z.

Definition copy_payload (off : Z) (data : list Z) (dataSize : Z) : M Mgr unit :=
  src ← demand (slice data dataSize) OutOfBounds; cpy sendBuf off src.

(** [if (dataPtr != NULL && dataSize != 0)] append, [else] only the header. *)
Definition optional_payload (base : Z) (p : Payload) : M Mgr le_result_t :=
  match p.1 with
  | Some data =>
      if negb (p.2 =? 0) then
        copy_payload base data p.2;; sendDataLen ::= u16 (base + p.2);; mret LE_OK
      else sendDataLen ::= base;; mret LE_OK
  | None => sendDataLen ::= base;; mret LE_OK
  end.

(** ** 0x50 *)
Definition p2_interval (session : Z) : spec_float :=
  try_or ((fun sess =>
             let i := F32.of_double (F64.mul (p2_server_max sess) (F64.of_Z 1000)) in
             if SFltb (F32.of_Z UDS_P2_SERVER_MAX) i then F32.of_Z UDS_P2_SERVER else i)
            <$> get_diagnostic_session cfg (u16 session))
    (F32.of_Z UDS_P2_SERVER).

(** The switch of the security-access object, with the semaphore [mSem-..-n]. *)
Definition wait_session_control : M Mgr bool :=
  m ← get;
  mainSemCnt ::= u32 (mainSemCnt m + 1);;
  report_and_wait env SESSION_CONTROL_SIG false.

Definition session_control_message (session : Z) : M Mgr le_result_t :=
  p2 ← demand (to_unsigned 32 (p2_interval session)) BadConversion;
  p2star_tenth ← demand (to_unsigned 32 (F32.div (p2star_interval cfg session) (F32.of_Z 10)))
                   BadConversion;
  p2star ← demand (to_unsigned 32 (p2star_interval cfg session)) BadConversion;
  b1 ← rd recvBuf 1;
  wr sendBuf 0 SESSION_CONTROL_RESPONSE_ID;;
  wr sendBuf 1 (Z.land b1 0x7F);;
  wr sendBuf 2 (Z.shiftr (Z.land p2 0xff00) 8);;
  wr sendBuf 3 (Z.land p2 0xff);;
  wr sendBuf 4 (Z.shiftr (Z.land p2star_tenth 0xff00) 8);;
  wr sendBuf 5 (Z.land (p2star / 10) 0xff);;
  sendDataLen ::= 6;;
  mret LE_OK.

Definition SessionCtrlResp (serviceId err : Z) : M Mgr le_result_t :=
  if negb (err =? POSITIVE_RESPONSE) then SetNRC serviceId err;; mret LE_OK else
  b1 ← rd recvBuf 1;
  let newSessionType := Z.land b1 0x7F in
  m ← get;
  let oldSessionType := SessionType m in
  SessionType ::= newSessionType;;
  s3ServerInterval ← demand (s3_interval_truncated cfg) BadConversion;
  if negb (oldSessionType =? newSessionType) then
    (if newSessionType =? DEFAULT_SESSION
     then UdsTimerEventReport S3_TIMER_STOP 0 (interface m)
     else UdsTimerEventReport S3_TIMER_START s3ServerInterval (interface m));;
    posted ← (if existsb (fun p => p.2 =? newSessionType) (GetSessionMap env)
              then wait_session_control else mret true);
    if negb posted then mret LE_TIMEOUT else
    emit (IndEvent SESSION_CHANGE_MSG_ID
            [ind_msg_code SESSION_CHANGE_MSG_ID; oldSessionType; newSessionType]);;
    session_control_message newSessionType
  else
    posted ← (if negb (newSessionType =? DEFAULT_SESSION)
              then wait_session_control else mret true);
    if negb posted then mret LE_TIMEOUT else
    session_control_message newSessionType.

(** ** 0x51 *)
Definition ECUResetResp (serviceId err : Z) : M Mgr le_result_t :=
  if negb (err =? POSITIVE_RESPONSE) then SetNRC serviceId err;; mret LE_OK else
  let ignoreReqForHardReset := ignore_request_for_hardreset (get_common_props cfg) in
  b1 ← rd recvBuf 1;
  let resetType := Z.land b1 0x7F in
  when (ignoreReqForHardReset && (resetType =? HARD_RESET)) (isResetInProgress ::= true);;
  wr sendBuf 0 ECU_RESET_RESPONSE_ID;;
  wr sendBuf 1 resetType;;
  sendDataLen ::= 2;;
  mret LE_OK.

(** ** 0x62 *)
Definition ReadDIDResp (serviceId : Z) (p : Payload) (err : Z) : M Mgr le_result_t :=
  if negb (err =? POSITIVE_RESPONSE) then SetNRC serviceId err;; mret LE_OK else
  if (UDS_MAX_DATA_SIZE - 1 <? p.2) || (p.2 <? 3) then mret LE_FAULT else
  wr sendBuf 0 READ_DID_RESPONSE_ID;;
  match p.1 with
  | Some data =>
      if negb (p.2 =? 0) then
        copy_payload 1 data p.2;; sendDataLen ::= u16 (1 + p.2);; mret LE_OK
      else mret LE_FAULT
  | None => mret LE_FAULT
  end.

(** ** 0x6E *)
Definition WriteDIDResp (serviceId err : Z) : M Mgr le_result_t :=
  if negb (err =? POSITIVE_RESPONSE) then SetNRC serviceId err;; mret LE_OK else
  b1 ← rd recvBuf 1;
  b2 ← rd recvBuf 2;
  wr sendBuf 0 WRITE_DID_RESPONSE_ID;;
  wr sendBuf 1 b1;;
  wr sendBuf 2 b2;;
  sendDataLen ::= 3;;
  mret LE_OK.

(** ** 0x67 *)
Definition SecurityAccessResp (serviceId : Z) (p : Payload) (err : Z) : M Mgr le_result_t :=
  if UDS_DATA_SIZE - 2 <? p.2 then mret LE_FAULT else
  b1 ← rd recvBuf 1;
  let securityAccessType := Z.land b1 0x7F in
  m ← get;
  mainSemCnt ::= u32 (mainSemCnt m + 1);;
  posted ← report_and_wait env (if negb (securityAccessType mod 2 =? 0)
                                then REQUEST_SEED_RESPONSE_SIG else SEND_KEY_RESPONSE_SIG) false;
  if negb posted then mret LE_TIMEOUT else
  nrc ← gets nrcCode;
  if negb (nrc =? POSITIVE_RESPONSE) then SetNRC serviceId nrc;; mret LE_OK else
  wr sendBuf 0 SECURITY_ACCESS_RESPONSE_ID;;
  wr sendBuf 1 (Z.land b1 0x7F);;
  optional_payload 2 p.

(** ** 0x69 *)
Definition auth_failed (serviceId authSubFunc : Z) : M Mgr unit :=
  when ((authSubFunc =? AUTH_SUBFUNC_VERIFY_CERT_UNIDIR) || (authSubFunc =? AUTH_SUBFUNC_POWN))
    (m ← get;
     authAttCnt ::= u8 (authAttCnt m + 1);;
     StoreAttCntToTree;;
     authState ::= AUTH_STATE_DEAUTHENTICATED;;
     m' ← get;
     when (AUTH_DEFAULT_MAX_ATT_CNT <=? authAttCnt m')
       (authAttCnt ::= AUTH_DEFAULT_MAX_ATT_CNT;;
        StoreAttCntToTree;;
        running ← le_timer_IsRunning env authDelayTimer;
        when (negb running)
          (SetNRC serviceId EXCEEDED_NUMBER_OF_ATTEMPTS;;
           UdsTimerEventReport AUTH_DELAY_TIMER_START (u32 (authDelayTime m' * 1000))
             (interface m')))).

Definition AuthenticationResp (serviceId : Z) (p : Payload) (err : Z) : M Mgr le_result_t :=
  b1 ← rd recvBuf 1;
  let authSubFunc := Z.land b1 0x7F in
  if negb (err =? POSITIVE_RESPONSE) then
    SetNRC serviceId err;;
    authPreSucReq ::= AUTH_SUBFUNC_UNKNOWN;;
    auth_failed serviceId authSubFunc;;
    mret LE_OK
  else
  if (UDS_MAX_DATA_SIZE - 2 <? p.2) || (p.2 <? 1) then mret LE_FAULT else
  match p.1 with
  | None => mret LE_FAULT
  | Some data =>
      m ← get;
      authPreSucReq ::= AUTH_SUBFUNC_UNKNOWN;;
      (if authSubFunc =? AUTH_SUBFUNC_DEAUTHENTICATE then
         authState ::= AUTH_STATE_DEAUTHENTICATED;;
         UdsTimerEventReport AUTH_TIMER_STOP 0 (interface m)
       else if authSubFunc =? AUTH_SUBFUNC_VERIFY_CERT_UNIDIR then
         authPreSucReq ::= AUTH_SUBFUNC_VERIFY_CERT_UNIDIR
       else if authSubFunc =? AUTH_SUBFUNC_POWN then
         authState ::= AUTH_STATE_AUTHENTICATED;;
         UdsTimerEventReport AUTH_TIMER_START (auth_timeout_ms env) (interface m);;
         authAttCnt ::= 0;;
         authDelayTime ::= AUTH_DEFAULT_DELAY_TIME;;
         StoreAttCntToTree;;
         StoreDelayTimeToTree
       else mret tt);;
      wr sendBuf 0 AUTHENTICATION_RESPONSE_ID;;
      wr sendBuf 1 authSubFunc;;
      copy_payload 2 data p.2;;
      sendDataLen ::= u16 (2 + p.2);;
      mret LE_OK
  end.

(** ** 0x71 *)
Definition RoutineCtrlResp (serviceId : Z) (p : Payload) (err : Z) : M Mgr le_result_t :=
  if UDS_MAX_DATA_SIZE - 4 <? p.2 then mret LE_FAULT else
  if negb (err =? POSITIVE_RESPONSE) then SetNRC serviceId err;; mret LE_OK else
  b1 ← rd recvBuf 1;
  b2 ← rd recvBuf 2;
  b3 ← rd recvBuf 3;
  let routineIdentifier := u16 (Z.shiftl b2 8 + b3) in
  wr sendBuf 0 ROUTINE_CONTROL_RESPONSE_ID;;
  wr sendBuf 1 (Z.land b1 0x7F);;
  wr sendBuf 2 (u8 (Z.shiftr routineIdentifier 8));;
  wr sendBuf 3 (u8 routineIdentifier);;
  optional_payload 4 p.

(** ** 0x6F *)
Definition IOCBIDResp (serviceId : Z) (p : Payload) (err : Z) : M Mgr le_result_t :=
  if negb (err =? POSITIVE_RESPONSE) then SetNRC serviceId err;; mret LE_OK else
  if UDS_MAX_DATA_SIZE - 4 <? p.2 then mret LE_FAULT else
  b1 ← rd recvBuf 1;
  b2 ← rd recvBuf 2;
  b3 ← rd recvBuf 3;
  wr sendBuf 0 IOCBID_RESPONSE_ID;;
  wr sendBuf 1 b1;;
  wr sendBuf 2 b2;;
  wr sendBuf 3 b3;;
  optional_payload 4 p.

(** ** 0x76 *)
Definition XferDataResp (serviceId : Z) (p : Payload) (err : Z) : M Mgr le_result_t :=
  if UDS_MAX_DATA_SIZE - 2 <? p.2 then mret LE_FAULT else
  if negb (err =? POSITIVE_RESPONSE) then
    isXferActive ::= false;; SetNRC serviceId err;; mret LE_OK else
  blockSequenceCounter ← rd recvBuf 1;
  wr sendBuf 0 TRANSFER_DATA_RESPONSE_ID;;
  wr sendBuf 1 blockSequenceCounter;;
  optional_payload 2 p.

(** ** 0x77 *)
Definition ReqXferExitResp (serviceId err : Z) : M Mgr le_result_t :=
  if negb (err =? POSITIVE_RESPONSE) then SetNRC serviceId err;; mret LE_OK else
  wr sendBuf 0 REQUEST_TRANSFER_EXIT_RESPONSE_ID;;
  sendDataLen ::= 1;;
  isXferActive ::= false;;
  mret LE_OK.

(** [maxNumberOfBlockLen], and its two bytes at [off], most significant first. *)
Definition maxNumberOfBlockLen : Z := UDS_DATA_SIZE - 4.
Definition write_block_len (off : Z) : M Mgr unit :=
  wr sendBuf off (Z.land (Z.shiftr maxNumberOfBlockLen 8) 0xFF);;
  wr sendBuf (off + 1) (Z.land (Z.shiftr maxNumberOfBlockLen 0) 0xFF).

(** ** 0x74 *)
Definition ReqDwnldResp (serviceId : Z) (p : Payload) (err : Z) : M Mgr le_result_t :=
  if negb (err =? POSITIVE_RESPONSE) then SetNRC serviceId err;; mret LE_OK else
  let nBytes := HowManyChars maxNumberOfBlockLen in
  let lengthFormatId := Z.shiftl (Z.land nBytes 0x0F) 4 in
  wr sendBuf 0 (u8 (serviceId + 0x40));;
  wr sendBuf 1 lengthFormatId;;
  write_block_len 2;;
  sendDataLen ::= 4;;
  if UDS_MAX_DATA_SIZE <? 4 + p.2 then mret LE_FAULT else
  isXferActive ::= true;;
  mret LE_OK.

(** ** 0x78 *)
Definition filexfer_header (serviceId moop : Z) : M Mgr unit :=
  isXferActive ::= true;;
  wr sendBuf 0 (u8 (serviceId + 0x40));;
  wr sendBuf 1 moop;;
  wr sendBuf 2 (HowManyChars maxNumberOfBlockLen);;
  write_block_len 3.

Definition ReqFileXferResp (serviceId : Z) (p : Payload) (err : Z) : M Mgr le_result_t :=
  if negb (err =? POSITIVE_RESPONSE) then SetNRC serviceId err;; mret LE_OK else
  filePathAndNameLength ← rd16 2;
  moop ← rd recvBuf 1;
  if moop =? MOOP_DELETE_FILE then
    wr sendBuf 0 (u8 (serviceId + 0x40));;
    wr sendBuf 1 moop;;
    sendDataLen ::= 2;;
    mret LE_OK
  else if (moop =? MOOP_ADD_FILE) || (moop =? MOOP_REPLACE_FILE) || (moop =? MOOP_RESUME_FILE)
  then
    filexfer_header serviceId moop;;
    dfi ← rd recvBuf (4 + filePathAndNameLength);
    wr sendBuf 5 dfi;;
    sendDataLen ::= 6;;
    if UDS_MAX_DATA_SIZE <? 6 + p.2 then mret LE_FAULT else
    match p.1 with
    | Some data =>
        copy_payload 6 data p.2;; sendDataLen ::= u16 (6 + p.2);; mret LE_OK
    | None => if moop =? MOOP_RESUME_FILE then raise Fatal else mret LE_OK
    end
  else if (moop =? MOOP_READ_FILE) || (moop =? MOOP_READ_DIR) then
    filexfer_header serviceId moop;;
    (if moop =? MOOP_READ_DIR then wr sendBuf 5 0x00
     else dfi ← rd recvBuf (4 + filePathAndNameLength); wr sendBuf 5 dfi);;
    sendDataLen ::= 6;;
    match p.1 with
    | None => raise Fatal
    | Some data =>
        if UDS_MAX_DATA_SIZE <? 6 + p.2 then mret LE_FAULT else
        copy_payload 6 data p.2;; sendDataLen ::= u16 (6 + p.2);; mret LE_OK
    end
  else mret LE_OK.

(** ** 0x59 *)
Definition ReadDTCInfoResp (serviceId : Z) (p : Payload) (err : Z) : M Mgr le_result_t :=
  if UDS_MAX_DATA_SIZE - 2 <? p.2 then mret LE_FAULT else
  if negb (err =? POSITIVE_RESPONSE) then SetNRC serviceId err;; mret LE_OK else
  b1 ← rd recvBuf 1;
  wr sendBuf 0 READ_DTC_INFO_RESPONSE_ID;;
  wr sendBuf 1 (Z.land b1 0x7F);;
  optional_payload 2 p.

(** ** 0x54 *)
Definition ClearDiagInfoResp (serviceId err : Z) : M Mgr le_result_t :=
  if negb (err =? POSITIVE_RESPONSE) then SetNRC serviceId err;; mret LE_OK else
  wr sendBuf 0 CLEAR_DIAG_INFO_RESPONSE_ID;;
  sendDataLen ::= 1;;
  mret LE_OK.

(** ** 0xC5 *)
Definition CtrlDTCSettingResp (serviceId err : Z) : M Mgr le_result_t :=
  if negb (err =? POSITIVE_RESPONSE) then SetNRC serviceId err;; mret LE_OK else
  b1 ← rd recvBuf 1;
  wr sendBuf 0 CONTROL_DTC_SETTING_RESPONSE_ID;;
  wr sendBuf 1 (Z.land b1 0x7F);;
  sendDataLen ::= 2;;
  mret LE_OK.

(** ** 0xC6 *)
Definition ROEResp (serviceId : Z) (p : Payload) (err : Z) : M Mgr le_result_t :=
  b1 ← rd recvBuf 1;
  let subFunc := Z.land b1 0x3F in
  if negb (err =? POSITIVE_RESPONSE) then SetNRC serviceId err;; mret LE_OK else
  if (UDS_MAX_DATA_SIZE - 2 <? p.2)
     || (if subFunc =? ROE_SUBFUNC_RAE then p.2 <? 1 else p.2 <? 2)
  then mret LE_FAULT else
  match p.1 with
  | None => mret LE_FAULT
  | Some data =>
      wr sendBuf 0 RESPONSE_ON_EVENT_RESPONSE_ID;;
      wr sendBuf 1 subFunc;;
      copy_payload 2 data p.2;;
      sendDataLen ::= u16 (2 + p.2);;
      mret LE_OK
  end.

(** ** The dispatch of [SendUDSResp] *)
Definition build_response (serviceId err : Z) (p : Payload) : M Mgr le_result_t :=
  if serviceId =? SESSION_CONTROL_REQUEST_ID then SessionCtrlResp serviceId err
  else if serviceId =? ECU_RESET_REQUEST_ID then ECUResetResp serviceId err
  else if serviceId =? READ_DID_REQUEST_ID then ReadDIDResp serviceId p err
  else if serviceId =? WRITE_DID_REQUEST_ID then WriteDIDResp serviceId err
  else if serviceId =? SECURITY_ACCESS_REQUEST_ID then SecurityAccessResp serviceId p err
  else if serviceId =? AUTHENTICATION_REQUEST_ID then AuthenticationResp serviceId p err
  else if serviceId =? INPUT_OUTPUT_CONTROL_REQUEST_ID then IOCBIDResp serviceId p err
  else if serviceId =? ROUTINE_CONTROL_REQUEST_ID then RoutineCtrlResp serviceId p err
  else if serviceId =? REQUEST_DOWNLOAD_REQUEST_ID then ReqDwnldResp serviceId p err
  else if serviceId =? TRANSFER_DATA_REQUEST_ID then XferDataResp serviceId p err
  else if serviceId =? REQUEST_TRANSFER_EXIT_REQUEST_ID then ReqXferExitResp serviceId err
  else if serviceId =? REQUEST_FILE_TRANSFER_REQUEST_ID then ReqFileXferResp serviceId p err
  else if serviceId =? CLEAR_DIAG_INFO_REQUEST_ID then ClearDiagInfoResp serviceId err
  else if serviceId =? READ_DTC_INFO_REQUEST_ID then ReadDTCInfoResp serviceId p err
  else if serviceId =? CONTROL_DTC_SETTING_REQUEST_ID then CtrlDTCSettingResp serviceId err
  else if serviceId =? RESPONSE_ON_EVENT_REQUEST_ID then ROEResp serviceId p err
  else SetNRC serviceId SERVICE_NOT_SUPPORTED;; mret LE_OK.

Definition SendUDSResp (name : string) (serviceId err : Z) (p : Payload) : M Mgr le_result_t :=
  m ← get;
  if negb (bool_decide (name = interface m)) then mret LE_FAULT else
  nrcCode ::= err;;
  if recvDataLen m =? 0 then mret LE_FAULT else
  b0 ← rd recvBuf 0;
  if negb (serviceId =? b0) then mret LE_BAD_PARAMETER else
  if UDS_MAX_DATA_SIZE <? p.2 then mret LE_FAULT else
  ret ← build_response serviceId err p;
  if negb (bool_decide (ret = LE_OK)) then mret ret else
  m' ← get;
  data ← demand (slice (sendBuf m') (sendDataLen m')) OutOfBounds;
  sent ← taf_doip_DiagRequest env (udsRespAddrInfo m') data;
  when (bool_decide (sent = LE_OK))
    (when (IsIDPSAvailable cfg) (SendIdpsIndMsg env);;
     CheckAndRestartS3Timer env serviceId true;;
     when (featureA env) (CheckAndRestartTesterStateTimer env true));;
  mret LE_OK.

(** [taf_uds_SendDiagResp]: the address of the response is the caller's, as it is. *)
Definition taf_uds_SendDiagResp (a : AddrInfo) (msg : option Payload) (serviceId err : Z)
    : M Mgr le_result_t :=
  m ← get;
  if negb (bool_decide (ifName a = interface m)) then mret LE_FAULT else
  udsRespAddrInfo ::= a;;
  match msg with
  | Some (dataPtr, dataLen) => SendUDSResp (ifName a) serviceId err (dataPtr, u16 dataLen)
  | None => SendUDSResp (ifName a) serviceId err (None, 0)
  end.
End Resp.
