(* ===== verification/UdsAnswer.v ===== *)
(** * The UDS stack: what the response builders promise

    Every builder of [SendUDSResp] either leaves a well-formed response in the send buffer
    or refuses; it sends nothing itself. For the services 0x19 and 0x14, which bytes are sent. *)
From Stdlib Require Import SpecFloat.
From S2P Require Import Prelude Ieee DiagCfg UdsTypes UdsSend SecAccess SecAccessSpec SecAccessResp.
From S2P Require Import UdsAccess UdsResp.

(** ** The security-access thread leaves the response address and the transfer alone *)
Definition same_to (m m' : Mgr) : Prop :=
  (udsRespAddrInfo m', isXferActive m') = (udsRespAddrInfo m, isXferActive m).
#[export] Instance same_to_preorder : PreOrder same_to.
Proof. split; unfold same_to; [done|]. intros ???. congruence. Qed.

Ltac to_leaf :=
  idtac; match goal with
  | |- keeps same_to get => apply keeps_gets; typeclasses eauto
  | |- keeps same_to (modify _) => apply keeps_modify; intros ?; reflexivity
  | |- keeps same_to (emit _) => apply keeps_modify; intros ?; reflexivity
  | |- keeps same_to (assign_ _ _) => apply keeps_modify; intros ?; reflexivity
  | |- keeps same_to (self_set _ _) => apply keeps_modify; intros ?; reflexivity
  | |- keeps same_to self => apply keeps_gets; typeclasses eauto
  end.

Section Address.
Variable env : Env.

Lemma DelayTimerIsNotExpired_to : keeps same_to (DelayTimerIsNotExpired env).
Proof.
  unfold DelayTimerIsNotExpired, le_timer_IsRunning, current_set, current. keeps_with to_leaf.
Qed.
Lemma DeactivateAndLock_to : keeps same_to DeactivateAndLock.
Proof. unfold DeactivateAndLock, LockCurrentSession, current_set, current. keeps_with to_leaf. Qed.
Lemma switch_session_to id : keeps same_to (switch_session id).
Proof. unfold switch_session. keeps_with to_leaf. Qed.

Ltac machine_leaf :=
  idtac; match goal with
  | |- keeps same_to (DelayTimerIsNotExpired _) => apply DelayTimerIsNotExpired_to
  | |- keeps same_to DeactivateAndLock => apply DeactivateAndLock_to
  | |- keeps same_to (switch_session _) => apply switch_session_to
  | |- _ => to_leaf
  end.

Lemma session_control_to sem int :
  keeps same_to (SecurityAccessEventHandler env (mkReport SESSION_CONTROL_SIG sem int)).
Proof.
  unfold SecurityAccessEventHandler, MFsm_dispatch.
  assert (H : forall st e, (forall ev, e = M_USER ev -> rtype ev = SESSION_CONTROL_SIG) ->
    keeps same_to (state_handler env st e)).
  { intros st e He. destruct st; cbn [state_handler];
      [unfold hdlr_initial, LoadAttCntAndDelayTimer, to_default_session, M_Translate;
       keeps_with machine_leaf|..].
    all: unfold hdlr_LockedNoActiveSeed, hdlr_LockedWaitingForKey, hdlr_UnlockedNoActiveSeed,
      hdlr_UnlockedWaitingForKey.
    all: destruct e as [| | |ev]; [keeps_with machine_leaf..|].
    all: rewrite (He ev eq_refl); unfold waiting_session_control, handled, transition, M_Translate,
      MarkLastPendingSession, LockCurrentSession, current_set, current, TryToPostSemaphore,
      SwitchSessionBasedOnEvent; keeps_with machine_leaf. }
  apply keeps_bind; [typeclasses eauto|to_leaf|]. intros a.
  apply keeps_bind; [typeclasses eauto|apply H; by intros ev [= <-]|]. intros [];
    keeps_with ltac:(first [machine_leaf|apply H; done]).
Qed.
End Address.

(** ** Writing a response *)

(** The message in the send buffer. *)
Definition message (m : Mgr) : list Z := take (Z.to_nat (sendDataLen m)) (sendBuf m).

(** What a builder has to work on: the data of the service fit their pointer. *)
Definition payload_ok (p : Payload) : Prop :=
  in_width 16 p.2 /\ forall d, p.1 = Some d -> p.2 <= Z.of_nat (length d).

Lemma payload_size p : payload_ok p -> 0 <= p.2 < 65536.
Proof. by intros [H _]. Qed.

(** The fields of the request that is being answered, and the response address. *)
Definition request_of (m : Mgr) :=
  (recvBuf m, recvDataLen m, readyToRecvData m, interface m, udsRespAddrInfo m).

(** The builder has sent nothing; [h] is what the send buffer starts with. *)
Record writing (m0 : Mgr) (h : list Z) (m : Mgr) : Prop := mkWriting {
  wt_wf : wf m;
  wt_quiet : quietly m0 m;
  wt_request : request_of m = request_of m0;
  wt_head : take (length h) (sendBuf m) = h }.

Record built (sid : Z) (m : Mgr) (r : le_result_t) (m' : Mgr) : Prop := mkBuilt {
  bt_wf : wf m';
  bt_quiet : quietly m m';
  bt_request : request_of m' = request_of m;
  bt_message : r = LE_OK -> response_to sid (message m') }.

Lemma message_bounded m : wf m -> Z.of_nat (length (message m)) <= UDS_MAX_DATA_SIZE.
Proof. intros []. unfold message. rewrite length_take. lia. Qed.

Lemma writing_start m : wf m -> writing m [] m.
Proof. intros. split; [done|apply quietly_refl|done|done]. Qed.

Lemma writing_positive m0 sid m r :
  writing m0 [u8 (sid + 0x40)] m -> 1 <= sendDataLen m -> built sid m0 r m.
Proof.
  intros [Hwf Hq Hr Hh] Hl. split; try done. intros _. split; [by apply message_bounded|]. right. unfold message.
  destruct (sendBuf m) as [|x l]; [done|]. simplify_eq/=.
  destruct (Z.to_nat (sendDataLen m)) as [|n] eqn:E; [lia|]. by eexists.
Qed.
Lemma writing_negative m0 sid nrc m r :
  writing m0 [UDS_NEGATIVE_RESP_SID; sid; nrc] m -> sendDataLen m = 3 -> built sid m0 r m.
Proof.
  intros [Hwf Hq Hr Hh] Hl. split; try done. intros _. split; [by apply message_bounded|]. left. exists nrc. unfold message. by rewrite Hl.
Qed.
Lemma writing_refused m0 sid h m r : r <> LE_OK -> writing m0 h m -> built sid m0 r m.
Proof. intros Hr []. by split. Qed.

(** The request is the one of the start. *)
Lemma writing_recvBuf m0 h m : writing m0 h m -> recvBuf m = recvBuf m0.
Proof. intros [_ _ H _]. by injection H. Qed.

Lemma take_splice n b i src :
  Z.of_nat n <= i -> i <= Z.of_nat (length b) -> take n (splice b i src) = take n b.
Proof.
  intros Hn Hi. unfold splice. rewrite take_app_le by (rewrite length_take; lia).
  rewrite take_take. f_equal. lia.
Qed.

Lemma writing_cpy m0 h h' m i src Q :
  writing m0 h m -> 0 <= i -> i + Z.of_nat (length src) <= UDS_MAX_DATA_SIZE ->
  take (length h') (splice (sendBuf m) i src) = h' ->
  (forall m', writing m0 h' m' -> sendDataLen m' = sendDataLen m -> Q tt m') ->
  wp (cpy sendBuf i src) Q m.
Proof.
  intros [Hwf Hq Hr _] Hi Hl Hh HQ. pose proof (wf_sendBuf _ Hwf) as Hlen.
  apply wp_cpy; [done|lia|]. apply HQ; [|done]. split; [|done..].
  destruct Hwf. split; try done. cbn. rewrite length_splice by lia. done.
Qed.

Lemma writing_wr0 m0 h m v Q :
  writing m0 h m -> (forall m', writing m0 [v] m' -> sendDataLen m' = sendDataLen m -> Q tt m') ->
  wp (wr sendBuf 0 v) Q m.
Proof. intros Hw. by apply (writing_cpy m0 h [v]); [done|lia|cbn; lia|]. Qed.
Lemma writing_copy m0 h m i src Q :
  writing m0 h m -> Z.of_nat (length h) <= i -> i + Z.of_nat (length src) <= UDS_MAX_DATA_SIZE ->
  (forall m', writing m0 h m' -> sendDataLen m' = sendDataLen m -> Q tt m') ->
  wp (cpy sendBuf i src) Q m.
Proof.
  intros Hw Hi Hl. apply (writing_cpy m0 h h); [done|lia|done|].
  pose proof (wf_sendBuf _ (wt_wf _ _ _ Hw)). rewrite take_splice by lia. apply Hw.
Qed.
Lemma writing_wr m0 h m i v Q :
  writing m0 h m -> Z.of_nat (length h) <= i < UDS_MAX_DATA_SIZE ->
  (forall m', writing m0 h m' -> sendDataLen m' = sendDataLen m -> Q tt m') -> wp (wr sendBuf i v) Q m.
Proof. intros Hw Hi. apply (writing_copy m0 h); [done|lia|cbn; lia]. Qed.

Lemma writing_length m0 h m n Q :
  writing m0 h m -> 0 <= n <= UDS_MAX_DATA_SIZE ->
  (forall m', writing m0 h m' -> sendDataLen m' = n -> Q tt m') -> wp (sendDataLen ::= n) Q m.
Proof.
  intros [[] Hq Hr Hf] Hn HQ. apply wp_assign_, HQ; [|done]. by split; [split|..].
Qed.

Lemma writing_emit m0 h m e Q :
  writing m0 h m -> quiet e ->
  (forall m', writing m0 h m' -> sendDataLen m' = sendDataLen m -> Q tt m') -> wp (emit e) Q m.
Proof.
  intros [Hwf Hq Hr Hf] He HQ. apply wp_emit, HQ; [|done]. split; [by apply wf_log| |done|done].
  eapply quietly_trans; [done|]. exists [e]. split; [done|by constructor].
Qed.

(** An assignment to a field that is neither a buffer, a length, nor of the request. *)
Lemma writing_assign m0 h m {T} (p : Mgr -> T) `{!Field p} v Q :
  writing m0 h m ->
  (forall m, (recvBuf (m <| p := v |>), sendBuf (m <| p := v |>), tpBuf (m <| p := v |>),
    sendDataLen (m <| p := v |>), tpDataLen (m <| p := v |>), trace (m <| p := v |>),
    request_of (m <| p := v |>)) =
    (recvBuf m, sendBuf m, tpBuf m, sendDataLen m, tpDataLen m, trace m, request_of m)) ->
  (forall m', writing m0 h m' -> sendDataLen m' = sendDataLen m -> Q tt m') ->
  wp (p ::= v) Q m.
Proof.
  intros [[] Hq Hr Hf] Hp HQ. specialize (Hp m).
  injection Hp as H1 H2 H3 H4 H5 H6 Hreq1 Hreq2 Hreq3 Hreq4 Hreq5.
  apply wp_assign_, HQ; [|done]. split.
  - split; congruence.
  - destruct Hq as (es & He & Hq). exists es. by rewrite H6.
  - unfold request_of in *. congruence.
  - by rewrite H2.
Qed.

Lemma writing_rd m0 h m i Q :
  writing m0 h m -> 0 <= i < UDS_MAX_DATA_SIZE ->
  (forall v, recvBuf m0 !! Z.to_nat i = Some v -> is_byte v -> Q v m) -> wp (rd recvBuf i) Q m.
Proof.
  intros Hw Hi HQ. pose proof (wf_recvBuf _ (wt_wf _ _ _ Hw)) as Hl.
  apply wp_rd; [lia|]. intros v Hv. apply HQ; [by rewrite <- (writing_recvBuf _ _ _ Hw)|].
  eapply Forall_lookup_1; [exact (wf_bytes _ (wt_wf _ _ _ Hw))|exact Hv].
Qed.

Lemma writing_SetNRC m0 h m sid err Q :
  writing m0 h m ->
  (forall m', writing m0 [UDS_NEGATIVE_RESP_SID; sid; err] m' -> sendDataLen m' = 3 -> Q LE_OK m') ->
  wp (SetNRC sid err) Q m.
Proof.
  intros [Hwf Hq Hr _] HQ. pose proof (wf_sendBuf _ Hwf) as Hlen. unfold SetNRC.
  apply (wp_put3 sendBuf); [done..|lia|]. wp_step. apply wp_assign_. wp_step. apply HQ; [|done].
  split; [|done..|cbn; by rewrite put3_cons by lia].
  destruct Hwf. split; cbn; rewrite ?length_put3; try lia; done.
Qed.

Lemma writing_payload m0 h m i p d Q :
  writing m0 h m -> payload_ok p -> p.1 = Some d ->
  Z.of_nat (length h) <= i -> i + p.2 <= UDS_MAX_DATA_SIZE ->
  (forall m', writing m0 h m' -> sendDataLen m' = sendDataLen m -> Q tt m') ->
  wp (copy_payload i d p.2) Q m.
Proof.
  intros Hw [Hp Hd] E Hi Hl HQ. unfold copy_payload, slice. specialize (Hd _ E). unfold in_width in Hp.
  wp_step. rewrite decide_True by lia. eapply wp_demand; [done|].
  eapply writing_copy; [done|lia|rewrite length_take; lia|done].
Qed.

(** ** The builders *)

Ltac build_step :=
  lazymatch goal with
  | H : writing ?m0 ?h ?m |- wp ?c _ ?m =>
      lazymatch c with
      | rd recvBuf _ => apply (writing_rd _ _ _ _ _ H); [try (unfold is_byte, in_width in *; lia)|intros ? ? ?]
      | wr sendBuf 0 _ => apply (writing_wr0 _ _ _ _ _ H); intros ? ? ?
      | wr sendBuf _ _ => apply (writing_wr _ _ _ _ _ _ H); [cbn [length]; lia|intros ? ? ?]
      | copy_payload _ ?d _ =>
          lazymatch goal with
          | Hp : payload_ok ?p, E : ?p.1 = Some d |- _ =>
              apply (writing_payload _ _ _ _ _ _ _ H Hp E); [cbn [length]; lia|try lia|intros ? ? ?]
          end
      | assign_ sendDataLen (wrap 16 ?n) => rewrite (wrap_id 16 n) by (unfold in_width; lia)
      | assign_ sendDataLen _ => apply (writing_length _ _ _ _ _ H); [try lia|intros ? ? ?]
      | UdsTimerEventReport _ _ _ => unfold UdsTimerEventReport
      | emit ?e => apply (writing_emit _ _ _ e _ H I); intros ? ? ?
      | assign_ _ _ => apply (writing_assign _ _ _ _ _ _ H); [done|intros ? ? ?]
      | SetNRC _ _ => apply (writing_SetNRC _ _ _ _ _ _ H); intros ? ? ?
      | _ => wp_step
      end
  | |- built _ _ _ _ => idtac
  end.

(** The end of a builder. *)
Ltac built_tac :=
  lazymatch goal with
  | H : writing ?m0 ?h ?m |- built ?sid ?m0 LE_OK ?m =>
      lazymatch h with
      | [_; _; _] => apply (writing_negative m0 sid _ m LE_OK H); lia
      | [_] => apply (writing_positive m0 sid m LE_OK H); lia
      end
  | H : writing ?m0 ?h ?m |- built ?sid ?m0 ?r ?m =>
      apply (writing_refused m0 sid h m r); [discriminate|exact H]
  end.
Ltac build :=
  try lazymatch goal with Hp : payload_ok ?p |- _ => pose proof (payload_size p Hp) end;
  repeat build_step; try built_tac.

Section Builders.
Variable env : Env.
Variables (m : Mgr) (p : Payload) (err : Z).
Hypotheses (Hwf : wf m) (Hp : payload_ok p).
Let Hstart : writing m [] m := writing_start m Hwf.


(** The data that follow a header of [base] bytes. *)
Lemma optional_payload_built sid base m1 :
  writing m [u8 (sid + 0x40)] m1 -> 1 <= base -> base + p.2 <= UDS_MAX_DATA_SIZE ->
  wp (optional_payload base p) (built sid m) m1.
Proof.
  intros Hw Hb Hl. clear Hstart. unfold optional_payload. build.
Qed.

Lemma ECUResetResp_built : wp (ECUResetResp env 0x11 err) (built 0x11 m) m.
Proof. unfold ECUResetResp. build. Qed.
Lemma WriteDIDResp_built : wp (WriteDIDResp 0x2E err) (built 0x2E m) m.
Proof. unfold WriteDIDResp. build. Qed.
Lemma ReqXferExitResp_built : wp (ReqXferExitResp 0x37 err) (built 0x37 m) m.
Proof. unfold ReqXferExitResp. build. Qed.
Lemma ClearDiagInfoResp_built : wp (ClearDiagInfoResp 0x14 err) (built 0x14 m) m.
Proof. unfold ClearDiagInfoResp. build. Qed.
Lemma CtrlDTCSettingResp_built : wp (CtrlDTCSettingResp 0x85 err) (built 0x85 m) m.
Proof. unfold CtrlDTCSettingResp. build. Qed.
Lemma ReqDwnldResp_built : wp (ReqDwnldResp 0x34 p err) (built 0x34 m) m.
Proof. unfold ReqDwnldResp, write_block_len. build. Qed.
Lemma RoutineCtrlResp_built : wp (RoutineCtrlResp 0x31 p err) (built 0x31 m) m.
Proof. unfold RoutineCtrlResp. build. by apply optional_payload_built; [|lia..]. Qed.
Lemma IOCBIDResp_built : wp (IOCBIDResp 0x2F p err) (built 0x2F m) m.
Proof. unfold IOCBIDResp. build. by apply optional_payload_built; [|lia..]. Qed.
Lemma XferDataResp_built : wp (XferDataResp 0x36 p err) (built 0x36 m) m.
Proof. unfold XferDataResp. build. by apply optional_payload_built; [|lia..]. Qed.
Lemma ReadDTCInfoResp_built : wp (ReadDTCInfoResp 0x19 p err) (built 0x19 m) m.
Proof. unfold ReadDTCInfoResp. build. by apply optional_payload_built; [|lia..]. Qed.

Lemma ReadDIDResp_built : wp (ReadDIDResp 0x22 p err) (built 0x22 m) m.
Proof. unfold ReadDIDResp. build. Qed.
Lemma ROEResp_built : wp (ROEResp 0x86 p err) (built 0x86 m) m.
Proof. unfold ROEResp. build. Qed.
Lemma AuthenticationResp_built : wp (AuthenticationResp env 0x29 p err) (built 0x29 m) m.
Proof.
  unfold AuthenticationResp, auth_failed, StoreAttCntToTree, StoreDelayTimeToTree, le_timer_IsRunning.
  build.
Qed.

(** A file-transfer request as the request handler accepts it: a known mode of operation,
    a path inside the buffer, and data from the service where the response needs them. *)
Definition file_answerable : Prop :=
  (forall b, recvBuf m !! 1%nat = Some b -> 1 <= b <= 6 /\ (4 <= b -> is_Some p.1)) /\
  (forall hi lo, recvBuf m !! 2%nat = Some hi -> recvBuf m !! 3%nat = Some lo ->
     4 + be16 hi lo < UDS_MAX_DATA_SIZE).

Lemma ReqFileXferResp_built :
  (err = POSITIVE_RESPONSE -> file_answerable) -> wp (ReqFileXferResp 0x38 p err) (built 0x38 m) m.
Proof.
  intros Hf. unfold ReqFileXferResp, filexfer_header, write_block_len, rd16. build.
  all: destruct Hf as [Hmoop Hpath]; [lia|].
  all: lazymatch goal with
    | Hhi : recvBuf m !! Z.to_nat 2 = Some ?hi, Hlo : recvBuf m !! Z.to_nat (2 + 1) = Some ?lo,
      Hb : recvBuf m !! Z.to_nat 1 = Some ?b |- _ =>
        pose proof (be16_width hi lo ltac:(assumption) ltac:(assumption));
        specialize (Hpath _ _ Hhi Hlo); destruct (Hmoop _ Hb) as [Hrange Hdata]
    end; unfold in_width in *.
  all: first [lia|destruct Hdata; [lia|congruence]].
Qed.

(** ** Services 0x27 and 0x10, which wait for the security-access thread *)
Hypotheses (Hao : ao_ok (mSecurityAccess m))
  (Hini : state_fn (mSecurityAccess m) <> State_initial).


(** Nothing but the object, the semaphore and the trace has changed. *)
Lemma waited m1 m2 :
  writing m [] m1 -> wf m2 -> frame m1 m2 -> quietly m1 m2 -> udsRespAddrInfo m2 = udsRespAddrInfo m1 ->
  writing m [] m2.
Proof.
  intros [_ Hq Hr _] Hwf2 Hf Hq2 Hto. split; [done|by eapply quietly_trans| |done].
  unfold frame, request_view, request_of in *. injection Hf. congruence.
Qed.

Lemma wait_answer sig m1 :
  sig = REQUEST_SEED_RESPONSE_SIG \/ sig = SEND_KEY_RESPONSE_SIG ->
  writing m [] m1 -> mSecurityAccess m1 = mSecurityAccess m -> answerable sig m1 ->
  wp (report_and_wait env sig false) (fun _ => writing m []) m1.
Proof.
  intros Hsig Hw Ha Hans. unfold report_and_wait. wp_step. apply wp_assign_.
  set (m2 := m1 <| semCount := 0 |>).
  assert (Hw2 : writing m [] m2) by (destruct Hw as [[] ? ? ?]; by split; [split|..]).
  wp_step. eapply wp_conseq.
  - apply (service_answer_post env sig false m2); [exact Hsig|apply Hw2| | |by apply (answerable_ext _ m1)];
      cbn; by rewrite Ha.
  - intros [] m3 [H1 _ H3 H4 _ H6 _]. do 2 wp_step. wp_step. by eapply waited.
Qed.

Lemma SecurityAccessResp_built :
  (forall sig, answerable sig m) -> wp (SecurityAccessResp env 0x27 p err) (built 0x27 m) m.
Proof.
  intros Hans. unfold SecurityAccessResp. pose proof (payload_size p Hp). build_step; [build|].
  do 2 build_step. do 3 wp_step. apply wp_assign_. set (m1 := m <| mainSemCnt := _ |>).
  assert (Hw1 : writing m [] m1) by (pose proof Hstart as [[] ? ? ?]; by split; [split|..]).
  wp_step. eapply wp_conseq; [apply wait_answer; [|exact Hw1|done|by apply (answerable_ext _ m)]|].
  { destruct (negb _); auto. }
  intros posted m2 Hw2. cbv beta in Hw2. build. by apply optional_payload_built; [|lia..].
Qed.

(** The intervals of the configured sessions, in milliseconds, are 32-bit values. *)
Definition timing_representable : Prop :=
  is_Some (s3_interval_truncated (config env)) /\
  forall session, is_Some (to_unsigned 32 (p2_interval env session)) /\
    is_Some (to_unsigned 32 (F32.div (p2star_interval (config env) session) (F32.of_Z 10))) /\
    is_Some (to_unsigned 32 (p2star_interval (config env) session)).

(** The session of the request, unless it is the default one, has a security binding. *)
Definition session_bound : Prop := forall b, recvBuf m !! 1%nat = Some b ->
  Z.land b 0x7F <> DEFAULT_SESSION ->
  is_Some (find_session (session_list (mSecurityAccess m)) (Z.land b 0x7F)).

Lemma wp_keeps {A} (R : relation Mgr) (c : M Mgr A) (Q : A -> Mgr -> Prop) m1 :
  wp c Q m1 -> keeps R c -> wp c (fun a m2 => Q a m2 /\ R m1 m2) m1.
Proof.
  intros H Hk. unfold wp in *. destruct (c m1) as [[a m2]|] eqn:E; [|done].
  split; [done|]. by eapply Hk.
Qed.

Lemma wait_session m1 :
  writing m [] m1 -> mSecurityAccess m1 = mSecurityAccess m ->
  is_Some (session_target SESSION_CONTROL_SIG m1) ->
  wp (wait_session_control env) (fun posted m2 => posted = true /\ writing m [] m2) m1.
Proof.
  intros Hw Ha Ht. unfold wait_session_control, report_and_wait. do 3 wp_step. apply wp_assign_.
  wp_step. apply wp_assign_. set (m2 := _ <| semCount := 0 |>).
  assert (Hw2 : writing m [] m2) by (destruct Hw as [[] ? ? ?]; by split; [split|..]).
  wp_step. eapply wp_conseq.
  - apply wp_keeps; [|apply session_control_to].
    apply (session_change_handled env SESSION_CONTROL_SIG true false m2);
      [by left|apply Hw2| | |exact Ht];
      cbn; by rewrite Ha.
  - intros [] m3 [[H1 _ H3 H4 H5 _] H6]. injection H6 as H6 _. do 2 wp_step. wp_step. split; [|by eapply waited].
    rewrite H5. done.
Qed.

Lemma session_message_built session m1 :
  timing_representable -> writing m [] m1 ->
  wp (session_control_message env session) (built 0x10 m) m1.
Proof.
  intros [_ Ht] Hw. destruct (Ht session) as ([x Hx] & [y Hy] & [z Hz]).
  unfold session_control_message. wp_step. eapply wp_demand; [exact Hx|].
  wp_step. eapply wp_demand; [exact Hy|]. wp_step. eapply wp_demand; [exact Hz|]. clear Hstart. build.
Qed.

Lemma maybe_wait_built sid (c : bool) (k : M Mgr le_result_t) m1 :
  writing m [] m1 -> mSecurityAccess m1 = mSecurityAccess m ->
  is_Some (session_target SESSION_CONTROL_SIG m1) ->
  (forall m2, writing m [] m2 -> wp k (built sid m) m2) ->
  wp (posted ← (if c then wait_session_control env else mret true);
      if negb posted then mret LE_TIMEOUT else k) (built sid m) m1.
Proof.
  intros Hw Ha Ht Hk. wp_step. destruct c; [|wp_step; by apply Hk].
  eapply wp_conseq; [by apply wait_session|]. intros posted m2 [-> Hw2]. by apply Hk.
Qed.

Lemma SessionCtrlResp_built :
  timing_representable -> session_bound -> wp (SessionCtrlResp env 0x10 err) (built 0x10 m) m.
Proof.
  intros Ht Hb. unfold SessionCtrlResp. build_step; [build|].
  do 2 build_step. pose proof Ht as [[s3 Hs3] _].
  do 3 wp_step. apply wp_assign_. set (m1 := m <| SessionType := _ |>).
  assert (Hw1 : writing m [] m1) by (pose proof Hstart as [[] ? ? ?]; by split; [split|..]).
  assert (Htgt : forall e, is_Some (session_target SESSION_CONTROL_SIG (log m1 e))).
  { intros e. unfold session_target. case_bool_decide; [|by eexists]. cbn.
    destruct (Z.eqb_spec (Z.land v 127) 1); cbn; [by eexists|]. apply fmap_is_Some. by apply Hb. }
  wp_step. eapply wp_demand; [exact Hs3|].
  assert (Hlog : forall ev i, writing m [] (log m1 [TimerEvent ev i (interface m)])).
  { intros. by apply (writing_emit m [] m1 (TimerEvent ev i (interface m)) (fun _ => writing m [])). }
  apply wp_if; intros _.
  - wp_step. assert (Hrest : forall ev i, wp (posted ← (if existsb (fun q => q.2 =? Z.land v 127) (GetSessionMap env)
        then wait_session_control env else mret true);
      if negb posted then mret LE_TIMEOUT else
      emit (IndEvent SESSION_CHANGE_MSG_ID [ind_msg_code SESSION_CHANGE_MSG_ID; SessionType m; Z.land v 127]);;
      session_control_message env (Z.land v 127)) (built 0x10 m) (log m1 [TimerEvent ev i (interface m)])).
    { intros ev i. apply maybe_wait_built; [apply Hlog|done|apply Htgt|]. intros m2 Hw2.
      wp_step. apply (writing_emit m [] m2 _ _ Hw2); [done|]. intros m3 Hw3 _. by apply session_message_built. }
    apply wp_if; intros _; apply wp_emit; apply Hrest.
  - apply maybe_wait_built; [done|done| |intros m2 Hw2; by apply session_message_built].
    pose proof (Htgt []) as H1. by rewrite log_nil in H1.
Qed.

(** ** Every builder *)

(** What the builders rely on, service by service. *)
Record answers_ready (sid : Z) : Prop := mkAnswersReady {
  an_session : sid = SESSION_CONTROL_REQUEST_ID -> timing_representable /\ session_bound;
  an_security : sid = SECURITY_ACCESS_REQUEST_ID -> forall sig, answerable sig m;
  an_file : sid = REQUEST_FILE_TRANSFER_REQUEST_ID -> err = POSITIVE_RESPONSE -> file_answerable }.

Ltac next_service :=
  apply wp_if; intros ?;
    [lazymatch goal with H : (?s =? _) = true |- _ => apply Z.eqb_eq in H; subst s end|].

Lemma build_response_built sid :
  answers_ready sid -> wp (build_response env sid err p) (built sid m) m.
Proof.
  intros [Hs Ha Hf]. unfold build_response.
  next_service; [by apply SessionCtrlResp_built; apply Hs|].
  next_service; [apply ECUResetResp_built|].
  next_service; [apply ReadDIDResp_built|].
  next_service; [apply WriteDIDResp_built|].
  next_service; [apply SecurityAccessResp_built; by apply Ha|].
  next_service; [apply AuthenticationResp_built|].
  next_service; [apply IOCBIDResp_built|].
  next_service; [apply RoutineCtrlResp_built|].
  next_service; [apply ReqDwnldResp_built|].
  next_service; [apply XferDataResp_built|].
  next_service; [apply ReqXferExitResp_built|].
  next_service; [apply ReqFileXferResp_built; by apply Hf|].
  next_service; [apply ClearDiagInfoResp_built|].
  next_service; [apply ReadDTCInfoResp_built|].
  next_service; [apply CtrlDTCSettingResp_built|].
  next_service; [apply ROEResp_built|].
  build.
Qed.
End Builders.

(** ** Sending *)
Section Sending.
Variable env : Env.
Context `{!S3Representable (config env)}.

(** What follows a response that was sent: the next request may come. *)
Lemma CheckAndRestartS3Timer_resp sid m :
  wf m -> wp (CheckAndRestartS3Timer env sid true)
    (fun _ m' => wf m' /\ quietly m m' /\ readyToRecvData m' = true) m.
Proof.
  intros Hwf. unfold CheckAndRestartS3Timer. destruct s3_scaled_defined as [z Hz].
  assert (Hend : forall m1, wf m1 -> quietly m m1 -> readyToRecvData m1 = true ->
    wp (s3ServerInterval ← demand (s3_interval_scaled (config env)) BadConversion;
        when (SFltb (F32.of_Z s3ServerInterval) (rcrrp_budget (config env) (SessionType m)))
          (if negb true
           then UdsTimerEventReport S3_TIMER_CHECK_TO_RESTART s3ServerInterval (interface m)
           else when (negb (sid =? SESSION_CONTROL_REQUEST_ID))
             (UdsTimerEventReport S3_TIMER_RESTART s3ServerInterval (interface m))))
      (fun _ m' => wf m' /\ quietly m m' /\ readyToRecvData m' = true) m1).
  { intros m1 Hw1 Hq1 Hr1. wp_step. eapply wp_demand; [exact Hz|]. wp_step; [|done].
    cbn [negb]. wp_step; [|done]. apply wp_emit. split_and!; [by apply wf_log| |done].
    eapply quietly_trans; [done|]. eexists. split; [done|by repeat constructor]. }
  do 3 wp_step. apply wp_when; [intros _|done]. wp_step. apply wp_emit.
  set (m1 := log m _). apply wp_when; intros Hrd.
  - wp_step. apply wp_assign_. unfold CheckAndSendCancelFileXferEvent. apply wp_emit. apply Hend; [|..].
    + apply wf_log. destruct Hwf. by split.
    + eexists. split; [cbn; by rewrite <- app_assoc|by repeat constructor].
    + done.
  - apply Hend; [by apply wf_log| |].
    + eexists. split; [done|by repeat constructor].
    + destruct (readyToRecvData m) eqn:E; [exact E|done].
Qed.

(** The response address gets one message, and the request is done. *)
Lemma send_built sid m :
  wf m ->
  wp (data ← demand (slice (sendBuf m) (sendDataLen m)) OutOfBounds;
      sent ← taf_doip_DiagRequest env (udsRespAddrInfo m) data;
      when (bool_decide (sent = LE_OK))
        (when (IsIDPSAvailable (config env)) (SendIdpsIndMsg env);;
         CheckAndRestartS3Timer env sid true;;
         when (featureA env) (CheckAndRestartTesterStateTimer env true));;
      mret LE_OK)
    (fun r m' => r = LE_OK /\ wf m' /\ emits m m' (one_message (udsRespAddrInfo m) (message m)) /\
       (doip_DiagRequest env (trace m ++ [DoipRequest (udsRespAddrInfo m) (message m)]) = LE_OK -> readyToRecvData m' = true)) m.
Proof.
  intros Hwf. pose proof Hwf as [_ Hs _ _ Hl _ _]. wp_step. unfold slice, taf_doip_DiagRequest.
  rewrite decide_True by lia. eapply wp_demand; [done|]. do 2 wp_step. apply wp_emit. do 2 wp_step.
  set (m1 := log m _).
  assert (Hdone : forall m2, wf m2 -> quietly m1 m2 ->
    (doip_DiagRequest env (trace m ++ [DoipRequest (udsRespAddrInfo m) (message m)]) = LE_OK -> readyToRecvData m2 = true) ->
    LE_OK = LE_OK /\ wf m2 /\ emits m m2 (one_message (udsRespAddrInfo m) (message m)) /\
       (doip_DiagRequest env (trace m ++ [DoipRequest (udsRespAddrInfo m) (message m)]) = LE_OK -> readyToRecvData m2 = true)).
  { intros m2 Hw2 (es & He & Hq) Hr. split_and!; [done|done| |done]. exists (DoipRequest (udsRespAddrInfo m) (message m) :: es).
    split; [rewrite He; unfold m1; cbn; by rewrite <- app_assoc|by apply (one_message_intro [])]. }
  apply wp_when; intros Hsent.
  2:{ wp_step. apply Hdone; [by apply wf_log|apply quietly_refl|]. intros Hok.
      by rewrite bool_decide_true in Hsent by exact Hok. }
  wp_step. eapply (wp_conseq _ (fun _ m2 => only_logs m1 m2)).
  { apply wp_when; intros _; [by apply SendIdpsIndMsg_logs, wf_log|apply only_logs_refl]. }
  intros [] m2 Hm2. wp_step. eapply wp_conseq.
  { apply CheckAndRestartS3Timer_resp. eapply only_logs_wf; [done|by apply wf_log]. }
  intros [] m3 (Hw3 & Hq3 & Hr3). apply wp_when; intros _.
  - eapply wp_conseq; [apply CheckAndRestartTesterStateTimer_logs|]. intros [] m4 Hm4. wp_step.
    apply Hdone; [by eapply only_logs_wf| |].
    + eapply quietly_trans; [by apply only_logs_quietly|]. eapply quietly_trans; [done|].
      by apply only_logs_quietly.
    + intros _. destruct Hm4 as (es & -> & _). done.
  - wp_step. apply Hdone; [done| |done]. eapply quietly_trans; [by apply only_logs_quietly|done].
Qed.

(** The answer of the service to the request that is being handled. *)
Definition answer_sent (sid : Z) (m : Mgr) (r : le_result_t) (m' : Mgr) : Prop :=
  wf m' /\
  ((r = LE_OK /\ exists data, response_to sid data /\
      emits m m' (one_message (udsRespAddrInfo m) data) /\
      ((forall es, Forall quiet es -> doip_DiagRequest env
          (trace m ++ es ++ [DoipRequest (udsRespAddrInfo m) data]) = LE_OK) ->
       readyToRecvData m' = true)) \/
   (r <> LE_OK /\ quietly m m' /\ readyToRecvData m' = readyToRecvData m)).

Lemma SendUDSResp_spec name sid err p m :
  wf m -> payload_ok p -> ao_ok (mSecurityAccess m) ->
  state_fn (mSecurityAccess m) <> State_initial ->
  answers_ready env (m <| nrcCode := err |>) p err sid ->
  wp (SendUDSResp env name sid err p) (answer_sent sid m) m.
Proof.
  intros Hwf Hp Hao Hini Hready. unfold SendUDSResp.
  set (m0 := m <| nrcCode := err |>) in *.
  assert (Hwf0 : wf m0) by (destruct Hwf; by split).
  assert (Hq0 : quietly m m0) by exact (quietly_refl m).
  assert (Hno : forall r m1, r <> LE_OK -> wf m1 -> quietly m m1 ->
    readyToRecvData m1 = readyToRecvData m -> answer_sent sid m r m1) by (split; auto).
  do 2 wp_step. wp_step; [wp_step; apply Hno; auto using quietly_refl|].
  wp_step. apply wp_assign_. fold m0. wp_step; [wp_step; apply Hno; auto using quietly_refl|].
  wp_step. apply wp_rd; [pose proof (wf_recvBuf _ Hwf0); lia|]. intros b0 _.
  wp_step; [wp_step; apply Hno; auto using quietly_refl|].
  wp_step; [wp_step; apply Hno; auto using quietly_refl|].
  wp_step. eapply wp_conseq; [by apply build_response_built|].
  intros r m1 [Hwf1 Hq1 Hreq Hmsg]. unfold request_of in Hreq. injection Hreq as _ _ Hrd _ Hto.
  wp_step.
  { wp_step. apply negb_true_iff, bool_decide_eq_false in Hif3. by apply Hno; [| |exact Hq1|]. }
  apply negb_false_iff, bool_decide_eq_true in Hif3. do 2 wp_step.
  eapply wp_conseq; [by apply (send_built sid)|].
  intros r2 m2 (-> & Hwf2 & He & Hr2). split; [done|]. left. split; [done|].
  rewrite <- Hto. destruct Hq1 as (es1 & Ht1 & Hq1), He as (es2 & Ht2 & [H1 H2]).
  exists (message m1). split_and!; [by apply Hmsg| |].
  2: { intros Hok. apply Hr2. rewrite Ht1, <- app_assoc. by apply Hok. }
  exists (es1 ++ es2). rewrite Ht2, Ht1, <- app_assoc. split; [done|]. split.
  - by rewrite sent_app, quiet_sent.
  - by rewrite service_indications_app, quiet_indications.
Qed.
End Sending.

(** The state is ready for the answer once its code has been recorded. *)
Definition ready_to_answer (env : Env) (m : Mgr) (p : Payload) (err sid : Z) : Prop :=
  answers_ready env (m <| nrcCode := err |>) p err sid.

(** ** The bytes of a response

    Exactly which message [SendUDSResp] sends for the services 0x19 and 0x14, positive and
    negative. *)
(** The send buffer holds the message [data] in answer to the request of [m]. *)
Record wrote (m : Mgr) (data : list Z) (m' : Mgr) : Prop := {
  wrote_wf : wf m';
  wrote_quiet : quietly m m';
  wrote_request : request_of m' = request_of m;
  wrote_message : message m' = data }.

(** Bytes at the start of a buffer. *)
Lemma take_splice_next b i src n : n = Z.to_nat i -> (n <= length b)%nat ->
  take (n + length src) (splice b i src) = take n b ++ src.
Proof.
  intros -> Hn. unfold splice. rewrite app_assoc. apply take_app_length'.
  rewrite length_app, length_take. lia.
Qed.

Section Reply.
Variable env : Env.
Context `{!S3Representable (config env)}.

Lemma wrote_writing m h m' : writing m h m' -> sendDataLen m' = Z.of_nat (length h) -> wrote m h m'.
Proof.
  intros [Hw Hq Hr Hh] Hl. split; try done. unfold message. by rewrite Hl, Nat2Z.id.
Qed.

Lemma SetNRC_wrote sid err m : wf m ->
  wp (SetNRC sid err) (fun r m' => r = LE_OK /\ wrote m [UDS_NEGATIVE_RESP_SID; sid; err] m') m.
Proof.
  intros Hw. apply (writing_SetNRC m [] m); [by apply writing_start|]. intros m' Hm Hl.
  split; [done|]. by apply wrote_writing.
Qed.

(** A header, then the data of the service. *)
Lemma writing_append m h m1 i d size Q : writing m h m1 -> Z.of_nat (length h) = i ->
  0 <= size -> size <= Z.of_nat (length d) -> i + size <= UDS_MAX_DATA_SIZE ->
  (forall m', writing m (h ++ take (Z.to_nat size) d) m' -> sendDataLen m' = sendDataLen m1 -> Q tt m') ->
  wp (copy_payload i d size) Q m1.
Proof.
  intros Hw Hi Hs Hd Hmax HQ. unfold copy_payload, slice. wp_step. rewrite decide_True by lia.
  eapply wp_demand; [done|]. pose proof (wf_sendBuf _ (wt_wf _ _ _ Hw)) as Hb.
  eapply (writing_cpy m h (h ++ take (Z.to_nat size) d)); [done|lia|rewrite length_take; lia| |done].
  rewrite length_app, take_splice_next by lia. f_equal. apply Hw.
Qed.
Lemma writing_put m h m1 i v Q : writing m h m1 -> Z.of_nat (length h) = i -> i < UDS_MAX_DATA_SIZE ->
  (forall m', writing m (h ++ [v]) m' -> sendDataLen m' = sendDataLen m1 -> Q tt m') -> wp (wr sendBuf i v) Q m1.
Proof.
  intros Hw Hi Hmax HQ. pose proof (wf_sendBuf _ (wt_wf _ _ _ Hw)) as Hb.
  eapply (writing_cpy m h (h ++ [v])); [done|lia|cbn; lia| |done].
  rewrite length_app, take_splice_next by lia. f_equal. apply Hw.
Qed.

Lemma optional_payload_wrote m h m1 base p : writing m h m1 -> Z.of_nat (length h) = base ->
  payload_ok p -> base + p.2 <= UDS_MAX_DATA_SIZE ->
  wp (optional_payload base p) (fun r m' => r = LE_OK /\
    wrote m (h ++ match p.1 with Some d => take (Z.to_nat p.2) d | None => [] end) m') m1.
Proof.
  intros Hw Hb Hp Hl. pose proof (payload_size p Hp) as Hsize. destruct Hp as [_ Hd].
  unfold optional_payload.
  assert (forall h', h' = h -> wp (sendDataLen ::= base;; mret LE_OK) (fun r m' => r = LE_OK /\ wrote m h' m') m1) as Hnone.
  { intros h' ->. wp_step. eapply writing_length; [exact Hw|lia|]. intros m2 Hw2 Hl2. wp_step.
    split; [done|]. apply wrote_writing; [done|lia]. }
  destruct p.1 as [d|] eqn:Hp1; [|apply Hnone, app_nil_r]. specialize (Hd d eq_refl).
  wp_step; [|apply Hnone; apply negb_false_iff, Z.eqb_eq in Hif; rewrite Hif; apply app_nil_r].
  wp_step. eapply writing_append; [exact Hw|done|lia|lia|lia|]. intros m2 Hw2 _. wp_step.
  rewrite wrap_id by (unfold in_width; lia).
  eapply writing_length; [exact Hw2|lia|]. intros m3 Hw3 Hl3. wp_step. split; [done|].
  apply wrote_writing; [done|]. rewrite length_app, length_take. lia.
Qed.

(** ** 0x19 and 0x14 *)
Lemma ReadDTCInfoResp_wrote sub p m : wf m -> payload_ok p -> p.2 <= UDS_MAX_DATA_SIZE - 2 ->
  recvBuf m !! 1%nat = Some sub ->
  wp (ReadDTCInfoResp READ_DTC_INFO_REQUEST_ID p POSITIVE_RESPONSE) (fun r m' => r = LE_OK /\
    wrote m (READ_DTC_INFO_RESPONSE_ID :: Z.land sub 0x7F ::
             match p.1 with Some d => take (Z.to_nat p.2) d | None => [] end) m') m.
Proof.
  intros Hw Hp Hl Hsub. unfold ReadDTCInfoResp. rewrite (proj2 (Z.ltb_ge _ _)) by lia. cbn [Z.eqb negb].
  pose proof (writing_start m Hw) as H0. wp_step. eapply writing_rd; [exact H0|lia|]. intros v Hv _.
  change (Z.to_nat 1) with 1%nat in Hv. rewrite Hsub in Hv. injection Hv as <-.
  wp_step. eapply writing_wr0; [exact H0|]. intros m1 H1 _. wp_step.
  eapply (writing_put m _ m1); [exact H1|done|lia|]. intros m2 H2 _. cbn [app] in H2.
  by apply (optional_payload_wrote m [READ_DTC_INFO_RESPONSE_ID; Z.land sub 0x7F]); [|..|lia].
Qed.
Lemma ClearDiagInfoResp_wrote m : wf m ->
  wp (ClearDiagInfoResp CLEAR_DIAG_INFO_REQUEST_ID POSITIVE_RESPONSE) (fun r m' => r = LE_OK /\
    wrote m [CLEAR_DIAG_INFO_RESPONSE_ID] m') m.
Proof.
  intros Hw. unfold ClearDiagInfoResp. cbn [Z.eqb negb]. wp_step.
  eapply writing_wr0; [by apply writing_start|]. intros m1 H1 _. wp_step.
  eapply writing_length; [exact H1|lia|]. intros m2 H2 Hl. wp_step. split; [done|]. by apply wrote_writing.
Qed.

(** A service of which a refusal is the three bytes of a negative response. *)
Definition dtc_service (sid : Z) : Prop := sid = READ_DTC_INFO_REQUEST_ID \/ sid = CLEAR_DIAG_INFO_REQUEST_ID.
Lemma refusal_wrote sid err m : dtc_service sid -> err <> POSITIVE_RESPONSE -> wf m ->
  wp (build_response env sid err (None, 0)) (fun r m' => r = LE_OK /\ wrote m [UDS_NEGATIVE_RESP_SID; sid; err] m') m.
Proof.
  intros Hs Herr Hw. assert ((err =? 0) = false) as He by by apply Z.eqb_neq.
  destruct Hs as [-> | ->]; unfold build_response; cbn [Z.eqb Pos.eqb];
    unfold ReadDTCInfoResp, ClearDiagInfoResp; cbn [snd]; rewrite He; cbn [negb];
    [change (_ <? 0) with false; cbv iota|]; wp_step; (eapply wp_conseq; [by apply SetNRC_wrote|]);
    intros r m1 [_ H1]; wp_step; by split.
Qed.

(** ** Sending it *)

(** One message, and the object is as well-formed as before; the request is kept. *)
Record replied (m : Mgr) (to : AddrInfo) (data : list Z) (m' : Mgr) : Prop := {
  replied_wf : wf m';
  replied_once : emits m m' (one_message to data);
  replied_ready : (forall es, Forall quiet es ->
    doip_DiagRequest env (trace m ++ es ++ [DoipRequest to data]) = LE_OK) -> readyToRecvData m' = true }.

(** The object works on the request [sid] of its interface. *)
Record handling (m : Mgr) (name : string) (sid : Z) : Prop := {
  handling_wf : wf m;
  handling_name : name = interface m;
  handling_len : recvDataLen m <> 0;
  handling_sid : recvBuf m !! 0%nat = Some sid }.

Lemma SendUDSResp_replied sid err p data m name : handling m name sid -> p.2 <= UDS_MAX_DATA_SIZE ->
  (forall m1, wf m1 -> request_of m1 = request_of m ->
    wp (build_response env sid err p) (fun r m' => r = LE_OK /\ wrote m1 data m') m1) ->
  wp (SendUDSResp env name sid err p) (fun r m' => r = LE_OK /\ replied m (udsRespAddrInfo m) data m') m.
Proof.
  intros [Hw Hname Hlen Hsid] Hp Hb. unfold SendUDSResp. do 2 wp_step.
  rewrite bool_decide_true by done. cbn [negb]. wp_step. apply wp_assign_. set (m0 := m <| nrcCode := err |>).
  assert (Hw0 : wf m0) by (destruct Hw; by split). rewrite (proj2 (Z.eqb_neq _ _)) by exact Hlen.
  wp_step. apply wp_rd; [pose proof (wf_recvBuf _ Hw0); lia|]. intros b0 Hb0.
  change (recvBuf m0 !! Z.to_nat 0) with (recvBuf m !! 0%nat) in Hb0. rewrite Hsid in Hb0. injection Hb0 as <-.
  rewrite Z.eqb_refl, (proj2 (Z.ltb_ge _ _)) by lia. cbn [negb]. wp_step.
  eapply wp_conseq; [by apply (Hb m0)|]. intros r m1 (-> & [Hw1 Hq1 Hreq Hmsg]).
  rewrite bool_decide_true by done. cbn [negb]. do 2 wp_step.
  eapply wp_conseq; [by apply (send_built env sid)|]. intros r m2 (-> & Hw2 & He & Hr). split; [done|].
  assert (udsRespAddrInfo m1 = udsRespAddrInfo m) as Hto by (unfold request_of in Hreq; by injection Hreq).
  rewrite Hto, Hmsg in He, Hr. destruct Hq1 as (es1 & Ht1 & Hq1), He as (es2 & Ht2 & H1 & H2).
  assert (trace m1 = trace m ++ es1) as Ht by exact Ht1. split; [done| |].
  - exists (es1 ++ es2). rewrite Ht2, Ht, <- app_assoc. split; [done|]. split.
    + by rewrite sent_app, quiet_sent.
    + by rewrite service_indications_app, quiet_indications.
  - intros Hok. apply Hr. rewrite Ht, <- app_assoc. by apply Hok.
Qed.

(** The address of the answer is the one that the service gives. *)
Lemma SendDiagResp_replied (a : AddrInfo) msg sid err data m : handling m (ifName a) sid ->
  let p := match msg with Some (d, n) => (d, u16 n) | None => (None, 0) end in
  p.2 <= UDS_MAX_DATA_SIZE ->
  (forall m1, wf m1 -> recvBuf m1 = recvBuf m ->
    wp (build_response env sid err p) (fun r m' => r = LE_OK /\ wrote m1 data m') m1) ->
  wp (taf_uds_SendDiagResp env a msg sid err) (fun r m' => r = LE_OK /\ replied m a data m') m.
Proof.
  intros [Hw Hname Hlen Hsid] p Hp Hb. unfold taf_uds_SendDiagResp. do 2 wp_step.
  rewrite bool_decide_true by done. cbn [negb]. wp_step. apply wp_assign_. set (m0 := m <| udsRespAddrInfo := a |>).
  assert (handling m0 (ifName a) sid) as H0 by (split; [destruct Hw; by split|done..]).
  assert (wp (SendUDSResp env (ifName a) sid err p) (fun r m' => r = LE_OK /\ replied m a data m') m0) as H.
  { eapply wp_conseq; [apply (SendUDSResp_replied sid err p data m0 (ifName a) H0 Hp)|].
    - intros m1 Hw1 Hreq. apply Hb; [done|]. unfold request_of in Hreq. by injection Hreq.
    - intros r m' (-> & [H1 H2 H3]). by split. }
  unfold p in H. destruct msg as [[d n]|]; exact H.
Qed.
End Reply.
