(* ===== verification/UdsMgr.v ===== *)
(** * The UDS stack: requests, timeouts and indications

    The handler of received messages, the timeout handlers, the handler of internal
    indications, the data the diagnostic service sets, and the timer thread. *)
From Stdlib Require Import SpecFloat.
From S2P Require Import Prelude Ieee DiagCfg UdsTypes UdsSend SecAccess UdsAccess UdsIndicate UdsControl.
From S2P Require Import UdsTransfer UdsResp.

(** ** Results of the DoIP stack and received messages *)
Inductive taf_doip_Result_t :=
  | DOIP_RESULT_OK | DOIP_RESULT_SA_REGISTERED | DOIP_RESULT_SA_DEREGISTERED
  | DOIP_RESULT_OTHER.

#[export] Instance taf_doip_Result_eq_dec : EqDecision taf_doip_Result_t.
Proof. solve_decision. Defined.

(** The memory a message pointer refers to, and the length of the message. *)
Record DiagMsg := mkDiagMsg { dataPtr : list Z; dataLen : Z }.

Section Manager.
Variable env : Env.
Let cfg : Config := config env.

(** ** Passing a request on *)
Definition CheckAndSendInd (sid : Z) (a : AddrInfo) : M Mgr le_result_t :=
  SendNRC env sid REQUEST_CORRECTLY_RECEIVED_RESPONSE_PENDING a;;
  readyToRecvData ::= false;;
  m ← get;
  UdsTimerEventReport P2STAR_TIMER_START 0 (interface m);;
  sendDataLen ::= 0;;
  emit (IndEvent UDS_SERVICE_MSG_INDICATION_ID []);;
  mret LE_OK.

(** The [switch] over the service identifiers. *)
Definition dispatch (sid : Z) (a : AddrInfo) : M Mgr le_result_t :=
  if sid =? SESSION_CONTROL_REQUEST_ID then IndicateSessionCtrlReq env a
  else if sid =? ECU_RESET_REQUEST_ID then IndicateECUResetReq env a
  else if sid =? CLEAR_DIAG_INFO_REQUEST_ID then IndicateClearDiagInfoReq env a
  else if sid =? READ_DTC_INFO_REQUEST_ID then IndicateReadDTCInfoReq env a
  else if sid =? READ_DID_REQUEST_ID then IndicateReadDIDReq env a
  else if sid =? SECURITY_ACCESS_REQUEST_ID then IndicateSecAccessReq env a
  else if sid =? AUTHENTICATION_REQUEST_ID then IndicateAuthReq env a
  else if sid =? WRITE_DID_REQUEST_ID then IndicateWriteDIDReq env a
  else if sid =? INPUT_OUTPUT_CONTROL_REQUEST_ID then IndicateIOCBIDReq env a
  else if sid =? ROUTINE_CONTROL_REQUEST_ID then IndicateRoutinrCtrlReq env a
  else if sid =? REQUEST_DOWNLOAD_REQUEST_ID then IndicateRxReqDwnldReq env a
  else if sid =? TRANSFER_DATA_REQUEST_ID then IndicateRxXferDataReq env a
  else if sid =? REQUEST_TRANSFER_EXIT_REQUEST_ID then IndicateRxXferExitReq env a
  else if sid =? REQUEST_FILE_TRANSFER_REQUEST_ID then IndicateRxFileXferReq env a
  else if sid =? RESPONSE_ON_EVENT_REQUEST_ID then IndicateROEReq env a
  else
    r ← SendNRC env sid SERVICE_NOT_SUPPORTED a;
    isInternalHandle ::= true;;
    mret r.

(** What follows a handled request: the session timers, then the indication. *)
Definition after_dispatch (sid : Z) (a : AddrInfo) : M Mgr unit :=
  m ← get;
  let budget := rcrrp_budget cfg (SessionType m) in
  when (featureA env)
    (testerStateTimer ←
       (if negb (isInternalHandle m) && SFltb (F32.of_Z TESTER_STATE_CHANGE_TIMER) budget
        then demand (to_unsigned 32 budget) BadConversion
        else mret TESTER_STATE_CHANGE_TIMER);
     UdsTimerEventReport TESTER_STATE_TIMER_START testerStateTimer (ifName a));;
  when (negb (sid =? SESSION_CONTROL_REQUEST_ID) && negb (SessionType m =? DEFAULT_SESSION))
    (s3 ← demand (s3_interval_truncated cfg) BadConversion;
     s3ServerInterval ← (if negb (isInternalHandle m) && SFltb (F32.of_Z s3) budget
                         then demand (to_unsigned 32 budget) BadConversion
                         else mret s3);
     UdsTimerEventReport S3_TIMER_START s3ServerInterval (ifName a));;
  when (negb (isInternalHandle m)) (CheckAndSendInd sid a;; mret tt).

(** A tester's source address was deregistered: back to the default session. *)
Definition tester_deregistered (a : AddrInfo) : M Mgr unit :=
  addrInfo ::= a;;
  UdsTimerEventReport S3_TIMER_STOP 0 (ifName a);;
  when (featureA env) (UdsTimerEventReport TESTER_STATE_TIMER_STOP 0 (ifName a));;
  UdsTimerEventReport P2STAR_TIMER_STOP 0 (ifName a);;
  UdsTimerEventReport AUTH_TIMER_STOP 0 (ifName a);;
  authState ::= AUTH_STATE_UNKNOWN;;
  m ← get;
  when (negb (readyToRecvData m))
    (readyToRecvData ::= true;; CheckAndSendCancelFileXferEvent);;
  isXferActive ::= false;;
  recvBuf ::= replicate (Z.to_nat UDS_MAX_DATA_SIZE) 0;;
  recvDataLen ::= 0;;
  sendDataLen ::= 0;;
  when (negb (SessionType m =? DEFAULT_SESSION))
    (posted ← report_and_wait env SESSION_CONTROL_SIG false;
     if negb posted then raise Deadlock else
     m' ← get;
     SessionType ::= DEFAULT_SESSION;;
     emit (IndEvent SESSION_CHANGE_MSG_ID
             [ind_msg_code SESSION_CHANGE_MSG_ID; u8 (SessionType m'); DEFAULT_SESSION])).

(** A message of the tester. *)
Definition request_received (a : AddrInfo) (msg : DiagMsg) : M Mgr unit :=
  if dataLen msg <? 1 then mret tt else
  sid ← demand (at_ (dataPtr msg) 0) OutOfBounds;
  if bool_decide (taType a = TA_FUNCTIONAL) && negb (IsServiceFunctionalAddressed cfg sid)
  then mret tt else
  m ← get;
  if isResetInProgress m then mret tt else
  if sid =? TESTER_PRESENT_REQUEST_ID then
    r ← GeneralServerResp env a TESTER_PRESENT_REQUEST_ID;
    when (negb (bool_decide (r = LE_OK)))
      (originSubFunc ← demand (at_ (dataPtr msg) 1) OutOfBounds;
       TesterPresentResp env originSubFunc (u16 (dataLen msg)) a;;
       mret tt)
  else if isPaused m then SendNRC env sid CONDITIONS_NOT_CORRECT a;; mret tt
  else if negb (readyToRecvData m) then SendNRC env sid BUSY_REPEAT_REQ a;; mret tt
  else
    addrInfo ::= a;;
    bytes ← demand (slice (dataPtr msg)
                      (if dataLen msg <? UDS_MAX_DATA_SIZE then dataLen msg
                       else UDS_MAX_DATA_SIZE)) OutOfBounds;
    cpy recvBuf 0 bytes;;
    recvDataLen ::= u16 (dataLen msg);;
    sendDataLen ::= 0;;
    r ← GeneralServerResp env a sid;
    if bool_decide (r = LE_OK) then mret tt else
    ret ← dispatch sid a;
    if negb (bool_decide (ret = LE_OK)) then mret tt else
    after_dispatch sid a.

Definition DiagIndicationHandler (a : AddrInfo) (diagMsgPtr : option DiagMsg)
    (result : taf_doip_Result_t) : M Mgr unit :=
  with_instance (ifName a)
    (isInternalHandle ::= true;;
     match result with
     | DOIP_RESULT_SA_REGISTERED => mret tt
     | DOIP_RESULT_SA_DEREGISTERED => tester_deregistered a
     | _ =>
         match diagMsgPtr with
         | None => mret tt
         | Some msg =>
             if negb (bool_decide (result = DOIP_RESULT_OK)) then mret tt
             else request_received a msg
         end
     end).

(** ** Timeouts *)

(** P2*: the service has not answered in time. *)
Definition P2StarTimeoutHandler : M Mgr unit :=
  m ← get;
  let errorCode := if timer_GetExpiryCount env (trace m) p2StarTimer <? rcrrp_count cfg
                   then REQUEST_CORRECTLY_RECEIVED_RESPONSE_PENDING else GENERAL_REJECT in
  sid ← rd recvBuf 0;
  emit (P2StarNrc sid errorCode (addrInfo m)).

Definition P2StarSendNrcInMainThread (sid errorCode : Z) (a : AddrInfo) : M Mgr unit :=
  SendNRC env sid errorCode a;;
  if errorCode =? REQUEST_CORRECTLY_RECEIVED_RESPONSE_PENDING then mret tt else
  recvBuf ::= replicate (Z.to_nat UDS_MAX_DATA_SIZE) 0;;
  recvDataLen ::= 0;;
  sendDataLen ::= 0;;
  m ← get;
  when (negb (readyToRecvData m))
    (readyToRecvData ::= true;; CheckAndSendCancelFileXferEvent).

Definition AuthDelayTimeoutHandler : M Mgr unit :=
  m ← get;
  authAttCnt ::= 0;;
  authDelayTime ::= u16 (2 * authDelayTime m);;
  m' ← get;
  when (AUTH_DEFAULT_DELAY_TIME_MAX <? authDelayTime m')
    (authDelayTime ::= AUTH_DEFAULT_DELAY_TIME_MAX);;
  StoreAttCntToTree;;
  StoreDelayTimeToTree.

Definition S3TimeoutHandler : M Mgr unit :=
  emit (SecAccEvent SESSION_TIMEOUT_SIG);;
  m ← get;
  if SessionType m =? DEFAULT_SESSION then mret tt else
  SessionType ::= DEFAULT_SESSION;;
  emit (IndEvent SESSION_CHANGE_MSG_ID
          [ind_msg_code SESSION_CHANGE_MSG_ID; u8 (SessionType m); DEFAULT_SESSION]).

Definition role_bytes (role : Z) : list Z :=
  [byte_at 7 role; byte_at 6 role; byte_at 5 role; byte_at 4 role;
   byte_at 3 role; byte_at 2 role; byte_at 1 role; byte_at 0 role].

Definition AuthTimeoutHandler : M Mgr unit :=
  m ← get;
  authState ::= AUTH_STATE_DEAUTHENTICATED;;
  currentRoleVal ::= 0;;
  emit (IndEvent AUTHENTICATION_EXPIRATION_MSG_ID
          (ind_msg_code AUTHENTICATION_EXPIRATION_MSG_ID :: role_bytes (currentRoleVal m))).

Definition tester_state_code (t : taf_TesterState_t) : Z := match t with OFF => 0 | ON => 1 end.

Definition IndicateTesterStateChange (name : string) (currentState : taf_TesterState_t)
    : M Mgr unit :=
  with_instance name
    (m ← get;
     when (negb (bool_decide (currentState = PreviousState m)))
       (PreviousState ::= currentState;;
        emit (IndEvent TESTER_STATE_MSG_ID
                [ind_msg_code TESTER_STATE_MSG_ID; tester_state_code (PreviousState m);
                 tester_state_code currentState]))).

Definition TesterStateTimeoutHandler (name : string) : M Mgr unit :=
  IndicateTesterStateChange name OFF.

(** The authentication counters of a new object, from the configuration tree. *)
Definition InitAuthData : M Mgr unit :=
  m ← get;
  match cfg_GetInt env (trace m) (interface m) with
  | Some _ =>
      authAttCnt ::= u8 (default 0 (cfg_GetInt env (trace m) (interface m +:+ "/Att_Cnt")));;
      authDelayTime ::= u16 (default 1 (cfg_GetInt env (trace m) (interface m +:+ "/Delay_time")));;
      m' ← get;
      when (AUTH_DEFAULT_MAX_ATT_CNT <=? authAttCnt m')
        (UdsTimerEventReport AUTH_DELAY_TIMER_START (u32 (authDelayTime m' * 1000))
           (interface m'))
  | None => StoreAttCntToTree;; StoreDelayTimeToTree
  end.

(** ** Data set by the diagnostic service *)
Definition IsCancelFileXferReqInList (vlan : Z) : M Mgr bool :=
  gets (fun m => bool_decide (vlan ∈ cancelFileXferReqList m)).

Definition addCancelFileXferReqInList (vlan : Z) : M Mgr le_result_t :=
  m ← get;
  cancelFileXferReqList ::= (cancelFileXferReqList m ++ [vlan]);;
  mret LE_OK.

(** Eight bytes, most significant first. *)
Definition be64 (d : list Z) : Z :=
  foldl (fun acc b => Z.lor (Z.shiftl acc 8) b) 0 d.

Inductive taf_uds_DataType_t := DATA_TYPE_ROLE | DATA_TYPE_FILEXFER_STATE
  | DATA_TYPE_DIAG_PAUSE | DATA_TYPE_DIAG_RESUME | DATA_TYPE_OTHER.

Definition SetUDSData (name : string) (dataType : taf_uds_DataType_t)
    (data : option (list Z)) (dataSize : Z) : M Mgr le_result_t :=
  match data with
  | None => mret LE_BAD_PARAMETER
  | Some bytes =>
      if dataSize =? 0 then mret LE_BAD_PARAMETER else
      m ← get;
      if negb (bool_decide (name = interface m)) then mret LE_FAULT else
      match dataType with
      | DATA_TYPE_ROLE =>
          if negb (dataSize =? 8) then mret LE_FAULT else
          d ← demand (slice bytes 8) OutOfBounds;
          currentRoleVal ::= be64 d;;
          mret LE_OK
      | DATA_TYPE_FILEXFER_STATE =>
          if negb (dataSize =? 1) then mret LE_FAULT else
          pending ← IsCancelFileXferReqInList (vlanId m);
          if (pending : bool) then mret LE_IN_PROGRESS else
          if readyToRecvData m then
            isXferActive ::= false;;
            emit (IndEvent CANCEL_FILE_TRANSFER_RESULT
                    [ind_msg_code CANCEL_FILE_TRANSFER_RESULT; 0]);;
            mret LE_OK
          else
            r ← addCancelFileXferReqInList (vlanId m);
            if negb (bool_decide (r = LE_OK)) then mret LE_FAULT else mret LE_OK
      | DATA_TYPE_DIAG_PAUSE =>
          if negb (isPaused m) then
            isPaused ::= true;;
            if negb (readyToRecvData m) then mret LE_IN_PROGRESS else mret LE_OK
          else mret LE_OK
      | DATA_TYPE_DIAG_RESUME => isPaused ::= false;; mret LE_OK
      | DATA_TYPE_OTHER => mret LE_FAULT
      end
  end.

(** ** Indications to the diagnostic service *)

(** [le_dls_Remove] of the first request of the interface. *)
Fixpoint remove_first (v : Z) (l : list Z) : list Z :=
  match l with
  | [] => []
  | x :: l' => if x =? v then l' else x :: remove_first v l'
  end.

(** [IndMsgHandler], with a handler registered by the service. *)
Definition IndMsgHandler (indMsgType : taf_UDSIndMsg_type_t) (dataIndBuf : list Z)
    : M Mgr unit :=
  m ← get;
  match indMsgType with
  | SESSION_CHANGE_MSG_ID | AUTHENTICATION_EXPIRATION_MSG_ID | CANCEL_FILE_TRANSFER_RESULT =>
      emit (Indication (addrInfo m) dataIndBuf)
  | SET_STATE_AND_CANCEL_FILE_TRANSFER_RESULT =>
      if bool_decide (vlanId m ∈ cancelFileXferReqList m) && readyToRecvData m then
        isXferActive ::= false;;
        cancelFileXferReqList ::= remove_first (vlanId m) (cancelFileXferReqList m);;
        emit (Indication (addrInfo m) dataIndBuf)
      else mret tt
  | UPDATE_SERVICE_NRC_STATUS | TESTER_STATE_MSG_ID =>
      when (featureA env) (emit (Indication (addrInfo m) dataIndBuf))
  | UDS_SERVICE_MSG_INDICATION_ID =>
      data ← demand (slice (recvBuf m) (recvDataLen m)) OutOfBounds;
      emit (Indication (addrInfo m) data)
  end.
End Manager.

(** ** The timer thread

    [UdsTimerHandler] turns the reports of the other threads into calls of the timer
    library; every manager has its own five timers. *)
Section Timers.
Variable env : Env.
Let cfg : Config := config env.

(** [if (le_timer_IsRunning(t)) ..] *)
Definition if_running (t : TimerId) (c1 c2 : M Mgr unit) : M Mgr unit :=
  running ← le_timer_IsRunning env t; if (running : bool) then c1 else c2.
Definition call (t : TimerId) (op : TimerOp) : M Mgr unit := emit (TimerCall t op).

Definition stop_if_running (t : TimerId) : M Mgr unit :=
  if_running t (call t TimerStop) (mret tt).
Definition start_or_restart (t : TimerId) (interval : Z) : M Mgr unit :=
  call t (TimerSetMsInterval interval);; if_running t (call t TimerRestart) (call t TimerStart).
Definition restart_if_running (t : TimerId) (interval : Z) : M Mgr unit :=
  if_running t (call t (TimerSetMsInterval interval);; call t TimerRestart) (mret tt).

(** A running timer is only ever lengthened. *)
Definition check_to_restart (t : TimerId) (interval : Z) : M Mgr unit :=
  if_running t
    (remainingTime ← gets (fun m => timer_GetMsTimeRemaining env (trace m) t);
     if interval <=? remainingTime then mret tt else
     call t (TimerSetMsInterval interval);; call t TimerRestart)
    (mret tt).

(** The P2* interval, which must also reach a minimum. *)
Definition p2star_timer_interval (session : Z) : spec_float :=
  try_or ((fun sess =>
             let i := F32.of_double (F64.mul (p2_start_server_max sess) (F64.of_Z 1000)) in
             if SFltb (F32.of_Z UDS_P2_STAR_SERVER_MAX) i
                || SFltb i (F32.of_Z UDS_P2_STAR_SERVER_MIN)
             then F32.of_Z UDS_P2_STAR_SERVER else i)
            <$> get_diagnostic_session cfg (u16 session))
    (F32.of_Z UDS_P2_STAR_SERVER).

Definition UdsTimerHandler (event : taf_UDSTimer_EventType_t) (interval : Z) (name : string)
    : M Mgr unit :=
  with_instance name
    (match event with
     | S3_TIMER_STOP => stop_if_running s3Timer
     | S3_TIMER_START => start_or_restart s3Timer interval
     | S3_TIMER_RESTART => restart_if_running s3Timer interval
     | S3_TIMER_CHECK_TO_RESTART => check_to_restart s3Timer interval
     | AUTH_TIMER_STOP => stop_if_running authTimer
     | AUTH_TIMER_START => start_or_restart authTimer interval
     | AUTH_TIMER_RESTART =>
         call authTimer (TimerSetMsInterval interval);; call authTimer TimerRestart
     | AUTH_DELAY_TIMER_STOP => stop_if_running authDelayTimer
     | AUTH_DELAY_TIMER_START =>
         call authDelayTimer (TimerSetMsInterval interval);; call authDelayTimer TimerStart
     | P2STAR_TIMER_STOP => stop_if_running p2StarTimer
     | P2STAR_TIMER_START =>
         m ← get;
         ms ← demand (to_unsigned 32 (F32.sub (p2star_timer_interval (SessionType m))
                                        (F32.of_Z DELTA_UDS_P2_RESP))) BadConversion;
         call p2StarTimer (TimerSetMsInterval ms);;
         call p2StarTimer (TimerSetRepeat (rcrrp_count cfg));;
         call p2StarTimer TimerStart
     | P2STAR_TIMER_RESTART => mret tt
     | TESTER_STATE_TIMER_STOP =>
         when (featureA env)
           (if_running testerStateTimer
              (call testerStateTimer TimerStop;; IndicateTesterStateChange name OFF)
              (mret tt))
     | TESTER_STATE_TIMER_START =>
         when (featureA env)
           (call testerStateTimer (TimerSetMsInterval interval);;
            if_running testerStateTimer (call testerStateTimer TimerRestart)
              (call testerStateTimer TimerStart;; IndicateTesterStateChange name ON))
     | TESTER_STATE_TIMER_RESTART =>
         when (featureA env) (restart_if_running testerStateTimer interval)
     | TESTER_STATE_TIMER_CHECK_TO_RESTART =>
         when (featureA env) (check_to_restart testerStateTimer interval)
     end).
End Timers.
