(* ===== verification/SmsPdu.v ===== *)
(** * The SMS PDU codec

    [tafSmsPdu.cpp]: packing of 7-bit characters into octets, the GSM alphabet
    tables, addresses, and the encoder of SUBMIT and decoder of DELIVER messages.
    Memory is a list of bytes and an access outside it has no value ([None]). The
    sizes that come from the generated API headers are the fields of [SmsSizes], and
    the framework's conversion of hexadecimal text is a parameter. *)
From S2P Require Import Prelude.

(** ** Tables *)
Definition ascii_8_to_7 : list Z := [
   63; 63; 63; 63; 63; 63; 63; 63; 63; 63; 10; 63; 138; 13; 63; 63;
   63; 63; 63; 63; 63; 63; 63; 63; 63; 63; 63; 63; 63; 63; 63; 63;
   32; 33; 34; 35; 2; 37; 38; 39; 40; 41; 42; 43; 44; 45; 46; 47;
   48; 49; 50; 51; 52; 53; 54; 55; 56; 57; 58; 59; 60; 61; 62; 63;
   0; 65; 66; 67; 68; 69; 70; 71; 72; 73; 74; 75; 76; 77; 78; 79;
   80; 81; 82; 83; 84; 85; 86; 87; 88; 89; 90; 188; 175; 190; 148; 17;
   217; 97; 98; 99; 100; 101; 102; 103; 104; 105; 106; 107; 108; 109; 110; 111;
   112; 113; 114; 115; 116; 117; 118; 119; 120; 121; 122; 168; 192; 169; 189; 63;
   63; 63; 39; 102; 34; 63; 63; 63; 63; 63; 83; 39; 214; 63; 63; 63;
   63; 39; 39; 34; 34; 42; 45; 45; 39; 63; 115; 39; 111; 63; 63; 89;
   32; 64; 99; 1; 36; 3; 33; 95; 34; 63; 63; 60; 63; 45; 63; 63;
   63; 63; 50; 51; 39; 117; 63; 63; 63; 49; 63; 62; 63; 63; 63; 96;
   65; 65; 65; 65; 91; 14; 28; 9; 31; 31; 31; 31; 73; 73; 73; 73;
   68; 93; 79; 79; 79; 79; 92; 42; 11; 85; 85; 85; 94; 89; 63; 30;
   127; 97; 97; 97; 123; 15; 29; 9; 4; 5; 101; 101; 7; 7; 105; 105;
   63; 125; 8; 111; 111; 111; 24; 47; 12; 6; 117; 117; 126; 121; 63; 121].

Definition ascii_7_to_8 : list Z := [
   64; 163; 36; 165; 232; 233; 249; 236; 242; 199; 10; 216; 248; 13; 197; 229;
   63; 95; 63; 63; 63; 63; 63; 63; 63; 63; 63; 27; 198; 230; 223; 201;
   32; 33; 34; 35; 164; 37; 38; 39; 40; 41; 42; 43; 44; 45; 46; 47;
   48; 49; 50; 51; 52; 53; 54; 55; 56; 57; 58; 59; 60; 61; 62; 63;
   161; 65; 66; 67; 68; 69; 70; 71; 72; 73; 74; 75; 76; 77; 78; 79;
   80; 81; 82; 83; 84; 85; 86; 87; 88; 89; 90; 196; 214; 209; 220; 167;
   191; 97; 98; 99; 100; 101; 102; 103; 104; 105; 106; 107; 108; 109; 110; 111;
   112; 113; 114; 115; 116; 117; 118; 119; 120; 121; 122; 228; 246; 241; 252; 224].

Abbreviation ESCAPE_7BIT := 0x1B (only parsing).
Abbreviation ESCAPE_SHIFT_INDEX := 128 (only parsing).
Abbreviation NON_PRINTABLE_8_BIT := 63 (only parsing).

(** ** Memory *)
Definition getb (buf : list Z) (i : Z) : option Z := at_ buf i.
Definition setb (buf : list Z) (i v : Z) : option (list Z) :=
  if decide (0 <= i < Z.of_nat (length buf)) then Some (<[Z.to_nat i := v]> buf) else None.

(** ** Septets *)
Definition Get7BitsAtPos (buffer : list Z) (pos : Z) : option Z :=
  let index := u8 (pos / 8) in
  let offset := u8 (pos mod 8) in
  b0 ← getb buffer index;
  let low_Byte := Z.shiftr b0 offset in
  high_Byte ← (if 0 <? offset
               then b1 ← getb buffer (index + 1); Some (u8 (Z.shiftl b1 (8 - offset)))
               else Some 0);
  Some (Z.land (Z.lor low_Byte high_Byte) 0x7F).

Definition Set7BitsAtPos (buffer : list Z) (val pos : Z) : option (list Z) :=
  let val := Z.land val 0x7F in
  let index := u8 (pos / 8) in
  let offset := u8 (pos mod 8) in
  if offset =? 0 then setb buffer index val
  else if offset =? 1 then
    b ← getb buffer index; setb buffer index (u8 (Z.lor b (Z.shiftl val 1)))
  else
    b ← getb buffer index;
    buffer ← setb buffer index (u8 (Z.lor b (Z.shiftl val offset)));
    setb buffer (index + 1) (Z.shiftr val (8 - offset)).

(** A call that fails returns the (negative) result code. *)
Definition outcome_or_error (A : Type) : Type := le_result_t + A.

(** The character after an escape. *)
Definition escaped_char (byte : Z) : Z :=
  if byte =? 10 then 12
  else if byte =? 20 then 94
  else if byte =? 40 then 123
  else if byte =? 41 then 125
  else if byte =? 47 then 92
  else if byte =? 60 then 91
  else if byte =? 61 then 126
  else if byte =? 62 then 93
  else if byte =? 64 then 124
  else NON_PRINTABLE_8_BIT.

(** The loop of [pduDecode7BitsTo8Bits] from septet [r_indx] on, with the characters
    written so far; the fuel is the number of septets left. *)
Fixpoint decode_loop (fuel : nat) (bufferIn : list Z) (r_indx len : Z) (out : list Z)
    (size : Z) : option (outcome_or_error (list Z)) :=
  match fuel with
  | O => Some (inr out)
  | S n =>
      if len <=? r_indx then Some (inr out) else
      septet ← Get7BitsAtPos bufferIn (r_indx * 7);
      byte ← getb ascii_7_to_8 septet;
      if negb (byte =? ESCAPE_7BIT) then
        if size <=? Z.of_nat (length out) then Some (inl LE_OVERFLOW) else
        decode_loop n bufferIn (r_indx + 1) len (out ++ [byte]) size
      else
        byte ← Get7BitsAtPos bufferIn ((r_indx + 1) * 7);
        if size <=? Z.of_nat (length out) then Some (inl LE_OVERFLOW) else
        decode_loop n bufferIn (r_indx + 2) len (out ++ [escaped_char byte]) size
  end.

Definition pduDecode7BitsTo8Bits (bufferIn_7bit : list Z) (len bufferOut_Size : Z)
    : option (outcome_or_error (list Z)) :=
  decode_loop (Z.to_nat len) bufferIn_7bit 0 len [] bufferOut_Size.

(** The loop of [pduEncode8BitsTo7Bits]: the buffer, the number of septets written and
    the number of octets they occupy. *)
Fixpoint encode_loop (text : list Z) (buf : list Z) (numOfwriteChar numOf8bitChar : Z)
    (size : Z) : option (outcome_or_error (list Z * Z * Z)) :=
  match text with
  | [] =>
      if size <? numOf8bitChar then Some (inl LE_OVERFLOW)
      else Some (inr (buf, numOfwriteChar, numOf8bitChar))
  | c :: text' =>
      byte ← getb ascii_8_to_7 c;
      if size <? numOf8bitChar then Some (inl LE_OVERFLOW) else
      '(buf, numOfwriteChar, byte) ←
        (if ESCAPE_SHIFT_INDEX <=? byte then
           buf ← Set7BitsAtPos buf ESCAPE_7BIT (numOfwriteChar * 7);
           Some (buf, u8 (numOfwriteChar + 1), byte - ESCAPE_SHIFT_INDEX)
         else Some (buf, numOfwriteChar, byte));
      buf ← Set7BitsAtPos buf byte (numOfwriteChar * 7);
      let numOfwriteChar := u8 (numOfwriteChar + 1) in
      let numOfbit := numOfwriteChar * 7 in
      let numOf8bitChar := u8 (if numOfbit mod 8 =? 0 then numOfbit / 8 else numOfbit / 8 + 1) in
      encode_loop text' buf numOfwriteChar numOf8bitChar size
  end.

Definition pduEncode8BitsTo7Bits (text buf : list Z) (size : Z)
    : option (outcome_or_error (list Z * Z * Z)) :=
  encode_loop text buf 0 0 size.

(** ** Addresses *)
Abbreviation PLUS := 43 (only parsing).  (* '+' *)

(** [pduDecodeAddr] into an array of [size] bytes: the text before its terminator. The
    loop writes digits from [i] on. *)
Fixpoint addr_loop (fuel : nat) (buffer : list Z) (i addrLen : Z) (out : list Z) (size : Z)
    : option (list Z) :=
  match fuel with
  | O => Some out
  | S n =>
      if addrLen <=? i then Some out else
      if size - 1 <=? Z.of_nat (length out) then Some out else
      byte ← getb buffer (i / 2 + 1);
      let nibble := (if i mod 2 =? 0 then Z.land byte 0x0F
                     else Z.shiftr (Z.land byte 0xF0) 4) + 48 in
      let nibble := if 57 <? nibble then nibble + (65 - 48 - 10) else nibble in
      if nibble =? 70 then Some out else
      addr_loop n buffer (i + 1) addrLen (out ++ [nibble]) size
  end.

Definition pduDecodeAddr (buffer : list Z) (addrLen size : Z) : option (list Z) :=
  if size =? 0 then Some [] else
  toa ← getb buffer 0;
  let ton := Z.land (Z.shiftr toa 4) 0x07 in
  if ton =? 5 then
    let addrOctets := u8 ((addrLen + 1) / 2) in
    let septetCount := u8 (addrOctets * 8 / 7) in
    decoded ← pduDecode7BitsTo8Bits (drop 1 buffer) septetCount (size - 1);
    Some (match (decoded : outcome_or_error (list Z)) with inl _ => [] | inr text => text end)
  else
    let out := if (toa =? 0x91) && (0 <? size - 1) then [PLUS] else [] in
    addr_loop (Z.to_nat addrLen) buffer 0 addrLen out size.

(** The semi-octets of a number: digits in pairs, the second first, with ['F'] after an
    odd last digit. *)
Fixpoint swap_pairs (digits : list Z) : list Z :=
  match digits with
  | [] => []
  | [a] => [70; a]
  | a :: b :: rest => b :: a :: swap_pairs rest
  end.

(** ** Messages *)
Inductive sms_Type_t := SMS_TYPE_DELIVER | SMS_TYPE_SUBMIT | SMS_TYPE_STATUS_REPORT
  | SMS_TYPE_PDU | SMS_TYPE_CELL_BROADCAST | SMS_TYPE_UNSUPPORTED.
Inductive sms_Protocol_t := SMS_PROTOCOL_UNKNOWN | SMS_PROTOCOL_GSM | SMS_PROTOCOL_CDMA
  | SMS_PROTOCOL_GW_CB.
Inductive pdu_Encoding_t := PDU_ENCODING_7_BITS | PDU_ENCODING_8_BITS | PDU_ENCODING_16_BITS
  | PDU_ENCODING_UNKNOWN.

Record smsPdu_EncodeMsg_t := mkEncodeMsg {
  em_protocol : sms_Protocol_t;
  msgData : list Z;
  addrData : list Z;
  em_encoding : pdu_Encoding_t;
  em_type : sms_Type_t;
  statusReport : bool }.

Record sms_PduMsg_t := mkPduMsg {
  pm_addr : list Z;
  pm_data : list Z;
  pm_type : sms_Type_t;
  pm_encoding : pdu_Encoding_t }.

Record SmsSizes := mkSmsSizes {
  TAF_SMS_TEXT_LEN : Z;
  TAF_SMS_TEXT_BYTES : Z;
  TAF_SMS_PDU_BYTES : Z;
  TAF_SMS_PDU_PAYLOAD : Z;
  TAF_TYPES_REMOTE_PARTY_NUM_MAX_BYTES : Z }.

Section Codec.
Variable sizes : SmsSizes.
(** [le_hex_StringToBinary(text, len, out, size)]: the bytes it writes. *)
Variable le_hex_StringToBinary : list Z -> Z -> list Z.

(** The number after its ['+']. *)
Definition strip_plus (addr : list Z) : list Z :=
  match addr with c :: rest => if c =? PLUS then rest else addr | [] => [] end.

(** [pduEncodeAddr]: the bytes written at [bufferOut] and the number of digits. The
    local array [number] holds [TAF_TYPES_REMOTE_PARTY_NUM_MAX_BYTES] characters. *)
Definition pduEncodeAddr (addr : list Z) (size : Z) : option (list Z * Z) :=
  let digits := strip_plus addr in
  let number := swap_pairs digits in
  if decide (Z.of_nat (length number) <= TAF_TYPES_REMOTE_PARTY_NUM_MAX_BYTES sizes)
  then Some (le_hex_StringToBinary number size, Z.of_nat (length digits))
  else None.

Definition getDataCodingScheme (smsDcs : Z) : pdu_Encoding_t :=
  let of_bits (b : Z) :=
    if b =? 0 then PDU_ENCODING_7_BITS else if b =? 1 then PDU_ENCODING_8_BITS
    else if b =? 2 then PDU_ENCODING_16_BITS else PDU_ENCODING_UNKNOWN in
  if Z.shiftr smsDcs 4 =? 0xF then of_bits (Z.land (Z.shiftr smsDcs 2) 1)
  else if Z.shiftr smsDcs 6 =? 0 then of_bits (Z.land (Z.shiftr smsDcs 2) 0x3)
  else PDU_ENCODING_UNKNOWN.

(** [memcpy(.., src, len)]. *)
Definition bytes_at (src : list Z) (off len : Z) : option (list Z) :=
  if decide (0 <= off /\ 0 <= len /\ off + len <= Z.of_nat (length src))
  then Some (take (Z.to_nat len) (drop (Z.to_nat off) src)) else None.

Definition pduDecodeUserData (encoding : pdu_Encoding_t) (buffer : list Z) (userDataLen : Z)
    : option (outcome_or_error (list Z)) :=
  match encoding with
  | PDU_ENCODING_7_BITS => pduDecode7BitsTo8Bits buffer userDataLen (TAF_SMS_TEXT_BYTES sizes)
  | PDU_ENCODING_8_BITS | PDU_ENCODING_16_BITS => inr <$> bytes_at buffer 0 userDataLen
  | PDU_ENCODING_UNKNOWN => Some (inr [])
  end.

Definition sms_DecodeDeliver (data : list Z) : option (outcome_or_error sms_PduMsg_t) :=
  smsc ← getb data 0;
  let pos_smsDeliver := u8 (1 + smsc) in
  smsAddrLen ← getb data (u8 (pos_smsDeliver + 1));
  let pos_smsAddr := u8 (pos_smsDeliver + 2) in
  let addrSize := TAF_TYPES_REMOTE_PARTY_NUM_MAX_BYTES sizes + 4 in
  if addrSize <? smsAddrLen + 1 + 1 then Some (inl LE_OVERFLOW) else
  addr ← pduDecodeAddr (drop (Z.to_nat pos_smsAddr) data) smsAddrLen addrSize;
  len' ← getb data (pos_smsDeliver + 1);
  let pos_smsPid := u8 (pos_smsDeliver + 3 + (len' + 1) / 2) in
  let pos_smsDcs := u8 (pos_smsPid + 1) in
  dcs ← getb data pos_smsDcs;
  match getDataCodingScheme dcs with
  | PDU_ENCODING_UNKNOWN => Some (inl LE_UNSUPPORTED)
  | encoding =>
      let pos_dataLen := u8 (pos_smsDcs + 7 + 1) in
      smsUdl ← getb data pos_dataLen;
      if TAF_SMS_TEXT_BYTES sizes <? smsUdl then Some (inl LE_FAULT) else
      let pos_Data := u8 (pos_dataLen + 1) in
      decoded ← pduDecodeUserData encoding (drop (Z.to_nat pos_Data) data) smsUdl;
      Some (inr (mkPduMsg addr
                   (match (decoded : outcome_or_error (list Z)) with
                    | inl _ => [] | inr text => text end) SMS_TYPE_DELIVER encoding))
  end.

Definition sms_DecodeGsm (data : list Z) : option (outcome_or_error sms_PduMsg_t) :=
  smsc ← getb data 0;
  let pos_smsDeliver := u8 (1 + smsc) in
  smsType ← getb data pos_smsDeliver;
  if Z.land smsType 0x03 =? 0x00 then sms_DecodeDeliver data
  else Some (inl LE_UNSUPPORTED).

Definition smsPdu_Decode (protocol : sms_Protocol_t) (data : list Z)
    : option (outcome_or_error sms_PduMsg_t) :=
  match protocol with
  | SMS_PROTOCOL_GSM => sms_DecodeGsm data
  | _ => Some (inl LE_UNSUPPORTED)
  end.

(** ** The encoder *)
Definition pdu_type (sms : smsPdu_EncodeMsg_t) : Z :=
  if statusReport sms then Z.lor (Z.lor 0x01 0x10) 0x20 else Z.lor 0x01 0x10.
Definition tp_dcs (e : pdu_Encoding_t) : option Z :=
  match e with
  | PDU_ENCODING_7_BITS => Some 0x00
  | PDU_ENCODING_8_BITS => Some 0x04
  | PDU_ENCODING_16_BITS => Some 0x08
  | PDU_ENCODING_UNKNOWN => None
  end.

(** [SetByteAtPos] of consecutive bytes. *)
Definition put (buf : list Z) (pos : Z) (bytes : list Z) : option (list Z) :=
  if decide (0 <= pos /\ pos + Z.of_nat (length bytes) <= Z.of_nat (length buf))
  then Some (splice buf pos bytes) else None.

(** The user data: its length octet, then the characters. *)
Definition encode_user_data (sms : smsPdu_EncodeMsg_t) (buf : list Z) (pos : Z)
    : option (outcome_or_error (list Z * Z)) :=
  let msgLen := Z.of_nat (length (msgData sms)) in
  match em_encoding sms with
  | PDU_ENCODING_7_BITS =>
      r ← pduEncode8BitsTo7Bits (take (Z.to_nat (u8 msgLen)) (msgData sms))
            (drop (Z.to_nat (pos + 1)) buf) (TAF_SMS_PDU_PAYLOAD sizes);
      match (r : outcome_or_error (list Z * Z * Z)) with
      | inl _ => Some (inl LE_OVERFLOW)
      | inr (packed, newmsgLen, size) =>
          buf ← put (take (Z.to_nat (pos + 1)) buf ++ packed) pos [newmsgLen];
          Some (inr (buf, u8 (u8 (pos + 1) + size)))
      end
  | _ =>
      if TAF_SMS_PDU_PAYLOAD sizes <? msgLen then Some (inl LE_OVERFLOW) else
      buf ← put buf pos (u8 msgLen :: msgData sms);
      Some (inr (buf, u8 (u8 (pos + 1) + msgLen)))
  end.

Definition sms_EncodeGsm (sms : smsPdu_EncodeMsg_t) : option (outcome_or_error (list Z * Z)) :=
  if TAF_SMS_TEXT_LEN sizes <? Z.of_nat (length (msgData sms)) then Some (inl LE_FAULT) else
  let buf := replicate (Z.to_nat (TAF_SMS_PDU_BYTES sizes)) 0 in
  match em_type sms with
  | SMS_TYPE_SUBMIT =>
      let addrLen := Z.of_nat (length (addrData sms)) in
      if TAF_TYPES_REMOTE_PARTY_NUM_MAX_BYTES sizes <? addrLen then Some (inl LE_FAULT) else
      let plus := match addrData sms with c :: _ => c =? PLUS | [] => false end in
      let addrLen := if plus then addrLen - 1 else addrLen in
      let addrToa := if plus then 0x91 else 0x81 in
      match tp_dcs (em_encoding sms) with
      | None => Some (inl LE_FAULT)
      | Some tpDcs =>
          buf ← put buf 0 [0x00; pdu_type sms; 0x00; u8 addrLen; addrToa];
          '(addr, digits) ← pduEncodeAddr (addrData sms) (TAF_SMS_PDU_BYTES sizes - 5);
          buf ← put buf 5 addr;
          let pos := u8 (5 + (digits + 1) / 2) in
          buf ← put buf pos [0x00; tpDcs; 0xAD];
          encode_user_data sms buf (u8 (pos + 3))
      end
  | _ => Some (inl LE_UNSUPPORTED)
  end.

Definition smsPdu_Encode (sms : smsPdu_EncodeMsg_t) : option (outcome_or_error (list Z * Z)) :=
  match em_protocol sms with
  | SMS_PROTOCOL_GSM => sms_EncodeGsm sms
  | _ => Some (inl LE_UNSUPPORTED)
  end.
End Codec.
