(* ===== verification/DoipTypes.v ===== *)
(** * The DoIP stack: constants, configuration, state and environment

    Constants of [tafDoIPCommon.hpp], [tafDoIPStack.h] and [tafDoIPConnection.hpp]; the
    objects of the stack - the vehicle configuration, the connections and their manager,
    the discovery timer, the sessions of the upper layer - in one state, with the memory
    pools and timers they own; the effects on the rest of the system, and its answers. *)
From stdpp Require Export gmap.
From S2P Require Import Prelude.

#[global] Open Scope Z_scope.
#[global] Open Scope telaf_scope.

(** ** Constants *)
Abbreviation TAF_DOIP_PROTOCOL_VERSION_2010 := 0x1 (only parsing).
Abbreviation TAF_DOIP_PROTOCOL_VERSION_2012 := 0x2 (only parsing).
Abbreviation TAF_DOIP_PROTOCOL_VERSION_2019 := 0x3 (only parsing).
Abbreviation TAF_DOIP_PROTOCOL_VERSION_DEFAULT := 0xFF (only parsing).
Abbreviation TAF_DOIP_VIN_SIZE := 17 (only parsing).
Abbreviation TAF_DOIP_EID_SIZE := 6 (only parsing).
Abbreviation TAF_DOIP_GID_SIZE := 6 (only parsing).
Abbreviation MAX_INF_NUM := 8 (only parsing).
Abbreviation TAF_DOIP_HEADER_GENERIC_LENGTH := 8 (only parsing).
Abbreviation TAF_DOIP_LOGICAL_ADDRESS_LENGTH := 2 (only parsing).
Abbreviation TAF_DOIP_VEHICLE_INFO_MAND_LENGTH := 32 (only parsing).
Abbreviation TAF_DOIP_PAYLOAD_RA_RES_LENGTH := 9 (only parsing).
Abbreviation TAF_DOIP_PAYLOAD_RA_MAND_LEN := 7 (only parsing).
Abbreviation TAF_DOIP_PAYLOAD_RA_ALL_LEN := 11 (only parsing).
Abbreviation TAF_DOIP_ENTITY_STATUS_RES_LENGTH := 7 (only parsing).
Abbreviation TAF_DOIP_POWERMODE_LENGTH := 1 (only parsing).
Abbreviation TAF_DOIP_NACK_CODE_LENGTH := 1 (only parsing).
Abbreviation TAF_DOIP_DIAG_NEGATIVE_ACK_LENGTH := 5 (only parsing).
Abbreviation TAF_DOIP_DIAG_POSITIVE_ACK_LENGTH := 5 (only parsing).
Abbreviation TAF_DOIP_MAX_BUFFER_SIZE := 1500 (only parsing).
Abbreviation TAF_DOIP_MAX_MSG_LEN_EXCEPT_UDS := 41 (only parsing).
Abbreviation TAF_DOIP_BATCH_SIZE := 5 (only parsing).
Abbreviation TAF_DOIP_MCTS_DEFAULT := 10 (only parsing).
Abbreviation TAF_DOIP_MDS_DEFAULT := 4096 (only parsing).
Abbreviation TAF_DOIP_INITIAL_TIMEOUT_DEF := 2000 (only parsing).
Abbreviation TAF_DOIP_GENERAL_TIMEOUT_DEF := 300000 (only parsing).
Abbreviation MIN_ANNOUNCE_WAIT_TIME := 0 (only parsing).
Abbreviation MAX_ANNOUNCE_WAIT_TIME := 500 (only parsing).
Abbreviation TAF_DOIP_NO_FURTHER_ACTION_REQUIRED := 0x00 (only parsing).
Abbreviation TAF_DOIP_FURTHER_ACTION_REQUIRED := 0x10 (only parsing).
Abbreviation TAF_DOIP_DIAGNOSTIC_ACK := 0x00 (only parsing).

(** Payload types of the messages. *)
Abbreviation TAF_DOIP_PAYLOAD_TYPE_HEADER_NEGATIVE_ACK := 0x0000 (only parsing).
Abbreviation TAF_DOIP_PAYLOAD_TYPE_VEHICLE_IDENTIFY_REQUEST := 0x0001 (only parsing).
Abbreviation TAF_DOIP_PAYLOAD_TYPE_VEHICLE_IDENTIFY_REQUEST_EID := 0x0002 (only parsing).
Abbreviation TAF_DOIP_PAYLOAD_TYPE_VEHICLE_IDENTIFY_REQUEST_VIN := 0x0003 (only parsing).
Abbreviation TAF_DOIP_PAYLOAD_TYPE_VEHICLE_ID_RESPONSE := 0x0004 (only parsing).
Abbreviation TAF_DOIP_PAYLOAD_TYPE_ROUTING_ACTIVE_REQUEST := 0x0005 (only parsing).
Abbreviation TAF_DOIP_PAYLOAD_TYPE_ROUTING_ACTIVE_RESPONSE := 0x0006 (only parsing).
Abbreviation TAF_DOIP_PAYLOAD_TYPE_ALIVE_CHECK_REQUEST := 0x0007 (only parsing).
Abbreviation TAF_DOIP_PAYLOAD_TYPE_ALIVE_CHECK_RESPONSE := 0x0008 (only parsing).
Abbreviation TAF_DOIP_PAYLOAD_TYPE_ENTITY_STATUS_REQUEST := 0x4001 (only parsing).
Abbreviation TAF_DOIP_PAYLOAD_TYPE_ENTITY_STATUS_RESPONSE := 0x4002 (only parsing).
Abbreviation TAF_DOIP_PAYLOAD_TYPE_POWER_MODE_INFO_REQUEST := 0x4003 (only parsing).
Abbreviation TAF_DOIP_PAYLOAD_TYPE_POWER_MODE_INFO_RESPONSE := 0x4004 (only parsing).
Abbreviation TAF_DOIP_PAYLOAD_TYPE_DIAGNOSTIC_MESSAGE := 0x8001 (only parsing).
Abbreviation TAF_DOIP_PAYLOAD_TYPE_DIAGNOSTIC_POSITIVE_ACK := 0x8002 (only parsing).
Abbreviation TAF_DOIP_PAYLOAD_TYPE_DIAGNOSTIC_NEGATIVE_ACK := 0x8003 (only parsing).

(** Codes inside the messages: header and diagnostic negative acknowledgements and
    routing-activation responses. *)
Abbreviation TAF_DOIP_HEADER_NACK_INCORRECT_PATTERN_FORMAT := 0x00 (only parsing).
Abbreviation TAF_DOIP_HEADER_NACK_UNKNOWN_PAYLOAD_TYPE := 0x01 (only parsing).
Abbreviation TAF_DOIP_HEADER_NACK_MESSAGE_TOO_LARGE := 0x02 (only parsing).
Abbreviation TAF_DOIP_HEADER_NACK_OUT_OF_MEMORY := 0x03 (only parsing).
Abbreviation TAF_DOIP_HEADER_NACK_INVALID_PAYLOAD_LENGTH := 0x04 (only parsing).
Abbreviation TAF_DOIP_DIAGNOSTIC_NACK_INVALID_SA := 0x02 (only parsing).
Abbreviation TAF_DOIP_DIAGNOSTIC_NACK_UNKNOWN_TA := 0x03 (only parsing).
Abbreviation TAF_DOIP_DIAGNOSTIC_NACK_DIAG_MSG_TOO_LARGE := 0x04 (only parsing).
Abbreviation TAF_DOIP_DIAGNOSTIC_NACK_OUT_OF_MEMORY := 0x05 (only parsing).
Abbreviation TAF_DOIP_DIAGNOSTIC_NACK_TRANS_PROTO_ERROR := 0x08 (only parsing).
Abbreviation TAF_DOIP_RA_RES_UNKNOWN_SOURCE_ADDRESS := 0x00 (only parsing).
Abbreviation TAF_DOIP_RA_RES_ALL_SOCKET_REGISTED_AND_ACTIVE := 0x01 (only parsing).
Abbreviation TAF_DOIP_RA_RES_SA_DIFFERENT_ACTIVATED_SOCKET := 0x02 (only parsing).
Abbreviation TAF_DOIP_RA_RES_SA_REGISTED_DIFFERENT_SOCKET := 0x03 (only parsing).
Abbreviation TAF_DOIP_RA_RES_MISSING_AUTHENTICATION := 0x04 (only parsing).
Abbreviation TAF_DOIP_RA_RES_REJECT_CONFIRMATION := 0x05 (only parsing).
Abbreviation TAF_DOIP_RA_RES_UNSUPPORTED_RA_TYPE := 0x06 (only parsing).
Abbreviation TAF_DOIP_RA_RES_ROUTING_SUCCESSFULLY_ACTIVATED := 0x10 (only parsing).

(** ** Enumerations *)
Inductive taf_doip_Result_t :=
  | TAF_DOIP_RESULT_OK | TAF_DOIP_RESULT_HDR_ERROR | TAF_DOIP_RESULT_TIMEOUT_A
  | TAF_DOIP_RESULT_UNKNOWN_SA | TAF_DOIP_RESULT_INVALID_SA | TAF_DOIP_RESULT_UNKNOWN_TA
  | TAF_DOIP_RESULT_MESSAGE_TOO_LARGE | TAF_DOIP_RESULT_OUT_OF_MEMORY
  | TAF_DOIP_RESULT_TARGET_UNREACHABLE | TAF_DOIP_RESULT_NO_LINK | TAF_DOIP_RESULT_NO_SOCKET
  | TAF_DOIP_RESULT_NOT_INIT | TAF_DOIP_RESULT_NOT_START | TAF_DOIP_RESULT_PARAM_ERROR
  | TAF_DOIP_RESULT_ROUTING_INACTIVE | TAF_DOIP_RESULT_NETWORK_ERROR
  | TAF_DOIP_RESULT_MESSAGE_TOO_SHORT | TAF_DOIP_RESULT_UNSET | TAF_DOIP_RESULT_SA_REGISTERED
  | TAF_DOIP_RESULT_SA_DEREGISTERED | TAF_DOIP_RESULT_ERROR.

Inductive taf_doip_TaType_t := TAF_DOIP_TA_TYPE_PHYSICAL | TAF_DOIP_TA_TYPE_FUNCTIONAL.
Inductive taf_doip_PowerMode_t :=
  | TAF_DOIP_POWER_MODE_NOT_READY | TAF_DOIP_POWER_MODE_READY
  | TAF_DOIP_POWER_MODE_NOT_SUPPORTED.
Inductive taf_doip_UserConfirmResult_t :=
  | TAF_DOIP_USER_CONFIRM_RESULT_REJECT | TAF_DOIP_USER_CONFIRM_RESULT_NO_NEED
  | TAF_DOIP_USER_CONFIRM_RESULT_PASS.
Inductive taf_doip_ConnectState_t :=
  | TAF_DOIP_CONNECT_STATE_LISTEN | TAF_DOIP_CONNECT_STATE_INITIALIZED
  | TAF_DOIP_CONNECT_STATE_REGISTERED_PENDING_FOR_AUTH
  | TAF_DOIP_CONNECT_STATE_REGISTERED_PENDING_FOR_CONF
  | TAF_DOIP_CONNECT_STATE_REGISTERED_ROUTING_ACTIVE | TAF_DOIP_CONNECT_STATE_FINALIZE.
Inductive taf_doip_ConnectType_t :=
  | TAF_DOIP_CONNECTION_TYPE_CLI | TAF_DOIP_CONNECTION_TYPE_SVR.
Inductive taf_doipSockType_t :=
  | TAF_DOIP_SOCKET_TYPE_UNKNOWN | TAF_DOIP_SOCKET_TYPE_TCP
  | TAF_DOIP_SOCKET_TYPE_UDP_UNI | TAF_DOIP_SOCKET_TYPE_UDP_MULTI.
Inductive taf_doipPayloadType_t :=
  | TAF_DOIP_HEADER_NEGATIVE_ACK | TAF_DOIP_VEHICLE_ANNOUNCEMENT
  | TAF_DOIP_VEHICLE_IDENTIFY_RESPONSE | TAF_DOIP_ROUTING_ACTIVE_RESPONSE
  | TAF_DOIP_ALIVE_CHECK_REQUEST | TAF_DOIP_ENTITY_STATUS_RESPONSE
  | TAF_DOIP_POWER_MODE_INFO_RESPONSE | TAF_DOIP_DIAGNOSTIC_POSITIVE_ACK
  | TAF_DOIP_DIAGNOSTIC_NEGATIVE_ACK | TAF_DOIP_DIAGNOSTIC_FROM_ENTITY
  | TAF_DOIP_VEHICLE_IDENTIFY_REQUEST | TAF_DOIP_VEHICLE_IDENTIFY_REQUEST_EID
  | TAF_DOIP_VEHICLE_IDENTIFY_REQUEST_VIN | TAF_DOIP_ROUTING_ACTIVE_REQUEST
  | TAF_DOIP_ALIVE_CHECK_RESPONSE | TAF_DOIP_ENTITY_STATUS_REQUEST
  | TAF_DOIP_POWER_MODE_INFO_REQUEST | TAF_DOIP_DIAGNOSTIC_FROM_EQUIP.
Inductive taf_doipInstanceType_t :=
  | TAF_DOIP_INSTANCE_TYPE_NODE | TAF_DOIP_INSTANCE_TYPE_GATEWAY
  | TAF_DOIP_INSTANCE_TYPE_TESTER | TAF_DOIP_INSTANCE_TYPE_UNKOWN.
Inductive taf_doipState_t :=
  | TAF_DOIP_STATE_INIT | TAF_DOIP_STATE_START | TAF_DOIP_STATE_RUNNING
  | TAF_DOIP_STATE_STOP | TAF_DOIP_STATE_FINAL.

#[export] Instance doip_Result_eq_dec : EqDecision taf_doip_Result_t.
Proof. solve_decision. Defined.
#[export] Instance doip_TaType_eq_dec : EqDecision taf_doip_TaType_t.
Proof. solve_decision. Defined.
#[export] Instance doip_PowerMode_eq_dec : EqDecision taf_doip_PowerMode_t.
Proof. solve_decision. Defined.
#[export] Instance doip_UserConfirm_eq_dec : EqDecision taf_doip_UserConfirmResult_t.
Proof. solve_decision. Defined.
#[export] Instance doip_ConnectState_eq_dec : EqDecision taf_doip_ConnectState_t.
Proof. solve_decision. Defined.
#[export] Instance doip_ConnectType_eq_dec : EqDecision taf_doip_ConnectType_t.
Proof. solve_decision. Defined.
#[export] Instance doip_SockType_eq_dec : EqDecision taf_doipSockType_t.
Proof. solve_decision. Defined.
#[export] Instance doip_Instance_eq_dec : EqDecision taf_doipInstanceType_t.
Proof. solve_decision. Defined.
#[export] Instance doip_State_eq_dec : EqDecision taf_doipState_t.
Proof. solve_decision. Defined.

(** ** Configuration of the vehicle ([taf_doip_Config_t])

    Character arrays that hold text are the bytes before the terminator. *)
Record taf_doip_Config_t := mkDoipConfig {
  vin : list Z;
  eid : list Z;
  gid : list Z;
  entityLA : Z;
  maxSockNum : Z;
  maxDataSize : Z;
  cfgMaxAnnounceCount : Z;
  announceWait : bool;
  announceItrvalTime : Z;
  genInactiveTime : Z;
  initInactiveTime : Z;
  aliveCheckTime : Z;
  authEnableStatus : bool;
  cfgAuthInfo : Z;
  ifaceList : list (string * Z);
  netType : string;
  udpPort : Z;
  tcpPort : Z;
  udpSrc : Z;
  isTLS : bool;
  certFile : string;
  pkFile : string;
  funcGroupList : list Z;
  parseStatus : bool }.

Definition eta_Config (c : taf_doip_Config_t) : taf_doip_Config_t :=
  mkDoipConfig (vin c) (eid c) (gid c) (entityLA c) (maxSockNum c) (maxDataSize c)
    (cfgMaxAnnounceCount c) (announceWait c) (announceItrvalTime c) (genInactiveTime c)
    (initInactiveTime c) (aliveCheckTime c) (authEnableStatus c) (cfgAuthInfo c) (ifaceList c)
    (netType c) (udpPort c) (tcpPort c) (udpSrc c) (isTLS c) (certFile c) (pkFile c)
    (funcGroupList c) (parseStatus c).
#[export] Instance set_vin : Field vin := ltac:(field_of eta_Config).
#[export] Instance set_eid : Field eid := ltac:(field_of eta_Config).
#[export] Instance set_gid : Field gid := ltac:(field_of eta_Config).
#[export] Instance set_entityLA : Field entityLA := ltac:(field_of eta_Config).
#[export] Instance set_maxDataSize : Field maxDataSize := ltac:(field_of eta_Config).

(** ** Messages and connections *)
Record taf_doipHeader_t := mkHeader {
  protocolVer : Z;
  invProtocolVer : Z;
  payloadType : Z;
  payloadLen : Z }.

Record taf_doip_AddrInfo_t := mkDoipAddr {
  dsa : Z;
  dta : Z;
  dtaType : taf_doip_TaType_t;
  dvlanId : Z;
  difName : string }.

Record taf_doip_Buffer_t := mkBuffer {
  data : list Z;
  dataSize : Z;
  dataPos : Z }.

Definition eta_Buffer (b : taf_doip_Buffer_t) : taf_doip_Buffer_t :=
  mkBuffer (data b) (dataSize b) (dataPos b).
#[export] Instance set_data : Field data := ltac:(field_of eta_Buffer).
#[export] Instance set_dataSize : Field dataSize := ltac:(field_of eta_Buffer).
#[export] Instance set_dataPos : Field dataPos := ltac:(field_of eta_Buffer).

(** Sockets, connection objects and memory blocks are named by numbers. A timer of a
    connection is named by the object and its role; [Wild] is a timer reference that nobody
    has set. *)
Inductive ConnTimer := InitialTimer | GeneralTimer | AliveCheckTimer.
Inductive TimerRef :=
  | ConnT (conn : Z) (k : ConnTimer) | WaitTimer | ShutdownTimer | Wild.

#[export] Instance ConnTimer_eq_dec : EqDecision ConnTimer.
Proof. solve_decision. Defined.
#[export] Instance TimerRef_eq_dec : EqDecision TimerRef.
Proof. solve_decision. Defined.

Record Connection := mkConnection {
  cliSockRef : Z;
  remoteIp : string;
  remotePort : Z;
  connType : taf_doip_ConnectType_t;
  localIface : string;
  connState : taf_doip_ConnectState_t;
  testerSA : Z;
  entitySA : Z;
  raTesterSa : Z;
  authInfo : Z;
  allAliveCheckFlag : bool;
  singleAliveCheckFlag : bool;
  routingConnectionPtr : option Z;
  isConsuming : bool;
  initialTimerRef : option TimerRef;
  generalTimerRef : option TimerRef;
  aliveCheckTimerRef : option TimerRef;
  inBuf : option Z;
  udsBuf : option Z;
  udsTotalLen : Z;
  udsReceived : Z }.

Definition eta_Connection (c : Connection) : Connection :=
  mkConnection (cliSockRef c) (remoteIp c) (remotePort c) (connType c) (localIface c)
    (connState c) (testerSA c) (entitySA c) (raTesterSa c) (authInfo c) (allAliveCheckFlag c)
    (singleAliveCheckFlag c) (routingConnectionPtr c) (isConsuming c) (initialTimerRef c)
    (generalTimerRef c) (aliveCheckTimerRef c) (inBuf c) (udsBuf c) (udsTotalLen c)
    (udsReceived c).
#[export] Instance set_connState : Field connState := ltac:(field_of eta_Connection).
#[export] Instance set_testerSA : Field testerSA := ltac:(field_of eta_Connection).
#[export] Instance set_entitySA : Field entitySA := ltac:(field_of eta_Connection).
#[export] Instance set_raTesterSa : Field raTesterSa := ltac:(field_of eta_Connection).
#[export] Instance set_authInfo : Field authInfo := ltac:(field_of eta_Connection).
#[export] Instance set_allAliveCheckFlag : Field allAliveCheckFlag :=
  ltac:(field_of eta_Connection).
#[export] Instance set_singleAliveCheckFlag : Field singleAliveCheckFlag :=
  ltac:(field_of eta_Connection).
#[export] Instance set_routingConnectionPtr : Field routingConnectionPtr :=
  ltac:(field_of eta_Connection).
#[export] Instance set_isConsuming : Field isConsuming := ltac:(field_of eta_Connection).
#[export] Instance set_initialTimerRef : Field initialTimerRef := ltac:(field_of eta_Connection).
#[export] Instance set_generalTimerRef : Field generalTimerRef := ltac:(field_of eta_Connection).
#[export] Instance set_aliveCheckTimerRef : Field aliveCheckTimerRef :=
  ltac:(field_of eta_Connection).
#[export] Instance set_inBuf : Field inBuf := ltac:(field_of eta_Connection).
#[export] Instance set_udsBuf : Field udsBuf := ltac:(field_of eta_Connection).
#[export] Instance set_udsTotalLen : Field udsTotalLen := ltac:(field_of eta_Connection).
#[export] Instance set_udsReceived : Field udsReceived := ltac:(field_of eta_Connection).

(** Where a message goes ([taf_doipLink_t]). *)
Record taf_doipLink_t := mkLink {
  sockRef : option Z;
  ip : string;
  port : Z;
  commType : taf_doipSockType_t }.

(** A diagnostic message on its way between the threads ([taf_doipDiagDataInfo_t]); [idata]
    is the block that holds it. *)
Record taf_doipDiagDataInfo_t := mkDiagInfo {
  isa : Z;
  ita : Z;
  itaType : taf_doip_TaType_t;
  idata : option Z;
  ilen : Z;
  ivlanId : Z;
  iifName : string }.

(** A session of the upper layer ([taf_doipSession_t]): whether its handlers are set. *)
Record taf_doipSession_t := mkSession {
  logicalSrcAddr : Z;
  diagIndicationHandler : bool;
  diagConfirmHandler : bool;
  userConfirmHandler : bool;
  pmQueryhandler : bool }.

Record taf_doip_IPInfo_t := mkIPInfo {
  ipv4_s_addr : Z;
  ipv4_mask_s_addr : Z;
  localIp : string }.

(** ** Effects *)
Inductive TimerOp :=
  | TimerCreate
  | TimerSetMsInterval (ms : Z)
  | TimerSetRepeat (n : Z)
  | TimerStart
  | TimerStop
  | TimerRestart
  | TimerDelete.

Inductive DEffect :=
  | SocketSend (sock : Z) (bytes : list Z)                          (* le_socket_Send *)
  | SocketSendTo (sock : option Z) (bytes : list Z) (ip : string) (port : Z)
  | SocketRead (sock : Z) (room : Z)                                (* le_socket_Read *)
  | SocketCreate (localPort : Z) (local : string)
  | SocketDelete (sock : option Z)
  | SocketShutdown (sock : Z)
  | SocketSetup (sock : option Z) (what : string)
  | DTimer (t : TimerRef) (op : TimerOp)
  | QueueConsume (sock : Z)                       (* ConsumeTCPData, in the same thread *)
  | QueueIndicateUds (info : taf_doipDiagDataInfo_t)        (* to the UDS thread *)
  | QueueConnectionEvent (info : taf_doipDiagDataInfo_t) (result : taf_doip_Result_t)
  | QueueConfirmUser (info : taf_doipDiagDataInfo_t)
  | QueueRequestUds (info : taf_doipDiagDataInfo_t)         (* to the main thread *)
  | StatusReport (result : taf_doip_Result_t) (clientAddr entityAddr vlan : Z) (ifc : string)
  | DiagIndication (a : taf_doip_AddrInfo_t) (msg : option (list Z)) (result : taf_doip_Result_t)
  | DiagConfirm (sa ta : Z) (taType : taf_doip_TaType_t)
  | UserConfirmCall (sa ta : Z)
  | PowerModeCall (session : Z)
  | StoreVin (vin : list Z).

(** ** The state of the stack *)
Record Stack := mkStack {
  doipConfigPtr : option taf_doip_Config_t;
  connectionBox : list Z;
  conns : gmap Z Connection;
  inPool : gmap Z taf_doip_Buffer_t;
  udsPool : gmap Z (list Z);
  udsObjectSize : Z;
  nextId : Z;
  liveTimers : list TimerRef;
  aliveCheckNcts : Z;
  commState : taf_doipState_t;
  instanceType : taf_doipInstanceType_t;
  udpDiscoverSockRef : option Z;
  udpEquipSockRef : list (option Z);
  tcpDataSockRef : list (option Z);
  localIpInfo : list taf_doip_IPInfo_t;
  udpDataBuffer : option (list Z);
  udpDataLen : Z;
  doipSessions : list taf_doipSession_t;
  waitTimerRef : option TimerRef;
  announceCount : Z;
  maxAnnounceCount : Z;
  dtrace : list DEffect }.

Definition eta_Stack (s : Stack) : Stack :=
  mkStack (doipConfigPtr s) (connectionBox s) (conns s) (inPool s) (udsPool s)
    (udsObjectSize s) (nextId s) (liveTimers s) (aliveCheckNcts s) (commState s)
    (instanceType s) (udpDiscoverSockRef s) (udpEquipSockRef s) (tcpDataSockRef s)
    (localIpInfo s) (udpDataBuffer s) (udpDataLen s) (doipSessions s) (waitTimerRef s)
    (announceCount s) (maxAnnounceCount s) (dtrace s).
#[export] Instance set_doipConfigPtr : Field doipConfigPtr := ltac:(field_of eta_Stack).
#[export] Instance set_connectionBox : Field connectionBox := ltac:(field_of eta_Stack).
#[export] Instance set_conns : Field conns := ltac:(field_of eta_Stack).
#[export] Instance set_inPool : Field inPool := ltac:(field_of eta_Stack).
#[export] Instance set_udsPool : Field udsPool := ltac:(field_of eta_Stack).
#[export] Instance set_udsObjectSize : Field udsObjectSize := ltac:(field_of eta_Stack).
#[export] Instance set_nextId : Field nextId := ltac:(field_of eta_Stack).
#[export] Instance set_liveTimers : Field liveTimers := ltac:(field_of eta_Stack).
#[export] Instance set_aliveCheckNcts : Field aliveCheckNcts := ltac:(field_of eta_Stack).
#[export] Instance set_commState : Field commState := ltac:(field_of eta_Stack).
#[export] Instance set_udpDiscoverSockRef : Field udpDiscoverSockRef := ltac:(field_of eta_Stack).
#[export] Instance set_udpEquipSockRef : Field udpEquipSockRef := ltac:(field_of eta_Stack).
#[export] Instance set_tcpDataSockRef : Field tcpDataSockRef := ltac:(field_of eta_Stack).
#[export] Instance set_localIpInfo : Field localIpInfo := ltac:(field_of eta_Stack).
#[export] Instance set_udpDataBuffer : Field udpDataBuffer := ltac:(field_of eta_Stack).
#[export] Instance set_udpDataLen : Field udpDataLen := ltac:(field_of eta_Stack).
#[export] Instance set_doipSessions : Field doipSessions := ltac:(field_of eta_Stack).
#[export] Instance set_waitTimerRef : Field waitTimerRef := ltac:(field_of eta_Stack).
#[export] Instance set_announceCount : Field announceCount := ltac:(field_of eta_Stack).
#[export] Instance set_maxAnnounceCount : Field maxAnnounceCount := ltac:(field_of eta_Stack).
#[export] Instance set_dtrace : Field dtrace := ltac:(field_of eta_Stack).

(** ** The environment

    What the socket library, the timers, the memory pools, the operating system and the
    handlers of the upper layer answer; each answer may depend on everything done before.
    [garbage] is the value of a member that the constructor leaves unset. *)
Record IfAddr := mkIfAddr {
  ifa_name : string;
  ifa_running : bool;                      (* IFF_UP and IFF_RUNNING *)
  ifa_in6 : option (list Z);               (* the sixteen bytes of an AF_INET6 address *)
  ifa_netmask6 : option (list Z);
  ifa_text : string }.

Record DEnv := mkDEnv {
  timer_running : list DEffect -> TimerRef -> bool;
  socket_send : list DEffect -> le_result_t;
  socket_read : list DEffect -> option (list Z);
  socket_setup : list DEffect -> le_result_t;
  socket_create : list DEffect -> option Z;
  uds_pool_free : list DEffect -> bool;
  user_confirm : list DEffect -> taf_doip_UserConfirmResult_t;
  power_mode : list DEffect -> taf_doip_PowerMode_t;
  rand_between : list DEffect -> Z -> Z -> Z;
  vlan_config : list DEffect -> option (list (string * option Z));
  hex_binary : list Z -> option (list Z);
  inet_pton4 : string -> option Z;
  inet_pton6 : string -> option (list Z);
  ifaddrs : list DEffect -> option (list IfAddr);
  garbage : list DEffect -> Z }.

(** ** Primitive steps *)
Definition emit (e : DEffect) : M Stack unit := modify (fun s => s <| dtrace := dtrace s ++ [e] |>).
Definition assign_ {T} (p : Stack -> T) `{!Field p} (v : T) : M Stack unit :=
  modify (fun s => s <| p := v |>).
Notation "p ::= v" := (assign_ p v) (at level 90, v at level 89) : telaf_scope.

(** [c->p] and [c->p = v] for a connection object [c]. *)
Definition cget {T} (c : Z) (p : Connection -> T) : M Stack T :=
  s ← get; x ← demand (conns s !! c) NullDeref; mret (p x).
Definition cset {T} (c : Z) (p : Connection -> T) `{!Field p} (v : T) : M Stack unit :=
  s ← get; x ← demand (conns s !! c) NullDeref; conns ::= <[c := x <| p := v |>]> (conns s).

(** A fresh name for an object or a block. *)
Definition fresh : M Stack Z := s ← get; nextId ::= nextId s + 1;; mret (nextId s).

(** [le_timer_xxx(t)]: a null or deleted timer reference is an error. *)
Definition timer_ref (t : option TimerRef) : M Stack TimerRef :=
  r ← demand t NullDeref; s ← get;
  if bool_decide (r ∈ liveTimers s) then mret r else raise UseAfterFree.
Definition timer (t : option TimerRef) (op : TimerOp) : M Stack unit :=
  r ← timer_ref t; emit (DTimer r op).
Definition timer_create (r : TimerRef) : M Stack TimerRef :=
  s ← get; liveTimers ::= r :: liveTimers s;; emit (DTimer r TimerCreate);; mret r.
Definition timer_delete (t : option TimerRef) : M Stack unit :=
  r ← timer_ref t; s ← get;
  liveTimers ::= filter (fun x => x <> r) (liveTimers s);; emit (DTimer r TimerDelete).

(** [le_mem_Release] of a block of the two pools. *)
Definition release_in (b : Z) : M Stack unit :=
  s ← get; _ ← demand (inPool s !! b) UseAfterFree; inPool ::= delete b (inPool s).
Definition release_uds (b : Z) : M Stack unit :=
  s ← get; _ ← demand (udsPool s !! b) UseAfterFree; udsPool ::= delete b (udsPool s).

(** The members of a reception buffer. *)
Definition buf_get {T} (b : Z) (p : taf_doip_Buffer_t -> T) : M Stack T :=
  s ← get; x ← demand (inPool s !! b) UseAfterFree; mret (p x).
Definition buf_set {T} (b : Z) (p : taf_doip_Buffer_t -> T) `{!Field p} (v : T) : M Stack unit :=
  s ← get; x ← demand (inPool s !! b) UseAfterFree; inPool ::= <[b := x <| p := v |>]> (inPool s).

(** The bytes [b[i .. i+len-1]] of an array. *)
Definition bytes_at (b : list Z) (i len : Z) : M Stack (list Z) :=
  if decide (0 <= i /\ 0 <= len /\ i + len <= Z.of_nat (length b))
  then mret (take (Z.to_nat len) (drop (Z.to_nat i) b)) else raise OutOfBounds.
(** A 16-bit and a 32-bit field in network byte order. *)
Definition read16 (b : list Z) (i : Z) : M Stack Z :=
  hi ← demand (at_ b i) OutOfBounds; lo ← demand (at_ b (i + 1)) OutOfBounds; mret (be16 hi lo).
Definition read32 (b : list Z) (i : Z) : M Stack Z :=
  hi ← read16 b i; lo ← read16 b (i + 2); mret (hi * 65536 + lo).
Definition net16 (z : Z) : list Z := [byte_at 1 z; byte_at 0 z].
Definition net32 (z : Z) : list Z := [byte_at 3 z; byte_at 2 z; byte_at 1 z; byte_at 0 z].
(** The bytes of a 32-bit value as a little-endian machine stores it. *)
Definition host32 (z : Z) : list Z := [byte_at 0 z; byte_at 1 z; byte_at 2 z; byte_at 3 z].

(** An array of [size] bytes, filled from its start by [memcpy]s, that is sent as a whole. *)
Definition filled (size : Z) (b : list Z) : M Stack (list Z) :=
  if size <? Z.of_nat (length b) then raise OutOfBounds
  else if Z.of_nat (length b) <? size then raise Uninitialised else mret b.
