(* ===== verification/DoipVehicle.v ===== *)
(** * The DoIP stack: the vehicle manager ([tafDoIPVehicleMgr.cpp])

    Getters and setters of the configuration. The parser of the configuration file is not
    modelled: the configuration is what it leaves in the object. A getter that fails leaves
    its destination unset, which is [None] here. *)
From S2P Require Import Prelude DoipTypes.

(** ** Text *)
Definition COLON : Z := 58.

(** [RemoveColon]. *)
Fixpoint RemoveColon (id : list Z) : list Z :=
  match id with
  | [] => []
  | c :: id' => if negb (c =? COLON) then c :: RemoveColon id' else RemoveColon id'
  end.

Fixpoint CheckVIN (vinPtr : list Z) : le_result_t :=
  match vinPtr with
  | [] => LE_OK
  | c :: vinPtr' =>
      if ((65 <=? c) && (c <=? 72)) || ((74 <=? c) && (c <=? 78)) || (c =? 80)
         || ((82 <=? c) && (c <=? 90)) || ((48 <=? c) && (c <=? 57))
      then CheckVIN vinPtr' else LE_FAULT
  end.

Section Vehicle.
Variable env : DEnv.

(** ** Getters *)

(** The getters that need a parsed configuration. *)
Definition parsed {T} (p : taf_doip_Config_t -> T) : M Stack (option T) :=
  s ← get;
  mret (match doipConfigPtr s with
        | Some c => if parseStatus c then Some (p c) else None
        | None => None
        end).

Definition GetProtocolVersion : M Stack Z :=
  s ← get; c ← demand (doipConfigPtr s) NullDeref;
  mret (if negb (isTLS c) then TAF_DOIP_PROTOCOL_VERSION_2012 else TAF_DOIP_PROTOCOL_VERSION_2019).

Definition GetEid : M Stack (option (list Z)) :=
  s ← get; mret (eid <$> doipConfigPtr s).
Definition GetGid : M Stack (option (list Z)) :=
  s ← get; mret (gid <$> doipConfigPtr s).

Definition GetMaxConcurrentSockNum : M Stack (option Z) := parsed maxSockNum.
Definition GetMaxDataSize : M Stack (option Z) := parsed maxDataSize.
Definition GetMaxAnnounceCount : M Stack (option Z) := parsed cfgMaxAnnounceCount.
Definition GetAnnounceWait : M Stack bool := r ← parsed announceWait; mret (default false r).
Definition GetAnnounceIntervalTime : M Stack (option Z) := parsed announceItrvalTime.
Definition GetGenInactivityTime : M Stack (option Z) := parsed genInactiveTime.
Definition GetInitialInactivityTime : M Stack (option Z) := parsed initInactiveTime.
Definition GetAliveCheckTime : M Stack (option Z) := parsed aliveCheckTime.
Definition GetEntityLogicalAddr : M Stack (option Z) := r ← parsed entityLA; mret (wrap 16 <$> r).
Definition GetAuthEnableStatus : M Stack bool :=
  s ← get; mret (default false (authEnableStatus <$> doipConfigPtr s)).
Definition GetAuthInfo : M Stack (option Z) := parsed cfgAuthInfo.
Definition GetNetType : M Stack (option string) := parsed netType.
Definition GetTcpPort : M Stack (option Z) := parsed tcpPort.
Definition GetUdpPort : M Stack (option Z) := parsed udpPort.
Definition GetUdpSrcPort : M Stack (option Z) := parsed udpSrc.
Definition GetTLSFlag : M Stack (option bool) := parsed isTLS.
Definition GetTLSCertFile : M Stack (option string) := parsed certFile.
Definition GetTLSPKFile : M Stack (option string) := parsed pkFile.

Definition GetVin : M Stack (option (list Z)) :=
  s ← get;
  mret (match doipConfigPtr s with
        | Some c => if bool_decide (vin c = []) then None else Some (vin c)
        | None => None
        end).

Definition IsFunctionalAddress (logicalAddr : Z) : M Stack bool :=
  s ← get;
  mret (match doipConfigPtr s with
        | Some c => bool_decide (logicalAddr ∈ funcGroupList c)
        | None => false
        end).

Definition GetIfaceList : M Stack (option (list (string * Z))) :=
  s ← get; mret (ifaceList <$> doipConfigPtr s).

(** ** Setters *)
Definition set_config (f : taf_doip_Config_t -> taf_doip_Config_t) : M Stack taf_doip_Result_t :=
  s ← get;
  match doipConfigPtr s with
  | Some c => doipConfigPtr ::= Some (f c);; mret TAF_DOIP_RESULT_OK
  | None => mret TAF_DOIP_RESULT_ERROR
  end.

(** [le_hex_StringToBinary] into an array: the array stays as it is when the text is not a
    hexadecimal number of that many bytes. *)
Definition to_binary (text old : list Z) : list Z := default old (hex_binary env text).

Definition SetEid (eidPtr : list Z) : M Stack taf_doip_Result_t :=
  let eidOut := RemoveColon eidPtr in
  if negb (Z.of_nat (length eidOut) =? TAF_DOIP_EID_SIZE * 2)
  then mret TAF_DOIP_RESULT_OUT_OF_MEMORY
  else set_config (fun c => c <| eid := to_binary eidOut (eid c) |>).

(** The text that is converted is the argument, with its colons. *)
Definition SetGid (gidPtr : list Z) : M Stack taf_doip_Result_t :=
  let gidOut := RemoveColon gidPtr in
  if negb (Z.of_nat (length gidOut) =? TAF_DOIP_GID_SIZE * 2)
  then mret TAF_DOIP_RESULT_OUT_OF_MEMORY
  else set_config (fun c => c <| gid := to_binary gidPtr (gid c) |>).

Definition SetEntityLogicalAddr (la : Z) : M Stack taf_doip_Result_t :=
  set_config (fun c => c <| entityLA := la |>).

Definition SetVinInStorage (vinPtr : list Z) : M Stack taf_doip_Result_t :=
  if negb (Z.of_nat (length vinPtr) =? TAF_DOIP_VIN_SIZE) then mret TAF_DOIP_RESULT_PARAM_ERROR else
  if negb (bool_decide (CheckVIN vinPtr = LE_OK)) then mret TAF_DOIP_RESULT_PARAM_ERROR else
  emit (StoreVin vinPtr);; mret TAF_DOIP_RESULT_OK.

Definition SetVin (vinPtr : list Z) : M Stack taf_doip_Result_t :=
  if negb (Z.of_nat (length vinPtr) =? TAF_DOIP_VIN_SIZE) then mret TAF_DOIP_RESULT_PARAM_ERROR else
  ret ← SetVinInStorage vinPtr;
  if negb (bool_decide (ret = TAF_DOIP_RESULT_OK)) then mret ret else
  s ← get;
  match doipConfigPtr s with
  | Some c => doipConfigPtr ::= Some (c <| vin := vinPtr |>);; mret TAF_DOIP_RESULT_OK
  | None => mret TAF_DOIP_RESULT_OK
  end.
End Vehicle.
