(* ===== verification/DoipSend.v ===== *)
(** * The DoIP stack: sending messages

    [ProtocolParser] of [tafDoIPVehDiscoveryAndParser.cpp], which builds every message, and
    the calls below it: [CommunicationMgr::SendTCPData] and [SendUDPData], the search for the
    connection of a socket, and [Connection::SendTCPData]. *)
From S2P Require Import Prelude DoipTypes DoipVehicle.

Section Send.
Variable env : DEnv.

(** ** TCP *)

(** The first connection of the box that satisfies [p]. *)
Fixpoint find_in (p : Connection -> bool) (box : list Z) : M Stack (option Z) :=
  match box with
  | [] => mret None
  | c :: box' =>
      x ← cget c (fun x => x);
      if p x then mret (Some c) else find_in p box'
  end.

Definition FindConnectionBySocket (sock : Z) : M Stack (option Z) :=
  s ← get; find_in (fun x => cliSockRef x =? sock) (connectionBox s).

Definition is_running (t : option TimerRef) : M Stack bool :=
  r ← timer_ref t; s ← get; mret (timer_running env (dtrace s) r).

Definition Connection_SendTCPData (c : Z) (buffer : list Z) : M Stack taf_doip_Result_t :=
  if bool_decide (buffer = []) then mret TAF_DOIP_RESULT_PARAM_ERROR else
  t ← cget c generalTimerRef;
  running ← is_running t;
  when running (timer t TimerRestart);;
  sock ← cget c cliSockRef;
  emit (SocketSend sock buffer);;
  s ← get;
  mret (if bool_decide (socket_send env (dtrace s) = LE_OK) then TAF_DOIP_RESULT_OK
        else TAF_DOIP_RESULT_ERROR).

Definition SendDiagMessage (c : Z) (buffer : list Z) : M Stack taf_doip_Result_t :=
  st ← cget c connState;
  if negb (bool_decide (st = TAF_DOIP_CONNECT_STATE_REGISTERED_ROUTING_ACTIVE))
  then mret TAF_DOIP_RESULT_ROUTING_INACTIVE
  else Connection_SendTCPData c buffer.

(** [CommunicationMgr::SendTCPData]; [SendDoipMessage] sends the copy it makes. *)
Definition SendTCPData (sock : option Z) (messagePtr : list Z) : M Stack taf_doip_Result_t :=
  match sock with
  | None => mret TAF_DOIP_RESULT_PARAM_ERROR
  | Some sock =>
      let len := Z.of_nat (length messagePtr) in
      if (len =? 0) || (TAF_DOIP_MAX_BUFFER_SIZE <=? len) then mret TAF_DOIP_RESULT_PARAM_ERROR else
      connection ← FindConnectionBySocket sock;
      match connection with
      | None => mret TAF_DOIP_RESULT_ERROR
      | Some c => Connection_SendTCPData c messagePtr;; mret TAF_DOIP_RESULT_OK
      end
  end.

(** ** UDP *)
Definition lower (c : Ascii.ascii) : Ascii.ascii :=
  let n := Ascii.nat_of_ascii c in
  if Nat.leb 65 n && Nat.leb n 90 then Ascii.ascii_of_nat (n + 32) else c.
Fixpoint lower_string (t : string) : string :=
  match t with EmptyString => EmptyString | String.String c t' => String.String (lower c) (lower_string t') end.

(** [!strncasecmp(netType, "IPv4", 4)]. *)
Definition is_ipv4 (t : string) : bool := String.prefix "ipv4" (lower_string t).

Fixpoint local_of (infos : list taf_doip_IPInfo_t) (src : Z) : option string :=
  match infos with
  | [] => None
  | i :: infos' =>
      if Z.land src (ipv4_mask_s_addr i) =? Z.land (ipv4_s_addr i) (ipv4_mask_s_addr i)
      then Some (localIp i) else local_of infos' src
  end.
Definition GetLocalIPv4FromSource (src : Z) : M Stack (option string) :=
  s ← get; mret (local_of (localIpInfo s) src).

(** The first eight bytes of the addresses agree under the mask. *)
Definition same_network (src addr mask : list Z) : bool :=
  forallb (fun k => Z.land (nth k src 0) (nth k mask 0) =? Z.land (nth k addr 0) (nth k mask 0))
    (seq 0 8).
Definition ifa_matches (src : list Z) (i : IfAddr) : bool :=
  match ifa_in6 i, ifa_netmask6 i with
  | Some addr, Some mask => ifa_running i && same_network src addr mask
  | _, _ => false
  end.
Definition GetLocalIPv6FromSource (src : list Z) : M Stack (option string) :=
  s ← get;
  mret (l ← ifaddrs env (dtrace s);
        ifa_text <$> head (filter (fun i => ifa_matches src i = true) l)).

Definition SendUDPData (desIp : string) (desPort : Z) (messagePtr : list Z)
    : M Stack taf_doip_Result_t :=
  if bool_decide (messagePtr = []) then mret TAF_DOIP_RESULT_PARAM_ERROR else
  local ← (match inet_pton4 env desIp with
           | Some src => GetLocalIPv4FromSource src
           | None => match inet_pton6 env desIp with
                     | Some src => GetLocalIPv6FromSource src
                     | None => mret None
                     end
           end);
  match local with
  | None => mret TAF_DOIP_RESULT_ERROR
  | Some local =>
      ret ← GetUdpSrcPort;
      let localPort := default 0 ret in
      emit (SocketCreate localPort local);;
      s ← get;
      match socket_create env (dtrace s) with
      | None => mret TAF_DOIP_RESULT_NETWORK_ERROR
      | Some snd =>
          when (negb (localPort =? 0)) (emit (SocketSetup (Some snd) "bind"));;
          emit (SocketSetup (Some snd) "timeout");;
          emit (SocketSendTo (Some snd) messagePtr desIp desPort);;
          s ← get;
          let sent := socket_send env (dtrace s) in
          emit (SocketDelete (Some snd));;
          mret (if bool_decide (sent = LE_OK) then TAF_DOIP_RESULT_OK
                else TAF_DOIP_RESULT_NETWORK_ERROR)
      end
  end.

Definition TAF_DOIP_UDP_BROADCAST_IP : string := "255.255.255.255".
Definition TAF_DOIP_UDP6_BROADCAST_IP : string := "FF02::1".

Fixpoint send_each (socks : list (option Z)) (messagePtr : list Z) (udpDiscoveryPort : Z)
    : M Stack taf_doip_Result_t :=
  match socks with
  | [] => mret TAF_DOIP_RESULT_OK
  | None :: socks' => send_each socks' messagePtr udpDiscoveryPort
  | Some sock :: socks' =>
      emit (SocketSendTo (Some sock) messagePtr TAF_DOIP_UDP_BROADCAST_IP udpDiscoveryPort);;
      s ← get;
      if negb (bool_decide (socket_send env (dtrace s) = LE_OK))
      then mret TAF_DOIP_RESULT_NETWORK_ERROR
      else send_each socks' messagePtr udpDiscoveryPort
  end.

Definition SendUDPMulticast (messagePtr : list Z) : M Stack taf_doip_Result_t :=
  if bool_decide (messagePtr = []) then mret TAF_DOIP_RESULT_PARAM_ERROR else
  netType ← GetNetType; netType ← demand netType Uninitialised;
  udpDiscoveryPort ← GetUdpPort; udpDiscoveryPort ← demand udpDiscoveryPort Uninitialised;
  s ← get;
  if is_ipv4 netType then send_each (udpEquipSockRef s) messagePtr udpDiscoveryPort
  else
    emit (SocketSendTo (udpDiscoverSockRef s) messagePtr TAF_DOIP_UDP6_BROADCAST_IP udpDiscoveryPort);;
    s ← get;
    mret (if bool_decide (socket_send env (dtrace s) = LE_OK) then TAF_DOIP_RESULT_OK
          else TAF_DOIP_RESULT_NETWORK_ERROR).

(** ** The protocol parser *)
Definition PackGenericHeader (payloadType payloadLen : Z) : M Stack (list Z) :=
  protocolVer ← GetProtocolVersion;
  let invProtocolVer := u8 (Z.lnot protocolVer) in
  mret ([protocolVer; invProtocolVer] ++ net16 payloadType ++ net32 payloadLen).

Definition over_tcp (linkPtr : taf_doipLink_t) (dataPtr : list Z) : M Stack taf_doip_Result_t :=
  if bool_decide (commType linkPtr = TAF_DOIP_SOCKET_TYPE_TCP)
  then SendTCPData (sockRef linkPtr) dataPtr;; mret TAF_DOIP_RESULT_OK
  else mret TAF_DOIP_RESULT_ERROR.
Definition over_unicast (linkPtr : taf_doipLink_t) (dataPtr : list Z) : M Stack taf_doip_Result_t :=
  if bool_decide (commType linkPtr = TAF_DOIP_SOCKET_TYPE_UDP_UNI)
  then SendUDPData (ip linkPtr) (port linkPtr) dataPtr;; mret TAF_DOIP_RESULT_OK
  else mret TAF_DOIP_RESULT_ERROR.
Definition over_multicast (linkPtr : taf_doipLink_t) (dataPtr : list Z) : M Stack taf_doip_Result_t :=
  if bool_decide (commType linkPtr = TAF_DOIP_SOCKET_TYPE_UDP_MULTI)
  then SendUDPMulticast dataPtr;; mret TAF_DOIP_RESULT_OK
  else mret TAF_DOIP_RESULT_ERROR.

Definition SendDoIPMsg (linkPtr : taf_doipLink_t) (ty : taf_doipPayloadType_t) (dataPtr : list Z)
    : M Stack taf_doip_Result_t :=
  match ty with
  | TAF_DOIP_HEADER_NEGATIVE_ACK =>
      match commType linkPtr with
      | TAF_DOIP_SOCKET_TYPE_TCP => over_tcp linkPtr dataPtr
      | TAF_DOIP_SOCKET_TYPE_UDP_MULTI => over_multicast linkPtr dataPtr
      | TAF_DOIP_SOCKET_TYPE_UDP_UNI => over_unicast linkPtr dataPtr
      | TAF_DOIP_SOCKET_TYPE_UNKNOWN => mret TAF_DOIP_RESULT_ERROR
      end
  | TAF_DOIP_VEHICLE_ANNOUNCEMENT => over_multicast linkPtr dataPtr
  | TAF_DOIP_VEHICLE_IDENTIFY_RESPONSE => over_unicast linkPtr dataPtr
  | TAF_DOIP_ROUTING_ACTIVE_RESPONSE => over_tcp linkPtr dataPtr
  | TAF_DOIP_ALIVE_CHECK_REQUEST => over_tcp linkPtr dataPtr
  | TAF_DOIP_ALIVE_CHECK_RESPONSE => over_tcp linkPtr dataPtr
  | TAF_DOIP_POWER_MODE_INFO_RESPONSE => over_unicast linkPtr dataPtr
  | TAF_DOIP_ENTITY_STATUS_RESPONSE => over_unicast linkPtr dataPtr
  | TAF_DOIP_DIAGNOSTIC_POSITIVE_ACK => over_tcp linkPtr dataPtr
  | TAF_DOIP_DIAGNOSTIC_NEGATIVE_ACK => over_tcp linkPtr dataPtr
  | _ => mret TAF_DOIP_RESULT_OK
  end.

(** A message of a payload type: its header and the fields that fill [len] bytes. *)
Definition message (payloadType len : Z) (fields : list Z) : M Stack (list Z) :=
  header ← PackGenericHeader payloadType len;
  filled (len + TAF_DOIP_HEADER_GENERIC_LENGTH) (header ++ fields).

(** A character array of which [memcpy] takes [size] bytes. *)
Definition whole (size : Z) (b : option (list Z)) : M Stack (list Z) :=
  b ← demand b Uninitialised;
  if Z.of_nat (length b) <? size then raise Uninitialised else mret (take (Z.to_nat size) b).

Definition VehicleAnnounceOrIdRes (linkPtr : taf_doipLink_t) (entityLA furtherAction : Z)
    : M Stack unit :=
  vin ← GetVin; eid ← GetEid; gid ← GetGid;
  vin ← whole TAF_DOIP_VIN_SIZE vin;
  eid ← whole TAF_DOIP_EID_SIZE eid;
  gid ← whole TAF_DOIP_GID_SIZE gid;
  vehIdResData ← message TAF_DOIP_PAYLOAD_TYPE_VEHICLE_ID_RESPONSE TAF_DOIP_VEHICLE_INFO_MAND_LENGTH
    (vin ++ net16 entityLA ++ eid ++ gid ++ [furtherAction]);
  match commType linkPtr with
  | TAF_DOIP_SOCKET_TYPE_UDP_UNI =>
      SendDoIPMsg linkPtr TAF_DOIP_VEHICLE_IDENTIFY_RESPONSE vehIdResData;; mret tt
  | TAF_DOIP_SOCKET_TYPE_UDP_MULTI =>
      SendDoIPMsg linkPtr TAF_DOIP_VEHICLE_ANNOUNCEMENT vehIdResData;; mret tt
  | _ => mret tt
  end.

Definition RoutingActivationRes (linkPtr : taf_doipLink_t) (equipLA entityLA raResCode reserved : Z)
    : M Stack unit :=
  raResData ← message TAF_DOIP_PAYLOAD_TYPE_ROUTING_ACTIVE_RESPONSE TAF_DOIP_PAYLOAD_RA_RES_LENGTH
    (net16 equipLA ++ net16 entityLA ++ [raResCode] ++ host32 reserved);
  SendDoIPMsg linkPtr TAF_DOIP_ROUTING_ACTIVE_RESPONSE raResData;; mret tt.

Definition AliveCheckReq (linkPtr : taf_doipLink_t) : M Stack unit :=
  aliveCheckReqHeader ← message TAF_DOIP_PAYLOAD_TYPE_ALIVE_CHECK_REQUEST 0 [];
  SendDoIPMsg linkPtr TAF_DOIP_ALIVE_CHECK_REQUEST aliveCheckReqHeader;; mret tt.

Definition AliveCheckRes (linkPtr : taf_doipLink_t) (equipLA : Z) : M Stack unit :=
  aliveCheckResData ← message TAF_DOIP_PAYLOAD_TYPE_ALIVE_CHECK_RESPONSE TAF_DOIP_LOGICAL_ADDRESS_LENGTH
    (net16 equipLA);
  SendDoIPMsg linkPtr TAF_DOIP_ALIVE_CHECK_RESPONSE aliveCheckResData;; mret tt.

Definition DiagPowerModeRes (linkPtr : taf_doipLink_t) (powerMode : Z) : M Stack unit :=
  pwrModeData ← message TAF_DOIP_PAYLOAD_TYPE_POWER_MODE_INFO_RESPONSE TAF_DOIP_POWERMODE_LENGTH
    [powerMode];
  SendDoIPMsg linkPtr TAF_DOIP_POWER_MODE_INFO_RESPONSE pwrModeData;; mret tt.

Definition DoIPEntityStatusRes (linkPtr : taf_doipLink_t) (nodeType maxCTS numCTS maxDataSize : Z)
    : M Stack unit :=
  entityStatusData ← message TAF_DOIP_PAYLOAD_TYPE_ENTITY_STATUS_RESPONSE TAF_DOIP_ENTITY_STATUS_RES_LENGTH
    ([nodeType; maxCTS; numCTS] ++ host32 maxDataSize);
  SendDoIPMsg linkPtr TAF_DOIP_ENTITY_STATUS_RESPONSE entityStatusData;; mret tt.

Definition HeaderNegativeACK (linkPtr : taf_doipLink_t) (headerNACKCode : Z) : M Stack unit :=
  if (headerNACKCode <? TAF_DOIP_HEADER_NACK_INCORRECT_PATTERN_FORMAT)
     || (TAF_DOIP_HEADER_NACK_INVALID_PAYLOAD_LENGTH <? headerNACKCode) then mret tt else
  nACKData ← message TAF_DOIP_PAYLOAD_TYPE_HEADER_NEGATIVE_ACK TAF_DOIP_NACK_CODE_LENGTH
    [headerNACKCode];
  SendDoIPMsg linkPtr TAF_DOIP_HEADER_NEGATIVE_ACK nACKData;; mret tt.

Definition DiagNegativeACK (linkPtr : taf_doipLink_t) (entityLA equipLA diagNACKCode : Z)
    : M Stack unit :=
  if (diagNACKCode <? TAF_DOIP_DIAGNOSTIC_NACK_INVALID_SA)
     || (TAF_DOIP_DIAGNOSTIC_NACK_TRANS_PROTO_ERROR <? diagNACKCode) then mret tt else
  diagNACKData ← message TAF_DOIP_PAYLOAD_TYPE_DIAGNOSTIC_NEGATIVE_ACK TAF_DOIP_DIAG_NEGATIVE_ACK_LENGTH
    (net16 entityLA ++ net16 equipLA ++ [diagNACKCode]);
  SendDoIPMsg linkPtr TAF_DOIP_DIAGNOSTIC_NEGATIVE_ACK diagNACKData;; mret tt.

Definition DiagPositiveACK (linkPtr : taf_doipLink_t) (entityLA equipLA : Z) : M Stack unit :=
  diagACKData ← message TAF_DOIP_PAYLOAD_TYPE_DIAGNOSTIC_POSITIVE_ACK TAF_DOIP_DIAG_POSITIVE_ACK_LENGTH
    (net16 entityLA ++ net16 equipLA ++ [TAF_DOIP_DIAGNOSTIC_ACK]);
  SendDoIPMsg linkPtr TAF_DOIP_DIAGNOSTIC_POSITIVE_ACK diagACKData;; mret tt.

(** [UnpackHeaderStruct] of the bytes from position [pos] of an array. *)
Definition UnpackHeaderStruct (dataPtr : list Z) (pos : Z) : M Stack taf_doipHeader_t :=
  protocolVer ← demand (at_ dataPtr pos) OutOfBounds;
  invProtocolVer ← demand (at_ dataPtr (pos + 1)) OutOfBounds;
  payloadType ← read16 dataPtr (pos + 2);
  dataLen ← read32 dataPtr (pos + 4);
  mret (mkHeader protocolVer invProtocolVer payloadType dataLen).
End Send.
