(* ===== verification/DoipConn.v ===== *)
(** * The DoIP stack: TCP connections

    [Connection] ([tafDoIPConnection.cpp]) and [ConnectionManager]
    ([tafDoIPConnectionMgr.cpp]), with the parts of [CommunicationMgr] that they call. A
    connection is the number of its object; deleting it takes it out of the box and releases
    what it owns, but the object lives on while it is referenced. *)
From S2P Require Import Prelude DoipTypes DoipVehicle DoipSend.

(** [connectionBox[i] = back; pop_back]. *)
Definition remove_swap (i : nat) (box : list Z) : list Z :=
  match last box with
  | Some b => take (length box - 1) (<[i := b]> box)
  | None => box
  end.

Section Conn.
Variable env : DEnv.

(** ** The communication manager *)
Fixpoint vlan_of (lines : list (string * option Z)) (ifacePtr : string) : Z :=
  match lines with
  | [] => 0
  | (name, id) :: lines' =>
      if bool_decide (name = ifacePtr) then u16 (default 0 id) else vlan_of lines' ifacePtr
  end.
Definition GetVlanId (ifacePtr : string) : M Stack Z :=
  s ← get; mret (default 0 (lines ← vlan_config env (dtrace s); Some (vlan_of lines ifacePtr))).

Fixpoint find_session (l : list taf_doipSession_t) (sa : Z) : option taf_doipSession_t :=
  match l with
  | [] => None
  | x :: l' => if sa =? logicalSrcAddr x then Some x else find_session l' sa
  end.
Definition FindDoipSession (sa : Z) : M Stack (option taf_doipSession_t) :=
  s ← get; mret (find_session (doipSessions s) sa).

Definition ConfirmRoutingActivation (sa ta : Z) : M Stack taf_doip_UserConfirmResult_t :=
  session ← FindDoipSession ta;
  match session with
  | None => mret TAF_DOIP_USER_CONFIRM_RESULT_REJECT
  | Some session =>
      if userConfirmHandler session then
        emit (UserConfirmCall sa ta);; s ← get; mret (user_confirm env (dtrace s))
      else mret TAF_DOIP_USER_CONFIRM_RESULT_NO_NEED
  end.

Definition ReportConnectionEvent (sa ta : Z) (rgistResult : taf_doip_Result_t) (ifacePtr : string)
    : M Stack unit :=
  vid ← GetVlanId ifacePtr;
  emit (QueueConnectionEvent (mkDiagInfo sa ta TAF_DOIP_TA_TYPE_PHYSICAL None 0 vid ifacePtr) rgistResult);;
  sess ← FindDoipSession ta;
  match sess with
  | None => mret tt
  | Some _ => emit (StatusReport rgistResult sa ta vid ifacePtr)
  end.

(** The block that holds the message is released when its target is unknown. *)
Definition InformUdsMessage (sa ta : Z) (dataPtr : option Z) (length : Z) (ifacePtr : string)
    : M Stack taf_doip_Result_t :=
  match dataPtr with
  | None => mret TAF_DOIP_RESULT_PARAM_ERROR
  | Some block =>
      if length =? 0 then mret TAF_DOIP_RESULT_PARAM_ERROR else
      vid ← GetVlanId ifacePtr;
      sourceAddr ← GetEntityLogicalAddr;
      let sourceAddr := default 0 sourceAddr in
      functional ← IsFunctionalAddress ta;
      if (functional : bool) then
        emit (QueueIndicateUds
                (mkDiagInfo sa sourceAddr TAF_DOIP_TA_TYPE_FUNCTIONAL (Some block) length vid ifacePtr));;
        mret TAF_DOIP_RESULT_OK
      else if negb (ta =? sourceAddr) then
        release_uds block;; mret TAF_DOIP_RESULT_UNKNOWN_TA
      else
        emit (QueueIndicateUds
                (mkDiagInfo sa ta TAF_DOIP_TA_TYPE_PHYSICAL (Some block) length vid ifacePtr));;
        mret TAF_DOIP_RESULT_OK
  end.

(** ** Resources of a connection *)
Definition stop_timer (t : option TimerRef) : M Stack unit :=
  match t with
  | None => mret tt
  | Some _ => running ← is_running env t; when running (timer t TimerStop)
  end.
Definition delete_timer (t : option TimerRef) : M Stack unit :=
  match t with None => mret tt | Some _ => timer_delete t end.

Definition Connection_Stop (c : Z) : M Stack unit :=
  a ← cget c aliveCheckTimerRef; stop_timer a;;
  g ← cget c generalTimerRef; stop_timer g;;
  i ← cget c initialTimerRef; stop_timer i;;
  delete_timer a;; cset c aliveCheckTimerRef None;;
  delete_timer g;; cset c generalTimerRef None;;
  delete_timer i;; cset c initialTimerRef None;;
  b ← cget c inBuf;
  match b with Some b => release_in b;; cset c inBuf None | None => mret tt end;;
  u ← cget c udsBuf;
  match u with Some u => release_uds u;; cset c udsBuf None | None => mret tt end;;
  sock ← cget c cliSockRef;
  emit (SocketDelete (Some sock)).

Definition Connection_Shutdown (c : Z) : M Stack taf_doip_Result_t :=
  cset c connState TAF_DOIP_CONNECT_STATE_FINALIZE;;
  a ← cget c aliveCheckTimerRef; ra ← is_running env a; when ra (timer a TimerStop);;
  g ← cget c generalTimerRef; rg ← is_running env g; when rg (timer g TimerStop);;
  i ← cget c initialTimerRef; ri ← is_running env i; when ri (timer i TimerStop);;
  b ← cget c inBuf;
  match b with Some b => release_in b;; cset c inBuf None | None => mret tt end;;
  u ← cget c udsBuf;
  match u with Some u => release_uds u;; cset c udsBuf None | None => mret tt end;;
  sock ← cget c cliSockRef;
  emit (SocketShutdown sock);;
  s ← get;
  mret (if bool_decide (socket_setup env (dtrace s) = LE_OK) then TAF_DOIP_RESULT_OK
        else TAF_DOIP_RESULT_ERROR).

Definition is_registered (x : Connection) : bool :=
  bool_decide (connState x = TAF_DOIP_CONNECT_STATE_REGISTERED_ROUTING_ACTIVE)
  || bool_decide (connState x = TAF_DOIP_CONNECT_STATE_REGISTERED_PENDING_FOR_CONF)
  || bool_decide (connState x = TAF_DOIP_CONNECT_STATE_REGISTERED_ROUTING_ACTIVE).
Definition IsConnectionRegitered (c : Z) : M Stack bool := cget c is_registered.

Definition IsLogicalAddressMatch (logicalAddr : Z) (x : Connection) : bool :=
  match connType x with
  | TAF_DOIP_CONNECTION_TYPE_CLI => logicalAddr =? entitySA x
  | TAF_DOIP_CONNECTION_TYPE_SVR => logicalAddr =? testerSA x
  end.

Definition GetLogicalTargetAddr (x : Connection) : Z :=
  match connType x with
  | TAF_DOIP_CONNECTION_TYPE_SVR => testerSA x
  | TAF_DOIP_CONNECTION_TYPE_CLI => entitySA x
  end.

(** ** The connection manager *)

(** The position of the first connection of the box that satisfies [p]. *)
Fixpoint index_in (p : Connection -> bool) (box : list Z) : M Stack (option nat) :=
  match box with
  | [] => mret None
  | c :: box' =>
      x ← cget c (fun x => x);
      if p x then mret (Some 0%nat) else i ← index_in p box'; mret (Datatypes.S <$> i)
  end.

Definition DeleteConnection (c : Z) : M Stack unit :=
  Connection_Stop c;;
  sock ← cget c cliSockRef;
  s ← get;
  i ← index_in (fun x => cliSockRef x =? sock) (connectionBox s);
  match i with
  | Some i => connectionBox ::= remove_swap i (connectionBox s)
  | None => mret tt
  end.

Definition ShutdownAllConnection : M Stack unit :=
  s ← get; for_each (connectionBox s) (fun c => Connection_Shutdown c;; mret tt).
Definition DeleteAllConnection : M Stack unit :=
  s ← get; for_each (connectionBox s) Connection_Stop;; connectionBox ::= [].

Definition GetConnectionNum : M Stack Z := s ← get; mret (Z.of_nat (length (connectionBox s))).

Fixpoint count_registered (box : list Z) : M Stack Z :=
  match box with
  | [] => mret 0
  | c :: box' =>
      r ← IsConnectionRegitered c; n ← count_registered box'; mret (if (r : bool) then n + 1 else n)
  end.
Definition GetRegisteredConnectionNum : M Stack Z :=
  s ← get; count_registered (connectionBox s).

Definition FindConnectionByLogicalAddr (logicalAddr : Z) : M Stack (option Z) :=
  s ← get;
  find_in (fun x => IsLogicalAddressMatch logicalAddr x && is_registered x) (connectionBox s).

Definition tcp_link (c : Z) : M Stack taf_doipLink_t :=
  sock ← cget c cliSockRef; mret (mkLink (Some sock) "" 0 TAF_DOIP_SOCKET_TYPE_TCP).

(** Ask the connection [c] whether it is alive. *)
Definition ask_alive (c : Z) : M Stack unit :=
  link ← tcp_link c;
  AliveCheckReq env link;;
  t ← cget c aliveCheckTimerRef;
  timer t TimerStart.

Definition PerformSigleAliveCheck (connection : Z) (ta : Z) : M Stack unit :=
  connectionTmp ← FindConnectionByLogicalAddr ta;
  if bool_decide (connectionTmp = Some connection) then mret tt else
  c ← demand connectionTmp NullDeref;
  asked ← cget c singleAliveCheckFlag;
  if (asked : bool) then mret tt else
  cset c singleAliveCheckFlag true;;
  cset c routingConnectionPtr (Some connection);;
  ask_alive c.

Definition PerformAllAliveCheck (connection : Z) : M Stack unit :=
  s ← get;
  for_each (connectionBox s) (fun c =>
    r ← IsConnectionRegitered c;
    when r
      (ta ← cget c GetLogicalTargetAddr;
       PerformSigleAliveCheck connection ta;;
       asked ← cget c allAliveCheckFlag;
       if (asked : bool) then mret tt else
       cset c allAliveCheckFlag true;;
       cset c routingConnectionPtr (Some connection);;
       ask_alive c)).

(** ** The state machine

    [ConnectionStateMachine] unfolded along the calls that it makes of itself: the
    authentication leads to the confirmation, the confirmation to routing, and every refusal
    to the final state. *)
Definition enter_finalize (c : Z) : M Stack unit :=
  preConnState ← cget c connState;
  cset c connState TAF_DOIP_CONNECT_STATE_FINALIZE;;
  when (bool_decide (preConnState = TAF_DOIP_CONNECT_STATE_REGISTERED_ROUTING_ACTIVE))
    (x ← cget c (fun x => x);
     ReportConnectionEvent (testerSA x) (entitySA x) TAF_DOIP_RESULT_SA_DEREGISTERED (localIface x));;
  DeleteConnection c.

Definition enter_routing_active (c : Z) : M Stack unit :=
  cset c connState TAF_DOIP_CONNECT_STATE_REGISTERED_ROUTING_ACTIVE;;
  x ← cget c (fun x => x);
  ReportConnectionEvent (testerSA x) (entitySA x) TAF_DOIP_RESULT_SA_REGISTERED (localIface x).

Definition CheckRoutingActivationConfirm (c : Z) : M Stack unit :=
  x ← cget c (fun x => x);
  result ← ConfirmRoutingActivation (testerSA x) (entitySA x);
  link ← tcp_link c;
  match result with
  | TAF_DOIP_USER_CONFIRM_RESULT_PASS | TAF_DOIP_USER_CONFIRM_RESULT_NO_NEED =>
      RoutingActivationRes env link (testerSA x) (entitySA x)
        TAF_DOIP_RA_RES_ROUTING_SUCCESSFULLY_ACTIVATED 0;;
      enter_routing_active c
  | TAF_DOIP_USER_CONFIRM_RESULT_REJECT =>
      RoutingActivationRes env link (testerSA x) (entitySA x) TAF_DOIP_RA_RES_REJECT_CONFIRMATION 0;;
      enter_finalize c
  end.

Definition enter_pending_conf (c : Z) : M Stack unit :=
  cset c connState TAF_DOIP_CONNECT_STATE_REGISTERED_PENDING_FOR_CONF;;
  CheckRoutingActivationConfirm c.

Definition CheckRoutingActivationAuthen (c authenInfo : Z) : M Stack unit :=
  enabled ← GetAuthEnableStatus;
  if (enabled : bool) then
    r ← GetAuthInfo;
    let vehicleAuthInfo := default 0 r in
    if (authenInfo =? vehicleAuthInfo) || (0 =? vehicleAuthInfo) then enter_pending_conf c
    else
      x ← cget c (fun x => x);
      link ← tcp_link c;
      RoutingActivationRes env link (testerSA x) (entitySA x) TAF_DOIP_RA_RES_MISSING_AUTHENTICATION 0;;
      enter_finalize c
  else enter_pending_conf c.

Definition ConnectionStateMachine (c : Z) (state : taf_doip_ConnectState_t) (authenInfo : Z)
    : M Stack unit :=
  match state with
  | TAF_DOIP_CONNECT_STATE_INITIALIZED =>
      cset c connState state;; t ← cget c initialTimerRef; timer t TimerStart
  | TAF_DOIP_CONNECT_STATE_REGISTERED_PENDING_FOR_AUTH =>
      cset c connState state;; CheckRoutingActivationAuthen c authenInfo
  | TAF_DOIP_CONNECT_STATE_REGISTERED_PENDING_FOR_CONF => enter_pending_conf c
  | TAF_DOIP_CONNECT_STATE_REGISTERED_ROUTING_ACTIVE => enter_routing_active c
  | TAF_DOIP_CONNECT_STATE_FINALIZE => enter_finalize c
  | TAF_DOIP_CONNECT_STATE_LISTEN => cset c connState state
  end.
End Conn.
