(* ===== verification/DoipRecv.v ===== *)
(** * The DoIP stack: receiving over TCP

    The reception, checking and processing of messages in [tafDoIPConnection.cpp], the
    creation of connections, the handlers of the timers and of the socket events. *)
From S2P Require Import Prelude DoipTypes DoipVehicle DoipSend DoipConn.

(** Host-order constants of the sources. *)
Definition two_addresses : Z := 2 * TAF_DOIP_LOGICAL_ADDRESS_LENGTH.

Section Recv.
Variable env : DEnv.

(** ** Header acknowledgements *)
Definition le_socket_Read (sock room : Z) : M Stack (option (list Z)) :=
  emit (SocketRead sock room);;
  s ← get; mret (take (Z.to_nat room) <$> socket_read env (dtrace s)).

(** The loop of [ReadAndDiscardMsg]; a read that gives nothing makes no progress. *)
Fixpoint discard_loop (fuel : nat) (sock len : Z) : M Stack unit :=
  match fuel with
  | O => raise Diverges
  | Datatypes.S n =>
      r ← le_socket_Read sock len;
      match r with
      | None => mret tt
      | Some bytes =>
          let len' := len - Z.of_nat (length bytes) in
          if 0 <? len' then discard_loop n sock len' else mret tt
      end
  end.

Definition ReadAndDiscardMsg (c len : Z) : M Stack unit :=
  if len =? 0 then mret tt else
  let len := if TAF_DOIP_MAX_BUFFER_SIZE <? len then TAF_DOIP_MAX_BUFFER_SIZE else len in
  sock ← cget c cliSockRef;
  discard_loop (Z.to_nat len) sock len.

Definition RespondHeaderNegativeACK (c nackCode left : Z) : M Stack unit :=
  link ← tcp_link c;
  HeaderNegativeACK env link nackCode;;
  if (nackCode =? TAF_DOIP_HEADER_NACK_INCORRECT_PATTERN_FORMAT)
     || (nackCode =? TAF_DOIP_HEADER_NACK_INVALID_PAYLOAD_LENGTH)
  then ConnectionStateMachine env c TAF_DOIP_CONNECT_STATE_FINALIZE 0
  else ReadAndDiscardMsg c left.

Definition known_version (v : Z) : bool :=
  (v =? TAF_DOIP_PROTOCOL_VERSION_2010) || (v =? TAF_DOIP_PROTOCOL_VERSION_2012)
  || (v =? TAF_DOIP_PROTOCOL_VERSION_2019) || (v =? TAF_DOIP_PROTOCOL_VERSION_DEFAULT).

(** Payload types that each side accepts over TCP. *)
Definition entity_accepts (ty : Z) : bool :=
  (ty =? TAF_DOIP_PAYLOAD_TYPE_ROUTING_ACTIVE_REQUEST)
  || (ty =? TAF_DOIP_PAYLOAD_TYPE_ALIVE_CHECK_REQUEST)
  || (ty =? TAF_DOIP_PAYLOAD_TYPE_ALIVE_CHECK_RESPONSE)
  || (ty =? TAF_DOIP_PAYLOAD_TYPE_DIAGNOSTIC_MESSAGE).
Definition tester_accepts (ty : Z) : bool :=
  (ty =? TAF_DOIP_PAYLOAD_TYPE_HEADER_NEGATIVE_ACK)
  || (ty =? TAF_DOIP_PAYLOAD_TYPE_ROUTING_ACTIVE_RESPONSE)
  || (ty =? TAF_DOIP_PAYLOAD_TYPE_ALIVE_CHECK_REQUEST)
  || (ty =? TAF_DOIP_PAYLOAD_TYPE_ALIVE_CHECK_RESPONSE)
  || (ty =? TAF_DOIP_PAYLOAD_TYPE_DIAGNOSTIC_MESSAGE)
  || (ty =? TAF_DOIP_PAYLOAD_TYPE_DIAGNOSTIC_POSITIVE_ACK)
  || (ty =? TAF_DOIP_PAYLOAD_TYPE_DIAGNOSTIC_NEGATIVE_ACK).

(** [errOut] of [CheckDoipHeader]. *)
Definition refuse_header (c : Z) (header : taf_doipHeader_t) (buffer nackCode : Z)
    : M Stack taf_doip_Result_t :=
  ty ← cget c connType;
  match ty with
  | TAF_DOIP_CONNECTION_TYPE_CLI => mret TAF_DOIP_RESULT_HDR_ERROR
  | TAF_DOIP_CONNECTION_TYPE_SVR =>
      size ← buf_get buffer dataSize;
      let totalMsgLen := u32 (payloadLen header + TAF_DOIP_HEADER_GENERIC_LENGTH) in
      RespondHeaderNegativeACK c nackCode
        (if size <? totalMsgLen then u32 (totalMsgLen - size) else 0);;
      mret TAF_DOIP_RESULT_HDR_ERROR
  end.

Definition CheckDoipHeader (c : Z) (header : taf_doipHeader_t) (buffer : Z)
    : M Stack taf_doip_Result_t :=
  if negb (known_version (protocolVer header))
  then refuse_header c header buffer TAF_DOIP_HEADER_NACK_INCORRECT_PATTERN_FORMAT
  else if negb (protocolVer header =? u8 (Z.lnot (invProtocolVer header)))
  then refuse_header c header buffer TAF_DOIP_HEADER_NACK_INCORRECT_PATTERN_FORMAT
  else
  ty ← cget c connType;
  let server := bool_decide (ty = TAF_DOIP_CONNECTION_TYPE_SVR) in
  if server && negb (entity_accepts (payloadType header))
  then refuse_header c header buffer TAF_DOIP_HEADER_NACK_UNKNOWN_PAYLOAD_TYPE
  else if negb server && negb (tester_accepts (payloadType header))
  then mret TAF_DOIP_RESULT_HDR_ERROR
  else
  r ← GetMaxDataSize;
  let mds := default TAF_DOIP_MDS_DEFAULT r in
  if u32 (mds - TAF_DOIP_HEADER_GENERIC_LENGTH) <? payloadLen header
  then refuse_header c header buffer TAF_DOIP_HEADER_NACK_MESSAGE_TOO_LARGE
  else if negb (payloadType header =? TAF_DOIP_PAYLOAD_TYPE_DIAGNOSTIC_MESSAGE)
          && (TAF_DOIP_MAX_BUFFER_SIZE - TAF_DOIP_HEADER_GENERIC_LENGTH <? payloadLen header)
  then refuse_header c header buffer TAF_DOIP_HEADER_NACK_OUT_OF_MEMORY
  else mret TAF_DOIP_RESULT_OK.

(** ** Routing activation *)

(** [errOut] of [RoutingActiveReqHandler]. *)
Definition refuse_routing (c fromSa ourSa resCode : Z) : M Stack unit :=
  link ← tcp_link c;
  RoutingActivationRes env link fromSa ourSa resCode 0;;
  ConnectionStateMachine env c TAF_DOIP_CONNECT_STATE_FINALIZE 0.

(** The connection has a source address that is not registered yet, or its own. *)
Definition assign_tester (c fromSa oemReserved : Z) : M Stack unit :=
  cset c testerSA fromSa;;
  ConnectionStateMachine env c TAF_DOIP_CONNECT_STATE_REGISTERED_PENDING_FOR_AUTH oemReserved.

(** The payload is read from position [payload] of the reception buffer [buffer]. *)
Definition RoutingActiveReqHandler (c buffer payload payloadLen : Z) : M Stack unit :=
  if negb (TAF_DOIP_PAYLOAD_RA_MAND_LEN =? payloadLen)
     && negb (TAF_DOIP_PAYLOAD_RA_ALL_LEN =? payloadLen)
  then RespondHeaderNegativeACK c TAF_DOIP_HEADER_NACK_INVALID_PAYLOAD_LENGTH 0 else
  ourSa ← cget c entitySA;
  d ← buf_get buffer data;
  fromSa ← read16 d payload;
  if (fromSa <? 0x0E00) || (0x0FFF <? fromSa)
  then refuse_routing c fromSa ourSa TAF_DOIP_RA_RES_UNKNOWN_SOURCE_ADDRESS else
  cset c raTesterSa fromSa;;
  type ← demand (at_ d (payload + 2)) OutOfBounds;
  if (0x02 <=? type) && (type <=? 0xDF)
  then refuse_routing c fromSa ourSa TAF_DOIP_RA_RES_UNSUPPORTED_RA_TYPE else
  _ ← read32 d (payload + 3);
  oemReserved ← (if payloadLen =? TAF_DOIP_PAYLOAD_RA_ALL_LEN then read32 d (payload + 7) else mret 0);
  t ← cget c initialTimerRef;
  timer t TimerStop;;
  cset c authInfo oemReserved;;
  registeredCnt ← GetRegisteredConnectionNum;
  if registeredCnt =? 0 then assign_tester c fromSa oemReserved else
  registered ← IsConnectionRegitered c;
  if (registered : bool) then
    own ← cget c testerSA;
    if fromSa =? own then assign_tester c fromSa oemReserved
    else refuse_routing c fromSa ourSa TAF_DOIP_RA_RES_SA_DIFFERENT_ACTIVATED_SOCKET
  else
    connectionTmp ← FindConnectionByLogicalAddr fromSa;
    match connectionTmp with
    | Some other =>
        if other =? c then
          r ← GetMaxConcurrentSockNum;
          if registeredCnt =? default TAF_DOIP_MCTS_DEFAULT r then PerformAllAliveCheck env c
          else assign_tester c fromSa oemReserved
        else
          asked ← cget other singleAliveCheckFlag;
          if (asked : bool) then mret tt else
          cset other routingConnectionPtr (Some c);;
          link ← tcp_link other;
          AliveCheckReq env link;;
          cset other singleAliveCheckFlag true;;
          t ← cget other aliveCheckTimerRef;
          timer t TimerStart
    | None =>
        r ← GetMaxConcurrentSockNum;
        if registeredCnt =? default TAF_DOIP_MCTS_DEFAULT r then PerformAllAliveCheck env c
        else assign_tester c fromSa oemReserved
    end.

(** The tester that waits for an alive check is refused. *)
Definition refuse_waiting (c resCode : Z) : M Stack unit :=
  waiting ← cget c routingConnectionPtr;
  match waiting with
  | None => mret tt
  | Some w =>
      registered ← IsConnectionRegitered w;
      when (negb registered)
        (link ← tcp_link w;
         x ← cget w (fun x => x);
         RoutingActivationRes env link (raTesterSa x) (entitySA x) resCode 0;;
         ConnectionStateMachine env w TAF_DOIP_CONNECT_STATE_FINALIZE 0)
  end.

Definition AliveCheckResHandler (c buffer payload payloadLen : Z) : M Stack unit :=
  if negb (payloadLen =? TAF_DOIP_LOGICAL_ADDRESS_LENGTH)
  then RespondHeaderNegativeACK c TAF_DOIP_HEADER_NACK_INVALID_PAYLOAD_LENGTH 0 else
  d ← buf_get buffer data;
  logicalAddr ← read16 d payload;
  own ← cget c testerSA;
  if negb (logicalAddr =? own) then mret tt else
  t ← cget c aliveCheckTimerRef;
  running ← is_running env t;
  when running (timer t TimerStop);;
  all ← cget c allAliveCheckFlag;
  single ← cget c singleAliveCheckFlag;
  if negb all && negb single then mret tt else
  r ← GetMaxConcurrentSockNum;
  let mcts := default TAF_DOIP_MCTS_DEFAULT r in
  when all
    (cset c allAliveCheckFlag false;;
     s ← get;
     aliveCheckNcts ::= u32 (aliveCheckNcts s + 1);;
     s ← get;
     when (aliveCheckNcts s =? mcts)
       (refuse_waiting c TAF_DOIP_RA_RES_ALL_SOCKET_REGISTED_AND_ACTIVE;;
        aliveCheckNcts ::= 0));;
  single ← cget c singleAliveCheckFlag;
  when single
    (cset c singleAliveCheckFlag false;;
     refuse_waiting c TAF_DOIP_RA_RES_SA_REGISTED_DIFFERENT_SOCKET).

(** ** Diagnostic messages *)

(** [errOut1] and [errOut2] of [DiagnosticMsgSvrSecondHandler]. *)
Definition discard_diag (c : Z) (retCode : taf_doip_Result_t) : M Stack taf_doip_Result_t :=
  cset c udsTotalLen 0;;
  cset c udsReceived 0;;
  u ← cget c udsBuf;
  match u with Some u => release_uds u;; cset c udsBuf None | None => mret tt end;;
  mret retCode.
Definition refuse_diag (c logicalTargetAddr logicalSourceAddr nackCode : Z)
    (retCode : taf_doip_Result_t) : M Stack taf_doip_Result_t :=
  link ← tcp_link c;
  DiagNegativeACK env link logicalTargetAddr logicalSourceAddr nackCode;;
  when (nackCode =? TAF_DOIP_DIAGNOSTIC_NACK_INVALID_SA)
    (ConnectionStateMachine env c TAF_DOIP_CONNECT_STATE_FINALIZE 0);;
  discard_diag c retCode.

(** The bytes of the block that holds the diagnostic message. *)
Definition uds_bytes (c : Z) : M Stack (list Z) :=
  u ← cget c udsBuf; u ← demand u NullDeref; s ← get; demand (udsPool s !! u) UseAfterFree.

Definition DiagnosticMsgSvrSecondHandler (c : Z) : M Stack taf_doip_Result_t :=
  total ← cget c udsTotalLen;
  if total <=? two_addresses then
    RespondHeaderNegativeACK c TAF_DOIP_HEADER_NACK_INVALID_PAYLOAD_LENGTH 0;;
    discard_diag c TAF_DOIP_RESULT_MESSAGE_TOO_SHORT
  else
  d ← uds_bytes c;
  logicalSourceAddr ← read16 d 0;
  logicalTargetAddr ← read16 d 2;
  let refuse := refuse_diag c logicalTargetAddr logicalSourceAddr in
  st ← cget c connState;
  if negb (bool_decide (st = TAF_DOIP_CONNECT_STATE_REGISTERED_ROUTING_ACTIVE))
  then refuse TAF_DOIP_DIAGNOSTIC_NACK_INVALID_SA TAF_DOIP_RESULT_ROUTING_INACTIVE else
  own ← cget c testerSA;
  if negb (logicalSourceAddr =? own)
  then refuse TAF_DOIP_DIAGNOSTIC_NACK_INVALID_SA TAF_DOIP_RESULT_UNKNOWN_SA else
  r ← GetMaxDataSize;
  s ← get;
  if default TAF_DOIP_MDS_DEFAULT r <? total
  then refuse TAF_DOIP_DIAGNOSTIC_NACK_DIAG_MSG_TOO_LARGE TAF_DOIP_RESULT_MESSAGE_TOO_LARGE
  else if udsObjectSize s <? total
  then refuse TAF_DOIP_DIAGNOSTIC_NACK_OUT_OF_MEMORY TAF_DOIP_RESULT_MESSAGE_TOO_LARGE
  else
  x ← cget c (fun x => x);
  ret ← InformUdsMessage env logicalSourceAddr logicalTargetAddr (udsBuf x) total (localIface x);
  if bool_decide (ret = TAF_DOIP_RESULT_UNKNOWN_TA)
  then refuse TAF_DOIP_DIAGNOSTIC_NACK_UNKNOWN_TA TAF_DOIP_RESULT_UNKNOWN_TA
  else if negb (bool_decide (ret = TAF_DOIP_RESULT_OK))
  then refuse TAF_DOIP_DIAGNOSTIC_NACK_TRANS_PROTO_ERROR TAF_DOIP_RESULT_TARGET_UNREACHABLE
  else
  cset c udsTotalLen 0;;
  cset c udsReceived 0;;
  cset c udsBuf None;;
  link ← tcp_link c;
  DiagPositiveACK env link logicalTargetAddr logicalSourceAddr;;
  mret TAF_DOIP_RESULT_OK.

Definition DiagnosticMsgSecondHandler (c : Z) : M Stack taf_doip_Result_t :=
  ty ← cget c connType;
  match ty with
  | TAF_DOIP_CONNECTION_TYPE_SVR => DiagnosticMsgSvrSecondHandler c
  | TAF_DOIP_CONNECTION_TYPE_CLI => mret TAF_DOIP_RESULT_OK
  end.

(** [memcpy(udsBuf + pos, src, len)]. *)
Definition uds_copy (block pos : Z) (src : list Z) : M Stack unit :=
  s ← get; d ← demand (udsPool s !! block) UseAfterFree;
  if decide (0 <= pos /\ pos + Z.of_nat (length src) <= Z.of_nat (length d))
  then udsPool ::= <[block := splice d pos src]> (udsPool s) else raise OutOfBounds.

(** A block of the pool for diagnostic messages, if one is free; its bytes are not set. *)
Definition uds_alloc : M Stack (option Z) :=
  s ← get;
  if uds_pool_free env (dtrace s) then
    b ← fresh;
    s ← get;
    udsPool ::= <[b := replicate (Z.to_nat (udsObjectSize s)) (u8 (garbage env (dtrace s)))]> (udsPool s);;
    mret (Some b)
  else mret None.

Definition DiagnosticMsgFirstHandler (c buffer payload payloadLen receivedLen : Z)
    : M Stack taf_doip_Result_t :=
  u ← cget c udsBuf;
  ready ← (match u with
           | Some _ => mret true
           | None =>
               b ← uds_alloc;
               match b with
               | None => mret false
               | Some b =>
                   cset c udsBuf (Some b);; cset c udsTotalLen 0;; cset c udsReceived 0;; mret true
               end
           end);
  if negb (ready : bool) then mret TAF_DOIP_RESULT_OUT_OF_MEMORY else
  d ← buf_get buffer data;
  src ← bytes_at d payload (if receivedLen <? payloadLen then receivedLen else payloadLen);
  u ← cget c udsBuf; u ← demand u NullDeref;
  uds_copy u 0 src;;
  cset c udsTotalLen payloadLen;;
  cset c udsReceived receivedLen;;
  s ← get;
  if (payloadLen <=? receivedLen) || (receivedLen =? udsObjectSize s)
  then DiagnosticMsgSecondHandler c else mret TAF_DOIP_RESULT_OK.

(** ** Messages *)

(** The message has been handled: what the buffer holds behind it is next. *)
Definition advance (buffer payloadLen : Z) : M Stack taf_doip_Result_t :=
  size ← buf_get buffer dataSize;
  let total := u32 (payloadLen + TAF_DOIP_HEADER_GENERIC_LENGTH) in
  (if size <? total then buf_set buffer dataSize 0;; buf_set buffer dataPos 0
   else
     pos ← buf_get buffer dataPos;
     buf_set buffer dataSize (u32 (size - total));;
     buf_set buffer dataPos (u32 (pos + total));;
     when (u32 (size - total) =? 0) (buf_set buffer dataPos 0));;
  mret TAF_DOIP_RESULT_OK.

Definition ProcessDoipMessage (c payloadType buffer payloadLen : Z) : M Stack taf_doip_Result_t :=
  pos ← buf_get buffer dataPos;
  let payloadPos := u32 (pos + TAF_DOIP_HEADER_GENERIC_LENGTH) in
  if payloadType =? TAF_DOIP_PAYLOAD_TYPE_ROUTING_ACTIVE_REQUEST then
    RoutingActiveReqHandler c buffer payloadPos payloadLen;;
    st ← cget c connState;
    if bool_decide (st = TAF_DOIP_CONNECT_STATE_FINALIZE) then mret TAF_DOIP_RESULT_NO_SOCKET else
    size ← buf_get buffer dataSize;
    if negb (size =? u32 (payloadLen + TAF_DOIP_HEADER_GENERIC_LENGTH)) then
      buf_set buffer dataSize 0;; buf_set buffer dataPos 0;; mret TAF_DOIP_RESULT_OK
    else advance buffer payloadLen
  else if payloadType =? TAF_DOIP_PAYLOAD_TYPE_ALIVE_CHECK_REQUEST then
    link ← tcp_link c;
    own ← cget c testerSA;
    AliveCheckRes env link own;;
    advance buffer payloadLen
  else if payloadType =? TAF_DOIP_PAYLOAD_TYPE_ALIVE_CHECK_RESPONSE then
    AliveCheckResHandler c buffer payloadPos payloadLen;;
    advance buffer payloadLen
  else if payloadType =? TAF_DOIP_PAYLOAD_TYPE_DIAGNOSTIC_MESSAGE then
    size ← buf_get buffer dataSize;
    if size <? TAF_DOIP_HEADER_GENERIC_LENGTH + two_addresses then mret TAF_DOIP_RESULT_MESSAGE_TOO_SHORT else
    ret ← DiagnosticMsgFirstHandler c buffer payloadPos payloadLen (size - TAF_DOIP_HEADER_GENERIC_LENGTH);
    if bool_decide (ret = TAF_DOIP_RESULT_OUT_OF_MEMORY) then mret TAF_DOIP_RESULT_OUT_OF_MEMORY else
    st ← cget c connState;
    if negb (bool_decide (ret = TAF_DOIP_RESULT_OK))
       && bool_decide (st = TAF_DOIP_CONNECT_STATE_FINALIZE)
    then mret TAF_DOIP_RESULT_NO_SOCKET else advance buffer payloadLen
  else advance buffer payloadLen.

Definition reset_buffer (buffer : Z) : M Stack unit :=
  buf_set buffer dataSize 0;; buf_set buffer dataPos 0.

Definition is_diagnostic (ty : Z) : bool :=
  (ty =? TAF_DOIP_PAYLOAD_TYPE_DIAGNOSTIC_MESSAGE)
  || (ty =? TAF_DOIP_PAYLOAD_TYPE_DIAGNOSTIC_POSITIVE_ACK)
  || (ty =? TAF_DOIP_PAYLOAD_TYPE_DIAGNOSTIC_NEGATIVE_ACK).

(** [connection->inBuf], which is read again for every use. *)
Definition in_buf (c : Z) : M Stack Z := b ← cget c inBuf; demand b NullDeref.

(** The reception buffer is reset and the next message is awaited. *)
Definition reset_reception (c : Z) : M Stack bool :=
  b ← in_buf c; reset_buffer b;; cset c isConsuming false;; mret false.

(** A message whose header is good; [next] is the rest of the loop. *)
Definition handle_message (next : M Stack bool) (c : Z) (hdr : taf_doipHeader_t) : M Stack bool :=
  b ← in_buf c;
  doipResult ← ProcessDoipMessage c (payloadType hdr) b (payloadLen hdr);
  match doipResult with
  | TAF_DOIP_RESULT_NO_SOCKET | TAF_DOIP_RESULT_MESSAGE_TOO_SHORT =>
      cset c isConsuming false;; mret false
  | TAF_DOIP_RESULT_OK =>
      if is_diagnostic (payloadType hdr) then
        b ← in_buf c; size ← buf_get b dataSize;
        if size =? 0 then buf_set b dataPos 0;; cset c isConsuming false;; mret false
        else next
      else next
  | TAF_DOIP_RESULT_OUT_OF_MEMORY =>
      if is_diagnostic (payloadType hdr) then mret true else reset_reception c
  | _ => reset_reception c
  end.

(** The loop of [ConsumeTCPData] over at most [n] more messages. It tells whether the loop
    ended ([true]) or the function returned inside it. *)
Fixpoint consume_loop (n : nat) (c : Z) : M Stack bool :=
  b ← in_buf c;
  size ← buf_get b dataSize;
  match n with
  | O => mret true
  | Datatypes.S n =>
  if size <? TAF_DOIP_HEADER_GENERIC_LENGTH then mret true else
  st ← cget c connState;
  if bool_decide (st = TAF_DOIP_CONNECT_STATE_FINALIZE) then mret false else
  d ← buf_get b data;
  pos ← buf_get b dataPos;
  hdr ← UnpackHeaderStruct d pos;
  checked ← CheckDoipHeader c hdr b;
  if negb (bool_decide (checked = TAF_DOIP_RESULT_OK)) then
    st ← cget c connState;
    if bool_decide (st = TAF_DOIP_CONNECT_STATE_FINALIZE) then mret false else reset_reception c
  else handle_message (consume_loop n c) c hdr
  end.

Definition ConsumeTCPData (sock : Z) : M Stack unit :=
  connection ← FindConnectionBySocket sock;
  match connection with
  | None => mret tt
  | Some c =>
      b ← cget c inBuf;
      match b with
      | None => mret tt
      | Some _ =>
          ended ← consume_loop (Z.to_nat TAF_DOIP_BATCH_SIZE) c;
          when ended
            (b ← in_buf c;
             size ← buf_get b dataSize;
             if TAF_DOIP_HEADER_GENERIC_LENGTH <=? size then emit (QueueConsume sock)
             else cset c isConsuming false)
      end
  end.

(** ** Reception *)
Definition ReceiveTCPData (c : Z) (buffer : option Z) : M Stack taf_doip_Result_t :=
  match buffer with
  | None => mret TAF_DOIP_RESULT_PARAM_ERROR
  | Some b =>
      t ← cget c generalTimerRef;
      running ← is_running env t;
      (if (running : bool) then timer t TimerRestart else timer t TimerStart);;
      pos ← buf_get b dataPos;
      size ← buf_get b dataSize;
      let room := u64 (TAF_DOIP_MAX_BUFFER_SIZE - u32 (pos + size)) in
      let full := room <=? TAF_DOIP_MAX_MSG_LEN_EXCEPT_UDS in
      when full (reset_buffer b);;
      let received := if full then TAF_DOIP_MAX_BUFFER_SIZE else room in
      pos ← buf_get b dataPos;
      size ← buf_get b dataSize;
      let wrPos := u32 (pos + size) in
      sock ← cget c cliSockRef;
      r ← le_socket_Read sock received;
      match r with
      | None => mret TAF_DOIP_RESULT_NETWORK_ERROR
      | Some bytes =>
          d ← buf_get b data;
          (if decide (wrPos + Z.of_nat (length bytes) <= Z.of_nat (length d))
           then buf_set b data (splice d wrPos bytes) else raise OutOfBounds);;
          buf_set b dataSize (u32 (size + Z.of_nat (length bytes)));;
          consuming ← cget c isConsuming;
          when (negb consuming)
            (cset c isConsuming true;; emit (QueueConsume sock));;
          mret TAF_DOIP_RESULT_OK
      end
  end.

Definition ReceiveDiagMessage (c : Z) : M Stack taf_doip_Result_t :=
  t ← cget c generalTimerRef;
  timer t TimerRestart;;
  total ← cget c udsTotalLen;
  received ← cget c udsReceived;
  s ← get;
  let objectSize := udsObjectSize s in
  ok ← (if received <? total then
          u ← cget c udsBuf; u ← demand u NullDeref;
          sock ← cget c cliSockRef;
          let room := (if objectSize <? total then u64 (objectSize - received) else u64 (total - received)) in
          r ← le_socket_Read sock room;
          match r with
          | None => mret false
          | Some bytes =>
              uds_copy u received bytes;;
              cset c udsReceived (u32 (received + Z.of_nat (length bytes)));; mret true
          end
        else mret true);
  if negb (ok : bool) then mret TAF_DOIP_RESULT_NETWORK_ERROR else
  received ← cget c udsReceived;
  when ((total <=? received) || (received =? objectSize)) (DiagnosticMsgSecondHandler c;; mret tt);;
  mret TAF_DOIP_RESULT_OK.

(** ** Creation *)
Definition setup_socket (sock : Z) (what : string) : M Stack bool :=
  emit (SocketSetup (Some sock) what);;
  s ← get; mret (bool_decide (socket_setup env (dtrace s) = LE_OK)).

Definition start_timer (r : TimerRef) (interval : Z) : M Stack TimerRef :=
  r ← timer_create r;
  timer (Some r) (TimerSetMsInterval interval);; timer (Some r) (TimerSetRepeat 1);; mret r.

Definition Connection_Start (c : Z) : M Stack taf_doip_Result_t :=
  r ← GetEntityLogicalAddr;
  match r with
  | None => mret TAF_DOIP_RESULT_UNKNOWN_SA
  | Some sourceAddr =>
      ty ← cget c connType;
      match ty with
      | TAF_DOIP_CONNECTION_TYPE_SVR => cset c entitySA sourceAddr
      | TAF_DOIP_CONNECTION_TYPE_CLI => cset c testerSA sourceAddr
      end;;
      b ← fresh;
      s ← get;
      inPool ::= <[b := mkBuffer (replicate (Z.to_nat TAF_DOIP_MAX_BUFFER_SIZE) 0) 0 0]> (inPool s);;
      cset c inBuf (Some b);;
      i ← GetInitialInactivityTime;
      t ← start_timer (ConnT c InitialTimer) (default TAF_DOIP_GENERAL_TIMEOUT_DEF i);
      cset c initialTimerRef (Some t);;
      g ← GetGenInactivityTime;
      t ← start_timer (ConnT c GeneralTimer) (default TAF_DOIP_INITIAL_TIMEOUT_DEF g);
      cset c generalTimerRef (Some t);;
      a ← GetAliveCheckTime;
      t ← start_timer (ConnT c AliveCheckTimer) (default TAF_DOIP_INITIAL_TIMEOUT_DEF a);
      cset c aliveCheckTimerRef (Some t);;
      sock ← cget c cliSockRef;
      ok1 ← setup_socket sock "timeout";
      ok2 ← (if (ok1 : bool) then setup_socket sock "handler" else mret false);
      ok3 ← (if (ok2 : bool) then setup_socket sock "monitor" else mret false);
      if (ok3 : bool) then
        ConnectionStateMachine env c TAF_DOIP_CONNECT_STATE_INITIALIZED 0;;
        cset c isConsuming false;;
        mret TAF_DOIP_RESULT_OK
      else
        t ← cget c aliveCheckTimerRef; timer_delete t;;
        t ← cget c generalTimerRef; timer_delete t;;
        t ← cget c initialTimerRef; timer_delete t;;
        release_in b;;
        cset c inBuf None;;
        mret TAF_DOIP_RESULT_ERROR
  end.

(** A new object; the members without an initialiser hold what was in the memory. *)
Definition new_connection (sock : Z) (ty : taf_doip_ConnectType_t) (ip : string) (port : Z)
    (ifname : string) : M Stack Z :=
  c ← fresh;
  s ← get;
  let g := u16 (garbage env (dtrace s)) in
  conns ::= <[c := mkConnection sock ip port ty ifname TAF_DOIP_CONNECT_STATE_INITIALIZED g g g
                     (u32 (garbage env (dtrace s))) false false None false (Some Wild) (Some Wild)
                     (Some Wild) None None 0 0]> (conns s);;
  mret c.

Definition ServerCreateConnection (sock : Z) (ip : string) (port : Z) (iface : string)
    : M Stack (option Z) :=
  r ← GetMaxConcurrentSockNum;
  n ← GetConnectionNum;
  if default TAF_DOIP_MCTS_DEFAULT r <=? n then mret None else
  connection ← new_connection sock TAF_DOIP_CONNECTION_TYPE_SVR ip (u16 port) iface;
  s ← get;
  connectionBox ::= connectionBox s ++ [connection];;
  Connection_Start connection;;
  mret (Some connection).

Definition FindOrCreateConnection (sock : option Z) (ip : string) (port : Z) (iface : string)
    : M Stack (option Z) :=
  match sock with
  | None => mret None
  | Some sock =>
      connection ← FindConnectionBySocket sock;
      match connection with
      | Some c => mret (Some c)
      | None => ServerCreateConnection sock ip port iface
      end
  end.

(** [TcpDataSocketEventCallback], with what [le_socket_Accept] gives. *)
Definition TcpDataSocketEventCallback (pollin : bool) (accepted : option (Z * string * Z)) (iface : string)
    : M Stack unit :=
  if negb pollin then mret tt else
  match accepted with
  | None => mret tt
  | Some (child, ip, port) => FindOrCreateConnection (Some child) ip port iface;; mret tt
  end.

(** ** Events *)
Definition SocketEventCallback (sock : Z) (pollrdhup pollin : bool) : M Stack unit :=
  connection ← FindConnectionBySocket sock;
  match connection with
  | None => mret tt
  | Some c =>
      if pollrdhup then ConnectionStateMachine env c TAF_DOIP_CONNECT_STATE_FINALIZE 0 else
      when pollin
        (total ← cget c udsTotalLen;
         received ← cget c udsReceived;
         if received <? total then ReceiveDiagMessage c;; mret tt
         else b ← cget c inBuf; ReceiveTCPData c b;; mret tt)
  end.

(** [InitialTimerHandler] and [GeneralTimerHandler]: [t] is the timer that expired, and [sock]
    the socket it was given. *)
Definition InactivityTimerHandler (t : TimerRef) (sock : Z) : M Stack unit :=
  connection ← FindConnectionBySocket sock;
  match connection with
  | None => mret tt
  | Some c =>
      timer (Some t) TimerStop;;
      ConnectionStateMachine env c TAF_DOIP_CONNECT_STATE_FINALIZE 0
  end.

Definition AliveCheckTimerHandler (t : TimerRef) (sock : Z) : M Stack unit :=
  connection ← FindConnectionBySocket sock;
  match connection with
  | None => mret tt
  | Some c =>
      timer (Some t) TimerStop;;
      all ← cget c allAliveCheckFlag;
      single ← cget c singleAliveCheckFlag;
      if negb all && negb single then mret tt else
      when all
        (r ← GetMaxConcurrentSockNum;
         s ← get;
         aliveCheckNcts ::= u32 (aliveCheckNcts s + 1);;
         s ← get;
         when (aliveCheckNcts s =? default TAF_DOIP_MCTS_DEFAULT r) (aliveCheckNcts ::= 0));;
      routing ← cget c routingConnectionPtr;
      match routing with
      | None => mret tt
      | Some w =>
          registered ← IsConnectionRegitered w;
          when (negb registered)
            (x ← cget w (fun x => x);
             cset w testerSA (raTesterSa x);;
             ConnectionStateMachine env w TAF_DOIP_CONNECT_STATE_REGISTERED_PENDING_FOR_AUTH (authInfo x))
      end;;
      ConnectionStateMachine env c TAF_DOIP_CONNECT_STATE_FINALIZE 0
  end.
End Recv.
