(* ===== verification/DoipUdp.v ===== *)
(** * The DoIP stack: discovery over UDP and the exchange with the upper layer

    The UDP part of [CommunicationMgr] ([tafDoIPCommunicationMgr.cpp]), the announcements of
    [VehicleDiscovery] ([tafDoIPVehDiscoveryAndParser.cpp]), the functions that run in the
    thread of the upper layer, and the session of the communication manager. *)
From S2P Require Import Prelude DoipTypes DoipVehicle DoipSend DoipConn DoipRecv.

Section Udp.
Variable env : DEnv.

(** ** Requests over UDP *)
Definition udp_link (ipPtr : string) (port : Z) : M Stack taf_doipLink_t :=
  s ← get; mret (mkLink (udpDiscoverSockRef s) ipPtr port TAF_DOIP_SOCKET_TYPE_UDP_UNI).

Definition RespondHeaderNegativeACK_udp (ipPtr : string) (port nackCode : Z) : M Stack unit :=
  link ← udp_link ipPtr port; HeaderNegativeACK env link nackCode.

(** Payload types that the entity accepts over UDP: the options for the identification by EID
    and for the entity status are 0. *)
Definition udp_accepts (ty : Z) : bool :=
  (ty =? TAF_DOIP_PAYLOAD_TYPE_VEHICLE_IDENTIFY_REQUEST)
  || (ty =? TAF_DOIP_PAYLOAD_TYPE_VEHICLE_IDENTIFY_REQUEST_VIN)
  || (ty =? TAF_DOIP_PAYLOAD_TYPE_POWER_MODE_INFO_REQUEST).

Definition CheckDoipHeaderOverUdp (header : taf_doipHeader_t) (ipPtr : string) (port : Z)
    : M Stack taf_doip_Result_t :=
  s ← get;
  r ← GetMaxDataSize;
  let refuse (nackCode : Z) : M Stack taf_doip_Result_t :=
    when (negb (bool_decide (instanceType s = TAF_DOIP_INSTANCE_TYPE_TESTER)))
      (RespondHeaderNegativeACK_udp ipPtr port nackCode);;
    mret TAF_DOIP_RESULT_HDR_ERROR in
  if negb (known_version (protocolVer header))
  then refuse TAF_DOIP_HEADER_NACK_INCORRECT_PATTERN_FORMAT
  else if negb (protocolVer header =? u8 (Z.lnot (invProtocolVer header)))
  then refuse TAF_DOIP_HEADER_NACK_INCORRECT_PATTERN_FORMAT
  else if negb (udp_accepts (payloadType header))
  then refuse TAF_DOIP_HEADER_NACK_UNKNOWN_PAYLOAD_TYPE
  else if default TAF_DOIP_MDS_DEFAULT r <? payloadLen header
  then refuse TAF_DOIP_HEADER_NACK_MESSAGE_TOO_LARGE
  else if u32 (udpDataLen s - TAF_DOIP_HEADER_GENERIC_LENGTH) <? payloadLen header
  then refuse TAF_DOIP_HEADER_NACK_OUT_OF_MEMORY
  else mret TAF_DOIP_RESULT_OK.

(** The identification that ends the three identification requests. *)
Definition identify (ipPtr : string) (port : Z) : M Stack unit :=
  link ← udp_link ipPtr port;
  r ← GetEntityLogicalAddr;
  match r with
  | None => mret tt
  | Some sourceAddr =>
      auth ← GetAuthEnableStatus;
      VehicleAnnounceOrIdRes env link sourceAddr
        (if (auth : bool) then TAF_DOIP_FURTHER_ACTION_REQUIRED else TAF_DOIP_NO_FURTHER_ACTION_REQUIRED)
  end.

Definition VehicleIdentifyReqHandler (ipPtr : string) (port : Z) : M Stack unit := identify ipPtr port.

(** [payload] is the message from the first byte of the payload on. *)
Definition VehicleIdentifyReqWithEidHandler (payload : list Z) (payloadLen : Z) (ipPtr : string) (port : Z)
    : M Stack unit :=
  if negb (payloadLen =? TAF_DOIP_EID_SIZE)
  then RespondHeaderNegativeACK_udp ipPtr port TAF_DOIP_HEADER_NACK_INVALID_PAYLOAD_LENGTH else
  ourEid ← GetEid;
  match ourEid with
  | None => mret tt
  | Some ourEid =>
      theirs ← bytes_at payload 0 TAF_DOIP_EID_SIZE;
      if negb (bool_decide (take (Z.to_nat TAF_DOIP_EID_SIZE) ourEid = theirs)) then mret tt
      else identify ipPtr port
  end.

Definition VehicleIdentifyReqWithVinHandler (payload : list Z) (payloadLen : Z) (ipPtr : string) (port : Z)
    : M Stack unit :=
  if negb (payloadLen =? TAF_DOIP_VIN_SIZE)
  then RespondHeaderNegativeACK_udp ipPtr port TAF_DOIP_HEADER_NACK_INVALID_PAYLOAD_LENGTH else
  ourVin ← GetVin;
  match ourVin with
  | None => mret tt
  | Some ourVin =>
      theirs ← bytes_at payload 0 TAF_DOIP_VIN_SIZE;
      ours ← whole TAF_DOIP_VIN_SIZE (Some ourVin);
      if negb (bool_decide (ours = theirs)) then mret tt else identify ipPtr port
  end.

Definition EntityStatusReqHandler (ipPtr : string) (port : Z) : M Stack unit :=
  mcts ← GetMaxConcurrentSockNum;
  mds ← GetMaxDataSize;
  ncts ← GetConnectionNum;
  link ← udp_link ipPtr port;
  DoIPEntityStatusRes env link 0x01 (u8 (default TAF_DOIP_MCTS_DEFAULT mcts)) (u8 ncts)
    (default TAF_DOIP_MDS_DEFAULT mds).

Fixpoint query_sessions (l : list taf_doipSession_t) : M Stack taf_doip_PowerMode_t :=
  match l with
  | [] => mret TAF_DOIP_POWER_MODE_NOT_SUPPORTED
  | x :: l' =>
      if pmQueryhandler x then
        emit (PowerModeCall (logicalSrcAddr x));; s ← get; mret (power_mode env (dtrace s))
      else query_sessions l'
  end.
Definition QueryPowerMode : M Stack taf_doip_PowerMode_t := s ← get; query_sessions (doipSessions s).

Definition power_mode_code (m : taf_doip_PowerMode_t) : Z :=
  match m with
  | TAF_DOIP_POWER_MODE_NOT_READY => 0
  | TAF_DOIP_POWER_MODE_READY => 1
  | TAF_DOIP_POWER_MODE_NOT_SUPPORTED => 2
  end.

Definition PowerModeReqHandler (ipPtr : string) (port : Z) : M Stack unit :=
  mode ← QueryPowerMode;
  link ← udp_link ipPtr port;
  DiagPowerModeRes env link (power_mode_code mode).

Definition EntityProcessDoipMessageOverUdp (payloadType : Z) (payload : list Z) (payloadLen : Z)
    (ipPtr : string) (port : Z) : M Stack unit :=
  if payloadType =? TAF_DOIP_PAYLOAD_TYPE_VEHICLE_IDENTIFY_REQUEST
  then VehicleIdentifyReqHandler ipPtr port
  else if payloadType =? TAF_DOIP_PAYLOAD_TYPE_VEHICLE_IDENTIFY_REQUEST_EID
  then VehicleIdentifyReqWithEidHandler payload payloadLen ipPtr port
  else if payloadType =? TAF_DOIP_PAYLOAD_TYPE_VEHICLE_IDENTIFY_REQUEST_VIN
  then VehicleIdentifyReqWithVinHandler payload payloadLen ipPtr port
  else if payloadType =? TAF_DOIP_PAYLOAD_TYPE_ENTITY_STATUS_REQUEST
  then EntityStatusReqHandler ipPtr port
  else if payloadType =? TAF_DOIP_PAYLOAD_TYPE_POWER_MODE_INFO_REQUEST
  then PowerModeReqHandler ipPtr port
  else mret tt.

(** [RecvUdpData], with what [le_socket_RecvFrom] gives: the bytes of the datagram, at most
    [TAF_DOIP_MAX_BUFFER_SIZE], and its sender. *)
Definition RecvUdpData (received : option (list Z * string * Z)) : M Stack taf_doip_Result_t :=
  match received with
  | None => mret TAF_DOIP_RESULT_NETWORK_ERROR
  | Some (datagram, remoteIp, remotePort) =>
      let bytes := take (Z.to_nat TAF_DOIP_MAX_BUFFER_SIZE) datagram in
      s ← get;
      old ← demand (udpDataBuffer s) NullDeref;
      let buf := splice old 0 bytes in
      udpDataBuffer ::= Some buf;;
      if existsb (fun i => bool_decide (remoteIp = localIp i)) (localIpInfo s)
      then mret TAF_DOIP_RESULT_OK else
      if bool_decide (remoteIp = "0.0.0.0") then mret TAF_DOIP_RESULT_OK else
      udpDataLen ::= Z.of_nat (length bytes);;
      if Z.of_nat (length bytes) <? TAF_DOIP_HEADER_GENERIC_LENGTH
      then mret TAF_DOIP_RESULT_MESSAGE_TOO_SHORT else
      hdr ← UnpackHeaderStruct buf 0;
      checked ← CheckDoipHeaderOverUdp hdr remoteIp remotePort;
      if negb (bool_decide (checked = TAF_DOIP_RESULT_OK)) then mret TAF_DOIP_RESULT_HDR_ERROR else
      EntityProcessDoipMessageOverUdp (payloadType hdr)
        (drop (Z.to_nat TAF_DOIP_HEADER_GENERIC_LENGTH) buf) (payloadLen hdr) remoteIp remotePort;;
      mret TAF_DOIP_RESULT_OK
  end.

Definition UdpSocketEventCallback (pollin : bool) (received : option (list Z * string * Z)) : M Stack unit :=
  when pollin (RecvUdpData received;; mret tt).

(** ** Announcements *)
Definition VehicleAnnounceTimerHandler (timerRef : option TimerRef) : M Stack unit :=
  s ← get;
  udpPort ← GetUdpPort; udpPort ← demand udpPort Uninitialised;
  let link := mkLink (udpDiscoverSockRef s) TAF_DOIP_UDP_BROADCAST_IP udpPort
                TAF_DOIP_SOCKET_TYPE_UDP_MULTI in
  sa ← GetEntityLogicalAddr; sa ← demand sa Uninitialised;
  auth ← GetAuthEnableStatus;
  VehicleAnnounceOrIdRes env link sa
    (if (auth : bool) then TAF_DOIP_FURTHER_ACTION_REQUIRED else TAF_DOIP_NO_FURTHER_ACTION_REQUIRED);;
  s ← get;
  let count := u32 (announceCount s + 1) in
  announceCount ::= count;;
  if count <? maxAnnounceCount s then
    interval ← GetAnnounceIntervalTime; interval ← demand interval Uninitialised;
    timer timerRef (TimerSetMsInterval interval);;
    timer timerRef TimerStart
  else if count =? maxAnnounceCount s then
    announceCount ::= 0;;
    timer timerRef TimerStop;;
    timer_delete timerRef
  else mret tt.

Definition VehicleDiscovery_Init : M Stack unit :=
  r ← timer_create WaitTimer; waitTimerRef ::= Some r.

Definition VehicleDiscoveryAnnounce : M Stack taf_doip_Result_t :=
  r ← GetMaxAnnounceCount;
  match r with Some n => maxAnnounceCount ::= n | None => mret tt end;;
  s ← get;
  match waitTimerRef s with
  | Some t =>
      wait ← GetAnnounceWait;
      (if (wait : bool) then VehicleAnnounceTimerHandler (Some t)
       else
         s ← get;
         timer (Some t) (TimerSetMsInterval
           (rand_between env (dtrace s) MIN_ANNOUNCE_WAIT_TIME MAX_ANNOUNCE_WAIT_TIME));;
         timer (Some t) (TimerSetRepeat 1);;
         timer (Some t) TimerStart);;
      mret TAF_DOIP_RESULT_OK
  | None => mret TAF_DOIP_RESULT_OK
  end.

(** ** The upper layer *)

(** Whether the session of a diagnostic message or of an event has a handler. *)
Definition has_handler (info : taf_doipDiagDataInfo_t) : M Stack bool :=
  session ← FindDoipSession (ita info);
  mret (match session with Some session => diagIndicationHandler session | None => false end).
Definition info_addr (info : taf_doipDiagDataInfo_t) : taf_doip_AddrInfo_t :=
  mkDoipAddr (isa info) (ita info) (itaType info) (ivlanId info) (iifName info).

(** The memory that the message pointer of a handler refers to: the rest of the block. *)
Definition message_at (info : taf_doipDiagDataInfo_t) : M Stack (list Z) :=
  block ← demand (idata info) NullDeref;
  s ← get;
  d ← demand (udsPool s !! block) UseAfterFree;
  bytes_at d two_addresses (Z.of_nat (length d) - two_addresses).

(** In the UDS thread: a diagnostic message is passed to the handler of its session. *)
Definition IndicateUdsMessage (info : taf_doipDiagDataInfo_t) : M Stack unit :=
  handler ← has_handler info;
  when handler
    (d ← message_at info;
     msg ← bytes_at d 0 (ilen info - two_addresses);
     emit (DiagIndication (info_addr info) (Some msg) TAF_DOIP_RESULT_OK));;
  block ← demand (idata info) NullDeref;
  release_uds block.

Definition IndicateConnectionEvent (info : taf_doipDiagDataInfo_t) (rgistResult : taf_doip_Result_t)
    : M Stack unit :=
  handler ← has_handler info;
  when handler (emit (DiagIndication (info_addr info) None rgistResult)).

Definition ConfirmUserMessage (info : taf_doipDiagDataInfo_t) : M Stack unit :=
  session ← FindDoipSession (isa info);
  match session with
  | Some session =>
      when (diagConfirmHandler session) (emit (DiagConfirm (isa info) (ita info) (itaType info)))
  | None => mret tt
  end.

(** A message of the upper layer is packed into a block and queued to the main thread. *)
Definition TransUdsMessage (sa ta : Z) (taType : taf_doip_TaType_t) (dataPtr : list Z)
    : M Stack taf_doip_Result_t :=
  let length := Z.of_nat (length dataPtr) in
  if length =? 0 then mret TAF_DOIP_RESULT_PARAM_ERROR else
  session ← FindDoipSession sa;
  match session with
  | None => mret TAF_DOIP_RESULT_UNKNOWN_SA
  | Some _ =>
      b ← uds_alloc env;
      match b with
      | None => mret TAF_DOIP_RESULT_OUT_OF_MEMORY
      | Some block =>
          let payloadLen := u32 (length + two_addresses) in
          header ← PackGenericHeader TAF_DOIP_PAYLOAD_TYPE_DIAGNOSTIC_MESSAGE payloadLen;
          uds_copy block 0 (header ++ net16 sa ++ net16 ta);;
          uds_copy block (TAF_DOIP_HEADER_GENERIC_LENGTH + two_addresses) dataPtr;;
          let pos := TAF_DOIP_HEADER_GENERIC_LENGTH + two_addresses + length in
          emit (QueueRequestUds (mkDiagInfo sa ta taType (Some block) pos 0 ""));;
          emit (QueueConfirmUser (mkDiagInfo sa ta taType None 0 0 ""));;
          mret TAF_DOIP_RESULT_OK
      end
  end.

(** In the main thread: the message goes to the connection of its target. *)
Definition RequestUdsMessage (info : taf_doipDiagDataInfo_t) : M Stack unit :=
  block ← demand (idata info) NullDeref;
  connection ← FindConnectionByLogicalAddr (ita info);
  match connection with
  | Some c =>
      s ← get;
      d ← demand (udsPool s !! block) UseAfterFree;
      msg ← bytes_at d 0 (ilen info);
      SendDiagMessage env c msg;; mret tt
  | None => mret tt
  end;;
  release_uds block.

(** ** The session *)
Definition ConnectionManager_Init : M Stack unit :=
  r ← GetMaxDataSize;
  let length := default TAF_DOIP_MDS_DEFAULT r in
  udsObjectSize ::= (if length <? TAF_DOIP_MAX_BUFFER_SIZE then TAF_DOIP_MAX_BUFFER_SIZE else length).

Definition monitor (sock : option Z) (what : string) : M Stack bool :=
  match sock with
  | None => mret true
  | Some s => setup_socket env s what
  end.
Fixpoint monitor_pairs (tcp udp : list (option Z)) : M Stack bool :=
  match tcp, udp with
  | t :: tcp', u :: udp' =>
      ok ← monitor t "monitor";
      if negb (ok : bool) then mret false else
      ok ← monitor u "monitor";
      if negb (ok : bool) then mret false else monitor_pairs tcp' udp'
  | _, _ => mret true
  end.

Definition SessionStart : M Stack taf_doip_Result_t :=
  s ← get;
  match commState s with
  | TAF_DOIP_STATE_START | TAF_DOIP_STATE_RUNNING => mret TAF_DOIP_RESULT_OK
  | TAF_DOIP_STATE_INIT | TAF_DOIP_STATE_STOP =>
      commState ::= TAF_DOIP_STATE_START;;
      match udpDataBuffer s with
      | None => udpDataBuffer ::= Some (replicate (Z.to_nat TAF_DOIP_MAX_BUFFER_SIZE) 0)
      | Some _ => mret tt
      end;;
      udpDataLen ::= 0;;
      ok ← monitor (udpDiscoverSockRef s) "monitor";
      if negb (ok : bool) then mret TAF_DOIP_RESULT_ERROR else
      ok ← monitor_pairs (tcpDataSockRef s) (udpEquipSockRef s);
      if negb (ok : bool) then mret TAF_DOIP_RESULT_ERROR else
      commState ::= TAF_DOIP_STATE_RUNNING;;
      mret TAF_DOIP_RESULT_OK
  | TAF_DOIP_STATE_FINAL => mret TAF_DOIP_RESULT_ERROR
  end.

Fixpoint unmonitor_pairs (tcp udp : list (option Z)) : M Stack unit :=
  match tcp, udp with
  | t :: tcp', u :: udp' =>
      monitor t "unmonitor";; monitor u "unmonitor";; unmonitor_pairs tcp' udp'
  | _, _ => mret tt
  end.

Definition SessionStop : M Stack taf_doip_Result_t :=
  s ← get;
  match commState s with
  | TAF_DOIP_STATE_START | TAF_DOIP_STATE_RUNNING =>
      udpDataBuffer ::= None;;
      udpDataLen ::= 0;;
      unmonitor_pairs (tcpDataSockRef s) (udpEquipSockRef s);;
      monitor (udpDiscoverSockRef s) "unmonitor";;
      commState ::= TAF_DOIP_STATE_STOP;;
      mret TAF_DOIP_RESULT_OK
  | _ => mret TAF_DOIP_RESULT_OK
  end.

Definition delete_socket (sock : option Z) : M Stack unit :=
  match sock with Some _ => emit (SocketDelete sock) | None => mret tt end.

Definition SessionDeInit : M Stack taf_doip_Result_t :=
  s ← get;
  when (bool_decide (commState s = TAF_DOIP_STATE_RUNNING) || bool_decide (commState s = TAF_DOIP_STATE_START))
    (SessionStop;; mret tt);;
  ShutdownAllConnection env;;
  timer (Some ShutdownTimer) (TimerSetMsInterval 5000);;
  timer (Some ShutdownTimer) TimerStart;;
  s ← get;
  emit (SocketDelete (udpDiscoverSockRef s));;
  udpDiscoverSockRef ::= None;;
  for_each (zip (tcpDataSockRef s) (udpEquipSockRef s)) (fun p =>
    emit (SocketDelete p.1);; delete_socket p.2);;
  tcpDataSockRef ::= replicate (Z.to_nat MAX_INF_NUM) None;;
  udpEquipSockRef ::= replicate (Z.to_nat MAX_INF_NUM) None;;
  mret TAF_DOIP_RESULT_OK.
End Udp.
