(* ===== verification/DoipSpec.v ===== *)
(** * The DoIP stack: what its steps do

    Sending changes nothing but the trace, and its effects are a function of the state and
    the message; the lemmas here say which, and how connections are found. *)
From S2P Require Import Prelude DoipTypes DoipVehicle DoipSend DoipConn DoipRecv DoipUdp.

(** ** Stepping through the DoIP stack *)
Definition dlog (s : Stack) (es : list DEffect) : Stack := s <| dtrace := dtrace s ++ es |>.

(** Stacks with the same members are the same. *)
Lemma stack_ext s s' :
  doipConfigPtr s = doipConfigPtr s' ->
  connectionBox s = connectionBox s' ->
  conns s = conns s' ->
  inPool s = inPool s' ->
  udsPool s = udsPool s' ->
  udsObjectSize s = udsObjectSize s' ->
  nextId s = nextId s' ->
  liveTimers s = liveTimers s' ->
  aliveCheckNcts s = aliveCheckNcts s' ->
  commState s = commState s' ->
  instanceType s = instanceType s' ->
  udpDiscoverSockRef s = udpDiscoverSockRef s' ->
  udpEquipSockRef s = udpEquipSockRef s' ->
  tcpDataSockRef s = tcpDataSockRef s' ->
  localIpInfo s = localIpInfo s' ->
  udpDataBuffer s = udpDataBuffer s' ->
  udpDataLen s = udpDataLen s' ->
  doipSessions s = doipSessions s' ->
  waitTimerRef s = waitTimerRef s' ->
  announceCount s = announceCount s' ->
  maxAnnounceCount s = maxAnnounceCount s' ->
  dtrace s = dtrace s' -> s = s'.
Proof. destruct s, s'. cbn. by intros; subst. Qed.

Lemma dlog_dlog s es es' : dlog (dlog s es) es' = dlog s (es ++ es').
Proof. unfold dlog. cbn. by rewrite app_assoc. Qed.
Lemma dlog_nil s : dlog s [] = s.
Proof. unfold dlog. cbn. rewrite app_nil_r. by destruct s. Qed.

Section Steps.
Context {T : Type}.
Implicit Types (Q : unit -> Stack -> Prop) (s : Stack).

Lemma wp_demit e Q s : Q tt (dlog s [e]) -> wp (emit e) Q s.
Proof. done. Qed.
Lemma wp_assign (p : Stack -> T) `{!Field p} v Q s : Q tt (s <| p := v |>) -> wp (p ::= v) Q s.
Proof. done. Qed.
Lemma wp_cget (p : Connection -> T) c x (Q : T -> Stack -> Prop) s :
  conns s !! c = Some x -> Q (p x) s -> wp (cget c p) Q s.
Proof. intros Hx HQ. unfold wp, cget, mbind, M_bind, get, demand. by rewrite Hx. Qed.
Lemma wp_cset (p : Connection -> T) `{!Field p} c x v Q s :
  conns s !! c = Some x -> Q tt (s <| conns := <[c := x <| p := v |>]> (conns s) |>) ->
  wp (cset c p v) Q s.
Proof. intros Hx HQ. unfold wp, cset, mbind, M_bind, get, demand. by rewrite Hx. Qed.
Lemma wp_buf_get (p : taf_doip_Buffer_t -> T) b x (Q : T -> Stack -> Prop) s :
  inPool s !! b = Some x -> Q (p x) s -> wp (buf_get b p) Q s.
Proof. intros Hx HQ. unfold wp, buf_get, mbind, M_bind, get, demand. by rewrite Hx. Qed.
Lemma wp_buf_set (p : taf_doip_Buffer_t -> T) `{!Field p} b x v Q s :
  inPool s !! b = Some x -> Q tt (s <| inPool := <[b := x <| p := v |>]> (inPool s) |>) ->
  wp (buf_set b p v) Q s.
Proof. intros Hx HQ. unfold wp, buf_set, mbind, M_bind, get, demand. by rewrite Hx. Qed.
Lemma wp_timer r op Q s :
  r ∈ liveTimers s -> Q tt (dlog s [DTimer r op]) -> wp (timer (Some r) op) Q s.
Proof.
  intros Hr HQ. unfold wp, timer, timer_ref, mbind, M_bind, get, demand. cbn.
  by rewrite bool_decide_true.
Qed.
Lemma wp_is_running env r (Q : bool -> Stack -> Prop) s :
  r ∈ liveTimers s -> Q (timer_running env (dtrace s) r) s -> wp (is_running env (Some r)) Q s.
Proof.
  intros Hr HQ. unfold wp, is_running, timer_ref, mbind, M_bind, get, demand. cbn.
  by rewrite bool_decide_true.
Qed.
End Steps.

Lemma wp_bytes_at b i len (Q : list Z -> Stack -> Prop) s :
  0 <= i -> 0 <= len -> i + len <= Z.of_nat (length b) ->
  Q (take (Z.to_nat len) (drop (Z.to_nat i) b)) s -> wp (bytes_at b i len) Q s.
Proof. intros ? ? ? HQ. unfold bytes_at. by rewrite decide_True. Qed.

(** ** Finding connections *)
Section Find.
Implicit Types s : Stack.

Lemma find_in_spec p box s :
  (forall c, c ∈ box -> is_Some (conns s !! c)) ->
  wp (find_in p box) (fun r s' => s' = s /\
    match r with
    | Some c => c ∈ box /\ exists x, conns s !! c = Some x /\ p x = true
    | None => forall c x, c ∈ box -> conns s !! c = Some x -> p x = false
    end) s.
Proof.
  induction box as [|c box IH]; intros Hall; cbn [find_in].
  - split; [done|]. by intros ? ? ?%not_elem_of_nil.
  - destruct (Hall c) as [x Hx]; [by left|]. wp_step. eapply wp_cget; [exact Hx|].
    destruct (p x) eqn:Hp; [split; [done|split; [by left|eauto]]|].
    eapply wp_conseq; [apply IH; intros c' Hc'; apply Hall; by right|]. intros [c'|] s' [-> H].
    + destruct H as [Hc' H]. split; [done|]. split; [by right|done].
    + split; [done|]. intros c' x' [->|Hin]%elem_of_cons Hx'; [congruence|by eapply H].
Qed.
End Find.

(** The connections of the box are objects, and their sockets are different. *)
Record box_ok (s : Stack) : Prop := mkBoxOk {
  box_nodup : NoDup (connectionBox s);
  box_objects : forall c, c ∈ connectionBox s -> is_Some (conns s !! c);
  box_sockets : forall c c' x x', c ∈ connectionBox s -> c' ∈ connectionBox s ->
    conns s !! c = Some x -> conns s !! c' = Some x' -> cliSockRef x = cliSockRef x' -> c = c' }.

(** An object outside the box does not matter. *)
Lemma box_ok_insert_other s w y :
  box_ok s -> w ∉ connectionBox s -> box_ok (s <| conns := <[w := y]> (conns s) |>).
Proof.
  intros [Hnd Ho Hs] Hw.
  assert (Hl : forall c, c ∈ connectionBox s -> <[w := y]> (conns s) !! c = conns s !! c).
  { intros c Hc. apply lookup_insert_ne. by intros ->. }
  split; [done|cbn; intros c Hc; rewrite Hl by done; by apply Ho|].
  cbn. intros c c' x x' Hc Hc'. rewrite !Hl by done. by apply Hs.
Qed.

(** A connection of the box with its general timer. *)
Record serving (s : Stack) (c : Z) (x : Connection) (g : TimerRef) : Prop := mkServing {
  sv_object : conns s !! c = Some x;
  sv_box : c ∈ connectionBox s;
  sv_timer : generalTimerRef x = Some g;
  sv_live : g ∈ liveTimers s }.

Lemma wp_FindConnectionBySocket s c x (Q : option Z -> Stack -> Prop) :
  box_ok s -> conns s !! c = Some x -> c ∈ connectionBox s ->
  Q (Some c) s -> wp (FindConnectionBySocket (cliSockRef x)) Q s.
Proof.
  intros Hbox Hx Hc HQ. unfold FindConnectionBySocket. do 2 wp_step.
  eapply wp_conseq; [by apply find_in_spec, Hbox|]. intros [c'|] s' [-> H].
  - destruct H as (Hc' & x' & Hx' & Hs). apply Z.eqb_eq in Hs.
    by rewrite (box_sockets _ Hbox c' c x' x) in * by done.
  - specialize (H c x Hc Hx). by rewrite Z.eqb_refl in H.
Qed.

(** ** Sending over TCP *)
Section Sending.
Variable env : DEnv.

Definition send_effects (s : Stack) (x : Connection) (g : TimerRef) (msg : list Z) : list DEffect :=
  (if timer_running env (dtrace s) g then [DTimer g TimerRestart] else []) ++
  [SocketSend (cliSockRef x) msg].

Lemma wp_Connection_SendTCPData s c x g msg (Q : taf_doip_Result_t -> Stack -> Prop) :
  serving s c x g -> msg <> [] ->
  (forall r, Q r (dlog s (send_effects s x g msg))) -> wp (Connection_SendTCPData env c msg) Q s.
Proof.
  intros [Hx Hc Hg Hl] Hm HQ. unfold Connection_SendTCPData. rewrite bool_decide_false by done.
  wp_step. eapply wp_cget; [done|]. rewrite Hg. wp_step. apply wp_is_running; [done|].
  unfold send_effects in HQ. wp_step. unfold when. destruct (timer_running _ _ _).
  - apply wp_timer; [done|]. wp_step. eapply wp_cget; [done|]. wp_step. apply wp_demit.
    rewrite dlog_dlog. wp_step. wp_step. apply HQ.
  - wp_step. wp_step. eapply wp_cget; [done|]. wp_step. apply wp_demit. wp_step. wp_step. apply HQ.
Qed.

Lemma wp_SendTCPData s c x g msg (Q : taf_doip_Result_t -> Stack -> Prop) :
  box_ok s -> serving s c x g -> msg <> [] -> Z.of_nat (length msg) < TAF_DOIP_MAX_BUFFER_SIZE ->
  Q TAF_DOIP_RESULT_OK (dlog s (send_effects s x g msg)) ->
  wp (SendTCPData env (Some (cliSockRef x)) msg) Q s.
Proof.
  intros Hb Hs Hm Hlen HQ. unfold SendTCPData. cbv zeta.
  assert (Hpos : 0 < Z.of_nat (length msg)) by (destruct msg; [done|cbn; lia]).
  destruct (Z.eqb_spec (Z.of_nat (length msg)) 0); [lia|].
  destruct (Z.leb_spec TAF_DOIP_MAX_BUFFER_SIZE (Z.of_nat (length msg))); [lia|]. cbn [orb].
  wp_step. eapply wp_FindConnectionBySocket; [done|apply Hs|apply Hs|]. wp_step.
  eapply wp_Connection_SendTCPData; [done|done|]. intros r. by wp_step.
Qed.

(** The messages the stack builds: header and fields. *)
Definition version_of (cfg : taf_doip_Config_t) : Z :=
  if isTLS cfg then TAF_DOIP_PROTOCOL_VERSION_2019 else TAF_DOIP_PROTOCOL_VERSION_2012.
Definition doip_header (cfg : taf_doip_Config_t) (ty len : Z) : list Z :=
  [version_of cfg; u8 (Z.lnot (version_of cfg))] ++ net16 ty ++ net32 len.
Definition doip_message (cfg : taf_doip_Config_t) (ty : Z) (fields : list Z) : list Z :=
  doip_header cfg ty (Z.of_nat (length fields)) ++ fields.

Lemma length_doip_message cfg ty fields :
  length (doip_message cfg ty fields) = (8 + length fields)%nat.
Proof. unfold doip_message. rewrite length_app. done. Qed.

Lemma wp_PackGenericHeader s cfg ty len (Q : list Z -> Stack -> Prop) :
  doipConfigPtr s = Some cfg -> Q (doip_header cfg ty len) s -> wp (PackGenericHeader ty len) Q s.
Proof.
  intros Hcfg HQ. unfold PackGenericHeader, GetProtocolVersion. do 3 wp_step. rewrite Hcfg. wp_step.
  eapply wp_demand; [done|]. do 2 wp_step. unfold doip_header, version_of in HQ. by destruct (isTLS cfg).
Qed.

Lemma wp_message s cfg ty len fields (Q : list Z -> Stack -> Prop) :
  doipConfigPtr s = Some cfg -> len = Z.of_nat (length fields) ->
  Q (doip_message cfg ty fields) s -> wp (message ty len fields) Q s.
Proof.
  intros Hcfg -> HQ. unfold message. wp_step. eapply wp_PackGenericHeader; [done|].
  change (doip_header cfg ty _ ++ fields) with (doip_message cfg ty fields).
  unfold filled. rewrite length_doip_message.
  destruct (Z.ltb_spec (Z.of_nat (length fields) + TAF_DOIP_HEADER_GENERIC_LENGTH) (Z.of_nat (8 + length fields))); [lia|].
  destruct (Z.ltb_spec (Z.of_nat (8 + length fields)) (Z.of_nat (length fields) + TAF_DOIP_HEADER_GENERIC_LENGTH)); [lia|].
  by wp_step.
Qed.

(** A TCP message built and sent over the connection's own link. *)
Definition tells (s : Stack) (x : Connection) (g : TimerRef) (cfg : taf_doip_Config_t) (ty : Z) (fields : list Z) : Stack :=
  dlog s (send_effects s x g (doip_message cfg ty fields)).

Lemma wp_tcp_link s c x (Q : taf_doipLink_t -> Stack -> Prop) :
  conns s !! c = Some x -> Q (mkLink (Some (cliSockRef x)) "" 0 TAF_DOIP_SOCKET_TYPE_TCP) s ->
  wp (tcp_link c) Q s.
Proof. intros Hx HQ. unfold tcp_link. wp_step. eapply wp_cget; [done|]. by wp_step. Qed.

Lemma wp_over_tcp s c x g msg (Q : taf_doip_Result_t -> Stack -> Prop) :
  box_ok s -> serving s c x g -> msg <> [] -> Z.of_nat (length msg) < TAF_DOIP_MAX_BUFFER_SIZE ->
  Q TAF_DOIP_RESULT_OK (dlog s (send_effects s x g msg)) ->
  wp (over_tcp env (mkLink (Some (cliSockRef x)) "" 0 TAF_DOIP_SOCKET_TYPE_TCP) msg) Q s.
Proof.
  intros. unfold over_tcp. cbn [commType sockRef]. rewrite bool_decide_true by done. wp_step.
  eapply wp_SendTCPData; [done..|]. by wp_step.
Qed.

Definition own_link (x : Connection) : taf_doipLink_t :=
  mkLink (Some (cliSockRef x)) "" 0 TAF_DOIP_SOCKET_TYPE_TCP.

Section Messages.
Context (s : Stack) (c : Z) (x : Connection) (g : TimerRef) (cfg : taf_doip_Config_t).
Context (Hbox : box_ok s) (Hs : serving s c x g) (Hcfg : doipConfigPtr s = Some cfg).
Implicit Types Q : unit -> Stack -> Prop.

Lemma wp_tell ty len fields (k : list Z -> M Stack taf_doip_Result_t) Q :
  len = Z.of_nat (length fields) -> Z.of_nat (length fields) < 1000 ->
  (forall d, k d = over_tcp env (own_link x) d) -> Q tt (tells s x g cfg ty fields) ->
  wp (d ← message ty len fields; k d;; mret tt) Q s.
Proof using Hbox Hs Hcfg.
  intros Hlen Hsmall Hk HQ. wp_step. eapply wp_message; [exact Hcfg|exact Hlen|]. wp_step. rewrite Hk.
  eapply wp_over_tcp; [exact Hbox|exact Hs| | |by wp_step].
  - intros He. by apply (f_equal length) in He; rewrite length_doip_message in He.
  - rewrite length_doip_message. lia.
Qed.

Lemma wp_RoutingActivationRes equip entity code Q :
  Q tt (tells s x g cfg TAF_DOIP_PAYLOAD_TYPE_ROUTING_ACTIVE_RESPONSE
          (net16 equip ++ net16 entity ++ [code] ++ host32 0)) ->
  wp (RoutingActivationRes env (own_link x) equip entity code 0) Q s.
Proof using Hbox Hs Hcfg. intros. by apply wp_tell. Qed.

Lemma wp_AliveCheckReq Q :
  Q tt (tells s x g cfg TAF_DOIP_PAYLOAD_TYPE_ALIVE_CHECK_REQUEST []) ->
  wp (AliveCheckReq env (own_link x)) Q s.
Proof using Hbox Hs Hcfg. intros. by apply wp_tell. Qed.

Lemma wp_AliveCheckRes la Q :
  Q tt (tells s x g cfg TAF_DOIP_PAYLOAD_TYPE_ALIVE_CHECK_RESPONSE (net16 la)) ->
  wp (AliveCheckRes env (own_link x) la) Q s.
Proof using Hbox Hs Hcfg. intros. by apply wp_tell. Qed.

Lemma wp_HeaderNegativeACK code Q :
  0 <= code <= 4 ->
  Q tt (tells s x g cfg TAF_DOIP_PAYLOAD_TYPE_HEADER_NEGATIVE_ACK [code]) ->
  wp (HeaderNegativeACK env (own_link x) code) Q s.
Proof using Hbox Hs Hcfg.
  intros Hc HQ. unfold HeaderNegativeACK.
  destruct (Z.ltb_spec code TAF_DOIP_HEADER_NACK_INCORRECT_PATTERN_FORMAT); [lia|].
  destruct (Z.ltb_spec TAF_DOIP_HEADER_NACK_INVALID_PAYLOAD_LENGTH code); [lia|]. by apply wp_tell.
Qed.

Lemma wp_DiagNegativeACK entity equip code Q :
  2 <= code <= 8 ->
  Q tt (tells s x g cfg TAF_DOIP_PAYLOAD_TYPE_DIAGNOSTIC_NEGATIVE_ACK (net16 entity ++ net16 equip ++ [code])) ->
  wp (DiagNegativeACK env (own_link x) entity equip code) Q s.
Proof using Hbox Hs Hcfg.
  intros Hc HQ. unfold DiagNegativeACK.
  destruct (Z.ltb_spec code TAF_DOIP_DIAGNOSTIC_NACK_INVALID_SA); [lia|].
  destruct (Z.ltb_spec TAF_DOIP_DIAGNOSTIC_NACK_TRANS_PROTO_ERROR code); [lia|]. by apply wp_tell.
Qed.

Lemma wp_DiagPositiveACK entity equip Q :
  Q tt (tells s x g cfg TAF_DOIP_PAYLOAD_TYPE_DIAGNOSTIC_POSITIVE_ACK
          (net16 entity ++ net16 equip ++ [TAF_DOIP_DIAGNOSTIC_ACK])) ->
  wp (DiagPositiveACK env (own_link x) entity equip) Q s.
Proof using Hbox Hs Hcfg. intros. by apply wp_tell. Qed.
End Messages.
End Sending.

(** What a trace tells a peer over a socket. *)
Definition sent (es : list DEffect) : list (Z * list Z) :=
  omap (fun e => match e with SocketSend sock msg => Some (sock, msg) | _ => None end) es.

Lemma dsent_app es es' : sent (es ++ es') = sent es ++ sent es'.
Proof. apply omap_app. Qed.
Lemma sent_send_effects env s x g msg : sent (send_effects env s x g msg) = [(cliSockRef x, msg)].
Proof. unfold send_effects. rewrite dsent_app. by destruct (timer_running _ _ _). Qed.

(** What a trace reports of registrations. *)
Definition reports (es : list DEffect) : list (taf_doip_Result_t * Z * Z) :=
  omap (fun e => match e with QueueConnectionEvent i r => Some (r, isa i, ita i) | _ => None end) es.

Lemma reports_app es es' : reports (es ++ es') = reports es ++ reports es'.
Proof. apply omap_app. Qed.

(** What a trace leaves for the UDS thread to run. *)
Definition for_uds (e : DEffect) : bool :=
  match e with QueueIndicateUds _ | QueueConnectionEvent _ _ | QueueConfirmUser _ => true | _ => false end.
Definition uds_queue (es : list DEffect) : list DEffect := filter for_uds es.

(** Effects that tell nobody anything. *)
Definition silent (es : list DEffect) : Prop := sent es = [] /\ reports es = [].

Lemma silent_nil : silent [].
Proof. done. Qed.
Lemma silent_app es es' : silent es -> silent es' -> silent (es ++ es').
Proof. intros [H1 H2] [H3 H4]. unfold silent. by rewrite dsent_app, reports_app, H1, H2, H3, H4. Qed.
#[export] Hint Resolve silent_nil silent_app : telaf.

Lemma serving_dlog s es c x g : serving s c x g -> serving (dlog s es) c x g.
Proof. by intros []. Qed.
Lemma box_ok_dlog s es : box_ok s -> box_ok (dlog s es).
Proof. by intros []. Qed.
#[export] Hint Resolve serving_dlog box_ok_dlog : telaf.

(** ** Deleting a connection *)

(** A started connection: it is in the box, has its timers and its reception buffer, and what
    it holds of the pools is allocated. *)
Record started (s : Stack) (c : Z) (x : Connection) (b : Z) : Prop := mkStarted {
  st_object : conns s !! c = Some x;
  st_box : c ∈ connectionBox s;
  st_initial : initialTimerRef x = Some (ConnT c InitialTimer);
  st_general : generalTimerRef x = Some (ConnT c GeneralTimer);
  st_alive : aliveCheckTimerRef x = Some (ConnT c AliveCheckTimer);
  st_live : forall k, ConnT c k ∈ liveTimers s;
  st_inBuf : inBuf x = Some b;
  st_inPool : is_Some (inPool s !! b);
  st_udsPool : forall u, udsBuf x = Some u -> is_Some (udsPool s !! u) }.

Lemma started_serving s c x b : started s c x b -> serving s c x (ConnT c GeneralTimer).
Proof. by intros []. Qed.

(** The members that a deleted connection gives up. *)
Definition disposed (x : Connection) : Connection :=
  x <| aliveCheckTimerRef := None |> <| generalTimerRef := None |> <| initialTimerRef := None |>
    <| inBuf := None |> <| udsBuf := None |>.

(** [s'] is [s] after the connection [c] has given up what it owned. *)
Record stopped (s : Stack) (c : Z) (x : Connection) (s' : Stack) (es : list DEffect) : Prop := mkStopped {
  sp_state : s' = s <| conns := <[c := disposed x]> (conns s) |> <| liveTimers := liveTimers s' |>
    <| inPool := inPool s' |> <| udsPool := udsPool s' |> <| dtrace := dtrace s ++ es |>;
  sp_timers : forall r, r ∈ liveTimers s' <-> r ∈ liveTimers s /\ forall k, r <> ConnT c k;
  sp_inPool : inPool s' = match inBuf x with Some b => delete b (inPool s) | None => inPool s end;
  sp_udsPool : udsPool s' = match udsBuf x with Some u => delete u (udsPool s) | None => udsPool s end;
  sp_silent : silent es;
  sp_closed : last es = Some (SocketDelete (Some (cliSockRef x))) }.

Section Stopping.
Variable env : DEnv.

(** Stopping a timer only logs. *)
Lemma wp_stop_timer r (Q : unit -> Stack -> Prop) s :
  r ∈ liveTimers s -> (forall es, silent es -> Q tt (dlog s es)) -> wp (stop_timer env (Some r)) Q s.
Proof.
  intros Hr HQ. unfold stop_timer. wp_step. apply wp_is_running; [done|]. unfold when.
  destruct (timer_running _ _ _); [by apply wp_timer, HQ|]. wp_step. specialize (HQ []). rewrite dlog_nil in HQ. by apply HQ.
Qed.

Lemma wp_timer_delete r (Q : unit -> Stack -> Prop) s :
  r ∈ liveTimers s ->
  Q tt (dlog (s <| liveTimers := filter (fun t => t <> r) (liveTimers s) |>) [DTimer r TimerDelete]) ->
  wp (timer_delete (Some r)) Q s.
Proof.
  intros Hr HQ. unfold wp, timer_delete, timer_ref, mbind, M_bind, get, demand. cbn.
  by rewrite bool_decide_true.
Qed.

Lemma wp_release_in b (Q : unit -> Stack -> Prop) s :
  is_Some (inPool s !! b) -> Q tt (s <| inPool := delete b (inPool s) |>) -> wp (release_in b) Q s.
Proof. intros [v Hv] HQ. unfold wp, release_in, mbind, M_bind, get, demand. by rewrite Hv. Qed.
Lemma wp_release_uds b (Q : unit -> Stack -> Prop) s :
  is_Some (udsPool s !! b) -> Q tt (s <| udsPool := delete b (udsPool s) |>) -> wp (release_uds b) Q s.
Proof. intros [v Hv] HQ. unfold wp, release_uds, mbind, M_bind, get, demand. by rewrite Hv. Qed.

(** The state as its fields, so that an update stays one level deep. *)
Ltac settle :=
  cbv [dlog assign
    set_vin set_eid set_gid set_entityLA set_data set_dataSize set_dataPos set_connState
    set_testerSA set_entitySA set_raTesterSa set_authInfo set_allAliveCheckFlag
    set_singleAliveCheckFlag set_routingConnectionPtr set_isConsuming set_initialTimerRef
    set_generalTimerRef set_aliveCheckTimerRef set_inBuf set_udsBuf set_udsTotalLen
    set_udsReceived set_doipConfigPtr set_connectionBox set_conns set_inPool set_udsPool
    set_udsObjectSize set_nextId set_liveTimers set_aliveCheckNcts set_commState
    set_udpDiscoverSockRef set_udpEquipSockRef set_tcpDataSockRef set_localIpInfo
    set_udpDataBuffer set_udpDataLen set_doipSessions set_waitTimerRef set_announceCount
    set_maxAnnounceCount set_dtrace];
  cbn -[filter]; rewrite ?insert_insert_eq.
Ltac read_conn := wp_step; eapply wp_cget; [settle; by first [eassumption|apply lookup_insert_eq]|settle].
Ltac write_conn := wp_step; eapply wp_cset; [settle; by first [eassumption|apply lookup_insert_eq]|settle].

Lemma Connection_Stop_spec s c x b :
  started s c x b ->
  wp (Connection_Stop env c) (fun _ s' => exists es, stopped s c x s' es) s.
Proof.
  intros [Hx Hc Hi Hg Ha Hl Hb Hbp Hup]. destruct s, x; cbn in *; subst. unfold Connection_Stop.
  read_conn. wp_step. apply wp_stop_timer; [done|]. intros es1 He1. settle.
  read_conn. wp_step. apply wp_stop_timer; [done|]. intros es2 He2. settle.
  read_conn. wp_step. apply wp_stop_timer; [done|]. intros es3 He3. settle. unfold delete_timer.
  wp_step. apply wp_timer_delete; [done|]. settle. write_conn.
  wp_step. apply wp_timer_delete; [settle; by apply list_elem_of_filter|]. settle. write_conn.
  wp_step. apply wp_timer_delete; [settle; rewrite !list_elem_of_filter; naive_solver|]. settle. write_conn.
  read_conn. do 2 wp_step. apply wp_release_in; [done|]. settle. eapply wp_cset; [settle; apply lookup_insert_eq|]. settle.
  read_conn.
  assert (Hdel : forall r, r ∈ filter (fun t => t <> ConnT c InitialTimer)
      (filter (fun t => t <> ConnT c GeneralTimer) (filter (fun t => t <> ConnT c AliveCheckTimer) liveTimers)) <->
    r ∈ liveTimers /\ forall k, r <> ConnT c k).
  { intros r. rewrite !list_elem_of_filter. split; [|naive_solver].
    intros (? & ? & ? & ?). split; [done|]. by intros []. }
  destruct udsBuf as [u|].
  - do 2 wp_step. apply wp_release_uds; [by apply Hup|]. settle.
    eapply wp_cset; [settle; apply lookup_insert_eq|]. settle. read_conn. settle. rewrite <- !app_assoc.
    eexists _. split; try reflexivity; settle; [exact Hdel|by repeat apply silent_app|].
    by rewrite !last_app.
  - do 2 wp_step. read_conn. settle. rewrite <- !app_assoc.
    eexists _. split; try reflexivity; settle; [exact Hdel|by repeat apply silent_app|].
    by rewrite !last_app.
Qed.

Lemma index_in_spec p box s :
  (forall c, c ∈ box -> is_Some (conns s !! c)) ->
  wp (index_in p box) (fun r s' => s' = s /\
    match r with
    | Some i => exists c x, box !! i = Some c /\ conns s !! c = Some x /\ p x = true
    | None => forall c x, c ∈ box -> conns s !! c = Some x -> p x = false
    end) s.
Proof.
  induction box as [|c box IH]; intros Hall; cbn [index_in].
  - split; [done|]. by intros ? ? ?%not_elem_of_nil.
  - destruct (Hall c) as [x Hx]; [by left|]. wp_step. eapply wp_cget; [exact Hx|].
    destruct (p x) eqn:Hp; [split; [done|by exists c, x]|]. wp_step.
    eapply wp_conseq; [apply IH; intros c' Hc'; apply Hall; by right|]. intros [i|] s' [-> H]; wp_step.
    + by split.
    + split; [done|]. intros c' x' [->|Hin]%elem_of_cons Hx'; [congruence|by eapply H].
Qed.

Lemma remove_swap_perm i c box : box !! i = Some c -> box ≡ₚ c :: remove_swap i box.
Proof.
  intros Hi. unfold remove_swap. destruct (last box) as [b|] eqn:Hlast.
  2: { apply last_None in Hlast. by subst. }
  apply last_Some in Hlast as [pre ->]. rewrite length_app. cbn [length].
  replace (length pre + 1 - 1)%nat with (length pre) by lia.
  destruct (decide (i < length pre)%nat) as [Hlt|Hge].
  - rewrite insert_app_l by done. rewrite take_app_le by (rewrite length_insert; lia).
    rewrite take_ge by (rewrite length_insert; lia). rewrite lookup_app_l in Hi by done.
    rewrite <- Permutation_middle, app_nil_r. rewrite <- (take_drop_middle pre i c) at 1 by done.
    rewrite insert_take_drop by done. rewrite <- !Permutation_middle. apply perm_swap.
  - assert (i = length pre) as ->.
    { apply lookup_lt_Some in Hi. rewrite length_app in Hi. cbn in Hi. lia. }
    rewrite lookup_app_r, Nat.sub_diag in Hi by lia. cbn in Hi. injection Hi as ->.
    rewrite insert_app_r_alt, Nat.sub_diag by lia. rewrite take_app_length.
    by rewrite <- Permutation_middle, app_nil_r.
Qed.

Lemma wp_ReportConnectionEvent sa ta r ifc (Q : unit -> Stack -> Prop) s :
  (forall es, sent es = [] -> reports es = [(r, sa, ta)] -> Q tt (dlog s es)) ->
  wp (ReportConnectionEvent env sa ta r ifc) Q s.
Proof.
  intros HQ. unfold ReportConnectionEvent, GetVlanId, FindDoipSession. do 4 wp_step. wp_step. apply wp_demit.
  do 4 wp_step. destruct (find_session _ _); [apply wp_demit; rewrite dlog_dlog|wp_step]; by apply HQ.
Qed.

(** [s'] is [s] after the connection [c] has entered the final state. *)
Record finalized (s : Stack) (c : Z) (x : Connection) (s' : Stack) (es : list DEffect) : Prop := mkFinalized {
  fz_state : s' = s <| conns := <[c := disposed (x <| connState := TAF_DOIP_CONNECT_STATE_FINALIZE |>)]> (conns s) |>
    <| connectionBox := connectionBox s' |> <| liveTimers := liveTimers s' |>
    <| inPool := inPool s' |> <| udsPool := udsPool s' |> <| dtrace := dtrace s ++ es |>;
  fz_box : connectionBox s ≡ₚ c :: connectionBox s';
  fz_timers : forall r, r ∈ liveTimers s' <-> r ∈ liveTimers s /\ forall k, r <> ConnT c k;
  fz_inPool : inPool s' = match inBuf x with Some b => delete b (inPool s) | None => inPool s end;
  fz_udsPool : udsPool s' = match udsBuf x with Some u => delete u (udsPool s) | None => udsPool s end;
  fz_sent : sent es = [];
  fz_closed : last es = Some (SocketDelete (Some (cliSockRef x)));
  fz_reports : reports es =
    if bool_decide (connState x = TAF_DOIP_CONNECT_STATE_REGISTERED_ROUTING_ACTIVE)
    then [(TAF_DOIP_RESULT_SA_DEREGISTERED, testerSA x, entitySA x)] else [] }.

(** Changing members of the object that the deletion does not look at. *)
Lemma started_update s c x x' b : started s c x b ->
  initialTimerRef x' = initialTimerRef x -> generalTimerRef x' = generalTimerRef x ->
  aliveCheckTimerRef x' = aliveCheckTimerRef x -> inBuf x' = inBuf x -> udsBuf x' = udsBuf x ->
  started (s <| conns := <[c := x']> (conns s) |>) c x' b.
Proof.
  intros [] E1 E2 E3 E4 E5. split; try done; try congruence; cbn; [by apply lookup_insert_eq|].
  intros u. rewrite E5. auto.
Qed.
Lemma started_dlog s es c x b : started s c x b -> started (dlog s es) c x b.
Proof. by intros []. Qed.

Lemma box_ok_update s c x x' :
  box_ok s -> conns s !! c = Some x -> cliSockRef x' = cliSockRef x ->
  box_ok (s <| conns := <[c := x']> (conns s) |>).
Proof.
  intros [Hnd Ho Hs] Hx Hsock. split; cbn; [done| |].
  - intros c' Hc'. destruct (decide (c = c')) as [<-|]; [rewrite lookup_insert_eq; eauto|].
    rewrite lookup_insert_ne by done. auto.
  - intros c1 c2 x1 x2 H1 H2.
    rewrite !lookup_insert_Some. intros [[<- <-]|[_ Hx1]] [[<- <-]|[_ Hx2]] Heq; [done|..].
    + apply (Hs c c2 x x2); try done. congruence.
    + apply (Hs c1 c x1 x); try done. congruence.
    + by apply (Hs c1 c2 x1 x2).
Qed.

Lemma DeleteConnection_spec s c x b :
  box_ok s -> started s c x b ->
  wp (DeleteConnection env c) (fun _ s' => exists s1 es, stopped s c x s1 es /\
    connectionBox s ≡ₚ c :: connectionBox s' /\ s' = s1 <| connectionBox := connectionBox s' |>) s.
Proof.
  intros Hbox Hst. pose proof (st_object _ _ _ _ Hst) as Hx. pose proof (st_box _ _ _ _ Hst) as Hc.
  unfold DeleteConnection. wp_step. eapply wp_conseq; [by eapply Connection_Stop_spec|].
  intros _ s1 [es Hsp]. assert (Hbox1 : box_ok s1).
  { rewrite (sp_state _ _ _ _ _ Hsp). by destruct (box_ok_update s c x (disposed x)). }
  assert (Hb1 : connectionBox s1 = connectionBox s) by (by rewrite (sp_state _ _ _ _ _ Hsp)).
  assert (Hx1 : conns s1 !! c = Some (disposed x)).
  { rewrite (sp_state _ _ _ _ _ Hsp). cbn. by apply lookup_insert_eq. }
  wp_step. eapply wp_cget; [exact Hx1|]. do 2 wp_step. wp_step.
  eapply wp_conseq; [by apply index_in_spec, Hbox1|]. intros [i|] s' [-> H].
  - destruct H as (c' & x' & Hi & Hx' & Hs). apply Z.eqb_eq in Hs.
    assert (c' = c) as ->.
    { apply (box_sockets _ Hbox1 c' c x' (disposed x)); try done; [by apply list_elem_of_lookup_2 in Hi|].
      by rewrite Hb1. }
    apply wp_assign. exists s1, es. split; [done|]. cbn. rewrite <- Hb1. split; [by apply remove_swap_perm|done].
  - specialize (H c (disposed x)). rewrite Hb1, Z.eqb_refl in H. by specialize (H Hc Hx1).
Qed.

Lemma enter_finalize_spec s c x b :
  box_ok s -> started s c x b ->
  wp (enter_finalize env c) (fun _ s' => exists es, finalized s c x s' es) s.
Proof.
  intros Hbox Hst. pose proof (st_object _ _ _ _ Hst) as Hx.
  unfold enter_finalize. wp_step. eapply wp_cget; [exact Hx|]. wp_step. eapply wp_cset; [exact Hx|].
  set (x1 := x <| connState := TAF_DOIP_CONNECT_STATE_FINALIZE |>).
  set (s0 := s <| conns := <[c := x1]> (conns s) |>).
  assert (Hst0 : started s0 c x1 b) by (by eapply started_update).
  assert (Hbox0 : box_ok s0) by (by eapply box_ok_update).
  assert (Hdel : forall es0, sent es0 = [] ->
    reports es0 = (if bool_decide (connState x = TAF_DOIP_CONNECT_STATE_REGISTERED_ROUTING_ACTIVE)
      then [(TAF_DOIP_RESULT_SA_DEREGISTERED, testerSA x, entitySA x)] else []) ->
    wp (DeleteConnection env c) (fun _ s' => exists es, finalized s c x s' es) (dlog s0 es0)).
  { intros es0 Hsent Hrep. eapply wp_conseq; [apply (DeleteConnection_spec _ c x1 b); [by apply box_ok_dlog|by apply started_dlog]|].
    intros _ s' (s1 & es & Hsp & Hperm & Hs'). exists (es0 ++ es).
    destruct Hsp as [Hs1 Ht Hi Hu [Hse Hre] Hl]. rewrite Hs1 in Hs'. rewrite Hs' in *. clear Hs'.
    cbn in *. rewrite insert_insert_eq, <- app_assoc in *. subst s0 x1. split; cbn.
    + by apply stack_ext.
    + exact Hperm.
    + exact Ht.
    + exact Hi.
    + exact Hu.
    + by rewrite dsent_app, Hsent, Hse.
    + by rewrite last_app, Hl.
    + by rewrite reports_app, Hrep, Hre, app_nil_r. }
  wp_step. unfold when. case_bool_decide as Hact.
  - wp_step. eapply wp_cget; [apply Hst0|]. apply wp_ReportConnectionEvent. intros es0 H1 H2.
    apply Hdel; [done|exact H2].
  - wp_step. rewrite <- (dlog_nil s0). by apply Hdel.
Qed.
End Stopping.
