(* ===== verification/DoipRecvSpec.v ===== *)
(** * The DoIP stack: headers, acknowledgements and refusals

    The bytes of a header and their reading, the verdict on a header, and what a refusal over
    TCP does to the connection. *)
From S2P Require Import Prelude DoipTypes DoipVehicle DoipSend DoipConn DoipRecv DoipUdp DoipSpec.

(** ** Headers as bytes *)
Definition header_bytes (v iv ty len : Z) : list Z := [v; iv] ++ net16 ty ++ net32 len.

Lemma length_header v iv ty len : length (header_bytes v iv ty len) = 8%nat.
Proof. done. Qed.

Lemma at_app pre l k : 0 <= k -> at_ (pre ++ l) (Z.of_nat (length pre) + k) = l !! Z.to_nat k.
Proof.
  intros Hk. unfold at_. rewrite decide_True by lia.
  rewrite lookup_app_r by lia. f_equal. lia.
Qed.

Lemma wp_read16 (b : list Z) i hi lo (Q : Z -> Stack -> Prop) s :
  at_ b i = Some hi -> at_ b (i + 1) = Some lo -> Q (be16 hi lo) s -> wp (read16 b i) Q s.
Proof.
  intros H1 H2 HQ. unfold read16. wp_step. eapply wp_demand; [exact H1|]. wp_step.
  eapply wp_demand; [exact H2|]. by wp_step.
Qed.

Lemma net32_value z : in_width 32 z ->
  be16 (byte_at 3 z) (byte_at 2 z) * 65536 + be16 (byte_at 1 z) (byte_at 0 z) = z.
Proof.
  intros Hz. unfold in_width in Hz. rewrite !be16_eq by apply byte_at_is_byte. rewrite !byte_at_eq by lia.
  rewrite Z.pow_0_r, Z.div_1_r, Z.pow_1_r.
  change (256 ^ 2) with 65536. change (256 ^ 3) with (65536 * 256).
  rewrite <- (Z.div_div z 65536 256) by lia.
  rewrite (Z.mod_small (z / 65536 / 256)).
  2: { split; [apply Z.div_pos; [apply Z.div_pos|]; lia|].
       apply Z.div_lt_upper_bound; [lia|]. apply Z.div_lt_upper_bound; lia. }
  change 65536 with (256 * 256). rewrite <- (Z.div_div z 256 256) by lia.
  pose proof (Z.div_mod z 256). pose proof (Z.div_mod (z / 256) 256).
  pose proof (Z.div_mod (z / 256 / 256) 256). lia.
Qed.

(** Reading a header gives the values it was built from. *)
Lemma wp_UnpackHeader pre v iv ty len rest (Q : taf_doipHeader_t -> Stack -> Prop) s :
  in_width 16 ty -> in_width 32 len -> Q (mkHeader v iv ty len) s ->
  wp (UnpackHeaderStruct (pre ++ header_bytes v iv ty len ++ rest) (Z.of_nat (length pre))) Q s.
Proof.
  intros Hty Hlen HQ. unfold UnpackHeaderStruct.
  assert (Hat : forall k, (k < 8)%nat ->
    at_ (pre ++ header_bytes v iv ty len ++ rest) (Z.of_nat (length pre) + Z.of_nat k) =
    header_bytes v iv ty len !! k).
  { intros k Hk. rewrite at_app, Nat2Z.id by lia. by rewrite lookup_app_l. }
  assert (H0 := Hat 0%nat). rewrite Z.add_0_r in H0.
  wp_step. eapply wp_demand; [apply H0; lia|].
  wp_step. eapply wp_demand; [apply (Hat 1%nat); lia|]. wp_step.
  eapply wp_read16; [apply (Hat 2%nat); lia|rewrite <- Z.add_assoc; apply (Hat 3%nat); lia|].
  rewrite be16_bytes by done. unfold read32. do 2 wp_step.
  eapply wp_read16; [apply (Hat 4%nat); lia|rewrite <- Z.add_assoc; apply (Hat 5%nat); lia|]. wp_step.
  eapply wp_read16; [rewrite <- Z.add_assoc; apply (Hat 6%nat); lia|rewrite <- !Z.add_assoc; apply (Hat 7%nat); lia|].
  do 2 wp_step. by rewrite net32_value.
Qed.

(** ** The verdict on a header *)
Definition max_data (s : Stack) : Z :=
  match doipConfigPtr s with
  | Some c => if parseStatus c then maxDataSize c else TAF_DOIP_MDS_DEFAULT
  | None => TAF_DOIP_MDS_DEFAULT
  end.

(** The code with which an entity refuses a header, in the order of the checks. *)
Definition header_nack (mds : Z) (h : taf_doipHeader_t) : option Z :=
  if negb (known_version (protocolVer h)) then Some TAF_DOIP_HEADER_NACK_INCORRECT_PATTERN_FORMAT
  else if negb (protocolVer h =? u8 (Z.lnot (invProtocolVer h)))
  then Some TAF_DOIP_HEADER_NACK_INCORRECT_PATTERN_FORMAT
  else if negb (entity_accepts (payloadType h)) then Some TAF_DOIP_HEADER_NACK_UNKNOWN_PAYLOAD_TYPE
  else if mds - 8 <? payloadLen h then Some TAF_DOIP_HEADER_NACK_MESSAGE_TOO_LARGE
  else if negb (payloadType h =? TAF_DOIP_PAYLOAD_TYPE_DIAGNOSTIC_MESSAGE) && (1492 <? payloadLen h)
  then Some TAF_DOIP_HEADER_NACK_OUT_OF_MEMORY
  else None.

Lemma wp_GetMaxDataSize s (Q : option Z -> Stack -> Prop) :
  (forall r, default TAF_DOIP_MDS_DEFAULT r = max_data s -> Q r s) -> wp GetMaxDataSize Q s.
Proof.
  intros HQ. unfold GetMaxDataSize, parsed. do 3 wp_step. apply HQ. unfold max_data.
  destruct (doipConfigPtr s) as [c|]; [by destruct (parseStatus c)|done].
Qed.

Lemma GetMaxDataSize_run s :
  exists r, default TAF_DOIP_MDS_DEFAULT r = max_data s /\ GetMaxDataSize s = Done (r, s).
Proof. unfold GetMaxDataSize, parsed, max_data. eexists. by split; [|reflexivity]; destruct (doipConfigPtr s) as [cfg|]; [destruct (parseStatus cfg)|]. Qed.

Section Recv.
Variable env : DEnv.

Lemma wp_CheckDoipHeader s c x h b (Q : taf_doip_Result_t -> Stack -> Prop) :
  conns s !! c = Some x -> connType x = TAF_DOIP_CONNECTION_TYPE_SVR ->
  in_width 32 (max_data s) -> 8 <= max_data s ->
  match header_nack (max_data s) h with
  | None => Q TAF_DOIP_RESULT_OK s
  | Some nack => wp (refuse_header env c h b nack) Q s
  end -> wp (CheckDoipHeader env c h b) Q s.
Proof.
  intros Hx Hty Hw Hm HQ. unfold CheckDoipHeader, header_nack in *.
  destruct (known_version _); cbn [negb] in *; [|exact HQ].
  destruct (_ =? u8 _); cbn [negb] in *; [|exact HQ].
  wp_step. eapply wp_cget; [exact Hx|]. rewrite Hty, bool_decide_true by done. cbn [andb negb].
  destruct (entity_accepts _); cbn [negb] in *; [|exact HQ].
  wp_step. apply wp_GetMaxDataSize. intros r ->. cbv zeta.
  rewrite wrap_id by (unfold in_width in *; lia). change TAF_DOIP_HEADER_GENERIC_LENGTH with 8.
  destruct (_ <? _); [exact HQ|]. change (TAF_DOIP_MAX_BUFFER_SIZE - 8) with 1492.
  destruct (_ && _); [exact HQ|by wp_step].
Qed.

(** ** Refusals that close the connection *)
Lemma RespondHeaderNegativeACK_closes s c x b cfg code left :
  box_ok s -> started s c x b -> doipConfigPtr s = Some cfg ->
  code = TAF_DOIP_HEADER_NACK_INCORRECT_PATTERN_FORMAT \/
  code = TAF_DOIP_HEADER_NACK_INVALID_PAYLOAD_LENGTH ->
  wp (RespondHeaderNegativeACK env c code left) (fun _ s' => exists es,
    finalized (tells env s x (ConnT c GeneralTimer) cfg TAF_DOIP_PAYLOAD_TYPE_HEADER_NEGATIVE_ACK [code])
      c x s' es) s.
Proof.
  intros Hbox Hst Hcfg Hcode. pose proof (st_object _ _ _ _ Hst) as Hx.
  unfold RespondHeaderNegativeACK. wp_step. eapply wp_tcp_link; [exact Hx|]. wp_step.
  eapply (wp_HeaderNegativeACK env s c x _ cfg); [done|by eapply started_serving|done|lia|].
  replace (_ || _) with true by (destruct Hcode; by subst).
  cbn [ConnectionStateMachine]. eapply enter_finalize_spec; [by apply box_ok_dlog|by apply started_dlog].
Qed.
End Recv.

(** A step that ends in a fault. *)
Lemma fault_bind {A B} (m : M Stack A) (f : A -> M Stack B) e s :
  wp m (fun a s' => f a s' = Faulted e) s -> (m ≫= f) s = Faulted e.
Proof. unfold wp, mbind, M_bind. destruct (m s) as [[a s']|]; [done|done]. Qed.
Lemma fault_bind_now {A B} (m : M Stack A) (f : A -> M Stack B) e s :
  m s = Faulted e -> (m ≫= f) s = Faulted e.
Proof. unfold mbind, M_bind. by intros ->. Qed.

(** ** The loop over the messages of a buffer *)

(** The buffer [b] of a connection holds a message at its position: [pre] stands before it and
    [rest] behind it. *)
Record holds (s : Stack) (b : Z) (buf : taf_doip_Buffer_t) (pre : list Z) (v ty len : Z) (rest : list Z)
    : Prop := mkHolds {
  ho_block : inPool s !! b = Some buf;
  ho_data : data buf = pre ++ header_bytes v (u8 (Z.lnot v)) ty len ++ rest;
  ho_pos : dataPos buf = Z.of_nat (length pre);
  ho_size : 8 <= dataSize buf;
  ho_room : Z.of_nat (length (data buf)) <= TAF_DOIP_MAX_BUFFER_SIZE;
  ho_type : in_width 16 ty;
  ho_len : in_width 32 len }.

(** What follows the loop over the messages. *)
Definition consume_end (c sock : Z) (ended : bool) : M Stack unit :=
  when ended
    (b ← in_buf c; size ← buf_get b dataSize;
     if TAF_DOIP_HEADER_GENERIC_LENGTH <=? size then emit (QueueConsume sock)
     else cset c isConsuming false).

(** Running the first step in another way. *)
Lemma bind_cong {A B} (m m' : M Stack A) (f : A -> M Stack B) s :
  m s = m' s -> (m ≫= f) s = (m' ≫= f) s.
Proof. unfold mbind, M_bind. by intros ->. Qed.

(** A query that does not change the state. *)
Lemma run_bind {A B} (m : M Stack A) (f : A -> M Stack B) v s :
  wp m (fun r s' => r = v /\ s' = s) s -> (m ≫= f) s = f v s.
Proof. unfold wp, mbind, M_bind. destruct (m s) as [[a s']|]; [|done]. by intros [-> ->]. Qed.

Section Consume.
Variable env : DEnv.
Context (s : Stack) (c : Z) (x : Connection) (b : Z) (buf : taf_doip_Buffer_t).
Context (pre : list Z) (v ty len : Z) (rest : list Z).
Context (Hx : conns s !! c = Some x) (Hb : inBuf x = Some b) (Hh : holds s b buf pre v ty len rest).

Lemma run_in_buf : wp (in_buf c) (fun r s' => r = b /\ s' = s) s.
Proof using Hx Hb. unfold in_buf. wp_step. eapply wp_cget; [exact Hx|]. rewrite Hb. by eapply wp_demand. Qed.
Lemma run_buf_get {T} (p : taf_doip_Buffer_t -> T) :
  wp (buf_get b p) (fun r s' => r = p buf /\ s' = s) s.
Proof using Hh. by eapply wp_buf_get; [apply Hh|]. Qed.
Lemma run_cget {T} (p : Connection -> T) : wp (cget c p) (fun r s' => r = p x /\ s' = s) s.
Proof using Hx. by eapply wp_cget; [exact Hx|]. Qed.

(** The loop reaches the handling of a good message without changing anything. *)
Lemma consume_loop_step n :
  connState x <> TAF_DOIP_CONNECT_STATE_FINALIZE -> connType x = TAF_DOIP_CONNECTION_TYPE_SVR ->
  8 <= max_data s -> in_width 32 (max_data s) ->
  header_nack (max_data s) (mkHeader v (u8 (Z.lnot v)) ty len) = None ->
  consume_loop env (S n) c s =
  handle_message env (consume_loop env n c) c (mkHeader v (u8 (Z.lnot v)) ty len) s.
Proof using Hx Hb Hh.
  intros Hst Hty Hm Hw Hok. cbn [consume_loop]. erewrite run_bind by apply run_in_buf.
  erewrite run_bind by apply run_buf_get. pose proof (ho_size _ _ _ _ _ _ _ _ Hh).
  destruct (Z.ltb_spec (dataSize buf) TAF_DOIP_HEADER_GENERIC_LENGTH); [lia|].
  erewrite run_bind by apply run_cget. rewrite bool_decide_false by done.
  erewrite run_bind by apply run_buf_get. erewrite run_bind by apply run_buf_get.
  erewrite (run_bind (UnpackHeaderStruct _ _)).
  2: { rewrite (ho_data _ _ _ _ _ _ _ _ Hh), (ho_pos _ _ _ _ _ _ _ _ Hh).
       by apply wp_UnpackHeader; [apply Hh|apply Hh|]. }
  erewrite (run_bind (CheckDoipHeader _ _ _ _)) by (eapply wp_CheckDoipHeader; try done; by rewrite Hok).
  by rewrite bool_decide_true.
Qed.

Lemma ConsumeTCPData_step :
  box_ok s -> c ∈ connectionBox s ->
  ConsumeTCPData env (cliSockRef x) s =
  (ended ← consume_loop env 5 c;
   consume_end c (cliSockRef x) ended) s.
Proof using Hx Hb.
  intros Hbox Hc. unfold ConsumeTCPData.
  erewrite (run_bind (FindConnectionBySocket _)) by (by eapply wp_FindConnectionBySocket).
  cbv iota. erewrite (run_bind (cget c inBuf)) by apply run_cget. by rewrite Hb.
Qed.
End Consume.

Lemma known_version_inverse v : known_version v = true -> v = u8 (Z.lnot (u8 (Z.lnot v))).
Proof.
  unfold known_version. rewrite !orb_true_iff, !Z.eqb_eq. intros [[[->| ->]| ->]| ->]; vm_compute; reflexivity.
Qed.

Lemma good_header mds v ty len :
  known_version v = true -> entity_accepts ty = true -> len <= mds - 8 ->
  ty = TAF_DOIP_PAYLOAD_TYPE_DIAGNOSTIC_MESSAGE \/ len <= 1492 ->
  header_nack mds (mkHeader v (u8 (Z.lnot v)) ty len) = None.
Proof.
  intros Hv Hacc Hm Hd. unfold header_nack. cbn [protocolVer invProtocolVer payloadType payloadLen].
  rewrite Hv, Hacc. cbn [negb]. rewrite <- known_version_inverse, Z.eqb_refl by done. cbn [negb].
  destruct (Z.ltb_spec (mds - 8) len); [lia|].
  destruct (Z.eqb_spec ty TAF_DOIP_PAYLOAD_TYPE_DIAGNOSTIC_MESSAGE); cbn [negb andb]; [done|].
  destruct (Z.ltb_spec 1492 len); [destruct Hd; [done|lia]|done].
Qed.

(** A connection of an entity that is being served. *)
Record entity_conn (s : Stack) (c : Z) (x : Connection) (b : Z) (cfg : taf_doip_Config_t) : Prop := mkEntityConn {
  ec_box : box_ok s;
  ec_started : started s c x b;
  ec_server : connType x = TAF_DOIP_CONNECTION_TYPE_SVR;
  ec_open : connState x <> TAF_DOIP_CONNECT_STATE_FINALIZE;
  ec_config : doipConfigPtr s = Some cfg;
  ec_mds : 8 <= max_data s < 2 ^ 32 }.

(** A good message at the front of the buffer is processed. *)
Lemma ConsumeTCPData_processes env s c x b cfg buf pre v ty len rest :
  entity_conn s c x b cfg -> known_version v = true -> entity_accepts ty = true ->
  holds s b buf pre v ty len rest -> len <= max_data s - 8 ->
  ty = TAF_DOIP_PAYLOAD_TYPE_DIAGNOSTIC_MESSAGE \/ len <= 1492 ->
  ConsumeTCPData env (cliSockRef x) s =
  (ended ← handle_message env (consume_loop env 4 c) c (mkHeader v (u8 (Z.lnot v)) ty len);
   consume_end c (cliSockRef x) ended) s.
Proof.
  intros [Hbox Hst Hty Hopen Hcfg Hm] Hv Hacc Hh Hlen Hd. destruct Hst as [Hx Hc ? ? ? ? Hb ? ?].
  rewrite (ConsumeTCPData_step env s c x b Hx Hb Hbox Hc). apply bind_cong.
  apply (consume_loop_step env s c x b buf pre v ty len rest Hx Hb Hh); try done; [lia|unfold in_width; lia|].
  by apply good_header.
Qed.
