(* ===== verification/DoipKeeps.v ===== *)
(** * The DoIP stack: what every step keeps

    An interface for relations between the state before and the state after a run: a relation
    that the primitive steps keep - other members change, messages in the right form are sent,
    connections change without becoming active - is kept by every operation that does not
    activate routing, and, if the activation keeps it, by all of the reception. Then the runs
    that touch a single connection. *)
From S2P Require Import Prelude DoipTypes DoipVehicle DoipSend DoipConn DoipRecv.
From S2P Require Import DoipSpec DoipRecvSpec.

(** A message with a header of the protocol and as many bytes behind it as the header says. *)
Definition framed (msg : list Z) : Prop :=
  exists v ty rest, (v = TAF_DOIP_PROTOCOL_VERSION_2012 \/ v = TAF_DOIP_PROTOCOL_VERSION_2019) /\
    msg = header_bytes v (u8 (Z.lnot v)) ty (Z.of_nat (length rest)) ++ rest.

Definition active (x : Connection) : Prop :=
  connState x = TAF_DOIP_CONNECT_STATE_REGISTERED_ROUTING_ACTIVE.

Class Benign (R : relation Stack) : Prop := mkBenign {
  benign_preorder :: PreOrder R;
  benign_other : forall s s', conns s' = conns s -> dtrace s' = dtrace s -> R s s';
  benign_conn : forall s c x', (active x' -> exists x, conns s !! c = Some x /\ active x) ->
    R s (s <| conns := <[c := x']> (conns s) |>);
  benign_emit : forall s e, (forall sock msg, e = SocketSend sock msg -> framed msg) ->
    R s (dlog s [e]) }.

Create HintDb keeps.

Section Keeps.
Context (R : relation Stack) `{!Benign R}.

Lemma keeps_emit e : (forall sock msg, e = SocketSend sock msg -> framed msg) -> keeps R (emit e).
Proof using Type*. intros He s [] s' [= <-]. by apply benign_emit. Qed.
Lemma keeps_quiet e : (forall sock msg, e <> SocketSend sock msg) -> keeps R (emit e).
Proof using Type*. intros He. apply keeps_emit. intros sock msg ->. by destruct (He sock msg). Qed.
Lemma keeps_assign {T} (p : Stack -> T) `{!Field p} v :
  (forall s, conns (s <| p := v |>) = conns s /\ dtrace (s <| p := v |>) = dtrace s) -> keeps R (p ::= v).
Proof using Type*. intros Hp s [] s' [= <-]. by apply benign_other; apply Hp. Qed.
Lemma keeps_get : keeps R get.
Proof using Type*. intros s ? ? [= _ <-]. reflexivity. Qed.
Lemma keeps_cget {T} c (p : Connection -> T) : keeps R (cget c p).
Proof using Type*. unfold cget. keeps_with ltac:(apply keeps_get). Qed.
Lemma keeps_cset {T} c (p : Connection -> T) `{!Field p} v :
  (forall x, active (x <| p := v |>) -> active x) -> keeps R (cset c p v).
Proof using Type*.
  intros Hp s [] s' (s1 & ? & [= -> <-] & Hrun)%bind_run. apply bind_run in Hrun as (x & ? & [Hx ->]%demand_run & Hrun).
  injection Hrun as <-. apply benign_conn. eauto.
Qed.
Lemma keeps_buf_get {T} b (p : taf_doip_Buffer_t -> T) : keeps R (buf_get b p).
Proof using Type*. unfold buf_get. keeps_with ltac:(apply keeps_get). Qed.
Lemma keeps_pools (f : Stack -> Stack) : (forall s, conns (f s) = conns s /\ dtrace (f s) = dtrace s) -> keeps R (modify f).
Proof using Type*. intros Hf. apply keeps_modify. intros s. apply benign_other; apply Hf. Qed.
Lemma keeps_for_each {A} (l : list A) body : (forall a, keeps R (body a)) -> keeps R (for_each l body).
Proof using Type*.
  intros Hb. induction l as [|a l IH]; cbn [for_each]; [apply keeps_ret; typeclasses eauto|].
  apply keeps_bind; [typeclasses eauto|apply Hb|done].
Qed.

Ltac quiet_step :=
  first
    [ solve [auto with keeps]
    | apply keeps_get
    | apply keeps_cget
    | apply keeps_buf_get
    | apply keeps_cset; intros ?; first [done|discriminate]
    | apply keeps_quiet; done
    | apply keeps_assign; done
    | apply keeps_pools; done
    | apply keeps_for_each; intros ?
    | progress unfold buf_set, timer, timer_ref, timer_create, timer_delete, fresh, release_in,
        release_uds, bytes_at, parsed, is_running, tcp_link, whole, read16, read32, filled,
        nothrow, when, IsConnectionRegitered, le_socket_Read, assign_ ].
Ltac quiet := keeps_with quiet_step.

(** ** Sending *)
Lemma message_framed ty len fields s d s' : message ty len fields s = Done (d, s') -> framed d /\ s' = s.
Proof using Type.
  unfold message, PackGenericHeader, GetProtocolVersion. intros (h & s1 & Hh & Hf)%bind_run.
  apply bind_run in Hh as (v & s2 & Hv & Hh). apply bind_run in Hv as (s3 & s4 & [= <- <-] & Hv).
  apply bind_run in Hv as (cfg & s5 & [Hcfg ->]%demand_run & Hv). injection Hv as <- <-.
  injection Hh as <- <-. unfold filled in Hf. rewrite length_app in Hf. cbn [length app net16 net32] in Hf.
  destruct (Z.ltb_spec (len + TAF_DOIP_HEADER_GENERIC_LENGTH) (Z.of_nat (8 + length fields))); [done|].
  destruct (Z.ltb_spec (Z.of_nat (8 + length fields)) (len + TAF_DOIP_HEADER_GENERIC_LENGTH)); [done|].
  injection Hf as <- <-. split; [|done]. replace len with (Z.of_nat (length fields)) by lia.
  exists (if negb (isTLS cfg) then 2 else 3), ty, fields. split; [destruct (isTLS cfg); auto|done].
Qed.

Lemma keeps_message {A} ty len fields (k : list Z -> M Stack A) :
  (forall d, framed d -> keeps R (k d)) -> keeps R (d ← message ty len fields; k d).
Proof using Type*.
  intros Hk s a s' (d & s1 & [Hd ->]%message_framed & Hrun)%bind_run. by eapply Hk.
Qed.
Lemma keeps_find_in p box : keeps R (find_in p box).
Proof using Type*. induction box; cbn [find_in]; quiet. Qed.
Lemma keeps_index_in p box : keeps R (index_in p box).
Proof using Type*. induction box; cbn [index_in]; quiet. Qed.
Lemma keeps_count box : keeps R (count_registered box).
Proof using Type*. induction box; cbn [count_registered]; quiet. Qed.
#[local] Hint Resolve keeps_find_in keeps_index_in keeps_count : keeps.
Section Env.
Variable env : DEnv.
Lemma keeps_SendTCPData sock msg : framed msg -> keeps R (SendTCPData env sock msg).
Proof using Type*.
  intros Hm. assert (forall s, keeps R (emit (SocketSend s msg))).
  { intros s. apply keeps_emit. by intros ? ? [= <- <-]. }
  unfold SendTCPData, FindConnectionBySocket, Connection_SendTCPData. quiet.
Qed.
#[local] Hint Resolve keeps_SendTCPData : keeps.
Lemma keeps_send_each socks msg port : keeps R (send_each env socks msg port).
Proof using Type*. induction socks as [|[|] ? ?]; cbn [send_each]; quiet. Qed.
#[local] Hint Resolve keeps_send_each : keeps.
Lemma keeps_SendUDPMulticast msg : keeps R (SendUDPMulticast env msg).
Proof using Type*. unfold SendUDPMulticast, GetNetType, GetUdpPort. quiet. Qed.
Lemma keeps_SendUDPData ip port msg : keeps R (SendUDPData env ip port msg).
Proof using Type*. unfold SendUDPData, GetLocalIPv4FromSource, GetLocalIPv6FromSource, GetUdpSrcPort. quiet. Qed.
#[local] Hint Resolve keeps_SendUDPMulticast keeps_SendUDPData : keeps.
Lemma keeps_SendDoIPMsg link ty msg : framed msg -> keeps R (SendDoIPMsg env link ty msg).
Proof using Type*. intros Hm. unfold SendDoIPMsg, over_tcp, over_unicast, over_multicast. quiet. Qed.
#[local] Hint Resolve keeps_SendDoIPMsg : keeps.

Ltac told :=
  repeat first
    [ apply keeps_message; intros ? ?
    | match goal with |- keeps _ (if ?b then _ else _) => destruct b end
    | quiet ].
Lemma keeps_RoutingActivationRes link a b code r : keeps R (RoutingActivationRes env link a b code r).
Proof using Type*. unfold RoutingActivationRes. told. Qed.
Lemma keeps_AliveCheckReq link : keeps R (AliveCheckReq env link).
Proof using Type*. unfold AliveCheckReq. told. Qed.
Lemma keeps_AliveCheckRes link a : keeps R (AliveCheckRes env link a).
Proof using Type*. unfold AliveCheckRes. told. Qed.
Lemma keeps_HeaderNegativeACK link code : keeps R (HeaderNegativeACK env link code).
Proof using Type*. unfold HeaderNegativeACK. told. Qed.
Lemma keeps_DiagNegativeACK link a b code : keeps R (DiagNegativeACK env link a b code).
Proof using Type*. unfold DiagNegativeACK. told. Qed.
Lemma keeps_DiagPositiveACK link a b : keeps R (DiagPositiveACK env link a b).
Proof using Type*. unfold DiagPositiveACK. told. Qed.
#[local] Hint Resolve keeps_RoutingActivationRes keeps_AliveCheckReq keeps_AliveCheckRes
  keeps_HeaderNegativeACK keeps_DiagNegativeACK keeps_DiagPositiveACK : keeps.

(** ** Connections *)
Lemma keeps_Connection_Stop c : keeps R (Connection_Stop env c).
Proof using Type*. unfold Connection_Stop, stop_timer, delete_timer. quiet. Qed.
#[local] Hint Resolve keeps_Connection_Stop : keeps.
Lemma keeps_ReportConnectionEvent sa ta r ifc : keeps R (ReportConnectionEvent env sa ta r ifc).
Proof using Type*. unfold ReportConnectionEvent, GetVlanId, FindDoipSession. quiet. Qed.
#[local] Hint Resolve keeps_ReportConnectionEvent : keeps.
Lemma keeps_DeleteConnection c : keeps R (DeleteConnection env c).
Proof using Type*. unfold DeleteConnection. quiet. Qed.
#[local] Hint Resolve keeps_DeleteConnection : keeps.
Lemma keeps_enter_finalize c : keeps R (enter_finalize env c).
Proof using Type*. unfold enter_finalize. quiet. Qed.
#[local] Hint Resolve keeps_enter_finalize : keeps.
Lemma keeps_finalize c a : keeps R (ConnectionStateMachine env c TAF_DOIP_CONNECT_STATE_FINALIZE a).
Proof using Type*. apply keeps_enter_finalize. Qed.
#[local] Hint Resolve keeps_finalize : keeps.
Lemma keeps_FindConnectionByLogicalAddr a : keeps R (FindConnectionByLogicalAddr a).
Proof using Type*. unfold FindConnectionByLogicalAddr. quiet. Qed.
#[local] Hint Resolve keeps_FindConnectionByLogicalAddr : keeps.
Lemma keeps_PerformAllAliveCheck c : keeps R (PerformAllAliveCheck env c).
Proof using Type*. unfold PerformAllAliveCheck, PerformSigleAliveCheck, ask_alive. quiet. Qed.
#[local] Hint Resolve keeps_PerformAllAliveCheck : keeps.
Lemma keeps_InformUdsMessage sa ta u len ifc : keeps R (InformUdsMessage env sa ta u len ifc).
Proof using Type*. unfold InformUdsMessage, GetVlanId, GetEntityLogicalAddr, IsFunctionalAddress. quiet. Qed.
#[local] Hint Resolve keeps_InformUdsMessage : keeps.

(** ** Reception *)
Lemma keeps_discard_loop n sock len : keeps R (discard_loop env n sock len).
Proof using Type*. revert len. induction n; intros len; cbn [discard_loop]; quiet. Qed.
#[local] Hint Resolve keeps_discard_loop : keeps.
Lemma keeps_RespondHeaderNegativeACK c code left : keeps R (RespondHeaderNegativeACK env c code left).
Proof using Type*. unfold RespondHeaderNegativeACK, ReadAndDiscardMsg. quiet. Qed.
#[local] Hint Resolve keeps_RespondHeaderNegativeACK : keeps.
Lemma keeps_CheckDoipHeader c h b : keeps R (CheckDoipHeader env c h b).
Proof using Type*. unfold CheckDoipHeader, refuse_header, GetMaxDataSize. quiet. Qed.
Lemma keeps_refuse_routing c a b code : keeps R (refuse_routing env c a b code).
Proof using Type*. unfold refuse_routing. quiet. Qed.
Lemma keeps_refuse_waiting c code : keeps R (refuse_waiting env c code).
Proof using Type*. unfold refuse_waiting. quiet. Qed.
#[local] Hint Resolve keeps_CheckDoipHeader keeps_refuse_routing keeps_refuse_waiting : keeps.
Lemma keeps_AliveCheckResHandler c b p len : keeps R (AliveCheckResHandler env c b p len).
Proof using Type*. unfold AliveCheckResHandler, GetMaxConcurrentSockNum. quiet. Qed.
Lemma keeps_DiagnosticMsgSecondHandler c : keeps R (DiagnosticMsgSecondHandler env c).
Proof using Type*.
  unfold DiagnosticMsgSecondHandler, DiagnosticMsgSvrSecondHandler, refuse_diag, discard_diag, uds_bytes, GetMaxDataSize.
  quiet.
Qed.
#[local] Hint Resolve keeps_AliveCheckResHandler keeps_DiagnosticMsgSecondHandler : keeps.
Lemma keeps_DiagnosticMsgFirstHandler c b p len n : keeps R (DiagnosticMsgFirstHandler env c b p len n).
Proof using Type*. unfold DiagnosticMsgFirstHandler, uds_alloc, uds_copy. quiet. Qed.
#[local] Hint Resolve keeps_DiagnosticMsgFirstHandler : keeps.

(** ** What may activate routing *)
Section Activation.
Hypothesis keeps_active : forall c, keeps R (enter_routing_active env c).
#[local] Hint Resolve keeps_active : keeps.

Lemma keeps_enter_pending_conf c : keeps R (enter_pending_conf env c).
Proof using Type*.
  unfold enter_pending_conf, CheckRoutingActivationConfirm, ConfirmRoutingActivation, FindDoipSession. quiet.
Qed.
#[local] Hint Resolve keeps_enter_pending_conf : keeps.
Lemma keeps_ConnectionStateMachine c st a : keeps R (ConnectionStateMachine env c st a).
Proof using Type*.
  unfold ConnectionStateMachine, CheckRoutingActivationAuthen, GetAuthEnableStatus, GetAuthInfo. quiet.
Qed.
#[local] Hint Resolve keeps_ConnectionStateMachine : keeps.
Lemma keeps_RoutingActiveReqHandler c b p len : keeps R (RoutingActiveReqHandler env c b p len).
Proof using Type*.
  unfold RoutingActiveReqHandler, assign_tester, GetRegisteredConnectionNum, GetMaxConcurrentSockNum. quiet.
Qed.
#[local] Hint Resolve keeps_RoutingActiveReqHandler : keeps.
Lemma keeps_ProcessDoipMessage c ty b len : keeps R (ProcessDoipMessage env c ty b len).
Proof using Type*. unfold ProcessDoipMessage, advance. quiet. Qed.
#[local] Hint Resolve keeps_ProcessDoipMessage : keeps.
Lemma keeps_consume_loop n c : keeps R (consume_loop env n c).
Proof using Type*.
  induction n; cbn [consume_loop]; unfold in_buf, handle_message, reset_reception, reset_buffer, UnpackHeaderStruct; quiet.
Qed.
#[local] Hint Resolve keeps_consume_loop : keeps.
Lemma keeps_ConsumeTCPData sock : keeps R (ConsumeTCPData env sock).
Proof using Type*. unfold ConsumeTCPData, FindConnectionBySocket. quiet. Qed.
Lemma keeps_ReceiveTCPData c b : keeps R (ReceiveTCPData env c b).
Proof using Type*. unfold ReceiveTCPData, reset_buffer. quiet. Qed.
Lemma keeps_ReceiveDiagMessage c : keeps R (ReceiveDiagMessage env c).
Proof using Type*. unfold ReceiveDiagMessage, uds_copy. quiet. Qed.
#[local] Hint Resolve keeps_ReceiveTCPData keeps_ReceiveDiagMessage : keeps.
Lemma keeps_SocketEventCallback sock hup pollin : keeps R (SocketEventCallback env sock hup pollin).
Proof using Type*. unfold SocketEventCallback, FindConnectionBySocket. quiet. Qed.
Lemma keeps_InactivityTimerHandler t sock : keeps R (InactivityTimerHandler env t sock).
Proof using Type*. unfold InactivityTimerHandler, FindConnectionBySocket. quiet. Qed.
Lemma keeps_AliveCheckTimerHandler t sock : keeps R (AliveCheckTimerHandler env t sock).
Proof using Type*. unfold AliveCheckTimerHandler, FindConnectionBySocket, GetMaxConcurrentSockNum. quiet. Qed.
Lemma keeps_Connection_Start c : keeps R (Connection_Start env c).
Proof using Type*.
  unfold Connection_Start, GetEntityLogicalAddr, GetInitialInactivityTime, GetGenInactivityTime,
    GetAliveCheckTime, start_timer, setup_socket. quiet.
Qed.
#[local] Hint Resolve keeps_Connection_Start : keeps.
Lemma keeps_new_connection sock ty ip port ifc : keeps R (new_connection env sock ty ip port ifc).
Proof using Type*.
  unfold new_connection. apply keeps_bind; [typeclasses eauto|quiet|intros c].
  intros s r s' (s1 & ? & [= -> <-] & Hrun)%bind_run. injection Hrun as _ <-. by apply benign_conn.
Qed.
#[local] Hint Resolve keeps_new_connection : keeps.
Lemma keeps_TcpDataSocketEventCallback pollin acc ifc : keeps R (TcpDataSocketEventCallback env pollin acc ifc).
Proof using Type*.
  unfold TcpDataSocketEventCallback, FindOrCreateConnection, FindConnectionBySocket, ServerCreateConnection,
    GetMaxConcurrentSockNum, GetConnectionNum. quiet.
Qed.
End Activation.
End Env.
End Keeps.

(** ** The events of the main thread *)

(** The handlers that the event loop of the main thread runs, one after another, in any order and
    with anything that the sockets, timers and queues may give them. *)
Inductive event_step (env : DEnv) : Stack -> Stack -> Prop :=
  | step_consume sock s s' :
      ConsumeTCPData env sock s = Done (tt, s') -> event_step env s s'
  | step_socket sock hup pollin s s' :
      SocketEventCallback env sock hup pollin s = Done (tt, s') -> event_step env s s'
  | step_accept pollin accepted iface s s' :
      TcpDataSocketEventCallback env pollin accepted iface s = Done (tt, s') -> event_step env s s'
  | step_inactive t sock s s' :
      InactivityTimerHandler env t sock s = Done (tt, s') -> event_step env s s'
  | step_not_alive t sock s s' :
      AliveCheckTimerHandler env t sock s = Done (tt, s') -> event_step env s s'.

Lemma event_step_keeps env (R : relation Stack) `{!Benign R} s s' :
  (forall c, keeps R (enter_routing_active env c)) -> event_step env s s' -> R s s'.
Proof.
  intros Hact []; [by eapply keeps_ConsumeTCPData|by eapply keeps_SocketEventCallback|
    by eapply keeps_TcpDataSocketEventCallback|by eapply keeps_InactivityTimerHandler|
    by eapply keeps_AliveCheckTimerHandler].
Qed.

Lemma event_steps_keep env (R : relation Stack) `{!Benign R} s s' :
  (forall c, keeps R (enter_routing_active env c)) -> rtc (event_step env) s s' -> R s s'.
Proof.
  intros Hact. induction 1 as [|s s1 s' Hstep _ IH]; [reflexivity|].
  transitivity s1; [by eapply event_step_keeps|done].
Qed.

(** ** Every message is framed *)
Definition all_framed (s : Stack) : Prop :=
  forall sock msg, SocketSend sock msg ∈ dtrace s -> framed msg.
Definition keep_framed (s s' : Stack) : Prop := all_framed s -> all_framed s'.

#[export] Instance keep_framed_benign : Benign keep_framed.
Proof.
  split.
  - split; [intros s Hs; exact Hs|intros s1 s2 s3 H1 H2 Hs; by apply H2, H1].
  - intros s s' _ Htr Hs sock msg. rewrite Htr. apply Hs.
  - intros s c x' _ Hs. exact Hs.
  - intros s e He Hs sock msg Hin. cbn in Hin.
    apply elem_of_app in Hin as [Hin|Hin]; [by eapply Hs|].
    apply list_elem_of_singleton in Hin. by eapply He.
Qed.

Lemma keep_framed_active env c : keeps keep_framed (enter_routing_active env c).
Proof.
  unfold enter_routing_active. apply keeps_bind; [typeclasses eauto| |intros []].
  - intros s r s' (s1 & ? & [= -> <-] & Hrun)%bind_run.
    apply bind_run in Hrun as (x & ? & [_ ->]%demand_run & Hrun). injection Hrun as _ <-. intros Hs. exact Hs.
  - apply keeps_bind; [typeclasses eauto|apply keeps_cget; typeclasses eauto|intros x].
    apply keeps_ReportConnectionEvent. typeclasses eauto.
Qed.

(** ** Runs that touch one connection

    While a message is handled, the stack changes one connection object, the memory pools and
    the trace. Such a state is a [world] over the state where the handling began; every
    primitive step takes a world to a world. *)
Definition world (s : Stack) (c : Z) (x : Connection) (ip : gmap Z taf_doip_Buffer_t)
    (up : gmap Z (list Z)) (nid : Z) (es : list DEffect) : Stack :=
  s <| conns := <[c := x]> (conns s) |> <| inPool := ip |> <| udsPool := up |> <| nextId := nid |>
    <| dtrace := dtrace s ++ es |>.

Lemma world_start s c x : conns s !! c = Some x -> s = world s c x (inPool s) (udsPool s) (nextId s) [].
Proof. intros Hx. apply stack_ext; try done; cbn; [by rewrite insert_id|by rewrite app_nil_r]. Qed.

(** A step whose result is known. *)
Lemma run_to {A B} (m : M Stack A) (f : A -> M Stack B) v s s1 :
  wp m (fun r s' => r = v /\ s' = s1) s -> (m ≫= f) s = f v s1.
Proof. unfold wp, mbind, M_bind. destruct (m s) as [[a s']|]; [|done]. by intros [-> ->]. Qed.

Lemma wp_same {A} (m m' : M Stack A) (Q : A -> Stack -> Prop) s s' :
  m s = m' s' -> wp m' Q s' -> wp m Q s.
Proof. unfold wp. by intros ->. Qed.

Section World.
Context (s : Stack) (c : Z).
Implicit Types (x : Connection) (ip : gmap Z taf_doip_Buffer_t) (up : gmap Z (list Z)).

Lemma w_cget {T} (p : Connection -> T) x ip up nid es (Q : T -> Stack -> Prop) :
  Q (p x) (world s c x ip up nid es) -> wp (cget c p) Q (world s c x ip up nid es).
Proof. intros HQ. eapply wp_cget; [|exact HQ]. apply lookup_insert_eq. Qed.

Lemma w_cset {T} (p : Connection -> T) `{!Field p} v x ip up nid es (Q : unit -> Stack -> Prop) :
  Q tt (world s c (x <| p := v |>) ip up nid es) -> wp (cset c p v) Q (world s c x ip up nid es).
Proof.
  intros HQ. eapply wp_cset; [apply lookup_insert_eq|].
  match goal with |- Q tt ?s' => replace s' with (world s c (x <| p := v |>) ip up nid es); [done|] end.
  apply stack_ext; try done. cbn. by rewrite insert_insert_eq.
Qed.

Lemma w_buf_get {T} (p : taf_doip_Buffer_t -> T) b buf x ip up nid es (Q : T -> Stack -> Prop) :
  ip !! b = Some buf -> Q (p buf) (world s c x ip up nid es) ->
  wp (buf_get b p) Q (world s c x ip up nid es).
Proof. intros Hb HQ. by eapply wp_buf_get. Qed.

Lemma w_buf_set {T} (p : taf_doip_Buffer_t -> T) `{!Field p} b buf v x ip up nid es (Q : unit -> Stack -> Prop) :
  ip !! b = Some buf -> Q tt (world s c x (<[b := buf <| p := v |>]> ip) up nid es) ->
  wp (buf_set b p v) Q (world s c x ip up nid es).
Proof. intros Hb HQ. by eapply wp_buf_set. Qed.

Lemma w_emit e x ip up nid es (Q : unit -> Stack -> Prop) :
  Q tt (world s c x ip up nid (es ++ [e])) -> wp (emit e) Q (world s c x ip up nid es).
Proof.
  intros HQ. apply wp_demit.
  match goal with |- Q tt ?s' => replace s' with (world s c x ip up nid (es ++ [e])); [done|] end.
  apply stack_ext; try done. cbn. by rewrite app_assoc.
Qed.

Lemma w_fresh x ip up nid es (Q : Z -> Stack -> Prop) :
  Q nid (world s c x ip up (nid + 1) es) -> wp fresh Q (world s c x ip up nid es).
Proof. done. Qed.

Lemma w_uds_assign up' x ip up nid es (Q : unit -> Stack -> Prop) :
  Q tt (world s c x ip up' nid es) -> wp (udsPool ::= up') Q (world s c x ip up nid es).
Proof. done. Qed.

Lemma w_release_uds b x ip up nid es (Q : unit -> Stack -> Prop) :
  is_Some (up !! b) -> Q tt (world s c x ip (delete b up) nid es) ->
  wp (release_uds b) Q (world s c x ip up nid es).
Proof. intros Hb HQ. by apply wp_release_uds. Qed.

Lemma w_dlog x ip up nid es es' :
  dlog (world s c x ip up nid es) es' = world s c x ip up nid (es ++ es').
Proof. apply stack_ext; try done. cbn. by rewrite app_assoc. Qed.

Lemma w_conn x ip up nid es : conns (world s c x ip up nid es) !! c = Some x.
Proof. apply lookup_insert_eq. Qed.

Lemma w_dtrace x ip up nid es : dtrace (world s c x ip up nid es) = dtrace s ++ es.
Proof. done. Qed.
Lemma w_objectSize x ip up nid es : udsObjectSize (world s c x ip up nid es) = udsObjectSize s.
Proof. done. Qed.
Lemma w_config x ip up nid es : doipConfigPtr (world s c x ip up nid es) = doipConfigPtr s.
Proof. done. Qed.
Lemma w_sessions x ip up nid es : doipSessions (world s c x ip up nid es) = doipSessions s.
Proof. done. Qed.
Lemma w_inPool x ip up nid es : inPool (world s c x ip up nid es) = ip.
Proof. done. Qed.
Lemma w_udsPool x ip up nid es : udsPool (world s c x ip up nid es) = up.
Proof. done. Qed.

Section Own.
Context (x0 : Connection) (Hbox : box_ok s) (Hx0 : conns s !! c = Some x0).

Lemma w_box_ok x ip up nid es : cliSockRef x = cliSockRef x0 -> box_ok (world s c x ip up nid es).
Proof using Hbox Hx0. intros Hs. by destruct (box_ok_update s c x0 x Hbox Hx0 Hs). Qed.

Lemma w_serving x ip up nid es g :
  serving s c x0 g -> generalTimerRef x = generalTimerRef x0 -> serving (world s c x ip up nid es) c x g.
Proof using. intros [H1 H2 H3 H4] Ht. split; [apply w_conn|done|congruence|done]. Qed.
End Own.
End World.

Create Rewrite HintDb world.
#[export] Hint Rewrite w_dtrace w_objectSize w_config w_sessions w_inPool w_udsPool : world.

(** Goes through the steps of a world. *)
Ltac w_step :=
  lazymatch goal with
  | |- wp (cget _ _) _ (world _ _ _ _ _ _ _) => apply w_cget
  | |- wp (cset _ _ _) _ (world _ _ _ _ _ _ _) => apply w_cset
  | |- wp (emit _) _ (world _ _ _ _ _ _ _) => apply w_emit
  | |- wp fresh _ (world _ _ _ _ _ _ _) => apply w_fresh
  | |- wp (udsPool ::= _) _ (world _ _ _ _ _ _ _) => apply w_uds_assign
  | |- wp (_ ≫= _) _ _ => apply wp_bind
  | |- wp (mret _) _ _ => apply wp_ret
  | |- wp get _ _ => apply wp_get
  | |- wp (demand (Some ?a) _) _ _ => apply (wp_demand _ _ a _ _ eq_refl)
  end; cbv beta.
Ltac w_steps := repeat w_step.
