(* ===== verification/DoipDiag.v ===== *)
(** * The DoIP stack: diagnostic messages

    What the two handlers of a diagnostic message do with a message that has been received
    completely. *)
From S2P Require Import Prelude DoipTypes DoipVehicle DoipSend DoipConn DoipRecv DoipUdp.
From S2P Require Import DoipSpec DoipRecvSpec DoipKeeps.

(** The block of a diagnostic message: addresses and message. *)
Definition diag_body (sa ta : Z) (msg : list Z) : list Z := net16 sa ++ net16 ta ++ msg.

Lemma length_diag_body sa ta msg : length (diag_body sa ta msg) = (4 + length msg)%nat.
Proof. done. Qed.

Definition loaded (x : Connection) (u total got : Z) : Connection :=
  x <| udsBuf := Some u |> <| udsTotalLen := total |> <| udsReceived := got |>.
Definition unloaded (x : Connection) : Connection :=
  x <| udsTotalLen := 0 |> <| udsReceived := 0 |> <| udsBuf := None |>.

Lemma splice_replicate n (g : Z) body :
  splice (replicate n g) 0 body = body ++ replicate (n - length body) g.
Proof. unfold splice. cbn [Z.to_nat Nat.add take app]. by rewrite drop_replicate. Qed.

Lemma bytes_between (pre body tail : list Z) :
  take (length body) (drop (length pre) (pre ++ body ++ tail)) = body.
Proof. by rewrite drop_app_length, take_app_length. Qed.

(** The target of a message that the entity accepts: how it was addressed. *)
Definition own_address (cfg : taf_doip_Config_t) : Z := wrap 16 (entityLA cfg).
Definition addressed (cfg : taf_doip_Config_t) (ta : Z) : option taf_doip_TaType_t :=
  if bool_decide (ta ∈ funcGroupList cfg) then Some TAF_DOIP_TA_TYPE_FUNCTIONAL
  else if ta =? own_address cfg then Some TAF_DOIP_TA_TYPE_PHYSICAL else None.

Definition vlan (env : DEnv) (tr : list DEffect) (ifc : string) : Z :=
  default 0 (lines ← vlan_config env tr; Some (vlan_of lines ifc)).

Section Diag.
Variable env : DEnv.
Context (s : Stack) (c : Z).
Implicit Types (x : Connection) (ip : gmap Z taf_doip_Buffer_t) (up : gmap Z (list Z)).

Lemma FirstHandler_complete x ip up nid es b buf pre body tail got :
  udsBuf x = None -> uds_pool_free env (dtrace s ++ es) = true ->
  ip !! b = Some buf -> data buf = pre ++ body ++ tail ->
  Z.of_nat (length body) <= got -> Z.of_nat (length body) <= udsObjectSize s ->
  exists g, is_byte g /\ DiagnosticMsgFirstHandler env c b (Z.of_nat (length pre)) (Z.of_nat (length body)) got
      (world s c x ip up nid es) =
    DiagnosticMsgSecondHandler env c
      (world s c (loaded x nid (Z.of_nat (length body)) got) ip
        (<[nid := body ++ replicate (Z.to_nat (udsObjectSize s) - length body) g]> up) (nid + 1) es).
Proof.
  intros Hu Hfree Hb Hd Hgot Hsize. exists (u8 (garbage env (dtrace s ++ es))).
  split; [by apply wrap_in_width|].
  unfold DiagnosticMsgFirstHandler.
  erewrite (run_to (cget c udsBuf)) by (w_steps; split; reflexivity). rewrite Hu.
  erewrite run_to.
  2: { w_step. unfold uds_alloc. do 2 w_step. autorewrite with world. rewrite Hfree.
       do 4 w_step. autorewrite with world. w_steps. split; reflexivity. }
  cbn [negb]. erewrite (run_to (buf_get b data)) by (eapply w_buf_get; [exact Hb|split; reflexivity]).
  erewrite (run_to (bytes_at _ _ _)).
  2: { rewrite Hd. replace (if _ <? _ then _ else _) with (Z.of_nat (length body)) by (destruct (Z.ltb_spec got (Z.of_nat (length body))); lia).
       apply wp_bytes_at; [lia|lia|rewrite !length_app; lia|]. rewrite !Nat2Z.id, bytes_between. split; reflexivity. }
  erewrite (run_to (cget c udsBuf)) by (w_steps; split; reflexivity).
  erewrite (run_to (demand _ _)) by (w_steps; split; reflexivity).
  erewrite (run_to (uds_copy _ _ _)).
  2: { unfold uds_copy. do 2 w_step. w_step. eapply wp_demand; [apply lookup_insert_eq|].
       rewrite decide_True by (rewrite length_replicate; lia). w_step. split; reflexivity. }
  erewrite (run_to (cset c udsTotalLen _)) by (w_steps; split; reflexivity).
  erewrite (run_to (cset c udsReceived _)) by (w_steps; split; reflexivity).
  erewrite (run_to get) by (w_steps; split; reflexivity).
  destruct (Z.leb_spec (Z.of_nat (length body)) got); [|lia]. cbn [orb].
  autorewrite with world. rewrite insert_insert_eq, splice_replicate. by destruct x.
Qed.

(** The handler up to the upper layer: the checks that a good message passes. *)
Definition deliver (x : Connection) (sa ta total : Z) : M Stack taf_doip_Result_t :=
  ret ← InformUdsMessage env sa ta (udsBuf x) total (localIface x);
  if bool_decide (ret = TAF_DOIP_RESULT_UNKNOWN_TA)
  then refuse_diag env c ta sa TAF_DOIP_DIAGNOSTIC_NACK_UNKNOWN_TA TAF_DOIP_RESULT_UNKNOWN_TA
  else if negb (bool_decide (ret = TAF_DOIP_RESULT_OK))
  then refuse_diag env c ta sa TAF_DOIP_DIAGNOSTIC_NACK_TRANS_PROTO_ERROR TAF_DOIP_RESULT_TARGET_UNREACHABLE
  else
  cset c udsTotalLen 0;;
  cset c udsReceived 0;;
  cset c udsBuf None;;
  link ← tcp_link c;
  DiagPositiveACK env link ta sa;;
  mret TAF_DOIP_RESULT_OK.

Lemma SecondHandler_delivers x ip up nid es u sa ta msg pad :
  connType x = TAF_DOIP_CONNECTION_TYPE_SVR ->
  connState x = TAF_DOIP_CONNECT_STATE_REGISTERED_ROUTING_ACTIVE -> testerSA x = sa ->
  udsBuf x = Some u -> up !! u = Some (diag_body sa ta msg ++ pad) -> msg <> [] ->
  udsTotalLen x = Z.of_nat (length (diag_body sa ta msg)) ->
  in_width 16 sa -> in_width 16 ta ->
  udsTotalLen x <= max_data s -> udsTotalLen x <= udsObjectSize s ->
  DiagnosticMsgSecondHandler env c (world s c x ip up nid es) =
  deliver x sa ta (udsTotalLen x) (world s c x ip up nid es).
Proof.
  intros Hty Hst Hsa Hu Hup Hmsg Htotal Hwsa Hwta Hmds Hobj. unfold DiagnosticMsgSecondHandler.
  assert (0 < Z.of_nat (length msg)) by (destruct msg; [done|cbn; lia]).
  rewrite length_diag_body in Htotal.
  erewrite (run_to (cget c connType)) by (w_steps; split; reflexivity). rewrite Hty.
  unfold DiagnosticMsgSvrSecondHandler.
  erewrite (run_to (cget c udsTotalLen)) by (w_steps; split; reflexivity).
  destruct (Z.leb_spec (udsTotalLen x) two_addresses) as [Hle|_]; [unfold two_addresses in Hle; lia|].
  erewrite (run_to (uds_bytes c)).
  2: { unfold uds_bytes. do 2 w_step. rewrite Hu. w_steps. eapply wp_demand; [exact Hup|split; reflexivity]. }
  erewrite (run_to (read16 _ 0)).
  2: { eapply wp_read16; [reflexivity..|]. rewrite be16_bytes by done. split; reflexivity. }
  erewrite (run_to (read16 _ 2)).
  2: { eapply wp_read16; [reflexivity..|]. rewrite be16_bytes by done. split; reflexivity. }
  cbv zeta. erewrite (run_to (cget c connState)) by (w_steps; split; reflexivity).
  rewrite bool_decide_true by done. cbn [negb].
  erewrite (run_to (cget c testerSA)) by (w_steps; split; reflexivity).
  rewrite Hsa, Z.eqb_refl. cbn [negb].
  destruct (GetMaxDataSize_run (world s c x ip up nid es)) as (r & Hr & Hrun).
  change (max_data _) with (max_data s) in Hr.
  erewrite (run_to GetMaxDataSize) by (unfold wp; rewrite Hrun; split; reflexivity).
  erewrite (run_to get) by (w_steps; split; reflexivity). rewrite Hr. autorewrite with world.
  destruct (Z.ltb_spec (max_data s) (udsTotalLen x)); [lia|].
  destruct (Z.ltb_spec (udsObjectSize s) (udsTotalLen x)); [lia|].
  by erewrite (run_to (cget c _)) by (w_steps; split; reflexivity).
Qed.

Lemma run_InformUdsMessage cfg x ip up nid es sa ta u total :
  doipConfigPtr s = Some cfg -> parseStatus cfg = true -> total <> 0 ->
  InformUdsMessage env sa ta (Some u) total (localIface x) (world s c x ip up nid es) =
  match addressed cfg ta with
  | Some ty =>
      (emit (QueueIndicateUds (mkDiagInfo sa (own_address cfg) ty (Some u) total
         (vlan env (dtrace s ++ es) (localIface x)) (localIface x)));; mret TAF_DOIP_RESULT_OK)
        (world s c x ip up nid es)
  | None => (release_uds u;; mret TAF_DOIP_RESULT_UNKNOWN_TA) (world s c x ip up nid es)
  end.
Proof.
  intros Hcfg Hps Ht. unfold InformUdsMessage. destruct (Z.eqb_spec total 0); [done|].
  erewrite (run_to (GetVlanId _ _)).
  2: { unfold GetVlanId. w_steps. autorewrite with world. split; reflexivity. }
  erewrite (run_to GetEntityLogicalAddr).
  2: { unfold GetEntityLogicalAddr, parsed. w_steps. autorewrite with world. rewrite Hcfg, Hps. split; reflexivity. }
  cbn [default fmap option_fmap option_map]. cbv zeta.
  erewrite (run_to (IsFunctionalAddress _)).
  2: { unfold IsFunctionalAddress. w_steps. autorewrite with world. rewrite Hcfg. split; reflexivity. }
  unfold addressed, own_address, vlan. cbn. case_bool_decide; [done|].
  destruct (Z.eqb_spec ta (wrap 16 (entityLA cfg))) as [->|]; done.
Qed.

(** The acknowledgement and the message for the upper layer. *)
Definition ack_fields (sa ta : Z) : list Z := net16 ta ++ net16 sa ++ [TAF_DOIP_DIAGNOSTIC_ACK].
Definition diag_info (cfg : taf_doip_Config_t) (tr : list DEffect) (x : Connection) (sa : Z)
    (ty : taf_doip_TaType_t) (u total : Z) : taf_doipDiagDataInfo_t :=
  mkDiagInfo sa (own_address cfg) ty (Some u) total (vlan env tr (localIface x)) (localIface x).

Lemma deliver_accepted cfg x0 x ip up nid es u sa ta ty b (Q : taf_doip_Result_t -> Stack -> Prop) :
  box_ok s -> started s c x0 b -> cliSockRef x = cliSockRef x0 ->
  generalTimerRef x = generalTimerRef x0 -> doipConfigPtr s = Some cfg -> parseStatus cfg = true ->
  udsBuf x = Some u -> udsTotalLen x <> 0 -> addressed cfg ta = Some ty ->
  (forall es', sent es' = [(cliSockRef x, doip_message cfg TAF_DOIP_PAYLOAD_TYPE_DIAGNOSTIC_POSITIVE_ACK (ack_fields sa ta))] ->
    reports es' = [] -> uds_queue es' = [] ->
    Q TAF_DOIP_RESULT_OK (world s c (unloaded x) ip up nid
      (es ++ QueueIndicateUds (diag_info cfg (dtrace s ++ es) x sa ty u (udsTotalLen x)) :: es'))) ->
  wp (deliver x sa ta (udsTotalLen x)) Q (world s c x ip up nid es).
Proof.
  intros Hbox Hst Hsock Hgen Hcfg Hps Hu Ht Hty HQ. unfold deliver. rewrite Hu.
  unfold wp. erewrite run_to.
  2: { unfold wp. rewrite (run_InformUdsMessage cfg) by done. rewrite Hty. apply wp_bind, w_emit. split; reflexivity. }
  rewrite !bool_decide_false, bool_decide_true by done. cbn [negb].
  match goal with |- match ?m ?w with _ => _ end => change (wp m Q w) end.
  do 6 w_step. w_step. eapply wp_tcp_link; [apply w_conn|]. w_step.
  pose proof (started_serving _ _ _ _ Hst) as Hserv.
  eapply (wp_DiagPositiveACK env _ c (unloaded x) (ConnT c GeneralTimer) cfg).
  - by eapply w_box_ok; [|exact (st_object _ _ _ _ Hst)|].
  - by eapply w_serving.
  - exact Hcfg.
  - unfold tells. rewrite w_dlog, <- app_assoc. apply HQ; [by rewrite sent_send_effects|..];
      unfold send_effects; by destruct (timer_running _ _ _).
Qed.

Lemma deliver_unknown cfg x0 x ip up nid es u sa ta b :
  box_ok s -> started s c x0 b -> cliSockRef x = cliSockRef x0 ->
  generalTimerRef x = generalTimerRef x0 -> doipConfigPtr s = Some cfg -> parseStatus cfg = true ->
  udsBuf x = Some u -> is_Some (up !! u) -> udsTotalLen x <> 0 -> addressed cfg ta = None ->
  deliver x sa ta (udsTotalLen x) (world s c x ip up nid es) = Faulted UseAfterFree.
Proof.
  intros Hbox Hst Hsock Hgen Hcfg Hps Hu Hup Ht Hty. unfold deliver. rewrite Hu.
  erewrite run_to.
  2: { unfold wp. rewrite (run_InformUdsMessage cfg) by done. rewrite Hty. apply wp_bind, w_release_uds; [done|]. split; reflexivity. }
  rewrite bool_decide_true by done. unfold refuse_diag.
  apply fault_bind. eapply wp_tcp_link; [apply w_conn|]. apply fault_bind.
  pose proof (started_serving _ _ _ _ Hst) as Hserv.
  eapply (wp_DiagNegativeACK env _ c x (ConnT c GeneralTimer) cfg).
  - by eapply w_box_ok; [|exact (st_object _ _ _ _ Hst)|].
  - by eapply w_serving.
  - exact Hcfg.
  - done.
  - unfold tells. rewrite w_dlog. apply fault_bind, wp_ret.
    unfold discard_diag. apply fault_bind, w_cset, fault_bind, w_cset, fault_bind, w_cget. cbn. rewrite Hu.
    apply fault_bind_now, fault_bind_now. unfold release_uds, mbind, M_bind, get. autorewrite with world.
    by rewrite lookup_delete_eq.
Qed.
End Diag.

(** *** The handler of the upper layer *)
Lemma wp_has_handler info sess s (Q : bool -> Stack -> Prop) :
  find_session (doipSessions s) (ita info) = Some sess -> diagIndicationHandler sess = true ->
  Q true s -> wp (has_handler info) Q s.
Proof.
  intros Hs Hh HQ. unfold has_handler, FindDoipSession. do 3 wp_step. rewrite Hs. wp_step. by rewrite Hh.
Qed.

Lemma wp_message_at info u sa ta rest s (Q : list Z -> Stack -> Prop) :
  idata info = Some u -> udsPool s !! u = Some (diag_body sa ta rest) ->
  Q rest s -> wp (message_at info) Q s.
Proof.
  intros Hu Hd HQ. unfold message_at. rewrite Hu. wp_step. apply (wp_demand _ _ u); [done|]. do 2 wp_step.
  wp_step. eapply wp_demand; [exact Hd|]. pose proof (length_diag_body sa ta rest) as Hl. unfold two_addresses. apply wp_bytes_at; [lia..|].
  change (drop _ _) with rest. by rewrite take_ge by lia.
Qed.

Lemma diag_body_pad sa ta msg pad : diag_body sa ta msg ++ pad = diag_body sa ta (msg ++ pad).
Proof. unfold diag_body. by rewrite <- !app_assoc. Qed.

(** ** A diagnostic message in the reception buffer *)

(** A complete message that the entity does not refuse before it knows the target: the tester is
    registered, the message fits, and there is a block for it. *)
Record diag_ready (env : DEnv) (s : Stack) (c : Z) (x : Connection) (b : Z) (cfg : taf_doip_Config_t)
    (buf : taf_doip_Buffer_t) (pre : list Z) (v sa ta : Z) (msg rest : list Z) : Prop := mkDiagReady {
  dr_conn : entity_conn s c x b cfg;
  dr_parsed : parseStatus cfg = true;
  dr_version : known_version v = true;
  dr_message : holds s b buf pre v TAF_DOIP_PAYLOAD_TYPE_DIAGNOSTIC_MESSAGE
    (Z.of_nat (length (diag_body sa ta msg))) (diag_body sa ta msg ++ rest);
  dr_complete : 8 + Z.of_nat (length (diag_body sa ta msg)) <= dataSize buf;
  dr_size : dataSize buf < 2 ^ 32;
  dr_active : connState x = TAF_DOIP_CONNECT_STATE_REGISTERED_ROUTING_ACTIVE;
  dr_tester : testerSA x = sa;
  dr_idle : udsBuf x = None;
  dr_sa : in_width 16 sa;
  dr_ta : in_width 16 ta;
  dr_nonempty : msg <> [];
  dr_fits : 8 + Z.of_nat (length (diag_body sa ta msg)) <= max_data s;
  dr_block : Z.of_nat (length (diag_body sa ta msg)) <= udsObjectSize s;
  dr_free : uds_pool_free env (dtrace s) = true }.

Section Message.
Context (env : DEnv) (s : Stack) (c : Z) (x : Connection) (b : Z) (cfg : taf_doip_Config_t).
Context (buf : taf_doip_Buffer_t) (pre : list Z) (v sa ta : Z) (msg rest : list Z).
Context (Hr : diag_ready env s c x b cfg buf pre v sa ta msg rest).

Let len := Z.of_nat (length (diag_body sa ta msg)).
Let hdr := mkHeader v (u8 (Z.lnot v)) TAF_DOIP_PAYLOAD_TYPE_DIAGNOSTIC_MESSAGE len.
Let x1 := loaded x (nextId s) len (dataSize buf - 8).

Lemma diag_position :
  dataPos buf = Z.of_nat (length pre) /\ u32 (dataPos buf + 8) = Z.of_nat (length (pre ++ header_bytes v (u8 (Z.lnot v)) TAF_DOIP_PAYLOAD_TYPE_DIAGNOSTIC_MESSAGE len)).
Proof using Hr.
  pose proof (dr_message _ _ _ _ _ _ _ _ _ _ _ _ _ Hr) as Hh.
  pose proof (ho_pos _ _ _ _ _ _ _ _ Hh) as Hp. pose proof (ho_room _ _ _ _ _ _ _ _ Hh) as Hroom.
  rewrite (ho_data _ _ _ _ _ _ _ _ Hh) in Hroom. rewrite !length_app, length_header in Hroom.
  split; [done|]. rewrite Hp, length_app, length_header. rewrite wrap_id by (unfold in_width; lia). lia.
Qed.

(** The message reaches the upper layer in a block of its own. *)
Lemma diag_first : exists pad, Forall is_byte pad /\
  Z.of_nat (length (diag_body sa ta msg ++ pad)) = udsObjectSize s /\
  DiagnosticMsgFirstHandler env c b (u32 (dataPos buf + 8)) len (dataSize buf - 8) s =
  deliver env c x1 sa ta len
    (world s c x1 (inPool s) (<[nextId s := diag_body sa ta msg ++ pad]> (udsPool s)) (nextId s + 1) []).
Proof using Hr.
  pose proof (proj2 diag_position) as Hpos. unfold x1, len in *.
  pose proof (dr_block _ _ _ _ _ _ _ _ _ _ _ _ _ Hr) as Hblock.
  destruct Hr as [[Hbox Hst Hty ? ? ?] ? ? Hh ? ? ? ? ? ? ? ? ? ? Hfree].
  pose proof (world_start s c x (st_object _ _ _ _ Hst)) as Hw.
  destruct (FirstHandler_complete env s c x (inPool s) (udsPool s) (nextId s) [] b buf
    (pre ++ header_bytes v (u8 (Z.lnot v)) TAF_DOIP_PAYLOAD_TYPE_DIAGNOSTIC_MESSAGE
       (Z.of_nat (length (diag_body sa ta msg))))
    (diag_body sa ta msg) rest (dataSize buf - 8)) as (g & Hgb & Hg); try done.
  - by rewrite app_nil_r.
  - apply Hh.
  - rewrite (ho_data _ _ _ _ _ _ _ _ Hh). by rewrite <- !app_assoc.
  - lia.
  - exists (replicate (Z.to_nat (udsObjectSize s) - length (diag_body sa ta msg)) g).
    split; [by apply Forall_replicate|]. split; [rewrite length_app, length_replicate; lia|].
    etrans; [exact (f_equal (DiagnosticMsgFirstHandler env c b _ _ _) Hw)|].
    rewrite Hpos, Hg. etrans; [|reflexivity].
    eapply (SecondHandler_delivers env s c (loaded _ _ _ _) _ _ _ _ (nextId s) sa ta msg); try done;
      [apply lookup_insert_eq|change (Z.of_nat (length (diag_body sa ta msg)) <= max_data s); lia].
Qed.

(** What is left to do when the message has been handled. *)
Definition after_diag (ret : taf_doip_Result_t) : M Stack taf_doip_Result_t :=
  if bool_decide (ret = TAF_DOIP_RESULT_OUT_OF_MEMORY) then mret TAF_DOIP_RESULT_OUT_OF_MEMORY else
  st ← cget c connState;
  if negb (bool_decide (ret = TAF_DOIP_RESULT_OK))
     && bool_decide (st = TAF_DOIP_CONNECT_STATE_FINALIZE)
  then mret TAF_DOIP_RESULT_NO_SOCKET else advance b len.

Lemma process_diag :
  ProcessDoipMessage env c TAF_DOIP_PAYLOAD_TYPE_DIAGNOSTIC_MESSAGE b len s =
  (ret ← DiagnosticMsgFirstHandler env c b (u32 (dataPos buf + 8)) len (dataSize buf - 8);
   after_diag ret) s.
Proof using Hr.
  pose proof (dr_message _ _ _ _ _ _ _ _ _ _ _ _ _ Hr) as Hh.
  pose proof (dr_complete _ _ _ _ _ _ _ _ _ _ _ _ _ Hr) as Hc. rewrite length_diag_body in Hc.
  unfold ProcessDoipMessage. erewrite run_bind by by eapply run_buf_get. cbv zeta.
  etrans; [apply (run_bind (buf_get b dataSize)); by eapply run_buf_get|].
  destruct (Z.ltb_spec (dataSize buf) (TAF_DOIP_HEADER_GENERIC_LENGTH + two_addresses)) as [Hlt|_]; [|done].
  unfold two_addresses in Hlt. lia.
Qed.

Lemma consume_diag :
  ConsumeTCPData env (cliSockRef x) s =
  (ended ← handle_message env (consume_loop env 4 c) c hdr; consume_end c (cliSockRef x) ended) s.
Proof using Hr.
  pose proof (dr_fits _ _ _ _ _ _ _ _ _ _ _ _ _ Hr).
  eapply (ConsumeTCPData_processes env s c x b cfg buf pre v); [..|by left]; try apply Hr; [done|unfold len; lia].
Qed.

Lemma advance_spec x' up nid es (Q : taf_doip_Result_t -> Stack -> Prop) :
  Q TAF_DOIP_RESULT_OK
    (world s c x' (<[b := mkBuffer (data buf) (dataSize buf - (8 + len))
       (if dataSize buf =? 8 + len then 0 else dataPos buf + (8 + len))]> (inPool s)) up nid es) ->
  wp (advance b len) Q (world s c x' (inPool s) up nid es).
Proof using Hr.
  intros HQ. destruct diag_position as [Hpos Hw].
  pose proof (ho_block _ _ _ _ _ _ _ _ (dr_message _ _ _ _ _ _ _ _ _ _ _ _ _ Hr)) as Hblock.
  pose proof (ho_room _ _ _ _ _ _ _ _ (dr_message _ _ _ _ _ _ _ _ _ _ _ _ _ Hr)) as Hroom.
  pose proof (ho_data _ _ _ _ _ _ _ _ (dr_message _ _ _ _ _ _ _ _ _ _ _ _ _ Hr)) as Hdata.
  pose proof (dr_complete _ _ _ _ _ _ _ _ _ _ _ _ _ Hr) as Hcomplete. fold len in Hcomplete.
  pose proof (dr_size _ _ _ _ _ _ _ _ _ _ _ _ _ Hr) as Hsize.
  assert (Hlen : 0 <= len <= 1500 /\ 0 <= dataPos buf <= 1500).
  { rewrite Hdata, !length_app in Hroom. unfold len. lia. }
  unfold advance. w_step. eapply w_buf_get; [exact Hblock|]. cbv zeta.
  rewrite (wrap_id 32 (len + _)), (wrap_id 32 (dataSize buf - _)) by (unfold in_width; lia).
  destruct (Z.ltb_spec (dataSize buf) (len + TAF_DOIP_HEADER_GENERIC_LENGTH)); [lia|].
  w_step. w_step. eapply w_buf_get; [exact Hblock|]. w_step. eapply w_buf_set; [exact Hblock|].
  w_step. eapply w_buf_set; [apply lookup_insert_eq|]. rewrite insert_insert_eq.
  rewrite wrap_id by (unfold in_width; lia).
  replace (len + TAF_DOIP_HEADER_GENERIC_LENGTH) with (8 + len) by lia.
  destruct (Z.eqb_spec (dataSize buf - (8 + len)) 0); destruct (Z.eqb_spec (dataSize buf) (8 + len)); try lia.
  - eapply w_buf_set; [apply lookup_insert_eq|]. rewrite insert_insert_eq. w_step. by destruct buf.
  - apply wp_ret. w_step. by destruct buf.
Qed.

(** The whole handling of a message that finds its target. *)
Lemma handle_diag ty next (Q : bool -> Stack -> Prop) :
  addressed cfg ta = Some ty ->
  (forall pad es, Forall is_byte pad ->
    Z.of_nat (length (diag_body sa ta msg ++ pad)) = udsObjectSize s -> uds_queue es = [] ->
    sent es = [(cliSockRef x, doip_message cfg TAF_DOIP_PAYLOAD_TYPE_DIAGNOSTIC_POSITIVE_ACK (ack_fields sa ta))] ->
    reports es = [] ->
    let after x' size pos := world s c x' (<[b := mkBuffer (data buf) size pos]> (inPool s))
      (<[nextId s := diag_body sa ta msg ++ pad]> (udsPool s)) (nextId s + 1)
      (QueueIndicateUds (diag_info env cfg (dtrace s) x sa ty (nextId s) len) :: es) in
    if dataSize buf =? 8 + len then Q false (after (unloaded x <| isConsuming := false |>) 0 0)
    else wp next Q (after (unloaded x) (dataSize buf - (8 + len)) (dataPos buf + (8 + len)))) ->
  wp (handle_message env next c hdr) Q s.
Proof using Hr.
  intros Hty HQ. pose proof (dr_conn _ _ _ _ _ _ _ _ _ _ _ _ _ Hr) as [Hbox Hst _ _ Hcfg _].
  unfold handle_message. w_step.
  eapply wp_conseq; [by eapply run_in_buf; apply Hst|]. intros ? ? [-> ->].
  apply wp_bind. cbn [payloadType payloadLen hdr].
  eapply wp_same; [apply process_diag|]. apply wp_bind. destruct diag_first as (pad & Hpad & Hlen & Hfirst).
  eapply wp_same; [exact Hfirst|].
  apply (deliver_accepted env s c cfg x x1 _ _ _ _ (nextId s) sa ta ty b); try done; [by apply Hr|].
  intros es Hsent Hrep Hqueue. unfold after_diag. rewrite bool_decide_false by done. do 2 w_step.
  rewrite bool_decide_true by done. cbn [negb andb].
  apply advance_spec. change (is_diagnostic _) with true. cbv iota. specialize (HQ pad es Hpad Hlen Hqueue Hsent Hrep). cbv zeta in HQ.
  replace (unloaded x1) with (unloaded x) by (unfold x1; by destruct x). rewrite app_nil_r.
  w_step. unfold in_buf. do 2 w_step. change (inBuf (unloaded x)) with (inBuf x).
  rewrite (st_inBuf _ _ _ _ Hst). w_step. w_step. eapply w_buf_get; [apply lookup_insert_eq|]. cbn [dataSize].
  destruct (Z.eqb_spec (dataSize buf) (8 + len)) as [->|].
  - rewrite Z.sub_diag. cbn [Z.eqb]. w_step. eapply w_buf_set; [apply lookup_insert_eq|]. do 2 w_step.
    rewrite insert_insert_eq in *. w_step. exact HQ.
  - destruct (Z.eqb_spec (dataSize buf - (8 + len)) 0); [lia|]. exact HQ.
Qed.
End Message.
