(* ===== verification/DoipRoute.v ===== *)
(** * The DoIP stack: routing activation

    The verdict on a routing activation request, and what the state machine does with it. *)
From S2P Require Import Prelude DoipTypes DoipVehicle DoipSend DoipConn DoipRecv.
From S2P Require Import DoipSpec DoipRecvSpec DoipKeeps.

(** The payload of a request: source address, activation type, four reserved bytes and four bytes
    of the manufacturer, which may be missing. *)
Definition ra_body (sa ty res : Z) (oem : option Z) : list Z :=
  net16 sa ++ [ty] ++ net32 res ++ match oem with Some o => net32 o | None => [] end.

Lemma length_ra_body sa ty res oem :
  length (ra_body sa ty res oem) = match oem with Some _ => 11%nat | None => 7%nat end.
Proof. by destruct oem. Qed.

(** The answer of the upper layer to the activation, after the trace [tr]. *)
Definition confirmation (env : DEnv) (s : Stack) (tr : list DEffect) (sa la : Z) : taf_doip_UserConfirmResult_t :=
  match find_session (doipSessions s) la with
  | None => TAF_DOIP_USER_CONFIRM_RESULT_REJECT
  | Some session => if userConfirmHandler session then user_confirm env (tr ++ [UserConfirmCall sa la])
                    else TAF_DOIP_USER_CONFIRM_RESULT_NO_NEED
  end.

Definition authorised (cfg : taf_doip_Config_t) (oem : Z) : bool :=
  negb (authEnableStatus cfg) || (oem =? cfgAuthInfo cfg) || (0 =? cfgAuthInfo cfg).

(** The response code for a tester that asks when nobody is registered. *)
Definition ra_verdict (cfg : taf_doip_Config_t) (confirm : taf_doip_UserConfirmResult_t)
    (sa ty : Z) (oem : option Z) : Z :=
  if (sa <? 0x0E00) || (0x0FFF <? sa) then TAF_DOIP_RA_RES_UNKNOWN_SOURCE_ADDRESS
  else if (0x02 <=? ty) && (ty <=? 0xDF) then TAF_DOIP_RA_RES_UNSUPPORTED_RA_TYPE
  else if negb (authorised cfg (default 0 oem)) then TAF_DOIP_RA_RES_MISSING_AUTHENTICATION
  else match confirm with
       | TAF_DOIP_USER_CONFIRM_RESULT_REJECT => TAF_DOIP_RA_RES_REJECT_CONFIRMATION
       | _ => TAF_DOIP_RA_RES_ROUTING_SUCCESSFULLY_ACTIVATED
       end.

Definition ra_fields (sa la code : Z) : list Z := net16 sa ++ net16 la ++ [code] ++ host32 0.

Lemma wp_read32 (b : list Z) i z (Q : Z -> Stack -> Prop) s :
  in_width 32 z -> (forall k, (k < 4)%nat -> at_ b (i + Z.of_nat k) = net32 z !! k) -> Q z s -> wp (read32 b i) Q s.
Proof.
  intros Hz Hat HQ. unfold read32. wp_step.
  eapply wp_read16; [specialize (Hat 0%nat ltac:(lia)); rewrite Z.add_0_r in Hat; exact Hat|apply (Hat 1%nat); lia|].
  wp_step. eapply wp_read16; [apply (Hat 2%nat); lia|rewrite <- Z.add_assoc; apply (Hat 3%nat); lia|].
  wp_step. by rewrite net32_value.
Qed.

Lemma count_registered_zero box s (Q : Z -> Stack -> Prop) :
  (forall c, c ∈ box -> exists x, conns s !! c = Some x /\ is_registered x = false) ->
  Q 0 s -> wp (count_registered box) Q s.
Proof.
  intros Hall HQ. revert Q HQ. induction box as [|c box IH]; intros Q HQ; cbn [count_registered]; [done|].
  destruct (Hall c) as (x & Hx & Hreg); [by left|]. wp_step.
  eapply wp_cget; [exact Hx|]. wp_step. rewrite Hreg. apply IH; [intros; apply Hall; by right|]. by wp_step.
Qed.

Section Route.
Variable env : DEnv.
Context (s : Stack) (c b : Z) (x0 : Connection) (cfg : taf_doip_Config_t).
Context (Hbox : box_ok s) (Hst : started s c x0 b) (Hcfg : doipConfigPtr s = Some cfg)
  (Hparsed : parseStatus cfg = true).
Implicit Types (x : Connection) (es : list DEffect).

(** The members that identify the connection are those it began with. *)
Definition same_resources x : Prop :=
  cliSockRef x = cliSockRef x0 /\ generalTimerRef x = generalTimerRef x0 /\
  initialTimerRef x = initialTimerRef x0 /\ aliveCheckTimerRef x = aliveCheckTimerRef x0 /\
  inBuf x = inBuf x0 /\ udsBuf x = udsBuf x0.

Abbreviation W x es := (world s c x (inPool s) (udsPool s) (nextId s) es).

Lemma w_started x es : same_resources x -> started (W x es) c x b.
Proof using Hst.
  intros (H1 & H2 & H3 & H4 & H5 & H6). destruct Hst. split; try congruence; try done.
  - apply w_conn.
  - intros u Hu. rewrite H6 in Hu. autorewrite with world. auto.
Qed.

Lemma w_respond x es sa la code (Q : unit -> Stack -> Prop) :
  same_resources x ->
  (forall es', sent es' = [(cliSockRef x0, doip_message cfg TAF_DOIP_PAYLOAD_TYPE_ROUTING_ACTIVE_RESPONSE (ra_fields sa la code))] ->
    reports es' = [] -> Q tt (W x (es ++ es'))) ->
  wp (RoutingActivationRes env (own_link x) sa la code 0) Q (W x es).
Proof using Hbox Hst Hcfg.
  intros Hsame HQ. eapply (wp_RoutingActivationRes env _ c x (ConnT c GeneralTimer) cfg).
  - eapply w_box_ok; [exact Hbox|apply Hst|apply Hsame].
  - by eapply started_serving, w_started.
  - exact Hcfg.
  - unfold tells. rewrite w_dlog. apply HQ.
    + rewrite sent_send_effects. by rewrite (proj1 Hsame).
    + unfold send_effects. by destruct (timer_running _ _ _).
Qed.

(** A refusal: the answer, and the end of the connection. *)
Definition refused (s' : Stack) (sa code : Z) : Prop := exists es,
  dtrace s' = dtrace s ++ es /\
  sent es = [(cliSockRef x0, doip_message cfg TAF_DOIP_PAYLOAD_TYPE_ROUTING_ACTIVE_RESPONSE (ra_fields sa (entitySA x0) code))] /\
  reports es = [] /\ connectionBox s ≡ₚ c :: connectionBox s' /\
  last es = Some (SocketDelete (Some (cliSockRef x0))) /\
  (exists x', conns s' !! c = Some x' /\ connState x' = TAF_DOIP_CONNECT_STATE_FINALIZE).

Lemma w_refuse x es es' sa code :
  same_resources x -> connState x <> TAF_DOIP_CONNECT_STATE_REGISTERED_ROUTING_ACTIVE ->
  sent es = [] -> reports es = [] -> reports es' = [] ->
  sent es' = [(cliSockRef x0, doip_message cfg TAF_DOIP_PAYLOAD_TYPE_ROUTING_ACTIVE_RESPONSE (ra_fields sa (entitySA x0) code))] ->
  wp (enter_finalize env c) (fun _ s' => refused s' sa code) (W x (es ++ es')).
Proof using Hbox Hst.
  intros Hsame Hstate He1 He2 He3 He4. eapply wp_conseq.
  - eapply enter_finalize_spec; [eapply w_box_ok; [exact Hbox|apply Hst|apply Hsame]|by apply w_started].
  - intros [] s' [fs [Hs' Hperm _ _ _ Hsent Hlast Hrep]]. exists ((es ++ es') ++ fs).
    rewrite bool_decide_false in Hrep by done. rewrite !dsent_app, !reports_app, He1, He2, He3, He4, Hsent, Hrep.
    split; [rewrite Hs'; cbn; by rewrite <- !app_assoc|]. split; [done|]. split; [done|]. split; [exact Hperm|].
    split; [rewrite last_app, Hlast; by rewrite (proj1 Hsame)|].
    rewrite Hs'. cbn. eexists. split; [apply lookup_insert_eq|done].
Qed.

Lemma w_refuse_routing x es sa code :
  same_resources x -> connState x <> TAF_DOIP_CONNECT_STATE_REGISTERED_ROUTING_ACTIVE ->
  sent es = [] -> reports es = [] ->
  wp (refuse_routing env c sa (entitySA x0) code) (fun _ s' => refused s' sa code) (W x es).
Proof using Hbox Hst Hcfg.
  intros. unfold refuse_routing. w_step. eapply wp_tcp_link; [apply w_conn|].
  apply wp_bind, (w_respond x); [done|]. intros es2 Hs2 Hr2. by apply w_refuse.
Qed.

(** An activation: the answer, the report to the upper layer, and an active connection. *)
Definition activated (s' : Stack) (sa : Z) : Prop := exists es,
  dtrace s' = dtrace s ++ es /\
  sent es = [(cliSockRef x0, doip_message cfg TAF_DOIP_PAYLOAD_TYPE_ROUTING_ACTIVE_RESPONSE
    (ra_fields sa (entitySA x0) TAF_DOIP_RA_RES_ROUTING_SUCCESSFULLY_ACTIVATED))] /\
  reports es = [(TAF_DOIP_RESULT_SA_REGISTERED, sa, entitySA x0)] /\
  connectionBox s' = connectionBox s /\
  (exists x', conns s' = <[c := x']> (conns s) /\ testerSA x' = sa /\
    connState x' = TAF_DOIP_CONNECT_STATE_REGISTERED_ROUTING_ACTIVE).

Definition outcome_of (code sa : Z) (s' : Stack) : Prop :=
  if code =? TAF_DOIP_RA_RES_ROUTING_SUCCESSFULLY_ACTIVATED then activated s' sa else refused s' sa code.

Lemma w_tcp_link x es (Q : taf_doipLink_t -> Stack -> Prop) :
  Q (own_link x) (W x es) -> wp (tcp_link c) Q (W x es).
Proof using. intros HQ. eapply wp_tcp_link; [apply w_conn|exact HQ]. Qed.

Lemma run_confirmation x es sa la (Q : taf_doip_UserConfirmResult_t -> Stack -> Prop) :
  (forall es', sent es' = [] -> reports es' = [] ->
    Q (confirmation env s (dtrace s ++ es) sa la) (W x (es ++ es'))) ->
  wp (ConfirmRoutingActivation env sa la) Q (W x es).
Proof using.
  intros HQ. unfold ConfirmRoutingActivation, FindDoipSession, confirmation in *. do 4 w_step.
  autorewrite with world. destruct (find_session _ _) as [session|].
  - destruct (userConfirmHandler session).
    + w_step. apply w_emit. do 3 w_step. autorewrite with world. rewrite app_assoc. by apply HQ.
    + w_step. specialize (HQ []). rewrite app_nil_r in HQ. by apply HQ.
  - w_step. specialize (HQ []). rewrite app_nil_r in HQ. by apply HQ.
Qed.

Lemma w_confirm x es sa :
  same_resources x -> connState x <> TAF_DOIP_CONNECT_STATE_REGISTERED_ROUTING_ACTIVE ->
  testerSA x = sa -> entitySA x = entitySA x0 -> sent es = [] -> reports es = [] ->
  wp (CheckRoutingActivationConfirm env c) (fun _ s' =>
    outcome_of (match confirmation env s (dtrace s ++ es) sa (entitySA x0) with
                | TAF_DOIP_USER_CONFIRM_RESULT_REJECT => TAF_DOIP_RA_RES_REJECT_CONFIRMATION
                | _ => TAF_DOIP_RA_RES_ROUTING_SUCCESSFULLY_ACTIVATED
                end) sa s') (W x es).
Proof using Hbox Hst Hcfg.
  intros Hsame Hstate Hsa Hla He1 He2. unfold CheckRoutingActivationConfirm. do 2 w_step.
  rewrite Hsa, Hla. w_step. apply run_confirmation. intros es' He3 He4. w_step. apply w_tcp_link.
  assert (Hquiet : sent (es ++ es') = [] /\ reports (es ++ es') = []).
  { by rewrite dsent_app, reports_app, He1, He2, He3, He4. }
  destruct (confirmation _ _ _ _ _); [apply wp_bind, w_respond; [done|]; intros es2 H1 H2; eapply wp_conseq; [by apply (w_refuse x (es ++ es') es2 sa TAF_DOIP_RA_RES_REJECT_CONFIRMATION); try apply Hquiet|done]|..].
  all: apply wp_bind, w_respond; [done|]; intros es2 H1 H2.
  all: unfold enter_routing_active; w_step; w_step; do 2 w_step; cbn [testerSA entitySA localIface].
  all: apply wp_ReportConnectionEvent; intros es3 H3 H4; exists (((es ++ es') ++ es2) ++ es3).
  all: rewrite dsent_app, reports_app, H3, H4, dsent_app, reports_app, H1, H2, (proj1 Hquiet), (proj2 Hquiet).
  all: split; [cbn; by rewrite <- !app_assoc|]; split; [done|].
  all: split; [by rewrite <- Hsa, <- Hla|]; split; [done|]; eexists; split; [done|]; split; [exact Hsa|done].
Qed.

Lemma w_authenticate x es sa oem :
  same_resources x -> connState x <> TAF_DOIP_CONNECT_STATE_REGISTERED_ROUTING_ACTIVE ->
  testerSA x = sa -> entitySA x = entitySA x0 -> sent es = [] -> reports es = [] ->
  wp (CheckRoutingActivationAuthen env c oem) (fun _ s' =>
    outcome_of (if negb (authorised cfg oem) then TAF_DOIP_RA_RES_MISSING_AUTHENTICATION
                else match confirmation env s (dtrace s ++ es) sa (entitySA x0) with
                     | TAF_DOIP_USER_CONFIRM_RESULT_REJECT => TAF_DOIP_RA_RES_REJECT_CONFIRMATION
                     | _ => TAF_DOIP_RA_RES_ROUTING_SUCCESSFULLY_ACTIVATED
                     end) sa s') (W x es).
Proof using Hbox Hst Hcfg Hparsed.
  intros Hsame Hstate Hsa Hla He1 He2. unfold CheckRoutingActivationAuthen, authorised.
  assert (Hconf : wp (enter_pending_conf env c) (fun _ s' =>
    outcome_of (match confirmation env s (dtrace s ++ es) sa (entitySA x0) with
                | TAF_DOIP_USER_CONFIRM_RESULT_REJECT => TAF_DOIP_RA_RES_REJECT_CONFIRMATION
                | _ => TAF_DOIP_RA_RES_ROUTING_SUCCESSFULLY_ACTIVATED
                end) sa s') (W x es)).
  { unfold enter_pending_conf. do 2 w_step. by apply w_confirm. }
  unfold GetAuthEnableStatus. do 4 w_step. autorewrite with world. rewrite Hcfg. cbn [default fmap option_fmap option_map id].
  destruct (authEnableStatus cfg); cbn [negb orb]; [|exact Hconf]. cbv iota.
  unfold GetAuthInfo, parsed. do 4 w_step. autorewrite with world. rewrite Hcfg, Hparsed. cbn [default id]. cbv zeta.
  destruct (_ || _); cbn [negb]; [exact Hconf|].
  do 3 w_step. apply w_tcp_link. rewrite Hsa, Hla. apply wp_bind, w_respond; [done|]. intros es2 H1 H2.
  eapply wp_conseq; [by apply (w_refuse x es es2 sa TAF_DOIP_RA_RES_MISSING_AUTHENTICATION)|done].
Qed.
End Route.
