(* ===== verification/DoipSample.v ===== *)
(** * A small DoIP entity, for the concrete runs

    A vehicle with the logical address 0x0101 and at most two testers, its environment, and the
    stack with one connection. *)
From S2P Require Import Prelude DoipTypes DoipVehicle DoipSend DoipConn DoipRecv DoipUdp DoipSpec DoipRecvSpec DoipKeeps DoipDiag.

Definition sample_vin : list Z := [76; 83; 86; 65; 65; 52; 49; 56; 50; 69; 50; 49; 56; 52; 56; 50; 48].
Definition sample_config : taf_doip_Config_t :=
  {| vin := sample_vin; eid := [1; 2; 3; 4; 5; 6]; gid := [6; 5; 4; 3; 2; 1]; entityLA := 0x0101;
     maxSockNum := 2; maxDataSize := 65536; cfgMaxAnnounceCount := 3; announceWait := false;
     announceItrvalTime := 500; genInactiveTime := 300000; initInactiveTime := 2000;
     aliveCheckTime := 500; authEnableStatus := false; cfgAuthInfo := 0;
     ifaceList := [("eth0"%string, 0)]; netType := "IPv4"; udpPort := 13400; tcpPort := 13400;
     udpSrc := 0; isTLS := false; certFile := ""; pkFile := ""; funcGroupList := [0xE400];
     parseStatus := true |}.

(** Timers never run, sends succeed, blocks are free, and reads give what [input] tells. *)
Definition sample_denv (input : option (list Z)) : DEnv :=
  {| timer_running _ _ := false; socket_send _ := LE_OK; socket_read _ := input;
     socket_setup _ := LE_OK; socket_create _ := Some 90; uds_pool_free _ := true;
     user_confirm _ := TAF_DOIP_USER_CONFIRM_RESULT_PASS;
     power_mode _ := TAF_DOIP_POWER_MODE_READY; rand_between _ lo _ := lo;
     vlan_config _ := None; hex_binary l := Some l; inet_pton4 _ := Some 0; inet_pton6 _ := None;
     ifaddrs _ := None; garbage _ := 0 |}.

Definition sample_sessions : list taf_doipSession_t := [mkSession 0x0101 true true true true].

(** The stack before the first tester. *)
Definition idle_stack : Stack :=
  mkStack (Some sample_config) [] ∅ ∅ ∅ 65536 1 [WaitTimer; ShutdownTimer] 0
    TAF_DOIP_STATE_RUNNING TAF_DOIP_INSTANCE_TYPE_NODE (Some 70) [Some 71] [Some 72]
    [mkIPInfo 0x0100A8C0 0x00FFFFFF "192.168.0.1"] (Some (replicate 1500 0)) 0 sample_sessions
    (Some WaitTimer) 0 3 [].

(** Connection 1 over socket 80, with its reception buffer 2. *)
Definition sample_conn (st : taf_doip_ConnectState_t) (sa : Z) : Connection :=
  mkConnection 80 "192.168.0.2" 50000 TAF_DOIP_CONNECTION_TYPE_SVR "eth0" st sa 0x0101 sa 0 false
    false None false (Some (ConnT 1 InitialTimer)) (Some (ConnT 1 GeneralTimer))
    (Some (ConnT 1 AliveCheckTimer)) (Some 2) None 0 0.

Definition received (msg : list Z) : taf_doip_Buffer_t :=
  mkBuffer (msg ++ replicate (1500 - length msg) 0) (Z.of_nat (length msg)) 0.

Definition sample_stack (x : Connection) (buf : taf_doip_Buffer_t) (es : list DEffect) : Stack :=
  idle_stack <| connectionBox := [1] |> <| conns := {[1 := x]} |> <| inPool := {[2 := buf]} |>
    <| nextId := 3 |>
    <| liveTimers := [ConnT 1 AliveCheckTimer; ConnT 1 GeneralTimer; ConnT 1 InitialTimer; WaitTimer; ShutdownTimer] |>
    <| dtrace := es |>.

(** The code reaches this state when a tester connects. *)
Lemma sample_stack_reached :
  exists es, ServerCreateConnection (sample_denv None) 80 "192.168.0.2" 50000 "eth0" idle_stack =
    Done (Some 1, sample_stack (sample_conn TAF_DOIP_CONNECT_STATE_INITIALIZED 0) (received []) es).
Proof. eexists. vm_compute. reflexivity. Qed.

Lemma sample_box_ok x buf es : box_ok (sample_stack x buf es).
Proof.
  split; cbn.
  - apply NoDup_singleton.
  - intros c ->%list_elem_of_singleton. by exists x.
  - by intros c c' ? ? ->%list_elem_of_singleton ->%list_elem_of_singleton.
Qed.

Lemma sample_started st sa buf es :
  started (sample_stack (sample_conn st sa) buf es) 1 (sample_conn st sa) 2.
Proof.
  split; try done; cbn; first [by left|by exists buf|intros []; set_solver].
Qed.

Lemma sample_entity st sa buf es :
  st <> TAF_DOIP_CONNECT_STATE_FINALIZE ->
  entity_conn (sample_stack (sample_conn st sa) buf es) 1 (sample_conn st sa) 2 sample_config.
Proof.
  intros Hst. split; try done; [apply sample_box_ok|apply sample_started].
Qed.

Lemma received_holds x v ty body es :
  in_width 16 ty -> in_width 32 (Z.of_nat (length body)) -> (length body <= 1492)%nat ->
  let len := Z.of_nat (length body) in
  let msg := header_bytes v (u8 (Z.lnot v)) ty len ++ body in
  holds (sample_stack x (received msg) es) 2 (received msg) [] v ty len
    (body ++ replicate (1500 - length msg) 0).
Proof.
  intros Hty Hlen Hroom. cbv zeta. split; try done; cbn [received data dataPos dataSize].
  - rewrite length_app, length_header. lia.
  - rewrite !length_app, length_replicate, length_header. lia.
Qed.

(** A registered tester whose message has arrived. *)
Definition sample_diag (ta : Z) (msg : list Z) : list Z :=
  header_bytes 2 253 TAF_DOIP_PAYLOAD_TYPE_DIAGNOSTIC_MESSAGE
    (Z.of_nat (length (diag_body 0x0E80 ta msg))) ++ diag_body 0x0E80 ta msg.

Lemma sample_diag_ready ta msg input :
  in_width 16 ta -> msg <> [] -> (length msg <= 1488)%nat ->
  diag_ready (sample_denv input)
    (sample_stack (sample_conn TAF_DOIP_CONNECT_STATE_REGISTERED_ROUTING_ACTIVE 0x0E80) (received (sample_diag ta msg)) [])
    1 (sample_conn TAF_DOIP_CONNECT_STATE_REGISTERED_ROUTING_ACTIVE 0x0E80) 2 sample_config
    (received (sample_diag ta msg)) [] 2 0x0E80 ta msg (replicate (1500 - length (sample_diag ta msg)) 0).
Proof.
  intros Hta Hmsg Hlen.
  assert (E : length (sample_diag ta msg) = (12 + length msg)%nat) by done.
  split; try done.
  - by apply sample_entity.
  - apply (received_holds _ 2 _ (diag_body 0x0E80 ta msg)); [done|..]; rewrite length_diag_body; [unfold in_width; lia|lia].
  - cbn [received dataSize]. rewrite E, length_diag_body. lia.
  - cbn [received dataSize]. rewrite E. lia.
  - rewrite length_diag_body. change (max_data _) with 65536. lia.
  - rewrite length_diag_body. cbn [udsObjectSize]. change (udsObjectSize _) with 65536. lia.
Qed.
