(* ===== verification/UdsRequest.v ===== *)
(** * The UDS stack: the contract of the request checks

    Every [IndicateXXXReq] either answers the request, or passes it on, or (for a
    functionally addressed read) drops it; it never faults. *)
From S2P Require Import Prelude DiagCfg UdsTypes UdsSend SecAccess SecAccessSpec UdsAccess UdsIndicate.
From S2P Require Import UdsControl UdsTransfer.

(** ** The contract *)

(** The bytes of the request in the receive buffer. *)
Definition request (m : Mgr) : list Z := take (Z.to_nat (recvDataLen m)) (recvBuf m).

Definition session_view (m : Mgr) :=
  (SessionType m, readyToRecvData m, isPaused m, authState m, interface m, isResetInProgress m,
   addrInfo m).
Lemma frame_session_view m m' : frame m m' -> session_view m' = session_view m.
Proof. unfold frame, request_view, session_view. intros [=]. congruence. Qed.

(** What the service is given: the request, or, for a read, some of its identifiers. *)
Definition passed_on (sid : Z) (req data : list Z) : Prop :=
  if sid =? READ_DID_REQUEST_ID then data `sublist_of` req else data = req.

Inductive verdict (sid : Z) (a : AddrInfo) (m m' : Mgr) : Prop :=
  | Answered data :
      isInternalHandle m' = true -> response_to sid data ->
      emits m m' (one_message (reply_to a) data) -> verdict sid a m m'
  | PassedOn :
      isInternalHandle m' = false -> quietly m m' -> recvDataLen m' <= UDS_MAX_DATA_SIZE ->
      passed_on sid (request m) (request m') -> verdict sid a m m'
  | Dropped :
      isInternalHandle m' = true -> trace m' = trace m ->
      sid = READ_DID_REQUEST_ID -> taType a = TA_FUNCTIONAL -> verdict sid a m m'.

(** A manager that may check a request. *)
Record ready (m : Mgr) : Prop := mkReady {
  rd_wf : wf m;
  rd_ao : ao_ok (mSecurityAccess m);
  rd_started : state_fn (mSecurityAccess m) <> State_initial;
  rd_internal : isInternalHandle m = true }.

Record checked (sid : Z) (a : AddrInfo) (m : Mgr) (r : le_result_t) (m' : Mgr) : Prop := mkChecked {
  ck_wf : wf m';
  ck_ao : ao_ok (mSecurityAccess m');
  ck_started : state_fn (mSecurityAccess m') <> State_initial;
  ck_session : session_view m' = session_view m;
  ck_result : r = LE_OK;
  ck_verdict : verdict sid a m m' }.

(** Before the verdict: nothing has been sent. *)
Record started_from (m0 m : Mgr) : Prop := mkStarted {
  sf_wf : wf m;
  sf_ao : mSecurityAccess m = mSecurityAccess m0;
  sf_frame : frame m0 m;
  sf_trace : trace m = trace m0;
  sf_internal : isInternalHandle m = true }.

Lemma started_refl m : ready m -> started_from m m.
Proof. by intros []. Qed.
Lemma started_internal m : ready m -> started_from m (m <| isInternalHandle := true |>).
Proof. intros [[] ? ? ?]. split; [by split|done..]. Qed.
Lemma started_xfer m b : ready m -> started_from m (m <| isXferActive := b |>).
Proof. intros [[] ? ? ?]. split; [by split|done..]. Qed.

(** ** Queries *)
Section Queries.
Variable env : Env.
Variable m : Mgr.
Hypothesis Hao : ao_ok (mSecurityAccess m).

Lemma IsUnlocked_reads : reads SecurityAccess_IsUnlocked m.
Proof. apply reads_bind; [by apply current_reads|]. intros. apply reads_ret. Qed.

Lemma IsLevelUnlocked_reads level : reads (SecurityAccess_IsLevelUnlocked level) m.
Proof.
  apply reads_bind; [by apply current_reads|]. intros c (_ & Hc & Hs)%current_run.
  destruct (unlocked_level _) as [p|] eqn:Ep; [|apply reads_ret].
  apply reads_bind; [apply reads_gets|]. intros ao [= <-].
  destruct (ok_deref _ _ _ _ Hao Hs (or_intror Ep)) as (l & Hl & _).
  apply reads_bind; [apply reads_demand; rewrite Hl; eauto|]. intros. apply reads_ret.
Qed.

Lemma any_level_unlocked_reads levels : reads (any_level_unlocked env levels) m.
Proof.
  induction levels as [|n levels IH]; cbn; [apply reads_ret|].
  destruct (get_security_level_id _ n); [|apply reads_ret].
  apply reads_bind; [apply IsLevelUnlocked_reads|]. intros [] _; [apply reads_ret|apply IH].
Qed.

Lemma any_named_level_unlocked_reads levels : reads (any_named_level_unlocked env levels) m.
Proof.
  induction levels as [|n levels IH]; cbn; [apply reads_ret|].
  destruct (amap_find _ n); [|apply IH].
  apply reads_bind; [apply IsLevelUnlocked_reads|]. intros [] _; [apply reads_ret|apply IH].
Qed.

Lemma any_level_id_unlocked_reads levels : reads (any_level_id_unlocked levels) m.
Proof.
  induction levels as [|n levels IH]; cbn; [apply reads_ret|].
  apply reads_bind; [apply IsLevelUnlocked_reads|]. intros [] _; [apply reads_ret|apply IH].
Qed.

Lemma access_unlocked_reads acc : reads (access_unlocked env acc) m.
Proof.
  unfold access_unlocked. destruct (_ =? _); [|apply reads_ret].
  apply reads_bind; [apply IsUnlocked_reads|]. intros [] _; [|apply reads_ret].
  change (negb true) with false. cbv iota. destruct (acc_security_level acc); [apply reads_ret|].
  apply reads_bind; [apply any_level_unlocked_reads|]. intros. apply reads_ret.
Qed.

Ltac reads_tac := repeat first
  [ apply reads_ret | apply reads_gets | apply access_unlocked_reads | apply any_level_unlocked_reads
  | apply IsLevelUnlocked_reads
  | apply reads_bind; [|intros ? ?]
  | match goal with
    | |- reads (if ?b then _ else _) _ => destruct b
    | |- reads (match ?x with _ => _ end) _ => destruct x
    end ].

Lemma IsAuthCheckOK_reads sid : reads (IsAuthCheckOK env sid) m.
Proof. unfold IsAuthCheckOK. reads_tac. Qed.
Lemma IsValidSvcActiveSession_reads sid : reads (IsValidSvcActiveSession env sid) m.
Proof. unfold IsValidSvcActiveSession. reads_tac. Qed.
Lemma IsSvcSecAccessMatched_reads sid : reads (IsSvcSecAccessMatched env sid) m.
Proof. unfold IsSvcSecAccessMatched. reads_tac. Qed.
Lemma IsSubFuncAuthCheckOK_reads sid sub : reads (IsSubFuncAuthCheckOK env sid sub) m.
Proof. unfold IsSubFuncAuthCheckOK. reads_tac. Qed.
Lemma IsSubFuncSessTypeValid_reads sid sub : reads (IsSubFuncSessTypeValid env sid sub) m.
Proof. unfold IsSubFuncSessTypeValid. reads_tac. Qed.
Lemma IsSubFuncSecAccessMatched_reads sid sub : reads (IsSubFuncSecAccessMatched env sid sub) m.
Proof. unfold IsSubFuncSecAccessMatched. reads_tac. Qed.
Lemma IsAuthRoleMatchedImpl_reads roles : reads (IsAuthRoleMatchedImpl env roles) m.
Proof. unfold IsAuthRoleMatchedImpl. reads_tac. Qed.
Lemma IsAuthRoleMatched_did_reads t d : reads (IsAuthRoleMatched_did env t d) m.
Proof. unfold IsAuthRoleMatched_did, IsAuthRoleMatchedImpl. reads_tac. Qed.
Lemma security_clause_reads sl : reads (security_clause env sl) m.
Proof. unfold security_clause. reads_tac. Qed.
Lemma timer_reads t : reads (le_timer_IsRunning env t) m.
Proof. apply reads_gets. Qed.
Lemma read_did_check_reads d : reads (read_did_check env d) m.
Proof.
  unfold read_did_check.
  repeat first [apply IsAuthRoleMatched_did_reads|apply security_clause_reads|progress reads_tac].
Qed.
End Queries.

(** ** Verdicts *)
Section Checks.
Variable env : Env.
Context `{!S3Representable (config env)}.
Variables (sid : Z) (a : AddrInfo) (m0 : Mgr).
Hypothesis Hready : ready m0.
Hypothesis Hsid : recvBuf m0 !! 0%nat = Some sid.

Lemma refuse nrc m : started_from m0 m -> wp (SendNRC env sid nrc a) (checked sid a m0) m.
Proof.
  intros []. eapply wp_conseq; [by apply SendNRC_spec|].
  intros r m' (-> & Hc & Hwf & es & Ht & es' & -> & Hq).
  pose proof (f_equal mSecurityAccess Hc) as Hao'. cbn in Hao'.
  pose proof (f_equal isInternalHandle Hc) as Hi. cbn in Hi.
  destruct Hready. split; try done.
  - by rewrite <- Hao', sf_ao0.
  - by rewrite <- Hao', sf_ao0.
  - apply frame_session_view. etrans; [exact sf_frame0|by apply same_core_frame].
  - eapply Answered; [congruence|apply response_negative|]. eexists. rewrite Ht, sf_trace0.
    split; [done|]. by apply (one_message_intro []).
Qed.

Lemma reject_refuse nrc m :
  started_from m0 m -> wp (reject env sid nrc a) (checked sid a m0) m.
Proof.
  intros []. unfold reject. wp_step. apply wp_assign_. apply refuse.
  split; try done. by destruct sf_wf0.
Qed.

Lemma frame_request m m' : frame m m' -> request m' = request m.
Proof. unfold frame, request_view, request. intros [=]. congruence. Qed.

Lemma frame_length m m' : frame m m' -> recvDataLen m' = recvDataLen m.
Proof. unfold frame, request_view. intros [=]. congruence. Qed.

Lemma accept_pass m :
  started_from m0 m -> recvDataLen m0 <= UDS_MAX_DATA_SIZE -> wp accept (checked sid a m0) m.
Proof.
  intros [] Hlen. unfold accept. wp_step. apply wp_assign_. wp_step. destruct Hready.
  split; try done.
  - by destruct sf_wf0.
  - cbn. by rewrite sf_ao0.
  - cbn. by rewrite sf_ao0.
  - by apply (frame_session_view m0 m).
  - assert (Hf : frame m0 (m <| isInternalHandle := false |>)) by exact sf_frame0.
    apply PassedOn; [done| | |].
    + exists []. by rewrite app_nil_r.
    + by rewrite (frame_length _ _ Hf).
    + unfold passed_on. case_match eqn:E; [|by apply frame_request].
      by rewrite (frame_request _ _ Hf).
Qed.
End Checks.

(** Two-byte fields of the request. *)
Lemma recvBuf_byte m i v : wf m -> recvBuf m !! i = Some v -> is_byte v.
Proof. intros [] H. by eapply Forall_lookup_1. Qed.

Lemma wp_rd16 m i Q :
  wf m -> 0 <= i -> i + 1 < UDS_MAX_DATA_SIZE ->
  (forall v, in_width 16 v -> Q v m) -> wp (rd16 i) Q m.
Proof.
  intros Hwf H1 H2 HQ. pose proof (wf_recvBuf _ Hwf). unfold rd16.
  wp_step. apply wp_rd; [lia|]. intros hi Hhi. wp_step. apply wp_rd; [lia|]. intros lo Hlo. wp_step.
  apply HQ, be16_width; by eapply recvBuf_byte.
Qed.
Lemma wp_rd_did m i Q :
  wf m -> 0 <= i -> i + 1 < UDS_MAX_DATA_SIZE -> (forall v, in_width 16 v -> Q v m) -> wp (rd_did i) Q m.
Proof.
  intros Hwf H1 H2 HQ. pose proof (wf_recvBuf _ Hwf). unfold rd_did.
  wp_step. apply wp_rd; [lia|]. intros hi _. wp_step. apply wp_rd; [lia|]. intros lo _. wp_step.
  by apply HQ, wrap_in_width.
Qed.
Lemma wp_slice b len e Q (m : Mgr) :
  0 <= len <= Z.of_nat (length b) -> (forall d, slice b len = Some d -> Q d m) ->
  wp (demand (slice b len) e) Q m.
Proof. intros H HQ. unfold slice in *. rewrite decide_True in * by done. by apply HQ. Qed.

Lemma reads_wp {A} (c : M Mgr A) m : wp c (fun _ m' => m' = m) m -> reads c m.
Proof. unfold wp, reads. destruct (c m) as [[v m']|]; [intros ->; eauto|done]. Qed.

(** Walks through the reading of a request. *)
Ltac read_step :=
  lazymatch goal with
  | |- wp (rd recvBuf _) _ _ => apply wp_rd; [cbn in *; lia|intros ? ?]
  | |- wp (rd16 _) _ _ => apply wp_rd16; [assumption|cbn in *; lia|cbn in *; lia|unfold in_width; intros ? ?]
  | |- wp (rd_did _) _ _ => apply wp_rd_did; [assumption|cbn in *; lia|cbn in *; lia|unfold in_width; intros ? ?]
  | |- wp (demand (slice _ _) _) _ _ => apply wp_slice; [rewrite ?length_drop; cbn in *; lia|intros ? ?]
  | |- wp (if ?b then _ else _) _ _ =>
      let H := fresh "Hif" in apply wp_if; intros H; [|]
  | |- wp (_ ≫= _) _ _ => apply wp_bind
  | |- wp get _ _ => apply wp_get
  | |- wp (gets _) _ _ => apply wp_gets
  | |- wp (_ ::= _) _ _ => apply wp_assign_
  | |- wp (let _ := _ in _) _ _ => cbv zeta
  | |- wp (mret _) _ _ => apply wp_ret
  | |- wp (match ?x with _ => _ end) _ _ => let H := fresh "Hcase" in destruct x eqn:H
  end; cbv beta.

Lemma IsAuthReqLenCorrect_reads m sub :
  wf m -> recvDataLen m <= UDS_MAX_DATA_SIZE -> reads (IsAuthReqLenCorrect sub) m.
Proof.
  intros Hwf Hle. apply reads_wp. unfold IsAuthReqLenCorrect.
  repeat first [done | read_step].
Qed.

Lemma IsROEReqLenCorrect_long m sub b :
  IsROEReqLenCorrect sub m = Done (b, m) -> b = true -> sub = ROE_SUBFUNC_ONDTCS -> 7 <= recvDataLen m.
Proof.
  intros H -> ->. unfold IsROEReqLenCorrect, mbind, M_bind, get in H. cbn in H.
  destruct (recvDataLen m <? 7) eqn:E; [done|]. lia.
Qed.
Lemma IsROEReqLenCorrect_reads m sub : reads (IsROEReqLenCorrect sub) m.
Proof. apply reads_wp. unfold IsROEReqLenCorrect. repeat first [done | read_step]. Qed.
Lemma IsROEReqOutOfRange_reads m sub : wf m -> reads (IsROEReqOutOfRange sub) m.
Proof.
  intros Hwf. pose proof (wf_recvBuf _ Hwf). apply reads_wp. unfold IsROEReqOutOfRange.
  repeat first [done | read_step].
Qed.

(** Walks through a check; the state is the initial one up to the flags it sets. *)
Ltac request_query :=
  first [ apply IsAuthCheckOK_reads | apply IsValidSvcActiveSession_reads
        | apply IsSvcSecAccessMatched_reads | apply IsSubFuncAuthCheckOK_reads
        | apply IsSubFuncSessTypeValid_reads | apply IsSubFuncSecAccessMatched_reads
        | apply IsAuthRoleMatched_did_reads | apply IsAuthRoleMatchedImpl_reads
        | apply security_clause_reads | apply timer_reads
        | apply any_level_id_unlocked_reads | apply any_named_level_unlocked_reads
        | apply IsROEReqLenCorrect_reads | apply IsROEReqOutOfRange_reads
        | apply IsAuthReqLenCorrect_reads ];
  first [ assumption | cbn; lia ].

Ltac start_tac :=
  first [ assumption | apply started_refl; assumption | apply started_internal; assumption
        | apply started_xfer; assumption ].

Ltac request_end :=
  lazymatch goal with
  | |- wp (SendNRC _ _ _ _) _ _ => apply refuse; start_tac
  | |- wp (reject _ _ _ _) _ _ => apply reject_refuse; start_tac
  | |- wp accept _ _ => apply accept_pass; [start_tac..|cbn in *; lia]
  end.

Ltac request_step :=
  lazymatch goal with
  | |- wp (SendNRC _ _ _ _) _ _ => request_end
  | |- wp (reject _ _ _ _) _ _ => request_end
  | |- wp accept _ _ => request_end
  | |- wp (subfunc_checks _ _ _ _ _) _ _ => unfold subfunc_checks; cbv beta
  | _ => first [ read_step | apply wp_reads; [request_query|intros ? _]; cbv beta ]
  end.
Ltac request_tac := repeat request_step.

Lemma nibble z : 0 <= Z.land z 0x0F <= 15.
Proof.
  assert (Z.land z 15 = z mod 16) as -> by (apply (Z.land_ones z 4); lia).
  pose proof (Z.mod_pos_bound z 16). lia.
Qed.

Lemma ready_internal m : ready m -> m <| isInternalHandle := true |> = m.
Proof. intros [_ _ _ H]. destruct m. cbn in *. by subst. Qed.

Section Services.
Variable env : Env.
Context `{!S3Representable (config env)}.
Variables (sid : Z) (a : AddrInfo) (m0 : Mgr).
Hypothesis Hready : ready m0.
Hypothesis Hsid : recvBuf m0 !! 0%nat = Some sid.

Let Hao : ao_ok (mSecurityAccess m0) := rd_ao _ Hready.
Let Hstart : started_from m0 m0 := started_refl _ Hready.

Lemma rd_sid m Q : recvBuf m = recvBuf m0 -> Q sid m -> wp (rd recvBuf 0) Q m.
Proof.
  intros Hb HQ. apply wp_bind, wp_gets. eapply wp_demand; [|exact HQ].
  unfold at_. rewrite Hb. exact Hsid.
Qed.

Lemma rd_len : Z.of_nat (length (recvBuf m0)) = UDS_MAX_DATA_SIZE.
Proof. apply Hready. Qed.

Ltac service_tac :=
  pose proof rd_len as Hlen; pose proof (rd_wf _ Hready) as Hwf;
  wp_step; apply rd_sid; [done|]; request_tac.

Lemma IndicateECUResetReq_checked : wp (IndicateECUResetReq env a) (checked sid a m0) m0.
Proof. unfold IndicateECUResetReq. service_tac. Qed.

Lemma IndicateClearDiagInfoReq_checked : wp (IndicateClearDiagInfoReq env a) (checked sid a m0) m0.
Proof. unfold IndicateClearDiagInfoReq. service_tac. Qed.

Lemma IndicateCtrlDTCSettingReq_checked : wp (IndicateCtrlDTCSettingReq env a) (checked sid a m0) m0.
Proof. unfold IndicateCtrlDTCSettingReq. service_tac. Qed.

Lemma IndicateReadDTCInfoReq_checked : wp (IndicateReadDTCInfoReq env a) (checked sid a m0) m0.
Proof. unfold IndicateReadDTCInfoReq. service_tac. Qed.

Lemma IndicateRxXferExitReq_checked : wp (IndicateRxXferExitReq env a) (checked sid a m0) m0.
Proof. unfold IndicateRxXferExitReq. service_tac. Qed.

Lemma IndicateAuthReq_checked : wp (IndicateAuthReq env a) (checked sid a m0) m0.
Proof.
  unfold IndicateAuthReq. service_tac.
Qed.

Lemma IndicateROEReq_checked : wp (IndicateROEReq env a) (checked sid a m0) m0.
Proof.
  unfold IndicateROEReq. assert (wf (m0 <| isInternalHandle := true |>)) by (by apply started_internal).
  service_tac.
Qed.

Lemma IndicateRxXferDataReq_checked : wp (IndicateRxXferDataReq env a) (checked sid a m0) m0.
Proof. unfold IndicateRxXferDataReq. service_tac. Qed.

Lemma IndicateRxReqDwnldReq_checked : wp (IndicateRxReqDwnldReq env a) (checked sid a m0) m0.
Proof.
  unfold IndicateRxReqDwnldReq. service_tac.
  match goal with H : recvBuf m0 !! Z.to_nat 2 = Some ?b |- _ =>
    pose proof (nibble b); pose proof (nibble (Z.shiftr b 4)) end.
  apply accept_pass; [done..|lia].
Qed.

Lemma IndicateWriteDIDReq_checked : wp (IndicateWriteDIDReq env a) (checked sid a m0) m0.
Proof.
  unfold IndicateWriteDIDReq. assert (wf (m0 <| isInternalHandle := true |>)) by (by apply started_internal).
  service_tac.
Qed.

Lemma IndicateIOCBIDReq_checked : wp (IndicateIOCBIDReq env a) (checked sid a m0) m0.
Proof.
  unfold IndicateIOCBIDReq, io_record_check, IsAuthRoleMatched_io.
  assert (wf (m0 <| isInternalHandle := true |>)) by (by apply started_internal).
  service_tac.
  match goal with |- context [u16 (io_did_size ?io)] =>
    pose proof (wrap_in_width 16 (io_did_size io) ltac:(lia)) as Hw end.
  unfold in_width in Hw. request_tac.
Qed.

Lemma IndicateRoutinrCtrlReq_checked : wp (IndicateRoutinrCtrlReq env a) (checked sid a m0) m0.
Proof. unfold IndicateRoutinrCtrlReq, IsAuthRoleMatched_routine. service_tac. Qed.

(** The rows of the authorization patterns are complete. *)
Definition pattern_rows (cfg : Config) : Prop := forall session,
  is_Some (get_pattern_sessions_by_session_id cfg session) /\
  is_Some (get_pattern_levels_by_session_id cfg session).

Lemma Precheck_reads x y :
  pattern_rows (config env) -> reads (PrecheckForSwitchingSession env x y) m0.
Proof.
  intros Hrows. destruct (Hrows y) as [[l1 H1] [l2 H2]]. unfold PrecheckForSwitchingSession.
  apply reads_bind; [apply reads_demand; eauto|]. intros l _.
  destruct l; [apply reads_ret|]. destruct (negb _); [apply reads_ret|].
  apply reads_bind; [apply reads_demand; eauto|]. intros l' _.
  destruct l'; [apply reads_ret|by apply any_level_id_unlocked_reads].
Qed.

Lemma IndicateSessionCtrlReq_checked :
  pattern_rows (config env) -> wp (IndicateSessionCtrlReq env a) (checked sid a m0) m0.
Proof.
  intros Hrows. unfold IndicateSessionCtrlReq. service_tac.
  apply wp_reads; [by apply Precheck_reads|]. intros ? _. request_tac.
Qed.

(** *** RequestFileTransfer *)

Lemma wp_ascii p Q :
  0 <= p -> 4 + p + 1 <= UDS_MAX_DATA_SIZE -> (forall b, Q b m0) ->
  wp (demand (isAcsiiFormat (drop 4 (recvBuf m0)) p) OutOfBounds) Q m0.
Proof.
  intros H1 H2 HQ. pose proof rd_len. unfold isAcsiiFormat, slice. rewrite decide_True.
  - apply HQ.
  - rewrite length_drop. lia.
Qed.
Lemma wp_file_size off n (u : bool) Q :
  0 <= n -> 0 <= off -> off + 2 * n <= UDS_MAX_DATA_SIZE -> (forall b, Q b m0) ->
  wp (demand (ValueOfFileSize (drop (Z.to_nat off) (recvBuf m0)) n u) OutOfBounds) Q m0.
Proof.
  intros H1 H2 H3 HQ. pose proof rd_len. unfold ValueOfFileSize, slice. rewrite decide_True.
  - apply HQ.
  - destruct u; rewrite ?length_drop; lia.
Qed.

Lemma IndicateRxFileXferReq_checked : wp (IndicateRxFileXferReq env a) (checked sid a m0) m0.
Proof.
  unfold IndicateRxFileXferReq, filexfer_path_only, filexfer_read, filexfer_write. service_tac.
  - apply wp_ascii; [lia..|]. intros ?. request_tac.
  - apply wp_file_size; [lia..|]. intros ?. wp_step. apply wp_file_size; [lia..|]. intros ?.
    request_tac. apply wp_ascii; [lia..|]. intros ?. request_tac.
  - apply wp_ascii; [lia..|]. intros ?. request_tac.
  - exfalso. lia.
Qed.

(** *** ReadDataByIdentifier *)

(** The byte at an index of the receive buffer, and the identifiers of a read request. *)
Definition byte (m : Mgr) (k : Z) : Z := default 0 (recvBuf m !! Z.to_nat k).
Definition did_pair (m : Mgr) (k : Z) : Z * Z := (byte m (k * 2 + 1), byte m (k * 2 + 2)).
Definition did_pairs (m : Mgr) (i n : Z) : list (Z * Z) := did_pair m <$> seqZ i n.
Definition did_of (p : Z * Z) : Z := u16 (Z.shiftl p.1 8 + p.2).
Definition pair_bytes (ps : list (Z * Z)) : list Z := concat ((fun p => [p.1; p.2]) <$> ps).

(** An identifier a functionally addressed request ignores. *)
Definition did_considered (functional : bool) (p : Z * Z) : bool :=
  negb (functional && negb (IsDidFunctionalAddressed (config env) (did_of p))).
Definition did_verdict_of (m : Mgr) (p : Z * Z) : option did_verdict :=
  match read_did_check env (did_of p) m with Done (v, _) => Some v | Faulted _ => None end.
Definition did_included (functional : bool) (m : Mgr) (p : Z * Z) : bool :=
  did_considered functional p &&
  match did_verdict_of m p with Some DidInclude => true | _ => false end.
Definition did_refused (functional : bool) (m : Mgr) (p : Z * Z) (nrc : Z) : Prop :=
  did_considered functional p = true /\ did_verdict_of m p = Some (DidRefuse nrc).

Lemma wp_rd_byte m k Q :
  Z.of_nat (length (recvBuf m)) = UDS_MAX_DATA_SIZE -> 0 <= k < UDS_MAX_DATA_SIZE ->
  Q (byte m k) m -> wp (rd recvBuf k) Q m.
Proof.
  intros Hl Hk HQ. apply wp_rd; [lia|]. intros v Hv. unfold byte in HQ. by rewrite Hv in HQ.
Qed.

(** The result of the loop over the identifiers. *)
Definition loop_result (functional : bool) (m : Mgr) (ps : list (Z * Z)) (updated : list Z) (num : Z)
    (r : Z + list Z * Z) : Prop :=
  match r with
  | inl nrc => exists p, p ∈ ps /\ did_refused functional m p nrc
  | inr (u, num') =>
      u = updated ++ pair_bytes (filter (fun p => did_included functional m p = true) ps) /\
      (forall p nrc, p ∈ ps -> ~ did_refused functional m p nrc) /\
      (functional = true ->
         num' = num + Z.of_nat (length (filter (fun p => did_considered functional p = true) ps)))
  end.

Lemma loop_result_cons functional m p ps updated num r :
  (forall nrc, ~ did_refused functional m p nrc) ->
  loop_result functional m ps (if did_included functional m p then updated ++ [p.1; p.2] else updated)
    (if functional && did_considered functional p then num + 1 else num) r ->
  loop_result functional m (p :: ps) updated num r.
Proof.
  intros Hno. destruct r as [nrc|[u num']]; cbn [loop_result].
  - intros (q & Hq & Hr). exists q. split; [by right|done].
  - intros (-> & Href & Hnum). split_and!.
    + rewrite filter_cons. destruct (did_included functional m p); [|done].
      rewrite decide_True by done. unfold pair_bytes. cbn. by rewrite <- app_assoc.
    + intros q nrc [->|Hq]%elem_of_cons; [apply Hno|by apply Href].
    + intros Hf. rewrite (Hnum Hf), Hf. rewrite filter_cons. cbn [andb].
      destruct (did_considered true p); [rewrite decide_True by done; cbn [length]; lia|].
      by rewrite decide_False by done.
Qed.

Lemma read_did_loop_spec functional m : forall n i updated num,
  wf m -> ao_ok (mSecurityAccess m) -> 0 <= i -> 0 <= num ->
  2 * (i + Z.of_nat n) + 1 <= UDS_MAX_DATA_SIZE ->
  Z.of_nat (length updated) + 2 * Z.of_nat n <= UDS_DATA_SIZE ->
  num + Z.of_nat n < 2 ^ 16 ->
  wp (read_did_loop env n i functional updated num)
    (fun r m' => m' = m /\
       loop_result functional m (did_pairs m i (Z.of_nat n)) updated num r) m.
Proof.
  induction n as [|n IH]; intros i updated num Hwf Hok Hi Hnum Hlen Hfit Hcnt.
  { change (did_pairs m i (Z.of_nat 0)) with (@nil (Z * Z)). cbn [read_did_loop]. wp_step. cbn. rewrite app_nil_r. split_and!; try done; [set_solver|lia]. }
  pose proof (wf_recvBuf _ Hwf) as Hl. cbn [read_did_loop].
  assert (Hps : did_pairs m i (Z.of_nat (S n)) = did_pair m i :: did_pairs m (i + 1) (Z.of_nat n)).
  { unfold did_pairs. rewrite seqZ_cons by lia. cbn.
    by replace (Z.pred (Z.of_nat (S n))) with (Z.of_nat n) by lia. }
  rewrite Hps. unfold rd_did. do 2 wp_step. apply wp_rd_byte; [done|lia|].
  wp_step. apply wp_rd_byte; [done|lia|]. replace (i * 2 + 1 + 1) with (i * 2 + 2) by lia. wp_step.
  change (u16 (Z.shiftl (byte m (i * 2 + 1)) 8 + byte m (i * 2 + 2))) with (did_of (did_pair m i)).
  set (p := did_pair m i).
  assert (Hc : functional && negb (IsDidFunctionalAddressed (config env) (did_of p)) =
    negb (did_considered functional p)) by (unfold did_considered; by rewrite negb_involutive).
  rewrite Hc. destruct (did_considered functional p) eqn:Hcons; cbn [negb]; cbv iota.
  2:{ eapply wp_conseq; [apply IH; try done; lia|]. intros r m' [-> Hr]. split; [done|].
      apply loop_result_cons; [by intros nrc [? _]; congruence|].
      unfold did_included. rewrite Hcons, andb_false_r. exact Hr. }
  assert (Hnum' : (if functional then u16 (num + 1) else num) =
                  (if functional && true then num + 1 else num)).
  { destruct functional; [|done]. cbn [andb]. apply wrap_id. unfold in_width. lia. }
  rewrite Hnum'. cbv zeta. wp_step. apply wp_reads; [by apply read_did_check_reads|]. intros v Hv.
  assert (Hver : did_verdict_of m p = Some v) by (unfold did_verdict_of; by rewrite Hv).
  assert (Hcont : forall u, (Z.of_nat (length u) <= Z.of_nat (length updated) + 2) ->
    u = (if did_included functional m p then updated ++ [p.1; p.2] else updated) ->
    (forall nrc, v <> DidRefuse nrc) ->
    wp (read_did_loop env n (i + 1) functional u (if functional && true then num + 1 else num))
      (fun r m' => m' = m /\
         loop_result functional m (p :: did_pairs m (i + 1) (Z.of_nat n)) updated num r) m).
  { intros u Hu -> Hno. eapply wp_conseq; [apply IH; try done; try lia; destruct functional; cbn; lia|].
    intros r m' [-> Hr]. split; [done|]. apply loop_result_cons; [|by rewrite Hcons].
    intros nrc [_ Hr']. rewrite Hver in Hr'. injection Hr' as ->. by destruct (Hno nrc). }
  destruct v as [|nrc|].
  - apply Hcont; [lia| |done]. unfold did_included. by rewrite Hver, andb_false_r.
  - wp_step. split; [done|]. exists p. split; [by left|]. done.
  - wp_step. apply wp_rd_byte; [done|lia|]. wp_step. apply wp_rd_byte; [done|lia|]. wp_step.
    eapply wp_demand; [by rewrite (proj2 (Z.leb_le _ _)) by lia|].
    apply Hcont; [rewrite length_app; cbn; lia| |done].
    unfold did_included. by rewrite Hver, Hcons.
Qed.

Lemma pair_bytes_cons p ps : pair_bytes (p :: ps) = p.1 :: p.2 :: pair_bytes ps.
Proof. done. Qed.

Lemma drop_byte m k :
  Z.of_nat (length (recvBuf m)) = UDS_MAX_DATA_SIZE -> 0 <= k < UDS_MAX_DATA_SIZE ->
  drop (Z.to_nat k) (recvBuf m) = byte m k :: drop (S (Z.to_nat k)) (recvBuf m).
Proof.
  intros Hl Hk. destruct (lookup_lt_is_Some_2 (recvBuf m) (Z.to_nat k)) as [v Hv]; [lia|].
  unfold byte. rewrite Hv. by apply drop_S.
Qed.

Lemma pair_bytes_take m : forall n i,
  Z.of_nat (length (recvBuf m)) = UDS_MAX_DATA_SIZE -> 0 <= i ->
  2 * (i + Z.of_nat n) + 1 <= UDS_MAX_DATA_SIZE ->
  pair_bytes (did_pairs m i (Z.of_nat n)) = take (2 * n) (drop (Z.to_nat (i * 2 + 1)) (recvBuf m)).
Proof.
  induction n as [|n IH]; intros i Hl Hi Hb; [done|].
  assert (Hps : did_pairs m i (Z.of_nat (S n)) = did_pair m i :: did_pairs m (i + 1) (Z.of_nat n)).
  { unfold did_pairs. rewrite seqZ_cons by lia. cbn.
    by replace (Z.pred (Z.of_nat (S n))) with (Z.of_nat n) by lia. }
  rewrite Hps, pair_bytes_cons, drop_byte by (done || lia).
  replace (S (Z.to_nat (i * 2 + 1))) with (Z.to_nat (i * 2 + 2)) by lia.
  rewrite drop_byte by (done || lia).
  replace (S (Z.to_nat (i * 2 + 2))) with (Z.to_nat ((i + 1) * 2 + 1)) by lia.
  replace (2 * S n)%nat with (S (S (2 * n))) by lia. cbn [take did_pair fst snd]. rewrite IH by (done || lia). done.
Qed.

Lemma pair_bytes_filter (f : Z * Z -> bool) ps :
  pair_bytes (filter (fun p => f p = true) ps) `sublist_of` pair_bytes ps.
Proof.
  induction ps as [|p ps IH]; [done|]. rewrite filter_cons, pair_bytes_cons.
  case_decide; [rewrite pair_bytes_cons; by do 2 apply sublist_skip|].
  by do 2 apply sublist_cons.
Qed.

Lemma request_cons m v :
  wf m -> recvBuf m !! 0%nat = Some v -> 1 <= recvDataLen m <= UDS_MAX_DATA_SIZE ->
  request m = v :: take (Z.to_nat (recvDataLen m - 1)) (drop 1 (recvBuf m)).
Proof.
  intros Hwf Hv Hlen. unfold request.
  destruct (recvBuf m) as [|x b]; [done|]. cbn in Hv. simplify_eq.
  replace (Z.to_nat (recvDataLen m)) with (S (Z.to_nat (recvDataLen m - 1))) by lia. done.
Qed.

Lemma length_pair_bytes ps : length (pair_bytes ps) = (2 * length ps)%nat.
Proof. induction ps as [|p ps IH]; [done|]. rewrite pair_bytes_cons. cbn [length]. lia. Qed.

(** The identifiers of the request. *)
Definition requested_dids : list (Z * Z) := did_pairs m0 0 (Z.quot (recvDataLen m0 - 1) 2).
Definition included_dids : list (Z * Z) :=
  filter (fun p => did_included (bool_decide (taType a = TA_FUNCTIONAL)) m0 p = true) requested_dids.

(** Giving the service a shorter request. *)
Lemma accept_filtered (Hread : sid = READ_DID_REQUEST_ID) :
  3 <= recvDataLen m0 <= UDS_DATA_SIZE -> Z.rem (recvDataLen m0 - 1) 2 = 0 ->
  wp (cpy recvBuf 0 ([sid] ++ pair_bytes included_dids);;
      recvDataLen ::= Z.of_nat (length ([sid] ++ pair_bytes included_dids));;
      accept)
    (fun r m' => checked sid a m0 r m' /\
       isInternalHandle m' = false /\ request m' = [sid] ++ pair_bytes included_dids) m0.
Proof.
  intros Hlen Hrem. set (u := [sid] ++ pair_bytes included_dids).
  pose proof rd_len as Hl. pose proof (rd_wf _ Hready) as Hwf.
  set (n := Z.to_nat (Z.quot (recvDataLen m0 - 1) 2)).
  assert (Hn : recvDataLen m0 - 1 = 2 * Z.of_nat n).
  { unfold n. rewrite Z2Nat.id by (apply Z.quot_pos; lia).
    pose proof (Z.quot_rem' (recvDataLen m0 - 1) 2). lia. }
  assert (Hreq : request m0 = sid :: pair_bytes requested_dids).
  { rewrite (request_cons _ sid) by (done || lia). f_equal. unfold requested_dids.
    replace (Z.quot (recvDataLen m0 - 1) 2) with (Z.of_nat n) by (unfold n; rewrite Z2Nat.id; [done|apply Z.quot_pos; lia]).
    rewrite pair_bytes_take by (done || lia). f_equal. lia. }
  assert (Hsub : u `sublist_of` request m0).
  { rewrite Hreq. apply sublist_skip, pair_bytes_filter. }
  assert (Hlu : Z.of_nat (length u) <= recvDataLen m0).
  { pose proof (sublist_length _ _ Hsub) as H. unfold request in H. rewrite length_take in H. lia. }
  clearbody u. wp_step. apply wp_cpy; [lia|lia|]. wp_step. apply wp_assign_. unfold accept. wp_step. apply wp_assign_. wp_step.
  assert (Htake : take (length u) (splice (recvBuf m0) 0 u) = u).
  { unfold splice. change (take (Z.to_nat 0) (recvBuf m0)) with (@nil Z). rewrite app_nil_l. apply take_app_length. }
  set (m' := _ <| isInternalHandle := false |>).
  assert (Hreq' : request m' = u).
  { unfold request, m'. cbn. rewrite Nat2Z.id. exact Htake. }
  assert (Hbytes : Forall is_byte u).
  { apply Forall_forall. intros x Hx. eapply elem_of_sublist in Hx; [|exact Hsub].
    revert x Hx. apply Forall_forall, Forall_take, Hwf. }
  split; [|by split].
  destruct Hready. split; try done.
  - pose proof Hwf as []. split; try done; cbn.
    + rewrite length_splice; [done|lia|lia].
    + lia.
    + unfold splice. apply Forall_app. split; [by apply Forall_take|].
      apply Forall_app. split; [done|by apply Forall_drop].
  - apply PassedOn; [done| | |].
    + exists []. by rewrite app_nil_r.
    + cbn. lia.
    + unfold passed_on. rewrite Hread. change (_ =? _) with true. cbv iota. by rewrite Hreq'.
Qed.

(** What the loop has found decides the verdict on a read. *)
Definition read_verdict (m' : Mgr) : Prop :=
  if isInternalHandle m' then
    3 <= recvDataLen m0 <= UDS_DATA_SIZE -> Z.rem (recvDataLen m0 - 1) 2 = 0 ->
    Z.quot (recvDataLen m0 - 1) 2 <= MAX_DID_NUM_IN_RDBI ->
    included_dids = [] \/ exists p nrc, p ∈ requested_dids /\
      did_refused (bool_decide (taType a = TA_FUNCTIONAL)) m0 p nrc
  else request m' = [sid] ++ pair_bytes included_dids /\ included_dids <> [] /\
    forall p nrc, p ∈ requested_dids ->
      ~ did_refused (bool_decide (taType a = TA_FUNCTIONAL)) m0 p nrc.

Lemma refuse_read nrc :
  (3 <= recvDataLen m0 <= UDS_DATA_SIZE -> Z.rem (recvDataLen m0 - 1) 2 = 0 ->
   Z.quot (recvDataLen m0 - 1) 2 <= MAX_DID_NUM_IN_RDBI ->
   included_dids = [] \/ exists p nrc, p ∈ requested_dids /\
      did_refused (bool_decide (taType a = TA_FUNCTIONAL)) m0 p nrc) ->
  wp (SendNRC env sid nrc a) (fun r m' => checked sid a m0 r m' /\ read_verdict m') m0.
Proof.
  intros Hwhy. apply wp_and; [by apply refuse|].
  eapply wp_conseq; [by apply SendNRC_spec, (rd_wf _ Hready)|]. intros r m' (_ & Hc & _).
  unfold read_verdict. pose proof (f_equal isInternalHandle Hc) as Hi. cbn in Hi.
  rewrite <- Hi, (rd_internal _ Hready). exact Hwhy.
Qed.

Lemma none_included_if_none_considered f m ps :
  filter (fun p => did_considered f p = true) ps = [] ->
  filter (fun p => did_included f m p = true) ps = [].
Proof.
  induction ps as [|p ps IH]; [done|]. rewrite !filter_cons.
  unfold did_included at 1. case_decide as H1; [done|].
  rewrite decide_False; [exact IH|]. by intros [? _]%andb_true_iff.
Qed.

Lemma IndicateReadDIDReq_read (Hread : sid = READ_DID_REQUEST_ID) :
  wp (IndicateReadDIDReq env a) (fun r m' => checked sid a m0 r m' /\ read_verdict m') m0.
Proof.
  pose proof rd_len as Hl. pose proof (rd_wf _ Hready) as Hwf.
  unfold IndicateReadDIDReq. wp_step. apply rd_sid; [done|]. wp_step. apply wp_assign_.
  rewrite (ready_internal _ Hready). do 2 wp_step.
  apply wp_if; intros H1; [apply refuse_read; lia|].
  apply wp_if; intros H2; [apply refuse_read; lia|].
  apply wp_if; intros H3; [apply refuse_read; lia|]. cbv zeta.
  apply wp_if; intros H4; [apply refuse_read; lia|].
  set (didNum := Z.quot (recvDataLen m0 - 1) 2) in *.
  assert (Hq : 0 <= didNum) by (apply Z.quot_pos; lia).
  assert (Hd : recvDataLen m0 - 1 = 2 * didNum).
  { pose proof (Z.quot_rem' (recvDataLen m0 - 1) 2). fold didNum in H. lia. }
  set (functional := bool_decide (taType a = TA_FUNCTIONAL)).
  wp_step. eapply wp_conseq.
  { apply read_did_loop_spec; try done; cbn [length]; lia. }
  rewrite Z2Nat.id by done. change (did_pairs m0 0 didNum) with requested_dids.
  intros [nrc|[updated num]] m' [-> Hr]; cbn [loop_result] in Hr.
  - apply refuse_read. intros _ _ _. right. destruct Hr as (p & Hp & Hr). eauto.
  - change (filter (fun p => did_included functional m0 p = true) requested_dids)
      with included_dids in Hr.
    destruct Hr as (-> & Href & Hnum). cbv zeta.
    assert (Hempty : Z.of_nat (length ([sid] ++ pair_bytes included_dids)) = 1 <-> included_dids = []).
    { rewrite length_app, length_pair_bytes. cbn [length]. rewrite <- length_zero_iff_nil. lia. }
    apply wp_if; intros H5.
    + wp_step. split; [split; try (by apply Hready); [done|done|]|].
      * apply Dropped; [apply Hready|done|done|]. unfold functional in H5.
        by destruct (taType a).
      * unfold read_verdict. rewrite (rd_internal _ Hready). intros _ _ _. left.
        apply andb_true_iff in H5 as [Hf H5]. specialize (Hnum Hf).
        unfold included_dids. fold functional.
        assert (Hnone : filter (fun p => did_considered functional p = true) requested_dids = [])
          by (apply length_zero_iff_nil; lia).
        apply none_included_if_none_considered. exact Hnone.
    + apply wp_if; intros H6.
      { apply refuse_read. intros _ _ _. left. apply Hempty. lia. }
      assert (Hne : included_dids <> []) by (rewrite <- Hempty; lia).
      eapply wp_conseq; [apply accept_filtered; [done|lia|lia]|].
      intros r m' (Hck & Hint & Hreq). split; [done|]. unfold read_verdict. rewrite Hint. auto.
Qed.

(** *** SecurityAccess *)

(** In the unlocked idle state the current session has an active level, as it has until
    a second level is unlocked. *)
Definition active_when_unlocked (m : Mgr) : Prop :=
  state_fn (mSecurityAccess m) = UnlockedNoActiveSeed ->
  exists i p, current_session (mSecurityAccess m) = Some i /\ active_in m i p.

Lemma report_request_checked sig m1 :
  sid = SECURITY_ACCESS_REQUEST_ID -> sig = REQUEST_SEED_SIG \/ sig = SEND_KEY_SIG ->
  wf m1 -> mSecurityAccess m1 = mSecurityAccess m0 -> frame m0 m1 -> trace m1 = trace m0 ->
  recvSid m1 = sid -> udsRespAddrInfo m1 = a -> recvDataLen m0 <= UDS_MAX_DATA_SIZE ->
  active_when_unlocked m0 ->
  wp (posted ← report_and_wait env sig true;
      if negb posted then raise Deadlock else gets remoteError) (checked sid a m0) m1.
Proof.
  intros Hs Hsig Hwf Ha Hf Ht Hrs Hto Hlen Hact. unfold report_and_wait.
  set (m2 := m1 <| semCount := 0 |>).
  assert (Hev : wp (SecurityAccessEventHandler env (tester_report sig))
    (fun _ m' => event_post m2 m' /\ state_fn (mSecurityAccess m') <> State_initial) m2).
  { apply tester_request_post; try done.
    - by destruct Hwf.
    - cbn. by rewrite Ha.
    - cbn. by rewrite Hrs.
    - cbn. rewrite Ha. apply Hready.
    - intros _ Hst _. unfold active_in, session_of in *. cbn in *. rewrite Ha in *. by apply Hact. }
  do 2 wp_step. apply wp_assign_. wp_step. eapply wp_conseq; [exact Hev|].
  intros [] m' [Hp Hst]. do 2 wp_step. wp_step. destruct Hp.
  replace (0 <? semCount m') with true by (rewrite ep_woken; done). cbn [negb]. wp_step.
  assert (Hf' : frame m0 m') by (etrans; [exact Hf|exact ep_frame]).
  split; try done.
  - by apply frame_session_view.
  - destruct ep_verdict as [(Hi & data & Hr & He)|[Hi Hq]].
    + eapply Answered; [done|rewrite <- Hrs; exact Hr|]. rewrite <- Hto.
      destruct He as (es & He & Hone). exists es. cbn in He. rewrite He, Ht. done.
    + apply PassedOn; [done| | |].
      * destruct Hq as (es & He & Hq). exists es. cbn in He. by rewrite He, Ht.
      * by rewrite (frame_length _ _ Hf').
      * unfold passed_on. rewrite Hs. apply (frame_request _ _ Hf').
Qed.

Lemma IndicateSecAccessReq_checked :
  sid = SECURITY_ACCESS_REQUEST_ID -> active_when_unlocked m0 ->
  wp (IndicateSecAccessReq env a) (checked sid a m0) m0.
Proof.
  intros Hs Hact. unfold IndicateSecAccessReq.
  set (m1 := m0 <| udsRespAddrInfo := a |>).
  assert (Hm1 : started_from m0 m1) by (destruct Hready as [[] ? ? ?]; by split).
  assert (wf m1) by apply Hm1.
  pose proof rd_len. wp_step. apply rd_sid; [done|]. wp_step. apply wp_assign_. fold m1.
  assert (Hl1 : recvDataLen m1 = recvDataLen m0) by done.
  assert (Hb1 : recvBuf m1 = recvBuf m0) by done.
  assert (Hao1 : ao_ok (mSecurityAccess m1)) by exact Hao.
  assert (Ha1 : udsRespAddrInfo m1 = a) by done.
  clearbody m1. rewrite <- Hb1 in Hsid. assert (Z.of_nat (length (recvBuf m1)) = UDS_MAX_DATA_SIZE) by congruence.
  request_tac.
  lazymatch goal with |- context [report_and_wait env ?sig true] => set (sg := sig) end.
  apply wp_bind_inv, (report_request_checked sg); try done.
  - clear. unfold sg. destruct (_ =? _); [by left|by right].
  - destruct Hm1 as [[] ? ? ? ?]. by split.
  - apply Hm1.
  - apply Hm1.
  - apply Hm1.
  - lia.
Qed.
End Services.
