(* ===== verification/UdsHandler.v ===== *)
(** * The UDS stack: the contract of the message handler

    What [DiagIndicationHandler] does with a message of the tester: it answers it
    once, passes it on once, or has a reason to stay silent. *)
From Stdlib Require Import SpecFloat.
From S2P Require Import Prelude Ieee DiagCfg UdsTypes UdsSend SecAccess SecAccessSpec UdsAccess.
From S2P Require Import UdsIndicate UdsControl UdsTransfer UdsResp UdsMgr UdsRequest.

(** ** Permission *)

(** The conditions of the configuration under which a service may be used. *)
Definition service_permitted (env : Env) (m : Mgr) (sid : Z) : Prop :=
  exists svc, get_service_entry (config env) sid = Returns svc /\ svc_supported svc = true /\
    (sid <> AUTHENTICATION_REQUEST_ID -> svc_authentication svc = true ->
       authState m = AUTH_STATE_AUTHENTICATED) /\
    session_listed env (acc_session (svc_access svc)) (SessionType m) = true /\
    (u8 (SessionType m) = DEFAULT_SESSION ->
       sid ∉ [SECURITY_ACCESS_REQUEST_ID; INPUT_OUTPUT_CONTROL_REQUEST_ID; TRANSFER_DATA_REQUEST_ID;
              REQUEST_TRANSFER_EXIT_REQUEST_ID; REQUEST_FILE_TRANSFER_REQUEST_ID]) /\
    (sid <> SECURITY_ACCESS_REQUEST_ID -> SessionType m <> DEFAULT_SESSION ->
       acc_security_type (svc_access svc) = SECURITY_ACCESS_REQUEST_ID ->
       exists i p, current_session (mSecurityAccess m) = Some i /\ unlocked_in m i p).

Section Permission.
Variable env : Env.
Variables (m : Mgr) (sid : Z).

Lemma IsUnlocked_true : SecurityAccess_IsUnlocked m = Done (true, m) ->
  exists i p, current_session (mSecurityAccess m) = Some i /\ unlocked_in m i p.
Proof.
  unfold SecurityAccess_IsUnlocked. intros (c & m1 & (-> & Hc & Hs)%current_run & [= Hb])%bind_run.
  apply bool_decide_eq_true in Hb as [p Hp]. exists c.1, p. split; [done|]. by exists c.2.
Qed.

Lemma access_unlocked_true acc : access_unlocked env acc m = Done (true, m) ->
  acc_security_type acc = SECURITY_ACCESS_REQUEST_ID ->
  exists i p, current_session (mSecurityAccess m) = Some i /\ unlocked_in m i p.
Proof.
  unfold access_unlocked. intros H Ht. rewrite Ht in H. cbn in H.
  apply bind_run in H as (b & m1 & Hb & H). destruct b; [|done].
  assert (m1 = m) as -> by (revert Hb; unfold SecurityAccess_IsUnlocked;
    intros (? & ? & (-> & _)%current_run & [= _ <-])%bind_run; done).
  by apply IsUnlocked_true.
Qed.

Lemma permitted_intro :
  IsServiceIDSupported env sid = true ->
  IsAuthCheckOK env sid m = Done (true, m) ->
  IsValidSvcActiveSession env sid m = Done (true, m) ->
  IsSvcSecAccessMatched env sid m = Done (true, m) ->
  service_permitted env m sid.
Proof.
  unfold IsServiceIDSupported, IsAuthCheckOK, IsValidSvcActiveSession, IsSvcSecAccessMatched,
    get_service_access.
  destruct (get_service_entry (config env) sid) as [svc|] eqn:Esvc; [|done].
  destruct (svc_supported svc) eqn:Esup; [|done]. intros _ Hauth Hsess Hsec.
  apply bind_run in Hauth as (? & ? & [= <- <-] & Hauth).
  apply bind_run in Hsess as (? & ? & [= <- <-] & Hsess).
  apply bind_run in Hsec as (? & ? & [= <- <-] & Hsec).
  exists svc. split_and!; try done.
  - intros Hne Ha. rewrite Ha in Hauth. destruct (Z.eqb_spec sid 41); [done|].
    injection Hauth as Hb. by apply bool_decide_eq_true in Hb.
  - cbn in Hsess. destruct (_ && _); [done|]. by injection Hsess as ->.
  - intros Hd. rewrite Hd in Hsess. change (1 =? 1) with true in Hsess. cbn [andb] in Hsess.
    destruct (_ || _) eqn:E in Hsess; [done|]. intros Hin.
    rewrite !elem_of_cons, elem_of_nil in Hin. destruct_or?; by subst.
  - intros Hne Hs Ht. cbn in Hsec. destruct (Z.eqb_spec sid 39); [done|].
    destruct (Z.eqb_spec (SessionType m) 1); [done|]. by eapply access_unlocked_true.
Qed.
End Permission.

(** ** The outcome of a message *)

(** Configurations whose timer intervals are 32-bit values. *)
Class TimersRepresentable (cfg : Config) : Prop := {
  tr_s3 :: S3Representable cfg;
  tr_s3_truncated : is_Some (s3_interval_truncated cfg);
  tr_budget : forall session, is_Some (to_unsigned 32 (rcrrp_budget cfg session)) }.

Definition stable (m : Mgr) : Prop :=
  wf m /\ ao_ok (mSecurityAccess m) /\ state_fn (mSecurityAccess m) <> State_initial.

(** The bytes of a message that fit the receive buffer. *)
Definition received (msg : DiagMsg) : list Z :=
  take (Z.to_nat (Z.min (dataLen msg) UDS_MAX_DATA_SIZE)) (dataPtr msg).

(** Why a message may be left without any answer. *)
Definition silent_reason (env : Env) (a : AddrInfo) (msg : DiagMsg) (m : Mgr) : Prop :=
  dataLen msg < 1 \/ isResetInProgress m = true \/
  exists sid, at_ (dataPtr msg) 0 = Some sid /\
    ((taType a = TA_FUNCTIONAL /\
      (IsServiceFunctionalAddressed (config env) sid = false \/ sid = READ_DID_REQUEST_ID)) \/
     (sid = TESTER_PRESENT_REQUEST_ID /\ exists b, at_ (dataPtr msg) 1 = Some b /\
        Z.land (Z.shiftr b 7) 1 = 1)).

Definition forwarded (sid : Z) (a : AddrInfo) (es : list Effect) : Prop :=
  sent es = [(reply_to a, [UDS_NEGATIVE_RESP_SID; sid; REQUEST_CORRECTLY_RECEIVED_RESPONSE_PENDING])] /\
  service_indications es = 1%nat.

Inductive handled (env : Env) (a : AddrInfo) (msg : DiagMsg) (m m' : Mgr) : Prop :=
  | Silent :
      quietly m m' -> readyToRecvData m' = readyToRecvData m -> silent_reason env a msg m ->
      handled env a msg m m'
  | Responded sid data :
      at_ (dataPtr msg) 0 = Some sid -> response_to sid data ->
      emits m m' (one_message (reply_to a) data) -> readyToRecvData m' = readyToRecvData m ->
      handled env a msg m m'
  | Forwarded sid :
      at_ (dataPtr msg) 0 = Some sid -> emits m m' (forwarded sid a) ->
      readyToRecvData m = true -> readyToRecvData m' = false -> isPaused m = false ->
      service_permitted env m sid ->
      recvDataLen m' <= UDS_MAX_DATA_SIZE ->
      (dataLen msg <= UDS_MAX_DATA_SIZE -> passed_on sid (received msg) (request m')) ->
      handled env a msg m m'.

Section Handler.
Variable env : Env.
Context `{!TimersRepresentable (config env)}.

Let Hs3 : S3Representable (config env) := tr_s3.

Lemma only_logs_ready m m' : only_logs m m' -> ready m -> ready m'.
Proof. intros (es & -> & _) [[] [] ? ?]. by split. Qed.

(** The checks common to all services. *)
Lemma GeneralServerResp_spec a sid m :
  wf m -> ao_ok (mSecurityAccess m) ->
  wp (GeneralServerResp env a sid) (fun r m' =>
    (r = LE_OK /\ exists nrc es, Forall quiet es /\
       answers (log m es) m' (reply_to a) [UDS_NEGATIVE_RESP_SID; sid; nrc]) \/
    (r = LE_NOT_FOUND /\ only_logs m m' /\ service_permitted env m sid)) m.
Proof.
  intros Hwf Hao. unfold GeneralServerResp.
  assert (Hrej : forall nrc es, Forall quiet es ->
    wp (SendNRC env sid nrc a) (fun r m' =>
      (r = LE_OK /\ exists nrc es, Forall quiet es /\
         answers (log m es) m' (reply_to a) [UDS_NEGATIVE_RESP_SID; sid; nrc]) \/
      (r = LE_NOT_FOUND /\ only_logs m m' /\ service_permitted env m sid)) (log m es)).
  { intros nrc es Hes. eapply wp_conseq; [by apply SendNRC_spec, wf_log|].
    intros r m' [-> H]. left. eauto. }
  apply wp_if; intros Hsup; [pose proof (Hrej SERVICE_NOT_SUPPORTED [] (Forall_nil_2 _)) as Hx; by rewrite log_nil in Hx|].
  apply negb_false_iff in Hsup. wp_step. wp_step.
  assert (Hrest : forall es, Forall quiet es -> wp
    (ok ← IsAuthCheckOK env sid;
     if negb ok then SendNRC env sid AUTHENTICATION_REQUIRED a else
     valid ← IsValidSvcActiveSession env sid;
     if negb valid then SendNRC env sid SERVICE_NOT_SUPPORTED_IN_ACTIVE_SESSION a else
     matched ← IsSvcSecAccessMatched env sid;
     if negb matched then SendNRC env sid SECURITY_ACCESS_DENY a else
     mret LE_NOT_FOUND) (fun r m' =>
      (r = LE_OK /\ exists nrc es, Forall quiet es /\
         answers (log m es) m' (reply_to a) [UDS_NEGATIVE_RESP_SID; sid; nrc]) \/
      (r = LE_NOT_FOUND /\ only_logs m m' /\ service_permitted env m sid)) (log m es)).
  { intros es Hes. assert (Hao' : ao_ok (mSecurityAccess (log m es))) by exact Hao.
    wp_step. apply wp_reads; [by apply IsAuthCheckOK_reads|]. intros [] Hauth; [|by apply Hrej].
    cbn [negb]. wp_step. apply wp_reads; [by apply IsValidSvcActiveSession_reads|].
    intros [] Hval; [|by apply Hrej].
    cbn [negb]. wp_step. apply wp_reads; [by apply IsSvcSecAccessMatched_reads|].
    intros [] Hsec; [|by apply Hrej]. cbn [negb]. wp_step. right. split_and!; [done|by exists es|].
    exact (permitted_intro env (log m es) sid Hsup Hauth Hval Hsec). }
  wp_step. wp_step; [|pose proof (Hrest [] (Forall_nil_2 _)) as Hx; by rewrite log_nil in Hx].
  uds_step. by apply Hrest; repeat constructor.
Qed.

Lemma TesterPresentResp_spec b len a m :
  wf m -> ao_ok (mSecurityAccess m) ->
  wp (TesterPresentResp env b len a) (fun r m' =>
    (exists data, response_to TESTER_PRESENT_REQUEST_ID data /\ answers m m' (reply_to a) data) \/
    (only_logs m m' /\ Z.land (Z.shiftr b 7) 1 = 1)) m.
Proof.
  intros Hwf Hao. unfold TesterPresentResp.
  assert (Hrej : forall nrc, wp (SendNRC env TESTER_PRESENT_REQUEST_ID nrc a) (fun r m' =>
    (exists data, response_to TESTER_PRESENT_REQUEST_ID data /\ answers m m' (reply_to a) data) \/
    (only_logs m m' /\ Z.land (Z.shiftr b 7) 1 = 1)) m).
  { intros nrc. eapply wp_conseq; [by apply SendNRC_spec|].
    intros r m' [-> H]. left. eexists. split; [apply response_negative|exact H]. }
  cbv zeta. repeat (apply wp_if; intros ?; [apply Hrej|]).
  wp_step. apply wp_reads; [by apply IsSubFuncAuthCheckOK_reads|]. intros [] _; [|apply Hrej].
  cbn [negb]. wp_step. apply wp_reads; [by apply IsSubFuncSessTypeValid_reads|]. intros [] _; [|apply Hrej].
  cbn [negb]. wp_step. apply wp_reads; [by apply IsSubFuncSecAccessMatched_reads|]. intros [] _; [|apply Hrej].
  cbn [negb]. apply wp_if; intros Hsup.
  - wp_step. eapply wp_conseq; [by apply CheckAndRestartS3Timer_logs|]. intros [] m1 Hm1.
    wp_step. wp_step.
    + eapply wp_conseq; [apply CheckAndRestartTesterStateTimer_logs|]. intros [] m2 Hm2. wp_step.
      right. split; [by eapply only_logs_trans|lia].
    + wp_step. right. split; [done|lia].
  - pose proof Hwf as [].
    wp_step. apply wp_cpy; cbn [length]; [lia|lia|].
    assert (L1 : length (splice (tpBuf m) 0 [0x7E]) = length (tpBuf m))
      by (apply length_splice; cbn [length]; lia).
    wp_step. apply wp_cpy; cbn [length]; [lia|cbn; lia|].
    wp_step. apply wp_assign_. set (m1 := _ <| tpDataLen := 2 |>).
    assert (Hbuf : tpBuf m1 = 0x7E :: 0 :: drop 2 (tpBuf m)).
    { unfold m1. cbn. destruct (tpBuf m) as [|x [|y t]]; cbn [length] in *; try lia. done. }
    assert (Hwf1 : wf m1).
    { split; try done. rewrite Hbuf. cbn [length]. rewrite length_drop. lia. }
    wp_step. eapply wp_conseq; [by apply SendData_spec|]. intros [] m2 (es & -> & Hes).
    change (if 62 =? 62 then _ else _) with (take 2 (tpBuf m1)). rewrite Hbuf. wp_step.
    left. exists [0x7E; 0]. split; [split; [done|right; by exists [0]]|]. by apply answers_log.
Qed.

(** The timers that follow every request. *)
Definition session_timers (sid : Z) (a : AddrInfo) : M Mgr unit :=
  m ← get;
  let budget := rcrrp_budget (config env) (SessionType m) in
  when (featureA env)
    (testerStateTimer ←
       (if negb (isInternalHandle m) && SFltb (F32.of_Z TESTER_STATE_CHANGE_TIMER) budget
        then demand (to_unsigned 32 budget) BadConversion
        else mret TESTER_STATE_CHANGE_TIMER);
     UdsTimerEventReport TESTER_STATE_TIMER_START testerStateTimer (ifName a));;
  when (negb (sid =? SESSION_CONTROL_REQUEST_ID) && negb (SessionType m =? DEFAULT_SESSION))
    (s3 ← demand (s3_interval_truncated (config env)) BadConversion;
     s3ServerInterval ← (if negb (isInternalHandle m) && SFltb (F32.of_Z s3) budget
                         then demand (to_unsigned 32 budget) BadConversion
                         else mret s3);
     UdsTimerEventReport S3_TIMER_START s3ServerInterval (ifName a)).

Lemma session_timers_logs sid a m : wp (session_timers sid a) (fun _ m' => only_logs m m') m.
Proof.
  destruct tr_s3_truncated as [s3 Hs3']. destruct (tr_budget (SessionType m)) as [b Hb].
  assert (Htail : forall m1, only_logs m m1 -> wp
    (when (negb (sid =? SESSION_CONTROL_REQUEST_ID) && negb (SessionType m =? DEFAULT_SESSION))
      (s3 ← demand (s3_interval_truncated (config env)) BadConversion;
       s3ServerInterval ← (if negb (isInternalHandle m) &&
                             SFltb (F32.of_Z s3) (rcrrp_budget (config env) (SessionType m))
                           then demand (to_unsigned 32 (rcrrp_budget (config env) (SessionType m)))
                                  BadConversion
                           else mret s3);
       UdsTimerEventReport S3_TIMER_START s3ServerInterval (ifName a)))
    (fun _ m' => only_logs m m') m1).
  { intros m1 Hm1. apply wp_when; intros _; [|done]. wp_step. eapply wp_demand; [exact Hs3'|].
    wp_step. apply wp_if; intros _; [eapply wp_demand; [exact Hb|]|wp_step];
      uds_step; (eapply only_logs_trans; [exact Hm1|by eauto with telaf]). }
  unfold session_timers. do 2 wp_step. cbv zeta. wp_step. apply wp_when; intros _; [|apply Htail; by eauto with telaf].
  wp_step. apply wp_if; intros _; [eapply wp_demand; [exact Hb|]|wp_step];
    uds_step; apply Htail; by eauto with telaf.
Qed.

Lemma after_dispatch_eq sid a m :
  after_dispatch env sid a m =
  (session_timers sid a;; when (negb (isInternalHandle m)) (CheckAndSendInd env sid a;; mret tt)) m.
Proof.
  unfold after_dispatch, session_timers, mbind, M_bind, get. cbv zeta.
  destruct (when (featureA env) _ m) as [[[] m1]|e]; [|done].
  by destruct (when _ _ m1) as [[[] m2]|e].
Qed.

Lemma CheckAndSendInd_spec sid a m :
  wf m -> wp (CheckAndSendInd env sid a) (fun _ m' =>
    wf m' /\ mSecurityAccess m' = mSecurityAccess m /\ readyToRecvData m' = false /\
    recvBuf m' = recvBuf m /\ recvDataLen m' = recvDataLen m /\
    emits m m' (forwarded sid a)) m.
Proof.
  intros Hwf. unfold CheckAndSendInd. wp_step. eapply wp_conseq; [by apply SendNRC_spec|].
  intros r m1 (-> & Hc & Hwf1 & es & Ht & es' & -> & Hq). uds_steps.
  pose proof (f_equal mSecurityAccess Hc) as H1. pose proof (f_equal recvBuf Hc) as H2.
  pose proof (f_equal recvDataLen Hc) as H3. cbn in H1, H2, H3.
  split_and!; try done; [by destruct Hwf1|].
  eexists. cbn. rewrite Ht, <- !app_assoc. split; [done|]. cbn.
  split.
  - cbn. rewrite sent_app, quiet_sent by done. done.
  - rewrite app_comm_cons, service_indications_app.
    change (service_indications (_ :: es')) with (service_indications es').
    by rewrite quiet_indications.
Qed.

Lemma dispatch_checked sid a m :
  ready m -> recvBuf m !! 0%nat = Some sid -> pattern_rows (config env) -> active_when_unlocked m ->
  wp (dispatch env sid a) (checked sid a m) m.
Proof.
  intros Hr Hs Hrows Hact. unfold dispatch.
  repeat (apply wp_if; intros ?).
  all: repeat match goal with H : (_ =? _) = true |- _ => apply Z.eqb_eq in H end.
  all: lazymatch goal with
    | |- wp (IndicateSessionCtrlReq _ _) _ _ => by apply IndicateSessionCtrlReq_checked
    | |- wp (IndicateECUResetReq _ _) _ _ => by apply IndicateECUResetReq_checked
    | |- wp (IndicateClearDiagInfoReq _ _) _ _ => by apply IndicateClearDiagInfoReq_checked
    | |- wp (IndicateReadDTCInfoReq _ _) _ _ => by apply IndicateReadDTCInfoReq_checked
    | |- wp (IndicateSecAccessReq _ _) _ _ => by apply IndicateSecAccessReq_checked
    | |- wp (IndicateAuthReq _ _) _ _ => by apply IndicateAuthReq_checked
    | |- wp (IndicateWriteDIDReq _ _) _ _ => by apply IndicateWriteDIDReq_checked
    | |- wp (IndicateIOCBIDReq _ _) _ _ => by apply IndicateIOCBIDReq_checked
    | |- wp (IndicateRoutinrCtrlReq _ _) _ _ => by apply IndicateRoutinrCtrlReq_checked
    | |- wp (IndicateRxReqDwnldReq _ _) _ _ => by apply IndicateRxReqDwnldReq_checked
    | |- wp (IndicateRxXferDataReq _ _) _ _ => by apply IndicateRxXferDataReq_checked
    | |- wp (IndicateRxXferExitReq _ _) _ _ => by apply IndicateRxXferExitReq_checked
    | |- wp (IndicateRxFileXferReq _ _) _ _ => by apply IndicateRxFileXferReq_checked
    | |- wp (IndicateROEReq _ _) _ _ => by apply IndicateROEReq_checked
    | |- _ => idtac
    end.
  - eapply wp_conseq; [by eapply IndicateReadDIDReq_read|]. by intros r m' [Hck _].
  - wp_step. eapply wp_conseq; [by apply SendNRC_spec, (rd_wf _ Hr)|].
    intros r m' (-> & Hc & Hwf & es & Ht & es' & -> & Hq).
    wp_step. apply wp_assign_. wp_step.
    pose proof (f_equal mSecurityAccess Hc) as Ha. cbn in Ha. destruct Hr.
    split; try done.
    + by destruct Hwf.
    + cbn. by rewrite <- Ha.
    + cbn. by rewrite <- Ha.
    + apply (frame_session_view m m'). by apply same_core_frame.
    + eapply Answered; [done|apply response_negative|]. eexists. split; [exact Ht|].
      by apply (one_message_intro []).
Qed.

(** *** A message *)

(** The memory the message pointer refers to. A tester-present request is read up to its
    second byte, whatever its length. *)
Record message_ok (msg : DiagMsg) : Prop := mkMessageOk {
  mo_length : 0 <= dataLen msg <= Z.of_nat (length (dataPtr msg));
  mo_bytes : Forall is_byte (dataPtr msg);
  mo_tester_present : at_ (dataPtr msg) 0 = Some TESTER_PRESENT_REQUEST_ID ->
    2 <= Z.of_nat (length (dataPtr msg)) }.

Lemma stable_log m es : stable m -> stable (log m es).
Proof. intros ([] & ? & ?). by split_and!. Qed.
Lemma stable_answers m m' to d : stable m -> answers m m' to d -> stable m'.
Proof.
  intros (_ & Hao & Hst) (Hc & Hwf & _). pose proof (f_equal mSecurityAccess Hc) as H. cbn in H.
  split_and!; [done|by rewrite <- H..].
Qed.
Lemma answers_ready m m' to d : answers m m' to d -> readyToRecvData m' = readyToRecvData m.
Proof. intros (Hc & _). symmetry. exact (f_equal readyToRecvData Hc). Qed.
Lemma answers_one m m' to d : answers m m' to d -> emits m m' (one_message to d).
Proof.
  intros (_ & _ & es & Ht & es' & -> & Hq). eexists. split; [exact Ht|].
  by apply (one_message_intro []).
Qed.
Lemma emits_log m m' es to d :
  Forall quiet es -> emits (log m es) m' (one_message to d) -> emits m m' (one_message to d).
Proof.
  intros Hes (es' & Ht & H1 & H2). exists (es ++ es'). cbn in Ht. rewrite Ht, <- app_assoc.
  split; [done|]. split.
  - by rewrite sent_app, quiet_sent, H1.
  - by rewrite service_indications_app, quiet_indications, H2.
Qed.

(** A request in the receive buffer, from the common checks to the indication. *)
Definition buffered (sid : Z) (a : AddrInfo) (m m' : Mgr) : Prop :=
  stable m' /\
  ((readyToRecvData m' = readyToRecvData m /\ exists data, response_to sid data /\
      emits m m' (one_message (reply_to a) data)) \/
   (readyToRecvData m' = readyToRecvData m /\ quietly m m' /\
      sid = READ_DID_REQUEST_ID /\ taType a = TA_FUNCTIONAL) \/
   (readyToRecvData m' = false /\ emits m m' (forwarded sid a) /\ service_permitted env m sid /\
      recvDataLen m' <= UDS_MAX_DATA_SIZE /\ passed_on sid (request m) (request m'))).

Lemma after_dispatch_spec sid a m0 m r :
  checked sid a m0 r m -> service_permitted env m0 sid ->
  wp (after_dispatch env sid a) (fun _ m' => buffered sid a m0 m') m.
Proof.
  intros Hck Hperm. unfold wp. rewrite after_dispatch_eq.
  match goal with |- match ?c m with _ => _ end => change (wp c (fun _ m' => buffered sid a m0 m') m) end.
  wp_step. eapply wp_conseq; [apply session_timers_logs|]. intros [] m1 (es & -> & Hes).
  destruct Hck as [Hwf Hao Hstt Hsess _ Hv]. assert (Hst : stable m) by (by split_and!).
  assert (Hsv : readyToRecvData m = readyToRecvData m0)
    by (unfold session_view in Hsess; congruence).
  destruct Hv as [data Hi Hresp He|Hi Hq Hlen Hpass|Hi Ht Hs Hf]; rewrite Hi; cbn [negb when].
  - wp_step. split; [by apply stable_log|]. left. split; [done|]. exists data. split; [done|].
    destruct He as (es0 & He & Hone). exists (es0 ++ es). cbn. rewrite He, app_assoc.
    split; [done|by apply one_message_quiet].
  - wp_step. eapply wp_conseq; [by apply CheckAndSendInd_spec, wf_log|].
    intros r' m' (Hwf' & Ha & Hrdy & Hb & Hl & es' & He & Hs1 & Hs2). wp_step. cbn in Ha, Hb, Hl, He.
    split; [by split_and!; rewrite ?Ha|]. right. right.
    split_and!; try done.
    + destruct Hq as (es0 & Hq & Hqq). exists (es0 ++ es ++ es'). rewrite He, Hq, <- !app_assoc.
      split; [done|]. split.
      * by rewrite !sent_app, (quiet_sent es0), (quiet_sent es), Hs1.
      * by rewrite !service_indications_app, (quiet_indications es0), (quiet_indications es), Hs2.
    + by rewrite Hl.
    + unfold request in *. by rewrite Hb, Hl.
  - wp_step. split; [by apply stable_log|]. right. left. split_and!; try done.
    exists es. cbn. by rewrite Ht.
Qed.

(** One message of a tester, in a state that can take one. *)
Section Message.
Variables (a : AddrInfo) (msg : DiagMsg) (m : Mgr) (sid : Z).
Hypotheses (Hready : ready m) (Hmsg : message_ok msg) (Hsid : at_ (dataPtr msg) 0 = Some sid)
  (Hsome : 1 <= dataLen msg).

Let Hst : stable m.
Proof. by destruct Hready; split_and!. Qed.

(** The state once the request has been copied to the receive buffer. *)
Definition stored : Mgr :=
  m <| addrInfo := a |> <| recvBuf := splice (recvBuf m) 0 (received msg) |>
    <| recvDataLen := u16 (dataLen msg) |> <| sendDataLen := 0 |>.

Lemma answered_handled m0 m' data :
  stable m0 -> readyToRecvData m0 = readyToRecvData m ->
  (exists es, trace m0 = trace m ++ es /\ Forall quiet es) ->
  answers m0 m' (reply_to a) data -> response_to sid data -> stable m' /\ handled env a msg m m'.
Proof.
  intros Hst0 Hr0 (es0 & Ht0 & Hq0) Hans Hresp. split; [by eapply stable_answers|].
  eapply (Responded _ _ _ _ _ sid data); [done..| |].
  - destruct (answers_one _ _ _ _ Hans) as (es & Ht & Hone).
    apply (emits_log m m' es0); [done|]. exists es. cbn. by rewrite Ht, Ht0.
  - by rewrite (answers_ready _ _ _ _ Hans).
Qed.

Lemma refused_handled nrc :
  wp (SendNRC env sid nrc a;; mret tt) (fun _ m' => stable m' /\ handled env a msg m m') m.
Proof.
  wp_step. eapply wp_conseq; [by apply SendNRC_spec, Hst|]. intros r m' [-> Hans]. wp_step.
  eapply (answered_handled m); [done|done| |done|apply response_negative]. exists []. by rewrite app_nil_r.
Qed.

Lemma tester_present_handled : sid = TESTER_PRESENT_REQUEST_ID ->
  wp (r ← GeneralServerResp env a TESTER_PRESENT_REQUEST_ID;
      when (negb (bool_decide (r = LE_OK)))
        (originSubFunc ← demand (at_ (dataPtr msg) 1) OutOfBounds;
         TesterPresentResp env originSubFunc (u16 (dataLen msg)) a;;
         mret tt)) (fun _ m' => stable m' /\ handled env a msg m m') m.
Proof.
  intros Hs. rewrite <- Hs. destruct Hst as (Hwf & Hao & _), Hmsg as [_ _ Htp]. wp_step.
  eapply wp_conseq; [by apply GeneralServerResp_spec|].
  intros r m1 [[-> (nrc & es & Hes & Hans)]|(-> & (es & -> & Hes) & _)]; wp_step; try done.
  { eapply (answered_handled (log m es)); [by apply stable_log|done|by exists es|done|apply response_negative]. }
  wp_step. destruct (at_ (dataPtr msg) 1) as [b|] eqn:Hb.
  2: { rewrite <- Hs in Htp. specialize (Htp Hsid). apply lookup_ge_None in Hb. lia. }
  eapply (wp_demand _ _ b); [done|]. wp_step.
  eapply wp_conseq; [by apply TesterPresentResp_spec; [apply wf_log|]|].
  intros r m1 [(data & Hresp & Hans)|((es1 & -> & Hes1) & Hsup)]; wp_step.
  - eapply (answered_handled (log m es)); [by apply stable_log|done|by exists es|done|by rewrite Hs].
  - rewrite log_app. split; [by apply stable_log|]. apply Silent; [|done|].
    + exists (es ++ es1). split; [done|by apply Forall_app].
    + right. right. exists sid. split; [done|]. right. split; [done|]. by exists b.
Qed.

Lemma received_length : Z.of_nat (length (received msg)) = Z.min (dataLen msg) UDS_MAX_DATA_SIZE.
Proof. destruct Hmsg as [? _ _]. unfold received. rewrite length_take. lia. Qed.

Lemma received_head : exists rest, received msg = sid :: rest.
Proof.
  pose proof Hsid as Hs. unfold received. destruct (dataPtr msg) as [|b l]; [done|].
  injection Hs as ->. destruct (Z.to_nat (Z.min _ _)) eqn:En; [lia|]. cbn. eauto.
Qed.

Lemma stored_recvBuf : recvBuf stored = received msg ++ drop (length (received msg)) (recvBuf m).
Proof. done. Qed.

Lemma stored_ready : ready stored.
Proof.
  pose proof received_length as Hl. destruct Hready as [[] ? ? ?], Hmsg as [_ Hb _].
  split; try done. split; try done.
  - rewrite stored_recvBuf, length_app, length_drop. lia.
  - by apply wrap_in_width.
  - rewrite stored_recvBuf. apply Forall_app. split; [by apply Forall_take|by apply Forall_drop].
Qed.

Lemma store_request {A} (k : M Mgr A) (Q : A -> Mgr -> Prop) :
  wp k Q stored ->
  wp (addrInfo ::= a;;
      bytes ← demand (slice (dataPtr msg)
                        (if dataLen msg <? UDS_MAX_DATA_SIZE then dataLen msg
                         else UDS_MAX_DATA_SIZE)) OutOfBounds;
      cpy recvBuf 0 bytes;;
      recvDataLen ::= u16 (dataLen msg);;
      sendDataLen ::= 0;; k) Q m.
Proof.
  intros HQ. destruct Hst as (Hwf & _), Hmsg as [Hlen _ _]. pose proof (wf_recvBuf _ Hwf).
  pose proof received_length as Hl. wp_step. apply wp_assign_. wp_step.
  assert (Hrec : (if dataLen msg <? UDS_MAX_DATA_SIZE then dataLen msg else UDS_MAX_DATA_SIZE) =
    Z.min (dataLen msg) UDS_MAX_DATA_SIZE) by (destruct (Z.ltb_spec (dataLen msg) UDS_MAX_DATA_SIZE); lia).
  rewrite Hrec. eapply (wp_demand _ _ (received msg)).
  { unfold slice. rewrite decide_True; [done|lia]. }
  wp_step. apply wp_cpy; [lia|change (recvBuf (m <| addrInfo := a |>)) with (recvBuf m); lia|].
  wp_step. apply wp_assign_. wp_step. by apply wp_assign_.
Qed.

Lemma buffered_handled es m' : Forall quiet es -> readyToRecvData m = true -> isPaused m = false ->
  buffered sid a (log stored es) m' -> stable m' /\ handled env a msg m m'.
Proof.
  intros Hes Hr0 Hpaused [Hst' Hb]. split; [done|].
  destruct Hb as [(Hr & data & Hresp & He)|[(Hr & Hq & -> & Hf)|(Hr & He & Hp & Hl & Hpass)]].
  - eapply Responded; [done|done| |done]. by apply (emits_log m m' es).
  - apply Silent; [|done|].
    + destruct Hq as (es' & Hq & Hqq). exists (es ++ es'). cbn in Hq. rewrite Hq, <- app_assoc.
      split; [done|by apply Forall_app].
    + right. right. exists 34. auto.
  - eapply (Forwarded _ _ _ _ _ sid); try done.
    + destruct He as (es' & He & H1 & H2). exists (es ++ es'). cbn in He. rewrite He, <- app_assoc.
      split; [done|]. split; [by rewrite sent_app, (quiet_sent es), H1|].
      by rewrite service_indications_app, (quiet_indications es), H2.
    + intros Hle. assert (Hreq : request (log stored es) = received msg); [|by rewrite <- Hreq].
      unfold request. change (recvDataLen (log stored es)) with (u16 (dataLen msg)).
      change (recvBuf (log stored es)) with (recvBuf stored). pose proof received_length.
      rewrite stored_recvBuf, wrap_id by (unfold in_width; lia).
      rewrite take_app_le by lia. apply take_ge. lia.
Qed.

Lemma stored_handled : active_when_unlocked m -> pattern_rows (config env) ->
  readyToRecvData m = true -> isPaused m = false ->
  wp (r ← GeneralServerResp env a sid;
      if bool_decide (r = LE_OK) then mret tt else
      ret ← dispatch env sid a;
      if negb (bool_decide (ret = LE_OK)) then mret tt else
      after_dispatch env sid a) (fun _ m' => stable m' /\ handled env a msg m m') stored.
Proof.
  intros Hact Hrows Hr0 Hpaused. pose proof stored_ready as Hr1. wp_step.
  eapply wp_conseq; [apply GeneralServerResp_spec; apply Hr1|].
  intros r m2 [[-> (nrc & es & Hes & Hans)]|(-> & Hlogs & Hperm)].
  { wp_step; [|done]. wp_step. eapply (answered_handled (log stored es));
      [|done|by exists es|done|apply response_negative]. apply stable_log. by destruct Hr1; split_and!. }
  wp_step; [done|]. wp_step.
  assert (Hready2 : ready m2) by (by eapply only_logs_ready).
  destruct Hlogs as (es & -> & Hes).
  eapply wp_conseq; [apply (dispatch_checked sid a); try done|].
  { cbn. destruct received_head as [rs Hrs]. by rewrite Hrs. }
  intros r m3 Hck. assert (r = LE_OK) as -> by apply Hck. rewrite bool_decide_true by done.
  eapply wp_conseq; [by eapply after_dispatch_spec|]. intros [] m'. by apply buffered_handled.
Qed.
End Message.

Lemma request_received_spec a msg m :
  ready m -> active_when_unlocked m -> pattern_rows (config env) -> message_ok msg ->
  wp (request_received env a msg) (fun _ m' => stable m' /\ handled env a msg m m') m.
Proof.
  intros Hrdy Hact Hrows Hmsg. pose proof Hmsg as [Hlen _ _].
  assert (Hst : stable m) by (by destruct Hrdy; split_and!). unfold request_received.
  assert (Hsilent : silent_reason env a msg m -> stable m /\ handled env a msg m m).
  { intros. split; [done|]. apply Silent; [apply quietly_refl|done|done]. }
  wp_step; [wp_step; apply Hsilent; left; lia|]. wp_step.
  destruct (at_ (dataPtr msg) 0) as [sid|] eqn:Hat; [|apply lookup_ge_None in Hat; lia].
  eapply (wp_demand _ _ sid); [done|]. wp_step.
  { wp_step. apply Hsilent. right. right. exists sid. split; [done|]. left.
    apply andb_true_iff in Hif0 as [Hf Hn]. apply bool_decide_eq_true in Hf.
    apply negb_true_iff in Hn. auto. }
  do 2 wp_step. wp_step; [wp_step; apply Hsilent; right; by left|].
  apply wp_if; intros Htpr; [|apply wp_if; intros Hpaused; [|apply wp_if; intros Hbusy]].
  - eapply tester_present_handled; try done; by apply Z.eqb_eq.
  - eapply refused_handled; done || lia.
  - eapply refused_handled; done || lia.
  - apply negb_false_iff in Hbusy. eapply store_request; [done..|lia|].
    eapply stored_handled; done || lia.
Qed.

(** The indication of the DoIP stack, to the object of its interface. *)
Lemma DiagIndicationHandler_spec a msg m :
  pattern_rows (config env) -> stable m -> active_when_unlocked m -> message_ok msg ->
  ifName a = interface m ->
  wp (DiagIndicationHandler env a (Some msg) DOIP_RESULT_OK)
    (fun _ m' => stable m' /\ handled env a msg m m') m.
Proof.
  intros Hrows (Hwf & Hao & Hst) Hact Hmsg Hname. unfold DiagIndicationHandler, with_instance.
  do 2 wp_step. rewrite bool_decide_true by done. cbn [when]. wp_step. apply wp_assign_.
  rewrite bool_decide_true by done. cbn [negb].
  set (m1 := m <| isInternalHandle := true |>).
  assert (Hr : ready m1) by (destruct Hwf; by split).
  eapply wp_conseq; [by apply (request_received_spec a msg m1)|].
  intros [] m' [Hs Hh]. split; [done|].
  destruct Hh as [Hq Hrd Hsil|sid data Hat Hresp He Hrd|sid Hat He Hrd Hrd' Hp Hperm Hl Hpass].
  - by apply Silent.
  - by eapply Responded.
  - by eapply (Forwarded _ _ _ _ _ sid).
Qed.
End Handler.

(** ** Roles and levels *)

(** The tester is authenticated with one of the roles, or none is required. *)
Definition role_allowed (env : Env) (m : Mgr) (roles : list string) : Prop :=
  roles = [] \/ (authState m = AUTH_STATE_AUTHENTICATED /\ exists name v,
    name ∈ roles /\ amap_find (get_authentication_roles (config env)) name = Some v /\
    Z.land v (currentRoleVal m) <> 0).

(** The level with an identifier is unlocked in the current session. *)
Definition level_unlocked (m : Mgr) (id : Z) : Prop :=
  exists i p l, current_session (mSecurityAccess m) = Some i /\ unlocked_in m i p /\
    deref_level (session_list (mSecurityAccess m)) p = Some l /\ u8 (Security_Level l) = id.

(** The security requirement of an accessibility entry: one of its levels is unlocked, and
    the names listed before it are configured. *)
Definition clause_satisfied (env : Env) (m : Mgr) (sl : SecurityLevel) : Prop :=
  SessionType m <> DEFAULT_SESSION -> sl_security sl = true ->
  exists before name after id, sl_security_level sl = before ++ name :: after /\
    (forall n, n ∈ before -> exists id', get_security_level_id (config env) n = Returns id') /\
    get_security_level_id (config env) name = Returns id /\ level_unlocked m id.

Section Levels.
Variable env : Env.
Variable m : Mgr.
Hypothesis Hao : ao_ok (mSecurityAccess m).

Lemma role_matched_spec roles :
  wp (IsAuthRoleMatchedImpl env roles) (fun b m' => m' = m /\ (b = true <-> role_allowed env m roles)) m.
Proof.
  unfold IsAuthRoleMatchedImpl. do 2 wp_step. destruct roles as [|n roles].
  { wp_step. split; [done|]. unfold role_allowed. naive_solver. }
  wp_step. split; [done|]. set (rs := n :: roles).
  rewrite andb_true_iff, bool_decide_eq_true, existsb_exists. unfold role_allowed. split.
  - intros [(name & Hin & Hv) Ha]. right. split; [done|].
    destruct (amap_find _ name) as [v|] eqn:E; [|done]. exists name, v.
    split_and!; [by apply list_elem_of_In|done|]. apply negb_true_iff in Hv. lia.
  - intros [|[Ha (name & v & Hin & Hf & Hv)]]; [done|]. split; [|done].
    exists name. split; [by apply list_elem_of_In|]. rewrite Hf. apply negb_true_iff. lia.
Qed.

Lemma level_unlocked_spec id :
  wp (SecurityAccess_IsLevelUnlocked id) (fun b m' => m' = m /\ (b = true <-> level_unlocked m id)) m.
Proof.
  destruct (ok_current _ Hao) as (i & s & Hi & Hs). unfold SecurityAccess_IsLevelUnlocked.
  wp_step. eapply wp_current; [exact Hi|exact Hs|]. cbn [snd].
  destruct (unlocked_level s) as [p|] eqn:Ep.
  - destruct (ok_deref _ _ _ _ Hao Hs (or_intror Ep)) as (l & Hl & _).
    wp_step. apply wp_self. wp_step. eapply wp_demand; [exact Hl|]. wp_step. split; [done|].
    rewrite Z.eqb_eq. split.
    + intros ->. exists i, p, l. split_and!; try done. by exists s.
    + intros (i' & p' & l' & Hi' & (s' & Hs' & Hp') & Hl' & <-). unfold session_of in *. by simplify_eq.
  - wp_step. split; [done|]. split; [done|].
    intros (i' & p' & l' & Hi' & (s' & Hs' & Hp') & _). unfold session_of in *. simplify_eq.
Qed.

(** A level of the list is found before any unknown name. *)
Lemma any_level_unlocked_spec names :
  wp (any_level_unlocked env names) (fun r m' => m' = m /\ (r = Returns true <->
    exists before name after id, names = before ++ name :: after /\
      (forall n, n ∈ before -> exists id', get_security_level_id (config env) n = Returns id') /\
      get_security_level_id (config env) name = Returns id /\ level_unlocked m id)) m.
Proof.
  induction names as [|n names IH]; cbn [any_level_unlocked].
  { wp_step. split; [done|]. split; [done|]. by intros ([] & ? & ? & ? & ? & _). }
  destruct (get_security_level_id (config env) n) as [id|e] eqn:E.
  - wp_step. eapply wp_conseq; [apply level_unlocked_spec|]. intros [] m' [-> Hb].
    + wp_step. split; [done|]. split; [intros _|done]. exists [], n, names, id.
      split_and!; [done|set_solver|done|by apply Hb].
    + eapply wp_conseq; [exact IH|]. intros r m' [-> Hr]. split; [done|]. rewrite Hr. split.
      * intros (before & name & after & id' & -> & Hk & Hid & Hu).
        exists (n :: before), name, after, id'. split_and!; [done| |done|done].
        intros n' [->|Hin]%elem_of_cons; eauto.
      * intros ([|n' before] & name & after & id' & Heq & Hk & Hid & Hu).
        -- cbn in Heq. simplify_eq. assert (id' = id) as -> by congruence. by apply Hb in Hu.
        -- cbn in Heq. simplify_eq. exists before, name, after, id'. split_and!; try done.
           intros n1 Hin. apply Hk. by right.
  - wp_step. split; [done|]. split; [done|].
    intros ([|n' before] & name & after & id' & Heq & Hk & Hid & Hu); cbn in Heq; injection Heq as <- _.
    { congruence. }
    destruct (Hk n) as [? ?]; [by left|]. congruence.
Qed.

Lemma security_clause_spec sl :
  wp (security_clause env sl) (fun r m' => m' = m /\ (r = Returns true <-> clause_satisfied env m sl)) m.
Proof.
  unfold security_clause, clause_satisfied. do 2 wp_step.
  apply wp_if; intros Hc.
  - apply andb_true_iff in Hc as [Hs Hl].
    eapply wp_conseq; [apply any_level_unlocked_spec|]. intros r m' [-> Hr]. split; [done|].
    rewrite Hr. split; [auto|]. intros H. apply H; [lia|done].
  - wp_step. split; [done|]. split; [|done]. intros _ Hs Hl. rewrite Hl, andb_true_r in Hc. lia.
Qed.
End Levels.

(** ** Writing a data identifier *)

(** What the sources require of a write. *)
Record write_permitted (env : Env) (m : Mgr) (did : Z) (entry : DidEntry) (access : DiagnosticSession)
    (clause : SecurityLevel) : Prop := mkWritePermitted {
  wr_known : get_did_entry (config env) did = Returns entry;
  wr_supported : sf_write_did (did_supported_functions entry) = true;
  wr_session : did_session_access env entry m = Returns access;
  wr_clause : exists name rest, ds_W access = (name, clause) :: rest;
  wr_size : did_size (did_implementation entry) = recvDataLen m - 3;
  wr_length : 4 <= recvDataLen m <= UDS_DATA_SIZE;
  wr_role : role_allowed env m (did_write_role entry);
  wr_unlocked : clause_satisfied env m clause;
  wr_value : is_forbidden (config env) did (take (Z.to_nat (recvDataLen m - 3)) (drop 3 (recvBuf m)))
    <> Returns true }.

Lemma refused_verdict env sid nrc a m (P : Prop) :
  S3Representable (config env) -> wf m -> isInternalHandle m = true -> ~ P ->
  wp (SendNRC env sid nrc a) (fun _ m' => isInternalHandle m' = false <-> P) m.
Proof.
  intros HS Hwf Hi HP. eapply wp_conseq; [by apply SendNRC_spec|]. intros r m' (_ & Hc & _).
  pose proof (f_equal isInternalHandle Hc) as H. cbn in H. split; [congruence|done].
Qed.

Lemma accept_verdict m (P : Prop) :
  P -> wp accept (fun _ m' => isInternalHandle m' = false <-> P) m.
Proof. intros HP. unfold accept. wp_step. apply wp_assign_. by wp_step. Qed.

(** Two results of one call are the same. *)
Ltac same_return :=
  repeat match goal with
  | H : ?t = Returns ?x, H' : ?t = Returns ?y |- _ =>
      rewrite H in H'; injection H' as <-
  end.

Lemma write_did_verdict env a m :
  S3Representable (config env) -> ready m ->
  wp (IndicateWriteDIDReq env a) (fun _ m' => isInternalHandle m' = false <->
    exists entry access clause,
      write_permitted env m (did_of (did_pair m 0)) entry access clause) m.
Proof.
  intros HS Hr. pose proof (rd_wf _ Hr) as Hwf. pose proof (wf_recvBuf _ Hwf) as Hl.
  pose proof (rd_ao _ Hr) as Hao. set (did := did_of (did_pair m 0)).
  set (P := exists entry access clause, write_permitted env m did entry access clause).
  assert (Hrej : forall sid nrc, ~ P -> wp (SendNRC env sid nrc a)
    (fun _ m' => isInternalHandle m' = false <-> P) m).
  { intros sid nrc HP. apply refused_verdict; [done..|by apply Hr|done]. }
  unfold IndicateWriteDIDReq. wp_step. apply wp_rd_byte; [done|lia|]. wp_step. apply wp_assign_.
  rewrite (ready_internal m Hr). do 2 wp_step.
  apply wp_if; intros H1; [apply Hrej; intros (? & ? & ? & []); lia|]. unfold rd_did. do 2 wp_step.
  apply wp_rd_byte; [done|lia|]. wp_step. apply wp_rd_byte; [done|lia|]. wp_step.
  change (u16 (Z.shiftl (byte m 1) 8 + byte m (1 + 1))) with did.
  destruct (get_did_entry (config env) did) as [entry|] eqn:He;
    [|apply Hrej; intros (? & ? & ? & []); congruence].
  apply wp_if; intros H2; [apply Hrej; intros (? & ? & ? & []); same_return; by rewrite wr_supported0 in H2|].
  destruct (did_session_access env entry m) as [access|] eqn:Ha;
    [|apply Hrej; intros (? & ? & ? & []); simplify_eq; congruence].
  destruct (ds_W access) as [|[name clause] rest] eqn:Hw;
    [apply Hrej; intros (? & ? & ? & []); same_return; destruct wr_clause0 as (? & ? & ?); congruence|].
  apply wp_if; intros H3; [apply Hrej; intros (? & ? & ? & []); lia|].
  apply wp_if; intros H4; [apply Hrej; intros (? & ? & ? & []); same_return; lia|].
  wp_step. change (IsAuthRoleMatched_did env WRITE_DID_REQUEST_ID entry)
    with (IsAuthRoleMatchedImpl env (did_write_role entry)).
  eapply wp_conseq; [by apply role_matched_spec|]. intros [] m' [-> Hrole];
    [|apply Hrej; intros (? & ? & ? & []); same_return; by apply Hrole in wr_role0].
  cbn [negb]. wp_step. eapply wp_conseq; [by apply security_clause_spec|].
  assert (Hclause : forall b : throws bool, (b = Returns true <-> clause_satisfied env m clause) ->
    b <> Returns true -> ~ P).
  { intros b Hb Hne (e & acc & cl & []). same_return. destruct wr_clause0 as (n' & r' & Hw').
    rewrite Hw in Hw'. injection Hw' as _ <- _. by apply Hne, Hb. }
  intros [[]|] m' [-> Hcl]; [|by apply Hrej, (Hclause _ Hcl)|by apply Hrej, (Hclause _ Hcl)].
  wp_step. apply wp_slice; [rewrite length_drop; lia|]. intros d Hd.
  assert (Hdd : d = take (Z.to_nat (recvDataLen m - 3)) (drop 3 (recvBuf m))).
  { unfold slice in Hd. case_decide; [|done]. by simplify_eq. }
  apply wp_if; intros H5.
  - apply Hrej. intros (? & ? & ? & []). apply wr_value0. rewrite <- Hdd.
    destruct (is_forbidden _ _ d); [by rewrite <- H5|done].
  - apply accept_verdict. exists entry, access, clause. split; try done; try lia.
    + by apply negb_false_iff.
    + eauto.
    + by apply Hrole.
    + by apply Hcl.
    + rewrite <- Hdd. intros Hf. by rewrite Hf in H5.
Qed.

(** ** Reading data identifiers *)

(** What the sources require of an identifier that is read. *)
Record read_permitted (env : Env) (m : Mgr) (did : Z) (entry : DidEntry) (access : DiagnosticSession)
    (clause : SecurityLevel) : Prop := mkReadPermitted {
  re_known : get_did_entry (config env) did = Returns entry;
  re_supported : sf_read_did (did_supported_functions entry) = true;
  re_session : did_session_access env entry m = Returns access;
  re_clause : exists name rest, ds_R access = (name, clause) :: rest;
  re_role : role_allowed env m (did_read_role entry);
  re_unlocked : clause_satisfied env m clause }.

Lemma read_did_check_spec env did m :
  ao_ok (mSecurityAccess m) ->
  wp (read_did_check env did) (fun v m' => m' = m /\ (v = DidInclude <->
    exists entry access clause, read_permitted env m did entry access clause)) m.
Proof.
  intros Hao. set (P := exists entry access clause, read_permitted env m did entry access clause).
  assert (Hno : forall v, v <> DidInclude -> ~ P -> m = m /\ (v = DidInclude <-> P)) by tauto.
  unfold read_did_check. do 2 wp_step.
  destruct (get_did_entry (config env) did) as [entry|] eqn:He;
    [|wp_step; apply Hno; [done|intros (? & ? & ? & []); congruence]].
  apply wp_if; intros Hsup.
  { wp_step. apply Hno; [done|]. intros (? & ? & ? & []). same_return. by rewrite re_supported0 in Hsup. }
  destruct (did_session_access env entry m) as [access|] eqn:Ha;
    [|wp_step; apply Hno; [done|intros (? & ? & ? & []); simplify_eq; congruence]].
  destruct (ds_R access) as [|[name clause] rest] eqn:Hr.
  { wp_step. apply Hno; [done|]. intros (? & ? & ? & []). same_return.
    destruct re_clause0 as (? & ? & ?). congruence. }
  wp_step. change (IsAuthRoleMatched_did env READ_DID_REQUEST_ID entry)
    with (IsAuthRoleMatchedImpl env (did_read_role entry)).
  eapply wp_conseq; [by apply role_matched_spec|]. intros [] m' [-> Hrole]; cbn [negb].
  2: { wp_step. apply Hno; [done|]. intros (? & ? & ? & []). same_return. by apply Hrole in re_role0. }
  wp_step. eapply wp_conseq; [by apply security_clause_spec|]. intros v m' [-> Hcl]. wp_step. split; [done|].
  transitivity (v = Returns true); [by destruct v as [[]|]|]. rewrite Hcl. split.
  - intros Hs. exists entry, access, clause. split; try done; [by apply negb_false_iff|by eauto|by apply Hrole].
  - intros (? & ? & ? & []). same_return.
    destruct re_clause0 as (? & ? & Hw). rewrite Hr in Hw. by injection Hw as _ -> _.
Qed.

(** The identifiers that are passed on are the requested ones that may be read. *)
Lemma included_permitted env a m p : ao_ok (mSecurityAccess m) ->
  p ∈ included_dids env a m <-> p ∈ requested_dids m /\
    (taType a = TA_FUNCTIONAL -> IsDidFunctionalAddressed (config env) (did_of p) = true) /\
    exists entry access clause, read_permitted env m (did_of p) entry access clause.
Proof.
  intros Hao. unfold included_dids. rewrite list_elem_of_filter, (and_comm _ (p ∈ _)). apply and_iff_compat_l.
  unfold did_included, did_considered. rewrite andb_true_iff, negb_true_iff, andb_false_iff, negb_false_iff,
    bool_decide_eq_false. f_equiv.
  - destruct (decide (taType a = TA_FUNCTIONAL)); naive_solver.
  - pose proof (read_did_check_spec env (did_of p) m Hao) as Hs. unfold did_verdict_of. unfold wp in Hs.
    destruct (read_did_check env (did_of p) m) as [[v m']|]; [|done]. destruct Hs as [_ <-].
    by destruct v.
Qed.
