(* ===== verification/Sample.v ===== *)
(** * A small configuration, for the concrete runs

    Two sessions (default 0x01 and extended 0x03), one security level (seed request
    0x01, at most three attempts), the services of the diagnostic stack and one data
    identifier, and a manager that has just received a request. *)
From Stdlib Require Import SpecFloat.
From S2P Require Import Prelude Ieee DiagCfg UdsTypes UdsSend SecAccess SecAccessSpec.

Definition any_access : Access := mkAccess [] 0 [].
Definition plain_sub : SubFunction := mkSubFunction true false "" any_access.
Definition service (subs : list Z) : ServiceEntry :=
  mkServiceEntry true false true false "" any_access ((fun z => (to_string z, plain_sub)) <$> subs).

Definition level_A : SessionSecurLvlEntry :=
  mkSessionSecurLvlEntry "LevelA" 1 128 3 10 128 "" false 1.
Definition level_B : SessionSecurLvlEntry :=
  mkSessionSecurLvlEntry "LevelB" 3 128 3 10 128 "" false 3.

Definition sample_did : DidEntry :=
  mkDidEntry 0xF190 (mkImplementation 2 "big" [])
    (mkSupportedFunctions true true false false false (mkIoControlDescription false false false false))
    (mkDidAccessibility "" "" "" []
       [("Extended", mkDiagnosticSession [("r", mkSecurityLevel false [])]
                       [("w", mkSecurityLevel true ["LevelA"])] [])])
    [] [] (mkEnableConditionData [] []) true.

Definition sample_conf : DiagConf :=
  {| did_all := [(0xF190, sample_did)];
     services_all :=
       [(to_string 0x10, service [1; 3]); (to_string 0x11, service [1]);
        (to_string 0x22, service []); (to_string 0x27, service [1; 2; 3; 4]);
        (to_string 0x2E, service []); (to_string 0x36, service []);
        (to_string 0x38, service []); (to_string 0x3E, service [0])];
     auth_anti_conf := [];
     session_secur_level := [("LevelA", level_A); ("LevelB", level_B)];
     diag_session :=
       [("Default", mkDiagSessionEntry "Default" 1 (double_lit 5 2) (double_lit 5 0) ""
                      (double_lit 5 0) "");
        ("Extended", mkDiagSessionEntry "Extended" 3 (double_lit 5 2) (double_lit 5 0) ""
                       (double_lit 5 0) "")];
     secur_binding := [("b", mkSecurBindingEntry 3 [("LevelA", level_A); ("LevelB", level_B)])];
     routines_all := [];
     routine_parameters_all := [];
     auth_roles := [];
     io_all := [];
     common_props := mkCommonProps 3 "" (double_lit 5 0) true 0xFF |}.

Definition sample_config : Config :=
  {| diagConf := sample_conf;
     pattern_maps := [];
     is_forbidden := fun _ _ => Returns false;
     validate_base_record := fun _ _ => Throws runtime_error |}.

(** Nothing runs and everything is sent; [running] says whether the timers run. *)
Definition sample_env_with (running : bool) : Env :=
  {| config := sample_config;
     featureA := false;
     doip_DiagRequest := fun _ => LE_OK;
     timer_IsRunning := fun _ _ => running;
     timer_GetMsTimeRemaining := fun _ _ => 0;
     timer_GetExpiryCount := fun _ _ => 0;
     cfg_GetInt := fun _ _ => None |}.
Definition sample_env : Env := sample_env_with false.

#[export] Instance sample_s3 running : S3Representable (config (sample_env_with running)).
Proof. eexists. vm_compute. reflexivity. Defined.

(** Every session of the configuration has the same intervals. *)
Lemma sample_session session e :
  get_diagnostic_session sample_config session = Returns e ->
  p2_server_max e = double_lit 5 2 /\ p2_start_server_max e = double_lit 5 0.
Proof.
  unfold get_diagnostic_session. destruct (list_find _ _) as [[i p]|] eqn:Ef; [|done].
  intros [= <-]. apply list_find_Some in Ef as (Hi & _). apply list_elem_of_lookup_2 in Hi.
  cbn in Hi. rewrite !elem_of_cons, elem_of_nil in Hi. by destruct Hi as [->|[->|[]]].
Qed.

(** A buffer that starts with some bytes. *)
Definition buf (bs : list Z) : list Z :=
  bs ++ replicate (Z.to_nat UDS_MAX_DATA_SIZE - length bs) 0.

Lemma length_buf bs : Z.of_nat (length bs) <= UDS_MAX_DATA_SIZE ->
  Z.of_nat (length (buf bs)) = UDS_MAX_DATA_SIZE.
Proof. intros. unfold buf. rewrite length_app, length_replicate. lia. Qed.
Lemma buf_bytes bs : Forall is_byte bs -> Forall is_byte (buf bs).
Proof. intros. apply Forall_app. split; [done|]. by apply Forall_replicate. Qed.

Definition tester : AddrInfo := mkAddrInfo 0x0E80 0x1000 TA_PHYSICAL 1 "eth0".

(** The object after its initial transition, in the session at position [i]. *)
Definition sample_ao (st : SecAccState) (i : nat) : AO_SecurityAccess :=
  (AO_SecurityAccess_ctor sample_config "eth0") <| current_session := Some i |> <| state_fn := st |>.

(** A manager in a session, about to handle or answer [req]. *)
Definition sample_mgr (session : Z) (a : AO_SecurityAccess) (req : list Z) : Mgr :=
  mkMgr 0 LE_OK tester a (buf req) (buf []) [0; 0; 0] (Z.of_nat (length req)) 0 0
    (default 0 (req !! 0%nat)) (default 0 (req !! 1%nat)) true false "eth0" 1 OFF session 0
    AUTH_STATE_UNKNOWN false tester AUTH_SUBFUNC_UNKNOWN 0 AUTH_DEFAULT_DELAY_TIME 0 false [] true 0 [].

Lemma sample_mgr_wf session a req :
  Z.of_nat (length req) <= UDS_MAX_DATA_SIZE -> Forall is_byte req -> wf (sample_mgr session a req).
Proof.
  intros H Hb. split; cbn; [by apply length_buf|by apply (length_buf [])|done|lia|lia|lia|].
  by apply buf_bytes.
Qed.

(** The same manager, whose answer goes to [to]. *)
Definition sample_mgr_to (to : AddrInfo) (session : Z) (a : AO_SecurityAccess) (req : list Z) : Mgr :=
  (sample_mgr session a req) <| udsRespAddrInfo := to |>.

Lemma sample_mgr_to_wf to session a req :
  Z.of_nat (length req) <= UDS_MAX_DATA_SIZE -> Forall is_byte req -> wf (sample_mgr_to to session a req).
Proof. intros H Hb. by destruct (sample_mgr_wf session a req H Hb); split. Qed.

Lemma sample_ao_ok st i :
  (i < 2)%nat -> waiting_for_key st = false -> ao_ok (sample_ao st i).
Proof.
  intros Hi Hst. split.
  - destruct i as [|[|]]; [eexists 0%nat, _|eexists 1%nat, _|lia]; done.
  - by eexists.
  - intros [|[|[]]] s p; cbn; intros; simplify_eq; by destruct_or?.
  - intros [|[|[]]] s l Hs Hl; cbn in *; simplify_eq; [|set_solver].
    do 2 (apply elem_of_cons in Hl as [->|Hl]; [by split; vm_compute|]). by apply not_elem_of_nil in Hl.
  - cbn. by rewrite Hst.
Qed.

(** The object with the first level of the extended session unlocked. *)
Definition unlocked_ao : AO_SecurityAccess :=
  let a := sample_ao UnlockedNoActiveSeed 0 in
  a <| session_list := (fun s => if session_id s =? 3
         then s <| active_level := Some (0%nat, 0%nat) |> <| unlocked_level := Some (0%nat, 0%nat) |>
         else s) <$> session_list a |>.

Lemma unlocked_ao_ok : ao_ok unlocked_ao.
Proof.
  split.
  - by eexists 0%nat, _.
  - by eexists.
  - intros [|[|[]]] s p Hs Hp; vm_compute in Hs; simplify_eq; cbn in Hp; destruct_or?; simplify_eq;
      by eexists.
  - intros [|[|[]]] s l Hs Hl; cbn in *; simplify_eq; [|set_solver].
    do 2 (apply elem_of_cons in Hl as [->|Hl]; [by split; vm_compute|]). by apply not_elem_of_nil in Hl.
  - done.
Qed.
