(* ===== verification/SecAccessThms.v ===== *)
(** * Security access: the properties

    The theorems about the state machine of service 0x27, each followed by a run on
    the sample configuration where it has hypotheses. *)
From S2P Require Import Prelude DiagCfg UdsTypes UdsSend SecAccess SecAccessSpec SecAccessResp.
From S2P Require Import Sample.

(** Events, one after the other, as the security-access thread takes them. *)
Fixpoint run_events (env : Env) (evs : list (SecAccReport_t * (Mgr -> Mgr))) : M Mgr unit :=
  match evs with
  | [] => mret tt
  | (ev, prepare) :: evs' =>
      modify prepare;; SecurityAccessEventHandler env ev;; run_events env evs'
  end.

(** A request of the tester, and the answer of the service with a code. *)
Definition tester_asks (sub : Z) (sig : SecAccSignal_t) : SecAccReport_t * (Mgr -> Mgr) :=
  (mkReport sig true true, fun m => m <| recvSubFunc := sub |>).
Definition service_says (nrc : Z) (sig : SecAccSignal_t) : SecAccReport_t * (Mgr -> Mgr) :=
  (mkReport sig true false, fun m => m <| nrcCode := nrc |>).

(** C5: Only a good key unlocks. Whatever event the security-access thread handles, in
    whatever state, a level that is unlocked afterwards was unlocked before, unless the
    event is the service's verdict on a key, the verdict is positive, the machine was
    waiting for a key, and the level is the active level of the current session: the one
    the last accepted seed request asked for. *)
Theorem unlock_requires_valid_key (env : Env) (ev : SecAccReport_t) (m m' : Mgr) (i : nat)
    (p : LevelPtr) :
  SecurityAccessEventHandler env ev m = Done (tt, m') ->
  unlocked_in m' i p ->
  unlocked_in m i p \/
  (rtype ev = SEND_KEY_RESPONSE_SIG /\ nrcCode m = POSITIVE_RESPONSE /\
   waiting_for_key (state_fn (mSecurityAccess m)) = true /\
   current_session (mSecurityAccess m) = Some i /\ active_in m i p).
Proof.
  intros H Hu. destruct (dispatch_locks _ _ _ _ _ H) as (r & m1 & Hh & Hl).
  destruct (handler_unlocks _ _ _ _ _ _ Hh) as [Hk|(Ht & Hn & Hw & _ & _ & Hk)].
  - left. auto.
  - destruct (Hk _ _ (Hl _ _ Hu)) as [|[]]; [by left|right]. by split_and!.
Qed.

(** A manager with small buffers that waits for a verdict on a key of level A. *)
Definition waiting_mgr (code : Z) : Mgr :=
  let a := sample_ao LockedWaitingForKey 0 in
  (sample_mgr 3 (a <| session_list :=
     (fun s => s <| active_level := Some (0%nat, 0%nat) |>) <$> session_list a |>) [0x27; 0x02; 0x00])
    <| recvBuf := [0x27; 0x02; 0x00] |> <| sendBuf := [] |> <| nrcCode := code |>.
Definition key_verdict : SecAccReport_t := mkReport SEND_KEY_RESPONSE_SIG true false.

Lemma unlock_requires_valid_key_witness : exists m',
  SecurityAccessEventHandler sample_env key_verdict (waiting_mgr 0) = Done (tt, m') /\
  unlocked_in m' 0 (0%nat, 0%nat) /\
  (unlocked_in (waiting_mgr 0) 0 (0%nat, 0%nat) \/
   (rtype key_verdict = SEND_KEY_RESPONSE_SIG /\ nrcCode (waiting_mgr 0) = POSITIVE_RESPONSE /\
    waiting_for_key (state_fn (mSecurityAccess (waiting_mgr 0))) = true /\
    current_session (mSecurityAccess (waiting_mgr 0)) = Some 0%nat /\
    active_in (waiting_mgr 0) 0 (0%nat, 0%nat))).
Proof.
  eexists. split; [vm_compute; reflexivity|]. split; [eexists; split; reflexivity|].
  eapply (unlock_requires_valid_key sample_env); [vm_compute; reflexivity|]. eexists. split; reflexivity.
Defined.

(** C22: No event takes an attempt counter past the limit of its level, from the moment
    the counters have been loaded; in particular the 32-bit increment never wraps. *)
Theorem attempts_stay_bounded (env : Env) (ev : SecAccReport_t) (m m' : Mgr) :
  state_fn (mSecurityAccess m) <> State_initial ->
  SecurityAccessEventHandler env ev m = Done (tt, m') ->
  attempts_ok m -> attempts_ok m'.
Proof. intros Hst H. by eapply dispatch_bounds. Qed.

Lemma attempts_stay_bounded_witness : exists m',
  SecurityAccessEventHandler sample_env key_verdict (waiting_mgr INVALID_KEY) = Done (tt, m') /\
  attempts_ok (waiting_mgr INVALID_KEY) /\ attempts_ok m'.
Proof.
  assert (H : attempts_ok (waiting_mgr INVALID_KEY)).
  { intros [|[|[]]] s l Hs Hl; vm_compute in Hs; simplify_eq; cbn in Hl.
    - do 2 (apply elem_of_cons in Hl as [->|Hl]; [by split; vm_compute|]). by apply not_elem_of_nil in Hl.
    - by apply not_elem_of_nil in Hl. }
  eexists. split; [vm_compute; reflexivity|]. split; [exact H|].
  eapply (attempts_stay_bounded sample_env key_verdict (waiting_mgr INVALID_KEY));
    [discriminate|vm_compute; reflexivity|exact H].
Defined.

(** C26: A request of the tester (a seed or a key) is always completed: the handler runs
    into no undefined access and no abort, wakes the waiting thread exactly once, and either
    sends exactly one response or leaves the request to the service without sending
    anything; the invariant of the object holds again. The premise on the active level is
    what [unlocked_seed_request_crashes] violates. *)
Theorem tester_request_completed (env : Env) (sig : SecAccSignal_t) (m : Mgr) :
  S3Representable (config env) ->
  sig = REQUEST_SEED_SIG \/ sig = SEND_KEY_SIG ->
  wf m -> ao_ok (mSecurityAccess m) -> recvSid m = SECURITY_ACCESS_REQUEST_ID ->
  state_fn (mSecurityAccess m) <> State_initial ->
  (sig = REQUEST_SEED_SIG -> seed_answerable m) ->
  wp (SecurityAccessEventHandler env (tester_report sig))
    (fun _ m' => event_post m m' /\ state_fn (mSecurityAccess m') <> State_initial) m.
Proof. intros. by apply tester_request_post. Qed.

Lemma tester_request_completed_witness :
  let m := sample_mgr 3 (sample_ao LockedNoActiveSeed 0) [0x27; 0x01] in
  wp (SecurityAccessEventHandler sample_env (tester_report REQUEST_SEED_SIG))
    (fun _ m' => event_post m m' /\ state_fn (mSecurityAccess m') <> State_initial) m.
Proof.
  apply tester_request_completed; [apply sample_s3|by left|by apply sample_mgr_wf; [|repeat constructor]
    |apply sample_ao_ok; [lia|done]|reflexivity|discriminate|intros _ [=]].
Defined.

(** A change or a timeout of the session relocks. The event is handled without fault
    and the reporter, if any, is woken once; nothing is sent. Either the machine is in
    [LockedNoActiveSeed] in the session of the event, and the session that was left has
    neither an active nor an unlocked level, or a delay after failed attempts is pending,
    the machine was idle, and the event is remembered for the end of the delay. *)
Theorem session_change_relocks (env : Env) (sig : SecAccSignal_t) (woken internal : bool)
    (m : Mgr) :
  sig = SESSION_CONTROL_SIG \/ sig = SESSION_TIMEOUT_SIG ->
  wf m -> ao_ok (mSecurityAccess m) -> state_fn (mSecurityAccess m) <> State_initial ->
  is_Some (session_target sig m) ->
  wp (SecurityAccessEventHandler env (mkReport sig woken internal))
    (fun _ m' => session_post env sig woken m m') m.
Proof. intros. by apply session_change_handled. Qed.

Lemma session_change_relocks_witness :
  let m := sample_mgr 3 (sample_ao LockedNoActiveSeed 1) [0x10; 0x03] in
  wp (SecurityAccessEventHandler sample_env (mkReport SESSION_CONTROL_SIG true false))
    (fun _ m' => session_post sample_env SESSION_CONTROL_SIG true m m') m.
Proof.
  apply session_change_relocks; [by left|by apply sample_mgr_wf; [|repeat constructor]
    |apply sample_ao_ok; [lia|done]|discriminate|by eexists].
Defined.

(** A wrong key counts. When the service reports an invalid key while the machine waits
    for one, the counter of the active level grows by one, or is set to its limit when that
    is reached; the response code is 0x35 (invalid key) below the limit and 0x36 (exceeded
    attempts) at the limit, where the delay timer is started; the machine goes idle, no lock
    changes and the reporter is woken once. *)
Theorem wrong_key_counted (env : Env) (woken internal : bool) (m : Mgr) (i : nat)
    (s : SecuritySession_t) (p : LevelPtr) (l : SecurityLevel_t) :
  waiting_for_key (state_fn (mSecurityAccess m)) = true ->
  active_level_is m i s p l -> nrcCode m = INVALID_KEY ->
  wp (SecurityAccessEventHandler env (mkReport SEND_KEY_RESPONSE_SIG woken internal))
    (fun _ m' => key_refused m m' p l woken) m.
Proof.
  intros Hw Hal Hn. unfold SecurityAccessEventHandler. apply wp_MFsm_dispatch.
  { by destruct (state_fn _). }
  pose proof (fun u => waiting_key_refused env woken internal m i s p l Hal Hn u) as H.
  eapply (wp_conseq _ (fun _ m' => key_refused m m' p l woken)).
  - destruct (state_fn _); try done; [exact (H UnlockCurrentSecLevel)|].
    exact (H UnlockRequestedSecLevelAndLockOthers).
  - intros st m' Hk. split; [done|]. destruct Hk as (_ & _ & -> & _). by destruct (state_fn _).
Qed.

Lemma wrong_key_counted_witness : exists l,
  Att_Cnt l = 0 /\ Att_Cnt_Limit l = 3 /\
  wp (SecurityAccessEventHandler sample_env key_verdict)
    (fun _ m' => key_refused (waiting_mgr INVALID_KEY) m' (0%nat, 0%nat) l true)
    (waiting_mgr INVALID_KEY).
Proof.
  eexists. split; [|split]; [..|eapply (wrong_key_counted sample_env true false _ 0%nat)].
  3: reflexivity. 3: split; reflexivity. all: reflexivity.
Defined.

(** Locked out. While the delay timer runs, a seed request in the locked idle state is
    answered with 0x37 (required time delay not expired) and is not passed to the service,
    and the machine stays where it is. *)
Theorem locked_out_until_delay (env : Env) (m : Mgr) :
  S3Representable (config env) ->
  wf m -> ao_ok (mSecurityAccess m) -> 2 <= recvDataLen m ->
  state_fn (mSecurityAccess m) = LockedNoActiveSeed ->
  timer_IsRunning env (trace m) secAccDelayTimer = true ->
  wp (SecurityAccessEventHandler env (tester_report REQUEST_SEED_SIG))
    (fun _ m' => isInternalHandle m' = true /\ mSecurityAccess m' = mSecurityAccess m /\
       emits m m' (one_message (reply_to (udsRespAddrInfo m))
         [UDS_NEGATIVE_RESP_SID; recvSid m; REQUIRED_TIME_DELAY_NOT_EXPIRED])) m.
Proof.
  intros HS Hwf Hao Hlen Hst Hrun. apply wp_MFsm_dispatch; rewrite Hst; [done|].
  cbn [state_handler]. unfold hdlr_LockedNoActiveSeed. cbn [rtype tester_report].
  wp_step. apply wp_seed_length. destruct (Z.ltb_spec (recvDataLen m) 2) as [|_]; [lia|]. wp_step.
  unfold DelayTimerIsNotExpired, le_timer_IsRunning. do 2 wp_step. rewrite Hrun. wp_step.
  apply wp_handled. eapply wp_conseq; [by apply (ResponseNRC_exact env REQUEST_SEED_SIG 0x37 m m)|].
  intros [] m' (_ & Heq & Hsent). destruct (Hsent ltac:(done)) as [? ?].
  rewrite Heq, Hst. done.
Qed.

Lemma locked_out_until_delay_witness :
  let m := sample_mgr 3 (sample_ao LockedNoActiveSeed 0) [0x27; 0x01] in
  wp (SecurityAccessEventHandler (sample_env_with true) (tester_report REQUEST_SEED_SIG))
    (fun _ m' => isInternalHandle m' = true /\ mSecurityAccess m' = mSecurityAccess m /\
       emits m m' (one_message (reply_to (udsRespAddrInfo m))
         [UDS_NEGATIVE_RESP_SID; recvSid m; REQUIRED_TIME_DELAY_NOT_EXPIRED])) m.
Proof.
  apply locked_out_until_delay; [apply sample_s3|by apply sample_mgr_wf; [|repeat constructor]
    |apply sample_ao_ok; [lia|done]|done|reflexivity|reflexivity].
Defined.

(** C34: A defect. On the sample configuration a tester that unlocks level A and then level B
    with good keys, and then asks for the seed of the level it has unlocked, makes the
    security-access thread dereference a null pointer: unlocking a second level clears
    [active_level], and the all-zero seed is sized from it. *)
Theorem unlocked_seed_request_crashes :
  let start := sample_mgr 3 (sample_ao LockedNoActiveSeed 0) [0x27; 0x01; 0x00] in
  run_events sample_env
    [tester_asks 1 REQUEST_SEED_SIG; service_says 0 REQUEST_SEED_RESPONSE_SIG;
     tester_asks 2 SEND_KEY_SIG; service_says 0 SEND_KEY_RESPONSE_SIG;
     tester_asks 3 REQUEST_SEED_SIG; service_says 0 REQUEST_SEED_RESPONSE_SIG;
     tester_asks 4 SEND_KEY_SIG; service_says 0 SEND_KEY_RESPONSE_SIG;
     tester_asks 3 REQUEST_SEED_SIG] start = Faulted NullDeref.
Proof. vm_compute. reflexivity. Qed.

(** The answers of the service are consumed. When the service answers a seed request, or
    gives its verdict on a key, the machine runs into no assertion and no undefined access,
    sends nothing itself, leaves the request alone, wakes the thread that reports the answer
    once if it takes the answer, and goes where the answer leads: a seed makes it wait for
    the key, a good key unlocks it, anything else makes it idle. A verdict nobody asked for
    is ignored, and its reporter is not woken. *)
Theorem service_answer_completed (env : Env) (sig : SecAccSignal_t) (internal : bool) (m : Mgr) :
  sig = REQUEST_SEED_RESPONSE_SIG \/ sig = SEND_KEY_RESPONSE_SIG ->
  wf m -> ao_ok (mSecurityAccess m) -> state_fn (mSecurityAccess m) <> State_initial ->
  answerable sig m ->
  wp (SecurityAccessEventHandler env (mkReport sig true internal)) (fun _ => answer_post sig m) m.
Proof. intros. by apply service_answer_post. Qed.

Lemma service_answer_completed_witness :
  let m := sample_mgr 3 (sample_ao LockedNoActiveSeed 0) [0x27; 0x01] in
  next_state REQUEST_SEED_RESPONSE_SIG (nrcCode m) (state_fn (mSecurityAccess m)) = LockedWaitingForKey /\
  wp (SecurityAccessEventHandler sample_env (mkReport REQUEST_SEED_RESPONSE_SIG true false))
    (fun _ => answer_post REQUEST_SEED_RESPONSE_SIG m) m.
Proof.
  split; [reflexivity|].
  apply service_answer_completed; [by left|by apply sample_mgr_wf; [|repeat constructor]
    |apply sample_ao_ok; [lia|done]|discriminate|].
  intros _. split; [|discriminate]. intros _. do 4 eexists. split; vm_compute; reflexivity.
Defined.
