(* ===== verification/UdsThms.v ===== *)
(** * The UDS stack: the properties of requests and of responses *)
From Stdlib Require Import SpecFloat.
From S2P Require Import Prelude Ieee DiagCfg UdsTypes UdsSend SecAccess SecAccessSpec UdsAccess.
From S2P Require Import UdsIndicate UdsControl UdsTransfer UdsResp UdsMgr UdsRequest UdsHandler.
From S2P Require Import SecAccessResp UdsAnswer Sample.





(** The bytes of a request are not touched. *)
Definition buffer_kept (m m' : Mgr) : Prop :=
  recvBuf m' = recvBuf m /\ recvDataLen m' = recvDataLen m /\
  readyToRecvData m' = readyToRecvData m.

Lemma answers_buffer m m' to d : answers m m' to d -> buffer_kept m m'.
Proof.
  intros (Hc & _). split_and!; symmetry.
  - exact (f_equal recvBuf Hc).
  - exact (f_equal recvDataLen Hc).
  - exact (f_equal readyToRecvData Hc).
Qed.

(** One request at a time. While a request is with the service, any other request than
    tester present is answered with 0x21 (busy, repeat request), and while diagnostics are
    paused with 0x22 (conditions not correct); in both cases nothing is passed on and the
    request in the receive buffer, from which the response will be built, is untouched. *)
Theorem busy_request_refused (env : Env) (a : AddrInfo) (msg : DiagMsg) (m : Mgr) (sid : Z) :
  S3Representable (config env) -> wf m ->
  1 <= dataLen msg -> at_ (dataPtr msg) 0 = Some sid -> sid <> TESTER_PRESENT_REQUEST_ID ->
  (taType a = TA_FUNCTIONAL -> IsServiceFunctionalAddressed (config env) sid = true) ->
  isResetInProgress m = false -> isPaused m = true \/ readyToRecvData m = false ->
  wp (request_received env a msg) (fun _ m' => buffer_kept m m' /\
    emits m m' (one_message (reply_to a) [UDS_NEGATIVE_RESP_SID; sid;
      if isPaused m then CONDITIONS_NOT_CORRECT else BUSY_REPEAT_REQ])) m.
Proof.
  intros HS Hwf Hlen Hat Htp Hfun Hreset Hbusy. unfold request_received.
  destruct (Z.ltb_spec (dataLen msg) 1) as [|_]; [lia|].
  wp_step. eapply wp_demand; [exact Hat|].
  assert (Hf : bool_decide (taType a = TA_FUNCTIONAL) &&
    negb (IsServiceFunctionalAddressed (config env) sid) = false).
  { case_bool_decide as Ht; [|done]. by rewrite Hfun. }
  rewrite Hf. do 2 wp_step. rewrite Hreset. destruct (Z.eqb_spec sid 62) as [|_]; [done|].
  assert (Hans : forall nrc, wp (SendNRC env sid nrc a;; mret tt) (fun _ m' => buffer_kept m m' /\
    emits m m' (one_message (reply_to a) [UDS_NEGATIVE_RESP_SID; sid; nrc])) m).
  { intros nrc. wp_step. eapply wp_conseq; [by apply SendNRC_spec|]. intros r m' [_ Hans]. wp_step.
    split; [by eapply answers_buffer|by apply answers_one]. }
  destruct (isPaused m); [apply Hans|]. destruct Hbusy as [|Hb]; [done|]. rewrite Hb. apply Hans.
Qed.

Lemma busy_request_refused_witness :
  let m := (sample_mgr 3 (sample_ao LockedNoActiveSeed 0) [0x22; 0xF1; 0x90])
             <| readyToRecvData := false |> in
  wp (request_received sample_env tester (mkDiagMsg [0x11; 0x01] 2)) (fun _ m' => buffer_kept m m' /\
    emits m m' (one_message (reply_to tester) [UDS_NEGATIVE_RESP_SID; 0x11;
      if isPaused m then CONDITIONS_NOT_CORRECT else BUSY_REPEAT_REQ])) m.
Proof.
  apply busy_request_refused; [apply sample_s3| |done|done|done|done|done|by right].
  destruct (sample_mgr_wf 3 (sample_ao LockedNoActiveSeed 0) [0x22; 0xF1; 0x90]) as [];
    [done|by repeat constructor|by split].
Defined.

(** C12: A read is filtered. The request that is passed on is the service byte followed by the
    identifiers, in their order and with their repetitions, that are known, supported for
    reading in the active session, and whose role and security level the tester has (and, for
    a functionally addressed request, that are functionally addressed), and it has at least
    one; none of the identifiers is refused for a missing authentication or a locked level. A
    well-formed request is only kept from the service
    when no identifier is left or one is refused. *)
Theorem read_request_filtered (env : Env) (a : AddrInfo) (m : Mgr) :
  S3Representable (config env) -> ready m ->
  recvBuf m !! 0%nat = Some READ_DID_REQUEST_ID ->
  wp (IndicateReadDIDReq env a) (fun r m' =>
    checked READ_DID_REQUEST_ID a m r m' /\ read_verdict env READ_DID_REQUEST_ID a m m' /\
    forall p, p ∈ included_dids env a m <-> p ∈ requested_dids m /\
      (taType a = TA_FUNCTIONAL -> IsDidFunctionalAddressed (config env) (did_of p) = true) /\
      exists entry access clause, read_permitted env m (did_of p) entry access clause) m.
Proof.
  intros HS Hr Hsid. eapply wp_conseq; [by apply IndicateReadDIDReq_read|]. intros r m' [Hc Hv].
  split; [done|]. split; [done|]. intros p. apply included_permitted, Hr.
Qed.

Lemma sample_ready session st i req :
  (i < 2)%nat -> waiting_for_key st = false -> st <> State_initial ->
  Z.of_nat (length req) <= UDS_MAX_DATA_SIZE -> Forall is_byte req ->
  ready (sample_mgr session (sample_ao st i) req).
Proof. intros. split; [by apply sample_mgr_wf|by apply sample_ao_ok|done|done]. Qed.

Lemma read_request_filtered_witness :
  let m := sample_mgr 3 (sample_ao LockedNoActiveSeed 0) [0x22; 0xF1; 0x90; 0x12; 0x34] in
  included_dids sample_env tester m = [(0xF1, 0x90)] /\
  wp (IndicateReadDIDReq sample_env tester) (fun r m' =>
    checked READ_DID_REQUEST_ID tester m r m' /\
    read_verdict sample_env READ_DID_REQUEST_ID tester m m' /\
    forall p, p ∈ included_dids sample_env tester m <-> p ∈ requested_dids m /\
      (taType tester = TA_FUNCTIONAL -> IsDidFunctionalAddressed (config sample_env) (did_of p) = true) /\
      exists entry access clause, read_permitted sample_env m (did_of p) entry access clause) m.
Proof.
  split; [vm_compute; reflexivity|].
  apply read_request_filtered; [apply sample_s3| |reflexivity].
  apply sample_ready; [lia|done|done|done|by repeat constructor].
Defined.

(** A write is permitted or refused. Service 0x2E is passed on exactly when the
    identifier is configured and supports writing, the active session has a write
    requirement for it, the data have the configured size, the role of the tester and one
    of the unlocked levels satisfy the requirement, and the value is not a forbidden one.
    Otherwise the tester gets one negative response; the request itself is never changed. *)
Theorem write_request_permitted (env : Env) (a : AddrInfo) (m : Mgr) :
  S3Representable (config env) -> ready m -> recvBuf m !! 0%nat = Some WRITE_DID_REQUEST_ID ->
  wp (IndicateWriteDIDReq env a) (fun r m' => checked WRITE_DID_REQUEST_ID a m r m' /\
    (isInternalHandle m' = false <-> exists entry access clause,
       write_permitted env m (did_of (did_pair m 0)) entry access clause)) m.
Proof.
  intros HS Hr Hsid. apply wp_and; [by apply IndicateWriteDIDReq_checked|by apply write_did_verdict].
Qed.

Lemma write_request_permitted_witness :
  let m := sample_mgr 3 unlocked_ao [0x2E; 0xF1; 0x90; 0x12; 0x34] in
  (exists entry access clause,
     write_permitted sample_env m (did_of (did_pair m 0)) entry access clause) /\
  wp (IndicateWriteDIDReq sample_env tester) (fun r m' =>
    checked WRITE_DID_REQUEST_ID tester m r m' /\
    (isInternalHandle m' = false <-> exists entry access clause,
       write_permitted sample_env m (did_of (did_pair m 0)) entry access clause)) m.
Proof.
  split.
  - do 3 eexists. split; try (vm_compute; reflexivity).
    + by do 2 eexists.
    + by split.
    + by left.
    + intros _ _. exists [], "LevelA", [], 1. split_and!; [done|set_solver|reflexivity|].
      eexists 0%nat, (0%nat, 0%nat), _. split_and!; [done|by eexists|reflexivity|reflexivity].
    + discriminate.
  - apply write_request_permitted; [apply sample_s3| |reflexivity].
    split; [by apply sample_mgr_wf; [|repeat constructor]|apply unlocked_ao_ok|discriminate|done].
Defined.

(** The services the handler of received messages knows. *)
Definition dispatched_services : list Z :=
  [0x10; 0x11; 0x14; 0x19; 0x22; 0x27; 0x29; 0x2E; 0x2F; 0x31; 0x34; 0x36; 0x37; 0x38; 0x86].

(** Other services are refused. A request for a service that the handler does not know
    gets exactly the negative response 0x11 (service not supported), nothing is passed on and
    the request counts as handled. Service 0x85 (control DTC setting), for which the stack has
    a request handler and a response builder, is one of them. *)
Theorem unknown_service_refused (env : Env) (sid : Z) (a : AddrInfo) (m : Mgr) :
  S3Representable (config env) -> wf m -> sid ∉ dispatched_services ->
  wp (dispatch env sid a) (fun r m' => r = LE_OK /\ isInternalHandle m' = true /\
    buffer_kept m m' /\
    emits m m' (one_message (reply_to a) [UDS_NEGATIVE_RESP_SID; sid; SERVICE_NOT_SUPPORTED])) m.
Proof.
  intros HS Hwf Hsid. unfold dispatch.
  repeat (apply wp_if; intros Heq;
    [apply Z.eqb_eq in Heq as ->; exfalso; apply Hsid; vm_compute; by repeat constructor|clear Heq]).
  wp_step. eapply wp_conseq; [by apply SendNRC_spec|]. intros r m' [-> Hans].
  wp_step. apply wp_assign_. wp_step. split_and!; [done|done| |].
  - by eapply (answers_buffer _ _ _ _ Hans).
  - destruct (answers_one _ _ _ _ Hans) as (es & He & H). by exists es.
Qed.

Lemma unknown_service_refused_witness :
  let m := sample_mgr 3 (sample_ao LockedNoActiveSeed 0) [0x85; 0x01] in
  wp (dispatch sample_env CONTROL_DTC_SETTING_REQUEST_ID tester) (fun r m' =>
    r = LE_OK /\ isInternalHandle m' = true /\ buffer_kept m m' /\
    emits m m' (one_message (reply_to tester)
      [UDS_NEGATIVE_RESP_SID; CONTROL_DTC_SETTING_REQUEST_ID; SERVICE_NOT_SUPPORTED])) m.
Proof.
  apply unknown_service_refused; [apply sample_s3|by apply sample_mgr_wf; [|repeat constructor]|].
  by apply (bool_decide_unpack _); vm_compute.
Defined.

(** ** The properties of responses, timeouts and indications *)
(** ** Responses *)

(** C35: The response of the diagnostic service. When the service answers the request that is
    being handled, the stack runs into no undefined access and no abort, and either sends
    exactly one message, to the address of the response, which is the positive response of
    the service or a negative response for it, and accepts the next request if the message
    was sent, or refuses without sending anything. The premises are what the request
    handlers have checked and what the configuration must satisfy. *)
Theorem response_sent (env : Env) (name : string) (sid err : Z) (p : Payload) (m : Mgr) :
  S3Representable (config env) -> wf m -> payload_ok p ->
  ao_ok (mSecurityAccess m) -> state_fn (mSecurityAccess m) <> State_initial ->
  answers_ready env (m <| nrcCode := err |>) p err sid ->
  wp (SendUDSResp env name sid err p) (fun r m' => wf m' /\
    ((r = LE_OK /\ exists data, response_to sid data /\
        emits m m' (one_message (udsRespAddrInfo m) data) /\
        ((forall es, Forall quiet es -> doip_DiagRequest env
            (trace m ++ es ++ [DoipRequest (udsRespAddrInfo m) data]) = LE_OK) ->
         readyToRecvData m' = true)) \/
     (r <> LE_OK /\ quietly m m' /\ readyToRecvData m' = readyToRecvData m))) m.
Proof. intros. by apply SendUDSResp_spec. Qed.

Lemma sample_timing : timing_representable sample_env.
Proof.
  split; [eexists; vm_compute; reflexivity|]. intros session.
  unfold p2_interval, p2star_interval.
  destruct (get_diagnostic_session _ _) as [e|] eqn:E; cbn [try_or fmap throws_fmap].
  - destruct (sample_session _ _ E) as [-> ->]. split_and!; eexists; vm_compute; reflexivity.
  - split_and!; eexists; vm_compute; reflexivity.
Qed.

Lemma sample_session_change_ready to :
  ready_to_answer sample_env (sample_mgr_to to 1 (sample_ao LockedNoActiveSeed 1) [0x10; 0x03]) (None, 0) 0 0x10.
Proof.
  split; [intros _|discriminate|discriminate]. split; [apply sample_timing|].
  intros b [= <-] _. eexists. vm_compute. reflexivity.
Qed.

Lemma response_sent_witness :
  let m := sample_mgr 1 (sample_ao LockedNoActiveSeed 1) [0x10; 0x03] in
  wp (SendUDSResp sample_env "eth0" 0x10 0 (None, 0)) (fun r m' => wf m' /\
    ((r = LE_OK /\ exists data, response_to 0x10 data /\
        emits m m' (one_message (udsRespAddrInfo m) data) /\
        ((forall es, Forall quiet es -> doip_DiagRequest sample_env
            (trace m ++ es ++ [DoipRequest (udsRespAddrInfo m) data]) = LE_OK) ->
         readyToRecvData m' = true)) \/
     (r <> LE_OK /\ quietly m m' /\ readyToRecvData m' = readyToRecvData m))) m.
Proof.
  apply response_sent; [apply sample_s3|by apply sample_mgr_wf; [|repeat constructor]|by split
    |apply sample_ao_ok; [lia|done]|discriminate|exact (sample_session_change_ready tester)].
Defined.

(** Only the request that is being handled is answered. A response on another interface,
    or when no request has been received, fails; a response to another service than the one
    in the receive buffer is a bad parameter. Nothing is sent then, and the request stays. *)
Theorem stray_response_refused (env : Env) (name : string) (sid err : Z) (p : Payload) (m : Mgr) :
  wf m ->
  name <> interface m \/ recvDataLen m = 0 \/ recvBuf m !! 0%nat <> Some sid ->
  wp (SendUDSResp env name sid err p) (fun r m' =>
    r = (if decide (name = interface m /\ recvDataLen m <> 0) then LE_BAD_PARAMETER else LE_FAULT) /\
    trace m' = trace m /\ request_of m' = request_of m) m.
Proof.
  intros Hwf Hstray. pose proof (wf_recvBuf _ Hwf) as Hl. unfold SendUDSResp.
  do 2 wp_step. wp_step.
  { wp_step. apply negb_true_iff, bool_decide_eq_false in Hif. by rewrite decide_False by tauto. }
  apply negb_false_iff, bool_decide_eq_true in Hif.
  wp_step. apply wp_assign_. wp_step.
  { wp_step. apply Z.eqb_eq in Hif0. by rewrite decide_False by tauto. }
  apply Z.eqb_neq in Hif0. wp_step. apply wp_rd; [cbn; lia|]. intros b0 Hb0. cbn in Hb0.
  rewrite decide_True by done. wp_step; [by wp_step|].
  apply negb_false_iff, Z.eqb_eq in Hif1. exfalso. destruct Hstray as [?|[?|H]]; [done..|].
  apply H. by rewrite Hif1.
Qed.

Lemma stray_response_refused_witness :
  let m := sample_mgr 3 (sample_ao LockedNoActiveSeed 0) [0x22; 0xF1; 0x90] in
  wp (SendUDSResp sample_env "eth0" 0x2E 0 (None, 0)) (fun r m' =>
    r = (if decide ("eth0" = interface m /\ recvDataLen m <> 0) then LE_BAD_PARAMETER else LE_FAULT) /\
    trace m' = trace m /\ request_of m' = request_of m) m.
Proof.
  apply stray_response_refused; [by apply sample_mgr_wf; [|repeat constructor]|].
  right; right. discriminate.
Defined.
