(* ===== verification/UdsEventThms.v ===== *)
(** * The UDS stack: deregistration, timeouts, indications and data of the service *)
From Stdlib Require Import SpecFloat.
From S2P Require Import Prelude Ieee DiagCfg UdsTypes UdsSend SecAccess SecAccessSpec.
From S2P Require Import UdsAccess UdsRequest UdsHandler UdsResp UdsMgr UdsAnswer Sample.

(** ** The tester goes away *)

(** The timers of the tester are stopped. *)
Definition tester_timers_stopped (a : AddrInfo) (es : list Effect) : Prop :=
  forall ev, ev ∈ [S3_TIMER_STOP; P2STAR_TIMER_STOP; AUTH_TIMER_STOP] ->
    TimerEvent ev 0 (ifName a) ∈ es.

(** What is left of the session when a tester has gone. *)
Record tester_forgotten (a : AddrInfo) (m m' : Mgr) : Prop := mkTesterForgotten {
  tf_stable : stable m';
  tf_session : SessionType m' = DEFAULT_SESSION;
  tf_auth : authState m' = AUTH_STATE_UNKNOWN;
  tf_request : readyToRecvData m' = true /\ recvDataLen m' = 0 /\ isXferActive m' = false;
  tf_effects : emits m m' (fun es => Forall quiet es /\ tester_timers_stopped a es /\
    (SessionType m <> DEFAULT_SESSION ->
     IndEvent SESSION_CHANGE_MSG_ID [ind_msg_code SESSION_CHANGE_MSG_ID; u8 (SessionType m);
                                     DEFAULT_SESSION] ∈ es)) }.

(** The state before the session is left. *)
Record request_forgotten (a : AddrInfo) (m m' : Mgr) : Prop := mkRequestForgotten {
  rf_wf : wf m';
  rf_ao : mSecurityAccess m' = mSecurityAccess m;
  rf_session : SessionType m' = SessionType m;
  rf_auth : authState m' = AUTH_STATE_UNKNOWN;
  rf_request : readyToRecvData m' = true /\ recvDataLen m' = 0 /\ isXferActive m' = false;
  rf_effects : emits m m' (fun es => Forall quiet es /\ tester_timers_stopped a es) }.

Lemma wp_forget env a (k : Mgr -> M Mgr unit) Q m :
  wf m -> (forall m1 m', SessionType m1 = SessionType m -> request_forgotten a m m' -> wp (k m1) Q m') ->
  wp (addrInfo ::= a;;
      UdsTimerEventReport S3_TIMER_STOP 0 (ifName a);;
      when (featureA env) (UdsTimerEventReport TESTER_STATE_TIMER_STOP 0 (ifName a));;
      UdsTimerEventReport P2STAR_TIMER_STOP 0 (ifName a);;
      UdsTimerEventReport AUTH_TIMER_STOP 0 (ifName a);;
      authState ::= AUTH_STATE_UNKNOWN;;
      m ← get;
      when (negb (readyToRecvData m))
        (readyToRecvData ::= true;; CheckAndSendCancelFileXferEvent);;
      isXferActive ::= false;;
      recvBuf ::= replicate (Z.to_nat UDS_MAX_DATA_SIZE) 0;;
      recvDataLen ::= 0;;
      sendDataLen ::= 0;; k m) Q m.
Proof.
  intros [] Hk. unfold CheckAndSendCancelFileXferEvent.
  do 5 uds_step; uds_step; uds_steps.
  all: apply Hk; [done|split; try done].
  all: lazymatch goal with
    | |- wf _ => split; cbn; rewrite ?length_replicate; try done; try lia; by apply Forall_replicate
    | |- emits _ _ _ => idtac
    | |- _ => unfold negb in *; cbn in *; by destruct (readyToRecvData m)
    end.
  all: unfold emits; cbn; eexists; rewrite <- ?app_assoc; split; [reflexivity|].
  all: split; [by repeat constructor|].
  all: intros ev Hev; cbn; rewrite !elem_of_cons in *; destruct_or?; subst; auto 10.
  all: by apply not_elem_of_nil in Hev.
Qed.

(** A tester that goes away leaves nothing behind. When its address is deregistered the
    request in progress is dropped, the authentication is forgotten, its timers are stopped,
    nothing is sent, the manager is back in the default session, which is reported if it is
    a change, and the security-access object has locked every level of the session that was
    left, or will when the running delay ends. *)
Theorem tester_deregistered_forgets (env : Env) (a : AddrInfo) (msg : option DiagMsg) (m : Mgr) :
  stable m -> ifName a = interface m -> is_Some (session_target SESSION_CONTROL_SIG m) ->
  wp (DiagIndicationHandler env a msg DOIP_RESULT_SA_DEREGISTERED) (fun _ m' =>
    tester_forgotten a m m' /\
    (SessionType m <> DEFAULT_SESSION -> locked_after SESSION_CONTROL_SIG m m' \/
       last_pending_signal (mSecurityAccess m') = SESSION_CONTROL_SIG)) m.
Proof.
  intros (Hwf & Hao & Hst) Hname Htgt. unfold DiagIndicationHandler, with_instance.
  do 2 wp_step. rewrite bool_decide_true by done. cbn [when]. wp_step. apply wp_assign_.
  unfold tester_deregistered. set (m0 := m <| isInternalHandle := true |>).
  apply (wp_forget env a (fun m => when (negb (SessionType m =? DEFAULT_SESSION)) _) _ m0);
    [by destruct Hwf|]. intros m2 m1 Hs2 [Hwf1 Hao1 Hs1 Ha1 Hr1 He1].
  uds_step.
  2:{ apply negb_false_iff, Z.eqb_eq in H. split; [|change (SessionType m) with (SessionType m0); congruence].
      split; [split_and!; by rewrite ?Hao1|congruence|done..|].
      destruct He1 as (es & He & Hq & Hstop). exists es. split_and!; try done.
      change (SessionType m) with (SessionType m0). congruence. }
  assert (Hq : negb (SessionType m2 =? DEFAULT_SESSION) = true) by done.
  unfold report_and_wait. wp_step. wp_step. apply wp_assign_. wp_step.
  set (m3 := m1 <| semCount := 0 |>).
  assert (Hsame : session_target SESSION_CONTROL_SIG m3 = session_target SESSION_CONTROL_SIG m).
  { unfold session_target. change (SessionType m3) with (SessionType m1).
    change (mSecurityAccess m3) with (mSecurityAccess m1). by rewrite Hs1, Hao1. }
  eapply wp_conseq.
  { apply wp_keeps; [|apply session_control_to].
    apply (session_change_handled env SESSION_CONTROL_SIG true false m3); [by left|by destruct Hwf1
      |cbn; by rewrite Hao1|cbn; by rewrite Hao1|by rewrite Hsame]. }
  intros [] m4 [[Hwf4 Hao4 Hf4 Hq4 Hsem Hv] Hx]. unfold frame, request_view in Hf4.
  injection Hf4 as _ Hlen Hs4 Hrd _ Hau _ _ _. injection Hx as _ Hx.
  do 3 wp_step. rewrite Hsem. change (0 <? semCount m3 + _) with true. cbn [negb]. uds_steps. split.
  - split; [split_and!|..]; try done.
    + by destruct Hwf4.
    + cbn. destruct Hv as [(-> & _)|(_ & _ & -> & _)]; [done|]. cbn. by rewrite Hao1.
    + cbn. by rewrite Hau.
    + cbn. rewrite Hlen, Hrd, Hx. exact Hr1.
    + destruct He1 as (es & He & Hqu & Hstop), Hq4 as (es4 & He4 & Hqu4).
      eexists (es ++ es4 ++ [_]). split; [cbn; rewrite He4; cbn; by rewrite He, <- !app_assoc|]. split_and!.
      * apply Forall_app. split; [done|]. apply Forall_app. split; [done|]. by constructor.
      * intros ev Hev. apply elem_of_app. left. by apply Hstop.
      * intros _. rewrite !elem_of_app, elem_of_cons. right; right; left. cbn. by rewrite Hs4, Hs1.
  - intros _. destruct Hv as [(H1 & H2 & i & s & Hi & Hs)|(_ & _ & _ & H1 & _)]; [left|right; done].
    split; [done|]. split; [by rewrite <- Hsame|]. exists i, s. split; [|done].
    rewrite <- Hi. change (mSecurityAccess m3) with (mSecurityAccess m1). by rewrite Hao1.
Qed.

Lemma tester_deregistered_forgets_witness :
  let m := sample_mgr 3 unlocked_ao [0x22; 0xF1; 0x90] in
  wp (DiagIndicationHandler sample_env tester None DOIP_RESULT_SA_DEREGISTERED) (fun _ m' =>
    tester_forgotten tester m m' /\
    (SessionType m <> DEFAULT_SESSION -> locked_after SESSION_CONTROL_SIG m m' \/
       last_pending_signal (mSecurityAccess m') = SESSION_CONTROL_SIG)) m.
Proof.
  apply tester_deregistered_forgets; [|reflexivity|eexists; vm_compute; reflexivity].
  split_and!; [by apply sample_mgr_wf; [|repeat constructor]|apply unlocked_ao_ok|discriminate].
Defined.

(** ** The service is late *)

(** The main thread runs the call that was queued last. *)
Definition run_queued (env : Env) : M Mgr unit :=
  m ← get;
  match last (trace m) with
  | Some (P2StarNrc sid errorCode a) => P2StarSendNrcInMainThread env sid errorCode a
  | _ => mret tt
  end.

(** A late service is excused, then its request is closed. Each time the P2* timer
    expires the tester of the pending request gets exactly one negative response: 0x78
    (response pending), which keeps the request, while the timer has expired fewer times than
    configured, and 0x10 (general reject) then. After the reject the request is gone and the
    stack accepts the next one, so that a late response of the service is refused. *)
Theorem late_service_closed (env : Env) (m : Mgr) (sid : Z) :
  S3Representable (config env) -> wf m -> recvBuf m !! 0%nat = Some sid ->
  wp (P2StarTimeoutHandler env;; run_queued env) (fun _ m' => wf m' /\
    let closed := rcrrp_count (config env) <=? timer_GetExpiryCount env (trace m) p2StarTimer in
    emits m m' (one_message (reply_to (addrInfo m)) [UDS_NEGATIVE_RESP_SID; sid;
      if closed then GENERAL_REJECT else REQUEST_CORRECTLY_RECEIVED_RESPONSE_PENDING]) /\
    if closed then readyToRecvData m' = true /\ recvDataLen m' = 0
    else request_of m' = request_of m) m.
Proof.
  intros HS Hwf Hsid. unfold P2StarTimeoutHandler. wp_step. do 2 wp_step. wp_step.
  apply wp_rd; [pose proof (wf_recvBuf _ Hwf); lia|]. intros v Hv. change (Z.to_nat 0) with 0%nat in Hv.
  simplify_eq. apply wp_emit. unfold run_queued. do 2 wp_step. rewrite trace_log, last_snoc.
  unfold P2StarSendNrcInMainThread. wp_step.
  rewrite Z.leb_antisym. set (b := timer_GetExpiryCount _ _ _ <? _).
  eapply wp_conseq; [by apply SendNRC_spec, wf_log|]. intros r m1 (_ & Hc & Hwf1 & es1 & He1 & es & -> & Hq).
  assert (He : forall m2 tl, trace m2 = trace m1 ++ tl -> Forall quiet tl ->
    emits m m2 (one_message (reply_to (addrInfo m)) [UDS_NEGATIVE_RESP_SID; sid;
      if negb b then GENERAL_REJECT else REQUEST_CORRECTLY_RECEIVED_RESPONSE_PENDING])).
  { intros m2 tl Ht Htl. eexists ([P2StarNrc sid _ _] ++ DoipRequest _ _ :: (es ++ tl)). split.
    - rewrite Ht, He1, trace_log. by rewrite <- !app_assoc.
    - destruct b; by apply one_message_intro; [repeat constructor|apply Forall_app]. }
  destruct b; cbn [negb] in *.
  - rewrite Z.eqb_refl. wp_step. split; [done|]. split.
    + apply (He m1 []); by rewrite ?app_nil_r.
    + symmetry. exact (f_equal request_of Hc).
  - apply wp_if; intros Hif; [done|]. unfold CheckAndSendCancelFileXferEvent.
    uds_steps; (split; [|split]).
    all: try (destruct Hwf1; split; cbn; rewrite ?length_replicate; try done; try lia;
      by apply Forall_replicate).
    + apply (He _ [IndEvent SET_STATE_AND_CANCEL_FILE_TRANSFER_RESULT [0xFC; 0]]);
        [done|by repeat constructor].
    + apply (He _ []); [rewrite app_nil_r; reflexivity|by constructor].
    + split; [|done]. cbn in *. by apply negb_false_iff in H.
Qed.

Lemma late_service_closed_witness :
  let m := (sample_mgr 3 (sample_ao LockedNoActiveSeed 0) [0x22; 0xF1; 0x90])
             <| readyToRecvData := false |> in
  wp (P2StarTimeoutHandler sample_env;; run_queued sample_env) (fun _ m' => wf m' /\
    let closed := rcrrp_count (config sample_env) <=?
                  timer_GetExpiryCount sample_env (trace m) p2StarTimer in
    emits m m' (one_message (reply_to (addrInfo m)) [UDS_NEGATIVE_RESP_SID; 0x22;
      if closed then GENERAL_REJECT else REQUEST_CORRECTLY_RECEIVED_RESPONSE_PENDING]) /\
    if closed then readyToRecvData m' = true /\ recvDataLen m' = 0
    else request_of m' = request_of m) m.
Proof.
  apply late_service_closed; [apply sample_s3| |reflexivity].
  destruct (sample_mgr_wf 3 (sample_ao LockedNoActiveSeed 0) [0x22; 0xF1; 0x90]) as [];
    [done|by repeat constructor|by split].
Defined.

(** ** Failed authentications *)
Fixpoint times (n : nat) (c : M Mgr unit) : M Mgr unit :=
  match n with O => mret tt | S k => times k c;; c end.

(** The authentication delay doubles. After [n] expiries of the delay timer the attempt
    counter is zero and the delay has been doubled [n] times, up to sixteen minutes; the
    16-bit product never wraps, and the last values are in the configuration tree. *)
Theorem auth_delay_doubles (n : nat) (m : Mgr) :
  0 < authDelayTime m <= AUTH_DEFAULT_DELAY_TIME_MAX ->
  wp (times (S n) AuthDelayTimeoutHandler) (fun _ m' => authAttCnt m' = 0 /\
    authDelayTime m' = Z.min (authDelayTime m * 2 ^ Z.of_nat (S n)) AUTH_DEFAULT_DELAY_TIME_MAX /\
    quietly m m' /\
    last (trace m') = Some (CfgSetInt ("tafDiagSvc:/authentication/" +:+ interface m' +:+ "/Delay_time") (authDelayTime m'))) m.
Proof.
  intros Hd.
  assert (Hone : forall m1, 0 < authDelayTime m1 <= AUTH_DEFAULT_DELAY_TIME_MAX ->
    wp AuthDelayTimeoutHandler (fun _ m2 => authAttCnt m2 = 0 /\
      authDelayTime m2 = Z.min (authDelayTime m1 * 2) AUTH_DEFAULT_DELAY_TIME_MAX /\ quietly m1 m2 /\
      last (trace m2) = Some (CfgSetInt ("tafDiagSvc:/authentication/" +:+ interface m2 +:+ "/Delay_time") (authDelayTime m2))) m1).
  { intros m1 H1. unfold AuthDelayTimeoutHandler, StoreAttCntToTree, StoreDelayTimeToTree.
    uds_steps; cbn in H |- *; rewrite wrap_id in H |- * by (unfold in_width; lia).
    all: split_and!; [done|lia| |by rewrite last_snoc].
    all: eexists; split; [cbn; rewrite <- app_assoc; reflexivity|by repeat constructor]. }
  assert (Hpos : forall k, 2 ^ Z.of_nat (S k) = 2 * 2 ^ Z.of_nat k).
  { intros k. rewrite Nat2Z.inj_succ, Z.pow_succ_r by lia. done. }
  induction n as [|n IH].
  - change (times 1 ?c) with (mret tt;; c). do 2 wp_step. eapply wp_conseq; [by apply Hone|].
    intros [] m' (H1 & -> & H2 & H3). auto.
  - change (times (S (S n)) ?c) with (times (S n) c;; c). wp_step. eapply wp_conseq; [apply IH|].
    intros [] m1 (_ & Hd1 & Hq1 & _). eapply wp_conseq; [apply Hone; lia|].
    intros [] m2 (H1 & Hd2 & Hq2 & H3). split_and!; [done| |by eapply quietly_trans|done].
    rewrite Hd2, Hd1, (Hpos (S n)). lia.
Qed.

Lemma auth_delay_doubles_witness :
  let m := (sample_mgr 3 (sample_ao LockedNoActiveSeed 0) []) <| authAttCnt := 10 |> in
  authDelayTime m = 60 /\
  wp (times 6 AuthDelayTimeoutHandler) (fun _ m' => authAttCnt m' = 0 /\
    authDelayTime m' = Z.min (authDelayTime m * 2 ^ Z.of_nat 6) AUTH_DEFAULT_DELAY_TIME_MAX /\
    quietly m m' /\ last (trace m') =
      Some (CfgSetInt ("tafDiagSvc:/authentication/" +:+ interface m' +:+ "/Delay_time")
              (authDelayTime m'))) m.
Proof. split; [reflexivity|]. by apply (auth_delay_doubles 5). Defined.

(** The negative response in the send buffer. *)
Definition with_nrc (m : Mgr) (sid err : Z) : Mgr :=
  m <| sendBuf := UDS_NEGATIVE_RESP_SID :: sid :: err :: drop 3 (sendBuf m) |> <| sendDataLen := 3 |>.
Lemma wp_SetNRC sid err Q m :
  3 <= Z.of_nat (length (sendBuf m)) -> Q LE_OK (with_nrc m sid err) -> wp (SetNRC sid err) Q m.
Proof.
  intros Hl HQ. unfold SetNRC. apply (wp_put3 sendBuf); [done..|lia|]. wp_step. apply wp_assign_. wp_step.
  unfold with_nrc in HQ. by rewrite put3_cons by lia.
Qed.

(** Failed authentications are counted. A negative answer of the service to "verify
    certificate" or "proof of ownership" ends the authentication, counts an attempt up to
    ten, and leaves a negative response to be sent: the service's code, except that the
    attempt that reaches ten while no delay runs is answered with 0x36 (exceeded number of
    attempts) and starts the delay timer with the current delay in milliseconds. *)
Theorem failed_authentication_counted (env : Env) (p : Payload) (err sub : Z) (running : bool) (m : Mgr) :
  wf m -> recvBuf m !! 1%nat = Some sub -> err <> POSITIVE_RESPONSE ->
  Z.land sub 0x7F = AUTH_SUBFUNC_VERIFY_CERT_UNIDIR \/ Z.land sub 0x7F = AUTH_SUBFUNC_POWN ->
  0 <= authAttCnt m <= AUTH_DEFAULT_MAX_ATT_CNT ->
  (forall path v es, timer_IsRunning env (trace m ++ CfgSetInt path v :: es) authDelayTimer = running) ->
  wp (AuthenticationResp env AUTHENTICATION_REQUEST_ID p err) (fun r m' =>
    let delayed := (AUTH_DEFAULT_MAX_ATT_CNT <=? authAttCnt m + 1) && negb running in
    r = LE_OK /\ authState m' = AUTH_STATE_DEAUTHENTICATED /\
    authAttCnt m' = Z.min (authAttCnt m + 1) AUTH_DEFAULT_MAX_ATT_CNT /\
    message m' = [UDS_NEGATIVE_RESP_SID; AUTHENTICATION_REQUEST_ID;
                  if delayed then EXCEEDED_NUMBER_OF_ATTEMPTS else err] /\
    emits m m' (fun es => Forall quiet es /\
      (delayed = true <->
       TimerEvent AUTH_DELAY_TIMER_START (u32 (authDelayTime m * 1000)) (interface m) ∈ es))) m.
Proof.
  intros Hwf Hsub Herr Hkind Hcnt Hrun. pose proof (wf_sendBuf _ Hwf) as Hlen.
  unfold AuthenticationResp. wp_step. apply wp_rd; [pose proof (wf_recvBuf _ Hwf); lia|].
  intros b Hb. change (Z.to_nat 1) with 1%nat in Hb. simplify_eq. cbv beta zeta.
  apply wp_if; intros Hp; [|by apply negb_false_iff, Z.eqb_eq in Hp].
  wp_step. apply wp_SetNRC; [lia|]. wp_step. apply wp_assign_. wp_step.
  unfold auth_failed, StoreAttCntToTree, le_timer_IsRunning. apply wp_when; intros Hk.
  2:{ apply orb_false_iff in Hk as [?%Z.eqb_neq ?%Z.eqb_neq]. tauto. }
  do 9 uds_step. set (m1 := log _ _).
  assert (Hm1 : authAttCnt m1 = authAttCnt m + 1) by (cbn; rewrite wrap_id by (unfold in_width; lia); done).
  do 4 uds_step.
  2:{ assert (Hlt : (10 <=? authAttCnt m + 1) = false) by (rewrite <- Hm1; exact H). rewrite Hlt. uds_steps.
      apply Z.leb_gt in Hlt. split_and!; [done|done|etrans; [exact Hm1|lia]|done|].
      eexists [_]. split; [done|]. split; [by repeat constructor|]. split; [done|].
      by intros [?|[]%not_elem_of_nil]%elem_of_cons. }
  assert (Hge : (10 <=? authAttCnt m + 1) = true) by (rewrite <- Hm1; exact H). rewrite Hge.
  apply Z.leb_le in Hge. do 8 uds_step.
  lazymatch goal with |- context [timer_IsRunning env ?t _] =>
    replace (timer_IsRunning env t authDelayTimer) with running
      by (symmetry; cbn; rewrite <- app_assoc; apply Hrun)
  end.
  apply wp_when; intros H0; rewrite H0.
  - wp_step. apply wp_SetNRC; [cbn; lia|]. uds_steps. split_and!; [done|done|cbn; lia|done|].
    eexists [_; _; _]. split; [cbn; by rewrite <- !app_assoc|]. split; [by repeat constructor|].
    split; [intros _|done]. do 2 right. by left.
  - uds_steps. split_and!; [done|done|cbn; lia|done|].
    eexists [_; _]. split; [cbn; by rewrite <- !app_assoc|]. split; [by repeat constructor|].
    split; [done|]. by intros [?|[?|[]%not_elem_of_nil]%elem_of_cons]%elem_of_cons.
Qed.

Lemma failed_authentication_counted_witness :
  let m := (sample_mgr 3 (sample_ao LockedNoActiveSeed 0) [0x29; 0x03]) <| authAttCnt := 9 |> in
  wp (AuthenticationResp sample_env AUTHENTICATION_REQUEST_ID (None, 0) INVALID_KEY) (fun r m' =>
    let delayed := (AUTH_DEFAULT_MAX_ATT_CNT <=? authAttCnt m + 1) && negb false in
    r = LE_OK /\ authState m' = AUTH_STATE_DEAUTHENTICATED /\
    authAttCnt m' = Z.min (authAttCnt m + 1) AUTH_DEFAULT_MAX_ATT_CNT /\
    message m' = [UDS_NEGATIVE_RESP_SID; AUTHENTICATION_REQUEST_ID;
                  if delayed then EXCEEDED_NUMBER_OF_ATTEMPTS else INVALID_KEY] /\
    emits m m' (fun es => Forall quiet es /\
      (delayed = true <->
       TimerEvent AUTH_DELAY_TIMER_START (u32 (authDelayTime m * 1000)) (interface m) ∈ es))) m.
Proof.
  apply (failed_authentication_counted sample_env _ _ 3); [|done|done|by right|done|done].
  destruct (sample_mgr_wf 3 (sample_ao LockedNoActiveSeed 0) [0x29; 0x03]) as [];
    [done|by repeat constructor|by split].
Defined.

(** ** The role of the tester *)
Lemma byte_at_low hi lo : is_byte lo -> byte_at 0 (be16 hi lo) = lo.
Proof.
  intros Hlo. rewrite be16_eq, byte_at_eq, Z.pow_0_r, Z.div_1_r by (done || lia).
  unfold in_width in Hlo. rewrite Z.add_comm, Z.mod_add, Z.mod_small by lia. done.
Qed.
Lemma byte_at_high k hi lo : 0 <= k -> is_byte lo -> byte_at (k + 1) (be16 hi lo) = byte_at k hi.
Proof.
  intros Hk Hlo. rewrite be16_eq, !byte_at_eq by (done || lia). unfold in_width in Hlo.
  rewrite (Z.add_comm k), Z.pow_add_r, Z.pow_1_r, <- Z.div_div, Z.div_add_l by lia.
  by rewrite (Z.div_small lo), Z.add_0_r by lia.
Qed.

(** Eight bytes survive the conversion to a 64-bit role and back. *)
Lemma role_bytes_be64 d : length d = 8%nat -> Forall is_byte d -> role_bytes (be64 d) = d.
Proof.
  intros Hl Hd. do 8 (destruct d as [|? d]; [done|]). destruct d; [|done].
  repeat match goal with H : Forall _ (_ :: _) |- _ => apply Forall_cons in H as [? H] end.
  unfold role_bytes, be64. cbn [foldl].
  repeat match goal with |- context [Z.lor (Z.shiftl ?a 8) ?b] => change (Z.lor (Z.shiftl a 8) b) with (be16 a b) end.
  change 7 with (0 + 1 + 1 + 1 + 1 + 1 + 1 + 1). change 6 with (0 + 1 + 1 + 1 + 1 + 1 + 1).
  change 5 with (0 + 1 + 1 + 1 + 1 + 1). change 4 with (0 + 1 + 1 + 1 + 1).
  change 3 with (0 + 1 + 1 + 1). change 2 with (0 + 1 + 1). change 1 with (0 + 1).
  by rewrite !byte_at_high, !byte_at_low by (done || lia).
Qed.

(** The role that expires is the role that was set. Eight bytes that the service stores as
    the role of an authenticated tester are reported, byte for byte, when the authentication
    times out; the role and the authentication are gone then. *)
Theorem expired_role_reported (data : list Z) (m : Mgr) :
  length data = 8%nat -> Forall is_byte data ->
  wp (r ← SetUDSData (interface m) DATA_TYPE_ROLE (Some data) 8;
      AuthTimeoutHandler;; mret r) (fun r m' =>
    r = LE_OK /\ currentRoleVal m' = 0 /\ authState m' = AUTH_STATE_DEAUTHENTICATED /\
    trace m' = trace m ++ [IndEvent AUTHENTICATION_EXPIRATION_MSG_ID
                             (ind_msg_code AUTHENTICATION_EXPIRATION_MSG_ID :: data)]) m.
Proof.
  intros Hl Hd. unfold SetUDSData, AuthTimeoutHandler. cbn [Z.eqb]. do 3 wp_step.
  rewrite bool_decide_true by done. cbn [negb Z.eqb Pos.eqb]. wp_step. unfold slice.
  rewrite decide_True by (rewrite Hl; lia). eapply wp_demand; [done|].
  rewrite take_ge by (rewrite Hl; lia). uds_steps. split_and!; [done..|]. cbn.
  by rewrite role_bytes_be64.
Qed.

Lemma expired_role_reported_witness :
  let m := sample_mgr 3 (sample_ao LockedNoActiveSeed 0) [] in
  let data := [0; 1; 2; 3; 0xFC; 0xFD; 0xFE; 0xFF] in
  wp (r ← SetUDSData (interface m) DATA_TYPE_ROLE (Some data) 8;
      AuthTimeoutHandler;; mret r) (fun r m' =>
    r = LE_OK /\ currentRoleVal m' = 0 /\ authState m' = AUTH_STATE_DEAUTHENTICATED /\
    trace m' = trace m ++ [IndEvent AUTHENTICATION_EXPIRATION_MSG_ID
                             (ind_msg_code AUTHENTICATION_EXPIRATION_MSG_ID :: data)]) m.
Proof. apply expired_role_reported; [done|by repeat constructor]. Defined.

(** ** Cancelling a file transfer *)

(** What the service's handler of indications is given. *)
Definition indicated (es : list Effect) : list (AddrInfo * list Z) :=
  omap (fun e => match e with Indication a d => Some (a, d) | _ => None end) es.

Lemma remove_first_last v l : v ∉ l -> remove_first v (l ++ [v]) = l.
Proof.
  induction l as [|x l IH]; cbn; intros Hv; [by rewrite Z.eqb_refl|].
  rewrite not_elem_of_cons in Hv. destruct Hv as [Hx Hv]. rewrite (proj2 (Z.eqb_neq x v)) by congruence.
  by rewrite IH.
Qed.

(** A cancelled transfer is reported once. The service that cancels a file transfer while
    a request of the transfer is in progress is told so, and a second time that it is already
    in progress; when the request is answered, the transfer is closed and the result is
    reported exactly once, and the next cancellation starts anew. *)
Theorem cancelled_transfer_reported (env : Env) (sid : Z) (data : list Z) (m : Mgr) :
  S3Representable (config env) -> vlanId m ∉ cancelFileXferReqList m -> readyToRecvData m = false ->
  length data = 1%nat ->
  wp (r1 ← SetUDSData (interface m) DATA_TYPE_FILEXFER_STATE (Some data) 1;
      r2 ← SetUDSData (interface m) DATA_TYPE_FILEXFER_STATE (Some data) 1;
      CheckAndRestartS3Timer env sid true;;
      let result := [ind_msg_code CANCEL_FILE_TRANSFER_RESULT; 0] in
      IndMsgHandler env SET_STATE_AND_CANCEL_FILE_TRANSFER_RESULT result;;
      IndMsgHandler env SET_STATE_AND_CANCEL_FILE_TRANSFER_RESULT result;;
      mret (r1, r2)) (fun r m' =>
    r = (LE_OK, LE_IN_PROGRESS) /\ isXferActive m' = false /\
    cancelFileXferReqList m' = cancelFileXferReqList m /\
    emits m m' (fun es =>
      indicated es = [(addrInfo m, [ind_msg_code CANCEL_FILE_TRANSFER_RESULT; 0])])) m.
Proof.
  intros HS Hv Hrd Hl. unfold SetUDSData, IsCancelFileXferReqInList, addCancelFileXferReqInList.
  cbn [Z.eqb Pos.eqb]. do 3 wp_step. rewrite bool_decide_true by done. cbn [negb]. do 2 wp_step.
  rewrite bool_decide_false, Hrd by done. do 4 wp_step. apply wp_assign_. wp_step.
  rewrite bool_decide_true by done. cbn [negb]. wp_step.
  set (m1 := m <| cancelFileXferReqList := _ |>).
  do 3 wp_step. change (interface m1) with (interface m). rewrite bool_decide_true by done. cbn [negb].
  do 2 wp_step. rewrite bool_decide_true by (cbn; set_solver). wp_step.
  unfold CheckAndRestartS3Timer. destruct s3_scaled_defined as [z Hz].
  do 3 wp_step. cbn [when]. do 2 wp_step. apply wp_emit. change (readyToRecvData m1) with (readyToRecvData m).
  rewrite Hrd. cbn [negb when]. wp_step. apply wp_assign_. unfold CheckAndSendCancelFileXferEvent.
  apply wp_emit. wp_step. eapply wp_demand; [exact Hz|].
  set (m2 := log (_ <| readyToRecvData := true |>) _).
  assert (Hfin : forall es, indicated es = [] ->
    wp (let result := [ind_msg_code CANCEL_FILE_TRANSFER_RESULT; 0] in
        IndMsgHandler env SET_STATE_AND_CANCEL_FILE_TRANSFER_RESULT result;;
        IndMsgHandler env SET_STATE_AND_CANCEL_FILE_TRANSFER_RESULT result;;
        mret (LE_OK, LE_IN_PROGRESS)) (fun r m' =>
      r = (LE_OK, LE_IN_PROGRESS) /\ isXferActive m' = false /\
      cancelFileXferReqList m' = cancelFileXferReqList m /\
      emits m m' (fun es =>
        indicated es = [(addrInfo m, [ind_msg_code CANCEL_FILE_TRANSFER_RESULT; 0])])) (log m2 es)).
  { intros es Hes. cbv zeta. unfold IndMsgHandler. do 3 wp_step.
    change (cancelFileXferReqList (log m2 es)) with (cancelFileXferReqList m ++ [vlanId m]).
    change (vlanId (log m2 es)) with (vlanId m).
    rewrite bool_decide_true by set_solver. cbn [andb]. change (readyToRecvData (log m2 es)) with true. cbn [negb].
    do 6 uds_step. rewrite remove_first_last by done. do 2 uds_step.
    rewrite bool_decide_false by exact Hv. cbn [andb]. uds_steps. split_and!; [done..|].
    exists ([TimerEvent P2STAR_TIMER_STOP 0 (interface m); IndEvent SET_STATE_AND_CANCEL_FILE_TRANSFER_RESULT
      [ind_msg_code CANCEL_FILE_TRANSFER_RESULT; 0]] ++ es ++ [Indication (addrInfo m)
      [ind_msg_code CANCEL_FILE_TRANSFER_RESULT; 0]]). split; [cbn; by rewrite <- !app_assoc|].
    unfold indicated in *. by rewrite !omap_app, Hes. }
  apply wp_when; intros _; [cbn [negb]|rewrite <- (log_nil m2); by apply Hfin].
  apply wp_when; intros _; [|rewrite <- (log_nil m2); by apply Hfin].
  apply wp_emit. by apply Hfin.
Qed.

Lemma cancelled_transfer_reported_witness :
  let m := (sample_mgr 3 (sample_ao LockedNoActiveSeed 0) [0x36; 0x01]) <| readyToRecvData := false |> in
  wp (r1 ← SetUDSData (interface m) DATA_TYPE_FILEXFER_STATE (Some [0]) 1;
      r2 ← SetUDSData (interface m) DATA_TYPE_FILEXFER_STATE (Some [0]) 1;
      CheckAndRestartS3Timer sample_env 0x36 true;;
      let result := [ind_msg_code CANCEL_FILE_TRANSFER_RESULT; 0] in
      IndMsgHandler sample_env SET_STATE_AND_CANCEL_FILE_TRANSFER_RESULT result;;
      IndMsgHandler sample_env SET_STATE_AND_CANCEL_FILE_TRANSFER_RESULT result;;
      mret (r1, r2)) (fun r m' =>
    r = (LE_OK, LE_IN_PROGRESS) /\ isXferActive m' = false /\
    cancelFileXferReqList m' = cancelFileXferReqList m /\
    emits m m' (fun es =>
      indicated es = [(addrInfo m, [ind_msg_code CANCEL_FILE_TRANSFER_RESULT; 0])])) m.
Proof. apply cancelled_transfer_reported; [apply sample_s3|set_solver|done|done]. Defined.
