(* ===== verification/UdsSessionThms.v ===== *)
(** * The UDS stack: sessions and their timers *)
From Stdlib Require Import SpecFloat.
From S2P Require Import Prelude Ieee DiagCfg UdsTypes UdsSend SecAccess SecAccessSpec.
From S2P Require Import UdsAccess UdsRequest UdsHandler UdsResp UdsMgr UdsAnswer UdsIndicate UdsThms Sample.

(** ** The response to a session change *)

(** The response: the session, the P2 interval and a tenth of the P2* interval. *)
Definition session_response (new p2 p2star_tenth p2star : Z) : list Z :=
  [SESSION_CONTROL_RESPONSE_ID; new; byte_at 1 p2; byte_at 0 p2;
   byte_at 1 p2star_tenth; byte_at 0 (p2star / 10)].

Lemma high_byte z : Z.shiftr (Z.land z 0xff00) 8 = byte_at 1 z.
Proof.
  unfold byte_at. change (8 * 1) with 8. apply Z.bits_inj'. intros n Hn.
  rewrite Z.shiftr_spec, !Z.land_spec, Z.shiftr_spec by lia. f_equal.
  change 0xff00 with (Z.shiftl 255 8). rewrite Z.shiftl_spec by lia. f_equal. lia.
Qed.
Lemma low_byte z : Z.land z 0xff = byte_at 0 z.
Proof. unfold byte_at. by rewrite Z.mul_0_r, Z.shiftr_0_r. Qed.

(** Two states that differ in the send buffer at most. *)
Definition but_sending (m m' : Mgr) : Prop :=
  mSecurityAccess m' = mSecurityAccess m /\ SessionType m' = SessionType m /\ trace m' = trace m.

(** Overwriting one byte. *)
Lemma wp_wr_at l1 x l2 i v Q m :
  sendBuf m = l1 ++ x :: l2 -> i = Z.of_nat (length l1) ->
  Q tt (m <| sendBuf := l1 ++ v :: l2 |>) -> wp (wr sendBuf i v) Q m.
Proof.
  intros Hb -> HQ. apply wp_cpy; [lia|rewrite Hb, length_app; cbn; lia|].
  rewrite Hb. unfold splice. cbn [length]. rewrite Nat2Z.id, take_app_length.
  assert (Hd : drop (length l1 + 1) (l1 ++ x :: l2) = l2).
  { replace (length l1 + 1)%nat with (length (l1 ++ [x])) by (rewrite length_app; cbn; lia).
    change (x :: l2) with ([x] ++ l2). rewrite app_assoc. apply drop_app_length. }
  by rewrite Hd.
Qed.

Section Session.
Variable env : Env.
Hypothesis Htiming : timing_representable env.

Lemma session_message_exact session b m :
  wf m -> recvBuf m !! 1%nat = Some b ->
  wp (session_control_message env session) (fun r m' => r = LE_OK /\ but_sending m m' /\
    exists p2 tenth p2star,
      to_unsigned 32 (p2_interval env session) = Some p2 /\
      to_unsigned 32 (F32.div (p2star_interval (config env) session) (F32.of_Z 10)) = Some tenth /\
      to_unsigned 32 (p2star_interval (config env) session) = Some p2star /\
      message m' = session_response (Z.land b 0x7F) p2 tenth p2star) m.
Proof.
  intros Hwf Hb. pose proof (wf_sendBuf _ Hwf) as Hl.
  destruct Htiming as [_ Ht]. destruct (Ht session) as ([p2 H1] & [tenth H2] & [p2star H3]).
  unfold session_control_message. wp_step. eapply wp_demand; [exact H1|]. wp_step.
  eapply wp_demand; [exact H2|]. wp_step. eapply wp_demand; [exact H3|]. wp_step.
  apply wp_rd; [pose proof (wf_recvBuf _ Hwf); lia|]. intros b' Hb'. change (Z.to_nat 1) with 1%nat in Hb'.
  simplify_eq. rewrite !high_byte, !low_byte.
  destruct (sendBuf m) as [|x0 [|x1 [|x2 [|x3 [|x4 [|x5 rest]]]]]] eqn:Eb; cbn in Hl; try lia.
  wp_step. eapply (wp_wr_at []); [exact Eb|done|].
  wp_step. eapply (wp_wr_at [_]); [reflexivity|done|].
  wp_step. eapply (wp_wr_at [_; _]); [reflexivity|done|].
  wp_step. eapply (wp_wr_at [_; _; _]); [reflexivity|done|].
  wp_step. eapply (wp_wr_at [_; _; _; _]); [reflexivity|done|].
  wp_step. eapply (wp_wr_at [_; _; _; _; _]); [reflexivity|done|].
  uds_steps. split; [done|]. split; [done|]. exists p2, tenth, p2star. done.
Qed.

Lemma wait_session_exact m :
  wf m -> ao_ok (mSecurityAccess m) -> state_fn (mSecurityAccess m) <> State_initial ->
  is_Some (session_target SESSION_CONTROL_SIG m) ->
  wp (wait_session_control env) (fun posted m' => posted = true /\ wf m' /\
    recvBuf m' = recvBuf m /\ SessionType m' = SessionType m /\ quietly m m' /\
    (locked_after SESSION_CONTROL_SIG m m' \/ put_off env SESSION_CONTROL_SIG m m')) m.
Proof.
  intros Hwf Hao Hst Ht. unfold wait_session_control, report_and_wait. do 3 wp_step. apply wp_assign_.
  wp_step. apply wp_assign_. set (m2 := _ <| semCount := 0 |>). wp_step. eapply wp_conseq.
  { apply (session_change_handled env SESSION_CONTROL_SIG true false m2); [by left|by destruct Hwf|done..]. }
  intros [] m3 [H1 _ H3 H4 H5 H6]. do 2 wp_step. wp_step. unfold frame, request_view in H3.
  injection H3 as Hb _ Hs _ _ _ _ _ _. split_and!; try done. by rewrite H5.
Qed.
End Session.

(** What the response to a session change leaves, after the effects [es]. *)
Definition change_reported (m : Mgr) (new : Z) (es : list Effect) : Prop :=
  Forall quiet es /\ (SessionType m <> new ->
    (exists interval, TimerEvent (if new =? DEFAULT_SESSION then S3_TIMER_STOP else S3_TIMER_START)
       interval (interface m) ∈ es) /\
    IndEvent SESSION_CHANGE_MSG_ID [ind_msg_code SESSION_CHANGE_MSG_ID; SessionType m; new] ∈ es).

(** The security-access object is told of a change to a configured session, and of a
    repetition of a session other than the default one. *)
Definition object_told (env : Env) (m : Mgr) (new : Z) : bool :=
  if negb (SessionType m =? new) then existsb (fun p => p.2 =? new) (GetSessionMap env)
  else negb (new =? DEFAULT_SESSION).
Definition levels_relocked (env : Env) (m : Mgr) (new : Z) (m' : Mgr) : Prop :=
  exists m1, mSecurityAccess m1 = mSecurityAccess m /\ SessionType m1 = new /\
    (locked_after SESSION_CONTROL_SIG m1 m' \/ put_off env SESSION_CONTROL_SIG m1 m').

(** What a session change leaves behind. *)
Definition session_applied (env : Env) (m : Mgr) (new : Z) (r : le_result_t) (m' : Mgr) : Prop :=
  r = LE_OK /\ SessionType m' = new /\
  (exists p2 tenth p2star,
    to_unsigned 32 (p2_interval env new) = Some p2 /\
    to_unsigned 32 (F32.div (p2star_interval (config env) new) (F32.of_Z 10)) = Some tenth /\
    to_unsigned 32 (p2star_interval (config env) new) = Some p2star /\
    message m' = session_response new p2 tenth p2star) /\
  emits m m' (change_reported m new) /\
  (object_told env m new = true -> levels_relocked env m new m').

Section Change.
Variables (env : Env) (b : Z) (m : Mgr).
Hypotheses (Hwf : wf m) (Hao : ao_ok (mSecurityAccess m))
  (Hst : state_fn (mSecurityAccess m) <> State_initial) (Htiming : timing_representable env)
  (Hbound : session_bound m) (Hb : recvBuf m !! 1%nat = Some b).

Let new := Z.land b 0x7F.
Let changed := m <| SessionType := new |>.

(** The object that is told has a session to go to. *)
Lemma changed_target es : is_Some (session_target SESSION_CONTROL_SIG (log changed es)).
Proof.
  unfold session_target. case_bool_decide; [|by eexists]. cbn.
  destruct (Z.eqb_spec new 1); cbn; [by eexists|]. apply fmap_is_Some. by apply (Hbound b).
Qed.

(** The response is sent last. *)
Lemma change_finished m2 es :
  wf m2 -> recvBuf m2 = recvBuf m -> SessionType m2 = new -> trace m2 = trace m ++ es ->
  change_reported m new es -> (object_told env m new = true -> levels_relocked env m new m2) ->
  wp (session_control_message env new) (session_applied env m new) m2.
Proof.
  intros H1 H2 H3 H4 H5 H6.
  eapply wp_conseq; [apply (session_message_exact env Htiming new b); [done|by rewrite H2]|].
  intros r m3 (-> & (Ha & Hs & Htr) & Hmsg). split_and!; [done|congruence|done|exists es; by rewrite Htr|].
  intros Htold. destruct (H6 Htold) as (m' & ? & ? & Hl). exists m'. split_and!; [done..|].
  unfold locked_after, put_off, session_of in *. by rewrite Ha.
Qed.

(** The object is told, or not, and the levels are relocked when it is. *)
Lemma change_waited es (c : bool) (k : M Mgr le_result_t) (Q : le_result_t -> Mgr -> Prop) :
  Forall quiet es ->
  (forall m2 es2, wf m2 -> recvBuf m2 = recvBuf m -> SessionType m2 = new ->
     trace m2 = trace m ++ es ++ es2 -> Forall quiet es2 ->
     (c = true -> levels_relocked env m new m2) -> wp k Q m2) ->
  wp (posted ← (if c then wait_session_control env else mret true);
      if negb posted then mret LE_TIMEOUT else k) Q (log changed es).
Proof.
  intros Hes Hk. assert (Hwf1 : wf changed) by (pose proof Hwf as []; by split).
  wp_step. destruct c.
  - eapply wp_conseq; [by apply wait_session_exact; [by apply wf_log|..|apply changed_target]|].
    intros posted m2 (-> & H1 & H2 & H3 & (es2 & H4 & H5) & H6). cbn [negb].
    apply (Hk m2 es2); try done; [by rewrite H4, trace_log, <- app_assoc|].
    intros _. exists (log changed es). by split_and!.
  - wp_step. by apply (Hk _ []); rewrite ?app_nil_r; [apply wf_log|..].
Qed.

(** A change restarts or stops the session timer, tells the object and is reported. *)
Lemma change_announced ev i :
  SessionType m <> new -> ev = (if new =? DEFAULT_SESSION then S3_TIMER_STOP else S3_TIMER_START) ->
  wp (posted ← (if existsb (fun p => p.2 =? new) (GetSessionMap env)
                then wait_session_control env else mret true);
      if negb posted then mret LE_TIMEOUT else
      emit (IndEvent SESSION_CHANGE_MSG_ID [ind_msg_code SESSION_CHANGE_MSG_ID; SessionType m; new]);;
      session_control_message env new) (session_applied env m new)
    (log changed [TimerEvent ev i (interface m)]).
Proof.
  intros Hc ->. apply change_waited; [by repeat constructor|]. intros m2 es2 H1 H2 H3 H4 H5 H6.
  wp_step. apply wp_emit. eapply change_finished; [by apply wf_log|done|done| | |].
  - rewrite trace_log, H4, <- !app_assoc. reflexivity.
  - split; [constructor; [done|]; apply Forall_app; split; [done|by constructor]|]. intros _. split.
    + exists i. by left.
    + rewrite !elem_of_app. right; right. by left.
  - intros Htrue. unfold object_told in Htrue. destruct (Z.eqb_spec (SessionType m) new); [done|].
    destruct (H6 Htrue) as (m' & ? & ? & ?). by exists m'.
Qed.
End Change.

(** A positive answer to a session change is carried out. The new session is the active
    one, the response carries it with the P2 and P2* intervals of its configuration, a change
    restarts or stops the session timer and is reported, and, when the object is told, the
    security levels of the session that was left are locked, or will be when the running
    delay ends. *)
Theorem session_change_applied (env : Env) (b : Z) (m : Mgr) :
  wf m -> ao_ok (mSecurityAccess m) -> state_fn (mSecurityAccess m) <> State_initial ->
  timing_representable env -> session_bound m -> recvBuf m !! 1%nat = Some b ->
  let new := Z.land b 0x7F in
  wp (SessionCtrlResp env SESSION_CONTROL_REQUEST_ID POSITIVE_RESPONSE) (fun r m' =>
    r = LE_OK /\ SessionType m' = new /\
    (exists p2 tenth p2star,
      to_unsigned 32 (p2_interval env new) = Some p2 /\
      to_unsigned 32 (F32.div (p2star_interval (config env) new) (F32.of_Z 10)) = Some tenth /\
      to_unsigned 32 (p2star_interval (config env) new) = Some p2star /\
      message m' = session_response new p2 tenth p2star) /\
    emits m m' (change_reported m new) /\
    (object_told env m new = true -> levels_relocked env m new m')) m.
Proof.
  intros Hwf Hao Hst Ht Hbound Hb new. unfold SessionCtrlResp.
  cbn [Z.eqb negb]. wp_step.
  apply wp_rd; [pose proof (wf_recvBuf _ Hwf); lia|]. intros b' Hb'. change (Z.to_nat 1) with 1%nat in Hb'.
  simplify_eq. cbv zeta. fold new. do 3 wp_step. apply wp_assign_. wp_step.
  pose proof Ht as [[s3 Hs3] _]. eapply wp_demand; [exact Hs3|].
  set (m1 := m <| SessionType := new |>). change (fun r m' => _) with (session_applied env m new).
  apply wp_if; intros Hc.
  - pose proof (change_announced env b m Hwf Hao Hst Ht Hbound Hb) as Hrest.
    apply negb_true_iff, Z.eqb_neq in Hc. wp_step.
    apply wp_if; intros Hn; apply wp_emit; apply Hrest; [done| |done|]; fold new; by rewrite Hn.
  - apply negb_false_iff, Z.eqb_eq in Hc. rewrite <- (log_nil m1). eapply change_waited; [done..|].
    intros m2 es2 H1 H2 H3 H4 H5 H6. eapply change_finished; [done..|exact H4| |].
    + split; [done|]. by intros [].
    + unfold object_told. fold new. rewrite Hc, Z.eqb_refl. exact H6.
Qed.

Lemma session_change_applied_witness :
  let m := sample_mgr 1 (sample_ao LockedNoActiveSeed 1) [0x10; 0x83] in
  let new := Z.land 0x83 0x7F in
  wp (SessionCtrlResp sample_env SESSION_CONTROL_REQUEST_ID POSITIVE_RESPONSE) (fun r m' =>
    r = LE_OK /\ SessionType m' = new /\
    (exists p2 tenth p2star,
      to_unsigned 32 (p2_interval sample_env new) = Some p2 /\
      to_unsigned 32 (F32.div (p2star_interval (config sample_env) new) (F32.of_Z 10)) = Some tenth /\
      to_unsigned 32 (p2star_interval (config sample_env) new) = Some p2star /\
      message m' = session_response new p2 tenth p2star) /\
    emits m m' (change_reported m new) /\
    (object_told sample_env m new = true -> levels_relocked sample_env m new m')) m.
Proof.
  apply (session_change_applied sample_env 0x83);
    [by apply sample_mgr_wf; [|repeat constructor]|apply sample_ao_ok; [lia|done]|discriminate
    |apply sample_timing| |reflexivity].
  intros b [= <-] _. eexists. vm_compute. reflexivity.
Defined.

(** ** The timers *)





