(* ===== verification/UdsTransferThms.v ===== *)
(** * The UDS stack: file transfers, session patterns and two defects *)
From Stdlib Require Import SpecFloat.
From S2P Require Import Prelude Ieee DiagCfg UdsTypes UdsSend SecAccess SecAccessSpec SecAccessResp.
From S2P Require Import UdsAccess UdsIndicate UdsTransfer UdsResp UdsMgr UdsAnswer UdsRequest UdsHandler.
From S2P Require Import Sample.

(** The path of a file-transfer request. *)
Definition file_path (m : Mgr) : list Z :=
  take (Z.to_nat (be16 (byte m 2) (byte m 3))) (drop 4 (recvBuf m)).

(** What is known of an accepted file transfer. *)
Record transfer_accepted (m : Mgr) : Prop := mkTransferAccepted {
  ta_mode : MOOP_ADD_FILE <= byte m 1 <= MOOP_RESUME_FILE;
  ta_path : 1 <= be16 (byte m 2) (byte m 3) /\ 4 + be16 (byte m 2) (byte m 3) <= recvDataLen m <= UDS_DATA_SIZE;
  ta_ascii : Forall (fun c => c <= 127) (file_path m);
  ta_idle : isXferActive m = false }.

Lemma byte_lookup m k v : recvBuf m !! Z.to_nat k = Some v -> byte m k = v.
Proof. unfold byte. by intros ->. Qed.

Lemma accepted_answerable m p :
  transfer_accepted m -> (MOOP_READ_FILE <= byte m 1 -> is_Some p.1) -> file_answerable m p.
Proof.
  intros [Hm Hp _ _] Hd. split.
  - intros b Hb. apply (byte_lookup m 1) in Hb as <-. auto.
  - intros hi lo Hhi Hlo. apply (byte_lookup m 2) in Hhi as <-. apply (byte_lookup m 3) in Hlo as <-. lia.
Qed.

Section FileTransfer.
Variables (env : Env) (a : AddrInfo) (m : Mgr).
Context `{!S3Representable (config env)}.
Hypothesis Hr : ready m.

Definition accepted_as (k : M Mgr le_result_t) : Prop :=
  wp k (fun _ m' => isInternalHandle m' = false -> transfer_accepted m /\ recvBuf m' = recvBuf m /\
    forall p, (MOOP_READ_FILE <= byte m 1 -> is_Some p.1) -> file_answerable m' p) m.

Lemma refused_as sid nrc : accepted_as (SendNRC env sid nrc a).
Proof.
  unfold accepted_as. eapply wp_conseq; [apply SendNRC_spec; [done|apply Hr]|].
  intros r m' (_ & Hc & _) Hi.
  pose proof (f_equal isInternalHandle Hc) as H. cbn in H. rewrite Hi, (rd_internal _ Hr) in H. done.
Qed.
Lemma if_refused (b : bool) sid nrc k :
  (b = false -> accepted_as k) -> accepted_as (if b then SendNRC env sid nrc a else k).
Proof. intros Hk. apply wp_if; intros Hb; [apply refused_as|by apply Hk]. Qed.

(** The end of every branch: the text, the state of the transfer, then acceptance. *)
Lemma text_checked sid moop :
  byte m 1 = moop -> MOOP_ADD_FILE <= moop <= MOOP_RESUME_FILE ->
  let len := be16 (byte m 2) (byte m 3) in
  1 <= len -> 4 + len <= recvDataLen m <= UDS_DATA_SIZE ->
  accepted_as (ascii ← demand (isAcsiiFormat (drop 4 (recvBuf m)) len) OutOfBounds;
    if negb ascii then SendNRC env sid REQ_OUT_OF_RANGE a else
    if isXferActive m then SendNRC env sid CONDITIONS_NOT_CORRECT a else accept).
Proof.
  intros Hm Hr1 len Hl1 Hl2. pose proof (wf_recvBuf _ (rd_wf _ Hr)) as Hlen. unfold accepted_as. wp_step.
  unfold isAcsiiFormat, slice. rewrite decide_True by (rewrite length_drop; lia). eapply wp_demand; [done|].
  apply if_refused; intros Ha. apply if_refused; intros Hx. unfold accepted_as, accept. wp_step. apply wp_assign_. wp_step.
  assert (Hta : transfer_accepted m).
  { split; [by rewrite Hm|done| |done]. apply negb_false_iff in Ha.
    pose proof (proj1 (forallb_forall _ _) Ha) as Hall.
    apply Forall_forall. intros c Hc. apply Z.leb_le, (Hall c), list_elem_of_In.
    unfold file_path in Hc. fold len in Hc.
    replace (Z.to_nat len) with (Z.to_nat len `min` Z.to_nat (len + 1))%nat in Hc by lia.
    rewrite <- take_take in Hc. apply elem_of_take in Hc as (i & Hi & _).
    by eapply list_elem_of_lookup_2. }
  intros _. split_and!; [done|done|]. intros p Hp. by apply (accepted_answerable m).
Qed.
End FileTransfer.

(** An accepted file transfer can be answered. A file-transfer request that is passed on has
    a known mode of operation and a non-empty ASCII path inside the message, and no transfer
    was active; so the response builder, which indexes the receive buffer by the length of
    the path, stays inside it whatever the service answers, provided the service gives the
    data that a read must return. *)
Theorem accepted_transfer_answerable (env : Env) (a : AddrInfo) (m : Mgr) :
  S3Representable (config env) -> ready m ->
  wp (IndicateRxFileXferReq env a) (fun _ m' => isInternalHandle m' = false ->
    transfer_accepted m /\ recvBuf m' = recvBuf m /\
    forall p, (MOOP_READ_FILE <= byte m 1 -> is_Some p.1) -> file_answerable m' p) m.
Proof.
  intros HS Hr. pose proof (rd_wf _ Hr) as Hwf. pose proof (wf_recvBuf _ Hwf) as Hl.
  unfold IndicateRxFileXferReq.
  change (accepted_as m (IndicateRxFileXferReq env a)).
  assert (Hrd : forall k c, 0 <= k < UDS_MAX_DATA_SIZE -> accepted_as m (c (byte m k)) ->
    accepted_as m (rd recvBuf k ≫= c)).
  { intros k c Hk Hc. unfold accepted_as. wp_step. apply wp_rd; [lia|]. intros v Hv.
    by rewrite <- (byte_lookup m k v Hv). }
  assert (Hget : forall c, accepted_as m (c m) -> accepted_as m (get ≫= c)) by done.
  assert (Hlen : forall c, accepted_as m (c (recvDataLen m)) -> accepted_as m (gets recvDataLen ≫= c)) by done.
  assert (Hok : forall sid, 1 <= be16 (byte m 2) (byte m 3) ->
    4 + be16 (byte m 2) (byte m 3) <= recvDataLen m <= UDS_DATA_SIZE ->
    MOOP_ADD_FILE <= byte m 1 <= MOOP_RESUME_FILE -> _) by (intros; by apply (text_checked env a m Hr sid (byte m 1))).
  pose proof (if_refused env a m Hr) as Href.
  unfold IndicateRxFileXferReq. apply Hrd; [lia|]. apply Hget. apply Href. intros Hlen5.
  apply Hrd; [lia|]. apply Href. intros Hmoop.
  assert (Hrd16 : forall c, accepted_as m (c (be16 (byte m 2) (byte m 3))) -> accepted_as m (rd16 2 ≫= c)).
  { intros c Hc. unfold rd16, accepted_as. wp_step. wp_step. apply wp_rd; [lia|]. intros hi Hhi.
    wp_step. apply wp_rd; [lia|]. intros lo Hlo. wp_step.
    by rewrite <- (byte_lookup m 2 hi Hhi), <- (byte_lookup m 3 lo Hlo). }
  assert (Hsize : forall off n u c, 0 <= n -> 0 <= off -> off + 2 * n <= UDS_MAX_DATA_SIZE ->
    (forall v, accepted_as m (c v)) ->
    accepted_as m (demand (ValueOfFileSize (drop (Z.to_nat off) (recvBuf m)) n u) OutOfBounds ≫= c)).
  { intros off n u c H1 H2 H3 Hc. unfold accepted_as. wp_step. unfold ValueOfFileSize, slice.
    rewrite decide_True by (destruct u; rewrite ?length_drop; lia). apply Hc. }
  apply Hrd16. set (len := be16 (byte m 2) (byte m 3)) in *.
  apply wp_if; intros H1; [|apply wp_if; intros H2; [|apply wp_if; intros H3]].
  - unfold filexfer_path_only. apply Hlen. do 2 (apply Href; intros). apply Hok; lia.
  - unfold filexfer_write. apply Hget. cbv zeta. apply Href; intros. apply Href; intros.
    apply Hrd; [lia|]. do 2 (apply Href; intros). apply Hrd; [lia|]. apply Href; intros.
    do 2 (apply Hsize; [lia..|]; intros). do 3 (apply Href; intros). apply Hok; lia.
  - unfold filexfer_read. apply Hlen. do 2 (apply Href; intros). apply Hrd; [lia|].
    apply Href; intros. apply Hok; lia.
  - lia.
Qed.

Lemma accepted_transfer_answerable_witness :
  let m := sample_mgr 3 (sample_ao LockedNoActiveSeed 0) [0x38; 0x05; 0x00; 0x02; 0x2F; 0x61] in
  wp (IndicateRxFileXferReq sample_env tester) (fun _ m' => isInternalHandle m' = false ->
    transfer_accepted m /\ recvBuf m' = recvBuf m /\
    forall p, (MOOP_READ_FILE <= byte m 1 -> is_Some p.1) -> file_answerable m' p) m.
Proof.
  apply accepted_transfer_answerable; [apply sample_s3|].
  split; [by apply sample_mgr_wf; [|repeat constructor]|apply sample_ao_ok; [lia|done]|discriminate|done].
Defined.

(** ** Two defects of the request checks *)

(** The answers to a request, and whether it was passed on. *)
Definition reaction (c : M Mgr le_result_t) (m : Mgr) : option (list (list Z) * bool) :=
  match c m with
  | Done (_, m') => Some ((sent (trace m')).*2, negb (isInternalHandle m'))
  | Faulted _ => None
  end.

(** A stale byte decides. Two requests to read the same directory, equal in all their
    bytes, are treated differently because of the byte that an earlier, longer request left
    behind them in the receive buffer: the check for ASCII reads one byte past the path. *)
Theorem stale_byte_refuses_path :
  let request := [0x38; 0x05; 0x00; 0x02; 0x2F; 0x61] in
  let after bs := (sample_mgr 3 (sample_ao LockedNoActiveSeed 0) (request ++ bs)) <| recvDataLen := 6 |> in
  reaction (IndicateRxFileXferReq sample_env tester) (after [0x00]) = Some ([], true) /\
  reaction (IndicateRxFileXferReq sample_env tester) (after [0xFF]) =
    Some ([[UDS_NEGATIVE_RESP_SID; 0x38; REQ_OUT_OF_RANGE]], false).
Proof. vm_compute. split; reflexivity. Qed.

(** The sample configuration with a pattern: the extended session may only be entered from
    session 2. *)
Definition pattern_env : Env :=
  let conf := sample_conf in
  {| config :=
       {| diagConf :=
            {| did_all := did_all conf; services_all := services_all conf;
               auth_anti_conf := auth_anti_conf conf;
               session_secur_level := session_secur_level conf;
               diag_session :=
                 (fun p => (p.1, mkDiagSessionEntry (dse_short_name p.2) (dse_id p.2) (p2_server_max p.2)
                    (p2_start_server_max p.2) (if dse_id p.2 =? 3 then "from 2" else "") (double_lit 5 0) ""))
                 <$> diag_session conf;
               secur_binding := secur_binding conf; routines_all := routines_all conf;
               routine_parameters_all := routine_parameters_all conf;
               auth_roles := auth_roles conf; io_all := io_all conf;
               common_props := common_props conf |};
          pattern_maps := [("from 2", [1; 2; 0])];
          is_forbidden := is_forbidden sample_config;
          validate_base_record := validate_base_record sample_config |};
     featureA := false;
     doip_DiagRequest := doip_DiagRequest sample_env;
     timer_IsRunning := timer_IsRunning sample_env;
     timer_GetMsTimeRemaining := timer_GetMsTimeRemaining sample_env;
     timer_GetExpiryCount := timer_GetExpiryCount sample_env;
     cfg_GetInt := cfg_GetInt sample_env |}.

(** Suppressing the response avoids the pattern. From the default session a request for the
    extended session, which may only be entered from another one, is refused with 0x22; with
    the bit that suppresses the positive response it is passed on, because the pattern is
    looked up for the unmasked byte. *)
Theorem suppress_bit_avoids_pattern :
  let asks b := sample_mgr 1 (sample_ao LockedNoActiveSeed 1) [0x10; b] in
  reaction (IndicateSessionCtrlReq pattern_env tester) (asks 0x03) =
    Some ([[UDS_NEGATIVE_RESP_SID; 0x10; CONDITIONS_NOT_CORRECT]], false) /\
  reaction (IndicateSessionCtrlReq pattern_env tester) (asks 0x83) = Some ([], true).
Proof. vm_compute. split; reflexivity. Qed.

(** The session timer has two intervals. With a configured S3 time of 2.5 seconds the timer
    is restarted after a response with 2500 milliseconds, but started after a request or a
    session change with 2000: one place converts to an integer after the product with 1000,
    the others before. *)
Theorem s3_intervals_differ (cfg : Config) :
  s3_server_max (get_common_props cfg) = double_lit 25 1 ->
  s3_interval_scaled cfg = Some 2500 /\ s3_interval_truncated cfg = Some 2000.
Proof. unfold s3_interval_scaled, s3_interval_truncated. intros ->. by vm_compute. Qed.

Lemma s3_intervals_differ_witness :
  let cfg := {| diagConf :=
       {| did_all := []; services_all := []; auth_anti_conf := []; session_secur_level := [];
          diag_session := []; secur_binding := []; routines_all := []; routine_parameters_all := [];
          auth_roles := []; io_all := []; common_props := mkCommonProps 3 "" (double_lit 25 1) true 0xFF |};
     pattern_maps := []; is_forbidden := fun _ _ => Returns false;
     validate_base_record := fun _ _ => Throws runtime_error |} in
  s3_interval_scaled cfg = Some 2500 /\ s3_interval_truncated cfg = Some 2000.
Proof. apply s3_intervals_differ. reflexivity. Defined.
