(* ===== verification/IdpsThms.v ===== *)
(** * The UDS stack: what the intrusion-detection service is told *)
From S2P Require Import Prelude DiagCfg UdsTypes UdsSend Idps SecAccessSpec UdsAnswer UdsRequest Sample.

(** The records given to the callback of the intrusion-detection service. *)
Definition idps_reports (es : list Effect) : list IdpsCallbackInfo :=
  omap (fun e => match e with IdpsEvent msg => IdpsHandler msg | _ => None end) es.

(** The status of a response: its code, or zero when it is positive. *)
Definition response_status (data : list Z) : Z :=
  match data with [b0; _; nrc] => if b0 =? UDS_NEGATIVE_RESP_SID then nrc else 0 | _ => 0 end.

(** The services whose positive response is recognised. *)
Definition service_byte (sid : Z) : bool :=
  (0 <=? sid) && (sid <? 256) && negb (Z.testbit sid 6) && negb (sid =? 0x3F).
Lemma service_byte_positive sid :
  service_byte sid = true ->
  Z.land (u8 (sid + 0x40)) (Z.lnot 0x40) = sid /\ u8 (sid + 0x40) <> UDS_NEGATIVE_RESP_SID.
Proof.
  intros H. assert (Hall : forallb (fun s => negb (service_byte s) ||
    ((Z.land (u8 (s + 0x40)) (Z.lnot 0x40) =? s) && negb (u8 (s + 0x40) =? 0x7F))) (seqZ 0 256) = true)
    by (vm_compute; reflexivity).
  assert (Hin : sid ∈ seqZ 0 256).
  { unfold service_byte in H. apply elem_of_seqZ. lia. }
  pose proof (proj1 (forallb_forall _ _) Hall sid (proj1 (list_elem_of_In _ _) Hin)) as Hs.
  cbv beta in Hs. rewrite H in Hs. cbn [negb orb] in Hs. apply andb_true_iff in Hs as [H1 H2].
  split; [by apply Z.eqb_eq|by apply Z.eqb_neq, negb_true_iff].
Qed.

(** The message that is sent to the thread of the reports. *)
Definition intrusion_msg (m : Mgr) (sid : Z) : IdpsMsg :=
  mkIdpsMsg (sa (addrInfo m)) (ta (addrInfo m)) (ai_vlanId (addrInfo m)) sid (response_status (message m))
    (take 32 (request m)).

(** A report names the tester, the service and the status of the response; it is of the higher
    level for security access and authentication; its parameters are the bytes that follow
    the service in the request. *)
Record report_of (m : Mgr) (sid : Z) (cb : IdpsCallbackInfo) : Prop := mkReportOf {
  ro_tester : cb_sa cb = sa (addrInfo m) /\ cb_ta cb = ta (addrInfo m) /\ cb_vlanId cb = ai_vlanId (addrInfo m);
  ro_service : is_sid (idpsStatusInfo cb) = sid;
  ro_status : is_status (idpsStatusInfo cb) = response_status (message m);
  ro_level : securityLevel (idpsStatusInfo cb) = 2 <->
    sid = SECURITY_ACCESS_REQUEST_ID \/ sid = AUTHENTICATION_REQUEST_ID;
  ro_params : (is_data (idpsStatusInfo cb) ++ is_extraData (idpsStatusInfo cb))
                `prefix_of` drop 1 (request m) }.

(** The first bytes of a list that is long enough. *)
Lemma head_bytes (b : list Z) n : (n <= length b)%nat ->
  take n b = (fun i => default 0 (b !! i)) <$> seq 0 n.
Proof.
  revert b. induction n as [|n IH]; intros [|x b] Hn; cbn in *; try lia; try done.
  f_equal. rewrite IH by lia. rewrite <- fmap_S_seq, <- list_fmap_compose. done.
Qed.
Lemma params_prefix (b : list Z) (ps : list Z) n : (n <= length b)%nat ->
  ps = drop 1 ((fun i => default 0 (b !! i)) <$> seq 0 n) -> ps `prefix_of` drop 1 b.
Proof.
  intros Hn ->. rewrite <- head_bytes by done. exists (drop (Nat.max 1 n) b).
  destruct n as [|n]; [by destruct b|]. destruct b as [|x b]; [done|].
  change (b = take n b ++ drop n b). by rewrite take_drop.
Qed.

Lemma handler_report m sid cb : IdpsHandler (intrusion_msg m sid) = Some cb -> report_of m sid cb.
Proof.
  unfold IdpsHandler. cbn [idps_status intrusion_msg idps_sid idps_sa idps_ta idps_vlanId].
  destruct (if response_status (message m) =? 0 then _ else _) as [[d x]|] eqn:Ep; cbn; [|done].
  intros [= <-]. split; cbn; [done..| |].
  - destruct (Z.eqb_spec sid 39), (Z.eqb_spec sid 41); cbn; lia.
  - assert (Hlen : (length (take 32 (request m)) <= length (request m))%nat) by (rewrite length_take; lia).
    assert (Hpre : forall n ps, (n <= length (take 32 (request m)))%nat ->
      ps = drop 1 ((fun i => default 0 (take 32 (request m) !! i)) <$> seq 0 n) -> ps `prefix_of` drop 1 (request m)).
    { intros n ps Hn Hps. etrans; [by eapply params_prefix|].
      exists (drop 31 (drop 1 (request m))). destruct (request m) as [|y b]; [done|].
      change (b = take 31 b ++ drop 31 b). by rewrite take_drop. }
    unfold positive_params, negative_params, idps_dataLen, dataBuf in Ep. cbn [idps_dataBuf idps_sid intrusion_msg] in Ep.
    repeat match type of Ep with (if ?b then _ else _) = _ => let E := fresh in destruct b eqn:E end; simplify_eq.
    all: first [apply (Hpre 0%nat); [lia|done]|apply (Hpre 2%nat); [lia|done]
               |apply (Hpre 3%nat); [lia|done]|apply (Hpre 4%nat); [lia|done]].
Qed.

Lemma handler_monitored m sid :
  response_status (message m) <> 0 -> nrc_monitored sid = true ->
  is_Some (IdpsHandler (intrusion_msg m sid)).
Proof.
  intros Hs Hmon. unfold IdpsHandler. cbn [idps_status intrusion_msg].
  rewrite (proj2 (Z.eqb_neq _ _) Hs). unfold negative_params. cbn [idps_sid intrusion_msg].
  rewrite Hmon. destruct (Z.eqb_spec sid 46) as [->|_]; [discriminate Hmon|]. by eexists.
Qed.

(** What the intrusion-detection service is told of a response. *)
Record told_of (env : Env) (m : Mgr) (sid : Z) (es : list Effect) : Prop := mkToldOf {
  to_once : (length (idps_reports es) <= 1)%nat;
  to_faithful : forall cb, cb ∈ idps_reports es -> report_of m sid cb;
  to_silent : response_status (message m) = REQUEST_CORRECTLY_RECEIVED_RESPONSE_PENDING \/
    IsIDPSSupported (config env) sid = false -> es = [];
  to_complete : IsIDPSSupported (config env) sid = true -> nrc_monitored sid = true ->
    response_status (message m) <> POSITIVE_RESPONSE ->
    response_status (message m) <> REQUEST_CORRECTLY_RECEIVED_RESPONSE_PENDING ->
    exists cb, idps_reports es = [cb] }.

Lemma told_report env m sid :
  wf m -> recvDataLen m <= UDS_MAX_DATA_SIZE ->
  response_status (message m) <> REQUEST_CORRECTLY_RECEIVED_RESPONSE_PENDING ->
  wp (if negb (IsIDPSSupported (config env) sid) then mret tt else
      data ← demand (slice (recvBuf m) (if recvDataLen m <? 32 then recvDataLen m else 32)) OutOfBounds;
      emit (IdpsEvent (mkIdpsMsg (sa (addrInfo m)) (ta (addrInfo m)) (ai_vlanId (addrInfo m))
                         sid (response_status (message m)) data)))
    (fun _ m' => exists es, m' = log m es /\ told_of env m sid es) m.
Proof.
  intros [] Hlen Hs. apply wp_if; intros Hsup.
  - wp_step. exists []. split; [by rewrite log_nil|]. apply negb_true_iff in Hsup.
    split; [cbn; lia|by intros ? []%not_elem_of_nil|done|congruence].
  - apply negb_false_iff in Hsup. wp_step. unfold slice. rewrite decide_True by (case_match; lia).
    eapply wp_demand; [done|]. apply wp_emit. eexists. split; [done|].
    assert (Hd : take (Z.to_nat (if recvDataLen m <? 32 then recvDataLen m else 32)) (recvBuf m) = take 32 (request m)).
    { unfold request. rewrite take_take. f_equal. destruct (Z.ltb_spec (recvDataLen m) 32); lia. }
    rewrite Hd. fold (intrusion_msg m sid). split.
    + cbn. destruct (IdpsHandler _); cbn; lia.
    + intros cb. cbn. destruct (IdpsHandler _) as [x|] eqn:E; [|by intros []%not_elem_of_nil].
      intros [->|[]%not_elem_of_nil]%elem_of_cons. by apply handler_report.
    + intros [|]; congruence.
    + intros _ Hmon H0 _. destruct (handler_monitored m sid H0 Hmon) as [cb Hcb]. exists cb. cbn. by rewrite Hcb.
Qed.

(** The intrusion-detection service is told the truth. For a response that has been sent to
    a request, the thread of the reports is told at most once, and the record that reaches
    the callback names the tester, the service and the code of the response, has the right
    level, and carries bytes that follow the service in the request. Nothing is reported for
    "response pending" and for services not configured for reports, and every other negative
    response of a monitored service is reported. *)
Theorem intrusion_reported (env : Env) (sid : Z) (m : Mgr) :
  wf m -> 1 <= recvDataLen m <= UDS_MAX_DATA_SIZE -> service_byte sid = true ->
  response_to sid (message m) ->
  wp (SendIdpsIndMsg env) (fun _ m' => exists es, m' = log m es /\ told_of env m sid es) m.
Proof.
  intros Hwf Hlen Hsid Hresp. pose proof Hwf as []. destruct (service_byte_positive sid Hsid) as [Hback Hpos].
  unfold message in Hresp. assert (Hs1 : 1 <= sendDataLen m).
  { destruct (Z.le_gt_cases 1 (sendDataLen m)) as [|Hlt]; [done|].
    replace (Z.to_nat (sendDataLen m)) with 0%nat in Hresp by lia.
    destruct Hresp as [_ [[? [=]]|[? [=]]]]. }
  unfold SendIdpsIndMsg. do 2 wp_step.
  apply wp_if; intros Hsmall; [lia|]. wp_step. apply wp_rd; [lia|]. intros b0 Hb0.
  destruct Hresp as [_ [[nrc Hm]|[rest Hm]]].
  - assert (Hl3 : sendDataLen m = 3).
    { apply (f_equal length) in Hm. rewrite length_take in Hm. cbn in Hm. lia. }
    assert (Hst : response_status (message m) = nrc) by (unfold message; by rewrite Hm).
    rewrite Hl3 in Hm |- *. change (Z.to_nat 3) with 3%nat in Hm. change (Z.to_nat 0) with 0%nat in Hb0.
    destruct (sendBuf m) as [|x0 [|x1 [|x2 rest]]] eqn:Eb; try done. cbn in Hm. injection Hm as -> -> ->.
    cbn in Hb0. injection Hb0 as <-. cbn [Z.eqb Pos.eqb negb].
    wp_step. apply wp_rd; [rewrite Eb; cbn; lia|]. intros v Hv. rewrite Eb in Hv. cbn in Hv. injection Hv as <-.
    wp_step. apply wp_rd; [rewrite Eb; cbn; lia|]. intros v Hv. rewrite Eb in Hv. cbn in Hv. injection Hv as <-.
    apply wp_if; intros Hn.
    + apply Z.eqb_eq in Hn. wp_step. exists []. split; [by rewrite log_nil|].
      split; [cbn; lia|by intros ? []%not_elem_of_nil|done|]. intros _ _ _ []. congruence.
    + apply Z.eqb_neq in Hn. rewrite <- Hst. apply told_report; [done|lia|congruence].
  - assert (Hb : b0 = u8 (sid + 64)).
    { destruct (sendBuf m) as [|x0 b]; [done|]. cbn in Hb0. injection Hb0 as <-.
      destruct (Z.to_nat (sendDataLen m)) eqn:En; [lia|]. by injection Hm. }
    subst b0. rewrite (proj2 (Z.eqb_neq _ _) Hpos), Hback.
    assert (Hst : response_status (message m) = 0).
    { unfold message. rewrite Hm. unfold response_status.
      destruct rest as [|? [|? [|]]]; try done. by rewrite (proj2 (Z.eqb_neq _ _) Hpos). }
    rewrite <- Hst. apply told_report; [done|lia|by rewrite Hst].
Qed.

(** The sample configuration with reports for every service. *)
Definition idps_env : Env :=
  let conf := sample_conf in
  {| config :=
       {| diagConf :=
            {| did_all := did_all conf;
               services_all := (fun p => (p.1, mkServiceEntry true true true false "" any_access
                                                 (svc_sub_functions p.2))) <$> services_all conf;
               auth_anti_conf := auth_anti_conf conf; session_secur_level := session_secur_level conf;
               diag_session := diag_session conf; secur_binding := secur_binding conf;
               routines_all := routines_all conf; routine_parameters_all := routine_parameters_all conf;
               auth_roles := auth_roles conf; io_all := io_all conf; common_props := common_props conf |};
          pattern_maps := pattern_maps sample_config; is_forbidden := is_forbidden sample_config;
          validate_base_record := validate_base_record sample_config |};
     featureA := false;
     doip_DiagRequest := doip_DiagRequest sample_env;
     timer_IsRunning := timer_IsRunning sample_env;
     timer_GetMsTimeRemaining := timer_GetMsTimeRemaining sample_env;
     timer_GetExpiryCount := timer_GetExpiryCount sample_env;
     cfg_GetInt := cfg_GetInt sample_env |}.

Lemma intrusion_reported_witness :
  let m := (sample_mgr 3 (sample_ao LockedNoActiveSeed 0) [0x27; 0x02; 0xAA])
             <| sendBuf := buf [0x7F; 0x27; 0x35] |> <| sendDataLen := 3 |> in
  IsIDPSSupported (config idps_env) 0x27 = true /\
  wp (SendIdpsIndMsg idps_env) (fun _ m' => exists es, m' = log m es /\ told_of idps_env m 0x27 es) m.
Proof.
  split; [reflexivity|]. apply intrusion_reported; [|split; discriminate|reflexivity|].
  - destruct (sample_mgr_wf 3 (sample_ao LockedNoActiveSeed 0) [0x27; 0x02; 0xAA]) as [];
      [done|by repeat constructor|by split].
  - apply response_negative.
Defined.
