(* ===== verification/SmsThms.v ===== *)
(** * The SMS PDU codec: round trips and limits

    A buffer of octets is read as the little-endian number it stores, in which the septets
    of a packed text are the digits in base 128. *)
From S2P Require Import Prelude SmsPdu.

(** ** Little-endian numbers *)
Fixpoint le_num (base : Z) (l : list Z) : Z :=
  match l with [] => 0 | x :: l' => x + base * le_num base l' end.
Abbreviation octets := (le_num 256).
Abbreviation septets := (le_num 128).

Lemma le_num_app base l1 l2 :
  le_num base (l1 ++ l2) = le_num base l1 + base ^ Z.of_nat (length l1) * le_num base l2.
Proof.
  induction l1 as [|x l1 IH]; cbn [le_num app length]; [rewrite Z.pow_0_r; lia|].
  rewrite IH, Nat2Z.inj_succ, Z.pow_succ_r by lia. lia.
Qed.
Lemma le_num_bound base l :
  1 <= base -> Forall (fun x => 0 <= x < base) l -> 0 <= le_num base l < base ^ Z.of_nat (length l).
Proof.
  intros Hb. induction 1 as [|x l Hx _ IH]; cbn [le_num length]; [rewrite Z.pow_0_r; lia|].
  rewrite Nat2Z.inj_succ, Z.pow_succ_r by lia. nia.
Qed.
Lemma le_num_zeros base n : le_num base (replicate n 0) = 0.
Proof. induction n as [|n IH]; cbn; [done|]. rewrite IH. lia. Qed.

(** The digit at a position. *)
Lemma le_num_digit base l i x :
  1 <= base -> Forall (fun x => 0 <= x < base) l -> l !! i = Some x ->
  le_num base l / base ^ Z.of_nat i mod base = x.
Proof.
  intros Hb Hl Hi. pose proof (take_drop_middle _ _ _ Hi) as Heq.
  rewrite <- Heq in Hl |- *. apply Forall_app in Hl as [Ht [Hx Hd]%Forall_cons].
  rewrite le_num_app. cbn [le_num].
  assert (Hlen : length (take i l) = i) by (rewrite length_take; apply lookup_lt_Some in Hi; lia).
  pose proof (le_num_bound base _ Hb Ht) as Hbound. rewrite Hlen in *.
  assert (0 < base ^ Z.of_nat i) by (apply Z.pow_pos_nonneg; lia).
  rewrite (Z.mul_comm (base ^ _)), Z.div_add, Z.div_small, Z.add_0_l by lia.
  rewrite Z.mul_comm, Z.mod_add, Z.mod_small by lia. done.
Qed.

(** Appending high zeros changes nothing, and a number that fits below a position has
    nothing but zeros above it. *)
Lemma le_num_low base l i :
  2 <= base -> Forall (fun x => 0 <= x < base) l -> (i <= length l)%nat ->
  le_num base l < base ^ Z.of_nat i -> drop i l = replicate (length l - i) 0.
Proof.
  intros Hb. revert i. induction l as [|x l IH]; intros [|i] Hl Hi Hlt; cbn [le_num length drop] in *; try lia; [done| |].
  - apply Forall_cons in Hl as [Hx Hl]. rewrite Z.pow_0_r in Hlt.
    pose proof (le_num_bound base l ltac:(lia) Hl) as Hbd.
    assert (x = 0) as -> by nia. assert (Hl0 : le_num base l < 1) by nia.
    specialize (IH 0%nat Hl ltac:(lia)). rewrite Z.pow_0_r, Nat.sub_0_r, drop_0 in IH.
    rewrite IH at 1 by done. done.
  - apply Forall_cons in Hl as [Hx Hl]. apply IH; [done|lia|].
    rewrite Nat2Z.inj_succ, Z.pow_succ_r in Hlt by lia. nia.
Qed.

(** ** Septets in octets *)
Lemma lor_add b v k : 0 <= k -> 0 <= b < 2 ^ k -> Z.lor b (Z.shiftl v k) = b + v * 2 ^ k.
Proof.
  intros Hk Hb. rewrite <- Z.lxor_lor, <- Z.add_nocarry_lxor, Z.shiftl_mul_pow2; try lia.
  all: apply Z.bits_inj'; intros n Hn; rewrite Z.land_spec, Z.bits_0.
  all: destruct (decide (n < k)) as [Hlt|Hge].
  all: try (rewrite Z.shiftl_spec_low by lia; apply andb_false_r).
  all: destruct (decide (b = 0)) as [->|]; [by rewrite Z.bits_0|].
  all: rewrite (Z.bits_above_log2 b n); [done|lia|].
  all: assert (Z.log2 b < k) by (apply Z.log2_lt_pow2; lia); lia.
Qed.

(** Seven bits of two octets. *)
Lemma two_octets b0 b1 off : is_byte b0 -> 0 <= off < 8 ->
  Z.land (Z.lor (Z.shiftr b0 off) (if 0 <? off then u8 (Z.shiftl b1 (8 - off)) else 0)) 0x7F =
  (b0 + 256 * b1) / 2 ^ off mod 128.
Proof.
  intros Hb Hoff. replace (b0 + 256 * b1) with (Z.lor b0 (Z.shiftl b1 8)).
  2:{ rewrite lor_add by (unfold in_width in Hb; lia). lia. }
  rewrite <- Z.shiftr_div_pow2 by lia. change 128 with (2 ^ 7). rewrite <- Z.land_ones by lia.
  change 0x7F with (Z.ones 7). apply Z.bits_inj'. intros n Hn.
  rewrite !Z.land_spec. destruct (decide (n < 7)) as [Hn7|]; [|by rewrite Z.ones_spec_high, !andb_false_r by lia].
  rewrite Z.ones_spec_low, !andb_true_r, Z.lor_spec, !Z.shiftr_spec, Z.lor_spec by lia. f_equal.
  destruct (Z.ltb_spec 0 off).
  - unfold wrap. destruct (decide (n + off < 8)).
    + rewrite (Z.shiftl_spec_low b1 8) by lia. rewrite Z.mod_pow2_bits_low by lia. apply Z.shiftl_spec_low. lia.
    + rewrite Z.mod_pow2_bits_low, !Z.shiftl_spec by lia. f_equal. lia.
  - rewrite Z.bits_0. symmetry. apply Z.shiftl_spec_low. lia.
Qed.

Lemma pos_split pos : 0 <= pos < 2048 ->
  u8 (pos / 8) = pos / 8 /\ u8 (pos mod 8) = pos mod 8 /\
  2 ^ pos = 256 ^ Z.of_nat (Z.to_nat (pos / 8)) * 2 ^ (pos mod 8).
Proof.
  intros Hp. assert (0 <= pos / 8 < 256) by (split; [apply Z.div_pos|apply Z.div_lt_upper_bound]; lia).
  pose proof (Z.mod_pos_bound pos 8 ltac:(lia)). split_and!.
  - apply wrap_id. done.
  - apply wrap_id. unfold in_width. lia.
  - rewrite Z2Nat.id by lia. change 256 with (2 ^ 8). rewrite <- Z.pow_mul_r, <- Z.pow_add_r by lia.
    f_equal. apply Z.div_mod. lia.
Qed.

Lemma getb_lookup buf i v : 0 <= i -> buf !! Z.to_nat i = Some v -> getb buf i = Some v.
Proof. intros Hi Hv. unfold getb, at_. by rewrite decide_True. Qed.

(** Reading the seven bits at a position. *)
Lemma Get7BitsAtPos_spec buf pos :
  Forall is_byte buf -> 0 <= pos < 2048 -> pos / 8 < Z.of_nat (length buf) ->
  (pos mod 8 <> 0 -> pos / 8 + 1 < Z.of_nat (length buf)) ->
  Get7BitsAtPos buf pos = Some (octets buf / 2 ^ pos mod 128).
Proof.
  intros Hbuf Hp Hl Hl1. unfold Get7BitsAtPos. destruct (pos_split pos Hp) as (-> & -> & Hpow).
  pose proof (Z.mod_pos_bound pos 8 ltac:(lia)) as Hoff. assert (Hi : 0 <= pos / 8) by (apply Z.div_pos; lia).
  set (i := pos / 8) in *. set (off := pos mod 8) in *.
  destruct (lookup_lt_is_Some_2 buf (Z.to_nat i) ltac:(lia)) as [b0 Hb0].
  pose proof (take_drop_middle _ _ _ Hb0) as Heq.
  assert (Hlen : length (take (Z.to_nat i) buf) = Z.to_nat i) by (rewrite length_take; lia).
  assert (Hnum : octets buf / 2 ^ pos mod 128 =
    (b0 + 256 * octets (drop (S (Z.to_nat i)) buf)) / 2 ^ off mod 128).
  { rewrite <- Heq at 1. rewrite le_num_app, Hlen, Hpow. cbn [le_num].
    assert (Ht : 0 <= octets (take (Z.to_nat i) buf) < 256 ^ Z.of_nat (Z.to_nat i)).
    { pose proof (le_num_bound 256 (take (Z.to_nat i) buf) ltac:(lia)) as Hbd. rewrite Hlen in Hbd.
      apply Hbd. by apply Forall_take. }
    assert (0 < 256 ^ Z.of_nat (Z.to_nat i)) by (apply Z.pow_pos_nonneg; lia).
    rewrite <- Z.div_div by (try apply Z.pow_pos_nonneg; lia).
    rewrite (Z.mul_comm (256 ^ _)), Z.div_add, (Z.div_small _ _ Ht) by lia. done. }
  assert (Hby : is_byte b0) by (by eapply Forall_lookup_1).
  erewrite (getb_lookup buf i b0) by done. cbn [mbind option_bind].
  rewrite Hnum. set (r := octets (drop _ buf)).
  destruct (Z.ltb_spec 0 off) as [Hpos|Hzero].
  - destruct (lookup_lt_is_Some_2 buf (S (Z.to_nat i)) ltac:(lia)) as [b1 Hb1].
    erewrite (getb_lookup buf (i + 1) b1); [|lia|by replace (Z.to_nat (i + 1)) with (S (Z.to_nat i)) by lia].
    cbn [mbind option_bind]. f_equal. pose proof (two_octets b0 r off Hby Hoff) as H2.
    rewrite (proj2 (Z.ltb_lt 0 off)) in H2 by done. rewrite <- H2. do 2 f_equal.
    assert (Hr : r = b1 + 256 * octets (drop (S (S (Z.to_nat i))) buf))
      by (unfold r; by rewrite (drop_S _ _ _ Hb1)).
    unfold wrap. rewrite Hr, !Z.shiftl_mul_pow2 by lia.
    replace ((b1 + 256 * octets (drop (S (S (Z.to_nat i))) buf)) * 2 ^ (8 - off)) with
      (b1 * 2 ^ (8 - off) + octets (drop (S (S (Z.to_nat i))) buf) * 2 ^ (8 - off) * 2 ^ 8) by lia.
    by rewrite Z.mod_add by lia.
  - cbn [mbind option_bind]. f_equal. pose proof (two_octets b0 r off Hby Hoff) as H2.
    rewrite (proj2 (Z.ltb_ge 0 off)) in H2 by done. by rewrite <- H2.
Qed.

Lemma getb_middle l1 x l2 i : i = Z.of_nat (length l1) -> getb (l1 ++ x :: l2) i = Some x.
Proof. intros ->. apply getb_lookup; [lia|]. rewrite Nat2Z.id. by apply list_lookup_middle. Qed.
Lemma setb_middle l1 x l2 i v :
  i = Z.of_nat (length l1) -> setb (l1 ++ x :: l2) i v = Some (l1 ++ v :: l2).
Proof.
  intros ->. unfold setb. rewrite decide_True by (rewrite length_app; cbn; lia).
  rewrite Nat2Z.id. f_equal. replace (length l1) with (length l1 + 0)%nat by lia.
  by rewrite insert_app_r.
Qed.

(** A buffer with nothing from a position on. *)
Lemma free_from buf i off :
  Forall is_byte buf -> 0 <= off < 8 -> (i < length buf)%nat ->
  octets buf < 256 ^ Z.of_nat i * 2 ^ off ->
  exists l1 b0, buf = l1 ++ b0 :: replicate (length buf - S i) 0 /\ length l1 = i /\
    Forall is_byte l1 /\ 0 <= b0 < 2 ^ off /\ octets buf = octets l1 + 256 ^ Z.of_nat i * b0.
Proof.
  intros Hbuf Hoff Hi Hlt. assert (Hpow : 2 ^ off <= 2 ^ 7) by (apply Z.pow_le_mono_r; lia).
  assert (Hz : drop (S i) buf = replicate (length buf - S i) 0).
  { apply (le_num_low 256); [lia|done|lia|]. rewrite Nat2Z.inj_succ, Z.pow_succ_r by lia.
    assert (0 < 256 ^ Z.of_nat i) by (apply Z.pow_pos_nonneg; lia). nia. }
  destruct (lookup_lt_is_Some_2 buf i Hi) as [b0 Hb0]. pose proof (take_drop_middle _ _ _ Hb0) as Heq.
  rewrite Hz in Heq. assert (Hlen : length (take i buf) = i) by (rewrite length_take; lia).
  assert (Ht : Forall is_byte (take i buf)) by (by apply Forall_take).
  assert (Hnum : octets buf = octets (take i buf) + 256 ^ Z.of_nat i * b0).
  { rewrite <- Heq at 1. rewrite le_num_app, Hlen. cbn [le_num]. rewrite le_num_zeros. lia. }
  exists (take i buf), b0. split_and!; try done.
  - by destruct (Forall_lookup_1 is_byte _ _ _ Hbuf Hb0).
  - pose proof (le_num_bound 256 (take i buf) ltac:(lia) Ht).
    assert (0 < 256 ^ Z.of_nat i) by (apply Z.pow_pos_nonneg; lia). nia.
Qed.

(** Writing the seven bits at a position after which nothing has been written. *)
Lemma Set7BitsAtPos_spec buf val pos :
  Forall is_byte buf -> 0 <= pos < 2048 -> 0 <= val < 128 -> octets buf < 2 ^ pos ->
  pos + 7 <= 8 * Z.of_nat (length buf) ->
  exists buf', Set7BitsAtPos buf val pos = Some buf' /\ length buf' = length buf /\
    Forall is_byte buf' /\ octets buf' = octets buf + val * 2 ^ pos.
Proof.
  intros Hbuf Hp Hval Hlt Hlen. unfold Set7BitsAtPos.
  destruct (pos_split pos Hp) as (-> & -> & Hpow).
  pose proof (Z.mod_pos_bound pos 8 ltac:(lia)) as Hoff. assert (Hi : 0 <= pos / 8) by (apply Z.div_pos; lia).
  pose proof (Z.div_mod pos 8 ltac:(lia)) as Hdm.
  set (i := pos / 8) in *. set (off := pos mod 8) in *.
  rewrite Hpow in Hlt |- *. replace i with (Z.of_nat (Z.to_nat i)) by lia. set (n := Z.to_nat i) in *.
  destruct (free_from buf n off Hbuf Hoff ltac:(lia) Hlt) as (l1 & b0 & Heq & Hl1 & Hb1 & Hb0 & Hnum).
  rewrite Nat2Z.id. rewrite Hnum. clear Hnum Hlt.
  replace (Z.land val 0x7F) with val.
  2:{ change 0x7F with (Z.ones 7). rewrite Z.land_ones, Z.mod_small by lia. done. }
  assert (Hfin : forall v r, Forall is_byte (v :: r) -> length (v :: r) = (length buf - n)%nat ->
    octets (v :: r) = b0 + val * 2 ^ off ->
    exists buf', Some (l1 ++ v :: r) = Some buf' /\ length buf' = length buf /\ Forall is_byte buf' /\
      octets buf' = octets l1 + 256 ^ Z.of_nat n * b0 + val * (256 ^ Z.of_nat n * 2 ^ off)).
  { intros v r Hv Hl Ho. eexists. split; [reflexivity|]. split_and!.
    - rewrite length_app, Hl. lia.
    - by apply Forall_app.
    - rewrite le_num_app, Ho, Hl1. lia. }
  set (k := (length buf - S n)%nat) in *.
  assert (Hz : forall j, Forall is_byte (replicate j 0)) by (intros j; by apply Forall_replicate).
  assert (Hk : length buf = (S n + k)%nat) by lia. clearbody k. remember (length buf) as L eqn:HL. rewrite Heq.
  destruct (Z.eqb_spec off 0) as [E0|E0]; [|destruct (Z.eqb_spec off 1) as [E1|E1]].
  - rewrite setb_middle by lia. apply Hfin; [constructor; [unfold in_width; lia|done]|cbn; rewrite length_replicate; lia|].
    cbn [le_num]. rewrite le_num_zeros, E0 in *. change (2 ^ 0) with 1 in *. lia.
  - rewrite getb_middle by lia. cbn [mbind option_bind]. rewrite setb_middle by lia.
    rewrite E1 in *. rewrite lor_add by lia. change (2 ^ 1) with 2 in *. rewrite wrap_id by (unfold in_width; lia).
    apply Hfin; [constructor; [unfold in_width; lia|done]|cbn; rewrite length_replicate; lia|].
    cbn [le_num]. rewrite le_num_zeros. lia.
  - rewrite getb_middle by lia. cbn [mbind option_bind]. rewrite setb_middle by lia. cbn [mbind option_bind].
    destruct k as [|k'] eqn:Ek; [lia|]. rewrite replicate_S, cons_middle, app_assoc, setb_middle
      by (rewrite length_app; cbn; lia).
    rewrite <- app_assoc. rewrite lor_add, Z.shiftr_div_pow2 by lia. unfold wrap.
    assert (Hsplit : (b0 + val * 2 ^ off) mod 2 ^ 8 + 256 * (val / 2 ^ (8 - off)) = b0 + val * 2 ^ off /\
      0 <= val / 2 ^ (8 - off) < 256).
    { assert (Hcase : off = 2 \/ off = 3 \/ off = 4 \/ off = 5 \/ off = 6 \/ off = 7) by lia.
      destruct Hcase as [E|[E|[E|[E|[E|E]]]]]; rewrite E in Hb0 |- *; cbn in Hb0 |- *;
        Z.div_mod_to_equations; lia. }
    apply (Hfin _ (_ :: replicate k' 0)).
    + repeat constructor; [| |apply Hsplit..|done]; apply Z.mod_pos_bound; lia.
    + cbn. rewrite length_replicate. lia.
    + cbn [le_num]. rewrite le_num_zeros. lia.
Qed.

(** ** The alphabet *)

(** The septets of a character. *)
Definition char_septets (c : Z) : option (list Z) :=
  code ← getb ascii_8_to_7 c;
  Some (if ESCAPE_SHIFT_INDEX <=? code then [ESCAPE_7BIT; code - ESCAPE_SHIFT_INDEX] else [code]).

(** A character that the tables take back to itself. *)
Definition survives (c : Z) : bool :=
  match getb ascii_8_to_7 c with
  | Some code =>
      if ESCAPE_SHIFT_INDEX <=? code then escaped_char (code - ESCAPE_SHIFT_INDEX) =? c
      else match getb ascii_7_to_8 code with
           | Some x => (x =? c) && negb (x =? ESCAPE_7BIT)
           | None => false
           end
  | None => false
  end.

Fixpoint text_septets (text : list Z) : list Z :=
  match text with
  | [] => []
  | c :: text' => default [] (char_septets c) ++ text_septets text'
  end.

Abbreviation is_septet := (fun x => 0 <= x < 128).

(** Facts about the tables, checked entry by entry. *)
Lemma tables_checked :
  forallb (fun c => negb (survives c) ||
    match char_septets c with
    | Some [x] => (0 <=? x) && (x <? 128) && (x <? ESCAPE_SHIFT_INDEX)
    | Some [x; y] => (x =? ESCAPE_7BIT) && (0 <=? y) && (y <? 128)
    | _ => false
    end) (seqZ 0 256) = true.
Proof. vm_compute. reflexivity. Qed.

Lemma survives_range c : survives c = true -> 0 <= c < 256.
Proof.
  unfold survives, getb, at_. case_decide; [|done]. destruct (_ !! _) as [x|] eqn:E; [|done].
  apply lookup_lt_Some in E. cbn [length ascii_8_to_7] in E. lia.
Qed.
Lemma survives_septets c : survives c = true ->
  exists ss, char_septets c = Some ss /\ Forall is_septet ss /\ (1 <= length ss <= 2)%nat.
Proof.
  intros Hs. pose proof (survives_range c Hs) as Hc.
  assert (Hin : c ∈ seqZ 0 256) by (apply elem_of_seqZ; lia).
  pose proof (proj1 (forallb_forall _ _) tables_checked c (proj1 (list_elem_of_In _ _) Hin)) as H.
  cbv beta in H. rewrite Hs in H. cbn [negb orb] in H.
  destruct (char_septets c) as [[|x [|y [|]]]|]; try done.
  - exists [x]. split_and!; [done|repeat constructor; lia|cbn; lia..].
  - exists [x; y]. split_and!; [done|repeat constructor; lia|cbn; lia..].
Qed.

(** ** Packed texts *)

(** A buffer of [L] octets that holds the septets and nothing else. *)
Record packed (L : nat) (ss buf : list Z) : Prop := mkPacked {
  pk_bytes : Forall is_byte buf;
  pk_length : length buf = L;
  pk_septets : Forall is_septet ss;
  pk_num : octets buf = septets ss }.

(** The octets that a number of septets needs. *)
Definition octets_for (n : nat) : Z := (7 * Z.of_nat n + 7) / 8.

Lemma pow_septets n : 128 ^ Z.of_nat n = 2 ^ (Z.of_nat n * 7).
Proof. change 128 with (2 ^ 7). rewrite <- Z.pow_mul_r by lia. f_equal. lia. Qed.

Lemma put_septet L ss v buf :
  packed L ss buf -> 0 <= v < 128 -> (length ss < 255)%nat -> 7 * (Z.of_nat (length ss) + 1) <= 8 * Z.of_nat L ->
  exists buf', Set7BitsAtPos buf v (Z.of_nat (length ss) * 7) = Some buf' /\ packed L (ss ++ [v]) buf'.
Proof.
  intros [Hb Hl Hs Hn] Hv Hlen HL. pose proof (le_num_bound 128 ss ltac:(lia) Hs) as Hbd.
  rewrite pow_septets, <- Hn in Hbd.
  destruct (Set7BitsAtPos_spec buf v (Z.of_nat (length ss) * 7)) as (buf' & H1 & H2 & H3 & H4); try done; try lia.
  exists buf'. split; [done|]. split; [done|congruence|by apply Forall_app; auto|].
  rewrite H4, Hn, le_num_app, pow_septets. cbn [le_num]. lia.
Qed.

Lemma get_septet L ss v buf i :
  packed L ss buf -> ss !! i = Some v -> (length ss <= 255)%nat -> 7 * Z.of_nat (length ss) < 8 * Z.of_nat L ->
  Get7BitsAtPos buf (Z.of_nat i * 7) = Some v.
Proof.
  intros [Hb Hl Hs Hn] Hi Hlen HL. pose proof (lookup_lt_Some _ _ _ Hi) as Hlt.
  rewrite Get7BitsAtPos_spec; [|done|lia|Z.div_mod_to_equations; lia|Z.div_mod_to_equations; lia].
  rewrite Hn, <- pow_septets. f_equal. by apply le_num_digit; [lia|..].
Qed.

Lemma octets_for_eq n : (n <= 255)%nat ->
  u8 (if (Z.of_nat n * 7) mod 8 =? 0 then Z.of_nat n * 7 / 8 else Z.of_nat n * 7 / 8 + 1) = octets_for n.
Proof.
  intros Hn. unfold octets_for. rewrite wrap_id.
  - destruct (Z.eqb_spec ((Z.of_nat n * 7) mod 8) 0); Z.div_mod_to_equations; lia.
  - unfold in_width. destruct (Z.eqb_spec ((Z.of_nat n * 7) mod 8) 0); Z.div_mod_to_equations; lia.
Qed.
Lemma octets_for_mono n m : (n <= m)%nat -> octets_for n <= octets_for m.
Proof. intros H. apply Z.div_le_mono; lia. Qed.

Lemma wrap_next n : (n < 255)%nat -> u8 (Z.of_nat n + 1) = Z.of_nat (n + 1).
Proof. intros Hn. rewrite wrap_id by (unfold in_width; lia). lia. Qed.

(** One character of the encoder. *)
Lemma encode_char L ss c text buf size :
  packed L ss buf -> survives c = true ->
  let ss' := ss ++ default [] (char_septets c) in
  (length ss' <= 255)%nat -> 7 * Z.of_nat (length ss') <= 8 * Z.of_nat L -> octets_for (length ss) <= size ->
  exists buf', packed L ss' buf' /\
    encode_loop (c :: text) buf (Z.of_nat (length ss)) (octets_for (length ss)) size =
    encode_loop text buf' (Z.of_nat (length ss')) (octets_for (length ss')) size.
Proof.
  intros Hp Hc ss' Hlen HL Hsize. destruct (survives_septets c Hc) as (cs & Hcs & Hcss & _).
  subst ss'. rewrite Hcs in *. cbn [default id] in *. unfold char_septets in Hcs. cbn [encode_loop].
  destruct (getb ascii_8_to_7 c) as [code|]; cbn [mbind option_bind] in *; [|done].
  rewrite (proj2 (Z.ltb_ge _ _) Hsize).
  destruct (ESCAPE_SHIFT_INDEX <=? code) eqn:Esc; injection Hcs as <-; rewrite length_app in *; cbn [length] in *.
  - destruct (put_septet L ss ESCAPE_7BIT buf Hp) as (buf1 & -> & Hp1); [lia..|]. cbn [mbind option_bind].
    rewrite (wrap_next (length ss)) by lia.
    replace (Z.of_nat (length ss + 1)) with (Z.of_nat (length (ss ++ [ESCAPE_7BIT]))) by (rewrite length_app; done).
    destruct (put_septet L _ (code - 128) buf1 Hp1) as (buf2 & -> & Hp2).
    { by apply Forall_cons in Hcss as [_ [? _]%Forall_cons]. } { rewrite length_app. cbn. lia. }
    { rewrite length_app. cbn. lia. }
    exists buf2. rewrite <- app_assoc in Hp2. split; [done|]. cbn [mbind option_bind].
    rewrite wrap_next, length_app by (rewrite length_app; cbn; lia). cbn [length].
    replace (length ss + 1 + 1)%nat with (length ss + 2)%nat by lia. by rewrite octets_for_eq by lia.
  - destruct (put_septet L ss code buf Hp) as (buf1 & H1 & Hp1).
    { by apply Forall_cons in Hcss as [? _]. } { lia. } { lia. }
    cbn [mbind option_bind]. rewrite H1. exists buf1. split; [done|]. cbn [mbind option_bind].
    rewrite wrap_next by lia. by rewrite octets_for_eq by lia.
Qed.

Lemma encode_text L size text : forall ss buf,
  packed L ss buf -> Forall (fun c => survives c = true) text ->
  let ss' := ss ++ text_septets text in
  (length ss' <= 255)%nat -> 7 * Z.of_nat (length ss') <= 8 * Z.of_nat L -> octets_for (length ss') <= size ->
  exists buf', packed L ss' buf' /\
    encode_loop text buf (Z.of_nat (length ss)) (octets_for (length ss)) size =
    Some (inr (buf', Z.of_nat (length ss'), octets_for (length ss'))).
Proof.
  induction text as [|c text IH]; intros ss buf Hp Ht ss' Hlen HL Hsize; subst ss'; cbn [text_septets] in *.
  - rewrite app_nil_r in *. exists buf. split; [done|]. cbn [encode_loop]. by rewrite (proj2 (Z.ltb_ge _ _) Hsize).
  - apply Forall_cons in Ht as [Hc Ht]. rewrite app_assoc in *.
    set (ss1 := ss ++ default [] (char_septets c)) in *.
    assert (Hle : (length ss <= length ss1)%nat) by (unfold ss1; rewrite length_app; lia).
    assert (Hle1 : (length ss1 <= length (ss1 ++ text_septets text))%nat) by (rewrite length_app; lia).
    destruct (encode_char L ss c text buf size Hp Hc) as (buf1 & Hp1 & ->).
    + fold ss1. lia.
    + fold ss1. lia.
    + pose proof (octets_for_mono (length ss) (length (ss1 ++ text_septets text))). lia.
    + fold ss1. by apply IH.
Qed.

(** One character of the decoder. *)
Lemma decode_char L pre c rest buf n out size :
  packed L (pre ++ default [] (char_septets c) ++ rest) buf -> survives c = true ->
  let len := length (pre ++ default [] (char_septets c) ++ rest) in
  (len <= 255)%nat -> 7 * Z.of_nat len < 8 * Z.of_nat L -> Z.of_nat (length out) < size ->
  decode_loop (S n) buf (Z.of_nat (length pre)) (Z.of_nat len) out size =
  decode_loop n buf (Z.of_nat (length (pre ++ default [] (char_septets c)))) (Z.of_nat len) (out ++ [c]) size.
Proof.
  intros Hp Hc len Hlen HL Hsize. destruct (survives_septets c Hc) as (cs & Hcs & _ & Hl). subst len.
  rewrite Hcs in *. cbn [default id] in *. unfold char_septets in Hcs. unfold survives in Hc. cbn [decode_loop].
  destruct (getb ascii_8_to_7 c) as [code|]; cbn [mbind option_bind] in *; [|done].
  rewrite (proj2 (Z.leb_gt _ _)) by (rewrite !length_app; lia).
  assert (Hget : forall i v, cs !! i = Some v -> Get7BitsAtPos buf (Z.of_nat (length pre + i) * 7) = Some v).
  { intros i v Hi. apply (get_septet L (pre ++ cs ++ rest)); [done| |done|done].
    rewrite lookup_app_r by lia. rewrite lookup_app_l by (apply lookup_lt_Some in Hi; lia).
    by replace (length pre + i - length pre)%nat with i by lia. }
  destruct (ESCAPE_SHIFT_INDEX <=? code) eqn:Esc; injection Hcs as <-.
  - pose proof (Hget 0%nat _ eq_refl) as H0. pose proof (Hget 1%nat _ eq_refl) as H1.
    rewrite Nat.add_0_r in H0. rewrite H0. cbn [mbind option_bind]. change (getb ascii_7_to_8 27) with (Some 27).
    cbn [mbind option_bind]. change (negb (27 =? 27)) with false. cbn match.
    replace (Z.of_nat (length pre) + 1) with (Z.of_nat (length pre + 1)) by lia. rewrite H1. cbn [mbind option_bind].
    rewrite (proj2 (Z.leb_gt _ _)) by lia. apply Z.eqb_eq in Hc. rewrite Hc. f_equal. rewrite length_app. cbn. lia.
  - pose proof (Hget 0%nat _ eq_refl) as H0. rewrite Nat.add_0_r in H0. rewrite H0. cbn [mbind option_bind].
    destruct (getb ascii_7_to_8 code) as [x|]; [|done]. apply andb_true_iff in Hc as [Hx Hne].
    apply Z.eqb_eq in Hx as ->. cbn [mbind option_bind]. rewrite Hne.
    rewrite (proj2 (Z.leb_gt _ _)) by lia. f_equal. rewrite length_app. cbn. lia.
Qed.

Lemma text_septets_length text :
  Forall (fun c => survives c = true) text -> (length text <= length (text_septets text))%nat.
Proof.
  induction 1 as [|c text Hc _ IH]; cbn [text_septets length]; [lia|].
  destruct (survives_septets c Hc) as (cs & -> & _ & Hl). rewrite length_app. cbn. lia.
Qed.

Lemma decode_text L buf size text : forall pre out n,
  packed L (pre ++ text_septets text) buf -> Forall (fun c => survives c = true) text ->
  let len := length (pre ++ text_septets text) in
  (len <= 255)%nat -> 7 * Z.of_nat len < 8 * Z.of_nat L -> Z.of_nat (length out + length text) <= size ->
  (length text <= n)%nat ->
  decode_loop n buf (Z.of_nat (length pre)) (Z.of_nat len) out size = Some (inr (out ++ text)).
Proof.
  induction text as [|c text IH]; intros pre out n Hp Ht len Hlen HL Hsize Hn; subst len; cbn [text_septets] in *.
  - rewrite !app_nil_r in *. destruct n; cbn [decode_loop]; [done|]. by rewrite Z.leb_refl.
  - apply Forall_cons in Ht as [Hc Ht]. cbn [length] in *. destruct n as [|n]; [lia|].
    rewrite (decode_char L pre c (text_septets text)); [|done|done|done|done|lia].
    rewrite app_assoc in *. rewrite IH; try done.
    + by rewrite <- app_assoc.
    + rewrite length_app. cbn. lia.
    + lia.
Qed.

Lemma all_survive text : forallb survives text = true -> Forall (fun c => survives c = true) text.
Proof. intros H. apply Forall_forall. intros c Hc. apply (proj1 (forallb_forall _ _) H), list_elem_of_In, Hc. Qed.

(** C36: A text survives the 7-bit alphabet. Packing a text of characters that the tables take
    back to themselves into a zeroed buffer writes the septets of its characters and nothing
    else, reports their number and the octets they fill, and unpacking them gives the text
    back; the buffer is one octet longer than the septets when they fill it, because the
    decoder reads the octet after the last one. *)
Theorem text_survives_packing (text : list Z) (L : nat) (size room : Z) :
  Forall (fun c => survives c = true) text ->
  let n := length (text_septets text) in
  (n <= 255)%nat -> 7 * Z.of_nat n < 8 * Z.of_nat L -> octets_for n <= size -> Z.of_nat (length text) <= room ->
  exists buf, packed L (text_septets text) buf /\
    pduEncode8BitsTo7Bits text (replicate L 0) size = Some (inr (buf, Z.of_nat n, octets_for n)) /\
    pduDecode7BitsTo8Bits buf (Z.of_nat n) room = Some (inr text).
Proof.
  intros Ht n Hn HL Hsize Hroom.
  assert (Hp0 : packed L [] (replicate L 0)).
  { split; [by apply Forall_replicate|by rewrite length_replicate|done|]. cbn. apply le_num_zeros. }
  destruct (encode_text L size text [] (replicate L 0) Hp0 Ht) as (buf & Hp & He);
    [done|cbn [app]; fold n; lia|done|].
  cbn [app] in *. exists buf. split; [done|]. split; [exact He|]. unfold pduDecode7BitsTo8Bits.
  rewrite Nat2Z.id. pose proof (text_septets_length text Ht). by apply (decode_text L buf room text []); try lia.
Qed.

Lemma text_survives_packing_witness :
  let text := [84; 101; 108; 65; 70; 32; 91; 123; 49; 125; 93; 32; 126; 94; 92; 124; 64] in
  exists buf, packed 30 (text_septets text) buf /\
    pduEncode8BitsTo7Bits text (replicate 30 0) 140 = Some (inr (buf, 25, 22)) /\
    pduDecode7BitsTo8Bits buf 25 160 = Some (inr text).
Proof.
  apply text_survives_packing; [apply all_survive; vm_compute; reflexivity|..]; vm_compute;
    first [reflexivity|discriminate|lia].
Defined.

(** A character packed and unpacked again. *)
Definition there_and_back (c : Z) : option (outcome_or_error (list Z)) :=
  match pduEncode8BitsTo7Bits [c] (replicate 4 0) 3 with
  | Some (inr (buf, n, _)) => pduDecode7BitsTo8Bits buf n 4
  | _ => None
  end.

(** The printable characters. Of the printable ASCII characters exactly the backquote does not
    survive the 7-bit alphabet: its entry in the table escapes to a septet that the decoder
    does not know, and it comes back as a question mark and a letter. *)
Theorem backquote_lost (c : Z) :
  32 <= c < 127 -> there_and_back c = Some (inr [if c =? 96 then NON_PRINTABLE_8_BIT else c]).
Proof.
  intros Hc. assert (Hin : c ∈ seqZ 32 95) by (apply elem_of_seqZ; lia).
  assert (Hall : forallb (fun c => bool_decide (there_and_back c =
    Some (inr [if c =? 96 then NON_PRINTABLE_8_BIT else c]))) (seqZ 32 95) = true) by (vm_compute; reflexivity).
  pose proof (proj1 (forallb_forall _ _) Hall c (proj1 (list_elem_of_In _ _) Hin)) as H.
  by apply bool_decide_eq_true in H.
Qed.

Lemma backquote_lost_witness : there_and_back 96 = Some (inr [63]).
Proof. apply (backquote_lost 96). lia. Defined.

(** The bit twiddling is arithmetic. Taken as the digits of one number, least significant byte
    first, a buffer gives the routine that reads a septet at a bit position the quotient of that
    number by the power of two at the position, modulo 128; and the routine that writes a septet
    behind everything written so far adds the septet, shifted to the position. Neither leaves
    the buffer, however the position falls in the bytes, when there is one bit behind the
    septet: the routine that reads takes the next byte as well for a septet that ends a byte. *)
Theorem septets_are_digits (buf : list Z) (pos val : Z) :
  Forall is_byte buf -> 0 <= pos < 2048 -> 0 <= val < 128 -> pos + 8 <= 8 * Z.of_nat (length buf) ->
  Get7BitsAtPos buf pos = Some (octets buf / 2 ^ pos mod 128) /\
  (octets buf < 2 ^ pos ->
   exists buf', Set7BitsAtPos buf val pos = Some buf' /\ length buf' = length buf /\
     octets buf' = octets buf + val * 2 ^ pos /\ Get7BitsAtPos buf' pos = Some val).
Proof.
  intros Hbuf Hp Hv Hl. pose proof (Z.div_mod pos 8 ltac:(lia)). pose proof (Z.mod_pos_bound pos 8 ltac:(lia)).
  split; [apply Get7BitsAtPos_spec; try done; lia|]. intros Hlt.
  destruct (Set7BitsAtPos_spec buf val pos) as (buf' & Hset & Hlen & Hby & Hnum); try done; [lia|].
  exists buf'. split; [done|]. split; [done|]. split; [done|].
  rewrite Get7BitsAtPos_spec; [|done|done|rewrite Hlen; lia|rewrite Hlen; lia].
  assert (0 <= octets buf) by (apply (le_num_bound 256 buf ltac:(lia)), Hbuf).
  assert (0 < 2 ^ pos) by (apply Z.pow_pos_nonneg; lia).
  rewrite Hnum, Z.div_add, Z.div_small, Z.mod_small; [done|lia|lia|lia].
Qed.

Lemma septets_are_digits_witness :
  Get7BitsAtPos [0; 3; 0] 8 = Some 3 /\ exists buf', Set7BitsAtPos [5; 0; 0] 0x41 7 = Some buf' /\ octets buf' = 5 + 0x41 * 128.
Proof.
  split.
  - apply (septets_are_digits [0; 3; 0] 8 0); [by repeat constructor|lia|lia|cbn; lia].
  - destruct (septets_are_digits [5; 0; 0] 7 0x41) as [_ (buf' & H1 & _ & H2 & _)];
      [by repeat constructor|lia|lia|cbn; lia|cbn; lia|]. by exists buf'.
Defined.
