(* ===== verification/DoipThms.v ===== *)
(** * Properties of the DoIP stack: messages over TCP and their reception *)
From S2P Require Import Prelude DoipTypes DoipVehicle DoipSend DoipConn DoipRecv DoipUdp.
From S2P Require Import DoipSpec DoipRecvSpec DoipKeeps DoipDiag DoipSample.

(** A header is read as it was written. Whatever stands before and behind it, the header that
    the stack packs is unpacked to the version of the configuration, its inverse, the payload
    type and the payload length; the receiver refuses it only for its type or its length. *)
Theorem header_read_back (s : Stack) (cfg : taf_doip_Config_t) (ty len mds : Z) (pre rest : list Z) :
  doipConfigPtr s = Some cfg -> in_width 16 ty -> in_width 32 len ->
  wp (h ← PackGenericHeader ty len; UnpackHeaderStruct (pre ++ h ++ rest) (Z.of_nat (length pre)))
    (fun h s' => s' = s /\
       h = mkHeader (version_of cfg) (u8 (Z.lnot (version_of cfg))) ty len /\
       (entity_accepts ty = true -> len <= mds - 8 -> ty = TAF_DOIP_PAYLOAD_TYPE_DIAGNOSTIC_MESSAGE \/ len <= 1492 ->
        header_nack mds h = None)) s.
Proof.
  intros Hcfg Hty Hlen. wp_step. eapply wp_PackGenericHeader; [done|].
  apply (wp_UnpackHeader pre (version_of cfg) (u8 (Z.lnot (version_of cfg))) ty len rest); [done..|].
  split; [done|]. split; [done|]. intros Hacc Hm Hd. unfold header_nack. cbn [protocolVer invProtocolVer payloadType payloadLen].
  replace (known_version (version_of cfg)) with true by (unfold version_of; by destruct (isTLS cfg)).
  replace (version_of cfg =? _) with true by (unfold version_of; by destruct (isTLS cfg)). cbn [negb].
  rewrite Hacc. cbn [negb]. destruct (Z.ltb_spec (mds - 8) len); [lia|].
  destruct (Z.eqb_spec ty TAF_DOIP_PAYLOAD_TYPE_DIAGNOSTIC_MESSAGE); cbn [negb andb]; [done|].
  destruct (Z.ltb_spec 1492 len); [|done]. destruct Hd; [done|lia].
Qed.

Lemma header_read_back_witness :
  wp (h ← PackGenericHeader 0x8002 5; UnpackHeaderStruct ([7; 7; 7] ++ h ++ [1; 2; 3; 4; 5]) 3)
    (fun h s' => h = mkHeader 2 253 0x8002 5) idle_stack.
Proof.
  eapply wp_conseq; [by apply (header_read_back idle_stack sample_config 0x8002 5 4096 [7; 7; 7] [1; 2; 3; 4; 5])|].
  intros h s' (_ & Hh & _). exact Hh.
Defined.

(** C33: A malformed alive check response crashes the stack. Whoever has opened a connection, be it
    before any routing activation, and sends a response to an alive check whose payload has
    another length than two, makes the stack release the reception buffer of the connection
    with the connection and then read and write the released buffer. *)
Theorem short_alive_check_crashes (env : DEnv) (s : Stack) (c b v len : Z) (x : Connection)
    (cfg : taf_doip_Config_t) (buf : taf_doip_Buffer_t) (pre rest : list Z) :
  entity_conn s c x b cfg -> known_version v = true ->
  holds s b buf pre v TAF_DOIP_PAYLOAD_TYPE_ALIVE_CHECK_RESPONSE len rest ->
  len <> 2 -> len <= 1492 -> len <= max_data s - 8 ->
  ConsumeTCPData env (cliSockRef x) s = Faulted UseAfterFree.
Proof.
  intros [Hbox Hst Hty Hopen Hcfg Hm] Hv Hh Hlen H1 H2. pose proof Hst as [Hx Hc ? ? ? ? Hb ? ?].
  rewrite (ConsumeTCPData_step env s c x b Hx Hb Hbox Hc). apply fault_bind_now.
  rewrite (consume_loop_step env s c x b buf pre v _ len rest Hx Hb Hh);
    [|done|done|lia|unfold in_width; lia|by apply good_header; [| |lia|right]].
  unfold handle_message. erewrite run_bind by by eapply run_in_buf. apply fault_bind_now.
  unfold ProcessDoipMessage. erewrite run_bind by by eapply run_buf_get. cbn [payloadType payloadLen].
  apply fault_bind. unfold AliveCheckResHandler. destruct (Z.eqb_spec len TAF_DOIP_LOGICAL_ADDRESS_LENGTH); [done|].
  eapply wp_conseq; [by eapply RespondHeaderNegativeACK_closes; [..|right]|].
  intros _ s' [es Hfz]. unfold advance. apply fault_bind_now. unfold buf_get.
  pose proof (fz_inPool _ _ _ _ _ Hfz) as Hpool. rewrite Hb in Hpool.
  unfold mbind, M_bind, get. rewrite Hpool. cbn. by rewrite lookup_delete_eq.
Qed.

Lemma short_alive_check_crashes_witness :
  let x := sample_conn TAF_DOIP_CONNECT_STATE_INITIALIZED 0 in
  let buf := received (header_bytes 2 253 TAF_DOIP_PAYLOAD_TYPE_ALIVE_CHECK_RESPONSE 1 ++ [0]) in
  ConsumeTCPData (sample_denv None) 80 (sample_stack x buf []) = Faulted UseAfterFree.
Proof.
  intros x buf.
  apply (short_alive_check_crashes (sample_denv None) (sample_stack x buf []) 1 2 2 1 x sample_config buf []
    ([0] ++ replicate 1491 0)); try done.
  by apply sample_entity.
Defined.

(** C32: A diagnostic message for a target that the entity does not serve crashes the stack. The
    registered tester sends a complete message whose target is neither the entity nor one of
    its functional groups: the manager releases the block of the message, and the handler of
    the connection, having refused the message, releases it again. *)
Theorem unknown_target_crashes (env : DEnv) (s : Stack) (c b v sa ta : Z) (x : Connection)
    (cfg : taf_doip_Config_t) (buf : taf_doip_Buffer_t) (pre msg rest : list Z) :
  diag_ready env s c x b cfg buf pre v sa ta msg rest -> addressed cfg ta = None ->
  ConsumeTCPData env (cliSockRef x) s = Faulted UseAfterFree.
Proof.
  intros Hr Hta. pose proof (dr_message _ _ _ _ _ _ _ _ _ _ _ _ _ Hr) as Hh.
  destruct (dr_conn _ _ _ _ _ _ _ _ _ _ _ _ _ Hr) as [Hbox Hst Hty Hopen Hcfg Hm].
  pose proof Hst as [Hx Hc ? ? ? ? Hb ? ?].
  rewrite (consume_diag _ _ _ _ _ _ _ _ _ _ _ _ _ Hr).
  apply fault_bind_now. unfold handle_message. erewrite run_bind by by eapply run_in_buf. apply fault_bind_now.
  cbn [payloadType payloadLen]. rewrite (process_diag _ _ _ _ _ _ _ _ _ _ _ _ _ Hr).
  apply fault_bind_now. destruct (diag_first _ _ _ _ _ _ _ _ _ _ _ _ _ Hr) as (pad & _ & _ & ->).
  apply (deliver_unknown env s c cfg x (loaded x _ _ _) _ _ _ _ (nextId s) sa ta b); try done.
  - apply Hr.
  - rewrite lookup_insert_eq. by eexists.
Qed.

(** C14: A diagnostic message is acknowledged and delivered as it was sent. The complete message of
    the registered tester, alone in the reception buffer, for the entity or for one of its
    functional groups, makes the stack send the positive acknowledgement and nothing else,
    leaves the connection ready for the next message and the buffer empty, and queues the
    message for the upper layer: the handler of the session gets its addresses, the way it was
    addressed and its bytes, without the addresses, and the block is given back. *)
Theorem diagnostic_delivered (env : DEnv) (s : Stack) (c b v sa ta : Z) (x : Connection)
    (cfg : taf_doip_Config_t) (buf : taf_doip_Buffer_t) (pre msg rest : list Z)
    (ty : taf_doip_TaType_t) (sess : taf_doipSession_t) :
  diag_ready env s c x b cfg buf pre v sa ta msg rest ->
  dataSize buf = 8 + Z.of_nat (length (diag_body sa ta msg)) ->
  addressed cfg ta = Some ty -> udsPool s !! nextId s = None ->
  find_session (doipSessions s) (own_address cfg) = Some sess -> diagIndicationHandler sess = true ->
  wp (ConsumeTCPData env (cliSockRef x)) (fun _ s' => exists info es,
    dtrace s' = dtrace s ++ QueueIndicateUds info :: es /\
    sent es = [(cliSockRef x, doip_message cfg TAF_DOIP_PAYLOAD_TYPE_DIAGNOSTIC_POSITIVE_ACK (ack_fields sa ta))] /\
    reports es = [] /\
    conns s' = <[c := unloaded x <| isConsuming := false |>]> (conns s) /\
    inPool s' = <[b := mkBuffer (data buf) 0 0]> (inPool s) /\
    wp (IndicateUdsMessage info) (fun _ s'' =>
      dtrace s'' = dtrace s' ++ [DiagIndication
        (mkDoipAddr sa (own_address cfg) ty (vlan env (dtrace s) (localIface x)) (localIface x))
        (Some msg) TAF_DOIP_RESULT_OK] /\
      udsPool s'' = udsPool s) s') s.
Proof.
  intros Hr Hsize Hty Hfree Hsess Hind. eapply wp_same; [apply (consume_diag _ _ _ _ _ _ _ _ _ _ _ _ _ Hr)|].
  apply wp_bind. apply (handle_diag _ _ _ _ _ _ _ _ _ _ _ _ _ Hr ty); [done|].
  intros pad es _ Hlen _ Hsent Hrep. rewrite Hsize, Z.eqb_refl. apply wp_ret.
  eexists _, es. split; [done|]. split; [done|]. split; [done|]. split; [done|]. split; [done|].
  unfold IndicateUdsMessage. w_step. eapply wp_has_handler; [done..|]. w_step. unfold when. w_step.
  eapply wp_message_at; [done|rewrite <- diag_body_pad; apply lookup_insert_eq|]. w_step.
  cbn [ilen diag_info]. rewrite length_diag_body. unfold two_addresses.
  apply wp_bytes_at; [lia|lia|rewrite length_app; lia|]. replace (Z.to_nat _) with (length msg) by lia.
  rewrite drop_0, take_app_length. w_steps. apply w_release_uds; [by rewrite lookup_insert_eq|].
  rewrite !w_dtrace, w_udsPool, delete_insert_id by done. by rewrite <- app_assoc.
Qed.

Lemma diagnostic_delivered_witness :
  let x := sample_conn TAF_DOIP_CONNECT_STATE_REGISTERED_ROUTING_ACTIVE 0x0E80 in
  let s := sample_stack x (received (sample_diag 0x0101 [0x3E; 0x00])) [] in
  wp (ConsumeTCPData (sample_denv None) 80) (fun _ s' => conns s' = <[1 := x]> (conns s)) s.
Proof.
  intros x s. eapply wp_conseq.
  - apply (diagnostic_delivered (sample_denv None) s 1 2 2 0x0E80 0x0101 x sample_config
      (received (sample_diag 0x0101 [0x3E; 0x00])) [] [0x3E; 0x00]
      (replicate (1500 - length (sample_diag 0x0101 [0x3E; 0x00])) 0)
      TAF_DOIP_TA_TYPE_PHYSICAL (mkSession 0x0101 true true true true)).
    + apply sample_diag_ready; [done|discriminate|cbn; lia].
    + reflexivity.
    + vm_compute. reflexivity.
    + reflexivity.
    + reflexivity.
    + reflexivity.
  - intros [] s' (info & es & _ & _ & _ & Hc & _). exact Hc.
Defined.

Lemma unknown_target_crashes_witness :
  let x := sample_conn TAF_DOIP_CONNECT_STATE_REGISTERED_ROUTING_ACTIVE 0x0E80 in
  ConsumeTCPData (sample_denv None) 80 (sample_stack x (received (sample_diag 0x0200 [0x3E; 0x00])) []) =
  Faulted UseAfterFree.
Proof.
  intros x. apply (unknown_target_crashes (sample_denv None) _ 1 2 2 0x0E80 0x0200 x sample_config
    (received (sample_diag 0x0200 [0x3E; 0x00])) [] [0x3E; 0x00]
    (replicate (1500 - length (sample_diag 0x0200 [0x3E; 0x00])) 0)).
  - apply sample_diag_ready; [done|discriminate|cbn; lia].
  - vm_compute. reflexivity.
Defined.

(** ** Reception *)
(** ** Discarding a refused message *)

(** The bytes a trace of reads asks for, and nothing but reads. *)
Definition only_reads (sock : Z) (es : list DEffect) : Prop :=
  Forall (fun e => exists room, e = SocketRead sock room) es.

Lemma wp_le_socket_Read env sock room (Q : option (list Z) -> Stack -> Prop) s :
  Q (take (Z.to_nat room) <$> socket_read env (dtrace s ++ [SocketRead sock room]))
    (dlog s [SocketRead sock room]) ->
  wp (le_socket_Read env sock room) Q s.
Proof. done. Qed.

Lemma discard_loop_ends env n sock len s :
  (forall tr bytes, socket_read env tr = Some bytes -> bytes <> []) ->
  0 < len <= Z.of_nat n ->
  wp (discard_loop env n sock len) (fun _ s' => exists es, s' = dlog s es /\ only_reads sock es /\
    (length es <= n)%nat) s.
Proof.
  intros Hread. revert len s. induction n as [|n IH]; intros len s Hlen; [lia|].
  cbn [discard_loop]. wp_step. apply wp_le_socket_Read.
  assert (H1 : only_reads sock [SocketRead sock len]) by (constructor; [by exists len|constructor]).
  destruct (socket_read env _) as [bytes|] eqn:E; cbn [fmap option_fmap option_map].
  - assert (Hb : 0 < Z.of_nat (length (take (Z.to_nat len) bytes))).
    { specialize (Hread _ _ E). destruct bytes; [done|]. rewrite length_take. cbn [length]. lia. }
    cbv zeta. destruct (Z.ltb_spec 0 (len - Z.of_nat (length (take (Z.to_nat len) bytes)))).
    + eapply wp_conseq; [apply IH; lia|]. intros [] s' (es & -> & Hes & Hn).
      exists (SocketRead sock len :: es). rewrite dlog_dlog. split; [done|].
      split; [by constructor; [exists len|]|cbn; lia].
    + wp_step. eexists. split; [done|]. split; [done|cbn; lia].
  - wp_step. eexists. split; [done|]. split; [done|cbn; lia].
Qed.

(** C40: The stack gets rid of a refused message. As long as a successful read of the socket gives
    at least one byte, the loop that discards the rest of a message comes to its end, after at
    most as many reads as it has bytes to discard (never more than a buffer full), and changes
    nothing but the position in the stream. *)
Theorem discard_terminates (env : DEnv) (s : Stack) (c len : Z) (x : Connection) :
  (forall tr bytes, socket_read env tr = Some bytes -> bytes <> []) ->
  conns s !! c = Some x -> 0 <= len ->
  wp (ReadAndDiscardMsg env c len) (fun _ s' => exists es, s' = dlog s es /\
    only_reads (cliSockRef x) es /\
    Z.of_nat (length es) <= Z.min len TAF_DOIP_MAX_BUFFER_SIZE) s.
Proof.
  intros Hread Hx Hlen. unfold ReadAndDiscardMsg.
  destruct (Z.eqb_spec len 0) as [->|Hne].
  { wp_step. exists []. rewrite dlog_nil. split; [done|]. split; [constructor|cbn; lia]. }
  cbv zeta. set (l := if _ <? len then _ else len).
  assert (Hl : l = Z.min len TAF_DOIP_MAX_BUFFER_SIZE).
  { unfold l. destruct (Z.ltb_spec TAF_DOIP_MAX_BUFFER_SIZE len); lia. }
  wp_step. eapply wp_cget; [exact Hx|].
  eapply wp_conseq; [apply (discard_loop_ends env (Z.to_nat l) _ l); [done|lia]|].
  intros [] s' (es & -> & Hes & Hn). exists es. split; [done|]. split; [done|lia].
Qed.

Lemma discard_terminates_witness :
  let x := sample_conn TAF_DOIP_CONNECT_STATE_INITIALIZED 0 in
  let s := sample_stack x (received []) [] in
  wp (ReadAndDiscardMsg (sample_denv (Some [0; 0; 0])) 1 8)
    (fun _ s' => exists es, s' = dlog s es /\ Z.of_nat (length es) <= 8) s.
Proof.
  intros x s. eapply wp_conseq.
  - apply (discard_terminates (sample_denv (Some [0; 0; 0])) s 1 8 x); [by intros ? ? [= <-]|done|lia].
  - intros [] s' (es & Hs & _ & Hn). exists es. split; [exact Hs|]. lia.
Defined.

(** ** The reception buffer *)

(** The bytes that wait to be handled lie inside the buffer. *)
Record buffer_ok (buf : taf_doip_Buffer_t) : Prop := mkBufferOk {
  bo_length : Z.of_nat (length (data buf)) = TAF_DOIP_MAX_BUFFER_SIZE;
  bo_pos : 0 <= dataPos buf;
  bo_size : 0 <= dataSize buf;
  bo_end : dataPos buf + dataSize buf <= TAF_DOIP_MAX_BUFFER_SIZE }.

(** The bytes that wait. *)
Definition waiting (buf : taf_doip_Buffer_t) : list Z :=
  take (Z.to_nat (dataSize buf)) (drop (Z.to_nat (dataPos buf)) (data buf)).

(** Room for less than a message without user data makes the stack drop what waits. *)
Definition drops (buf : taf_doip_Buffer_t) : bool :=
  TAF_DOIP_MAX_BUFFER_SIZE - (dataPos buf + dataSize buf) <=? TAF_DOIP_MAX_MSG_LEN_EXCEPT_UDS.
Definition kept (buf : taf_doip_Buffer_t) : taf_doip_Buffer_t :=
  if drops buf then mkBuffer (data buf) 0 0 else buf.
Definition room (buf : taf_doip_Buffer_t) : Z :=
  TAF_DOIP_MAX_BUFFER_SIZE - (dataPos (kept buf) + dataSize (kept buf)).

Lemma kept_ok buf : buffer_ok buf -> buffer_ok (kept buf).
Proof. intros []. unfold kept. destruct (drops buf); [|done]. split; cbn; lia. Qed.

(** The bytes received are put behind those that wait. *)
Definition filled_with (buf : taf_doip_Buffer_t) (bytes : list Z) : taf_doip_Buffer_t :=
  mkBuffer (splice (data buf) (dataPos buf + dataSize buf) bytes)
    (dataSize buf + Z.of_nat (length bytes)) (dataPos buf).

Lemma filled_ok buf bytes :
  buffer_ok buf -> Z.of_nat (length bytes) <= TAF_DOIP_MAX_BUFFER_SIZE - (dataPos buf + dataSize buf) ->
  buffer_ok (filled_with buf bytes).
Proof. intros [] Hb. split; cbn; [rewrite length_splice; lia|lia..]. Qed.

Lemma waiting_filled buf bytes :
  buffer_ok buf -> Z.of_nat (length bytes) <= TAF_DOIP_MAX_BUFFER_SIZE - (dataPos buf + dataSize buf) ->
  waiting (filled_with buf bytes) = waiting buf ++ bytes.
Proof.
  intros [Hl Hp Hs He] Hb. unfold waiting, filled_with, splice. cbn [data dataPos dataSize].
  set (p := Z.to_nat (dataPos buf)). set (n := Z.to_nat (dataSize buf)).
  replace (Z.to_nat (dataPos buf + dataSize buf)) with (p + n)%nat by lia.
  replace (Z.to_nat (dataSize buf + Z.of_nat (length bytes))) with (n + length bytes)%nat by lia.
  rewrite drop_app_le by (rewrite length_take; lia). rewrite skipn_firstn_comm.
  replace (p + n - p)%nat with n by lia.
  assert (Hn : length (take n (drop p (data buf))) = n) by (rewrite length_take, length_drop; lia).
  rewrite take_app_ge by lia. rewrite Hn. replace (n + length bytes - n)%nat with (length bytes) by lia.
  by rewrite take_app_length.
Qed.

(** A timer is started, or started again when it runs. *)
Lemma wp_rearm {A} env r (k : M Stack A) (Q : A -> Stack -> Prop) s :
  r ∈ liveTimers s -> (forall op, wp k Q (dlog s [DTimer r op])) ->
  wp (running ← is_running env (Some r);
      (if (running : bool) then timer (Some r) TimerRestart else timer (Some r) TimerStart);; k) Q s.
Proof.
  intros Hr HQ. wp_step. apply wp_is_running; [done|]. wp_step.
  by destruct (timer_running _ _ _); apply wp_timer.
Qed.

(** What waits is dropped when there is no room left. *)
Lemma make_room s b buf (Q : unit -> Stack -> Prop) :
  inPool s !! b = Some buf -> Q tt (s <| inPool := <[b := kept buf]> (inPool s) |>) ->
  wp (when (drops buf) (reset_buffer b)) Q s.
Proof.
  intros Hb HQ. unfold kept, reset_buffer, when in *. destruct (drops buf).
  - wp_step. eapply wp_buf_set; [exact Hb|]. eapply wp_buf_set; [apply lookup_insert_eq|].
    eapply eq_ind; [exact HQ|]. apply stack_ext; try done. cbn. by rewrite insert_insert_eq.
  - apply wp_ret. eapply eq_ind; [exact HQ|]. apply stack_ext; try done. cbn. by rewrite insert_id.
Qed.

(** The bytes that arrive are written behind those that wait, inside the array. *)
Lemma append_received {A} s b buf bytes (k : M Stack A) (Q : A -> Stack -> Prop) :
  inPool s !! b = Some buf -> buffer_ok buf ->
  Z.of_nat (length bytes) <= TAF_DOIP_MAX_BUFFER_SIZE - (dataPos buf + dataSize buf) ->
  wp k Q (s <| inPool := <[b := filled_with buf bytes]> (inPool s) |>) ->
  wp (d ← buf_get b data;
      (if decide (dataPos buf + dataSize buf + Z.of_nat (length bytes) <= Z.of_nat (length d))
       then buf_set b data (splice d (dataPos buf + dataSize buf) bytes) else raise OutOfBounds);;
      buf_set b dataSize (u32 (dataSize buf + Z.of_nat (length bytes)));; k) Q s.
Proof.
  intros Hb [Hl Hp Hs He] Hn HQ. wp_step. eapply wp_buf_get; [exact Hb|].
  rewrite decide_True by lia. wp_step. eapply wp_buf_set; [exact Hb|].
  wp_step. eapply wp_buf_set; [apply lookup_insert_eq|]. rewrite (wrap_id 32) by (unfold in_width; lia).
  eapply eq_ind; [exact HQ|]. apply stack_ext; try done. cbn. by rewrite insert_insert_eq.
Qed.

(** The messages are handled in the same thread exactly when they are not being handled. *)
Lemma handed_over s c x (Q : taf_doip_Result_t -> Stack -> Prop) :
  conns s !! c = Some x ->
  (forall s', inPool s' = inPool s -> isConsuming <$> conns s' !! c = Some true ->
    dtrace s' = dtrace s ++ (if isConsuming x then [] else [QueueConsume (cliSockRef x)]) ->
    Q TAF_DOIP_RESULT_OK s') ->
  wp (consuming ← cget c isConsuming;
      when (negb consuming) (cset c isConsuming true;; emit (QueueConsume (cliSockRef x)));;
      mret TAF_DOIP_RESULT_OK) Q s.
Proof.
  intros Hx HQ. wp_step. eapply wp_cget; [exact Hx|]. wp_step. unfold when.
  destruct (isConsuming x) eqn:E; cbn [negb].
  - do 2 wp_step. apply HQ; [done|by rewrite Hx, <- E|by rewrite app_nil_r].
  - wp_step. eapply wp_cset; [exact Hx|]. apply wp_demit. wp_step.
    apply HQ; [done|by cbn; rewrite lookup_insert_eq|done].
Qed.

(** C38: Reception stays inside the buffer. For a buffer whose waiting bytes lie inside it, a read of
    the socket of any length keeps them there: at most the room behind them is asked for, what
    arrives is put behind them, nothing is written past the end of the array, and the messages
    are handled in the same thread exactly when they are not being handled already. Only when
    there is no room left for the longest message without user data are the waiting bytes
    dropped. *)
Theorem reception_in_bounds (env : DEnv) (s : Stack) (c b : Z) (x : Connection)
    (buf : taf_doip_Buffer_t) :
  started s c x b -> inPool s !! b = Some buf -> buffer_ok buf ->
  wp (ReceiveTCPData env c (Some b)) (fun r s' => exists buf',
    inPool s' !! b = Some buf' /\ buffer_ok buf' /\
    match r with
    | TAF_DOIP_RESULT_OK => exists bytes,
        Z.of_nat (length bytes) <= room buf /\ waiting buf' = waiting (kept buf) ++ bytes /\
        last (dtrace s') = Some (if isConsuming x then SocketRead (cliSockRef x) (room buf)
                                 else QueueConsume (cliSockRef x)) /\
        isConsuming <$> conns s' !! c = Some true
    | _ => r = TAF_DOIP_RESULT_NETWORK_ERROR /\ buf' = kept buf
    end) s.
Proof.
  intros Hst Hb Hok. pose proof (kept_ok buf Hok) as Hkok. pose proof Hkok as [Hkl Hkp Hks Hke].
  destruct Hst as [Hx Hc Hi Hg Ha Hl Hin Hinp Hu]. pose proof Hok as [Hbl Hbp Hbs Hbe].
  unfold ReceiveTCPData. wp_step. eapply wp_cget; [exact Hx|]. rewrite Hg.
  apply wp_rearm; [done|]. intros op.
  wp_step. eapply wp_buf_get; [exact Hb|]. wp_step. eapply wp_buf_get; [exact Hb|].
  cbv zeta. rewrite (wrap_id 32 (dataPos buf + dataSize buf)) by (unfold in_width; lia).
  rewrite (wrap_id 64) by (unfold in_width; lia). fold (drops buf). set (s0 := dlog s _).
  wp_step. apply (make_room s0 b buf); [done|]. set (s1 := s0 <| inPool := _ |>).
  assert (Hb1 : inPool s1 !! b = Some (kept buf)) by apply lookup_insert_eq.
  replace (if drops buf then _ else _) with (room buf) by (unfold room, kept; by destruct (drops buf)).
  wp_step. eapply wp_buf_get; [exact Hb1|]. wp_step. eapply wp_buf_get; [exact Hb1|].
  rewrite (wrap_id 32 (dataPos _ + _)) by (unfold in_width; lia).
  wp_step. eapply wp_cget; [exact Hx|]. wp_step. apply wp_le_socket_Read. set (s2 := dlog s1 _).
  destruct (socket_read env _) as [input|]; cbn [fmap option_fmap option_map].
  2: { wp_step. exists (kept buf). by split_and!. }
  set (bytes := take _ input). assert (Hbytes : Z.of_nat (length bytes) <= room buf).
  { unfold bytes. rewrite length_take. unfold room. lia. }
  apply (append_received s2 b (kept buf) bytes); [done..|].
  apply handed_over with (x := x); [done|]. intros s' Hp Hc' Ht. exists (filled_with (kept buf) bytes).
  rewrite Hp, Ht. split; [apply lookup_insert_eq|]. split; [by apply filled_ok|]. exists bytes.
  split; [done|]. split; [by apply waiting_filled|]. split; [|done].
  cbn. destruct (isConsuming x); by rewrite ?app_nil_r, last_snoc.
Qed.

Lemma reception_in_bounds_witness :
  let x := sample_conn TAF_DOIP_CONNECT_STATE_INITIALIZED 0 in
  let s := sample_stack x (received [2; 253; 0]) [] in
  wp (ReceiveTCPData (sample_denv (Some [5; 0; 0; 0])) 1 (Some 2))
    (fun r s' => exists buf', inPool s' !! 2 = Some buf' /\ buffer_ok buf') s.
Proof.
  intros x s. eapply wp_conseq.
  - apply (reception_in_bounds (sample_denv (Some [5; 0; 0; 0])) s 1 2 x (received [2; 253; 0])).
    + apply sample_started.
    + reflexivity.
    + split; vm_compute; congruence.
  - intros r s' (buf' & H1 & H2 & _). by exists buf'.
Defined.
