(* ===== verification/DoipRouteThms.v ===== *)
(** * Properties of the DoIP stack: routing activation and framing *)
From S2P Require Import Prelude DoipTypes DoipVehicle DoipSend DoipConn DoipRecv.
From S2P Require Import DoipSpec DoipRecvSpec DoipKeeps DoipRoute DoipSample.

(** C15: A tester is let in exactly as the configuration and the upper layer allow. When no other
    tester is registered, a routing activation request with a payload of the right length gets
    exactly one answer, with the code of the verdict: unknown for a source address that no
    tester has, unsupported for a reserved activation type, missing authentication when the
    bytes of the manufacturer are not those of the vehicle, rejected when the upper layer says
    so. Only for the remaining requests is the tester, under the address it sent, reported as
    registered and its connection active; every other connection is closed and nothing is
    reported. *)
Theorem activation_verdict (env : DEnv) (s : Stack) (c b sa ty res : Z) (oem : option Z)
    (x : Connection) (cfg : taf_doip_Config_t) (buf : taf_doip_Buffer_t) (pre tail : list Z) :
  entity_conn s c x b cfg -> parseStatus cfg = true -> inPool s !! b = Some buf ->
  data buf = pre ++ ra_body sa ty res oem ++ tail ->
  in_width 16 sa -> in_width 32 res -> (forall o, oem = Some o -> in_width 32 o) ->
  (forall c' x', c' ∈ connectionBox s -> conns s !! c' = Some x' -> is_registered x' = false) ->
  wp (RoutingActiveReqHandler env c b (Z.of_nat (length pre)) (Z.of_nat (length (ra_body sa ty res oem))))
    (fun _ s' => outcome_of s c x cfg
       (ra_verdict cfg (confirmation env s (dtrace s ++ [DTimer (ConnT c InitialTimer) TimerStop]) sa (entitySA x))
          sa ty oem) sa s') s.
Proof.
  intros [Hbox Hst Hty Hopen Hcfg Hm] Hps Hb Hdata Hsa Hres Hoem Hnone.
  pose proof (st_object _ _ _ _ Hst) as Hx.
  assert (Hna : connState x <> TAF_DOIP_CONNECT_STATE_REGISTERED_ROUTING_ACTIVE).
  { specialize (Hnone c x (st_box _ _ _ _ Hst) Hx). intros E. unfold is_registered in Hnone.
    by rewrite bool_decide_true in Hnone. }
  assert (Hat : forall k, (k < length (ra_body sa ty res oem))%nat ->
    at_ (data buf) (Z.of_nat (length pre) + Z.of_nat k) = ra_body sa ty res oem !! k).
  { intros k Hk. rewrite Hdata, at_app, Nat2Z.id by lia. by rewrite lookup_app_l. }
  assert (Hlen : (7 <= length (ra_body sa ty res oem))%nat) by (rewrite length_ra_body; destruct oem; lia).
  eapply wp_same; [exact (f_equal (RoutingActiveReqHandler env c b _ _) (world_start s c x Hx))|].
  unfold RoutingActiveReqHandler, ra_verdict.
  replace (_ && _) with false by (rewrite length_ra_body; by destruct oem).
  do 2 w_step. w_step. eapply w_buf_get; [exact Hb|]. w_step.
  eapply wp_read16; [rewrite <- (Z.add_0_r (Z.of_nat (length pre))); apply (Hat 0%nat); lia|apply (Hat 1%nat); lia|].
  rewrite be16_bytes by done. destruct (_ || _).
  { by apply (w_refuse_routing env s c b x cfg Hbox Hst Hcfg). }
  do 2 w_step. w_step. eapply wp_demand; [apply (Hat 2%nat); lia|]. destruct (_ && _).
  { by apply (w_refuse_routing env s c b x cfg Hbox Hst Hcfg). }
  w_step. eapply (wp_read32 _ _ res); [done|intros k Hk; rewrite <- Z.add_assoc, <- (Nat2Z.inj_add 3); etrans; [apply (Hat (3 + k)%nat); lia|]; do 4 (destruct k as [|k]; [done|]); lia|].
  w_step. apply wp_conseq with (P := fun o s' => o = default 0 oem /\ s' = world s c (x <| raTesterSa := sa |>) (inPool s) (udsPool s) (nextId s) []).
  { rewrite length_ra_body. destruct oem as [o|]; [|by apply wp_ret].
    eapply (wp_read32 _ _ o); [by apply Hoem| |done].
    intros k Hk. rewrite <- Z.add_assoc, <- (Nat2Z.inj_add 7). etrans; [apply (Hat (7 + k)%nat); cbn; lia|].
    do 4 (destruct k as [|k]; [done|]). lia. }
  intros o s' [-> ->]. do 3 w_step. cbn [initialTimerRef]. change (initialTimerRef _) with (initialTimerRef x).
  rewrite (st_initial _ _ _ _ Hst). apply wp_timer; [apply (st_live _ _ _ _ Hst)|]. rewrite w_dlog. cbn [app].
  do 2 w_step. w_step. unfold GetRegisteredConnectionNum. do 2 w_step.
  apply count_registered_zero.
  { intros c' Hc'. destruct (decide (c' = c)) as [->|Hne].
    - eexists. split; [apply w_conn|]. by apply (Hnone c x).
    - destruct (box_objects _ Hbox c' Hc') as [x' Hx']. exists x'.
      split; [cbn; by rewrite lookup_insert_ne|by apply (Hnone c' x')]. }
  cbn [Z.eqb]. unfold assign_tester. do 2 w_step. cbn [ConnectionStateMachine]. do 2 w_step.
  by apply (w_authenticate env s c b x cfg Hbox Hst Hcfg Hps).
Qed.

Lemma activation_verdict_witness :
  let x := sample_conn TAF_DOIP_CONNECT_STATE_INITIALIZED 0 in
  let msg := header_bytes 2 253 TAF_DOIP_PAYLOAD_TYPE_ROUTING_ACTIVE_REQUEST 7 ++ ra_body 0x0E80 0 0 None in
  let s := sample_stack x (received msg) [] in
  wp (RoutingActiveReqHandler (sample_denv None) 1 2 8 7)
    (fun _ s' => activated s 1 x sample_config s' 0x0E80) s.
Proof.
  intros x msg s. apply (activation_verdict (sample_denv None) s 1 2 0x0E80 0 0 None x sample_config (received msg)
    (header_bytes 2 253 TAF_DOIP_PAYLOAD_TYPE_ROUTING_ACTIVE_REQUEST 7) (replicate 1485 0)).
  - by apply sample_entity.
  - reflexivity.
  - reflexivity.
  - vm_compute. reflexivity.
  - vm_compute. split; congruence.
  - vm_compute. split; congruence.
  - discriminate.
  - intros c' x' ->%list_elem_of_singleton Hx'. by injection Hx' as <-.
Defined.



(** ** Connections that are gone *)

(** An object that is not in the box any more. *)
Record gone (s : Stack) (w : Z) (y : Connection) : Prop := mkGone {
  gn_object : conns s !! w = Some y;
  gn_box : w ∉ connectionBox s;
  gn_state : connState y = TAF_DOIP_CONNECT_STATE_FINALIZE;
  gn_socket : forall c x, c ∈ connectionBox s -> conns s !! c = Some x -> cliSockRef x <> cliSockRef y }.

Section Gone.
Context (env : DEnv) (s : Stack) (w : Z) (y0 : Connection) (cfg : taf_doip_Config_t).
Context (Hgone : gone s w y0) (Hbox : box_ok s) (Hcfg : doipConfigPtr s = Some cfg).
Abbreviation W y es := (world s w y (inPool s) (udsPool s) (nextId s) es).

Lemma gone_lookup y es c : c ∈ connectionBox s -> conns (W y es) !! c = conns s !! c.
Proof using Hgone.
  intros Hc. cbn. apply lookup_insert_ne. intros ->. by apply (gn_box _ _ _ Hgone).
Qed.

Lemma gone_box_ok y es : box_ok (W y es).
Proof using Hgone Hbox.
  destruct Hbox as [Hnd Ho Hs]. split.
  - done.
  - intros c Hc. rewrite gone_lookup by done. by apply Ho.
  - intros c c' x x' Hc Hc'. rewrite !gone_lookup by done. by apply Hs.
Qed.

Lemma gone_started y es c x b : started s c x b -> started (W y es) c x b.
Proof using Hgone. intros []. split; try done. by rewrite gone_lookup. Qed.

(** Nothing can be sent to it. *)
Lemma gone_SendTCPData y es msg (Q : taf_doip_Result_t -> Stack -> Prop) :
  cliSockRef y = cliSockRef y0 -> (forall r, Q r (W y es)) ->
  wp (SendTCPData env (Some (cliSockRef y)) msg) Q (W y es).
Proof using Hgone Hbox.
  intros Hsock HQ. unfold SendTCPData. cbv zeta. wp_step; [by wp_step|].
  unfold FindConnectionBySocket. do 3 w_step.
  eapply wp_conseq; [by apply find_in_spec, gone_box_ok|]. intros [c|] s' [-> H].
  - destruct H as (Hc & x & Hx & Heq). rewrite gone_lookup in Hx by done. apply Z.eqb_eq in Heq.
    destruct (gn_socket _ _ _ Hgone c x Hc Hx). congruence.
  - by w_step.
Qed.

Lemma gone_RoutingActivationRes y es sa la code (Q : unit -> Stack -> Prop) :
  cliSockRef y = cliSockRef y0 -> Q tt (W y es) ->
  wp (RoutingActivationRes env (own_link y) sa la code 0) Q (W y es).
Proof using Hgone Hbox Hcfg.
  intros Hsock HQ. unfold RoutingActivationRes. w_step. eapply wp_message; [exact Hcfg|done|].
  w_step. unfold SendDoIPMsg, over_tcp, own_link. cbn [commType sockRef]. rewrite bool_decide_true by done.
  w_step. apply gone_SendTCPData; [done|]. intros r. by w_steps.
Qed.

(** It is made active all the same. *)
Lemma gone_confirm y es (Q : unit -> Stack -> Prop) :
  cliSockRef y = cliSockRef y0 ->
  confirmation env s (dtrace s ++ es) (testerSA y) (entitySA y) <> TAF_DOIP_USER_CONFIRM_RESULT_REJECT ->
  (forall es', sent es' = [] -> reports es' = [(TAF_DOIP_RESULT_SA_REGISTERED, testerSA y, entitySA y)] ->
    Q tt (W (y <| connState := TAF_DOIP_CONNECT_STATE_REGISTERED_ROUTING_ACTIVE |>) (es ++ es'))) ->
  wp (CheckRoutingActivationConfirm env w) Q (W y es).
Proof using Hgone Hbox Hcfg.
  intros Hsock Hconf HQ. unfold CheckRoutingActivationConfirm. do 3 w_step.
  apply run_confirmation. intros es1 H1 H2. w_step. eapply wp_tcp_link; [apply w_conn|].
  assert (Hgo : wp (_ ← RoutingActivationRes env (own_link y) (testerSA y) (entitySA y) TAF_DOIP_RA_RES_ROUTING_SUCCESSFULLY_ACTIVATED 0;
    enter_routing_active env w) Q (W y (es ++ es1))).
  { w_step. apply gone_RoutingActivationRes; [done|]. unfold enter_routing_active. do 4 w_step.
    apply wp_ReportConnectionEvent. intros es2 H3 H4. rewrite w_dlog, <- app_assoc.
    apply HQ; [by rewrite dsent_app, H1, H3|by rewrite reports_app, H2, H4]. }
  by destruct (confirmation _ _ _ _ _).
Qed.
End Gone.

(** C39: A tester that is gone is registered. A tester asks for the address of another one, and
    closes its connection before the alive check of the other is over; the check times out, and
    the stack makes the connection that it has already deleted active and tells the upper layer
    that the tester is registered - although no connection of the box is its, nothing can be
    sent to it, and no event of a socket will ever deregister it. *)
Theorem gone_tester_registered (env : DEnv) (s : Stack) (c b w : Z) (x y : Connection)
    (cfg : taf_doip_Config_t) :
  box_ok s -> started s c x b -> gone s w y -> doipConfigPtr s = Some cfg ->
  authEnableStatus cfg = false -> allAliveCheckFlag x = false -> singleAliveCheckFlag x = true ->
  routingConnectionPtr x = Some w ->
  confirmation env s (dtrace s ++ [DTimer (ConnT c AliveCheckTimer) TimerStop]) (raTesterSa y) (entitySA y) <>
    TAF_DOIP_USER_CONFIRM_RESULT_REJECT ->
  wp (AliveCheckTimerHandler env (ConnT c AliveCheckTimer) (cliSockRef x)) (fun _ s' => exists es,
    dtrace s' = dtrace s ++ es /\ sent es = [] /\
    head (reports es) = Some (TAF_DOIP_RESULT_SA_REGISTERED, raTesterSa y, entitySA y) /\
    connectionBox s ≡ₚ c :: connectionBox s' /\ (w ∉ connectionBox s') /\
    exists y', conns s' !! w = Some y' /\ is_registered y' = true /\ testerSA y' = raTesterSa y) s.
Proof.
  intros Hbox Hst Hgone Hcfg Hauth Hall Hsingle Hptr Hconf.
  pose proof (st_object _ _ _ _ Hst) as Hx. pose proof (gn_object _ _ _ Hgone) as Hy.
  assert (Hwc : w <> c) by (intros ->; by apply (gn_box _ _ _ Hgone), (st_box _ _ _ _ Hst)).
  unfold AliveCheckTimerHandler. wp_step.
  eapply wp_FindConnectionBySocket; [done|exact Hx|apply Hst|]. wp_step.
  apply wp_timer; [apply (st_live _ _ _ _ Hst)|].
  set (tr := [DTimer (ConnT c AliveCheckTimer) TimerStop]).
  assert (Hw : dlog s tr = world s w y (inPool s) (udsPool s) (nextId s) tr).
  { rewrite (world_start s w y Hy) at 1. by rewrite w_dlog. }
  wp_step. eapply wp_cget; [exact Hx|]. wp_step. eapply wp_cget; [exact Hx|]. rewrite Hall, Hsingle. cbn [negb andb].
  unfold when. do 2 w_step. w_step. eapply wp_cget; [exact Hx|]. rewrite Hptr, Hw.
  w_step. unfold IsConnectionRegitered. do 2 w_step.
  replace (is_registered y) with false by (unfold is_registered; by rewrite (gn_state _ _ _ Hgone)).
  cbn [negb]. do 2 w_step. do 2 w_step. cbn [ConnectionStateMachine]. do 2 w_step.
  unfold CheckRoutingActivationAuthen, GetAuthEnableStatus. do 4 w_step. autorewrite with world.
  rewrite Hcfg. cbn [default fmap option_fmap option_map id]. rewrite Hauth.
  unfold enter_pending_conf. do 2 w_step. apply (gone_confirm env s w y cfg Hgone Hbox Hcfg); [done|done|].
  intros es1 H1 H2. cbn [ConnectionStateMachine].
  set (y1 := _ <| connState := TAF_DOIP_CONNECT_STATE_REGISTERED_ROUTING_ACTIVE |>).
  eapply wp_conseq.
  - apply (enter_finalize_spec env _ c x b); [by apply (gone_box_ok s w y)|by apply (gone_started s w y)].
  - intros [] s' [fs [Hs' Hperm _ _ _ Hsent Hlast Hrep]]. exists ((tr ++ es1) ++ fs). rewrite Hs'. cbn.
    split; [by rewrite <- !app_assoc|]. rewrite !dsent_app, !reports_app, H1, H2, Hsent. split; [done|].
    split; [done|]. split; [exact Hperm|]. split.
    + intros Hin. apply (gn_box _ _ _ Hgone). change (connectionBox s) with (connectionBox (world s w y1 (inPool s) (udsPool s) (nextId s) (tr ++ es1))).
      rewrite Hperm. by right.
    + exists y1. split; [by rewrite lookup_insert_ne, lookup_insert_eq by done|done].
Qed.

(** A tester that was there and one that came and went. *)
Lemma gone_tester_registered_witness :
  let x := (sample_conn TAF_DOIP_CONNECT_STATE_REGISTERED_ROUTING_ACTIVE 0x0E80)
             <| singleAliveCheckFlag := true |> <| routingConnectionPtr := Some 5 |> in
  let y := disposed (mkConnection 81 "192.168.0.3" 50001 TAF_DOIP_CONNECTION_TYPE_SVR "eth0"
             TAF_DOIP_CONNECT_STATE_FINALIZE 0 0x0101 0x0E80 0 false false None false None None None None None 0 0) in
  let s := sample_stack x (received []) [] in
  let s := s <| conns := <[5 := y]> (conns s) |> in
  wp (AliveCheckTimerHandler (sample_denv None) (ConnT 1 AliveCheckTimer) 80)
    (fun _ s' => exists es, dtrace s' = dtrace s ++ es /\
       head (reports es) = Some (TAF_DOIP_RESULT_SA_REGISTERED, 0x0E80, 0x0101)) s.
Proof.
  intros x y s0 s. eapply wp_conseq.
  - apply (gone_tester_registered (sample_denv None) s 1 2 5 x y sample_config).
    + apply (box_ok_insert_other s0 5 y); [apply sample_box_ok|]. by intros Hin%list_elem_of_singleton.
    + split; try done; cbn; [by left|..]; first [by exists (received [])|intros []; set_solver].
    + split; [reflexivity|by intros Hin%list_elem_of_singleton|done|].
      intros c x' ->%list_elem_of_singleton Hx'. by injection Hx' as <-.
    + done.
    + done.
    + done.
    + done.
    + done.
    + vm_compute. discriminate.
  - intros [] s' (es & H1 & _ & H2 & _). by exists es.
Defined.
