(* ===== verification/OverIp.v ===== *)
(** * Diagnostics over IP: the two stacks together

    The UDS stack over any transport ([Transport]), the DoIP stack as that transport
    ([taf_doip_DiagRequest] of [tafDoIPStack.cpp]), and the functions that the two threads of
    the process queue to each other: the main thread, which owns the sockets, and the UDS
    thread, in which the handlers of the UDS stack run. *)
From S2P Require Import Prelude DoipTypes DoipVehicle DoipSend DoipConn DoipRecv DoipUdp.
From S2P Require UdsTypes UdsSend UdsResp UdsMgr.
Import UdsTypes (AddrInfo, Mgr, Env, mkAddrInfo).

(** ** The UDS stack and its transport *)

(** What the UDS stack asks of the layer below. *)
Class Transport (T : Type) := request : AddrInfo -> list Z -> M T le_result_t.

(** The object of an interface, and the transport under it. *)
Record System {T : Type} := mkSystem { transport : T; uds : Mgr }.
Arguments System : clear implicits.
Arguments mkSystem {T} _ _.

Section Over.
Context {T : Type} `{!Transport T}.

(** The requests of a run, one after the other; the result of the last. *)
Fixpoint carry (last : le_result_t) (requests : list (AddrInfo * list Z)) : M T le_result_t :=
  match requests with
  | [] => mret last
  | (to, data) :: requests' => r ← request to data; carry r requests'
  end.

(** What the transport answers to the last of the requests among [es], from the state [t]. *)
Definition answer (t : T) (es : list UdsTypes.Effect) : le_result_t :=
  default LE_FAULT (result (carry LE_OK (UdsSend.sent es)) t).

(** The environment of the object: the requests go to the transport. *)
Definition over (env : Env) (t : T) (before : list UdsTypes.Effect) : Env :=
  UdsTypes.mkEnv (UdsTypes.config env) (UdsTypes.featureA env)
    (fun tr => answer t (drop (length before) tr))
    (UdsTypes.timer_IsRunning env) (UdsTypes.timer_GetMsTimeRemaining env)
    (UdsTypes.timer_GetExpiryCount env) (UdsTypes.cfg_GetInt env).

Definition on_transport {A} (c : M T A) : M (System T) A := fun y =>
  match c (transport y) with
  | Done (a, t) => Done (a, mkSystem t (uds y))
  | Faulted e => Faulted e
  end.

(** A method of the object: its requests are what the transport is asked, in their order. *)
Definition on_uds {A} (env : Env) (h : Env -> M Mgr A) : M (System T) A := fun y =>
  let before := UdsTypes.trace (uds y) in
  match h (over env (transport y) before) (uds y) with
  | Done (a, m) =>
      match carry LE_OK (UdsSend.sent (drop (length before) (UdsTypes.trace m))) (transport y) with
      | Done (_, t) => Done (a, mkSystem t m)
      | Faulted e => Faulted e
      end
  | Faulted e => Faulted e
  end.
End Over.

(** ** The DoIP stack as the transport *)
Section Doip.
Variable denv : DEnv.

Definition ta_type (t : UdsTypes.TaType) : taf_doip_TaType_t :=
  match t with
  | UdsTypes.TA_PHYSICAL => TAF_DOIP_TA_TYPE_PHYSICAL
  | UdsTypes.TA_FUNCTIONAL => TAF_DOIP_TA_TYPE_FUNCTIONAL
  end.

Definition taf_doip_DiagRequest (to : AddrInfo) (data : list Z) : M Stack le_result_t :=
  ret ← TransUdsMessage denv (UdsTypes.sa to) (UdsTypes.ta to) (ta_type (UdsTypes.taType to)) data;
  if negb (bool_decide (ret = TAF_DOIP_RESULT_OK)) then mret LE_COMM_ERROR else mret LE_OK.

#[export] Instance doip_transport : Transport Stack := taf_doip_DiagRequest.

(** ** The threads *)
Variable env : Env.

(** The address and the result as the handler of the UDS stack sees them. *)
Definition handler_addr (a : taf_doip_AddrInfo_t) : AddrInfo :=
  mkAddrInfo (dsa a) (dta a)
    (match dtaType a with
     | TAF_DOIP_TA_TYPE_PHYSICAL => UdsTypes.TA_PHYSICAL
     | TAF_DOIP_TA_TYPE_FUNCTIONAL => UdsTypes.TA_FUNCTIONAL
     end) (dvlanId a) (difName a).
Definition handler_result (r : taf_doip_Result_t) : UdsMgr.taf_doip_Result_t :=
  match r with
  | TAF_DOIP_RESULT_OK => UdsMgr.DOIP_RESULT_OK
  | TAF_DOIP_RESULT_SA_REGISTERED => UdsMgr.DOIP_RESULT_SA_REGISTERED
  | TAF_DOIP_RESULT_SA_DEREGISTERED => UdsMgr.DOIP_RESULT_SA_DEREGISTERED
  | _ => UdsMgr.DOIP_RESULT_OTHER
  end.

(** [IndicateUdsMessage] with the handler that the UDS stack has set. *)
Definition indicate_message (info : taf_doipDiagDataInfo_t) : M (System Stack) unit :=
  handler ← on_transport (has_handler info);
  when handler
    (d ← on_transport (message_at info);
     on_uds env (fun e => UdsMgr.DiagIndicationHandler e (handler_addr (info_addr info))
       (Some (UdsMgr.mkDiagMsg d (ilen info - two_addresses))) UdsMgr.DOIP_RESULT_OK));;
  on_transport (block ← demand (idata info) NullDeref; release_uds block).

(** [IndicateConnectionEvent] with that handler. *)
Definition indicate_event (info : taf_doipDiagDataInfo_t) (r : taf_doip_Result_t)
    : M (System Stack) unit :=
  handler ← on_transport (has_handler info);
  when handler (on_uds env (fun e =>
    UdsMgr.DiagIndicationHandler e (handler_addr (info_addr info)) None (handler_result r))).

(** [SendUDSResp], in the thread of the diagnostic service. *)
Definition service_reply (name : string) (serviceId err : Z) (p : UdsResp.Payload)
    : M (System Stack) le_result_t :=
  on_uds env (fun e => UdsResp.SendUDSResp e name serviceId err p).

(** What the threads have been given to run. *)
Definition uds_thread (e : DEffect) : M (System Stack) unit :=
  match e with
  | QueueIndicateUds info => indicate_message info
  | QueueConnectionEvent info r => indicate_event info r
  | QueueConfirmUser info => on_transport (ConfirmUserMessage info)
  | _ => mret tt
  end.
Definition main_thread (e : DEffect) : M (System Stack) unit :=
  match e with
  | QueueRequestUds info => on_transport (RequestUdsMessage denv info)
  | QueueConsume sock => on_transport (ConsumeTCPData denv sock;; mret tt)
  | _ => mret tt
  end.

(** A step: its result, and what it has queued. *)
Definition queued_by {A} (c : M (System Stack) A) : M (System Stack) (A * list DEffect) :=
  y ← get; r ← c; y' ← get; mret (r, drop (length (dtrace (transport y))) (dtrace (transport y'))).

(** What the main thread is given to run, then what the UDS thread is given. *)
Definition run_queued (es : list DEffect) : M (System Stack) unit :=
  for_each es main_thread;; for_each es uds_thread.

(** A step of the main thread, then what it has given to the UDS thread, then what the UDS
    thread has given back to the main thread and to itself. *)
Definition turn (first : M (System Stack) unit) : M (System Stack) unit :=
  p ← queued_by first;
  p' ← queued_by (for_each p.2 uds_thread);
  run_queued p'.2.

(** A step of the diagnostic service, then what it has given to the threads. *)
Definition reply_turn {A} (reply : M (System Stack) A) : M (System Stack) A :=
  p ← queued_by reply;
  run_queued p.2;;
  mret p.1.
End Doip.
