(* ===== verification/OverIpSpec.v ===== *)
(** * Diagnostics over IP: what a transport promises, and that the DoIP stack keeps it *)
From S2P Require Import Prelude DoipTypes DoipVehicle DoipSend DoipConn DoipRecv DoipUdp.
From S2P Require Import DoipSpec DoipRecvSpec DoipKeeps DoipDiag.
From S2P Require UdsTypes UdsSend UdsMgr UdsResp SecAccessSpec UdsAnswer UdsRequest UdsHandler.
From S2P Require Import OverIp.
Import UdsTypes (AddrInfo, Mgr, Env).

(** ** What the UDS stack relies on *)

(** A transport takes the messages it can deliver, and says so. *)
Class Carrier (T : Type) `{!Transport T} := {
  deliverable : T -> AddrInfo -> list Z -> Prop;
  accepted : T -> AddrInfo -> list Z -> T -> Prop;
  request_accepted t to data : deliverable t to data ->
    wp (request to data) (fun r t' => r = LE_OK /\ accepted t to data t') t }.

Lemma wp_on_transport {T A} (c : M T A) (Q : A -> System T -> Prop) y :
  wp c (fun a t => Q a (mkSystem t (uds y))) (transport y) -> wp (on_transport c) Q y.
Proof. unfold wp, on_transport. by destruct (c (transport y)) as [[]|]. Qed.

Section Carried.
Context {T : Type} `{!Transport T} `{!Carrier T}.

Lemma wp_on_uds {A} env (h : Env -> M Mgr A) (P : A -> Mgr -> list UdsTypes.Effect -> Prop)
    (Q : A -> System T -> Prop) y :
  wp (h (over env (transport y) (UdsTypes.trace (uds y)))) (fun a m => exists es,
    UdsTypes.trace m = UdsTypes.trace (uds y) ++ es /\ P a m es) (uds y) ->
  (forall a m es, P a m es ->
     wp (carry LE_OK (UdsSend.sent es)) (fun _ t => Q a (mkSystem t m)) (transport y)) ->
  wp (on_uds env h) Q y.
Proof.
  unfold on_uds. intros Hh Hc. unfold wp in Hh |- *.
  destruct (h _ _) as [[a m]|]; [|done]. destruct Hh as (es & -> & HP).
  rewrite drop_app_length. specialize (Hc a m es HP). unfold wp in Hc.
  by destruct (carry _ _ _) as [[]|].
Qed.

Lemma wp_carry_one to data (Q : le_result_t -> T -> Prop) t :
  deliverable t to data -> (forall t', accepted t to data t' -> Q LE_OK t') ->
  wp (carry LE_OK [(to, data)]) Q t.
Proof.
  intros Hd HQ. cbn [carry]. apply wp_bind. eapply wp_conseq; [by apply request_accepted|].
  intros r t' [-> Ha]. apply wp_ret. by apply HQ.
Qed.

(** What a message means does not depend on the transport. *)
Lemma handled_over env t tr a msg m m' :
  UdsHandler.handled (over env t tr) a msg m m' -> UdsHandler.handled env a msg m m'.
Proof.
  intros [Hq Hr Hs|sid data Hat Hresp He Hr|sid Hat He Hr Hr' Hp Hperm Hl Hpass].
  - by apply UdsHandler.Silent.
  - by eapply UdsHandler.Responded.
  - by eapply (UdsHandler.Forwarded _ _ _ _ _ sid).
Qed.

(** A message of a tester makes the object ask for at most one answer, a response to the
    service of the message, and the transport takes it. *)
Inductive answered (t : T) (to : AddrInfo) (sid : Z) (t' : T) : list (list Z) -> Prop :=
  | Nothing : t' = t -> answered t to sid t' []
  | Answer data : SecAccessSpec.response_to sid data -> accepted t to data t' ->
      answered t to sid t' [data].

Lemma message_carried env (y : System T) a msg sid (Q : unit -> System T -> Prop) :
  UdsHandler.TimersRepresentable (UdsTypes.config env) -> UdsRequest.pattern_rows (UdsTypes.config env) ->
  UdsHandler.stable (uds y) -> UdsRequest.active_when_unlocked (uds y) ->
  UdsHandler.message_ok msg -> UdsTypes.ifName a = UdsTypes.interface (uds y) ->
  at_ (UdsMgr.dataPtr msg) 0 = Some sid ->
  (forall data, SecAccessSpec.response_to sid data ->
     deliverable (transport y) (UdsSend.reply_to a) data) ->
  (forall y' answers, UdsHandler.stable (uds y') -> UdsHandler.handled env a msg (uds y) (uds y') ->
     UdsSend.emits (uds y) (uds y') (fun es => UdsSend.sent es = pair (UdsSend.reply_to a) <$> answers) ->
     answered (transport y) (UdsSend.reply_to a) sid (transport y') answers -> Q tt y') ->
  wp (on_uds env (fun e => UdsMgr.DiagIndicationHandler e a (Some msg) UdsMgr.DOIP_RESULT_OK)) Q y.
Proof.
  intros HT Hrows Hst Hact Hmsg Hname Hsid Hdel HQ.
  set (P := fun (_ : unit) m es => UdsHandler.stable m /\
    UdsHandler.handled env a msg (uds y) m /\ UdsTypes.trace m = UdsTypes.trace (uds y) ++ es /\
    exists answers, UdsSend.sent es = pair (UdsSend.reply_to a) <$> answers /\
      (answers = [] \/ exists d, answers = [d] /\ SecAccessSpec.response_to sid d)).
  apply (wp_on_uds env _ P).
  - eapply wp_conseq; [by apply (UdsHandler.DiagIndicationHandler_spec (over env _ _) a msg)|].
    intros [] m [Hst' Hh%handled_over]. unfold P. destruct (Hh) as
      [(es & He & Hq) _ _|sid' d Hat Hresp (es & He & Hs & _) _|sid' Hat (es & He & Hs & _) _ _ _ _ _];
      exists es; (split; [done|]); (split; [done|]); (split; [done|]); (split; [done|]); simplify_eq.
    + exists []. split; [by apply UdsSend.quiet_sent|by left].
    + exists [d]. split; [done|right; eauto].
    + eexists [_]. split; [done|]. right. eexists. split; [done|apply SecAccessSpec.response_negative].
  - intros [] m es (Hst' & Hh & He & answers & Hs & [->|(d & -> & Hresp)]); rewrite Hs.
    + apply wp_ret. eapply HQ; [done|done| |by apply Nothing]. by exists es.
    + eapply wp_carry_one; [by apply Hdel|]. intros t' Ha. eapply HQ; [done|done| |by apply Answer]. by exists es.
Qed.

(** What the transport answers to the one request of a run. *)
Lemma answer_one t to data es :
  deliverable t to data -> Forall UdsSend.quiet es ->
  answer t (es ++ [UdsTypes.DoipRequest to data]) = LE_OK.
Proof.
  intros Hd Hq. unfold answer. rewrite UdsSend.sent_app, UdsSend.quiet_sent by done.
  change (default LE_FAULT (result (carry LE_OK [(to, data)]) t) = LE_OK).
  assert (Hc : wp (carry LE_OK [(to, data)]) (fun r _ => r = LE_OK) t) by by apply wp_carry_one.
  unfold wp, result in *. by destruct (carry _ _ t) as [[]|].
Qed.

(** The answer of the service: the transport takes it and the next request is accepted, or
    nothing is asked of the transport. *)
Definition replied (t : T) (m : Mgr) (sid : Z) (r : le_result_t) (y' : System T) : Prop :=
  UdsSend.wf (uds y') /\
  ((r = LE_OK /\ UdsTypes.readyToRecvData (uds y') = true /\ exists data,
      SecAccessSpec.response_to sid data /\ accepted t (UdsTypes.udsRespAddrInfo m) data (transport y')) \/
   (r <> LE_OK /\ UdsTypes.readyToRecvData (uds y') = UdsTypes.readyToRecvData m /\ transport y' = t)).

Lemma response_carried env (y : System T) name sid err p :
  UdsSend.S3Representable (UdsTypes.config env) -> UdsSend.wf (uds y) -> UdsAnswer.payload_ok p ->
  SecAccessSpec.ao_ok (UdsTypes.mSecurityAccess (uds y)) ->
  UdsTypes.state_fn (UdsTypes.mSecurityAccess (uds y)) <> UdsTypes.State_initial ->
  UdsAnswer.ready_to_answer env (uds y) p err sid ->
  (forall data, SecAccessSpec.response_to sid data ->
     deliverable (transport y) (UdsTypes.udsRespAddrInfo (uds y)) data) ->
  wp (on_uds env (fun e => UdsResp.SendUDSResp e name sid err p))
    (replied (transport y) (uds y) sid) y.
Proof.
  intros HS Hwf Hp Hao Hini Hready Hdel. set (env' := over env (transport y) (UdsTypes.trace (uds y))).
  set (P := fun r m es => UdsSend.wf m /\
    ((r = LE_OK /\ UdsTypes.readyToRecvData m = true /\ exists data, SecAccessSpec.response_to sid data /\
        UdsSend.sent es = [(UdsTypes.udsRespAddrInfo (uds y), data)]) \/
     (r <> LE_OK /\ UdsTypes.readyToRecvData m = UdsTypes.readyToRecvData (uds y) /\ UdsSend.sent es = []))).
  apply (wp_on_uds env _ P).
  - eapply wp_conseq; [apply (UdsAnswer.SendUDSResp_spec env'); try done|].
    { destruct Hready. by split. }
    intros r m [Hwf' [(-> & data & Hresp & (es & He & Hs & _) & Hr)|(Hne & (es & He & Hq) & Hr)]];
      exists es; (split; [done|]); (split; [done|]).
    + left. split; [done|]. split; [|by exists data]. apply Hr. intros es0 Hes0. cbn.
      rewrite drop_app_length. by apply answer_one; [apply Hdel|].
    + right. split; [done|]. split; [done|by apply UdsSend.quiet_sent].
  - intros r m es [Hwf' [(-> & Hr & data & Hresp & ->)|(Hne & Hr & ->)]].
    + eapply wp_carry_one; [by apply Hdel|]. intros t' Ha. split; [done|]. left. eauto.
    + apply wp_ret. split; [done|]. by right.
Qed.
End Carried.

(** ** The DoIP stack delivers *)

(** The diagnostic message that carries [data], and the two functions that are queued for it. *)
Definition diag_message (cfg : taf_doip_Config_t) (sa ta : Z) (data : list Z) : list Z :=
  doip_message cfg TAF_DOIP_PAYLOAD_TYPE_DIAGNOSTIC_MESSAGE (diag_body sa ta data).
Definition queued_for (to : AddrInfo) (block len : Z) : list DEffect :=
  let a := UdsTypes.sa to in let b := UdsTypes.ta to in let ty := ta_type (UdsTypes.taType to) in
  [QueueRequestUds (mkDiagInfo a b ty (Some block) len 0 "");
   QueueConfirmUser (mkDiagInfo a b ty None 0 0 "")].

Section Doip.
Context (denv : DEnv).

Definition doip_room (data : list Z) : Z := 12 + Z.of_nat (length data).

(** The entity is known, a block is free, and the message fits into it. *)
Record doip_deliverable (s : Stack) (to : AddrInfo) (data : list Z) : Prop := mkDeliverable {
  dd_session : is_Some (find_session (doipSessions s) (UdsTypes.sa to));
  dd_config : is_Some (doipConfigPtr s);
  dd_free : uds_pool_free denv (dtrace s) = true;
  dd_nonempty : data <> [];
  dd_fits : doip_room data <= udsObjectSize s < 2 ^ 32 }.

(** The message waits in a block of its own for the main thread. *)
Record doip_accepted (s : Stack) (to : AddrInfo) (data : list Z) (s' : Stack) : Prop := mkAccepted {
  da_box : connectionBox s' = connectionBox s;
  da_conns : conns s' = conns s;
  da_timers : liveTimers s' = liveTimers s;
  da_block : exists cfg pad, doipConfigPtr s = Some cfg /\ udsPool s' =
    <[nextId s := diag_message cfg (UdsTypes.sa to) (UdsTypes.ta to) data ++ pad]> (udsPool s);
  da_trace : dtrace s' = dtrace s ++ queued_for to (nextId s) (doip_room data) }.

Lemma wp_uds_copy s u pos src d (Q : unit -> Stack -> Prop) :
  udsPool s !! u = Some d -> 0 <= pos -> pos + Z.of_nat (length src) <= Z.of_nat (length d) ->
  Q tt (s <| udsPool := <[u := splice d pos src]> (udsPool s) |>) -> wp (uds_copy u pos src) Q s.
Proof.
  intros Hd H1 H2 HQ. unfold uds_copy. do 2 wp_step. wp_step. eapply wp_demand; [exact Hd|].
  by rewrite decide_True.
Qed.

Lemma splice_two (g : Z) n (a b : list Z) :
  splice (splice (replicate n g) 0 a) (Z.of_nat (length a)) b = (a ++ b) ++ replicate (n - length a - length b) g.
Proof.
  rewrite splice_replicate. unfold splice. rewrite Nat2Z.id, take_app_length.
  rewrite drop_app_ge by lia. rewrite drop_replicate, <- app_assoc. do 3 f_equal. lia.
Qed.

Lemma wp_uds_alloc s (Q : option Z -> Stack -> Prop) :
  uds_pool_free denv (dtrace s) = true ->
  (forall g, Q (Some (nextId s)) (s <| nextId := nextId s + 1 |> <| udsPool :=
     <[nextId s := replicate (Z.to_nat (udsObjectSize s)) g]> (udsPool s) |>)) ->
  wp (uds_alloc denv) Q s.
Proof.
  intros Hfree HQ. unfold uds_alloc. do 2 wp_step. rewrite Hfree. wp_step. unfold fresh. do 2 wp_step. wp_step.
  apply wp_assign. wp_step. do 2 wp_step. wp_step. apply wp_assign. wp_step. apply HQ.
Qed.

Lemma packed cfg a b data :
  Z.of_nat (length data) + 4 < 2 ^ 32 ->
  doip_header cfg TAF_DOIP_PAYLOAD_TYPE_DIAGNOSTIC_MESSAGE (u32 (Z.of_nat (length data) + two_addresses)) ++
    net16 a ++ net16 b ++ data = diag_message cfg a b data.
Proof.
  intros H. unfold diag_message, doip_message, two_addresses. rewrite length_diag_body.
  rewrite wrap_id by (unfold in_width; lia). do 2 f_equal. lia.
Qed.

Lemma TransUdsMessage_accepts s to data :
  doip_deliverable s to data ->
  wp (TransUdsMessage denv (UdsTypes.sa to) (UdsTypes.ta to) (ta_type (UdsTypes.taType to)) data)
    (fun r s' => r = TAF_DOIP_RESULT_OK /\ doip_accepted s to data s') s.
Proof.
  intros [[sess Hsess] [cfg Hcfg] Hfree Hne [Hfit Hsize]]. unfold doip_room in *. unfold TransUdsMessage.
  assert (Hl : 0 < Z.of_nat (length data)) by (destruct data; [done|cbn; lia]).
  destruct (Z.eqb_spec (Z.of_nat (length data)) 0); [lia|]. cbv zeta.
  wp_step. unfold FindDoipSession. do 2 wp_step. wp_step. rewrite Hsess.
  wp_step. apply wp_uds_alloc; [done|]. intros g. cbv iota.
  wp_step. eapply wp_PackGenericHeader; [exact Hcfg|].
  set (u := nextId s). set (hd := doip_header cfg _ _).
  assert (Hhd : length hd = 8%nat) by done.
  wp_step. eapply wp_uds_copy; [apply lookup_insert_eq|lia|rewrite length_app, length_replicate, Hhd; cbn; lia|].
  wp_step. eapply wp_uds_copy; [apply lookup_insert_eq|done| |].
  { rewrite splice_replicate, !length_app, length_replicate, Hhd. unfold two_addresses. cbn. lia. }
  wp_step. apply wp_demit. wp_step. apply wp_demit. wp_step. split; [done|].
  assert (Hpk := packed cfg (UdsTypes.sa to) (UdsTypes.ta to) data). fold hd in Hpk.
  specialize (Hpk ltac:(lia)). split; [by cbn..| |].
  - exists cfg, (replicate (Z.to_nat (udsObjectSize s) - 12 - length data) g). split; [done|]. rewrite <- Hpk.
    change (<[u := splice (splice (replicate (Z.to_nat (udsObjectSize s)) g) 0
      (hd ++ net16 (UdsTypes.sa to) ++ net16 (UdsTypes.ta to))) (Z.of_nat 12) data]>
      (<[u := splice (replicate (Z.to_nat (udsObjectSize s)) g) 0
      (hd ++ net16 (UdsTypes.sa to) ++ net16 (UdsTypes.ta to))]> (<[u := replicate (Z.to_nat (udsObjectSize s)) g]> (udsPool s))) =
      <[u := (hd ++ net16 (UdsTypes.sa to) ++ net16 (UdsTypes.ta to) ++ data) ++
         replicate (Z.to_nat (udsObjectSize s) - 12 - length data) g]> (udsPool s)).
    rewrite !insert_insert_eq. f_equal. etrans; [apply (splice_two g _ (hd ++ net16 _ ++ net16 _))|].
    by rewrite <- !app_assoc.
  - cbn. rewrite <- app_assoc. unfold queued_for, doip_room. do 5 f_equal.
Qed.

(** A message that does not fit into its block is written past the end of it. *)
Lemma TransUdsMessage_overruns s to data cfg :
  is_Some (find_session (doipSessions s) (UdsTypes.sa to)) -> doipConfigPtr s = Some cfg ->
  uds_pool_free denv (dtrace s) = true -> 12 <= udsObjectSize s < doip_room data ->
  TransUdsMessage denv (UdsTypes.sa to) (UdsTypes.ta to) (ta_type (UdsTypes.taType to)) data s =
  Faulted OutOfBounds.
Proof.
  intros [sess Hsess] Hcfg Hfree [Hmin Hlong]. unfold doip_room in *. unfold TransUdsMessage. cbv zeta.
  destruct (Z.eqb_spec (Z.of_nat (length data)) 0); [lia|].
  apply fault_bind. unfold FindDoipSession. do 2 wp_step. wp_step. rewrite Hsess.
  apply fault_bind, wp_uds_alloc; [done|]. intros g. cbv iota.
  apply fault_bind. eapply wp_PackGenericHeader; [exact Hcfg|]. set (hd := doip_header cfg _ _).
  assert (Hhd : length hd = 8%nat) by done.
  apply fault_bind. eapply wp_uds_copy; [apply lookup_insert_eq|lia|rewrite length_app, length_replicate, Hhd; cbn; lia|].
  apply fault_bind_now. unfold uds_copy. apply fault_bind, wp_get, fault_bind.
  eapply wp_demand; [apply lookup_insert_eq|]. rewrite decide_False; [done|].
  rewrite splice_replicate, !length_app, length_replicate, Hhd. unfold two_addresses. cbn. lia.
Qed.

#[export] Instance doip_carrier : @Carrier Stack (doip_transport denv).
Proof.
  refine {| deliverable := doip_deliverable; accepted := doip_accepted |}.
  intros s to data Hd. unfold request, doip_transport, taf_doip_DiagRequest. apply wp_bind.
  eapply wp_conseq; [by apply TransUdsMessage_accepts|]. intros r s' [-> Ha].
  rewrite bool_decide_true by done. by apply wp_ret.
Defined.
End Doip.

(** ** The threads *)
Section Threads.
Context (denv : DEnv) (env : Env).
Implicit Types (y : System Stack) (s : Stack).

Lemma wp_queued_by {A} (c : M (System Stack) A) (Q : A * list DEffect -> System Stack -> Prop) y :
  wp c (fun r y' => exists es, dtrace (transport y') = dtrace (transport y) ++ es /\ Q (r, es) y') y ->
  wp (queued_by c) Q y.
Proof.
  intros Hc. unfold queued_by. do 2 wp_step. wp_step. eapply wp_conseq; [exact Hc|].
  intros r y' (es & He & HQ). do 2 wp_step. wp_step. by rewrite He, drop_app_length.
Qed.

Lemma uds_thread_idle es (Q : unit -> System Stack -> Prop) y :
  uds_queue es = [] -> Q tt y -> wp (for_each es (uds_thread denv env)) Q y.
Proof.
  intros Hes HQ. induction es as [|e es IH]; [exact HQ|]. cbn [for_each]. unfold uds_queue in Hes.
  destruct e; try (by rewrite filter_cons_True in Hes by done);
    rewrite filter_cons_False in Hes by (by intros []); apply wp_bind; by apply wp_ret, IH.
Qed.

(** The only registered connection of the box whose tester has the address [a]. *)
Definition only_tester s (c a : Z) : Prop := forall c' x', c' ∈ connectionBox s ->
  conns s !! c' = Some x' -> IsLogicalAddressMatch a x' && is_registered x' = true -> c' = c.

(** What finding a connection and sending on it depend on. *)
Section Frame.
Context (s s' : Stack) (Hb : connectionBox s' = connectionBox s) (Hc : conns s' = conns s).
Lemma box_ok_frame : box_ok s -> box_ok s'.
Proof using Hb Hc. intros []. split; by rewrite Hb, ?Hc. Qed.
Lemma only_tester_frame c a : only_tester s c a -> only_tester s' c a.
Proof using Hb Hc. unfold only_tester. by rewrite Hb, Hc. Qed.
Lemma serving_frame c x g : liveTimers s' = liveTimers s -> serving s c x g -> serving s' c x g.
Proof using Hb Hc. intros Ht []. split; by rewrite ?Hb, ?Hc, ?Ht. Qed.
End Frame.

Lemma wp_RequestUdsMessage s c x g info u d pad (Q : unit -> Stack -> Prop) :
  box_ok s -> serving s c x g -> connState x = TAF_DOIP_CONNECT_STATE_REGISTERED_ROUTING_ACTIVE ->
  IsLogicalAddressMatch (ita info) x = true -> only_tester s c (ita info) ->
  idata info = Some u -> udsPool s !! u = Some (d ++ pad) -> ilen info = Z.of_nat (length d) -> d <> [] ->
  Q tt ((dlog s (send_effects denv s x g d)) <| udsPool := delete u (udsPool s) |>) ->
  wp (RequestUdsMessage denv info) Q s.
Proof.
  intros Hbox Hs Hst Hmatch Honly Hu Hd Hlen Hne HQ. pose proof Hs as [Hx Hc _ _].
  unfold RequestUdsMessage. rewrite Hu. wp_step. apply (wp_demand _ _ u); [done|].
  wp_step. unfold FindConnectionByLogicalAddr. do 2 wp_step.
  eapply wp_conseq; [by apply find_in_spec, Hbox|]. intros r s' [-> Hr]. wp_step.
  assert (Hreg : is_registered x = true) by (unfold is_registered; rewrite Hst; done).
  destruct r as [c'|].
  2: { specialize (Hr c x Hc Hx). by rewrite Hmatch, Hreg in Hr. }
  destruct Hr as (Hc' & x' & Hx' & Hp). rewrite (Honly c' x' Hc' Hx' Hp).
  do 2 wp_step. wp_step. eapply wp_demand; [exact Hd|]. wp_step. rewrite Hlen.
  apply wp_bytes_at; [lia|lia|rewrite length_app; lia|]. rewrite drop_0, Nat2Z.id, take_app_length.
  wp_step. unfold SendDiagMessage. wp_step. eapply wp_cget; [exact Hx|].
  rewrite Hst. rewrite bool_decide_true by done. cbn [negb].
  eapply wp_Connection_SendTCPData; [done|done|]. intros r. wp_step.
  apply wp_release_uds; [by eexists|]. exact HQ.
Qed.

Lemma wp_ConfirmUserMessage s info (Q : unit -> Stack -> Prop) :
  (forall es, sent es = [] -> Q tt (dlog s es)) -> wp (ConfirmUserMessage info) Q s.
Proof.
  intros HQ. unfold ConfirmUserMessage, FindDoipSession. do 3 wp_step.
  destruct (find_session _ _) as [sess|]; wp_step; [|wp_step; specialize (HQ [] eq_refl); by rewrite dlog_nil in HQ].
  unfold when. destruct (diagConfirmHandler sess).
  - apply wp_demit. by apply HQ.
  - wp_step. specialize (HQ [] eq_refl). by rewrite dlog_nil in HQ.
Qed.

(** A message that waits is sent to its tester. *)
Lemma deliver_queued s c x g cfg to data pad u m (Q : unit -> System Stack -> Prop) :
  box_ok s -> serving s c x g -> connState x = TAF_DOIP_CONNECT_STATE_REGISTERED_ROUTING_ACTIVE ->
  IsLogicalAddressMatch (UdsTypes.ta to) x = true -> only_tester s c (UdsTypes.ta to) ->
  udsPool s !! u = Some (diag_message cfg (UdsTypes.sa to) (UdsTypes.ta to) data ++ pad) ->
  (forall es, sent es = [(cliSockRef x, diag_message cfg (UdsTypes.sa to) (UdsTypes.ta to) data)] ->
     Q tt (mkSystem ((dlog s es) <| udsPool := delete u (udsPool s) |>) m)) ->
  wp (run_queued denv env (queued_for to u (doip_room data))) Q (mkSystem s m).
Proof.
  intros Hbox Hserv Hst Hmatch Honly Hu HQ. unfold run_queued. cbn [queued_for for_each main_thread uds_thread].
  apply wp_bind, wp_bind, wp_on_transport.
  eapply (wp_RequestUdsMessage s c x g _ u _ pad); try done.
  - unfold diag_message. rewrite length_doip_message, length_diag_body. cbn [ilen]. unfold doip_room. lia.
  - repeat wp_step. apply wp_on_transport, wp_ConfirmUserMessage. intros es Hes. wp_step.
    set (sent_es := send_effects _ _ _ _ _) in *. specialize (HQ (sent_es ++ es)).
    eapply eq_ind; [apply HQ; unfold sent_es; by rewrite dsent_app, Hes, sent_send_effects|].
    f_equal. apply stack_ext; try done. cbn. by rewrite app_assoc.
Qed.
End Threads.

(** ** An answer of the service *)

(** A registered tester that can be reached, and room for every answer to it. *)
Record tester_served (denv : DEnv) (s : Stack) (c : Z) (x : Connection) (to : AddrInfo)
    (cfg : taf_doip_Config_t) : Prop := mkServed {
  ts_box : box_ok s;
  ts_serving : serving s c x (ConnT c GeneralTimer);
  ts_active : connState x = TAF_DOIP_CONNECT_STATE_REGISTERED_ROUTING_ACTIVE;
  ts_match : IsLogicalAddressMatch (UdsTypes.ta to) x = true;
  ts_only : only_tester s c (UdsTypes.ta to);
  ts_config : doipConfigPtr s = Some cfg;
  ts_session : is_Some (find_session (doipSessions s) (UdsTypes.sa to));
  ts_free : uds_pool_free denv (dtrace s) = true;
  ts_room : 12 + UdsTypes.UDS_MAX_DATA_SIZE <= udsObjectSize s < 2 ^ 32 }.

Lemma served_delivers denv s c x to cfg sid data :
  tester_served denv s c x to cfg -> SecAccessSpec.response_to sid data -> doip_deliverable denv s to data.
Proof.
  intros [] [Hl Hresp]. split; [done|by exists cfg|done| |unfold doip_room; lia].
  by destruct Hresp as [[? ->]|[? ->]].
Qed.

Lemma served_queued denv env s c x to cfg data t m (Q : unit -> System Stack -> Prop) :
  tester_served denv s c x to cfg -> doip_accepted s to data t ->
  (forall t' es, dtrace t' = dtrace t ++ es ->
     sent es = [(cliSockRef x, diag_message cfg (UdsTypes.sa to) (UdsTypes.ta to) data)] ->
     Q tt (mkSystem t' m)) ->
  wp (run_queued denv env (queued_for to (nextId s) (doip_room data))) Q (mkSystem t m).
Proof.
  intros [Hbox Hserv Hact Hmatch Honly Hcfg _ _ _] [H1 H2 H3 (cfg' & pad & Hcfg' & Hp) _] HQ.
  assert (cfg' = cfg) as -> by congruence.
  eapply (deliver_queued denv env t c x (ConnT c GeneralTimer)); try done.
  - by apply (box_ok_frame s).
  - by apply (serving_frame s).
  - by apply (only_tester_frame s).
  - rewrite Hp. apply lookup_insert_eq.
  - intros es Hes. by apply (HQ _ es).
Qed.

(** ** A message of a tester, through both stacks *)

(** A diagnostic message that has arrived whole at an entity whose UDS stack is idle or busy. *)
Record request_ready (denv : DEnv) (env : Env) (y : System Stack) (c b v sa ta sid : Z) (x : Connection)
    (cfg : taf_doip_Config_t) (buf : taf_doip_Buffer_t) (pre rest req : list Z) (ty : taf_doip_TaType_t)
    (sess : taf_doipSession_t) : Prop := mkRequestReady {
  rr_diag : diag_ready denv (transport y) c x b cfg buf pre v sa ta (sid :: req) rest;
  rr_whole : dataSize buf = 8 + Z.of_nat (length (diag_body sa ta (sid :: req)));
  rr_target : addressed cfg ta = Some ty;
  rr_session : find_session (doipSessions (transport y)) (own_address cfg) = Some sess;
  rr_handler : diagIndicationHandler sess = true;
  rr_blocks : forall tr, uds_pool_free denv tr = true;
  rr_room : 12 + UdsTypes.UDS_MAX_DATA_SIZE <= udsObjectSize (transport y) < 2 ^ 32;
  rr_tester : only_tester (transport y) c sa;
  rr_bytes : Forall is_byte (sid :: req);
  rr_interface : UdsTypes.interface (uds y) = localIface x;
  rr_stable : UdsHandler.stable (uds y);
  rr_unlocked : UdsRequest.active_when_unlocked (uds y);
  rr_timers : UdsHandler.TimersRepresentable (UdsTypes.config env);
  rr_rows : UdsRequest.pattern_rows (UdsTypes.config env) }.

Section Request.
Context (denv : DEnv) (env : Env) (y : System Stack) (c b v sa ta sid : Z) (x : Connection).
Context (cfg : taf_doip_Config_t) (buf : taf_doip_Buffer_t) (pre rest req : list Z).
Context (ty : taf_doip_TaType_t) (sess : taf_doipSession_t).
#[local] Hint Extern 0 (Transport Stack) => exact (doip_transport denv) : typeclass_instances.
#[local] Hint Extern 0 (Carrier Stack) => exact (doip_carrier denv) : typeclass_instances.
Context (Hr : request_ready denv env y c b v sa ta sid x cfg buf pre rest req ty sess).

Let s := transport y.
Let msg := sid :: req.
Let len := Z.of_nat (length (diag_body sa ta msg)).
Let info := diag_info denv cfg (dtrace s) x sa ty (nextId s) len.
Let from := handler_addr (info_addr info).
Let x' := unloaded x <| isConsuming := false |>.

(** What the stack has sent when the message is with the UDS thread. *)
Definition ack_message : Z * list Z :=
  (cliSockRef x, doip_message cfg TAF_DOIP_PAYLOAD_TYPE_DIAGNOSTIC_POSITIVE_ACK (ack_fields sa ta)).

(** The main thread has handled the message; the UDS thread has not. *)
Definition indicated (pad : list Z) (es : list DEffect) : Stack :=
  world s c x' (<[b := mkBuffer (data buf) 0 0]> (inPool s)) (<[nextId s := diag_body sa ta msg ++ pad]> (udsPool s))
    (nextId s + 1) (QueueIndicateUds info :: es).

Lemma indicated_next pad es : nextId (indicated pad es) = nextId s + 1.
Proof. done. Qed.

Lemma main_receives (Q : unit -> System Stack -> Prop) :
  (forall pad es, Forall is_byte pad -> Z.of_nat (length (diag_body sa ta msg ++ pad)) = udsObjectSize s ->
    uds_queue es = [] -> sent es = [ack_message] -> Q tt (mkSystem (indicated pad es) (uds y))) ->
  wp (on_transport (ConsumeTCPData denv (cliSockRef x))) Q y.
Proof using Hr.
  intros HQ. destruct Hr as [Hd Hwhole Hta _ _ _ _ _ _ _ _ _ _ _]. fold s msg in Hd, Hwhole.
  apply wp_on_transport. eapply wp_same; [apply (consume_diag _ _ _ _ _ _ _ _ _ _ _ _ _ Hd)|].
  apply wp_bind. apply (handle_diag _ _ _ _ _ _ _ _ _ _ _ _ _ Hd ty); [done|].
  intros pad es Hp Hl Hq Hs _. rewrite Hwhole, Z.eqb_refl.
  apply wp_ret. by apply HQ.
Qed.

(** The message as the handler of the UDS stack sees it. *)
Definition handed (pad : list Z) : UdsMgr.DiagMsg :=
  UdsMgr.mkDiagMsg (msg ++ pad) (Z.of_nat (length msg)).

Lemma handed_ok pad : Forall is_byte pad ->
  Z.of_nat (length (diag_body sa ta msg ++ pad)) = udsObjectSize s -> UdsHandler.message_ok (handed pad).
Proof using Hr.
  intros Hp Hl. destruct Hr as [_ _ _ _ _ _ Hroom _ Hb _ _ _ _ _].
  rewrite length_app, length_diag_body in Hl. fold s in Hroom.
  split; cbn [UdsMgr.dataPtr UdsMgr.dataLen handed].
  - rewrite length_app. lia.
  - by apply Forall_app.
  - intros _. rewrite length_app. lia.
Qed.

(** The requests that can be delivered once the message is with the UDS thread. *)
Lemma indicated_delivers pad es data : SecAccessSpec.response_to sid data ->
  doip_deliverable denv (indicated pad es) (UdsSend.reply_to from) data.
Proof using Hr.
  intros [Hl Hresp]. destruct Hr as [Hd _ _ Hsess _ Hfree Hroom _ _ _ _ _ _ _].
  pose proof (dr_conn _ _ _ _ _ _ _ _ _ _ _ _ _ Hd) as [_ _ _ _ Hcfg _].
  split; unfold indicated; autorewrite with world.
  - exists sess. exact Hsess.
  - by exists cfg.
  - apply Hfree.
  - by destruct Hresp as [[? ->]|[? ->]].
  - unfold doip_room. fold s in Hroom. lia.
Qed.

Lemma uds_handles pad es (Q : unit -> System Stack -> Prop) :
  Forall is_byte pad -> Z.of_nat (length (diag_body sa ta msg ++ pad)) = udsObjectSize s ->
  (forall t m answers, UdsHandler.stable m -> UdsHandler.handled env from (handed pad) (uds y) m ->
     UdsSend.emits (uds y) m (fun es => UdsSend.sent es = pair (UdsSend.reply_to from) <$> answers) ->
     answered (indicated pad es) (UdsSend.reply_to from) sid t answers ->
     Q tt (mkSystem (t <| udsPool := delete (nextId s) (udsPool t) |>) m)) ->
  wp (indicate_message denv env info) Q (mkSystem (indicated pad es) (uds y)).
Proof using Hr.
  intros Hp Hl HQ. pose proof (handed_ok pad Hp Hl) as Hok.
  pose proof (indicated_delivers pad es) as Hdel.
  destruct Hr as [_ _ _ Hsess Hhdl _ _ _ _ Hname Hst Hact HT Hrows].
  unfold indicate_message. wp_step. apply wp_on_transport.
  eapply wp_has_handler; [exact Hsess|exact Hhdl|]. wp_step. unfold when. wp_step.
  apply wp_on_transport. eapply wp_message_at; [done|rewrite <- diag_body_pad; apply lookup_insert_eq|].
  replace (ilen info - two_addresses) with (Z.of_nat (length msg)).
  2: { cbn [ilen info diag_info]. unfold len. rewrite length_diag_body. unfold two_addresses. lia. }
  apply (message_carried env (mkSystem (indicated pad es) (uds y)) from (handed pad) sid); try done.
  intros [t m] answers Hst' Hh He Ha. cbn [transport uds] in *. apply wp_on_transport. cbn [idata info diag_info].
  wp_step. apply (wp_demand _ _ (nextId s)); [done|]. cbn [transport uds].
  apply wp_release_uds; [|by eapply HQ].
  assert (Hu : udsPool (indicated pad es) !! nextId s = Some (diag_body sa ta msg ++ pad)) by apply lookup_insert_eq.
  destruct Ha as [->|data _ [_ _ _ (cfg' & pad' & _ & Hp') _]]; [by rewrite Hu|].
  rewrite Hp', (indicated_next pad es), lookup_insert_ne by lia. by rewrite Hu.
Qed.

(** The state in which the main thread finds the answer. *)
Lemma indicated_serves pad es : box_ok (indicated pad es) /\
  serving (indicated pad es) c x' (ConnT c GeneralTimer) /\
  IsLogicalAddressMatch sa x' = true /\ only_tester (indicated pad es) c sa.
Proof using Hr.
  destruct Hr as [Hd _ _ _ _ _ _ Honly _ _ _ _ _ _].
  destruct Hd as [[Hbox Hst Hty _ _ _] _ _ _ _ _ _ Hsa _ _ _ _ _ _ _].
  pose proof (started_serving _ _ _ _ Hst) as Hserv. split_and!.
  - by eapply w_box_ok; [|exact (st_object _ _ _ _ Hst)|].
  - by eapply w_serving.
  - unfold IsLogicalAddressMatch. change (connType x') with (connType x). rewrite Hty.
    change (testerSA x') with (testerSA x). rewrite Hsa. apply Z.eqb_refl.
  - intros c1 x1 Hc1 Hx1 Hm. change (conns (indicated pad es)) with (<[c := x']> (conns s)) in Hx1.
    destruct (decide (c1 = c)) as [|Hne]; [done|]. rewrite lookup_insert_ne in Hx1 by done.
    by eapply Honly.
Qed.

(** The diagnostic messages that carry the answers. *)
Definition answer_messages (answers : list (list Z)) : list (Z * list Z) :=
  (fun d => (cliSockRef x, diag_message cfg (own_address cfg) sa d)) <$> answers.

Lemma main_answers pad es t m answers :
  answered (indicated pad es) (UdsSend.reply_to from) sid t answers ->
  exists es', dtrace t = dtrace (indicated pad es) ++ es' /\ sent es' = [] /\
    wp (run_queued denv env es')
      (fun _ y' => uds y' = m /\ exists es2, dtrace (transport y') = dtrace t ++ es2 /\
         sent es2 = answer_messages answers)
      (mkSystem (t <| udsPool := delete (nextId s) (udsPool t) |>) m).
Proof using Hr.
  intros [->|data Hresp Hacc].
  { exists []. rewrite app_nil_r. split; [done|]. split; [done|]. unfold run_queued. apply wp_bind, wp_ret, wp_ret.
    split; [done|]. exists []. by rewrite app_nil_r. }
  destruct (indicated_serves pad es) as (Hbox & Hserv & Hmatch & Honly).
  destruct Hr as [Hd _ _ _ _ _ _ _ _ _ _ _ _ _].
  pose proof (dr_conn _ _ _ _ _ _ _ _ _ _ _ _ _ Hd) as [_ _ _ _ Hcfg _].
  destruct Hacc as [H1 H2 H3 (cfg' & pad' & Hcfg' & Hp) Ht].
  assert (cfg' = cfg) as ->. { change (doipConfigPtr s = Some cfg') in Hcfg'. unfold s in Hcfg'. congruence. }
  rewrite indicated_next in Hp, Ht.
  exists (queued_for (UdsSend.reply_to from) (nextId s + 1) (doip_room data)). split; [done|]. split; [done|].
  set (t2 := t <| udsPool := _ |>).
  apply (deliver_queued denv env t2 c x' (ConnT c GeneralTimer) cfg (UdsSend.reply_to from) data pad'
    (nextId s + 1) m).
  - by apply (box_ok_frame (indicated pad es)).
  - by apply (serving_frame (indicated pad es)).
  - apply Hd.
  - done.
  - by apply (only_tester_frame (indicated pad es)).
  - change (udsPool t2) with (delete (nextId s) (udsPool t)). rewrite lookup_delete_ne, Hp by lia.
    apply lookup_insert_eq.
  - intros es2 Hes2. split; [done|]. by exists es2.
Qed.
End Request.
