(* ===== verification/OverIpThms.v ===== *)
(** * Diagnostics over IP: properties of the composition *)
From S2P Require Import Prelude DoipTypes DoipVehicle DoipSend DoipConn DoipRecv DoipUdp.
From S2P Require Import DoipSpec DoipRecvSpec DoipKeeps DoipDiag DoipSample.
From S2P Require UdsTypes UdsSend UdsMgr UdsResp SecAccessSpec UdsAnswer UdsRequest UdsHandler Sample UdsThms.
From S2P Require Import OverIp OverIpSpec.
Import UdsTypes (AddrInfo, mkAddrInfo).







(** The entity with a request to change the session in progress. *)
Definition sample_to : AddrInfo := mkAddrInfo 0x0101 0x0E80 UdsTypes.TA_PHYSICAL 0 "eth0".



(** C29: An answer that is longer than the blocks overruns one. The blocks of the pool are as long
    as the maximum data size of the configuration, and 1500 bytes at least, whatever the UDS
    stack may send (up to 16400 bytes): a request to send a message that does not fit into a
    block with its header and addresses writes past the end of the block. *)
Theorem long_answer_overruns_block (denv : DEnv) (s : Stack) (cfg : taf_doip_Config_t) :
  doipConfigPtr s = Some cfg -> parseStatus cfg = true ->
  wp ConnectionManager_Init (fun _ s' => forall to data,
    is_Some (find_session (doipSessions s) (UdsTypes.sa to)) -> uds_pool_free denv (dtrace s) = true ->
    Z.max TAF_DOIP_MAX_BUFFER_SIZE (maxDataSize cfg) < 12 + Z.of_nat (length data) ->
    taf_doip_DiagRequest denv to data s' = Faulted OutOfBounds) s.
Proof.
  intros Hcfg Hps. unfold ConnectionManager_Init. wp_step.
  destruct (GetMaxDataSize_run s) as (r & Hr & Hrun). unfold wp at 1. rewrite Hrun. cbv zeta.
  apply wp_assign. rewrite Hr. intros to data Hsess Hfree Hlong. set (s1 := s <| udsObjectSize := _ |>) in *.
  assert (Hsize : udsObjectSize s1 = Z.max TAF_DOIP_MAX_BUFFER_SIZE (maxDataSize cfg)).
  { unfold s1, max_data. rewrite Hcfg, Hps. cbn. destruct (Z.ltb_spec (maxDataSize cfg) 1500); lia. }
  unfold taf_doip_DiagRequest. apply fault_bind_now.
  apply (TransUdsMessage_overruns denv s1 to data cfg); [done..|]. rewrite Hsize. unfold doip_room. lia.
Qed.

Lemma long_answer_overruns_block_witness :
  let cfg := sample_config <| maxDataSize := 4096 |> in
  wp ConnectionManager_Init (fun _ s' =>
    taf_doip_DiagRequest (sample_denv None) sample_to (replicate 5000 0) s' = Faulted OutOfBounds)
    (idle_stack <| doipConfigPtr := Some cfg |>).
Proof.
  intros cfg. eapply wp_conseq.
  - apply (long_answer_overruns_block (sample_denv None) (idle_stack <| doipConfigPtr := Some cfg |>) cfg);
      reflexivity.
  - intros [] s' H. apply H; [by eexists|reflexivity|rewrite length_replicate; cbn; lia].
Defined.
