(* ===== verification/DemTypes.v ===== *)
(** * Diagnostic events: data

    Constants, contexts and state of [taf_EventSvr] ([tafEventSvr.hpp]): the events that the
    applications report, the trouble codes (DTCs) that they set, and the operation cycles. The
    contexts are allocated once and never freed, so a pointer to one is its position in its
    list. The data base of the events is a parameter, the interface [Store]. *)
From S2P Require Import Prelude DiagCfg.

(** ** Constants *)
Abbreviation MAX_TEST_FAILURE_COUNTER := 255 (only parsing).
Abbreviation MAX_OCCURRENCE_COUNTER := 255 (only parsing).
Abbreviation MAX_FAULT_DETECTION_COUNTER := 127 (only parsing).
Abbreviation MIN_FAULT_DETECTION_COUNTER := (-128) (only parsing).
Abbreviation MIDDLE_COUNTER_BASED_PARAM_VALUE := 1 (only parsing).
Abbreviation MAX_COUNTER_BASED_PARAM_VALUE := 32768 (only parsing).
Abbreviation MIN_COUNTER_BASED_PARAM_VALUE := (-32768) (only parsing).
Abbreviation MAX_TIME_BASED_PARAM_VALUE := 3600 (only parsing).
Abbreviation FEATURE_A_PROGRAMMING_SESSION := 0x2 (only parsing).
Abbreviation FEATURE_A_FOTA_SESSION := 0x42 (only parsing).
Abbreviation TAF_EVENT_NAME_MAX_LEN := 64%nat (only parsing).
Abbreviation DID_OF_SUPPLIER_FC := 0xEF01 (only parsing).

(** The bits of a status byte (ISO 14229-1, D.2); the comments of the sources number them. *)
Abbreviation TAF_DIAGEVENT_UDS_STATUS_TF := 0x01 (only parsing).
Abbreviation TAF_DIAGEVENT_UDS_STATUS_TFTOC := 0x02 (only parsing).
Abbreviation TAF_DIAGEVENT_UDS_STATUS_PDTC := 0x04 (only parsing).
Abbreviation TAF_DIAGEVENT_UDS_STATUS_CDTC := 0x08 (only parsing).
Abbreviation TAF_DIAGEVENT_UDS_STATUS_TNCSLC := 0x10 (only parsing).
Abbreviation TAF_DIAGEVENT_UDS_STATUS_TFSLC := 0x20 (only parsing).
Abbreviation TAF_DIAGEVENT_UDS_STATUS_TNCTOC := 0x40 (only parsing).

(** [status & mask] as a condition, [status | mask] and [status & ~mask]. *)
Definition bits (status mask : Z) : bool := negb (Z.land status mask =? 0).
Definition set_bits (status mask : Z) : Z := Z.lor status mask.
Definition clear_bits (status mask : Z) : Z := Z.land status (Z.lnot mask).

Inductive taf_diagEvent_StatusType_t :=
  | TAF_DIAGEVENT_PASSED | TAF_DIAGEVENT_FAILED | TAF_DIAGEVENT_PREPASSED
  | TAF_DIAGEVENT_PREFAILED | TAF_DIAGEVENT_CONFIRMED | TAF_DIAGEVENT_TEST_NOT_COMPLETED
  | TAF_DIAGEVENT_UNKNOWN.
#[export] Instance status_type_eq_dec : EqDecision taf_diagEvent_StatusType_t.
Proof. solve_decision. Defined.

Inductive taf_diagEvent_OperationCycleState_t :=
  | TAF_DIAGEVENT_CYCLE_START | TAF_DIAGEVENT_CYCLE_RESTART | TAF_DIAGEVENT_CYCLE_STOP.
#[export] Instance cycle_state_eq_dec : EqDecision taf_diagEvent_OperationCycleState_t.
Proof. solve_decision. Defined.

Inductive taf_diagEvent_DebounceResetStatus_t :=
  | TAF_DIAGEVENT_DEBOUNCE_FREEZE | TAF_DIAGEVENT_DEBOUNCE_RESET.
#[export] Instance reset_status_eq_dec : EqDecision taf_diagEvent_DebounceResetStatus_t.
Proof. solve_decision. Defined.

Inductive taf_diagEvent_DebounceType_t :=
  | TAF_DIAGEVENT_DEBOUNCE_MONITOR_INTERNAL | TAF_DIAGEVENT_DEBOUNCE_COUNTER_BASED
  | TAF_DIAGEVENT_DEBOUNCE_TIME_BASED.
#[export] Instance debounce_type_eq_dec : EqDecision taf_diagEvent_DebounceType_t.
Proof. solve_decision. Defined.

Inductive taf_diagEvent_Running_Timer_Type_t :=
  | TAF_DIAGEVENT_TIMER_PREFAILED | TAF_DIAGEVENT_TIMER_PREPASSED | TAF_DIAGEVENT_TIMER_UNKNOWN.
#[export] Instance timer_type_eq_dec : EqDecision taf_diagEvent_Running_Timer_Type_t.
Proof. solve_decision. Defined.

Inductive taf_diagEvent_Process_Occur_Counter_Type_t :=
  | TAF_DIAGEVENT_PROCESS_OCCCTR_TF | TAF_DIAGEVENT_PROCESS_OCCCTR_CDTC.
#[export] Instance occctr_eq_dec : EqDecision taf_diagEvent_Process_Occur_Counter_Type_t.
Proof. solve_decision. Defined.

Inductive taf_diagEvent_DTC_Type_t :=
  | TAF_DIAGEVENT_APPLICATION_DTC | TAF_DIAGEVENT_REPROGRAMMING_DTC | TAF_DIAGEVENT_UNKNOWN_DTC.
#[export] Instance dtc_type_eq_dec : EqDecision taf_diagEvent_DTC_Type_t.
Proof. solve_decision. Defined.

(** Who asks to clear: the tester, an application, or another value of the type. *)
Inductive taf_diagDTC_ReqClientType_t := TAF_DIAGDTC_DTOOL | TAF_DIAGDTC_APP | ANOTHER_CLIENT.
#[export] Instance client_eq_dec : EqDecision taf_diagDTC_ReqClientType_t.
Proof. solve_decision. Defined.

Inductive freeze_frame_trigger_type_t :=
  | DEM_TRIGGER_ON_EVERY_TEST_FAILED | DEM_TRIGGER_ON_FDC_THRESHOLD | DEM_TRIGGER_ON_CONFIRMED
  | DEM_TRIGGER_ON_PENDING | DEM_TRIGGER_ON_TEST_FAILED
  | DEM_TRIGGER_ON_TEST_FAILED_THIS_OPERATION_CYCLE.
#[export] Instance trigger_eq_dec : EqDecision freeze_frame_trigger_type_t.
Proof. solve_decision. Defined.

(** ** Contexts *)
Record taf_diagEvent_DebounceCounterBasedConfig := mkCounterConfig {
  decrementStepSize : Z;
  incrementStepSize : Z;
  failedThreshold : Z;
  passedThreshold : Z;
  jumpDown : bool;
  jumpUp : bool;
  jumpDownValue : Z;
  jumpUpValue : Z;
  fdcThreshold : Z }.

Record taf_diagEvent_DebounceTimeBasedConfig := mkTimeConfig {
  t_failedThreshold : Z;
  t_passedThreshold : Z;
  t_fdcThreshold : Z }.

(** A safe reference and a client session are the numbers that the framework gives them; [None]
    is NULL. *)
Record taf_diagEvent_EventCtx_t := mkEventCtx {
  eventId : Z;
  eventName : string;
  ev_dtcCode : Z;
  dtcCtxPtr : option nat;
  operationCycleId : Z;
  eventEnableStatus : bool;
  eventUdsStatus : Z;
  failureCounter : Z;
  confirmationThreshold : Z;
  supplierFaultCode : list Z;
  supplierFaultCodeSize : Z;
  eventFaultStatus : taf_diagEvent_StatusType_t;
  debounceCounter : Z;
  fdcTriggerFlag : bool;
  debounceBehavior_ : taf_diagEvent_DebounceResetStatus_t;
  debounceType : taf_diagEvent_DebounceType_t;
  debounceCounterBasedConfig : taf_diagEvent_DebounceCounterBasedConfig;
  debounceTimeBasedConfig : taf_diagEvent_DebounceTimeBasedConfig;
  timerType : taf_diagEvent_Running_Timer_Type_t;
  startTime : Z;
  ev_sessionRefList : list Z;
  ev_svcRef : option Z }.

Definition eta_EventCtx (e : taf_diagEvent_EventCtx_t) : taf_diagEvent_EventCtx_t :=
  mkEventCtx (eventId e) (eventName e) (ev_dtcCode e) (dtcCtxPtr e) (operationCycleId e)
    (eventEnableStatus e) (eventUdsStatus e) (failureCounter e) (confirmationThreshold e)
    (supplierFaultCode e) (supplierFaultCodeSize e) (eventFaultStatus e) (debounceCounter e)
    (fdcTriggerFlag e) (debounceBehavior_ e) (debounceType e) (debounceCounterBasedConfig e)
    (debounceTimeBasedConfig e) (timerType e) (startTime e) (ev_sessionRefList e) (ev_svcRef e).
#[export] Instance set_eventEnableStatus : Field eventEnableStatus := ltac:(field_of eta_EventCtx).
#[export] Instance set_eventUdsStatus : Field eventUdsStatus := ltac:(field_of eta_EventCtx).
#[export] Instance set_failureCounter : Field failureCounter := ltac:(field_of eta_EventCtx).
#[export] Instance set_supplierFaultCode : Field supplierFaultCode := ltac:(field_of eta_EventCtx).
#[export] Instance set_supplierFaultCodeSize : Field supplierFaultCodeSize :=
  ltac:(field_of eta_EventCtx).
#[export] Instance set_eventFaultStatus : Field eventFaultStatus := ltac:(field_of eta_EventCtx).
#[export] Instance set_debounceCounter : Field debounceCounter := ltac:(field_of eta_EventCtx).
#[export] Instance set_fdcTriggerFlag : Field fdcTriggerFlag := ltac:(field_of eta_EventCtx).
#[export] Instance set_debounceBehavior_ : Field debounceBehavior_ := ltac:(field_of eta_EventCtx).
#[export] Instance set_timerType : Field timerType := ltac:(field_of eta_EventCtx).
#[export] Instance set_startTime : Field startTime := ltac:(field_of eta_EventCtx).
#[export] Instance set_ev_sessionRefList : Field ev_sessionRefList := ltac:(field_of eta_EventCtx).
#[export] Instance set_ev_svcRef : Field ev_svcRef := ltac:(field_of eta_EventCtx).

Record taf_diagEvent_DtcCtx_t := mkDtcCtx {
  dtcCode : Z;
  dtcStatus : Z;
  occurrenceCounterProcessing : taf_diagEvent_Process_Occur_Counter_Type_t;
  occurrenceCounter : Z;
  activationStatus : bool;
  suppressionStatus : bool;
  reqClientType : taf_diagDTC_ReqClientType_t;
  dtcType : taf_diagEvent_DTC_Type_t;
  dtcEventIdList : list Z }.

Definition eta_DtcCtx (d : taf_diagEvent_DtcCtx_t) : taf_diagEvent_DtcCtx_t :=
  mkDtcCtx (dtcCode d) (dtcStatus d) (occurrenceCounterProcessing d) (occurrenceCounter d)
    (activationStatus d) (suppressionStatus d) (reqClientType d) (dtcType d) (dtcEventIdList d).
#[export] Instance set_dtcStatus : Field dtcStatus := ltac:(field_of eta_DtcCtx).
#[export] Instance set_occurrenceCounter : Field occurrenceCounter := ltac:(field_of eta_DtcCtx).
#[export] Instance set_activationStatus : Field activationStatus := ltac:(field_of eta_DtcCtx).
#[export] Instance set_suppressionStatus : Field suppressionStatus := ltac:(field_of eta_DtcCtx).
#[export] Instance set_reqClientType : Field reqClientType := ltac:(field_of eta_DtcCtx).
#[export] Instance set_dtcEventIdList : Field dtcEventIdList := ltac:(field_of eta_DtcCtx).

Record taf_diagEvent_OperCycleCtx_t := mkOperCycleCtx {
  operCycleId : Z;
  cyc_state : taf_diagEvent_OperationCycleState_t;
  cyc_sessionRefList : list Z;
  operCycleRef : option Z }.

Definition eta_OperCycleCtx (c : taf_diagEvent_OperCycleCtx_t) : taf_diagEvent_OperCycleCtx_t :=
  mkOperCycleCtx (operCycleId c) (cyc_state c) (cyc_sessionRefList c) (operCycleRef c).
#[export] Instance set_cyc_state : Field cyc_state := ltac:(field_of eta_OperCycleCtx).
#[export] Instance set_cyc_sessionRefList : Field cyc_sessionRefList :=
  ltac:(field_of eta_OperCycleCtx).
#[export] Instance set_operCycleRef : Field operCycleRef := ltac:(field_of eta_OperCycleCtx).

(** ** Effects

    The timers of an event are named by its position. *)
Inductive DemTimer := DebounceTimer (e : nat) | FdcTimer (e : nat).
#[export] Instance dem_timer_eq_dec : EqDecision DemTimer.
Proof. solve_decision. Defined.

Inductive DemEffect :=
  | TimerStart (t : DemTimer)
  | TimerRestart (t : DemTimer)
  | TimerStop (t : DemTimer)
  | TimerSetMsInterval (t : DemTimer) (ms : Z)
  | TriggerSnapshot (dtc : Z) (trigger : freeze_frame_trigger_type_t) (faultCode : list Z)
  | ReportUdsStatus (ref : Z) (status : Z)
  | ReportEnableCond (ref : Z) (state : bool)
  | ReportDTCStatus (dtc : Z) (status : Z)
  | ReportClearDTC (dtc : Z) (client : taf_diagDTC_ReqClientType_t)
  | ReportClearAllDTC (client : taf_diagDTC_ReqClientType_t)
  | ReportOperCycle (ref : option Z) (state : taf_diagEvent_OperationCycleState_t)
  | CreateRef
  | GetTime.
#[export] Instance dem_effect_eq_dec : EqDecision DemEffect.
Proof. solve_decision. Defined.

(** ** The data base ([tafDataAccessComp.h]) *)
Class Store (T : Type) := {
  db_SetEventStatusByName : string -> Z -> M T le_result_t;
  db_GetEventStatusByName : string -> M T Z;
  db_SetDTCStatus : Z -> Z -> Z -> M T le_result_t;
  db_GetDTCStatus : Z -> M T Z;
  db_GetDTCOccurrenceCounter : Z -> M T Z;
  db_SetEventFailedCounter : Z -> Z -> M T le_result_t;
  db_GetEventFailedCounter : Z -> M T Z;
  db_DeleteAllData : M T le_result_t;
  db_DeleteData : Z -> M T le_result_t;
  db_GetDTCActivation : Z -> M T bool;
  db_SetDTCActivation : Z -> bool -> M T le_result_t;
  db_GetDTCSuppression : Z -> M T bool;
  db_SetDTCSuppression : Z -> bool -> M T le_result_t;
  db_SetAllDTCSuppression : bool -> M T le_result_t;
  db_UpdateFaultCodeSnapshotData : Z -> Z -> list Z -> M T le_result_t }.

(** ** State *)
Record Dem {T : Type} := mkDem {
  EventCtxList : list taf_diagEvent_EventCtx_t;
  DtcCtxList : list taf_diagEvent_DtcCtx_t;
  OperCycleCtxList : list taf_diagEvent_OperCycleCtx_t;
  SvcRefMap : list (Z * nat);
  OperCycleRefMap : list (Z * nat);
  enableStatusList : list (Z * bool);
  db : T;
  demTrace : list DemEffect }.
Arguments Dem : clear implicits.
Arguments mkDem {T} _ _ _ _ _ _ _ _.

Definition eta_Dem {T} (s : Dem T) : Dem T :=
  mkDem (EventCtxList s) (DtcCtxList s) (OperCycleCtxList s) (SvcRefMap s) (OperCycleRefMap s)
    (enableStatusList s) (db s) (demTrace s).
#[export] Instance set_EventCtxList {T} : Field (@EventCtxList T) := ltac:(field_of (@eta_Dem T)).
#[export] Instance set_DtcCtxList {T} : Field (@DtcCtxList T) := ltac:(field_of (@eta_Dem T)).
#[export] Instance set_OperCycleCtxList {T} : Field (@OperCycleCtxList T) :=
  ltac:(field_of (@eta_Dem T)).
#[export] Instance set_SvcRefMap {T} : Field (@SvcRefMap T) := ltac:(field_of (@eta_Dem T)).
#[export] Instance set_OperCycleRefMap {T} : Field (@OperCycleRefMap T) :=
  ltac:(field_of (@eta_Dem T)).
#[export] Instance set_enableStatusList {T} : Field (@enableStatusList T) :=
  ltac:(field_of (@eta_Dem T)).
#[export] Instance set_db {T} : Field (@db T) := ltac:(field_of (@eta_Dem T)).
#[export] Instance set_demTrace {T} : Field (@demTrace T) := ltac:(field_of (@eta_Dem T)).

(** ** Environment

    The answers of the framework depend on what has happened. [featureA] is the build option
    [LE_CONFIG_DIAG_FEATURE_A] and [fault_code_max] the constant
    [TAF_DIAGEVENT_SUPPLIER_FAULT_CODE_MAX_LEN]. *)
Record DemEnv := mkDemEnv {
  featureA : bool;
  fault_code_max : Z;
  timer_IsRunning : list DemEffect -> DemTimer -> bool;
  now_ms : list DemEffect -> Z;
  new_ref : list DemEffect -> option Z;
  event_conditions : amap Z EnableConditionData;
  did_value_size : Z -> Z }.
