(* ===== verification/DemEvent.v ===== *)
(** * Diagnostic events: reports

    What [tafEventSvrImpl.cpp] does when an application reports the result of a test: the check
    of the conditions, debouncing by counter or by time, the status of the event and of its
    DTC. *)
From S2P Require Import Prelude DiagCfg Ieee DemTypes.

Section Event.
Context {T : Type} `{!Store T}.
Variable env : DemEnv.

(** ** Access to the contexts *)
Definition emit (x : DemEffect) : M (Dem T) unit := modify (fun s => s <| demTrace := demTrace s ++ [x] |>).
Definition query {A} (f : list DemEffect -> A) : M (Dem T) A := gets (fun s => f (demTrace s)).
Definition on_db {A} (c : M T A) : M (Dem T) A := fun s =>
  match c (db s) with
  | Done (a, t) => Done (a, s <| db := t |>)
  | Faulted f => Faulted f
  end.

Definition event (e : nat) : M (Dem T) taf_diagEvent_EventCtx_t :=
  s ← get; demand (EventCtxList s !! e) NullDeref.
Definition eset {A} (e : nat) (p : taf_diagEvent_EventCtx_t -> A) `{!Field p} (v : A) : M (Dem T) unit :=
  x ← event e; modify (fun s => s <| EventCtxList := <[e := x <| p := v |>]> (EventCtxList s) |>).
Definition dtc (d : nat) : M (Dem T) taf_diagEvent_DtcCtx_t :=
  s ← get; demand (DtcCtxList s !! d) NullDeref.
Definition dset {A} (d : nat) (p : taf_diagEvent_DtcCtx_t -> A) `{!Field p} (v : A) : M (Dem T) unit :=
  x ← dtc d; modify (fun s => s <| DtcCtxList := <[d := x <| p := v |>]> (DtcCtxList s) |>).

Definition find_event (l : list taf_diagEvent_EventCtx_t) (id : Z) : option nat :=
  fst <$> list_find (fun x => eventId x = id) l.
Definition GetEventCtxById (id : Z) : M (Dem T) (option nat) :=
  s ← get; mret (find_event (EventCtxList s) id).
Definition GetDtcCtxByCode (code : Z) : M (Dem T) (option nat) :=
  s ← get; mret (fst <$> list_find (fun x => dtcCode x = code) (DtcCtxList s)).
Definition GetOperCycleCtxById (id : Z) : M (Dem T) (option nat) :=
  s ← get; mret (fst <$> list_find (fun x => operCycleId x = id) (OperCycleCtxList s)).
Definition GetEventCtx (svcRef : option Z) : M (Dem T) (option nat) :=
  match svcRef with
  | None => mret None
  | Some r => s ← get; mret (amap_find (SvcRefMap s) r)
  end.

Definition trigger_snapshot (x : taf_diagEvent_EventCtx_t) (t : freeze_frame_trigger_type_t) : M (Dem T) unit :=
  emit (TriggerSnapshot (ev_dtcCode x) t
    (take (Z.to_nat (supplierFaultCodeSize x)) (supplierFaultCode x))).

(** ** Conditions *)
Definition check_cycle (x : taf_diagEvent_EventCtx_t) : M (Dem T) le_result_t :=
  if featureA env then mret LE_OK else
  c ← GetOperCycleCtxById (operationCycleId x);
  match c with
  | None => mret LE_FAULT
  | Some c =>
      s ← get; y ← demand (OperCycleCtxList s !! c) NullDeref;
      mret (if bool_decide (cyc_state y = TAF_DIAGEVENT_CYCLE_START) then LE_OK else LE_NOT_POSSIBLE)
  end.
Definition CheckEventCondition (e : nat) : M (Dem T) le_result_t :=
  x ← event e;
  cycle ← check_cycle x;
  if negb (bool_decide (cycle = LE_OK)) then mret cycle else
  if negb (eventEnableStatus x) then mret LE_NOT_PERMITTED else
  match dtcCtxPtr x with
  | None => mret LE_UNSUPPORTED
  | Some d => y ← dtc d; mret (if activationStatus y then LE_OK else LE_UNSUPPORTED)
  end.

(** ** Storing and reporting *)
Definition ReportEventUdsStatus (e : nat) : M (Dem T) unit :=
  x ← event e;
  match ev_svcRef x with
  | None => mret tt
  | Some r => emit (ReportUdsStatus r (eventUdsStatus x))
  end.
Definition StoreAndReportEventUdsStatus (e : nat) : M (Dem T) le_result_t :=
  x ← event e;
  result ← on_db (db_SetEventStatusByName (eventName x) (eventUdsStatus x));
  if negb (bool_decide (result = LE_OK)) then mret result else
  ReportEventUdsStatus e;; mret LE_OK.

Definition ReportDtcStatus (d : nat) : M (Dem T) unit :=
  y ← dtc d; emit (ReportDTCStatus (dtcCode y) (dtcStatus y)).
Definition store_dtc (d : nat) : M (Dem T) le_result_t :=
  y ← dtc d; on_db (db_SetDTCStatus (dtcCode y) (dtcStatus y) (occurrenceCounter y)).
Definition StoreAndReportDTCStatus (d : nat) : M (Dem T) le_result_t :=
  result ← store_dtc d;
  if negb (bool_decide (result = LE_OK)) then mret result else
  ReportDtcStatus d;; mret LE_OK.

(** [bit] of the status has changed from 0 to 1. *)
Definition raised (old new bit : Z) : bool := negb (bits old bit) && bits new bit.

Definition trigger_raised (old : Z) (x : taf_diagEvent_EventCtx_t) : M (Dem T) unit :=
  let rises := raised old (eventUdsStatus x) in
  when (rises TAF_DIAGEVENT_UDS_STATUS_CDTC) (trigger_snapshot x DEM_TRIGGER_ON_CONFIRMED);;
  when (negb (featureA env) && rises TAF_DIAGEVENT_UDS_STATUS_PDTC)
    (trigger_snapshot x DEM_TRIGGER_ON_PENDING);;
  when (rises TAF_DIAGEVENT_UDS_STATUS_TF) (trigger_snapshot x DEM_TRIGGER_ON_TEST_FAILED);;
  when (negb (featureA env) && rises TAF_DIAGEVENT_UDS_STATUS_TFTOC)
    (trigger_snapshot x DEM_TRIGGER_ON_TEST_FAILED_THIS_OPERATION_CYCLE).
Definition TriggerSnapshotData (oldEventUdsStatus : Z) (e : nat) : M (Dem T) unit :=
  x ← event e;
  reprogramming ← (if featureA env then (
    d ← demand (dtcCtxPtr x) NullDeref; y ← dtc d;
    mret (bool_decide (dtcType y = TAF_DIAGEVENT_REPROGRAMMING_DTC)))
  else mret false : M (Dem T) bool);
  when (negb reprogramming) (trigger_raised oldEventUdsStatus x).

(** ** The status of the DTC *)

(** The or of the statuses of the events of the list, as the loops compute it. *)
Definition events_status (evs : list taf_diagEvent_EventCtx_t) (ids : list Z) : Z :=
  fold_left (fun status id =>
    match (i ← find_event evs id; evs !! i) with
    | Some x => Z.lor status (eventUdsStatus x)
    | None => status
    end) ids 0.

(** The bits 4 and 6 are cleared when their opposites are set. *)
Definition completed (status : Z) : Z :=
  let s4 := if bits status TAF_DIAGEVENT_UDS_STATUS_TFSLC
            then clear_bits status TAF_DIAGEVENT_UDS_STATUS_TNCSLC else status in
  if bits s4 TAF_DIAGEVENT_UDS_STATUS_TFTOC
  then clear_bits s4 TAF_DIAGEVENT_UDS_STATUS_TNCTOC else s4.

(** Storing when the counter or the status has changed, reporting when the status has. *)
Definition store_changes (d : nat) (oldStatus oldCounter : Z) : M (Dem T) le_result_t :=
  y ← dtc d;
  result ← (if negb (oldCounter =? occurrenceCounter y) || negb (dtcStatus y =? oldStatus)
            then store_dtc d else mret LE_OK : M (Dem T) le_result_t);
  if negb (bool_decide (result = LE_OK)) then mret result else
  when (negb (dtcStatus y =? oldStatus)) (ReportDtcStatus d);;
  mret LE_OK.

Definition UpdateDtcOnFailed (dtcPtr : option nat) : M (Dem T) le_result_t :=
  match dtcPtr with
  | None => mret LE_FAULT
  | Some d =>
      y ← dtc d;
      s ← get;
      let old := dtcStatus y in
      let status := completed (events_status (EventCtxList s) (dtcEventIdList y)) in
      dset d dtcStatus status;;
      let counted := match occurrenceCounterProcessing y with
        | TAF_DIAGEVENT_PROCESS_OCCCTR_TF => raised old status TAF_DIAGEVENT_UDS_STATUS_TF
        | TAF_DIAGEVENT_PROCESS_OCCCTR_CDTC =>
            raised old status TAF_DIAGEVENT_UDS_STATUS_TF && bits status TAF_DIAGEVENT_UDS_STATUS_CDTC
        end in
      when (counted && (occurrenceCounter y <? MAX_OCCURRENCE_COUNTER))
        (dset d occurrenceCounter (occurrenceCounter y + 1));;
      store_changes d old (occurrenceCounter y)
  end.

Definition UpdateDtcOnPassed (dtcPtr : option nat) : M (Dem T) le_result_t :=
  match dtcPtr with
  | None => mret LE_BAD_PARAMETER
  | Some d =>
      y ← dtc d;
      s ← get;
      let status := completed (events_status (EventCtxList s) (dtcEventIdList y)) in
      dset d dtcStatus status;;
      if negb (status =? dtcStatus y) then StoreAndReportDTCStatus d else mret LE_OK
  end.

(** ** The status of the event *)
Definition failed_status (status : Z) : Z :=
  let s := set_bits status TAF_DIAGEVENT_UDS_STATUS_TF in
  let s := set_bits s TAF_DIAGEVENT_UDS_STATUS_TFTOC in
  let s := set_bits s TAF_DIAGEVENT_UDS_STATUS_PDTC in
  let s := set_bits s TAF_DIAGEVENT_UDS_STATUS_TFSLC in
  let s := clear_bits s TAF_DIAGEVENT_UDS_STATUS_TNCSLC in
  clear_bits s TAF_DIAGEVENT_UDS_STATUS_TNCTOC.
Definition passed_status (status : Z) : Z :=
  let s := clear_bits status TAF_DIAGEVENT_UDS_STATUS_TF in
  let s := clear_bits s TAF_DIAGEVENT_UDS_STATUS_TNCSLC in
  clear_bits s TAF_DIAGEVENT_UDS_STATUS_TNCTOC.

Definition UpdateEventOnFailed (e : nat) : M (Dem T) le_result_t :=
  x ← event e;
  let old := eventUdsStatus x in
  eset e eventUdsStatus (failed_status old);;
  when (negb (bits old TAF_DIAGEVENT_UDS_STATUS_TFTOC) && (failureCounter x <? MAX_TEST_FAILURE_COUNTER))
    (eset e failureCounter (failureCounter x + 1));;
  x ← event e;
  when (confirmationThreshold x <=? failureCounter x)
    (eset e eventUdsStatus (set_bits (eventUdsStatus x) TAF_DIAGEVENT_UDS_STATUS_CDTC);;
     eset e failureCounter 0);;
  x ← event e;
  if negb (old =? eventUdsStatus x)
  then
    result ← StoreAndReportEventUdsStatus e;
    if negb (bool_decide (result = LE_OK)) then mret result else
    TriggerSnapshotData old e;;
    UpdateDtcOnFailed (dtcCtxPtr x)
  else UpdateDtcOnFailed (dtcCtxPtr x).

Definition UpdateEventOnPassed (e : nat) : M (Dem T) le_result_t :=
  x ← event e;
  let old := eventUdsStatus x in
  eset e eventUdsStatus (passed_status old);;
  if negb (old =? passed_status old)
  then
    result ← StoreAndReportEventUdsStatus e;
    if negb (bool_decide (result = LE_OK)) then mret result else
    UpdateDtcOnPassed (dtcCtxPtr x)
  else UpdateDtcOnPassed (dtcCtxPtr x).

(** ** Debouncing *)

(** The counter after one more report that tends to passed, and to failed. *)
Definition count_down (cfg : taf_diagEvent_DebounceCounterBasedConfig) (c : Z) : Z :=
  let c := if jumpDown cfg && (jumpDownValue cfg <? c) then jumpDownValue cfg else c in
  if passedThreshold cfg + decrementStepSize cfg <=? c
  then s16 (c - decrementStepSize cfg) else passedThreshold cfg.
Definition count_up (cfg : taf_diagEvent_DebounceCounterBasedConfig) (c : Z) : Z :=
  let c := if jumpUp cfg && (c <? jumpUpValue cfg) then jumpUpValue cfg else c in
  if c <=? failedThreshold cfg - incrementStepSize cfg
  then s16 (c + incrementStepSize cfg) else failedThreshold cfg.

(** The fault status that the counter stands for. *)
Definition debounced (cfg : taf_diagEvent_DebounceCounterBasedConfig) (c : Z)
    (eventStatus : taf_diagEvent_StatusType_t) : taf_diagEvent_StatusType_t :=
  if c <=? passedThreshold cfg then TAF_DIAGEVENT_PASSED
  else if failedThreshold cfg <=? c then TAF_DIAGEVENT_FAILED else eventStatus.

Definition settle_counter (e : nat) (eventStatus : taf_diagEvent_StatusType_t) : M (Dem T) le_result_t :=
  x ← event e;
  eset e eventFaultStatus (debounced (debounceCounterBasedConfig x) (debounceCounter x) eventStatus);;
  mret LE_OK.

Definition DebounceCounterBased (e : nat) (eventStatus : taf_diagEvent_StatusType_t) : M (Dem T) le_result_t :=
  x ← event e;
  let cfg := debounceCounterBasedConfig x in
  let c := debounceCounter x in
  match eventStatus with
  | TAF_DIAGEVENT_PASSED =>
      eset e debounceCounter (passedThreshold cfg);; settle_counter e eventStatus
  | TAF_DIAGEVENT_FAILED =>
      eset e debounceCounter (failedThreshold cfg);; settle_counter e eventStatus
  | TAF_DIAGEVENT_PREPASSED =>
      when (passedThreshold cfg <? c) (eset e debounceCounter (count_down cfg c));;
      settle_counter e eventStatus
  | TAF_DIAGEVENT_PREFAILED =>
      when (c <? failedThreshold cfg)
        (eset e debounceCounter (count_up cfg c);;
         when (negb (fdcTriggerFlag x) && (fdcThreshold cfg <=? count_up cfg c))
           (eset e fdcTriggerFlag true;; trigger_snapshot x DEM_TRIGGER_ON_FDC_THRESHOLD));;
      settle_counter e eventStatus
  | _ => mret LE_FAULT
  end.

Definition stop_if_running (t : DemTimer) : M (Dem T) unit :=
  running ← query (fun tr => timer_IsRunning env tr t);
  when running (emit (TimerStop t)).
Definition take_time (e : nat) : M (Dem T) unit :=
  emit GetTime;; now ← query (now_ms env); eset e startTime now.

(** The debounce timer measures [type], from now on when it measured something else. *)
Definition measure (e : nat) (type : taf_diagEvent_Running_Timer_Type_t) (ms final : Z) : M (Dem T) unit :=
  x ← event e;
  running ← query (fun tr => timer_IsRunning env tr (DebounceTimer e));
  when (negb (if (running : bool) then bool_decide (timerType x = type) else debounceCounter x =? final))
    (emit (TimerSetMsInterval (DebounceTimer e) ms);;
     eset e timerType type;;
     eset e debounceCounter 0;;
     emit (if running then TimerRestart (DebounceTimer e) else TimerStart (DebounceTimer e));;
     take_time e).

Definition settle_time (e : nat) (eventStatus : taf_diagEvent_StatusType_t) : M (Dem T) le_result_t :=
  x ← event e;
  eset e eventFaultStatus
    (if debounceCounter x =? MIN_FAULT_DETECTION_COUNTER then TAF_DIAGEVENT_PASSED
     else if debounceCounter x =? MAX_FAULT_DETECTION_COUNTER then TAF_DIAGEVENT_FAILED
     else eventStatus);;
  mret LE_OK.

Definition DebounceTimeBased (e : nat) (eventStatus : taf_diagEvent_StatusType_t) : M (Dem T) le_result_t :=
  x ← event e;
  let cfg := debounceTimeBasedConfig x in
  match eventStatus with
  | TAF_DIAGEVENT_PASSED =>
      eset e debounceCounter MIN_FAULT_DETECTION_COUNTER;;
      stop_if_running (DebounceTimer e);; stop_if_running (FdcTimer e);;
      settle_time e eventStatus
  | TAF_DIAGEVENT_FAILED =>
      eset e debounceCounter MAX_FAULT_DETECTION_COUNTER;;
      stop_if_running (DebounceTimer e);; stop_if_running (FdcTimer e);;
      settle_time e eventStatus
  | TAF_DIAGEVENT_PREPASSED =>
      measure e TAF_DIAGEVENT_TIMER_PREPASSED (t_passedThreshold cfg) MIN_FAULT_DETECTION_COUNTER;;
      stop_if_running (FdcTimer e);;
      settle_time e eventStatus
  | TAF_DIAGEVENT_PREFAILED =>
      measure e TAF_DIAGEVENT_TIMER_PREFAILED (t_failedThreshold cfg) MAX_FAULT_DETECTION_COUNTER;;
      running ← query (fun tr => timer_IsRunning env tr (FdcTimer e));
      when (negb running) (emit (TimerStart (FdcTimer e)));;
      settle_time e eventStatus
  | _ => mret LE_FAULT
  end.

Definition DebounceEvent (e : nat) (eventStatus : taf_diagEvent_StatusType_t) : M (Dem T) le_result_t :=
  x ← event e;
  match debounceType x with
  | TAF_DIAGEVENT_DEBOUNCE_MONITOR_INTERNAL =>
      if negb (bool_decide (eventStatus = TAF_DIAGEVENT_PASSED))
         && negb (bool_decide (eventStatus = TAF_DIAGEVENT_FAILED))
      then mret LE_FAULT
      else eset e eventFaultStatus eventStatus;; mret LE_OK
  | TAF_DIAGEVENT_DEBOUNCE_COUNTER_BASED => DebounceCounterBased e eventStatus
  | TAF_DIAGEVENT_DEBOUNCE_TIME_BASED => DebounceTimeBased e eventStatus
  end.

Definition ResetDebounceCounter (e : nat) : M (Dem T) unit :=
  eset e debounceCounter 0;;
  x ← event e;
  when (featureA env) (on_db (db_SetEventFailedCounter (eventId x) 0);; mret tt);;
  when (bool_decide (debounceType x = TAF_DIAGEVENT_DEBOUNCE_TIME_BASED))
    (running ← query (fun tr => timer_IsRunning env tr (DebounceTimer e));
     when running (emit (TimerStop (DebounceTimer e));; eset e timerType TAF_DIAGEVENT_TIMER_UNKNOWN);;
     stop_if_running (FdcTimer e)).

(** [TimeBasedDebounceTimerHandler] and [FdcTimerHandler]. *)
Definition TimeBasedDebounceTimerHandler (e : nat) : M (Dem T) unit :=
  x ← event e;
  match timerType x with
  | TAF_DIAGEVENT_TIMER_PREFAILED =>
      eset e debounceCounter MAX_FAULT_DETECTION_COUNTER;;
      eset e eventFaultStatus TAF_DIAGEVENT_FAILED;;
      when (negb (bool_decide (eventFaultStatus x = TAF_DIAGEVENT_FAILED))) (UpdateEventOnFailed e;; mret tt)
  | TAF_DIAGEVENT_TIMER_PREPASSED =>
      eset e debounceCounter MIN_FAULT_DETECTION_COUNTER;;
      eset e eventFaultStatus TAF_DIAGEVENT_PASSED;;
      when (negb (bool_decide (eventFaultStatus x = TAF_DIAGEVENT_PASSED))) (UpdateEventOnPassed e;; mret tt)
  | TAF_DIAGEVENT_TIMER_UNKNOWN => mret tt
  end.
Definition FdcTimerHandler (e : nat) : M (Dem T) unit :=
  x ← event e; trigger_snapshot x DEM_TRIGGER_ON_FDC_THRESHOLD.
End Event.
