(* ===== verification/DemSvc.v ===== *)
(** * Diagnostic events: the service

    The interface functions of [tafEventSvrImpl.cpp] over the reports of [DemEvent]: setting a
    status, operation cycles, enable conditions, clearing and suppressing DTCs, fault detection
    counters, and the references that clients hold. *)
From Stdlib Require Import SpecFloat.
From S2P Require Import Prelude DiagCfg Ieee DemTypes DemEvent.

(** A loop whose body may end it with an error. *)
Fixpoint each_ok {S A} (l : list A) (body : A -> M S le_result_t) : M S le_result_t :=
  match l with
  | [] => mret LE_OK
  | x :: l' => r ← body x; if negb (bool_decide (r = LE_OK)) then mret r else each_ok l' body
  end.

Section Svc.
Context {T : Type} `{!Store T}.
Variable env : DemEnv.

Definition all_events : M (Dem T) (list nat) := s ← get; mret (seq 0 (length (EventCtxList s))).
Definition all_dtcs : M (Dem T) (list nat) := s ← get; mret (seq 0 (length (DtcCtxList s))).
(** The contexts of the events of a DTC, as [GetEventCtxById] finds them. *)
Definition events_of (d : nat) : M (Dem T) (list (option nat)) :=
  y ← dtc d; s ← get; mret (find_event (EventCtxList s) <$> dtcEventIdList y).

(** ** Feature A: no debouncing, two kinds of DTC *)
Definition dtc_of (e : nat) : M (Dem T) nat := x ← event e; demand (dtcCtxPtr x) NullDeref.
Definition type_of (e : nat) : M (Dem T) taf_diagEvent_DTC_Type_t :=
  d ← dtc_of e; y ← dtc d; mret (dtcType y).

(** The or of the statuses, without a check of the pointers. *)
Fixpoint or_events (ids : list (option nat)) (status : Z) : M (Dem T) Z :=
  match ids with
  | [] => mret status
  | i :: ids' => e ← demand i NullDeref; x ← event e; or_events ids' (Z.lor status (eventUdsStatus x))
  end.

Definition UpdateDtcForCustomerN (dtcPtr : option nat) : M (Dem T) le_result_t :=
  match dtcPtr with
  | None => mret LE_FAULT
  | Some d =>
      y ← dtc d;
      ids ← events_of d;
      status ← or_events ids 0;
      dset d dtcStatus status;;
      let old := dtcStatus y in
      let counted := match occurrenceCounterProcessing y with
        | TAF_DIAGEVENT_PROCESS_OCCCTR_TF => raised old status TAF_DIAGEVENT_UDS_STATUS_TF
        | TAF_DIAGEVENT_PROCESS_OCCCTR_CDTC =>
            raised old status TAF_DIAGEVENT_UDS_STATUS_TF && bits status TAF_DIAGEVENT_UDS_STATUS_CDTC
            || raised old status TAF_DIAGEVENT_UDS_STATUS_CDTC
        end in
      when (counted && (occurrenceCounter y <? MAX_OCCURRENCE_COUNTER))
        (dset d occurrenceCounter (occurrenceCounter y + 1));;
      store_changes d old (occurrenceCounter y)
  end.

(** What follows a new status of the event: storing, a snapshot, the DTC. *)
Definition propagate (e : nat) (old : Z) (snapshot : bool) : M (Dem T) le_result_t :=
  x ← event e;
  if old =? eventUdsStatus x then mret LE_OK else
  result ← StoreAndReportEventUdsStatus e;
  if negb (bool_decide (result = LE_OK)) then mret result else
  when snapshot (TriggerSnapshotData env old e);;
  UpdateDtcForCustomerN (dtcCtxPtr x).

Definition UpdateEventOnFailedCustomerN (e : nat) : M (Dem T) le_result_t :=
  x ← event e;
  let old := eventUdsStatus x in
  t ← type_of e;
  match t with
  | TAF_DIAGEVENT_REPROGRAMMING_DTC => eset e eventUdsStatus 0x01;; propagate e old true
  | TAF_DIAGEVENT_APPLICATION_DTC =>
      eset e eventUdsStatus (set_bits old TAF_DIAGEVENT_UDS_STATUS_TF);; propagate e old true
  | TAF_DIAGEVENT_UNKNOWN_DTC => mret LE_FAULT
  end.

(** The fault code of the event, padded with zero bytes in front to the configured length. *)
Definition UpdateFaultCodeForPassedEvent (e : nat) : M (Dem T) le_result_t :=
  x ← event e;
  let size := supplierFaultCodeSize x in
  if size <=? 0 then mret LE_OK else
  let conf := did_value_size env DID_OF_SUPPLIER_FC in
  if conf <? size then mret LE_FAULT else
  let code := take (Z.to_nat size) (supplierFaultCode x) in
  on_db (db_UpdateFaultCodeSnapshotData (ev_dtcCode x) DID_OF_SUPPLIER_FC
           (replicate (Z.to_nat (conf - size)) 0 ++ code)).

Definition UpdateEventOnPassedCustomerN (e : nat) : M (Dem T) le_result_t :=
  x ← event e;
  let old := eventUdsStatus x in
  t ← type_of e;
  match t with
  | TAF_DIAGEVENT_REPROGRAMMING_DTC => eset e eventUdsStatus 0x00;; propagate e old false
  | TAF_DIAGEVENT_APPLICATION_DTC =>
      eset e eventUdsStatus (clear_bits old TAF_DIAGEVENT_UDS_STATUS_TF);;
      d ← dtc_of e; y ← dtc d;
      result ← (if bits (dtcStatus y) TAF_DIAGEVENT_UDS_STATUS_TF
                   || bits (dtcStatus y) TAF_DIAGEVENT_UDS_STATUS_CDTC
                then UpdateFaultCodeForPassedEvent e else mret LE_OK : M (Dem T) le_result_t);
      if negb (bool_decide (result = LE_OK)) then mret result else propagate e old false
  | TAF_DIAGEVENT_UNKNOWN_DTC => mret LE_FAULT
  end.

(** What [PRE_PASSED] and [PRE_FAILED] require, or the result without it. *)
Definition pre_allowed (e : nat) : M (Dem T) (option le_result_t) :=
  x ← event e;
  t ← type_of e;
  mret (match t with
        | TAF_DIAGEVENT_APPLICATION_DTC => Some LE_OK
        | TAF_DIAGEVENT_UNKNOWN_DTC => Some LE_FAULT
        | TAF_DIAGEVENT_REPROGRAMMING_DTC =>
            if bool_decide (debounceType x = TAF_DIAGEVENT_DEBOUNCE_COUNTER_BASED) then None
            else Some LE_FAULT
        end).

Definition UpdateEventOnPrePassedCustomerN (e : nat) : M (Dem T) le_result_t :=
  refused ← pre_allowed e;
  match refused with
  | Some r => mret r
  | None =>
      x ← event e;
      let cfg := debounceCounterBasedConfig x in
      if passedThreshold cfg <? debounceCounter x then
        let c := count_down cfg (debounceCounter x) in
        eset e debounceCounter c;;
        on_db (db_SetEventFailedCounter (eventId x) 0);;
        if c <=? passedThreshold cfg then UpdateEventOnPassedCustomerN e else mret LE_OK
      else mret LE_OK
  end.

(** [(float)127 / failedThreshold]. *)
Definition fdc_ratio (failed : Z) : spec_float :=
  F32.div (F32.of_Z MAX_FAULT_DETECTION_COUNTER) (F32.of_Z failed).
(** The fault detection counter of a debounce counter, as a [uint8_t]. *)
Definition fdc_of (c failed : Z) : option Z := to_unsigned 8 (F32.mul (F32.of_Z c) (fdc_ratio failed)).

Definition UpdateEventOnPreFailedCustomerN (e : nat) : M (Dem T) le_result_t :=
  refused ← pre_allowed e;
  match refused with
  | Some r => mret r
  | None =>
      x ← event e;
      let cfg := debounceCounterBasedConfig x in
      if debounceCounter x <? failedThreshold cfg then
        let c := count_up cfg (debounceCounter x) in
        eset e debounceCounter c;;
        fdc ← demand (fdc_of c (failedThreshold cfg)) BadConversion;
        on_db (db_SetEventFailedCounter (eventId x) fdc);;
        if failedThreshold cfg <=? c then UpdateEventOnFailedCustomerN e else mret LE_OK
      else mret LE_OK
  end.

Definition UpdateEventOnConfirmedCustomerN (e : nat) : M (Dem T) le_result_t :=
  x ← event e;
  t ← type_of e;
  if negb (bool_decide (t = TAF_DIAGEVENT_APPLICATION_DTC)) then mret LE_FAULT else
  let old := eventUdsStatus x in
  eset e eventUdsStatus (set_bits (set_bits old TAF_DIAGEVENT_UDS_STATUS_TF) TAF_DIAGEVENT_UDS_STATUS_CDTC);;
  propagate e old true.

Definition UpdateEventOnTestNotCmpltCustomerN (e : nat) : M (Dem T) le_result_t :=
  x ← event e;
  t ← type_of e;
  if negb (bool_decide (t = TAF_DIAGEVENT_REPROGRAMMING_DTC)) then mret LE_FAULT else
  let old := eventUdsStatus x in
  eset e eventUdsStatus 0x10;; propagate e old true.

(** ** Setting the status of an event *)

(** [memset] of the fault code, or [memcpy] of the [size] bytes at [code]. *)
Definition clear_fault_code (e : nat) : M (Dem T) unit :=
  eset e supplierFaultCodeSize 0;;
  eset e supplierFaultCode (replicate (Z.to_nat (fault_code_max env)) 0).
Definition copy_fault_code (e : nat) (code : list Z) (size : Z) : M (Dem T) unit :=
  x ← event e;
  if (size <=? Z.of_nat (length code)) && (size <=? Z.of_nat (length (supplierFaultCode x)))
  then eset e supplierFaultCode (splice (supplierFaultCode x) 0 (take (Z.to_nat size) code));;
       eset e supplierFaultCodeSize size
  else raise OutOfBounds.
Definition store_fault_code (e : nat) (code : option (list Z)) (size : Z) : M (Dem T) unit :=
  match code with
  | Some c => if 0 <? size then copy_fault_code e c size else clear_fault_code e
  | None => clear_fault_code e
  end.

(** The rest of [SetStatusWithSupplierFaultCode], with and without feature A. *)
Definition set_status_A (e : nat) (eventStatus : taf_diagEvent_StatusType_t)
    (code : option (list Z)) (size : Z) : M (Dem T) le_result_t :=
  t ← type_of e;
  (if bool_decide (t = TAF_DIAGEVENT_REPROGRAMMING_DTC)
   then clear_fault_code e else store_fault_code e code size);;
  match eventStatus with
  | TAF_DIAGEVENT_PASSED => UpdateEventOnPassedCustomerN e
  | TAF_DIAGEVENT_FAILED => UpdateEventOnFailedCustomerN e
  | TAF_DIAGEVENT_PREPASSED => UpdateEventOnPrePassedCustomerN e
  | TAF_DIAGEVENT_PREFAILED => UpdateEventOnPreFailedCustomerN e
  | TAF_DIAGEVENT_CONFIRMED => UpdateEventOnConfirmedCustomerN e
  | TAF_DIAGEVENT_TEST_NOT_COMPLETED => UpdateEventOnTestNotCmpltCustomerN e
  | TAF_DIAGEVENT_UNKNOWN => mret LE_FAULT
  end.

(** The new fault status takes effect when it differs from the old one. *)
Definition apply_fault_status (e : nat) (old : taf_diagEvent_StatusType_t) : M (Dem T) le_result_t :=
  x ← event e;
  if bool_decide (old = eventFaultStatus x) then mret LE_OK else
  match eventFaultStatus x with
  | TAF_DIAGEVENT_FAILED => UpdateEventOnFailed env e
  | TAF_DIAGEVENT_PASSED => UpdateEventOnPassed e
  | TAF_DIAGEVENT_PREFAILED | TAF_DIAGEVENT_PREPASSED => mret LE_OK
  | _ => mret LE_FAULT
  end.
Definition set_status_debounced (e : nat) (eventStatus : taf_diagEvent_StatusType_t)
    (code : option (list Z)) (size : Z) : M (Dem T) le_result_t :=
  old ← event e;
  store_fault_code e code size;;
  x ← event e;
  trigger_snapshot x DEM_TRIGGER_ON_EVERY_TEST_FAILED;;
  result ← DebounceEvent env e eventStatus;
  if negb (bool_decide (result = LE_OK)) then mret result else
  apply_fault_status e (eventFaultStatus old).

Definition SetStatusWithSupplierFaultCode (svcRef : option Z)
    (eventStatus : taf_diagEvent_StatusType_t) (code : option (list Z)) (size : Z)
    : M (Dem T) le_result_t :=
  if bool_decide (svcRef = None) then mret LE_BAD_PARAMETER else
  if bool_decide (eventStatus = TAF_DIAGEVENT_UNKNOWN) then mret LE_FAULT else
  ctx ← GetEventCtx svcRef;
  match ctx with
  | None => mret LE_FAULT
  | Some e =>
      result ← CheckEventCondition env e;
      if negb (bool_decide (result = LE_OK)) then mret result else
      if featureA env then set_status_A e eventStatus code size
      else set_status_debounced e eventStatus code size
  end.
Definition SetStatus (svcRef : option Z) (eventStatus : taf_diagEvent_StatusType_t)
    : M (Dem T) le_result_t :=
  if bool_decide (svcRef = None) then mret LE_BAD_PARAMETER else
  SetStatusWithSupplierFaultCode svcRef eventStatus None 0.

Definition ResetDebounceStatus (svcRef : option Z) (status : taf_diagEvent_DebounceResetStatus_t)
    : M (Dem T) le_result_t :=
  if bool_decide (svcRef = None) then mret LE_BAD_PARAMETER else
  ctx ← GetEventCtx svcRef;
  match ctx with
  | None => mret LE_FAULT
  | Some e =>
      eset e debounceBehavior_ status;;
      x ← event e;
      when (bool_decide (status = TAF_DIAGEVENT_DEBOUNCE_RESET) && negb (eventEnableStatus x))
        (ResetDebounceCounter env e);;
      mret LE_OK
  end.

(** ** Operation cycles *)
Definition started (status : Z) : Z :=
  set_bits (clear_bits status TAF_DIAGEVENT_UDS_STATUS_TFTOC) TAF_DIAGEVENT_UDS_STATUS_TNCTOC.

Definition start_event (e : nat) : M (Dem T) le_result_t :=
  x ← event e;
  eset e eventFaultStatus TAF_DIAGEVENT_UNKNOWN;;
  ResetDebounceCounter env e;;
  eset e fdcTriggerFlag false;;
  eset e eventUdsStatus (started (eventUdsStatus x));;
  result ← (if negb (eventUdsStatus x =? started (eventUdsStatus x))
            then StoreAndReportEventUdsStatus e else mret LE_OK : M (Dem T) le_result_t);
  if negb (bool_decide (result = LE_OK)) then mret result else
  match dtcCtxPtr x with
  | None => mret LE_OK
  | Some d =>
      y ← dtc d;
      dset d dtcStatus (started (dtcStatus y));;
      if negb (dtcStatus y =? started (dtcStatus y)) then StoreAndReportDTCStatus d else mret LE_OK
  end.

(** A test that has passed in this cycle ends the pending state. *)
Definition unpending (status : Z) : bool :=
  negb (bits status TAF_DIAGEVENT_UDS_STATUS_TNCTOC) && negb (bits status TAF_DIAGEVENT_UDS_STATUS_TFTOC)
  && bits status TAF_DIAGEVENT_UDS_STATUS_PDTC.

Definition stop_event (e : nat) : M (Dem T) le_result_t :=
  x ← event e;
  result ← (if unpending (eventUdsStatus x)
            then eset e eventUdsStatus (clear_bits (eventUdsStatus x) TAF_DIAGEVENT_UDS_STATUS_PDTC);;
                 StoreAndReportEventUdsStatus e
            else mret LE_OK : M (Dem T) le_result_t);
  if negb (bool_decide (result = LE_OK)) then mret result else
  match dtcCtxPtr x with
  | None => mret LE_OK
  | Some d =>
      y ← dtc d;
      if unpending (dtcStatus y)
      then dset d dtcStatus (clear_bits (dtcStatus y) TAF_DIAGEVENT_UDS_STATUS_PDTC);;
           StoreAndReportDTCStatus d
      else mret LE_OK
  end.

Definition in_cycle (id : Z) (step : nat -> M (Dem T) le_result_t) (e : nat) : M (Dem T) le_result_t :=
  x ← event e; if operationCycleId x =? id then step e else mret LE_OK.
Definition StartOperationCycle (id : Z) : M (Dem T) le_result_t :=
  es ← all_events; each_ok es (in_cycle id start_event).
Definition StopOperationCycle (id : Z) : M (Dem T) le_result_t :=
  es ← all_events; each_ok es (in_cycle id stop_event).

Definition cycle (c : nat) : M (Dem T) taf_diagEvent_OperCycleCtx_t :=
  s ← get; demand (OperCycleCtxList s !! c) NullDeref.
Definition cycle_set {A} (c : nat) (p : taf_diagEvent_OperCycleCtx_t -> A) `{!Field p} (v : A) : M (Dem T) unit :=
  x ← cycle c;
  modify (fun s => s <| OperCycleCtxList := <[c := x <| p := v |>]> (OperCycleCtxList s) |>).

Definition ReportOperCycleState (c : nat) (state : taf_diagEvent_OperationCycleState_t) : M (Dem T) unit :=
  x ← cycle c; emit (ReportOperCycle (operCycleRef x) state).

Definition GetOperCycleCtx (operCycleRef : option Z) : M (Dem T) (option nat) :=
  match operCycleRef with
  | None => mret None
  | Some r => s ← get; mret (amap_find (OperCycleRefMap s) r)
  end.

(** [change] has succeeded: the state of the cycle is assigned, unless it is restarted, and its
    clients are told. *)
Definition cycle_changed (c : nat) (change : M (Dem T) le_result_t) (assigned : bool)
    (state : taf_diagEvent_OperationCycleState_t) : M (Dem T) le_result_t :=
  result ← change;
  if negb (bool_decide (result = LE_OK)) then mret result else
  when assigned (cycle_set c cyc_state state);; ReportOperCycleState c state;; mret result.

Definition SetOperCycleState (operCycleRef : option Z) (state : taf_diagEvent_OperationCycleState_t)
    : M (Dem T) le_result_t :=
  if featureA env then mret LE_OK else
  if bool_decide (operCycleRef = None) then mret LE_BAD_PARAMETER else
  ctx ← GetOperCycleCtx operCycleRef;
  match ctx with
  | None => mret LE_FAULT
  | Some c =>
      x ← cycle c;
      let id := operCycleId x in
      match state with
      | TAF_DIAGEVENT_CYCLE_RESTART =>
          if bool_decide (cyc_state x = TAF_DIAGEVENT_CYCLE_START) then
            result ← StopOperationCycle id;
            if negb (bool_decide (result = LE_OK)) then mret result else
            cycle_changed c (StartOperationCycle id) false TAF_DIAGEVENT_CYCLE_RESTART
          else mret LE_FAULT
      | TAF_DIAGEVENT_CYCLE_START =>
          if negb (bool_decide (cyc_state x = TAF_DIAGEVENT_CYCLE_START)) then
            cycle_changed c (StartOperationCycle id) true TAF_DIAGEVENT_CYCLE_START
          else mret LE_OK
      | TAF_DIAGEVENT_CYCLE_STOP =>
          if negb (bool_decide (cyc_state x = TAF_DIAGEVENT_CYCLE_STOP)) then
            cycle_changed c (StopOperationCycle id) true TAF_DIAGEVENT_CYCLE_STOP
          else mret LE_OK
      end
  end.
End Svc.
