(* ===== verification/DemDtc.v ===== *)
(** * Diagnostic events: enable conditions, DTCs and references

    [SetEventEnableStatus] with [taf_DiagSvr::SetEnableCondition] ([tafDiagSvrImpl.cpp]), and the
    functions of [tafEventSvrImpl.cpp] that clear, suppress and activate DTCs, compute fault
    detection counters and manage the references of clients. *)
From Stdlib Require Import SpecFloat.
From S2P Require Import Prelude DiagCfg Ieee DemTypes DemEvent DemSvc.

Section Dtc.
Context {T : Type} `{!Store T}.
Variable env : DemEnv.

(** ** Enable conditions *)
Definition GetEnableConditionStatus (l : list (Z * bool)) (id : Z) : bool :=
  default false (amap_find l id).

(** The new enable status of an event after a change of the condition [id]; [None] when the
    event does not depend on it. *)
Definition enable_status (c : EnableConditionData) (status : Z -> bool) (id : Z) : option bool :=
  let by_and := if bool_decide (id ∈ and_conditions c)
                then Some (forallb status (and_conditions c)) else None in
  if bool_decide (id ∈ or_conditions c) then Some (existsb status (or_conditions c)) else by_and.

Definition ReportEnableCondState (e : nat) (state : bool) : M (Dem T) unit :=
  x ← event e;
  match ev_svcRef x with None => mret tt | Some r => emit (ReportEnableCond r state) end.

Definition enable_event (id : Z) (e : nat) : M (Dem T) unit :=
  x ← event e;
  s ← get;
  match amap_find (event_conditions env) (eventId x) with
  | None => mret tt
  | Some c =>
      match enable_status c (GetEnableConditionStatus (enableStatusList s)) id with
      | None => mret tt
      | Some new =>
          when (negb (Bool.eqb new (eventEnableStatus x)))
            (ReportEnableCondState e new;; eset e eventEnableStatus new);;
          when (negb new && bool_decide (debounceBehavior_ x = TAF_DIAGEVENT_DEBOUNCE_RESET))
            (ResetDebounceCounter env e)
      end
  end.
Definition SetEventEnableStatus (id : Z) : M (Dem T) le_result_t :=
  es ← all_events; for_each es (enable_event id);; mret LE_OK.

Fixpoint set_condition (l : list (Z * bool)) (id : Z) (fulfilled : bool) : list (Z * bool) :=
  match l with
  | [] => [(id, fulfilled)]
  | (i, b) :: l' => if i =? id then (i, fulfilled) :: l' else (i, b) :: set_condition l' id fulfilled
  end.
Definition SetEnableCondition (id : Z) (fulfilled : bool) : M (Dem T) le_result_t :=
  modify (fun s => s <| enableStatusList := set_condition (enableStatusList s) id fulfilled |>);;
  SetEventEnableStatus id;; mret LE_OK.

(** ** Clearing *)
Definition cleared_status : Z :=
  if featureA env then 0
  else set_bits (set_bits 0 TAF_DIAGEVENT_UDS_STATUS_TNCSLC) TAF_DIAGEVENT_UDS_STATUS_TNCTOC.

Definition clear_event (i : option nat) : M (Dem T) unit :=
  match i with
  | None => mret tt
  | Some e =>
      x ← event e;
      eset e eventUdsStatus cleared_status;;
      when (negb (cleared_status =? eventUdsStatus x)) (ReportEventUdsStatus e);;
      when (negb (featureA env)) (on_db (db_SetEventStatusByName (eventName x) cleared_status);; mret tt);;
      eset e failureCounter 0;;
      eset e eventFaultStatus TAF_DIAGEVENT_UNKNOWN;;
      when (negb (featureA env)) (ResetDebounceCounter env e)
  end.
Definition ClearDTCAndEventData (d : nat) : M (Dem T) unit :=
  y ← dtc d;
  dset d occurrenceCounter 0;;
  dset d dtcStatus cleared_status;;
  when (negb (cleared_status =? dtcStatus y)) (ReportDtcStatus d);;
  when (negb (featureA env)) (store_dtc d;; mret tt);;
  ids ← events_of d;
  for_each ids clear_event.

Definition known_client (c : taf_diagDTC_ReqClientType_t) : bool :=
  bool_decide (c = TAF_DIAGDTC_DTOOL) || bool_decide (c = TAF_DIAGDTC_APP).
Definition ClearAllDTCAndEventData (client : taf_diagDTC_ReqClientType_t) : M (Dem T) unit :=
  when (known_client client)
    (ds ← all_dtcs; for_each ds ClearDTCAndEventData;; emit (ReportClearAllDTC client)).

Definition ClearAllDtc (client : taf_diagDTC_ReqClientType_t) : M (Dem T) le_result_t :=
  result ← on_db db_DeleteAllData;
  if negb (bool_decide (result = LE_OK)) then mret result else
  if known_client client then ClearAllDTCAndEventData client;; mret LE_OK else mret LE_UNAVAILABLE.

Definition ClearSingleDtc (code : Z) (client : taf_diagDTC_ReqClientType_t) : M (Dem T) le_result_t :=
  ctx ← GetDtcCtxByCode code;
  match ctx with
  | None => mret LE_UNSUPPORTED
  | Some d =>
      dset d reqClientType client;;
      y ← dtc d;
      if suppressionStatus y then mret LE_UNAVAILABLE else
      result ← on_db (db_DeleteData code);
      if negb (bool_decide (result = LE_OK)) then mret result else
      if known_client client then
        ClearDTCAndEventData d;; emit (ReportClearDTC (dtcCode y) (reqClientType y));; mret LE_OK
      else mret LE_UNAVAILABLE
  end.
Definition ClearDtc (code : Z) (client : taf_diagDTC_ReqClientType_t) : M (Dem T) le_result_t :=
  if code =? 0xFFFFFF then ClearAllDtc client else ClearSingleDtc code client.

(** ** Activation and suppression *)

(** The new value is stored first, and takes effect when that succeeds. *)
Definition set_dtc_flag (code : Z) (p : taf_diagEvent_DtcCtx_t -> bool) `{!Field p}
    (store : M T le_result_t) (b : bool) : M (Dem T) le_result_t :=
  ctx ← GetDtcCtxByCode code;
  match ctx with
  | None => mret LE_UNSUPPORTED
  | Some d =>
      result ← on_db store;
      if negb (bool_decide (result = LE_OK)) then mret result else
      dset d p b;; mret LE_OK
  end.
Definition DisableDTCSetting (code : Z) : M (Dem T) le_result_t :=
  set_dtc_flag code activationStatus (db_SetDTCActivation code false) false.
Definition EnableDTCSetting (code : Z) : M (Dem T) le_result_t :=
  set_dtc_flag code activationStatus (db_SetDTCActivation code true) true.
Definition SetDTCSuppression (code : Z) (suppressed : bool) : M (Dem T) le_result_t :=
  set_dtc_flag code suppressionStatus (db_SetDTCSuppression code suppressed) suppressed.

Definition UpdateAllDtcSuppressionStatus (suppressed : bool) : M (Dem T) unit :=
  ds ← all_dtcs; for_each ds (fun d => dset d suppressionStatus suppressed).
Definition SetAllDTCSuppression (suppressed : bool) : M (Dem T) le_result_t :=
  result ← on_db (db_SetAllDTCSuppression suppressed);
  if negb (bool_decide (result = LE_OK)) then mret result else
  UpdateAllDtcSuppressionStatus suppressed;; mret LE_OK.

(** ** Fault detection counters *)
Definition CalcCounterBasedDebounceFDC (e : nat) : M (Dem T) Z :=
  x ← event e;
  let failed := failedThreshold (debounceCounterBasedConfig x) in
  if (0 <? debounceCounter x) && (debounceCounter x <? failed)
  then demand (fdc_of (debounceCounter x) failed) BadConversion
  else mret 0.

(** Seconds that have passed, times [(float)(127 * 1000) / failedThreshold]. *)
Definition time_fdc (elapsed failed : Z) : option Z :=
  to_unsigned 8 (F32.mul (F32.of_Z (elapsed / 1000))
    (F32.div (F32.of_Z (MAX_FAULT_DETECTION_COUNTER * 1000)) (F32.of_Z failed))).
Definition CalcTimeBasedDebounceFDC (e : nat) : M (Dem T) Z :=
  x ← event e;
  running ← query (fun tr => timer_IsRunning env tr (DebounceTimer e));
  if running && bool_decide (timerType x = TAF_DIAGEVENT_TIMER_PREFAILED) then
    emit GetTime;;
    now ← query (now_ms env);
    let failed := t_failedThreshold (debounceTimeBasedConfig x) in
    let elapsed := u64 (now - startTime x) in
    if (elapsed =? 0) || (elapsed =? failed) then mret 0
    else demand (time_fdc elapsed failed) BadConversion
  else mret 0.

Definition event_fdc (timed : bool) (i : option nat) : M (Dem T) Z :=
  match i with
  | None => mret 0
  | Some e =>
      x ← event e;
      match debounceType x with
      | TAF_DIAGEVENT_DEBOUNCE_MONITOR_INTERNAL => mret 0
      | TAF_DIAGEVENT_DEBOUNCE_COUNTER_BASED => CalcCounterBasedDebounceFDC e
      | TAF_DIAGEVENT_DEBOUNCE_TIME_BASED => if timed then CalcTimeBasedDebounceFDC e else mret 0
      end
  end.
(** The largest counter of the events. *)
Fixpoint max_fdc (timed : bool) (ids : list (option nat)) (fdc : Z) : M (Dem T) Z :=
  match ids with
  | [] => mret fdc
  | i :: ids' => c ← event_fdc timed i; max_fdc timed ids' (if fdc <? c then c else fdc)
  end.

Definition GetFaultDetectionCounter (code : Z) : M (Dem T) (le_result_t * Z) :=
  ctx ← GetDtcCtxByCode code;
  match ctx with
  | None => mret (LE_BAD_PARAMETER, 0)
  | Some d =>
      y ← dtc d;
      if suppressionStatus y then mret (LE_FAULT, 0) else
      ids ← events_of d; fdc ← max_fdc false ids 0; mret (LE_OK, fdc)
  end.

Fixpoint fdc_list (ds : list nat) : M (Dem T) (list (Z * Z)) :=
  match ds with
  | [] => mret []
  | d :: ds' =>
      y ← dtc d;
      if suppressionStatus y then fdc_list ds' else
      ids ← events_of d;
      fdc ← max_fdc true ids 0;
      rest ← fdc_list ds';
      mret (if 0 <? fdc then (dtcCode y, fdc) :: rest else rest)
  end.
Definition ReportDTCFaultDetectionCounter : M (Dem T) (list (Z * Z)) := ds ← all_dtcs; fdc_list ds.

(** ** References of clients *)
Definition add_session (l : list Z) (session : Z) : list Z :=
  if bool_decide (session ∈ l) then l else l ++ [session].
Fixpoint remove_session (l : list Z) (session : Z) : list Z :=
  match l with
  | [] => []
  | x :: l' => if x =? session then l' else x :: remove_session l' session
  end.
Definition delete_ref (m : list (Z * nat)) (ref : option Z) : list (Z * nat) :=
  filter (fun p => Some p.1 <> ref) m.

Definition GetService (id session : Z) : M (Dem T) (option Z) :=
  ctx ← GetEventCtxById id;
  match ctx with
  | None => mret None
  | Some e =>
      x ← event e;
      created ← (match ev_svcRef x with
        | Some _ => mret true
        | None =>
            emit CreateRef;; r ← query (new_ref env);
            match r with
            | None => mret false
            | Some r =>
                modify (fun s => s <| SvcRefMap := SvcRefMap s ++ [(r, e)] |>);;
                eset e ev_svcRef (Some r);; eset e ev_sessionRefList [];; mret true
            end
        end : M (Dem T) bool);
      if (created : bool) then
        x ← event e;
        eset e ev_sessionRefList (add_session (ev_sessionRefList x) session);;
        mret (ev_svcRef x)
      else mret None
  end.

(** The reference goes with its last client. *)
Definition drop_service (e : nat) : M (Dem T) unit :=
  x ← event e;
  when (bool_decide (ev_sessionRefList x = []))
    (modify (fun s => s <| SvcRefMap := delete_ref (SvcRefMap s) (ev_svcRef x) |>);;
     eset e ev_svcRef None).
Definition leave_service (session : Z) (e : nat) : M (Dem T) unit :=
  x ← event e; eset e ev_sessionRefList (remove_session (ev_sessionRefList x) session).

Definition RemoveSvc (svcRef : option Z) (session : Z) : M (Dem T) le_result_t :=
  if bool_decide (svcRef = None) then mret LE_FAULT else
  s ← get;
  for_each (SvcRefMap s).*2 (fun e =>
    x ← event e;
    when (bool_decide (ev_svcRef x = svcRef)) (leave_service session e);;
    drop_service e);;
  mret LE_OK.

Definition GetOperCycle (id session : Z) : M (Dem T) (option Z) :=
  ctx ← GetOperCycleCtxById id;
  match ctx with
  | None => mret None
  | Some c =>
      x ← cycle c;
      created ← (match operCycleRef x with
        | Some _ => mret true
        | None =>
            emit CreateRef;; r ← query (new_ref env);
            match r with
            | None => mret false
            | Some r =>
                modify (fun s => s <| OperCycleRefMap := OperCycleRefMap s ++ [(r, c)] |>);;
                cycle_set c operCycleRef (Some r);; cycle_set c cyc_sessionRefList [];; mret true
            end
        end : M (Dem T) bool);
      if (created : bool) then
        x ← cycle c;
        cycle_set c cyc_sessionRefList (add_session (cyc_sessionRefList x) session);;
        mret (operCycleRef x)
      else mret None
  end.
Definition drop_cycle (c : nat) : M (Dem T) unit :=
  x ← cycle c;
  when (bool_decide (cyc_sessionRefList x = []))
    (modify (fun s => s <| OperCycleRefMap := delete_ref (OperCycleRefMap s) (operCycleRef x) |>);;
     cycle_set c operCycleRef None).
Definition leave_cycle (session : Z) (c : nat) : M (Dem T) unit :=
  x ← cycle c; cycle_set c cyc_sessionRefList (remove_session (cyc_sessionRefList x) session).
Definition RemoveOperCycle (ref : option Z) (session : Z) : M (Dem T) le_result_t :=
  if bool_decide (ref = None) then mret LE_BAD_PARAMETER else
  s ← get;
  for_each (OperCycleRefMap s).*2 (fun c =>
    x ← cycle c;
    when (bool_decide (operCycleRef x = ref)) (leave_cycle session c);;
    drop_cycle c);;
  mret LE_OK.

Definition OnClientDisconnection (session : option Z) : M (Dem T) unit :=
  match session with
  | None => mret tt
  | Some client =>
      s ← get;
      for_each (SvcRefMap s).*2 (fun e => leave_service client e;; drop_service e);;
      for_each (OperCycleRefMap s).*2 (fun c => leave_cycle client c;; drop_cycle c)
  end.

(** ** Queries *)
Definition ask_event {A} (svcRef : option Z) (p : taf_diagEvent_EventCtx_t -> A)
    : M (Dem T) (le_result_t * option A) :=
  if bool_decide (svcRef = None) then mret (LE_BAD_PARAMETER, None) else
  ctx ← GetEventCtx svcRef;
  match ctx with
  | None => mret (LE_FAULT, None)
  | Some e => x ← event e; mret (LE_OK, Some (p x))
  end.
Definition GetId (svcRef : option Z) : M (Dem T) (le_result_t * option Z) := ask_event svcRef eventId.
Definition GetOperationCycleId (svcRef : option Z) : M (Dem T) (le_result_t * option Z) :=
  ask_event svcRef operationCycleId.
Definition GetDTCCode (svcRef : option Z) : M (Dem T) (le_result_t * option Z) := ask_event svcRef ev_dtcCode.
Definition GetEnableCondState (svcRef : option Z) : M (Dem T) (le_result_t * option bool) :=
  ask_event svcRef eventEnableStatus.
Definition GetUdsStatus (svcRef : option Z) : M (Dem T) (le_result_t * option Z) :=
  ask_event svcRef eventUdsStatus.

Definition ask_cycle {A} (ref : option Z) (p : taf_diagEvent_OperCycleCtx_t -> A)
    : M (Dem T) (le_result_t * option A) :=
  if bool_decide (ref = None) then mret (LE_BAD_PARAMETER, None) else
  ctx ← GetOperCycleCtx ref;
  match ctx with
  | None => mret (LE_BAD_PARAMETER, None)
  | Some c => x ← cycle c; mret (LE_OK, Some (p x))
  end.
Definition GetOperCycleState (ref : option Z)
    : M (Dem T) (le_result_t * option taf_diagEvent_OperationCycleState_t) := ask_cycle ref cyc_state.
Definition GetOperCycleIdByRef (ref : option Z) : M (Dem T) (le_result_t * option Z) :=
  ask_cycle ref operCycleId.
End Dtc.
