(* ===== verification/DemInit.v ===== *)
(** * Diagnostic events: start-up

    [taf_EventSvr::EventConfiguration]: the contexts that the configuration and the data base
    define. The maps of [DiagConf] that it uses are in [EventConf], with the accessors of
    [configuration.cpp.jinja]; an exception ends in the [LE_FATAL] of [Init]. *)
From Stdlib Require Import SpecFloat.
From S2P Require Import Prelude DiagCfg Ieee DemTypes DemEvent DemSvc.

Record EventEntry := mkEventEntry {
  ee_id : Z;
  mnemonic : string;
  confirmation_threshold : Z;
  operation_cycle : string;
  debounce_algorithm : string;
  ee_enable_condition : EnableConditionData }.

Record DTCEntry := mkDTCEntry {
  identification_code : Z;
  snapshot_record_content : string;
  freeze_frames : list string;
  dtc_access_session : list string;
  dtc_events : list Z }.

Record DebounceCounterBasedAlgorithm := mkCounterAlgorithm {
  counter_debounce_behavior : string;
  counter_decrement_step_size : Z;
  counter_passed_threshold : Z;
  counter_increment_step_size : Z;
  counter_failed_threshold : Z;
  counter_jump_down_value : Z;
  counter_jump_up_value : Z;
  counter_jump_up : bool;
  counter_jump_down : bool;
  counter_fdc_threshold : Z }.

Record DebounceTimeBasedAlgorithm := mkTimeAlgorithm {
  time_debounce_behavior : string;
  time_failed_threshold : spec_float;
  time_passed_threshold : spec_float;
  time_fdc_threshold : spec_float }.

Record EventConf := mkEventConf {
  dtc_all : amap Z DTCEntry;
  conf_events : amap Z EventEntry;
  counter_based : amap string DebounceCounterBasedAlgorithm;
  time_based : amap string DebounceTimeBasedAlgorithm;
  custom : amap string unit;
  operation_cycle_names : list string;
  occurrence_counter_processing : string;
  diag_session_ids : amap string Z }.

(** ** Accessors of the configuration *)

(** [insert] of a [std::map] with integer keys. *)
Fixpoint map_insert {V} (m : amap Z V) (k : Z) (v : V) : amap Z V :=
  match m with
  | [] => [(k, v)]
  | (k', v') :: m' =>
      if k <? k' then (k, v) :: m
      else if k =? k' then m else (k', v') :: map_insert m' k v
  end.

Definition get_dtc_nodes (c : EventConf) : amap Z DTCEntry :=
  fold_left (fun m p => map_insert m (u32 p.1) p.2) (dtc_all c) [].

(** A DTC with the code that has events, or else the first one with the code. *)
Definition dtc_with_code (c : EventConf) (code : Z) : option DTCEntry :=
  let same := filter (fun d => u32 (identification_code d) = code) (dtc_all c).*2 in
  match filter (fun d => dtc_events d <> []) same with
  | d :: _ => Some d
  | [] => head same
  end.
Definition get_event_nodes (c : EventConf) (code : Z) : option (amap Z EventEntry) :=
  d ← dtc_with_code c code;
  Some (fold_left (fun m id =>
    match amap_find (conf_events c) (u16 id) with
    | Some e => map_insert m (u16 id) e
    | None => m
    end) (dtc_events d) []).

Definition get_event_name (c : EventConf) (id : Z) : string :=
  match amap_find (conf_events c) id with Some e => mnemonic e | None => pretty id end.

(** The position in the list of names ([s_to_operation_cycle_type]). *)
Definition s_to_operation_cycle_type (c : EventConf) (s : string) : option Z :=
  Z.of_nat ∘ fst <$> list_find (fun n => n = s) (operation_cycle_names c).
(** As many cycles as there are events. *)
Definition get_operation_cycle_count (c : EventConf) : Z := Z.of_nat (length (conf_events c)).

(** ** Debounce parameters *)

(** The parameters as [int16_t], or none when a check fails. *)
Definition counter_config (a : DebounceCounterBasedAlgorithm)
    : option taf_diagEvent_DebounceCounterBasedConfig :=
  let within lo z := (lo <=? z) && (z <? MAX_COUNTER_BASED_PARAM_VALUE) in
  let dec := s16 (counter_decrement_step_size a) in
  let inc := s16 (counter_increment_step_size a) in
  let failed := s16 (counter_failed_threshold a) in
  let passed := s16 (counter_passed_threshold a) in
  let down := s16 (counter_jump_down_value a) in
  let up := s16 (counter_jump_up_value a) in
  let fdc := s16 (counter_fdc_threshold a) in
  if (MIDDLE_COUNTER_BASED_PARAM_VALUE <=? dec) && (dec <=? MAX_COUNTER_BASED_PARAM_VALUE)
     && within MIDDLE_COUNTER_BASED_PARAM_VALUE inc && within MIDDLE_COUNTER_BASED_PARAM_VALUE failed
     && ((MIN_COUNTER_BASED_PARAM_VALUE <=? passed) && (passed <? 0))
     && within MIN_COUNTER_BASED_PARAM_VALUE down && within MIN_COUNTER_BASED_PARAM_VALUE up
     && within MIDDLE_COUNTER_BASED_PARAM_VALUE fdc
  then Some (mkCounterConfig dec inc failed passed (counter_jump_down a) (counter_jump_up a) down up fdc)
  else None.

(** A threshold in seconds, as a number of milliseconds. *)
Definition threshold_ms (seconds : spec_float) : option Z :=
  let t := F32.of_double seconds in
  if SFltb t (double_lit 1 3) || SFltb (F32.of_Z MAX_TIME_BASED_PARAM_VALUE) t then None
  else to_unsigned 32 (F32.mul t (F32.of_Z 1000)).
Definition time_config (a : DebounceTimeBasedAlgorithm)
    : option taf_diagEvent_DebounceTimeBasedConfig :=
  failed ← threshold_ms (time_failed_threshold a);
  passed ← threshold_ms (time_passed_threshold a);
  fdc ← threshold_ms (time_fdc_threshold a);
  Some (mkTimeConfig failed passed fdc).

Definition behavior (s : string) : taf_diagEvent_DebounceResetStatus_t :=
  if bool_decide (s = "reset"%string) then TAF_DIAGEVENT_DEBOUNCE_RESET else TAF_DIAGEVENT_DEBOUNCE_FREEZE.

(** The zeroes of [memset]; an event without debouncing has no use for the behaviour it gets. *)
Definition zero_counter : taf_diagEvent_DebounceCounterBasedConfig :=
  mkCounterConfig 0 0 0 0 false false 0 0 0.
Definition zero_time : taf_diagEvent_DebounceTimeBasedConfig := mkTimeConfig 0 0 0.

(** ** Contexts *)
Section Init.
Context {T : Type} `{!Store T}.
Variable env : DemEnv.
Variable conf : EventConf.

(** The first session that is a programming session decides. *)
Fixpoint dtc_type (sessions : list string) : taf_diagEvent_DTC_Type_t :=
  match sessions with
  | [] => TAF_DIAGEVENT_APPLICATION_DTC
  | s :: sessions' =>
      match amap_find (diag_session_ids conf) s with
      | None => TAF_DIAGEVENT_UNKNOWN_DTC
      | Some id =>
          if (u8 id =? FEATURE_A_PROGRAMMING_SESSION) || (u8 id =? FEATURE_A_FOTA_SESSION)
          then TAF_DIAGEVENT_REPROGRAMMING_DTC else dtc_type sessions'
      end
  end.

Definition InitDtcContext (code : Z) : M (Dem T) nat :=
  status ← on_db (db_GetDTCStatus code);
  counter ← on_db (db_GetDTCOccurrenceCounter code);
  active ← on_db (db_GetDTCActivation code);
  suppressed ← on_db (db_GetDTCSuppression code);
  s ← get;
  modify (fun s => s <| DtcCtxList := DtcCtxList s ++ [mkDtcCtx code status
    (if bool_decide (occurrence_counter_processing conf = "TEST-FAILED-BIT"%string)
     then TAF_DIAGEVENT_PROCESS_OCCCTR_TF else TAF_DIAGEVENT_PROCESS_OCCCTR_CDTC)
    counter active suppressed TAF_DIAGDTC_DTOOL
    (if featureA env then
       match amap_find (dtc_all conf) code with
       | Some d => dtc_type (dtc_access_session d)
       | None => TAF_DIAGEVENT_UNKNOWN_DTC
       end
     else TAF_DIAGEVENT_APPLICATION_DTC) []] |>);;
  mret (length (DtcCtxList s)).

(** The debounce type, behaviour and parameters of the event, and its first debounce counter. *)
Definition debounce_context (e : nat) (id : Z) (name : string)
    : M (Dem T) (taf_diagEvent_DebounceType_t * taf_diagEvent_DebounceResetStatus_t *
                 taf_diagEvent_DebounceCounterBasedConfig * taf_diagEvent_DebounceTimeBasedConfig * Z) :=
  match amap_find (counter_based conf) name with
  | Some a =>
      cfg ← demand (counter_config a) Fatal;
      c ← (if featureA env then
             fdc ← on_db (db_GetEventFailedCounter id);
             z ← demand (trunc (F32.div (F32.of_Z fdc) (fdc_ratio (failedThreshold cfg)))) BadConversion;
             if bool_decide (-32768 <= z < 32768) then mret z else raise BadConversion
           else mret 0 : M (Dem T) Z);
      mret (TAF_DIAGEVENT_DEBOUNCE_COUNTER_BASED, behavior (counter_debounce_behavior a), cfg, zero_time, c)
  | None =>
      match amap_find (time_based conf) name with
      | Some a =>
          cfg ← demand (time_config a) Fatal;
          emit (TimerSetMsInterval (FdcTimer e) (t_fdcThreshold cfg));;
          mret (TAF_DIAGEVENT_DEBOUNCE_TIME_BASED, behavior (time_debounce_behavior a), zero_counter, cfg, 0)
      | None =>
          match amap_find (custom conf) name with
          | Some _ => mret (TAF_DIAGEVENT_DEBOUNCE_MONITOR_INTERNAL, TAF_DIAGEVENT_DEBOUNCE_FREEZE,
                            zero_counter, zero_time, 0)
          | None => raise Fatal
          end
      end
  end.

Definition InitEventContext (entry : DTCEntry) (ev : EventEntry) : M (Dem T) unit :=
  let code := u32 (identification_code entry) in
  let id := u16 (ee_id ev) in
  s ← get;
  let e := length (EventCtxList s) in
  oc ← demand (s_to_operation_cycle_type conf (operation_cycle ev)) Fatal;
  '(type, beh, counter, time, c) ← debounce_context e id (debounce_algorithm ev);
  found ← GetDtcCtxByCode code;
  d ← (match found with Some d => mret d | None => InitDtcContext code end : M (Dem T) nat);
  let name := get_event_name conf id in
  if bool_decide (name = ""%string) || Nat.leb TAF_EVENT_NAME_MAX_LEN (String.length name)
  then raise Fatal else
  status ← on_db (db_GetEventStatusByName name);
  y ← dtc d;
  dset d dtcEventIdList (dtcEventIdList y ++ [id]);;
  modify (fun s => s <| EventCtxList := EventCtxList s ++
    [mkEventCtx id name code (Some d) (u8 oc) (featureA env) status 0
       (u8 (confirmation_threshold ev)) (replicate (Z.to_nat (fault_code_max env)) 0) 0
       TAF_DIAGEVENT_UNKNOWN c false beh type counter time
       (if bool_decide (type = TAF_DIAGEVENT_DEBOUNCE_TIME_BASED) then TAF_DIAGEVENT_TIMER_UNKNOWN
        else TAF_DIAGEVENT_TIMER_PREFAILED) 0 [] None] |>).

(** [maxNumOfOperCycle] is a [uint8_t]. *)
Definition InitOperCycleContext : M (Dem T) unit :=
  modify (fun s => s <| OperCycleCtxList := OperCycleCtxList s ++
    ((fun i => mkOperCycleCtx (Z.of_nat i) TAF_DIAGEVENT_CYCLE_STOP [] None)
     <$> seq 0 (Z.to_nat (u8 (get_operation_cycle_count conf)))) |>).

Definition EventConfiguration : M (Dem T) unit :=
  for_each (get_dtc_nodes conf) (fun p =>
    if negb (Z.land p.1 0xff000000 =? 0) then raise Fatal else
    evs ← demand (get_event_nodes conf p.1) NullDeref;
    for_each evs (fun q => if q.1 =? 0 then raise Fatal else InitEventContext p.2 q.2));;
  InitOperCycleContext.
End Init.
