(* ===== verification/DemSpec.v ===== *)
(** * Diagnostic events: rules and contracts

    What the data base promises ([Database]), the rules of the accesses to the contexts, the
    abstract meaning of a report ([fail_event], [pass_event], [combine]) and the contracts that
    the functions of [DemEvent] fulfil with respect to it. *)
From S2P Require Import Prelude DiagCfg DemTypes DemEvent DemSvc.

(** ** Status bytes *)
Definition implies (s a b : Z) : bool := implb (bits s a) (bits s b).
Definition excludes (s a b : Z) : bool := negb (bits s a && bits s b).

(** A test that has failed in this cycle is pending and has failed since the last clear; a
    pending, confirmed or present failure is one since the last clear; what has never been
    completed has not been completed in this cycle. *)
Definition status_or_ok (s : Z) : bool :=
  (0 <=? s) && (s <? 128)
  && implies s TAF_DIAGEVENT_UDS_STATUS_TF TAF_DIAGEVENT_UDS_STATUS_TFSLC
  && implies s TAF_DIAGEVENT_UDS_STATUS_TFTOC TAF_DIAGEVENT_UDS_STATUS_PDTC
  && implies s TAF_DIAGEVENT_UDS_STATUS_PDTC TAF_DIAGEVENT_UDS_STATUS_TFSLC
  && implies s TAF_DIAGEVENT_UDS_STATUS_CDTC TAF_DIAGEVENT_UDS_STATUS_TFSLC
  && implies s TAF_DIAGEVENT_UDS_STATUS_TNCSLC TAF_DIAGEVENT_UDS_STATUS_TNCTOC.
(** Moreover a test that has failed has been completed. *)
Definition status_ok (s : Z) : bool :=
  status_or_ok s
  && excludes s TAF_DIAGEVENT_UDS_STATUS_TFTOC TAF_DIAGEVENT_UDS_STATUS_TNCTOC
  && excludes s TAF_DIAGEVENT_UDS_STATUS_TFSLC TAF_DIAGEVENT_UDS_STATUS_TNCSLC.


(** ** The data base

    A [sound] data base holds only statuses and counters that the service may have stored, and
    the names and codes that it can hold are those of [storable_name] and [storable_code]. A
    call ends, whatever the state and its arguments. With what the data base can hold, it keeps
    the data base sound; one that returns [LE_OK] has stored what it was given, and none touches
    the entries of other names and codes. *)
Class Database (T : Type) `{!Store T} := {
  sound : T -> Prop;
  storable_name : string -> Prop;
  storable_code : Z -> Prop;
  stored_event : T -> string -> Z;
  stored_dtc : T -> Z -> Z * Z;
  SetEventStatusByName_stores name v t : wp (db_SetEventStatusByName name v) (fun r t' =>
    sound t -> storable_name name -> status_ok v = true ->
    sound t' /\ (r = LE_OK -> stored_event t' name = v) /\
    (forall n, n <> name -> stored_event t' n = stored_event t n) /\
    (forall c, stored_dtc t' c = stored_dtc t c)) t;
  SetDTCStatus_stores code v n t : wp (db_SetDTCStatus code v n) (fun r t' =>
    sound t -> storable_code code -> status_ok v = true -> 0 <= n <= 255 ->
    sound t' /\ (r = LE_OK -> stored_dtc t' code = (v, n)) /\
    (forall c, storable_code c -> c <> code -> stored_dtc t' c = stored_dtc t c) /\
    (forall m, stored_event t' m = stored_event t m)) t;
  SetEventFailedCounter_keeps id v t : wp (db_SetEventFailedCounter id v) (fun _ t' => sound t -> sound t') t;
  DeleteAllData_keeps t : wp db_DeleteAllData (fun _ t' => sound t -> sound t') t;
  DeleteData_keeps code t : wp (db_DeleteData code) (fun _ t' => sound t -> storable_code code -> sound t') t;
  SetDTCActivation_keeps code b t :
    wp (db_SetDTCActivation code b) (fun _ t' => sound t -> storable_code code -> sound t') t;
  SetDTCSuppression_keeps code b t :
    wp (db_SetDTCSuppression code b) (fun _ t' => sound t -> storable_code code -> sound t') t;
  SetAllDTCSuppression_keeps b t : wp (db_SetAllDTCSuppression b) (fun _ t' => sound t -> sound t') t }.

Section Rules.
Context {T : Type} `{!Store T}.
Implicit Types s : Dem T.

(** ** Accesses *)
Definition put_event (e : nat) (x : taf_diagEvent_EventCtx_t) s : Dem T :=
  s <| EventCtxList := <[e := x]> (EventCtxList s) |>.
Definition put_dtc (d : nat) (y : taf_diagEvent_DtcCtx_t) s : Dem T :=
  s <| DtcCtxList := <[d := y]> (DtcCtxList s) |>.
Definition log (es : list DemEffect) s : Dem T := s <| demTrace := demTrace s ++ es |>.

Lemma put_event_twice e x x' s : put_event e x' (put_event e x s) = put_event e x' s.
Proof. unfold put_event. cbn. by rewrite list_insert_insert_eq. Qed.
Lemma put_dtc_twice d y y' s : put_dtc d y' (put_dtc d y s) = put_dtc d y' s.
Proof. unfold put_dtc. cbn. by rewrite list_insert_insert_eq. Qed.
Lemma lookup_put_event e x x' s :
  EventCtxList s !! e = Some x' -> EventCtxList (put_event e x s) !! e = Some x.
Proof. intros H. apply list_lookup_insert_eq. by eapply lookup_lt_Some. Qed.
Lemma lookup_put_dtc d y y' s :
  DtcCtxList s !! d = Some y' -> DtcCtxList (put_dtc d y s) !! d = Some y.
Proof. intros H. apply list_lookup_insert_eq. by eapply lookup_lt_Some. Qed.

Lemma wp_event e x (Q : _ -> Dem T -> Prop) s :
  EventCtxList s !! e = Some x -> Q x s -> wp (event e) Q s.
Proof. intros He HQ. unfold event. wp_step. wp_step. by eapply wp_demand. Qed.
Lemma wp_dtc d y (Q : _ -> Dem T -> Prop) s :
  DtcCtxList s !! d = Some y -> Q y s -> wp (dtc d) Q s.
Proof. intros He HQ. unfold dtc. wp_step. wp_step. by eapply wp_demand. Qed.
Lemma wp_eset {A} e (p : taf_diagEvent_EventCtx_t -> A) `{!Field p} v x (Q : unit -> Dem T -> Prop) s :
  EventCtxList s !! e = Some x -> Q tt (put_event e (x <| p := v |>) s) -> wp (eset e p v) Q s.
Proof. intros He HQ. unfold eset. wp_step. eapply wp_event; [done|]. by wp_step. Qed.
Lemma wp_dset {A} d (p : taf_diagEvent_DtcCtx_t -> A) `{!Field p} v y (Q : unit -> Dem T -> Prop) s :
  DtcCtxList s !! d = Some y -> Q tt (put_dtc d (y <| p := v |>) s) -> wp (dset d p v) Q s.
Proof. intros He HQ. unfold dset. wp_step. eapply wp_dtc; [done|]. by wp_step. Qed.
Lemma wp_notes x (Q : unit -> Dem T -> Prop) s : Q tt (log [x] s) -> wp (emit x) Q s.
Proof. done. Qed.
Lemma wp_query {A} (f : list DemEffect -> A) (Q : A -> Dem T -> Prop) s :
  Q (f (demTrace s)) s -> wp (query f) Q s.
Proof. done. Qed.
Lemma wp_on_db {A} (c : M T A) (Q : A -> Dem T -> Prop) s :
  wp c (fun a t => Q a (s <| db := t |>)) (db s) -> wp (on_db c) Q s.
Proof. unfold wp, on_db. by destruct (c (db s)) as [[]|]. Qed.
End Rules.

(** ** What a report means *)

(** A failed test counts once per operation cycle; the counter starts again when the fault is
    confirmed. *)
Definition fail_event (x : taf_diagEvent_EventCtx_t) : taf_diagEvent_EventCtx_t :=
  let old := eventUdsStatus x in
  let n := if negb (bits old TAF_DIAGEVENT_UDS_STATUS_TFTOC)
              && (failureCounter x <? MAX_TEST_FAILURE_COUNTER)
           then failureCounter x + 1 else failureCounter x in
  if confirmationThreshold x <=? n
  then x <| eventUdsStatus := set_bits (failed_status old) TAF_DIAGEVENT_UDS_STATUS_CDTC |>
         <| failureCounter := 0 |>
  else x <| eventUdsStatus := failed_status old |> <| failureCounter := n |>.
Definition pass_event (x : taf_diagEvent_EventCtx_t) : taf_diagEvent_EventCtx_t :=
  x <| eventUdsStatus := passed_status (eventUdsStatus x) |>.

(** The status of a DTC is the combination of the statuses of its events. *)
Definition combine (evs : list taf_diagEvent_EventCtx_t) (y : taf_diagEvent_DtcCtx_t) : Z :=
  completed (events_status evs (dtcEventIdList y)).

(** The DTC after a test of one of its events has failed, and after one has passed. *)
Definition occurs (y : taf_diagEvent_DtcCtx_t) (status : Z) : bool :=
  raised (dtcStatus y) status TAF_DIAGEVENT_UDS_STATUS_TF
  && match occurrenceCounterProcessing y with
     | TAF_DIAGEVENT_PROCESS_OCCCTR_TF => true
     | TAF_DIAGEVENT_PROCESS_OCCCTR_CDTC => bits status TAF_DIAGEVENT_UDS_STATUS_CDTC
     end
  && (occurrenceCounter y <? MAX_OCCURRENCE_COUNTER).
Definition fail_dtc (evs : list taf_diagEvent_EventCtx_t) (y : taf_diagEvent_DtcCtx_t) : taf_diagEvent_DtcCtx_t :=
  y <| dtcStatus := combine evs y |>
    <| occurrenceCounter := if occurs y (combine evs y) then occurrenceCounter y + 1
                            else occurrenceCounter y |>.
Definition pass_dtc (evs : list taf_diagEvent_EventCtx_t) (y : taf_diagEvent_DtcCtx_t) : taf_diagEvent_DtcCtx_t :=
  y <| dtcStatus := combine evs y |>.

(** The notifications of DTCs among the effects. *)
Definition dtc_reports (es : list DemEffect) : list (Z * Z) :=
  omap (fun x => match x with ReportDTCStatus c v => Some (c, v) | _ => None end) es.
Lemma dtc_reports_app es es' : dtc_reports (es ++ es') = dtc_reports es ++ dtc_reports es'.
Proof. apply omap_app. Qed.

(** The tests of results and numbers that a path has made, as propositions. *)
Ltac tests := repeat match goal with
  | H : negb (bool_decide (?r = ?v)) = false |- _ =>
      apply negb_false_iff, bool_decide_eq_true in H; try subst r
  | H : negb (bool_decide _) = true |- _ => apply negb_true_iff, bool_decide_eq_false in H
  | H : bool_decide _ = true |- _ => apply bool_decide_eq_true in H
  | H : bool_decide _ = false |- _ => apply bool_decide_eq_false in H
  | H : negb (_ =? _) = true |- _ => apply negb_true_iff, Z.eqb_neq in H
  | H : negb (_ =? _) = false |- _ => apply negb_false_iff, Z.eqb_eq in H
  | H : (_ =? _) = true |- _ => apply Z.eqb_eq in H
  | H : (_ =? _) = false |- _ => apply Z.eqb_neq in H
  end.

(** What a function of the events leaves alone. *)
Record unmoved {T} (s s' : Dem T) : Prop := mkUnmoved {
  same_cycles : OperCycleCtxList s' = OperCycleCtxList s;
  same_refs : SvcRefMap s' = SvcRefMap s;
  same_cycle_refs : OperCycleRefMap s' = OperCycleRefMap s;
  same_conditions : enableStatusList s' = enableStatusList s }.
#[export] Instance unmoved_preorder {T} : PreOrder (@unmoved T).
Proof.
  split; [by intros s; split|]. intros s1 s2 s3 [] []. split; congruence.
Qed.

(** ** Contracts of storing and reporting *)
Section Contracts.
Context {T : Type} `{!Store T} `{!Database T}.
Variable env : DemEnv.
Implicit Types s : Dem T.

(** The data base after a call has stored [v] under [name], or nothing else than perhaps that. *)
Definition event_stored (t t' : T) (name : string) (v : Z) (r : le_result_t) : Prop :=
  sound t -> storable_name name -> status_ok v = true ->
  sound t' /\ (r = LE_OK -> stored_event t' name = v) /\
  (forall n, n <> name -> stored_event t' n = stored_event t n) /\
  (forall c, stored_dtc t' c = stored_dtc t c).
Definition dtc_stored (t t' : T) (code : Z) (v : Z * Z) (r : le_result_t) : Prop :=
  sound t -> storable_code code -> status_ok v.1 = true -> 0 <= v.2 <= 255 ->
  sound t' /\ (r = LE_OK -> stored_dtc t' code = v) /\
  (forall c, storable_code c -> c <> code -> stored_dtc t' c = stored_dtc t c) /\
  (forall n, stored_event t' n = stored_event t n).

Lemma event_reported e x s : EventCtxList s !! e = Some x ->
  wp (ReportEventUdsStatus e) (fun _ s' => exists es, s' = log es s /\ dtc_reports es = []) s.
Proof.
  intros He. unfold ReportEventUdsStatus. wp_step. eapply wp_event; [done|].
  wp_step; [apply wp_notes; by eexists|wp_step]. exists []. split; [|done].
  unfold log. rewrite app_nil_r. by destruct s.
Qed.

Lemma status_stored e x s : EventCtxList s !! e = Some x ->
  wp (StoreAndReportEventUdsStatus e) (fun r s' => exists t es, s' = log es (s <| db := t |>) /\
    dtc_reports es = [] /\ event_stored (db s) t (eventName x) (eventUdsStatus x) r) s.
Proof.
  intros He. unfold StoreAndReportEventUdsStatus. wp_step. eapply wp_event; [done|]. wp_step.
  apply wp_on_db. eapply wp_conseq; [apply SetEventStatusByName_stores|]. intros r t Ht. cbv beta.
  wp_step; wp_step.
  - exists t, []. split; [|done]. unfold log. cbn. by rewrite app_nil_r.
  - eapply wp_conseq; [by eapply event_reported|]. intros _ s' (es & -> & Hr). wp_step.
    tests. by exists t, es.
Qed.

Lemma dtc_stored_by d y s : DtcCtxList s !! d = Some y ->
  wp (store_dtc d) (fun r s' => exists t, s' = s <| db := t |> /\
    dtc_stored (db s) t (dtcCode y) (dtcStatus y, occurrenceCounter y) r) s.
Proof.
  intros Hd. unfold store_dtc. wp_step. eapply wp_dtc; [done|].
  apply wp_on_db. eapply wp_conseq; [apply SetDTCStatus_stores|]. intros r t Ht. by exists t.
Qed.

Lemma dtc_reported d y s (Q : unit -> Dem T -> Prop) : DtcCtxList s !! d = Some y ->
  Q tt (log [ReportDTCStatus (dtcCode y) (dtcStatus y)] s) -> wp (ReportDtcStatus d) Q s.
Proof. intros Hd HQ. unfold ReportDtcStatus. wp_step. eapply wp_dtc; [done|]. by apply wp_notes. Qed.

Lemma trail_nil s : log [] s = s.
Proof. unfold log. rewrite app_nil_r. by destruct s. Qed.

Lemma log_log es es' s : log es' (log es s) = log (es ++ es') s.
Proof. unfold log. cbn. by rewrite app_assoc. Qed.

(** A changed DTC is stored, and a changed status is reported when that has succeeded. *)
Lemma changes_stored d y s old n : DtcCtxList s !! d = Some y ->
  wp (store_changes d old n) (fun r s' => exists t es, s' = log es (s <| db := t |>) /\
    (dtc_stored (db s) t (dtcCode y) (dtcStatus y, occurrenceCounter y) r \/
     (r = LE_OK /\ t = db s /\ dtcStatus y = old /\ occurrenceCounter y = n)) /\
    (r = LE_OK -> dtc_reports es =
       if dtcStatus y =? old then [] else [(dtcCode y, dtcStatus y)])) s.
Proof.
  intros Hd. unfold store_changes. wp_step. eapply wp_dtc; [done|]. wp_step.
  match goal with |- wp (if ?b then _ else _) _ _ => destruct b eqn:Hc end.
  - eapply wp_conseq; [by eapply dtc_stored_by|]. intros r s' (t & -> & Ht). cbv beta.
    wp_step; wp_steps.
    all: tests.
    + exists t, []. rewrite trail_nil. split_and!; [done|by left|done].
    + apply (dtc_reported _ y); [done|]. wp_step. exists t. eexists. split_and!; [done|by left|].
      intros _. by rewrite (proj2 (Z.eqb_neq _ _)).
    + exists t, []. rewrite trail_nil. split_and!; [done|by left|].
      intros _. by rewrite (proj2 (Z.eqb_eq _ _)).
  - apply orb_false_iff in Hc as [Hn Hs]. tests.
    wp_step. rewrite bool_decide_eq_true_2 by done. cbn [negb]. wp_steps; tests; [done|].
    exists (db s), []. rewrite trail_nil. split_and!; [by destruct s|by right|by rewrite Hs, Z.eqb_refl].
Qed.

Lemma raised_triggered old x s :
  wp (trigger_raised env old x) (fun _ s' => exists es, s' = log es s /\ dtc_reports es = []) s.
Proof.
  unfold trigger_raised. cbv zeta. repeat (try wp_step; try apply wp_notes).
  all: rewrite ?log_log; first [by eexists|exists []; by rewrite trail_nil].
Qed.

Lemma snapshots_triggered old e x s :
  EventCtxList s !! e = Some x ->
  (featureA env = true -> exists d y, dtcCtxPtr x = Some d /\ DtcCtxList s !! d = Some y) ->
  wp (TriggerSnapshotData env old e) (fun _ s' => exists es, s' = log es s /\ dtc_reports es = []) s.
Proof.
  intros He Hd. unfold TriggerSnapshotData. wp_step. eapply wp_event; [done|]. wp_step.
  assert (forall b, wp (when b (trigger_raised env old x))
    (fun _ s' => exists es, s' = log es s /\ dtc_reports es = []) s) as Hrest.
  { intros b. wp_step; [apply raised_triggered|exists []; by rewrite trail_nil]. }
  destruct (featureA env) eqn:HA; [|wp_step; apply Hrest].
  destruct Hd as (d & y & -> & Hy); [done|]. wp_step. eapply wp_demand; [done|].
  wp_step. eapply wp_dtc; [done|]. wp_step. apply Hrest.
Qed.

(** The DTC becomes [y'], and the data base and the applications learn it. *)
Definition dtc_becomes (d : nat) (y y' : taf_diagEvent_DtcCtx_t) s (r : le_result_t) s' : Prop :=
  exists t es, s' = log es (put_dtc d y' (s <| db := t |>)) /\
    (dtc_stored (db s) t (dtcCode y) (dtcStatus y', occurrenceCounter y') r \/
     (r = LE_OK /\ t = db s /\ dtcStatus y' = dtcStatus y /\ occurrenceCounter y' = occurrenceCounter y)) /\
    (r = LE_OK -> dtc_reports es =
       if dtcStatus y' =? dtcStatus y then [] else [(dtcCode y, dtcStatus y')]).

Lemma dtc_failed d y s : DtcCtxList s !! d = Some y ->
  wp (UpdateDtcOnFailed (Some d)) (dtc_becomes d y (fail_dtc (EventCtxList s) y) s) s.
Proof.
  intros Hd. unfold UpdateDtcOnFailed. wp_step. eapply wp_dtc; [done|]. do 2 wp_step. cbv zeta.
  wp_step. eapply wp_dset; [done|]. wp_step.
  set (st := completed (events_status (EventCtxList s) (dtcEventIdList y))).
  assert (forall b : bool, b = occurs y st -> wp
    (when b (dset d occurrenceCounter (occurrenceCounter y + 1)))
    (fun _ s' => s' = put_dtc d (fail_dtc (EventCtxList s) y) s) (put_dtc d (y <| dtcStatus := st |>) s)) as Hcount.
  { intros b Hb. unfold fail_dtc, combine. fold st. rewrite <- Hb. wp_step; rewrite H.
    - eapply wp_dset; [by eapply lookup_put_dtc|]. by rewrite put_dtc_twice.
    - by destruct y. }
  eapply wp_conseq; [apply Hcount; unfold occurs; by destruct (occurrenceCounterProcessing y); rewrite ?andb_true_r|].
  intros _ s' ->. cbv beta.
  eapply wp_conseq; [by eapply changes_stored, lookup_put_dtc|].
  intros r s' (t & es & -> & Ht & Hr). exists t, es. by destruct y.
Qed.

Lemma dtc_passed d y s : DtcCtxList s !! d = Some y ->
  wp (UpdateDtcOnPassed (Some d)) (dtc_becomes d y (pass_dtc (EventCtxList s) y) s) s.
Proof.
  intros Hd. unfold UpdateDtcOnPassed. wp_step. eapply wp_dtc; [done|]. do 2 wp_step. cbv zeta.
  wp_step. eapply wp_dset; [done|].
  change (y <| dtcStatus := _ |>) with (pass_dtc (EventCtxList s) y).
  set (y' := pass_dtc (EventCtxList s) y).
  change (completed _) with (dtcStatus y'). unfold StoreAndReportDTCStatus.
  wp_step; tests.
  - wp_step. eapply wp_conseq; [by eapply dtc_stored_by, lookup_put_dtc|].
    intros r s' (t & -> & Ht). cbv beta. wp_step; tests.
    + wp_step. exists t, []. rewrite trail_nil. split_and!; [done|by left|done].
    + wp_step. eapply dtc_reported; [by eapply lookup_put_dtc|]. wp_step.
      exists t. eexists. split_and!; [done|by left|]. intros _. by rewrite (proj2 (Z.eqb_neq _ _)).
  - wp_step. exists (db s), []. rewrite trail_nil. split_and!; [by destruct s|by right|].
    intros _. by rewrite (proj2 (Z.eqb_eq _ _)).
Qed.

(** ** The contract of an update

    The event is now [x'] and its DTC [y']; or the data base has failed, and the DTC may be as
    it was. When it has not failed, it has what the memory has, and a change of the status of
    the DTC has been reported. *)
Record kept_in_db (x x' : taf_diagEvent_EventCtx_t) (y y' : taf_diagEvent_DtcCtx_t)
    (t : T) (r : le_result_t) (t' : T) : Prop := mkKeptInDb {
  kept_sound : sound t';
  kept_event : r = LE_OK -> stored_event t (eventName x) = eventUdsStatus x ->
    stored_event t' (eventName x) = eventUdsStatus x';
  kept_dtc : r = LE_OK -> stored_dtc t (dtcCode y) = (dtcStatus y, occurrenceCounter y) ->
    stored_dtc t' (dtcCode y) = (dtcStatus y', occurrenceCounter y');
  kept_other_events : forall n, n <> eventName x -> stored_event t' n = stored_event t n;
  kept_other_dtcs : forall c, storable_code c -> c <> dtcCode y -> stored_dtc t' c = stored_dtc t c }.
(** What the data base can hold of an event and of a DTC. *)
Definition event_fits (x x' : taf_diagEvent_EventCtx_t) : Prop :=
  storable_name (eventName x) /\ status_ok (eventUdsStatus x') = true.
Definition dtc_fits (y y' : taf_diagEvent_DtcCtx_t) : Prop :=
  storable_code (dtcCode y) /\ status_ok (dtcStatus y') = true /\ 0 <= occurrenceCounter y' <= 255.
Record updated (e d : nat) (x x' : taf_diagEvent_EventCtx_t) (y y' : taf_diagEvent_DtcCtx_t)
    s (r : le_result_t) s' : Prop := mkUpdated {
  upd_unmoved : unmoved s s';
  upd_events : EventCtxList s' = <[e := x']> (EventCtxList s);
  upd_dtcs : DtcCtxList s' = <[d := y']> (DtcCtxList s) \/
    (r <> LE_OK /\ DtcCtxList s' = DtcCtxList s);
  upd_reports : exists es, demTrace s' = demTrace s ++ es /\ (r = LE_OK -> dtc_reports es =
    if dtcStatus y' =? dtcStatus y then [] else [(dtcCode y, dtcStatus y')]);
  upd_db : sound (db s) -> event_fits x x' -> dtc_fits y y' -> kept_in_db x x' y y' (db s) r (db s') }.

(** The event has been stored when it has changed; then its DTC follows. *)
Lemma updated_both e d x x' y y' s r t es s' :
  EventCtxList s !! e = Some x ->
  dtc_reports es = [] ->
  (event_stored (db s) t (eventName x) (eventUdsStatus x') LE_OK \/
   (t = db s /\ eventUdsStatus x' = eventUdsStatus x)) ->
  dtc_becomes d y y' (log es (put_event e x' s <| db := t |>)) r s' ->
  updated e d x x' y y' s r s'.
Proof.
  intros He Hes Ht (t' & es' & -> & Ht' & Hr'). split; cbn.
  - by split.
  - done.
  - by left.
  - exists (es ++ es'). split; [by rewrite app_assoc|]. intros H. by rewrite dtc_reports_app, Hes, Hr'.
  - intros Hs [Hn Hx'] (Hc & Hy' & Ho).
    assert (kept_in_db x x' y y (db s) LE_OK t) as [K1 K2 K3 K4 K5].
    { destruct Ht as [H|[-> He']]; [|split; try done; by rewrite He']. destruct (H Hs Hn Hx') as (H1 & H2 & H3 & H4).
      split; [done|by intros _ _; apply H2|by intros _; rewrite H4|done|by intros]. }
    destruct Ht' as [H|(-> & -> & Hst & Hoc)].
    + destruct (H K1 Hc Hy' Ho) as (H1 & H2 & H3 & H4). split; [done| | | |].
      * intros _ Hin. rewrite H4. by apply K2.
      * intros Hr _. by apply H2.
      * intros n Hn'. by rewrite H4, K4.
      * intros c Hc' Hne. cbn in H3. by rewrite H3, K5.
    + split; [done|done| |done|done]. intros _ Hin. rewrite Hst, Hoc. by apply K3.
Qed.

(** Storing the event has failed. *)
Lemma updated_event e d x x' y y' s r t es :
  EventCtxList s !! e = Some x -> r <> LE_OK ->
  event_stored (db s) t (eventName x) (eventUdsStatus x') r ->
  updated e d x x' y y' s r (log es (put_event e x' s <| db := t |>)).
Proof.
  intros He Hr Ht. split; cbn; try done.
  - by right.
  - by exists es.
  - intros Hs [Hn Hx'] _. destruct (Ht Hs Hn Hx') as (H1 & H2 & H3 & H4). split; [done|done|done|done|by intros].
Qed.

Lemma finish_update e d x x' y s (k : M (Dem T) le_result_t) (y' : taf_diagEvent_DtcCtx_t) (snapshot : bool) :
  EventCtxList s !! e = Some x -> eventName x' = eventName x -> dtcCtxPtr x' = Some d ->
  DtcCtxList s !! d = Some y ->
  (forall s', EventCtxList s' = EventCtxList (put_event e x' s) -> DtcCtxList s' = DtcCtxList s ->
    wp k (dtc_becomes d y y' s') s') ->
  wp (if negb (eventUdsStatus x =? eventUdsStatus x')
      then result ← StoreAndReportEventUdsStatus e;
           if negb (bool_decide (result = LE_OK)) then mret result else
           when snapshot (TriggerSnapshotData env (eventUdsStatus x) e);; k
      else k) (updated e d x x' y y' s) (put_event e x' s).
Proof.
  intros He Hname Hd Hy Hk. wp_step; tests.
  - wp_step. eapply wp_conseq; [by eapply status_stored, lookup_put_event|].
    intros r s' (t & es & -> & Hes & Ht). rewrite Hname in Ht. cbv beta. wp_step; tests.
    + wp_step. by apply updated_event.
    + wp_step. eapply (wp_conseq _ (fun _ s' => exists es', s' = log es' (log es (put_event e x' s <| db := t |>)) /\
        dtc_reports es' = [])).
      { destruct snapshot; cbn [when].
        - eapply snapshots_triggered; [by eapply lookup_put_event|by exists d, y].
        - wp_step. exists []. by rewrite trail_nil. }
      intros _ s' (es' & -> & Hes'). cbv beta. rewrite log_log.
      eapply wp_conseq; [by apply Hk|]. intros r s'. apply updated_both; [done| |by left].
      by rewrite dtc_reports_app, Hes, Hes'.
  - eapply wp_conseq; [by apply Hk|]. intros r s' H. eapply (updated_both _ _ _ _ _ _ _ _ (db s) []); [done..|by right|].
    rewrite trail_nil. by destruct s.
Qed.

Lemma event_failed e d x y s :
  EventCtxList s !! e = Some x -> dtcCtxPtr x = Some d -> DtcCtxList s !! d = Some y ->
  wp (UpdateEventOnFailed env e)
    (updated e d x (fail_event x) y (fail_dtc (<[e := fail_event x]> (EventCtxList s)) y) s) s.
Proof.
  intros He Hd Hy. unfold UpdateEventOnFailed. wp_step. eapply wp_event; [done|]. cbv zeta.
  wp_step. eapply wp_eset; [done|]. wp_step.
  set (st := failed_status (eventUdsStatus x)).
  set (n := if negb (bits (eventUdsStatus x) TAF_DIAGEVENT_UDS_STATUS_TFTOC)
               && (failureCounter x <? MAX_TEST_FAILURE_COUNTER)
            then failureCounter x + 1 else failureCounter x).
  set (x1 := x <| eventUdsStatus := st |> <| failureCounter := n |>).
  match goal with |- wp ?c _ _ => assert (wp c (fun _ s' => s' = put_event e x1 s)
    (put_event e (x <| eventUdsStatus := st |>) s)) as Hcount end.
  { unfold x1, n. wp_step; rewrite H.
    - eapply wp_eset; [by eapply lookup_put_event|]. by rewrite put_event_twice.
    - by destruct x. }
  eapply wp_conseq; [exact Hcount|]. intros _ s' ->. cbv beta.
  wp_step. eapply wp_event; [by eapply lookup_put_event|]. wp_step.
  match goal with |- wp ?c _ _ => assert (wp c (fun _ s' => s' = put_event e (fail_event x) s)
    (put_event e x1 s)) as Hconfirm end.
  { unfold fail_event. cbv zeta. fold n st. change (confirmationThreshold x1) with (confirmationThreshold x).
    change (failureCounter x1) with n. wp_step; rewrite H.
    - wp_step. eapply wp_eset; [by eapply lookup_put_event|]. rewrite put_event_twice.
      eapply wp_eset; [by eapply lookup_put_event|]. by rewrite put_event_twice.
    - done. }
  eapply wp_conseq; [exact Hconfirm|]. intros _ s' ->. cbv beta.
  wp_step. eapply wp_event; [by eapply lookup_put_event|].
  assert (eventName (fail_event x) = eventName x /\ dtcCtxPtr (fail_event x) = dtcCtxPtr x) as [Hn Hp]
    by (unfold fail_event; cbv zeta; by case_match).
  rewrite Hp, Hd. apply (finish_update _ _ _ _ _ _ _ _ true); [done..|by rewrite Hp| |].
  - done.
  - intros s' Hev Hdt. eapply wp_conseq; [apply dtc_failed; by rewrite Hdt|]. intros r s''. by rewrite Hev.
Qed.

Lemma event_passed e d x y s :
  EventCtxList s !! e = Some x -> dtcCtxPtr x = Some d -> DtcCtxList s !! d = Some y ->
  wp (UpdateEventOnPassed e)
    (updated e d x (pass_event x) y (pass_dtc (<[e := pass_event x]> (EventCtxList s)) y) s) s.
Proof.
  intros He Hd Hy. unfold UpdateEventOnPassed. wp_step. eapply wp_event; [done|]. cbv zeta.
  wp_step. eapply wp_eset; [done|]. rewrite Hd.
  apply (finish_update _ _ _ (pass_event x) _ _ _ _ false); [done..|].
  intros s' Hev Hdt. eapply wp_conseq; [apply dtc_passed; by rewrite Hdt|]. intros r s''. by rewrite Hev.
Qed.
End Contracts.
