(* ===== verification/DemReport.v ===== *)
(** * Diagnostic events: what a report does

    The debounce counter as a saturating counter, the contract of [DebounceEvent], and the
    contract of [SetStatusWithSupplierFaultCode] built from it. *)
From S2P Require Import Prelude DiagCfg DemTypes DemEvent DemSvc DemSpec.

(** ** The debounce counter *)

(** What the checks of [InitEventContext] guarantee. *)
Record counter_ok (cfg : taf_diagEvent_DebounceCounterBasedConfig) : Prop := mkCounterOk {
  decrement_ok : 1 <= decrementStepSize cfg <= 32767;
  increment_ok : 1 <= incrementStepSize cfg <= 32767;
  failed_ok : 1 <= failedThreshold cfg <= 32767;
  passed_ok : -32768 <= passedThreshold cfg <= -1 }.

Definition in_range (cfg : taf_diagEvent_DebounceCounterBasedConfig) (c : Z) : Prop :=
  passedThreshold cfg <= c <= failedThreshold cfg.

(** Where counting starts: the jump value, when the counter is on its other side. *)
Definition jumped_up (cfg : taf_diagEvent_DebounceCounterBasedConfig) (c : Z) : Z :=
  if jumpUp cfg then Z.max c (jumpUpValue cfg) else c.
Definition jumped_down (cfg : taf_diagEvent_DebounceCounterBasedConfig) (c : Z) : Z :=
  if jumpDown cfg then Z.min c (jumpDownValue cfg) else c.

(** The additions saturate at the thresholds, and never leave [int16_t]. *)
Lemma count_up_saturates cfg c : counter_ok cfg -> in_range cfg c ->
  count_up cfg c = Z.min (failedThreshold cfg) (jumped_up cfg c + incrementStepSize cfg).
Proof.
  intros [] [Hl Hh]. unfold count_up, jumped_up.
  assert (forall a, passedThreshold cfg <= a ->
    (if a <=? failedThreshold cfg - incrementStepSize cfg
     then s16 (a + incrementStepSize cfg) else failedThreshold cfg)
    = Z.min (failedThreshold cfg) (a + incrementStepSize cfg)) as Hstep.
  { intros a Ha. destruct (Z.leb_spec a (failedThreshold cfg - incrementStepSize cfg)); [|lia].
    rewrite s16_id by lia. lia. }
  destruct (jumpUp cfg); cbn [andb]; [|by apply Hstep].
  destruct (Z.ltb_spec c (jumpUpValue cfg)); rewrite Hstep by lia; lia.
Qed.

Lemma count_down_saturates cfg c : counter_ok cfg -> in_range cfg c ->
  count_down cfg c = Z.max (passedThreshold cfg) (jumped_down cfg c - decrementStepSize cfg).
Proof.
  intros [] [Hl Hh]. unfold count_down, jumped_down.
  assert (forall a, a <= failedThreshold cfg ->
    (if passedThreshold cfg + decrementStepSize cfg <=? a
     then s16 (a - decrementStepSize cfg) else passedThreshold cfg)
    = Z.max (passedThreshold cfg) (a - decrementStepSize cfg)) as Hstep.
  { intros a Ha. destruct (Z.leb_spec (passedThreshold cfg + decrementStepSize cfg) a); [|lia].
    rewrite s16_id by lia. lia. }
  destruct (jumpDown cfg); cbn [andb]; [|by apply Hstep].
  destruct (Z.ltb_spec (jumpDownValue cfg) c); rewrite Hstep by lia; lia.
Qed.

(** The counter after a report. *)
Definition counter_after (cfg : taf_diagEvent_DebounceCounterBasedConfig) (c : Z)
    (st : taf_diagEvent_StatusType_t) : Z :=
  match st with
  | TAF_DIAGEVENT_PASSED => passedThreshold cfg
  | TAF_DIAGEVENT_FAILED => failedThreshold cfg
  | TAF_DIAGEVENT_PREPASSED => if passedThreshold cfg <? c then count_down cfg c else c
  | TAF_DIAGEVENT_PREFAILED => if c <? failedThreshold cfg then count_up cfg c else c
  | _ => c
  end.

Lemma counter_after_in_range cfg c st :
  counter_ok cfg -> in_range cfg c -> in_range cfg (counter_after cfg c st).
Proof.
  intros Hok Hc. pose proof (count_up_saturates cfg c Hok Hc) as Hu.
  pose proof (count_down_saturates cfg c Hok Hc) as Hd. destruct Hok, Hc.
  unfold jumped_up, jumped_down in *. split; destruct st; cbn; repeat case_match; lia.
Qed.

(** Without jumps, [n] reports that tend to failed add [n] increments. *)
Fixpoint prefailed (cfg : taf_diagEvent_DebounceCounterBasedConfig) (n : nat) (c : Z) : Z :=
  match n with
  | O => c
  | S n' => counter_after cfg (prefailed cfg n' c) TAF_DIAGEVENT_PREFAILED
  end.
Lemma prefailed_saturates cfg n c : counter_ok cfg -> jumpUp cfg = false -> in_range cfg c ->
  in_range cfg (prefailed cfg n c) /\
  prefailed cfg n c = Z.min (failedThreshold cfg) (c + Z.of_nat n * incrementStepSize cfg).
Proof.
  intros Hok Hj Hc. induction n as [|n [IHr IH]]; cbn [prefailed].
  { split; [done|]. destruct Hc. lia. }
  split; [by apply counter_after_in_range|]. cbn [counter_after].
  pose proof (count_up_saturates cfg _ Hok IHr) as Hu. rewrite IH in Hu |- *.
  unfold jumped_up in Hu. rewrite Hj in Hu. destruct Hok.
  destruct (Z.ltb_spec (Z.min (failedThreshold cfg) (c + Z.of_nat n * incrementStepSize cfg)) (failedThreshold cfg));
    [rewrite Hu|]; nia.
Qed.

(** ** Debouncing *)
Definition debounce_as (c : Z) (f : taf_diagEvent_StatusType_t) (flag : bool)
    (t : taf_diagEvent_Running_Timer_Type_t) (now : Z) (x : taf_diagEvent_EventCtx_t)
    : taf_diagEvent_EventCtx_t :=
  x <| debounceCounter := c |> <| eventFaultStatus := f |> <| fdcTriggerFlag := flag |>
    <| timerType := t |> <| startTime := now |>.

(** The fault status after a report, as the counter and the type decide it. *)
Definition verdict (x : taf_diagEvent_EventCtx_t) (c : Z) (st : taf_diagEvent_StatusType_t)
    : taf_diagEvent_StatusType_t :=
  match debounceType x with
  | TAF_DIAGEVENT_DEBOUNCE_MONITOR_INTERNAL => st
  | TAF_DIAGEVENT_DEBOUNCE_COUNTER_BASED => debounced (debounceCounterBasedConfig x) c st
  | TAF_DIAGEVENT_DEBOUNCE_TIME_BASED =>
      if c =? MIN_FAULT_DETECTION_COUNTER then TAF_DIAGEVENT_PASSED
      else if c =? MAX_FAULT_DETECTION_COUNTER then TAF_DIAGEVENT_FAILED else st
  end.
(** The counters that a report can lead to. *)
Definition recounted (x : taf_diagEvent_EventCtx_t) (st : taf_diagEvent_StatusType_t) (c : Z) : Prop :=
  match debounceType x with
  | TAF_DIAGEVENT_DEBOUNCE_MONITOR_INTERNAL => c = debounceCounter x
  | TAF_DIAGEVENT_DEBOUNCE_COUNTER_BASED =>
      c = counter_after (debounceCounterBasedConfig x) (debounceCounter x) st
  | TAF_DIAGEVENT_DEBOUNCE_TIME_BASED =>
      match st with
      | TAF_DIAGEVENT_PASSED => c = MIN_FAULT_DETECTION_COUNTER
      | TAF_DIAGEVENT_FAILED => c = MAX_FAULT_DETECTION_COUNTER
      | _ => c = 0 \/ c = debounceCounter x
      end
  end.
(** The reports that an event accepts. *)
Definition accepts (x : taf_diagEvent_EventCtx_t) (st : taf_diagEvent_StatusType_t) : bool :=
  match st with
  | TAF_DIAGEVENT_PASSED | TAF_DIAGEVENT_FAILED => true
  | TAF_DIAGEVENT_PREPASSED | TAF_DIAGEVENT_PREFAILED =>
      negb (bool_decide (debounceType x = TAF_DIAGEVENT_DEBOUNCE_MONITOR_INTERNAL))
  | _ => false
  end.

Section Debounce.
Context {T : Type} `{!Store T}.
Variable env : DemEnv.
Implicit Types s : Dem T.

Lemma debounce_as_id x : debounce_as (debounceCounter x) (eventFaultStatus x) (fdcTriggerFlag x)
  (timerType x) (startTime x) x = x.
Proof. by destruct x. Qed.
Lemma put_event_id e x s : EventCtxList s !! e = Some x -> put_event e x s = s.
Proof. intros H. unfold put_event. rewrite list_insert_id by done. by destruct s. Qed.
Lemma put_event_log e x es s : put_event e x (log es s) = log es (put_event e x s).
Proof. done. Qed.

(** How debouncing ends: the verdict on the counter [c]. *)
Definition debounce_result (e : nat) (x : taf_diagEvent_EventCtx_t) (st : taf_diagEvent_StatusType_t)
    (c : Z) s (r : le_result_t) s' : Prop :=
  r = LE_OK /\ exists flag t now es, dtc_reports es = [] /\
    s' = log es (put_event e (debounce_as c (verdict x c st) flag t now x) s).

Lemma put_event_lookup e x x' es s :
  EventCtxList s !! e = Some x' -> EventCtxList (log es (put_event e x s)) !! e = Some x.
Proof. apply lookup_put_event. Qed.

Lemma counter_settled e x st c flag es s :
  EventCtxList s !! e = Some x -> dtc_reports es = [] ->
  debounceType x = TAF_DIAGEVENT_DEBOUNCE_COUNTER_BASED ->
  wp (settle_counter e st) (debounce_result e x st c s)
    (log es (put_event e (x <| debounceCounter := c |> <| fdcTriggerFlag := flag |>) s)).
Proof.
  intros He Hes Ht. unfold settle_counter. wp_step. eapply wp_event; [by eapply put_event_lookup|].
  wp_step. eapply wp_eset; [by eapply put_event_lookup|]. wp_step. split; [done|].
  exists flag, (timerType x), (startTime x), es. split; [done|].
  rewrite put_event_log, put_event_twice. unfold verdict. rewrite Ht. by destruct x.
Qed.

Lemma counter_debounced e x st s :
  EventCtxList s !! e = Some x -> debounceType x = TAF_DIAGEVENT_DEBOUNCE_COUNTER_BASED ->
  accepts x st = true ->
  wp (DebounceCounterBased e st)
    (debounce_result e x st (counter_after (debounceCounterBasedConfig x) (debounceCounter x) st) s) s.
Proof.
  intros He Ht Ha. unfold DebounceCounterBased. wp_step. eapply wp_event; [done|]. cbv zeta.
  set (cfg := debounceCounterBasedConfig x).
  assert (forall c, wp (settle_counter e st) (debounce_result e x st c s)
    (put_event e (x <| debounceCounter := c |>) s)) as Hset.
  { intros c. rewrite <- (trail_nil (put_event _ _ _)).
    pose proof (counter_settled e x st c (fdcTriggerFlag x) [] s He eq_refl Ht) as H. by destruct x. }
  assert (wp (settle_counter e st) (debounce_result e x st (debounceCounter x) s) s) as Hsame.
  { pose proof (Hset (debounceCounter x)) as H. rewrite put_event_id in H; [done|]. rewrite He. by destruct x. }
  destruct st; try done; cbn [counter_after].
  - wp_step. eapply wp_eset; [done|]. apply Hset.
  - wp_step. eapply wp_eset; [done|]. apply Hset.
  - do 2 wp_step; rewrite H; [eapply wp_eset; [done|]; apply Hset|apply Hsame].
  - do 2 wp_step; rewrite H; [|apply Hsame]. wp_step. eapply wp_eset; [done|]. wp_step; [|apply Hset].
    wp_step. eapply wp_eset; [by eapply lookup_put_event|]. rewrite put_event_twice. apply wp_notes.
    by apply counter_settled.
Qed.

Lemma stopped t s :
  wp (stop_if_running env t) (fun _ s' => exists es, s' = log es s /\ dtc_reports es = []) s.
Proof.
  unfold stop_if_running. wp_step. apply wp_query. wp_step.
  - apply wp_notes. by eexists.
  - exists []. by rewrite trail_nil.
Qed.

Lemma time_settled e x st c t now es s :
  EventCtxList s !! e = Some x -> dtc_reports es = [] ->
  debounceType x = TAF_DIAGEVENT_DEBOUNCE_TIME_BASED ->
  wp (settle_time e st) (debounce_result e x st c s)
    (log es (put_event e (x <| debounceCounter := c |> <| timerType := t |> <| startTime := now |>) s)).
Proof.
  intros He Hes Ht. unfold settle_time. wp_step. eapply wp_event; [by eapply put_event_lookup|].
  wp_step. eapply wp_eset; [by eapply put_event_lookup|]. wp_step. split; [done|].
  exists (fdcTriggerFlag x), t, now, es. split; [done|].
  rewrite put_event_log, put_event_twice. unfold verdict. rewrite Ht. by destruct x.
Qed.

Lemma measured e x ty ms final s : EventCtxList s !! e = Some x ->
  wp (measure env e ty ms final) (fun _ s' => exists c t now es,
    s' = log es (put_event e (x <| debounceCounter := c |> <| timerType := t |> <| startTime := now |>) s) /\
    dtc_reports es = [] /\ (c = 0 \/ c = debounceCounter x)) s.
Proof.
  intros He. unfold measure, take_time. wp_step. eapply wp_event; [done|]. wp_step. apply wp_query. wp_step.
  - wp_step. apply wp_notes. wp_step. eapply wp_eset; [done|]. rewrite put_event_log.
    wp_step. eapply wp_eset; [by eapply put_event_lookup|]. rewrite put_event_log, put_event_twice.
    wp_step. apply wp_notes. rewrite log_log. wp_step. apply wp_notes. rewrite log_log. wp_step. apply wp_query.
    eapply wp_eset; [by eapply put_event_lookup|]. rewrite put_event_log, put_event_twice.
    do 4 eexists. split; [|split; [|by left]]; [by destruct x|by case_match].
  - exists (debounceCounter x), (timerType x), (startTime x), []. rewrite trail_nil, put_event_id.
    + split_and!; [done..|by right].
    + rewrite He. by destruct x.
Qed.

Lemma time_debounced e x st s :
  EventCtxList s !! e = Some x -> debounceType x = TAF_DIAGEVENT_DEBOUNCE_TIME_BASED ->
  accepts x st = true ->
  wp (DebounceTimeBased env e st)
    (fun r s' => exists c, recounted x st c /\ debounce_result e x st c s r s') s.
Proof.
  intros He Ht Ha. unfold DebounceTimeBased. wp_step. eapply wp_event; [done|]. cbv zeta.
  assert (forall c es, recounted x st c -> dtc_reports es = [] -> wp (settle_time e st)
    (fun r s' => exists c, recounted x st c /\ debounce_result e x st c s r s')
    (log es (put_event e (x <| debounceCounter := c |>) s))) as Hend.
  { intros c es Hc Hes. pose proof (time_settled e x st c (timerType x) (startTime x) es s He Hes Ht) as H.
    replace (x <| debounceCounter := c |>)
      with (x <| debounceCounter := c |> <| timerType := timerType x |> <| startTime := startTime x |>)
      by (by destruct x).
    eapply wp_conseq; [exact H|]. intros r s' Hr. by exists c. }
  assert (forall c t now es, recounted x st c -> dtc_reports es = [] ->
    wp (settle_time e st) (fun r s' => exists c, recounted x st c /\ debounce_result e x st c s r s')
    (log es (put_event e (x <| debounceCounter := c |> <| timerType := t |> <| startTime := now |>) s))) as Hpre.
  { intros c t now es Hc Hes. eapply wp_conseq; [by eapply time_settled|]. intros r s' Hr. by exists c. }
  destruct st; try done.
  1,2: wp_step; eapply wp_eset; [done|]; wp_step; eapply wp_conseq; [apply stopped|];
    intros _ s' (es & -> & Hes); cbv beta; wp_step; eapply wp_conseq; [apply stopped|];
    intros _ s' (es' & -> & Hes'); cbv beta; rewrite log_log;
    apply Hend; [by unfold recounted; rewrite Ht|by rewrite dtc_reports_app, Hes, Hes'].
  - wp_step. eapply wp_conseq; [by eapply measured|]. intros _ s' (c & t & now & es & -> & Hes & Hc). cbv beta.
    wp_step. eapply wp_conseq; [apply stopped|]. intros _ s' (es' & -> & Hes'). cbv beta. rewrite log_log.
    apply Hpre; [by unfold recounted; rewrite Ht|by rewrite dtc_reports_app, Hes, Hes'].
  - wp_step. eapply wp_conseq; [by eapply measured|]. intros _ s' (c & t & now & es & -> & Hes & Hc). cbv beta.
    wp_step. apply wp_query. do 2 wp_step; [apply wp_notes; rewrite log_log|].
    + apply Hpre; [by unfold recounted; rewrite Ht|by rewrite dtc_reports_app, Hes].
    + apply Hpre; [by unfold recounted; rewrite Ht|done].
Qed.

(** A report that the event accepts leads to the verdict on its new counter. *)
Lemma debounces e x st s :
  EventCtxList s !! e = Some x -> accepts x st = true ->
  wp (DebounceEvent env e st)
    (fun r s' => exists c, recounted x st c /\ debounce_result e x st c s r s') s.
Proof.
  intros He Ha. unfold DebounceEvent. wp_step. eapply wp_event; [done|].
  destruct (debounceType x) eqn:Ht.
  - rewrite <- negb_orb. wp_step.
    { unfold accepts in Ha. rewrite Ht in Ha. by destruct st. }
    wp_step. eapply wp_eset; [done|]. wp_step. exists (debounceCounter x).
    unfold recounted, debounce_result, verdict. rewrite Ht. split_and!; [done..|].
    exists (fdcTriggerFlag x), (timerType x), (startTime x), []. rewrite trail_nil. by destruct x.
  - eapply wp_conseq; [by apply counter_debounced|]. intros r s' H.
    eexists. split; [|exact H]. unfold recounted. by rewrite Ht.
  - by apply time_debounced.
Qed.

Lemma refuses e x st s : EventCtxList s !! e = Some x -> accepts x st = false ->
  wp (DebounceEvent env e st) (fun r s' => r = LE_FAULT /\ s' = s) s.
Proof.
  intros He Ha. unfold DebounceEvent, DebounceCounterBased, DebounceTimeBased, accepts in *.
  wp_step. eapply wp_event; [done|].
  destruct (debounceType x), st; try done; repeat (wp_step; try (eapply wp_event; [done|])); done.
Qed.
End Debounce.

(** ** The report of a test *)

(** A verdict that differs from the last one changes the status of the event and its DTC. *)
Definition effect_of (e : nat) (evs : list taf_diagEvent_EventCtx_t)
    (x x1 : taf_diagEvent_EventCtx_t) (y : taf_diagEvent_DtcCtx_t)
    : taf_diagEvent_EventCtx_t * taf_diagEvent_DtcCtx_t :=
  if decide (eventFaultStatus x1 = eventFaultStatus x) then (x1, y) else
  match eventFaultStatus x1 with
  | TAF_DIAGEVENT_FAILED => (fail_event x1, fail_dtc (<[e := fail_event x1]> evs) y)
  | TAF_DIAGEVENT_PASSED => (pass_event x1, pass_dtc (<[e := pass_event x1]> evs) y)
  | _ => (x1, y)
  end.

Definition with_code (code : list Z) (size : Z) (x : taf_diagEvent_EventCtx_t) : taf_diagEvent_EventCtx_t :=
  x <| supplierFaultCode := code |> <| supplierFaultCodeSize := size |>.

(** [x1] is [x] with a new fault code, debounced into the counter [c] and the verdict. *)
Definition tested (x : taf_diagEvent_EventCtx_t) (st : taf_diagEvent_StatusType_t)
    (c : Z) (x1 : taf_diagEvent_EventCtx_t) : Prop :=
  exists code size flag t now, length code = length (supplierFaultCode x) /\
    x1 = debounce_as c (verdict x c st) flag t now (with_code code size x).

(** What [memcpy] needs of the bytes and the number that the caller gives. *)
Definition code_fits (x : taf_diagEvent_EventCtx_t) (code : option (list Z)) (size : Z) : Prop :=
  match code with
  | Some c => size <= Z.of_nat (length c) /\ size <= Z.of_nat (length (supplierFaultCode x))
  | None => True
  end.

Section Report.
Context {T : Type} `{!Store T} `{!Database T}.
Variable env : DemEnv.
Implicit Types s : Dem T.

Lemma code_cleared e x s : EventCtxList s !! e = Some x ->
  Z.of_nat (length (supplierFaultCode x)) = fault_code_max env ->
  wp (clear_fault_code env e) (fun _ s' => exists code n, length code = length (supplierFaultCode x) /\
    s' = put_event e (with_code code n x) s) s.
Proof.
  intros He Hl. unfold clear_fault_code. wp_step. eapply wp_eset; [done|].
  eapply wp_eset; [by eapply lookup_put_event|]. rewrite put_event_twice.
  exists (replicate (Z.to_nat (fault_code_max env)) 0), 0. rewrite length_replicate. split; [lia|by destruct x].
Qed.

Lemma code_copied e x code size s : EventCtxList s !! e = Some x -> 0 < size -> code_fits x (Some code) size ->
  wp (copy_fault_code e code size) (fun _ s' => exists code n, length code = length (supplierFaultCode x) /\
    s' = put_event e (with_code code n x) s) s.
Proof.
  intros He Hs [H1 H2]. unfold copy_fault_code. wp_step. eapply wp_event; [done|].
  rewrite !(proj2 (Z.leb_le _ _)) by lia. cbn [andb].
  wp_step. eapply wp_eset; [done|]. eapply wp_eset; [by eapply lookup_put_event|]. rewrite put_event_twice.
  eexists _, size. split; [|by destruct x].
  rewrite length_splice; [done|lia|]. rewrite length_take. lia.
Qed.

Lemma code_stored e x code size s : EventCtxList s !! e = Some x ->
  Z.of_nat (length (supplierFaultCode x)) = fault_code_max env -> code_fits x code size ->
  wp (store_fault_code env e code size) (fun _ s' => exists code n,
    length code = length (supplierFaultCode x) /\ s' = put_event e (with_code code n x) s) s.
Proof.
  intros He Hl Hc. unfold store_fault_code. destruct code as [c|]; [|by apply code_cleared].
  wp_step; [|by apply code_cleared]. apply Z.ltb_lt in Hif. by apply code_copied.
Qed.

(** From the event as debouncing leaves it to the event as the report found it. *)
Lemma updated_from e d x x1 x' y y' s es r s' :
  EventCtxList s !! e = Some x -> eventName x1 = eventName x -> eventUdsStatus x1 = eventUdsStatus x ->
  dtc_reports es = [] ->
  updated e d x1 x' y y' (log es (put_event e x1 s)) r s' -> updated e d x x' y y' s r s'.
Proof.
  intros He Hn Hst Hes [Hu Hev Hd (es' & Htr & Hr) Hdb]. split; try done.
  - by destruct Hu.
  - rewrite Hev. cbn. by rewrite list_insert_insert_eq.
  - exists (es ++ es'). split; [by rewrite Htr, app_assoc|]. intros H. by rewrite dtc_reports_app, Hes, Hr.
  - intros Hs [Hname Hx'] Hy. cbn in Hdb. unfold event_fits in Hdb. rewrite Hn in Hdb.
    destruct (Hdb Hs (conj Hname Hx') Hy) as [H1 H2 H3 H4 H5]. rewrite Hn, Hst in *. by split.
Qed.

(** Only the event changes, and none of what is stored of it. *)
Lemma updated_alone e d x x' y s es r :
  EventCtxList s !! e = Some x -> DtcCtxList s !! d = Some y -> eventUdsStatus x' = eventUdsStatus x ->
  dtc_reports es = [] -> updated e d x x' y y s r (log es (put_event e x' s)).
Proof.
  intros He Hy Hst Hes. split; cbn; try done.
  - left. by rewrite list_insert_id.
  - exists es. split; [done|]. by rewrite Z.eqb_refl.
  - intros Hs _ _. split; try done. by rewrite Hst.
Qed.

Lemma fault_applied e d x x1 y s es :
  EventCtxList s !! e = Some x -> dtcCtxPtr x = Some d -> DtcCtxList s !! d = Some y ->
  eventName x1 = eventName x -> eventUdsStatus x1 = eventUdsStatus x -> dtcCtxPtr x1 = dtcCtxPtr x ->
  eventFaultStatus x1 <> TAF_DIAGEVENT_UNKNOWN -> eventFaultStatus x1 <> TAF_DIAGEVENT_CONFIRMED ->
  eventFaultStatus x1 <> TAF_DIAGEVENT_TEST_NOT_COMPLETED -> dtc_reports es = [] ->
  wp (apply_fault_status env e (eventFaultStatus x))
    (updated e d x (effect_of e (EventCtxList s) x x1 y).1 y (effect_of e (EventCtxList s) x x1 y).2 s)
    (log es (put_event e x1 s)).
Proof.
  intros He Hd Hy Hn Hst Hp Hu Hc Ht Hes. unfold apply_fault_status, effect_of.
  wp_step. eapply wp_event; [by eapply put_event_lookup|]. wp_step; tests.
  { wp_step. rewrite decide_True by done. by apply updated_alone. }
  rewrite decide_False by done.
  assert (forall k : M (Dem T) le_result_t, forall f g,
    wp k (updated e d x1 (f x1) y (g (<[e := f x1]> (EventCtxList s)) y) (log es (put_event e x1 s)))
      (log es (put_event e x1 s)) ->
    wp k (updated e d x (f x1) y (g (<[e := f x1]> (EventCtxList s)) y) s) (log es (put_event e x1 s))) as Hfrom.
  { intros k f g H. eapply wp_conseq; [exact H|]. intros r s'. by apply updated_from. }
  assert (forall x', <[e := x']> (EventCtxList (log es (put_event e x1 s))) = <[e := x']> (EventCtxList s)) as Hins
    by (intros; cbn; by rewrite list_insert_insert_eq).
  destruct (eventFaultStatus x1) eqn:Hf; try done; cbn [fst snd].
  - apply (Hfrom _ pass_event pass_dtc).
    rewrite <- Hins. apply (event_passed env); [by eapply put_event_lookup|by rewrite Hp|done].
  - apply (Hfrom _ fail_event fail_dtc).
    rewrite <- Hins. apply event_failed; [by eapply put_event_lookup|by rewrite Hp|done].
  - wp_step. by apply updated_alone.
  - wp_step. by apply updated_alone.
Qed.

Lemma accepted_verdict x c st : accepts x st = true ->
  verdict x c st <> TAF_DIAGEVENT_UNKNOWN /\ verdict x c st <> TAF_DIAGEVENT_CONFIRMED /\
  verdict x c st <> TAF_DIAGEVENT_TEST_NOT_COMPLETED.
Proof. unfold accepts, verdict, debounced. intros H. repeat case_match; done. Qed.

(** A report that the event does not accept only replaces its fault code. *)
Definition reported (e d : nat) (x : taf_diagEvent_EventCtx_t) (y : taf_diagEvent_DtcCtx_t)
    (st : taf_diagEvent_StatusType_t) s (r : le_result_t) s' : Prop :=
  if accepts x st then
    exists c x1, recounted x st c /\ tested x st c x1 /\
      updated e d x (effect_of e (EventCtxList s) x x1 y).1 y (effect_of e (EventCtxList s) x x1 y).2 s r s'
  else r = LE_FAULT /\ exists code n, length code = length (supplierFaultCode x) /\
      updated e d x (with_code code n x) y y s r s'.

Lemma status_set e d x y st code size s :
  EventCtxList s !! e = Some x -> dtcCtxPtr x = Some d -> DtcCtxList s !! d = Some y ->
  Z.of_nat (length (supplierFaultCode x)) = fault_code_max env -> code_fits x code size ->
  wp (set_status_debounced env e st code size) (reported e d x y st s) s.
Proof.
  intros He Hd Hy Hl Hc. unfold set_status_debounced. wp_step. eapply wp_event; [done|].
  wp_step. eapply wp_conseq; [by apply code_stored|]. intros _ s' (bytes & n & Hb & ->). cbv beta.
  wp_step. eapply wp_event; [by eapply lookup_put_event|]. wp_step. apply wp_notes.
  set (es1 := [TriggerSnapshot _ _ _]). set (x0 := with_code bytes n x). wp_step.
  assert (accepts x0 st = accepts x st) as Ha by done. unfold reported.
  destruct (accepts x st) eqn:Hacc.
  - eapply wp_conseq; [apply debounces; [by eapply put_event_lookup|exact Ha]|].
    intros r s' (c & Hrc & -> & flag & t & now & es & Hes & ->). cbv beta.
    rewrite bool_decide_eq_true_2 by done. cbn [negb].
    rewrite put_event_log, put_event_twice, log_log.
    set (x1 := debounce_as _ _ _ _ _ _).
    destruct (accepted_verdict x0 c st Ha) as (H1 & H2 & H3).
    eapply wp_conseq; [apply (fault_applied e d x x1 y s); try done|].
    intros r s' Hup. exists c, x1. split_and!; [done| |exact Hup].
    by exists bytes, n, flag, t, now.
  - eapply wp_conseq; [apply (refuses _ _ x0); [by eapply put_event_lookup|done]|].
    intros r s' [-> ->]. cbv beta. rewrite bool_decide_eq_false_2 by done. cbn [negb]. wp_step.
    split; [done|]. exists bytes, n. split; [done|]. by apply updated_alone.
Qed.

(** ** The conditions *)
Definition cycle_of s (x : taf_diagEvent_EventCtx_t) : option taf_diagEvent_OperCycleCtx_t :=
  snd <$> list_find (fun c => operCycleId c = operationCycleId x) (OperCycleCtxList s).

Definition cycle_condition s (x : taf_diagEvent_EventCtx_t) : le_result_t :=
  if featureA env then LE_OK else
  match cycle_of s x with
  | None => LE_FAULT
  | Some c => if bool_decide (cyc_state c = TAF_DIAGEVENT_CYCLE_START) then LE_OK else LE_NOT_POSSIBLE
  end.
(** The result of the checks, in their order. *)
Definition condition s (x : taf_diagEvent_EventCtx_t) : le_result_t :=
  if negb (bool_decide (cycle_condition s x = LE_OK)) then cycle_condition s x else
  if negb (eventEnableStatus x) then LE_NOT_PERMITTED
  else if default false (activationStatus <$> (d ← dtcCtxPtr x; DtcCtxList s !! d)) then LE_OK
  else LE_UNSUPPORTED.

Lemma cycle_checked x s : wp (check_cycle env x) (fun r s' => r = cycle_condition s x /\ s' = s) s.
Proof.
  unfold check_cycle, cycle_condition, GetOperCycleCtxById, cycle_of.
  destruct (featureA env); [by wp_step|]. do 3 wp_step.
  destruct (list_find _ _) as [[c y]|] eqn:Hc; cbn [fst snd fmap option_fmap option_map]; [|by wp_step].
  apply list_find_Some in Hc as (Hc & _). do 4 wp_step. eapply wp_demand; [done|]. by wp_step.
Qed.

Lemma conditions_checked e x s : EventCtxList s !! e = Some x ->
  (forall d, dtcCtxPtr x = Some d -> is_Some (DtcCtxList s !! d)) ->
  wp (CheckEventCondition env e) (fun r s' => r = condition s x /\ s' = s) s.
Proof.
  intros He Hd. unfold CheckEventCondition, condition. wp_step. eapply wp_event; [done|].
  wp_step. eapply wp_conseq; [apply cycle_checked|]. intros r s' [-> ->]. cbv beta.
  destruct (bool_decide _); cbn [negb]; [|by wp_step]. wp_step; [by wp_step|].
  destruct (dtcCtxPtr x) as [d|] eqn:Hp; [|by wp_step]. destruct (Hd d) as [y Hy]; [done|].
  wp_step. eapply wp_dtc; [done|]. wp_step. cbn. by rewrite Hy.
Qed.
End Report.
