(* ===== verification/DemInv.v ===== *)
(** * Diagnostic events: invariants

    The status bytes that ISO 14229-1 allows, what is always true of an event and of a DTC, and
    that every request of an application or a tester and every timer keeps it. *)
From S2P Require Import Prelude DiagCfg DemTypes DemEvent DemSvc DemDtc DemSpec DemReport.

(** ** Status bytes *)
Definition statuses : list Z := Z.of_nat <$> seq 0 128.
Lemma status_or_ok_elem s : status_or_ok s = true -> s ∈ statuses.
Proof.
  unfold status_or_ok. rewrite !andb_true_iff. intros ((((((Hl & Hh) & _) & _) & _) & _) & _).
  apply Z.leb_le in Hl. apply Z.ltb_lt in Hh. apply list_elem_of_fmap. exists (Z.to_nat s).
  split; [lia|]. apply elem_of_seq. lia.
Qed.
Lemma status_ok_or s : status_ok s = true -> status_or_ok s = true.
Proof. unfold status_ok. rewrite !andb_true_iff. tauto. Qed.
(** A fact about status bytes, by trying them all. *)
Lemma by_statuses (P : Z -> bool) s :
  s ∈ statuses -> forallb P statuses = true -> P s = true.
Proof. intros Hs H. rewrite forallb_forall in H. by apply H, list_elem_of_In. Qed.

Lemma status_moves s : status_ok s = true ->
  status_ok (failed_status s) && status_ok (set_bits (failed_status s) TAF_DIAGEVENT_UDS_STATUS_CDTC)
  && status_ok (passed_status s) && status_ok (started s)
  && implb (unpending s) (status_ok (clear_bits s TAF_DIAGEVENT_UDS_STATUS_PDTC)) = true.
Proof.
  intros H. pose proof (status_or_ok_elem s (status_ok_or s H)) as Hs.
  apply (by_statuses (fun s => implb (status_ok s) (status_ok (failed_status s)
    && status_ok (set_bits (failed_status s) TAF_DIAGEVENT_UDS_STATUS_CDTC)
    && status_ok (passed_status s) && status_ok (started s)
    && implb (unpending s) (status_ok (clear_bits s TAF_DIAGEVENT_UDS_STATUS_PDTC))))) in Hs.
  - by rewrite H in Hs.
  - vm_compute. reflexivity.
Qed.
Lemma status_completed s : status_or_ok s = true -> status_ok (completed s) = true.
Proof.
  intros H. pose proof (status_or_ok_elem s H) as Hs.
  apply (by_statuses (fun s => implb (status_or_ok s) (status_ok (completed s)))) in Hs.
  - by rewrite H in Hs.
  - vm_compute. reflexivity.
Qed.
Lemma status_or a b : status_or_ok a = true -> status_or_ok b = true -> status_or_ok (Z.lor a b) = true.
Proof.
  intros Ha Hb. pose proof (status_or_ok_elem a Ha) as Hi. pose proof (status_or_ok_elem b Hb) as Hj.
  apply (by_statuses (fun a => forallb (fun b => implb (status_or_ok a)
    (implb (status_or_ok b) (status_or_ok (Z.lor a b)))) statuses)) in Hi.
  - apply (by_statuses (fun b => implb (status_or_ok a)
      (implb (status_or_ok b) (status_or_ok (Z.lor a b))))) in Hj; [|done]. by rewrite Ha, Hb in Hj.
  - vm_compute. reflexivity.
Qed.

(** ** Events and DTCs *)
Section Ok.
Context {T : Type} `{!Store T} `{!Database T}.

Record event_ok (max : Z) (x : taf_diagEvent_EventCtx_t) : Prop := mkEventOk {
  ok_status : status_ok (eventUdsStatus x) = true;
  ok_threshold : 0 <= confirmationThreshold x <= 255;
  ok_failures : 0 <= failureCounter x <= 255 /\
    (failureCounter x < confirmationThreshold x \/ failureCounter x = 0);
  ok_counter : debounceType x = TAF_DIAGEVENT_DEBOUNCE_COUNTER_BASED ->
    counter_ok (debounceCounterBasedConfig x) /\
    in_range (debounceCounterBasedConfig x) (debounceCounter x);
  ok_time : debounceType x = TAF_DIAGEVENT_DEBOUNCE_TIME_BASED -> -128 <= debounceCounter x <= 127;
  ok_code : Z.of_nat (length (supplierFaultCode x)) = max;
  ok_name : storable_name (eventName x) }.

Record dtc_ok (y : taf_diagEvent_DtcCtx_t) : Prop := mkDtcOk {
  ok_dtc_status : status_ok (dtcStatus y) = true;
  ok_occurrences : 0 <= occurrenceCounter y <= 255;
  ok_dtc_code : storable_code (dtcCode y) }.

(** What never changes: the identity of events, DTCs and cycles. *)
Definition event_id (x : taf_diagEvent_EventCtx_t) :=
  (eventId x, eventName x, ev_dtcCode x, dtcCtxPtr x, operationCycleId x, confirmationThreshold x,
   debounceType x, debounceCounterBasedConfig x, debounceTimeBasedConfig x).
Definition dtc_id (y : taf_diagEvent_DtcCtx_t) :=
  (dtcCode y, occurrenceCounterProcessing y, dtcType y, dtcEventIdList y).

(** Every event has its DTC, a reference is one to an event or a cycle that exists, and the data
    base is sound. *)
Record wf (max : Z) (s : Dem T) : Prop := mkWf {
  wf_events : Forall (event_ok max) (EventCtxList s);
  wf_dtcs : Forall dtc_ok (DtcCtxList s);
  wf_dtc : forall e x, EventCtxList s !! e = Some x -> exists d y,
    dtcCtxPtr x = Some d /\ DtcCtxList s !! d = Some y;
  wf_refs : Forall (fun p : Z * nat => is_Some (EventCtxList s !! p.2)) (SvcRefMap s);
  wf_cycle_refs : Forall (fun p : Z * nat => is_Some (OperCycleCtxList s !! p.2)) (OperCycleRefMap s);
  wf_db : sound (db s) }.

Lemma confirmed_threshold max x : event_ok max x -> event_ok max (fail_event x).
Proof.
  intros [Hs Ht [Hf Hlt] Hc Htm Hl Hname]. pose proof (status_moves _ Hs) as Hm. rewrite !andb_true_iff in Hm.
  destruct Hm as ((((H1 & H2) & _) & _) & _). unfold fail_event. cbv zeta.
  match goal with |- context [confirmationThreshold x <=? ?m] => set (n := m) end.
  assert (0 <= n <= 255) as Hn by (unfold n; destruct (bits _ _), (Z.ltb_spec (failureCounter x) 255); cbn; lia).
  destruct (Z.leb_spec (confirmationThreshold x) n); split; cbn; try done.
  - split; [lia|by right].
  - split; [lia|by left].
Qed.
Lemma pass_event_ok max x : event_ok max x -> event_ok max (pass_event x).
Proof.
  intros [Hs]. pose proof (status_moves _ Hs) as Hm. rewrite !andb_true_iff in Hm.
  destruct Hm as (((_ & H) & _) & _). by split.
Qed.
Lemma tested_ok max x st c x1 : event_ok max x -> recounted x st c -> tested x st c x1 -> event_ok max x1.
Proof.
  intros [Hs Ht Hf Hc Htm Hl Hname] Hr (code & n & flag & t & now & Hlen & ->).
  unfold recounted in Hr. split; cbn; try done.
  - intros Hb. rewrite Hb in Hr. destruct (Hc Hb) as [Hok Hin]. split; [done|].
    subst c. by apply counter_after_in_range.
  - intros Hb. rewrite Hb in Hr. specialize (Htm Hb). destruct st; lia.
  - by rewrite Hlen.
Qed.

(** The status of a DTC that combines allowed ones is allowed. *)
Lemma combine_ok max evs y : Forall (event_ok max) evs -> status_ok (combine evs y) = true.
Proof.
  intros Hev. apply status_completed. unfold events_status.
  assert (forall ids s, status_or_ok s = true -> status_or_ok (fold_left (fun status id =>
    match (i ← find_event evs id; evs !! i) with
    | Some x => Z.lor status (eventUdsStatus x)
    | None => status
    end) ids s) = true) as H; [|by apply H].
  induction ids as [|id ids IH]; intros s Hs; [done|]. cbn [fold_left]. apply IH.
  destruct (find_event evs id) as [i|]; [|done]. cbn. destruct (evs !! i) as [x|] eqn:Hi; [|done].
  apply status_or; [done|]. apply status_ok_or. eapply Forall_lookup_1 in Hev; [|done]. apply Hev.
Qed.
Lemma fail_dtc_ok max evs y : Forall (event_ok max) evs -> dtc_ok y -> dtc_ok (fail_dtc evs y).
Proof.
  intros Hev [Hs Ho Hc]. split; cbn; [by eapply combine_ok| |done].
  destruct (occurs _ _) eqn:H; [|done]. unfold occurs in H. rewrite !andb_true_iff, Z.ltb_lt in H. lia.
Qed.
Lemma pass_dtc_ok max evs y : Forall (event_ok max) evs -> dtc_ok y -> dtc_ok (pass_dtc evs y).
Proof. intros Hev [Hs Ho Hc]. split; cbn; [by eapply combine_ok|done..]. Qed.

End Ok.

(** ** The invariant is kept *)
Section Keep.
Context {T : Type} `{!Store T} `{!Database T}.
Variable env : DemEnv.
Variable max : Z.
Implicit Types s : Dem T.

(** [c] does not fault and keeps the invariant and the number of contexts. *)
Definition same_sizes s s' : Prop :=
  length (EventCtxList s') = length (EventCtxList s) /\ length (DtcCtxList s') = length (DtcCtxList s) /\
  length (OperCycleCtxList s') = length (OperCycleCtxList s).
Definition safe {A} (c : M (Dem T) A) s : Prop :=
  wp c (fun _ s' => wf max s' /\ same_sizes s s') s.

#[export] Instance same_sizes_preorder : PreOrder same_sizes.
Proof. split; [by intros s|]. intros ??? (?&?&?) (?&?&?). unfold same_sizes. intuition congruence. Qed.

Lemma wf_event e x s : wf max s -> EventCtxList s !! e = Some x ->
  event_ok max x /\ exists d y, dtcCtxPtr x = Some d /\ DtcCtxList s !! d = Some y /\ dtc_ok y.
Proof.
  intros [He Hd Hp _ _ _] Hx. split; [by eapply Forall_lookup_1|].
  destruct (Hp e x Hx) as (d & y & H1 & H2). exists d, y. split_and!; [done..|by eapply Forall_lookup_1].
Qed.

Lemma lookup_alive {A} (l l' : list A) i : length l' = length l -> is_Some (l !! i) -> is_Some (l' !! i).
Proof. rewrite !lookup_lt_is_Some. lia. Qed.

Lemma insert_lookup {A} (l : list A) i j x x' : <[i := x]> l !! j = Some x' -> x' = x \/ l !! j = Some x'.
Proof. intros H. apply list_lookup_insert_Some in H as [(_ & -> & _)|[_ H]]; auto. Qed.

(** A state whose contexts are those of a well-formed one, one event and one DTC replaced. *)
Lemma wf_replace e d x x' y y' s s' :
  wf max s -> EventCtxList s !! e = Some x -> DtcCtxList s !! d = Some y ->
  event_ok max x' -> dtc_ok y' -> dtcCtxPtr x' = dtcCtxPtr x ->
  EventCtxList s' = <[e := x']> (EventCtxList s) ->
  (DtcCtxList s' = <[d := y']> (DtcCtxList s) \/ DtcCtxList s' = DtcCtxList s) -> unmoved s s' ->
  sound (db s') -> wf max s' /\ same_sizes s s'.
Proof.
  intros [Hev Hdt Hp Hr Hcr _] Hx Hy Hx' Hy' Hptr He Hd [Hc Hsr Hcy _] Hdb.
  assert (length (EventCtxList s') = length (EventCtxList s)) as Hle by (by rewrite He, length_insert).
  assert (length (DtcCtxList s') = length (DtcCtxList s)) as Hld
    by (destruct Hd as [->| ->]; rewrite ?length_insert; done).
  split; [split|unfold same_sizes; by rewrite Hc].
  - rewrite He. by apply Forall_insert.
  - destruct Hd as [->| ->]; [by apply Forall_insert|done].
  - intros e1 x1 H1. rewrite He in H1.
    assert (exists x0 e0, EventCtxList s !! e0 = Some x0 /\ dtcCtxPtr x1 = dtcCtxPtr x0) as (x0 & e0 & H0 & Hp0).
    { apply insert_lookup in H1 as [->|H1]; eauto. }
    destruct (Hp e0 x0 H0) as (d1 & y1 & Hd1 & Hy1). exists d1.
    destruct (lookup_alive (DtcCtxList s) (DtcCtxList s') d1 Hld) as [y2 Hy2]; [by exists y1|].
    exists y2. by rewrite Hp0.
  - rewrite Hsr. eapply Forall_impl; [exact Hr|]. intros p. by apply lookup_alive.
  - rewrite Hcy. eapply Forall_impl; [exact Hcr|]. intros p. by rewrite Hc.
  - done.
Qed.

(** The data base can hold what the invariant allows. *)
Lemma updated_in_db e d x x' y y' s r s' :
  wf max s -> EventCtxList s !! e = Some x -> DtcCtxList s !! d = Some y ->
  event_ok max x' -> dtc_ok y' -> updated e d x x' y y' s r s' ->
  kept_in_db x x' y y' (db s) r (db s').
Proof.
  intros Hwf Hx Hy Hx' Hy' Hup. apply (upd_db _ _ _ _ _ _ _ _ _ Hup); [apply Hwf|split|split_and!].
  - by eapply ok_name, Forall_lookup_1, Hx; [apply Hwf].
  - apply Hx'.
  - by eapply ok_dtc_code, Forall_lookup_1, Hy; [apply Hwf].
  - apply Hy'.
  - apply Hy'.
  - apply Hy'.
Qed.
Lemma updated_wf e d x x' y y' s r s' :
  wf max s -> EventCtxList s !! e = Some x -> DtcCtxList s !! d = Some y ->
  event_ok max x' -> dtc_ok y' -> dtcCtxPtr x' = dtcCtxPtr x ->
  updated e d x x' y y' s r s' -> wf max s' /\ same_sizes s s'.
Proof.
  intros Hwf Hx Hy Hx' Hy' Hp Hup. pose proof (updated_in_db e d x x' y y' s r s' Hwf Hx Hy Hx' Hy' Hup) as Hdb.
  destruct Hup as [Hu He Hd _ _]. eapply wf_replace; eauto; [tauto|apply Hdb].
Qed.

(** *** Composition *)
Lemma safe_ret {A} (a : A) s : wf max s -> safe (mret a) s.
Proof. by split. Qed.
Lemma safe_bind {A B} (c : M (Dem T) A) (f : A -> M (Dem T) B) s :
  safe c s -> (forall a s', wf max s' -> same_sizes s s' -> safe (f a) s') -> safe (c ≫= f) s.
Proof.
  intros Hc Hf. unfold safe. apply wp_bind. eapply wp_conseq; [exact Hc|].
  intros a s' [Hwf Hs]. eapply wp_conseq; [by apply Hf|]. intros b s'' [Hwf' Hs'].
  split; [done|]. by transitivity s'.
Qed.
Lemma safe_when b (c : M (Dem T) unit) s : wf max s -> (b = true -> safe c s) -> safe (when b c) s.
Proof. destruct b; cbn [when]; [auto|]. intros. by apply safe_ret. Qed.
Lemma safe_query {A} (f : list DemEffect -> A) s : wf max s -> safe (query f) s.
Proof. by split. Qed.
Lemma wf_trail es s : wf max s -> wf max (log es s).
Proof. intros []. by split. Qed.
Lemma safe_emit x s : wf max s -> safe (emit x) s.
Proof. intros H. by split; [apply wf_trail|]. Qed.

Lemma safe_event {A} e (f : _ -> M (Dem T) A) s : is_Some (EventCtxList s !! e) ->
  (forall x, EventCtxList s !! e = Some x -> safe (f x) s) -> safe (x ← event e; f x) s.
Proof. intros [x Hx] Hf. apply wp_bind. eapply wp_event; [done|]. by apply Hf. Qed.
Lemma safe_dtc {A} d (f : _ -> M (Dem T) A) s : is_Some (DtcCtxList s !! d) ->
  (forall y, DtcCtxList s !! d = Some y -> safe (f y) s) -> safe (y ← dtc d; f y) s.
Proof. intros [y Hy] Hf. apply wp_bind. eapply wp_dtc; [done|]. by apply Hf. Qed.

Lemma safe_eset {A} e (p : taf_diagEvent_EventCtx_t -> A) `{!Field p} v s :
  wf max s -> is_Some (EventCtxList s !! e) ->
  (forall x, EventCtxList s !! e = Some x -> event_ok max x ->
    event_ok max (x <| p := v |>) /\ dtcCtxPtr (x <| p := v |>) = dtcCtxPtr x) ->
  safe (eset e p v) s.
Proof.
  intros Hwf [x Hx] Hok. destruct (wf_event e x s Hwf Hx) as (Hxok & d & y & _ & Hy & Hyok).
  destruct (Hok x Hx Hxok) as [Hx' Hp]. eapply wp_eset; [done|].
  eapply (wf_replace e d x _ y y); eauto; [by split|apply Hwf].
Qed.
Lemma safe_dset {A} d (p : taf_diagEvent_DtcCtx_t -> A) `{!Field p} v s :
  wf max s -> is_Some (DtcCtxList s !! d) ->
  (forall y, DtcCtxList s !! d = Some y -> dtc_ok y -> dtc_ok (y <| p := v |>)) -> safe (dset d p v) s.
Proof.
  intros Hwf [y Hy] Hok. eapply wp_dset; [done|]. pose proof Hwf as [Hev Hdt Hp Hr Hcr Hdb].
  split; [|split_and!; cbn; by rewrite ?length_insert].
  split; cbn; [done| | |done..].
  - apply Forall_insert; [done|]. apply Hok; [done|]. by eapply Forall_lookup_1.
  - intros e x Hx. destruct (Hp e x Hx) as (d1 & y1 & Hd1 & Hy1). exists d1.
    destruct (lookup_alive (DtcCtxList s) (<[d := y <| p := v |>]> (DtcCtxList s)) d1) as [y2 Hy2];
      [by rewrite length_insert|by exists y1|]. by exists y2.
Qed.

Lemma safe_on_db {A} (c : M T A) s :
  wf max s -> wp c (fun _ t' => sound (db s) -> sound t') (db s) -> safe (on_db c) s.
Proof.
  intros Hwf Hc. apply wp_on_db. eapply wp_conseq; [exact Hc|]. intros a t Ht.
  destruct Hwf. split; [|by split]. split; cbn; auto.
Qed.

Lemma safe_for_each {A} (l : list A) (body : A -> M (Dem T) unit) s :
  wf max s -> (forall x s', x ∈ l -> wf max s' -> same_sizes s s' -> safe (body x) s') ->
  safe (for_each l body) s.
Proof.
  intros Hwf Hb. unfold safe. apply (wp_for_each l body (fun _ s' => wf max s' /\ same_sizes s s')); [|done].
  intros x d s' Hx [Hwf' Hs]. eapply wp_conseq; [by apply (Hb x s')|]. intros [] s'' [H1 H2].
  split; [done|by transitivity s'].
Qed.
Lemma safe_each_ok {A} (l : list A) (body : A -> M (Dem T) le_result_t) s :
  wf max s -> (forall x s', x ∈ l -> wf max s' -> same_sizes s s' -> safe (body x) s') ->
  safe (each_ok l body) s.
Proof.
  revert s. induction l as [|x l IH]; intros s Hwf Hb; cbn [each_ok]; [by apply safe_ret|].
  apply safe_bind; [apply Hb; [set_solver|done..]|]. intros r s' Hwf' Hs. case_match; [by apply safe_ret|].
  apply IH; [done|]. intros y s'' Hy Hwf'' Hs'. apply Hb; [set_solver|done|by transitivity s'].
Qed.
End Keep.
