(* ===== verification/DemStart.v ===== *)
(** * Diagnostic events: start-up establishes the invariant

    A rule for computations that may end in the [LE_FATAL] of the configuration, what the data
    base returns at start-up ([Restored]), and that the contexts [EventConfiguration] builds
    satisfy the invariant of [DemInv]. *)
From Stdlib Require Import SpecFloat.
From S2P Require Import Prelude DiagCfg Ieee DemTypes DemEvent DemSvc DemInit DemSpec DemReport DemInv.

(** ** Partial correctness *)
Definition wlp {S A} (c : M S A) (Q : A -> S -> Prop) (s : S) : Prop :=
  match c s with Done (a, s') => Q a s' | Faulted _ => True end.

Section Wlp.
Context {S : Type}.
Lemma wlp_wp {A} (c : M S A) Q s : wp c Q s -> wlp c Q s.
Proof. unfold wlp, wp. by destruct (c s) as [[]|]. Qed.
Lemma wlp_conseq {A} (c : M S A) (P Q : A -> S -> Prop) s :
  wlp c P s -> (forall a s', P a s' -> Q a s') -> wlp c Q s.
Proof. unfold wlp. destruct (c s) as [[]|]; auto. Qed.
Lemma wlp_bind {A B} (c : M S A) (f : A -> M S B) Q s :
  wlp c (fun a s' => wlp (f a) Q s') s -> wlp (c ≫= f) Q s.
Proof. unfold wlp, mbind, M_bind. by destruct (c s) as [[]|]. Qed.
Lemma wlp_ret {A} (a : A) (Q : A -> S -> Prop) s : Q a s -> wlp (mret a) Q s.
Proof. done. Qed.
Lemma wlp_raise {A} e (Q : A -> S -> Prop) s : wlp (raise e) Q s.
Proof. done. Qed.
Lemma wlp_demand {A} (o : option A) e (Q : A -> S -> Prop) s :
  (forall a, o = Some a -> Q a s) -> wlp (demand o e) Q s.
Proof. destruct o; cbn; [|done]. intros H. by apply H. Qed.
Lemma wlp_for_each {A} (l : list A) (body : A -> M S unit) (I : S -> Prop) s :
  (forall x s', x ∈ l -> I s' -> wlp (body x) (fun _ => I) s') -> I s ->
  wlp (for_each l body) (fun _ => I) s.
Proof.
  revert s. induction l as [|x l IH]; intros s Hb HI; cbn [for_each]; [done|].
  apply wlp_bind. eapply wlp_conseq; [apply Hb; [set_solver|done]|]. intros [] s' HI'.
  apply IH; [|done]. intros y s'' Hy. apply Hb. set_solver.
Qed.
End Wlp.

(** ** What the data base returns

    A sound data base answers with statuses and counters that the service may have stored, and
    stays sound. *)
Class Restored (T : Type) `{!Store T} `{!Database T} := {
  GetEventStatusByName_ok name t : sound t -> storable_name name ->
    wlp (db_GetEventStatusByName name) (fun v t' => status_ok v = true /\ sound t') t;
  GetDTCStatus_ok code t : sound t ->
    wlp (db_GetDTCStatus code) (fun v t' => status_ok v = true /\ sound t') t;
  GetDTCOccurrenceCounter_ok code t : sound t ->
    wlp (db_GetDTCOccurrenceCounter code) (fun n t' => 0 <= n <= 255 /\ sound t') t;
  GetDTCActivation_ok code t : sound t -> wlp (db_GetDTCActivation code) (fun _ => sound) t;
  GetDTCSuppression_ok code t : sound t -> wlp (db_GetDTCSuppression code) (fun _ => sound) t }.

(** A configuration whose names and codes the data base can hold. *)
Record conf_fits {T} `{!Store T} `{!Database T} (conf : EventConf) : Prop := {
  names_fit : Forall (fun p => storable_name (get_event_name conf (u16 (ee_id p.2)))) (conf_events conf);
  codes_fit : Forall (fun p => storable_code (u32 (identification_code p.2))) (dtc_all conf) }.
Arguments conf_fits T {_ _} conf.

Lemma map_insert_Forall {V} (P : V -> Prop) (m : amap Z V) k v :
  Forall (fun p => P p.2) m -> P v -> Forall (fun p => P p.2) (map_insert m k v).
Proof.
  intros Hm Hv. induction Hm as [|[k' v'] m H Hm IH]; cbn; [by constructor|].
  case_match; [|case_match]; repeat constructor; done.
Qed.
Lemma dtc_nodes_Forall (P : DTCEntry -> Prop) conf :
  Forall (fun p => P p.2) (dtc_all conf) -> Forall (fun p => P p.2) (get_dtc_nodes conf).
Proof.
  unfold get_dtc_nodes. intros H. assert (Forall (fun p : Z * DTCEntry => P p.2) []) as H0 by constructor.
  revert H0. generalize (@nil (Z * DTCEntry)). induction H as [|p l Hp Hl IH]; intros m Hm; cbn [fold_left]; [done|].
  by apply IH, map_insert_Forall.
Qed.
Lemma event_nodes_Forall (P : EventEntry -> Prop) conf code evs : get_event_nodes conf code = Some evs ->
  Forall (fun p => P p.2) (conf_events conf) -> Forall (fun p => P p.2) evs.
Proof.
  unfold get_event_nodes. intros He H. destruct (dtc_with_code conf code) as [entry|]; [|done]. injection He as <-.
  assert (Forall (fun p : Z * EventEntry => P p.2) []) as H0 by constructor.
  revert H0. generalize (@nil (Z * EventEntry)). generalize (dtc_events entry).
  induction l as [|id l IH]; intros m Hm; cbn [fold_left]; [done|]. apply IH.
  destruct (amap_find (conf_events conf) (u16 id)) as [e|] eqn:Hf; [|done].
  apply map_insert_Forall; [done|]. apply amap_find_elem in Hf. rewrite Forall_forall in H. apply (H _ Hf).
Qed.

(** ** Debounce parameters *)
Lemma s16_range z : -32768 <= s16 z < 32768.
Proof. unfold s16. pose proof (Z.mod_pos_bound (z + 32768) 65536 eq_refl). lia. Qed.
Lemma counter_config_ok a cfg : counter_config a = Some cfg -> counter_ok cfg.
Proof.
  unfold counter_config. cbv zeta. intros H. case_match eqn:Hc; [|done]. simplify_eq.
  rewrite !andb_true_iff, !Z.leb_le, !Z.ltb_lt in Hc.
  pose proof (s16_range (counter_decrement_step_size a)). split; cbn; lia.
Qed.

Section Start.
Context {T : Type} `{!Store T} `{!Database T} `{!Restored T}.
Variable env : DemEnv.
Variable conf : EventConf.
Hypothesis no_feature_A : featureA env = false.
Hypothesis max_ok : 0 <= fault_code_max env.
Hypothesis fits : conf_fits T conf.
Implicit Types s : Dem T.

Definition booting s : Prop := wf (fault_code_max env) s /\ SvcRefMap s = [] /\ OperCycleRefMap s = [].

Lemma wlp_on_db {A} (c : M T A) (Q : A -> Dem T -> Prop) s :
  wlp c (fun a t => Q a (s <| db := t |>)) (db s) -> wlp (on_db c) Q s.
Proof. unfold wlp, on_db. by destruct (c (db s)) as [[]|]. Qed.

(** A call of the data base that returns [P], at a state that boots. *)
Lemma booting_db {A} (c : M T A) (P : A -> Prop) s :
  (forall t, sound t -> wlp c (fun a t' => P a /\ sound t') t) -> booting s ->
  wlp (on_db c) (fun a s' => P a /\ booting s' /\ EventCtxList s' = EventCtxList s /\
    DtcCtxList s' = DtcCtxList s) s.
Proof.
  intros Hc (Hw & Hr). apply wlp_on_db. eapply wlp_conseq; [by apply Hc; destruct Hw|]. intros a t [Ha Ht].
  split_and!; try done. split_and!; [|apply Hr..]. destruct Hw. by split.
Qed.

(** The contexts of a state that boots, with another DTC or another event. *)
Lemma wf_add_dtc y s : booting s -> dtc_ok y -> booting (s <| DtcCtxList := DtcCtxList s ++ [y] |>).
Proof.
  intros ([Hev Hdt Hp Hr Hc Hdb] & Hm) Hy. split_and!; [split|apply Hm..]; cbn; try done.
  - apply Forall_app; split; [done|by apply Forall_singleton].
  - intros e x Hx. destruct (Hp e x Hx) as (d & y' & Hd & Hy'). exists d, y'.
    split; [done|by apply lookup_app_l_Some].
Qed.
Lemma wf_add_event x d s : booting s -> event_ok (fault_code_max env) x -> dtcCtxPtr x = Some d ->
  is_Some (DtcCtxList s !! d) -> booting (s <| EventCtxList := EventCtxList s ++ [x] |>).
Proof.
  intros ([Hev Hdt Hp Hr Hc Hdb] & Hm1 & Hm2) Hx Hd [y Hy].
  split_and!; [split|done..]; cbn; try done.
  - apply Forall_app; split; [done|by apply Forall_singleton].
  - intros e x'. rewrite lookup_app_Some, list_lookup_singleton_Some. intros [He|(_ & _ & <-)]; eauto.
  - by rewrite Hm1.
Qed.

Lemma dtc_initialised code s : booting s -> storable_code code -> wlp (InitDtcContext env conf code)
  (fun d s' => booting s' /\ is_Some (DtcCtxList s' !! d)) s.
Proof.
  intros H Hcode. unfold InitDtcContext.
  apply wlp_bind. eapply wlp_conseq; [apply (booting_db _ _ s (GetDTCStatus_ok code) H)|].
  intros v s1 (Hv & H1 & _). apply wlp_bind.
  eapply wlp_conseq; [apply (booting_db _ _ s1 (GetDTCOccurrenceCounter_ok code) H1)|].
  intros n s2 (Hn & H2 & _). apply wlp_bind.
  eapply wlp_conseq; [apply (booting_db _ (fun _ => True) s2); [|done]|].
  { intros t Ht. eapply wlp_conseq; [by apply GetDTCActivation_ok|]. done. }
  intros a s3 (_ & H3 & _). apply wlp_bind.
  eapply wlp_conseq; [apply (booting_db _ (fun _ => True) s3); [|done]|].
  { intros t Ht. eapply wlp_conseq; [by apply GetDTCSuppression_ok|]. done. }
  intros b s4 (_ & H4 & _). apply wlp_wp. do 5 wp_step. split; [apply wf_add_dtc; [done|by split]|].
  cbn. apply lookup_lt_is_Some. rewrite length_app. cbn. lia.
Qed.

(** A debounce counter starts at 0, with parameters that have passed the checks. *)
Lemma debounce_initialised e id name s : booting s -> wlp (debounce_context env conf e id name)
  (fun '(type, _, counter, _, c) s' => booting s' /\ DtcCtxList s' = DtcCtxList s /\
    (type = TAF_DIAGEVENT_DEBOUNCE_COUNTER_BASED -> counter_ok counter) /\ c = 0) s.
Proof.
  intros H. unfold debounce_context. rewrite no_feature_A.
  destruct (amap_find (counter_based conf) name) as [a|].
  { apply wlp_bind, wlp_demand. intros cfg Hcfg. apply wlp_ret. split_and!; [done..| |done].
    intros _. by eapply counter_config_ok. }
  destruct (amap_find (time_based conf) name) as [a|].
  { apply wlp_bind, wlp_demand. intros cfg Hcfg. apply wlp_bind, wlp_wp, wp_notes, wlp_ret.
    split_and!; try done. destruct H as (Hw & Hr). split_and!; [by apply wf_trail|apply Hr..]. }
  by destruct (amap_find (custom conf) name).
Qed.

Lemma dtc_put d y y' s : booting s -> DtcCtxList s !! d = Some y -> dtc_ok y' -> booting (put_dtc d y' s).
Proof.
  intros ([Hev Hdt Hp Hr Hc Hdb] & Hm) Hy Hy'. split_and!; [split|apply Hm..]; cbn; try done.
  - by apply Forall_insert.
  - intros e x Hx. destruct (Hp e x Hx) as (d1 & y1 & Hd1 & Hy1). exists d1.
    destruct (lookup_alive (DtcCtxList s) (<[d := y']> (DtcCtxList s)) d1) as [y2 Hy2];
      [by rewrite length_insert|by exists y1|]. by exists y2.
Qed.

Lemma event_initialised entry ev s : booting s -> storable_code (u32 (identification_code entry)) ->
  storable_name (get_event_name conf (u16 (ee_id ev))) ->
  wlp (InitEventContext env conf entry ev) (fun _ => booting) s.
Proof.
  intros H Hcode Hname. unfold InitEventContext. apply wlp_bind, wlp_wp, wp_get, wlp_bind, wlp_demand. intros oc _.
  apply wlp_bind. eapply wlp_conseq; [by apply debounce_initialised|].
  intros [[[[type beh] counter] time] c] s1 (H1 & _ & Hc & ->).
  apply wlp_bind, wlp_wp. unfold GetDtcCtxByCode. do 3 wp_step.
  set (found := fst <$> _). assert (forall d, found = Some d -> is_Some (DtcCtxList s1 !! d)) as Hfound.
  { intros d. unfold found. destruct (list_find _ _) as [[d' y]|] eqn:Hd; [|done]. intros [= <-].
    apply list_find_Some in Hd as (Hd & _). by exists y. }
  clearbody found. apply wlp_bind.
  apply (wlp_conseq _ (fun d s2 => booting s2 /\ is_Some (DtcCtxList s2 !! d))).
  { destruct found as [d|]; [by apply wlp_ret; eauto|by apply dtc_initialised]. }
  intros d s2 (H2 & y & Hy). case_match; [apply wlp_raise|].
  apply wlp_bind. eapply wlp_conseq; [apply (booting_db _ _ s2 (fun t Ht => GetEventStatusByName_ok _ t Ht Hname) H2)|].
  intros v s3 (Hv & H3 & _ & Hd3). rewrite <- Hd3 in Hy.
  apply wlp_bind, wlp_wp. eapply wp_dtc; [done|]. apply wlp_bind, wlp_wp. eapply wp_dset; [done|].
  apply wlp_wp, wp_modify. eapply wf_add_event; [eapply dtc_put; try done| |done|].
  - destruct (Forall_lookup_1 _ _ _ _ (wf_dtcs _ _ (proj1 H3)) Hy). by split.
  - pose proof (wrap_in_width 8 (confirmation_threshold ev)) as Hw. unfold in_width in Hw.
    split; cbn; try done; try lia.
    + intros Ht. specialize (Hc Ht). split; [done|]. destruct Hc. split; lia.
    + rewrite length_replicate. lia.
  - exists (y <| dtcEventIdList := dtcEventIdList y ++ [u16 (ee_id ev)] |>).
    by eapply (lookup_put_dtc d _ y).
Qed.

Lemma cycles_initialised s : booting s -> booting (s <| OperCycleCtxList := OperCycleCtxList s ++
  ((fun i => mkOperCycleCtx (Z.of_nat i) TAF_DIAGEVENT_CYCLE_STOP [] None)
     <$> seq 0 (Z.to_nat (u8 (get_operation_cycle_count conf)))) |>).
Proof.
  intros ([] & Hm1 & Hm2). split_and!; [split|done..]; cbn; try done. by rewrite Hm2.
Qed.

Lemma configuration_boots s : booting s -> wlp (EventConfiguration env conf) (fun _ => booting) s.
Proof.
  intros H. unfold EventConfiguration. apply wlp_bind. eapply wlp_conseq.
  - apply (wlp_for_each _ _ booting); [|done]. intros [code entry] s1 Hin H1. case_match; [apply wlp_raise|].
    apply wlp_bind, wlp_demand. intros evs Hevs. apply wlp_for_each; [|done].
    intros [id ev] s2 Hin2 H2. case_match; [apply wlp_raise|]. apply event_initialised; [done| |].
    + pose proof (dtc_nodes_Forall (fun x => storable_code (u32 (identification_code x))) conf (codes_fit _ fits)) as Hc. rewrite Forall_forall in Hc. apply (Hc _ Hin).
    + pose proof (event_nodes_Forall (fun x => storable_name (get_event_name conf (u16 (ee_id x)))) conf code evs
        Hevs (names_fit _ fits)) as Hn. rewrite Forall_forall in Hn.
      apply (Hn _ Hin2).
  - intros [] s1 H1. apply wlp_wp, wp_modify. by apply cycles_initialised.
Qed.

(** The state of [taf_EventSvr] before [EventConfiguration], over the data base [t]. *)
Definition empty_dem (t : T) : Dem T := mkDem [] [] [] [] [] [] t [].
Lemma empty_boots t : sound t -> booting (empty_dem t).
Proof. intros H. by split_and!. Qed.
End Start.
