(* ===== verification/DemSafe.v ===== *)
(** * Diagnostic events: every request is safe

    The requests of applications and testers and the expiries of timers, as one step relation on
    the state of the service; each of them ends without a fault and keeps the invariant of
    [DemInv]. *)
From S2P Require Import Prelude DiagCfg DemTypes DemEvent DemSvc DemDtc DemSpec DemReport DemInv.

(** ** Requests *)
Inductive request :=
  | Report (ref : option Z) (st : taf_diagEvent_StatusType_t) (code : option (list Z)) (size : Z)
  | ResetDebounce (ref : option Z) (status : taf_diagEvent_DebounceResetStatus_t)
  | SetCycle (ref : option Z) (state : taf_diagEvent_OperationCycleState_t)
  | SetCondition (id : Z) (fulfilled : bool)
  | Clear (code : Z) (client : taf_diagDTC_ReqClientType_t)
  | SetActivation (code : Z) (active : bool)
  | Suppress (code : Z) (suppressed : bool)
  | SuppressAll (suppressed : bool)
  | OpenEvent (id session : Z)
  | CloseEvent (ref : option Z) (session : Z)
  | OpenCycle (id session : Z)
  | CloseCycle (ref : option Z) (session : Z)
  | Disconnect (session : option Z)
  | DebounceTimeout (e : nat)
  | FdcTimeout (e : nat).

Section Safe.
Context {T : Type} `{!Store T} `{!Database T}.
Variable env : DemEnv.
Implicit Types s : Dem T.

Definition serve (q : request) : M (Dem T) unit :=
  match q with
  | Report ref st code size => SetStatusWithSupplierFaultCode env ref st code size;; mret tt
  | ResetDebounce ref status => ResetDebounceStatus env ref status;; mret tt
  | SetCycle ref state => SetOperCycleState env ref state;; mret tt
  | SetCondition id b => SetEnableCondition env id b;; mret tt
  | Clear code client => ClearDtc env code client;; mret tt
  | SetActivation code b => (if b then EnableDTCSetting code else DisableDTCSetting code);; mret tt
  | Suppress code b => SetDTCSuppression code b;; mret tt
  | SuppressAll b => SetAllDTCSuppression b;; mret tt
  | OpenEvent id session => GetService env id session;; mret tt
  | CloseEvent ref session => RemoveSvc ref session;; mret tt
  | OpenCycle id session => GetOperCycle env id session;; mret tt
  | CloseCycle ref session => RemoveOperCycle ref session;; mret tt
  | Disconnect session => OnClientDisconnection session
  | DebounceTimeout e => TimeBasedDebounceTimerHandler env e
  | FdcTimeout e => FdcTimerHandler e
  end.

(** The fault code fits its array, as the interface demands, and a timer is that of an
    event, which is debounced by time when it is the debounce timer. *)
Definition allowed s (q : request) : Prop :=
  match q with
  | Report _ _ (Some c) size => size <= Z.of_nat (length c) /\ size <= fault_code_max env
  | DebounceTimeout e => exists x, EventCtxList s !! e = Some x /\
      debounceType x = TAF_DIAGEVENT_DEBOUNCE_TIME_BASED
  | FdcTimeout e => is_Some (EventCtxList s !! e)
  | _ => True
  end.

Abbreviation wf_ := (wf (fault_code_max env)).
Abbreviation safe_ := (safe (fault_code_max env)).

(** ** Leaves *)
Lemma find_event_some (l : list taf_diagEvent_EventCtx_t) id e : find_event l id = Some e -> is_Some (l !! e).
Proof.
  unfold find_event. destruct (list_find _ l) as [[i x]|] eqn:H; [|done].
  intros [= <-]. apply list_find_Some in H as (H & _). by exists x.
Qed.
Lemma alive_events s s' e : same_sizes s s' -> is_Some (EventCtxList s !! e) -> is_Some (EventCtxList s' !! e).
Proof. intros (H & _) He. by eapply lookup_alive. Qed.
Lemma alive_dtcs s s' d : same_sizes s s' -> is_Some (DtcCtxList s !! d) -> is_Some (DtcCtxList s' !! d).
Proof. intros (_ & H & _) Hd. by eapply lookup_alive. Qed.
Lemma alive_cycles s s' c : same_sizes s s' -> is_Some (OperCycleCtxList s !! c) -> is_Some (OperCycleCtxList s' !! c).
Proof. intros (_ & _ & H) Hc. by eapply lookup_alive. Qed.
Hint Resolve alive_events alive_dtcs alive_cycles : telaf.

Lemma safe_stop t s : wf_ s -> safe_ (stop_if_running env t) s.
Proof.
  intros H. apply safe_bind; [by apply safe_query|]. intros b s' Hw _.
  apply safe_when; [done|]. intros _. by apply safe_emit.
Qed.

(** An assignment to a field that the invariant does not mention, or with an allowed value. *)
Ltac assign_ok := apply safe_eset; [done|eauto with telaf|];
  intros ? ? []; split; [by split|done].

Lemma safe_reset e s : wf_ s -> is_Some (EventCtxList s !! e) -> safe_ (ResetDebounceCounter env e) s.
Proof.
  intros Hw He. apply safe_bind.
  { apply safe_eset; [done..|]. intros x _ []. split; [|done]. split; cbn; try done.
    intros Hc. destruct (ok_counter Hc) as [[] []]. split; [by split|split; lia]. }
  intros [] s1 Hw1 H1. apply safe_event; [eauto with telaf|]. intros x Hx.
  apply safe_bind.
  { apply safe_when; [done|]. intros _. apply safe_bind; [|by intros; apply safe_ret].
    apply safe_on_db; [done|]. apply SetEventFailedCounter_keeps. }
  intros [] s2 Hw2 H2. apply safe_when; [done|]. intros _.
  apply safe_bind; [by apply safe_query|]. intros b s3 Hw3 H3.
  apply safe_bind; [|intros; by apply safe_stop].
  apply safe_when; [done|]. intros _. apply safe_bind; [by apply safe_emit|].
  intros [] s4 Hw4 H4. assign_ok.
Qed.

(** Writing the data base with what the invariant allows. *)
Lemma safe_write_event n v s : wf_ s -> storable_name n -> status_ok v = true ->
  safe_ (on_db (db_SetEventStatusByName n v)) s.
Proof.
  intros Hw Hn Hv. apply safe_on_db; [done|]. eapply wp_conseq; [apply SetEventStatusByName_stores|].
  intros r t Ht Hs. by apply Ht.
Qed.
Lemma safe_write_dtc code v n s : wf_ s -> storable_code code -> status_ok v = true -> 0 <= n <= 255 ->
  safe_ (on_db (db_SetDTCStatus code v n)) s.
Proof.
  intros Hw Hc Hv Hn. apply safe_on_db; [done|]. eapply wp_conseq; [apply SetDTCStatus_stores|].
  intros r t Ht Hs. by apply Ht.
Qed.

Lemma safe_report_event e s : wf_ s -> is_Some (EventCtxList s !! e) -> safe_ (ReportEventUdsStatus e) s.
Proof.
  intros Hw He. apply safe_event; [done|]. intros x _. destruct (ev_svcRef x); [by apply safe_emit|by apply safe_ret].
Qed.
Lemma safe_store_event e s : wf_ s -> is_Some (EventCtxList s !! e) -> safe_ (StoreAndReportEventUdsStatus e) s.
Proof.
  intros Hw He. apply safe_event; [done|]. intros x Hx. destruct (wf_event _ e x s Hw Hx) as ([] & _).
  apply safe_bind; [by apply safe_write_event|].
  intros r s1 Hw1 H1. case_match; [by apply safe_ret|].
  apply safe_bind; [apply safe_report_event; eauto with telaf|]. intros; by apply safe_ret.
Qed.
Lemma safe_report_dtc d s : wf_ s -> is_Some (DtcCtxList s !! d) -> safe_ (ReportDtcStatus d) s.
Proof. intros Hw Hd. apply safe_dtc; [done|]. intros y _. by apply safe_emit. Qed.
Lemma safe_store_dtc d s : wf_ s -> is_Some (DtcCtxList s !! d) -> safe_ (store_dtc d) s.
Proof.
  intros Hw Hd. apply safe_dtc; [done|]. intros y Hy.
  destruct (Forall_lookup_1 _ _ _ _ (wf_dtcs _ _ Hw) Hy). by apply safe_write_dtc.
Qed.
Lemma safe_store_report_dtc d s : wf_ s -> is_Some (DtcCtxList s !! d) -> safe_ (StoreAndReportDTCStatus d) s.
Proof.
  intros Hw Hd. apply safe_bind; [by apply safe_store_dtc|]. intros r s1 Hw1 H1.
  case_match; [by apply safe_ret|].
  apply safe_bind; [apply safe_report_dtc; eauto with telaf|]. intros; by apply safe_ret.
Qed.

(** ** Operation cycles *)
Lemma started_ok st : status_ok st = true -> status_ok (started st) = true.
Proof. intros H. pose proof (status_moves st H) as Hm. rewrite !andb_true_iff in Hm. tauto. Qed.
Lemma unpending_ok st : status_ok st = true -> unpending st = true ->
  status_ok (clear_bits st TAF_DIAGEVENT_UDS_STATUS_PDTC) = true.
Proof.
  intros H Hu. pose proof (status_moves st H) as Hm. rewrite !andb_true_iff, Hu in Hm. tauto.
Qed.

(** A new status of the event [e] and then of its DTC. *)
Lemma safe_set_event_status e v s : wf_ s -> is_Some (EventCtxList s !! e) -> status_ok v = true ->
  safe_ (eset e eventUdsStatus v) s.
Proof. intros Hw He Hv. apply safe_eset; [done..|]. intros x _ []. split; [by split|done]. Qed.
Lemma safe_set_dtc_status d v s : wf_ s -> is_Some (DtcCtxList s !! d) -> status_ok v = true ->
  safe_ (dset d dtcStatus v) s.
Proof. intros Hw Hd Hv. apply safe_dset; [done..|]. intros y _ []. by split. Qed.

Lemma safe_dtc_step x e s s1 (f : nat -> taf_diagEvent_DtcCtx_t -> M (Dem T) le_result_t) :
  wf_ s -> wf_ s1 -> same_sizes s s1 -> EventCtxList s !! e = Some x ->
  (forall d y, is_Some (DtcCtxList s1 !! d) -> dtc_ok y -> safe_ (f d y) s1) ->
  safe_ (match dtcCtxPtr x with None => mret LE_OK | Some d => y ← dtc d; f d y end) s1.
Proof.
  intros Hw Hw1 H1 Hx Hf. destruct (wf_event _ e x s Hw Hx) as (_ & d & y & -> & Hy & _).
  apply safe_dtc; [eapply alive_dtcs; [done|by exists y]|]. intros y1 Hy1. apply Hf; [by exists y1|].
  eapply Forall_lookup_1; [apply Hw1|done].
Qed.

Lemma safe_start e s : wf_ s -> is_Some (EventCtxList s !! e) -> safe_ (start_event env e) s.
Proof.
  intros Hw He. apply safe_event; [done|]. intros x Hx.
  destruct (wf_event _ e x s Hw Hx) as (Hxok & _). pose proof (started_ok _ (ok_status _ _ Hxok)) as Hst.
  apply safe_bind; [assign_ok|]. intros [] s1 Hw1 H1.
  apply safe_bind; [apply safe_reset; eauto with telaf|]. intros [] s2 Hw2 H2.
  apply safe_bind; [assign_ok|]. intros [] s3 Hw3 H3.
  apply safe_bind; [apply safe_set_event_status; eauto with telaf|]. intros [] s4 Hw4 H4.
  apply safe_bind; [case_match; [apply safe_store_event; eauto 6 with telaf|by apply safe_ret]|].
  intros r s5 Hw5 H5. case_match; [by apply safe_ret|].
  assert (same_sizes s s5) as Hall by (do 4 (etransitivity; [eassumption|]); done).
  eapply (safe_dtc_step x e s); [done..|]. intros d y Hd [Hy _].
  apply safe_bind; [by apply safe_set_dtc_status, started_ok|]. intros [] s6 Hw6 H6.
  case_match; [apply safe_store_report_dtc; eauto with telaf|by apply safe_ret].
Qed.

Lemma safe_stop_event e s : wf_ s -> is_Some (EventCtxList s !! e) -> safe_ (stop_event e) s.
Proof.
  intros Hw He. apply safe_event; [done|]. intros x Hx.
  destruct (wf_event _ e x s Hw Hx) as (Hxok & _).
  apply safe_bind.
  { case_match; [|by apply safe_ret].
    apply safe_bind; [apply safe_set_event_status; [done..|by apply unpending_ok, H; apply Hxok]|].
    intros [] s1 Hw1 H1. apply safe_store_event; eauto with telaf. }
  intros r s1 Hw1 H1. case_match; [by apply safe_ret|].
  eapply (safe_dtc_step x e s); [done..|]. intros d y Hd [Hy _]. case_match; [|by apply safe_ret].
  apply safe_bind; [by apply safe_set_dtc_status, unpending_ok|]. intros [] s2 Hw2 H2.
  apply safe_store_report_dtc; eauto with telaf.
Qed.

Lemma safe_all_events {A} (f : list nat -> M (Dem T) A) s :
  (forall l, Forall (fun e => is_Some (EventCtxList s !! e)) l -> safe_ (f l) s) -> safe_ (es ← all_events; f es) s.
Proof.
  intros Hf. unfold safe, all_events. do 3 wp_step. wp_step. apply Hf, Forall_forall.
  intros e He. apply elem_of_seq in He. apply lookup_lt_is_Some. lia.
Qed.
Lemma safe_all_dtcs {A} (f : list nat -> M (Dem T) A) s :
  (forall l, Forall (fun d => is_Some (DtcCtxList s !! d)) l -> safe_ (f l) s) -> safe_ (ds ← all_dtcs; f ds) s.
Proof.
  intros Hf. unfold safe, all_dtcs. do 3 wp_step. wp_step. apply Hf, Forall_forall.
  intros e He. apply elem_of_seq in He. apply lookup_lt_is_Some. lia.
Qed.

Lemma safe_cycle_events id (step : nat -> M (Dem T) le_result_t) s : wf_ s ->
  (forall e s', wf_ s' -> is_Some (EventCtxList s' !! e) -> safe_ (step e) s') ->
  safe_ (es ← all_events; each_ok es (in_cycle id step)) s.
Proof.
  intros Hw Hstep. apply safe_all_events. intros l Hl. apply safe_each_ok; [done|].
  intros e s1 He Hw1 H1. rewrite Forall_forall in Hl. specialize (Hl e He).
  apply safe_event; [eauto with telaf|]. intros x _. case_match; [|by apply safe_ret].
  apply Hstep; eauto with telaf.
Qed.
Lemma safe_start_cycle id s : wf_ s -> safe_ (StartOperationCycle env id) s.
Proof. intros Hw. apply safe_cycle_events; [done|]. intros; by apply safe_start. Qed.
Lemma safe_stop_cycle id s : wf_ s -> safe_ (StopOperationCycle id) s.
Proof. intros Hw. apply safe_cycle_events; [done|]. intros; by apply safe_stop_event. Qed.

Lemma safe_cycle {A} c (f : _ -> M (Dem T) A) s : is_Some (OperCycleCtxList s !! c) ->
  (forall x, safe_ (f x) s) -> safe_ (x ← cycle c; f x) s.
Proof.
  intros [x Hx] Hf. unfold safe, cycle. do 3 wp_step. eapply wp_demand; [done|]. apply Hf.
Qed.
Lemma safe_cycle_set {A} c (p : taf_diagEvent_OperCycleCtx_t -> A) `{!Field p} v s :
  wf_ s -> is_Some (OperCycleCtxList s !! c) -> safe_ (cycle_set c p v) s.
Proof.
  intros [Hev Hdt Hp Hr Hcr] Hc. unfold cycle_set. apply safe_cycle; [done|]. intros x.
  split; [|split_and!; cbn; by rewrite ?length_insert]. split; cbn; try done.
  eapply Forall_impl; [exact Hcr|]. intros q. cbn. apply lookup_alive. by rewrite length_insert.
Qed.

Lemma safe_changed c change assigned state s : wf_ s -> is_Some (OperCycleCtxList s !! c) ->
  safe_ change s -> safe_ (cycle_changed c change assigned state) s.
Proof.
  intros Hw Hc Hch. apply safe_bind; [done|]. intros r s1 Hw1 H1. case_match; [by apply safe_ret|].
  apply safe_bind; [apply safe_when; [done|]; intros _; apply safe_cycle_set; eauto with telaf|].
  intros [] s2 Hw2 H2. apply safe_bind; [|intros; by apply safe_ret].
  apply safe_cycle; [eauto 6 with telaf|]. intros x. by apply safe_emit.
Qed.

Lemma safe_set_cycle ref state s : wf_ s -> safe_ (SetOperCycleState env ref state) s.
Proof.
  intros Hw. unfold SetOperCycleState. case_match; [by apply safe_ret|].
  case_match; [by apply safe_ret|]. unfold safe, GetOperCycleCtx. destruct ref as [r|]; [|by wp_steps].
  do 4 wp_step. destruct (amap_find _ r) as [c|] eqn:Hr; [|by wp_step].
  apply amap_find_elem in Hr.
  assert (is_Some (OperCycleCtxList s !! c)) as Hc.
  { pose proof (wf_cycle_refs _ _ Hw) as Hf. rewrite Forall_forall in Hf. apply (Hf _ Hr). }
  apply safe_cycle; [done|]. intros x. cbv zeta.
  destruct state; case_match; try by apply safe_ret.
  - by apply safe_changed; [..|apply safe_start_cycle].
  - apply safe_bind; [by apply safe_stop_cycle|]. intros r' s1 Hw1 Hs1. case_match; [by apply safe_ret|].
    apply safe_changed; eauto using safe_start_cycle with telaf.
  - by apply safe_changed; [..|apply safe_stop_cycle].
Qed.

(** ** Reports *)
Hypothesis no_feature_A : featureA env = false.

Lemma effect_ok e d x x1 y s : wf_ s -> EventCtxList s !! e = Some x -> event_ok (fault_code_max env) x1 ->
  dtc_ok y -> dtcCtxPtr x1 = Some d ->
  event_ok (fault_code_max env) (effect_of e (EventCtxList s) x x1 y).1 /\
  dtc_ok (effect_of e (EventCtxList s) x x1 y).2 /\
  dtcCtxPtr (effect_of e (EventCtxList s) x x1 y).1 = Some d.
Proof.
  intros Hw Hx H1 Hy Hp. unfold effect_of. destruct (decide _); [done|].
  assert (forall x', event_ok (fault_code_max env) x' ->
    Forall (event_ok (fault_code_max env)) (<[e := x']> (EventCtxList s))) as Hins.
  { intros x' Hx'. apply Forall_insert; [apply Hw|done]. }
  destruct (eventFaultStatus x1); try done; cbn [fst snd].
  - pose proof (pass_event_ok _ _ H1). split_and!; [done| |done]. eapply pass_dtc_ok; [by apply Hins|done].
  - pose proof (confirmed_threshold _ _ H1). split_and!; [done| |].
    + eapply fail_dtc_ok; [by apply Hins|done].
    + unfold fail_event. cbv zeta. by case_match.
Qed.

Lemma reported_wf e d x y st s r s' : wf_ s -> EventCtxList s !! e = Some x -> dtcCtxPtr x = Some d ->
  DtcCtxList s !! d = Some y -> dtc_ok y -> reported e d x y st s r s' -> wf_ s' /\ same_sizes s s'.
Proof.
  intros Hw Hx Hp Hy Hyok Hr. destruct (wf_event _ e x s Hw Hx) as (Hxok & _). unfold reported in Hr.
  case_match.
  - destruct Hr as (c & x1 & Hrc & Ht & Hup).
    assert (event_ok (fault_code_max env) x1) as H1 by (by eapply tested_ok).
    assert (dtcCtxPtr x1 = Some d) as Hp1 by (destruct Ht as (?&?&?&?&?&?& ->); done).
    destruct (effect_ok e d x x1 y s Hw Hx H1 Hyok Hp1) as (Hx' & Hy' & Hp').
    eapply updated_wf; [done..| |exact Hup]. by rewrite Hp', Hp.
  - destruct Hr as (_ & code & n & Hl & Hup).
    eapply updated_wf; [done..| | | |exact Hup]; [|done..]. destruct Hxok. split; try done. cbn. by rewrite Hl.
Qed.

(** What the report leaves in memory is what the data base has kept of it. *)
Definition in_step (e d : nat) (x : taf_diagEvent_EventCtx_t) (y : taf_diagEvent_DtcCtx_t) s
    (r : le_result_t) s' : Prop :=
  exists x' y', EventCtxList s' !! e = Some x' /\ (r = LE_OK -> DtcCtxList s' !! d = Some y') /\
    kept_in_db x x' y y' (db s) r (db s').
Lemma updated_in_step e d x x' y y' s r s' : wf_ s -> EventCtxList s !! e = Some x -> DtcCtxList s !! d = Some y ->
  event_ok (fault_code_max env) x' -> dtc_ok y' -> updated e d x x' y y' s r s' -> in_step e d x y s r s'.
Proof.
  intros Hw Hx Hy Hx' Hy' Hup. exists x', y'. split_and!; [| |by eapply updated_in_db].
  - rewrite (upd_events _ _ _ _ _ _ _ _ _ Hup). by eapply list_lookup_insert_eq, lookup_lt_Some.
  - intros Hr. destruct (upd_dtcs _ _ _ _ _ _ _ _ _ Hup) as [->|[? _]]; [|done].
    by eapply list_lookup_insert_eq, lookup_lt_Some.
Qed.
Lemma reported_in_step e d x y st s r s' : wf_ s -> EventCtxList s !! e = Some x -> dtcCtxPtr x = Some d ->
  DtcCtxList s !! d = Some y -> reported e d x y st s r s' -> in_step e d x y s r s'.
Proof.
  intros Hw Hx Hp Hy Hr. destruct (wf_event _ e x s Hw Hx) as (Hxok & _).
  pose proof (Forall_lookup_1 _ _ _ _ (wf_dtcs _ _ Hw) Hy) as Hyok. unfold reported in Hr. case_match.
  - destruct Hr as (c & x1 & Hrc & Ht & Hup).
    assert (event_ok (fault_code_max env) x1) as H1 by (by eapply tested_ok).
    assert (dtcCtxPtr x1 = Some d) as Hp1 by (destruct Ht as (?&?&?&?&?&?& ->); done).
    destruct (effect_ok e d x x1 y s Hw Hx H1 Hyok Hp1) as (Hx' & Hy' & _).
    eapply updated_in_step; [done..|exact Hup].
  - destruct Hr as (_ & code & n & Hl & Hup). eapply updated_in_step; [done..| | |exact Hup]; [|done].
    destruct Hxok. split; try done. cbn. by rewrite Hl.
Qed.

(** A report with a reference: the checks, and then its effect. *)
Lemma report_done s r e d x y st code size :
  wf_ s -> st <> TAF_DIAGEVENT_UNKNOWN ->
  amap_find (SvcRefMap s) r = Some e -> EventCtxList s !! e = Some x ->
  dtcCtxPtr x = Some d -> DtcCtxList s !! d = Some y ->
  code_fits x code size ->
  wp (SetStatusWithSupplierFaultCode env (Some r) st code size)
    (fun res s' => if decide (condition env s x = LE_OK) then reported e d x y st s res s'
                   else res = condition env s x /\ s' = s) s.
Proof.
  intros Hw Hst Hr Hx Hp Hy Hc. unfold SetStatusWithSupplierFaultCode, GetEventCtx.
  do 2 (wp_step; tests; try done). do 4 wp_step. rewrite Hr. wp_step.
  eapply wp_conseq; [eapply conditions_checked; [done|]|].
  { intros d' Hd'. rewrite Hp in Hd'. simplify_eq. by exists y. }
  intros res s' [-> ->]. cbv beta. wp_step; tests; [wp_step; by rewrite decide_False|].
  rewrite no_feature_A. destruct (decide (condition env s x = LE_OK)); [|done]. apply status_set; try done.
  apply (ok_code _ _ (proj1 (wf_event _ e x s Hw Hx))).
Qed.

Lemma safe_report ref st code size s : wf_ s -> allowed s (Report ref st code size) ->
  safe_ (SetStatusWithSupplierFaultCode env ref st code size) s.
Proof.
  intros Hw Hfit. destruct ref as [r|]; [|by apply safe_ret].
  destruct (decide (st = TAF_DIAGEVENT_UNKNOWN)) as [->|Hst]; [by apply safe_ret|].
  destruct (amap_find (SvcRefMap s) r) as [e|] eqn:Hr.
  - pose proof (amap_find_elem _ _ _ Hr) as He.
    destruct (proj1 (Forall_forall _ _) (wf_refs _ _ Hw) _ He) as [x Hx]. cbn in Hx.
    destruct (wf_event _ e x s Hw Hx) as (Hxok & d & y & Hp & Hy & Hyok).
    eapply wp_conseq; [eapply (report_done s r e d x y); try done|].
    + destruct code; [|done]. unfold code_fits. by rewrite (ok_code _ _ Hxok).
    + intros res s'. cbv beta. case_decide; [by eapply reported_wf|]. by intros [_ ->].
  - unfold safe, SetStatusWithSupplierFaultCode, GetEventCtx. do 2 (wp_step; tests; try done).
    do 4 wp_step. rewrite Hr. by wp_step.
Qed.

Lemma safe_reset_status ref status s : wf_ s -> safe_ (ResetDebounceStatus env ref status) s.
Proof.
  intros Hw. unfold ResetDebounceStatus. case_match; [by apply safe_ret|].
  unfold safe, GetEventCtx. destruct ref as [r|]; [|done]. do 4 wp_step.
  destruct (amap_find _ r) as [e|] eqn:Hr; [|by wp_step]. apply amap_find_elem in Hr.
  pose proof (proj1 (Forall_forall _ _) (wf_refs _ _ Hw) _ Hr) as He. cbn in He.
  apply (safe_bind (fault_code_max env)); [assign_ok|]. intros [] s1 Hw1 H1.
  apply safe_event; [eauto with telaf|]. intros x _.
  apply safe_bind; [|intros; by apply safe_ret]. apply safe_when; [done|]. intros _.
  apply safe_reset; eauto with telaf.
Qed.


Lemma safe_failed e s : wf_ s -> is_Some (EventCtxList s !! e) -> safe_ (UpdateEventOnFailed env e) s.
Proof.
  intros Hw [x Hx]. destruct (wf_event _ e x s Hw Hx) as (Hxok & d & y & Hp & Hy & Hyok).
  eapply wp_conseq; [by eapply event_failed|]. intros r s' Hup. pose proof (confirmed_threshold _ _ Hxok).
  eapply updated_wf; [done..| | |exact Hup].
  - eapply fail_dtc_ok; [|done]. apply Forall_insert; [apply Hw|done].
  - unfold fail_event. cbv zeta. by case_match.
Qed.
Lemma safe_passed e s : wf_ s -> is_Some (EventCtxList s !! e) -> safe_ (UpdateEventOnPassed e) s.
Proof.
  intros Hw [x Hx]. destruct (wf_event _ e x s Hw Hx) as (Hxok & d & y & Hp & Hy & Hyok).
  eapply wp_conseq; [by eapply (event_passed env)|]. intros r s' Hup. pose proof (pass_event_ok _ _ Hxok).
  eapply updated_wf; [done..| |done|exact Hup].
  eapply pass_dtc_ok; [|done]. apply Forall_insert; [apply Hw|done].
Qed.

Lemma safe_timeout e s : wf_ s -> allowed s (DebounceTimeout e) ->
  safe_ (TimeBasedDebounceTimerHandler env e) s.
Proof.
  intros Hw (x & Hx & Ht). assert (is_Some (EventCtxList s !! e)) as He by (by exists x).
  assert (forall c f (k : M (Dem T) le_result_t) (b : bool), -128 <= c <= 127 ->
    (forall s1, wf_ s1 -> is_Some (EventCtxList s1 !! e) -> safe_ k s1) ->
    safe_ (eset e debounceCounter c;; eset e eventFaultStatus f;; when b (k;; mret tt)) s) as H.
  { intros c f k b Hc Hk. apply safe_bind.
    { apply safe_eset; [done..|]. intros x' Hx' []. simplify_eq. split; [|done]. split; cbn; try done.
      by rewrite Ht. }
    intros [] s1 Hw1 Hs1. apply safe_bind; [assign_ok|]. intros [] s2 Hw2 Hs2.
    apply safe_when; [done|]. intros _. apply safe_bind; [apply Hk; eauto with telaf|].
    intros; by apply safe_ret. }
  unfold TimeBasedDebounceTimerHandler. apply safe_event; [done|]. intros x' Hx'.
  destruct (timerType x'); [apply H|apply H|by apply safe_ret]; auto using safe_failed, safe_passed; lia.
Qed.

(** ** Enable conditions *)
Lemma safe_state {A} (f : Dem T -> M (Dem T) A) s : safe_ (f s) s -> safe_ (x ← get; f x) s.
Proof. intros H. unfold safe. by do 2 wp_step. Qed.

Lemma safe_enable_event id e s : wf_ s -> is_Some (EventCtxList s !! e) -> safe_ (enable_event env id e) s.
Proof.
  intros Hw He. apply safe_event; [done|]. intros x _. apply safe_state.
  destruct (amap_find _ _); [|by apply safe_ret]. destruct (enable_status _ _ _); [|by apply safe_ret].
  apply safe_bind.
  { apply safe_when; [done|]. intros _. apply safe_bind.
    - apply safe_event; [done|]. intros x' _. destruct (ev_svcRef x'); [by apply safe_emit|by apply safe_ret].
    - intros [] s1 Hw1 Hs1. assign_ok. }
  intros [] s1 Hw1 Hs1. apply safe_when; [done|]. intros _. apply safe_reset; eauto with telaf.
Qed.
Lemma safe_set_condition id b s : wf_ s -> safe_ (SetEnableCondition env id b) s.
Proof.
  intros Hw. apply safe_bind; [destruct Hw; by repeat split|]. intros [] s1 Hw1 Hs1.
  apply safe_bind; [|intros; by apply safe_ret].
  apply safe_all_events. intros l Hl. apply safe_bind; [|intros; by apply safe_ret].
  apply safe_for_each; [done|].
  intros e s2 He Hw2 Hs2. rewrite Forall_forall in Hl. apply safe_enable_event; eauto with telaf.
Qed.

(** ** Clearing *)
Lemma cleared_ok : status_ok (cleared_status env) = true.
Proof. unfold cleared_status. by destruct (featureA env). Qed.

Lemma safe_clear_event i s : wf_ s -> (forall e, i = Some e -> is_Some (EventCtxList s !! e)) ->
  safe_ (clear_event env i) s.
Proof.
  intros Hw Hi. destruct i as [e|]; [|by apply safe_ret]. specialize (Hi e eq_refl).
  apply safe_event; [done|]. intros x Hx. pose proof (ok_name _ _ (proj1 (wf_event _ e x s Hw Hx))) as Hname.
  apply safe_bind; [by apply safe_set_event_status, cleared_ok|]. intros [] s1 Hw1 Hs1.
  apply safe_bind; [apply safe_when; [done|]; intros _; apply safe_report_event; eauto with telaf|].
  intros [] s2 Hw2 Hs2. apply safe_bind.
  { apply safe_when; [done|]. intros _. apply safe_bind; [|intros; by apply safe_ret].
    apply safe_write_event; [done|done|apply cleared_ok]. }
  intros [] s3 Hw3 Hs3. apply safe_bind.
  { apply safe_eset; [done|eauto 6 with telaf|]. intros x' _ []. split; [split; cbn; try done; lia|done]. }
  intros [] s4 Hw4 Hs4. apply safe_bind; [apply safe_eset; [done|eauto 7 with telaf|];
    intros x' _ []; split; [by split|done]|]. intros [] s5 Hw5 Hs5.
  apply safe_when; [done|]. intros _. apply safe_reset; [done|].
  assert (same_sizes s s5) by (do 4 (etransitivity; [eassumption|]); done). eauto with telaf.
Qed.

Lemma found_event (l : list taf_diagEvent_EventCtx_t) (ids : list Z) i e :
  i ∈ find_event l <$> ids -> i = Some e -> is_Some (l !! e).
Proof. intros H ->. apply list_elem_of_fmap in H as (id & H & _). by eapply find_event_some. Qed.

Lemma safe_clear_dtc d s : wf_ s -> is_Some (DtcCtxList s !! d) -> safe_ (ClearDTCAndEventData env d) s.
Proof.
  intros Hw Hd. apply safe_dtc; [done|]. intros y _. apply safe_bind.
  { apply safe_dset; [done..|]. intros y' _ []. split; cbn; [done|lia|done]. }
  intros [] s1 Hw1 Hs1. apply safe_bind; [apply safe_set_dtc_status; eauto using cleared_ok with telaf|].
  intros [] s2 Hw2 Hs2. apply safe_bind;
    [apply safe_when; [done|]; intros _; apply safe_report_dtc; eauto with telaf|].
  intros [] s3 Hw3 Hs3. apply safe_bind.
  { apply safe_when; [done|]. intros _. apply safe_bind; [apply safe_store_dtc; eauto 6 with telaf|].
    intros; by apply safe_ret. }
  intros [] s4 Hw4 Hs4. unfold safe, events_of. do 2 wp_step.
  assert (is_Some (DtcCtxList s4 !! d)) as [y4 Hy4] by eauto 7 with telaf.
  eapply wp_dtc; [done|]. do 2 wp_step. wp_step. apply safe_for_each; [done|].
  intros i s5 Hi Hw5 Hs5. apply safe_clear_event; [done|]. intros e ->.
  eapply alive_events; [exact Hs5|]. by eapply found_event.
Qed.

Lemma safe_code_of {A} code (f : option nat -> M (Dem T) A) s : wf_ s ->
  (forall i, (forall d, i = Some d -> is_Some (DtcCtxList s !! d) /\ storable_code code) -> safe_ (f i) s) ->
  safe_ (ctx ← GetDtcCtxByCode code; f ctx) s.
Proof.
  intros Hw Hf. unfold safe, GetDtcCtxByCode. do 4 wp_step. apply Hf. intros d.
  destruct (list_find _ _) as [[d' y]|] eqn:H; [|done]. intros [= <-].
  apply list_find_Some in H as (H & <- & _). split; [by exists y|].
  by eapply ok_dtc_code, Forall_lookup_1, H; [apply Hw].
Qed.
Lemma safe_id_of {A} id (f : option nat -> M (Dem T) A) s :
  (forall i, (forall e, i = Some e -> is_Some (EventCtxList s !! e)) -> safe_ (f i) s) ->
  safe_ (ctx ← GetEventCtxById id; f ctx) s.
Proof.
  intros Hf. unfold safe, GetEventCtxById. do 4 wp_step. apply Hf. intros e. apply find_event_some.
Qed.
Lemma safe_cycle_of {A} id (f : option nat -> M (Dem T) A) s :
  (forall i, (forall c, i = Some c -> is_Some (OperCycleCtxList s !! c)) -> safe_ (f i) s) ->
  safe_ (ctx ← GetOperCycleCtxById id; f ctx) s.
Proof.
  intros Hf. unfold safe, GetOperCycleCtxById. do 4 wp_step. apply Hf. intros c.
  destruct (list_find _ _) as [[c' y]|] eqn:H; [|done]. intros [= <-].
  apply list_find_Some in H as (H & _). by exists y.
Qed.

Lemma safe_clear code client s : wf_ s -> safe_ (ClearDtc env code client) s.
Proof.
  intros Hw. unfold ClearDtc, ClearAllDtc, ClearAllDTCAndEventData, ClearSingleDtc. case_match.
  - apply safe_bind; [apply safe_on_db; [done|apply DeleteAllData_keeps]|]. intros r s1 Hw1 Hs1.
    case_match; [by apply safe_ret|]. case_match; [|by apply safe_ret].
    apply safe_bind; [|intros; by apply safe_ret]. apply safe_when; [done|]. intros _.
    apply safe_all_dtcs. intros l Hl. apply safe_bind; [|intros; by apply safe_emit].
    apply safe_for_each; [done|]. intros d s2 Hd Hw2 Hs2. rewrite Forall_forall in Hl.
    apply safe_clear_dtc; eauto with telaf.
  - apply safe_code_of; [done|]. intros [d|] Hi; [|by apply safe_ret]. destruct (Hi d eq_refl) as [Hd Hcode].
    apply safe_bind; [apply safe_dset; [done..|]; intros y _ []; by split|]. intros [] s1 Hw1 Hs1.
    apply safe_dtc; [eauto with telaf|]. intros y _. case_match; [by apply safe_ret|].
    apply safe_bind.
    { apply safe_on_db; [done|]. eapply wp_conseq; [apply DeleteData_keeps|]. auto. }
    intros r s2 Hw2 Hs2.
    case_match; [by apply safe_ret|]. case_match; [|by apply safe_ret].
    apply safe_bind; [apply safe_clear_dtc; eauto with telaf|]. intros [] s3 Hw3 Hs3.
    apply safe_bind; [by apply safe_emit|]. intros; by apply safe_ret.
Qed.

Lemma safe_flag code (p : taf_diagEvent_DtcCtx_t -> bool) `{!Field p} store b s : wf_ s ->
  (forall t, wp store (fun _ t' => sound t -> storable_code code -> sound t') t) ->
  (forall y, dtc_ok y -> dtc_ok (y <| p := b |>)) ->
  safe_ (set_dtc_flag code p store b) s.
Proof.
  intros Hw Hstore Hok. apply safe_code_of; [done|]. intros [d|] Hi; [|by apply safe_ret].
  destruct (Hi d eq_refl) as [Hd Hcode]. apply safe_bind.
  { apply safe_on_db; [done|]. eapply wp_conseq; [apply Hstore|]. auto. }
  intros r s1 Hw1 Hs1. case_match; [by apply safe_ret|].
  apply safe_bind; [apply safe_dset; eauto with telaf|]. intros; by apply safe_ret.
Qed.
Lemma safe_suppress_all b s : wf_ s -> safe_ (SetAllDTCSuppression b) s.
Proof.
  intros Hw. apply safe_bind; [apply safe_on_db; [done|apply SetAllDTCSuppression_keeps]|].
  intros r s1 Hw1 Hs1. case_match; [by apply safe_ret|]. apply safe_bind; [|intros; by apply safe_ret].
  apply safe_all_dtcs. intros l Hl. apply safe_for_each; [done|]. intros d s2 Hd Hw2 Hs2.
  rewrite Forall_forall in Hl. apply safe_dset; [done|eauto with telaf|]. intros y _ []. by split.
Qed.

(** ** References *)
Lemma safe_set_refs m s : wf_ s -> Forall (fun p : Z * nat => is_Some (EventCtxList s !! p.2)) m ->
  safe_ (modify (fun s => s <| SvcRefMap := m |>)) s.
Proof. intros [] Hm. by repeat split. Qed.
Lemma safe_set_cycle_refs m s : wf_ s -> Forall (fun p : Z * nat => is_Some (OperCycleCtxList s !! p.2)) m ->
  safe_ (modify (fun s => s <| OperCycleRefMap := m |>)) s.
Proof. intros [] Hm. by repeat split. Qed.
Lemma safe_modify_refs (f : list (Z * nat) -> list (Z * nat)) s : wf_ s ->
  Forall (fun p : Z * nat => is_Some (EventCtxList s !! p.2)) (f (SvcRefMap s)) ->
  safe_ (modify (fun s => s <| SvcRefMap := f (SvcRefMap s) |>)) s.
Proof. apply (safe_set_refs (f (SvcRefMap s)) s). Qed.
Lemma safe_modify_cycle_refs (f : list (Z * nat) -> list (Z * nat)) s : wf_ s ->
  Forall (fun p : Z * nat => is_Some (OperCycleCtxList s !! p.2)) (f (OperCycleRefMap s)) ->
  safe_ (modify (fun s => s <| OperCycleRefMap := f (OperCycleRefMap s) |>)) s.
Proof. apply (safe_set_cycle_refs (f (OperCycleRefMap s)) s). Qed.
Lemma Forall_delete_ref (P : Z * nat -> Prop) m ref : Forall P m -> Forall P (delete_ref m ref).
Proof. rewrite !Forall_forall. intros H p Hp. apply H. unfold delete_ref in Hp. by apply list_elem_of_filter in Hp as []. Qed.

Lemma safe_drop_service e s : wf_ s -> is_Some (EventCtxList s !! e) -> safe_ (drop_service e) s.
Proof.
  intros Hw He. apply safe_event; [done|]. intros x _. apply safe_when; [done|]. intros _.
  apply safe_bind; [|intros [] s1 Hw1 Hs1; assign_ok].
  apply (safe_modify_refs (fun m => delete_ref m (ev_svcRef x))); [done|]. apply Forall_delete_ref, Hw.
Qed.
Lemma safe_leave_service session e s : wf_ s -> is_Some (EventCtxList s !! e) ->
  safe_ (leave_service session e) s.
Proof. intros Hw He. apply safe_event; [done|]. intros x _. assign_ok. Qed.
Lemma safe_drop_cycle c s : wf_ s -> is_Some (OperCycleCtxList s !! c) -> safe_ (drop_cycle c) s.
Proof.
  intros Hw He. apply safe_cycle; [done|]. intros x. apply safe_when; [done|]. intros _.
  apply safe_bind; [|intros [] s1 Hw1 Hs1; apply safe_cycle_set; eauto with telaf].
  apply (safe_modify_cycle_refs (fun m => delete_ref m (operCycleRef x))); [done|]. apply Forall_delete_ref, Hw.
Qed.
Lemma safe_leave_cycle session c s : wf_ s -> is_Some (OperCycleCtxList s !! c) ->
  safe_ (leave_cycle session c) s.
Proof. intros Hw He. apply safe_cycle; [done|]. intros x. by apply safe_cycle_set. Qed.

(** A loop over the contexts that a map of references holds. *)
Lemma safe_services (body : nat -> M (Dem T) unit) s : wf_ s ->
  (forall e s', wf_ s' -> is_Some (EventCtxList s' !! e) -> safe_ (body e) s') ->
  safe_ (for_each (SvcRefMap s).*2 body) s.
Proof.
  intros Hw Hb. apply safe_for_each; [done|]. intros e s' He Hw' Hs'. apply Hb; [done|].
  eapply alive_events; [done|]. pose proof (wf_refs _ _ Hw) as Hf. rewrite Forall_forall in Hf.
  apply list_elem_of_fmap in He as (p & -> & Hp). by apply Hf.
Qed.
Lemma alive_ref_cycle s c : wf_ s -> c ∈ (OperCycleRefMap s).*2 -> is_Some (OperCycleCtxList s !! c).
Proof.
  intros Hw Hc. pose proof (wf_cycle_refs _ _ Hw) as Hf. rewrite Forall_forall in Hf.
  apply list_elem_of_fmap in Hc as (p & -> & Hp). by apply Hf.
Qed.
Lemma safe_cycle_refs l (body : nat -> M (Dem T) unit) s : wf_ s ->
  Forall (fun c => is_Some (OperCycleCtxList s !! c)) l ->
  (forall c s', wf_ s' -> is_Some (OperCycleCtxList s' !! c) -> safe_ (body c) s') ->
  safe_ (for_each l body) s.
Proof.
  intros Hw Hl Hb. rewrite Forall_forall in Hl. apply safe_for_each; [done|]. intros c s' Hc Hw' Hs'.
  apply Hb; [done|]. eapply alive_cycles; eauto.
Qed.

Lemma safe_get_service id session s : wf_ s -> safe_ (GetService env id session) s.
Proof.
  intros Hw. apply safe_id_of. intros [e|] Hi; [|by apply safe_ret]. specialize (Hi e eq_refl).
  apply safe_event; [done|]. intros x _. apply safe_bind.
  - destruct (ev_svcRef x); [by apply safe_ret|]. apply safe_bind; [by apply safe_emit|].
    intros [] s1 Hw1 Hs1. apply safe_bind; [by apply safe_query|]. intros [r|] s2 Hw2 Hs2; [|by apply safe_ret].
    apply safe_bind.
    { apply (safe_modify_refs (fun m => m ++ [(r, e)])); [done|]. apply Forall_app; split; [apply Hw2|].
      apply Forall_singleton. eauto with telaf. }
    intros [] s3 Hw3 Hs3. apply safe_bind; [assign_ok|]. intros [] s4 Hw4 Hs4.
    apply safe_bind; [|intros; by apply safe_ret].
    apply safe_eset; [done|eauto 6 with telaf|]. intros ? ? []; split; [by split|done].
  - intros b s1 Hw1 Hs1. destruct b; [|by apply safe_ret]. apply safe_event; [eauto with telaf|]. intros x1 _.
    apply safe_bind; [assign_ok|]. intros; by apply safe_ret.
Qed.
Lemma safe_get_cycle id session s : wf_ s -> safe_ (GetOperCycle env id session) s.
Proof.
  intros Hw. apply safe_cycle_of. intros [c|] Hi; [|by apply safe_ret]. specialize (Hi c eq_refl).
  apply safe_cycle; [done|]. intros x. apply safe_bind.
  - destruct (operCycleRef x); [by apply safe_ret|]. apply safe_bind; [by apply safe_emit|].
    intros [] s1 Hw1 Hs1. apply safe_bind; [by apply safe_query|]. intros [r|] s2 Hw2 Hs2; [|by apply safe_ret].
    apply safe_bind.
    { apply (safe_modify_cycle_refs (fun m => m ++ [(r, c)])); [done|]. apply Forall_app; split; [apply Hw2|].
      apply Forall_singleton. eauto with telaf. }
    intros [] s3 Hw3 Hs3. apply safe_bind; [apply safe_cycle_set; eauto with telaf|]. intros [] s4 Hw4 Hs4.
    apply safe_bind; [apply safe_cycle_set; eauto 6 with telaf|intros; by apply safe_ret].
  - intros b s1 Hw1 Hs1. destruct b; [|by apply safe_ret]. apply safe_cycle; [eauto with telaf|]. intros x1.
    apply safe_bind; [apply safe_cycle_set; eauto with telaf|]. intros; by apply safe_ret.
Qed.
Lemma safe_remove_svc ref session s : wf_ s -> safe_ (RemoveSvc ref session) s.
Proof.
  intros Hw. unfold RemoveSvc. case_match; [by apply safe_ret|]. apply safe_state.
  apply safe_bind; [|intros; by apply safe_ret]. apply safe_services; [done|]. intros e s1 Hw1 He.
  apply safe_event; [done|]. intros x _. apply safe_bind.
  - apply safe_when; [done|]. intros _. by apply safe_leave_service.
  - intros [] s2 Hw2 Hs2. apply safe_drop_service; eauto with telaf.
Qed.
Lemma safe_remove_cycle ref session s : wf_ s -> safe_ (RemoveOperCycle ref session) s.
Proof.
  intros Hw. unfold RemoveOperCycle. case_match; [by apply safe_ret|]. apply safe_state.
  apply safe_bind; [|intros; by apply safe_ret]. apply safe_cycle_refs; [done| |].
  { apply Forall_forall. intros c. by apply alive_ref_cycle. }
  intros c s1 Hw1 Hc. apply safe_cycle; [done|]. intros x. apply safe_bind.
  - apply safe_when; [done|]. intros _. by apply safe_leave_cycle.
  - intros [] s2 Hw2 Hs2. apply safe_drop_cycle; eauto with telaf.
Qed.
Lemma safe_disconnect session s : wf_ s -> safe_ (OnClientDisconnection session) s.
Proof.
  intros Hw. destruct session as [session|]; [|by apply safe_ret]. apply safe_state. apply safe_bind.
  - apply safe_services; [done|]. intros e s1 Hw1 He. apply safe_bind; [by apply safe_leave_service|].
    intros [] s2 Hw2 Hs2. apply safe_drop_service; eauto with telaf.
  - intros [] s1 Hw1 Hs1. apply safe_cycle_refs; [done| |].
    + apply Forall_forall. intros c Hc. eapply alive_cycles; [done|]. by apply alive_ref_cycle.
    + intros c s2 Hw2 Hc. apply safe_bind; [by apply safe_leave_cycle|]. intros [] s3 Hw3 Hs3.
      apply safe_drop_cycle; eauto with telaf.
Qed.

(** ** All requests *)
Lemma served q s : wf_ s -> allowed s q -> safe_ (serve q) s.
Proof.
  intros Hw Ha. destruct q; cbn [serve];
    try (apply safe_bind; [|intros; by apply safe_ret]).
  - by apply safe_report.
  - by apply safe_reset_status.
  - by apply safe_set_cycle.
  - by apply safe_set_condition.
  - by apply safe_clear.
  - case_match; apply safe_flag; try done; [intros; apply SetDTCActivation_keeps|by intros y []..|
      intros; apply SetDTCActivation_keeps|by intros y []].
  - apply safe_flag; [done|intros; apply SetDTCSuppression_keeps|by intros y []].
  - by apply safe_suppress_all.
  - by apply safe_get_service.
  - by apply safe_remove_svc.
  - by apply safe_get_cycle.
  - by apply safe_remove_cycle.
  - by apply safe_disconnect.
  - by apply safe_timeout.
  - apply safe_event; [done|]. intros x _. by apply safe_emit.
Qed.
End Safe.
