(* ===== verification/DemCycle.v ===== *)
(** * Diagnostic events: operation cycles

    What starting and stopping an operation cycle does to the events and the DTCs of the cycle,
    over a data base that does not fail ([Reliable]). *)
From S2P Require Import Prelude DiagCfg DemTypes DemEvent DemSvc DemSpec DemReport DemInv.

(** ** A data base that does not fail *)
Class Reliable (T : Type) `{!Store T} := {
  SetEventStatusByName_works name v t : wp (db_SetEventStatusByName name v) (fun r _ => r = LE_OK) t;
  SetDTCStatus_works code v n t : wp (db_SetDTCStatus code v n) (fun r _ => r = LE_OK) t }.

(** ** One event *)

(** What is common to an event before and after a change of its status and debouncing. *)
Definition same_event (x x' : taf_diagEvent_EventCtx_t) : Prop :=
  event_id x' = event_id x /\ eventEnableStatus x' = eventEnableStatus x /\ ev_svcRef x' = ev_svcRef x.

(** A cycle that starts: nothing is known of its tests, and debouncing begins again. *)
Definition starts (x x' : taf_diagEvent_EventCtx_t) : Prop :=
  same_event x x' /\ eventFaultStatus x' = TAF_DIAGEVENT_UNKNOWN /\ debounceCounter x' = 0 /\
  fdcTriggerFlag x' = false /\ eventUdsStatus x' = started (eventUdsStatus x) /\
  failureCounter x' = failureCounter x.
(** A cycle that stops: what was tested and did not fail is no longer pending. *)
Definition stopped_status (v : Z) : Z :=
  if unpending v then clear_bits v TAF_DIAGEVENT_UDS_STATUS_PDTC else v.
Definition stops (x x' : taf_diagEvent_EventCtx_t) : Prop :=
  x' = x <| eventUdsStatus := stopped_status (eventUdsStatus x) |>.

Definition move_dtc (g : Z -> Z) (y : taf_diagEvent_DtcCtx_t) : taf_diagEvent_DtcCtx_t :=
  y <| dtcStatus := g (dtcStatus y) |>.
Definition move_dtcs (g : Z -> Z) (x : taf_diagEvent_EventCtx_t) (ds : list taf_diagEvent_DtcCtx_t) :=
  match dtcCtxPtr x with Some d => alter (move_dtc g) d ds | None => ds end.

(** The step of one event: [R] of its context, and [g] of the status of its DTC. *)
Definition moves {T} (R : relation taf_diagEvent_EventCtx_t) (g : Z -> Z) (e : nat)
    (x : taf_diagEvent_EventCtx_t) (s : Dem T) (r : le_result_t) (s' : Dem T) : Prop :=
  r = LE_OK /\ unmoved s s' /\ DtcCtxList s' = move_dtcs g x (DtcCtxList s) /\
  exists x', R x x' /\ EventCtxList s' = <[e := x']> (EventCtxList s).

Lemma started_twice v : started (started v) = started v.
Proof.
  unfold started, set_bits, clear_bits. apply Z.bits_inj'. intros n Hn.
  rewrite !Z.lor_spec, !Z.land_spec, !Z.lnot_spec, !Z.lor_spec, !Z.land_spec, !Z.lnot_spec by done.
  by destruct (Z.testbit v n), (Z.testbit _ n), (Z.testbit _ n).
Qed.
Lemma stopped_twice v : stopped_status (stopped_status v) = stopped_status v.
Proof.
  unfold stopped_status. destruct (unpending v) eqn:Hu; [|by rewrite Hu].
  assert (bits (clear_bits v TAF_DIAGEVENT_UDS_STATUS_PDTC) TAF_DIAGEVENT_UDS_STATUS_PDTC = false) as Hp.
  { unfold bits, clear_bits. rewrite <- Z.land_assoc. by rewrite Z.land_0_r. }
  unfold unpending at 1. by rewrite Hp, andb_false_r.
Qed.

Section Steps.
Context {T : Type} `{!Store T} `{!Database T} `{!Reliable T}.
Variable env : DemEnv.
Hypothesis no_feature_A : featureA env = false.
Implicit Types s : Dem T.

Lemma event_works e x s : EventCtxList s !! e = Some x ->
  wp (StoreAndReportEventUdsStatus e)
    (fun r s' => r = LE_OK /\ unmoved s s' /\ EventCtxList s' = EventCtxList s /\
      DtcCtxList s' = DtcCtxList s) s.
Proof.
  intros He. unfold StoreAndReportEventUdsStatus. wp_step. eapply wp_event; [done|]. wp_step.
  apply wp_on_db. eapply wp_conseq; [apply SetEventStatusByName_works|]. intros r t ->. cbv beta. wp_step; tests; [done|].
  wp_step. eapply wp_conseq; [by eapply event_reported|]. intros _ s' (es & -> & _). wp_step.
  by split_and!.
Qed.
Lemma dtc_works d y s : DtcCtxList s !! d = Some y ->
  wp (StoreAndReportDTCStatus d)
    (fun r s' => r = LE_OK /\ unmoved s s' /\ EventCtxList s' = EventCtxList s /\
      DtcCtxList s' = DtcCtxList s) s.
Proof.
  intros He. unfold StoreAndReportDTCStatus, store_dtc. do 2 wp_step. eapply wp_dtc; [done|].
  apply wp_on_db. eapply wp_conseq; [apply SetDTCStatus_works|]. intros r t ->. cbv beta. wp_step; tests; [done|].
  wp_step. eapply dtc_reported; [done|]. wp_step. by split_and!.
Qed.

(** What follows the event: its DTC, when its status moves. *)
Lemma dtc_follows (g : Z -> Z) x s (c : nat -> taf_diagEvent_DtcCtx_t -> M (Dem T) le_result_t) s0 :
  (forall d, dtcCtxPtr x = Some d -> is_Some (DtcCtxList s !! d)) -> unmoved s0 s ->
  DtcCtxList s = DtcCtxList s0 ->
  (forall d y, DtcCtxList s !! d = Some y -> wp (c d y) (fun r s' => r = LE_OK /\ unmoved s s' /\
     EventCtxList s' = EventCtxList s /\ DtcCtxList s' = <[d := move_dtc g y]> (DtcCtxList s)) s) ->
  wp (match dtcCtxPtr x with None => mret LE_OK | Some d => y ← dtc d; c d y end)
    (fun r s' => r = LE_OK /\ unmoved s0 s' /\ EventCtxList s' = EventCtxList s /\
      DtcCtxList s' = move_dtcs g x (DtcCtxList s0)) s.
Proof.
  intros Hd Hu Hs Hc. unfold move_dtcs. rewrite <- Hs.
  destruct (dtcCtxPtr x) as [d|]; [|by wp_step]. destruct (Hd d eq_refl) as [y Hy].
  wp_step. eapply wp_dtc; [done|]. eapply wp_conseq; [by apply Hc|].
  intros r s' (-> & Hu' & He & Hds). split_and!; [done|by transitivity s|done|]. rewrite Hds.
  apply list_eq. intros i. destruct (decide (i = d)) as [->|Hne].
  - rewrite list_lookup_alter_eq, Hy. by apply list_lookup_insert_eq, (lookup_lt_Some _ _ y).
  - by rewrite list_lookup_insert_ne, list_lookup_alter_ne.
Qed.

(** Debouncing begins again; only the timers tell what it was doing. *)
Lemma counter_reset e x s : EventCtxList s !! e = Some x ->
  wp (ResetDebounceCounter env e) (fun _ s' => exists t es, dtc_reports es = [] /\
    s' = log es (put_event e (x <| debounceCounter := 0 |> <| timerType := t |>) s)) s.
Proof.
  intros He. unfold ResetDebounceCounter. rewrite no_feature_A. wp_step. eapply wp_eset; [done|].
  set (x1 := x <| debounceCounter := 0 |>). wp_step. eapply wp_event; [by eapply lookup_put_event|].
  do 2 wp_step; [done|]. wp_step. wp_step.
  2:{ exists (timerType x), []. rewrite trail_nil. by destruct x. }
  apply wp_query. wp_step.
  eapply (wp_conseq _ (fun _ s' => exists t es, dtc_reports es = [] /\
    s' = log es (put_event e (x1 <| timerType := t |>) s))).
  - wp_step.
    + wp_step. apply wp_notes. eapply wp_eset; [by eapply put_event_lookup|]. rewrite put_event_log, put_event_twice.
      exists TAF_DIAGEVENT_TIMER_UNKNOWN, [TimerStop (DebounceTimer e)]. done.
    + exists (timerType x), []. rewrite trail_nil. by destruct x.
  - intros _ s' (t & es & Hes & ->). cbv beta. eapply wp_conseq; [apply stopped|].
    intros _ s' (es' & -> & Hes'). exists t, (es ++ es'). by rewrite log_log, dtc_reports_app, Hes, Hes'.
Qed.

Lemma event_starts e x s : EventCtxList s !! e = Some x ->
  (forall d, dtcCtxPtr x = Some d -> is_Some (DtcCtxList s !! d)) ->
  wp (start_event env e) (moves starts started e x s) s.
Proof.
  intros He Hd. unfold start_event. wp_step. eapply wp_event; [done|].
  wp_step. eapply wp_eset; [done|]. wp_step. eapply wp_conseq; [by eapply counter_reset, lookup_put_event|].
  intros _ s' (t & es & _ & ->). cbv beta. rewrite put_event_twice.
  wp_step. eapply wp_eset; [by eapply put_event_lookup|]. rewrite put_event_log, put_event_twice.
  wp_step. eapply wp_eset; [by eapply put_event_lookup|]. rewrite put_event_log, put_event_twice.
  match goal with |- context [put_event e ?z s] => set (x' := z) end. set (s1 := log es (put_event e x' s)).
  assert (starts x x') as Hx' by (by destruct x; repeat split).
  assert (EventCtxList s1 !! e = Some x') as He1 by (by eapply put_event_lookup).
  wp_step. eapply (wp_conseq _ (fun r s2 => r = LE_OK /\ unmoved s1 s2 /\ EventCtxList s2 = EventCtxList s1 /\
    DtcCtxList s2 = DtcCtxList s1)).
  { wp_step; [by eapply event_works|by wp_step]. }
  intros r s2 (-> & Hu2 & He2 & Hd2). cbv beta. wp_step; tests; [done|].
  eapply wp_conseq; [apply (dtc_follows started x s2 _ s1); [by rewrite Hd2|done..|]|].
  - intros d y Hy. wp_step. eapply wp_dset; [done|]. wp_step; tests.
    + eapply wp_conseq; [by eapply dtc_works, lookup_put_dtc|].
      intros r s3 (-> & Hu3 & He3 & Hd3). split_and!; [done|by destruct Hu3; split|by rewrite He3|by rewrite Hd3].
    + by wp_step.
  - intros r s3 (-> & Hu3 & He3 & Hd3). split_and!; [done|by transitivity s1|by rewrite Hd3|].
    exists x'. split; [done|]. by rewrite He3, He2.
Qed.

Lemma event_stops e x s : EventCtxList s !! e = Some x ->
  (forall d, dtcCtxPtr x = Some d -> is_Some (DtcCtxList s !! d)) ->
  wp (stop_event e) (moves stops stopped_status e x s) s.
Proof.
  intros He Hd. unfold stop_event. wp_step. eapply wp_event; [done|].
  set (x' := x <| eventUdsStatus := stopped_status (eventUdsStatus x) |>). wp_step.
  eapply (wp_conseq _ (fun r s2 => r = LE_OK /\ unmoved s s2 /\
    EventCtxList s2 = <[e := x']> (EventCtxList s) /\ DtcCtxList s2 = DtcCtxList s)).
  { unfold x', stopped_status. wp_step.
    - wp_step. eapply wp_eset; [done|]. eapply wp_conseq; [by eapply event_works, lookup_put_event|].
      intros r s2 (-> & Hu2 & He2 & Hd2). split_and!; [done|by destruct Hu2; split|done|done].
    - wp_step. split_and!; [done..| |done]. rewrite list_insert_id; [done|]. rewrite He. by destruct x. }
  intros r s2 (-> & Hu2 & He2 & Hd2). cbv beta. wp_step; tests; [done|].
  eapply wp_conseq; [apply (dtc_follows stopped_status x s2 _ s); [by rewrite Hd2|done..|]|].
  - intros d y Hy. unfold move_dtc, stopped_status. wp_step.
    + wp_step. eapply wp_dset; [done|]. eapply wp_conseq; [by eapply dtc_works, lookup_put_dtc|].
      intros r s3 (-> & Hu3 & He3 & Hd3). split_and!; [done|by destruct Hu3; split|by rewrite He3|by rewrite Hd3].
    + wp_step. split_and!; [done..|]. symmetry. apply list_insert_id. rewrite Hy. by destruct y.
  - intros r s3 (-> & Hu3 & He3 & Hd3). split_and!; [done|done|done|]. exists x'. by rewrite He3.
Qed.
End Steps.

(** ** All events of a cycle *)

(** An event among [l] belongs to the cycle [id] and to the DTC [d]. *)
Definition dtc_in {T} (s : Dem T) (id : Z) (e : nat) : option nat :=
  x ← EventCtxList s !! e; if decide (operationCycleId x = id) then dtcCtxPtr x else None.
Definition concerns {T} (s : Dem T) (l : list nat) (id : Z) (d : nat) : Prop := Exists (fun e => dtc_in s id e = Some d) l.
Lemma concerns_iff {T} (s : Dem T) l id d : concerns s l id d <->
  exists e x, e ∈ l /\ EventCtxList s !! e = Some x /\ operationCycleId x = id /\ dtcCtxPtr x = Some d.
Proof.
  unfold concerns, dtc_in. rewrite Exists_exists. split.
  - intros (e & He & H). destruct (EventCtxList s !! e) as [x|] eqn:Hx; [|done]. cbn in H.
    case_decide; [|done]. by exists e, x.
  - intros (e & x & He & Hx & Hc & Hp). exists e. split; [done|]. rewrite Hx. cbn. by rewrite decide_True.
Qed.
#[export] Instance concerns_dec {T} (s : Dem T) l id d : Decision (concerns s l id d).
Proof. apply _. Defined.

(** The events of the cycle [id] among [l], and their DTCs, have moved, and nothing else has. *)
Record walked {T} (R : relation taf_diagEvent_EventCtx_t) (g : Z -> Z) (id : Z) (l : list nat)
    (s s' : Dem T) : Prop := mkWalked {
  walked_unmoved : unmoved s s';
  walked_inside : forall e x, e ∈ l -> EventCtxList s !! e = Some x -> operationCycleId x = id ->
    exists x', EventCtxList s' !! e = Some x' /\ R x x';
  walked_outside : forall e x, e ∉ l \/ operationCycleId x <> id -> EventCtxList s !! e = Some x ->
    EventCtxList s' !! e = Some x;
  walked_dtc : forall d y, concerns s l id d -> DtcCtxList s !! d = Some y ->
    DtcCtxList s' !! d = Some (move_dtc g y);
  walked_other_dtc : forall d, ~ concerns s l id d -> DtcCtxList s' !! d = DtcCtxList s !! d;
  walked_sizes : length (EventCtxList s') = length (EventCtxList s) /\
    length (DtcCtxList s') = length (DtcCtxList s) }.

Section Walk.
Context {T : Type} `{!Store T}.
Variable R : relation taf_diagEvent_EventCtx_t.
Variable g : Z -> Z.
Variable step : nat -> M (Dem T) le_result_t.
Hypothesis R_same : forall x x', R x x' -> event_id x' = event_id x.
Hypothesis g_twice : forall v, g (g v) = g v.
Hypothesis step_moves : forall e x s, EventCtxList s !! e = Some x ->
  (forall d, dtcCtxPtr x = Some d -> is_Some (DtcCtxList s !! d)) -> wp (step e) (moves R g e x s) s.
Implicit Types s : Dem T.

Definition linked s : Prop := forall e x d, EventCtxList s !! e = Some x -> dtcCtxPtr x = Some d ->
  is_Some (DtcCtxList s !! d).

Lemma move_dtcs_lookup x ds d : move_dtcs g x ds !! d =
  if decide (dtcCtxPtr x = Some d) then move_dtc g <$> ds !! d else ds !! d.
Proof.
  unfold move_dtcs. destruct (dtcCtxPtr x) as [d'|]; [|by rewrite decide_False].
  destruct (decide (Some d' = Some d)) as [[= ->]|Hne]; [by rewrite list_lookup_alter_eq|].
  by rewrite list_lookup_alter_ne by congruence.
Qed.
Lemma move_dtcs_length x ds : length (move_dtcs g x ds) = length ds.
Proof. unfold move_dtcs. destruct (dtcCtxPtr x); [apply length_alter|done]. Qed.

Lemma walked_nil id s : walked R g id [] s s.
Proof. split; try done; [set_solver|]. intros d y H. by apply Exists_nil in H. Qed.

(** One event outside the cycle, or one inside that has moved, in front of the others. *)
Lemma walked_skip id e x l s s' : EventCtxList s !! e = Some x -> operationCycleId x <> id ->
  walked R g id l s s' -> walked R g id (e :: l) s s'.
Proof.
  intros Hx Hid [Hu Hin Hout Hd Hod Hs].
  assert (forall d, concerns s (e :: l) id d -> concerns s l id d) as Hc.
  { intros d. rewrite !concerns_iff. intros (e1 & x1 & He1 & Hx1 & Hc1 & Hp1).
    apply elem_of_cons in He1 as [->|He1]; [simplify_eq|]. by exists e1, x1. }
  split; [done| | | | |done].
  - intros e1 x1 He1 Hx1 Hc1. apply elem_of_cons in He1 as [->|He1]; [simplify_eq|]. eauto.
  - intros e1 x1 [He1|He1] Hx1; [|eauto]. apply Hout; [|done]. left. intros H. apply He1. by right.
  - intros d y Hdc. by apply Hd, Hc.
  - intros d Hdc. apply Hod. intros H. apply Hdc. by apply Exists_cons_tl.
Qed.

Lemma walked_cons id e x l s r s1 s' : e ∉ l -> EventCtxList s !! e = Some x -> operationCycleId x = id ->
  moves R g e x s r s1 -> walked R g id l s1 s' -> walked R g id (e :: l) s s'.
Proof.
  intros Hel Hx Hid (_ & Hu1 & Hd1 & x1 & Hr & He1) [Hu Hin Hout Hd Hod [Hs1 Hs2]].
  assert (forall e', e' <> e -> EventCtxList s1 !! e' = EventCtxList s !! e') as Hother
    by (intros e' Hne; rewrite He1; by apply list_lookup_insert_ne).
  assert (forall d, concerns s (e :: l) id d <-> dtcCtxPtr x = Some d \/ concerns s1 l id d) as Hc.
  { intros d. rewrite !concerns_iff. split.
    - intros (e2 & x2 & He2 & Hx2 & Hc2 & Hp2). apply elem_of_cons in He2 as [->|He2]; [simplify_eq; by left|].
      right. exists e2, x2. split_and!; try done. rewrite Hother; [done|]. by intros ->.
    - intros [Hp|(e2 & x2 & He2 & Hx2 & Hrest)]; [exists e, x; split; [by left|done]|].
      exists e2, x2. split_and!; [by right| |apply Hrest..]. rewrite <- Hother; [done|]. by intros ->. }
  split.
  - by transitivity s1.
  - intros e2 x2 He2 Hx2 Hc2. apply elem_of_cons in He2 as [->|He2].
    + simplify_eq. exists x1. split; [|done]. apply Hout; [by left|]. rewrite He1.
      by eapply list_lookup_insert_eq, lookup_lt_Some.
    + apply Hin; [done| |done]. rewrite Hother; [done|]. by intros ->.
  - intros e2 x2 He2 Hx2. assert (e2 <> e) as Hne.
    { intros ->. simplify_eq. destruct He2 as [He2|He2]; [|done]. apply He2. by left. }
    apply Hout; [|by rewrite Hother]. destruct He2 as [He2|]; [left|by right]. intros H. apply He2. by right.
  - intros d y Hdc Hy. apply Hc in Hdc. pose proof (move_dtcs_lookup x (DtcCtxList s) d) as Hm.
    rewrite <- Hd1, Hy in Hm. destruct (decide (dtcCtxPtr x = Some d)) as [Hp|Hp].
    + destruct (decide (concerns s1 l id d)) as [Hcl|Hcl]; [|by rewrite Hod].
      rewrite (Hd d (move_dtc g y)) by done. f_equal. unfold move_dtc. cbn. rewrite g_twice. by destruct y.
    + destruct Hdc as [?|Hdc]; [done|]. by apply Hd.
  - intros d Hdc. rewrite Hod; [|by intros H; apply Hdc, Hc; right].
    rewrite Hd1, move_dtcs_lookup, decide_False; [done|]. intros Hp. apply Hdc, Hc. by left.
  - rewrite Hs1, Hs2, He1, Hd1, move_dtcs_length, length_insert. done.
Qed.

Lemma events_walked id l s : NoDup l -> linked s -> Forall (fun e => is_Some (EventCtxList s !! e)) l ->
  wp (each_ok l (in_cycle id step)) (fun r s' => r = LE_OK /\ walked R g id l s s') s.
Proof.
  revert s. induction l as [|e l IH]; intros s Hnd Hl Hal; cbn [each_ok].
  { wp_step. split; [done|apply walked_nil]. }
  apply NoDup_cons in Hnd as [He Hnd]. apply Forall_cons in Hal as [[x Hx] Hal].
  unfold in_cycle. do 2 wp_step. eapply wp_event; [done|]. wp_step; tests.
  - eapply wp_conseq; [apply (step_moves e x s Hx); intros d Hp; by eapply Hl|].
    intros r s1 Hm. pose proof Hm as (-> & Hu & Hd & x1 & HR & He1). cbv beta.
    rewrite bool_decide_eq_true_2 by done. cbn [negb].
    assert (forall d, is_Some (DtcCtxList s !! d) -> is_Some (DtcCtxList s1 !! d)) as Hds.
    { intros d Hy. rewrite Hd, move_dtcs_lookup. by case_decide; [apply fmap_is_Some|]. }
    eapply wp_conseq; [apply IH; [done| |]|].
    + intros e2 x2 d Hx2 Hp. rewrite He1 in Hx2. apply Hds. apply list_lookup_insert_Some in Hx2 as [(-> & <- & _)|[_ Hx2]].
      * apply (Hl e2 x d Hx). pose proof (R_same _ _ HR) as H. unfold event_id in H. congruence.
      * by apply (Hl e2 x2).
    + eapply Forall_impl; [exact Hal|]. intros e2. cbn. rewrite He1, !lookup_lt_is_Some, length_insert. done.
    + intros r s' [-> Hw]. split; [done|]. by eapply walked_cons.
  - wp_step. cbv beta. rewrite bool_decide_eq_true_2 by done. cbn [negb].
    eapply wp_conseq; [by apply IH|]. intros r s' [-> Hw]. split; [done|]. by eapply walked_skip.
Qed.

Lemma cycle_walked id s : linked s ->
  wp (es ← all_events; each_ok es (in_cycle id step)) (fun r s' => r = LE_OK /\
    walked R g id (seq 0 (length (EventCtxList s))) s s') s.
Proof.
  intros Hl. unfold all_events. do 4 wp_step. apply events_walked; [apply NoDup_seq|done|].
  apply Forall_forall. intros e He. apply elem_of_seq in He. apply lookup_lt_is_Some. lia.
Qed.

(** Where an event of the later state comes from. *)
Lemma walked_from id l s s' e x' : walked R g id l s s' -> EventCtxList s' !! e = Some x' ->
  exists x, EventCtxList s !! e = Some x /\ (x' = x \/ R x x').
Proof.
  intros [_ Hin Hout _ _ [Hs _]] Hx'.
  assert (is_Some (EventCtxList s !! e)) as [x Hx].
  { apply lookup_lt_is_Some. rewrite <- Hs. by eapply lookup_lt_Some. }
  exists x. split; [done|]. destruct (decide (e ∈ l)) as [He|He].
  2:{ left. rewrite (Hout e x (or_introl He) Hx) in Hx'. by injection Hx'. }
  destruct (decide (operationCycleId x = id)) as [Hid|Hid].
  - destruct (Hin e x He Hx Hid) as (x2 & Hx2 & HR). right. congruence.
  - left. rewrite (Hout e x (or_intror Hid) Hx) in Hx'. by injection Hx'.
Qed.
Lemma walked_linked id l s s' : linked s -> walked R g id l s s' -> linked s'.
Proof.
  intros Hl Hw e x' d Hx' Hp. destruct (walked_from id l s s' e x' Hw Hx') as (x & Hx & Hxx').
  assert (dtcCtxPtr x = Some d) as Hpx.
  { destruct Hxx' as [->|HR]; [done|]. pose proof (R_same _ _ HR) as H. unfold event_id in H. congruence. }
  destruct (Hl e x d Hx Hpx) as [y Hy]. apply lookup_lt_is_Some.
  rewrite (proj2 (walked_sizes _ _ _ _ _ _ Hw)). by eapply lookup_lt_Some.
Qed.
(** What never changes of a DTC. *)
Lemma walked_dtc_kept id l s s' d : walked R g id l s s' ->
  activationStatus <$> DtcCtxList s' !! d = activationStatus <$> DtcCtxList s !! d.
Proof.
  intros Hw. destruct (decide (concerns s l id d)) as [Hc|Hc].
  - destruct (DtcCtxList s !! d) as [y|] eqn:Hy; [by rewrite (walked_dtc _ _ _ _ _ _ Hw d y Hc Hy)|].
    apply lookup_ge_None in Hy. rewrite <- (proj2 (walked_sizes _ _ _ _ _ _ Hw)) in Hy.
    by rewrite (proj2 (lookup_ge_None _ _) Hy).
  - by rewrite (walked_other_dtc _ _ _ _ _ _ Hw d Hc).
Qed.
End Walk.

(** ** Requests of cycles *)
Section Cycle.
Context {T : Type} `{!Store T} `{!Database T} `{!Reliable T}.
Variable env : DemEnv.
Hypothesis no_feature_A : featureA env = false.
Implicit Types s : Dem T.

Definition all_of s : list nat := seq 0 (length (EventCtxList s)).
Lemma all_of_elem e s : is_Some (EventCtxList s !! e) -> e ∈ all_of s.
Proof. intros He. apply lookup_lt_is_Some in He. apply elem_of_seq. lia. Qed.

Lemma starts_same x x' : starts x x' -> event_id x' = event_id x.
Proof. by intros [[H _] _]. Qed.
Lemma stops_same x x' : stops x x' -> event_id x' = event_id x.
Proof. by intros ->. Qed.

Lemma cycle_started id s : linked s ->
  wp (StartOperationCycle env id) (fun r s' => r = LE_OK /\ walked starts started id (all_of s) s s') s.
Proof. apply cycle_walked; [apply starts_same|apply started_twice|]. intros. by apply event_starts. Qed.
Lemma cycle_stopped id s : linked s ->
  wp (StopOperationCycle id) (fun r s' => r = LE_OK /\ walked stops stopped_status id (all_of s) s s') s.
Proof. apply cycle_walked; [apply stops_same|apply stopped_twice|]. intros. by apply event_stops. Qed.

Lemma wf_linked max s : wf max s -> linked s.
Proof. intros H e x d Hx Hp. destruct (wf_dtc _ _ H e x Hx) as (d' & y & Hd' & Hy). simplify_eq. by exists y. Qed.

Lemma wp_cycle c z (Q : _ -> Dem T -> Prop) s :
  OperCycleCtxList s !! c = Some z -> Q z s -> wp (cycle c) Q s.
Proof. intros Hz HQ. unfold cycle. do 2 wp_step. by eapply wp_demand. Qed.

(** What [cycle_changed] adds to the change: the state of the cycle and its notification. *)
Definition cycle_in (c : nat) (z : taf_diagEvent_OperCycleCtx_t) (state : taf_diagEvent_OperationCycleState_t)
    s : Dem T := s <| OperCycleCtxList := <[c := z <| cyc_state := state |>]> (OperCycleCtxList s) |>.
Lemma wp_changed c z change (assigned : bool) state (P : Dem T -> Prop) s :
  OperCycleCtxList s !! c = Some z ->
  wp change (fun r s' => r = LE_OK /\ unmoved s s' /\ P s') s ->
  wp (cycle_changed c change assigned state)
    (fun r s' => r = LE_OK /\ exists s1, unmoved s s1 /\ P s1 /\
       s' = log [ReportOperCycle (operCycleRef z) state] (if assigned then cycle_in c z state s1 else s1)) s.
Proof.
  intros Hz Hc. unfold cycle_changed. wp_step. eapply wp_conseq; [exact Hc|].
  intros r s1 (-> & Hu & HP). cbv beta. rewrite bool_decide_eq_true_2 by done. cbn [negb].
  assert (OperCycleCtxList s1 !! c = Some z) as Hz1 by (by rewrite (same_cycles _ _ Hu)).
  wp_step. eapply (wp_conseq _ (fun _ s2 => s2 = if assigned then cycle_in c z state s1 else s1)).
  { unfold cycle_set. wp_step; rewrite H; [|done]. wp_step. eapply wp_cycle; [done|]. by wp_step. }
  intros _ s2 ->. cbv beta. wp_step. unfold ReportOperCycleState. wp_step.
  eapply (wp_conseq _ (fun x s2 => operCycleRef x = operCycleRef z /\
    s2 = if assigned then cycle_in c z state s1 else s1)).
  { destruct assigned; [|by eapply wp_cycle].
    by eapply wp_cycle; [by apply list_lookup_insert_eq, (lookup_lt_Some _ _ z)|]. }
  intros z' s2 [-> ->]. apply wp_notes. wp_step. split; [done|]. by exists s1.
Qed.

(** A cycle found by its reference. *)
Lemma wp_cycle_ref r c z (k : nat -> taf_diagEvent_OperCycleCtx_t -> M (Dem T) le_result_t)
    (Q : le_result_t -> Dem T -> Prop) s :
  amap_find (OperCycleRefMap s) r = Some c -> OperCycleCtxList s !! c = Some z ->
  wp (k c z) Q s ->
  wp (ctx ← GetOperCycleCtx (Some r);
      match ctx with None => mret LE_FAULT | Some c => x ← cycle c; k c x end) Q s.
Proof.
  intros Hr Hz Hk. unfold GetOperCycleCtx. do 4 wp_step. rewrite Hr. wp_step. by eapply wp_cycle.
Qed.

(** What a request to a cycle does, in each of its states. *)
Definition cycle_obeyed (c : nat) (z : taf_diagEvent_OperCycleCtx_t) (state : taf_diagEvent_OperationCycleState_t)
    s (res : le_result_t) s' : Prop :=
  let id := operCycleId z in
  let told s1 := s' = log [ReportOperCycle (operCycleRef z) state] s1 in
  match state with
  | TAF_DIAGEVENT_CYCLE_START =>
      if decide (cyc_state z = TAF_DIAGEVENT_CYCLE_START) then res = LE_OK /\ s' = s
      else res = LE_OK /\ exists s1, walked starts started id (all_of s) s s1 /\
        told (cycle_in c z state s1)
  | TAF_DIAGEVENT_CYCLE_STOP =>
      if decide (cyc_state z = TAF_DIAGEVENT_CYCLE_STOP) then res = LE_OK /\ s' = s
      else res = LE_OK /\ exists s1, walked stops stopped_status id (all_of s) s s1 /\
        told (cycle_in c z state s1)
  | TAF_DIAGEVENT_CYCLE_RESTART =>
      if decide (cyc_state z = TAF_DIAGEVENT_CYCLE_START)
      then res = LE_OK /\ exists s1 s2, walked stops stopped_status id (all_of s) s s1 /\
        walked starts started id (all_of s1) s1 s2 /\
        told s2
      else res = LE_FAULT /\ s' = s
  end.

Lemma cycle_obeys cref c z state s : wf (fault_code_max env) s ->
  amap_find (OperCycleRefMap s) cref = Some c -> OperCycleCtxList s !! c = Some z ->
  wp (SetOperCycleState env (Some cref) state) (cycle_obeyed c z state s) s.
Proof.
  intros Hw Hr Hz. unfold SetOperCycleState. rewrite no_feature_A. wp_step; tests; [done|].
  eapply (wp_cycle_ref cref c z (fun c x => _)); [done..|]. cbv zeta. unfold cycle_obeyed.
  pose proof (wf_linked _ _ Hw) as Hl.
  destruct state; case_decide; wp_step; tests; try done; try (by wp_step).
  - eapply wp_conseq; [apply (wp_changed c z _ _ _ (walked starts started (operCycleId z) (all_of s) s)); [done|]|].
    + eapply wp_conseq; [by apply cycle_started|]. intros res s1 [-> Hs']. split_and!; [done|apply Hs'|done].
    + intros res s' (-> & s1 & _ & Hs' & ->). split; [done|]. by exists s1.
  - wp_step. eapply wp_conseq; [by apply cycle_stopped|].
    intros res s1 [-> Hs1]. cbv beta. rewrite bool_decide_eq_true_2 by done. cbn [negb].
    eapply wp_conseq; [apply (wp_changed c z _ _ _ (walked starts started (operCycleId z) (all_of s1) s1))|].
    + by rewrite (same_cycles _ _ (walked_unmoved _ _ _ _ _ _ Hs1)).
    + eapply wp_conseq; [apply cycle_started; eapply walked_linked; [apply stops_same|exact Hl|exact Hs1]|].
      intros res s2 [-> Hs']. split_and!; [done|apply Hs'|done].
    + intros res s' (-> & s2 & _ & Hs' & ->). split; [done|]. by exists s1, s2.
  - eapply wp_conseq; [apply (wp_changed c z _ _ _ (walked stops stopped_status (operCycleId z) (all_of s) s)); [done|]|].
    + eapply wp_conseq; [by apply cycle_stopped|]. intros res s1 [-> Hs']. split_and!; [done|apply Hs'|done].
    + intros res s' (-> & s1 & _ & Hs' & ->). split; [done|]. by exists s1.
Qed.
End Cycle.
