(* ===== verification/DemRounds.v ===== *)
(** * Diagnostic events: repeated reports and repeated cycles

    An event whose conditions hold, and what many reports of the same kind make of it: the
    saturation of its debounce counter, and its confirmation after failed operation cycles. *)
From S2P Require Import Prelude DiagCfg DemTypes DemEvent DemSvc DemSpec DemReport DemInv DemSafe DemCycle.

(** ** What an effect leaves of an event *)
Lemma effect_keeps e evs x x1 y :
  same_event x1 (effect_of e evs x x1 y).1 /\
  debounceCounter (effect_of e evs x x1 y).1 = debounceCounter x1 /\
  eventFaultStatus (effect_of e evs x x1 y).1 = eventFaultStatus x1 /\
  activationStatus (effect_of e evs x x1 y).2 = activationStatus y.
Proof.
  unfold effect_of. case_decide; [done|]. destruct (eventFaultStatus x1) eqn:Hf; try done; cbn [fst snd].
  unfold fail_event. cbv zeta. by case_match.
Qed.
Lemma effect_failed e evs x x1 y : eventFaultStatus x <> TAF_DIAGEVENT_FAILED ->
  eventFaultStatus x1 = TAF_DIAGEVENT_FAILED -> (effect_of e evs x x1 y).1 = fail_event x1.
Proof. intros Hx Hx1. unfold effect_of. rewrite decide_False by congruence. by rewrite Hx1. Qed.
Lemma effect_none e evs x x1 y :
  eventFaultStatus x1 = eventFaultStatus x \/ eventFaultStatus x1 = TAF_DIAGEVENT_PREFAILED ->
  effect_of e evs x x1 y = (x1, y).
Proof. unfold effect_of. intros H. case_decide; [done|]. by destruct H as [?| ->]. Qed.

Lemma tested_keeps x st c x1 : tested x st c x1 -> same_event x x1 /\ debounceCounter x1 = c /\
  eventFaultStatus x1 = verdict x c st /\ eventUdsStatus x1 = eventUdsStatus x /\
  failureCounter x1 = failureCounter x.
Proof. by intros (code & n & flag & t & now & _ & ->). Qed.
Lemma fail_event_of x x1 : event_id x1 = event_id x -> eventUdsStatus x1 = eventUdsStatus x ->
  failureCounter x1 = failureCounter x ->
  eventUdsStatus (fail_event x1) = eventUdsStatus (fail_event x) /\
  failureCounter (fail_event x1) = failureCounter (fail_event x).
Proof.
  intros Hid Hs Hf. assert (confirmationThreshold x1 = confirmationThreshold x) as Hc
    by (unfold event_id in Hid; congruence).
  unfold fail_event. rewrite Hs, Hf, Hc. cbv zeta. by case_match.
Qed.
#[export] Instance same_event_preorder : PreOrder same_event.
Proof. split; [by intros x|]. intros ??? (?&?&?) (?&?&?). unfold same_event. intuition congruence. Qed.

Section Rounds.
Context {T : Type} `{!Store T} `{!Database T}.
Variable env : DemEnv.
Hypothesis no_feature_A : featureA env = false.
Variable r : Z.
Variable e : nat.
Implicit Types s : Dem T.

(** The event [e] is [x], a client holds its reference [r], and its conditions hold. *)
Record ready s (x : taf_diagEvent_EventCtx_t) : Prop := mkReady {
  ready_wf : wf (fault_code_max env) s;
  ready_ref : amap_find (SvcRefMap s) r = Some e;
  ready_event : EventCtxList s !! e = Some x;
  ready_condition : condition env s x = LE_OK }.

Lemma condition_same s s' x x' : OperCycleCtxList s' = OperCycleCtxList s -> same_event x x' ->
  (forall d y, dtcCtxPtr x = Some d -> DtcCtxList s !! d = Some y ->
    activationStatus <$> DtcCtxList s' !! d = Some (activationStatus y)) ->
  condition env s x = LE_OK -> condition env s' x' = LE_OK.
Proof.
  intros Hc (Hid & Hen & _) Hd. assert (operationCycleId x' = operationCycleId x /\ dtcCtxPtr x' = dtcCtxPtr x)
    as [Ho Hp] by (unfold event_id in Hid; split; congruence).
  assert (cycle_condition env s' x' = cycle_condition env s x) as Hcy
    by (unfold cycle_condition, cycle_of; by rewrite Hc, Ho).
  unfold condition. rewrite Hcy, Hen, Hp. destruct (negb (bool_decide _)); [done|].
  destruct (negb _); [done|]. destruct (dtcCtxPtr x) as [d|]; [|done]. cbn.
  destruct (DtcCtxList s !! d) as [y|] eqn:Hy; [|done]. by rewrite (Hd d y eq_refl Hy).
Qed.

Definition report st : M (Dem T) unit := SetStatusWithSupplierFaultCode env (Some r) st None 0;; mret tt.

(** A report that the event accepts. *)
Lemma ready_report s x st : ready s x -> accepts x st = true ->
  wp (report st) (fun _ s' => exists c x1 x', recounted x st c /\ tested x st c x1 /\
    ready s' x' /\ same_event x x' /\ debounceCounter x' = c /\ eventFaultStatus x' = verdict x c st /\
    (eventFaultStatus x' = TAF_DIAGEVENT_FAILED -> eventFaultStatus x <> TAF_DIAGEVENT_FAILED ->
       eventUdsStatus x' = eventUdsStatus (fail_event x) /\ failureCounter x' = failureCounter (fail_event x)) /\
    (eventFaultStatus x' = eventFaultStatus x \/ eventFaultStatus x' = TAF_DIAGEVENT_PREFAILED ->
       eventUdsStatus x' = eventUdsStatus x /\ failureCounter x' = failureCounter x /\
       DtcCtxList s' = DtcCtxList s) /\
    OperCycleCtxList s' = OperCycleCtxList s /\ OperCycleRefMap s' = OperCycleRefMap s) s.
Proof.
  intros [Hw Hr Hx Hc] Ha. destruct (wf_event _ e x s Hw Hx) as (Hxok & d & y & Hp & Hy & Hyok).
  assert (st <> TAF_DIAGEVENT_UNKNOWN) as Hst by (intros ->; done).
  unfold report. wp_step. eapply wp_conseq; [by apply (report_done env no_feature_A s r e d x y)|].
  intros res s'. cbv beta. rewrite decide_True by done. intros Hrep. wp_step.
  destruct (reported_wf env e d x y st s res s' Hw Hx Hp Hy Hyok Hrep) as [Hw' _].
  unfold reported in Hrep. rewrite Ha in Hrep. destruct Hrep as (c & x1 & Hrc & Ht & Hup).
  destruct (tested_keeps _ _ _ _ Ht) as (Hse & Hct & Hft & Hut & Hnt).
  destruct (effect_keeps e (EventCtxList s) x x1 y) as (Hse' & Hct' & Hft' & Hact).
  set (x' := (effect_of e (EventCtxList s) x x1 y).1) in *.
  assert (EventCtxList s' !! e = Some x') as Hx'.
  { rewrite (upd_events _ _ _ _ _ _ _ _ _ Hup). by eapply list_lookup_insert_eq, lookup_lt_Some. }
  pose proof (upd_unmoved _ _ _ _ _ _ _ _ _ Hup) as Hu.
  exists c, x1, x'. split_and!; try done.
  - split; [done|by rewrite (same_refs _ _ Hu)|done|].
    eapply condition_same; [apply Hu|by transitivity x1| |done]. intros d' y' Hp' Hy'. simplify_eq.
    destruct (upd_dtcs _ _ _ _ _ _ _ _ _ Hup) as [->|[_ ->]]; [|by rewrite Hy].
    rewrite list_lookup_insert_eq by (by eapply lookup_lt_Some). cbn. by rewrite Hact.
  - by transitivity x1.
  - congruence.
  - congruence.
  - intros Hf Hn. unfold x'. rewrite effect_failed by congruence. by apply fail_event_of; [apply Hse|..].
  - rewrite Hft'. intros Hn. unfold x'. rewrite effect_none by done. split_and!; [done..|].
    pose proof (upd_dtcs _ _ _ _ _ _ _ _ _ Hup) as Hd. rewrite effect_none in Hd by done.
    destruct Hd as [->|[_ ->]]; [|done]. by apply list_insert_id.
  - apply Hu.
  - apply Hu.
Qed.

(** ** Reports that tend to failed *)
Fixpoint reports st (n : nat) : M (Dem T) unit :=
  match n with O => mret tt | S n' => reports st n';; report st end.

(** The event [x'] after a failed test of [x], and before one. *)
Definition has_failed (x x' : taf_diagEvent_EventCtx_t) : Prop :=
  eventFaultStatus x' = TAF_DIAGEVENT_FAILED /\
  eventUdsStatus x' = eventUdsStatus (fail_event x) /\ failureCounter x' = failureCounter (fail_event x).
Definition undecided (x x' : taf_diagEvent_EventCtx_t) : Prop :=
  eventFaultStatus x' <> TAF_DIAGEVENT_FAILED /\
  eventUdsStatus x' = eventUdsStatus x /\ failureCounter x' = failureCounter x.

Lemma prefailed_verdict cfg n c : counter_ok cfg -> jumpUp cfg = false -> in_range cfg c ->
  debounced cfg (prefailed cfg (S n) c) TAF_DIAGEVENT_PREFAILED =
  if failedThreshold cfg <=? c + Z.of_nat (S n) * incrementStepSize cfg
  then TAF_DIAGEVENT_FAILED else TAF_DIAGEVENT_PREFAILED.
Proof.
  intros Hok Hj Hc. destruct (prefailed_saturates cfg (S n) c Hok Hj Hc) as [_ ->].
  destruct Hok, Hc. unfold debounced.
  assert (1 <= Z.of_nat (S n) * incrementStepSize cfg) by nia.
  destruct (Z.leb_spec (Z.min (failedThreshold cfg) (c + Z.of_nat (S n) * incrementStepSize cfg)) (passedThreshold cfg)); [lia|].
  destruct (Z.leb_spec (failedThreshold cfg) (c + Z.of_nat (S n) * incrementStepSize cfg));
    destruct (Z.leb_spec (failedThreshold cfg) (Z.min (failedThreshold cfg) (c + Z.of_nat (S n) * incrementStepSize cfg))); try done; lia.
Qed.

Lemma prefailed_rounds s x n : ready s x ->
  let cfg := debounceCounterBasedConfig x in
  let c := debounceCounter x in
  debounceType x = TAF_DIAGEVENT_DEBOUNCE_COUNTER_BASED -> jumpUp cfg = false ->
  eventFaultStatus x <> TAF_DIAGEVENT_FAILED -> c < failedThreshold cfg ->
  wp (reports TAF_DIAGEVENT_PREFAILED n) (fun _ s' => exists x', ready s' x' /\ same_event x x' /\
    debounceCounter x' = prefailed cfg n c /\
    if failedThreshold cfg <=? c + Z.of_nat n * incrementStepSize cfg then has_failed x x'
    else undecided x x' /\ DtcCtxList s' = DtcCtxList s) s.
Proof.
  intros Hready cfg c Ht Hj Hf Hc.
  destruct (wf_event _ e x s (ready_wf _ _ Hready) (ready_event _ _ Hready)) as [Hxok _].
  destruct (ok_counter _ _ Hxok Ht) as [Hok Hin]. fold cfg c in Hin, Hok.
  induction n as [|n IH]; cbn [reports].
  { wp_step. exists x. split_and!; [done..|]. rewrite (proj2 (Z.leb_gt _ _)) by lia. by split_and!. }
  wp_step. eapply wp_conseq; [exact IH|]. intros [] s1 (x1 & Hr1 & Hse1 & Hc1 & Hcase). cbv beta.
  pose proof Hse1 as [Hid1 _].
  assert (debounceType x1 = TAF_DIAGEVENT_DEBOUNCE_COUNTER_BASED /\ debounceCounterBasedConfig x1 = cfg)
    as [Ht1 Hcfg1] by (unfold event_id in Hid1; split; unfold cfg; congruence).
  eapply wp_conseq; [apply (ready_report s1 x1 TAF_DIAGEVENT_PREFAILED Hr1)|].
  { unfold accepts. by rewrite Ht1. }
  intros [] s2 (c2 & x12 & x2 & Hrc & _ & Hr2 & Hse2 & Hc2 & Hf2 & Hfail & Hsame & _ & _). exists x2.
  unfold recounted in Hrc. rewrite Ht1, Hcfg1, Hc1 in Hrc. change (c2 = prefailed cfg (S n) c) in Hrc.
  unfold verdict in Hf2. rewrite Ht1, Hcfg1, Hrc, prefailed_verdict in Hf2 by done.
  split_and!; [done|by transitivity x1|by rewrite Hc2|].
  destruct (Z.leb_spec (failedThreshold cfg) (c + Z.of_nat (S n) * incrementStepSize cfg)) as [Hreach|Hreach].
  - split; [done|]. destruct (Z.leb_spec (failedThreshold cfg) (c + Z.of_nat n * incrementStepSize cfg)).
    + destruct Hcase as (Hf1 & Hs1 & Hn1). destruct Hsame as (Hs2 & Hn2 & _); [left|split]; congruence.
    + destruct Hcase as ((Hf1 & Hs1 & Hn1) & _). destruct (Hfail Hf2 Hf1) as [-> ->]. by apply fail_event_of.
  - assert (c + Z.of_nat n * incrementStepSize cfg < failedThreshold cfg) as Hbefore by (destruct Hok; nia).
    rewrite (proj2 (Z.leb_gt _ _)) in Hcase by done. destruct Hcase as ((Hf1 & Hs1 & Hn1) & Hd1).
    destruct Hsame as (Hs2 & Hn2 & Hd2); [by right|]. unfold undecided. split_and!; congruence.
Qed.
End Rounds.

(** ** Failed operation cycles *)

(** Status bytes through a restart of the cycle and a failed test. *)
Lemma status_through_cycle v : status_ok v = true ->
  let v' := started (stopped_status v) in
  bits v' TAF_DIAGEVENT_UDS_STATUS_TFTOC = false /\
  bits (failed_status v') TAF_DIAGEVENT_UDS_STATUS_CDTC = bits v TAF_DIAGEVENT_UDS_STATUS_CDTC.
Proof.
  intros H v'. pose proof (status_or_ok_elem v (status_ok_or v H)) as Hs.
  apply (by_statuses (fun v => let v' := started (stopped_status v) in
    negb (bits v' TAF_DIAGEVENT_UDS_STATUS_TFTOC) &&
    Bool.eqb (bits (failed_status v') TAF_DIAGEVENT_UDS_STATUS_CDTC) (bits v TAF_DIAGEVENT_UDS_STATUS_CDTC))) in Hs.
  - cbv zeta in Hs. apply andb_true_iff in Hs as [H1 H2]. by apply negb_true_iff in H1; apply eqb_prop in H2.
  - vm_compute. reflexivity.
Qed.
Lemma confirmed_set v : bits (set_bits v TAF_DIAGEVENT_UDS_STATUS_CDTC) TAF_DIAGEVENT_UDS_STATUS_CDTC = true.
Proof.
  unfold bits, set_bits. rewrite Z.land_lor_distr_l. change (Z.land 8 8) with 8. apply negb_true_iff, Z.eqb_neq.
  intros H. apply Z.lor_eq_0_iff in H as [_ H]. done.
Qed.

(** A verdict on a report of a failed test. *)
Lemma failed_verdict {T} `{!Store T} `{!Database T} max x c : event_ok max x -> recounted x TAF_DIAGEVENT_FAILED c ->
  verdict x c TAF_DIAGEVENT_FAILED = TAF_DIAGEVENT_FAILED.
Proof.
  intros Hx. unfold recounted, verdict. destruct (debounceType x) eqn:Ht; [done| |by intros ->].
  intros ->. cbn [counter_after]. unfold debounced. destruct (ok_counter _ _ Hx Ht) as [[] _].
  rewrite (proj2 (Z.leb_gt _ _)) by lia. by rewrite Z.leb_refl.
Qed.

Section Cycles.
Context {T : Type} `{!Store T} `{!Database T} `{!Reliable T}.
Variable env : DemEnv.
Hypothesis no_feature_A : featureA env = false.
Variable r : Z.
Variable e : nat.
(** The cycle [c] of the event, that a client holds by [cref]. *)
Variable cref : Z.
Variable c : nat.
Implicit Types s : Dem T.

Record running s (x : taf_diagEvent_EventCtx_t) : Prop := mkRunning {
  running_ready : ready env r e s x;
  running_ref : amap_find (OperCycleRefMap s) cref = Some c;
  running_cycle : exists z, OperCycleCtxList s !! c = Some z /\ operCycleId z = operationCycleId x /\
    cyc_state z = TAF_DIAGEVENT_CYCLE_START }.

(** A cycle that stops and starts again. *)
Lemma cycle_restarted s z : wf (fault_code_max env) s -> amap_find (OperCycleRefMap s) cref = Some c ->
  OperCycleCtxList s !! c = Some z -> cyc_state z = TAF_DIAGEVENT_CYCLE_START ->
  wp (SetOperCycleState env (Some cref) TAF_DIAGEVENT_CYCLE_RESTART) (fun res s' => res = LE_OK /\
    wf (fault_code_max env) s' /\ unmoved s s' /\ exists s1 s2,
    walked stops stopped_status (operCycleId z) (all_of s) s s1 /\
    walked starts started (operCycleId z) (all_of s1) s1 s2 /\
    EventCtxList s' = EventCtxList s2 /\ DtcCtxList s' = DtcCtxList s2) s.
Proof.
  intros Hw Hr Hz Hst. pose proof (safe_set_cycle env (Some cref) TAF_DIAGEVENT_CYCLE_RESTART s Hw) as Hsafe.
  eapply wp_conseq; [apply wp_and; [by apply (cycle_obeys env no_feature_A cref c z)|exact Hsafe]|].
  intros res s' [Hob [Hw' _]]. unfold cycle_obeyed in Hob. rewrite Hst in Hob. cbn in Hob.
  destruct Hob as (-> & s1 & s2 & Hs1 & Hs2 & ->). split_and!; [done..| |by exists s1, s2].
  pose proof (walked_unmoved _ _ _ _ _ _ Hs1) as Hu1. pose proof (walked_unmoved _ _ _ _ _ _ Hs2) as Hu2.
  transitivity s1; [done|]. destruct Hu2. by split.
Qed.

Lemma running_restart s x : running s x ->
  wp (SetOperCycleState env (Some cref) TAF_DIAGEVENT_CYCLE_RESTART) (fun _ s' => exists x', running s' x' /\
    same_event x x' /\ eventFaultStatus x' = TAF_DIAGEVENT_UNKNOWN /\
    eventUdsStatus x' = started (stopped_status (eventUdsStatus x)) /\ failureCounter x' = failureCounter x) s.
Proof.
  intros [[Hw Hr Hx Hc] Hcr (z & Hz & Hid & Hst)].
  eapply wp_conseq; [by apply (cycle_restarted s z)|].
  intros res s' (_ & Hw' & Hu & s1 & s2 & Hs1 & Hs2 & He & Hd).
  destruct (walked_inside _ _ _ _ _ _ Hs1 e x) as (x1 & Hx1 & ->); [by apply all_of_elem|done..|].
  set (x1 := x <| eventUdsStatus := stopped_status (eventUdsStatus x) |>) in Hx1.
  destruct (walked_inside _ _ _ _ _ _ Hs2 e x1) as (x2 & Hx2 & Hse & Hf & _ & _ & Hu2 & Hn);
    [by apply all_of_elem|exact Hx1|done|].
  exists x2. assert (same_event x x2) as Hse2 by (by transitivity x1).
  split_and!; try done. split; [split|..].
  - done.
  - by rewrite (same_refs _ _ Hu).
  - by rewrite He.
  - eapply condition_same; [apply Hu|exact Hse2| |exact Hc]. intros d y Hp Hy.
    rewrite Hd, (walked_dtc_kept _ _ _ _ _ _ _ Hs2), (walked_dtc_kept _ _ _ _ _ _ _ Hs1). by rewrite Hy.
  - by rewrite (same_cycle_refs _ _ Hu).
  - exists z. rewrite (same_cycles _ _ Hu). split_and!; [done| |done].
    destruct Hse2 as [H _]. unfold event_id in H. congruence.
Qed.

(** A cycle in which a test of the event fails. *)
Definition failed_cycle : M (Dem T) unit :=
  SetOperCycleState env (Some cref) TAF_DIAGEVENT_CYCLE_RESTART;; report env r TAF_DIAGEVENT_FAILED.
Fixpoint failed_cycles (n : nat) : M (Dem T) unit :=
  match n with O => mret tt | S n' => failed_cycles n';; failed_cycle end.

Lemma running_failed s x : running s x ->
  wp failed_cycle (fun _ s' => exists x', running s' x' /\ same_event x x' /\
    let n := if failureCounter x <? MAX_TEST_FAILURE_COUNTER then failureCounter x + 1 else failureCounter x in
    if confirmationThreshold x <=? n
    then bits (eventUdsStatus x') TAF_DIAGEVENT_UDS_STATUS_CDTC = true
    else failureCounter x' = n /\ bits (eventUdsStatus x') TAF_DIAGEVENT_UDS_STATUS_CDTC =
           bits (eventUdsStatus x) TAF_DIAGEVENT_UDS_STATUS_CDTC) s.
Proof.
  intros Hrun. pose proof (ready_wf _ _ _ _ _ (running_ready _ _ Hrun)) as Hw.
  destruct (wf_event _ e x s Hw (ready_event _ _ _ _ _ (running_ready _ _ Hrun))) as [Hxok _].
  unfold failed_cycle. wp_step. eapply wp_conseq; [by apply (running_restart s x)|].
  intros _ s1 (x1 & [Hready1 Hcr1 Hz1] & Hse1 & Hf1 & Hu1 & Hn1). cbv beta.
  destruct (wf_event _ e x1 s1 (ready_wf _ _ _ _ _ Hready1) (ready_event _ _ _ _ _ Hready1)) as [Hx1ok _].
  eapply wp_conseq; [by apply (ready_report env no_feature_A r e s1 x1)|].
  intros [] s2 (k & x12 & x2 & Hrc & _ & Hr2 & Hse2 & _ & Hf2 & Hfail & _ & Hc2 & Hcm2).
  rewrite (failed_verdict _ _ _ Hx1ok Hrc) in Hf2. destruct (Hfail Hf2) as [Hs Hn]; [by rewrite Hf1|].
  exists x2. assert (same_event x x2) as Hse by (by transitivity x1). split_and!; [|done|].
  - split; [done|by rewrite Hcm2|]. destruct Hz1 as (z & Hz & Hid & Hst). exists z. rewrite Hc2.
    split_and!; [done| |done]. destruct Hse2 as [H _]. unfold event_id in H. congruence.
  - destruct (status_through_cycle _ (ok_status _ _ Hxok)) as [Htf Hcd]. rewrite Hs, Hn.
    assert (confirmationThreshold x1 = confirmationThreshold x) as Hth
      by (destruct Hse1 as [H _]; unfold event_id in H; congruence).
    unfold fail_event. rewrite Hu1, Htf, Hn1, Hth. cbn [negb andb]. cbv zeta.
    case_match; cbn; [apply confirmed_set|done].
Qed.

Lemma confirmed_rounds s x n : running s x -> 1 <= confirmationThreshold x -> failureCounter x = 0 ->
  bits (eventUdsStatus x) TAF_DIAGEVENT_UDS_STATUS_CDTC = false ->
  wp (failed_cycles n) (fun _ s' => exists x', running s' x' /\ same_event x x' /\
    (Z.of_nat n < confirmationThreshold x -> failureCounter x' = Z.of_nat n) /\
    bits (eventUdsStatus x') TAF_DIAGEVENT_UDS_STATUS_CDTC = (confirmationThreshold x <=? Z.of_nat n)) s.
Proof.
  intros Hrun Hth Hf Hb.
  destruct (wf_event _ e x s (ready_wf _ _ _ _ _ (running_ready _ _ Hrun))
              (ready_event _ _ _ _ _ (running_ready _ _ Hrun))) as [Hxok _].
  pose proof (ok_threshold _ _ Hxok) as Hmax.
  induction n as [|n IH]; cbn [failed_cycles].
  { wp_step. exists x. rewrite Hb, (proj2 (Z.leb_gt _ _)) by lia. by split_and!. }
  wp_step. eapply wp_conseq; [exact IH|]. intros [] s1 (x1 & Hrun1 & Hse1 & Hn1 & Hb1). cbv beta.
  assert (confirmationThreshold x1 = confirmationThreshold x) as Hth1
    by (destruct Hse1 as [H _]; unfold event_id in H; congruence).
  eapply wp_conseq; [by apply (running_failed s1 x1)|]. intros [] s2 (x2 & Hrun2 & Hse2 & Hn2). cbv zeta in Hn2.
  exists x2. split_and!; [done|by transitivity x1|..]; rewrite Hth1, Hb1 in Hn2.
  - intros Hlt. rewrite Hn1, (proj2 (Z.ltb_lt _ _)), (proj2 (Z.leb_gt _ _)) in Hn2 by lia. lia.
  - destruct (Z.leb_spec (confirmationThreshold x) (Z.of_nat n)) as [Hle|Hgt].
    + rewrite (proj2 (Z.leb_le _ _)) by lia. by case_match; [|destruct Hn2 as [_ ?]].
    + rewrite Hn1, (proj2 (Z.ltb_lt _ _)) in Hn2 by lia.
      replace (Z.of_nat (S n)) with (Z.of_nat n + 1) by lia. by case_match; [|destruct Hn2 as [_ ?]].
Qed.
End Cycles.
