(* ===== verification/DemClear.v ===== *)
(** * Diagnostic events: clearing and enabling

    What [ClearDtc] makes of a DTC and its events, and what a change of an enable condition
    makes of the events that depend on it. *)
From S2P Require Import Prelude DiagCfg DemTypes DemEvent DemSvc DemDtc DemSpec DemReport DemInv DemSafe DemCycle.

(** ** Clearing *)

(** An event of which nothing is known any more. *)
Definition forgotten (env : DemEnv) (x x' : taf_diagEvent_EventCtx_t) : Prop :=
  same_event x x' /\ eventUdsStatus x' = cleared_status env /\ failureCounter x' = 0 /\
  eventFaultStatus x' = TAF_DIAGEVENT_UNKNOWN /\ debounceCounter x' = 0.

Definition clear_dtc (env : DemEnv) (y : taf_diagEvent_DtcCtx_t) : taf_diagEvent_DtcCtx_t :=
  y <| occurrenceCounter := 0 |> <| dtcStatus := cleared_status env |>.

(** The positions of the events of a DTC. *)
Definition event_positions {T} (s : Dem T) (y : taf_diagEvent_DtcCtx_t) : list nat :=
  omap id (find_event (EventCtxList s) <$> dtcEventIdList y).

(** The events [l] are forgotten, the others as before. *)
Record erased {T} (env : DemEnv) (l : list nat) (s s' : Dem T) : Prop := mkErased {
  erased_unmoved : unmoved s s';
  erased_ids : eventId <$> EventCtxList s' = eventId <$> EventCtxList s;
  erased_inside : forall e x, e ∈ l -> EventCtxList s !! e = Some x ->
    exists x', EventCtxList s' !! e = Some x' /\ forgotten env x x';
  erased_outside : forall e, e ∉ l -> EventCtxList s' !! e = EventCtxList s !! e }.

Section Clear.
Context {T : Type} `{!Store T} `{!Database T}.
Variable env : DemEnv.
Hypothesis no_feature_A : featureA env = false.
Implicit Types s : Dem T.

Lemma forgotten_trans x1 x2 x3 : forgotten env x1 x2 -> forgotten env x2 x3 -> forgotten env x1 x3.
Proof.
  intros (Hs & _) (Hs' & Hrest). split; [|done].
  destruct Hs as (?&?&?), Hs' as (?&?&?). split_and!; congruence.
Qed.

Lemma erased_nil s : erased env [] s s.
Proof. split; [done..| |done]. intros e x He. by apply not_elem_of_nil in He. Qed.

Lemma same_ids e x x' (l : list taf_diagEvent_EventCtx_t) :
  l !! e = Some x -> same_event x x' -> eventId <$> <[e := x']> l = eventId <$> l.
Proof.
  intros Hx [H _]. rewrite list_fmap_insert. apply list_insert_id. rewrite list_lookup_fmap, Hx. cbn.
  unfold event_id in H. congruence.
Qed.
Lemma find_event_ids (l l' : list taf_diagEvent_EventCtx_t) i :
  eventId <$> l' = eventId <$> l -> find_event l' i = find_event l i.
Proof.
  revert l'. unfold find_event. induction l as [|x l IH]; intros [|x' l'] [=]; [done|]. cbn.
  rewrite H0. case_decide; [done|]. specialize (IH l' H1).
  destruct (list_find _ l) as [[]|], (list_find _ l') as [[]|]; cbn in *; congruence.
Qed.
Lemma positions_same s s' y y' : eventId <$> EventCtxList s' = eventId <$> EventCtxList s ->
  dtcEventIdList y' = dtcEventIdList y -> event_positions s' y' = event_positions s y.
Proof.
  intros He Hy. unfold event_positions. rewrite Hy. f_equal. apply list_fmap_ext.
  intros _ i _. by apply find_event_ids.
Qed.
Lemma erased_app l1 l2 s s1 s2 : erased env l1 s s1 -> erased env l2 s1 s2 -> erased env (l1 ++ l2) s s2.
Proof.
  intros [Hu1 Hi1 Hin1 Hout1] [Hu2 Hi2 Hin2 Hout2]. split; [by transitivity s1|congruence| |].
  - intros e x He Hx. destruct (decide (e ∈ l1)) as [H1|H1].
    + destruct (Hin1 e x H1 Hx) as (x1 & Hx1 & Hf1). destruct (decide (e ∈ l2)) as [H2|H2].
      * destruct (Hin2 e x1 H2 Hx1) as (x2 & Hx2 & Hf2). exists x2. split; [done|]. by eapply forgotten_trans.
      * exists x1. by rewrite Hout2.
    + apply elem_of_app in He as [He|He]; [done|]. apply Hin2; [done|]. by rewrite Hout1.
  - intros e He. apply not_elem_of_app in He as [H1 H2]. by rewrite Hout2, Hout1.
Qed.

(** One call of the data base whose result is not looked at. *)
Lemma wp_ignored (c : M T le_result_t) (Q : unit -> Dem T -> Prop) s :
  wp c (fun _ _ => True) (db s) -> (forall t, Q tt (s <| db := t |>)) -> wp (on_db c;; mret tt) Q s.
Proof.
  intros Hc HQ. wp_step. apply wp_on_db. eapply wp_conseq; [exact Hc|]. intros r t _. wp_step. apply HQ.
Qed.

Lemma event_cleared e x s : EventCtxList s !! e = Some x ->
  wp (clear_event env (Some e)) (fun _ s' => unmoved s s' /\ DtcCtxList s' = DtcCtxList s /\
    exists x', forgotten env x x' /\ EventCtxList s' = <[e := x']> (EventCtxList s)) s.
Proof.
  intros He. unfold clear_event. rewrite no_feature_A. cbn [negb]. wp_step. eapply wp_event; [done|].
  wp_step. eapply wp_eset; [done|]. wp_step.
  eapply (wp_conseq _ (fun _ s' => exists es, s' = log es (put_event e (x <| eventUdsStatus := cleared_status env |>) s))).
  { wp_step; [|by exists []; rewrite trail_nil].
    eapply wp_conseq; [by eapply event_reported, lookup_put_event|]. intros _ s' (es & -> & _). by exists es. }
  intros _ s1 (es & ->). cbv beta. wp_step. wp_step; [|done].
  apply wp_ignored. { eapply wp_conseq; [apply SetEventStatusByName_stores|done]. }
  intros t. wp_step. eapply wp_eset; [by eapply (lookup_put_event e _ x s)|].
  wp_step. eapply wp_eset; [eapply lookup_put_event; by eapply (lookup_put_event e _ x s)|].
  wp_step; [|done]. rewrite put_event_twice.
  eapply wp_conseq; [eapply (counter_reset env no_feature_A), lookup_put_event; by eapply (lookup_put_event e _ x s)|].
  intros _ s' (tt' & es' & _ & ->). rewrite put_event_twice. split_and!; [by split|done|].
  eexists. split; [|cbn; by rewrite list_insert_insert_eq]. by destruct x; repeat split.
Qed.

Lemma events_cleared (ids : list (option nat)) s :
  (forall e, Some e ∈ ids -> is_Some (EventCtxList s !! e)) ->
  wp (for_each ids (clear_event env)) (fun _ s' => erased env (omap id ids) s s' /\
    DtcCtxList s' = DtcCtxList s) s.
Proof.
  revert s. induction ids as [|[e|] ids IH]; intros s Hal; cbn [for_each].
  - wp_step. split; [apply erased_nil|done].
  - destruct (Hal e) as [x Hx]; [by left|]. wp_step. eapply wp_conseq; [by eapply event_cleared|].
    intros [] s1 (Hu & Hd & x1 & Hf & He). cbv beta. eapply wp_conseq; [apply IH|].
    { intros e' He'. rewrite He. apply lookup_lt_is_Some. rewrite length_insert. apply lookup_lt_is_Some, Hal. by right. }
    intros [] s2 ([Hu2 Hids Hin Hout] & Hd2). split; [|by rewrite Hd2].
    assert (EventCtxList s1 !! e = Some x1) as Hx1 by (rewrite He; by eapply list_lookup_insert_eq, lookup_lt_Some).
    change (omap id (Some e :: ids)) with (e :: omap id ids). split; [by transitivity s1| | |].
    + rewrite Hids, He. eapply same_ids; [done|]. apply Hf.
    + intros e' x' He' Hx'. destruct (decide (e' = e)) as [->|Hne].
      * simplify_eq. destruct (decide (e ∈ omap id ids)) as [Hm|Hm]; [|exists x1; by rewrite Hout].
        destruct (Hin e x1 Hm Hx1) as (x2 & Hx2 & Hf2). exists x2. split; [done|]. by eapply forgotten_trans.
      * apply elem_of_cons in He' as [->|He']; [done|]. apply Hin; [done|]. rewrite He.
        by rewrite list_lookup_insert_ne.
    + intros e' [Hne He']%not_elem_of_cons. rewrite Hout by done. rewrite He. by apply list_lookup_insert_ne.
  - wp_step. apply wp_ret. eapply wp_conseq; [apply IH|done]. intros e He. apply Hal. by right.
Qed.

(** [ClearDTCAndEventData]. *)
Definition cleared (d : nat) (y : taf_diagEvent_DtcCtx_t) s s' : Prop :=
  erased env (event_positions s y) s s' /\ DtcCtxList s' = <[d := clear_dtc env y]> (DtcCtxList s).

Lemma data_cleared d y s : DtcCtxList s !! d = Some y ->
  wp (ClearDTCAndEventData env d) (fun _ s' => cleared d y s s') s.
Proof.
  intros Hd. unfold ClearDTCAndEventData. rewrite no_feature_A. cbn [negb]. wp_step. eapply wp_dtc; [done|].
  wp_step. eapply wp_dset; [done|]. wp_step. eapply wp_dset; [by eapply lookup_put_dtc|]. rewrite put_dtc_twice.
  change (_ <| occurrenceCounter := 0 |> <| dtcStatus := _ |>) with (clear_dtc env y).
  wp_step. eapply (wp_conseq _ (fun _ s' => exists es, s' = log es (put_dtc d (clear_dtc env y) s))).
  { wp_step; [|by exists []; rewrite trail_nil].
    eapply dtc_reported; [by eapply lookup_put_dtc|]. by eexists. }
  intros _ s1 (es & ->). cbv beta. wp_step. wp_step; [|done]. wp_step.
  eapply wp_conseq; [by eapply dtc_stored_by, (lookup_put_dtc d _ y s)|]. intros r s2 (t & -> & _). cbv beta. wp_step.
  wp_step. unfold events_of. wp_step. eapply wp_dtc; [by eapply (lookup_put_dtc d _ y s)|]. do 3 wp_step.
  eapply wp_conseq; [apply events_cleared|].
  - intros e He. by eapply found_event.
  - intros [] s' ([Hu Hids Hin Hout] & Hds). split; [split|done]; [|done..]. destruct Hu. by split.
Qed.

(** ** The requests *)
Lemma one_cleared code client d y s : code <> 0xFFFFFF ->
  list_find (fun y => dtcCode y = code) (DtcCtxList s) = Some (d, y) ->
  wp (ClearDtc env code client) (fun r s' =>
    let y1 := y <| reqClientType := client |> in
    if suppressionStatus y then r = LE_UNAVAILABLE /\ s' = put_dtc d y1 s
    else if decide (r = LE_OK)
      then erased env (event_positions s y) s s' /\ DtcCtxList s' = <[d := clear_dtc env y1]> (DtcCtxList s)
      else EventCtxList s' = EventCtxList s /\ DtcCtxList s' = <[d := y1]> (DtcCtxList s)) s.
Proof.
  intros Hcode Hd. pose proof Hd as (Hy & _)%list_find_Some.
  unfold ClearDtc, ClearSingleDtc, GetDtcCtxByCode. wp_step; tests; [done|]. do 4 wp_step. rewrite Hd. cbn [fst fmap option_fmap option_map].
  wp_step. eapply wp_dset; [done|]. wp_step. eapply wp_dtc; [by eapply lookup_put_dtc|].
  set (y1 := y <| reqClientType := client |>). cbv zeta. change (suppressionStatus y1) with (suppressionStatus y).
  wp_step; [by wp_step|]. wp_step. apply wp_on_db. eapply wp_conseq; [apply DeleteData_keeps|].
  intros r t _. cbv beta. wp_step; tests; [wp_step; by rewrite decide_False|].
  wp_step; [|by wp_step]. wp_step.
  eapply wp_conseq; [by eapply data_cleared, (lookup_put_dtc d _ y s)|].
  intros [] s' ([Hu Hids Hin Hout] & Hds). cbv beta. wp_step. apply wp_notes. wp_step.
  rewrite decide_True by done. split; [|cbn; rewrite Hds; cbn; by rewrite list_insert_insert_eq].
  split; try done. destruct Hu. by split.
Qed.

(** The DTCs among [l] are clear, and their events forgotten. *)
Definition all_clear (l : list nat) s s' : Prop :=
  erased env (concat ((fun d => default [] (event_positions s <$> DtcCtxList s !! d)) <$> l)) s s' /\
  (forall d y, d ∈ l -> DtcCtxList s !! d = Some y -> DtcCtxList s' !! d = Some (clear_dtc env y)) /\
  (forall d, d ∉ l -> DtcCtxList s' !! d = DtcCtxList s !! d).

Lemma dtcs_cleared l s : NoDup l -> Forall (fun d => is_Some (DtcCtxList s !! d)) l ->
  wp (for_each l (ClearDTCAndEventData env)) (fun _ s' => all_clear l s s') s.
Proof.
  revert s. induction l as [|d l IH]; intros s Hnd Hal; cbn [for_each].
  { wp_step. split_and!; [apply erased_nil| |done]. intros d y Hd. by apply not_elem_of_nil in Hd. }
  apply NoDup_cons in Hnd as [Hdl Hnd]. apply Forall_cons in Hal as [[y Hy] Hal].
  wp_step. eapply wp_conseq; [by apply (data_cleared d y)|]. intros [] s1 (He & Hd). cbv beta.
  assert (forall d', d' <> d -> DtcCtxList s1 !! d' = DtcCtxList s !! d') as Hother
    by (intros d' Hne; rewrite Hd; by apply list_lookup_insert_ne).
  assert (forall d', d' ∈ l -> d' <> d) as Hne by (intros d' Hd' ->; done).
  eapply wp_conseq; [apply IH; [done|]|].
  { rewrite Forall_forall in Hal |- *. intros d' Hd'. rewrite Hother by auto. auto. }
  intros [] s2 (He2 & Hin & Hout). split; [|split].
  - cbn [fmap list_fmap concat]. rewrite Hy. cbn [fmap option_fmap option_map default].
    eapply erased_app; [exact He|]. replace (_ <$> l) with
      ((fun d => default [] (event_positions s1 <$> DtcCtxList s1 !! d)) <$> l); [exact He2|].
    apply list_fmap_ext. intros i d' Hd'. rewrite Hother by (apply Hne; by eapply list_elem_of_lookup_2).
    destruct (DtcCtxList s !! d') as [y'|]; [|done]. cbn. apply positions_same; [apply He|done].
  - intros d' y' Hd' Hy'. apply elem_of_cons in Hd' as [->|Hd'].
    + simplify_eq. rewrite Hout, Hd by done. by eapply list_lookup_insert_eq, lookup_lt_Some.
    + apply Hin; [done|]. by rewrite Hother by auto.
  - intros d' [Hd' Hl]%not_elem_of_cons. by rewrite Hout, Hother.
Qed.

Lemma everything_cleared client s : known_client client = true ->
  wp (ClearDtc env 0xFFFFFF client) (fun r s' =>
    if decide (r = LE_OK) then all_clear (seq 0 (length (DtcCtxList s))) s s'
    else EventCtxList s' = EventCtxList s /\ DtcCtxList s' = DtcCtxList s) s.
Proof.
  intros Hk. unfold ClearDtc, ClearAllDtc, ClearAllDTCAndEventData. rewrite Z.eqb_refl.
  wp_step. apply wp_on_db. eapply wp_conseq; [apply DeleteAllData_keeps|]. intros r t _. cbv beta.
  wp_step; tests; [wp_step; by rewrite decide_False|]. rewrite Hk. cbn [when]. wp_step.
  unfold all_dtcs. do 5 wp_step. eapply wp_conseq; [apply dtcs_cleared; [apply NoDup_seq|]|].
  { apply Forall_forall. intros d Hd. apply elem_of_seq in Hd. apply lookup_lt_is_Some. cbn in *. lia. }
  intros [] s' ([Hu Hids Hin Hout] & Hd). cbv beta. apply wp_notes. wp_step. rewrite decide_True by done.
  split; [|exact Hd]. split; try done. destruct Hu. by split.
Qed.
End Clear.

(** ** Enable conditions *)
Section Enable.
Context {T : Type} `{!Store T} `{!Database T}.
Variable env : DemEnv.
Hypothesis no_feature_A : featureA env = false.
Implicit Types s : Dem T.

(** The events [l] have changed by [R], and nothing else has. *)
Record each_changed (R : relation taf_diagEvent_EventCtx_t) (l : list nat) s s' : Prop := mkEachChanged {
  each_unmoved : unmoved s s';
  each_dtcs : DtcCtxList s' = DtcCtxList s;
  each_inside : forall e x, e ∈ l -> EventCtxList s !! e = Some x ->
    exists x', EventCtxList s' !! e = Some x' /\ R x x';
  each_outside : forall e, e ∉ l -> EventCtxList s' !! e = EventCtxList s !! e }.

Lemma each_event_changed R (body : nat -> M (Dem T) unit) conds l s :
  NoDup l -> Forall (fun e => is_Some (EventCtxList s !! e)) l -> enableStatusList s = conds ->
  (forall e x s, EventCtxList s !! e = Some x -> enableStatusList s = conds ->
    wp (body e) (fun _ s' => unmoved s s' /\ DtcCtxList s' = DtcCtxList s /\
      exists x', R x x' /\ EventCtxList s' = <[e := x']> (EventCtxList s)) s) ->
  wp (for_each l body) (fun _ s' => each_changed R l s s') s.
Proof.
  intros Hnd Hal Hconds Hb. revert s Hal Hconds. induction l as [|e l IH]; intros s Hal Hconds; cbn [for_each].
  { wp_step. split; try done. intros e x He. by apply not_elem_of_nil in He. }
  apply NoDup_cons in Hnd as [Hel Hnd]. apply Forall_cons in Hal as [[x Hx] Hal].
  wp_step. eapply wp_conseq; [by apply (Hb e x)|]. intros [] s1 (Hu & Hd & x1 & HR & He). cbv beta.
  assert (forall e', e' <> e -> EventCtxList s1 !! e' = EventCtxList s !! e') as Hother
    by (intros e' Hne; rewrite He; by apply list_lookup_insert_ne).
  assert (forall e', e' ∈ l -> e' <> e) as Hne by (intros e' He' ->; done).
  eapply wp_conseq; [apply (IH Hnd s1); [|by rewrite (same_conditions _ _ Hu)]|].
  { rewrite Forall_forall in Hal |- *. intros e' He'. rewrite Hother by auto. auto. }
  intros [] s2 [Hu2 Hd2 Hin Hout]. split; [by transitivity s1|congruence| |].
  - intros e' x' He' Hx'. apply elem_of_cons in He' as [->|He'].
    + simplify_eq. exists x1. rewrite Hout, He by done. split; [|done]. by eapply list_lookup_insert_eq, lookup_lt_Some.
    + apply Hin; [done|]. by rewrite Hother by auto.
  - intros e' [He' Hl]%not_elem_of_cons. by rewrite Hout, Hother.
Qed.

(** What the statuses of the conditions [status] make of an event, when [id] has changed. *)
Definition conditioned (status : Z -> bool) (id : Z) (x x' : taf_diagEvent_EventCtx_t) : Prop :=
  match (c ← amap_find (event_conditions env) (eventId x); enable_status c status id) with
  | None => x' = x
  | Some new =>
      event_id x' = event_id x /\ ev_svcRef x' = ev_svcRef x /\ eventEnableStatus x' = new /\
      eventUdsStatus x' = eventUdsStatus x /\ failureCounter x' = failureCounter x /\
      eventFaultStatus x' = eventFaultStatus x /\
      debounceCounter x' = if negb new && bool_decide (debounceBehavior_ x = TAF_DIAGEVENT_DEBOUNCE_RESET)
                           then 0 else debounceCounter x
  end.

Lemma event_conditioned id e x s : EventCtxList s !! e = Some x ->
  wp (enable_event env id e) (fun _ s' => unmoved s s' /\ DtcCtxList s' = DtcCtxList s /\
    exists x', conditioned (GetEnableConditionStatus (enableStatusList s)) id x x' /\
      EventCtxList s' = <[e := x']> (EventCtxList s)) s.
Proof.
  intros He. unfold enable_event. wp_step. eapply wp_event; [done|]. do 2 wp_step.
  assert (EventCtxList s = <[e := x]> (EventCtxList s)) as Hid by (symmetry; by apply list_insert_id).
  unfold conditioned. wp_step; [|wp_step; split_and!; [done..|by exists x]]. cbn [mbind option_bind].
  wp_step; [|wp_step; split_and!; [done..|by exists x]]. rename b into new.
  set (x1 := x <| eventEnableStatus := new |>). wp_step.
  eapply (wp_conseq _ (fun _ s' => exists es, s' = log es (put_event e x1 s))).
  { wp_step.
    - unfold ReportEnableCondState. wp_step. wp_step. eapply wp_event; [done|]. wp_step.
      + apply wp_notes. eapply wp_eset; [done|]. by eexists.
      + wp_step. eapply wp_eset; [done|]. exists []. by rewrite trail_nil.
    - apply negb_false_iff, eqb_prop in H. exists []. rewrite trail_nil. unfold put_event, x1. rewrite H.
      rewrite list_insert_id; [by destruct s|]. rewrite He. by destruct x. }
  intros _ s1 (es & ->). cbv beta. wp_step.
  - eapply wp_conseq; [by eapply (counter_reset env no_feature_A), put_event_lookup|].
    intros _ s' (t & es' & _ & ->). rewrite put_event_log, put_event_twice. split_and!; [by split|done|].
    eexists. split; [|done]. rewrite H. by destruct x.
  - split_and!; [by split|done|]. exists x1. split; [|done]. rewrite H. by destruct x.
Qed.

Lemma condition_set id b s :
  wp (SetEnableCondition env id b) (fun r s' => r = LE_OK /\
    let l := set_condition (enableStatusList s) id b in
    each_changed (conditioned (GetEnableConditionStatus l) id) (all_of s) (s <| enableStatusList := l |>) s') s.
Proof.
  unfold SetEnableCondition, SetEventEnableStatus, all_events. repeat wp_step.
  set (l := set_condition (enableStatusList s) id b).
  eapply wp_conseq; [apply (each_event_changed (conditioned (GetEnableConditionStatus l) id) _ l)|].
  - apply NoDup_seq.
  - apply Forall_forall. intros e He. apply elem_of_seq in He. apply lookup_lt_is_Some. cbn in *. lia.
  - done.
  - intros e x s1 Hx Hl. rewrite <- Hl. by apply event_conditioned.
  - intros [] s' H. cbv beta. wp_step. wp_step. split; [done|]. exact H.
Qed.

Lemma condition_recorded l id b i : GetEnableConditionStatus (set_condition l id b) i =
  if decide (i = id) then b else GetEnableConditionStatus l i.
Proof.
  unfold GetEnableConditionStatus. induction l as [|[j b'] l IH]; cbn; [by repeat case_decide|].
  destruct (Z.eqb_spec j id) as [->|Hne]; cbn; repeat case_decide; simplify_eq; done.
Qed.

(** The new enable status of an event, as a condition on the conditions. *)
Lemma enabled_iff c status id : (id ∈ or_conditions c \/ id ∈ and_conditions c) ->
  exists new, enable_status c status id = Some new /\ (new = true <->
    if decide (id ∈ or_conditions c) then Exists (fun i => status i = true) (or_conditions c)
    else Forall (fun i => status i = true) (and_conditions c)).
Proof.
  intros H. unfold enable_status. destruct (decide (id ∈ or_conditions c)) as [Ho|Ho].
  - rewrite bool_decide_eq_true_2 by done. eexists. split; [done|]. rewrite existsb_exists, Exists_exists.
    split; intros (i & Hi & Hs); exists i; by rewrite list_elem_of_In in *.
  - destruct H as [H|H]; [done|]. rewrite bool_decide_eq_false_2, bool_decide_eq_true_2 by done.
    eexists. split; [done|]. rewrite forallb_forall, Forall_forall.
    split; intros Hall i Hi; apply Hall; by rewrite list_elem_of_In in *.
Qed.
Lemma not_enabled c status id : id ∉ or_conditions c -> id ∉ and_conditions c -> enable_status c status id = None.
Proof. intros Ho Ha. unfold enable_status. by rewrite !bool_decide_eq_false_2. Qed.
End Enable.
