(* ===== verification/DemSample.v ===== *)
(** * Diagnostic events: a data base and a small configuration

    A data base in memory whose calls always succeed, which shows that the interfaces [Store],
    [Database] and [Restored] can be met; and a configuration with three events, two DTCs and
    an operation cycle, started, with clients. *)
From Stdlib Require Import SpecFloat.
From S2P Require Import Prelude DiagCfg Ieee DemTypes DemEvent DemSvc DemDtc DemInit.
From S2P Require Import DemSpec DemReport DemInv DemStart DemSafe DemCycle.

(** ** A data base *)
Record Tables := mkTables {
  event_rows : amap string Z;
  dtc_rows : amap Z (Z * Z);
  activation_rows : amap Z bool;
  suppression_rows : amap Z bool }.

(** The status of an event or a DTC without a row: not tested. *)
Definition untested : Z := 0x50.
Definition row_of (t : Tables) (code : Z) : Z * Z := default (untested, 0) (amap_find (dtc_rows t) code).

Definition stores (f : Tables -> Tables) : M Tables le_result_t := modify f;; mret LE_OK.

#[export] Instance tables_store : Store Tables := {|
  db_SetEventStatusByName name v :=
    stores (fun t => mkTables ((name, v) :: event_rows t) (dtc_rows t) (activation_rows t) (suppression_rows t));
  db_GetEventStatusByName name := gets (fun t => default untested (amap_find (event_rows t) name));
  db_SetDTCStatus code v n :=
    stores (fun t => mkTables (event_rows t) ((code, (v, n)) :: dtc_rows t) (activation_rows t) (suppression_rows t));
  db_GetDTCStatus code := gets (fun t => (row_of t code).1);
  db_GetDTCOccurrenceCounter code := gets (fun t => (row_of t code).2);
  db_SetEventFailedCounter _ _ := mret LE_OK;
  db_GetEventFailedCounter _ := mret 0;
  db_DeleteAllData := stores (fun t => mkTables [] [] (activation_rows t) (suppression_rows t));
  db_DeleteData code :=
    stores (fun t => mkTables (event_rows t) (filter (fun p => p.1 <> code) (dtc_rows t))
                       (activation_rows t) (suppression_rows t));
  db_GetDTCActivation code := gets (fun t => default true (amap_find (activation_rows t) code));
  db_SetDTCActivation code b :=
    stores (fun t => mkTables (event_rows t) (dtc_rows t) ((code, b) :: activation_rows t) (suppression_rows t));
  db_GetDTCSuppression code := gets (fun t => default false (amap_find (suppression_rows t) code));
  db_SetDTCSuppression code b :=
    stores (fun t => mkTables (event_rows t) (dtc_rows t) (activation_rows t) ((code, b) :: suppression_rows t));
  db_SetAllDTCSuppression b := mret LE_OK;
  db_UpdateFaultCodeSnapshotData _ _ _ := mret LE_OK |}.

Lemma find_first {K V} `{EqDecision K} (k : K) (v : V) m : amap_find ((k, v) :: m) k = Some v.
Proof. cbn. by rewrite decide_True. Qed.
Lemma find_later {K V} `{EqDecision K} (k k' : K) (v : V) m :
  k' <> k -> amap_find ((k, v) :: m) k' = amap_find m k'.
Proof. intros H. cbn. by rewrite decide_False. Qed.

Definition rows_sound (t : Tables) : Prop :=
  Forall (fun p : string * Z => status_ok p.2 = true) (event_rows t) /\
  Forall (fun p : Z * (Z * Z) => status_ok p.2.1 = true /\ 0 <= p.2.2 <= 255) (dtc_rows t).
Lemma row_sound t code : rows_sound t -> status_ok (row_of t code).1 = true /\ 0 <= (row_of t code).2 <= 255.
Proof.
  intros [_ H]. unfold row_of. destruct (amap_find (dtc_rows t) code) as [p|] eqn:Hp; [|by cbn].
  apply amap_find_elem in Hp. rewrite Forall_forall in H. apply (H _ Hp).
Qed.

#[export] Program Instance tables_database : Database Tables := {|
  sound := rows_sound;
  storable_name _ := True;
  storable_code _ := True;
  stored_event t name := default untested (amap_find (event_rows t) name);
  stored_dtc t code := row_of t code |}.
Next Obligation.
  intros name v t [He Hd] _ Hv. split_and!; [split; [by constructor|done]|by intros _; cbn; rewrite decide_True| |done].
  intros n Hn. cbn. by rewrite decide_False.
Qed.
Next Obligation.
  intros code v n t [He Hd] _ Hv Hn. unfold row_of.
  split_and!; [split; [done|by constructor]|by intros _; cbn; rewrite decide_True| |done].
  intros c _ Hc. cbn. by rewrite decide_False.
Qed.
Next Obligation. intros id v t H. exact H. Qed.
Next Obligation. intros t H. split; constructor. Qed.
Next Obligation.
  intros code t [He Hd] _. split; [done|]. apply Forall_forall. intros p [_ Hp]%list_elem_of_filter.
  rewrite Forall_forall in Hd. by apply Hd.
Qed.
Next Obligation. intros code b t H _. exact H. Qed.
Next Obligation. intros code b t H _. exact H. Qed.
Next Obligation. intros b t H. exact H. Qed.

#[export] Program Instance tables_restored : Restored Tables.
Next Obligation.
  intros name t H _. split; [|done]. cbn. destruct (amap_find (event_rows t) name) as [v|] eqn:Hv; [|done].
  apply amap_find_elem in Hv. destruct H as [H _]. rewrite Forall_forall in H. apply (H _ Hv).
Qed.
Next Obligation. intros code t H. split; [|done]. by apply row_sound. Qed.
Next Obligation. intros code t H. split; [|done]. by apply row_sound. Qed.
Next Obligation. done. Qed.
Next Obligation. done. Qed.

(** ** A configuration

    Event 1 is debounced by a counter that three reports take to the threshold, and is confirmed
    by two failed cycles; event 2 reports tested results; event 3 is debounced by time. *)
Definition needs_7 : EnableConditionData := mkEnableConditionData [7] [].
Definition sample_event (id thr : Z) (name algorithm : string) : Z * EventEntry :=
  (id, mkEventEntry id name thr "ignition" algorithm needs_7).
Definition sample_dtc (code : Z) (events : list Z) : Z * DTCEntry :=
  (code, mkDTCEntry code "" ["lastOccurrence"%string] [] events).
Definition sample_events : EventConf := {|
  dtc_all := [sample_dtc 0x123456 [1; 2]; sample_dtc 0xABCD [3]];
  conf_events := [sample_event 1 2 "battery" "count"; sample_event 2 1 "sensor" "internal";
                  sample_event 3 1 "antenna" "timed"];
  counter_based := [("count"%string, mkCounterAlgorithm "reset" 1 (-128) 50 127 0 0 false false 64)];
  time_based := [("timed"%string, mkTimeAlgorithm "reset" (double_lit 5 0) (double_lit 5 0) (double_lit 1 0))];
  custom := [("internal"%string, tt)];
  operation_cycle_names := ["ignition"%string; "power"%string];
  occurrence_counter_processing := "TEST-FAILED-BIT";
  diag_session_ids := [] |}.

(** Nothing runs, and the references are numbered. *)
Definition sample_dem_env : DemEnv := {|
  featureA := false;
  fault_code_max := 4;
  timer_IsRunning := fun _ _ => false;
  now_ms := fun _ => 0;
  new_ref := fun tr => Some (Z.of_nat (length tr));
  event_conditions := [(1, needs_7); (2, needs_7); (3, needs_7)];
  did_value_size := fun _ => 4 |}.

Definition no_rows : Tables := mkTables [] [] [] [].
Definition booted : Dem Tables :=
  default (empty_dem no_rows) (final (EventConfiguration sample_dem_env sample_events) (empty_dem no_rows)).

Example three_events : map eventId (EventCtxList booted) = [3; 1; 2].
Proof. vm_compute. reflexivity. Qed.
Example one_dtc : map dtcEventIdList (DtcCtxList booted) = [[3]; [1; 2]].
Proof. vm_compute. reflexivity. Qed.

(** The ignition cycle runs, the condition holds, and a client holds the three events. *)
Definition sample_requests : list request :=
  [OpenEvent 1 100; OpenEvent 2 100; OpenEvent 3 100; OpenCycle 0 100; SetCondition 7 true].
Fixpoint run (qs : list request) (s : Dem Tables) : Dem Tables :=
  match qs with
  | [] => s
  | q :: qs' => run qs' (default s (final (serve sample_dem_env q) s))
  end.
Definition opened : Dem Tables := run sample_requests booted.
Definition driving : Dem Tables := run [SetCycle (Some 5) TAF_DIAGEVENT_CYCLE_START] opened.

(** The references of the client: 2 is event 1, at position 1, 3 is event 2 and 4 event 3. *)
Example references : SvcRefMap driving = [(2, 1%nat); (3, 2%nat); (4, 0%nat)].
Proof. vm_compute. reflexivity. Qed.
Example conditions_hold :
  map (fun x => condition sample_dem_env driving x) (EventCtxList driving) = [LE_OK; LE_OK; LE_OK].
Proof. vm_compute. reflexivity. Qed.

(** The event of the battery, as the cycle starts. *)
Definition no_event : taf_diagEvent_EventCtx_t :=
  mkEventCtx 0 "" 0 None 0 false 0 0 0 [] 0 TAF_DIAGEVENT_UNKNOWN 0 false TAF_DIAGEVENT_DEBOUNCE_FREEZE
    TAF_DIAGEVENT_DEBOUNCE_MONITOR_INTERNAL zero_counter zero_time TAF_DIAGEVENT_TIMER_UNKNOWN 0 [] None.
Definition battery : taf_diagEvent_EventCtx_t := default no_event (EventCtxList driving !! 1%nat).
Example battery_event : EventCtxList driving !! 1%nat = Some battery.
Proof. vm_compute. reflexivity. Qed.

(** Its DTC, and the cycle. *)
Definition battery_dtc : taf_diagEvent_DtcCtx_t :=
  default (mkDtcCtx 0 0 TAF_DIAGEVENT_PROCESS_OCCCTR_TF 0 false false TAF_DIAGDTC_DTOOL
             TAF_DIAGEVENT_UNKNOWN_DTC []) (DtcCtxList driving !! 1%nat).
Definition ignition : taf_diagEvent_OperCycleCtx_t :=
  default (mkOperCycleCtx 0 TAF_DIAGEVENT_CYCLE_STOP [] None) (OperCycleCtxList driving !! 0%nat).

#[export] Program Instance tables_reliable : Reliable Tables := {| SetEventStatusByName_works := _ |}.
Solve All Obligations with done.
