(* ===== verification/DemThms.v ===== *)
(** * Diagnostic events: theorems

    Start-up and every request keep the service well-formed; a report of a test does what its
    abstract meaning says, or is refused by its conditions; repeated reports reach the
    threshold of the debounce counter, and repeated failed cycles the confirmation. *)
From S2P Require Import Prelude DiagCfg DemTypes DemEvent DemSvc DemDtc DemInit DemSpec.
From S2P Require Import DemReport DemInv DemStart DemSafe DemCycle DemRounds DemClear DemSample.

(** ** Every reachable state *)
Section Reachable.
Context {T : Type} `{!Store T} `{!Database T} `{!Restored T}.
Variable env : DemEnv.
Variable conf : EventConf.

(** The states after a start-up over a sound data base, any requests, and further start-ups over
    what these have left in the data base. *)
Inductive reachable : Dem T -> Prop :=
  | boots t s : sound t -> conf_fits T conf -> EventConfiguration env conf (empty_dem t) = Done (tt, s) -> reachable s
  | serves s q s' : reachable s -> allowed env s q -> serve env q s = Done (tt, s') -> reachable s'
  | restarts s s' : reachable s -> conf_fits T conf ->
      EventConfiguration env conf (empty_dem (db s)) = Done (tt, s') -> reachable s'.

Hypothesis no_feature_A : featureA env = false.
Hypothesis max_ok : 0 <= fault_code_max env.

Lemma serve_done q s : wf (fault_code_max env) s -> allowed env s q ->
  exists s', serve env q s = Done (tt, s') /\ wf (fault_code_max env) s'.
Proof.
  intros Hw Ha. pose proof (served env no_feature_A q s Hw Ha) as H. unfold safe, wp in H.
  destruct (serve env q s) as [[[] s']|]; [|done]. exists s'. split; [done|apply H].
Qed.
Lemma reachable_wf s : reachable s -> wf (fault_code_max env) s.
Proof.
  assert (forall t s, sound t -> conf_fits T conf -> EventConfiguration env conf (empty_dem t) = Done (tt, s) ->
    wf (fault_code_max env) s) as Hboot.
  { intros t s' Ht Hfit Hs. pose proof (configuration_boots env conf no_feature_A max_ok Hfit _ (empty_boots env t Ht)) as H.
    unfold wlp in H. rewrite Hs in H. apply H. }
  induction 1 as [t s Ht Hfit Hs|s q s' Hr IH Ha Hs|s s' Hr IH Hfit Hs]; [by eapply Hboot| |].
  - destruct (serve_done q s IH Ha) as (s'' & Hs'' & Hw). rewrite Hs in Hs''. by injection Hs'' as <-.
  - eapply Hboot; [apply IH|done..].
Qed.
End Reachable.

Section Thms.
Context {T : Type} `{!Store T} `{!Database T} `{!Restored T}.
Variable env : DemEnv.

(** C2: From every start-up that succeeds and through every sequence of requests - reports of
    tests with or without fault codes, resets, operation cycles, enable conditions, clearing,
    activation and suppression of DTCs, references and disconnecting clients, and the expiries
    of timers - and of further start-ups over the data base that they leave, the service stays
    well-formed: status bytes of events and DTCs are combinations that ISO 14229-1 allows,
    counters stay within their thresholds and bytes, references lead to contexts, and the data
    base stays sound. In each such state every request runs to its end, without a null pointer
    or an access out of bounds, and although any call of the data base may fail. *)
Theorem requests_keep_service_well_formed conf (s : Dem T) (q : request) :
  featureA env = false -> 0 <= fault_code_max env -> reachable env conf s -> allowed env s q ->
  wf (fault_code_max env) s /\
  exists s', serve env q s = Done (tt, s') /\ wf (fault_code_max env) s'.
Proof. intros HA Hm Hr Ha. pose proof (reachable_wf env conf HA Hm s Hr). eauto using serve_done. Qed.

(** C6: A report of a test by a client with a reference first passes the checks, in order: an
    operation cycle that runs, an enabled event, a DTC that is active. A report that one of
    them refuses returns the reason and changes nothing. A report that passes is debounced; a
    verdict that differs from the last one moves the status byte of the event, and its DTC
    becomes the combination of its events; the data base has the new values and exactly the
    changes of the DTC are reported when the result is [LE_OK], and when the data base fails
    its error is returned; no other event, DTC or row changes. A data
    base that was in step with the memory before a report that returns [LE_OK] is in step after
    it. *)
Theorem report_has_its_effect (s : Dem T) r e d x y st code size :
  featureA env = false -> wf (fault_code_max env) s -> st <> TAF_DIAGEVENT_UNKNOWN ->
  amap_find (SvcRefMap s) r = Some e -> EventCtxList s !! e = Some x ->
  dtcCtxPtr x = Some d -> DtcCtxList s !! d = Some y ->
  code_fits x code size ->
  wp (SetStatusWithSupplierFaultCode env (Some r) st code size)
    (fun res s' => if decide (condition env s x = LE_OK)
                   then reported e d x y st s res s' /\ in_step e d x y s res s'
                   else res = condition env s x /\ s' = s) s.
Proof.
  intros HA Hw Hst Hr Hx Hp Hy Hc. eapply wp_conseq; [by apply report_done|].
  intros res s' H. cbv beta in *. case_decide; [|done]. split; [done|]. by eapply reported_in_step.
Qed.

(** C16: Debouncing by counter, without jumps: when the client of an event whose conditions hold
    keeps reporting [PREFAILED], the counter grows by the increment and stops at the threshold.
    Once the reports have carried it there, and not before, the event has failed - its status
    byte is that of one failed test, counted once; until then neither its status nor any DTC
    has changed. This holds even when the data base fails. *)
Theorem prefailed_reports_decide (s : Dem T) r e x n :
  featureA env = false -> ready env r e s x ->
  debounceType x = TAF_DIAGEVENT_DEBOUNCE_COUNTER_BASED ->
  jumpUp (debounceCounterBasedConfig x) = false -> eventFaultStatus x <> TAF_DIAGEVENT_FAILED ->
  debounceCounter x < failedThreshold (debounceCounterBasedConfig x) ->
  let reached := debounceCounter x + Z.of_nat n * incrementStepSize (debounceCounterBasedConfig x) in
  wp (reports env r TAF_DIAGEVENT_PREFAILED n) (fun _ s' => exists x', ready env r e s' x' /\
    debounceCounter x' = Z.min (failedThreshold (debounceCounterBasedConfig x)) reached /\
    if failedThreshold (debounceCounterBasedConfig x) <=? reached then has_failed x x'
    else undecided x x' /\ DtcCtxList s' = DtcCtxList s) s.
Proof.
  intros HA Hr Ht Hj Hf Hc reached. eapply wp_conseq; [by apply (prefailed_rounds env HA r e s x n)|].
  intros [] s' (x' & Hr' & _ & Hc' & Hcase). exists x'. split_and!; [done| |exact Hcase].
  destruct (wf_event _ e x s (ready_wf _ _ _ _ _ Hr) (ready_event _ _ _ _ _ Hr)) as [Hxok _].
  destruct (ok_counter _ _ Hxok Ht) as [Hok Hin]. rewrite Hc'. by apply prefailed_saturates.
Qed.

(** C13: A fault is confirmed by exactly as many failed operation cycles as its confirmation
    threshold: when the cycle of the event is restarted and a failed test reported, [n] times,
    over a data base that stores, the confirmed bit of the event is set if and only if [n] has
    reached the threshold. *)
Theorem confirmed_by_failed_cycles `{!Reliable T} (s : Dem T) r e cref c x n :
  featureA env = false -> running env r e cref c s x -> 1 <= confirmationThreshold x ->
  failureCounter x = 0 -> bits (eventUdsStatus x) TAF_DIAGEVENT_UDS_STATUS_CDTC = false ->
  wp (failed_cycles env r cref n) (fun _ s' => exists x', EventCtxList s' !! e = Some x' /\
    bits (eventUdsStatus x') TAF_DIAGEVENT_UDS_STATUS_CDTC = (confirmationThreshold x <=? Z.of_nat n)) s.
Proof.
  intros HA Hrun Hth Hf Hb. eapply wp_conseq; [by apply (confirmed_rounds env HA r e cref c s x n)|].
  intros [] s' (x' & Hrun' & _ & _ & Hbit). exists x'. split; [|done]. by destruct Hrun' as [[]].
Qed.



(** A request to clear the group of all DTCs clears the suppressed ones as well: whenever it
    succeeds, every DTC context is clear, whatever its suppression status, and every event of
    any DTC is forgotten, although a suppressed DTC is refused on its own. *)
Theorem suppressed_dtcs_cleared (s : Dem T) client :
  featureA env = false -> known_client client = true ->
  wp (ClearDtc env 0xFFFFFF client) (fun r s' =>
    if decide (r = LE_OK) then all_clear env (seq 0 (length (DtcCtxList s))) s s'
    else EventCtxList s' = EventCtxList s /\ DtcCtxList s' = DtcCtxList s) s.
Proof. intros HA. by apply everything_cleared. Qed.

(** C28: When the condition [id] becomes [b], an event that lists it is enabled if and only if one
    of its alternative conditions is fulfilled, or, when [id] is not among them, all of its
    joint conditions are; an event that does not list it stays as it was. Statuses, failure
    counters and fault statuses do not change, DTCs neither; an event that is disabled and is
    to reset loses its debounce counter. *)
Theorem condition_decides_enabling (s : Dem T) id b :
  featureA env = false ->
  wp (SetEnableCondition env id b) (fun r s' => r = LE_OK /\ DtcCtxList s' = DtcCtxList s /\
    let status i := if decide (i = id) then b else GetEnableConditionStatus (enableStatusList s) i in
    forall e x, EventCtxList s !! e = Some x -> exists x', EventCtxList s' !! e = Some x' /\
      event_id x' = event_id x /\ eventUdsStatus x' = eventUdsStatus x /\
      failureCounter x' = failureCounter x /\ eventFaultStatus x' = eventFaultStatus x /\
      match amap_find (event_conditions env) (eventId x) with
      | None => x' = x
      | Some c =>
          if decide (id ∈ or_conditions c \/ id ∈ and_conditions c) then
            (eventEnableStatus x' = true <->
               if decide (id ∈ or_conditions c) then Exists (fun i => status i = true) (or_conditions c)
               else Forall (fun i => status i = true) (and_conditions c)) /\
            debounceCounter x' =
              (if negb (eventEnableStatus x') && bool_decide (debounceBehavior_ x = TAF_DIAGEVENT_DEBOUNCE_RESET)
               then 0 else debounceCounter x)
          else x' = x
      end) s.
Proof.
  intros HA. eapply wp_conseq; [by apply condition_set|]. intros r s' [-> [_ Hd Hin _]].
  split_and!; [done..|]. intros status e x Hx.
  destruct (Hin e x) as (x' & Hx' & Hc); [apply all_of_elem; by exists x|done|]. exists x'. split; [done|].
  unfold conditioned in Hc. destruct (amap_find _ _) as [c|]; [|by rewrite Hc]. cbn [mbind option_bind] in Hc.
  set (st := GetEnableConditionStatus _) in Hc.
  assert (forall i, st i = status i) as Hst by (intros i; apply condition_recorded).
  destruct (decide (id ∈ or_conditions c \/ id ∈ and_conditions c)) as [Hl|Hl].
  - destruct (enabled_iff c st id Hl) as (new & Hnew & Hiff). rewrite Hnew in Hc.
    destruct Hc as (Hid & _ & Hen & Hu & Hf & Hfs & Hdc). split_and!; try done; rewrite Hen; [|done].
    rewrite Hiff. destruct (decide (id ∈ or_conditions c)); [apply Exists_proper|apply Forall_proper]; [|done| |done]; intros i; by rewrite Hst.
  - rewrite not_enabled in Hc by tauto. by rewrite Hc.
Qed.
End Thms.

(** ** Concrete runs *)

(** Requests that no state refuses, from a reachable state. *)
Lemma run_reachable qs s : reachable sample_dem_env sample_events s ->
  Forall (fun q => forall s, allowed (T:=Tables) sample_dem_env s q) qs ->
  reachable sample_dem_env sample_events (run qs s).
Proof.
  revert s. induction qs as [|q qs IH]; intros s Hs Hq; [done|].
  apply Forall_cons in Hq as [Hq Hqs].
  destruct (serve_done sample_dem_env eq_refl q s) as (s1 & H1 & _); [by eapply reachable_wf|done|].
  cbn [run]. unfold final. rewrite H1. apply IH; [|done]. by eapply (serves _ _ s q s1).
Qed.
Lemma booted_reachable : reachable sample_dem_env sample_events booted.
Proof. apply (boots _ _ no_rows); [by split|by repeat constructor|]. vm_compute. reflexivity. Qed.
Lemma driving_reachable : reachable sample_dem_env sample_events driving.
Proof.
  apply run_reachable; [apply run_reachable; [apply booted_reachable|]|]; repeat constructor.
Qed.
Lemma driving_wf : wf (fault_code_max sample_dem_env) driving.
Proof. by eapply reachable_wf, driving_reachable. Qed.
Lemma battery_ready : ready sample_dem_env 2 1 driving battery.
Proof. split; [apply driving_wf|..]; vm_compute; reflexivity. Qed.
Lemma battery_running : running sample_dem_env 2 1 5 0 driving battery.
Proof. split; [apply battery_ready|vm_compute; reflexivity|]. exists ignition. split_and!; vm_compute; reflexivity. Qed.

(** A report with a fault code, while the cycle runs. *)
Lemma requests_keep_service_well_formed_witness :
  exists s', serve sample_dem_env (Report (Some 2) TAF_DIAGEVENT_FAILED (Some [1; 2]) 2) driving = Done (tt, s') /\
    wf 4 s'.
Proof.
  apply (requests_keep_service_well_formed sample_dem_env sample_events driving);
    [reflexivity|vm_compute; discriminate|apply driving_reachable|vm_compute; split; discriminate].
Defined.

(** A failed battery test, while the conditions hold. *)
Lemma report_has_its_effect_witness :
  wp (SetStatusWithSupplierFaultCode sample_dem_env (Some 2) TAF_DIAGEVENT_FAILED None 0)
    (fun res s' => reported 1 1 battery battery_dtc TAF_DIAGEVENT_FAILED driving res s' /\
       in_step 1 1 battery battery_dtc driving res s') driving.
Proof.
  eapply wp_conseq; [apply (report_has_its_effect sample_dem_env driving 2 1 1 battery battery_dtc);
    [reflexivity|apply driving_wf|discriminate|vm_compute; reflexivity|apply battery_event|
     vm_compute; reflexivity|vm_compute; reflexivity|exact I]|].
  intros res s' H. cbv beta in H. rewrite decide_True in H by (vm_compute; reflexivity). exact H.
Defined.

(** Three increments of 50 reach the threshold of 127. *)
Lemma prefailed_reports_decide_witness :
  wp (reports sample_dem_env 2 TAF_DIAGEVENT_PREFAILED 3) (fun _ s' => exists x',
    EventCtxList s' !! 1%nat = Some x' /\ debounceCounter x' = 127 /\ has_failed battery x') driving.
Proof.
  eapply wp_conseq; [apply (prefailed_reports_decide sample_dem_env driving 2 1 battery 3);
    [reflexivity|apply battery_ready|vm_compute; reflexivity|vm_compute; reflexivity|
     vm_compute; discriminate|vm_compute; reflexivity]|].
  intros _ s' (x' & Hr & Hc & Hf). exists x'. destruct Hr. split; [done|split; [exact Hc|exact Hf]].
Defined.

(** The threshold of two failed cycles. *)
Lemma confirmed_by_failed_cycles_witness :
  wp (failed_cycles sample_dem_env 2 5 2) (fun _ s' => exists x', EventCtxList s' !! 1%nat = Some x' /\
    bits (eventUdsStatus x') TAF_DIAGEVENT_UDS_STATUS_CDTC = true) driving.
Proof.
  apply (confirmed_by_failed_cycles sample_dem_env driving 2 1 5 0 battery 2);
    [reflexivity|apply battery_running|vm_compute; discriminate|vm_compute; reflexivity|vm_compute; reflexivity].
Defined.



(** Both DTCs are cleared. *)
Lemma suppressed_dtcs_cleared_witness :
  wp (ClearDtc sample_dem_env 0xFFFFFF TAF_DIAGDTC_APP) (fun r s' => r = LE_OK ->
    all_clear sample_dem_env [0%nat; 1%nat] driving s') driving.
Proof.
  eapply wp_conseq; [apply (suppressed_dtcs_cleared sample_dem_env driving TAF_DIAGDTC_APP); reflexivity|].
  intros r s' H Hr. cbv beta in H. rewrite decide_True in H by done. exact H.
Defined.

(** Condition 7 fails: the battery is no longer monitored. *)
Lemma condition_decides_enabling_witness :
  wp (SetEnableCondition sample_dem_env 7 false) (fun _ s' => exists x',
    EventCtxList s' !! 1%nat = Some x' /\ eventEnableStatus x' = false) driving.
Proof.
  eapply wp_conseq; [apply (condition_decides_enabling sample_dem_env driving 7 false); reflexivity|].
  intros _ s' (_ & _ & H). destruct (H 1%nat battery battery_event) as (x' & Hx' & _ & _ & _ & _ & Hc).
  exists x'. split; [exact Hx'|].
  change (amap_find (event_conditions sample_dem_env) (eventId battery)) with (Some needs_7) in Hc.
  cbv beta iota in Hc. rewrite decide_True in Hc by (right; by left).
  destruct Hc as [Hc _]. rewrite decide_False in Hc by apply not_elem_of_nil.
  apply not_true_is_false. intros Ht. apply Hc in Ht.
  change (and_conditions needs_7) with [7] in Ht. rewrite Forall_singleton in Ht.
  vm_compute in Ht. discriminate.
Defined.
