(* ===== verification/DaoTypes.v ===== *)
(** * The data base of the diagnostic events: data

    The values and statements of SQL that [src/components/tafDataAccessComp] builds, the calls
    of SQLite that it makes as the interface [Sqlite], the entities of its three tables and the
    state of the component. *)
From stdpp Require Export gmap.
From S2P Require Import Prelude DiagCfg DemTypes DemInit.

#[global] Open Scope Z_scope.

(** The value that an integer gets in a variable of type [int32_t]. *)
Definition s32 (z : Z) : Z := (z + 0x80000000) mod 0x100000000 - 0x80000000.

Definition is_int32 (z : Z) : Prop := -0x80000000 <= z < 0x80000000.
Lemma s32_id (z : Z) : is_int32 z -> s32 z = z.
Proof. unfold is_int32. intros. unfold s32. rewrite Z.mod_small by lia. lia. Qed.
Lemma s32_range (z : Z) : is_int32 (s32 z).
Proof. unfold is_int32, s32. pose proof (Z.mod_pos_bound (z + 0x80000000) 0x100000000 eq_refl). lia. Qed.

(** ** Values and rows *)
Inductive Val := VNull | VInt (z : Z) | VText (t : string) | VBlob (b : list Z).
#[export] Instance val_eq_dec : EqDecision Val.
Proof. solve_decision. Defined.

(** [DTC_TABLE_NAME], [EVENT_TABLE_NAME] and [SNAPSHOT_TABLE_NAME]. *)
Inductive Tab := dtc_entity | event_entity | snapshot_entity.
#[export] Instance tab_eq_dec : EqDecision Tab.
Proof. solve_decision. Defined.

(** A row by the names of its columns. *)
Definition Row := amap string Val.
Definition cell (r : Row) (c : string) : Val := default VNull (amap_find r c).

(** ** Statements

    The [WHERE] clauses of the component. A comparison with [NULL] does not hold. The text of
    [ColText] stands between quotes in the statement. *)
Inductive Where :=
  | ColIs (c : string) (z : Z)
  | ColIsNot (c : string) (z : Z)
  | ColMask (c : string) (m : Z)
  | ColAbove (c : string) (z : Z)
  | ColText (c : string) (t : string)
  | Both (w1 w2 : Where).

Inductive Stmt :=
  | Select (t : Tab) (cols : list string) (w : option Where)
  | SelectKey (t : Tab) (cols : list string) (pk : string)
  | SelectCount (t : Tab) (w : Where)
  | SelectExists (t : Tab)
  | SelectTableName
  | Insert (t : Tab) (cols : list string)
  | Update (t : Tab) (cols : list string) (pk : string)
  | Delete (t : Tab) (pk : string).

(** The commands that the component passes to [sqlite3_exec]. *)
Inductive Command :=
  | CreateTableCmd (t : Tab) (if_not_exists : bool)
  | DropTableCmd (t : Tab) (if_exists : bool)
  | UpdateWhereNot (t : Tab) (c : string) (z : Z).

(** ** SQLite

    [sqlite3_step] gets the statement, the values bound to its parameters and, in a query that
    has returned a row, the rows that are still to come: a row that has been returned may be
    changed or deleted while the query runs. *)
Inductive StepResult :=
  | SQLITE_ROW (row : list Val) (rest : list (list Val))
  | SQLITE_DONE (changes : Z)
  | SQLITE_ERROR.

Class Sqlite (E : Type) := {
  sqlite3_prepare_v2 : Stmt -> M E bool;
  sqlite3_step : Stmt -> amap Z Val -> option (list (list Val)) -> M E StepResult;
  sqlite3_exec : Command -> M E (option Z) }.

(** ** [DataStatement] ([tafDataStatement.hpp])

    [prepared] is [mPrepareStmt], empty when preparing failed; [binds], [current], [rest] and
    [failed] are what SQLite keeps of a statement. *)
Record DataStatement := mkStatement {
  prepared : option Stmt;
  binds : amap Z Val;
  current : list Val;
  rest : option (list (list Val));
  failed : bool;
  isDone : bool;
  hasRow : bool }.
Definition eta_DataStatement (s : DataStatement) : DataStatement :=
  mkStatement (prepared s) (binds s) (current s) (rest s) (failed s) (isDone s) (hasRow s).
#[export] Instance set_prepared : Field prepared := ltac:(field_of eta_DataStatement).
#[export] Instance set_binds : Field binds := ltac:(field_of eta_DataStatement).
#[export] Instance set_current : Field current := ltac:(field_of eta_DataStatement).
#[export] Instance set_rest : Field rest := ltac:(field_of eta_DataStatement).
#[export] Instance set_failed : Field failed := ltac:(field_of eta_DataStatement).
#[export] Instance set_isDone : Field isDone := ltac:(field_of eta_DataStatement).
#[export] Instance set_hasRow : Field hasRow := ltac:(field_of eta_DataStatement).

(** ** Entities

    A member of -1 is not set, and neither is a time of 0. *)
Record DtcEntity := mkDtcEntity {
  de_dtc : Z; de_status : Z; de_occur : Z; de_aging : Z; de_aged : Z;
  de_activation : Z; de_suppression : Z;
  de_create : Z; de_update : Z; de_test_failed : Z; de_confirmed : Z }.
Definition eta_DtcEntity (x : DtcEntity) : DtcEntity :=
  mkDtcEntity (de_dtc x) (de_status x) (de_occur x) (de_aging x) (de_aged x) (de_activation x)
    (de_suppression x) (de_create x) (de_update x) (de_test_failed x) (de_confirmed x).
#[export] Instance set_de_dtc : Field de_dtc := ltac:(field_of eta_DtcEntity).
#[export] Instance set_de_status : Field de_status := ltac:(field_of eta_DtcEntity).
#[export] Instance set_de_occur : Field de_occur := ltac:(field_of eta_DtcEntity).
#[export] Instance set_de_aging : Field de_aging := ltac:(field_of eta_DtcEntity).
#[export] Instance set_de_aged : Field de_aged := ltac:(field_of eta_DtcEntity).
#[export] Instance set_de_activation : Field de_activation := ltac:(field_of eta_DtcEntity).
#[export] Instance set_de_suppression : Field de_suppression := ltac:(field_of eta_DtcEntity).
#[export] Instance set_de_create : Field de_create := ltac:(field_of eta_DtcEntity).
#[export] Instance set_de_update : Field de_update := ltac:(field_of eta_DtcEntity).

Record EventEntity := mkEventEntity {
  ve_id : Z; ve_name : string; ve_dtc : Z; ve_status : Z; ve_failed_counter : Z;
  ve_create : Z; ve_update : Z }.
Definition eta_EventEntity (x : EventEntity) : EventEntity :=
  mkEventEntity (ve_id x) (ve_name x) (ve_dtc x) (ve_status x) (ve_failed_counter x)
    (ve_create x) (ve_update x).
#[export] Instance set_ve_id : Field ve_id := ltac:(field_of eta_EventEntity).
#[export] Instance set_ve_name : Field ve_name := ltac:(field_of eta_EventEntity).
#[export] Instance set_ve_dtc : Field ve_dtc := ltac:(field_of eta_EventEntity).
#[export] Instance set_ve_status : Field ve_status := ltac:(field_of eta_EventEntity).
#[export] Instance set_ve_failed_counter : Field ve_failed_counter := ltac:(field_of eta_EventEntity).
#[export] Instance set_ve_create : Field ve_create := ltac:(field_of eta_EventEntity).
#[export] Instance set_ve_update : Field ve_update := ltac:(field_of eta_EventEntity).

Record SnapshotEntity := mkSnapshotEntity {
  se_id : Z; se_dtc : Z; se_did : Z; se_value : list Z; se_record : Z;
  se_create : Z; se_update : Z }.
Definition eta_SnapshotEntity (x : SnapshotEntity) : SnapshotEntity :=
  mkSnapshotEntity (se_id x) (se_dtc x) (se_did x) (se_value x) (se_record x)
    (se_create x) (se_update x).
#[export] Instance set_se_id : Field se_id := ltac:(field_of eta_SnapshotEntity).
#[export] Instance set_se_dtc : Field se_dtc := ltac:(field_of eta_SnapshotEntity).
#[export] Instance set_se_did : Field se_did := ltac:(field_of eta_SnapshotEntity).
#[export] Instance set_se_value : Field se_value := ltac:(field_of eta_SnapshotEntity).
#[export] Instance set_se_record : Field se_record := ltac:(field_of eta_SnapshotEntity).
#[export] Instance set_se_create : Field se_create := ltac:(field_of eta_SnapshotEntity).
#[export] Instance set_se_update : Field se_update := ltac:(field_of eta_SnapshotEntity).

Definition new_dtc_entity : DtcEntity := mkDtcEntity (-1) (-1) (-1) (-1) (-1) (-1) (-1) 0 0 0 0.
Definition new_event_entity : EventEntity := mkEventEntity (-1) "" (-1) (-1) (-1) 0 0.
Definition new_snapshot_entity : SnapshotEntity := mkSnapshotEntity (-1) (-1) (-1) [] (-1) 0 0.

(** ** Records of the interface ([tafDataAccessComp.h]) *)
Record taf_DataAccess_DTCStatus_t := mkDTCStatus { st_dtc : Z; st_status : Z }.
Record taf_DataAccess_SnapshotInfo_t := mkSnapshotInfo { si_dtc : Z; si_recNumber : Z }.
Record taf_DataAccess_FF_DID_t := mkFFDid { ff_did : Z; ff_didDataSize : Z; ff_didData : list Z }.
Record taf_DataAccess_SnapshotData_t := mkSnapshotData {
  sd_recNumber : Z; recDidSize : Z; didSet : list taf_DataAccess_FF_DID_t }.
Record taf_DataAccess_SnapshotDataRec_t := mkSnapshotDataRec {
  sr_dtc : Z; sr_status : Z; snapshotDataList : list taf_DataAccess_SnapshotData_t }.
Record taf_DataAccess_ExtData_t := mkExtData { ed_recNumber : Z; extDataBytes : list Z }.
Record taf_DataAccess_ExtDataRec_t := mkExtDataRec {
  er_dtc : Z; er_status : Z; extDataList : list taf_DataAccess_ExtData_t }.
Record taf_DataAccess_DIDInfo_t := mkDIDInfo { di_did : Z; di_val : list Z }.
Record taf_DataAccess_NumOfDTC_t := mkNumOfDTC {
  nd_availableMask : Z; formatIdentifier : Z; dtcCnt : Z }.

Abbreviation DATA_ACCESS_FF_DID_SIZE_MAX := 10 (only parsing).
Abbreviation DATA_ACCESS_DID_DATA_SIZE_MAX := 128 (only parsing).
Abbreviation DEM_DTC_AVAILABLE_MASK_DEF := 0x7F (only parsing).
Abbreviation DTC_FORMAT_IDENTIFIER_ISO_14229 := 1 (only parsing).
Abbreviation DTC_FORMAT_IDENTIFIER_SAE_J2012_04 := 4 (only parsing).

Inductive Snapshot_Type_t :=
  | Snapshot_FirstOccurrence | Snapshot_LastOccurrence | Snapshot_LastDisappearance | Snapshot_All.
#[export] Instance snapshot_type_eq_dec : EqDecision Snapshot_Type_t.
Proof. solve_decision. Defined.
Inductive ExtendData_Type_t :=
  | ExtendData_OccurenceCounter | ExtendData_CumulativeDistanceOCCWithTestFailed
  | ExtendData_IUMPRNumerator | ExtendData_IUMPRDenominator | ExtendData_All.
#[export] Instance extend_type_eq_dec : EqDecision ExtendData_Type_t.
Proof. solve_decision. Defined.

(** ** State

    The statements that the handlers of the three tables keep, the record numbers of
    [DemDataHandler], and how often the time was read. *)
Inductive StmtKind := InsertStatement | UpdateStatement | DeleteStatement.
#[export] Instance stmt_kind_eq_dec : EqDecision StmtKind.
Proof. solve_decision. Defined.

Record Dao {E : Type} := mkDao {
  engine : E;
  statements : amap (Tab * StmtKind) DataStatement;
  extendedRnVec : list (Z * Z * ExtendData_Type_t);
  snapshotRnVec : list (Z * Z * Snapshot_Type_t);
  ticks : nat }.
Arguments Dao : clear implicits.
Arguments mkDao {E} _ _ _ _ _.
Definition eta_Dao {E} (s : Dao E) : Dao E :=
  mkDao (engine s) (statements s) (extendedRnVec s) (snapshotRnVec s) (ticks s).
#[export] Instance set_engine {E} : Field (@engine E) := ltac:(field_of (@eta_Dao E)).
#[export] Instance set_statements {E} : Field (@statements E) := ltac:(field_of (@eta_Dao E)).
#[export] Instance set_extendedRnVec {E} : Field (@extendedRnVec E) := ltac:(field_of (@eta_Dao E)).
#[export] Instance set_snapshotRnVec {E} : Field (@snapshotRnVec E) := ltac:(field_of (@eta_Dao E)).
#[export] Instance set_ticks {E} : Field (@ticks E) := ltac:(field_of (@eta_Dao E)).

(** ** Environment

    [time_text] is [strftime] of [localtime], [text_time] the [String2Time] of [BaseDao]; both
    depend on the time zone. [all_freeze_frames] and [all_extended_data_records] give the record
    numbers, [extended_data_records] the names of the records of a DTC. *)
Record DaoEnv := mkDaoEnv {
  time_now : nat -> Z;
  time_text : Z -> string;
  text_time : string -> Z;
  dao_featureA : bool;
  dao_conf : EventConf;
  all_freeze_frames : amap string Z;
  all_extended_data_records : amap string Z;
  extended_data_records : Z -> list string }.
