(* ===== verification/DaoSql.v ===== *)
(** * The data base of the diagnostic events: statements and handlers

    [DataStatement] ([tafDataStatement.cpp]), and the [SQLite3Handler] of
    [tafSQLite3Handler.hpp] for any entity: what a data access object provides for the handler
    ([BaseDao]) is the interface [Entity]. *)
From S2P Require Import Prelude DiagCfg DemTypes DemInit DaoTypes.

Section Statements.
Context {E : Type} `{!Sqlite E}.

Definition on_engine {A} (c : M E A) : M (Dao E) A := fun s =>
  match c (engine s) with
  | Done (a, e) => Done (a, s <| engine := e |>)
  | Faulted f => Faulted f
  end.

(** The constructor: a statement that cannot be prepared stays empty. *)
Definition PrepareStatement (q : Stmt) : M (Dao E) DataStatement :=
  ok ← on_engine (sqlite3_prepare_v2 q);
  mret (mkStatement (if (ok : bool) then Some q else None) [] [] None false false false).

(** [sqlite3_reset] returns the error of the last step, and resets all the same. *)
Definition Reset (st : DataStatement) : le_result_t * DataStatement :=
  match prepared st with
  | None => (LE_CLOSED, st)
  | Some _ =>
      let st' := st <| rest := None |> <| current := [] |> <| failed := false |> in
      if failed st then (LE_IO_ERROR, st') else (LE_OK, st' <| isDone := false |> <| hasRow := false |>)
  end.

Definition ClearBindings (st : DataStatement) : DataStatement := st <| binds := [] |>.
Definition BindValue (st : DataStatement) (index : Z) (v : Val) : DataStatement :=
  match prepared st with None => st | Some _ => st <| binds := (index, v) :: binds st |> end.
Definition bind_all (st : DataStatement) (vs : list (Z * Val)) : DataStatement :=
  foldl (fun st p => BindValue st p.1 p.2) st vs.

Definition step (st : DataStatement) : M (Dao E) StepResult :=
  match prepared st with
  | None => mret SQLITE_ERROR
  | Some q => on_engine (sqlite3_step q (binds st) (rest st))
  end.
Definition step_failed (st : DataStatement) : DataStatement :=
  st <| hasRow := false |> <| current := [] |> <| rest := None |> <| failed := true |>.

Definition ExecuteRowStep (st : DataStatement) : M (Dao E) (bool * DataStatement) :=
  if isDone st then mret (false, st) else
  r ← step st;
  mret match r with
  | SQLITE_ROW row more => (true, st <| hasRow := true |> <| current := row |> <| rest := Some more |>)
  | SQLITE_DONE _ => (false, st <| hasRow := false |> <| isDone := true |> <| current := [] |>)
  | SQLITE_ERROR => (false, step_failed st)
  end.

Definition ExecuteRow (st : DataStatement) : M (Dao E) (Z * DataStatement) :=
  if isDone st then mret (0, st) else
  r ← step st;
  mret match r with
  | SQLITE_ROW row more => (0, st <| hasRow := true |> <| current := row |> <| rest := Some more |>)
  | SQLITE_DONE n => (n, st <| hasRow := false |> <| isDone := true |> <| current := [] |>)
  | SQLITE_ERROR => (-1, step_failed st)
  end.

(** ** The columns of the current row

    SQLite gives 0 and a null pointer for [NULL]; a column of a statement without a row is
    undefined. *)
Definition int_of (v : Val) : Z := match v with VInt z => s32 z | _ => 0 end.
Definition text_of (v : Val) : option string := match v with VText t => Some t | _ => None end.
Definition blob_of (v : Val) : list Z := match v with VBlob b => b | _ => [] end.
Definition col (row : list Val) (i : nat) : Val := default VNull (row !! i).

Definition GetColumnInt (st : DataStatement) (i : nat) : M (Dao E) Z :=
  match prepared st with
  | None => mret 0
  | Some _ => if hasRow st then mret (int_of (col (current st) i)) else raise Uninitialised
  end.
End Statements.

(** ** Data access objects

    A statement that an entity fills gets the values of [BindValues] in the order of the calls,
    after [ClearBindings]. *)
Class Entity (X : Type) := {
  mFileName : Tab;
  columnList : list string;
  pk : string;
  BindValues : DaoEnv -> X -> list (Z * Val);
  BindKeyValue : X -> list (Z * Val);
  ReadEntity : DaoEnv -> list Val -> X -> X;
  GetKey : X -> Z;
  HasKey : X -> bool }.
#[export] Hint Mode Entity ! : typeclass_instances.
#[global] Arguments mFileName X {_}.
#[global] Arguments columnList X {_}.
#[global] Arguments pk X {_}.

Definition bind_int (i v : Z) : list (Z * Val) := if v =? -1 then [] else [(i, VInt v)].
Definition bind_time (env : DaoEnv) (i t : Z) : list (Z * Val) :=
  if t =? 0 then [] else [(i, VText (time_text env t))].
Definition bind_blob (i : Z) (v : list Z) : list (Z * Val) :=
  match v with [] => [] | _ => [(i, VBlob v)] end.
Definition time_of (env : DaoEnv) (v : Val) : Z :=
  match text_of v with Some t => text_time env t | None => 0 end.

Section Handler.
Context {E : Type} `{!Sqlite E} {X : Type} `{!Entity X}.
Variable env : DaoEnv.

(** A statement that the handler keeps is prepared at its first use and reset at the others. *)
Definition GetStatement (k : StmtKind) (q : Stmt) : M (Dao E) DataStatement :=
  kept ← gets (fun s => amap_find (statements s) (mFileName X, k));
  match kept with
  | None => PrepareStatement q
  | Some st => mret (Reset st).2
  end.
Definition keep_statement (k : StmtKind) (st : DataStatement) : M (Dao E) unit :=
  modify (fun s => s <| statements := ((mFileName X, k), st) :: statements s |>).

Definition insert_sql : Stmt := Insert (mFileName X) (columnList X).
Definition update_sql : Stmt := Update (mFileName X) (columnList X) (pk X).
Definition delete_sql : Stmt := Delete (mFileName X) (pk X).

Definition run_row (k : StmtKind) (st : DataStatement) : M (Dao E) le_result_t :=
  r ← ExecuteRow st;
  keep_statement k r.2;;
  mret (if r.1 <? 0 then LE_IO_ERROR else LE_OK).

Definition Add (x : X) : M (Dao E) le_result_t :=
  st ← GetStatement InsertStatement insert_sql;
  run_row InsertStatement (bind_all (ClearBindings st) (BindValues env x)).

Definition Remove (x : X) : M (Dao E) le_result_t :=
  st ← GetStatement DeleteStatement delete_sql;
  run_row DeleteStatement (bind_all (ClearBindings st) (BindKeyValue x)).

Definition Update (x : X) : M (Dao E) le_result_t :=
  st ← GetStatement UpdateStatement update_sql;
  let st := bind_all (ClearBindings st) (BindValues env x) in
  run_row UpdateStatement
    (BindValue st (Z.of_nat (length (columnList X)) + 1) (VInt (GetKey x))).

Definition QueryByKey (x : X) : M (Dao E) (le_result_t * X) :=
  if negb (HasKey x) then mret (LE_BAD_PARAMETER, x) else
  st ← PrepareStatement (SelectKey (mFileName X) (columnList X) (pk X));
  r ← ExecuteRowStep (bind_all (ClearBindings st) (BindKeyValue x));
  if negb r.1 then mret (LE_NOT_FOUND, x) else
  mret (LE_OK, ReadEntity env (current r.2) x).

Definition Query (w : option Where) : M (Dao E) DataStatement :=
  PrepareStatement (Select (mFileName X) (columnList X) w).
Definition QueryCount (w : Where) : M (Dao E) DataStatement :=
  PrepareStatement (SelectCount (mFileName X) w).

(** [QueryCount] and the first column of its row. *)
Definition read_count (w : Where) : M (Dao E) Z :=
  st ← QueryCount w;
  r ← ExecuteRowStep st;
  GetColumnInt r.2 0.

Definition ExecRaw (c : Command) : M (Dao E) le_result_t :=
  n ← on_engine (sqlite3_exec c);
  mret (match n with Some _ => LE_OK | None => LE_IO_ERROR end).

Definition CheckTableExist : M (Dao E) bool :=
  st ← PrepareStatement SelectTableName;
  r ← ExecuteRowStep (bind_all (ClearBindings st) [(1, VText (match mFileName X with
    | dtc_entity => "dtc_entity" | event_entity => "event_entity"
    | snapshot_entity => "snapshot_entity" end))]);
  mret r.1.

Definition CheckTableEmpty : M (Dao E) bool :=
  st ← PrepareStatement (SelectExists (mFileName X));
  r ← ExecuteRowStep st;
  n ← GetColumnInt r.2 0;
  mret (n =? 0).

(** [while (statement.ExecuteRowStep()) body]: the body gets the current row, and [false]
    leaves the loop. The first step tells how many rows are to come. *)
Fixpoint next_rows {B} (fuel : nat) (st : DataStatement) (acc : B)
    (body : B -> list Val -> M (Dao E) (B * bool)) : M (Dao E) B :=
  match fuel with
  | O => raise Diverges
  | S fuel' =>
      b ← body acc (current st);
      if negb b.2 then mret b.1 else
      r ← ExecuteRowStep st;
      if negb r.1 then mret b.1 else next_rows fuel' r.2 b.1 body
  end.
Definition each_row {B} (st : DataStatement) (acc : B)
    (body : B -> list Val -> M (Dao E) (B * bool)) : M (Dao E) B :=
  r ← ExecuteRowStep st;
  if negb r.1 then mret acc else
  next_rows (S (length (default [] (rest r.2)))) r.2 acc body.
End Handler.
#[global] Arguments insert_sql X {_}.
#[global] Arguments update_sql X {_}.
#[global] Arguments delete_sql X {_}.
#[global] Arguments GetStatement {E _} X {_} _ _.
#[global] Arguments keep_statement {E} X {_} _ _.
#[global] Arguments run_row {E _} X {_} _ _.
#[global] Arguments Query {E _} X {_} _.
#[global] Arguments QueryCount {E _} X {_} _.
#[global] Arguments read_count {E _} X {_} _.
#[global] Arguments CheckTableExist {E _} X {_}.
#[global] Arguments CheckTableEmpty {E _} X {_}.
