(* ===== verification/DaoEntities.v ===== *)
(** * The data base of the diagnostic events: the three data access objects

    [tafDTCEntityDAO.cpp], [tafEventEntityDAO.cpp] and [tafSnapshotEntityDAO.cpp]: the columns
    of the tables, how entities are bound to statements and read from rows, and the queries and
    changes of each table. *)
From S2P Require Import Prelude DiagCfg DemTypes DemInit DaoTypes DaoSql.

(** The last clock reading. *)
Definition now {E} (env : DaoEnv) : M (Dao E) Z :=
  n ← gets ticks; modify (fun s => s <| ticks := Datatypes.S n |>);; mret (time_now env n).

Definition ok (r : le_result_t) : bool := bool_decide (r = LE_OK).

(** ** Entities *)
#[export] Instance dtc_dao : Entity DtcEntity := {|
  mFileName := dtc_entity;
  columnList := ["DTC"; "Status"; "Fault_Occurence_Counter"; "Aging_Counter"; "Aged_Counter";
                 "Activation"; "Suppression"; "Creation_Time"; "Update_Time";
                 "Test_Failed_Time"; "Confirmed_Time"];
  pk := "DTC";
  BindValues env x :=
    bind_int 1 (de_dtc x) ++ bind_int 2 (de_status x) ++ bind_int 3 (de_occur x) ++
    bind_int 4 (de_aging x) ++ bind_int 5 (de_aged x) ++ bind_int 6 (de_activation x) ++
    bind_int 7 (de_suppression x) ++ bind_time env 8 (de_create x) ++
    bind_time env 9 (de_update x) ++ bind_time env 10 (de_test_failed x) ++
    bind_time env 11 (de_confirmed x);
  BindKeyValue x := bind_int 1 (de_dtc x);
  ReadEntity env r _ :=
    mkDtcEntity (int_of (col r 0)) (int_of (col r 1)) (int_of (col r 2)) (int_of (col r 3))
      (int_of (col r 4)) (int_of (col r 5)) (int_of (col r 6)) (time_of env (col r 7))
      (time_of env (col r 8)) (time_of env (col r 9)) (time_of env (col r 10));
  GetKey x := de_dtc x;
  HasKey x := negb (de_dtc x =? -1) |}.

#[export] Instance event_dao : Entity EventEntity := {|
  mFileName := event_entity;
  columnList := ["Event_ID"; "Event_Name"; "DTC"; "Status"; "Test_Failed_Counter";
                 "Creation_Time"; "Update_Time"];
  pk := "Event_ID";
  BindValues env x :=
    bind_int 1 (ve_id x) ++ [(2, VText (ve_name x))] ++ bind_int 3 (ve_dtc x) ++
    bind_int 4 (ve_status x) ++ bind_int 5 (ve_failed_counter x) ++
    bind_time env 6 (ve_create x) ++ bind_time env 7 (ve_update x);
  BindKeyValue x := bind_int 1 (ve_id x);
  ReadEntity env r _ :=
    mkEventEntity (int_of (col r 0)) (default "" (text_of (col r 1))) (int_of (col r 2))
      (int_of (col r 3)) (int_of (col r 4)) (time_of env (col r 5)) (time_of env (col r 6));
  GetKey x := ve_id x;
  HasKey x := negb (ve_id x =? -1) |}.

(** A value of a DID is kept up to [DATA_ACCESS_DID_DATA_SIZE_MAX] bytes, and an empty one is
    not taken. *)
Definition SetDidValue (x : SnapshotEntity) (v : list Z) : SnapshotEntity :=
  match v with
  | [] => x
  | _ => x <| se_value := take (Z.to_nat DATA_ACCESS_DID_DATA_SIZE_MAX) v |>
  end.
#[export] Instance snapshot_dao : Entity SnapshotEntity := {|
  mFileName := snapshot_entity;
  columnList := ["ID"; "DTC"; "DID"; "DID_Value"; "Record_Number"; "Creation_Time"; "Update_Time"];
  pk := "ID";
  BindValues env x :=
    bind_int 1 (se_id x) ++ bind_int 2 (se_dtc x) ++ bind_int 3 (se_did x) ++
    bind_blob 4 (se_value x) ++ bind_int 5 (se_record x) ++
    bind_time env 6 (se_create x) ++ bind_time env 7 (se_update x);
  BindKeyValue x := bind_int 1 (se_id x);
  ReadEntity env r x :=
    let x := SetDidValue x (blob_of (col r 3)) in
    mkSnapshotEntity (int_of (col r 0)) (int_of (col r 1)) (int_of (col r 2)) (se_value x)
      (int_of (col r 4)) (time_of env (col r 5)) (time_of env (col r 6));
  GetKey x := se_id x;
  HasKey x := negb (se_id x =? -1) |}.

(** ** The table of the DTCs ([DtcEntityDao]) *)
Module DtcEntityDao.
Section Dao.
Context {E : Type} `{!Sqlite E}.
Variable env : DaoEnv.

(** A row with the values of a DTC that nothing is known of. *)
Definition fresh (dtc : Z) (t : Z) : DtcEntity :=
  mkDtcEntity dtc 0 0 0 0 1 0 t t 0 0.

Definition InitTableWithConfig : M (Dao E) le_result_t :=
  for_each (dtc_all (dao_conf env)).*1
    (fun code => t ← now env; Add env (fresh (s32 (u32 code)) t);; mret tt);;
  mret LE_OK.
Definition Load : M (Dao E) le_result_t :=
  empty ← CheckTableEmpty DtcEntity;
  if (empty : bool) then InitTableWithConfig else mret LE_OK.

Definition find (dtc : Z) : M (Dao E) (le_result_t * DtcEntity) :=
  QueryByKey env (new_dtc_entity <| de_dtc := dtc |>).

Definition not_suppressed : Where := ColIsNot "Suppression" 1.
Definition ReadDtcCountByStatusWithSuppress (status : Z) : M (Dao E) Z :=
  read_count DtcEntity (Both (ColMask "Status" status) not_suppressed).
Definition ReadDtcByStatus (status : Z) : M (Dao E) (list taf_DataAccess_DTCStatus_t) :=
  st ← Query DtcEntity (Some (Both (ColMask "Status" status) not_suppressed));
  each_row st [] (fun acc row =>
    mret (acc ++ [mkDTCStatus (u32 (int_of (col row 0))) (u8 (int_of (col row 1)))], true)).

(** The three [ReadStatusByDtc]; their callers use the values of a result of [LE_OK] only. *)
Definition ReadStatusByDtc (dtc : Z) : M (Dao E) (le_result_t * DtcEntity) := find dtc.

(** The [WriteXxxByDtc]: [insert] and [update] set the members that the call is about. *)
Definition write (dtc : Z) (insert update : DtcEntity -> DtcEntity) : M (Dao E) le_result_t :=
  q ← find dtc;
  t ← now env;
  if ok q.1
  then DaoSql.Update env (update (q.2 <| de_dtc := dtc |>) <| de_update := t |>)
  else Add env (insert (fresh dtc t)).
Definition WriteStatusByDtc (dtc status occurCounter : Z) : M (Dao E) le_result_t :=
  let set x := x <| de_status := status |> <| de_occur := occurCounter |> in write dtc set set.
Definition WriteActivationByDtc (dtc activation : Z) : M (Dao E) le_result_t :=
  let set x := x <| de_activation := activation |> in write dtc set set.
Definition WriteSuppressionByDtc (dtc suppression : Z) : M (Dao E) le_result_t :=
  let set x := x <| de_suppression := suppression |> in write dtc set set.

Definition ReadActivationByDtc (dtc : Z) : M (Dao E) (le_result_t * Z) :=
  q ← find dtc; mret (q.1, de_activation q.2).
Definition ReadSuppressionByDtc (dtc : Z) : M (Dao E) (le_result_t * Z) :=
  q ← find dtc; mret (q.1, de_suppression q.2).

Definition WriteAllSuppression (suppression : Z) : M (Dao E) le_result_t :=
  ExecRaw (UpdateWhereNot dtc_entity "Suppression" suppression).

Definition CreateTable (if_not_exists : bool) : M (Dao E) le_result_t :=
  ExecRaw (CreateTableCmd dtc_entity if_not_exists).
Definition DropTable (if_exists : bool) : M (Dao E) le_result_t :=
  ExecRaw (DropTableCmd dtc_entity if_exists).

Definition ClearAll : M (Dao E) le_result_t :=
  DropTable false;;
  r ← CreateTable false;
  if negb (ok r) then mret r else
  InitTableWithConfig;; mret LE_OK.
Definition ClearDtcRecord (dtc : Z) : M (Dao E) le_result_t :=
  q ← find dtc;
  if negb (ok q.1) then mret LE_OK else
  t ← now env;
  DaoSql.Update env (q.2 <| de_dtc := dtc |> <| de_status := 0 |> <| de_occur := 0 |>
    <| de_aging := 0 |> <| de_aged := 0 |> <| de_activation := 1 |> <| de_suppression := 0 |>
    <| de_update := t |>).

Definition GetDTCWithUnsuppress : M (Dao E) (list Z) :=
  st ← Query DtcEntity (Some (ColIs "Suppression" 0));
  each_row st [] (fun acc row => mret (acc ++ [int_of (col row 0)], true)).
End Dao.
End DtcEntityDao.

(** ** The table of the events ([EventEntityDao]) *)
Module EventEntityDao.
Section Dao.
Context {E : Type} `{!Sqlite E}.
Variable env : DaoEnv.

Definition fresh (name : string) (t : Z) : EventEntity := mkEventEntity (-1) name 0 0 0 t t.

(** [cfg::get_event_idNames]. *)
Definition get_event_idNames : list (Z * string) :=
  map (fun p => (u16 p.1, mnemonic p.2)) (conf_events (dao_conf env)).

(** The key of a new row is left to SQLite; the ids of the configuration are not stored. *)
Fixpoint add_names (ps : list (Z * string)) : M (Dao E) le_result_t :=
  match ps with
  | [] => mret LE_OK
  | (_, name) :: ps' =>
      t ← now env;
      r ← Add env (fresh name t);
      if ok r then add_names ps' else mret r
  end.
Definition InitTableWithConfig : M (Dao E) le_result_t := add_names get_event_idNames.
Definition Load : M (Dao E) le_result_t :=
  empty ← CheckTableEmpty EventEntity;
  if (empty : bool) then InitTableWithConfig else mret LE_OK.

Definition find (id : Z) : M (Dao E) (le_result_t * EventEntity) :=
  QueryByKey env (new_event_entity <| ve_id := id |>).
Definition find_name (name : string) : M (Dao E) DataStatement :=
  Query EventEntity (Some (ColText "Event_Name" name)).

Definition ReadEventStatusByEventId (id : Z) : M (Dao E) Z :=
  q ← find id; mret (if ok q.1 then ve_status q.2 else 0).
Definition ReadFailedCounterByEventId (id : Z) : M (Dao E) Z :=
  q ← find id; mret (if ok q.1 then ve_failed_counter q.2 else 0).

(** The status of a name is the disjunction of its rows. *)
Definition ReadEventStatusByName (name : string) : M (Dao E) Z :=
  st ← find_name name;
  status ← each_row st 0 (fun acc row => mret (Z.lor acc (u32 (int_of (col row 3))), true));
  mret (s32 status).

Definition WriteStatusAndDtcByEventId (id status dtc : Z) : M (Dao E) le_result_t :=
  q ← find id;
  match q.1 with
  | LE_NOT_FOUND =>
      t ← now env;
      Add env (mkEventEntity id "" dtc status 0 t t)
  | LE_OK =>
      if negb (ve_dtc q.2 =? dtc) then mret LE_UNSUPPORTED else
      t ← now env;
      DaoSql.Update env (q.2 <| ve_status := status |> <| ve_update := t |>)
  | r => mret r
  end.

(** A further row of the name is not read: it is the first row that is updated again. *)
Definition WriteStatusAndDtcByEventName (name : string) (status dtc : Z) : M (Dao E) le_result_t :=
  st ← find_name name;
  r ← ExecuteRowStep st;
  if negb r.1 then
    t ← now env;
    Add env (mkEventEntity (-1) name dtc status 0 t t)
  else
    let x := ReadEntity env (current r.2) new_event_entity in
    t ← now env;
    let x := x <| ve_status := status |> <| ve_dtc := dtc |> <| ve_update := t |> in
    result ← DaoSql.Update env x;
    if negb (ok result) then mret result else
    each_row r.2 tt (fun _ _ => DaoSql.Update env x;; mret (tt, true));;
    mret LE_OK.

Definition WriteFailedCounterByEventId (id counter : Z) : M (Dao E) le_result_t :=
  q ← find id;
  match q.1 with
  | LE_NOT_FOUND =>
      t ← now env;
      Add env (mkEventEntity id "" (-1) (-1) counter t t)
  | LE_OK =>
      t ← now env;
      DaoSql.Update env (q.2 <| ve_failed_counter := counter |> <| ve_update := t |>)
  | r => mret r
  end.

Definition ClearAll : M (Dao E) le_result_t :=
  ExecRaw (DropTableCmd event_entity false);;
  ExecRaw (CreateTableCmd event_entity false).
Definition ClearEventRecord (id : Z) : M (Dao E) le_result_t :=
  q ← find id;
  if negb (ok q.1) then mret LE_OK else
  t ← now env;
  DaoSql.Update env (q.2 <| ve_status := 0 |> <| ve_update := t |>).
End Dao.
End EventEntityDao.

(** ** The table of the snapshots ([SnapshotEntityDao]) *)
Module SnapshotEntityDao.
Section Dao.
Context {E : Type} `{!Sqlite E}.
Variable env : DaoEnv.

Definition of_record (dtc recordNum : Z) : Where :=
  Both (ColIs "DTC" dtc) (ColIs "Record_Number" recordNum).

Definition ClearAll : M (Dao E) le_result_t :=
  ExecRaw (DropTableCmd snapshot_entity false);;
  ExecRaw (CreateTableCmd snapshot_entity false).

(** Each row of the DTC is removed while the query runs. *)
Definition ClearFFRecordByDtc (dtc : Z) : M (Dao E) le_result_t :=
  st ← Query SnapshotEntity (Some (ColIs "DTC" dtc));
  each_row st LE_OK (fun _ row =>
    r ← Remove (ReadEntity env row new_snapshot_entity);
    mret (if ok r then (LE_OK, true) else (r, false))).

Definition ReadDIDCount (dtc recordNum : Z) : M (Dao E) Z :=
  read_count SnapshotEntity (of_record dtc recordNum).

Definition GetDIDRecord (dtc recordNum : Z) : M (Dao E) (list taf_DataAccess_DIDInfo_t) :=
  st ← Query SnapshotEntity (Some (of_record dtc recordNum));
  each_row st [] (fun acc row =>
    let v := blob_of (col row 3) in
    mret (acc ++ [mkDIDInfo (u16 (int_of (col row 2)))
                    (take (Z.to_nat (u16 (Z.of_nat (length v)))) v)], true)).

(** The same entity serves all DIDs: after an update it has the key of the row it was read from. *)
Fixpoint SetDIDRecord_from (x : SnapshotEntity) (dtc recordNum : Z)
    (dids : list taf_DataAccess_DIDInfo_t) : M (Dao E) le_result_t :=
  match dids with
  | [] => mret LE_OK
  | d :: dids' =>
      st ← Query SnapshotEntity (Some (Both (of_record dtc recordNum) (ColIs "DID" (di_did d))));
      r ← ExecuteRowStep st;
      let filled y :=
        (SetDidValue (y <| se_dtc := dtc |> <| se_did := di_did d |>) (di_val d))
          <| se_record := recordNum |> in
      t ← now env;
      if negb r.1 then
        let x := (filled x) <| se_create := t |> <| se_update := t |> in
        result ← Add env x;
        if ok result then SetDIDRecord_from x dtc recordNum dids' else mret result
      else
        let x := (filled (ReadEntity env (current r.2) x)) <| se_update := t |> in
        result ← DaoSql.Update env x;
        if negb (ok result) then mret result else
        each_row r.2 tt (fun _ _ => DaoSql.Update env x;; mret (tt, true));;
        SetDIDRecord_from x dtc recordNum dids'
  end.
Definition SetDIDRecord (dtc recordNum : Z) (dids : list taf_DataAccess_DIDInfo_t) :
    M (Dao E) le_result_t := SetDIDRecord_from new_snapshot_entity dtc recordNum dids.

(** The records in the order of the rows, without repetitions of the record just read. *)
Definition GetAllDTCRecord : M (Dao E) (list taf_DataAccess_SnapshotInfo_t) :=
  st ← Query SnapshotEntity None;
  r ← each_row st ([], (-1, 0)) (fun acc row =>
    let dtc := int_of (col row 1) in
    let rn := int_of (col row 4) in
    let '(infos, (preDtc, preRn)) := acc in
    mret (if negb (preDtc =? -1) && (preDtc =? dtc) && (preRn =? rn) then (acc, true)
          else ((infos ++ [mkSnapshotInfo (u32 dtc) (u8 rn)], (dtc, rn)), true)));
  mret r.1.
End Dao.
End SnapshotEntityDao.
