(* ===== verification/DaoDem.v ===== *)
(** * The data base of the diagnostic events: the interface

    [DemDataHandler] ([tafDataAccessCompImpl.cpp]) behind the functions [taf_DataAccess_Xxx] of
    [tafDataAccessComp.cpp]: what the diagnostic services read and store. *)
From S2P Require Import Prelude DiagCfg DemTypes DemInit DaoTypes DaoSql DaoEntities.

Section Handler.
Context {E : Type} `{!Sqlite E}.
Variable env : DaoEnv.

(** ** Record numbers *)
Definition snapshot_type (name : string) : option Snapshot_Type_t :=
  if decide (name = "firstOccurrence"%string) then Some Snapshot_FirstOccurrence
  else if decide (name = "lastOccurrence"%string) then Some Snapshot_LastOccurrence
  else if decide (name = "lastDisappearance"%string) then Some Snapshot_LastDisappearance
  else None.
Definition snapshot_numbers (dtc : Z) (names : list string) : list (Z * Z * Snapshot_Type_t) :=
  omap (fun name => match amap_find (all_freeze_frames env) name, snapshot_type name with
                    | Some rn, Some ty => Some (rn, dtc, ty)
                    | _, _ => None
                    end) names.
Definition extended_numbers (dtc : Z) (names : list string) : list (Z * Z * ExtendData_Type_t) :=
  omap (fun name => match amap_find (all_extended_data_records env) name with
                    | Some rn => if decide (name = "OccurrenceCounter"%string)
                                 then Some (rn, dtc, ExtendData_OccurenceCounter) else None
                    | None => None
                    end) names.

(** [Load], at the end of start-up. *)
Definition Load : M (Dao E) le_result_t :=
  for_each (dtc_all (dao_conf env)) (fun p =>
    let code := u32 p.1 in
    modify (fun s => s <| snapshotRnVec := snapshotRnVec s ++ snapshot_numbers code (freeze_frames p.2) |>);;
    modify (fun s => s <| extendedRnVec := extendedRnVec s ++ extended_numbers code (extended_data_records env p.1) |>));;
  r ← DtcEntityDao.Load env;
  if negb (ok r) then mret r else
  r ← EventEntityDao.Load env;
  if negb (ok r) then mret r else mret LE_OK.

Definition number_of_type {T} `{EqDecision T} (numbers : list (Z * Z * T)) (dtc : Z) (ty : T) : option Z :=
  match list_find (fun i => i.1.2 = dtc /\ i.2 = ty) numbers with
  | Some (_, (rn, _, _)) => Some rn
  | None => None
  end.
Definition GetSnapshotDataRecordNumByType (dtc : Z) (ty : Snapshot_Type_t) : M (Dao E) (option Z) :=
  gets (fun s => number_of_type (snapshotRnVec s) dtc ty).
Definition GetExtendedDataRecordNumByType (dtc : Z) (ty : ExtendData_Type_t) : M (Dao E) (option Z) :=
  gets (fun s => number_of_type (extendedRnVec s) dtc ty).
Definition IsSnapshotDataRecordNumSupported (dtc rn : Z) : M (Dao E) bool :=
  gets (fun s => existsb (fun i => (i.1.2 =? dtc) && (i.1.1 =? rn)) (snapshotRnVec s)).

(** ** Events and DTCs *)
Definition GetAvailableStatusMask : Z := DEM_DTC_AVAILABLE_MASK_DEF.
Definition GetDtcFormatId : Z :=
  if dao_featureA env then DTC_FORMAT_IDENTIFIER_SAE_J2012_04 else DTC_FORMAT_IDENTIFIER_ISO_14229.

Definition SetEventStatusByName (name : string) (status : Z) : M (Dao E) le_result_t :=
  EventEntityDao.WriteStatusAndDtcByEventName env name status 0.
Definition GetEventStatusByName (name : string) : M (Dao E) Z :=
  v ← EventEntityDao.ReadEventStatusByName name; mret (u8 v).
Definition SetEventStatus (id status : Z) : M (Dao E) le_result_t :=
  EventEntityDao.WriteStatusAndDtcByEventId env id status 0.
Definition GetEventStatus (id : Z) : M (Dao E) Z :=
  v ← EventEntityDao.ReadEventStatusByEventId env id; mret (u8 v).
Definition SetEventFailedCounter (id counter : Z) : M (Dao E) le_result_t :=
  EventEntityDao.WriteFailedCounterByEventId env id counter.
Definition GetEventFailedCounter (id : Z) : M (Dao E) Z :=
  v ← EventEntityDao.ReadFailedCounterByEventId env id; mret (u8 v).

Definition SetDTCStatus (dtc status counter : Z) : M (Dao E) le_result_t :=
  DtcEntityDao.WriteStatusByDtc env (s32 dtc) status counter.
Definition GetDTCStatus (dtc : Z) : M (Dao E) Z :=
  q ← DtcEntityDao.ReadStatusByDtc env (s32 dtc);
  mret (if ok q.1 then Z.land (de_status q.2) 0xFF else 0).
Definition GetDTCOccurrenceCounter (dtc : Z) : M (Dao E) Z :=
  q ← DtcEntityDao.ReadStatusByDtc env (s32 dtc);
  mret (if ok q.1 then Z.land (de_occur q.2) 0xFF else 0).

Definition GetActivation (dtc : Z) : M (Dao E) Z :=
  q ← DtcEntityDao.ReadActivationByDtc env (s32 dtc);
  mret (if ok q.1 then Z.land q.2 0xFF else 1).
Definition SetActivation (dtc activation : Z) : M (Dao E) le_result_t :=
  DtcEntityDao.WriteActivationByDtc env (s32 dtc) activation.
Definition GetSuppression (dtc : Z) : M (Dao E) Z :=
  q ← DtcEntityDao.ReadSuppressionByDtc env (s32 dtc);
  mret (if ok q.1 then Z.land q.2 0xFF else 0).
(** [taf_DataAccess_SetDTCSuppression] checks the value first, and so does the one for all. *)
Definition SetSuppression (dtc suppression : Z) : M (Dao E) le_result_t :=
  if negb (suppression =? 0) && negb (suppression =? 1) then mret LE_BAD_PARAMETER else
  DtcEntityDao.WriteSuppressionByDtc env (s32 dtc) suppression.
Definition SetAllSuppression (suppression : Z) : M (Dao E) le_result_t :=
  if negb (suppression =? 0) && negb (suppression =? 1) then mret LE_BAD_PARAMETER else
  DtcEntityDao.WriteAllSuppression suppression.

(** ** Clearing *)
Fixpoint clear_events (ids : list Z) : M (Dao E) le_result_t :=
  match ids with
  | [] => mret LE_OK
  | id :: ids' =>
      r ← EventEntityDao.ClearEventRecord env (u16 id);
      if ok r then clear_events ids' else mret r
  end.
(** The [try] around the events ends when the DTC is not configured. *)
Definition clear_events_of (dtc : Z) : M (Dao E) le_result_t :=
  match amap_at (dtc_all (dao_conf env)) dtc with
  | Returns entry => clear_events (dtc_events entry)
  | Throws _ => mret LE_OK
  end.

Definition DeleteData (dtc : Z) : M (Dao E) le_result_t :=
  suppressed ← GetSuppression dtc;
  if negb (suppressed =? 0) then mret LE_UNAVAILABLE else
  r ← DtcEntityDao.ClearDtcRecord env (s32 dtc);
  if negb (ok r) then mret r else
  r ← clear_events_of dtc;
  if negb (ok r) then mret r else
  r ← SnapshotEntityDao.ClearFFRecordByDtc env (s32 dtc);
  if negb (ok r) then mret r else mret LE_OK.

Fixpoint delete_each (dtcs : list Z) : M (Dao E) le_result_t :=
  match dtcs with
  | [] => mret LE_OK
  | dtc :: dtcs' =>
      r ← DeleteData (u32 dtc);
      if ok r then delete_each dtcs' else mret r
  end.
Definition DeleteAllData : M (Dao E) le_result_t :=
  dtcs ← DtcEntityDao.GetDTCWithUnsuppress;
  delete_each dtcs.

(** All tables are dropped and created again; only the DTCs are loaded again. *)
Definition ResetAllData : M (Dao E) le_result_t :=
  r ← DtcEntityDao.ClearAll env;
  if negb (ok r) then mret r else
  r ← EventEntityDao.ClearAll;
  if negb (ok r) then mret r else
  r ← SnapshotEntityDao.ClearAll;
  if negb (ok r) then mret r else mret LE_OK.

(** ** Reports to a tester *)
Definition GetNumOfDtcByStatusMask (mask : Z) : M (Dao E) taf_DataAccess_NumOfDTC_t :=
  count ← DtcEntityDao.ReadDtcCountByStatusWithSuppress (Z.land mask GetAvailableStatusMask);
  mret (mkNumOfDTC GetAvailableStatusMask GetDtcFormatId (u16 count)).
Definition GetDtcByStatusMask (mask : Z) : M (Dao E) (Z * list taf_DataAccess_DTCStatus_t) :=
  l ← DtcEntityDao.ReadDtcByStatus (Z.land mask GetAvailableStatusMask);
  mret (GetAvailableStatusMask, l).

Fixpoint supported (codes : list Z) (acc : list taf_DataAccess_DTCStatus_t) :
    M (Dao E) (list taf_DataAccess_DTCStatus_t) :=
  match codes with
  | [] => mret acc
  | code :: codes' =>
      q ← DtcEntityDao.ReadStatusByDtc env (s32 (u32 code));
      let status := if ok q.1 then de_status q.2 else 0 in
      if ok q.1 && negb (de_suppression q.2 =? 0) then supported codes' acc else
      supported codes' (acc ++ [mkDTCStatus (u32 code) (u8 (Z.land status GetAvailableStatusMask))])
  end.
Definition GetSupportedDtc : M (Dao E) (Z * list taf_DataAccess_DTCStatus_t) :=
  l ← supported (dtc_all (dao_conf env)).*1 []; mret (GetAvailableStatusMask, l).

Fixpoint unsuppressed (infos : list taf_DataAccess_SnapshotInfo_t) :
    M (Dao E) (list taf_DataAccess_SnapshotInfo_t) :=
  match infos with
  | [] => mret []
  | i :: infos' =>
      suppressed ← GetSuppression (si_dtc i);
      l ← unsuppressed infos';
      mret (if suppressed =? 0 then i :: l else l)
  end.
Definition GetSnapshotIdentification : M (Dao E) (list taf_DataAccess_SnapshotInfo_t) :=
  infos ← SnapshotEntityDao.GetAllDTCRecord; unsuppressed infos.

(** The set of a record has room for [DATA_ACCESS_FF_DID_SIZE_MAX] DIDs; its size is limited to
    that, the loop that fills it is not. *)
Definition ff_did_of (d : taf_DataAccess_DIDInfo_t) : taf_DataAccess_FF_DID_t :=
  let v := take (Z.to_nat DATA_ACCESS_DID_DATA_SIZE_MAX) (di_val d) in
  mkFFDid (u16 (di_did d)) (Z.of_nat (length v)) v.
Definition GetSpecSnapshotRecByDtc (dtc rn : Z) (acc : list taf_DataAccess_SnapshotData_t) :
    M (Dao E) (le_result_t * list taf_DataAccess_SnapshotData_t) :=
  dids ← SnapshotEntityDao.GetDIDRecord (s32 dtc) rn;
  if Nat.eqb (length dids) 0 then mret (LE_NOT_FOUND, acc) else
  if DATA_ACCESS_FF_DID_SIZE_MAX <? Z.of_nat (length dids) then raise OutOfBounds else
  mret (LE_OK, acc ++ [mkSnapshotData rn (Z.of_nat (length dids)) (map ff_did_of dids)]).

Fixpoint all_records (dtc : Z) (numbers : list (Z * Z * Snapshot_Type_t))
    (acc : list taf_DataAccess_SnapshotData_t) : M (Dao E) (list taf_DataAccess_SnapshotData_t) :=
  match numbers with
  | [] => mret acc
  | (rn, code, _) :: numbers' =>
      if negb (code =? dtc) then all_records dtc numbers' acc else
      r ← GetSpecSnapshotRecByDtc dtc (u8 rn) acc;
      all_records dtc numbers' r.2
  end.
Definition GetAllSnapshotRecByDtc (dtc : Z) : M (Dao E) (list taf_DataAccess_SnapshotData_t) :=
  numbers ← gets snapshotRnVec; all_records dtc numbers [].

Definition GetSnapshotRecByDtc (dtc rn : Z) :
    M (Dao E) (le_result_t * option taf_DataAccess_SnapshotDataRec_t) :=
  q ← DtcEntityDao.ReadStatusByDtc env (s32 dtc);
  if negb (ok q.1) then mret (LE_NOT_FOUND, None) else
  if negb (de_suppression q.2 =? 0) then mret (LE_UNAVAILABLE, None) else
  let record := mkSnapshotDataRec dtc (u8 (de_status q.2)) in
  if rn =? 0xFF then l ← GetAllSnapshotRecByDtc dtc; mret (LE_OK, Some (record l)) else
  known ← IsSnapshotDataRecordNumSupported dtc rn;
  if negb known then mret (LE_UNSUPPORTED, None) else
  r ← GetSpecSnapshotRecByDtc dtc rn [];
  mret (LE_OK, Some (record r.2)).

Definition GetExtDataRecByDtc (dtc rn : Z) :
    M (Dao E) (le_result_t * option taf_DataAccess_ExtDataRec_t) :=
  if negb (rn =? 0xFE) && negb (rn =? 0xFF) && negb (rn =? 1) then mret (LE_BAD_PARAMETER, None) else
  suppressed ← GetSuppression dtc;
  if negb (suppressed =? 0) then mret (LE_UNAVAILABLE, None) else
  q ← DtcEntityDao.ReadStatusByDtc env (s32 dtc);
  mret match q.1 with
  | LE_OK => (LE_OK, Some (mkExtDataRec dtc (Z.land (de_status q.2) 0xFF)
                             [mkExtData 1 [Z.land (de_occur q.2) 0xFF]]))
  | LE_NOT_FOUND => (LE_OK, Some (mkExtDataRec dtc 0 []))
  | r => (r, None)
  end.

(** ** Snapshots *)
Definition did_info (p : Z * list Z) : taf_DataAccess_DIDInfo_t := mkDIDInfo p.1 p.2.

(** The record has no DID yet, or as many as the new data. *)
Definition same_size (count : Z) (dids : list taf_DataAccess_DIDInfo_t) : bool :=
  (count =? 0) || (count =? Z.of_nat (length dids)).
Definition set_or_fault (dtc rn : Z) (dids : list taf_DataAccess_DIDInfo_t) (next : M (Dao E) le_result_t) :
    M (Dao E) le_result_t :=
  r ← SnapshotEntityDao.SetDIDRecord env (s32 dtc) rn dids;
  if ok r then next else mret LE_FAULT.

Definition SetSnapshotData (dtc : Z) (nodes : list (Z * list Z)) : M (Dao E) le_result_t :=
  let dids := map did_info nodes in
  let code := s32 dtc in
  last ← GetSnapshotDataRecordNumByType dtc Snapshot_LastOccurrence;
  first ← GetSnapshotDataRecordNumByType dtc Snapshot_FirstOccurrence;
  match last with
  | Some lastRn =>
      count ← SnapshotEntityDao.ReadDIDCount code lastRn;
      if negb (count =? 0) then
        if negb (same_size count dids) then mret LE_NOT_POSSIBLE else
        SnapshotEntityDao.SetDIDRecord env code lastRn dids
      else
      match first with
      | None => set_or_fault dtc lastRn dids (mret LE_OK)
      | Some firstRn =>
          count ← SnapshotEntityDao.ReadDIDCount code firstRn;
          if negb (same_size count dids) then mret LE_NOT_POSSIBLE else
          set_or_fault dtc firstRn dids (set_or_fault dtc lastRn dids (mret LE_OK))
      end
  | None =>
      match first with
      | None => mret LE_OK
      | Some firstRn =>
          count ← SnapshotEntityDao.ReadDIDCount code firstRn;
          if negb (same_size count dids) then mret LE_NOT_POSSIBLE else
          set_or_fault dtc firstRn dids (mret LE_OK)
      end
  end.

Definition UpdateFaultCodeSnapshotData (dtc did : Z) (v : list Z) : M (Dao E) le_result_t :=
  if Nat.eqb (length v) 0 then mret LE_BAD_PARAMETER else
  let dids := [mkDIDInfo did v] in
  let code := s32 dtc in
  last ← GetSnapshotDataRecordNumByType dtc Snapshot_LastOccurrence;
  match last with
  | Some lastRn =>
      count ← SnapshotEntityDao.ReadDIDCount code lastRn;
      if count =? 0 then mret LE_FAULT else SnapshotEntityDao.SetDIDRecord env code lastRn dids
  | None =>
      first ← GetSnapshotDataRecordNumByType dtc Snapshot_FirstOccurrence;
      match first with
      | None => mret LE_OK
      | Some firstRn =>
          count ← SnapshotEntityDao.ReadDIDCount code firstRn;
          if count =? 0 then mret LE_FAULT else set_or_fault dtc firstRn dids (mret LE_OK)
      end
  end.

(** What [GetDTCData] gives for the extended data and the snapshots of a DTC. *)
Inductive taf_DataAccess_DataType_t := SNAPSHOT_DATA | EXTENDED_DATA.
Record taf_DataAccess_DtcDataInfo_t := mkDtcDataInfo {
  dd_dtcCode : Z; dd_recordNum : Z; dd_occurrenceType : Z; dd_dataType : taf_DataAccess_DataType_t;
  dd_dataId : Z; dd_dataLen : Z; dd_dataValue : list Z }.
Definition snapshot_info (dtc rn : Z) (d : taf_DataAccess_DIDInfo_t) : taf_DataAccess_DtcDataInfo_t :=
  mkDtcDataInfo dtc (u8 rn) 0 SNAPSHOT_DATA (u16 (di_did d)) (u16 (Z.of_nat (length (di_val d)))) (di_val d).
Definition extended_info (dtc rn occur : Z) : taf_DataAccess_DtcDataInfo_t :=
  mkDtcDataInfo dtc (u8 rn) (Z.land occur 0xFF) EXTENDED_DATA 0 1 [Z.land occur 0xFF].
Fixpoint snapshot_data (dtc : Z) (numbers : list (Z * Z * Snapshot_Type_t))
    (acc : list taf_DataAccess_DtcDataInfo_t) : M (Dao E) (list taf_DataAccess_DtcDataInfo_t) :=
  match numbers with
  | [] => mret acc
  | (rn, code, _) :: numbers' =>
      if negb (code =? dtc) then snapshot_data dtc numbers' acc else
      dids ← SnapshotEntityDao.GetDIDRecord (s32 dtc) rn;
      snapshot_data dtc numbers'
        (acc ++ map (snapshot_info dtc rn) dids)
  end.
Definition GetDTCData (dtc : Z) : M (Dao E) (list taf_DataAccess_DtcDataInfo_t) :=
  q ← DtcEntityDao.ReadStatusByDtc env (s32 dtc);
  rn ← GetExtendedDataRecordNumByType dtc ExtendData_OccurenceCounter;
  numbers ← gets snapshotRnVec;
  snapshot_data dtc numbers
    match rn with
    | Some rn => if ok q.1 then [extended_info dtc rn (de_occur q.2)] else []
    | None => []
    end.
End Handler.
