(* ===== verification/DaoSpec.v ===== *)
(** * The data base of the diagnostic events: what SQLite does

    The documented behaviour of the statements that the component uses, as the interfaces
    [SqliteLaws] and [SteadyReads], and the contracts of [DataStatement] and [SQLite3Handler]
    that follow from it. *)
From S2P Require Import Prelude DiagCfg DemTypes DemInit DaoTypes DaoSql DaoEntities.

(** ** The meaning of statements *)
Fixpoint holds (w : Where) (r : Row) : bool :=
  match w with
  | ColIs c z => match cell r c with VInt v => v =? z | _ => false end
  | ColIsNot c z => match cell r c with VInt v => negb (v =? z) | _ => false end
  | ColMask c m => match cell r c with VInt v => negb (Z.land v m =? 0) | _ => false end
  | ColAbove c z => match cell r c with VInt v => z <? v | _ => false end
  | ColText c t => match cell r c with VText v => bool_decide (v = t) | _ => false end
  | Both w1 w2 => holds w1 r && holds w2 r
  end.
Abbreviation Table := (gmap Z Row).
Definition all_rows (tbl : Table) : list Row := (map_to_list tbl).*2.
Definition rows_where (w : option Where) (tbl : Table) : list Row :=
  match w with None => all_rows tbl | Some w => filter (fun r => holds w r = true) (all_rows tbl) end.
Definition read_row (cols : list string) (r : Row) : list Val := map (cell r) cols.

Definition bound (b : amap Z Val) (i : nat) : Val := default VNull (amap_find b (Z.of_nat i)).
Definition values (n : nat) (b : amap Z Val) : list Val := map (bound b) (seq 1 n).
Definition bound_row (cols : list string) (b : amap Z Val) : Row := zip cols (values (length cols) b).
Definition set_cell (c : string) (v : Val) (r : Row) : Row :=
  map (fun p => if decide (p.1 = c) then (c, v) else p) r.

Definition table_of (q : Stmt) : option Tab :=
  match q with
  | Select t _ _ | SelectKey t _ _ | SelectCount t _ | SelectExists t => Some t
  | _ => None
  end.
(** The table that a statement names; preparing it fails without that table. *)
Definition names_table (q : Stmt) : option Tab :=
  match q with
  | Select t _ _ | SelectKey t _ _ | SelectCount t _ | SelectExists t
  | Insert t _ | DaoTypes.Update t _ _ | Delete t _ => Some t
  | SelectTableName => None
  end.
(** The rows of a query on a table, in some order. *)
Definition answer (tbl : Table) (q : Stmt) (b : amap Z Val) : list (list Val) :=
  match q with
  | Select _ cols w => map (read_row cols) (rows_where w tbl)
  | SelectKey _ cols _ =>
      match bound b 1 with
      | VInt k => match tbl !! k with Some r => [read_row cols r] | None => [] end
      | _ => []
      end
  | SelectCount _ w => [[VInt (Z.of_nat (length (rows_where (Some w) tbl)))]]
  | SelectExists _ => [[VInt (match all_rows tbl with [] => 0 | _ => 1 end)]]
  | _ => []
  end.

Definition primary_key (t : Tab) : string :=
  match t with dtc_entity => "DTC" | event_entity => "Event_ID" | snapshot_entity => "ID" end.
(** The key of a new row: the given one, or one that SQLite chooses. The storage is full before
    a key that it chooses leaves 32 bits. *)
Definition key_for (v : Val) (id : Z) : Prop :=
  match v with VInt z => id = z | VNull => 0 < id < 0x80000000 | _ => False end.

(** A name that can stand in a statement between quotes. *)
Fixpoint has_quote (t : string) : bool :=
  match t with
  | EmptyString => false
  | String a t' => Ascii.eqb a (Ascii.ascii_of_nat 39) || has_quote t'
  end.
Definition quote_free (t : string) : Prop := has_quote t = false.
Fixpoint plain_where (w : Where) : Prop :=
  match w with
  | ColText _ t => quote_free t
  | Both w1 w2 => plain_where w1 /\ plain_where w2
  | _ => True
  end.
Definition plain (q : Stmt) : Prop :=
  match q with
  | Select _ _ (Some w) | SelectCount _ w => plain_where w
  | _ => True
  end.

(** ** SQLite

    A statement takes effect as a whole, or fails and changes nothing. *)
Section Laws.
Context {E : Type} (tables : E -> Tab -> option Table).
Definition same (e e' : E) : Prop := forall t, tables e' t = tables e t.
Definition becomes (e e' : E) (t : Tab) (tbl : option Table) : Prop :=
  tables e' t = tbl /\ forall t', t' <> t -> tables e' t' = tables e t'.
Definition begins (r : StepResult) (rows : list (list Val)) : Prop :=
  match r with
  | SQLITE_ROW row more => row :: more ≡ₚ rows
  | SQLITE_DONE _ => rows = []
  | SQLITE_ERROR => True
  end.
(** The result of a change of the table [t]. *)
Definition changes_to (e : E) (t : Tab) (after : Table -> Table -> Prop) (r : StepResult) (e' : E) : Prop :=
  match r with
  | SQLITE_ROW _ _ => False
  | SQLITE_DONE n => 0 <= n /\ exists tbl tbl', tables e t = Some tbl /\ after tbl tbl' /\
                       becomes e e' t (Some tbl')
  | SQLITE_ERROR => same e e'
  end.
End Laws.

Class SqliteLaws (E : Type) `{!Sqlite E} := {
  tables : E -> Tab -> option Table;
  exec_ends c e : wp (sqlite3_exec c) (fun _ _ => True) e;
  step_ends q b rows e : wp (sqlite3_step q b rows) (fun r _ =>
    forall l row more, rows = Some l -> r = SQLITE_ROW row more -> l = row :: more) e;
  prepare_law q e : wp (sqlite3_prepare_v2 q) (fun _ e' => same tables e e') e;
  query_law q b e t : table_of q = Some t -> plain q ->
    wp (sqlite3_step q b None) (fun r e' => same tables e e' /\
      match tables e t with Some tbl => begins r (answer tbl q b) | None => r = SQLITE_ERROR end) e;
  next_law q b rows e t : table_of q = Some t ->
    wp (sqlite3_step q b (Some rows)) (fun r e' => same tables e e' /\
      match r with
      | SQLITE_ROW row more => rows = row :: more
      | SQLITE_DONE _ => rows = []
      | SQLITE_ERROR => True
      end) e;
  insert_law t cols b e :
    wp (sqlite3_step (Insert t cols) b None) (changes_to tables e t (fun tbl tbl' =>
      exists id, tbl !! id = None /\ key_for (cell (bound_row cols b) (primary_key t)) id /\
        tbl' = <[id := set_cell (primary_key t) (VInt id) (bound_row cols b)]> tbl)) e;
  update_law t cols b e k :
    bound b (length cols + 1) = VInt k -> cell (bound_row cols b) (primary_key t) = VInt k ->
    wp (sqlite3_step (DaoTypes.Update t cols (primary_key t)) b None)
      (changes_to tables e t (fun tbl tbl' => tbl' = alter (fun _ => bound_row cols b) k tbl)) e;
  delete_law t b e k : bound b 1 = VInt k ->
    wp (sqlite3_step (Delete t (primary_key t)) b None)
      (changes_to tables e t (fun tbl tbl' => tbl' = delete k tbl)) e;
  update_all_law t c z e :
    wp (sqlite3_exec (UpdateWhereNot t c z)) (fun r e' =>
      match r with
      | Some n => exists tbl, tables e t = Some tbl /\
          becomes tables e e' t (Some ((fun r => if holds (ColIsNot c z) r then set_cell c (VInt z) r else r) <$> tbl))
      | None => same tables e e'
      end) e;
  create_law t e :
    wp (sqlite3_exec (CreateTableCmd t false)) (fun r e' =>
      match r with
      | Some _ => tables e t = None /\ becomes tables e e' t (Some ∅)
      | None => same tables e e'
      end) e;
  drop_law t e :
    wp (sqlite3_exec (DropTableCmd t false)) (fun r e' =>
      match r with
      | Some _ => becomes tables e e' t None
      | None => same tables e e'
      end) e }.

(** Reading does not fail: no shortage of memory, no broken medium, no lock of another process. *)
Class SteadyReads (E : Type) `{!Sqlite E, !SqliteLaws E} := {
  prepare_steady q e : plain q -> (forall t, names_table q = Some t -> is_Some (tables e t)) ->
    wp (sqlite3_prepare_v2 q) (fun b _ => b = true) e;
  query_steady q b e rows t : table_of q = Some t -> is_Some (tables e t) ->
    wp (sqlite3_step q b rows) (fun r _ => r <> SQLITE_ERROR) e }.
