(* ===== verification/DaoRules.v ===== *)
(** * The data base of the diagnostic events: rules for statements and handlers

    What [DataStatement] and [SQLite3Handler] do to the tables, for any SQLite that obeys
    [SqliteLaws], and the rules for reading when reading does not fail. *)
From S2P Require Import Prelude DiagCfg DemTypes DemInit DaoTypes DaoSql DaoEntities DaoSpec.

(** ** What the three tables share *)
Definition columns_of (t : Tab) : list string :=
  match t with
  | dtc_entity => columnList DtcEntity
  | event_entity => columnList EventEntity
  | snapshot_entity => columnList SnapshotEntity
  end.
Definition sql_of (t : Tab) (k : StmtKind) : Stmt :=
  match k with
  | InsertStatement => Insert t (columns_of t)
  | UpdateStatement => DaoTypes.Update t (columns_of t) (primary_key t)
  | DeleteStatement => Delete t (primary_key t)
  end.

Definition opt_int (v : Z) : Val := if v =? -1 then VNull else VInt v.
Definition opt_time (env : DaoEnv) (t : Z) : Val := if t =? 0 then VNull else VText (time_text env t).
Definition opt_blob (v : list Z) : Val := match v with [] => VNull | _ => VBlob v end.
Definition row_of {X} `{!Entity X} (env : DaoEnv) (x : X) : Row :=
  bound_row (columnList X) (rev (BindValues env x)).

Class EntityOk (X : Type) `{!Entity X} := {
  columns_agree : columnList X = columns_of (mFileName X);
  pk_agrees : pk X = primary_key (mFileName X);
  binds_key (x : X) : BindKeyValue x = bind_int 1 (GetKey x);
  has_key (x : X) : HasKey x = negb (GetKey x =? -1);
  row_key env (x : X) : cell (row_of env x) (pk X) = opt_int (GetKey x) }.

Lemma find_app {K V} `{EqDecision K} (l1 l2 : amap K V) k :
  amap_find (l1 ++ l2) k = match amap_find l1 k with Some v => Some v | None => amap_find l2 k end.
Proof. induction l1 as [|[k' v'] l1 IH]; [done|]. cbn. by case_decide. Qed.
Lemma bound_app l1 l2 i :
  bound (rev (l1 ++ l2)) i =
  match amap_find (rev l2) (Z.of_nat i) with Some v => v | None => bound (rev l1) i end.
Proof. unfold bound. rewrite rev_app_distr, find_app. by destruct (amap_find (rev l2) _). Qed.
Lemma find_int (j v i : Z) :
  amap_find (rev (bind_int j v)) i = if i =? j then (if v =? -1 then None else Some (VInt v)) else None.
Proof. unfold bind_int. destruct (v =? -1), (Z.eqb_spec i j); cbn; by repeat case_decide. Qed.
Lemma find_time env (j t i : Z) :
  amap_find (rev (bind_time env j t)) i =
  if i =? j then (if t =? 0 then None else Some (VText (time_text env t))) else None.
Proof. unfold bind_time. destruct (t =? 0), (Z.eqb_spec i j); cbn; by repeat case_decide. Qed.

Lemma find_blob (j i : Z) v :
  amap_find (rev (bind_blob j v)) i =
  if i =? j then (match v with [] => None | _ => Some (VBlob v) end) else None.
Proof. unfold bind_blob. destruct v, (Z.eqb_spec i j); cbn; by repeat case_decide. Qed.

Ltac entity_row :=
  unfold row_of, bound_row; cbn [BindValues dtc_dao event_dao snapshot_dao columnList length];
  unfold values; cbn [seq map]; unfold bound;
  rewrite ?rev_app_distr, ?find_app, ?find_int, ?find_time, ?find_blob;
  repeat match goal with
  | |- context [Z.of_nat ?n] => let z := eval vm_compute in (Z.of_nat n) in change (Z.of_nat n) with z
  end;
  repeat match goal with
  | |- context [?a =? ?b] => let r := eval vm_compute in (a =? b) in
      lazymatch r with true => idtac | false => idtac end; change (a =? b) with r; cbv iota
  end; cbn [zip zip_with rev];
  unfold opt_int, opt_time, opt_blob; repeat f_equal;
  match goal with |- _ = (match ?b with _ => _ end) => destruct b; reflexivity end.

Lemma dtc_row env x : row_of env x = zip (columnList DtcEntity)
  [opt_int (de_dtc x); opt_int (de_status x); opt_int (de_occur x); opt_int (de_aging x);
   opt_int (de_aged x); opt_int (de_activation x); opt_int (de_suppression x);
   opt_time env (de_create x); opt_time env (de_update x); opt_time env (de_test_failed x);
   opt_time env (de_confirmed x)].
Proof. entity_row. Qed.
Lemma event_row env x : row_of env x = zip (columnList EventEntity)
  [opt_int (ve_id x); VText (ve_name x); opt_int (ve_dtc x); opt_int (ve_status x);
   opt_int (ve_failed_counter x); opt_time env (ve_create x); opt_time env (ve_update x)].
Proof. entity_row. Qed.
Lemma snapshot_row env x : row_of env x = zip (columnList SnapshotEntity)
  [opt_int (se_id x); opt_int (se_dtc x); opt_int (se_did x);
   opt_blob (se_value x);
   opt_int (se_record x); opt_time env (se_create x); opt_time env (se_update x)].
Proof. entity_row. Qed.

#[export] Instance dtc_ok : EntityOk DtcEntity.
Proof. split; try done. intros env x. by rewrite dtc_row. Qed.
#[export] Instance event_ok : EntityOk EventEntity.
Proof. split; try done. intros env x. by rewrite event_row. Qed.
#[export] Instance snapshot_ok : EntityOk SnapshotEntity.
Proof. split; try done. intros env x. by rewrite snapshot_row. Qed.

(** ** Statements *)
Section Rules.
Context {E : Type} `{!Sqlite E} `{!SqliteLaws E}.
Implicit Types d : Dao E.

(** The tables of a state, and states with the same tables. *)
Definition tab d : Tab -> option Table := tables (engine d).
Definition unchanged d d' : Prop := forall t, tab d' t = tab d t.
Definition set_table d d' (t : Tab) (tbl : Table) : Prop :=
  tab d' t = Some tbl /\ forall t', t' <> t -> tab d' t' = tab d t'.

(** A statement that was kept can be reset to its beginning. *)
Definition sound_statement (q : Stmt) (st : DataStatement) : Prop :=
  (prepared st = None \/ prepared st = Some q) /\
  (isDone st = true -> failed st = false /\ prepared st = Some q).
Definition sound_cache d : Prop :=
  forall t k st, amap_find (statements d) (t, k) = Some st -> sound_statement (sql_of t k) st.
Definition same_numbers d d' : Prop :=
  extendedRnVec d' = extendedRnVec d /\ snapshotRnVec d' = snapshotRnVec d.
(** What every operation keeps. *)
Definition sane d d' : Prop := sound_cache d' /\ same_numbers d d'.

(** A statement that has not been stepped. *)
Definition at_start (q : Stmt) (b : amap Z Val) (st : DataStatement) : Prop :=
  (prepared st = None \/ prepared st = Some q) /\ (prepared st = Some q -> rest st = None) /\
  isDone st = false /\ (prepared st = Some q -> binds st = b) /\
  (prepared st = Some q -> failed st = false).

Lemma unchanged_refl d : unchanged d d. Proof. done. Qed.
Lemma unchanged_trans d1 d2 d3 : unchanged d1 d2 -> unchanged d2 d3 -> unchanged d1 d3.
Proof. intros H1 H2 t. by rewrite H2, H1. Qed.
Lemma sane_refl d : sound_cache d -> sane d d. Proof. done. Qed.
Lemma sane_trans d1 d2 d3 : sane d1 d2 -> sane d2 d3 -> sane d1 d3.
Proof. intros [_ [H1 H2]] [Hc [H3 H4]]. split; [done|]. split; by etransitivity. Qed.
Lemma sane_numbers d d' : sane d d' -> same_numbers d d'. Proof. by intros []. Qed.
Lemma sane_cache d d' : sane d d' -> sound_cache d'. Proof. by intros []. Qed.
Lemma set_table_after d1 d2 d3 t tbl : unchanged d1 d2 -> set_table d2 d3 t tbl -> set_table d1 d3 t tbl.
Proof. intros H [H1 H2]. split; [done|]. intros t' Ht'. by rewrite H2, H. Qed.
Lemma set_table_before d1 d2 d3 t tbl : set_table d1 d2 t tbl -> unchanged d2 d3 -> set_table d1 d3 t tbl.
Proof. intros [H1 H2] H. split; [by rewrite H|]. intros t' Ht'. by rewrite H, H2. Qed.

Lemma wp_on_engine {A} (c : M E A) (Q : A -> Dao E -> Prop) d :
  wp c (fun a e => Q a (d <| engine := e |>)) (engine d) -> wp (on_engine c) Q d.
Proof. unfold wp, on_engine. by destruct (c (engine d)) as [[a e]|]. Qed.

Lemma wp_now env (Q : Z -> Dao E -> Prop) d :
  (forall t d', sane d d' -> unchanged d d' -> Q t d') -> sound_cache d -> wp (now env) Q d.
Proof. intros H Hc. unfold now. do 4 wp_step. apply H; [|done]. by split. Qed.

Lemma wp_PrepareStatement q (Q : DataStatement -> Dao E -> Prop) d : sound_cache d ->
  (forall st d', at_start q [] st -> sane d d' -> unchanged d d' -> Q st d') ->
  wp (PrepareStatement q) Q d.
Proof.
  intros Hc HQ. unfold PrepareStatement. wp_step. apply wp_on_engine. eapply wp_conseq; [apply prepare_law|].
  intros ok e He. cbv beta. wp_step. apply HQ; [|by split|exact He].
  unfold at_start. destruct ok; cbn; naive_solver.
Qed.

Lemma reset_at_start q st : sound_statement q st ->
  at_start q (binds st) (Reset st).2.
Proof.
  intros [H1 H2]. unfold Reset, at_start. destruct (prepared st) as [q'|] eqn:Hp.
  - destruct (failed st) eqn:Hf; cbn; rewrite Hp.
    + split_and!; try done. destruct (isDone st) eqn:Hd; [|done]. by destruct (H2 eq_refl).
    + done.
  - cbn. rewrite Hp. split_and!; try done. destruct (isDone st); [|done]. by destruct (H2 eq_refl).
Qed.

Lemma bind_all_at_start q b st vs : at_start q b st ->
  at_start q (rev vs) (bind_all (ClearBindings st) vs).
Proof.
  intros (H1 & H2 & H3 & H4 & H5). unfold bind_all, ClearBindings.
  cut (forall b st, at_start q b st ->
    at_start q (rev vs ++ b) (foldl (fun st p => BindValue st p.1 p.2) st vs)).
  { intros H. rewrite <- (app_nil_r (rev vs)). apply H. by split_and!. }
  clear. induction vs as [|[i v] vs IH]; intros b st Hst; [done|]. cbn. rewrite <- app_assoc.
  apply IH. destruct Hst as (H1 & H2 & H3 & H4 & H5). unfold BindValue, at_start.
  destruct (prepared st) as [q'|] eqn:Hp; cbn; rewrite ?Hp; [|done].
  split_and!; try done. intros Hq. by rewrite H4.
Qed.
Lemma BindValue_at_start q b st i v : at_start q b st -> at_start q ((i, v) :: b) (BindValue st i v).
Proof.
  intros (H1 & H2 & H3 & H4 & H5). unfold BindValue, at_start.
  destruct (prepared st) as [q'|] eqn:Hp; cbn; rewrite ?Hp; [|done].
  split_and!; try done. intros Hq. by rewrite H4.
Qed.

(** One step of a statement that changes a table, kept for the next time. *)
Lemma wp_run_row {X} `{!Entity X, !EntityOk X} k b st after (Q : le_result_t -> Dao E -> Prop) d :
  sound_cache d -> at_start (sql_of (mFileName X) k) b st ->
  wp (sqlite3_step (sql_of (mFileName X) k) b None) (changes_to tables (engine d) (mFileName X) after) (engine d) ->
  (forall d', sane d d' -> (exists tbl tbl', tab d (mFileName X) = Some tbl /\ after tbl tbl' /\ set_table d d' (mFileName X) tbl') ->
     Q LE_OK d') ->
  (forall d', sane d d' -> unchanged d d' -> Q LE_IO_ERROR d') ->
  wp (run_row X k st) Q d.
Proof.
  intros Hc (Hp & Hr & Hd & Hb & Hf) Hstep HQ1 HQ2. unfold run_row, ExecuteRow. rewrite Hd.
  assert (forall st' d', sound_statement (sql_of (mFileName X) k) st' -> sound_cache d' -> same_numbers d d' ->
    forall l, l = statements d' -> sane d (d' <| statements := ((mFileName X, k), st') :: l |>)) as Hkeep.
  { intros st' d' Hst Hc' Hn l ->. split; [|done]. intros t1 k1 st1. cbn. case_decide; [|apply Hc'].
    intros ?. simplify_eq. done. }
  wp_step. wp_step. unfold step. destruct Hp as [Hp|Hp]; rewrite Hp.
  - wp_step. wp_step. wp_step. unfold keep_statement. wp_step. wp_step. cbn.
    apply HQ2; [|done]. apply Hkeep; [|done..]. split; [by left|]. cbn. by rewrite Hd.
  - rewrite Hb, Hr by done. apply wp_on_engine. eapply wp_conseq; [apply Hstep|].
    intros r e He. cbv beta. wp_step. wp_step. unfold keep_statement. wp_step. wp_step.
    destruct r as [row more|n|]; [done| |]; cbn in *.
    + destruct He as (Hn & tbl & tbl' & Ht & Ha & Hbe). rewrite (proj2 (Z.ltb_ge n 0)) by lia.
      apply HQ1; [|by exists tbl, tbl'].
      apply Hkeep; [|done..]. split; [by right|]. cbn. auto.
    + apply HQ2; [|exact He].
      apply Hkeep; [|done..]. split; [by right|]. cbn. by rewrite Hd.
Qed.

Lemma wp_GetStatement {X} `{!Entity X} k q (Q : DataStatement -> Dao E -> Prop) d :
  sound_cache d -> q = sql_of (mFileName X) k ->
  (forall b st d', at_start q b st -> sane d d' -> unchanged d d' -> Q st d') ->
  wp (GetStatement X k q) Q d.
Proof.
  intros Hc -> HQ. unfold GetStatement. wp_step. wp_step.
  destruct (amap_find (statements d) (mFileName X, k)) as [st|] eqn:Hst.
  - wp_step. eapply HQ; [|done..]. by apply reset_at_start, Hc.
  - apply wp_PrepareStatement; [done|]. eauto.
Qed.

Section Entities.
Context {X : Type} `{!Entity X, !EntityOk X}.
Variable env : DaoEnv.
Abbreviation T := (mFileName X).

(** What [Add] and [Update] do to a table. *)
Definition inserted (x : X) (tbl tbl' : Table) : Prop :=
  exists id, tbl !! id = None /\ key_for (opt_int (GetKey x)) id /\
    tbl' = <[id := set_cell (primary_key T) (VInt id) (row_of env x)]> tbl.
Definition updated (x : X) (tbl tbl' : Table) : Prop :=
  tbl' = alter (fun _ => row_of env x) (GetKey x) tbl.
Definition done_to d d' (after : Table -> Table -> Prop) : Prop :=
  exists tbl tbl', tab d T = Some tbl /\ after tbl tbl' /\ set_table d d' T tbl'.

Lemma done_from d d1 d2 t tbl after : T = t -> unchanged d d1 -> done_to d1 d2 after -> tab d t = Some tbl ->
  exists tbl', after tbl tbl' /\ set_table d d2 t tbl'.
Proof.
  intros <- Hu (tbl1 & tbl' & Ht1 & Ha & Hset) Ht. rewrite Hu, Ht in Ht1. injection Ht1 as <-.
  exists tbl'. split; [done|by eapply set_table_after].
Qed.

Lemma sql_insert : insert_sql X = sql_of T InsertStatement.
Proof. unfold insert_sql. cbn. by rewrite columns_agree. Qed.
Lemma sql_update : update_sql X = sql_of T UpdateStatement.
Proof. unfold update_sql. cbn. by rewrite columns_agree, pk_agrees. Qed.
Lemma sql_delete : delete_sql X = sql_of T DeleteStatement.
Proof. unfold delete_sql. cbn. by rewrite pk_agrees. Qed.

(** A change reports [LE_OK] after it has been made, and otherwise makes none. *)
Lemma wp_change k b st d0 d after (Q : le_result_t -> Dao E -> Prop) :
  sane d0 d -> unchanged d0 d -> at_start (sql_of T k) b st ->
  wp (sqlite3_step (sql_of T k) b None) (changes_to tables (engine d) T after) (engine d) ->
  (forall d', sane d0 d' -> done_to d0 d' after -> Q LE_OK d') ->
  (forall d', sane d0 d' -> unchanged d0 d' -> Q LE_IO_ERROR d') ->
  wp (run_row X k st) Q d.
Proof.
  intros Hs Hu Hst Hstep HQ1 HQ2. eapply wp_run_row; [apply Hs|done|exact Hstep| |].
  - intros d' Hs' (tbl & tbl' & Ht & Ha & Hset). apply HQ1; [by eapply sane_trans|].
    exists tbl, tbl'. split_and!; [by rewrite <- Hu|done|by eapply set_table_after].
  - intros d' Hs' Hu'. apply HQ2; [by eapply sane_trans|by eapply unchanged_trans].
Qed.

Lemma wp_Add (x : X) (Q : le_result_t -> Dao E -> Prop) d : sound_cache d ->
  (forall d', sane d d' -> done_to d d' (inserted x) -> Q LE_OK d') ->
  (forall d', sane d d' -> unchanged d d' -> Q LE_IO_ERROR d') ->
  wp (Add env x) Q d.
Proof.
  intros Hc HQ1 HQ2. unfold Add. wp_step. rewrite sql_insert.
  apply wp_GetStatement; [done..|]. intros b st d1 Hst Hs Hu.
  eapply wp_change; [done|done|by eapply bind_all_at_start| |exact HQ1|exact HQ2].
  cbn. rewrite <- columns_agree. eapply wp_conseq; [apply insert_law|].
  intros r e. cbv beta. fold (row_of env x). unfold inserted. by rewrite <- pk_agrees, row_key.
Qed.

Lemma wp_Remove (x : X) (Q : le_result_t -> Dao E -> Prop) d : sound_cache d -> GetKey x <> -1 ->
  (forall d', sane d d' -> done_to d d' (fun tbl tbl' => tbl' = delete (GetKey x) tbl) -> Q LE_OK d') ->
  (forall d', sane d d' -> unchanged d d' -> Q LE_IO_ERROR d') ->
  wp (Remove x) Q d.
Proof.
  intros Hc Hx HQ1 HQ2. unfold Remove. wp_step. rewrite sql_delete.
  apply wp_GetStatement; [done..|]. intros b st d1 Hst Hs Hu.
  eapply wp_change; [done|done|by eapply bind_all_at_start| |exact HQ1|exact HQ2].
  apply delete_law. rewrite binds_key. unfold bind_int. by rewrite (proj2 (Z.eqb_neq _ _) Hx).
Qed.

Lemma values_extra n (v : Val) b : values n ((Z.of_nat n + 1, v) :: b) = values n b.
Proof.
  unfold values. apply map_ext_in. intros i Hi%in_seq. unfold bound. cbn.
  rewrite decide_False by lia. done.
Qed.
Lemma wp_Update (x : X) (Q : le_result_t -> Dao E -> Prop) d : sound_cache d -> GetKey x <> -1 ->
  (forall d', sane d d' -> done_to d d' (updated x) -> Q LE_OK d') ->
  (forall d', sane d d' -> unchanged d d' -> Q LE_IO_ERROR d') ->
  wp (DaoSql.Update env x) Q d.
Proof.
  intros Hc Hx HQ1 HQ2. unfold DaoSql.Update. wp_step. rewrite sql_update.
  apply wp_GetStatement; [done..|]. intros b st d1 Hst Hs Hu. cbv zeta.
  eapply wp_change; [done|done|by eapply BindValue_at_start, bind_all_at_start| |exact HQ1|exact HQ2].
  cbn -[Z.add]. rewrite <- columns_agree.
  assert (bound_row (columnList X) ((Z.of_nat (length (columnList X)) + 1, VInt (GetKey x)) ::
    rev (BindValues env x)) = row_of env x) as Hrow.
  { unfold bound_row, row_of. by rewrite values_extra. }
  eapply wp_conseq; [apply update_law with (k := GetKey x)|].
  - unfold bound. cbn -[Z.add]. by rewrite decide_True by lia.
  - rewrite Hrow, <- pk_agrees, row_key. unfold opt_int. by rewrite (proj2 (Z.eqb_neq _ _) Hx).
  - intros r e. cbv beta. by rewrite Hrow.
Qed.
End Entities.
End Rules.

(** Joins the relations of consecutive steps. *)
Ltac merge := repeat match goal with
  | H1 : sane ?a ?b, H2 : sane ?b ?c |- _ =>
      let H := fresh "Hsane" in pose proof (sane_trans a b c H1 H2) as H; clear H1 H2
  | H1 : unchanged ?a ?b, H2 : unchanged ?b ?c |- _ =>
      let H := fresh "Hsame" in pose proof (unchanged_trans a b c H1 H2) as H; clear H1 H2
  end.

(** ** Reading when it does not fail *)
Section Reading.
Context {E : Type} `{!Sqlite E} `{!SqliteLaws E} `{!SteadyReads E}.
Implicit Types d : Dao E.

(** All tables are there. *)
Definition complete d : Prop := forall t, is_Some (tab d t).
Lemma complete_unchanged d d' : complete d -> unchanged d d' -> complete d'.
Proof. intros H Hu t. rewrite Hu. apply H. Qed.
Lemma complete_set d d' t tbl : complete d -> set_table d d' t tbl -> complete d'.
Proof.
  intros H [H1 H2] t'. destruct (decide (t' = t)) as [->|Ht]; [by rewrite H1|]. rewrite H2 by done. apply H.
Qed.

(** A query that has been prepared. *)
Definition opened (q : Stmt) (b : amap Z Val) (st : DataStatement) : Prop :=
  prepared st = Some q /\ rest st = None /\ isDone st = false /\ binds st = b.

Lemma wp_open q (Q : DataStatement -> Dao E -> Prop) d :
  sound_cache d -> complete d -> plain q ->
  (forall st d', opened q [] st -> sane d d' -> unchanged d d' -> Q st d') ->
  wp (PrepareStatement q) Q d.
Proof.
  intros Hc Ht Hq HQ. unfold PrepareStatement. wp_step. apply wp_on_engine.
  eapply wp_conseq; [apply wp_and; [apply prepare_law|apply prepare_steady; [done|intros t _; apply Ht]]|].
  intros b e [He ->]. cbv beta. wp_step. apply HQ; [done|by split|exact He].
Qed.
Lemma opened_bind q st vs : opened q [] st -> opened q (rev vs) (bind_all (ClearBindings st) vs).
Proof.
  intros (H1 & H2 & H3 & H4). unfold bind_all, ClearBindings.
  cut (forall b st, opened q b st -> opened q (rev vs ++ b) (foldl (fun st p => BindValue st p.1 p.2) st vs)).
  { intros H. rewrite <- (app_nil_r (rev vs)). apply H. by split_and!. }
  clear. induction vs as [|[i v] vs IH]; intros b st Hst; [done|]. cbn. rewrite <- app_assoc.
  apply IH. destruct Hst as (H1 & H2 & H3 & H4). unfold BindValue, opened. rewrite H1. cbn. by rewrite H4.
Qed.

(** The first row of a query, with the rows that follow it. *)
Lemma wp_first_row q t b st tbl (Q : bool * DataStatement -> Dao E -> Prop) d :
  table_of q = Some t -> plain q -> opened q b st -> sound_cache d -> tab d t = Some tbl ->
  (forall d', sane d d' -> unchanged d d' -> answer tbl q b = [] ->
     Q (false, st <| hasRow := false |> <| isDone := true |> <| current := [] |>) d') ->
  (forall row more d', sane d d' -> unchanged d d' -> row :: more ≡ₚ answer tbl q b ->
     Q (true, st <| hasRow := true |> <| current := row |> <| rest := Some more |>) d') ->
  wp (ExecuteRowStep st) Q d.
Proof.
  intros Hq Hpl (H1 & H2 & H3 & H4) Hc Ht HQ1 HQ2. unfold ExecuteRowStep. rewrite H3. wp_step.
  unfold step. rewrite H1, H2, H4. apply wp_on_engine.
  eapply wp_conseq; [apply wp_and; [by eapply query_law|eapply query_steady; [done|]]|].
  { unfold tab in Ht. by rewrite Ht. }
  intros r e [[He Hr] Hne]. cbv beta. unfold tab in Ht. rewrite Ht in Hr. wp_step.
  destruct r as [row more|n|]; [|by apply HQ1|done]. by apply HQ2.
Qed.
Lemma wp_next_row q t b st row more (Q : bool * DataStatement -> Dao E -> Prop) d :
  table_of q = Some t -> prepared st = Some q -> isDone st = false -> sound_cache d -> is_Some (tab d t) ->
  rest st = Some more -> binds st = b ->
  (forall d', sane d d' -> unchanged d d' -> more = [] ->
     Q (false, st <| hasRow := false |> <| isDone := true |> <| current := [] |>) d') ->
  (forall row' more' d', sane d d' -> unchanged d d' -> more = row' :: more' ->
     Q (true, st <| hasRow := true |> <| current := row' |> <| rest := Some more' |>) d') ->
  current st = row -> wp (ExecuteRowStep st) Q d.
Proof.
  intros Hq H1 H3 Hc Ht H2 H4 HQ1 HQ2 _. unfold ExecuteRowStep. rewrite H3. wp_step.
  unfold step. rewrite H1, H2, H4. apply wp_on_engine.
  eapply wp_conseq; [apply wp_and; [by eapply next_law|by eapply query_steady]|].
  intros r e [[He Hr] Hne]. cbv beta. wp_step.
  destruct r as [row' more'|n|]; [by eapply HQ2|by apply HQ1|done].
Qed.

(** The loop over the rows of a query, by an invariant of what has been read and what is to come:
    on a row, on the rows that follow it, and from the start of the query. *)
Definition running (q : Stmt) (b : amap Z Val) (more : list (list Val)) (st : DataStatement) : Prop :=
  prepared st = Some q /\ isDone st = false /\ binds st = b /\ rest st = Some more.
Section Loop.
Context {B : Type} (q : Stmt) (t : Tab) (b : amap Z Val) (body : B -> list Val -> M (Dao E) (B * bool)).
Context (I : B -> list (list Val) -> Dao E -> Prop) (Q : B -> Dao E -> Prop).
Hypothesis Hq : table_of q = Some t.
Hypothesis HI : forall acc rows d, I acc rows d -> sound_cache d /\ is_Some (tab d t).
Hypothesis Hframe : forall acc rows d d', I acc rows d -> sane d d' -> unchanged d d' -> I acc rows d'.
Hypothesis Hbody : forall acc row more d, I acc (row :: more) d ->
  wp (body acc row) (fun (a : B * bool) d' => if a.2 then I a.1 more d' else Q a.1 d') d.
Hypothesis Hend : forall acc d, I acc [] d -> Q acc d.

Lemma wp_next_rows more st acc row d : running q b more st -> current st = row -> I acc (row :: more) d ->
  wp (next_rows (S (length more)) st acc body) Q d.
Proof.
  revert st acc row d. induction more as [|row' more IH]; intros st acc row d (H1 & H2 & H3 & H4) Hrow HI1;
    cbn [next_rows length]; rewrite Hrow; wp_step; (eapply wp_conseq; [by apply Hbody|]);
    intros [a []] d1 Hd1; cbn [fst snd negb] in *; try (by wp_step);
    destruct (HI _ _ _ Hd1) as [Hc1 Ht1]; wp_step; (eapply wp_next_row; [done..| | |done]).
  - intros d2 Hs2 Hu2 _. cbn [fst snd negb]. wp_step. apply Hend. by eapply Hframe.
  - by intros.
  - by intros.
  - intros row2 more2 d2 Hs2 Hu2 [= <- <-]. cbn [fst snd negb].
    eapply IH; [by split_and!|done|]. by eapply Hframe.
Qed.
Lemma wp_more_rows more st acc d : running q b more st -> I acc more d -> wp (each_row st acc body) Q d.
Proof.
  intros (H1 & H2 & H3 & H4) HI1. destruct (HI _ _ _ HI1) as [Hc Ht]. unfold each_row. wp_step.
  eapply wp_next_row; [done..| | |done].
  - intros d' Hs Hu ->. cbn [fst snd negb]. wp_step. apply Hend. by eapply Hframe.
  - intros row' more' d' Hs Hu ->. cbn [fst snd negb rest assign set_rest default].
    eapply wp_next_rows; [by split_and!|done|]. by eapply Hframe.
Qed.
Lemma wp_each_from st acc tbl d : plain q -> opened q b st -> tab d t = Some tbl -> sound_cache d ->
  (forall rows, rows ≡ₚ answer tbl q b -> I acc rows d) -> wp (each_row st acc body) Q d.
Proof.
  intros Hpl Hst Ht Hc H0. unfold each_row. wp_step. eapply wp_first_row; [done|done|done|done|done| |].
  - intros d' Hs Hu Ha. cbn [fst snd negb]. wp_step. apply Hend. eapply Hframe; [|done|done]. apply H0. by rewrite Ha.
  - intros row more d' Hs Hu Hp. destruct Hst as (H1 & _ & H3 & H4). cbn [fst snd negb rest assign set_rest default].
    eapply wp_next_rows; [by split_and!|done|]. eapply Hframe; [by apply H0|done|done].
Qed.
End Loop.
Lemma wp_each_row {B} q t b st (acc : B) (body : B -> list Val -> M (Dao E) (B * bool)) (I : B -> list (list Val) -> Dao E -> Prop)
    (Q : B -> Dao E -> Prop) tbl d :
  table_of q = Some t -> plain q -> opened q b st -> tab d t = Some tbl ->
  (forall acc rows d, I acc rows d -> sound_cache d /\ is_Some (tab d t)) ->
  (forall acc rows d d', I acc rows d -> sane d d' -> unchanged d d' -> I acc rows d') ->
  (forall acc row more d, I acc (row :: more) d ->
     wp (body acc row) (fun (a : B * bool) d' => if a.2 then I a.1 more d' else Q a.1 d') d) ->
  (forall acc d, I acc [] d -> Q acc d) ->
  sound_cache d -> (forall rows, rows ≡ₚ answer tbl q b -> I acc rows d) ->
  wp (each_row st acc body) Q d.
Proof.
  intros Hq Hpl Hst Ht HI Hframe Hbody Hend Hc H0. by eapply (wp_each_from q t b body I).
Qed.

(** A loop that only collects. *)
Lemma wp_read_rows {B} (f : B -> list Val -> B) q t b st (acc : B) (Q : B -> Dao E -> Prop) tbl d :
  table_of q = Some t -> plain q -> opened q b st -> tab d t = Some tbl -> sound_cache d ->
  (forall rows d', rows ≡ₚ answer tbl q b -> sane d d' -> unchanged d d' -> Q (foldl f acc rows) d') ->
  wp (each_row st acc (fun acc row => mret (f acc row, true))) Q d.
Proof.
  intros Hq Hpl Hst Ht Hc HQ.
  eapply (wp_each_row q t b st acc _ (fun acc' rows d' => sane d d' /\ unchanged d d' /\
    exists all, all ≡ₚ answer tbl q b /\ foldl f acc all = foldl f acc' rows)); try done.
  - intros acc' rows d' (Hs & Hu & _). split; [apply Hs|]. by rewrite (Hu t), Ht.
  - intros acc' rows d1 d2 (Hs & Hu & He) Hs2 Hu2.
    split_and!; [by eapply sane_trans|by eapply unchanged_trans|done].
  - intros acc' d' (Hs & Hu & all & Hp & Hf). cbn in Hf. rewrite <- Hf. by apply HQ.
  - intros rows Hp. split_and!; [done..|]. by exists rows.
Qed.

Lemma wp_QueryByKey {X} `{!Entity X, !EntityOk X} env (x : X) tbl (Q : le_result_t * X -> Dao E -> Prop) d :
  sound_cache d -> complete d -> GetKey x <> -1 -> tab d (mFileName X) = Some tbl ->
  (forall r d', tbl !! GetKey x = Some r -> sane d d' -> unchanged d d' ->
     Q (LE_OK, ReadEntity env (read_row (columnList X) r) x) d') ->
  (forall d', tbl !! GetKey x = None -> sane d d' -> unchanged d d' -> Q (LE_NOT_FOUND, x) d') ->
  wp (QueryByKey env x) Q d.
Proof.
  intros Hc Hcomp Hx Ht HQ1 HQ2. unfold QueryByKey.
  rewrite has_key, (proj2 (Z.eqb_neq _ _) Hx). cbn [negb]. wp_step.
  apply wp_open; [done..|]. intros st d1 Hst Hs Hu. cbv beta. wp_step.
  assert (bound (rev (BindKeyValue x)) 1 = VInt (GetKey x)) as Hb.
  { rewrite binds_key. unfold bind_int. by rewrite (proj2 (Z.eqb_neq _ _) Hx). }
  eapply (wp_first_row _ (mFileName X)); [| |by apply opened_bind|apply Hs|by rewrite (Hu _)| |]; [done|done|..].
  - intros d2 Hs2 Hu2 Ha. cbn [fst snd negb]. wp_step.
    unfold answer in Ha. rewrite Hb in Ha. apply HQ2; [by destruct (tbl !! GetKey x)| |].
    + by eapply sane_trans. + by eapply unchanged_trans.
  - intros row more d2 Hs2 Hu2 Ha. cbn [fst snd negb]. wp_step.
    unfold answer in Ha. rewrite Hb in Ha. destruct (tbl !! GetKey x) as [r|] eqn:Hr.
    + apply Permutation_singleton_r in Ha. simplify_eq. apply HQ1; [done| |].
      * by eapply sane_trans. * by eapply unchanged_trans.
    + by apply Permutation_nil_r in Ha.
Qed.
Lemma wp_QueryByKey_unset {X} `{!Entity X, !EntityOk X} env (x : X) (Q : le_result_t * X -> Dao E -> Prop) d :
  GetKey x = -1 -> Q (LE_BAD_PARAMETER, x) d -> wp (QueryByKey env x) Q d.
Proof. intros Hx HQ. unfold QueryByKey. rewrite has_key, Hx. cbn [negb Z.eqb]. by wp_step. Qed.

Lemma wp_read_count {X} `{!Entity X} w tbl (Q : Z -> Dao E -> Prop) d :
  sound_cache d -> complete d -> plain_where w -> tab d (mFileName X) = Some tbl ->
  (forall d', sane d d' -> unchanged d d' -> Q (s32 (Z.of_nat (length (rows_where (Some w) tbl)))) d') ->
  wp (read_count X w) Q d.
Proof.
  intros Hc Hcomp Hw Ht HQ. unfold read_count, QueryCount. wp_step.
  apply wp_open; [done..|]. intros st d1 Hst Hs Hu. cbv beta. wp_step.
  eapply (wp_first_row _ (mFileName X)); [| |done|apply Hs|by rewrite (Hu _)| |]; [done..|].
  intros row more d2 Hs2 Hu2 Ha. cbn [fst snd]. unfold GetColumnInt.
  destruct Hst as (Hp & _). cbn. rewrite Hp. apply Permutation_singleton_r in Ha. simplify_eq.
  cbn. apply HQ; [by eapply sane_trans|by eapply unchanged_trans].
Qed.
End Reading.
