(* ===== verification/DaoEnds.v ===== *)
(** * The data base of the diagnostic events: every operation ends

    In any state, and whatever SQLite answers: no operation that the diagnostic service calls
    faults, and the loops over the rows of a query end. *)
From S2P Require Import Prelude DiagCfg DemTypes DemInit DaoTypes DaoSql DaoEntities DaoSpec DaoDem.

Definition ends {S A} (c : M S A) : Prop := forall s, wp c (fun _ _ => True) s.
Lemma ends_ret {S A} (a : A) : ends (S := S) (mret a).
Proof. done. Qed.
Lemma ends_bind {S A B} (c : M S A) (f : A -> M S B) : ends c -> (forall a, ends (f a)) -> ends (c ≫= f).
Proof. intros Hc Hf s. apply wp_bind. eapply wp_conseq; [apply Hc|]. intros a s' _. apply Hf. Qed.
Lemma ends_gets {S A} (f : S -> A) : ends (gets f). Proof. done. Qed.
Lemma ends_modify {S} (f : S -> S) : ends (modify f). Proof. done. Qed.
Lemma ends_for_each {S A} (l : list A) (body : A -> M S unit) :
  (forall x, ends (body x)) -> ends (for_each l body).
Proof. intros H. induction l as [|x l IH]; [apply ends_ret|]. cbn. by apply ends_bind. Qed.

Create HintDb dao_ends.
Ltac ends :=
  repeat first
    [ progress auto 1 with dao_ends nocore
    | match goal with
      | |- ends (mret _) => apply ends_ret
      | |- ends (gets _) => apply ends_gets
      | |- ends (modify _) => apply ends_modify
      | |- ends (_ ≫= _) => apply ends_bind; [|intros ?]
      | |- ends (if ?b then _ else _) => destruct b
      | |- ends (match ?x with _ => _ end) => destruct x
      | |- ends (let _ := _ in _) => cbv zeta
      end ].

Section Ends.
Context {E : Type} `{!Sqlite E} `{!SqliteLaws E}.

Lemma on_engine_ends {A} (c : M E A) : ends c -> ends (on_engine c).
Proof. intros H s. specialize (H (engine s)). revert H. unfold wp, on_engine. by destruct (c (engine s)) as [[]|]. Qed.
Lemma prepare_ends q : ends (PrepareStatement q).
Proof.
  unfold PrepareStatement. ends. apply on_engine_ends. intros e.
  eapply wp_conseq; [apply prepare_law|done].
Qed.
Lemma exec_raw_ends c : ends (ExecRaw c).
Proof. unfold ExecRaw. ends. apply on_engine_ends. intros e. apply exec_ends. Qed.
Lemma now_ends env : ends (now (E := E) env).
Proof. unfold now. ends. Qed.

(** A step leaves fewer rows to come. *)
Lemma step_row st (s : Dao E) : wp (ExecuteRowStep st) (fun r _ =>
  r.1 = true -> exists l', rest r.2 = Some l' /\ forall l, rest st = Some l -> length l' < length l)%nat s.
Proof.
  unfold ExecuteRowStep. wp_step; [by wp_step|]. wp_step.
  assert (forall s, wp (step st) (fun r _ =>
    forall l row more, rest st = Some l -> r = SQLITE_ROW row more -> l = row :: more) s) as Hst.
  { intros s1. unfold step. destruct (prepared st) as [q|]; [|by wp_step].
    pose proof (step_ends q (binds st) (rest st) (engine s1)) as H. revert H. unfold wp, on_engine.
    by destruct (sqlite3_step q (binds st) (rest st) (engine s1)) as [[]|]. }
  eapply wp_conseq; [apply Hst|]. intros r s1 Hr. cbv beta. wp_step.
  destruct r as [row more|n|]; cbn; try done. intros _. exists more. split; [done|].
  intros l Hl. rewrite (Hr _ _ _ Hl eq_refl). cbn. lia.
Qed.
Lemma row_step_ends st : ends (ExecuteRowStep st).
Proof. intros s. by eapply wp_conseq; [apply step_row|]. Qed.
Lemma row_ends st : ends (ExecuteRow st).
Proof.
  unfold ExecuteRow. ends. intros s. unfold step. destruct (prepared st) as [q|]; [|done].
  apply on_engine_ends. intros e. by eapply wp_conseq; [apply step_ends|].
Qed.

Lemma each_row_ends {B} st (acc : B) body : (forall acc row, ends (body acc row)) -> ends (each_row st acc body).
Proof.
  intros Hbody s. unfold each_row. wp_step. eapply wp_conseq; [apply step_row|].
  intros [[] st1] s1 H1; cbn [fst snd negb] in *; [|by wp_step].
  destruct (H1 eq_refl) as (l & Hl & _). rewrite Hl. clear H1. cbn [default].
  cut (forall n st1 l acc s, rest st1 = Some l -> (length l < n)%nat ->
    wp (next_rows n st1 acc body) (fun _ _ => True) s); [intros H; eapply H; [done|cbn; lia]|].
  clear -Hbody SqliteLaws0. induction n as [|n IH]; intros st1 l acc s1 Hl Hn; [lia|]. cbn [next_rows]. wp_step.
  eapply wp_conseq; [apply Hbody|]. intros [a []] s2 _; cbn [fst snd negb]; [|by wp_step].
  wp_step. eapply wp_conseq; [apply step_row|]. intros [[] st2] s3 H3; cbn [fst snd negb] in *; [|by wp_step].
  destruct (H3 eq_refl) as (l' & Hl' & Hlt). eapply IH; [done|]. specialize (Hlt l Hl). lia.
Qed.

(** ** Handlers and objects *)
#[local] Hint Resolve on_engine_ends prepare_ends exec_raw_ends now_ends row_step_ends row_ends
  each_row_ends ends_for_each : dao_ends.

Section Handlers.
Context {X : Type} `{!Entity X}.
Variable env : DaoEnv.
Lemma run_row_ends k st : ends (run_row (E := E) X k st).
Proof. unfold run_row, keep_statement. ends. Qed.
Lemma get_statement_ends k q : ends (GetStatement (E := E) X k q).
Proof. unfold GetStatement. ends. Qed.
#[local] Hint Resolve run_row_ends get_statement_ends : dao_ends.
Lemma add_ends (x : X) : ends (Add (E := E) env x). Proof. unfold Add. ends. Qed.
Lemma remove_ends (x : X) : ends (Remove (E := E) x). Proof. unfold Remove. ends. Qed.
Lemma update_ends (x : X) : ends (DaoSql.Update (E := E) env x). Proof. unfold DaoSql.Update. ends. Qed.
Lemma query_key_ends (x : X) : ends (QueryByKey (E := E) env x). Proof. unfold QueryByKey. ends. Qed.
Lemma query_ends w : ends (Query (E := E) X w). Proof. unfold Query. ends. Qed.
End Handlers.
#[local] Hint Resolve add_ends remove_ends update_ends query_key_ends query_ends : dao_ends.

Section Objects.
Variable env : DaoEnv.
Lemma dtc_write_ends dtc f g : ends (DtcEntityDao.write (E := E) env dtc f g).
Proof. unfold DtcEntityDao.write, DtcEntityDao.find. ends. Qed.
Lemma dtc_clear_ends dtc : ends (DtcEntityDao.ClearDtcRecord (E := E) env dtc).
Proof. unfold DtcEntityDao.ClearDtcRecord, DtcEntityDao.find. ends. Qed.
Lemma event_write_ends name v dtc : ends (EventEntityDao.WriteStatusAndDtcByEventName (E := E) env name v dtc).
Proof.
  unfold EventEntityDao.WriteStatusAndDtcByEventName, EventEntityDao.find_name. ends.
  apply each_row_ends. intros. ends.
Qed.
Lemma event_clear_ends id : ends (EventEntityDao.ClearEventRecord (E := E) env id).
Proof. unfold EventEntityDao.ClearEventRecord, EventEntityDao.find. ends. Qed.
Lemma snapshot_clear_ends dtc : ends (SnapshotEntityDao.ClearFFRecordByDtc (E := E) env dtc).
Proof. unfold SnapshotEntityDao.ClearFFRecordByDtc. ends. apply each_row_ends. intros. ends. Qed.
#[local] Hint Resolve dtc_write_ends dtc_clear_ends event_write_ends event_clear_ends snapshot_clear_ends : dao_ends.

Lemma SetEventStatusByName_total name v : ends (SetEventStatusByName (E := E) env name v).
Proof. unfold SetEventStatusByName. ends. Qed.
Lemma SetDTCStatus_total dtc v n : ends (SetDTCStatus (E := E) env dtc v n).
Proof. unfold SetDTCStatus, DtcEntityDao.WriteStatusByDtc. ends. Qed.
Lemma SetEventFailedCounter_total id v : ends (SetEventFailedCounter (E := E) env id v).
Proof. unfold SetEventFailedCounter, EventEntityDao.WriteFailedCounterByEventId, EventEntityDao.find. ends. Qed.
Lemma SetActivation_total dtc v : ends (SetActivation (E := E) env dtc v).
Proof. unfold SetActivation, DtcEntityDao.WriteActivationByDtc. ends. Qed.
Lemma SetSuppression_total dtc v : ends (SetSuppression (E := E) env dtc v).
Proof. unfold SetSuppression, DtcEntityDao.WriteSuppressionByDtc. ends. Qed.
Lemma SetAllSuppression_total v : ends (SetAllSuppression (E := E) v).
Proof. unfold SetAllSuppression, DtcEntityDao.WriteAllSuppression. ends. Qed.
Lemma DeleteData_total dtc : ends (DeleteData (E := E) env dtc).
Proof.
  assert (forall ids, ends (clear_events (E := E) env ids)) as Hids.
  { intros ids. induction ids; cbn; ends. }
  unfold DeleteData, GetSuppression, DtcEntityDao.ReadSuppressionByDtc, DtcEntityDao.find, clear_events_of. ends.
Qed.
Lemma DeleteAllData_total : ends (DeleteAllData (E := E) env).
Proof.
  unfold DeleteAllData, DtcEntityDao.GetDTCWithUnsuppress. ends.
  - apply each_row_ends. intros. ends.
  - pose proof DeleteData_total. match goal with |- ends (delete_each _ ?l) => induction l end; cbn; ends.
Qed.
End Objects.
End Ends.
