(* ===== verification/DaoStore.v ===== *)
(** * The data base of the diagnostic events: contracts

    Well-formed tables, what is stored in them, and that every operation of the interface keeps
    them well-formed and stores what it is given. *)
From S2P Require Import Prelude DiagCfg DemTypes DemInit DaoTypes DaoSql DaoEntities DaoSpec DaoRules DaoDem.

(** ** Rows of a table *)
Lemma elem_of_rows w tbl r :
  r ∈ rows_where (Some w) tbl <-> holds w r = true /\ exists id, tbl !! id = Some r.
Proof.
  unfold rows_where, all_rows. rewrite list_elem_of_filter, list_elem_of_fmap. split.
  - intros (Hh & [id r'] & -> & Hin%elem_of_map_to_list). eauto.
  - intros (Hh & id & Hid). split; [done|]. exists (id, r). split; [done|]. by apply elem_of_map_to_list.
Qed.
Definition hit (w : Where) (r : Row) : list Row := if holds w r then [r] else [].
Lemma rows_insert w id r tbl : tbl !! id = None ->
  rows_where (Some w) (<[id := r]> tbl) ≡ₚ hit w r ++ rows_where (Some w) tbl.
Proof.
  intros Hid. unfold rows_where, all_rows, hit. rewrite map_to_list_insert by done. rewrite fmap_cons. cbn [snd].
  destruct (holds w r) eqn:Hr; [by rewrite filter_cons_True|by rewrite filter_cons_False by (by rewrite Hr)].
Qed.
Lemma rows_replace w id r0 r tbl : tbl !! id = Some r0 ->
  rows_where (Some w) (<[id := r]> tbl) ≡ₚ hit w r ++ rows_where (Some w) (delete id tbl) /\
  rows_where (Some w) tbl ≡ₚ hit w r0 ++ rows_where (Some w) (delete id tbl).
Proof.
  intros Hid. split.
  - rewrite <- insert_delete_eq. apply rows_insert. apply lookup_delete_eq.
  - rewrite <- (insert_delete_id tbl id r0) at 1 by done. apply rows_insert, lookup_delete_eq.
Qed.

Lemma cell_set_cell c c' v r : c <> c' -> cell (set_cell c v r) c' = cell r c'.
Proof.
  intros Hc. unfold cell, set_cell. f_equal. induction r as [|[k x] r IH]; [done|]. cbn.
  destruct (decide (k = c)) as [->|]; cbn; [by rewrite !decide_False by congruence|by rewrite IH].
Qed.

Lemma cell_set_same c v r : cell r c <> VNull -> cell (set_cell c v r) c = v.
Proof.
  unfold cell, set_cell. induction r as [|[k x] r IH]; [done|]. cbn.
  destruct (decide (k = c)) as [->|Hne]; cbn; [by rewrite !decide_True by done|].
  by rewrite !decide_False by congruence.
Qed.

Lemma alter_const {A} (tbl : gmap Z A) k x y : tbl !! k = Some y -> alter (fun _ => x) k tbl = <[k := x]> tbl.
Proof.
  intros Hk. apply map_eq. intros j. destruct (decide (j = k)) as [->|Hj].
  - by rewrite lookup_alter_eq, lookup_insert_eq, Hk.
  - by rewrite lookup_alter_ne, lookup_insert_ne.
Qed.

(** ** Well-formed data bases *)
Definition key_ok (id : Z) : Prop := is_int32 id /\ id <> -1.
Definition keys_ok (t : Tab) (tbl : Table) : Prop :=
  forall id r, tbl !! id = Some r -> cell r (primary_key t) = VInt id /\ key_ok id.
Definition named (n : string) (r : Row) : Prop := cell r "Event_Name" = VText n.
(** A name that the table of the events can hold: empty names stand for rows that the failure
    counter of an unknown event has made. *)
Definition event_name (n : string) : Prop := quote_free n /\ n <> ""%string.
Definition names_unique (tbl : Table) : Prop :=
  forall i j r r' n, tbl !! i = Some r -> tbl !! j = Some r' -> named n r -> named n r' -> event_name n -> i = j.
Definition flag (b : Z) : Prop := b = 0 \/ b = 1.
Definition flags_ok (tbl : Table) : Prop :=
  forall id r, tbl !! id = Some r -> exists b, cell r "Suppression" = VInt b /\ flag b.
Definition table_ok (t : Tab) (tbl : Table) : Prop :=
  keys_ok t tbl /\
  match t with dtc_entity => flags_ok tbl | event_entity => names_unique tbl | snapshot_entity => True end.

Section Store.
Context {E : Type} `{!Sqlite E} `{!SqliteLaws E} `{!SteadyReads E}.
Implicit Types d : Dao E.

Record well_formed d : Prop := {
  wf_cache : sound_cache d;
  wf_table : forall t, exists tbl, tab d t = Some tbl /\ table_ok t tbl }.

Lemma wf_complete d : well_formed d -> complete d.
Proof. intros [_ H] t. destruct (H t) as (tbl & -> & _). by eexists. Qed.
Lemma wf_unchanged d d' : well_formed d -> sane d d' -> unchanged d d' -> well_formed d'.
Proof. intros [_ H] [Hc _] Hu. split; [done|]. intros t. rewrite Hu. apply H. Qed.
Lemma wf_set d d' t tbl : well_formed d -> sane d d' -> set_table d d' t tbl -> table_ok t tbl -> well_formed d'.
Proof.
  intros [_ H] [Hc _] [H1 H2] Ht. split; [done|]. intros t'.
  destruct (decide (t' = t)) as [->|Hne]; [rewrite H1; eauto|]. rewrite H2 by done. apply H.
Qed.

(** ** What is stored *)
Definition dtc_cells (r : Row) : Z * Z :=
  (Z.land (int_of (cell r "Status")) 0xFF, Z.land (int_of (cell r "Fault_Occurence_Counter")) 0xFF).
Definition dao_dtc d (code : Z) : Z * Z :=
  default (0, 0) (tbl ← tab d dtc_entity; r ← tbl !! s32 code; Some (dtc_cells r)).
Definition or_status (rows : list Row) : Z :=
  foldr (fun r acc => Z.lor (u32 (int_of (cell r "Status"))) acc) 0 rows.
Definition rows_named (n : string) (tbl : Table) : list Row := rows_where (Some (ColText "Event_Name" n)) tbl.
Definition dao_event d (n : string) : Z :=
  default 0 (tbl ← tab d event_entity; Some (u8 (or_status (rows_named n tbl)))).

Lemma or_status_perm rows rows' : rows ≡ₚ rows' -> or_status rows = or_status rows'.
Proof.
  unfold or_status. induction 1; cbn; [done|by f_equal| |by etransitivity].
  by rewrite !Z.lor_assoc, (Z.lor_comm (u32 _)).
Qed.
Lemma or_status_app rows rows' : or_status (rows ++ rows') = Z.lor (or_status rows) (or_status rows').
Proof. unfold or_status. induction rows as [|r rows IH]; cbn; [done|]. by rewrite IH, Z.lor_assoc. Qed.

Lemma dao_dtc_unchanged d d' c : tab d' dtc_entity = tab d dtc_entity -> dao_dtc d' c = dao_dtc d c.
Proof. unfold dao_dtc. by intros ->. Qed.
Lemma dao_event_unchanged d d' n : tab d' event_entity = tab d event_entity -> dao_event d' n = dao_event d n.
Proof. unfold dao_event. by intros ->. Qed.

(** No status changes but to zero. *)
Definition quiet d d' : Prop :=
  (forall n, event_name n -> dao_event d' n = dao_event d n \/ dao_event d' n = 0) /\
  (forall c, dao_dtc d' c = dao_dtc d c \/ (dao_dtc d' c).1 = (dao_dtc d c).1 \/ (dao_dtc d' c).1 = 0).
Lemma quiet_tables d d' : tab d' event_entity = tab d event_entity -> tab d' dtc_entity = tab d dtc_entity -> quiet d d'.
Proof. intros H1 H2. split; intros; left; [by apply dao_event_unchanged|by apply dao_dtc_unchanged]. Qed.
Lemma quiet_unchanged d d' : unchanged d d' -> quiet d d'.
Proof. intros H. by apply quiet_tables. Qed.
Lemma quiet_trans d1 d2 d3 : quiet d1 d2 -> quiet d2 d3 -> quiet d1 d3.
Proof.
  intros [H1 H2] [H3 H4]. split.
  - intros n Hn. destruct (H3 n Hn) as [->|]; auto.
  - intros c. destruct (H4 c) as [-> |[-> |]]; [apply H2| |auto]. destruct (H2 c) as [-> |[|]]; auto.
Qed.

Lemma holds_named n r : holds (ColText "Event_Name" n) r = true <-> named n r.
Proof. unfold named. cbn. destruct (cell r "Event_Name"); try done. rewrite bool_decide_eq_true. split; congruence. Qed.

(** The only row of a name. *)
Lemma only_row n id r tbl : names_unique tbl -> event_name n -> tbl !! id = Some r -> named n r ->
  rows_named n (delete id tbl) = [].
Proof.
  intros Hu Hn Hid Hr. destruct (rows_named n (delete id tbl)) as [|r' rows] eqn:Hrows; [done|].
  assert (r' ∈ rows_named n (delete id tbl)) as Hin by (rewrite Hrows; left).
  apply elem_of_rows in Hin as [Hr'%holds_named (j & Hj)]. apply lookup_delete_Some in Hj as [Hne Hj].
  destruct Hne. by eapply Hu.
Qed.

(** ** The table of the DTCs *)
Section Dtcs.
Variable env : DaoEnv.
Implicit Types set : DtcEntity -> DtcEntity.

Definition dtc_of (r : Row) : DtcEntity :=
  ReadEntity env (read_row (columnList DtcEntity) r) new_dtc_entity.

Lemma dtc_key_ok id x : key_ok id -> de_dtc x = id -> cell (row_of env x) "DTC" = VInt id.
Proof.
  intros [_ Hid] Hx. rewrite dtc_row. change (opt_int (de_dtc x) = VInt id).
  unfold opt_int. by rewrite Hx, (proj2 (Z.eqb_neq _ _) Hid).
Qed.
Lemma flag_of id r tbl : flags_ok tbl -> tbl !! id = Some r -> flag (de_suppression (dtc_of r)).
Proof.
  intros Hf Hr. destruct (Hf _ _ Hr) as (b & Hb & Hflag). change (flag (int_of (cell r "Suppression"))).
  rewrite Hb. cbn [int_of]. by destruct Hflag as [-> | ->]; [left|right].
Qed.
Lemma dtc_table_insert tbl id x : table_ok dtc_entity tbl -> key_ok id -> de_dtc x = id ->
  flag (de_suppression x) -> table_ok dtc_entity (<[id := row_of env x]> tbl).
Proof.
  intros [Hk Hf] Hid Hx Hfl. split; intros i r; rewrite lookup_insert_Some.
  - intros [[<- <-]|[_ Hi]]; [|by apply Hk]. split; [by apply dtc_key_ok|done].
  - intros [[<- <-]|[_ Hi]]; [|by eapply Hf]. exists (de_suppression x). split; [|done].
    rewrite dtc_row. change (opt_int (de_suppression x) = VInt (de_suppression x)). by destruct Hfl as [-> | ->].
Qed.
Lemma set_own_key id x : key_ok id -> de_dtc x = id -> set_cell "DTC" (VInt id) (row_of env x) = row_of env x.
Proof.
  intros [_ Hid] Hx. rewrite dtc_row. cbn. unfold opt_int. by rewrite Hx, (proj2 (Z.eqb_neq _ _) Hid).
Qed.

(** What [Load] of a DTC finds: its row, or nothing. *)
Lemma wp_find dtc (Q : le_result_t * DtcEntity -> Dao E -> Prop) d tbl :
  well_formed d -> dtc <> -1 -> tab d dtc_entity = Some tbl ->
  (forall d', sane d d' -> unchanged d d' ->
     match tbl !! dtc with
     | Some r => Q (LE_OK, dtc_of r) d'
     | None => Q (LE_NOT_FOUND, new_dtc_entity <| de_dtc := dtc |>) d'
     end) ->
  wp (DtcEntityDao.find env dtc) Q d.
Proof.
  intros Hw Hd Ht HQ. eapply wp_QueryByKey; [apply Hw|by apply wf_complete|done|exact Ht| |].
  - intros r d' Hr Hs Hu. change (tbl !! dtc = Some r) in Hr. specialize (HQ d' Hs Hu). by rewrite Hr in HQ.
  - intros d' Hr Hs Hu. change (tbl !! dtc = None) in Hr. specialize (HQ d' Hs Hu). by rewrite Hr in HQ.
Qed.

(** An update or an insertion: the row of the DTC becomes that of an entity, or nothing changes. *)
Definition dtc_written d d' (dtc : Z) (x : option Row -> Z -> DtcEntity) (r : le_result_t) : Prop :=
  exists tbl, tab d dtc_entity = Some tbl /\
    if ok r then exists t, set_table d d' dtc_entity (<[dtc := row_of env (x (tbl !! dtc) t)]> tbl)
    else unchanged d d'.

Lemma wp_write dtc set (Q : le_result_t -> Dao E -> Prop) d :
  well_formed d -> key_ok dtc -> (forall x, de_dtc (set x) = de_dtc x) ->
  (forall x, flag (de_suppression x) -> flag (de_suppression (set x))) ->
  (forall r d', well_formed d' -> same_numbers d d' ->
     dtc_written d d' dtc (fun old t => match old with
       | Some row => set ((dtc_of row) <| de_dtc := dtc |> <| de_update := t |>)
       | None => set (DtcEntityDao.fresh dtc t) end) r -> Q r d') ->
  wp (DtcEntityDao.write env dtc set set) Q d.
Proof.
  intros Hw Hk Hset Hsup HQ. destruct (wf_table d Hw dtc_entity) as (tbl & Ht & Hok).
  assert (forall x d3, sane d d3 -> de_dtc x = dtc -> flag (de_suppression x) -> set_table d d3 dtc_entity (<[dtc := row_of env x]> tbl) ->
    dtc_written d d3 dtc (fun old t => match old with
       | Some row => set ((dtc_of row) <| de_dtc := dtc |> <| de_update := t |>)
       | None => set (DtcEntityDao.fresh dtc t) end) LE_OK -> Q LE_OK d3) as Hend.
  { intros x d3 Hs Hx Hfl Hset3 Hw3. apply HQ; [|apply Hs|done].
    eapply wf_set; [done|done|exact Hset3|by apply dtc_table_insert]. }
  unfold DtcEntityDao.write. wp_step. eapply wp_find; [done|apply Hk|exact Ht|].
  intros d1 Hs Hu.
  destruct (tbl !! dtc) as [row|] eqn:Hrow; wp_step; (apply wp_now; [|apply Hs]); intros t d2 Hs2 Hu2; cbn [fst].
  - change (ok LE_OK) with true. cbv iota. apply wp_Update; [apply Hs2|cbn; rewrite Hset; apply Hk| |];
      intros d3 Hs3 Hdone; merge.
    + edestruct (done_from (X := DtcEntity) d d2 d3 dtc_entity) as (tbl' & Ha & Hset3);
        [done|done|exact Hdone|exact Ht|].
      unfold updated in Ha. cbn [GetKey dtc_dao] in Ha. rewrite Hset in Ha.
      change (de_dtc _) with dtc in Ha. rewrite (alter_const _ _ _ row) in Ha by done. subst tbl'.
      eapply Hend; [done| | |exact Hset3|]; [by rewrite Hset|apply Hsup; eapply (flag_of dtc row); [apply Hok|done]|].
      exists tbl. split; [done|]. rewrite Hrow. by exists t.
    + apply HQ; [by eapply wf_unchanged|by apply sane_numbers|]. by exists tbl.
  - change (ok LE_NOT_FOUND) with false. cbv iota. apply wp_Add; [apply Hs2| |]; intros d3 Hs3 Hdone; merge.
    + edestruct (done_from (X := DtcEntity) d d2 d3 dtc_entity) as (tbl' & Hins & Hset3);
        [done|done|exact Hdone|exact Ht|]. destruct Hins as (id & Hid & Hkid & Ha).
      cbn [GetKey dtc_dao] in Hkid. rewrite Hset in Hkid. change (de_dtc _) with dtc in Hkid.
      unfold opt_int in Hkid. rewrite (proj2 (Z.eqb_neq _ _) (proj2 Hk)) in Hkid. cbn in Hkid. subst id tbl'.
      cbn [mFileName dtc_dao primary_key] in Hset3. rewrite set_own_key in Hset3 by (done || by rewrite Hset).
      eapply Hend; [done| | |exact Hset3|]; [by rewrite Hset|by apply Hsup; left|].
      exists tbl. split; [done|]. rewrite Hrow. by exists t.
    + apply HQ; [by eapply wf_unchanged|by apply sane_numbers|]. by exists tbl.
Qed.

(** The codes of DTCs that the table can hold: the last one stands for a member that is not set. *)
Definition dtc_code (c : Z) : Prop := 0 <= c < 0xFFFFFFFF.
Lemma s32_cases c : dtc_code c -> s32 c = c /\ c < 0x80000000 \/ s32 c = c - 0x100000000 /\ 0x80000000 <= c.
Proof.
  unfold dtc_code, s32. intros Hc. destruct (Z.lt_ge_cases c 0x80000000).
  - left. rewrite Z.mod_small by lia. lia.
  - right. rewrite <- (Z.mod_unique (c + 0x80000000) 0x100000000 1 (c - 0x80000000)) by lia. lia.
Qed.
Lemma code_key c : dtc_code c -> key_ok (s32 c).
Proof. intros Hc. split; [apply s32_range|]. pose proof (s32_cases c Hc). unfold dtc_code in Hc. lia. Qed.
Lemma code_inj c c' : dtc_code c -> dtc_code c' -> s32 c = s32 c' -> c = c'.
Proof.
  intros Hc Hc'. pose proof (s32_cases c Hc). pose proof (s32_cases c' Hc'). unfold dtc_code in *. lia.
Qed.

(** What is stored of a DTC after its row was written. *)
Lemma dtc_cells_row x : is_byte (de_status x) -> is_byte (de_occur x) ->
  dtc_cells (row_of env x) = (de_status x, de_occur x).
Proof.
  intros Hs Ho. rewrite dtc_row. unfold dtc_cells.
  change (cell _ "Status") with (opt_int (de_status x)).
  change (cell _ "Fault_Occurence_Counter") with (opt_int (de_occur x)).
  unfold opt_int, in_width in *. rewrite !(proj2 (Z.eqb_neq _ _)) by lia. cbn [int_of].
  rewrite !s32_id by (unfold is_int32; lia). change 255 with (Z.ones 8). rewrite !Z.land_ones by lia.
  by rewrite !Z.mod_small by lia.
Qed.
Lemma dao_dtc_set d d' c (x : DtcEntity) tbl : tab d dtc_entity = Some tbl ->
  set_table d d' dtc_entity (<[s32 c := row_of env x]> tbl) -> dtc_code c ->
  dao_dtc d' c = dtc_cells (row_of env x) /\
  (forall c', dtc_code c' -> c' <> c -> dao_dtc d' c' = dao_dtc d c') /\
  (forall n, dao_event d' n = dao_event d n).
Proof.
  intros Ht [Ht' Hne] Hc. unfold dao_dtc. rewrite Ht, Ht'. cbn. split_and!.
  - by rewrite lookup_insert_eq.
  - intros c' Hc' Hcc. rewrite lookup_insert_ne; [done|]. intros H. apply Hcc. by apply code_inj.
  - intros n. apply dao_event_unchanged. by apply Hne.
Qed.
Lemma dao_unchanged d d' : unchanged d d' ->
  (forall c, dao_dtc d' c = dao_dtc d c) /\ (forall n, dao_event d' n = dao_event d n).
Proof. intros H. split; intros; [apply dao_dtc_unchanged|apply dao_event_unchanged]; apply H. Qed.

Lemma wp_SetDTCStatus c v n d : well_formed d -> dtc_code c -> is_byte v -> is_byte n ->
  wp (SetDTCStatus env c v n) (fun r d' => well_formed d' /\
    dao_dtc d' c = (if ok r then (v, n) else dao_dtc d c) /\
    (forall c', dtc_code c' -> c' <> c -> dao_dtc d' c' = dao_dtc d c') /\
    (forall m, dao_event d' m = dao_event d m)) d.
Proof.
  intros Hw Hc Hv Hn. unfold SetDTCStatus, DtcEntityDao.WriteStatusByDtc. cbv zeta.
  apply wp_write; [done|by apply code_key|done|done|]. intros r d' Hw' _ (tbl & Ht & Hr).
  split; [done|]. destruct (ok r).
  - destruct Hr as [t Hset]. destruct (dao_dtc_set _ _ _ _ _ Ht Hset Hc) as (H1 & H2 & H3).
    split_and!; try done. rewrite H1, dtc_cells_row; by destruct (tbl !! s32 c).
  - destruct (dao_unchanged _ _ Hr) as [H1 H2]. by split_and!.
Qed.
Lemma status_row x : (dtc_cells (row_of env x)).1 = Z.land (int_of (opt_int (de_status x))) 0xFF.
Proof. by rewrite dtc_row. Qed.
(** A row that takes another status than -1 keeps it when it is read and written again. *)
Lemma status_kept_row r x : de_status x = de_status (dtc_of r) ->
  (dtc_cells (row_of env x)).1 = (dtc_cells r).1 \/ (dtc_cells (row_of env x)).1 = 0.
Proof.
  intros Hx. rewrite status_row, Hx. change (dtc_cells r).1 with (Z.land (de_status (dtc_of r)) 0xFF). unfold opt_int.
  destruct (de_status (dtc_of r) =? -1) eqn:Hv; [right; by cbn|left]. cbn [int_of].
  assert (is_int32 (de_status (dtc_of r))) as Hr by (cbn; destruct (cell r "Status"); cbn; try done; apply s32_range).
  by rewrite (s32_id _ Hr).
Qed.
Lemma written_quiet d d' c x r : dtc_code c -> (forall row t, de_status (x (Some row) t) = de_status (dtc_of row)) ->
  (forall t, de_status (x None t) = 0) -> dtc_written d d' (s32 c) x r -> quiet d d'.
Proof.
  intros Hc Hsome Hnone (tbl & Ht & Hr). destruct (ok r); [|by apply quiet_unchanged]. destruct Hr as [t [Ht' Hne]].
  split; [intros n _; left; apply dao_event_unchanged; by apply Hne|]. intros c'. right. unfold dao_dtc.
  rewrite Ht, Ht'. cbn. destruct (decide (s32 c' = s32 c)) as [->|Hcc]; [|rewrite lookup_insert_ne by done; by left].
  rewrite lookup_insert_eq. cbn. destruct (tbl !! s32 c) as [row|] eqn:Hrow; cbn.
  - destruct (status_kept_row row (x (Some row) t)) as [H|H]; [by apply Hsome|left|right]; exact H.
  - right. change ((dtc_cells (row_of env (x None t))).1 = 0). by rewrite status_row, Hnone.
Qed.

Lemma wp_SetActivation c v d : well_formed d -> dtc_code c ->
  wp (SetActivation env c v) (fun _ d' => well_formed d' /\ quiet d d') d.
Proof.
  intros Hw Hc. unfold SetActivation, DtcEntityDao.WriteActivationByDtc. cbv zeta.
  apply wp_write; [done|by apply code_key|done|done|]. intros r d' Hw' _ Hr. split; [done|]. by eapply written_quiet; [| | |exact Hr].
Qed.
Lemma wp_SetSuppression c v d : well_formed d -> dtc_code c ->
  wp (SetSuppression env c v) (fun _ d' => well_formed d' /\ quiet d d') d.
Proof.
  intros Hw Hc. unfold SetSuppression. wp_step; [wp_step; split; [done|by apply quiet_unchanged]|]. unfold DtcEntityDao.WriteSuppressionByDtc. cbv zeta.
  apply wp_write; [done|by apply code_key|done|intros; cbn; unfold flag; lia|].
  intros r d' Hw' _ Hr. split; [done|]. by eapply written_quiet; [| | |exact Hr].
Qed.

Lemma wp_SetAllSuppression v d : well_formed d ->
  wp (SetAllSuppression v) (fun _ d' => well_formed d' /\ quiet d d') d.
Proof.
  intros Hw. unfold SetAllSuppression. wp_step; [wp_step; split; [done|by apply quiet_unchanged]|].
  unfold DtcEntityDao.WriteAllSuppression, ExecRaw. wp_step. apply wp_on_engine.
  eapply wp_conseq; [apply update_all_law|]. intros r e Hr. cbv beta. wp_step.
  destruct r as [n|]; [|split; [eapply wf_unchanged; [done|split; [apply Hw|done]|done]|by apply quiet_unchanged]].
  destruct Hr as (tbl & Ht & Hb). destruct (wf_table d Hw dtc_entity) as (tbl' & Ht' & Hk & Hf).
  unfold tab in Ht'. rewrite Ht in Ht'. injection Ht' as <-.
  split; [eapply wf_set; [done|split; [apply Hw|done]|exact Hb|]|].
  2:{ split; [intros n' _; left; apply dao_event_unchanged; by apply Hb|]. intros c. left. unfold dao_dtc, tab.
      rewrite Ht. cbn [engine assign set_engine]. rewrite (proj1 Hb). cbn. rewrite lookup_fmap.
      destruct (tbl !! s32 c) as [r|]; [|done]. cbn. case_match; [|done]. unfold dtc_cells. by rewrite !cell_set_cell. }
  split; intros id r0; rewrite lookup_fmap; intros (r1 & Hr1 & ->)%fmap_Some.
  - destruct (Hk _ _ Hr1) as [H1 H2]. split; [|done]. case_match; [|done]. by rewrite cell_set_cell.
  - destruct (Hf _ _ Hr1) as (b & Hcell & Hb'). case_match; [|eauto]. exists v. split; [|unfold flag; lia].
    by apply cell_set_same; rewrite Hcell.
Qed.

(** ** Reading a DTC *)
Lemma dtc_of_cells r : (Z.land (de_status (dtc_of r)) 0xFF, Z.land (de_occur (dtc_of r)) 0xFF) = dtc_cells r.
Proof. done. Qed.
Lemma wp_GetDTCStatus c d : well_formed d -> dtc_code c ->
  wp (GetDTCStatus env c) (fun v d' => v = (dao_dtc d c).1 /\ sane d d' /\ unchanged d d') d.
Proof.
  intros Hw Hc. destruct (wf_table d Hw dtc_entity) as (tbl & Ht & _). unfold GetDTCStatus, DtcEntityDao.ReadStatusByDtc.
  wp_step. eapply wp_find; [done|by apply code_key|exact Ht|]. intros d' Hs Hu. unfold dao_dtc. rewrite Ht. cbn.
  by destruct (tbl !! s32 c).
Qed.
Lemma wp_GetDTCOccurrenceCounter c d : well_formed d -> dtc_code c ->
  wp (GetDTCOccurrenceCounter env c) (fun v d' => v = (dao_dtc d c).2 /\ sane d d' /\ unchanged d d') d.
Proof.
  intros Hw Hc. destruct (wf_table d Hw dtc_entity) as (tbl & Ht & _).
  unfold GetDTCOccurrenceCounter, DtcEntityDao.ReadStatusByDtc.
  wp_step. eapply wp_find; [done|by apply code_key|exact Ht|]. intros d' Hs Hu. unfold dao_dtc. rewrite Ht. cbn.
  by destruct (tbl !! s32 c).
Qed.
(** The flags of a DTC; a DTC without a row is active and not suppressed. *)
Definition dao_flag (p : DtcEntity -> Z) (none : Z) d (c : Z) : Z :=
  match tab d dtc_entity with
  | Some tbl => match tbl !! s32 c with Some r => Z.land (p (dtc_of r)) 0xFF | None => none end
  | None => none
  end.
Lemma wp_GetSuppression c d : well_formed d -> dtc_code c ->
  wp (GetSuppression env c) (fun v d' => v = dao_flag de_suppression 0 d c /\ sane d d' /\ unchanged d d') d.
Proof.
  intros Hw Hc. destruct (wf_table d Hw dtc_entity) as (tbl & Ht & _).
  unfold GetSuppression, DtcEntityDao.ReadSuppressionByDtc. do 2 wp_step.
  eapply wp_find; [done|by apply code_key|exact Ht|]. intros d' Hs Hu. unfold dao_flag. rewrite Ht.
  by destruct (tbl !! s32 c).
Qed.
Lemma wp_GetActivation c d : well_formed d -> dtc_code c ->
  wp (GetActivation env c) (fun v d' => v = dao_flag de_activation 1 d c /\ sane d d' /\ unchanged d d') d.
Proof.
  intros Hw Hc. destruct (wf_table d Hw dtc_entity) as (tbl & Ht & _).
  unfold GetActivation, DtcEntityDao.ReadActivationByDtc. do 2 wp_step.
  eapply wp_find; [done|by apply code_key|exact Ht|]. intros d' Hs Hu. unfold dao_flag. rewrite Ht.
  by destruct (tbl !! s32 c).
Qed.
End Dtcs.
End Store.
