(* ===== verification/DaoEvents.v ===== *)
(** * The data base of the diagnostic events: events and clearing

    The contracts of the operations on the table of the events, of clearing a DTC with its
    events and its snapshots, and of what is read back. *)
From S2P Require Import Prelude DiagCfg DemTypes DemInit DaoTypes DaoSql DaoEntities DaoSpec DaoRules DaoDem DaoStore.

Section Events.
Context {E : Type} `{!Sqlite E} `{!SqliteLaws E} `{!SteadyReads E}.
Variable env : DaoEnv.
Implicit Types d : Dao E.

Definition event_of (r : Row) : EventEntity :=
  ReadEntity env (read_row (columnList EventEntity) r) new_event_entity.
Definition name_of (r : Row) : string := default ""%string (text_of (cell r "Event_Name")).

Lemma event_id id r : cell r "Event_ID" = VInt id -> key_ok id -> ve_id (event_of r) = id.
Proof. intros Hr [Hid _]. change (int_of (cell r "Event_ID") = id). rewrite Hr. by apply s32_id. Qed.
Lemma named_name n r : named n r -> name_of r = n.
Proof. unfold named, name_of. by intros ->. Qed.
Lemma name_named n r : name_of r = n -> event_name n -> named n r.
Proof. unfold named, name_of. intros <- [_ Hn]. by destruct (cell r "Event_Name"). Qed.

Lemma event_cells x : cell (row_of env x) "Event_ID" = opt_int (ve_id x) /\
  cell (row_of env x) "Event_Name" = VText (ve_name x) /\ cell (row_of env x) "Status" = opt_int (ve_status x).
Proof. by rewrite event_row. Qed.
Lemma opt_key id : key_ok id -> opt_int id = VInt id.
Proof. intros [_ H]. unfold opt_int. by rewrite (proj2 (Z.eqb_neq _ _) H). Qed.

(** The row that an insertion with the key [id] makes. *)
Definition new_row (id : Z) (x : EventEntity) : Row := set_cell "Event_ID" (VInt id) (row_of env x).
Lemma new_row_cells id x : cell (new_row id x) "Event_ID" = VInt id /\
  cell (new_row id x) "Event_Name" = VText (ve_name x) /\ cell (new_row id x) "Status" = opt_int (ve_status x).
Proof. unfold new_row. by rewrite event_row. Qed.

Lemma event_table_put tbl id r : table_ok event_entity tbl -> key_ok id -> cell r "Event_ID" = VInt id ->
  (forall j r', j <> id -> tbl !! j = Some r' -> event_name (name_of r) -> ~ named (name_of r) r') ->
  table_ok event_entity (<[id := r]> tbl).
Proof.
  intros [Hk Hu] Hid Hr Hn. split.
  - intros i r'. rewrite lookup_insert_Some. intros [[<- <-]|[_ Hi]]; [done|by apply Hk].
  - intros i j r1 r2 n. rewrite !lookup_insert_Some.
    intros [[<- <-]|[Hi H1]] [[<- <-]|[Hj H2]] Hn1 Hn2 Hn'; [done| | |by eapply Hu].
    + destruct (Hn j r2); [done|done| |]; by rewrite (named_name n).
    + destruct (Hn i r1); [done|done| |]; by rewrite (named_name n).
Qed.
Lemma event_table_replace tbl id r0 x : table_ok event_entity tbl -> tbl !! id = Some r0 ->
  ve_id x = id -> ve_name x = name_of r0 -> table_ok event_entity (<[id := row_of env x]> tbl).
Proof.
  intros Hok Hid Hx Hn. destruct Hok as [Hk Hu]. destruct (Hk _ _ Hid) as [_ Hki].
  destruct (event_cells x) as (H1 & H2 & _).
  apply event_table_put; [by split|done|by rewrite H1, Hx, opt_key|].
  assert (name_of (row_of env x) = name_of r0) as -> by (unfold name_of at 1; by rewrite H2, <- Hn).
  intros j r' Hj Hr' He Hnr. apply Hj. eapply Hu; [exact Hr'|exact Hid|exact Hnr| |done]. by apply name_named.
Qed.
Lemma event_table_insert tbl id x : table_ok event_entity tbl -> tbl !! id = None -> key_ok id ->
  (event_name (ve_name x) -> rows_named (ve_name x) tbl = []) ->
  table_ok event_entity (<[id := new_row id x]> tbl).
Proof.
  intros Hok Hid Hk Hn. destruct (new_row_cells id x) as (H1 & H2 & _).
  apply event_table_put; [done|done|done|].
  assert (name_of (new_row id x) = ve_name x) as -> by (unfold name_of; by rewrite H2).
  intros j r' _ Hr' He Hnr. assert (r' ∈ rows_named (ve_name x) tbl) as Hin.
  { apply elem_of_rows. split; [by apply holds_named|eauto]. }
  rewrite Hn in Hin by done. by apply elem_of_nil in Hin.
Qed.

(** ** What is stored of a name *)
Lemma status_cell r v : cell r "Status" = opt_int v -> is_byte v -> u8 (or_status [r]) = v.
Proof.
  intros Hr Hv. unfold or_status. cbn [foldr]. rewrite Hr, Z.lor_0_r. unfold opt_int, in_width in *.
  rewrite (proj2 (Z.eqb_neq _ _)) by lia. cbn [int_of]. rewrite s32_id by (unfold is_int32; lia).
  rewrite (wrap_id 32 v), (wrap_id 8 v) by (unfold in_width; lia). done.
Qed.
Lemma hit_named n r : named n r -> hit (ColText "Event_Name" n) r = [r].
Proof. intros H. unfold hit. by rewrite (proj2 (holds_named n r) H). Qed.
Lemma miss_named n m r : named n r -> m <> n -> hit (ColText "Event_Name" m) r = [].
Proof.
  intros H Hm. unfold hit. destruct (holds (ColText "Event_Name" m) r) eqn:Hh; [|done].
  apply holds_named in Hh. unfold named in *. congruence.
Qed.

(** The row of a name takes the place of the rows of that name. *)
Lemma dao_event_set d d' n v r tbl tbl' : tab d event_entity = Some tbl ->
  set_table d d' event_entity tbl' -> named n r -> cell r "Status" = opt_int v -> is_byte v ->
  rows_named n tbl' ≡ₚ [r] -> (forall m, m <> n -> rows_named m tbl' ≡ₚ rows_named m tbl) ->
  dao_event d' n = v /\ (forall m, m <> n -> dao_event d' m = dao_event d m) /\
  (forall c, dao_dtc d' c = dao_dtc d c).
Proof.
  intros Ht [Ht' Hne] Hn Hv Hb Hrows Hother. unfold dao_event. rewrite Ht, Ht'. split_and!.
  - change (u8 (or_status (rows_named n tbl')) = v). rewrite (or_status_perm _ _ Hrows). by apply status_cell.
  - intros m Hm. change (u8 (or_status (rows_named m tbl')) = u8 (or_status (rows_named m tbl))). by rewrite (or_status_perm _ _ (Hother m Hm)).
  - intros c. apply dao_dtc_unchanged. by apply Hne.
Qed.

(** ** Writing the status of a name *)
Lemma find_by_name n tbl : answer tbl (Select event_entity (columnList EventEntity) (Some (ColText "Event_Name" n))) [] =
  map (read_row (columnList EventEntity)) (rows_named n tbl).
Proof. done. Qed.

Definition event_written d d' (n : string) (v : Z) (r : le_result_t) : Prop :=
  dao_event d' n = (if ok r then v else dao_event d n) /\ (forall m, m <> n -> dao_event d' m = dao_event d m) /\
  (forall c, dao_dtc d' c = dao_dtc d c).
Lemma event_unwritten d d' n v r : unchanged d d' -> r <> LE_OK -> event_written d d' n v r.
Proof.
  intros Hu Hr. destruct (dao_unchanged d d' Hu) as [H1 H2]. split_and!; [|done..].
  unfold ok. by rewrite bool_decide_false.
Qed.

(** A row that is added, and a row that is replaced. *)
Lemma event_added d d' id x tbl : well_formed d -> sane d d' -> tab d event_entity = Some tbl ->
  tbl !! id = None -> key_ok id -> event_name (ve_name x) -> rows_named (ve_name x) tbl = [] ->
  is_byte (ve_status x) -> set_table d d' event_entity (<[id := new_row id x]> tbl) ->
  well_formed d' /\ event_written d d' (ve_name x) (ve_status x) LE_OK.
Proof.
  intros Hw Hs Ht Hid Hk Hn Hrows Hv Hset. destruct (wf_table d Hw event_entity) as (tbl0 & Ht0 & Hok).
  rewrite Ht in Ht0. injection Ht0 as <-. destruct (new_row_cells id x) as (_ & H2 & H3).
  split; [eapply wf_set; [done|done|exact Hset|by apply event_table_insert]|].
  edestruct (dao_event_set d d' (ve_name x) (ve_status x) (new_row id x)) as (H4 & H5 & H6);
    [exact Ht|exact Hset|done..| | |by split_and!].
  - unfold rows_named. rewrite rows_insert, (hit_named (ve_name x)) by done. fold (rows_named (ve_name x) tbl).
    by rewrite Hrows.
  - intros m Hm. unfold rows_named. by rewrite rows_insert, (miss_named (ve_name x) m) by done.
Qed.
Lemma event_replaced d d' id r0 x n tbl : well_formed d -> sane d d' -> tab d event_entity = Some tbl ->
  tbl !! id = Some r0 -> named n r0 -> event_name n -> ve_id x = id -> ve_name x = n ->
  is_byte (ve_status x) -> set_table d d' event_entity (<[id := row_of env x]> tbl) ->
  well_formed d' /\ event_written d d' n (ve_status x) LE_OK.
Proof.
  intros Hw Hs Ht Hid Hr0 Hn Hx Hname Hv Hset. destruct (wf_table d Hw event_entity) as (tbl0 & Ht0 & Hok).
  rewrite Ht in Ht0. injection Ht0 as <-. destruct (event_cells x) as (H1 & H2 & H3). rewrite Hname in H2.
  pose proof (only_row n id r0 tbl (proj2 Hok) Hn Hid Hr0) as Honly.
  split; [eapply wf_set; [done|done|exact Hset|]|].
  - apply (event_table_replace tbl id r0); try done. by rewrite Hname, (named_name n r0).
  - edestruct (dao_event_set d d' n (ve_status x) (row_of env x)) as (H4 & H5 & H6);
      [exact Ht|exact Hset|done..| | |by split_and!].
    + destruct (rows_replace (ColText "Event_Name" n) id r0 (row_of env x) tbl Hid) as [Hp _].
      unfold rows_named. rewrite Hp, (hit_named n) by done. fold (rows_named n (delete id tbl)). by rewrite Honly.
    + intros m Hm. destruct (rows_replace (ColText "Event_Name" m) id r0 (row_of env x) tbl Hid) as [Hp Hp0].
      unfold rows_named. by rewrite Hp, Hp0, !(miss_named n m) by done.
Qed.

(** A row that keeps its name, with the same status or none, and a row without a name. *)
Lemma quiet_replaced d d' id r0 x tbl : well_formed d -> tab d event_entity = Some tbl -> tbl !! id = Some r0 ->
  ve_name x = name_of r0 -> ve_status x = ve_status (event_of r0) \/ ve_status x = 0 ->
  set_table d d' event_entity (<[id := row_of env x]> tbl) -> quiet d d'.
Proof.
  intros Hw Ht Hid Hname Hst [Ht' Hne]. split; [|intros c; left; apply dao_dtc_unchanged; by apply Hne].
  destruct (wf_table d Hw event_entity) as (tbl0 & Ht0 & Hok). rewrite Ht in Ht0. injection Ht0 as <-.
  intros n Hn. unfold dao_event. rewrite Ht, Ht'. cbn [mbind option_bind default].
  change (u8 (or_status (rows_named n (<[id:=row_of env x]> tbl))) = u8 (or_status (rows_named n tbl)) \/
    u8 (or_status (rows_named n (<[id:=row_of env x]> tbl))) = 0).
  destruct (rows_replace (ColText "Event_Name" n) id r0 (row_of env x) tbl Hid) as [Hp Hp0].
  fold (rows_named n (<[id:=row_of env x]> tbl)) (rows_named n tbl) (rows_named n (delete id tbl)) in Hp, Hp0.
  rewrite (or_status_perm _ _ Hp), (or_status_perm _ _ Hp0). destruct (event_cells x) as (_ & H2 & H3).
  destruct (decide (name_of r0 = n)) as [Heq|Hneq].
  - pose proof (name_named _ _ Heq Hn) as Hr0. assert (named n (row_of env x)) as Hx by (unfold named; by rewrite H2, Hname, Heq).
    rewrite (only_row n id r0 tbl) by (done || apply Hok). rewrite !hit_named, !app_nil_r by done.
    unfold or_status. cbn [foldr]. rewrite !Z.lor_0_r, H3. unfold opt_int.
    destruct (ve_status x =? -1) eqn:Hm; [by right|]. cbn [int_of].
    change (int_of (cell r0 "Status")) with (ve_status (event_of r0)).
    assert (is_int32 (ve_status (event_of r0))) as Hr by (cbn; destruct (cell r0 "Status"); cbn; try done; apply s32_range).
    destruct Hst as [-> | ->]; [left; by rewrite (s32_id _ Hr)|by right].
  - left. assert (forall r, name_of r = name_of r0 -> hit (ColText "Event_Name" n) r = []) as Hmiss.
    { intros r Hr. unfold hit. destruct (holds _ r) eqn:Hh; [|done]. apply holds_named, named_name in Hh. congruence. }
    rewrite (Hmiss r0 eq_refl), (Hmiss (row_of env x)); [done|]. unfold name_of at 1. rewrite H2. by rewrite Hname.
Qed.
Lemma quiet_added d d' id x tbl : tab d event_entity = Some tbl -> tbl !! id = None -> ve_name x = ""%string ->
  set_table d d' event_entity (<[id := new_row id x]> tbl) -> quiet d d'.
Proof.
  intros Ht Hid Hname [Ht' Hne]. split; [|intros c; left; apply dao_dtc_unchanged; by apply Hne].
  intros n [_ Hn]. left. unfold dao_event. rewrite Ht, Ht'. cbn [mbind option_bind default].
  change (u8 (or_status (rows_named n (<[id:=new_row id x]> tbl))) = u8 (or_status (rows_named n tbl))).
  destruct (new_row_cells id x) as (_ & H2 & _). rewrite Hname in H2.
  unfold rows_named. rewrite (or_status_perm _ _ (rows_insert (ColText "Event_Name" n) id (new_row id x) tbl Hid)).
  by rewrite (miss_named "" n).
Qed.

(** The query for a name has its only row, or none. *)
Lemma rows_of_name n tbl row more : names_unique tbl -> event_name n ->
  row :: more ≡ₚ map (read_row (columnList EventEntity)) (rows_named n tbl) ->
  more = [] /\ exists id r0, tbl !! id = Some r0 /\ named n r0 /\ row = read_row (columnList EventEntity) r0.
Proof.
  intros Hu Hn Ha. destruct (rows_named n tbl) as [|r0 rows] eqn:Hrows; [by apply Permutation_nil_r in Ha|].
  assert (r0 ∈ rows_named n tbl) as Hr0 by (rewrite Hrows; left).
  apply elem_of_rows in Hr0 as [Hr0%holds_named (id & Hid)].
  destruct (rows_replace (ColText "Event_Name" n) id r0 r0 tbl Hid) as [_ Hp].
  fold (rows_named n tbl) (rows_named n (delete id tbl)) in Hp.
  rewrite (only_row n id r0 tbl Hu Hn Hid Hr0), (hit_named n), Hrows in Hp by done.
  cbn [app] in Hp. apply Permutation_singleton_r in Hp. injection Hp as ->. cbn [map] in Ha.
  apply Permutation_singleton_r in Ha. split; [congruence|]. exists id, r0. split_and!; [done|done|congruence].
Qed.

Lemma wp_WriteStatusAndDtcByEventName n v code d : well_formed d -> event_name n -> is_byte v ->
  wp (EventEntityDao.WriteStatusAndDtcByEventName env n v code)
    (fun r d' => well_formed d' /\ event_written d d' n v r) d.
Proof.
  intros Hw Hn Hv. destruct (wf_table d Hw event_entity) as (tbl & Ht & Hok).
  unfold EventEntityDao.WriteStatusAndDtcByEventName, EventEntityDao.find_name, Query. wp_step.
  apply wp_open; [apply Hw|by apply wf_complete|apply Hn|]. intros st d1 Hst Hs Hu. wp_step.
  eapply (wp_first_row _ event_entity); [| |exact Hst|apply Hs|by rewrite (Hu _)| |]; [done|apply Hn|..].
  - intros d2 Hs2 Hu2 Ha. cbn [fst snd negb]. wp_step. apply wp_now; [|apply Hs2]. intros t d3 Hs3 Hu3.
    rewrite find_by_name in Ha. apply map_eq_nil in Ha. merge.
    apply wp_Add; [by eapply sane_cache| |]; intros d4 Hs4 Hdone; merge.
    + edestruct (done_from (X := EventEntity) d d3 d4 event_entity) as (tbl' & Hins & Hset);
        [done|done|exact Hdone|exact Ht|]. destruct Hins as (id & Hid & Hkid & ->).
      cbn in Hkid. assert (key_ok id) as Hk by (unfold key_ok, is_int32; lia).
      by eapply (event_added d d4 id (mkEventEntity (-1) n code v 0 t t)).
    + split; [by eapply wf_unchanged|by apply event_unwritten].
  - intros row more d2 Hs2 Hu2 Ha. cbn [fst snd negb]. cbv zeta. wp_step. merge. rewrite find_by_name in Ha.
    destruct (rows_of_name _ _ _ _ (proj2 Hok) Hn Ha) as (-> & id & r0 & Hid & Hr0 & ->).
    apply wp_now; [|by eapply sane_cache]. intros t d3 Hs3 Hu3. merge. wp_step.
    cbn [current assign set_current set_rest set_hasRow].
    destruct (proj1 Hok _ _ Hid) as [Hcell Hk]. pose proof (event_id id r0 Hcell Hk) as Hve. fold (event_of r0).
    set (x := (event_of r0) <| ve_status := v |> <| ve_dtc := code |> <| ve_update := t |>).
    assert (GetKey x = id) as Hkey by exact Hve.
    apply wp_Update; [by eapply sane_cache|rewrite Hkey; apply Hk| |]; intros d4 Hs4 Hdone; merge;
      [|cbn; split; [by eapply wf_unchanged|by apply event_unwritten]].
    edestruct (done_from (X := EventEntity) d d3 d4 event_entity) as (tbl' & Hup & Hset);
      [done|done|exact Hdone|exact Ht|].
    unfold updated in Hup. rewrite Hkey, (alter_const _ _ _ r0) in Hup by done. subst tbl'.
    destruct (event_replaced d d4 id r0 x n tbl) as [Hw4 (W1 & W2 & W3)]; try done; [by apply named_name|].
    change (ok LE_OK) with true. cbn [negb]. wp_step. unfold each_row. wp_step.
    destruct Hst as (Hp1 & _ & Hp3 & Hp4).
    eapply (wp_next_row _ event_entity); [|exact Hp1|exact Hp3|by eapply sane_cache|by apply wf_complete|done|done| | |done];
      [done| |by intros].
    intros d5 Hs5 Hu5 _. cbn [fst snd negb]. wp_step. wp_step. split; [by eapply wf_unchanged|].
    destruct (dao_unchanged d4 d5 Hu5) as [U1 U2].
    split_and!; [rewrite U2; apply W1|intros m Hm; rewrite U2; by apply W2|intros c; by rewrite U1].
Qed.
End Events.
