(* ===== verification/DaoClear.v ===== *)
(** * The data base of the diagnostic events: clearing and reading back

    Clearing a DTC with its events and snapshots, the failure counters, and what is read back
    keep the data base well-formed; what is read is what is stored. *)
From S2P Require Import Prelude DiagCfg DemTypes DemInit DaoTypes DaoSql DaoEntities DaoSpec DaoRules DaoDem.
From S2P Require Import DaoStore DaoEvents.

Section Clear.
Context {E : Type} `{!Sqlite E} `{!SqliteLaws E} `{!SteadyReads E}.
Variable env : DaoEnv.
Implicit Types d : Dao E.

(** ** An event by its key *)
Lemma u16_key id : key_ok (u16 id).
Proof. unfold key_ok, is_int32. pose proof (wrap_in_width 16 id ltac:(lia)) as H. unfold in_width in H. lia. Qed.

(** ** Which rows a call changes *)
Definition row_at d (t : Tab) (k : Z) : option Row := tbl ← tab d t; tbl !! k.
Definition touches d d' (t : Tab) (k : Z) : Prop :=
  (forall t', t' <> t -> tab d' t' = tab d t') /\ (forall j, j <> k -> row_at d' t j = row_at d t j).

Lemma row_at_unchanged d d' t k : unchanged d d' -> row_at d' t k = row_at d t k.
Proof. unfold row_at. by intros ->. Qed.
Lemma touches_unchanged d d' t k : unchanged d d' -> touches d d' t k.
Proof. intros H. split; intros; [apply H|by apply row_at_unchanged]. Qed.
Lemma touches_set d d' t k r tbl : tab d t = Some tbl -> set_table d d' t (<[k := r]> tbl) ->
  touches d d' t k /\ row_at d' t k = Some r.
Proof.
  intros Ht [H1 H2]. unfold touches, row_at. rewrite Ht, H1. cbn. rewrite lookup_insert_eq.
  split; [split; [done|]|done]. intros j Hj. by rewrite lookup_insert_ne.
Qed.
Lemma row_at_other d d' t t' k j : touches d d' t k -> t' <> t -> row_at d' t' j = row_at d t' j.
Proof. intros [H _] Ht. unfold row_at. by rewrite H. Qed.
Lemma dao_dtc_at d c : dao_dtc d c = default (0, 0) (dtc_cells <$> row_at d dtc_entity (s32 c)).
Proof. unfold dao_dtc, row_at. by destruct (tab d dtc_entity) as [tbl|]; [destruct (tbl !! s32 c) eqn:H; cbn; rewrite H|]. Qed.
Lemma dao_dtc_row d d' c : row_at d' dtc_entity (s32 c) = row_at d dtc_entity (s32 c) -> dao_dtc d' c = dao_dtc d c.
Proof. rewrite !dao_dtc_at. by intros ->. Qed.

Lemma wp_find_event id (Q : le_result_t * EventEntity -> Dao E -> Prop) d tbl :
  well_formed d -> id <> -1 -> tab d event_entity = Some tbl ->
  (forall d', sane d d' -> unchanged d d' ->
     match tbl !! id with
     | Some r => Q (LE_OK, event_of env r) d'
     | None => Q (LE_NOT_FOUND, new_event_entity <| ve_id := id |>) d'
     end) ->
  wp (EventEntityDao.find env id) Q d.
Proof.
  intros Hw Hd Ht HQ. eapply wp_QueryByKey; [apply Hw|by apply wf_complete|done|exact Ht| |].
  - intros r d' Hr Hs Hu. change (tbl !! id = Some r) in Hr. specialize (HQ d' Hs Hu). by rewrite Hr in HQ.
  - intros d' Hr Hs Hu. change (tbl !! id = None) in Hr. specialize (HQ d' Hs Hu). by rewrite Hr in HQ.
Qed.

(** An update of the event of a row that leaves its key and its name. *)
Lemma wp_update_event d0 d id r x tbl : well_formed d0 -> sane d0 d -> unchanged d0 d ->
  tab d0 event_entity = Some tbl -> tbl !! id = Some r -> ve_id x = ve_id (event_of env r) ->
  ve_name x = name_of r -> ve_status x = ve_status (event_of env r) \/ ve_status x = 0 ->
  wp (DaoSql.Update env x) (fun res d' => well_formed d' /\ quiet d0 d' /\ touches d0 d' event_entity id /\
    (res = LE_OK -> row_at d' event_entity id = Some (row_of env x))) d.
Proof.
  intros Hw Hs Hu Ht Hid Hx Hn Hst. destruct (wf_table d0 Hw event_entity) as (tbl0 & Ht0 & Hok).
  rewrite Ht in Ht0. injection Ht0 as <-. destruct (proj1 Hok _ _ Hid) as [Hcell Hk].
  rewrite (event_id env id r Hcell Hk) in Hx. assert (GetKey x = id) as Hkey by exact Hx.
  apply wp_Update; [by eapply sane_cache|rewrite Hkey; apply Hk| |]; intros d1 Hs1 Hdone; merge.
  - edestruct (done_from (X := EventEntity) d0 d d1 event_entity) as (tbl' & Hup & Hset);
      [done|done|exact Hdone|exact Ht|].
    unfold updated in Hup. rewrite Hkey, (alter_const _ _ _ r) in Hup by done. subst tbl'.
    destruct (touches_set _ _ _ _ _ _ Ht Hset) as [Htouch Hnew].
    split_and!; [|by eapply (quiet_replaced env d0 d1 id r x tbl)|done|done].
    eapply wf_set; [done|done|exact Hset|]. by apply (event_table_replace env tbl id r).
  - split_and!; [by eapply wf_unchanged|by apply quiet_unchanged|by apply touches_unchanged|done].
Qed.

Lemma wp_SetEventFailedCounter id v d : well_formed d ->
  wp (SetEventFailedCounter env (u16 id) v) (fun _ d' => well_formed d' /\ quiet d d') d.
Proof.
  intros Hw. destruct (wf_table d Hw event_entity) as (tbl & Ht & Hok).
  unfold SetEventFailedCounter, EventEntityDao.WriteFailedCounterByEventId. wp_step.
  eapply wp_find_event; [done|apply u16_key|exact Ht|]. intros d1 Hs Hu.
  destruct (tbl !! u16 id) as [r|] eqn:Hid; cbn [fst snd]; wp_step; (apply wp_now; [|apply Hs]);
    intros t d2 Hs2 Hu2; merge.
  - eapply wp_conseq; [eapply (wp_update_event d d2 (u16 id) r); try done; by left|]. intros _ d3 (Hw3 & Hq3 & _). done.
  - apply wp_Add; [by eapply sane_cache| |]; intros d3 Hs3 Hdone; merge;
      [|split; [by eapply wf_unchanged|by apply quiet_unchanged]].
    edestruct (done_from (X := EventEntity) d d2 d3 event_entity) as (tbl' & Hins & Hset);
      [done|done|exact Hdone|exact Ht|]. destruct Hins as (i & Hi & Hki & ->).
    cbn [GetKey event_dao ve_id] in Hki. rewrite (opt_key _ (u16_key id)) in Hki. cbn in Hki. subst i.
    split; [|by eapply quiet_added; [exact Ht|exact Hi| |exact Hset]].
    eapply wf_set; [done|done|exact Hset|]. apply event_table_insert; [done|done|apply u16_key|]. by intros [].
Qed.

(** The status of the row of an event is zero, where there is a row. *)
Definition zeroed d (id : Z) : Prop :=
  forall r, row_at d event_entity (u16 id) = Some r -> cell r "Status" = VInt 0.
Lemma wp_ClearEventRecord id d : well_formed d ->
  wp (EventEntityDao.ClearEventRecord env (u16 id)) (fun r d' => well_formed d' /\ quiet d d' /\
    touches d d' event_entity (u16 id) /\ (r = LE_OK -> zeroed d' id)) d.
Proof.
  intros Hw. destruct (wf_table d Hw event_entity) as (tbl & Ht & Hok). unfold zeroed.
  unfold EventEntityDao.ClearEventRecord. wp_step. pose proof (u16_key id) as Hk. generalize dependent (u16 id).
  intros k Hk. eapply wp_find_event; [done|apply Hk|exact Ht|]. intros d1 Hs Hu.
  destruct (tbl !! k) as [r|] eqn:Hid; cbn [fst snd].
  - change (ok LE_OK) with true. cbn [negb]. wp_step. apply wp_now; [|apply Hs]. intros t d2 Hs2 Hu2. merge.
    eapply wp_conseq; [eapply (wp_update_event d d2 k r); try done; by right|].
    intros res d3 (Hw3 & Hq3 & Ht3 & Hr3). split_and!; [done..|]. intros Hres r'. rewrite Hr3 by done.
    intros [= <-]. apply event_cells.
  - change (ok LE_NOT_FOUND) with false. cbn [negb]. wp_step.
    split_and!; [by eapply wf_unchanged|by apply quiet_unchanged|by apply touches_unchanged|]. intros _ r.
    rewrite (row_at_unchanged _ _ _ _ Hu). unfold row_at. rewrite Ht. cbn. by rewrite Hid.
Qed.

(** What clearing a list of events does: their rows only, and they are zero afterwards. *)
Definition events_cleared d d' (ids : list Z) (r : le_result_t) : Prop :=
  quiet d d' /\
  (forall t, t <> event_entity -> tab d' t = tab d t) /\
  (forall j, j ∉ ((fun i => u16 i) <$> ids) -> row_at d' event_entity j = row_at d event_entity j) /\
  (r = LE_OK -> Forall (zeroed d') ids).
Lemma zeroed_kept d d' id j : touches d d' event_entity (u16 j) -> u16 id <> u16 j -> zeroed d id -> zeroed d' id.
Proof. intros [_ H] Hne Hz r. rewrite H by done. apply Hz. Qed.
Lemma wp_clear_events ids d : well_formed d ->
  wp (clear_events env ids) (fun r d' => well_formed d' /\ events_cleared d d' ids r) d.
Proof.
  cut (forall d before, well_formed d -> Forall (zeroed d) before ->
    wp (clear_events env ids) (fun r d' => well_formed d' /\ events_cleared d d' ids r /\
      (r = LE_OK -> Forall (zeroed d') before)) d).
  { intros H Hw. eapply wp_conseq; [by apply (H d [])|]. cbn. tauto. }
  clear d. induction ids as [|id ids IH]; intros d before Hw Hdone; cbn [clear_events].
  { wp_step. unfold events_cleared. split_and!; [done|by apply quiet_unchanged|done..]. }
  wp_step. eapply wp_conseq; [by apply wp_ClearEventRecord|]. intros r d1 (Hw1 & Hq1 & Ht1 & Hz). cbv beta.
  unfold ok. case_bool_decide as Hr.
  - eapply wp_conseq; [apply (IH d1 (id :: before) Hw1)|].
    { constructor; [by apply Hz|]. eapply Forall_impl; [exact Hdone|]. intros j Hj.
      destruct (decide (u16 j = u16 id)) as [He|He]; [|by eapply zeroed_kept].
      unfold zeroed. rewrite He. by apply Hz. }
    intros r' d2 (Hw2 & (H0 & H1 & H2 & H3) & H4). unfold events_cleared.
    split_and!; [done|by eapply quiet_trans| | | |].
    + intros t Ht. rewrite H1 by done. by apply Ht1.
    + intros j Hj. cbn in Hj. apply not_elem_of_cons in Hj as [Hj1 Hj2]. rewrite H2 by done. by apply Ht1.
    + intros Hr'. specialize (H4 Hr'). apply Forall_cons in H4 as [H4 _]. constructor; [done|by apply H3].
    + intros Hr'. specialize (H4 Hr'). by apply Forall_cons in H4 as [_ H4].
  - wp_step. unfold events_cleared. split_and!; [done|done|apply Ht1| |done|done]. intros j Hj. cbn in Hj.
    apply not_elem_of_cons in Hj as [Hj1 _]. by apply Ht1.
Qed.
Definition events_of (c : Z) : list Z :=
  match amap_at (dtc_all (dao_conf env)) c with Returns e => dtc_events e | Throws _ => [] end.
Lemma wp_clear_events_of c d : well_formed d ->
  wp (clear_events_of env c) (fun r d' => well_formed d' /\ events_cleared d d' (events_of c) r) d.
Proof.
  intros Hw. unfold clear_events_of, events_of. case_match; [by apply wp_clear_events|]. wp_step.
  unfold events_cleared. split_and!; [done|by apply quiet_unchanged|done..].
Qed.

(** ** The record of a DTC *)
Definition cleared_row (r : Row) : Prop :=
  dtc_cells r = (0, 0) /\ cell r "Activation" = VInt 1 /\ cell r "Suppression" = VInt 0.
Lemma wp_ClearDtcRecord c d : well_formed d -> key_ok c ->
  wp (DtcEntityDao.ClearDtcRecord env c) (fun r d' => well_formed d' /\ quiet d d' /\
    touches d d' dtc_entity c /\ (r = LE_OK -> forall row, row_at d' dtc_entity c = Some row -> cleared_row row)) d.
Proof.
  intros Hw Hc. destruct (wf_table d Hw dtc_entity) as (tbl & Ht & Hok). unfold DtcEntityDao.ClearDtcRecord. wp_step.
  eapply wp_find; [done|apply Hc|exact Ht|]. intros d1 Hs Hu.
  destruct (tbl !! c) as [row|] eqn:Hrow; cbn [fst snd].
  - change (ok LE_OK) with true. cbn [negb]. wp_step. apply wp_now; [|apply Hs]. intros t d2 Hs2 Hu2. merge.
    apply wp_Update; [by eapply sane_cache|apply Hc| |]; intros d3 Hs3 Hdone; merge.
    + edestruct (done_from (X := DtcEntity) d d2 d3 dtc_entity) as (tbl' & Hup & Hset);
        [done|done|exact Hdone|exact Ht|].
      unfold updated in Hup. change (GetKey _) with c in Hup. rewrite (alter_const _ _ _ row) in Hup by done.
      subst tbl'. destruct (touches_set _ _ _ _ _ _ Ht Hset) as [Htouch Hnew]. split_and!; [| |done|].
      2:{ split; [intros n _; left; apply dao_event_unchanged; by apply Htouch|]. intros c'. right. rewrite !dao_dtc_at.
          destruct (decide (s32 c' = c)) as [->|Hne]; [|left; by rewrite (proj2 Htouch)].
          right. rewrite Hnew. cbn [fmap option_fmap option_map default]. by rewrite dtc_cells_row. }
      * eapply wf_set; [done|done|exact Hset|]. apply dtc_table_insert; [done|exact Hc|done|by left].
      * intros _ r'. rewrite Hnew. intros [= <-]. unfold cleared_row. rewrite dtc_cells_row by done.
        by rewrite dtc_row.
    + split_and!; [by eapply wf_unchanged|by apply quiet_unchanged|by apply touches_unchanged|done].
  - change (ok LE_NOT_FOUND) with false. cbn [negb]. wp_step.
    split_and!; [by eapply wf_unchanged|by apply quiet_unchanged|by apply touches_unchanged|]. intros _ r.
    rewrite (row_at_unchanged _ _ _ _ Hu). unfold row_at. rewrite Ht. cbn. by rewrite Hrow.
Qed.

(** ** The snapshots of a DTC *)
Definition snapshots_at d (c : Z) : list Row :=
  match tab d snapshot_entity with Some tbl => rows_where (Some (ColIs "DTC" c)) tbl | None => [] end.
(** No row of another DTC is removed, and no other table is touched. *)
Definition others_kept d d' (c : Z) : Prop :=
  (forall t, t <> snapshot_entity -> tab d' t = tab d t) /\
  (forall id row, row_at d snapshot_entity id = Some row -> holds (ColIs "DTC" c) row = false ->
     row_at d' snapshot_entity id = Some row).
Lemma others_kept_trans d1 d2 d3 c : others_kept d1 d2 c -> others_kept d2 d3 c -> others_kept d1 d3 c.
Proof. intros [H1 H2] [H3 H4]. split; [intros t Ht; by rewrite H3, H1|eauto]. Qed.
Lemma others_kept_unchanged d d' c : unchanged d d' -> others_kept d d' c.
Proof. intros H. split; [intros; apply H|]. intros id row. by rewrite (row_at_unchanged _ _ _ _ H). Qed.
Lemma others_kept_delete d d' c id row tbl : tab d snapshot_entity = Some tbl -> tbl !! id = Some row ->
  holds (ColIs "DTC" c) row = true -> set_table d d' snapshot_entity (delete id tbl) -> others_kept d d' c.
Proof.
  intros Ht Hid Hh [H1 H2]. split; [done|]. intros j r. unfold row_at. rewrite Ht, H1. intros Hj Hr.
  change (tbl !! j = Some r) in Hj. change (delete id tbl !! j = Some r). rewrite lookup_delete_ne; [done|]. intros ->. rewrite Hid in Hj. injection Hj as ->. congruence.
Qed.

Definition snapshot_of (row : list Val) : SnapshotEntity := ReadEntity env row new_snapshot_entity.
Definition to_remove (c : Z) (rows : list (list Val)) d : Prop :=
  exists tbl, tab d snapshot_entity = Some tbl /\
    rows ≡ₚ map (read_row (columnList SnapshotEntity)) (rows_where (Some (ColIs "DTC" c)) tbl).
(** One row: it is gone afterwards, or nothing changes. *)
Lemma wp_remove_row c row more d (Q : le_result_t -> Dao E -> Prop) : well_formed d -> to_remove c (row :: more) d ->
  (forall d', well_formed d' -> others_kept d d' c -> to_remove c more d' -> Q LE_OK d') ->
  (forall r d', r <> LE_OK -> well_formed d' -> others_kept d d' c -> Q r d') ->
  wp (Remove (snapshot_of row)) Q d.
Proof.
  intros Hw (tbl & Ht & Hp) HQ1 HQ2. destruct (wf_table d Hw snapshot_entity) as (tbl0 & Ht0 & Hok).
  rewrite Ht in Ht0. injection Ht0 as <-.
  assert (row ∈ map (read_row (columnList SnapshotEntity)) (rows_where (Some (ColIs "DTC" c)) tbl)) as Hin
    by (rewrite <- Hp; left).
  apply list_elem_of_fmap in Hin as (r0 & -> & (Hh & id & Hid)%elem_of_rows).
  destruct (proj1 Hok _ _ Hid) as [Hcell Hk].
  assert (GetKey (snapshot_of (read_row (columnList SnapshotEntity) r0)) = id) as Hkey.
  { change (int_of (cell r0 "ID") = id). cbn in Hcell. rewrite Hcell. by apply s32_id, Hk. }
  apply wp_Remove; [apply Hw|rewrite Hkey; apply Hk| |]; intros d' Hs Hdone.
  - edestruct (done_from (X := SnapshotEntity) d d d' snapshot_entity) as (tbl' & Hdel & Hset);
      [done|done|exact Hdone|exact Ht|].
    cbv beta in Hdel. rewrite Hkey in Hdel. subst tbl'. apply HQ1.
    + eapply wf_set; [done|done|exact Hset|]. split; [|done].
      intros i r Hi%lookup_delete_Some. by apply (proj1 Hok), Hi.
    + by eapply others_kept_delete.
    + exists (delete id tbl). split; [apply Hset|].
      destruct (rows_replace (ColIs "DTC" c) id r0 r0 tbl Hid) as [_ Hrows]. unfold hit in Hrows. rewrite Hh in Hrows.
      rewrite Hrows in Hp. by apply (Permutation_cons_inv (a := read_row (columnList SnapshotEntity) r0)).
  - apply HQ2; [done|by eapply wf_unchanged|by apply others_kept_unchanged].
Qed.
Lemma wp_ClearFFRecordByDtc c d : well_formed d ->
  wp (SnapshotEntityDao.ClearFFRecordByDtc env c) (fun r d' => well_formed d' /\ others_kept d d' c /\
    (r = LE_OK -> snapshots_at d' c = [])) d.
Proof.
  intros Hw. destruct (wf_table d Hw snapshot_entity) as (tbl & Ht & Hok).
  unfold SnapshotEntityDao.ClearFFRecordByDtc, Query. wp_step.
  apply wp_open; [apply Hw|by apply wf_complete|done|]. intros st d1 Hst Hs Hu. cbv beta.
  pose proof (wf_unchanged _ _ Hw Hs Hu) as Hw1.
  eapply (wp_each_row _ snapshot_entity _ st _ _
    (fun acc rows d' => acc = LE_OK /\ well_formed d' /\ others_kept d d' c /\ to_remove c rows d'));
    [| |exact Hst|by rewrite (Hu _)|..]; [done|done|..].
  - intros acc rows d' (_ & Hw' & _ & tbl' & Ht' & _). split; [apply Hw'|]. by rewrite Ht'.
  - intros acc rows d2 d3 (Hacc & Hw2 & Hk & tbl' & Ht' & Hp) Hs2 Hu2.
    split_and!; [done|by eapply wf_unchanged|eapply others_kept_trans; [done|by apply others_kept_unchanged]|].
    exists tbl'. by rewrite (Hu2 _).
  - intros acc row more d2 (_ & Hw2 & Hk & Hr). wp_step. fold (snapshot_of row).
    apply (wp_remove_row c row more); [done|done|intros d3 Hw3 Hk3 Hr3|intros r d3 Hne Hw3 Hk3];
      pose proof (others_kept_trans _ _ _ _ Hk Hk3).
    + wp_step. by split_and!.
    + wp_step. unfold ok. rewrite bool_decide_false by done. by split_and!.
  - intros acc d2 (-> & Hw2 & Hk & tbl' & Ht' & Hp). split_and!; [done|done|]. intros _. unfold snapshots_at.
    rewrite Ht'. by apply Permutation_nil_l, eq_sym, map_eq_nil in Hp.
  - apply Hw1.
  - intros rows Hp. split_and!; [done|done|by apply others_kept_unchanged|]. exists tbl. by rewrite (Hu _).
Qed.

(** ** A DTC with its events and snapshots *)
Definition suppressed d (c : Z) : Prop := dao_flag env de_suppression 0 d c <> 0.
Record dtc_cleared d (c : Z) : Prop := {
  cleared_dtc : dao_dtc d c = (0, 0);
  cleared_flags r : row_at d dtc_entity (s32 c) = Some r -> cleared_row r;
  cleared_events : Forall (zeroed d) (events_of c);
  cleared_snapshots : snapshots_at d (s32 c) = [] }.
Definition other_dtcs_kept d d' (c : Z) : Prop :=
  forall c', dtc_code c' -> c' <> c -> row_at d' dtc_entity (s32 c') = row_at d dtc_entity (s32 c').
Lemma other_dtcs_trans d1 d2 d3 c : other_dtcs_kept d1 d2 c -> other_dtcs_kept d2 d3 c -> other_dtcs_kept d1 d3 c.
Proof. intros H1 H2 c' Hc Hne. by rewrite H2, H1. Qed.
Lemma other_dtcs_table d d' c : tab d' dtc_entity = tab d dtc_entity -> other_dtcs_kept d d' c.
Proof. intros H c' _ _. unfold row_at. by rewrite H. Qed.

Lemma wp_DeleteData c d : well_formed d -> dtc_code c ->
  wp (DeleteData env c) (fun r d' => well_formed d' /\ quiet d d' /\ other_dtcs_kept d d' c /\
    (suppressed d c -> r = LE_UNAVAILABLE /\ unchanged d d') /\
    (r = LE_OK -> dtc_cleared d' c)) d.
Proof.
  intros Hw Hc. pose proof (code_key c Hc) as Hk. unfold DeleteData. wp_step.
  eapply wp_conseq; [by apply wp_GetSuppression|]. intros v d1 (Hv & Hs & Hu). cbv beta.
  pose proof (wf_unchanged _ _ Hw Hs Hu) as Hw1. unfold suppressed. rewrite <- Hv.
  pose proof (other_dtcs_table d d1 c (Hu _)) as Ho1. pose proof (quiet_unchanged _ _ Hu) as Hq1.
  destruct (v =? 0) eqn:Hv0; cbn [negb]; [apply Z.eqb_eq in Hv0|wp_step; by split_and!].
  wp_step. eapply wp_conseq; [by apply wp_ClearDtcRecord|]. intros r d2 (Hw2 & Hq2 & Ht2 & Hz2). cbv beta.
  pose proof (quiet_trans _ _ _ Hq1 Hq2) as Hq12.
  assert (other_dtcs_kept d d2 c) as Ho2.
  { eapply other_dtcs_trans; [done|]. intros c' Hc' Hne. apply Ht2. intros He. by apply Hne, code_inj. }
  unfold ok at 1. case_bool_decide as Hr; cbn [negb]; [|wp_step; by split_and!]. specialize (Hz2 Hr).
  wp_step. eapply wp_conseq; [by apply wp_clear_events_of|]. intros r' d3 (Hw3 & Hq3 & Ht3 & _ & He3). cbv beta.
  pose proof (quiet_trans _ _ _ Hq12 Hq3) as Hq13.
  assert (forall d, tab d dtc_entity = tab d2 dtc_entity -> row_at d dtc_entity (s32 c) = row_at d2 dtc_entity (s32 c) /\
    forall d0, other_dtcs_kept d0 d2 c -> other_dtcs_kept d0 d c) as Hsame.
  { intros d0 H0. split; [unfold row_at; by rewrite H0|]. intros d4 H4. eapply other_dtcs_trans; [done|].
    by apply other_dtcs_table. }
  assert (other_dtcs_kept d d3 c) as Ho3 by (by apply (Hsame d3 (Ht3 dtc_entity ltac:(done)))).
  unfold ok at 1. case_bool_decide as Hr'; cbn [negb]; [|wp_step; by split_and!]. specialize (He3 Hr').
  wp_step. eapply wp_conseq; [by apply wp_ClearFFRecordByDtc|]. intros r'' d4 (Hw4 & [Ht4 _] & Hz4). cbv beta.
  destruct (Hsame d4) as [Hrow4 Ho4]; [by rewrite Ht4, Ht3|].
  assert (quiet d d4) as Hq4 by (eapply quiet_trans; [exact Hq13|by apply quiet_tables; apply Ht4]).
  unfold ok at 1. case_bool_decide as Hr''; cbn [negb]; wp_step; (split_and!; [done|done|by apply Ho4|done|]); [|done].
  intros _. split.
  - rewrite dao_dtc_at, Hrow4. destruct (row_at d2 dtc_entity (s32 c)); [by apply Hz2|done].
  - intros row. rewrite Hrow4. apply Hz2.
  - eapply Forall_impl; [exact He3|]. intros id Hid row. unfold row_at. rewrite Ht4 by done. apply Hid.
  - by apply Hz4.
Qed.

(** ** All DTCs *)
Lemma s32_u32 k : is_int32 k -> s32 (u32 k) = k.
Proof.
  intros Hk. unfold s32, is_int32 in *. assert (u32 k = k mod 0x100000000) as -> by done.
  rewrite Zplus_mod_idemp_l, Z.mod_small; lia.
Qed.
Lemma key_code k : key_ok k -> dtc_code (u32 k).
Proof.
  intros [Hk Hne]. unfold dtc_code. assert (u32 k <> 0xFFFFFFFF) as H.
  { intros H. apply Hne. rewrite <- (s32_u32 k Hk), H. done. }
  pose proof (wrap_in_width 32 k ltac:(lia)) as Hw. unfold in_width in Hw. lia.
Qed.
Definition zero_dtc d (c : Z) : Prop := dao_dtc d c = (0, 0).
Lemma wp_delete_each ks d : well_formed d -> Forall key_ok ks ->
  wp (delete_each env ks) (fun r d' => well_formed d' /\ quiet d d' /\
    (forall c, dtc_code c -> s32 c ∉ ks -> row_at d' dtc_entity (s32 c) = row_at d dtc_entity (s32 c)) /\
    (r = LE_OK -> forall c, dtc_code c -> s32 c ∈ ks \/ zero_dtc d c -> zero_dtc d' c)) d.
Proof.
  revert d. induction ks as [|k ks IH]; intros d Hw Hks; cbn [delete_each].
  { wp_step. split_and!; [done|by apply quiet_unchanged|done|]. intros _ c _ [Hin|Hz]; [by apply elem_of_nil in Hin|done]. }
  apply Forall_cons in Hks as [Hk Hks]. wp_step.
  eapply wp_conseq; [by apply wp_DeleteData, key_code|]. intros r d1 (Hw1 & Hq1 & Ho & _ & Hc1). cbv beta.
  assert (forall c, dtc_code c -> s32 c <> k -> row_at d1 dtc_entity (s32 c) = row_at d dtc_entity (s32 c)) as Hrow.
  { intros c Hc Hne. apply Ho; [done|]. intros ->. apply Hne. apply s32_u32, Hk. }
  unfold ok. case_bool_decide as Hr.
  - eapply wp_conseq; [by apply IH|]. intros r' d2 (Hw2 & Hq2 & H2 & H3). split_and!; [done|by eapply quiet_trans| |].
    + intros c Hc Hin. apply not_elem_of_cons in Hin as [Hne Hin]. rewrite H2 by done. by apply Hrow.
    + intros Hr' c Hc Hin. apply H3; [done..|]. destruct (decide (s32 c = k)) as [He|He].
      * right. unfold zero_dtc. rewrite <- (code_inj (u32 k) c); [by apply Hc1|by apply key_code|done|].
        by rewrite s32_u32 by apply Hk.
      * destruct Hin as [Hin|Hz]; [left; by apply elem_of_cons in Hin as [|]|right].
        unfold zero_dtc. by rewrite (dao_dtc_row d d1) by (by apply Hrow).
  - wp_step. split_and!; [done|done| |done]. intros c Hc [Hne _]%not_elem_of_cons. by apply Hrow.
Qed.

(** The keys of the DTCs that are not suppressed. *)
Lemma foldl_snoc {A B} (f : A -> B) (l : list A) acc : foldl (fun acc x => acc ++ [f x]) acc l = acc ++ map f l.
Proof. revert acc. induction l as [|x l IH]; intros acc; cbn; [by rewrite app_nil_r|]. by rewrite IH, <- app_assoc. Qed.
Lemma wp_GetDTCWithUnsuppress d tbl (Q : list Z -> Dao E -> Prop) : well_formed d -> tab d dtc_entity = Some tbl ->
  (forall ks d', sane d d' -> unchanged d d' -> (forall k, k ∈ ks <-> exists r, tbl !! k = Some r /\
     cell r "Suppression" = VInt 0) -> Q ks d') ->
  wp DtcEntityDao.GetDTCWithUnsuppress Q d.
Proof.
  intros Hw Ht HQ. destruct (wf_table d Hw dtc_entity) as (tbl0 & Ht0 & Hok). rewrite Ht in Ht0. injection Ht0 as <-.
  unfold DtcEntityDao.GetDTCWithUnsuppress, Query. wp_step.
  apply wp_open; [apply Hw|by apply wf_complete|done|]. intros st d1 Hst Hs Hu. cbv beta.
  eapply (wp_read_rows (fun acc row => acc ++ [int_of (col row 0)]) _ dtc_entity);
    [| |exact Hst|by rewrite (Hu _)|apply Hs|]; [done|done|].
  intros rows d2 Hp Hs2 Hu2. merge. apply HQ; [done|done|]. intros k.
  rewrite (foldl_snoc (fun row => int_of (col row 0))), Hp. cbn [app answer]. rewrite map_map.
  assert (forall id r, tbl !! id = Some r -> int_of (col (read_row (columnList DtcEntity) r) 0) = id) as Hid.
  { intros id r Hr. change (int_of (cell r "DTC") = id). destruct (proj1 Hok _ _ Hr) as [Hcell Hk]. cbn in Hcell.
    rewrite Hcell. by apply s32_id, Hk. }
  assert (forall r, holds (ColIs "Suppression" 0) r = true <-> cell r "Suppression" = VInt 0) as Hh.
  { intros r. cbn. destruct (cell r "Suppression"); try done. rewrite Z.eqb_eq. split; congruence. }
  split.
  - intros (r & -> & (H0 & id & Hr)%elem_of_rows)%list_elem_of_fmap. exists r. split; [|by apply Hh].
    by rewrite (Hid id r Hr).
  - intros (r & Hr & H0). apply list_elem_of_fmap. exists r. split; [by rewrite (Hid k r Hr)|].
    apply elem_of_rows. split; [by apply Hh|eauto].
Qed.
Lemma wp_DeleteAllData d : well_formed d ->
  wp (DeleteAllData env) (fun r d' => well_formed d' /\ quiet d d' /\
    (forall c row, dtc_code c -> row_at d dtc_entity (s32 c) = Some row -> cell row "Suppression" = VInt 1 ->
       row_at d' dtc_entity (s32 c) = Some row) /\
    (r = LE_OK -> forall c row, dtc_code c -> row_at d dtc_entity (s32 c) = Some row ->
       cell row "Suppression" = VInt 0 -> zero_dtc d' c)) d.
Proof.
  intros Hw. destruct (wf_table d Hw dtc_entity) as (tbl & Ht & Hok). unfold DeleteAllData. wp_step.
  eapply wp_GetDTCWithUnsuppress; [done|exact Ht|]. intros ks d1 Hs Hu Hks.
  pose proof (wf_unchanged _ _ Hw Hs Hu) as Hw1.
  assert (forall k r, row_at d dtc_entity k = Some r -> tbl !! k = Some r) as Hrow.
  { intros k r. unfold row_at. by rewrite Ht. }
  eapply wp_conseq; [apply wp_delete_each; [done|]|].
  - apply Forall_forall. intros k (r & Hr & _)%Hks. by apply (proj1 Hok _ _ Hr).
  - intros r d2 (Hw2 & Hq2 & H2 & H3).
    split_and!; [done|eapply quiet_trans; [by apply quiet_unchanged|done]| |].
    + intros c row Hc Hr Hcell. rewrite H2, (row_at_unchanged _ _ _ _ Hu); [done..|].
      intros (r' & Hr' & Hcell')%Hks. rewrite (Hrow _ _ Hr) in Hr'. congruence.
    + intros Hr c row Hc Hr' Hcell. apply H3; [done..|]. left. apply Hks. exists row. split; [by apply Hrow|done].
Qed.
End Clear.
