(* ===== verification/DaoReports.v ===== *)
(** * The data base of the diagnostic events: what is reported

    The status of an event and of a DTC read back, the DTCs that match a mask, their number, and
    the supported DTCs. *)
From S2P Require Import Prelude DiagCfg DemTypes DemInit DaoTypes DaoSql DaoEntities DaoSpec DaoRules DaoDem.
From S2P Require Import DaoStore DaoEvents DaoClear.

(** ** Low bytes *)
Lemma u8_land z : u8 z = Z.land z 0xFF.
Proof. change 0xFF with (Z.ones 8). by rewrite Z.land_ones by lia. Qed.
Lemma testbit_wrap n z i : 0 <= i < n -> Z.testbit (wrap n z) i = Z.testbit z i.
Proof. intros Hi. unfold wrap. apply Z.mod_pow2_bits_low. lia. Qed.
Lemma testbit_s32 z i : 0 <= i < 31 -> Z.testbit (s32 z) i = Z.testbit z i.
Proof.
  intros Hi. assert (u32 (s32 z) = u32 z) as H.
  { unfold s32, wrap. change (2 ^ 32) with 0x100000000.
    rewrite Zminus_mod_idemp_l. f_equal. lia. }
  rewrite <- (testbit_wrap 32 (s32 z)), <- (testbit_wrap 32 z) by lia. by f_equal.
Qed.
Lemma u8_s32 z : u8 (s32 z) = u8 z.
Proof.
  apply Z.bits_inj'. intros i Hi. rewrite !u8_land, !Z.land_spec.
  destruct (Z.lt_ge_cases i 8); [by rewrite testbit_s32 by lia|].
  change 0xFF with (Z.ones 8). by rewrite Z.ones_spec_high, !andb_false_r by lia.
Qed.
Lemma land_s32_byte z m : is_byte m -> Z.land z m = Z.land (Z.land (s32 z) 0xFF) m.
Proof.
  intros Hm. rewrite <- Z.land_assoc. assert (Z.land 0xFF m = m) as ->.
  { rewrite Z.land_comm. change 0xFF with (Z.ones 8). rewrite Z.land_ones by lia. apply Z.mod_small.
    unfold in_width in Hm. lia. }
  apply Z.bits_inj'. intros i Hi. rewrite !Z.land_spec. destruct (Z.lt_ge_cases i 8).
  - by rewrite testbit_s32 by lia.
  - assert (Z.testbit m i = false) as ->; [|by rewrite !andb_false_r].
    rewrite <- (Z.mod_small m (2 ^ 8)) by (unfold in_width in Hm; lia). apply Z.mod_pow2_bits_high. lia.
Qed.

Section Reports.
Context {E : Type} `{!Sqlite E} `{!SqliteLaws E} `{!SteadyReads E}.
Variable env : DaoEnv.
Implicit Types d : Dao E.

(** ** The status of an event *)
Lemma foldl_or rows acc : foldl (fun acc row => Z.lor acc (u32 (int_of (col row 3)))) acc
    (map (read_row (columnList EventEntity)) rows) = Z.lor acc (or_status rows).
Proof.
  revert acc. induction rows as [|r rows IH]; intros acc; [by rewrite Z.lor_0_r|]. cbn [map foldl].
  rewrite IH, <- Z.lor_assoc. done.
Qed.
Lemma foldl_or_perm l l' acc : l ≡ₚ l' ->
  foldl (fun acc row => Z.lor acc (u32 (int_of (col row 3)))) acc l =
  foldl (fun acc row => Z.lor acc (u32 (int_of (col row 3)))) acc l'.
Proof.
  intros H. revert acc. induction H; intros acc; cbn; [done|done| |by rewrite IHPermutation1].
  f_equal. rewrite <- !Z.lor_assoc. f_equal. apply Z.lor_comm.
Qed.
Lemma wp_GetEventStatusByName n d : well_formed d -> quote_free n ->
  wp (GetEventStatusByName n) (fun v d' => v = dao_event d n /\ sane d d' /\ unchanged d d') d.
Proof.
  intros Hw Hn. destruct (wf_table d Hw event_entity) as (tbl & Ht & Hok).
  unfold GetEventStatusByName, EventEntityDao.ReadEventStatusByName, EventEntityDao.find_name, Query. do 2 wp_step.
  apply wp_open; [apply Hw|by apply wf_complete|apply Hn|]. intros st d1 Hst Hs Hu. cbv beta. wp_step.
  eapply (wp_read_rows (fun acc row => Z.lor acc (u32 (int_of (col row 3)))) _ event_entity);
    [| |exact Hst|by rewrite (Hu _)|apply Hs|]; [done|apply Hn|].
  intros rows d2 Hp Hs2 Hu2. merge. wp_step. wp_step. split_and!; [|done|done].
  rewrite (foldl_or_perm _ _ _ Hp). cbn [answer]. fold (rows_named n tbl).
  change (map (read_row (columnList EventEntity)) (rows_where (Some (ColText "Event_Name" n)) tbl))
    with (map (read_row (columnList EventEntity)) (rows_named n tbl)).
  rewrite foldl_or, Z.lor_0_l, u8_s32. unfold dao_event. by rewrite Ht.
Qed.

(** ** The DTCs that match a mask *)
Definition by_mask (m : Z) : Where := Both (ColMask "Status" m) DtcEntityDao.not_suppressed.
Definition shown d (c : Z) : Prop :=
  exists row, row_at d dtc_entity (s32 c) = Some row /\ cell row "Suppression" = VInt 0.
Definition matching d (m : Z) : list Row :=
  match tab d dtc_entity with Some tbl => rows_where (Some (by_mask m)) tbl | None => [] end.
Definition reported_of (row : Row) : taf_DataAccess_DTCStatus_t :=
  mkDTCStatus (u32 (int_of (cell row "DTC"))) (u8 (int_of (cell row "Status"))).

Lemma wp_ReadDtcByStatus m (Q : list taf_DataAccess_DTCStatus_t -> Dao E -> Prop) d : well_formed d ->
  (forall l d', l ≡ₚ map reported_of (matching d m) -> sane d d' -> unchanged d d' -> Q l d') ->
  wp (DtcEntityDao.ReadDtcByStatus m) Q d.
Proof.
  intros Hw HQ. destruct (wf_table d Hw dtc_entity) as (tbl & Ht & Hok).
  unfold DtcEntityDao.ReadDtcByStatus, Query. wp_step.
  apply wp_open; [apply Hw|by apply wf_complete|done|]. intros st d1 Hst Hs Hu. cbv beta.
  eapply (wp_read_rows (fun acc row => acc ++ [mkDTCStatus (u32 (int_of (col row 0))) (u8 (int_of (col row 1)))])
    _ dtc_entity); [| |exact Hst|by rewrite (Hu _)|apply Hs|]; [done|done|].
  intros rows d2 Hp Hs2 Hu2. merge. apply HQ; [|done|done].
  rewrite (foldl_snoc (fun row => mkDTCStatus (u32 (int_of (col row 0))) (u8 (int_of (col row 1))))), Hp.
  cbn [app answer]. rewrite map_map. unfold matching. by rewrite Ht.
Qed.
Lemma wp_ReadDtcCount m (Q : Z -> Dao E -> Prop) d : well_formed d ->
  (forall d', sane d d' -> unchanged d d' -> Q (s32 (Z.of_nat (length (matching d m)))) d') ->
  wp (DtcEntityDao.ReadDtcCountByStatusWithSuppress m) Q d.
Proof.
  intros Hw HQ. destruct (wf_table d Hw dtc_entity) as (tbl & Ht & Hok).
  eapply wp_read_count; [apply Hw|by apply wf_complete|done|exact Ht|]. intros d' Hs Hu.
  specialize (HQ d' Hs Hu). unfold matching in HQ. by rewrite Ht in HQ.
Qed.

(** A row matches when its DTC is not suppressed and its status has a bit of the mask. *)
Lemma holds_by_mask m row b : is_byte m -> cell row "Suppression" = VInt b -> flag b ->
  holds (by_mask m) row = true <-> b = 0 /\ Z.land (dtc_cells row).1 m <> 0.
Proof.
  intros Hm Hb Hf. unfold by_mask, DtcEntityDao.not_suppressed, dtc_cells. cbn [holds fst]. rewrite Hb, andb_true_iff.
  assert (negb (b =? 1) = true <-> b = 0) as -> by (destruct Hf as [-> | ->]; by split).
  assert (forall A B C : Prop, (A <-> C) -> (A /\ B <-> B /\ C)) as Hand by tauto. apply Hand.
  destruct (cell row "Status") as [|v|t|bl]; cbn [int_of]; try (rewrite Z.land_0_l; split; [done|by intros []]).
  rewrite negb_true_iff, Z.eqb_neq. by rewrite (land_s32_byte v m).
Qed.
Lemma elem_of_reported d m c v : well_formed d -> is_byte m ->
  mkDTCStatus c v ∈ map reported_of (matching d m) <->
  dtc_code c /\ shown d c /\ v = (dao_dtc d c).1 /\ Z.land v m <> 0.
Proof.
  intros Hw Hm. destruct (wf_table d Hw dtc_entity) as (tbl & Ht & Hok). unfold matching, shown. rewrite Ht.
  assert (forall c row, row_at d dtc_entity (s32 c) = Some row <-> tbl !! s32 c = Some row) as Hat
    by (intros c' row; unfold row_at; by rewrite Ht).
  assert (forall id row, tbl !! id = Some row -> key_ok id /\ u32 (int_of (cell row "DTC")) = u32 id) as Hkey.
  { intros id row Hrow. destruct (proj1 Hok _ _ Hrow) as [Hcell Hk]. cbn in Hcell. split; [done|].
    by rewrite Hcell; cbn [int_of]; rewrite s32_id by apply Hk. }
  split.
  - intros (row & Heq & (Hh & id & Hrow)%elem_of_rows)%list_elem_of_fmap. injection Heq as Hc Hv.
    destruct (Hkey _ _ Hrow) as [Hk Hu]. rewrite Hu in Hc. subst c.
    destruct (proj2 Hok _ _ Hrow) as (b & Hb & Hf). apply (holds_by_mask m row b Hm Hb Hf) in Hh as [-> Hland].
    assert (s32 (u32 id) = id) as Hid by apply s32_u32, Hk. rewrite dao_dtc_at, Hid. unfold row_at. rewrite Ht. cbn.
    rewrite Hrow. assert (v = (dtc_cells row).1) as -> by (subst v; apply u8_land).
    split_and!; [by apply key_code| |done|done]. by exists row.
  - intros (Hc & (row & Hrow & Hb) & -> & Hland). rewrite dao_dtc_at, Hrow in Hland |- *. cbn [fmap option_fmap option_map default] in *.
    apply Hat in Hrow. apply list_elem_of_fmap. exists row. destruct (Hkey _ _ Hrow) as [Hk Hu]. split.
    + unfold reported_of. f_equal; [|by rewrite u8_land]. rewrite Hu. unfold dtc_code in Hc.
      apply code_inj; [done|by apply key_code|by rewrite s32_u32 by apply Hk].
    + apply elem_of_rows. split; [|eauto]. apply (holds_by_mask m row 0); [done|done|by left|done].
Qed.

(** ** The supported DTCs: those of the configuration that are not suppressed *)
Definition supported_entry d (code : Z) : option taf_DataAccess_DTCStatus_t :=
  if dao_flag env de_suppression 0 d code =? 0
  then Some (mkDTCStatus code (u8 (Z.land (dao_dtc d code).1 GetAvailableStatusMask))) else None.
Lemma wp_ReadStatus code d (Q : le_result_t * DtcEntity -> Dao E -> Prop) : well_formed d -> dtc_code code ->
  (forall q d', sane d d' -> unchanged d d' ->
     Z.land (if ok q.1 then de_status q.2 else 0) 0xFF = (dao_dtc d code).1 ->
     ok q.1 && negb (de_suppression q.2 =? 0) = negb (dao_flag env de_suppression 0 d code =? 0) -> Q q d') ->
  wp (DtcEntityDao.ReadStatusByDtc env (s32 code)) Q d.
Proof.
  intros Hw Hc HQ. destruct (wf_table d Hw dtc_entity) as (tbl & Ht & Hok).
  unfold DtcEntityDao.ReadStatusByDtc. eapply wp_find; [done|by apply code_key|exact Ht|]. intros d' Hs Hu.
  unfold dao_flag in HQ. rewrite dao_dtc_at in HQ. unfold row_at in HQ. rewrite Ht in HQ. cbn in HQ.
  destruct (tbl !! s32 code) as [row|] eqn:Hrow; apply HQ; try done.
  cbn [fst snd]. change (ok LE_OK) with true. cbn [andb].
  change (int_of (cell row "Suppression")) with (de_suppression (dtc_of env row)).
  by destruct (flag_of env _ row tbl (proj2 Hok) Hrow) as [-> | ->].
Qed.
Lemma land_mask z : u8 (Z.land z GetAvailableStatusMask) = u8 (Z.land (Z.land z 0xFF) GetAvailableStatusMask).
Proof. by rewrite <- Z.land_assoc. Qed.
Lemma wp_supported codes acc d : well_formed d -> Forall (fun code => dtc_code (u32 code)) codes ->
  wp (supported env codes acc) (fun l d' => l = acc ++ omap (fun code => supported_entry d (u32 code)) codes /\
    sane d d' /\ unchanged d d') d.
Proof.
  intros Hw Hc. cut (forall d', sane d d' -> unchanged d d' ->
    wp (supported env codes acc) (fun l d'' => l = acc ++ omap (fun code => supported_entry d (u32 code)) codes /\
      sane d d'' /\ unchanged d d'') d').
  { intros H. apply H; [split; [apply Hw|done]|done]. }
  revert acc. induction Hc as [|code codes Hcode Hc IH]; intros acc d' Hs Hu; cbn [supported].
  { wp_step. by rewrite app_nil_r. }
  wp_step. apply wp_ReadStatus; [by eapply wf_unchanged|done|]. intros q d2 Hs2 Hu2 Hv Hf. cbv zeta.
  assert (dao_flag env de_suppression 0 d' (u32 code) = dao_flag env de_suppression 0 d (u32 code)) as He
    by (unfold dao_flag; by rewrite Hu).
  rewrite (dao_dtc_unchanged d d' _ (Hu _)) in Hv. rewrite He in Hf. rewrite Hf. merge. cbn [omap list_omap].
  unfold supported_entry at 1. destruct (dao_flag env de_suppression 0 d (u32 code) =? 0); cbn [negb]; [|by apply IH].
  rewrite land_mask, Hv. eapply wp_conseq; [by apply IH|]. intros l d3 (-> & H3). by rewrite <- app_assoc.
Qed.
End Reports.
