(* ===== verification/DaoSnapshots.v ===== *)
(** * The data base of the diagnostic events: snapshots

    Storing the DIDs of a record keeps the data base well-formed and touches the table of the
    snapshots only; how often a DID that is stored with an earlier one of its call fails; and
    what is read of a record. *)
From S2P Require Import Prelude DiagCfg DemTypes DemInit DaoTypes DaoSql DaoEntities DaoSpec DaoRules DaoDem.
From S2P Require Import DaoStore DaoEvents DaoClear.

Section Snapshots.
Context {E : Type} `{!Sqlite E} `{!SqliteLaws E} `{!SteadyReads E}.
Variable env : DaoEnv.
Implicit Types d : Dao E.
Implicit Types x : SnapshotEntity.

Definition only_snapshots d d' : Prop := forall t, t <> snapshot_entity -> tab d' t = tab d t.
Lemma only_unchanged d d' : unchanged d d' -> only_snapshots d d'.
Proof. by intros H t _. Qed.
Lemma only_trans d1 d2 d3 : only_snapshots d1 d2 -> only_snapshots d2 d3 -> only_snapshots d1 d3.
Proof. intros H1 H2 t Ht. by rewrite H2, H1. Qed.
Lemma only_set d d' tbl : set_table d d' snapshot_entity tbl -> only_snapshots d d'.
Proof. by intros []. Qed.

(** ** One row *)
Lemma snapshot_id_cell x : cell (row_of env x) "ID" = opt_int (se_id x).
Proof. by rewrite snapshot_row. Qed.
Lemma snapshot_new_cell id x : cell (set_cell "ID" (VInt id) (row_of env x)) "ID" = VInt id.
Proof. by rewrite snapshot_row. Qed.
Lemma snapshot_table_put tbl id r : table_ok snapshot_entity tbl -> key_ok id -> cell r "ID" = VInt id ->
  table_ok snapshot_entity (<[id := r]> tbl).
Proof.
  intros [Hk _] Hid Hr. split; [|done]. intros i r'. rewrite lookup_insert_Some.
  intros [[<- <-]|[_ Hi]]; [done|by apply Hk].
Qed.

(** An entity without a key is given one; one that has a key keeps it. *)
Definition id_ok x : Prop := se_id x = -1 \/ key_ok (se_id x).
Definition new_snapshot (id : Z) x : Row := set_cell "ID" (VInt id) (row_of env x).
Definition added x d d' : Prop := exists tbl id, tab d snapshot_entity = Some tbl /\ tbl !! id = None /\
  (key_ok (se_id x) -> id = se_id x) /\ set_table d d' snapshot_entity (<[id := new_snapshot id x]> tbl).
Lemma added_only x d d' : added x d d' -> only_snapshots d d'.
Proof. intros (tbl & id & _ & _ & _ & H). by eapply only_set. Qed.
Lemma added_fresh x d d' : added x d d' -> key_ok (se_id x) -> row_at d snapshot_entity (se_id x) = None.
Proof. intros (tbl & id & Ht & Hid & Hsame & _) Hk. rewrite <- (Hsame Hk). unfold row_at. by rewrite Ht. Qed.
Lemma wp_AddSnapshot x d : well_formed d -> id_ok x ->
  wp (Add env x) (fun r d' => well_formed d' /\ if ok r then added x d d' else unchanged d d') d.
Proof.
  intros Hw Hx. destruct (wf_table d Hw snapshot_entity) as (tbl & Ht & Hok).
  apply wp_Add; [apply Hw| |]; intros d' Hs Hdone; [|split; [by eapply wf_unchanged|done]].
  edestruct (done_from (X := SnapshotEntity) d d d' snapshot_entity) as (tbl' & Hins & Hset);
    [done|done|exact Hdone|exact Ht|]. destruct Hins as (id & Hid & Hkid & ->).
  cbn [GetKey snapshot_dao] in Hkid. unfold opt_int in Hkid.
  assert (key_ok id /\ (key_ok (se_id x) -> id = se_id x)) as [Hk Hsame].
  { destruct Hx as [Hx|Hx].
    - rewrite Hx in Hkid |- *. cbn in Hkid. split; [unfold key_ok, is_int32; lia|]. by intros [_ []].
    - rewrite (proj2 (Z.eqb_neq _ _) (proj2 Hx)) in Hkid. cbn in Hkid. by subst id. }
  split; [|by exists tbl, id]. eapply wf_set; [done|done|exact Hset|]. by apply snapshot_table_put, snapshot_new_cell.
Qed.

(** A row takes the values of an entity: rows stay, and no row has other new values. *)
Record rewritten x d d' : Prop := {
  rewritten_only : only_snapshots d d';
  rewritten_stays id : is_Some (row_at d snapshot_entity id) -> is_Some (row_at d' snapshot_entity id);
  rewritten_row id r : row_at d' snapshot_entity id = Some r ->
    r = row_of env x \/ row_at d snapshot_entity id = Some r }.
Lemma rewritten_unchanged x d d' : unchanged d d' -> rewritten x d d'.
Proof. intros H. split; [by apply only_unchanged|..]; intros id; rewrite (row_at_unchanged _ _ _ _ H); auto. Qed.
Lemma rewritten_trans x d1 d2 d3 : rewritten x d1 d2 -> rewritten x d2 d3 -> rewritten x d1 d3.
Proof.
  intros [H1 H2 H3] [H4 H5 H6]. split; [by eapply only_trans|auto|].
  intros id r [H|H]%H6; [by left|by apply H3].
Qed.
Lemma wp_UpdateSnapshot x d : well_formed d -> key_ok (se_id x) ->
  wp (DaoSql.Update env x) (fun _ d' => well_formed d' /\ rewritten x d d') d.
Proof.
  intros Hw Hx. destruct (wf_table d Hw snapshot_entity) as (tbl & Ht & Hok).
  apply wp_Update; [apply Hw|apply Hx| |]; intros d' Hs Hdone;
    [|split; [by eapply wf_unchanged|by apply rewritten_unchanged]].
  edestruct (done_from (X := SnapshotEntity) d d d' snapshot_entity) as (tbl' & Hup & Hset);
    [done|done|exact Hdone|exact Ht|]. unfold updated in Hup. change (GetKey x) with (se_id x) in Hup. subst tbl'.
  split; [eapply wf_set; [done|done|exact Hset|]|split; [by eapply only_set|..]].
  - destruct (tbl !! se_id x) as [r|] eqn:Hr.
    + rewrite (alter_const _ _ _ r) by done. apply snapshot_table_put; [done|done|].
      rewrite snapshot_id_cell. unfold opt_int. by rewrite (proj2 (Z.eqb_neq _ _) (proj2 Hx)).
    + by rewrite alter_id by (intros y Hy; congruence).
  - intros id. unfold row_at. rewrite Ht, (proj1 Hset). cbn. intros Hid. by apply lookup_alter_is_Some.
  - intros id r. unfold row_at. rewrite Ht, (proj1 Hset). cbn. intros [(<- & y & _ & ->)|[_ Hr]]%lookup_alter_Some; auto.
Qed.

(** ** The DIDs of a record *)
Definition of_did (dtc rn did : Z) : Where := Both (SnapshotEntityDao.of_record dtc rn) (ColIs "DID" did).
Definition nothing d (w : Where) : Prop :=
  forall id r, row_at d snapshot_entity id = Some r -> holds w r = false.
Lemma nothing_rows d w tbl : tab d snapshot_entity = Some tbl -> nothing d w <-> rows_where (Some w) tbl = [].
Proof.
  intros Ht. unfold nothing, row_at. rewrite Ht. split.
  - intros H. destruct (rows_where (Some w) tbl) as [|r rows] eqn:Hrows; [done|].
    assert (r ∈ rows_where (Some w) tbl) as (Hh & id & Hid)%elem_of_rows by (rewrite Hrows; left).
    rewrite (H id r) in Hh; done.
  - intros H id r Hr. destruct (holds w r) eqn:Hh; [|done].
    assert (r ∈ rows_where (Some w) tbl) as Hin by (apply elem_of_rows; eauto). rewrite H in Hin.
    by apply elem_of_nil in Hin.
Qed.

(** The further rows of a DID are not read: the entity of the first is written again. *)
Lemma wp_update_again q b more st x d0 d : well_formed d -> table_of q = Some snapshot_entity ->
  running q b more st -> key_ok (se_id x) -> rewritten x d0 d ->
  wp (each_row st tt (fun _ _ => DaoSql.Update env x;; mret (tt, true)))
    (fun _ d' => well_formed d' /\ rewritten x d0 d') d.
Proof.
  intros Hw Hq Hst Hx H0.
  eapply (wp_more_rows q snapshot_entity b _ (fun _ _ d' => well_formed d' /\ rewritten x d0 d'));
    [done| | | |done|exact Hst|done].
  - intros _ _ d' [Hw' _]. split; [apply Hw'|]. by apply wf_complete.
  - intros _ _ d1 d2 [H1 H2] Hs Hu. split; [by eapply wf_unchanged|by eapply rewritten_trans, rewritten_unchanged].
  - intros _ _ _ d1 [H1 H2]. wp_step. eapply wp_conseq; [by apply wp_UpdateSnapshot|].
    intros _ d2 [H3 H4]. cbv beta. wp_step. cbn. split; [done|by eapply rewritten_trans].
Qed.

(** The entity with the values of a DID. *)
Definition filled x (dtc rn : Z) (i : taf_DataAccess_DIDInfo_t) : SnapshotEntity :=
  (SetDidValue (x <| se_dtc := dtc |> <| se_did := di_did i |>) (di_val i)) <| se_record := rn |>.
Lemma filled_members x dtc rn i :
  se_id (filled x dtc rn i) = se_id x /\ se_did (filled x dtc rn i) = di_did i.
Proof. unfold filled, SetDidValue. by destruct (di_val i). Qed.
Definition stamped (t : Z) x : SnapshotEntity := x <| se_create := t |> <| se_update := t |>.

(** One DID of the list: it is added, or the row that it has is written again, or the call ends. *)
Lemma wp_did x dtc rn i dids d (Q : le_result_t -> Dao E -> Prop) : well_formed d -> id_ok x ->
  (forall r d', r <> LE_OK -> well_formed d' -> only_snapshots d d' -> Q r d') ->
  (forall t d', nothing d (of_did dtc rn (di_did i)) -> well_formed d' ->
     added (stamped t (filled x dtc rn i)) d d' ->
     wp (SnapshotEntityDao.SetDIDRecord_from env (stamped t (filled x dtc rn i)) dtc rn dids) Q d') ->
  (forall x' d', ~ nothing d (of_did dtc rn (di_did i)) -> well_formed d' -> key_ok (se_id x') ->
     is_Some (row_at d snapshot_entity (se_id x')) -> se_did x' = di_did i -> rewritten x' d d' ->
     wp (SnapshotEntityDao.SetDIDRecord_from env x' dtc rn dids) Q d') ->
  wp (SnapshotEntityDao.SetDIDRecord_from env x dtc rn (i :: dids)) Q d.
Proof.
  intros Hw Hx HQ1 HQ2 HQ3. destruct (wf_table d Hw snapshot_entity) as (tbl & Ht & Hok).
  cbn [SnapshotEntityDao.SetDIDRecord_from]. unfold Query. wp_step.
  apply wp_open; [apply Hw|by apply wf_complete|done|]. intros st d1 Hst Hs Hu. wp_step.
  eapply (wp_first_row _ snapshot_entity); [| |exact Hst|apply Hs|by rewrite (Hu _)| |]; [done|done|..].
  - intros d2 Hs2 Hu2 Ha. cbn [fst snd]. cbv zeta. wp_step. apply wp_now; [|apply Hs2]. intros t d3 Hs3 Hu3. merge.
    cbn [negb]. wp_step. apply map_eq_nil in Ha. fold (filled x dtc rn i). fold (stamped t (filled x dtc rn i)).
    match goal with Hu : unchanged d d3 |- _ => rename Hu into Hu' end.
    match goal with Hs : sane d d3 |- _ => rename Hs into Hs' end.
    eapply wp_conseq; [apply wp_AddSnapshot; [by eapply wf_unchanged|]|].
    { unfold id_ok. cbn [se_id stamped assign set_se_create set_se_update].
      change (se_id (stamped t (filled x dtc rn i))) with (se_id (filled x dtc rn i)).
      by rewrite (proj1 (filled_members x dtc rn i)). }
    intros r d4 [Hw4 Hr]. cbv beta. destruct (ok r) eqn:Hokr.
    + apply HQ2; [by eapply nothing_rows|done|]. destruct Hr as (tbl1 & id & H1 & H2 & H3 & H4).
      exists tbl1, id. split_and!; [by rewrite <- Hu'|done|done|by eapply set_table_after].
    + wp_step. apply HQ1; [by intros ->|done|]. by eapply only_trans; apply only_unchanged.
  - intros row more d2 Hs2 Hu2 Ha. cbn [fst snd]. cbv zeta. wp_step.
    apply wp_now; [|apply Hs2]. intros t d3 Hs3 Hu3. merge. cbn [negb]. wp_step.
    match goal with Hu : unchanged d d3 |- _ => rename Hu into Hu' end.
    match goal with Hs : sane d d3 |- _ => rename Hs into Hs' end.
    cbn [current assign set_current set_rest set_hasRow].
    assert (row ∈ answer tbl (Select snapshot_entity (columnList SnapshotEntity) (Some (of_did dtc rn (di_did i)))) [])
      as Hin by (cbn [mFileName snapshot_dao] in Ha; unfold of_did; rewrite <- Ha; left).
    apply list_elem_of_fmap in Hin as (r0 & -> & Hin).
    assert (~ nothing d (of_did dtc rn (di_did i))) as Hsome.
    { intros Hn. apply (nothing_rows d _ tbl Ht) in Hn. rewrite Hn in Hin. by apply elem_of_nil in Hin. }
    apply elem_of_rows in Hin as (Hh & id & Hid). destruct (proj1 Hok _ _ Hid) as [Hcell Hk]. cbn in Hcell.
    set (y := ReadEntity env (read_row (columnList SnapshotEntity) r0) x). fold (filled y dtc rn i).
    assert (se_id y = id) as Hy by (change (int_of (cell r0 "ID") = id); rewrite Hcell; by apply s32_id, Hk).
    set (x' := (filled y dtc rn i) <| se_update := t |>).
    assert (se_id x' = id /\ se_did x' = di_did i) as [Hx' Hdid].
    { destruct (filled_members y dtc rn i) as [H1 H2]. rewrite <- Hy, <- H1, <- H2. done. }
    eapply wp_conseq; [apply wp_UpdateSnapshot; [by eapply wf_unchanged|by rewrite Hx']|].
    intros r d4 [Hw4 Hr]. cbv beta.
    assert (rewritten x' d d4) as Hr4 by (eapply rewritten_trans; [by apply rewritten_unchanged|done]).
    destruct (ok r) eqn:Hokr; cbn [negb].
    + wp_step. destruct Hst as (Hp1 & _ & Hp3 & Hp4).
      eapply wp_conseq; [eapply (wp_update_again _ _ more _ x' d); [done| |by split_and!|by rewrite Hx'|done]|]; [done|].
      intros _ d5 [Hw5 Hr5]. cbv beta. apply HQ3; [done|done|by rewrite Hx'| |done|done].
      rewrite Hx'. unfold row_at. rewrite Ht. by exists r0.
    + wp_step. apply HQ1; [by intros ->|done|apply Hr4].
Qed.

(** ** The whole list *)
Lemma stamped_id t x : se_id (stamped t x) = se_id x. Proof. done. Qed.
Lemma wp_SetDIDRecord_from x dtc rn dids d : well_formed d -> id_ok x ->
  wp (SnapshotEntityDao.SetDIDRecord_from env x dtc rn dids) (fun _ d' => well_formed d' /\ only_snapshots d d') d.
Proof.
  revert x d. induction dids as [|i dids IH]; intros x d Hw Hx; [cbn [SnapshotEntityDao.SetDIDRecord_from]; by wp_step|]. apply wp_did; [done|done|done|..].
  - intros t d' _ Hw' Ha. eapply wp_conseq; [apply IH; [done|]|].
    + unfold id_ok. rewrite stamped_id. by rewrite (proj1 (filled_members x dtc rn i)).
    + intros r d2 [H1 H2]. split; [done|]. eapply only_trans; [by eapply added_only|done].
  - intros x' d' _ Hw' Hk _ _ Hr. eapply wp_conseq; [apply IH; [done|by right]|].
    intros r d2 [H1 H2]. split; [done|]. eapply only_trans; [apply Hr|done].
Qed.
Lemma wp_SetDIDRecord dtc rn dids d : well_formed d ->
  wp (SnapshotEntityDao.SetDIDRecord env dtc rn dids) (fun _ d' => well_formed d' /\ only_snapshots d d') d.
Proof. intros Hw. apply wp_SetDIDRecord_from; [done|by left]. Qed.

(** A DID that the record has not, after one that it has: the entity still has the key of the
    row of the first, and no second row can be added with it. *)
Lemma holds_other_did x dtc rn did : se_did x <> did -> holds (of_did dtc rn did) (row_of env x) = false.
Proof.
  intros Hne. unfold of_did. cbn [holds]. apply andb_false_intro2. rewrite snapshot_row.
  change (match opt_int (se_did x) with VInt v => v =? did | _ => false end = false).
  unfold opt_int. destruct (se_did x =? -1); [done|by apply Z.eqb_neq].
Qed.
Lemma nothing_rewritten x d d' w : rewritten x d d' -> nothing d w -> holds w (row_of env x) = false -> nothing d' w.
Proof. intros Hr Hn Hw id r [-> |Hid]%(rewritten_row _ _ _ Hr); [done|by eapply Hn]. Qed.
Lemma wp_second_did_fails dtc rn i j dids d : well_formed d ->
  ~ nothing d (of_did dtc rn (di_did i)) -> nothing d (of_did dtc rn (di_did j)) -> di_did i <> di_did j ->
  wp (SnapshotEntityDao.SetDIDRecord env dtc rn (i :: j :: dids)) (fun r _ => r <> LE_OK) d.
Proof.
  intros Hw Hi Hj Hne. apply wp_did; [done|by left|done|by intros|].
  intros x' d' _ Hw' Hk Hrow Hdid Hr. apply (rewritten_stays _ _ _ Hr) in Hrow.
  assert (nothing d' (of_did dtc rn (di_did j))) as Hj'
    by (eapply nothing_rewritten; [done|done|apply holds_other_did; congruence]).
  apply wp_did; [done|by right|done| |by intros].
  intros t d2 _ _ Ha. pose proof (added_fresh _ _ _ Ha) as Hnone. rewrite stamped_id in Hnone.
  rewrite (proj1 (filled_members x' dtc rn j)) in Hnone. destruct Hrow as [r Hrow]. rewrite Hnone in Hrow by done. done.
Qed.

(** ** Storing a new record and reading it *)
Definition did_at (r : Row) : taf_DataAccess_DIDInfo_t :=
  let v := blob_of (cell r "DID_Value") in
  mkDIDInfo (u16 (int_of (cell r "DID"))) (take (Z.to_nat (u16 (Z.of_nat (length v)))) v).
Definition record_rows d (dtc rn : Z) : list Row :=
  match tab d snapshot_entity with
  | Some tbl => rows_where (Some (SnapshotEntityDao.of_record dtc rn)) tbl | None => [] end.
Lemma wp_GetDIDRecord dtc rn (Q : list taf_DataAccess_DIDInfo_t -> Dao E -> Prop) d : well_formed d ->
  (forall l d', l ≡ₚ map did_at (record_rows d dtc rn) -> sane d d' -> unchanged d d' -> Q l d') ->
  wp (SnapshotEntityDao.GetDIDRecord dtc rn) Q d.
Proof.
  intros Hw HQ. destruct (wf_table d Hw snapshot_entity) as (tbl & Ht & Hok).
  unfold SnapshotEntityDao.GetDIDRecord, Query. wp_step.
  apply wp_open; [apply Hw|by apply wf_complete|done|]. intros st d1 Hst Hs Hu. cbv beta.
  eapply (wp_read_rows (fun acc row => acc ++ [mkDIDInfo (u16 (int_of (col row 2)))
    (take (Z.to_nat (u16 (Z.of_nat (length (blob_of (col row 3)))))) (blob_of (col row 3)))]) _ snapshot_entity);
    [| |exact Hst|by rewrite (Hu _)|apply Hs|]; [done|done|].
  intros rows d2 Hp Hs2 Hu2. merge. apply HQ; [|done|done].
  rewrite (foldl_snoc (fun row => mkDIDInfo (u16 (int_of (col row 2)))
    (take (Z.to_nat (u16 (Z.of_nat (length (blob_of (col row 3)))))) (blob_of (col row 3))))), Hp.
  cbn [app answer]. rewrite map_map. unfold record_rows. by rewrite Ht.
Qed.

(** A DID as it is stored: its value is cut to the size of the array of the entity. *)
Definition kept (i : taf_DataAccess_DIDInfo_t) : taf_DataAccess_DIDInfo_t :=
  mkDIDInfo (di_did i) (take (Z.to_nat DATA_ACCESS_DID_DATA_SIZE_MAX) (di_val i)).
Definition storable_did (i : taf_DataAccess_DIDInfo_t) : Prop := in_width 16 (di_did i) /\ di_val i <> [].
Definition number_ok (n : Z) : Prop := n <> -1.

Lemma filled_value x dtc rn i : di_val i <> [] ->
  filled x dtc rn i = mkSnapshotEntity (se_id x) dtc (di_did i) (di_val (kept i)) rn (se_create x) (se_update x).
Proof. unfold filled, SetDidValue, kept. cbn [di_val]. by destruct (di_val i). Qed.
Lemma kept_value i : di_val i <> [] -> opt_blob (di_val (kept i)) = VBlob (di_val (kept i)).
Proof. cbn. by destruct (di_val i). Qed.
Section New.
Variables (dtc rn : Z).
Hypothesis Hdtc : number_ok dtc.
Hypothesis Hrn : number_ok rn.

Lemma new_snapshot_cells x id t i : di_val i <> [] -> let r := new_snapshot id (stamped t (filled x dtc rn i)) in
  cell r "DTC" = VInt dtc /\ cell r "Record_Number" = VInt rn /\ cell r "DID" = opt_int (di_did i) /\
  cell r "DID_Value" = VBlob (di_val (kept i)).
Proof.
  intros Hi r. unfold r, new_snapshot. rewrite filled_value, snapshot_row by done.
  rewrite <- kept_value by done. unfold number_ok in *. cbn. unfold opt_int.
  by rewrite (proj2 (Z.eqb_neq dtc _) Hdtc), (proj2 (Z.eqb_neq rn _) Hrn).
Qed.
Lemma did_at_new x id t i : storable_did i -> did_at (new_snapshot id (stamped t (filled x dtc rn i))) = kept i.
Proof.
  intros [Hd Hv]. destruct (new_snapshot_cells x id t i Hv) as (_ & _ & H1 & H2).
  unfold did_at. rewrite H1, H2. unfold opt_int. unfold in_width in Hd. rewrite (proj2 (Z.eqb_neq _ _)) by lia.
  cbn [int_of blob_of]. rewrite s32_id by (unfold is_int32; lia). rewrite (wrap_id 16 (di_did i)) by done.
  rewrite take_ge; [done|]. rewrite wrap_id, Nat2Z.id; [done|]. unfold in_width. cbn.
  rewrite length_take. lia.
Qed.
Lemma holds_record_new x id t i : di_val i <> [] ->
  holds (SnapshotEntityDao.of_record dtc rn) (new_snapshot id (stamped t (filled x dtc rn i))) = true.
Proof.
  intros Hv. destruct (new_snapshot_cells x id t i Hv) as (H1 & H2 & _). unfold SnapshotEntityDao.of_record. cbn [holds].
  by rewrite H1, H2, !Z.eqb_refl.
Qed.
Lemma other_did_new x id t i j : di_val i <> [] -> di_did i <> di_did j ->
  holds (of_did dtc rn (di_did j)) (new_snapshot id (stamped t (filled x dtc rn i))) = false.
Proof.
  intros Hv Hne. destruct (new_snapshot_cells x id t i Hv) as (_ & _ & H & _). unfold of_did. cbn [holds].
  apply andb_false_intro2. rewrite H. unfold opt_int. destruct (di_did i =? -1); [done|by apply Z.eqb_neq].
Qed.

Lemma wp_new_dids x dids before d : well_formed d -> se_id x = -1 -> Forall storable_did dids ->
  NoDup (di_did <$> dids) -> (forall j, j ∈ dids -> nothing d (of_did dtc rn (di_did j))) ->
  map did_at (record_rows d dtc rn) ≡ₚ map kept before ->
  wp (SnapshotEntityDao.SetDIDRecord_from env x dtc rn dids) (fun r d' => well_formed d' /\
    (r = LE_OK -> map did_at (record_rows d' dtc rn) ≡ₚ map kept (before ++ dids))) d.
Proof.
  revert x before d. induction dids as [|i dids IH]; intros x before d Hw Hx Hst Hnd Hno Hp.
  { cbn [SnapshotEntityDao.SetDIDRecord_from]. wp_step. by rewrite app_nil_r. }
  apply Forall_cons in Hst as [Hi Hst]. rewrite fmap_cons in Hnd. apply NoDup_cons in Hnd as [Hni Hnd].
  apply wp_did; [done|by left|done| |].
  - intros t d' _ Hw' (tbl & id & Ht & Hid & _ & Hset).
    rewrite (app_assoc before [i] dids : before ++ i :: dids = (before ++ [i]) ++ dids).
    apply IH; [done| |done|done| |].
    + rewrite stamped_id. by rewrite (proj1 (filled_members x dtc rn i)).
    + intros j Hj k r. unfold row_at. rewrite (proj1 Hset).
      change (<[id := new_snapshot id (stamped t (filled x dtc rn i))]> tbl !! k = Some r -> holds (of_did dtc rn (di_did j)) r = false).
      intros [[<- <-]|[_ Hk]]%lookup_insert_Some.
      * apply other_did_new; [apply Hi|]. intros Heq. apply Hni. rewrite Heq. by apply list_elem_of_fmap_2.
      * apply (Hno j ltac:(by right) k). unfold row_at. by rewrite Ht.
    + unfold record_rows in *. rewrite (proj1 Hset). rewrite Ht in Hp.
      rewrite (fmap_Permutation did_at _ _ (rows_insert _ id _ tbl Hid)). unfold hit. rewrite holds_record_new by apply Hi.
      cbn [app fmap list_fmap]. rewrite did_at_new by done.
      change (kept i :: map did_at (rows_where (Some (SnapshotEntityDao.of_record dtc rn)) tbl) ≡ₚ map kept (before ++ [i])).
      rewrite Hp, map_app. apply Permutation_cons_append.
  - intros x' d' Hsome. destruct Hsome. apply Hno. by left.
Qed.
Lemma wp_new_record dids d : well_formed d -> Forall storable_did dids -> NoDup (di_did <$> dids) ->
  record_rows d dtc rn = [] ->
  wp (SnapshotEntityDao.SetDIDRecord env dtc rn dids) (fun r d' => well_formed d' /\
    (r = LE_OK -> map did_at (record_rows d' dtc rn) ≡ₚ map kept dids)) d.
Proof.
  intros Hw Hst Hnd Hno. apply (wp_new_dids new_snapshot_entity dids []); [done|done|done|done| |by rewrite Hno].
  intros j _ id r Hr. unfold of_did. cbn [holds]. apply andb_false_intro1.
  destruct (wf_table d Hw snapshot_entity) as (tbl & Ht & _). unfold record_rows in Hno. rewrite Ht in Hno.
  by apply (proj2 (nothing_rows d (SnapshotEntityDao.of_record dtc rn) tbl Ht) Hno id r).
Qed.
End New.
End Snapshots.
