(* ===== verification/DaoLoad.v ===== *)
(** * The data base of the diagnostic events: filling and resetting

    [Load] fills empty tables from the configuration, [ResetAllData] makes all tables anew. *)
From S2P Require Import Prelude DiagCfg DemTypes DemInit DaoTypes DaoSql DaoEntities DaoSpec DaoRules DaoDem.
From S2P Require Import DaoStore DaoEvents DaoClear.

Section Load.
Context {E : Type} `{!Sqlite E} `{!SqliteLaws E} `{!SteadyReads E}.
Variable env : DaoEnv.
Implicit Types d : Dao E.

(** ** Tables *)
Lemma wp_CheckTableEmpty {X} `{!Entity X} tbl (Q : bool -> Dao E -> Prop) d :
  well_formed d -> tab d (mFileName X) = Some tbl ->
  (forall d', sane d d' -> unchanged d d' -> Q (bool_decide (tbl = ∅)) d') ->
  wp (CheckTableEmpty X) Q d.
Proof.
  intros Hw Ht HQ. unfold CheckTableEmpty. wp_step.
  apply wp_open; [apply Hw|by apply wf_complete|done|]. intros st d1 Hst Hs Hu. cbv beta. wp_step.
  eapply (wp_first_row _ (mFileName X)); [| |done|apply Hs|by rewrite (Hu _)| |]; [done..|].
  intros row more d2 Hs2 Hu2 Ha. destruct Hst as (Hp & _). wp_step. unfold GetColumnInt. cbn [snd prepared assign set_prepared set_rest set_current set_hasRow].
  cbn. rewrite Hp. apply Permutation_singleton_r in Ha. simplify_eq. cbn. merge.
  assert (bool_decide (tbl = ∅) = (s32 (match all_rows tbl with [] => 0 | _ => 1 end) =? 0)) as <-; [|by apply HQ].
  unfold all_rows. case_bool_decide as Hb.
  - subst tbl. by rewrite map_to_list_empty.
  - destruct (map_to_list tbl) eqn:Hl; [|done]. by apply map_to_list_empty_iff in Hl.
Qed.

Lemma table_ok_empty t : table_ok t ∅.
Proof. split; [by intros id r|]. destruct t; [by intros id r|by intros i j r|done]. Qed.
Lemma wp_recreate t (Q : le_result_t -> Dao E -> Prop) d : well_formed d ->
  (forall d', well_formed d' -> set_table d d' t ∅ -> same_numbers d d' -> Q LE_OK d') ->
  (forall r d', r <> LE_OK -> Q r d') ->
  wp (ExecRaw (DropTableCmd t false);; ExecRaw (CreateTableCmd t false)) Q d.
Proof.
  intros Hw HQ1 HQ2. unfold ExecRaw. do 2 wp_step. apply wp_on_engine.
  eapply wp_conseq; [apply drop_law|]. intros r e Hr. cbv beta. wp_step. wp_step. apply wp_on_engine.
  eapply wp_conseq; [apply create_law|]. intros r' e' Hr'. cbv beta. wp_step.
  cbn [engine assign set_engine] in *.
  destruct r' as [n'|]; [|by apply HQ2]. destruct Hr' as [Hnone [H1 H2]].
  assert (set_table d (d <| engine := e |> <| engine := e' |>) t ∅) as Hset.
  { split; [exact H1|]. intros t' Ht. unfold tab. cbn. rewrite H2 by done.
    destruct r as [n|]; [by apply Hr|]. apply Hr. }
  apply HQ1; [|exact Hset|done].
  eapply wf_set; [done|split; [apply Hw|done]|exact Hset|by apply table_ok_empty].
Qed.

(** ** Rows of the configuration *)
Definition all_zero d : Prop := forall k r, row_at d dtc_entity k = Some r -> cleared_row r.
Lemma all_zero_unchanged d d' : all_zero d -> tab d' dtc_entity = tab d dtc_entity -> all_zero d'.
Proof. intros H Ht k r. unfold row_at. rewrite Ht. apply H. Qed.
Lemma wp_add_dtc code t d : well_formed d -> dtc_code (u32 code) ->
  wp (Add env (DtcEntityDao.fresh (s32 (u32 code)) t)) (fun _ d' => well_formed d' /\ quiet d d' /\
    (forall t, t <> dtc_entity -> tab d' t = tab d t) /\ (all_zero d -> all_zero d')) d.
Proof.
  intros Hw Hc. pose proof (code_key _ Hc) as Hk. generalize dependent (s32 (u32 code)). intros k Hk.
  destruct (wf_table d Hw dtc_entity) as (tbl & Ht & Hok). apply wp_Add; [apply Hw| |]; intros d' Hs Hdone.
  - edestruct (done_from (X := DtcEntity) d d d' dtc_entity) as (tbl' & Hins & Hset);
      [done|done|exact Hdone|exact Ht|]. destruct Hins as (id & Hid & Hkid & ->).
    cbn [GetKey dtc_dao de_dtc DtcEntityDao.fresh] in Hkid. rewrite (opt_key k Hk) in Hkid. cbn in Hkid. subst id.
    cbn [mFileName dtc_dao primary_key] in Hset. rewrite (set_own_key env k) in Hset by done.
    destruct (touches_set _ _ _ _ _ _ Ht Hset) as [[Ho Hj] Hnew]. split_and!; [| |exact Ho|].
    + eapply wf_set; [done|done|exact Hset|]. apply dtc_table_insert; [done|exact Hk|done|by left].
    + split; [intros n _; left; apply dao_event_unchanged; by apply Ho|]. intros c. rewrite !dao_dtc_at. right.
      destruct (decide (s32 c = k)) as [->|Hne]; [right|left; by rewrite Hj].
      rewrite Hnew. cbn [fmap option_fmap option_map default]. by rewrite dtc_cells_row.
    + intros Hz j r. destruct (decide (j = k)) as [->|Hne]; [|rewrite Hj by done; apply Hz].
      rewrite Hnew. intros [= <-]. unfold cleared_row. rewrite dtc_cells_row by done. by rewrite dtc_row.
  - split_and!; [by eapply wf_unchanged|by apply quiet_unchanged|by intros|]. intros H. by eapply all_zero_unchanged.
Qed.
Definition codes_ok : Prop := Forall (fun code => dtc_code (u32 code)) (dtc_all (dao_conf env)).*1.
Lemma wp_dtc_rows d : well_formed d -> codes_ok ->
  wp (DtcEntityDao.InitTableWithConfig env) (fun r d' => r = LE_OK /\ well_formed d' /\ quiet d d' /\
    (forall t, t <> dtc_entity -> tab d' t = tab d t) /\ (all_zero d -> all_zero d')) d.
Proof.
  unfold codes_ok, DtcEntityDao.InitTableWithConfig. intros Hw Hc. wp_step.
  eapply (wp_conseq _ (fun _ d' => well_formed d' /\ quiet d d' /\
    (forall t, t <> dtc_entity -> tab d' t = tab d t) /\ (all_zero d -> all_zero d')));
    [|intros _ d' H; cbv beta; wp_step; split; [done|exact H]].
  revert d Hw. induction Hc as [|code codes Hcode Hc IH]; intros d Hw; cbn [for_each]; [wp_step; split_and!; [done|by apply quiet_unchanged|done..]|].
  do 2 wp_step. apply wp_now; [|apply Hw]. intros t d1 Hs1 Hu1. pose proof (wf_unchanged _ _ Hw Hs1 Hu1) as Hw1.
  cbv beta. wp_step. eapply wp_conseq; [by apply wp_add_dtc|]. intros _ d2 (Hw2 & Hq2 & Ho2 & Hz2). cbv beta. wp_step.
  eapply wp_conseq; [by apply IH|]. intros _ d3 (Hw3 & Hq3 & Ho3 & Hz3). split_and!; [done| | |].
  - eapply quiet_trans; [by apply quiet_unchanged|by eapply quiet_trans].
  - intros t' Ht'. by rewrite Ho3, Ho2, Hu1.
  - intros H. apply Hz3, Hz2. by eapply all_zero_unchanged.
Qed.

(** Resetting leaves a data base in which nothing is stored of any DTC, event or snapshot. *)
Record empty_of_faults d : Prop := {
  reset_dtcs : all_zero d;
  reset_events : tab d event_entity = Some ∅;
  reset_snapshots : tab d snapshot_entity = Some ∅ }.
Lemma not_ok r : r <> LE_OK -> ok r = false.
Proof. apply bool_decide_eq_false_2. Qed.
Lemma wp_ResetAllData d : well_formed d -> codes_ok ->
  wp (ResetAllData env) (fun r d' => r = LE_OK -> well_formed d' /\ empty_of_faults d') d.
Proof.
  intros Hw Hc. unfold ResetAllData, DtcEntityDao.ClearAll, DtcEntityDao.DropTable, DtcEntityDao.CreateTable.
  assert (forall {A} (c1 c2 : M (Dao E) A) (k : A -> M (Dao E) le_result_t) (Q : le_result_t -> Dao E -> Prop) d,
    wp (c1;; c2) (fun r => wp (k r) Q) d -> wp (c1;; r ← c2; k r) Q d) as Hassoc.
  { intros A c1 c2 k Q d0 H. unfold wp, mbind, M_bind in *. destruct (c1 d0) as [[a s1]|]; [|done]. by destruct (c2 s1) as [[]|]. }
  wp_step. apply Hassoc. apply wp_recreate; [done| |].
  2:{ intros r d1 Hr. rewrite (not_ok r Hr). cbn [negb]. wp_step. rewrite (not_ok r Hr). cbn [negb]. by wp_step. }
  intros d1 Hw1 [Ht1 Ho1] _. change (ok LE_OK) with true. cbn [negb]. wp_step.
  eapply wp_conseq; [by apply wp_dtc_rows|]. intros r d2 (-> & Hw2 & _ & Ho2 & Hz2). cbv beta.
  wp_step. change (ok LE_OK) with true. cbn [negb].
  assert (all_zero d2) as Hz by (apply Hz2; intros k r; unfold row_at; by rewrite Ht1).
  wp_step. unfold EventEntityDao.ClearAll. apply wp_recreate; [done| |].
  2:{ intros r d3 Hr. rewrite (not_ok r Hr). cbn [negb]. by wp_step. }
  intros d3 Hw3 [Ht3 Ho3] _. change (ok LE_OK) with true. cbn [negb].
  wp_step. unfold SnapshotEntityDao.ClearAll. apply wp_recreate; [done| |].
  2:{ intros r d4 Hr. rewrite (not_ok r Hr). cbn [negb]. by wp_step. }
  intros d4 Hw4 [Ht4 Ho4] _. change (ok LE_OK) with true. cbn [negb]. wp_step. intros _. split; [done|]. split; [|by rewrite Ho4|done].
  eapply all_zero_unchanged; [exact Hz|]. by rewrite Ho4, Ho3.
Qed.

(** ** Start-up *)
Definition recorded d (n : string) : Prop :=
  exists id r, row_at d event_entity id = Some r /\ named n r /\ cell r "Status" = VInt 0.
Definition unnamed d (n : string) : Prop :=
  forall tbl, tab d event_entity = Some tbl -> rows_named n tbl = [].
Lemma wp_add_name n t d : well_formed d -> event_name n -> unnamed d n ->
  wp (Add env (EventEntityDao.fresh n t)) (fun r d' => well_formed d' /\ quiet d d' /\
    (forall t, t <> event_entity -> tab d' t = tab d t) /\
    (forall m, m <> n -> unnamed d m -> unnamed d' m) /\ (forall m, recorded d m -> recorded d' m) /\
    (r = LE_OK -> recorded d' n)) d.
Proof.
  intros Hw Hn Hun. destruct (wf_table d Hw event_entity) as (tbl & Ht & Hok). specialize (Hun tbl Ht).
  apply wp_Add; [apply Hw| |]; intros d' Hs Hdone.
  - edestruct (done_from (X := EventEntity) d d d' event_entity) as (tbl' & Hins & Hset);
      [done|done|exact Hdone|exact Ht|]. destruct Hins as (id & Hid & Hkid & ->). cbn in Hkid.
    assert (key_ok id) as Hk by (unfold key_ok, is_int32; lia).
    destruct (new_row_cells env id (EventEntityDao.fresh n t)) as (_ & Hname & Hstatus).
    destruct (event_added env d d' id (EventEntityDao.fresh n t) tbl) as [Hw' (W1 & W2 & W3)]; try done.
    destruct (touches_set _ _ _ _ _ _ Ht Hset) as [[Ho Hj] Hnew]. split_and!; [done| |exact Ho| | |].
    + split; [|intros c; left; apply W3]. intros m _.
      destruct (decide (m = n)) as [->|Hm]; [right; exact W1|left; by apply W2].
    + intros m Hm Hum tbl'. rewrite (proj1 Hset). intros [= <-]. specialize (Hum tbl Ht).
      apply Permutation_nil_r. unfold rows_named. rewrite rows_insert by done.
      change (hit (ColText "Event_Name" m) (new_row env id (EventEntityDao.fresh n t)) ++ rows_named m tbl ≡ₚ []).
      by rewrite (miss_named n m), Hum by done.
    + intros m (j & r & Hr & Hm). exists j, r. split; [|done]. rewrite Hj; [done|]. intros ->.
      unfold row_at in Hr. rewrite Ht in Hr. change (tbl !! id = Some r) in Hr. congruence.
    + intros _. by exists id, (new_row env id (EventEntityDao.fresh n t)).
  - split_and!; [by eapply wf_unchanged|by apply quiet_unchanged|by intros| | |done].
    + intros m _ Hm tbl'. rewrite Hdone. apply Hm.
    + intros m (j & r & Hr & Hm). exists j, r. by rewrite (row_at_unchanged _ _ _ _ Hdone).
Qed.
Lemma wp_add_names ps d : well_formed d -> NoDup ps.*2 -> Forall event_name ps.*2 -> Forall (unnamed d) ps.*2 ->
  wp (EventEntityDao.add_names env ps) (fun r d' => well_formed d' /\ quiet d d' /\
    (forall t, t <> event_entity -> tab d' t = tab d t) /\ (forall m, recorded d m -> recorded d' m) /\
    (r = LE_OK -> Forall (recorded d') ps.*2)) d.
Proof.
  revert d. induction ps as [|[i n] ps IH]; intros d Hw Hnd Hn Hun; cbn [EventEntityDao.add_names];
    [wp_step; split_and!; [done|by apply quiet_unchanged|done..]|].
  rewrite !fmap_cons in *. cbn [snd] in *. apply NoDup_cons in Hnd as [Hni Hnd]. apply Forall_cons in Hn as [Hn Hns].
  apply Forall_cons in Hun as [Hun Huns]. wp_step. apply wp_now; [|apply Hw]. intros t d1 Hs1 Hu1. cbv beta. wp_step.
  eapply wp_conseq; [apply wp_add_name; [by eapply wf_unchanged|done|intros tbl; rewrite Hu1; apply Hun]|].
  intros r d2 (Hw2 & Hq2 & Ho2 & Hun2 & Hr2 & Hn2). cbv beta.
  pose proof (quiet_trans _ _ _ (quiet_unchanged _ _ Hu1) Hq2) as Hq.
  assert (forall m, recorded d m -> recorded d2 m) as Hr1.
  { intros m (j & r0 & Hr0 & Hm). apply Hr2. exists j, r0. by rewrite (row_at_unchanged _ _ _ _ Hu1). }
  unfold ok. case_bool_decide as Hr.
  - eapply wp_conseq; [apply IH; [done|done|done|]|].
    + rewrite Forall_forall in Huns |- *. intros m Hm. apply Hun2; [by intros ->|]. intros tbl. rewrite Hu1. by apply Huns.
    + intros r' d3 (Hw3 & Hq3 & Ho3 & Hr3 & Hn3). split_and!; [done|by eapply quiet_trans| | |].
      * intros t' Ht'. by rewrite Ho3, Ho2, Hu1.
      * intros m Hm. by apply Hr3, Hr1.
      * intros Hr'. constructor; [by apply Hr3, Hn2|by apply Hn3].
  - wp_step. split_and!; [done|done| |done|done]. intros t' Ht'. by rewrite Ho2, Hu1.
Qed.

Definition names : list string := (EventEntityDao.get_event_idNames env).*2.
(** [Load] over well-formed tables: an empty table of events gets a row for each event. *)
Lemma wp_Load d : well_formed d -> codes_ok -> NoDup names -> Forall event_name names ->
  wp (Load env) (fun r d' => well_formed d' /\ quiet d d' /\
    (tab d event_entity = Some ∅ -> r = LE_OK -> Forall (recorded d') names)) d.
Proof.
  intros Hw Hc Hnd Hn. unfold Load. wp_step.
  eapply (wp_conseq _ (fun _ d' => well_formed d' /\ unchanged d d')).
  { generalize (dtc_all (dao_conf env)). intros l. cut (forall d', well_formed d' -> unchanged d d' ->
      wp (for_each l (fun p => let code := u32 p.1 in
        modify (fun s => s <| snapshotRnVec := snapshotRnVec s ++ snapshot_numbers env code (freeze_frames p.2) |>);;
        modify (fun s => s <| extendedRnVec := extendedRnVec s ++ extended_numbers env code (extended_data_records env p.1) |>)))
        (fun _ d' => well_formed d' /\ unchanged d d') d'); [by intros H; apply H|].
    induction l as [|p l IH]; intros d' Hw' Hu'; cbn [for_each]; [by wp_step|]. cbv zeta. do 4 wp_step. apply IH; [|done].
    by destruct Hw'. }
  intros _ d1 [Hw1 Hu1]. cbv beta. wp_step. destruct (wf_table d1 Hw1 dtc_entity) as (tbl & Ht & _).
  unfold DtcEntityDao.Load. wp_step. eapply wp_CheckTableEmpty; [done|exact Ht|]. intros d2 Hs2 Hu2.
  pose proof (wf_unchanged _ _ Hw1 Hs2 Hu2) as Hw2.
  eapply (wp_conseq _ (fun r d' => r = LE_OK /\ well_formed d' /\ quiet d d' /\ tab d' event_entity = tab d event_entity)).
  { pose proof (quiet_unchanged _ _ (unchanged_trans _ _ _ Hu1 Hu2)) as Hq2.
    case_match; [|wp_step; split_and!; [done..|by rewrite Hu2, Hu1]]. eapply wp_conseq; [by apply wp_dtc_rows|].
    intros r d3 (-> & Hw3 & Hq3 & Ho3 & _). split_and!; [done..|by eapply quiet_trans|by rewrite Ho3, Hu2, Hu1]. }
  intros r d3 (-> & Hw3 & Hq3 & He3). cbv beta. change (ok LE_OK) with true. cbn [negb]. wp_step.
  destruct (wf_table d3 Hw3 event_entity) as (tbl3 & Ht3 & _). unfold EventEntityDao.Load. wp_step.
  eapply wp_CheckTableEmpty; [done|exact Ht3|]. intros d4 Hs4 Hu4. pose proof (wf_unchanged _ _ Hw3 Hs4 Hu4) as Hw4.
  pose proof (quiet_trans _ _ _ Hq3 (quiet_unchanged _ _ Hu4)) as Hq4.
  case_bool_decide as Hempty.
  - eapply wp_conseq; [apply wp_add_names; [done|done|done|]|].
    { apply Forall_forall. intros n _ tbl'. rewrite Hu4, Ht3, Hempty. by intros [= <-]. }
    intros r d5 (Hw5 & Hq5 & _ & _ & Hn5). cbv beta. pose proof (quiet_trans _ _ _ Hq4 Hq5) as Hq.
    unfold ok. case_bool_decide as Hr; cbn [negb]; wp_step; (split_and!; [done|done|]);
      intros _ Hr'; by apply Hn5.
  - wp_step. change (ok LE_OK) with true. cbn [negb]. wp_step. split_and!; [done|done|]. rewrite <- He3, Ht3. congruence.
Qed.
End Load.
