(* ===== verification/DaoStack.v ===== *)
(** * Diagnostic events over the data base

    The functions [taf_DataAccess_Xxx] of [tafDataAccessComp.cpp], with the widths of their
    parameters, as the [Store] of the diagnostic events; and that it is the [Database] and
    [Restored] that the theorems of the diagnostic events ask for. *)
From S2P Require Import Prelude DiagCfg DemTypes DemInit DemSpec DemInv DemStart.
From S2P Require Import DaoTypes DaoSql DaoEntities DaoSpec DaoRules DaoDem DaoEnds.
From S2P Require Import DaoStore DaoEvents DaoClear DaoReports DaoSnapshots.

Definition flag_byte (b : bool) : Z := if b then 1 else 0.
Definition nonzero (v : Z) : bool := negb (v =? 0).

Section Stack.
Context {E : Type} `{!Sqlite E}.
Variable env : DaoEnv.

Definition dao_store : Store (Dao E) := {|
  db_SetEventStatusByName name v := SetEventStatusByName env name (u8 v);
  db_GetEventStatusByName name := GetEventStatusByName name;
  db_SetDTCStatus code v n := SetDTCStatus env (u32 code) (u8 v) (u8 n);
  db_GetDTCStatus code := GetDTCStatus env (u32 code);
  db_GetDTCOccurrenceCounter code := GetDTCOccurrenceCounter env (u32 code);
  db_SetEventFailedCounter id n := SetEventFailedCounter env (u16 id) (u8 n);
  db_GetEventFailedCounter id := GetEventFailedCounter env (u16 id);
  db_DeleteAllData := DeleteAllData env;
  db_DeleteData code := DeleteData env (u32 code);
  db_GetDTCActivation code := v ← GetActivation env (u32 code); mret (nonzero v);
  db_SetDTCActivation code b := SetActivation env (u32 code) (flag_byte b);
  db_GetDTCSuppression code := v ← GetSuppression env (u32 code); mret (nonzero v);
  db_SetDTCSuppression code b := SetSuppression env (u32 code) (flag_byte b);
  db_SetAllDTCSuppression b := SetAllSuppression (flag_byte b);
  db_UpdateFaultCodeSnapshotData code did v := UpdateFaultCodeSnapshotData env (u32 code) (u16 did) v |}.

(** ** What it promises *)
Context `{!SqliteLaws E} `{!SteadyReads E}.
Implicit Types d : Dao E.

Record dao_sound d : Prop := {
  sound_wf : well_formed d;
  sound_events n : event_name n -> status_ok (dao_event d n) = true;
  sound_dtcs c : dtc_code c -> status_ok (dao_dtc d c).1 = true }.

Lemma status_ok_byte v : status_ok v = true -> u8 v = v /\ is_byte v.
Proof.
  intros Hv%status_ok_or%status_or_ok_elem. apply list_elem_of_fmap in Hv as (n & -> & Hn%elem_of_seq).
  assert (is_byte (Z.of_nat n)) as H by (unfold in_width; lia). split; [by apply wrap_id|done].
Qed.
Lemma code_u32 c : dtc_code c -> u32 c = c.
Proof. unfold dtc_code. intros Hc. apply wrap_id. unfold in_width. lia. Qed.
Lemma quiet_sound d d' : dao_sound d -> well_formed d' -> quiet d d' -> dao_sound d'.
Proof.
  intros [_ He Hd] Hw [Qe Qd]. split; [done| |].
  - intros n Hn. destruct (Qe n Hn) as [-> | ->]; [by apply He|done].
  - intros c Hc. destruct (Qd c) as [-> |[-> | ->]]; [by apply Hd..|done].
Qed.

(** A call that ends in any state, with what it does to well-formed ones. *)
Lemma wp_both {A} (c : M (Dao E) A) (P : Prop) (Q : A -> Dao E -> Prop) d :
  ends c -> (P -> wp c Q d) -> wp c (fun a d' => P -> Q a d') d.
Proof. intros Hc H. specialize (Hc d). unfold wp in *. destruct (c d) as [[a d']|]; [done|by destruct Hc]. Qed.
Lemma wp_sound {A} (c : M (Dao E) A) (P : Prop) d : ends c ->
  (P -> well_formed d -> wp c (fun _ d' => well_formed d' /\ quiet d d') d) ->
  wp c (fun _ d' => dao_sound d -> P -> dao_sound d') d.
Proof.
  intros Hc H. eapply wp_conseq; [apply (wp_both c (dao_sound d /\ P)); [done|]|].
  - intros [Hs HP]. eapply wp_conseq; [apply H; [done|apply Hs]|]. intros a d' H'. exact H'.
  - intros a d' H' Hs HP. destruct (H' (conj Hs HP)). by eapply quiet_sound.
Qed.
Lemma wp_sound_always {A} (c : M (Dao E) A) d : ends c ->
  (well_formed d -> wp c (fun _ d' => well_formed d' /\ quiet d d') d) ->
  wp c (fun _ d' => dao_sound d -> dao_sound d') d.
Proof. intros Hc H. eapply wp_conseq; [apply (wp_sound c True); auto|]. auto. Qed.

Lemma u8_byte v : is_byte (u8 v).
Proof. apply (wrap_in_width 8 v). lia. Qed.
Lemma ok_iff r : ok r = true <-> r = LE_OK.
Proof. apply bool_decide_eq_true. Qed.
Lemma event_kept name v d : wp (SetEventStatusByName env name (u8 v)) (fun r d' =>
  dao_sound d -> event_name name -> status_ok v = true ->
  dao_sound d' /\ (r = LE_OK -> dao_event d' name = v) /\
  (forall n, n <> name -> dao_event d' n = dao_event d n) /\ (forall c, dao_dtc d' c = dao_dtc d c)) d.
Proof.
  pose proof (wp_both (SetEventStatusByName env name (u8 v)) (dao_sound d /\ event_name name) _ d
    (SetEventStatusByName_total env name (u8 v))
    (fun H => wp_WriteStatusAndDtcByEventName env name (u8 v) 0 d (sound_wf _ (proj1 H)) (proj2 H) (u8_byte v))) as Hwp.
  eapply wp_conseq; [exact Hwp|]. intros r d' H Hs Hn Hv. destruct (H (conj Hs Hn)) as [Hw (H1 & H2 & H3)].
  destruct (status_ok_byte v Hv) as [Hu _]. rewrite Hu in H1. destruct Hs as [_ He Hd]. split_and!; [|by intros ->|done..].
  split; [done| |by intros c Hc; rewrite H3; apply Hd]. intros n Hn'.
  destruct (decide (n = name)) as [->|Hne]; [|rewrite H2 by done; by apply He].
  rewrite H1. destruct (ok r); [done|by apply He].
Qed.
Lemma dtc_kept code v n d : wp (SetDTCStatus env (u32 code) (u8 v) (u8 n)) (fun r d' =>
  dao_sound d -> dtc_code code -> status_ok v = true -> 0 <= n <= 255 ->
  dao_sound d' /\ (r = LE_OK -> dao_dtc d' code = (v, n)) /\
  (forall c, dtc_code c -> c <> code -> dao_dtc d' c = dao_dtc d c) /\
  (forall m, dao_event d' m = dao_event d m)) d.
Proof.
  pose proof (wp_both (SetDTCStatus env (u32 code) (u8 v) (u8 n)) (dao_sound d /\ dtc_code (u32 code)) _ d
    (SetDTCStatus_total env (u32 code) (u8 v) (u8 n))
    (fun H => wp_SetDTCStatus env (u32 code) (u8 v) (u8 n) d (sound_wf _ (proj1 H)) (proj2 H) (u8_byte v) (u8_byte n))) as Hwp.
  eapply wp_conseq; [exact Hwp|]. intros r d' H Hs Hc Hv Hn. pose proof (code_u32 code Hc) as Hu.
  rewrite Hu in H. destruct (H (conj Hs Hc)) as [Hw (H1 & H2 & H3)].
  destruct (status_ok_byte v Hv) as [Huv _]. rewrite Huv, (wrap_id 8 n) in H1 by (unfold in_width; lia).
  destruct Hs as [_ He Hd]. split_and!; [|by intros ->|done..].
  split; [done|by intros m Hm; rewrite H3; apply He|]. intros c Hc'.
  destruct (decide (c = code)) as [->|Hne]; [|rewrite H2 by done; by apply Hd].
  rewrite H1. destruct (ok r); [done|by apply Hd].
Qed.

Lemma counter_kept id v d :
  wp (SetEventFailedCounter env (u16 id) (u8 v)) (fun _ d' => dao_sound d -> dao_sound d') d.
Proof. apply wp_sound_always; [apply SetEventFailedCounter_total|]. intros Hw. by apply wp_SetEventFailedCounter. Qed.
Lemma all_deleted_kept d : wp (DeleteAllData env) (fun _ d' => dao_sound d -> dao_sound d') d.
Proof.
  apply wp_sound_always; [apply DeleteAllData_total|]. intros Hw.
  eapply wp_conseq; [by apply wp_DeleteAllData|]. by intros r d' (H1 & H2 & _).
Qed.
(** An operation on one DTC. *)
Lemma code_kept {A} (op : Z -> M (Dao E) A) code d : (forall c, ends (op c)) ->
  (forall c, dtc_code c -> well_formed d -> wp (op c) (fun _ d' => well_formed d' /\ quiet d d') d) ->
  wp (op (u32 code)) (fun _ d' => dao_sound d -> dtc_code code -> dao_sound d') d.
Proof.
  intros He H. apply wp_sound; [apply He|]. intros Hc Hw. apply H; [|done]. by rewrite code_u32.
Qed.
Lemma deleted_kept code d :
  wp (DeleteData env (u32 code)) (fun _ d' => dao_sound d -> dtc_code code -> dao_sound d') d.
Proof.
  apply code_kept; [apply DeleteData_total|]. intros c Hc Hw.
  eapply wp_conseq; [by apply wp_DeleteData|]. by intros r d' (H1 & H2 & _).
Qed.
Lemma activation_kept code v d :
  wp (SetActivation env (u32 code) v) (fun _ d' => dao_sound d -> dtc_code code -> dao_sound d') d.
Proof.
  apply (code_kept (fun c => SetActivation env c v)); [intros; apply SetActivation_total|].
  intros c Hc Hw. by apply wp_SetActivation.
Qed.
Lemma suppression_kept code v d :
  wp (SetSuppression env (u32 code) v) (fun _ d' => dao_sound d -> dtc_code code -> dao_sound d') d.
Proof.
  apply (code_kept (fun c => SetSuppression env c v)); [intros; apply SetSuppression_total|].
  intros c Hc Hw. by apply wp_SetSuppression.
Qed.
Lemma all_suppression_kept v d : wp (SetAllSuppression v) (fun _ d' => dao_sound d -> dao_sound d') d.
Proof. apply wp_sound_always; [apply SetAllSuppression_total|]. intros Hw. by apply wp_SetAllSuppression. Qed.

Definition dao_database : @Database (Dao E) dao_store :=
  @Build_Database (Dao E) dao_store dao_sound event_name dtc_code dao_event dao_dtc
    event_kept dtc_kept counter_kept all_deleted_kept deleted_kept
    (fun code b => activation_kept code (flag_byte b)) (fun code b => suppression_kept code (flag_byte b))
    (fun b => all_suppression_kept (flag_byte b)).

(** ** What it returns at start-up *)
Lemma unchanged_sound d d' : dao_sound d -> sane d d' -> unchanged d d' -> dao_sound d'.
Proof.
  intros Hs Hsane Hu. eapply quiet_sound; [exact Hs| |by apply quiet_unchanged].
  eapply wf_unchanged; [apply Hs|done|done].
Qed.
(** The code that stands for no DTC is not looked up. *)
Lemma dtc_read {A} (op : Z -> M (Dao E) A) (P : A -> Prop) a0 code d : dao_sound d ->
  (forall c, dtc_code c -> wp (op c) (fun a d' => P a /\ sane d d' /\ unchanged d d') d) ->
  op 0xFFFFFFFF d = Done (a0, d) -> P a0 ->
  wlp (op (u32 code)) (fun a d' => P a /\ dao_sound d') d.
Proof.
  intros Hs Hop H0 HP. destruct (decide (u32 code = 0xFFFFFFFF)) as [->|Hne]; [unfold wlp; by rewrite H0|].
  apply wlp_wp. eapply wp_conseq; [apply Hop|].
  - pose proof (wrap_in_width 32 code ltac:(lia)) as H. unfold dtc_code, in_width in *. lia.
  - intros a d' (HPa & Hsane & Hu). split; [done|by eapply unchanged_sound].
Qed.
Lemma event_restored name d : dao_sound d -> event_name name ->
  wlp (GetEventStatusByName name) (fun v d' => status_ok v = true /\ dao_sound d') d.
Proof.
  intros Hs Hn. apply wlp_wp. eapply wp_conseq; [apply wp_GetEventStatusByName; [apply Hs|apply Hn]|].
  intros v d' (-> & Hsane & Hu). split; [by apply Hs|by eapply unchanged_sound].
Qed.
Lemma status_restored code d : dao_sound d ->
  wlp (GetDTCStatus env (u32 code)) (fun v d' => status_ok v = true /\ dao_sound d') d.
Proof.
  intros Hs. apply (dtc_read (GetDTCStatus env) _ 0); [done| |done|done].
  intros c Hc. eapply wp_conseq; [apply wp_GetDTCStatus; [apply Hs|done]|].
  intros v d' (-> & H). split; [by apply Hs|done].
Qed.
Lemma dao_occurrence_byte d c : 0 <= (dao_dtc d c).2 <= 255.
Proof.
  rewrite dao_dtc_at. destruct (row_at d dtc_entity (s32 c)) as [r|]; cbn; [|lia].
  rewrite <- u8_land. pose proof (u8_byte (int_of (cell r "Fault_Occurence_Counter"))) as H. unfold in_width in H. lia.
Qed.
Lemma occurrence_restored code d : dao_sound d ->
  wlp (GetDTCOccurrenceCounter env (u32 code)) (fun n d' => 0 <= n <= 255 /\ dao_sound d') d.
Proof.
  intros Hs. apply (dtc_read (GetDTCOccurrenceCounter env) _ 0); [done| |done|lia].
  intros c Hc. eapply wp_conseq; [apply wp_GetDTCOccurrenceCounter; [apply Hs|done]|].
  intros v d' (-> & H). split; [apply dao_occurrence_byte|done].
Qed.
Lemma flag_restored (op : Z -> M (Dao E) Z) code d : dao_sound d ->
  (forall c, dtc_code c -> wp (op c) (fun _ d' => sane d d' /\ unchanged d d') d) ->
  (exists v, op 0xFFFFFFFF d = Done (v, d)) ->
  wlp (v ← op (u32 code); mret (nonzero v)) (fun _ => dao_sound) d.
Proof.
  intros Hs Hop [v Hv]. apply wlp_bind. eapply wlp_conseq; [apply (dtc_read op (fun _ => True) v); try done|].
  - intros c Hc. eapply wp_conseq; [by apply Hop|]. by intros a d' [H1 H2].
  - intros a d' [_ H]. by apply wlp_ret.
Qed.
Lemma activation_restored code d : dao_sound d ->
  wlp (v ← GetActivation env (u32 code); mret (nonzero v)) (fun _ => dao_sound) d.
Proof.
  intros Hs. apply flag_restored; [done| |by eexists]. intros c Hc.
  eapply wp_conseq; [apply wp_GetActivation; [apply Hs|done]|]. by intros v d' (_ & H).
Qed.
Lemma suppression_restored code d : dao_sound d ->
  wlp (v ← GetSuppression env (u32 code); mret (nonzero v)) (fun _ => dao_sound) d.
Proof.
  intros Hs. apply flag_restored; [done| |by eexists]. intros c Hc.
  eapply wp_conseq; [apply wp_GetSuppression; [apply Hs|done]|]. by intros v d' (_ & H).
Qed.
Definition dao_restored : @Restored (Dao E) dao_store dao_database :=
  @Build_Restored (Dao E) dao_store dao_database
    event_restored status_restored occurrence_restored activation_restored suppression_restored.
End Stack.
