(* ===== verification/DaoCalls.v ===== *)
(** * The data base of the diagnostic events: calls of its clients

    Sequences of calls of the interface, what they need of their arguments, and that every one of
    them keeps the tables well-formed; how a record of a snapshot is stored and read through the
    interface; how much the queries of the DTC interface return, and which results clearing
    has. *)
From S2P Require Import Prelude DiagCfg DemTypes DemEvent DemInit DaoTypes DaoSql DaoEntities DaoSpec DaoRules DaoDem DaoEnds.
From S2P Require Import DaoStore DaoEvents DaoClear DaoReports DaoSnapshots DaoLoad.

(** ** Calls *)
Inductive db_call :=
  | WriteEvent (name : string) (v : Z)
  | WriteDtc (dtc v n : Z)
  | WriteFailedCounter (id n : Z)
  | WriteActivation (dtc v : Z)
  | WriteSuppression (dtc v : Z)
  | WriteAllSuppression (v : Z)
  | WriteSnapshot (dtc : Z) (nodes : list (Z * list Z))
  | WriteFaultCode (dtc did : Z) (v : list Z)
  | Clear (dtc : Z)
  | ClearAllOf
  | ReadEvent (name : string)
  | ReadDtc (dtc : Z)
  | ListByMask (mask : Z)
  | CountByMask (mask : Z)
  | ListSupported.

Section Calls.
Context {E : Type} `{!Sqlite E}.
Variable env : DaoEnv.

Definition perform (c : db_call) : M (Dao E) unit :=
  match c with
  | WriteEvent name v => SetEventStatusByName env name v;; mret tt
  | WriteDtc dtc v n => SetDTCStatus env dtc v n;; mret tt
  | WriteFailedCounter id n => SetEventFailedCounter env (u16 id) n;; mret tt
  | WriteActivation dtc v => SetActivation env dtc v;; mret tt
  | WriteSuppression dtc v => SetSuppression env dtc v;; mret tt
  | WriteAllSuppression v => SetAllSuppression v;; mret tt
  | WriteSnapshot dtc nodes => SetSnapshotData env dtc nodes;; mret tt
  | WriteFaultCode dtc did v => UpdateFaultCodeSnapshotData env dtc did v;; mret tt
  | Clear dtc => DeleteData env dtc;; mret tt
  | ClearAllOf => DeleteAllData env;; mret tt
  | ReadEvent name => GetEventStatusByName name;; mret tt
  | ReadDtc dtc => GetDTCStatus env dtc;; GetDTCOccurrenceCounter env dtc;; GetActivation env dtc;;
                   GetSuppression env dtc;; mret tt
  | ListByMask mask => GetDtcByStatusMask mask;; mret tt
  | CountByMask mask => GetNumOfDtcByStatusMask env mask;; mret tt
  | ListSupported => GetSupportedDtc env;; mret tt
  end.

(** Names are not empty and can stand in a statement, DTCs are not the code that stands for none,
    and values are bytes. *)
Definition call_ok (c : db_call) : Prop :=
  match c with
  | WriteEvent name v => event_name name /\ is_byte v
  | WriteDtc dtc v n => dtc_code dtc /\ is_byte v /\ is_byte n
  | WriteFailedCounter _ n => is_byte n
  | WriteActivation dtc v | WriteSuppression dtc v => dtc_code dtc /\ is_byte v
  | Clear dtc | ReadDtc dtc => dtc_code dtc
  | ReadEvent name => event_name name
  | ListByMask mask | CountByMask mask => is_byte mask
  | ListSupported => codes_ok env
  | WriteAllSuppression _ | WriteSnapshot _ _ | WriteFaultCode _ _ _ | ClearAllOf => True
  end.
End Calls.

(** ** Every call keeps the tables well-formed *)
Section Keep.
Context {E : Type} `{!Sqlite E} `{!SqliteLaws E} `{!SteadyReads E}.
Variable env : DaoEnv.
Implicit Types d : Dao E.

Definition stays_wf {A} (c : M (Dao E) A) : Prop := forall d, well_formed d -> wp c (fun _ => well_formed) d.
Lemma stays_ret {A} (a : A) : stays_wf (mret a).
Proof. by intros d Hw. Qed.
Lemma stays_bind {A B} (c : M (Dao E) A) (f : A -> M (Dao E) B) : stays_wf c -> (forall a, stays_wf (f a)) -> stays_wf (c ≫= f).
Proof. intros Hc Hf d Hw. apply wp_bind. eapply wp_conseq; [by apply Hc|]. intros a d' Hw'. by apply Hf. Qed.
Lemma stays_from {A} (c : M (Dao E) A) (Q : Dao E -> A -> Dao E -> Prop) :
  (forall d, well_formed d -> wp c (Q d) d) -> (forall d a d', Q d a d' -> well_formed d -> well_formed d') -> stays_wf c.
Proof. intros Hc HQ d Hw. eapply wp_conseq; [by apply Hc|]. intros a d' H. by eapply HQ. Qed.
Lemma stays_reading {A} (c : M (Dao E) A) (P : Dao E -> A -> Prop) :
  (forall d, well_formed d -> wp c (fun a d' => P d a /\ sane d d' /\ unchanged d d') d) -> stays_wf c.
Proof. intros Hc. eapply stays_from; [exact Hc|]. intros d a d' (_ & Hs & Hu) Hw. by eapply wf_unchanged. Qed.

Lemma stays_gets {A} (f : Dao E -> A) : stays_wf (gets f).
Proof. intros d Hw. by wp_step. Qed.
Lemma count_keeps w : plain_where w -> stays_wf (read_count (E := E) SnapshotEntity w).
Proof.
  intros Hp d Hw. destruct (wf_table d Hw snapshot_entity) as (tbl & Ht & _).
  eapply wp_read_count; [apply Hw|by apply wf_complete|done|exact Ht|]. intros d' Hs Hu. by eapply wf_unchanged.
Qed.
Lemma dids_keep dtc rn dids : stays_wf (SnapshotEntityDao.SetDIDRecord (E := E) env dtc rn dids).
Proof. eapply stays_from; [intros; by apply wp_SetDIDRecord|]. by intros d a d' [Hw _]. Qed.

Ltac keep :=
  repeat first
    [ apply stays_ret | apply stays_gets | apply dids_keep | (apply count_keeps; done)
    | match goal with
      | |- stays_wf (_ ≫= _) => apply stays_bind; [|intros ?]
      | |- stays_wf (if ?b then _ else _) => destruct b
      | |- stays_wf (match ?o with _ => _ end) => destruct o
      | |- stays_wf (let _ := _ in _) => cbv zeta
      end ].
Lemma set_or_fault_keeps dtc rn dids next : stays_wf next -> stays_wf (set_or_fault (E := E) env dtc rn dids next).
Proof. intros Hn. unfold set_or_fault. keep. done. Qed.
Lemma snapshot_keeps dtc nodes : stays_wf (SetSnapshotData (E := E) env dtc nodes).
Proof. unfold SetSnapshotData, GetSnapshotDataRecordNumByType. keep; repeat apply set_or_fault_keeps; keep. Qed.
Lemma fault_code_keeps dtc did v : stays_wf (UpdateFaultCodeSnapshotData (E := E) env dtc did v).
Proof. unfold UpdateFaultCodeSnapshotData, GetSnapshotDataRecordNumByType. keep; apply set_or_fault_keeps; keep. Qed.

Lemma perform_keeps c : call_ok env c -> stays_wf (perform (E := E) env c).
Proof.
  destruct c as [name v|dtc v n|id n|dtc v|dtc v|v|dtc nodes|dtc did v|dtc| |name|dtc|mask|mask| ];
    cbn [call_ok perform]; intros Hc;
    repeat match goal with |- stays_wf (_ ≫= _) => apply stays_bind; [|intros ?] end; try apply stays_ret.
  - eapply stays_from; [intros; apply (wp_WriteStatusAndDtcByEventName env name v 0); tauto|]. cbv beta; tauto.
  - eapply stays_from; [intros; apply wp_SetDTCStatus; tauto|]. cbv beta; tauto.
  - eapply stays_from; [intros; by apply wp_SetEventFailedCounter|]. cbv beta; tauto.
  - eapply stays_from; [intros; apply wp_SetActivation; tauto|]. cbv beta; tauto.
  - eapply stays_from; [intros; apply wp_SetSuppression; tauto|]. cbv beta; tauto.
  - eapply stays_from; [intros; by apply wp_SetAllSuppression|]. cbv beta; tauto.
  - apply snapshot_keeps.
  - apply fault_code_keeps.
  - eapply stays_from; [intros; by apply wp_DeleteData|]. cbv beta; tauto.
  - eapply stays_from; [intros; by apply wp_DeleteAllData|]. cbv beta; tauto.
  - eapply stays_reading. intros. apply wp_GetEventStatusByName; [done|apply Hc].
  - eapply stays_reading. intros. by apply wp_GetDTCStatus.
  - eapply stays_reading. intros. by apply wp_GetDTCOccurrenceCounter.
  - eapply stays_reading. intros. by apply wp_GetActivation.
  - eapply stays_reading. intros. by apply wp_GetSuppression.
  - intros d Hw. unfold GetDtcByStatusMask. wp_step. apply wp_ReadDtcByStatus; [done|]. intros l d' _ Hs Hu. wp_step. by eapply wf_unchanged.
  - intros d Hw. unfold GetNumOfDtcByStatusMask. wp_step. apply wp_ReadDtcCount; [done|]. intros d' Hs Hu. wp_step. by eapply wf_unchanged.
  - unfold GetSupportedDtc. apply stays_bind; [|intros; apply stays_ret]. eapply stays_reading. intros.
    apply wp_supported; [done|]. unfold call_ok, codes_ok in Hc. exact Hc.
Qed.
Lemma calls_keep cs : Forall (call_ok env) cs -> stays_wf (for_each cs (perform (E := E) env)).
Proof.
  induction 1 as [|c cs Hc Hcs IH]; cbn [for_each]; [apply stays_ret|].
  apply stays_bind; [by apply perform_keeps|done].
Qed.
End Keep.

(** ** Records of snapshots *)
Section Snapshot.
Context {E : Type} `{!Sqlite E} `{!SqliteLaws E} `{!SteadyReads E}.
Variable env : DaoEnv.
Implicit Types d : Dao E.

(** A DTC whose configuration names the last occurrence only. *)
Definition last_only d (dtc rn : Z) : Prop :=
  number_of_type (snapshotRnVec d) dtc Snapshot_LastOccurrence = Some rn /\
  number_of_type (snapshotRnVec d) dtc Snapshot_FirstOccurrence = None.
Definition stored_dids (nodes : list (Z * list Z)) : list taf_DataAccess_FF_DID_t :=
  map (fun p => let v := take (Z.to_nat DATA_ACCESS_DID_DATA_SIZE_MAX) p.2 in
                mkFFDid p.1 (Z.of_nat (length v)) v) nodes.
Definition storable_nodes (nodes : list (Z * list Z)) : Prop :=
  Forall (fun p => in_width 16 p.1 /\ p.2 <> []) nodes /\ NoDup nodes.*1.

Lemma wp_record_count (dtc rn : Z) (Q : Z -> Dao E -> Prop) d : well_formed d ->
  (forall d', well_formed d' -> sane d d' -> unchanged d d' ->
     Q (s32 (Z.of_nat (length (record_rows d dtc rn)))) d') ->
  wp (SnapshotEntityDao.ReadDIDCount dtc rn) Q d.
Proof.
  intros Hw HQ. destruct (wf_table d Hw snapshot_entity) as (tbl & Ht & _). unfold SnapshotEntityDao.ReadDIDCount.
  eapply wp_read_count; [apply Hw|by apply wf_complete|done|exact Ht|]. intros d' Hs Hu.
  unfold record_rows in HQ. rewrite Ht in HQ. apply HQ; [by eapply wf_unchanged|done..].
Qed.
Lemma wp_numbers ty dtc o (Q : option Z -> Dao E -> Prop) d :
  number_of_type (snapshotRnVec d) dtc ty = o -> Q o d -> wp (GetSnapshotDataRecordNumByType dtc ty) Q d.
Proof. intros <- HQ. unfold GetSnapshotDataRecordNumByType. by wp_step. Qed.
Lemma last_only_sane d d' dtc rn : last_only d dtc rn -> sane d d' -> last_only d' dtc rn.
Proof. intros H [_ [_ Hs]]. unfold last_only. by rewrite Hs. Qed.
Lemma record_rows_unchanged d d' dtc rn : unchanged d d' -> record_rows d' dtc rn = record_rows d dtc rn.
Proof. intros Hu. unfold record_rows. by rewrite Hu. Qed.

Lemma wp_new_snapshot dtc rn nodes d : well_formed d -> last_only d dtc rn -> record_rows d (s32 dtc) rn = [] ->
  storable_nodes nodes -> s32 dtc <> -1 -> rn <> -1 ->
  wp (SetSnapshotData env dtc nodes) (fun r d' => well_formed d' /\
    (r = LE_OK -> map did_at (record_rows d' (s32 dtc) rn) ≡ₚ map kept (map did_info nodes))) d.
Proof.
  intros Hw [Hl Hf] Hno [Hst Hnd] Hdtc Hrn. unfold SetSnapshotData. cbv zeta.
  wp_step. eapply wp_numbers; [exact Hl|]. wp_step. eapply wp_numbers; [exact Hf|]. wp_step.
  apply wp_record_count; [done|]. intros d1 Hw1 Hs1 Hu1. rewrite Hno. cbn [length]. change (s32 (Z.of_nat 0) =? 0) with true.
  cbn [negb]. unfold set_or_fault. wp_step. eapply wp_conseq; [apply (wp_new_record env (s32 dtc) rn); try done|].
  - apply Forall_fmap. eapply Forall_impl; [exact Hst|]. by intros p.
  - change (NoDup (map di_did (map did_info nodes))). by rewrite map_map.
  - by rewrite (record_rows_unchanged d d1).
  - intros r d2 [Hw2 Hr]. cbv beta. unfold ok. case_bool_decide as Hok; wp_step; (split; [done|]); [intros _; by apply Hr|done].
Qed.

(** Reading a record: nothing, at most ten DIDs, or more than its set has room for. *)
Lemma spec_record dtc rn acc d : well_formed d -> let rows := record_rows d (s32 dtc) rn in
  if (DATA_ACCESS_FF_DID_SIZE_MAX <? Z.of_nat (length rows))
  then GetSpecSnapshotRecByDtc dtc rn acc d = Faulted OutOfBounds
  else wp (GetSpecSnapshotRecByDtc dtc rn acc) (fun q d' => sane d d' /\ unchanged d d' /\
         match rows with
         | [] => q = (LE_NOT_FOUND, acc)
         | _ => exists l, l ≡ₚ map did_at rows /\
                  q = (LE_OK, acc ++ [mkSnapshotData rn (Z.of_nat (length rows)) (map ff_did_of l)])
         end) d.
Proof.
  intros Hw rows. pose proof (wp_GetDIDRecord (s32 dtc) rn (fun l d' => l ≡ₚ map did_at rows /\ sane d d' /\ unchanged d d')
    d Hw ltac:(done)) as H. unfold GetSpecSnapshotRecByDtc. case_match eqn:Hlen.
  - unfold mbind, M_bind. unfold wp in H. destruct (SnapshotEntityDao.GetDIDRecord (s32 dtc) rn d) as [[l d']|]; [|done].
    destruct H as [Hp _]. apply Permutation_length in Hp. rewrite length_map in Hp. rewrite Hp.
    destruct rows; [done|]. cbn [length Nat.eqb] in *. by rewrite Hlen.
  - wp_step. eapply wp_conseq; [exact H|]. intros l d' (Hp & Hs & Hu). cbv beta.
    pose proof (Permutation_length Hp) as Hl. rewrite length_map in Hl. rewrite Hl, Hlen.
    destruct rows as [|row rows'] eqn:Hrows; cbn [length Nat.eqb]; wp_step; [done|]. split_and!; [done..|]. by exists l.
Qed.

Lemma ff_of_kept p : in_width 16 p.1 -> ff_did_of (kept (did_info p)) =
  let v := take (Z.to_nat DATA_ACCESS_DID_DATA_SIZE_MAX) p.2 in mkFFDid p.1 (Z.of_nat (length v)) v.
Proof.
  intros Hp. unfold ff_did_of, kept, did_info. cbn [di_did di_val]. rewrite take_take, Nat.min_id, wrap_id by done. done.
Qed.
Lemma ff_of_nodes l nodes : storable_nodes nodes -> l ≡ₚ map kept (map did_info nodes) ->
  map ff_did_of l ≡ₚ stored_dids nodes.
Proof.
  intros [Hst _] Hp. rewrite (fmap_Permutation ff_did_of _ _ Hp). unfold stored_dids.
  change (map ff_did_of (map kept (map did_info nodes)) ≡ₚ map (fun p => let v := take (Z.to_nat DATA_ACCESS_DID_DATA_SIZE_MAX) p.2 in
                mkFFDid p.1 (Z.of_nat (length v)) v) nodes).
  rewrite !map_map. erewrite map_ext_Forall; [done|].
  eapply Forall_impl; [exact Hst|]. intros p [H _]. by apply ff_of_kept.
Qed.
End Snapshot.

(** ** The DIDs of a record *)
Section Record.
Context {E : Type} `{!Sqlite E} `{!SqliteLaws E} `{!SteadyReads E}.
Variable env : DaoEnv.
Implicit Types d : Dao E.
Definition has_did d (dtc rn did : Z) : Prop :=
  exists row, row ∈ record_rows d dtc rn /\ cell row "DID" = VInt did.
Lemma holds_did dtc rn did row : holds (of_did dtc rn did) row = true <->
  holds (SnapshotEntityDao.of_record dtc rn) row = true /\ cell row "DID" = VInt did.
Proof.
  unfold of_did. cbn [holds]. rewrite andb_true_iff.
  assert ((match cell row "DID" with VInt v => v =? did | _ => false end) = true <-> cell row "DID" = VInt did) as ->; [|done].
  destruct (cell row "DID"); try done. rewrite Z.eqb_eq. split; congruence.
Qed.
Lemma nothing_has d dtc rn did : well_formed d -> nothing d (of_did dtc rn did) <-> ~ has_did d dtc rn did.
Proof.
  intros Hw. destruct (wf_table d Hw snapshot_entity) as (tbl & Ht & _). unfold nothing, has_did, record_rows, row_at.
  rewrite Ht. cbn [mbind option_bind]. split.
  - intros Hn (row & (Hh & id & Hid)%elem_of_rows & Hd). assert (holds (of_did dtc rn did) row = true) as H1 by (by apply holds_did).
    by rewrite (Hn id row Hid) in H1.
  - intros Hn id row Hid. apply not_true_is_false. intros [Hh Hd]%holds_did. apply Hn. exists row. split; [|done].
    apply elem_of_rows. split; [done|eauto].
Qed.
Lemma wp_second_snapshot_fails dtc rn i j nodes d : well_formed d ->
  number_of_type (snapshotRnVec d) dtc Snapshot_LastOccurrence = Some rn ->
  0 < Z.of_nat (length (record_rows d (s32 dtc) rn)) < 0x80000000 ->
  has_did d (s32 dtc) rn i.1 -> ~ has_did d (s32 dtc) rn j.1 ->
  wp (SetSnapshotData env dtc (i :: j :: nodes)) (fun r _ => r <> LE_OK) d.
Proof.
  intros Hw Hl Hlen Hi Hj. unfold SetSnapshotData. cbv zeta.
  wp_step. eapply wp_numbers; [exact Hl|]. wp_step. eapply wp_numbers; [done|]. wp_step.
  apply wp_record_count; [done|]. intros d1 Hw1 Hs1 Hu1. rewrite s32_id by (unfold is_int32; lia).
  rewrite (proj2 (Z.eqb_neq _ 0)) by lia. cbn [negb]. case_match; [by wp_step|].
  assert (forall did, has_did d1 (s32 dtc) rn did <-> has_did d (s32 dtc) rn did) as Hsame
    by (intros did; unfold has_did; by rewrite (record_rows_unchanged d d1)).
  apply (wp_second_did_fails env _ _ (did_info i) (did_info j)); [done|..].
  - intros Hn%nothing_has; [|done]. apply Hn. by apply Hsame.
  - apply nothing_has; [done|]. by intros H2%Hsame.
  - intros He. change (i.1 = j.1) in He. apply Hj. by rewrite <- He.
Qed.
End Record.

(** ** Reported DTCs are different *)
Lemma rows_nodup {A} (f : Row -> A) (P : Row -> Prop) `{!forall r, Decision (P r)} (tbl : Table) :
  (forall i j r r', tbl !! i = Some r -> tbl !! j = Some r' -> f r = f r' -> i = j) ->
  NoDup (map f (filter P (all_rows tbl))).
Proof.
  intros Hf. unfold all_rows.
  assert (forall p, p ∈ map_to_list tbl -> tbl !! p.1 = Some p.2) as Hin by (intros [k r]; apply elem_of_map_to_list).
  pose proof (NoDup_fst_map_to_list tbl) as Hnd. induction (map_to_list tbl) as [|[k r] l IH]; [constructor|].
  rewrite fmap_cons in *. apply NoDup_cons in Hnd as [Hk Hnd].
  assert (NoDup (map f (filter P l.*2))) as Hl by (apply IH; [intros p Hp; apply Hin; by right|done]).
  cbn [snd]. destruct (decide (P r)) as [Hp|Hp]; [rewrite filter_cons_True by done|by rewrite filter_cons_False].
  cbn [map]. apply NoDup_cons. split; [|done]. intros (r' & Heq & [_ Hr']%list_elem_of_filter)%list_elem_of_fmap.
  apply list_elem_of_fmap in Hr' as ([k' r''] & -> & Hp'). apply Hk. cbn [fst].
  rewrite (Hf k k' r r''); [|by apply (Hin (k, r)); left|by apply (Hin (k', r'')); right|done].
  by apply (list_elem_of_fmap_2 fst _ (k', r'')).
Qed.
Lemma u16_s32 z : u16 (s32 z) = u16 z.
Proof.
  unfold s32, wrap. change (2 ^ 16) with 65536. rewrite <- (Zminus_mod_idemp_l _ 0x80000000).
  assert (forall a, a mod 0x100000000 mod 65536 = a mod 65536) as ->
    by (intros a; apply Z.mod_mod_divide; by exists 65536).
  rewrite Zminus_mod_idemp_l. f_equal. lia.
Qed.
Section Distinct.
Context {E : Type} `{!Sqlite E} `{!SqliteLaws E}.
Implicit Types d : Dao E.
Lemma reported_distinct d m : well_formed d -> NoDup (map st_dtc (map reported_of (matching d m))).
Proof.
  intros Hw. destruct (wf_table d Hw dtc_entity) as (tbl & Ht & Hok). unfold matching. rewrite Ht, map_map.
  unfold rows_where. apply rows_nodup. intros i j r r' Hi Hj.
  destruct (proj1 Hok _ _ Hi) as [Hci [Hki _]], (proj1 Hok _ _ Hj) as [Hcj [Hkj _]]. cbn in Hci, Hcj.
  cbn [st_dtc reported_of]. rewrite Hci, Hcj. cbn [int_of]. rewrite !(s32_id) by done.
  intros He. by rewrite <- (s32_u32 i Hki), <- (s32_u32 j Hkj), He.
Qed.
End Distinct.

(** ** What the DTC interface reads

    The queries of the DTC interface leave the tables alone; how much they return; and which
    results clearing has. *)
(** A loop depends on what its body does. *)
Lemma next_rows_ext {E} `{!Sqlite E} {B} (body body' : B -> list Val -> M (Dao E) (B * bool)) n :
  (forall acc row d, body acc row d = body' acc row d) ->
  forall st acc d, next_rows n st acc body d = next_rows n st acc body' d.
Proof.
  intros Hb. induction n as [|n IH]; intros st acc d; [done|]. cbn [next_rows]. unfold mbind, M_bind. rewrite Hb.
  destruct (body' acc (current st) d) as [[[a []] d1]|]; try done. cbn [fst snd negb].
  destruct (ExecuteRowStep st d1) as [[[[] st2] d2]|]; try done. cbn [fst snd negb]. apply IH.
Qed.
Lemma wp_each_row_ext {E} `{!Sqlite E} {B} (body body' : B -> list Val -> M (Dao E) (B * bool)) st acc Q d :
  (forall acc row d, body acc row d = body' acc row d) -> wp (each_row st acc body) Q d -> wp (each_row st acc body') Q d.
Proof.
  intros Hb H. unfold each_row in *. apply wp_bind_inv in H. apply wp_bind. eapply wp_conseq; [exact H|].
  intros [[] st1] d1; cbn [fst snd negb]; [|done]. unfold wp. by rewrite (next_rows_ext body body').
Qed.

Section Reads.
Context {E : Type} `{!Sqlite E} `{!SqliteLaws E} `{!SteadyReads E}.
Variable env : DaoEnv.
Implicit Types d : Dao E.

(** A query: the tables stay as they are. *)
Definition reading {A} (c : M (Dao E) A) d (P : A -> Prop) : Prop :=
  wp c (fun a d' => P a /\ sane d d' /\ unchanged d d') d.
Lemma reading_ret {A} (a : A) d (P : A -> Prop) : well_formed d -> P a -> reading (mret a) d P.
Proof. intros [Hc _] H. by apply wp_ret. Qed.
Lemma reading_bind {A B} (c : M (Dao E) A) (f : A -> M (Dao E) B) d P (Q : B -> Prop) :
  reading c d P -> well_formed d ->
  (forall a d', P a -> well_formed d' -> unchanged d d' -> snapshotRnVec d' = snapshotRnVec d -> reading (f a) d' Q) ->
  reading (c ≫= f) d Q.
Proof.
  intros Hc Hw Hf. apply wp_bind. eapply wp_conseq; [exact Hc|]. intros a d' (HP & Hs & Hu). cbv beta.
  eapply wp_conseq; [apply Hf; [done|by eapply wf_unchanged|done|by apply Hs]|]. intros b d2 (HQ & Hs2 & Hu2).
  split_and!; [done|by eapply sane_trans|by eapply unchanged_trans].
Qed.
Lemma reading_impl {A} (c : M (Dao E) A) d (P Q : A -> Prop) : reading c d P -> (forall a, P a -> Q a) -> reading c d Q.
Proof. intros Hc H. eapply wp_conseq; [exact Hc|]. intros a d' (H1 & H2). split; [by apply H|exact H2]. Qed.
Lemma reading_gets {A} (f : Dao E -> A) d : well_formed d -> reading (gets f) d (fun a => a = f d).
Proof. intros [Hc _]. by apply wp_gets. Qed.

(** ** DTCs *)
Lemma read_status code d : well_formed d -> dtc_code code -> reading (DtcEntityDao.ReadStatusByDtc env (s32 code)) d (fun _ => True).
Proof.
  intros Hw Hc. unfold reading. apply wp_ReadStatus; [done|done|]. by intros q d' Hs Hu _ _.
Qed.
Lemma read_suppression z d : well_formed d -> reading (GetSuppression env (u32 z)) d (fun _ => True).
Proof.
  intros Hw. destruct (decide (u32 z = 0xFFFFFFFF)) as [->|Hne].
  - assert (GetSuppression env 0xFFFFFFFF d = Done (0, d)) as H by done.
    unfold reading, wp. rewrite H. destruct Hw. by split.
  - eapply wp_conseq; [apply wp_GetSuppression; [done|]|by intros v d' (_ & H)].
    pose proof (wrap_in_width 32 z ltac:(lia)) as H. unfold dtc_code, in_width in *. lia.
Qed.

(** ** Snapshots *)
Definition snapshot_rows d : nat :=
  match tab d snapshot_entity with Some tbl => length (all_rows tbl) | None => 0%nat end.

Definition next_info (acc : list taf_DataAccess_SnapshotInfo_t * (Z * Z)) (row : list Val) :=
  let dtc := int_of (col row 1) in
  let rn := int_of (col row 4) in
  let '(infos, (preDtc, preRn)) := acc in
  if negb (preDtc =? -1) && (preDtc =? dtc) && (preRn =? rn) then acc
  else (infos ++ [mkSnapshotInfo (u32 dtc) (u8 rn)], (dtc, rn)).
Definition u32_code (i : taf_DataAccess_SnapshotInfo_t) : Prop := exists z, si_dtc i = u32 z.
Lemma next_infos rows acc : Forall u32_code acc.1 ->
  let r := foldl next_info acc rows in Forall u32_code r.1 /\ (length r.1 <= length acc.1 + length rows)%nat.
Proof.
  revert acc. induction rows as [|row rows IH]; intros [infos [p q]] Ha; cbn [foldl length fst] in *; [split; [done|lia]|].
  unfold next_info at 2 4. destruct (negb (p =? -1) && (p =? int_of (col row 1)) && (q =? int_of (col row 4))).
  - destruct (IH (infos, (p, q)) Ha) as [H1 H2]. split; [exact H1|]. cbn [fst] in H2. lia.
  - specialize (IH (infos ++ [mkSnapshotInfo (u32 (int_of (col row 1))) (u8 (int_of (col row 4)))],
      (int_of (col row 1), int_of (col row 4)))). cbn [fst] in IH. destruct IH as [H1 H2].
    { apply Forall_app. split; [done|]. repeat constructor. by eexists. }
    split; [exact H1|]. rewrite length_app in H2. cbn in H2. lia.
Qed.
Lemma read_all_records d : well_formed d ->
  reading SnapshotEntityDao.GetAllDTCRecord d (fun l => Forall u32_code l /\ (length l <= snapshot_rows d)%nat).
Proof.
  intros Hw. destruct (wf_table d Hw snapshot_entity) as (tbl & Ht & Hok).
  unfold reading, SnapshotEntityDao.GetAllDTCRecord, Query. wp_step.
  apply wp_open; [apply Hw|by apply wf_complete|done|]. intros st d1 Hst Hs Hu. cbv beta. wp_step.
  match goal with |- wp (each_row st ?a ?body) ?Q _ =>
    assert (wp (each_row st a (fun acc row => mret (next_info acc row, true))) Q d1) as H end.
  { eapply (wp_read_rows next_info _ snapshot_entity); [| |exact Hst|by rewrite (Hu _)|apply Hs|]; [done|done|].
    intros rows d2 Hp Hs2 Hu2. merge. wp_step. split; [|done].
    pose proof (next_infos rows ([], (-1, 0)) (Forall_nil_2 _)) as H. cbn [fst] in H. destruct H as [H1 H2].
    split; [exact H1|]. etransitivity; [exact H2|]. cbn [length]. rewrite Hp. unfold snapshot_rows. rewrite Ht.
    cbn [answer rows_where]. by rewrite length_map. }
  eapply wp_each_row_ext; [|exact H]. intros [infos [p q]] row d'. unfold next_info. cbv zeta.
  by destruct (negb (p =? -1) && (p =? int_of (col row 1)) && (q =? int_of (col row 4))).
Qed.
Lemma read_unsuppressed infos d : well_formed d -> Forall u32_code infos ->
  reading (unsuppressed env infos) d (fun l => (length l <= length infos)%nat).
Proof.
  revert d. induction infos as [|i infos IH]; intros d Hw Hi; cbn [unsuppressed]; [by apply reading_ret|].
  apply Forall_cons in Hi as [[z Hz] Hi]. rewrite Hz.
  eapply reading_bind; [by apply read_suppression|done|]. intros v d1 _ Hw1 _ _.
  eapply reading_bind; [by apply IH|done|]. intros l d2 Hl Hw2 _ _. apply reading_ret; [done|].
  cbv beta in Hl. destruct (v =? 0); cbn [length]; lia.
Qed.
Lemma read_identification d : well_formed d ->
  reading (GetSnapshotIdentification env) d (fun l => (length l <= snapshot_rows d)%nat).
Proof.
  intros Hw. unfold GetSnapshotIdentification. eapply reading_bind; [by apply read_all_records|done|].
  intros infos d1 [H1 H2] Hw1 _ _. eapply reading_impl; [by apply read_unsuppressed|]. intros l Hl. cbv beta in *. lia.
Qed.

(** A record as the data base builds it, when its set holds it. *)
Definition did_ok (f : taf_DataAccess_FF_DID_t) : Prop :=
  ff_didDataSize f = Z.of_nat (length (ff_didData f)) /\ ff_didDataSize f <= DATA_ACCESS_DID_DATA_SIZE_MAX.
Definition record_ok (r : taf_DataAccess_SnapshotData_t) : Prop :=
  recDidSize r = Z.of_nat (length (didSet r)) /\ (length (didSet r) <= 10)%nat /\ Forall did_ok (didSet r).
Definition sets_fit d (dtc : Z) : Prop := forall rn, (length (record_rows d (s32 dtc) rn) <= 10)%nat.
Definition numbers_of d (dtc : Z) : list (Z * Z * Snapshot_Type_t) := filter (fun i => i.1.2 = dtc) (snapshotRnVec d).

Lemma ff_did_ok i : did_ok (ff_did_of i).
Proof. unfold did_ok, ff_did_of. cbn. split; [done|]. rewrite length_take. lia. Qed.
Lemma read_record dtc rn acc d : well_formed d -> sets_fit d dtc -> Forall record_ok acc ->
  reading (GetSpecSnapshotRecByDtc dtc rn acc) d (fun q => Forall record_ok q.2 /\ (length q.2 <= S (length acc))%nat).
Proof.
  intros Hw Hf Ha. pose proof (spec_record dtc rn acc d Hw) as H. cbv zeta in H. specialize (Hf rn).
  rewrite (proj2 (Z.ltb_ge _ _)) in H by lia. eapply wp_conseq; [exact H|]. intros q d' (Hs & Hu & Hq).
  split; [|done]. destruct (record_rows d (s32 dtc) rn) as [|row rows] eqn:Hrows.
  - rewrite Hq. cbn. split; [done|lia].
  - destruct Hq as (l & Hp & ->). cbn [snd]. split; [|rewrite length_app; cbn; lia].
    apply Forall_app. split; [done|]. apply Forall_singleton. apply Permutation_length in Hp.
    rewrite length_map in Hp. unfold record_ok. cbn [recDidSize didSet]. rewrite length_map, Hp. split_and!; [done|done|].
    apply Forall_fmap, Forall_true. intros i. apply ff_did_ok.
Qed.
Lemma sets_fit_unchanged d d' dtc : unchanged d d' -> sets_fit d dtc -> sets_fit d' dtc.
Proof. intros Hu H rn. by rewrite (record_rows_unchanged d d'). Qed.
Lemma read_all_numbers dtc numbers acc d : well_formed d -> sets_fit d dtc -> Forall record_ok acc ->
  reading (all_records dtc numbers acc) d (fun l => Forall record_ok l /\
    (length l <= length acc + length (filter (fun i => i.1.2 = dtc) numbers))%nat).
Proof.
  revert acc d. induction numbers as [|[[rn code] ty] numbers IH]; intros acc d Hw Hf Ha; cbn [all_records].
  - apply reading_ret; [done|]. split; [done|cbn; lia].
  - rewrite filter_cons. cbn [fst snd]. destruct (Z.eqb_spec code dtc) as [->|Hne]; cbn [negb].
    + rewrite decide_True by done. eapply reading_bind; [by apply read_record|done|].
      intros q d1 [H1 H2] Hw1 Hu1 _. eapply reading_impl; [apply IH; [done|by eapply sets_fit_unchanged|done]|].
      intros l [H3 H4]. split; [done|]. cbn [length]. lia.
    + rewrite decide_False by done. by apply IH.
Qed.
Lemma read_snapshot_record dtc rn d : well_formed d -> dtc_code dtc -> sets_fit d dtc ->
  reading (GetSnapshotRecByDtc env dtc rn) d (fun q => q.1 = LE_OK -> exists r, q.2 = Some r /\
    Forall record_ok (snapshotDataList r) /\ (length (snapshotDataList r) <= Nat.max 1 (length (numbers_of d dtc)))%nat).
Proof.
  intros Hw Hc Hf. unfold GetSnapshotRecByDtc. eapply reading_bind; [by apply read_status|done|].
  intros q d1 _ Hw1 Hu1 Hn1. assert (sets_fit d1 dtc) as Hf1 by by eapply sets_fit_unchanged.
  destruct (negb (ok q.1)); [by apply reading_ret|]. destruct (negb _); [by apply reading_ret|]. cbv zeta.
  destruct (rn =? 0xFF).
  - unfold GetAllSnapshotRecByDtc. eapply reading_bind; [|done|].
    + eapply reading_bind; [by apply reading_gets|done|]. intros numbers d2 -> Hw2 Hu2 Hn2.
      apply read_all_numbers; [done|by eapply sets_fit_unchanged|done].
    + intros l d2 [H1 H2] Hw2 _ _. apply reading_ret; [done|]. intros _. eexists. split; [done|]. split; [exact H1|].
      cbn [snapshotDataList length] in *. unfold numbers_of. rewrite <- Hn1. lia.
  - eapply reading_bind; [by apply reading_gets|done|]. intros known d2 _ Hw2 Hu2 Hn2.
    destruct (negb known); [by apply reading_ret|].
    eapply reading_bind; [apply read_record; [done|by eapply sets_fit_unchanged|done]|done|].
    intros r d3 [H1 H2] Hw3 _ _. apply reading_ret; [done|]. intros _. eexists. split; [done|]. split; [exact H1|].
    cbn [snapshotDataList length] in *. lia.
Qed.

Lemma read_extended dtc rn d : well_formed d -> dtc_code dtc ->
  reading (GetExtDataRecByDtc env dtc rn) d (fun q => q.1 = LE_OK -> exists r, q.2 = Some r /\
    (length (extDataList r) <= 1)%nat /\ Forall (fun e => length (extDataBytes e) = 1%nat) (extDataList r)).
Proof.
  intros Hw Hc. unfold GetExtDataRecByDtc. destruct (_ && _); [by apply reading_ret|].
  eapply reading_bind; [|done|].
  { assert (dtc = u32 dtc) as -> by (symmetry; apply wrap_id; unfold dtc_code, in_width in *; lia).
    by apply read_suppression. }
  intros v d1 _ Hw1 _ _. destruct (negb _); [by apply reading_ret|].
  eapply reading_bind; [by apply read_status|done|]. intros [r x] d2 _ Hw2 _ _. apply reading_ret; [done|].
  destruct r; cbn [fst snd]; intros Hr; try discriminate Hr; eexists; (split; [done|]); cbn; (split; [lia|]); repeat constructor.
Qed.

End Reads.

(** ** The results of clearing *)
Definition returns {S A} (c : M S A) (P : A -> Prop) : Prop := forall s a s', c s = Done (a, s') -> P a.
Definition clear_result (r : le_result_t) : Prop := r = LE_OK \/ r = LE_UNAVAILABLE \/ r = LE_IO_ERROR.

Lemma returns_ret {S A} (a : A) (P : A -> Prop) : P a -> returns (S := S) (mret a) P.
Proof. intros H s a' s' [= <- _]. exact H. Qed.
Lemma returns_bind {S A B} (c : M S A) (f : A -> M S B) (P : A -> Prop) (Q : B -> Prop) :
  returns c P -> (forall a, P a -> returns (f a) Q) -> returns (c ≫= f) Q.
Proof. intros Hc Hf s b s' (a & s1 & H1 & H2)%bind_run. by eapply Hf; [eapply Hc|]. Qed.
Lemma returns_any {S A} (c : M S A) : returns c (fun _ => True).
Proof. done. Qed.
Lemma wp_returns {S A} (c : M S A) (P : A -> Prop) Q s : returns c P -> wp c Q s -> wp c (fun a s' => P a /\ Q a s') s.
Proof. intros Hr H. unfold wp in *. destruct (c s) as [[a s']|] eqn:Hc; [|done]. split; [by eapply Hr|done]. Qed.
Lemma returns_on_db {T A} (c : M T A) P : returns c P -> returns (on_db c) P.
Proof. intros H s a s'. unfold on_db. destruct (c (db s)) as [[b t]|] eqn:Hc; [|done]. intros [= <- _]. by eapply H. Qed.

(** By the structure of the program, given the results of its calls. *)
Create HintDb dao_returns.
Ltac returns_tac :=
  repeat first
    [ progress auto 1 with dao_returns nocore
    | match goal with
      | |- returns (mret _) _ => apply returns_ret; unfold clear_result; auto
      | |- returns (if ?b then _ else _) _ => destruct b eqn:?
      | |- returns (?c ≫= _) _ => eapply returns_bind; [solve [eauto 2 with dao_returns nocore]|intros ? ?]
      | |- returns (_ ≫= _) _ => eapply returns_bind; [apply returns_any|intros ? _]
      end ].

Section Results.
Context {E : Type} `{!Sqlite E}.
Variable env : DaoEnv.

Lemma run_row_returns {X} `{!Entity X} k st : returns (run_row (E := E) X k st) clear_result.
Proof. unfold run_row. returns_tac. case_match; unfold clear_result; auto. Qed.
#[local] Hint Resolve run_row_returns : dao_returns.
Lemma update_returns {X} `{!Entity X} (x : X) : returns (DaoSql.Update (E := E) env x) clear_result.
Proof. unfold DaoSql.Update. returns_tac. Qed.
Lemma remove_returns {X} `{!Entity X} (x : X) : returns (Remove (E := E) x) clear_result.
Proof. unfold Remove. returns_tac. Qed.
#[local] Hint Resolve update_returns remove_returns : dao_returns.

Lemma each_row_returns {B} (body : B -> list Val -> M (Dao E) (B * bool)) (P : B -> Prop) st acc :
  (forall acc row, P acc -> returns (body acc row) (fun b => P b.1)) -> P acc -> returns (each_row st acc body) P.
Proof.
  intros Hb Ha. unfold each_row. eapply returns_bind; [apply returns_any|]. intros [[] st1] _; cbn [fst snd negb]; [|by apply returns_ret].
  generalize (Datatypes.S (length (default [] (rest st1)))). intros n. revert st1 acc Ha. induction n as [|n IH]; intros st1 acc Ha; [by intros s ? ?|]. cbn [next_rows].
  eapply returns_bind; [by apply Hb|]. intros [b []] Hp; cbn [fst snd negb] in *; [|by apply returns_ret].
  eapply returns_bind; [apply returns_any|]. intros [[] st2] _; cbn [fst snd negb]; [by apply IH|by apply returns_ret].
Qed.

Lemma delete_returns dtc : returns (DeleteData (E := E) env dtc) clear_result.
Proof.
  assert (returns (DtcEntityDao.ClearDtcRecord (E := E) env (s32 dtc)) clear_result) as H1.
  { unfold DtcEntityDao.ClearDtcRecord. returns_tac. }
  assert (returns (clear_events_of (E := E) env dtc) clear_result) as H2.
  { unfold clear_events_of. destruct (amap_at _ _) as [entry|]; [|returns_tac].
    induction (dtc_events entry) as [|id ids IH]; cbn [clear_events]; [returns_tac|].
    eapply (returns_bind _ _ clear_result); [unfold EventEntityDao.ClearEventRecord; returns_tac|].
    intros r Hr. destruct (ok r); [done|by apply returns_ret]. }
  assert (returns (SnapshotEntityDao.ClearFFRecordByDtc (E := E) env (s32 dtc)) clear_result) as H3.
  { unfold SnapshotEntityDao.ClearFFRecordByDtc. eapply returns_bind; [apply returns_any|]. intros st _.
    apply each_row_returns; [|by left]. intros acc row _. eapply (returns_bind _ _ clear_result); [apply remove_returns|].
    intros r Hr. apply returns_ret. by destruct (ok r); [left|]. }
  unfold DeleteData. returns_tac.
Qed.
Lemma delete_all_returns : returns (DeleteAllData (E := E) env) clear_result.
Proof.
  unfold DeleteAllData. eapply returns_bind; [apply returns_any|]. intros dtcs _.
  induction dtcs as [|dtc dtcs IH]; cbn [delete_each]; [returns_tac|].
  eapply returns_bind; [apply delete_returns|]. intros r Hr. destruct (ok r); [done|by apply returns_ret].
Qed.
End Results.
