(* ===== verification/DaoSample.v ===== *)
(** * The data base of the diagnostic events: SQLite in memory

    Three tables in memory, which show that the interfaces [SqliteLaws] and [SteadyReads] can be
    met: queries answer at once, a key that is given twice is refused, and a new key is one more
    than the largest. The data base over it is created and filled as at start-up. *)
From S2P Require Import Prelude DiagCfg DemTypes DemInit DaoTypes DaoSql DaoEntities DaoSpec DaoRules DaoDem.
From S2P Require Import DaoStore DaoEvents DaoClear DaoLoad.
From S2P Require Import DemSpec DemInv DemStart DemSafe DaoStack DemSample.

(** ** The engine *)
Definition Mem := Tab -> option Table.
Definition put (t : Tab) (o : option Table) (m : Mem) : Mem := fun t' => if decide (t' = t) then o else m t'.
Lemma put_becomes t o (m : Mem) : becomes (fun m : Mem => m) m (put t o m) t o.
Proof. unfold put. split; [by rewrite decide_True|]. intros t' Ht. by rewrite decide_False. Qed.

(** Every key in use is below the new one. *)
Definition next_key (tbl : Table) : Z := 1 + foldr Z.max 0 (map_to_list tbl).*1.
Lemma next_key_fresh tbl : tbl !! next_key tbl = None /\ 0 < next_key tbl.
Proof.
  unfold next_key. assert (forall l k, k ∈ l -> k <= foldr Z.max 0 l /\ 0 <= foldr Z.max 0 l) as Hmax.
  { induction l as [|x l IH]; intros k Hk; [by apply elem_of_nil in Hk|]. cbn.
    apply elem_of_cons in Hk as [->|Hk]; [|destruct (IH k Hk); lia].
    destruct l as [|y l]; [cbn; lia|]. destruct (IH y ltac:(by left)). lia. }
  split.
  - destruct (tbl !! _) as [r|] eqn:Hr; [|done]. apply elem_of_map_to_list in Hr.
    apply (list_elem_of_fmap_2 fst) in Hr. cbn in Hr. apply Hmax in Hr. lia.
  - destruct (map_to_list tbl).*1 as [|x l]; [done|]. destruct (Hmax (x :: l) x ltac:(by left)). lia.
Qed.

Definition new_key (v : Val) (tbl : Table) : option Z :=
  match v with
  | VInt z => if decide (tbl !! z = None) then Some z else None
  | VNull => if next_key tbl <? 0x80000000 then Some (next_key tbl) else None
  | _ => None
  end.
Definition changed (t : Tab) (o : option Table) : M Mem StepResult :=
  match o with Some tbl => modify (put t (Some tbl));; mret (SQLITE_DONE 1) | None => mret SQLITE_ERROR end.
Definition on_table (t : Tab) (f : Table -> M Mem StepResult) : M Mem StepResult :=
  o ← gets (fun m => m t); match o with Some tbl => f tbl | None => mret SQLITE_ERROR end.
Definition first_of (rows : list (list Val)) : StepResult :=
  match rows with row :: more => SQLITE_ROW row more | [] => SQLITE_DONE 0 end.

Definition mem_step (q : Stmt) (b : amap Z Val) (rows : option (list (list Val))) : M Mem StepResult :=
  match rows with
  | Some rows => mret (first_of rows)
  | None =>
      match q with
      | SelectTableName => mret (SQLITE_DONE 0)
      | Insert t cols => on_table t (fun tbl =>
          let r := bound_row cols b in
          changed t (id ← new_key (cell r (primary_key t)) tbl;
                     Some (<[id := set_cell (primary_key t) (VInt id) r]> tbl)))
      | DaoTypes.Update t cols pk => on_table t (fun tbl =>
          changed t (match bound b (length cols + 1), cell (bound_row cols b) pk with
                     | VInt k, VInt k' => if k =? k' then Some (alter (fun _ => bound_row cols b) k tbl) else None
                     | _, _ => None
                     end))
      | Delete t _ => on_table t (fun tbl =>
          changed t (match bound b 1 with VInt k => Some (delete k tbl) | _ => None end))
      | Select t _ _ | SelectKey t _ _ | SelectCount t _ | SelectExists t =>
          on_table t (fun tbl => mret (first_of (answer tbl q b)))
      end
  end.
Definition mem_exec (c : Command) : M Mem (option Z) :=
  match c with
  | CreateTableCmd t unless =>
      o ← gets (fun m => m t);
      match o with
      | Some _ => mret (if (unless : bool) then Some 0 else None)
      | None => modify (put t (Some ∅));; mret (Some 0)
      end
  | DropTableCmd t unless =>
      o ← gets (fun m => m t);
      match o with
      | Some _ => modify (put t None);; mret (Some 0)
      | None => mret (if (unless : bool) then Some 0 else None)
      end
  | UpdateWhereNot t c z =>
      o ← gets (fun m => m t);
      match o with
      | Some tbl =>
          modify (put t (Some ((fun r => if holds (ColIsNot c z) r then set_cell c (VInt z) r else r) <$> tbl)));;
          mret (Some 1)
      | None => mret None
      end
  end.
#[export] Instance mem_sqlite : Sqlite Mem := {|
  sqlite3_prepare_v2 q :=
    gets (fun m => match names_table q with Some t => bool_decide (is_Some (m t)) | None => true end);
  sqlite3_step := mem_step;
  sqlite3_exec := mem_exec |}.

(** ** It keeps the laws *)
Lemma wp_on_table t f (Q : StepResult -> Mem -> Prop) m :
  (forall tbl, m t = Some tbl -> wp (f tbl) Q m) -> (m t = None -> Q SQLITE_ERROR m) -> wp (on_table t f) Q m.
Proof. intros H1 H2. unfold on_table. do 2 wp_step. destruct (m t) eqn:Ht; [by apply H1|wp_step; by apply H2]. Qed.
Lemma wp_changed_table t o (after : Table -> Table -> Prop) m tbl : m t = Some tbl ->
  (forall tbl', o = Some tbl' -> after tbl tbl') ->
  wp (changed t o) (changes_to (fun m : Mem => m) m t after) m.
Proof.
  intros Ht Ha. unfold changed. destruct o as [tbl'|]; [|by wp_step]. wp_step. wp_step. wp_step. cbn. split; [done|].
  exists tbl, tbl'. split_and!; [done|by apply Ha|apply put_becomes].
Qed.
Lemma first_of_more rows row more : first_of rows = SQLITE_ROW row more -> rows = row :: more.
Proof. destruct rows; [done|]. by intros [= -> ->]. Qed.

#[export] Program Instance mem_laws : SqliteLaws Mem := {| tables := fun m => m |}.
Next Obligation.
  intros c m. change (wp (mem_exec c) (fun _ _ => True) m).
  destruct c as [t u|t u|t c z]; unfold mem_exec; do 2 wp_step; destruct (m t); repeat wp_step; done.
Qed.
Next Obligation.
  intros q b rows m. change (wp (mem_step q b rows) (fun r _ => forall l row more,
    rows = Some l -> r = SQLITE_ROW row more -> l = row :: more) m). unfold mem_step. destruct rows as [rows|].
  - wp_step. intros l row more [= ->]. apply first_of_more.
  - eapply (wp_conseq _ (fun _ _ => True)); [|by intros].
    destruct q; try (apply wp_on_table; [intros tbl _|done]); cbv zeta; unfold changed; try case_match;
      repeat wp_step; done.
Qed.
Next Obligation. intros q m. unfold sqlite3_prepare_v2, mem_sqlite. by wp_step. Qed.
Next Obligation.
  intros q b m t Hq Hp. change (wp (mem_step q b None) (fun r e' => same (fun m : Mem => m) m e' /\
    match m t with Some tbl => begins r (answer tbl q b) | None => r = SQLITE_ERROR end) m). unfold mem_step.
  assert (forall l, begins (first_of l) l) as Hfirst by (intros []; cbn; reflexivity).
  destruct q; try done; injection Hq as ->; (apply wp_on_table; [intros tbl Ht; rewrite Ht|by intros ->]); wp_step;
    (split; [done|apply Hfirst]).
Qed.
Next Obligation.
  intros q b rows m t Hq. change (wp (mem_step q b (Some rows)) (fun r e' => same (fun m : Mem => m) m e' /\
    match r with SQLITE_ROW row more => rows = row :: more | SQLITE_DONE _ => rows = [] | SQLITE_ERROR => True end) m).
  unfold mem_step. wp_step. split; [done|]. by destruct rows.
Qed.
Next Obligation.
  intros t cols b m. match goal with |- wp _ ?Q _ => change (wp (mem_step (Insert t cols) b None) Q m) end.
  unfold mem_step. apply wp_on_table; [|done]. intros tbl Ht. cbv zeta. apply (wp_changed_table _ _ _ _ tbl Ht).
  intros tbl' (id & Hid & [= <-])%bind_Some. exists id. unfold new_key in Hid.
  destruct (cell (bound_row cols b) (primary_key t)) as [|z| |]; try done; case_match eqn:Hc; simplify_eq.
  - apply Z.ltb_lt in Hc. destruct (next_key_fresh tbl). split_and!; [done|cbn; lia|done].
  - done.
Qed.
Next Obligation.
  intros t cols b m k Hk Hc. match goal with |- wp _ ?Q _ =>
    change (wp (mem_step (DaoTypes.Update t cols (primary_key t)) b None) Q m) end.
  unfold mem_step. apply wp_on_table; [|done]. intros tbl Ht. apply (wp_changed_table _ _ _ _ tbl Ht).
  intros tbl'. rewrite Hk, Hc, Z.eqb_refl. by intros [= <-].
Qed.
Next Obligation.
  intros t b m k Hk. match goal with |- wp _ ?Q _ => change (wp (mem_step (Delete t (primary_key t)) b None) Q m) end.
  unfold mem_step. apply wp_on_table; [|done]. intros tbl Ht. apply (wp_changed_table _ _ _ _ tbl Ht).
  intros tbl'. rewrite Hk. by intros [= <-].
Qed.
Next Obligation.
  intros t c z m. match goal with |- wp _ ?Q _ => change (wp (mem_exec (UpdateWhereNot t c z)) Q m) end.
  unfold mem_exec. do 2 wp_step. destruct (m t) as [tbl|] eqn:Ht; [|by wp_step]. do 3 wp_step.
  exists tbl. split; [done|apply put_becomes].
Qed.
Next Obligation.
  intros t m. match goal with |- wp _ ?Q _ => change (wp (mem_exec (CreateTableCmd t false)) Q m) end.
  unfold mem_exec. do 2 wp_step. destruct (m t) as [tbl|] eqn:Ht; [by wp_step|]. do 3 wp_step.
  split; [done|apply put_becomes].
Qed.
Next Obligation.
  intros t m. match goal with |- wp _ ?Q _ => change (wp (mem_exec (DropTableCmd t false)) Q m) end.
  unfold mem_exec. do 2 wp_step. destruct (m t) as [tbl|] eqn:Ht; [|by wp_step]. do 3 wp_step.
  apply put_becomes.
Qed.

#[export] Program Instance mem_steady : SteadyReads Mem.
Next Obligation.
  intros q m _ Ht. unfold sqlite3_prepare_v2, mem_sqlite. wp_step.
  destruct (names_table q) as [t|]; [|done]. apply bool_decide_eq_true_2. by apply Ht.
Qed.
Next Obligation.
  intros q b m rows t Hq [tbl Ht]. change (wp (mem_step q b rows) (fun r _ => r <> SQLITE_ERROR) m).
  change (m t = Some tbl) in Ht. unfold mem_step.
  assert (forall l, first_of l <> SQLITE_ERROR) as Hf by (by intros []).
  destruct rows as [rows|]; [by wp_step|].
  destruct q; try done; injection Hq as ->; (apply wp_on_table; [intros tbl' _; by wp_step|congruence]).
Qed.

(** ** A data base over it *)
Definition sample_dao_env : DaoEnv := {|
  time_now := fun n => Z.of_nat n + 1;
  time_text := fun _ => "now";
  text_time := fun _ => 1;
  dao_featureA := false;
  dao_conf := sample_events;
  all_freeze_frames := [("lastOccurrence"%string, 2)];
  all_extended_data_records := [("OccurrenceCounter"%string, 1)];
  extended_data_records := fun _ => ["OccurrenceCounter"%string] |}.
Definition empty_tables : Mem := fun _ => Some ∅.
Definition empty_dao : Dao Mem := mkDao empty_tables [] [] [] 0.
Lemma empty_dao_wf : well_formed empty_dao.
Proof. split; [by intros ???|]. intros t. exists ∅. split; [done|apply table_ok_empty]. Qed.

(** Started: three events and two DTCs have rows. *)
Definition sample_dao : Dao Mem := default empty_dao (final (Load sample_dao_env) empty_dao).
Lemma sample_codes : codes_ok sample_dao_env.
Proof. repeat constructor; done. Qed.
Lemma sample_names : NoDup (names sample_dao_env) /\ Forall event_name (names sample_dao_env).
Proof. split; [by apply (bool_decide_eq_true_1 _)|repeat constructor; done]. Qed.
Lemma sample_loads : result (Load sample_dao_env) empty_dao = Some LE_OK.
Proof. vm_compute. reflexivity. Qed.
Lemma sample_dao_wf : well_formed sample_dao /\ Forall (recorded sample_dao) (names sample_dao_env).
Proof.
  destruct sample_names as [Hnd Hn]. pose proof (wp_Load sample_dao_env empty_dao empty_dao_wf sample_codes Hnd Hn) as H.
  pose proof sample_loads as Hr. unfold sample_dao, final. unfold wp, result in *.
  destruct (Load sample_dao_env empty_dao) as [[r d]|]; [|done]. destruct H as (Hw & _ & H). injection Hr as ->.
  split; [exact Hw|by apply H].
Qed.
Lemma empty_dao_sound : dao_sound empty_dao.
Proof. split; [apply empty_dao_wf|done|done]. Qed.
Lemma sample_dao_sound : dao_sound sample_dao.
Proof.
  destruct sample_names as [Hnd Hn]. pose proof (wp_Load sample_dao_env empty_dao empty_dao_wf sample_codes Hnd Hn) as H.
  pose proof sample_loads as Hr. unfold sample_dao, final. unfold wp, result in *.
  destruct (Load sample_dao_env empty_dao) as [[r d]|]; [|done]. destruct H as (Hw & Hq & _). 
  by eapply quiet_sound; [apply empty_dao_sound| |].
Qed.

(** ** The service over it *)
#[export] Instance sample_store : Store (Dao Mem) := dao_store sample_dao_env.
#[export] Instance sample_database : Database (Dao Mem) := dao_database sample_dao_env.
#[export] Instance sample_restored : Restored (Dao Mem) := dao_restored sample_dao_env.
Lemma sample_fits : conf_fits (Dao Mem) sample_events.
Proof. split; repeat constructor; done. Qed.

Definition stack_booted : Dem (Dao Mem) :=
  default (empty_dem sample_dao) (final (EventConfiguration sample_dem_env sample_events) (empty_dem sample_dao)).
Fixpoint stack_run (qs : list request) (s : Dem (Dao Mem)) : Dem (Dao Mem) :=
  match qs with
  | [] => s
  | q :: qs' => stack_run qs' (default s (final (serve sample_dem_env q) s))
  end.
Definition stack_driving : Dem (Dao Mem) :=
  stack_run [SetCycle (Some 5) TAF_DIAGEVENT_CYCLE_START] (stack_run sample_requests stack_booted).
Example stack_references : SvcRefMap stack_driving = [(2, 1%nat); (3, 2%nat); (4, 0%nat)].
Proof. vm_compute. reflexivity. Qed.
