(* ===== verification/DaoThms.v ===== *)
(** * The data base of the diagnostic events: theorems

    What the service of the diagnostic events and its data base do together, over an SQLite that
    behaves as documented; and what the calls of the data base store, report, clear and refuse. *)
From S2P Require Import Prelude DiagCfg DemTypes DemEvent DemSvc DemDtc DemInit DemSpec DemReport DemInv DemStart DemSafe DemSample DemThms.
From S2P Require Import DaoTypes DaoSql DaoEntities DaoSpec DaoRules DaoDem DaoEnds DaoStore DaoEvents DaoClear.
From S2P Require Import DaoReports DaoSnapshots DaoLoad DaoStack DaoCalls DaoSample.

(** ** The service over its data base *)
Section Running.
Context {E : Type} `{!Sqlite E} `{!SqliteLaws E} `{!SteadyReads E}.
Variable env : DemEnv.
Variable denv : DaoEnv.
#[local] Instance the_store : Store (Dao E) := dao_store denv.
#[local] Instance the_database : Database (Dao E) := dao_database denv.
#[local] Instance the_restored : Restored (Dao E) := dao_restored denv.

(** A new process opens what SQLite has kept: no statement is prepared, no number loaded. *)
Definition reopened (d : Dao E) : Dao E := mkDao (engine d) [] [] [] (ticks d).
(** [starts d s]: over the data base [d], the service has come up as [s]. *)
Definition starts (d : Dao E) (s : Dem (Dao E)) : Prop := exists r d',
  Load denv (reopened d) = Done (r, d') /\
  EventConfiguration env (dao_conf denv) (empty_dem d') = Done (tt, s).
Inductive running_system : Dem (Dao E) -> Prop :=
  | powers_on d s : dao_sound d -> starts d s -> running_system s
  | answers s q s' : running_system s -> allowed env s q -> serve env q s = Done (tt, s') -> running_system s'
  | power_cycles s s' : running_system s -> starts (db s) s' -> running_system s'.

(** What the configuration has to be: codes and names that the tables can hold. *)
Record storable_conf : Prop := {
  conf_codes : codes_ok denv;
  conf_names : NoDup (names denv);
  conf_named : Forall event_name (names denv);
  conf_events : conf_fits (Dao E) (dao_conf denv) }.

Hypothesis no_feature_A : featureA env = false.
Hypothesis max_ok : 0 <= fault_code_max env.
Hypothesis Hconf : storable_conf.

Lemma reopened_sound d : dao_sound d -> dao_sound (reopened d).
Proof. intros [[_ Ht] He Hd]. split; [split; [by intros ???|exact Ht]|exact He|exact Hd]. Qed.
Lemma load_sound d : dao_sound d -> exists r d', Load denv (reopened d) = Done (r, d') /\ dao_sound d'.
Proof.
  intros Hs%reopened_sound. pose proof (wp_Load denv _ (sound_wf _ Hs) (conf_codes Hconf) (conf_names Hconf) (conf_named Hconf)) as H.
  unfold wp in H. destruct (Load denv (reopened d)) as [[r d']|]; [|done]. destruct H as (Hw & Hq & _).
  exists r, d'. split; [done|by eapply quiet_sound].
Qed.
Lemma started_wf d s : dao_sound d -> starts d s -> wf (fault_code_max env) s.
Proof.
  intros Hs (r & d' & Hl & Hc). destruct (load_sound d Hs) as (r2 & d2 & Hl2 & Hs2).
  rewrite Hl in Hl2. injection Hl2 as <- <-.
  pose proof (configuration_boots env (dao_conf denv) no_feature_A max_ok (conf_events Hconf) _ (empty_boots env d' Hs2)) as H.
  unfold wlp in H. rewrite Hc in H. apply H.
Qed.
Lemma running_wf s : running_system s -> wf (fault_code_max env) s.
Proof.
  induction 1 as [d s Hd Hs|s q s' Hr IH Ha Hs|s s' Hr IH Hs]; [by eapply started_wf| |].
  - destruct (serve_done env no_feature_A q s IH Ha) as (s'' & Hs'' & Hw). rewrite Hs in Hs''. by injection Hs'' as <-.
  - eapply started_wf; [exact (wf_db _ _ IH)|done].
Qed.

(** C3: The diagnostic events and their data base together, over any SQLite that behaves as
    documented: from a sound data base, through any start-ups, requests and power cycles, in any
    order, the service stays well-formed and its tables stay sound - keys agree with their rows,
    event names are unique, suppression flags are 0 or 1, every stored status is one that ISO
    14229-1 allows. In each such state every request is served to its end, although SQLite may
    refuse any change, and filling the tables at the next start-up ends on what was left. *)
Theorem service_over_data_base (s : Dem (Dao E)) : running_system s ->
  wf (fault_code_max env) s /\ dao_sound (db s) /\
  (forall q, allowed env s q -> exists s', serve env q s = Done (tt, s') /\ dao_sound (db s')) /\
  exists r d', Load denv (reopened (db s)) = Done (r, d') /\ dao_sound d'.
Proof.
  intros Hr. pose proof (running_wf s Hr) as Hw. pose proof (wf_db _ _ Hw : dao_sound (db s)) as Hs. split_and!; [done..| |].
  - intros q Hq. destruct (serve_done env no_feature_A q s Hw Hq) as (s' & Hd & Hw').
    exists s'. split; [done|exact (wf_db _ _ Hw')].
  - by apply load_sound.
Qed.

(** C7: A report that is accepted reaches the tables: when the data base had the status of the
    event and the status and occurrence counter of its DTC, and the report returns [LE_OK], then
    the interface of the data base reads back exactly what the service now has in memory of
    them, and for every other event and DTC what it read before. *)
Theorem report_reaches_tables (s : Dem (Dao E)) r e d x y st code size :
  wf (fault_code_max env) s -> st <> TAF_DIAGEVENT_UNKNOWN ->
  amap_find (SvcRefMap s) r = Some e -> EventCtxList s !! e = Some x ->
  dtcCtxPtr x = Some d -> DtcCtxList s !! d = Some y -> code_fits x code size ->
  dao_event (db s) (eventName x) = eventUdsStatus x ->
  dao_dtc (db s) (dtcCode y) = (dtcStatus y, occurrenceCounter y) ->
  wp (SetStatusWithSupplierFaultCode env (Some r) st code size) (fun res s' => res = LE_OK ->
    exists x' y', EventCtxList s' !! e = Some x' /\ DtcCtxList s' !! d = Some y' /\
      wp (GetEventStatusByName (eventName x)) (fun v _ => v = eventUdsStatus x') (db s') /\
      wp (GetDTCStatus denv (dtcCode y)) (fun v _ => v = dtcStatus y') (db s') /\
      wp (GetDTCOccurrenceCounter denv (dtcCode y)) (fun n _ => n = occurrenceCounter y') (db s') /\
      (forall n, n <> eventName x -> dao_event (db s') n = dao_event (db s) n) /\
      (forall c, dtc_code c -> c <> dtcCode y -> dao_dtc (db s') c = dao_dtc (db s) c)) s.
Proof.
  intros Hw Hst Hr Hx Hp Hy Hc He Hd. eapply wp_conseq; [by apply report_done|]. intros res s' H Hok. cbv beta in H.
  destruct (wf_event _ e x s Hw Hx) as (Hxok & _). pose proof (Forall_lookup_1 _ _ _ _ (wf_dtcs _ _ Hw) Hy) as Hyok.
  assert (event_name (eventName x)) as Hn by exact (ok_name _ _ Hxok).
  assert (dtc_code (dtcCode y)) as Hcode by exact (ok_dtc_code _ Hyok).
  case_decide as Hcond; [|destruct H as [-> _]; congruence].
  eapply reported_in_step in H as (x' & y' & Hx' & Hy' & [K1 K2 K3 K4 K5]); [|done..].
  assert (well_formed (db s')) as Hwf by apply K1.
  assert (dao_event (db s') (eventName x) = eventUdsStatus x') as Ke by (by apply K2).
  assert (dao_dtc (db s') (dtcCode y) = (dtcStatus y', occurrenceCounter y')) as Kd by (by apply K3).
  exists x', y'. split_and!; [done|by apply Hy'| | | |exact K4|exact K5].
  - eapply wp_conseq; [apply wp_GetEventStatusByName; [done|apply Hn]|]. intros v d' [-> _]. exact Ke.
  - eapply wp_conseq; [by apply wp_GetDTCStatus|]. intros v d' [-> _]. by rewrite Kd.
  - eapply wp_conseq; [by apply wp_GetDTCOccurrenceCounter|]. intros v d' [-> _]. by rewrite Kd.
Qed.
End Running.

Section Thms.
Context {E : Type} `{!Sqlite E} `{!SqliteLaws E} `{!SteadyReads E}.
Variable env : DaoEnv.
Implicit Types d : Dao E.


(** C24: What is stored is read back: the status that was stored for an event, or what was
    stored before when storing it has failed; and the status and occurrence counter of a DTC.
    The status of another event or DTC is not changed. *)
Theorem stored_status_read_back d name v code w n : well_formed d -> event_name name -> dtc_code code ->
  is_byte v -> is_byte w -> is_byte n ->
  wp (r ← SetEventStatusByName env name v; v' ← GetEventStatusByName name; mret (r, v'))
    (fun p d' => p.2 = (if ok p.1 then v else dao_event d name) /\
       forall m, m <> name -> dao_event d' m = dao_event d m) d /\
  wp (r ← SetDTCStatus env code w n; w' ← GetDTCStatus env code; n' ← GetDTCOccurrenceCounter env code; mret (r, (w', n')))
    (fun p d' => p.2 = (if ok p.1 then (w, n) else dao_dtc d code) /\
       forall c, dtc_code c -> c <> code -> dao_dtc d' c = dao_dtc d c) d.
Proof.
  intros Hw Hname Hcode Hv Hvw Hn. split.
  - wp_step. eapply wp_conseq; [by apply wp_WriteStatusAndDtcByEventName|]. intros r d1 (Hw1 & He & Ho & _). cbv beta. wp_step.
    eapply wp_conseq; [apply wp_GetEventStatusByName; [done|apply Hname]|]. intros v' d2 (-> & _ & Hu). cbv beta. wp_step.
    split; [exact He|]. intros m Hm. rewrite <- (Ho m Hm). by apply dao_event_unchanged.
  - wp_step. eapply wp_conseq; [by apply wp_SetDTCStatus|]. intros r d1 (Hw1 & He & Ho & _). cbv beta. wp_step.
    eapply wp_conseq; [by apply wp_GetDTCStatus|]. intros w' d2 (-> & Hs2 & Hu2). cbv beta. wp_step.
    eapply wp_conseq; [apply wp_GetDTCOccurrenceCounter; [by eapply wf_unchanged|done]|]. intros n' d3 (-> & Hs3 & Hu3).
    cbv beta. wp_step. rewrite (dao_dtc_unchanged d1 d2) by apply Hu2. cbn [fst snd].
    split; [rewrite <- surjective_pairing; exact He|]. intros c Hc Hne. rewrite <- (Ho c Hc Hne).
    apply dao_dtc_unchanged. by rewrite Hu3, Hu2.
Qed.

(** C19: The DTCs reported by status mask are exactly those that are stored, not suppressed and have
    a bit of the mask in their status, each once and with its status; only available bits of the
    mask count; and the number of DTCs that is reported is the length of that list, in 16 bits. *)
Theorem dtcs_reported_by_mask d mask : well_formed d -> is_byte mask ->
  wp (l ← GetDtcByStatusMask mask; n ← GetNumOfDtcByStatusMask env mask; mret (l.2, dtcCnt n)) (fun p _ =>
    (forall c v, mkDTCStatus c v ∈ p.1 <->
       dtc_code c /\ shown d c /\ v = (dao_dtc d c).1 /\ Z.land v (Z.land mask GetAvailableStatusMask) <> 0) /\
    NoDup (map st_dtc p.1) /\ p.2 = u16 (Z.of_nat (length p.1))) d.
Proof.
  intros Hw Hm. assert (is_byte (Z.land mask GetAvailableStatusMask)) as Hb.
  { unfold in_width in *. split; [apply Z.land_nonneg; left; lia|]. change GetAvailableStatusMask with (Z.ones 7).
    rewrite Z.land_ones by lia. pose proof (Z.mod_pos_bound mask (2 ^ 7) ltac:(lia)). lia. }
  unfold GetDtcByStatusMask, GetNumOfDtcByStatusMask. do 2 wp_step. apply wp_ReadDtcByStatus; [done|].
  intros l d1 Hp Hs Hu. do 3 wp_step. apply wp_ReadDtcCount; [by eapply wf_unchanged|]. intros d2 Hs2 Hu2. do 2 wp_step.
  cbn [fst snd dtcCnt]. split_and!.
  - intros c v. rewrite Hp. by apply elem_of_reported.
  - rewrite (Permutation_map st_dtc Hp). by apply reported_distinct.
  - rewrite u16_s32, (Permutation_length Hp), length_map. unfold matching. by rewrite Hu.
Qed.


(** C21: Clearing all DTCs in the data base leaves every suppressed DTC as it is, and when it
    returns [LE_OK], the status and occurrence counter of every other DTC are zero. *)
Theorem all_but_suppressed_deleted d : well_formed d ->
  wp (DeleteAllData env) (fun r d' => well_formed d' /\
    (forall c row, dtc_code c -> row_at d dtc_entity (s32 c) = Some row -> cell row "Suppression" = VInt 1 ->
       row_at d' dtc_entity (s32 c) = Some row) /\
    (r = LE_OK -> forall c row, dtc_code c -> row_at d dtc_entity (s32 c) = Some row ->
       cell row "Suppression" = VInt 0 -> dao_dtc d' c = (0, 0))) d.
Proof. intros Hw. eapply wp_conseq; [by apply wp_DeleteAllData|]. intros r d' (H1 & _ & H2 & H3). by split_and!. Qed.

(** Resetting makes the data base new: when it returns [LE_OK], every DTC that has a row has
    the status and counters of a new one, and no event and no snapshot has a row. *)
Theorem reset_forgets_all d : well_formed d -> codes_ok env ->
  wp (ResetAllData env) (fun r d' => r = LE_OK -> well_formed d' /\ empty_of_faults d') d.
Proof. intros Hw Hc. by apply wp_ResetAllData. Qed.

(** C25: A snapshot that is stored is read back: for a DTC whose configuration names the last
    occurrence only and that has no snapshot yet, with at most ten DIDs, that are different and
    not empty, the record that is read has exactly the stored DIDs, each with the first 128
    bytes of its value and their number. *)
Theorem snapshot_read_back d dtc rn nodes : well_formed d -> last_only d dtc rn ->
  s32 dtc <> -1 -> is_byte rn -> record_rows d (s32 dtc) rn = [] ->
  storable_nodes nodes -> (0 < length nodes <= 10)%nat ->
  wp (SetSnapshotData env dtc nodes) (fun r d' => r = LE_OK ->
    wp (GetSpecSnapshotRecByDtc dtc rn []) (fun q _ => exists l, l ≡ₚ stored_dids nodes /\
      q = (LE_OK, [mkSnapshotData rn (Z.of_nat (length nodes)) l])) d') d.
Proof.
  intros Hw Hl Hdtc Hrn Hno Hst Hlen. assert (rn <> -1) as Hnum by (unfold in_width in Hrn; lia).
  eapply wp_conseq; [by apply wp_new_snapshot|]. intros r d1 [Hw1 Hr] Hok. specialize (Hr Hok). pose proof (spec_record dtc rn [] d1 Hw1) as H. cbv zeta in H.
  pose proof (Permutation_length Hr) as Hrows. rewrite !length_map in Hrows.
  rewrite Hrows, (proj2 (Z.ltb_ge _ _)) in H by lia. eapply wp_conseq; [exact H|]. intros q d2 (_ & _ & Hq). cbv beta in Hq.
  destruct (record_rows d1 (s32 dtc) rn) as [|row rows] eqn:Hrr; [cbn in Hrows; lia|]. destruct Hq as (l & Hp & ->).
  exists (map ff_did_of l). split; [|done]. apply ff_of_nodes; [done|]. by rewrite Hp.
Qed.

(** C30: A record with more than ten DIDs cannot be read: the service writes behind the end of the
    set that it fills, although such a snapshot can be stored. *)
Theorem long_snapshot_overruns_set d dtc rn nodes : well_formed d -> last_only d dtc rn ->
  s32 dtc <> -1 -> is_byte rn -> record_rows d (s32 dtc) rn = [] ->
  storable_nodes nodes -> (10 < length nodes)%nat ->
  wp (SetSnapshotData env dtc nodes) (fun r d' => r = LE_OK ->
    GetSpecSnapshotRecByDtc dtc rn [] d' = Faulted OutOfBounds) d.
Proof.
  intros Hw Hl Hdtc Hrn Hno Hst Hlen. assert (rn <> -1) as Hnum by (unfold in_width in Hrn; lia).
  eapply wp_conseq; [by apply wp_new_snapshot|]. intros r d1 [Hw1 Hr] Hok. specialize (Hr Hok). pose proof (spec_record dtc rn [] d1 Hw1) as H. cbv zeta in H.
  pose proof (Permutation_length Hr) as Hrows. rewrite !length_map in Hrows.
  by rewrite Hrows, (proj2 (Z.ltb_lt _ _)) in H by lia.
Qed.

(** C31: A snapshot for a DTC that has one fails when its first DID is stored and its second is
    not: the second is to be added with the key of the row that the first has updated, and
    SQLite refuses a key that exists. *)
Theorem second_new_did_fails d dtc rn i j nodes : well_formed d ->
  number_of_type (snapshotRnVec d) dtc Snapshot_LastOccurrence = Some rn ->
  0 < Z.of_nat (length (record_rows d (s32 dtc) rn)) < 0x80000000 ->
  has_did d (s32 dtc) rn i.1 -> ~ has_did d (s32 dtc) rn j.1 ->
  wp (SetSnapshotData env dtc (i :: j :: nodes)) (fun r _ => r <> LE_OK) d.
Proof. intros Hw Hl Hlen Hi Hj. by eapply wp_second_snapshot_fails. Qed.
End Thms.

(** ** Concrete runs *)
#[local] Abbreviation system := (running_system sample_dem_env sample_dao_env).
Lemma sample_storable : storable_conf (E := Mem) sample_dao_env.
Proof. split; [apply sample_codes|apply sample_names..|apply sample_fits]. Qed.
(** What starting over a data base gives. *)
Definition start_of (d : Dao Mem) : option (Dem (Dao Mem)) :=
  d' ← final (Load sample_dao_env) (reopened d);
  final (EventConfiguration sample_dem_env sample_events) (empty_dem d').
Lemma final_done {S A} (c : M S A) s s' : final c s = Some s' -> exists a, c s = Done (a, s').
Proof. unfold final. destruct (c s) as [[a d]|]; [|done]. intros [= ->]. by exists a. Qed.
Lemma start_of_starts d s : start_of d = Some s -> starts sample_dem_env sample_dao_env d s.
Proof.
  intros (d' & [r Hr]%final_done & [[] Hs]%final_done)%bind_Some. exists r, d'. split; [exact Hr|exact Hs].
Qed.
Lemma default_some {A} (o : option A) a : match o with Some _ => true | None => false end = true -> o = Some (default a o).
Proof. by destruct o. Qed.
Lemma sample_starts : starts sample_dem_env sample_dao_env empty_dao (default stack_booted (start_of empty_dao)).
Proof. apply start_of_starts, default_some. vm_compute. reflexivity. Qed.
Lemma start_of_empty : default stack_booted (start_of empty_dao) = stack_booted.
Proof. vm_compute. reflexivity. Qed.
Lemma system_wf s : system s -> wf (T := Dao Mem) (fault_code_max sample_dem_env) s.
Proof. exact (running_wf sample_dem_env sample_dao_env eq_refl ltac:(done) sample_storable s). Qed.
Lemma run_system qs s : system s -> Forall (fun q => forall s, allowed (T := Dao Mem) sample_dem_env s q) qs ->
  system (stack_run qs s).
Proof.
  revert s. induction qs as [|q qs IH]; intros s Hs Hq; [done|]. apply Forall_cons in Hq as [Hq Hqs].
  destruct (serve_done sample_dem_env eq_refl q s) as (s1 & H1 & _);
    [by apply system_wf|done|].
  cbn [stack_run]. unfold final. rewrite H1. apply IH; [|done]. by eapply (answers _ _ s q s1).
Qed.
Lemma driving_system : system stack_driving.
Proof.
  apply run_system; [apply run_system; [|]|]; [|repeat constructor..].
  rewrite <- start_of_empty. eapply powers_on; [apply empty_dao_sound|apply sample_starts].
Qed.
(** The battery has failed, and the device is switched off and on. *)
Definition stack_failed : Dem (Dao Mem) :=
  stack_run [Report (Some 2) TAF_DIAGEVENT_FAILED None 0; Report (Some 2) TAF_DIAGEVENT_FAILED None 0] stack_driving.
Definition stack_again : Dem (Dao Mem) := default stack_booted (start_of (db stack_failed)).
Example failure_restored : map eventUdsStatus (EventCtxList stack_again) = [64; 0x27; 64].
Proof. vm_compute. reflexivity. Qed.
Lemma again_system : system stack_again.
Proof.
  apply (power_cycles _ _ stack_failed); [apply run_system; [apply driving_system|repeat constructor]|].
  apply start_of_starts, default_some. vm_compute. reflexivity.
Qed.

(** After the power cycle a client opens the event of the battery. *)
Lemma service_over_data_base_witness :
  dao_sound (db stack_again) /\ exists s',
    serve (T := Dao Mem) sample_dem_env (OpenEvent 2 100) stack_again = Done (tt, s') /\ dao_sound (db s').
Proof.
  destruct (service_over_data_base sample_dem_env sample_dao_env eq_refl ltac:(done) sample_storable stack_again again_system)
    as (_ & Hs & Hq & _).
  split; [exact Hs|]. by apply Hq.
Defined.

(** A failed battery test is in the tables. *)
Lemma report_reaches_tables_witness :
  wp (SetStatusWithSupplierFaultCode (T := Dao Mem) sample_dem_env (Some 2) TAF_DIAGEVENT_FAILED None 0) (fun res s' =>
    res = LE_OK -> exists x' y', EventCtxList s' !! 1%nat = Some x' /\ DtcCtxList s' !! 1%nat = Some y' /\
      wp (GetEventStatusByName "battery") (fun v _ => v = eventUdsStatus x') (db s') /\
      wp (GetDTCStatus sample_dao_env 0x123456) (fun v _ => v = dtcStatus y') (db s')) stack_driving.
Proof.
  eapply wp_conseq; [eapply (report_reaches_tables sample_dem_env sample_dao_env eq_refl stack_driving 2 1 1);
    [apply system_wf, driving_system|discriminate|vm_compute; reflexivity|vm_compute; reflexivity|vm_compute; reflexivity|
     vm_compute; reflexivity|exact I|vm_compute; reflexivity|vm_compute; reflexivity]|].
  intros res s' H Hok. destruct (H Hok) as (x' & y' & H1 & H2 & H3 & H4 & _). exists x', y'.
  split; [exact H1|split; [exact H2|split; [exact H3|exact H4]]].
Defined.

(** Statuses, a snapshot, a report and clearing. *)
Definition sample_calls : list db_call :=
  [WriteEvent "battery" 0x2F; WriteDtc 0x123456 0x2F 1; WriteSnapshot 0x123456 [(0xF190, [1; 2]); (0xF18C, [3])];
   WriteSuppression 0xABCD 1; ListByMask 0xFF; ReadDtc 0xABCD; ClearAllOf; CountByMask 0x2F].
Lemma sample_calls_ok : Forall (call_ok sample_dao_env) sample_calls.
Proof. repeat constructor; done. Qed.

Lemma stored_status_read_back_witness :
  wp (r ← SetEventStatusByName sample_dao_env "battery" 0x2F; v ← GetEventStatusByName "battery"; mret (r, v))
    (fun p _ => p.1 = LE_OK -> p.2 = 0x2F) sample_dao.
Proof.
  destruct (stored_status_read_back sample_dao_env sample_dao "battery" 0x2F 0x123456 0x2F 1
    (proj1 sample_dao_wf)) as [H _]; [by split|done|done|done|done|].
  eapply wp_conseq; [exact H|]. intros p d' [Hp _] Hr. rewrite Hr in Hp. exact Hp.
Defined.

(** A data base with a failed DTC that has a snapshot, and a suppressed one. *)
Definition filled_dao : Dao Mem :=
  default sample_dao (final (for_each (take 4 sample_calls) (perform sample_dao_env)) sample_dao).
Lemma filled_dao_wf : well_formed filled_dao.
Proof.
  pose proof (calls_keep sample_dao_env _ (Forall_take _ 4 _ sample_calls_ok) sample_dao (proj1 sample_dao_wf)) as H.
  unfold filled_dao, final. unfold wp in H. by destruct (for_each _ _ sample_dao) as [[[] d]|].
Qed.
Lemma dtcs_reported_by_mask_witness :
  wp (l ← GetDtcByStatusMask 0xFF; n ← GetNumOfDtcByStatusMask sample_dao_env 0xFF; mret (l.2, dtcCnt n))
    (fun p _ => mkDTCStatus 0x123456 0x2F ∈ p.1) filled_dao.
Proof.
  eapply wp_conseq; [apply (dtcs_reported_by_mask sample_dao_env filled_dao 0xFF); [apply filled_dao_wf|done]|].
  intros p d' (H & _). apply H. split_and!; [done| |vm_compute; reflexivity|vm_compute; discriminate].
  eexists. split; vm_compute; reflexivity.
Defined.
Lemma all_but_suppressed_deleted_witness :
  wp (DeleteAllData sample_dao_env) (fun r d' => r = LE_OK -> dao_dtc d' 0x123456 = (0, 0)) filled_dao.
Proof.
  eapply wp_conseq; [apply (all_but_suppressed_deleted sample_dao_env filled_dao filled_dao_wf)|].
  intros r d' (_ & _ & H) Hr. eapply (H Hr); [done|vm_compute; reflexivity|vm_compute; reflexivity].
Defined.
Lemma reset_forgets_all_witness :
  wp (ResetAllData sample_dao_env) (fun r d' => r = LE_OK -> tab d' snapshot_entity = Some ∅) filled_dao.
Proof.
  eapply wp_conseq; [apply (reset_forgets_all sample_dao_env filled_dao filled_dao_wf sample_codes)|].
  intros r d' H Hr. exact (reset_snapshots _ (proj2 (H Hr))).
Defined.

(** Snapshots of the battery. *)
Definition two_dids : list (Z * list Z) := [(0xF190, [1; 2]); (0xF18C, [3])].
Definition many_dids : list (Z * list Z) := map (fun i => (Z.of_nat i, [1])) (seq 1 11).
Lemma battery_last_only : last_only sample_dao 0x123456 2.
Proof. split; vm_compute; reflexivity. Qed.
Lemma two_dids_storable : storable_nodes two_dids.
Proof. split; [repeat constructor; done|by apply (bool_decide_eq_true_1 _)]. Qed.
Lemma many_dids_storable : storable_nodes many_dids.
Proof. split; [repeat constructor; done|by apply (bool_decide_eq_true_1 _)]. Qed.
Lemma snapshot_read_back_witness :
  wp (SetSnapshotData sample_dao_env 0x123456 two_dids) (fun r d' => r = LE_OK ->
    wp (GetSpecSnapshotRecByDtc 0x123456 2 []) (fun q _ => exists l, l ≡ₚ stored_dids two_dids /\
      q = (LE_OK, [mkSnapshotData 2 2 l])) d') sample_dao.
Proof.
  apply (snapshot_read_back sample_dao_env sample_dao 0x123456 2 two_dids);
    [apply sample_dao_wf|apply battery_last_only|done|done|vm_compute; reflexivity|apply two_dids_storable|simpl; lia].
Defined.
Lemma long_snapshot_overruns_set_witness :
  wp (SetSnapshotData sample_dao_env 0x123456 many_dids) (fun r d' => r = LE_OK ->
    GetSpecSnapshotRecByDtc 0x123456 2 [] d' = Faulted OutOfBounds) sample_dao.
Proof.
  apply (long_snapshot_overruns_set sample_dao_env sample_dao 0x123456 2 many_dids);
    [apply sample_dao_wf|apply battery_last_only|done|done|vm_compute; reflexivity|apply many_dids_storable|simpl; lia].
Defined.
Example long_snapshot_stored : result (SetSnapshotData sample_dao_env 0x123456 many_dids) sample_dao = Some LE_OK.
Proof. vm_compute. reflexivity. Qed.
Lemma filled_records : exists r1 r2, record_rows filled_dao (s32 0x123456) 2 = [r1; r2] /\
  cell r1 "DID" = VInt 0xF18C /\ cell r2 "DID" = VInt 0xF190.
Proof. do 2 eexists. split_and!; vm_compute; reflexivity. Qed.
Lemma second_new_did_fails_witness :
  wp (SetSnapshotData sample_dao_env 0x123456 [(0xF190, [1]); (0xF111, [2])]) (fun r _ => r <> LE_OK) filled_dao.
Proof.
  apply (second_new_did_fails sample_dao_env filled_dao 0x123456 2 (0xF190, [1]) (0xF111, [2]) []).
  - apply filled_dao_wf.
  - vm_compute. reflexivity.
  - vm_compute. split; [reflexivity|reflexivity].
  - destruct filled_records as (r1 & r2 & Hr & _ & H2). exists r2. rewrite Hr.
    split; [by right; left|exact H2].
  - destruct filled_records as (r1 & r2 & Hr & H1 & H2). intros (row & Hin & Hd). rewrite Hr in Hin.
    apply elem_of_cons in Hin as [->|[->|[]%elem_of_nil]%elem_of_cons]; simpl in Hd; congruence.
Defined.
