(* ===== verification/DiagBackend.v ===== *)
(** * The diagnostic service: backend and DTC interface

    [taf_DiagBackend] ([tafDiagBackend.cpp]), which passes the indications of the UDS stack to
    the services that have registered for them and their responses back, and the handler of
    session control and security access ([tafSecuritySvrImpl.cpp]), which keeps the sessions of
    the backend current; and the DTC interface, which registers for two of the services. Built
    without [LE_CONFIG_DIAG_VSTACK]. *)
From S2P Require Import Prelude DiagCfg DemTypes DemEvent DemSvc DemDtc DemInit DaoTypes DaoSql DaoEntities DaoDem DaoStack.
From S2P Require UdsTypes UdsSend UdsResp UdsMgr.
Import UdsTypes (AddrInfo, Mgr, Env).
Import UdsMgr (DiagMsg, dataPtr, dataLen, mkDiagMsg).

Abbreviation TAF_DIAG_SERVICE_NOT_SUPPORTED := 0x11 (only parsing).
Abbreviation TAF_DIAG_INCORRECT_MSG_LEN_OR_INVALID_FORMAT := 0x13 (only parsing).
Abbreviation reqSesCtrlSvcId := 0x10 (only parsing).
Abbreviation reqSecAccessSvcId := 0x27 (only parsing).
Abbreviation sessionChangeId := 0xFF (only parsing).
Abbreviation RESPONSE_DATA_SIZE := 4095 (only parsing).

(** ** State

    The service objects that register: the DTC interface, session control with security access,
    and the others. The messages that the second one hands to the message handlers of the
    applications are the list [reported]. *)
Inductive taf_UDSInterface := taf_DTCInf | taf_SecuritySvr | AnotherService (n : Z).
#[export] Instance interface_eq_dec : EqDecision taf_UDSInterface.
Proof. solve_decision. Defined.

Inductive SecurityReport :=
  | SesTypeEvent (from : AddrInfo) (serviceId sesType : Z)
  | SesChangeEvent (from : AddrInfo) (previousSesType currentSesType : Z)
  | SecAccessEvent (from : AddrInfo) (serviceId subFunc : Z) (payload : list Z).

(** [dem] and [uds] are the objects of the diagnostic events and of the UDS stack, [respBuf] and
    [respBufLen] members of the DTC interface. *)
Record Diag {T : Type} := mkDiag {
  dem : Dem T;
  uds : Mgr;
  VlanAndSesTypeList : list (Z * Z);
  svcMap : amap Z taf_UDSInterface;
  reported : list SecurityReport;
  respBuf : list Z;
  respBufLen : Z }.
Arguments Diag : clear implicits.
Arguments mkDiag {T} _ _ _ _ _ _ _.

Definition eta_Diag {T} (s : Diag T) : Diag T :=
  mkDiag (dem s) (uds s) (VlanAndSesTypeList s) (svcMap s) (reported s) (respBuf s) (respBufLen s).
#[export] Instance set_dem {T} : Field (@dem T) := ltac:(field_of (@eta_Diag T)).
#[export] Instance set_uds {T} : Field (@uds T) := ltac:(field_of (@eta_Diag T)).
#[export] Instance set_VlanAndSesTypeList {T} : Field (@VlanAndSesTypeList T) :=
  ltac:(field_of (@eta_Diag T)).
#[export] Instance set_svcMap {T} : Field (@svcMap T) := ltac:(field_of (@eta_Diag T)).
#[export] Instance set_reported {T} : Field (@reported T) := ltac:(field_of (@eta_Diag T)).
#[export] Instance set_respBuf {T} : Field (@respBuf T) := ltac:(field_of (@eta_Diag T)).
#[export] Instance set_respBufLen {T} : Field (@respBufLen T) := ltac:(field_of (@eta_Diag T)).

Definition assign_member {T A} (p : Diag T -> A) `{!Field p} (v : A) : M (Diag T) unit :=
  modify (fun s => s <| p := v |>).
Notation "p :::= v" := (assign_member p v) (at level 90, v at level 89) : telaf_scope.

(** What is done by a part. *)
Definition on_part {S P A} (p : S -> P) `{!Field p} (c : M P A) : M S A := fun s =>
  match c (p s) with
  | Done (a, x) => Done (a, s <| p := x |>)
  | Faulted e => Faulted e
  end.

Section Backend.
Context {T : Type}.
Variable env : Env.

Definition on_dem {A} (c : M (Dem T) A) : M (Diag T) A := on_part dem c.
Definition on_uds {A} (c : M Mgr A) : M (Diag T) A := on_part uds c.

(** ** Registration *)
Definition RegisterUdsService (sid : Z) (service : option taf_UDSInterface) : M (Diag T) le_result_t :=
  match service with
  | None => mret LE_BAD_PARAMETER
  | Some service =>
      s ← get;
      svcMap :::= DemInit.map_insert (svcMap s) sid service;;
      mret LE_OK
  end.

(** ** Sessions

    At start-up every interface is in the default session. *)
Definition first_sessions (vlans : list Z) : list (Z * Z) := map (fun v => (v, 0x01)) vlans.

Definition isVlanIdValid (vlan : Z) : M (Diag T) bool :=
  gets (fun s => existsb (fun p => p.1 =? vlan) (VlanAndSesTypeList s)).
(** [None] for [LE_NOT_FOUND]. *)
Definition GetCurrentSesType (vlan : Z) : M (Diag T) (option Z) :=
  gets (fun s => amap_find (VlanAndSesTypeList s) vlan).

Fixpoint update_first (l : list (Z * Z)) (vlan ses : Z) : list (Z * Z) :=
  match l with
  | [] => []
  | (v, x) :: l' => if v =? vlan then (v, ses) :: l' else (v, x) :: update_first l' vlan ses
  end.
Definition UpdateCurrentSesType (vlan ses : Z) : M (Diag T) unit :=
  s ← get; VlanAndSesTypeList :::= update_first (VlanAndSesTypeList s) vlan ses.

(** ** Responses *)
Definition RespDiagPositiveData (sid : Z) (a : AddrInfo) (data : list Z) (len : Z) : M (Diag T) le_result_t :=
  on_uds (UdsResp.taf_uds_SendDiagResp env a (Some (Some data, len)) sid 0).
Definition RespDiagPositive (sid : Z) (a : AddrInfo) : M (Diag T) le_result_t :=
  on_uds (UdsResp.taf_uds_SendDiagResp env a None sid 0).
Definition RespDiagNegative (sid : Z) (a : AddrInfo) (nrc : Z) : M (Diag T) le_result_t :=
  on_uds (UdsResp.taf_uds_SendDiagResp env a None sid nrc).

(** The address of a response: source and target of the request exchanged. *)
Definition response_addr (a : AddrInfo) : AddrInfo :=
  UdsTypes.mkAddrInfo (UdsTypes.ta a) (UdsTypes.sa a) (UdsTypes.taType a) (UdsTypes.ai_vlanId a)
    (UdsTypes.ifName a).

(** ** Session control and security access

    [max] is [TAF_DIAGSECURITY_MAX_SEC_ACCESS_PAYLOAD_SIZE], a constant of the interface file. *)
Definition security_nrc (sid : Z) (a : AddrInfo) (errCode : Z) : M (Diag T) unit :=
  RespDiagNegative sid (response_addr a) errCode;; mret tt.
Definition report (r : SecurityReport) : M (Diag T) unit :=
  s ← get; reported :::= (reported s ++ [r]).

Definition SecuritySvr_UDSMsgHandler (max : Z) (a : AddrInfo) (sid : Z) (msg : DiagMsg) : M (Diag T) unit :=
  let byte i := demand (at_ (dataPtr msg) i) OutOfBounds in
  if sid =? reqSesCtrlSvcId then
    sesType ← byte 1;
    report (SesTypeEvent a sid sesType)
  else if sid =? sessionChangeId then
    previous ← byte 1;
    current ← byte 2;
    UpdateCurrentSesType (UdsTypes.ai_vlanId a) current;;
    report (SesChangeEvent a previous current)
  else if sid =? reqSecAccessSvcId then
    subFunc ← byte 1;
    let len := u64 (dataLen msg - 2) in
    if max <? len then security_nrc sid a TAF_DIAG_INCORRECT_MSG_LEN_OR_INVALID_FORMAT else
    payload ← demand (UdsSend.slice (drop 2 (dataPtr msg)) len) OutOfBounds;
    report (SecAccessEvent a sid (Z.land subFunc 0x7F) payload)
  else security_nrc sid a TAF_DIAG_SERVICE_NOT_SUPPORTED.

(** ** Indications *)
Variable UDSMsgHandler : taf_UDSInterface -> AddrInfo -> Z -> DiagMsg -> M (Diag T) unit.

Definition UdsIndicationHanler (a : AddrInfo) (msg : DiagMsg) (result : le_result_t) : M (Diag T) unit :=
  if negb (bool_decide (result = LE_OK)) then mret tt else
  if dataLen msg =? 0 then
    RespDiagNegative 0 (response_addr a) TAF_DIAG_SERVICE_NOT_SUPPORTED;; mret tt
  else
  sid ← demand (at_ (dataPtr msg) 0) OutOfBounds;
  s ← get;
  match amap_find (svcMap s) sid with
  | None => RespDiagNegative sid (response_addr a) TAF_DIAG_INCORRECT_MSG_LEN_OR_INVALID_FORMAT;; mret tt
  | Some inf => UDSMsgHandler inf a sid msg
  end.

(** [IndMsgHandler] of the UDS stack, whose handler is the one above: an indication that it
    makes is its last act. The pointer of a request is that of the receive buffer. *)
Definition indications (es : list UdsTypes.Effect) : list (AddrInfo * list Z) :=
  omap (fun e => match e with UdsTypes.Indication a d => Some (a, d) | _ => None end) es.
Definition indicate (ty : UdsTypes.taf_UDSIndMsg_type_t) (data : list Z) : M (Diag T) unit :=
  s ← get;
  on_uds (UdsMgr.IndMsgHandler env ty data);;
  s' ← get;
  for_each (indications (drop (length (UdsTypes.trace (uds s))) (UdsTypes.trace (uds s')))) (fun p =>
    UdsIndicationHanler p.1 (mkDiagMsg
      (match ty with UdsTypes.UDS_SERVICE_MSG_INDICATION_ID => UdsTypes.recvBuf (uds s') | _ => p.2 end)
      (Z.of_nat (length p.2))) LE_OK).
End Backend.

(** ** DTC interface

    [taf_DTCInf] ([tafDTCInfImpl.cpp]), which answers the services 0x19 (ReadDTCInformation) and
    0x14 (ClearDiagnosticInformation): it reads the data base and the diagnostic events, packs
    what it has read into its response buffer, and sends it through the backend. The lists that
    the data base returns are popped and released one by one. *)
(** ** Constants *)
Abbreviation reqReadDTCSvcId := 0x19 (only parsing).
Abbreviation reqClearDTCSvcId := 0x14 (only parsing).

Abbreviation NO_OF_DTC_BY_STATUS_MASK_REQ_LEN := 3 (only parsing).
Abbreviation NO_OF_DTC_BY_STATUS_MASK_RESP_BASE_LEN := 4 (only parsing).
Abbreviation DTC_BY_STATUS_MASK_REQ_LEN := 3 (only parsing).
Abbreviation DTC_BY_STATUS_MASK_RESP_BASE_LEN := 1 (only parsing).
Abbreviation DTC_SNAPSHOT_ID_REQ_LEN := 2 (only parsing).
Abbreviation DTC_SNAPSHOT_ID_RESP_BASE_LEN := 0 (only parsing).
Abbreviation DTC_SNAPSHOT_REC_BY_DTC_NUM_REQ_LEN := 6 (only parsing).
Abbreviation DTC_SNAPSHOT_REC_BY_DTC_NUM_RESP_BASE_LEN := 4 (only parsing).
Abbreviation DTC_EXT_DATA_REC_BY_DTC_NO_REQ_LEN := 6 (only parsing).
Abbreviation DTC_EXT_DATA_REC_BY_DTC_NO_RESP_BASE_LEN := 4 (only parsing).
Abbreviation SUPPORTED_DTC_REQ_LEN := 2 (only parsing).
Abbreviation SUPPORTED_DTC_RESP_BASE_LEN := 1 (only parsing).
Abbreviation DTC_FAULT_DETECTION_COUNTER_REQ_LEN := 2 (only parsing).
Abbreviation DTC_FAULT_DETECTION_COUNTER_RESP_BASE_LEN := 0 (only parsing).
Abbreviation CLEAR_DTC_INFO_REQ_MIN_LEN := 4 (only parsing).
Abbreviation CLEAR_DTC_INFO_RESP_LEN := 0 (only parsing).
Abbreviation FEATURE_A_APPLICATION_DTC_AVAILABILITY_MASK := 0x9 (only parsing).
Abbreviation FEATURE_A_REPROGRAMMING_DTC_AVAILABILITY_MASK := 0x11 (only parsing).

Abbreviation REPORT_NO_OF_DTC_BY_STATUS_MASK := 0x01 (only parsing).
Abbreviation REPORT_DTC_BY_STATUS_MASK := 0x02 (only parsing).
Abbreviation REPORT_DTC_SNAPSHOT_ID := 0x03 (only parsing).
Abbreviation REPORT_DTC_SNAPSHOT_REC_BY_DTC_NO := 0x04 (only parsing).
Abbreviation REPORT_DTC_EXT_DATA_REC_BY_DTC_NO := 0x06 (only parsing).
Abbreviation REPORT_SUPPORTED_DTC := 0x0A (only parsing).
Abbreviation REPORT_DTC_FAULT_DETECTION_COUNTER := 0x14 (only parsing).

Abbreviation SERVICE_NOT_SUPPORTED := 0x11 (only parsing).
Abbreviation SUBFUNCTION_NOT_SUPPORTED := 0x12 (only parsing).
Abbreviation INCORRECT_MSG_LEN_OR_INVALID_FORMAT := 0x13 (only parsing).
Abbreviation CONDITIONS_NOT_CORRECT := 0x22 (only parsing).
Abbreviation REQ_OUT_OF_RANGE := 0x31 (only parsing).
Abbreviation GENERAL_PROGRAMMING_FAILURE := 0x72 (only parsing).

(** The bytes of a DTC, as they are cut out of its code. *)
Definition dtc_bytes (dtc : Z) : list Z :=
  [Z.shiftr (Z.land dtc 0xff0000) 16; Z.shiftr (Z.land dtc 0xff00) 8; Z.land dtc 0xff].

Section DTCInf.
Context {E : Type} `{!Sqlite E}.
Variable env : Env.         (* of the UDS stack *)
Variable denv : DemEnv.     (* of the diagnostic events *)
Variable dbenv : DaoEnv.    (* of the data base *)
#[local] Instance interface_store : Store (Dao E) := dao_store dbenv.
Abbreviation Diag_ := (Diag (Dao E)).

Definition on_dao {A} (c : M (Dao E) A) : M Diag_ A := on_dem (on_db c).

(** ** Sessions *)

(** Any exception ends the search. *)
Fixpoint in_session (sessions : list string) (ses : Z) : bool :=
  match sessions with
  | [] => false
  | name :: sessions' =>
      match amap_find (diag_session_ids (dao_conf dbenv)) name with
      | None => false
      | Some id => (u8 id =? ses) || in_session sessions' ses
      end
  end.
Definition IsDTCCurrentSesTypeConfig (dtc ses : Z) : bool :=
  match amap_find (dtc_all (dao_conf dbenv)) (s32 dtc) with
  | None => false
  | Some entry => in_session (dtc_access_session entry) ses
  end.
Definition isSesTypeConfig (dtc ses : Z) : bool :=
  if dao_featureA dbenv then IsDTCCurrentSesTypeConfig dtc ses else true.

Definition GetAvailableStatusMaskByCurrentSession (ses : Z) : Z :=
  if (ses =? FEATURE_A_PROGRAMMING_SESSION) || (ses =? FEATURE_A_FOTA_SESSION)
  then FEATURE_A_REPROGRAMMING_DTC_AVAILABILITY_MASK
  else FEATURE_A_APPLICATION_DTC_AVAILABILITY_MASK.
Definition available_mask (ses mask : Z) : Z :=
  if dao_featureA dbenv then GetAvailableStatusMaskByCurrentSession ses else mask.

Definition with_session (vlan : Z) (get : Z -> M Diag_ le_result_t) : M Diag_ le_result_t :=
  ses ← GetCurrentSesType vlan;
  match ses with None => mret LE_NOT_FOUND | Some ses => get ses end.

(** ** Packing *)

(** The DTCs that the session may see, each with a byte, four bytes a row. *)
Fixpoint put_rows (base i ses : Z) (rows : list (Z * Z)) : M Diag_ Z :=
  match rows with
  | [] => mret i
  | (dtc, b) :: rows' =>
      if isSesTypeConfig dtc ses then
        wr respBuf (base + i * 4) (Z.shiftr (Z.land dtc 0xff0000) 16);;
        wr respBuf (base + i * 4 + 1) (Z.shiftr (Z.land dtc 0xff00) 8);;
        wr respBuf (base + i * 4 + 2) (Z.land dtc 0xff);;
        wr respBuf (base + i * 4 + 3) b;;
        put_rows base (i + 1) ses rows'
      else put_rows base i ses rows'
  end.

(** [respBuf[respBufLen] = v; respBufLen++], and [memcpy] of bytes with their number. *)
Definition push (v : Z) : M Diag_ unit :=
  s ← get;
  wr respBuf (respBufLen s) v;;
  respBufLen :::= u16 (respBufLen s + 1).
Definition push_bytes (data : list Z) (size : Z) : M Diag_ unit :=
  s ← get;
  src ← demand (UdsSend.slice data size) OutOfBounds;
  cpy respBuf (respBufLen s) src;;
  respBufLen :::= u16 (respBufLen s + size).

(** The DTC and its status, before the records. *)
Definition put_dtc_and_status (dtc status base : Z) : M Diag_ unit :=
  wr respBuf 0 (Z.shiftr (Z.land dtc 0xff0000) 16);;
  wr respBuf 1 (Z.shiftr (Z.land dtc 0xff00) 8);;
  wr respBuf 2 (Z.land dtc 0xff);;
  wr respBuf 3 status;;
  respBufLen :::= base.

(** ** Sub-functions of 0x19 *)
Definition GetNumOfDtcByStatusMask (statusMask vlan : Z) : M Diag_ le_result_t :=
  with_session vlan (fun ses =>
    let availableMask := available_mask ses GetAvailableStatusMask in
    let formatId := GetDtcFormatId dbenv in
    rec ← on_dao (DaoDem.GetDtcByStatusMask statusMask);
    let dtcCount := u16 (Z.of_nat (length (filter (fun r => isSesTypeConfig (st_dtc r) ses = true) rec.2))) in
    wr respBuf 0 availableMask;;
    wr respBuf 1 formatId;;
    wr respBuf 2 (Z.shiftr (Z.land dtcCount 0xff00) 8);;
    wr respBuf 3 (Z.land dtcCount 0xff);;
    respBufLen :::= NO_OF_DTC_BY_STATUS_MASK_RESP_BASE_LEN;;
    mret LE_OK).

Definition status_row (r : taf_DataAccess_DTCStatus_t) : Z * Z := (st_dtc r, st_status r).
Definition GetDtcByStatusMask (statusMask vlan : Z) : M Diag_ le_result_t :=
  with_session vlan (fun ses =>
    rec ← on_dao (DaoDem.GetDtcByStatusMask statusMask);
    wr respBuf 0 (available_mask ses rec.1);;
    respBufLen :::= DTC_BY_STATUS_MASK_RESP_BASE_LEN;;
    i ← put_rows DTC_BY_STATUS_MASK_RESP_BASE_LEN 0 ses (map status_row rec.2);
    s ← get;
    respBufLen :::= u16 (respBufLen s + i * 4);;
    mret LE_OK).

Definition GetDtcSnapshotID (vlan : Z) : M Diag_ le_result_t :=
  with_session vlan (fun ses =>
    infos ← on_dao (GetSnapshotIdentification dbenv);
    respBufLen :::= DTC_SNAPSHOT_ID_RESP_BASE_LEN;;
    i ← put_rows DTC_SNAPSHOT_ID_RESP_BASE_LEN 0 ses (map (fun r => (si_dtc r, si_recNumber r)) infos);
    s ← get;
    respBufLen :::= u16 (respBufLen s + i * 4);;
    mret LE_OK).

Definition put_did (d : taf_DataAccess_FF_DID_t) : M Diag_ unit :=
  push (Z.shiftr (Z.land (ff_did d) 0xff00) 8);;
  push (Z.land (ff_did d) 0xff);;
  push_bytes (ff_didData d) (ff_didDataSize d).
Definition put_snapshot (r : taf_DataAccess_SnapshotData_t) : M Diag_ unit :=
  push (sd_recNumber r);;
  push (recDidSize r);;
  for_each (take (Z.to_nat (recDidSize r)) (didSet r)) put_did.
Definition GetDtcSnapshotRecordByDTCNum (dtcMaskRec dtcRecNum vlan : Z) : M Diag_ le_result_t :=
  with_session vlan (fun ses =>
    if negb (isSesTypeConfig dtcMaskRec ses) then mret LE_UNSUPPORTED else
    q ← on_dao (GetSnapshotRecByDtc dbenv dtcMaskRec dtcRecNum);
    if negb (ok q.1) then mret q.1 else
    rec ← demand q.2 NullDeref;
    put_dtc_and_status (sr_dtc rec) (sr_status rec) DTC_SNAPSHOT_REC_BY_DTC_NUM_RESP_BASE_LEN;;
    for_each (snapshotDataList rec) put_snapshot;;
    mret LE_OK).

Definition put_ext_data (r : taf_DataAccess_ExtData_t) : M Diag_ unit :=
  push (ed_recNumber r);;
  push_bytes (extDataBytes r) (Z.of_nat (length (extDataBytes r))).
Definition GetExtDataRecordByDTCNum (dtcMaskRcd dtcExtDataRec vlan : Z) : M Diag_ le_result_t :=
  with_session vlan (fun ses =>
    if negb (isSesTypeConfig dtcMaskRcd ses) then mret LE_UNSUPPORTED else
    q ← on_dao (GetExtDataRecByDtc dbenv dtcMaskRcd dtcExtDataRec);
    if negb (ok q.1) then mret q.1 else
    rec ← demand q.2 NullDeref;
    put_dtc_and_status (er_dtc rec) (er_status rec) DTC_EXT_DATA_REC_BY_DTC_NO_RESP_BASE_LEN;;
    for_each (extDataList rec) put_ext_data;;
    mret LE_OK).

Definition GetSupportedDtc (vlan : Z) : M Diag_ le_result_t :=
  with_session vlan (fun ses =>
    rec ← on_dao (DaoDem.GetSupportedDtc dbenv);
    wr respBuf 0 (available_mask ses rec.1);;
    respBufLen :::= SUPPORTED_DTC_RESP_BASE_LEN;;
    i ← put_rows SUPPORTED_DTC_RESP_BASE_LEN 0 ses (map status_row rec.2);
    s ← get;
    respBufLen :::= u16 (respBufLen s + i * 4);;
    mret LE_OK).

Definition GetFaultDetCounter (vlan : Z) : M Diag_ le_result_t :=
  with_session vlan (fun ses =>
    fdcs ← on_dem (ReportDTCFaultDetectionCounter denv);
    respBufLen :::= DTC_FAULT_DETECTION_COUNTER_RESP_BASE_LEN;;
    i ← put_rows DTC_FAULT_DETECTION_COUNTER_RESP_BASE_LEN 0 ses fdcs;
    respBufLen :::= u16 (DTC_FAULT_DETECTION_COUNTER_RESP_BASE_LEN + i * 4);;
    mret LE_OK).

(** ** 0x14 *)
Definition GetClearDTCResp (grpOfDTC : Z) : M Diag_ le_result_t :=
  result ← on_dem (ClearDtc denv grpOfDTC TAF_DIAGDTC_DTOOL);
  if bool_decide (result = LE_UNAVAILABLE) then mret result
  else if bool_decide (result = LE_UNSUPPORTED) then mret result
  else if bool_decide (result = LE_IO_ERROR) then mret result
  else
    when (bool_decide (result = LE_OK)) (respBufLen :::= CLEAR_DTC_INFO_RESP_LEN);;
    mret result.

(** ** Responses *)
Definition SendDTCResp (sid : Z) (a : AddrInfo) (data : option (list Z)) (dataSize : Z) : M Diag_ le_result_t :=
  ret ← (match data with
    | Some bytes =>
        if dataSize =? 0 then RespDiagPositive env sid (response_addr a)
        else RespDiagPositiveData env sid (response_addr a) bytes dataSize
    | None => RespDiagPositive env sid (response_addr a)
    end);
  if negb (bool_decide (ret = LE_OK)) then mret ret else
  respBuf :::= replicate (Z.to_nat RESPONSE_DATA_SIZE) 0;;
  respBufLen :::= 0;;
  mret LE_OK.
Definition SendNRCResp (sid : Z) (a : AddrInfo) (errCode : Z) : M Diag_ le_result_t :=
  RespDiagNegative env sid (response_addr a) errCode;; mret LE_OK.

(** ** The handler

    Each part gives the response code of its refusal, or [None] for a response. *)
Definition sub_request (msgLen len : Z) (get : M Diag_ le_result_t) : M Diag_ (option Z) :=
  if negb (msgLen =? len) then mret (Some INCORRECT_MSG_LEN_OR_INVALID_FORMAT) else
  result ← get;
  mret (if bool_decide (result = LE_OK) then None else Some REQ_OUT_OF_RANGE).

Definition read_byte (msg : DiagMsg) (i : Z) : M Diag_ Z := demand (at_ (dataPtr msg) i) OutOfBounds.
Definition read_dtc (msg : DiagMsg) (i : Z) : M Diag_ Z :=
  b1 ← read_byte msg i; b2 ← read_byte msg (i + 1); b3 ← read_byte msg (i + 2);
  mret (Z.shiftl b1 16 + Z.shiftl b2 8 + b3).

Definition ReadDTCInformation (vlan : Z) (msg : DiagMsg) : M Diag_ (option Z) :=
  let len := dataLen msg in
  b1 ← read_byte msg 1;
  let subFunc := Z.land b1 0x7F in
  if subFunc =? REPORT_NO_OF_DTC_BY_STATUS_MASK then
    sub_request len NO_OF_DTC_BY_STATUS_MASK_REQ_LEN
      (mask ← read_byte msg 2; GetNumOfDtcByStatusMask mask vlan)
  else if subFunc =? REPORT_DTC_BY_STATUS_MASK then
    sub_request len DTC_BY_STATUS_MASK_REQ_LEN
      (mask ← read_byte msg 2; GetDtcByStatusMask mask vlan)
  else if subFunc =? REPORT_DTC_SNAPSHOT_ID then
    sub_request len DTC_SNAPSHOT_ID_REQ_LEN (GetDtcSnapshotID vlan)
  else if subFunc =? REPORT_DTC_SNAPSHOT_REC_BY_DTC_NO then
    sub_request len DTC_SNAPSHOT_REC_BY_DTC_NUM_REQ_LEN
      (dtc ← read_dtc msg 2; rn ← read_byte msg 5; GetDtcSnapshotRecordByDTCNum dtc rn vlan)
  else if subFunc =? REPORT_DTC_EXT_DATA_REC_BY_DTC_NO then
    sub_request len DTC_EXT_DATA_REC_BY_DTC_NO_REQ_LEN
      (dtc ← read_dtc msg 2; rn ← read_byte msg 5; GetExtDataRecordByDTCNum dtc rn vlan)
  else if subFunc =? REPORT_SUPPORTED_DTC then
    sub_request len SUPPORTED_DTC_REQ_LEN (GetSupportedDtc vlan)
  else if subFunc =? REPORT_DTC_FAULT_DETECTION_COUNTER then
    sub_request len DTC_FAULT_DETECTION_COUNTER_REQ_LEN (GetFaultDetCounter vlan)
  else mret (Some SUBFUNCTION_NOT_SUPPORTED).

Definition ClearDiagnosticInformation (msg : DiagMsg) : M Diag_ (option Z) :=
  if dataLen msg <? CLEAR_DTC_INFO_REQ_MIN_LEN then mret (Some INCORRECT_MSG_LEN_OR_INVALID_FORMAT) else
  grpOfDTC ← read_dtc msg 1;
  result ← GetClearDTCResp grpOfDTC;
  mret match result with
  | LE_UNAVAILABLE => Some CONDITIONS_NOT_CORRECT
  | LE_UNSUPPORTED => Some REQ_OUT_OF_RANGE
  | LE_IO_ERROR => Some GENERAL_PROGRAMMING_FAILURE
  | _ => None
  end.

Definition UDSMsgHandler (a : AddrInfo) (sid : Z) (msg : DiagMsg) : M Diag_ unit :=
  refusal ← (if sid =? reqReadDTCSvcId then ReadDTCInformation (UdsTypes.ai_vlanId a) msg
             else if sid =? reqClearDTCSvcId then ClearDiagnosticInformation msg
             else mret (Some SERVICE_NOT_SUPPORTED));
  match refusal with
  | Some errCode => SendNRCResp sid a errCode;; mret tt
  | None => s ← get; SendDTCResp sid a (Some (respBuf s)) (respBufLen s);; mret tt
  end.

Definition Init : M Diag_ unit :=
  RegisterUdsService reqReadDTCSvcId (Some taf_DTCInf);;
  RegisterUdsService reqClearDTCSvcId (Some taf_DTCInf);;
  mret tt.

(** ** The services together

    [max] is that of [SecuritySvr_UDSMsgHandler], [others] the handlers of the services that are
    not modelled. *)
Variable max : Z.
Variable others : Z -> AddrInfo -> Z -> DiagMsg -> M Diag_ unit.
Definition service_handler (inf : taf_UDSInterface) : AddrInfo -> Z -> DiagMsg -> M Diag_ unit :=
  match inf with
  | taf_DTCInf => UDSMsgHandler
  | taf_SecuritySvr => SecuritySvr_UDSMsgHandler env max
  | AnotherService n => others n
  end.
Definition diag_indication := UdsIndicationHanler env service_handler.
Definition diag_indicate := indicate env service_handler.
End DTCInf.
