(* ===== verification/DtcInfSpec.v ===== *)
(** * The diagnostic service: contracts of the DTC interface

    What the sub-functions write into the response buffer, when they stay inside it, and that
    they leave the UDS stack alone. *)
From S2P Require Import Prelude DiagCfg DemTypes DemEvent DemSvc DemDtc DemInit DemSpec DemInv DemStart DemSafe.
From S2P Require Import DaoTypes DaoSql DaoEntities DaoSpec DaoRules DaoDem DaoEnds DaoStore DaoEvents DaoClear DaoReports DaoSnapshots DaoLoad DaoCalls DaoStack.
From S2P Require Import DiagBackend.
From S2P Require UdsTypes UdsSend UdsResp UdsMgr UdsAnswer.
Import UdsTypes (AddrInfo, Mgr, Env).

(** ** Parts *)
Lemma wp_on_part {S P A} (p : S -> P) `{!Field p} (c : M P A) Q s :
  wp c (fun a x => Q a (s <| p := x |>)) (p s) -> wp (on_part p c) Q s.
Proof. unfold wp, on_part. by destruct (c (p s)) as [[]|]. Qed.
Lemma wp_assign_member {T A} (p : Diag T -> A) `{!Field p} v Q s : Q tt (s <| p := v |>) -> wp (p :::= v) Q s.
Proof. done. Qed.

(** Two writes in a row. *)
Lemma splice_splice b i x y : 0 <= i -> i + Z.of_nat (length x) <= Z.of_nat (length b) ->
  splice (splice b i x) (i + Z.of_nat (length x)) y = splice b i (x ++ y).
Proof.
  intros Hi Hl. unfold splice.
  assert (Z.to_nat (i + Z.of_nat (length x)) = (Z.to_nat i + length x)%nat) as -> by lia.
  set (n := Z.to_nat i). assert (length (take n b) = n) as Hn by (rewrite length_take; lia).
  rewrite (app_assoc (take n b)), take_app_length' by (rewrite length_app; lia).
  rewrite drop_app_ge by (rewrite length_app; lia). rewrite drop_drop, length_app, Hn, length_app, <- !app_assoc.
  do 3 f_equal. f_equal. lia.
Qed.
Lemma splice_at b i x y j : 0 <= i -> j = i + Z.of_nat (length x) -> j <= Z.of_nat (length b) ->
  splice (splice b i x) j y = splice b i (x ++ y).
Proof. intros Hi -> Hl. by apply splice_splice. Qed.
Lemma splice_nothing b i : splice b i [] = b.
Proof. unfold splice. cbn [app length]. rewrite Nat.add_0_r. apply take_drop. Qed.
Lemma take_splice_all b x n : n = length x -> (n <= length b)%nat -> take n (splice b 0 x) = x.
Proof. intros -> Hn. unfold splice. cbn [Z.to_nat]. rewrite take_0. cbn [app]. by rewrite take_app_length. Qed.

Lemma length_omap_le {A B} (f : A -> option B) l : (length (omap f l) <= length l)%nat.
Proof. induction l as [|x l IH]; [done|]. cbn. destruct (f x); cbn; lia. Qed.

Section Inf.
Context {E : Type} `{!Sqlite E} `{!SqliteLaws E} `{!SteadyReads E}.
Variable env : Env.
Variable denv : DemEnv.
Variable dbenv : DaoEnv.
#[local] Instance spec_store : Store (Dao E) := dao_store dbenv.
#[local] Instance spec_database : Database (Dao E) := dao_database dbenv.
Implicit Types s : Diag (Dao E).

Ltac diag_step :=
  lazymatch goal with
  | |- wp (on_part _ _) _ _ => apply wp_on_part
  | |- wp (assign_member _ _) _ _ => apply wp_assign_member
  | |- _ => wp_step
  end; cbv beta.

(** ** The invariant *)
Record diag_ok s : Prop := {
  diag_uds : UdsSend.wf (uds s);
  diag_dem : wf (fault_code_max denv) (dem s);
  diag_buf : Z.of_nat (length (respBuf s)) = RESPONSE_DATA_SIZE;
  diag_len : 0 <= respBufLen s <= RESPONSE_DATA_SIZE }.
(** Only the diagnostic events and the response buffer change. *)
Definition same_rest s s' : Prop :=
  (uds s', VlanAndSesTypeList s', svcMap s', reported s') = (uds s, VlanAndSesTypeList s, svcMap s, reported s).
#[export] Instance same_rest_preorder : PreOrder same_rest.
Proof. split; unfold same_rest; [done|]. intros ???. congruence. Qed.

(** ** Rows *)
Definition row_bytes (r : Z * Z) : list Z := dtc_bytes r.1 ++ [r.2].
Definition rows_bytes (rows : list (Z * Z)) : list Z := concat (map row_bytes rows).
Definition visible (ses : Z) (rows : list (Z * Z)) : list (Z * Z) :=
  filter (fun r => isSesTypeConfig dbenv r.1 ses = true) rows.
Lemma length_rows_bytes rows : length (rows_bytes rows) = (4 * length rows)%nat.
Proof. induction rows as [|r rows IH]; [done|]. unfold rows_bytes in *. cbn [map concat]. rewrite length_app, IH. cbn. lia. Qed.
Lemma visible_cons ses r rows : visible ses (r :: rows) =
  if isSesTypeConfig dbenv r.1 ses then r :: visible ses rows else visible ses rows.
Proof. unfold visible. rewrite filter_cons. destruct (isSesTypeConfig _ _ _); [by rewrite decide_True|by rewrite decide_False]. Qed.

Definition with_bytes (i : Z) (bs : list Z) s : Diag (Dao E) := s <| respBuf := splice (respBuf s) i bs |>.
Lemma wp_put i v Q s : 0 <= i < Z.of_nat (length (respBuf s)) -> Q tt (with_bytes i [v] s) -> wp (wr respBuf i v) Q s.
Proof. intros Hi HQ. apply wp_cpy; [lia|cbn; lia|exact HQ]. Qed.
Lemma with_bytes_twice i j x y s : 0 <= i -> j = i + Z.of_nat (length x) -> j <= Z.of_nat (length (respBuf s)) ->
  with_bytes j y (with_bytes i x s) = with_bytes i (x ++ y) s.
Proof. intros Hi Hj Hl. unfold with_bytes at 1 3. rewrite <- (splice_at _ i x y j) by done. done. Qed.
Lemma length_with_bytes i x s : 0 <= i -> i + Z.of_nat (length x) <= Z.of_nat (length (respBuf s)) ->
  length (respBuf (with_bytes i x s)) = length (respBuf s).
Proof. intros. unfold with_bytes. cbn. by apply length_splice. Qed.

Lemma wp_put_rows base ses rows : forall i s (Q : Z -> Diag (Dao E) -> Prop), 0 <= base -> 0 <= i ->
  let n := Z.of_nat (length (visible ses rows)) in
  base + (i + n) * 4 <= Z.of_nat (length (respBuf s)) ->
  Q (i + n) (with_bytes (base + i * 4) (rows_bytes (visible ses rows)) s) ->
  wp (put_rows dbenv base i ses rows) Q s.
Proof.
  induction rows as [|[dtc b] rows IH]; intros i s Q Hb Hi n Hn HQ; subst n; cbn [put_rows].
  - wp_step. cbn in HQ. unfold with_bytes, rows_bytes in HQ. cbn [map concat] in HQ.
    rewrite splice_nothing, Z.add_0_r in HQ. by destruct s.
  - rewrite visible_cons in Hn, HQ. cbn [fst] in Hn, HQ. destruct (isSesTypeConfig dbenv dtc ses); [|by apply IH].
    cbn [length] in Hn, HQ. set (j := base + i * 4) in *.
    wp_step. apply wp_put; [lia|]. wp_step. apply wp_put; [rewrite length_with_bytes; cbn; lia|].
    rewrite with_bytes_twice by (cbn; lia). wp_step. apply wp_put; [rewrite length_with_bytes; cbn; lia|].
    rewrite with_bytes_twice by (cbn; lia). wp_step. apply wp_put; [rewrite length_with_bytes; cbn; lia|].
    rewrite with_bytes_twice by (cbn; lia). cbn [app].
    apply IH; [done|lia|rewrite length_with_bytes; cbn [length]; lia|].
    rewrite with_bytes_twice by (cbn [length]; lia).
    assert (i + 1 + Z.of_nat (length (visible ses rows)) = i + Z.of_nat (S (length (visible ses rows)))) as -> by lia.
    exact HQ.
Qed.

(** Past the end of the buffer. *)
Lemma put_rows_overrun base ses rows : forall i s, 0 <= base -> 0 <= i -> base + i * 4 <= Z.of_nat (length (respBuf s)) ->
  Z.of_nat (length (respBuf s)) < base + (i + Z.of_nat (length (visible ses rows))) * 4 ->
  put_rows dbenv base i ses rows s = Faulted OutOfBounds.
Proof.
  induction rows as [|[dtc b] rows IH]; intros i s Hb Hi H0 Hn; [cbn in Hn; lia|].
  rewrite visible_cons in Hn. cbn [fst] in Hn. cbn [put_rows].
  destruct (isSesTypeConfig dbenv dtc ses); [|by apply IH]. cbn [length] in Hn. set (j := base + i * 4) in *.
  assert (forall k (f : unit -> M (Diag (Dao E)) Z) v s0, 0 <= k ->
    (forall s1, 0 <= k < Z.of_nat (length (respBuf s0)) -> length (respBuf s1) = length (respBuf s0) ->
       f tt s1 = Faulted OutOfBounds) -> (wr respBuf k v ≫= f) s0 = Faulted OutOfBounds) as Hwr.
  { intros k f v s0 Hk H. unfold wr, cpy, mbind, M_bind, gets. cbn [length]. case_decide as Hd; [|done].
    unfold modify. apply H; [lia|]. cbn. apply length_splice; cbn; lia. }
  apply Hwr; [lia|]. intros s1 H1 L1. apply Hwr; [lia|]. intros s2 H2 L2. apply Hwr; [lia|]. intros s3 H3 L3.
  apply Hwr; [lia|]. intros s4 H4 L4. apply IH; lia.
Qed.

(** ** Bytes appended *)
Definition pushed (bs : list Z) s : Diag (Dao E) :=
  s <| respBuf := splice (respBuf s) (respBufLen s) bs |> <| respBufLen := respBufLen s + Z.of_nat (length bs) |>.
Definition room s (n : nat) : Prop :=
  Z.of_nat (length (respBuf s)) = RESPONSE_DATA_SIZE /\ 0 <= respBufLen s /\
  respBufLen s + Z.of_nat n <= RESPONSE_DATA_SIZE.
Lemma pushed_pushed x y s : room s (length x) -> pushed y (pushed x s) = pushed (x ++ y) s.
Proof.
  intros (Hl & H0 & Hn). unfold pushed. cbn.
  rewrite splice_splice, length_app, Nat2Z.inj_add, Z.add_assoc by lia. done.
Qed.
Lemma room_pushed x n s : room s (length x + n) -> room (pushed x s) n.
Proof. intros (Hl & H0 & Hn). unfold room, pushed. cbn. rewrite length_splice by lia. lia. Qed.
Lemma room_less s n m : room s n -> (m <= n)%nat -> room s m.
Proof. unfold room. intros. lia. Qed.

Lemma wp_push v Q s : room s 1 -> Q tt (pushed [v] s) -> wp (push v) Q s.
Proof.
  intros (Hl & H0 & Hn) HQ. unfold push. do 3 wp_step. apply wp_put; [lia|]. apply wp_assign_member.
  rewrite wrap_id by (unfold in_width; lia). exact HQ.
Qed.
Lemma wp_push_bytes data Q s : room s (length data) -> Q tt (pushed data s) ->
  wp (push_bytes data (Z.of_nat (length data))) Q s.
Proof.
  intros (Hl & H0 & Hn) HQ. unfold push_bytes. do 3 wp_step. eapply wp_demand.
  { unfold UdsSend.slice. rewrite decide_True by lia. done. }
  rewrite Nat2Z.id, firstn_all. wp_step. apply wp_cpy; [lia|lia|]. apply wp_assign_member.
  rewrite wrap_id by (unfold in_width; lia). exact HQ.
Qed.
Lemma wp_each_pushed {A} (put : A -> M (Diag (Dao E)) unit) (bytes : A -> list Z) (l : list A) : 
  (forall x s Q, x ∈ l -> room s (length (bytes x)) -> Q tt (pushed (bytes x) s) -> wp (put x) Q s) ->
  forall s (Q : unit -> Diag (Dao E) -> Prop), room s (length (concat (map bytes l))) ->
  Q tt (pushed (concat (map bytes l)) s) -> wp (for_each l put) Q s.
Proof.
  induction l as [|x l IH]; intros Hp s Q Hr HQ; cbn [for_each map concat] in *.
  - wp_step. unfold pushed in HQ. cbn in HQ. rewrite splice_nothing, Z.add_0_r in HQ. by destruct s.
  - rewrite length_app in Hr. wp_step. apply Hp; [by left|by eapply room_less; [done|lia]|].
    apply IH; [intros; apply Hp; [by right|done..]|by apply room_pushed|].
    rewrite pushed_pushed; [done|]. by eapply room_less; [done|lia].
Qed.

Definition did_bytes (f : taf_DataAccess_FF_DID_t) : list Z :=
  [Z.shiftr (Z.land (ff_did f) 0xff00) 8; Z.land (ff_did f) 0xff] ++ ff_didData f.
Definition record_bytes (r : taf_DataAccess_SnapshotData_t) : list Z :=
  [sd_recNumber r; recDidSize r] ++ concat (map did_bytes (didSet r)).
Definition ext_bytes (e : taf_DataAccess_ExtData_t) : list Z := ed_recNumber e :: extDataBytes e.

Ltac pushing := repeat first
  [ wp_step
  | apply wp_push; [eapply room_less; [eassumption|cbn [length]; lia]|]
  | apply wp_push; [apply room_pushed; eapply room_less; [eassumption|cbn [length]; lia]|]; rewrite pushed_pushed by (eapply room_less; [eassumption|cbn [length]; lia]); cbn [app] ].
Lemma wp_put_did f Q s : did_ok f -> room s (length (did_bytes f)) -> Q tt (pushed (did_bytes f) s) -> wp (put_did f) Q s.
Proof.
  intros [Hf _] Hr HQ. unfold put_did, did_bytes in *. rewrite Hf. cbn [app length] in Hr. pushing.
  apply wp_push_bytes; [apply room_pushed; exact Hr|].
  rewrite pushed_pushed by (eapply room_less; [eassumption|cbn [length]; lia]). exact HQ.
Qed.
Lemma wp_put_snapshot r Q s : record_ok r -> room s (length (record_bytes r)) -> Q tt (pushed (record_bytes r) s) ->
  wp (put_snapshot r) Q s.
Proof.
  intros (Hn & _ & Hf) Hr HQ. unfold put_snapshot, record_bytes in *. rewrite Hn, Nat2Z.id, firstn_all, <- Hn.
  cbn [app length] in Hr. pushing.
  apply (wp_each_pushed put_did did_bytes).
  - intros f s1 Q1 Hin. apply wp_put_did. eapply Forall_forall in Hf; [exact Hf|done].
  - apply room_pushed. exact Hr.
  - rewrite pushed_pushed by (eapply room_less; [eassumption|cbn [length]; lia]). exact HQ.
Qed.
Lemma wp_put_ext_data e Q s : room s (length (ext_bytes e)) -> Q tt (pushed (ext_bytes e) s) -> wp (put_ext_data e) Q s.
Proof.
  intros Hr HQ. unfold put_ext_data, ext_bytes in *. cbn [length] in Hr. pushing.
  apply wp_push_bytes; [apply room_pushed; exact Hr|].
  rewrite pushed_pushed by (eapply room_less; [eassumption|cbn [length]; lia]). exact HQ.
Qed.

(** A record has at most ten DIDs of at most 128 bytes. *)
Lemma concat_bound {A} (f : A -> list Z) (k : nat) (l : list A) :
  (forall x, x ∈ l -> (length (f x) <= k)%nat) -> (length (concat (map f l)) <= length l * k)%nat.
Proof.
  induction l as [|x l IH]; intros H; cbn [map concat length]; [lia|]. rewrite length_app.
  pose proof (H x ltac:(by left)). pose proof (IH ltac:(intros; apply H; by right)). lia.
Qed.
Lemma record_bytes_bound r : record_ok r -> (length (record_bytes r) <= 1302)%nat.
Proof.
  intros (Hn & Hl & Hf). unfold record_bytes. rewrite length_app. cbn [length].
  pose proof (concat_bound did_bytes 130 (didSet r)) as H. assert (length (concat (map did_bytes (didSet r))) <= length (didSet r) * 130)%nat.
  { apply H. intros f Hin. eapply Forall_forall in Hf as [H1 H2]; [|exact Hin]. unfold did_bytes. rewrite length_app. cbn [length].
    rewrite H1 in H2. lia. }
  lia.
Qed.

(** ** The sub-functions *)

(** The response is the bytes [bs]. *)
Definition packed (bs : list Z) s : Prop :=
  respBufLen s = Z.of_nat (length bs) /\ take (length bs) (respBuf s) = bs.
Definition sub_spec (c : M (Diag (Dao E)) le_result_t) s (P : list Z -> Prop) : Prop :=
  wp c (fun r s' => diag_ok s' /\ same_rest s s' /\ (r = LE_OK -> exists bs, P bs /\ packed bs s')) s.
Lemma sub_refused r s P : diag_ok s -> r <> LE_OK -> sub_spec (mret r) s P.
Proof. intros Hs Hr. by apply wp_ret. Qed.
Lemma sub_from s s1 c P : same_rest s s1 -> sub_spec c s1 P ->
  wp c (fun r s' => diag_ok s' /\ same_rest s s' /\ (r = LE_OK -> exists bs, P bs /\ packed bs s')) s1.
Proof. intros Hs H. eapply wp_conseq; [exact H|]. intros r s' (H1 & H2 & H3). split_and!; [done|by etransitivity|done]. Qed.

(** The buffer changes, the rest stays. *)
Lemma diag_ok_buffer s b n : diag_ok s -> Z.of_nat (length b) = RESPONSE_DATA_SIZE -> 0 <= n <= RESPONSE_DATA_SIZE ->
  diag_ok (s <| respBuf := b |> <| respBufLen := n |>).
Proof. intros [H1 H2 _ _] Hb Hn. by split. Qed.

Lemma diag_sound s : diag_ok s -> dao_sound (db (dem s)).
Proof. intros [_ [] _ _]. done. Qed.
Lemma diag_wf s : diag_ok s -> well_formed (db (dem s)).
Proof. intros H. by apply sound_wf, (diag_sound s). Qed.

(** A query leaves everything but the state of SQLite. *)
Lemma wp_on_reading {A} (c : M (Dao E) A) (P : A -> Prop) (Q : A -> Diag (Dao E) -> Prop) s :
  diag_ok s -> reading c (db (dem s)) P ->
  (forall a s', P a -> diag_ok s' -> same_rest s s' -> respBuf s' = respBuf s -> respBufLen s' = respBufLen s ->
     unchanged (db (dem s)) (db (dem s')) -> Q a s') ->
  wp (on_dao c) Q s.
Proof.
  intros Hok Hc HQ. unfold on_dao, on_dem. apply wp_on_part, wp_on_db. eapply wp_conseq; [exact Hc|].
  intros a d' (HP & Hs & Hu). apply HQ; try done. destruct Hok as [H1 [] H3 H4]. split; try done. split; try done.
  cbn. eapply unchanged_sound; [exact wf_db|done|done].
Qed.

Lemma with_session_spec vlan (get : Z -> M (Diag (Dao E)) le_result_t) s P : diag_ok s ->
  (forall ses, amap_find (VlanAndSesTypeList s) vlan = Some ses -> sub_spec (get ses) s P) ->
  sub_spec (with_session vlan get) s P.
Proof.
  intros Hs Hg. unfold sub_spec, with_session, GetCurrentSesType. do 2 wp_step.
  destruct (amap_find (VlanAndSesTypeList s) vlan) as [ses|]; [by apply Hg|by apply sub_refused].
Qed.

(** The head of a response, then the rows. *)
Lemma packed_splice s b bs n : n = Z.of_nat (length bs) -> Z.of_nat (length b) = RESPONSE_DATA_SIZE ->
  n <= RESPONSE_DATA_SIZE -> packed bs (s <| respBuf := splice b 0 bs |> <| respBufLen := n |>).
Proof.
  intros Hn Hb Hl. split; [exact Hn|]. cbn. apply take_splice_all; [done|lia].
Qed.
Lemma put_rows_packed head ses rows s s1 P (n : Z) : diag_ok s -> same_rest s s1 ->
  dem s1 = dem s -> respBuf s1 = splice (respBuf s) 0 head -> n = Z.of_nat (length head) ->
  let bs := head ++ rows_bytes (visible ses rows) in P bs -> Z.of_nat (length bs) <= RESPONSE_DATA_SIZE ->
  wp (put_rows dbenv n 0 ses rows) (fun i s2 =>
    n + i * 4 = Z.of_nat (length bs) /\ respBufLen s2 = respBufLen s1 /\
    forall m, m = n + i * 4 -> let s' := s2 <| respBufLen := m |> in
      diag_ok s' /\ same_rest s s' /\ exists bs, P bs /\ packed bs s') s1.
Proof.
  intros Hs Hr Hd Hb -> bs HP Hl. pose proof (diag_buf _ Hs) as Hlen. unfold bs in Hl.
  rewrite length_app, length_rows_bytes in Hl.
  assert (length (respBuf s1) = length (respBuf s)) as Hb1 by (rewrite Hb; apply length_splice; lia).
  apply wp_put_rows; [lia|lia|rewrite Hb1; lia|]. cbv zeta.
  rewrite Z.add_0_l, Z.mul_0_l, Z.add_0_r. unfold bs. rewrite length_app, length_rows_bytes.
  split_and!; [lia|done|]. intros m ->.
  assert (respBuf (with_bytes (Z.of_nat (length head)) (rows_bytes (visible ses rows)) s1) = splice (respBuf s) 0 bs) as Hbuf.
  { cbn. rewrite Hb. apply splice_at; lia. }
  assert (length (splice (respBuf s) 0 bs) = length (respBuf s)) as Hlb.
  { apply length_splice; [lia|]. unfold bs. rewrite length_app, length_rows_bytes. lia. }
  split_and!.
  - destruct Hs as [H1 H2 H3 H4]. unfold same_rest in Hr. injection Hr as Hu _ _ _. split; cbn [assign] in *.
    + change (UdsSend.wf (uds s1)). by rewrite Hu.
    + change (wf (fault_code_max denv) (dem s1)). by rewrite Hd.
    + change (Z.of_nat (length (respBuf (with_bytes (Z.of_nat (length head)) (rows_bytes (visible ses rows)) s1))) = RESPONSE_DATA_SIZE).
      by rewrite Hbuf, Hlb.
    + cbn. lia.
  - etransitivity; [exact Hr|done].
  - exists bs. split; [exact HP|]. split.
    + cbn. unfold bs. rewrite length_app, length_rows_bytes. lia.
    + change (take (length bs) (respBuf (with_bytes (Z.of_nat (length head)) (rows_bytes (visible ses rows)) s1)) = bs).
      rewrite Hbuf. apply take_splice_all; [done|]. unfold bs. rewrite length_app, length_rows_bytes. lia.
Qed.

Lemma read_by_mask m d : well_formed d ->
  reading (DaoDem.GetDtcByStatusMask m) d (fun q => q.1 = GetAvailableStatusMask /\
    q.2 ≡ₚ map reported_of (matching d (Z.land m GetAvailableStatusMask))).
Proof.
  intros Hw. unfold DaoDem.GetDtcByStatusMask. eapply reading_bind; [|done|].
  - unfold reading. apply wp_ReadDtcByStatus; [done|]. intros l d' Hl Hs Hu. exact (conj Hl (conj Hs Hu)).
  - intros l d' Hl Hw' _ _. by apply reading_ret.
Qed.
Lemma read_supported d : well_formed d -> codes_ok dbenv ->
  reading (DaoDem.GetSupportedDtc dbenv) d (fun q => q.1 = GetAvailableStatusMask /\
    q.2 = omap (fun code => supported_entry dbenv d (u32 code)) (dtc_all (dao_conf dbenv)).*1).
Proof.
  intros Hw Hc. unfold DaoDem.GetSupportedDtc. eapply reading_bind; [by apply wp_supported|done|].
  intros l d' -> Hw' _ _. by apply reading_ret.
Qed.

(** Sub-function 0x01: the number of the DTCs. *)
Definition count_response (ses : Z) (l : list taf_DataAccess_DTCStatus_t) : list Z :=
  let n := u16 (Z.of_nat (length (filter (fun r => isSesTypeConfig dbenv (st_dtc r) ses = true) l))) in
  [available_mask dbenv ses GetAvailableStatusMask; GetDtcFormatId dbenv;
   Z.shiftr (Z.land n 0xff00) 8; Z.land n 0xff].
(** Sub-function 0x02: the DTCs with their status. *)
Definition rows_response (ses : Z) (l : list taf_DataAccess_DTCStatus_t) : list Z :=
  available_mask dbenv ses GetAvailableStatusMask :: rows_bytes (visible ses (map status_row l)).
Definition session_of s vlan ses : Prop := amap_find (VlanAndSesTypeList s) vlan = Some ses.
Definition matching_dtcs s m (l : list taf_DataAccess_DTCStatus_t) : Prop :=
  l ≡ₚ map reported_of (matching (db (dem s)) (Z.land m GetAvailableStatusMask)).

Lemma visible_bound ses rows : (length (visible ses rows) <= length rows)%nat.
Proof. apply length_filter. Qed.
Lemma wp_put4 a b c d s {A} (k : M (Diag (Dao E)) A) (Q' : A -> Diag (Dao E) -> Prop) :
  4 <= Z.of_nat (length (respBuf s)) -> wp k Q' (with_bytes 0 [a; b; c; d] s) ->
  wp (wr respBuf 0 a;; wr respBuf 1 b;; wr respBuf 2 c;; wr respBuf 3 d;; k) Q' s.
Proof.
  intros Hl Hk. wp_step. apply wp_put; [lia|]. wp_step. apply wp_put; [rewrite length_with_bytes; cbn [length]; lia|].
  rewrite with_bytes_twice by (cbn [length]; lia). wp_step. apply wp_put; [rewrite length_with_bytes; cbn [length app]; lia|].
  rewrite with_bytes_twice by (cbn [length app]; lia). wp_step. apply wp_put; [rewrite length_with_bytes; cbn [length app]; lia|].
  rewrite with_bytes_twice by (cbn [length app]; lia). exact Hk.
Qed.
Lemma packed_head bs s s1 P n : diag_ok s -> same_rest s s1 -> dem s1 = dem s -> respBuf s1 = splice (respBuf s) 0 bs ->
  P bs -> n = Z.of_nat (length bs) -> n <= RESPONSE_DATA_SIZE -> let s' := s1 <| respBufLen := n |> in
  diag_ok s' /\ same_rest s s' /\ exists bs, P bs /\ packed bs s'.
Proof.
  intros [H1 H2 H3 H4] Hr Hd Hb HP -> Hl. assert (length (splice (respBuf s) 0 bs) = length (respBuf s)) as Hlb
    by (apply length_splice; lia).
  split_and!; [|etransitivity; [exact Hr|done]|].
  - unfold same_rest in Hr. injection Hr as Hu _ _ _. split; cbn.
    + by rewrite Hu.
    + by rewrite Hd.
    + by rewrite Hb, Hlb.
    + lia.
  - exists bs. split; [exact HP|]. split; [done|]. cbn. rewrite Hb. apply take_splice_all; [done|lia].
Qed.

Lemma count_spec m vlan s : diag_ok s -> sub_spec (DiagBackend.GetNumOfDtcByStatusMask dbenv m vlan) s (fun bs =>
  exists ses l, session_of s vlan ses /\ matching_dtcs s m l /\ bs = count_response ses l).
Proof.
  intros Hs. unfold DiagBackend.GetNumOfDtcByStatusMask. apply with_session_spec; [done|]. intros ses Hses. cbv zeta.
  unfold sub_spec. wp_step. eapply wp_on_reading; [done|apply read_by_mask; by apply diag_wf|].
  intros q s1 [_ Hl] Hs1 Hr1 Hb1 _ _. pose proof (diag_buf _ Hs1) as Hb. apply wp_put4; [lia|].
  wp_step. apply wp_assign_member. wp_step.
  pose proof (packed_head (count_response ses q.2) s1 (with_bytes 0 (count_response ses q.2) s1)
    (fun bs => exists ses l, session_of s vlan ses /\ matching_dtcs s m l /\ bs = count_response ses l) 4) as H.
  destruct H as (H1 & H2 & H3); [exact Hs1|reflexivity|reflexivity|reflexivity| |reflexivity|lia|].
  { exists ses, q.2. split_and!; [exact Hses|exact Hl|reflexivity]. }
  split_and!; [exact H1|by etransitivity|]. intros _. exact H3.
Qed.

(** The rows of a response: the bytes [head], then the rows. *)
Lemma rows_tail head ses rows s s1 (P : list Z -> Prop) : diag_ok s -> same_rest s s1 -> dem s1 = dem s ->
  respBuf s1 = splice (respBuf s) 0 head -> respBufLen s1 = Z.of_nat (length head) ->
  let bs := head ++ rows_bytes (visible ses rows) in P bs -> Z.of_nat (length bs) <= RESPONSE_DATA_SIZE ->
  wp (i ← put_rows dbenv (Z.of_nat (length head)) 0 ses rows;
      s' ← get; respBufLen :::= u16 (respBufLen s' + i * 4);; mret LE_OK)
    (fun r s' => diag_ok s' /\ same_rest s s' /\ (r = LE_OK -> exists bs, P bs /\ packed bs s')) s1.
Proof.
  intros Hs Hr Hd Hb Hn bs HP Hl. apply wp_bind. eapply wp_conseq; [by eapply put_rows_packed|].
  intros i s2 (Hi & H2 & H). cbv beta. rewrite Hn in H2. do 3 wp_step. apply wp_assign_member. wp_step.
  rewrite H2, wrap_id by (unfold in_width, bs in *; lia).
  destruct (H _ eq_refl) as (H3 & H4 & H5). split_and!; [exact H3|exact H4|]. intros _. exact H5.
Qed.
(** The three sub-functions that answer with rows, [head] being a byte or nothing. *)
Lemma rows_spec_mask mask ses rows s (P : list Z -> Prop) : diag_ok s ->
  let bs := mask :: rows_bytes (visible ses rows) in P bs -> (length (visible ses rows) <= 1023)%nat ->
  sub_spec (wr respBuf 0 mask;; respBufLen :::= 1;; i ← put_rows dbenv 1 0 ses rows;
            s' ← get; respBufLen :::= u16 (respBufLen s' + i * 4);; mret LE_OK) s P.
Proof.
  intros Hs bs HP Hl. pose proof (diag_buf _ Hs) as Hb. unfold sub_spec. wp_step. apply wp_put; [lia|].
  wp_step. apply wp_assign_member. apply (rows_tail [mask]); try done.
  cbn [app length]. rewrite length_rows_bytes. lia.
Qed.
Lemma rows_spec_bare ses rows s (P : list Z -> Prop) : diag_ok s ->
  P (rows_bytes (visible ses rows)) -> (length (visible ses rows) <= 1023)%nat ->
  sub_spec (respBufLen :::= 0;; i ← put_rows dbenv 0 0 ses rows;
            s' ← get; respBufLen :::= u16 (respBufLen s' + i * 4);; mret LE_OK) s P.
Proof.
  intros Hs HP Hl. unfold sub_spec. wp_step. apply wp_assign_member. apply (rows_tail []); try done.
  cbn [app length]. rewrite length_rows_bytes. lia.
Qed.

(** After a query, from the state that it leaves. *)
Lemma after_query {A} (c : M (Dao E) A) (R : A -> Prop) (k : A -> M (Diag (Dao E)) le_result_t) s P :
  diag_ok s -> reading c (db (dem s)) R -> (forall a s1, R a -> diag_ok s1 -> respBufLen s1 = respBufLen s ->
    sub_spec (k a) s1 P) -> sub_spec (on_dao c ≫= k) s P.
Proof.
  intros Hs Hc Hk. unfold sub_spec. apply wp_bind. eapply wp_on_reading; [done|exact Hc|].
  intros a s1 Ha Hs1 Hr1 _ Hn1 _. apply (sub_from s s1); [done|]. by apply Hk.
Qed.

(** The DTCs of a request by mask that the session may see. *)
Definition dtcs_seen s m ses : nat :=
  length (visible ses (map status_row (map reported_of (matching (db (dem s)) (Z.land m GetAvailableStatusMask))))).
Lemma status_spec m vlan s : diag_ok s -> (forall ses, session_of s vlan ses -> (dtcs_seen s m ses <= 1023)%nat) ->
  sub_spec (DiagBackend.GetDtcByStatusMask dbenv m vlan) s (fun bs =>
    exists ses l, session_of s vlan ses /\ matching_dtcs s m l /\ bs = rows_response ses l).
Proof.
  intros Hs Hn. unfold DiagBackend.GetDtcByStatusMask. apply with_session_spec; [done|]. intros ses Hses.
  eapply after_query; [done|apply read_by_mask; by apply diag_wf|]. intros q s1 [Hm Hl] Hs1 _. rewrite Hm.
  apply rows_spec_mask; [done| |].
  - exists ses, q.2. split_and!; [exact Hses|exact Hl|reflexivity].
  - etransitivity; [|exact (Hn ses Hses)]. unfold dtcs_seen. apply Nat.eq_le_incl, Permutation_length.
    unfold visible. by rewrite Hl.
Qed.

Definition supported_rows s : list taf_DataAccess_DTCStatus_t :=
  omap (fun code => supported_entry dbenv (db (dem s)) (u32 code)) (dtc_all (dao_conf dbenv)).*1.
Lemma supported_spec vlan s : diag_ok s -> codes_ok dbenv -> (length (dtc_all (dao_conf dbenv)) <= 1023)%nat ->
  sub_spec (DiagBackend.GetSupportedDtc dbenv vlan) s (fun bs =>
    exists ses, session_of s vlan ses /\ bs = rows_response ses (supported_rows s)).
Proof.
  intros Hs Hc Hn. unfold DiagBackend.GetSupportedDtc. apply with_session_spec; [done|]. intros ses Hses.
  eapply after_query; [done|apply read_supported; [by apply diag_wf|done]|]. intros q s1 [Hm Hl] Hs1 _. rewrite Hm, Hl.
  apply rows_spec_mask; [done|by exists ses|].
  etransitivity; [apply visible_bound|]. rewrite length_map. etransitivity; [|exact Hn].
  unfold supported_rows. rewrite length_omap_le. by rewrite length_fmap.
Qed.
Lemma snapshot_id_spec vlan s : diag_ok s -> (snapshot_rows (db (dem s)) <= 1023)%nat ->
  sub_spec (DiagBackend.GetDtcSnapshotID dbenv vlan) s (fun bs => exists ses infos, session_of s vlan ses /\
    bs = rows_bytes (visible ses (map (fun r => (si_dtc r, si_recNumber r)) infos))).
Proof.
  intros Hs Hn. unfold DiagBackend.GetDtcSnapshotID. apply with_session_spec; [done|]. intros ses Hses.
  eapply after_query; [done|apply read_identification; by apply diag_wf|]. intros infos s1 Hl Hs1 _. cbv beta in Hl.
  apply rows_spec_bare; [done|by exists ses, infos|].
  etransitivity; [apply visible_bound|]. rewrite length_map. lia.
Qed.

(** A DTC with its status, then the records. *)
Lemma records_spec {A} (put : A -> M (Diag (Dao E)) unit) (bytes : A -> list Z) (l : list A) dtc status s
    (P : list Z -> Prop) : diag_ok s ->
  (forall x s1 Q, x ∈ l -> room s1 (length (bytes x)) -> Q tt (pushed (bytes x) s1) -> wp (put x) Q s1) ->
  P (dtc_bytes dtc ++ [status] ++ concat (map bytes l)) -> (length (concat (map bytes l)) <= 4091)%nat ->
  sub_spec (put_dtc_and_status dtc status 4;; for_each l put;; mret LE_OK) s P.
Proof.
  intros Hs Hp HP Hl. pose proof (diag_buf _ Hs) as Hb. unfold sub_spec. wp_step. unfold put_dtc_and_status.
  apply wp_put4; [lia|]. apply wp_assign_member. set (head := dtc_bytes dtc ++ [status]).
  set (s1 := (with_bytes 0 head s) <| respBufLen := 4 |>).
  match goal with |- wp _ _ ?x => change x with s1 end.
  assert (length (respBuf s1) = length (respBuf s)) as Hb1 by (apply length_with_bytes; cbn; lia).
  assert (room s1 (length (concat (map bytes l)))) as Hr by (unfold room; rewrite Hb1; cbn; lia).
  wp_step. apply (wp_each_pushed put bytes); [done|done|]. wp_step.
  assert (pushed (concat (map bytes l)) s1 = with_bytes 0 (head ++ concat (map bytes l)) s
    <| respBufLen := 4 + Z.of_nat (length (concat (map bytes l))) |>) as ->.
  { unfold with_bytes. rewrite <- (splice_at _ 0 head (concat (map bytes l)) 4) by (cbn; lia). reflexivity. }
  destruct (packed_head (head ++ concat (map bytes l)) s (with_bytes 0 (head ++ concat (map bytes l)) s) P
    (4 + Z.of_nat (length (concat (map bytes l))))) as (H1 & H2 & H3); try done.
  - rewrite length_app. cbn. lia.
  - lia.
Qed.

Definition record_response (r : taf_DataAccess_SnapshotDataRec_t) : list Z :=
  dtc_bytes (sr_dtc r) ++ [sr_status r] ++ concat (map record_bytes (snapshotDataList r)).
Definition ext_response (r : taf_DataAccess_ExtDataRec_t) : list Z :=
  dtc_bytes (er_dtc r) ++ [er_status r] ++ concat (map ext_bytes (extDataList r)).
Lemma snapshot_record_spec dtc rn vlan s : diag_ok s -> dtc_code dtc -> sets_fit (db (dem s)) dtc ->
  (length (numbers_of (db (dem s)) dtc) <= 3)%nat ->
  sub_spec (GetDtcSnapshotRecordByDTCNum dbenv dtc rn vlan) s (fun bs => exists r, bs = record_response r).
Proof.
  intros Hs Hc Hf Hn. unfold GetDtcSnapshotRecordByDTCNum. apply with_session_spec; [done|]. intros ses Hses.
  case_match; [by apply sub_refused|].
  eapply after_query; [done|apply read_snapshot_record; [by apply diag_wf|done..]|].
  intros [res rec] s1 Hq Hs1 _. cbn [fst snd] in *. destruct res; try by apply sub_refused.
  cbn [ok negb]. destruct (Hq eq_refl) as (r & -> & Hr & Hl). unfold sub_spec. apply wp_bind, wp_ret.
  apply (records_spec put_snapshot record_bytes); [done| |by eexists|].
  - intros x s2 Q Hx. apply wp_put_snapshot. eapply Forall_forall in Hr; [exact Hr|done].
  - etransitivity; [apply (concat_bound record_bytes 1302)|lia]. intros x Hx. apply record_bytes_bound.
    eapply Forall_forall in Hr; [exact Hr|done].
Qed.
Lemma ext_data_spec dtc rn vlan s : diag_ok s -> dtc_code dtc ->
  sub_spec (GetExtDataRecordByDTCNum dbenv dtc rn vlan) s (fun bs => exists r, bs = ext_response r).
Proof.
  intros Hs Hc. unfold GetExtDataRecordByDTCNum. apply with_session_spec; [done|]. intros ses Hses.
  case_match; [by apply sub_refused|].
  eapply after_query; [done|apply read_extended; [by apply diag_wf|done]|].
  intros [res rec] s1 Hq Hs1 _. cbn [fst snd] in *. destruct res; try by apply sub_refused.
  cbn [ok negb]. destruct (Hq eq_refl) as (r & -> & Hl & Hr). unfold sub_spec. apply wp_bind, wp_ret.
  apply (records_spec put_ext_data ext_bytes); [done|intros; by apply wp_put_ext_data|by eexists|].
  etransitivity; [apply (concat_bound ext_bytes 2)|lia]. intros x Hx. unfold ext_bytes. cbn [length].
  eapply Forall_forall in Hr; [|exact Hx]. lia.
Qed.
End Inf.
