(* ===== verification/DtcAnswer.v ===== *)
(** * The diagnostic service: answers of the DTC interface

    The handler of the services 0x19 and 0x14 sends one message: the negative response with the
    code of its refusal, or the positive one with the bytes it has packed. What clearing by
    request makes of the DTCs. *)
From Stdlib Require Import SpecFloat.
From S2P Require Import Prelude Ieee DiagCfg DemTypes DemEvent DemSvc DemDtc DemInit DemSpec DemInv DemStart DemSafe DemClear.
From S2P Require Import DaoTypes DaoSql DaoEntities DaoSpec DaoRules DaoDem DaoEnds DaoStore DaoEvents DaoClear DaoReports DaoSnapshots DaoLoad DaoCalls DaoStack.
From S2P Require Import DiagBackend DtcInfSpec.
From S2P Require UdsTypes UdsSend UdsResp UdsAnswer UdsMgr SecAccessSpec.
Import UdsTypes (AddrInfo, Mgr, Env).
Import UdsMgr (DiagMsg, dataPtr, dataLen, mkDiagMsg).
Import UdsAnswer (replied, handling, dtc_service).

(** Faults of a part. *)
Lemma bind_faults {S A B} (c : M S A) (f : A -> M S B) e s :
  wp c (fun a s' => f a s' = Faulted e) s -> (c ≫= f) s = Faulted e.
Proof. unfold wp, mbind, M_bind. by destruct (c s) as [[a s']|]. Qed.
Lemma faults_bind {S A B} (c : M S A) (f : A -> M S B) e s : c s = Faulted e -> (c ≫= f) s = Faulted e.
Proof. unfold mbind, M_bind. by intros ->. Qed.

Section Answers.
Context {E : Type} `{!Sqlite E} `{!SqliteLaws E} `{!SteadyReads E}.
Variable env : Env.
Variable denv : DemEnv.
Variable dbenv : DaoEnv.
Context `{!UdsSend.S3Representable (UdsTypes.config env)}.
#[local] Instance answer_store : Store (Dao E) := dao_store dbenv.
#[local] Instance answer_database : Database (Dao E) := dao_database dbenv.
Implicit Types s : Diag (Dao E).
Abbreviation ok_ := (diag_ok denv dbenv).

(** A refusal with its code, or the bytes of a response. *)
Definition outcome : Type := Z + list Z.
Definition answer (sid sub : Z) (o : outcome) : list Z :=
  match o with
  | inl nrc => [0x7F; sid; nrc]
  | inr bs => if sid =? reqReadDTCSvcId then 0x59 :: Z.land sub 0x7F :: bs else [0x54]
  end.
Lemma answer_responds sid sub o : dtc_service sid -> Z.of_nat (length (answer sid sub o)) <= UdsTypes.UDS_MAX_DATA_SIZE ->
  SecAccessSpec.response_to sid (answer sid sub o).
Proof.
  intros Hs Hl. split; [exact Hl|]. destruct o as [nrc|bs]; [left; by exists nrc|right].
  destruct Hs as [-> | ->]; by eexists.
Qed.

(** The part that reads or clears. *)
Definition part_spec (c : M (Diag (Dao E)) (option Z)) s (K : outcome -> Dem (Dao E) -> Prop) : Prop :=
  wp c (fun r s' => ok_ s' /\ same_rest s s' /\
    match r with
    | Some nrc => nrc <> 0 /\ K (inl nrc) (dem s')
    | None => exists bs, packed bs s' /\ K (inr bs) (dem s')
    end) s.

(** The answer is sent, and the object is ready for the next request. *)
Record obeyed (to : AddrInfo) (sid sub : Z) (K : outcome -> Dem (Dao E) -> Prop) s s' : Prop := {
  obeyed_answer : exists o, K o (dem s') /\ Z.of_nat (length (answer sid sub o)) <= RESPONSE_DATA_SIZE + 2 /\
    replied env (uds s) to (answer sid sub o) (uds s');
  obeyed_ok : ok_ s';
  obeyed_rest : (VlanAndSesTypeList s', svcMap s', reported s') = (VlanAndSesTypeList s, svcMap s, reported s) }.

Lemma send_answer (a : AddrInfo) msg sid err data s Q : handling (uds s) (UdsTypes.ifName a) sid ->
  let p := match msg with Some (d, n) => (d, u16 n) | None => (None, 0) end in
  p.2 <= UdsTypes.UDS_MAX_DATA_SIZE ->
  (forall m1, UdsSend.wf m1 -> UdsTypes.recvBuf m1 = UdsTypes.recvBuf (uds s) ->
    wp (UdsResp.build_response env sid err p) (fun r m' => r = LE_OK /\ UdsAnswer.wrote m1 data m') m1) ->
  (forall m', replied env (uds s) a data m' -> Q LE_OK (s <| uds := m' |>)) ->
  wp (on_uds (UdsResp.taf_uds_SendDiagResp env a msg sid err)) Q s.
Proof.
  intros Hh p Hp Hb HQ. apply wp_on_part.
  eapply wp_conseq; [by apply (UdsAnswer.SendDiagResp_replied env a msg sid err data)|].
  intros r m' (-> & Hr). by apply HQ.
Qed.

Lemma obeyed_refusal (a : AddrInfo) sid sub nrc K s0 s : ok_ s -> same_rest s0 s -> nrc <> 0 -> dtc_service sid ->
  handling (uds s) (UdsTypes.ifName a) sid -> K (inl nrc) (dem s) ->
  wp (SendNRCResp env sid a nrc;; mret tt) (fun _ s' => obeyed (response_addr a) sid sub K s0 s') s.
Proof.
  intros Hs Hr Hn Hsid Hh HK. unfold SendNRCResp, RespDiagNegative. do 2 wp_step.
  apply (send_answer _ _ _ _ [0x7F; sid; nrc]); [done|cbn; lia| |].
  { intros m1 Hm1 _. by apply UdsAnswer.refusal_wrote. }
  intros m' Hm. repeat wp_step. unfold same_rest in Hr. injection Hr as Hu H1 H2 H3. split.
  - exists (inl nrc). split_and!; [done|cbn; lia|]. by rewrite Hu in Hm.
  - destruct Hs as [_ Hd Hb Hl]. split; try done. apply (UdsAnswer.replied_wf _ _ _ _ _ Hm).
  - cbn. by rewrite H1, H2, H3.
Qed.

Lemma build_positive sid sub (p : UdsResp.Payload) bs m : dtc_service sid -> UdsSend.wf m ->
  UdsTypes.recvBuf m !! 1%nat = Some sub -> UdsAnswer.payload_ok p -> p.2 <= RESPONSE_DATA_SIZE ->
  bs = match p.1 with Some d => take (Z.to_nat p.2) d | None => [] end ->
  wp (UdsResp.build_response env sid 0 p) (fun r m' => r = LE_OK /\ UdsAnswer.wrote m (answer sid sub (inr bs)) m') m.
Proof.
  intros Hsid Hm Hsub Hp Hl ->. destruct Hsid as [-> | ->]; unfold UdsResp.build_response; cbn [Z.eqb Pos.eqb].
  - by apply UdsAnswer.ReadDTCInfoResp_wrote; [| |lia|].
  - by apply UdsAnswer.ClearDiagInfoResp_wrote.
Qed.
Lemma packed_length bs s : ok_ s -> packed bs s -> Z.of_nat (length bs) <= RESPONSE_DATA_SIZE /\
  respBufLen s = Z.of_nat (length bs) /\ take (Z.to_nat (respBufLen s)) (respBuf s) = bs.
Proof. intros [_ _ _ Hl] [H1 H2]. rewrite H1, Nat2Z.id in *. split_and!; [lia|done|done]. Qed.

Lemma obeyed_response (a : AddrInfo) sid sub bs K s0 s : ok_ s -> same_rest s0 s -> dtc_service sid ->
  handling (uds s) (UdsTypes.ifName a) sid -> UdsTypes.recvBuf (uds s) !! 1%nat = Some sub ->
  packed bs s -> K (inr bs) (dem s) ->
  wp (SendDTCResp env sid a (Some (respBuf s)) (respBufLen s);; mret tt)
    (fun _ s' => obeyed (response_addr a) sid sub K s0 s') s.
Proof.
  intros Hs Hr Hsid Hh Hsub Hp HK. destruct (packed_length bs s Hs Hp) as (Hl & Hn & Hbs).
  pose proof (diag_buf _ _ _ Hs) as Hb. unfold SendDTCResp. do 2 wp_step.
  apply (wp_conseq _ (fun r s1 => r = LE_OK /\ exists m',
    replied env (uds s) (response_addr a) (answer sid sub (inr bs)) m' /\ s1 = s <| uds := m' |>)).
  { assert (in_width 16 (respBufLen s)) as Hw by (unfold in_width; lia).
    destruct (Z.eqb_spec (respBufLen s) 0) as [H0|H0];
      (eapply send_answer; [done| | |intros m' Hm; split; [done|]; by exists m']); cbv zeta; cbn [fst snd].
    - lia.
    - intros m1 Hm1 Hrb. apply build_positive; [done..|by rewrite Hrb| |cbn; lia|].
      + split; [by unfold in_width; cbn|done].
      + cbn [fst snd]. rewrite H0 in Hbs. by rewrite <- Hbs.
    - rewrite wrap_id by done. lia.
    - intros m1 Hm1 Hrb. rewrite wrap_id by done. apply build_positive; [done..|by rewrite Hrb| |cbn; lia|done].
      split; [done|]. intros d [= <-]. cbn. lia. }
  intros r s1 (-> & m' & Hm & ->). cbv beta. change (bool_decide (LE_OK = LE_OK)) with true. cbn [negb].
  wp_step. apply wp_assign_member. wp_step. apply wp_assign_member. repeat wp_step.
  unfold same_rest in Hr. injection Hr as Hu H1 H2 H3. split.
  - exists (inr bs). split_and!; [done| |by rewrite Hu in Hm]. unfold answer. case_match; cbn [length]; lia.
  - destruct Hs as [_ Hd _ _]. split; [by apply (UdsAnswer.replied_wf _ _ _ _ _ Hm)|done|done|cbn; lia].
  - cbn. by rewrite H1, H2, H3.
Qed.

Lemma handler_obeys (a : AddrInfo) sid sub msg K s : ok_ s -> dtc_service sid ->
  handling (uds s) (UdsTypes.ifName a) sid -> UdsTypes.recvBuf (uds s) !! 1%nat = Some sub ->
  part_spec (if sid =? reqReadDTCSvcId then ReadDTCInformation denv dbenv (UdsTypes.ai_vlanId a) msg
             else ClearDiagnosticInformation denv dbenv msg) s K ->
  wp (UDSMsgHandler env denv dbenv a sid msg) (fun _ s' => obeyed (response_addr a) sid sub K s s') s.
Proof.
  intros Hs Hsid Hh Hsub Hc. unfold UDSMsgHandler. wp_step.
  assert (part_spec (if sid =? reqReadDTCSvcId then ReadDTCInformation denv dbenv (UdsTypes.ai_vlanId a) msg
    else if sid =? reqClearDTCSvcId then ClearDiagnosticInformation denv dbenv msg
    else mret (Some SERVICE_NOT_SUPPORTED)) s K) as Hpart by (by destruct Hsid as [-> | ->]).
  eapply wp_conseq; [exact Hpart|]. intros r s1 (Hs1 & Hr & HK). cbv beta.
  assert (uds s1 = uds s) as Hu by (unfold same_rest in Hr; congruence).
  rewrite <- Hu in Hh, Hsub. destruct r as [nrc|].
  - destruct HK as [Hn HK]. by apply obeyed_refusal.
  - destruct HK as (bs & Hp & HK). do 2 wp_step. by apply (obeyed_response a sid sub bs).
Qed.

(** ** Bytes of the request *)
Lemma wp_read_byte msg i b Q s : 0 <= i -> dataPtr msg !! Z.to_nat i = Some b -> Q b s -> wp (read_byte msg i) Q s.
Proof. intros Hi Hb HQ. unfold read_byte. eapply wp_demand; [|exact HQ]. unfold at_. by rewrite decide_True. Qed.
Definition code_of (b1 b2 b3 : Z) : Z := Z.shiftl b1 16 + Z.shiftl b2 8 + b3.
Lemma wp_read_dtc msg i b1 b2 b3 Q s : 0 <= i -> dataPtr msg !! Z.to_nat i = Some b1 ->
  dataPtr msg !! Z.to_nat (i + 1) = Some b2 -> dataPtr msg !! Z.to_nat (i + 2) = Some b3 ->
  Q (code_of b1 b2 b3) s -> wp (read_dtc msg i) Q s.
Proof.
  intros Hi H1 H2 H3 HQ. unfold read_dtc. wp_step. eapply wp_read_byte; [done..|]. wp_step.
  eapply wp_read_byte; [lia|done|]. wp_step. eapply wp_read_byte; [lia|done|]. by wp_step.
Qed.
Lemma sub_read_byte {f} msg i b P s : 0 <= i -> dataPtr msg !! Z.to_nat i = Some b -> sub_spec denv dbenv (f b) s P ->
  sub_spec denv dbenv (x ← read_byte msg i; f x) s P.
Proof. intros Hi Hb Hf. unfold sub_spec. wp_step. by eapply wp_read_byte. Qed.
Lemma sub_read_dtc {f} msg i b1 b2 b3 P s : 0 <= i -> dataPtr msg !! Z.to_nat i = Some b1 ->
  dataPtr msg !! Z.to_nat (i + 1) = Some b2 -> dataPtr msg !! Z.to_nat (i + 2) = Some b3 ->
  sub_spec denv dbenv (f (code_of b1 b2 b3)) s P -> sub_spec denv dbenv (x ← read_dtc msg i; f x) s P.
Proof. intros Hi H1 H2 H3 Hf. unfold sub_spec. wp_step. by eapply wp_read_dtc. Qed.
Lemma code_in_range b1 b2 b3 : is_byte b1 -> is_byte b2 -> is_byte b3 -> dtc_code (code_of b1 b2 b3).
Proof. unfold in_width, dtc_code, code_of. rewrite !Z.shiftl_mul_pow2 by lia. lia. Qed.

(** The pointer of the message is that of the receive buffer. *)
Record request_at msg s : Prop := {
  request_ptr : dataPtr msg = UdsTypes.recvBuf (uds s);
  request_len : 0 <= dataLen msg }.
Lemma request_byte msg s i : ok_ s -> request_at msg s -> 0 <= i < UdsTypes.UDS_MAX_DATA_SIZE ->
  exists b, dataPtr msg !! Z.to_nat i = Some b /\ is_byte b.
Proof.
  intros Hs [Hp _] Hi. pose proof (diag_uds _ _ _ Hs) as Hw. pose proof (UdsSend.wf_recvBuf _ Hw) as Hl.
  rewrite Hp. destruct (lookup_lt_is_Some_2 (UdsTypes.recvBuf (uds s)) (Z.to_nat i) ltac:(lia)) as [b Hb].
  exists b. split; [exact Hb|]. by eapply Forall_lookup_1; [apply (UdsSend.wf_bytes _ Hw)|].
Qed.

(** ** Reading *)

(** A session that is not known, or data that cannot be had, is out of range. *)
Definition sub_outcome (len n : Z) (P : list Z -> Prop) (o : outcome) (d : Dem (Dao E)) : Prop :=
  match o with
  | inl nrc => nrc = if len =? n then REQ_OUT_OF_RANGE else INCORRECT_MSG_LEN_OR_INVALID_FORMAT
  | inr bs => len = n /\ P bs
  end.
Lemma sub_request_part len n get s P : ok_ s -> (len = n -> sub_spec denv dbenv get s P) ->
  part_spec (sub_request len n get) s (sub_outcome len n P).
Proof.
  intros Hs Hg. unfold part_spec, sub_request, sub_outcome. destruct (Z.eqb_spec len n) as [Hn|Hn]; cbn [negb].
  - wp_step. eapply wp_conseq; [by apply Hg|]. intros r s1 (H1 & H2 & H3). wp_step. split_and!; [done|done|].
    case_bool_decide as Hr; [|done]. destruct (H3 Hr) as (bs & HP & Hb). by exists bs.
  - wp_step. by split_and!.
Qed.
Lemma part_impl c s (K K' : outcome -> Dem (Dao E) -> Prop) : part_spec c s K -> (forall o d, K o d -> K' o d) -> part_spec c s K'.
Proof.
  intros Hc Himpl. eapply wp_conseq; [exact Hc|]. intros [nrc|] s' (H1 & H2 & H3); (split; [done|split; [done|]]).
  - destruct H3. split; auto.
  - destruct H3 as (bs & ? & ?). eauto.
Qed.

(** What the response buffer can hold. *)
Record fits s : Prop := {
  fits_seen m ses : (dtcs_seen dbenv s m ses <= 1023)%nat;
  fits_conf : (length (dtc_all (dao_conf dbenv)) <= 1023)%nat;
  fits_snapshots : (snapshot_rows (db (dem s)) <= 1023)%nat;
  fits_sets dtc : sets_fit (db (dem s)) dtc;
  fits_numbers dtc : (length (numbers_of (db (dem s)) dtc) <= 3)%nat }.

Lemma reading_part vlan msg b1 s : ok_ s -> codes_ok dbenv -> fits s -> request_at msg s ->
  dataPtr msg !! 1%nat = Some b1 -> Z.land b1 0x7F <> REPORT_DTC_FAULT_DETECTION_COUNTER ->
  part_spec (ReadDTCInformation denv dbenv vlan msg) s (fun _ _ => True).
Proof.
  intros Hs Hc [Hseen Hconf Hsnap Hsets Hnum] Hm Hb1 Hne. unfold ReadDTCInformation. cbv zeta. unfold part_spec. wp_step.
  eapply wp_read_byte; [lia|exact Hb1|].
  assert (forall n get P, sub_spec denv dbenv get s P -> part_spec (sub_request (dataLen msg) n get) s (fun _ _ => True)) as Hsub.
  { intros n get P Hg. eapply part_impl; [by apply sub_request_part|done]. }
  assert (forall i, 0 <= i < 16400 -> exists b, dataPtr msg !! Z.to_nat i = Some b /\ is_byte b) as Hbyte
    by (intros; by apply (request_byte msg s)).
  destruct (Hbyte 2 ltac:(lia)) as (c2 & H2 & B2), (Hbyte 3 ltac:(lia)) as (c3 & H3 & B3),
    (Hbyte 4 ltac:(lia)) as (c4 & H4 & B4), (Hbyte 5 ltac:(lia)) as (c5 & H5 & B5).
  assert (dtc_code (code_of c2 c3 c4)) as Hcode by by apply code_in_range.
  rewrite (proj2 (Z.eqb_neq _ REPORT_DTC_FAULT_DETECTION_COUNTER)) by exact Hne.
  repeat (case_match; [eapply Hsub|]); try (apply wp_ret; by split_and!).
  - eapply sub_read_byte; [lia|exact H2|]. by apply count_spec.
  - eapply sub_read_byte; [lia|exact H2|]. apply status_spec; auto.
  - by apply snapshot_id_spec.
  - eapply sub_read_dtc; [lia|exact H2|exact H3|exact H4|]. eapply sub_read_byte; [lia|exact H5|]. by apply snapshot_record_spec.
  - eapply sub_read_dtc; [lia|exact H2|exact H3|exact H4|]. eapply sub_read_byte; [lia|exact H5|]. by apply ext_data_spec.
  - by apply supported_spec.
Qed.

(** The DTCs by status mask: exactly these rows. *)
Definition mask_request msg (sub m : Z) : Prop :=
  dataPtr msg !! 1%nat = Some sub /\ dataPtr msg !! 2%nat = Some m /\ Z.land sub 0x7F = REPORT_DTC_BY_STATUS_MASK /\
  dataLen msg = DTC_BY_STATUS_MASK_REQ_LEN.
Lemma with_session_known vlan get ses s : session_of s vlan ses -> with_session vlan get s = get ses s.
Proof. intros Hses. unfold with_session, GetCurrentSesType, mbind, M_bind, gets. unfold session_of in Hses. by rewrite Hses. Qed.
Lemma mask_part vlan ses msg sub m s : ok_ s -> mask_request msg sub m -> session_of s vlan ses ->
  (dtcs_seen dbenv s m ses <= 1023)%nat ->
  part_spec (ReadDTCInformation denv dbenv vlan msg) s (fun o _ => exists l, matching_dtcs s m l /\
    o = inr (rows_response dbenv ses l)).
Proof.
  intros Hs (H1 & H2 & Hsub & Hlen) Hses Hn. unfold ReadDTCInformation, part_spec. cbv zeta. wp_step.
  eapply wp_read_byte; [lia|exact H1|]. rewrite Hsub, Hlen. unfold sub_request. cbn [Z.eqb Pos.eqb negb].
  do 2 wp_step. eapply wp_read_byte; [lia|exact H2|].
  assert (forall ses', session_of s vlan ses' -> ses' = ses) as Hone
    by (unfold session_of in *; intros ses' Hses'; congruence).
  eapply wp_conseq; [apply (wp_and _ (fun r _ => r = LE_OK))|].
  - unfold DiagBackend.GetDtcByStatusMask, wp. rewrite (with_session_known vlan _ ses s Hses).
    match goal with |- match ?c s with _ => _ end => assert (returns c (fun r => r = LE_OK)) as Hret end.
    { do 6 (eapply returns_bind; [apply returns_any|intros ? _]). by apply returns_ret. }
    pose proof (status_spec denv dbenv m vlan s Hs ltac:(by intros ses' ->%Hone)) as Hspec.
    unfold sub_spec, DiagBackend.GetDtcByStatusMask, wp in Hspec. rewrite (with_session_known vlan _ ses s Hses) in Hspec.
    match goal with |- match ?c s with _ => _ end => destruct (c s) as [[r s']|] eqn:Hc; [|done] end.
    by eapply Hret.
  - apply (status_spec denv dbenv m vlan s Hs). by intros ses' ->%Hone.
  - intros r s' (-> & H3 & H4 & H5). cbv beta. wp_step. split; [done|split; [done|]].
    change (bool_decide (LE_OK = LE_OK)) with true. cbv iota.
    destruct (H5 eq_refl) as (bs & (ses' & l & ->%Hone & Hl & ->) & Hp). eexists. split; [exact Hp|]. by exists l.
Qed.

(** Too many of them: the next row is written past the end of the response buffer. *)
Lemma mask_overrun (a : AddrInfo) ses msg sub m s : ok_ s -> mask_request msg sub m ->
  session_of s (UdsTypes.ai_vlanId a) ses -> (1023 < dtcs_seen dbenv s m ses)%nat ->
  UDSMsgHandler env denv dbenv a reqReadDTCSvcId msg s = Faulted OutOfBounds.
Proof.
  intros Hs (H1 & H2 & Hsub & Hlen) Hses Hn. unfold UDSMsgHandler. apply faults_bind. cbn [Z.eqb Pos.eqb].
  unfold ReadDTCInformation. cbv zeta. apply bind_faults. eapply wp_read_byte; [lia|exact H1|].
  rewrite Hsub, Hlen. unfold sub_request. cbn [Z.eqb Pos.eqb negb]. apply faults_bind, bind_faults.
  eapply wp_read_byte; [lia|exact H2|]. unfold DiagBackend.GetDtcByStatusMask. rewrite (with_session_known _ _ ses s Hses).
  apply bind_faults. eapply wp_on_reading; [done|apply read_by_mask; by apply (diag_wf denv dbenv)|].
  intros q s1 [_ Hl] Hs1 _ _ _ _. pose proof (diag_buf _ _ _ Hs1) as Hb. apply bind_faults, wp_put; [lia|].
  apply bind_faults, wp_assign_member. apply faults_bind.
  assert (length (visible dbenv ses (map status_row q.2)) = dtcs_seen dbenv s m ses) as Hv
    by (unfold dtcs_seen; apply Permutation_length; unfold visible; by rewrite Hl).
  assert (length (respBuf (with_bytes 0 [available_mask dbenv ses q.1] s1)) = length (respBuf s1)) as Hlb
    by (apply length_with_bytes; cbn; lia).
  apply put_rows_overrun; [lia|lia| |]; cbn [respBuf]; 
    change (respBuf (?x <| respBufLen := _ |>)) with (respBuf x); rewrite Hlb; lia.
Qed.
End Answers.

(** ** Clearing by request

    What service 0x14 makes of the DTCs and their events, and how it answers. *)
Section Clearing.
Context {E : Type} `{!Sqlite E} `{!SqliteLaws E} `{!SteadyReads E}.
Variable denv : DemEnv.
Variable dbenv : DaoEnv.
Hypothesis no_feature_A : featureA denv = false.
#[local] Instance clearing_store : Store (Dao E) := dao_store dbenv.
#[local] Instance clearing_database : Database (Dao E) := dao_database dbenv.
Implicit Types s : Diag (Dao E).
Implicit Types d : Dem (Dao E).
Abbreviation ok_ := (diag_ok denv dbenv).
Abbreviation client := TAF_DIAGDTC_DTOOL (only parsing).

(** The results of [ClearDtc]. *)
Lemma guarded_returns (c : M (Dao E) le_result_t) (k : M (Dem (Dao E)) unit) : returns c clear_result ->
  returns (result ← on_db c; if negb (bool_decide (result = LE_OK)) then mret result else
           if known_client client then k;; mret LE_OK else mret LE_UNAVAILABLE) clear_result.
Proof.
  intros Hc. eapply returns_bind; [by apply returns_on_db|]. intros r Hr. destruct (negb _); [by apply returns_ret|].
  cbn. eapply returns_bind; [apply returns_any|]. intros ? _. apply returns_ret. by left.
Qed.
Lemma all_returns : returns (ClearDtc (T := Dao E) denv 0xFFFFFF client) clear_result.
Proof. apply (guarded_returns (DeleteAllData dbenv)), delete_all_returns. Qed.
Lemma one_returns code i y d r d' : code <> 0xFFFFFF ->
  list_find (fun y => dtcCode y = code) (DtcCtxList d) = Some (i, y) ->
  ClearDtc denv code client d = Done (r, d') -> clear_result r.
Proof.
  intros Hne Hf. unfold ClearDtc, ClearSingleDtc, GetDtcCtxByCode. rewrite (proj2 (Z.eqb_neq _ _) Hne).
  intros (c & d1 & (d2 & d3 & [= <- <-] & [= <- <-])%bind_run & Hrun)%bind_run. rewrite Hf in Hrun. revert Hrun.
  cbn [fmap option_fmap option_map fst]. intros Hrun.
  eapply (returns_bind (dset i reqClientType client) _ (fun _ => True) clear_result); [apply returns_any| |exact Hrun].
  intros [] _. eapply returns_bind; [apply returns_any|]. intros z _.
  destruct (suppressionStatus z); [apply returns_ret; by right; left|].
  eapply returns_bind; [apply returns_on_db, (delete_returns dbenv (u32 code))|]. intros q Hq. destruct (negb _); [by apply returns_ret|].
  cbn. do 2 (eapply returns_bind; [apply returns_any|intros ? _]). apply returns_ret. by left.
Qed.

(** The response code of a data base that has refused. *)
Definition refusal_of (o : outcome) : Prop := o = inl CONDITIONS_NOT_CORRECT \/ o = inl GENERAL_PROGRAMMING_FAILURE.
(** Clearing the DTC at [i], or nothing. *)
Definition one_obeyed (d : Dem (Dao E)) (i : nat) (y : taf_diagEvent_DtcCtx_t) (o : outcome) (d' : Dem (Dao E)) : Prop :=
  let y1 := y <| reqClientType := client |> in
  if suppressionStatus y then o = inl CONDITIONS_NOT_CORRECT /\ d' = put_dtc i y1 d
  else (o = inr [] /\ erased denv (event_positions d y) d d' /\
        DtcCtxList d' = <[i := clear_dtc denv y1]> (DtcCtxList d)) \/
       (refusal_of o /\ EventCtxList d' = EventCtxList d /\ DtcCtxList d' = <[i := y1]> (DtcCtxList d)).
Definition all_obeyed (d : Dem (Dao E)) (o : outcome) (d' : Dem (Dao E)) : Prop :=
  (o = inr [] /\ all_clear denv (seq 0 (length (DtcCtxList d))) d d') \/
  (refusal_of o /\ EventCtxList d' = EventCtxList d /\ DtcCtxList d' = DtcCtxList d).
Definition clear_obeyed (code : Z) (d : Dem (Dao E)) (o : outcome) (d' : Dem (Dao E)) : Prop :=
  if code =? 0xFFFFFF then all_obeyed d o d'
  else match list_find (fun y => dtcCode y = code) (DtcCtxList d) with
       | None => o = inl REQ_OUT_OF_RANGE /\ d' = d
       | Some (i, y) => one_obeyed d i y o d'
       end.

(** The result as an outcome. *)
Definition outcome_of (r : le_result_t) : outcome :=
  match r with
  | LE_UNAVAILABLE => inl CONDITIONS_NOT_CORRECT
  | LE_UNSUPPORTED => inl REQ_OUT_OF_RANGE
  | LE_IO_ERROR => inl GENERAL_PROGRAMMING_FAILURE
  | _ => inr []
  end.
Lemma refusal_of_result r : clear_result r -> r <> LE_OK -> refusal_of (outcome_of r).
Proof. intros [-> | [-> | ->]] H; [done|by left|by right]. Qed.

Lemma unknown_refused code d : code <> 0xFFFFFF -> list_find (fun y => dtcCode y = code) (DtcCtxList d) = None ->
  wp (ClearDtc denv code client) (fun r d' => r = LE_UNSUPPORTED /\ d' = d) d.
Proof.
  intros Hc Hf. unfold ClearDtc, ClearSingleDtc, GetDtcCtxByCode. rewrite (proj2 (Z.eqb_neq _ _) Hc).
  do 4 wp_step. rewrite Hf. cbn [fmap option_fmap option_map]. by wp_step.
Qed.
(** The result is never one that would be answered positively without clearing. *)
Lemma obeyed_clear code d :
  wp (ClearDtc denv code client) (fun r d' => (clear_result r \/ r = LE_UNSUPPORTED) /\ clear_obeyed code d (outcome_of r) d') d.
Proof.
  unfold clear_obeyed. destruct (Z.eqb_spec code 0xFFFFFF) as [->|Hne].
  - eapply wp_conseq; [apply wp_returns; [apply all_returns|by apply everything_cleared]|].
    intros r d' [Hr H]. split; [by left|]. case_decide as Hok; [subst r; by left|].
    right. split; [by apply refusal_of_result|exact H].
  - destruct (list_find _ (DtcCtxList d)) as [[i y]|] eqn:Hf.
    + pose proof (one_cleared denv no_feature_A code client i y d Hne Hf) as H. unfold wp in *.
      destruct (ClearDtc denv code client d) as [[r d']|] eqn:Hc; [|done].
      pose proof (one_returns code i y d r d' Hne Hf Hc) as Hr. split; [by left|]. cbv zeta in H. unfold one_obeyed. cbv zeta.
      destruct (suppressionStatus y); [by destruct H as [-> ->]|]. case_decide as Hok; [subst r; by left|].
      right. split; [by apply refusal_of_result|exact H].
    + eapply wp_conseq; [by apply unknown_refused|]. intros r d' [-> ->]. split; [by right|done].
Qed.

Definition clear_request msg (b1 b2 b3 : Z) : Prop :=
  dataPtr msg !! 1%nat = Some b1 /\ dataPtr msg !! 2%nat = Some b2 /\ dataPtr msg !! 3%nat = Some b3.
Lemma clearing_part msg b1 b2 b3 s : ok_ s -> clear_request msg b1 b2 b3 ->
  part_spec denv dbenv (ClearDiagnosticInformation denv dbenv msg) s (fun o d' =>
    if dataLen msg <? 4 then o = inl INCORRECT_MSG_LEN_OR_INVALID_FORMAT /\ d' = dem s
    else clear_obeyed (code_of b1 b2 b3) (dem s) o d').
Proof.
  intros Hs (H1 & H2 & H3). unfold ClearDiagnosticInformation, part_spec. wp_step.
  { wp_step. by split_and!. }
  wp_step. eapply wp_read_dtc; [lia|exact H1|exact H2|exact H3|]. wp_step. unfold GetClearDTCResp, on_dem. wp_step.
  apply wp_on_part. eapply wp_conseq; [apply wp_and; [apply obeyed_clear|]|].
  { eapply (safe_clear denv no_feature_A (code_of b1 b2 b3) client (dem s)), Hs. }
  intros r d' [[Hr Ho] [Hw _]]. cbv beta.
  assert (ok_ (s <| dem := d' |>)) as Hs1 by (destruct Hs; by split).
  assert (same_rest s (s <| dem := d' |>)) as Hr1 by done.
  destruct Hr as [[-> | [-> | ->]] | ->]; cbn [outcome_of] in Ho;
    repeat match goal with |- context [bool_decide (?x = ?y)] => let b := eval vm_compute in (bool_decide (x = y)) in
      change (bool_decide (x = y)) with b end; cbv iota; cbn [when];
    repeat first [wp_step | apply wp_assign_member]; try by split_and!.
  split; [destruct Hs1; by split|]. split; [done|]. exists []. split; [|exact Ho]. by split.
Qed.
End Clearing.
