(* ===== verification/DtcThms.v ===== *)
(** * The diagnostic service: theorems on the DTC interface

    A request of the services 0x19 and 0x14 from its indication by the UDS stack, through the
    backend, the DTC interface, the diagnostic events and the data base, to the message that
    answers it. *)
From Stdlib Require Import SpecFloat.
From S2P Require Import Prelude Ieee DiagCfg DemTypes DemEvent DemSvc DemDtc DemInit DemSpec DemInv DemStart DemSafe DemClear DemSample.
From S2P Require Import DaoTypes DaoSql DaoEntities DaoSpec DaoRules DaoDem DaoEnds DaoStore DaoEvents DaoClear DaoReports DaoSnapshots DaoLoad DaoCalls DaoStack DaoSample DaoThms.
From S2P Require Import DiagBackend DtcInfSpec DtcAnswer.
From S2P Require UdsTypes UdsSend UdsResp UdsMgr UdsAnswer SecAccessSpec Sample.
Import UdsTypes (AddrInfo, Mgr, Env).
Import UdsMgr (DiagMsg, dataPtr, dataLen, mkDiagMsg).
Import UdsAnswer (replied, handling, dtc_service).

Lemma bind_done {S A B} (c : M S A) (f : A -> M S B) s a s1 : c s = Done (a, s1) -> (c ≫= f) s = f a s1.
Proof. unfold mbind, M_bind. by intros ->. Qed.
Lemma same_bind {S A B} (c c' : M S A) (f : A -> M S B) s : c s = c' s -> (c ≫= f) s = (c' ≫= f) s.
Proof. unfold mbind, M_bind. by intros ->. Qed.

Section Thms.
Context {E : Type} `{!Sqlite E} `{!SqliteLaws E} `{!SteadyReads E}.
Variable env : Env.
Variable denv : DemEnv.
Variable dbenv : DaoEnv.
Context `{!UdsSend.S3Representable (UdsTypes.config env)}.
Variable max : Z.
Variable others : Z -> AddrInfo -> Z -> DiagMsg -> M (Diag (Dao E)) unit.
#[local] Instance thms_store : Store (Dao E) := dao_store dbenv.
#[local] Instance thms_database : Database (Dao E) := dao_database dbenv.
Implicit Types s : Diag (Dao E).

(** The UDS stack holds the request [req] of a service that the DTC interface has registered. *)
Record awaits s (sid : Z) (req : list Z) : Prop := {
  awaits_handling : handling (uds s) (UdsTypes.ifName (UdsTypes.addrInfo (uds s))) sid;
  awaits_data : take (Z.to_nat (UdsTypes.recvDataLen (uds s))) (UdsTypes.recvBuf (uds s)) = req;
  awaits_len : UdsTypes.recvDataLen (uds s) = Z.of_nat (length req);
  awaits_service : amap_find (svcMap s) sid = Some taf_DTCInf }.
(** The state when the service is called. *)
Definition indicated s (req : list Z) : Diag (Dao E) :=
  s <| uds := UdsSend.log (uds s) [UdsTypes.Indication (UdsTypes.addrInfo (uds s)) req] |>.
Definition request_of s : DiagMsg := mkDiagMsg (UdsTypes.recvBuf (uds s)) (UdsTypes.recvDataLen (uds s)).

Lemma awaits_byte s sid req i : awaits s sid req -> (i < length req)%nat -> UdsTypes.recvBuf (uds s) !! i = req !! i.
Proof.
  intros [_ Hd Hl _] Hi. rewrite <- Hd, Hl, Nat2Z.id in *. rewrite length_take in Hi.
  rewrite lookup_take_lt by lia. done.
Qed.
Lemma request_indicated m req data : UdsTypes.recvDataLen m = Z.of_nat (length req) ->
  take (Z.to_nat (UdsTypes.recvDataLen m)) (UdsTypes.recvBuf m) = req ->
  UdsMgr.IndMsgHandler env UdsTypes.UDS_SERVICE_MSG_INDICATION_ID data m =
    Done (tt, UdsSend.log m [UdsTypes.Indication (UdsTypes.addrInfo m) req]).
Proof.
  intros Hl Hd. unfold UdsMgr.IndMsgHandler, UdsSend.slice. unfold mbind, M_bind, get, gets, demand.
  pose proof (f_equal length Hd) as Hn. rewrite length_take in Hn.
  rewrite decide_True by lia. by rewrite Hd.
Qed.
Lemma indication_reaches s sid req data : awaits s sid req ->
  diag_indicate env denv dbenv max others UdsTypes.UDS_SERVICE_MSG_INDICATION_ID data s =
  (UDSMsgHandler env denv dbenv (UdsTypes.addrInfo (uds s)) sid (request_of s);; mret tt) (indicated s req).
Proof.
  intros [[Hw Hname Hlen Hsid] Hd Hl Hsvc]. unfold diag_indicate, indicate.
  erewrite bind_done by reflexivity. erewrite bind_done.
  2: { unfold on_uds, on_part. by rewrite (request_indicated _ req). }
  erewrite bind_done by reflexivity. change (uds (s <| uds := ?x |>)) with x. rewrite UdsSend.trace_log, drop_app_length.
  cbn [indications omap list_omap for_each fst snd].
  unfold UdsIndicationHanler. change (bool_decide (LE_OK = LE_OK)) with true. cbn [negb dataLen dataPtr].
  rewrite (proj2 (Z.eqb_neq _ _)) by lia. cbv iota.
  unfold request_of, indicated. rewrite Hl. apply same_bind. erewrite bind_done.
  2: { change (at_ _ 0) with (UdsTypes.recvBuf (uds s) !! 0%nat). by rewrite Hsid. }
  erewrite bind_done by reflexivity. change (svcMap (s <| uds := ?x |>)) with (svcMap s). by rewrite Hsvc.
Qed.

(** What the theorems say of the end of a request. *)
Definition served s (K : list Z -> Diag (Dao E) -> Prop) (req : list Z) s' : Prop :=
  diag_ok denv dbenv s' /\
  (VlanAndSesTypeList s', svcMap s', reported s') = (VlanAndSesTypeList s, svcMap s, reported s) /\
  exists data, K data s' /\
    replied env (uds (indicated s req)) (response_addr (UdsTypes.addrInfo (uds s))) data (uds s').

Lemma indicated_ok s req : diag_ok denv dbenv s -> diag_ok denv dbenv (indicated s req).
Proof. intros [H1 H2 H3 H4]. split; [by destruct H1|done..]. Qed.
Lemma indicated_handling s sid req : awaits s sid req ->
  handling (uds (indicated s req)) (UdsTypes.ifName (UdsTypes.addrInfo (uds s))) sid.
Proof. intros [[[] H2 H3 H4] _ _ _]. by split. Qed.
Lemma request_at_indicated s sid req : awaits s sid req -> request_at (request_of s) (indicated s req).
Proof. intros [_ _ Hl _]. split; [done|]. cbn. lia. Qed.
Lemma request_byte_is s sid req i b : awaits s sid req -> req !! i = Some b -> dataPtr (request_of s) !! i = Some b.
Proof.
  intros Ha Hi. change (dataPtr (request_of s)) with (UdsTypes.recvBuf (uds s)).
  rewrite (awaits_byte s sid req i Ha); [exact Hi|by eapply lookup_lt_Some].
Qed.
Lemma request_served s sid sub req data K : diag_ok denv dbenv s -> awaits s sid req -> dtc_service sid ->
  req !! 1%nat = Some sub ->
  part_spec denv dbenv (if sid =? reqReadDTCSvcId
    then ReadDTCInformation denv dbenv (UdsTypes.ai_vlanId (UdsTypes.addrInfo (uds s))) (request_of s)
    else ClearDiagnosticInformation denv dbenv (request_of s)) (indicated s req) K ->
  wp (diag_indicate env denv dbenv max others UdsTypes.UDS_SERVICE_MSG_INDICATION_ID data)
    (fun _ s' => served s (fun bs s' => exists o, K o (dem s') /\ bs = answer sid sub o /\
      Z.of_nat (length bs) <= RESPONSE_DATA_SIZE + 2) req s') s.
Proof.
  intros Hs Ha Hsid Hsub Hp. unfold wp. rewrite (indication_reaches s sid req data Ha).
  match goal with |- match ?c ?x with _ => _ end => change (wp c (fun _ s' => served s (fun bs s' => exists o, K o (dem s') /\
    bs = answer sid sub o /\ Z.of_nat (length bs) <= RESPONSE_DATA_SIZE + 2) req s') x) end.
  wp_step. eapply wp_conseq; [apply (handler_obeys env denv dbenv _ sid sub (request_of s) K)|].
  - by apply indicated_ok.
  - done.
  - by apply indicated_handling.
  - change (UdsTypes.recvBuf (uds (indicated s req))) with (UdsTypes.recvBuf (uds s)).
    rewrite (awaits_byte s sid req 1 Ha); [exact Hsub|by eapply lookup_lt_Some].
  - exact Hp.
  - intros [] s' [(o & HK & Hl & Hr) H2 H3]. wp_step. split; [exact H2|]. split; [exact H3|].
    exists (answer sid sub o). split; [|exact Hr]. by exists o.
Qed.

(** C4: From the indication of a request of the services 0x19 and 0x14 to its answer, through the
    backend, the DTC interface, the diagnostic events and the data base: exactly one message goes
    to the tester, which answers that service, positively or negatively, whatever the bytes of
    the request are and whatever changes SQLite refuses; all parts stay well-formed, and the object is
    ready for the next request when the message has been taken. The data base is to hold no more
    than the response buffer can: [fits]. The sub-function of the fault detection counters is left out. *)
Theorem dtc_request_answered s sid sub req data :
  featureA denv = false -> codes_ok dbenv -> diag_ok denv dbenv s -> fits dbenv s ->
  awaits s sid req -> dtc_service sid -> req !! 1%nat = Some sub ->
  (sid = reqReadDTCSvcId -> Z.land sub 0x7F <> REPORT_DTC_FAULT_DETECTION_COUNTER) ->
  wp (diag_indicate env denv dbenv max others UdsTypes.UDS_SERVICE_MSG_INDICATION_ID data)
    (fun _ => served s (fun msg _ => SecAccessSpec.response_to sid msg) req) s.
Proof.
  intros HA Hc Hs Hf Ha Hsid Hsub Hne. eapply wp_conseq; [eapply (request_served s sid sub req data (fun _ _ => True)); try done|].
  - pose proof (indicated_ok s req Hs) as Hi. pose proof (request_at_indicated s sid req Ha) as Hr.
    destruct Hsid as [-> | ->]; cbn [Z.eqb Pos.eqb].
    + eapply reading_part; [done|done|by destruct Hf|done|by eapply request_byte_is|by apply Hne].
    + destruct (request_byte denv dbenv _ _ 1 Hi Hr ltac:(lia)) as (b1 & H1 & _),
        (request_byte denv dbenv _ _ 2 Hi Hr ltac:(lia)) as (b2 & H2 & _),
        (request_byte denv dbenv _ _ 3 Hi Hr ltac:(lia)) as (b3 & H3 & _).
      eapply part_impl; [by eapply clearing_part|done].
  - intros [] s' (H1 & H2 & msg & (o & _ & -> & Hl) & Hr). split; [done|split; [done|]]. eexists. split; [|exact Hr].
    apply answer_responds; [done|lia].
Qed.

(** C8: A request for the DTCs by status mask is answered with exactly the bytes 59 02, the
    availability mask, and for each stored DTC that has a bit of the mask and that the session
    may see, its three bytes and its status - as many as there are, in the order in which the
    data base gives them. When there are more than 1023, the next row is written past the
    end of the response buffer of 4095 bytes. *)
Theorem mask_request_answered s ses sub m data :
  diag_ok denv dbenv s -> awaits s reqReadDTCSvcId [reqReadDTCSvcId; sub; m] ->
  Z.land sub 0x7F = REPORT_DTC_BY_STATUS_MASK ->
  session_of s (UdsTypes.ai_vlanId (UdsTypes.addrInfo (uds s))) ses ->
  let run := diag_indicate env denv dbenv max others UdsTypes.UDS_SERVICE_MSG_INDICATION_ID data in
  if decide (dtcs_seen dbenv s m ses <= 1023)%nat then
    wp run (fun _ => served s (fun msg _ => exists l, matching_dtcs s m l /\
      msg = 0x59 :: 0x02 :: rows_response dbenv ses l) [reqReadDTCSvcId; sub; m]) s
  else run s = Faulted OutOfBounds.
Proof.
  intros Hs Ha Hsub Hses. cbv zeta. set (req := [reqReadDTCSvcId; sub; m]) in *.
  pose proof (indicated_ok s req Hs) as Hi.
  assert (mask_request (request_of s) sub m) as Hm.
  { split_and!; [by eapply request_byte_is..|done|]. cbn. by rewrite (awaits_len _ _ _ Ha). }
  case_decide as Hn.
  - eapply wp_conseq; [eapply (request_served s _ sub req data _ Hs Ha); [by left|done|]|].
    + by apply (mask_part denv dbenv _ ses _ sub m).
    + intros [] s' (H1 & H2 & msg & (o & (l & Hl & ->) & -> & _) & Hr). split; [done|split; [done|]].
      eexists. split; [|exact Hr]. exists l. split; [exact Hl|]. unfold answer. cbn [Z.eqb Pos.eqb]. by rewrite Hsub.
  - rewrite (indication_reaches s _ req data Ha). apply faults_bind.
    apply (mask_overrun env denv dbenv _ ses _ sub m); [done|done|done|].
    change (dtcs_seen dbenv (indicated s req) m ses) with (dtcs_seen dbenv s m ses). lia.
Qed.

End Thms.

(** ** Concrete runs *)

(** Data bases with few rows fit. *)
Lemma filter_bound {A} (P : A -> Prop) `{!forall x, Decision (P x)} l n : (length l <= n)%nat -> (length (filter P l) <= n)%nat.
Proof. pose proof (length_filter P l). lia. Qed.
Lemma small_fits {E} `{!Sqlite E} `{!SqliteLaws E} `{!SteadyReads E} dbenv (s : Diag (Dao E)) dtcs snaps :
  tab (db (dem s)) dtc_entity = Some dtcs -> tab (db (dem s)) snapshot_entity = Some snaps ->
  (length (all_rows dtcs) <= 1023)%nat -> (length (all_rows snaps) <= 10)%nat ->
  (length (dtc_all (dao_conf dbenv)) <= 1023)%nat -> (length (snapshotRnVec (db (dem s))) <= 3)%nat ->
  fits dbenv s.
Proof.
  intros Hd Hs H1 H2 H3 H4. split; [| |unfold snapshot_rows|intros dtc rn|intros dtc].
  - intros m ses. unfold dtcs_seen, visible, matching. rewrite Hd. apply filter_bound. rewrite !length_map. by apply filter_bound.
  - exact H3.
  - rewrite Hs. lia.
  - unfold record_rows. rewrite Hs. by apply filter_bound.
  - by apply filter_bound.
Qed.

(** The tester asks, the battery having failed. *)
Definition asked (req : list Z) : Diag (Dao Mem) := {|
  dem := stack_failed;
  uds := Sample.sample_mgr 1 Sample.unlocked_ao req;
  VlanAndSesTypeList := first_sessions [1; 2];
  svcMap := [(reqReadDTCSvcId, taf_DTCInf); (reqClearDTCSvcId, taf_DTCInf); (reqSesCtrlSvcId, taf_SecuritySvr)];
  reported := [];
  respBuf := replicate 4095 0;
  respBufLen := 0 |}.
Lemma failed_system : running_system sample_dem_env sample_dao_env stack_failed.
Proof. apply run_system; [apply driving_system|repeat constructor]. Qed.
Lemma asked_ok req : Z.of_nat (length req) <= UdsTypes.UDS_MAX_DATA_SIZE -> Forall is_byte req ->
  diag_ok sample_dem_env sample_dao_env (asked req).
Proof.
  intros Hl Hb. split; [by apply Sample.sample_mgr_wf|exact (system_wf _ failed_system)|done|done].
Qed.
Lemma asked_awaits sid req : sid = reqReadDTCSvcId \/ sid = reqClearDTCSvcId ->
  Z.of_nat (length (sid :: req)) <= UdsTypes.UDS_MAX_DATA_SIZE -> Forall is_byte (sid :: req) ->
  awaits (asked (sid :: req)) sid (sid :: req).
Proof.
  intros Hsid Hl Hb. split; [split; [by apply Sample.sample_mgr_wf|done|cbn; lia|done]| | |].
  - cbn [uds asked Sample.sample_mgr UdsTypes.recvDataLen UdsTypes.recvBuf]. rewrite Nat2Z.id. unfold Sample.buf.
    by rewrite take_app_length.
  - done.
  - by destruct Hsid as [-> | ->].
Qed.
Lemma asked_fits req : fits sample_dao_env (asked req).
Proof. eapply small_fits; [vm_compute; reflexivity|vm_compute; reflexivity|apply Nat.leb_le; vm_compute; reflexivity..]. Qed.

#[local] Instance asked_s3 : UdsSend.S3Representable (UdsTypes.config Sample.sample_env) := Sample.sample_s3 false.
#[local] Abbreviation indicate_ := (diag_indicate Sample.sample_env sample_dem_env sample_dao_env 0 (fun _ _ _ _ => mret tt)
  UdsTypes.UDS_SERVICE_MSG_INDICATION_ID).

(** All snapshots of the battery's DTC. *)
#[local] Abbreviation snapshot_request := [0x19; 0x04; 0x12; 0x34; 0x56; 0xFF] (only parsing).
Lemma dtc_request_answered_witness :
  wp (indicate_ []) (fun _ s' => diag_ok sample_dem_env sample_dao_env s' /\
    exists msg, SecAccessSpec.response_to reqReadDTCSvcId msg) (asked snapshot_request).
Proof.
  assert (Forall is_byte snapshot_request) as Hb by (repeat constructor; done).
  assert (awaits (asked snapshot_request) reqReadDTCSvcId snapshot_request) as Ha by (apply asked_awaits; [by left|done|exact Hb]).
  assert (diag_ok sample_dem_env sample_dao_env (asked snapshot_request)) as Hs by (apply asked_ok; [done|exact Hb]).
  pose proof (dtc_request_answered Sample.sample_env sample_dem_env sample_dao_env 0 (fun _ _ _ _ => mret tt)
    (asked snapshot_request) reqReadDTCSvcId 0x04 snapshot_request [] eq_refl sample_codes Hs (asked_fits _) Ha) as H.
  specialize (H ltac:(by left) eq_refl). specialize (H ltac:(by intros _)).
  eapply wp_conseq; [exact H|]. intros [] s' (H1 & _ & msg & H2 & _). split; [exact H1|by exists msg].
Defined.

(** The battery's DTC is the one that has failed. *)
Lemma mask_request_answered_witness :
  wp (indicate_ []) (fun _ s' => replied Sample.sample_env (uds (indicated (asked [0x19; 0x02; 0x01]) [0x19; 0x02; 0x01]))
    (response_addr Sample.tester) [0x59; 0x02; 0x7F; 0x12; 0x34; 0x56; 0x27] (uds s')) (asked [0x19; 0x02; 0x01]).
Proof.
  pose proof (mask_request_answered Sample.sample_env sample_dem_env sample_dao_env 0 (fun _ _ _ _ => mret tt)
    (asked [0x19; 0x02; 0x01]) 1 0x02 0x01 []) as H. cbv zeta in H. rewrite decide_True in H by apply (asked_fits _).
  eapply wp_conseq; [apply H; [apply asked_ok; [done|repeat constructor; done]|
    apply asked_awaits; [by left|done|repeat constructor; done]|reflexivity|reflexivity]|].
  intros [] s' (_ & _ & msg & (l & Hl & ->) & Hr). unfold matching_dtcs in Hl.
  assert (map reported_of (matching (db (dem (asked [0x19; 0x02; 0x01]))) (Z.land 0x01 GetAvailableStatusMask)) =
    [mkDTCStatus 0x123456 0x27]) as Hone by (vm_compute; reflexivity).
  rewrite Hone in Hl. apply Permutation_singleton_r in Hl. subst l. exact Hr.
Defined.

